(* ===== verification/_CoqProject ===== *)
-Q . S2P
Prelude.v
PyStr.v
Codec.v
Sha256.v
Json.v
Base58.v
Sys.v
Paths.v
Logging.v
Crypto.v
Protocol.v
Keys.v
Store.v
StoreProps.v
StoreSpec.v
StoreRefine.v
DaemonClient.v
Reconnect.v
ReconnectProps.v
Service.v
Tunnel.v
TunnelProps.v
Cli.v
CliProps.v
Desktop.v
Themes.v
View.v
Transfers.v
TransfersProps.v
Conversations.v
ConversationsProps.v
ArrivalProps.v
WindowProps.v
BackupProps.v
Sidebar.v
SidebarProps.v
Draw.v
DrawProps.v
Workers.v
WorkersProps.v
Supervise.v
App.v
Startup.v
Entry.v
KeysPage.v
Pages.v
Placement.v
AppProps.v
SuperviseProps.v
StartupProps.v
KeysPageProps.v
PagesProps.v
PlacementProps.v
EntryProps.v
Dist.v
Tether.v
TetherProps.v
Smoke.v
SmokeProps.v
