(* ===== verification/Prelude.v ===== *)
(** * aimless: a verification library for the Python client

    aimless is an instant messenger over a mesh network.  A daemon ([daemon/],
    Go) owns the node key and the network; the client ([client/aimless/],
    Python) owns the identity, the encryption end to end, the conversations and
    everything the user sees, and talks to the daemon through a line-based JSON
    socket, which an SSH tunnel may carry to another machine.  This library
    models the client as Rocq functions and proves what makes it correct.

    ** Parts, files and sources

    Foundations, on which the other files are built:
    - [Prelude.v] (this file): Python's exceptions as [exn]; [result]; the state
      monad [M], in which an exception keeps the effects done before it; the
      program logics [keeps] (an invariant kept, exceptions included),
      [raises] (what can be let out), [steps] and [within] (effects within a
      preorder); the rounds of a loop that waits for a deadline; list lemmas, tactics and hint databases.
    - [PyStr.v], [Codec.v], [Sha256.v], [Json.v]: Python's [str], [bytes], [dict],
      UTF-8, hex, base64, [struct], SHA-256 and JSON values.
    - [Sys.v]: the machine: files with modes, environment, clock, terminal,
      randomness drawn by index, the daemon behind its socket.

    One file per module of the client:
    - [Base58.v] base58.py; [Paths.v] paths.py; [Logging.v] logging.py;
      [Crypto.v] crypto.py; [Keys.v] keys.py;
    - [Protocol.v] protocol.py: envelopes, file chunks, status, invites, contacts;
    - [Store.v] store.py: each table a list of keyed rows in rowid order, each
      SQL statement an operation on it; a [store] is the database as its
      connection sees it, the key, the draws made and what the file holds:
      statements change the first, [commit] copies it to the last, and opening
      the file again goes back to that.  [StoreSpec.v] states what it is, the plaintext
      [mailbox] of finite maps, in the same monad; [StoreRefine.v] proves that
      the store implements it; [StoreProps.v] holds the direct properties;
    - [DaemonClient.v] daemon.py: [Module Conn] holds the connection's queues
      (dispatch of incoming lines, what a request does with a reply), the
      sections after it the operations of class [Client]; [Reconnect.v] the
      threads: the reader, the requests on both paths and [close()] as steps
      over the sockets, queues and locks they share, labelled with the thread
      and what the system answers ([ReconnectProps.v]);
    - [Service.v] service.py: fetching journals and routing their entries;
    - [Tunnel.v] tunnel.py, with the processes and the commands started, and
      directories that may not be made; properties in [TunnelProps.v];
    - [Cli.v] cli.py, every command, properties in [CliProps.v].

    gtkui.py is cut up by what its parts are about:
    - [Desktop.v]: the helpers (file names, links, preferences, notifications,
      sounds, placement); [Themes.v]: palettes and style sheet;
    - [View.v]: the state of the messages window, a [gui] being the session
      (store, client, own node), the machine and that view;
    - [Transfers.v]: files sent, received and followed ([TransfersProps.v]);
    - [Conversations.v]: session, sidebar, sending, receiving, contact requests,
      blocking, the contacts page, away, the daemon's events, backups
      ([ConversationsProps.v], [WindowProps.v], [BackupProps.v]; a text message
      from one user's window to the other's: [ArrivalProps.v]);
    - [Sidebar.v]: the widgets of the sidebar's rows, the title and the tray's
      tooltip, and when they are refreshed ([SidebarProps.v]); [Draw.v]: the
      lines of the conversation with their day dividers, drawn from the store
      and as something is sent, following the bottom,
      a room's chips, the composer's keys, files attached and saved, the
      questions asked ([DrawProps.v]);
    - [Workers.v]: [run_async], the threads the messages window has at work with
      their bodies and callbacks, its timers, the poll of the supervisor, the
      window as it opens and as its theme changes ([WorkersProps.v]);
    - [Supervise.v]: [DaemonSupervisor] and the functions that find daemons
      ([SuperviseProps.v]);
    - [App.v]: [AimlessApp], its timers, workers and monitors ([AppProps.v]);
    - [Entry.v]: the command line's [main] and its commands that need GTK, the
      start up to the main loop, opening the window, tray handlers, signals and
      the texts of the connect window ([EntryProps.v]);
    - [Startup.v]: [Session.__init__] on any cache file, the unlocking dialogs
      as a list of forms, the application lock, autostart and [stop_all]
      ([StartupProps.v]);
    - [KeysPage.v]: the Keys & Identity dialog, its buttons as handlers
      ([KeysPageProps.v]); [Pages.v]: the contacts list, the daemon's state and
      the route ([PagesProps.v]); [Placement.v]: where the window is, and the
      Preferences dialog ([PlacementProps.v]).
    - [Dist.v], definitions and properties: deploy/check_dist.py, the release gate.
    - [Tether.v]: tether_mock.py, the prototype: the threads of its window, its
      pages, keys, preferences and size, its daemon with the lock and the PID
      file, menu and tray ([TetherProps.v]).
    - [Smoke.v]: deploy/smoke.py, the smoke test: the scenario, its waits,
      bringing the two daemons up and down ([SmokeProps.v]).

    ** Correspondence

    A definition has the name of the function or method it models; one whose
    name the source does not have is a piece of the function the comment above
    it names (a loop body, a branch, a nested [worker] or [done]).  Methods of
    one object are programs over its state: [ST] on the store, [IO] on the
    machine, [CL] on client and machine, [APP] adding the store, [GUI] on the
    whole session and window, [WM] adding the flags of the workers, [SB] the
    sidebar's widgets, [OM], [AM], [UM] and [BT] in the supervisor, the main
    loop and the start, [KM], [BM], [PM] and [FM] in the dialogs and pages; [gst], [gio], [gcl], [on_store] and
    the like run one inside the other, as the objects call each other.  An
    exception is a value of [exn] and leaves the state as it was at the raise.
    A thread's body is one program and its callback another: between the two
    any other step may come ([WindowProps.do_move], [Workers.on_event],
    [App.fire]).  The daemon's
    replies and what other processes do are
    interfaces or arguments the theorems quantify over.

    ** Interfaces

    Code that is not the client's is a type class, its documented behaviour a
    class of laws, and theorems that need the laws have a witness on an
    instance that satisfies them: [NaCl] and [NaClLaws] (PyNaCl and scrypt:
    boxes open what they sealed, signatures verify, lengths),
    [JsonCodec] and [JsonLaws] (json: loads undoes dumps), [Daemon] (the
    socket), [Env] and [EnvLaws] (what the machine does while the tunnel
    waits), [Markup] and [MarkupLaws] (GLib's escaping), [Zone], [Locale] (time
    zone and strftime); for the smoke test [Nodes] and [NodesLaws] (two daemons
    on a network whose clock runs forward), [Host] and [HostLaws] (docker, the
    processes of the host).

    ** What the theorems show

    - Store: refinement of the mailbox for every sequence of calls, failing
      ones and reopenings included; totality and order of its readers;
      delivery state; cursors that never go back; deletion.
    - Sync: applying a journal is idempotent, complete and compatible with
      live delivery; which entries stop it.
    - Formats: round trips of base58, invites, envelopes, chunks, identity files
      and backups; whole files, and texts to a contact or a room, from sender to
      receiver ([file_arrives], [text_arrives], [room_text_arrives]), a whole
      backup carried to another machine ([backup_moves]); rejection of what is not authentic; the Yggdrasil
      address against a reference definition.
    - Connection: for every interleaving, replies reach the request they
      answer, one socket is open, a request writes at most one line more than
      there are connections made while it waits, the reader recovers; as runs, what the races its locks leave can lose.
    - Tunnel, daemon and main loop: loops that end; restarts that are neither
      lost nor doubled as long as [ssh] and the socket's directory are there;
      which processes can be signalled; a state machine
      whose runs are sequences of timers, workers and changes of the world.
    - Startup: what a session is opened on, that no window opens without one,
      the attempts a wrong passphrase leaves.
    - Dialogs and pages: keys change by consent only and what is imported is
      what opens next; the list of buddies is complete; the build check; the
      window's place, remembered when asked to and found again.
    - Window: the invariant of its state under any moves; messages of
      contacts and of strangers; the sidebar; delivery rows that tell the
      truth; names, links and colours that are safe to show; the widgets of
      the sidebar and the lines of the conversation against what they are to
      show; a message sent, from the composer to the store; the flags of the
      workers against the workers in flight.
    - Release gate: what exactly it lets through.  Prototype: rows that read
      their threads, one daemon at a time, the size remembered.  Smoke test: its
      waits end, what it has seen when it says that all passed, the daemons
      taken down however it ends; the networks it passes on and finds out.
    Where the code does not do what it means to, the theorem or the evaluated
    example says what it does ([apply_poisoned], [restart_error_wedges],
    [attachment_escapes], [roster_rewritten_by_blocked], [preview_of_another],
    [stop_signals_stale_pid], [kept_unreachable],
    [failed_restore_replaces_identity], [size_kept_when_off],
    [lost_on_fast_reconnect], [presented_once], [files_never_fetched],
    [sweep_leaves_flag], [cancel_ends_away], [title_left_behind],
    [no_divider_when_received], [early_ack_forgotten] and others).

    ** Bounds and fuel

    - [free_loop] has one try per name taken and one more, enough by
      [free_petname_spec].  [pieces_loop] has the length of the file.  Digit and
      parsing loops have the length of their input, with lemmas that it is
      enough where the result depends on it.
    - A loop that waits for a deadline has the number of rounds that its sleep
      makes fit before it, enough because the clock never runs
      backwards ([rounds_enough], [EnvLaws], [NodesLaws]).  [recv_event] does not
      sleep: how many events of other kinds it passes over is its argument
      [patience].
    - The loops of requests and of the reader are steps of [Reconnect.v], one
      turn each, so no fuel bounds them; a request that waits is one that has
      not got its next step.
    - SQLite integers are refused outside 64 bits as the binding does
      ([bind_int]); packed header fields outside 16 bits as [struct] does.

    ** Not modelled

    - Building GTK widgets: labels, boxes, menus, and the dialogs themselves (a
      handler takes the choice made in one).  The conversation shown is known
      by its key: the code compares thread objects, which differ from it only if
      a thread is dropped and made again while selected.
    - The last call of the window's [__init__], which applies the theme again
      after the workers are started; times beyond the years [datetime]
      represents, for which drawing raises; SQLite's limit on the number of
      parameters of one statement, which the query for the delivery state of a
      conversation ([_delivery_summary]) meets beyond tens of thousands of
      messages; the order in which Python enumerates the set of the keys of a
      file sent, which is an argument of [add_sent].
    - argparse, thread start-up and joining, sockets below lines of text.
    - The daemon, in another language; of the prototype, the widgets and the
      style sheet. *)

From stdpp Require Export prelude strings list gmap sorting pretty.
From Stdlib Require Export ZArith Lia.
From Stdlib Require Strings.Byte.
#[export] Set Default Goal Selector "!".
Abbreviation byte := Byte.byte.

Declare Scope aim_scope.
Delimit Scope aim_scope with aim.
Open Scope aim_scope.
Create HintDb aim.

(** ** Python exceptions

    One constructor per exception class the client's handlers distinguish.
    [ValueError] stands for the class and its subclasses ([JSONDecodeError],
    [binascii.Error], [UnicodeError], PyNaCl's own [ValueError]);
    [CryptoError] is PyNaCl's base class, which is a plain [Exception]. *)

Inductive exn :=
| ValueError (msg : string)
| KeyError (key : string)
| IndexError
| TypeError
| AttributeError
| OverflowError
| StructError
| OSError (msg : string)
| RuntimeError (msg : string)
| CryptoError
| DaemonError (msg : string)
| SqlError
| ImportError (msg : string)
| AssertionError (msg : string)
| SubprocessError
| SystemExit (code : Z).

#[export] Instance exn_eq_dec : EqDecision exn.
Proof. solve_decision. Defined.

(** [except Exception]: everything but [SystemExit]. *)
Definition is_exception (e : exn) : bool :=
  match e with SystemExit _ => false | _ => true end.

(** [except (ValueError, KeyError)], the handler of the sync code. *)
Definition is_value_or_key (e : exn) : bool :=
  match e with ValueError _ | KeyError _ => true | _ => false end.

Definition is_value_error (e : exn) : bool :=
  match e with ValueError _ => true | _ => false end.

Definition is_os_error (e : exn) : bool :=
  match e with OSError _ => true | _ => false end.

Definition is_daemon_error (e : exn) : bool :=
  match e with DaemonError _ => true | _ => false end.

(** [except (OSError, subprocess.SubprocessError)] *)
Definition is_os_or_subprocess (e : exn) : bool :=
  match e with OSError _ | SubprocessError => true | _ => false end.
Definition is_subprocess_error (e : exn) : bool :=
  match e with SubprocessError => true | _ => false end.

(** [str(e)], as the front ends print it; a [KeyError] prints the [repr] of its
    key (the keys are words without quotes).  The texts of the interpreter's and
    the libraries' own exceptions are short stand-ins, or empty. *)
Definition exn_str (e : exn) : string :=
  match e with
  | KeyError k => "'" +:+ k +:+ "'"
  | ValueError m | OSError m | RuntimeError m | DaemonError m | ImportError m | AssertionError m => m
  | _ => ""
  end.

(** ** Results: a value or a raised exception *)

Inductive result (A : Type) :=
| Ok (a : A)
| Raise (e : exn).
Arguments Ok {A} a.
Arguments Raise {A} e.

#[export] Instance result_eq_dec `{EqDecision A} : EqDecision (result A).
Proof. solve_decision. Defined.

#[export] Instance result_ret : MRet result := λ A a, Ok a.
#[export] Instance result_bind : MBind result := λ A B f m,
  match m with Ok a => f a | Raise e => Raise e end.
#[export] Instance result_fmap : FMap result := λ A B f m,
  match m with Ok a => Ok (f a) | Raise e => Raise e end.

Definition of_option {A} (e : exn) (o : option A) : result A :=
  match o with Some a => Ok a | None => Raise e end.

Definition to_option {A} (m : result A) : option A :=
  match m with Ok a => Some a | Raise _ => None end.

(** [if not b: raise e] *)
Definition guard_or (b : bool) (e : exn) : result unit :=
  if b then Ok tt else Raise e.

(** [try: m except <p> as e: h(e)] *)
Definition catch {A} (p : exn → bool) (m : result A) (h : exn → result A) : result A :=
  match m with
  | Raise e => if p e then h e else Raise e
  | Ok a => Ok a
  end.

Fixpoint map_result {A B} (f : A → result B) (l : list A) : result (list B) :=
  match l with
  | [] => Ok []
  | x :: l => y ← f x; ys ← map_result f l; Ok (y :: ys)
  end.

Lemma bind_Ok {A B} (m : result A) (f : A → result B) b :
  (m ≫= f) = Ok b ↔ ∃ a, m = Ok a ∧ f a = Ok b.
Proof. destruct m as [a|e]; cbn; split; [eauto|intros (?&[= ->]&?)|done|intros (?&?&?)]; done. Qed.

Lemma bind_Raise {A B} (m : result A) (f : A → result B) e :
  (m ≫= f) = Raise e ↔ m = Raise e ∨ ∃ a, m = Ok a ∧ f a = Raise e.
Proof.
  destruct m as [a|e']; cbn; split.
  - eauto.
  - intros [?|(?&[= ->]&?)]; done.
  - intros [= ->]; by left.
  - intros [[= ->]|(?&?&?)]; done.
Qed.

Lemma of_option_Ok {A} e (o : option A) a : of_option e o = Ok a ↔ o = Some a.
Proof. destruct o; cbn; split; congruence. Qed.

Lemma guard_or_Ok b e u : guard_or b e = Ok u ↔ b = true.
Proof. by destruct b, u. Qed.

Lemma catch_Ok {A} p (m : result A) h a :
  catch p m h = Ok a ↔ m = Ok a ∨ ∃ e, m = Raise e ∧ p e = true ∧ h e = Ok a.
Proof.
  destruct m as [a'|e]; cbn; [split; [auto|intros [?|(?&?&?)]; done]|].
  destruct (p e) eqn:Hp; split.
  - eauto 10.
  - intros [?|(e0&[= ->]&_&?)]; done.
  - done.
  - intros [?|(e0&[= ->]&?&_)]; congruence.
Qed.

Lemma catch_Raise {A} p (m : result A) h e :
  catch p m h = Raise e ↔
    (m = Raise e ∧ p e = false) ∨ ∃ e', m = Raise e' ∧ p e' = true ∧ h e' = Raise e.
Proof.
  destruct m as [a'|e']; cbn; [split; [done|intros [[??]|(?&?&?)]; done]|].
  destruct (p e') eqn:Hp; split.
  - eauto 10.
  - intros [[[= ->] ?]|(e0&[= ->]&_&?)]; [congruence|done].
  - intros [= ->]; auto.
  - intros [[[= ->] ?]|(e0&[= ->]&?&_)]; [done|congruence].
Qed.

(** ** A state monad whose exceptions keep the effects done before them

    Python's [raise] does not undo the statements already executed. *)

Definition M (S A : Type) : Type := S → result A * S.

#[export] Instance M_ret {S} : MRet (M S) := λ A a s, (Ok a, s).
#[export] Instance M_bind {S} : MBind (M S) := λ A B f m s,
  match m s with (Ok a, s') => f a s' | (Raise e, s') => (Raise e, s') end.

#[export] Instance M_fmap {S} : FMap (M S) := λ A B f m s,
  match m s with (Ok a, s') => (Ok (f a), s') | (Raise e, s') => (Raise e, s') end.

Section StateMonad.
Context {S : Type}.
Definition get : M S S := λ s, (Ok s, s).
Definition put (s : S) : M S unit := λ _, (Ok tt, s).
Definition gets {A} (f : S → A) : M S A := λ s, (Ok (f s), s).
Definition modify (f : S → S) : M S unit := λ s, (Ok tt, f s).
Definition raise {A} (e : exn) : M S A := λ s, (Raise e, s).
Definition lift {A} (m : result A) : M S A := λ s, (m, s).
Definition try_with {A} (p : exn → bool) (m : M S A) (h : exn → M S A) : M S A := λ s,
  match m s with
  | (Raise e, s') => if p e then h e s' else (Raise e, s')
  | r => r
  end.
(** [try: m finally: f] *)
Definition try_finally {A} (m : M S A) (f : M S unit) : M S A := λ s,
  let '(r, s1) := m s in
  match f s1 with (Ok _, s2) => (r, s2) | (Raise e, s2) => (Raise e, s2) end.
Fixpoint for_each {A} (f : A → M S unit) (l : list A) : M S unit :=
  match l with
  | [] => mret tt
  | x :: l => _ ← f x; for_each f l
  end.
Fixpoint map_m {A B} (f : A → M S B) (l : list A) : M S (list B) :=
  match l with
  | [] => mret []
  | x :: l => y ← f x; ys ← map_m f l; mret (y :: ys)
  end.
(** The state left behind, and the value, of a run. *)
Definition exec {A} (m : M S A) (s : S) : S := (m s).2.
Definition eval {A} (m : M S A) (s : S) : result A := (m s).1.
End StateMonad.

Lemma M_bind_Ok {S A B} (m : M S A) (f : A → M S B) s b s' :
  (m ≫= f) s = (Ok b, s') ↔ ∃ a s1, m s = (Ok a, s1) ∧ f a s1 = (Ok b, s').
Proof.
  unfold mbind, M_bind. destruct (m s) as [[a|e] s1]; split; [eauto| |done|];
    intros (?&?&?&?); congruence.
Qed.

Lemma M_bind_run {S A B} (m : M S A) (f : A → M S B) s a s1 :
  m s = (Ok a, s1) → (m ≫= f) s = f a s1.
Proof. unfold mbind, M_bind. by intros ->. Qed.

Lemma M_bind_raise {S A B} (m : M S A) (f : A → M S B) s e s1 :
  m s = (Raise e, s1) → (m ≫= f) s = (Raise e, s1).
Proof. unfold mbind, M_bind. by intros ->. Qed.

(** An invariant kept by each iteration is kept by the loop, exceptions
    included. *)
Lemma for_each_preserves {S A} (P : S → Prop) (f : A → M S unit) l s :
  (∀ x s, x ∈ l → P s → P (f x s).2) → P s → P (for_each f l s).2.
Proof.
  revert s; induction l as [|x l IH]; intros s Hf Hs; [done|]; cbn.
  unfold mbind, M_bind. pose proof (Hf x s ltac:(set_solver) Hs) as Hx.
  destruct (f x s) as [[u|e] s'] eqn:?; [|done]; cbn in *.
  apply IH; [set_solver|done].
Qed.

(** [keeps I m Q]: [m] preserves [I], whether it returns or raises, and a value
    it returns satisfies [Q]. *)
Definition keeps {S A} (I : S → Prop) (m : M S A) (Q : A → Prop) : Prop :=
  ∀ s, I s → I (m s).2 ∧ ∀ a, (m s).1 = Ok a → Q a.
Definition any {A} (a : A) : Prop := True.

Section Keeps.
Context {S : Type} (I : S → Prop).

Lemma keeps_bind {A B} (m : M S A) (f : A → M S B) Q R :
  keeps I m Q → (∀ a, Q a → keeps I (f a) R) → keeps I (m ≫= f) R.
Proof.
  intros Hm Hf s Hs. destruct (Hm s Hs) as [Hs' HQ].
  unfold mbind, M_bind. destruct (m s) as [[a|e] s']; cbn in *; [|done].
  by apply Hf; [apply HQ|].
Qed.

(** An invariant kept by the first part carries the condition of the second. *)
Lemma keeps_then {A B} (J : S → Prop) (m : M S A) (f : A → M S B) Q s :
  keeps I m Q → I s → (∀ s, I s → J s) → (∀ a s, Q a → I s → J (f a s).2) → J ((m ≫= f) s).2.
Proof.
  intros Hm Hs HJ Hf. destruct (Hm s Hs) as [Hs' HQ].
  unfold mbind, M_bind. destruct (m s) as [[a|e] s']; cbn in *; [|by apply HJ].
  by apply Hf; [apply HQ|].
Qed.

Lemma then_keeps {A B} (m : M S A) (f : A → M S B) s :
  I (m s).2 → (∀ a, keeps I (f a) any) → I ((m ≫= f) s).2.
Proof.
  intros Hm Hf. unfold mbind, M_bind. destruct (m s) as [[a|e] s']; cbn in *; [by apply Hf|done].
Qed.

Lemma keeps_weaken {A} (m : M S A) (Q R : A → Prop) :
  keeps I m Q → (∀ a, Q a → R a) → keeps I m R.
Proof. intros Hm HQ s Hs. destruct (Hm s Hs). split; [done|]. intros a Ha. auto. Qed.

Lemma keeps_any {A} (m : M S A) Q : keeps I m Q → keeps I m any.
Proof. intros Hm. by eapply keeps_weaken. Qed.

Lemma keeps_ret {A} (a : A) (Q : A → Prop) : Q a → keeps I (mret a) Q.
Proof. intros Ha s Hs. split; [done|]. by intros a' [= <-]. Qed.

Lemma keeps_ret_any {A} (a : A) : keeps I (mret a) any.
Proof. by apply keeps_ret. Qed.

Lemma keeps_lift {A} (m : result A) (Q : A → Prop) :
  (∀ a, m = Ok a → Q a) → keeps I (lift m) Q.
Proof. intros Hm s Hs. split; [done|]. exact Hm. Qed.

Lemma keeps_lift_any {A} (m : result A) : keeps I (lift m) any.
Proof. by apply keeps_lift. Qed.

Lemma keeps_raise {A} e (Q : A → Prop) : keeps I (raise e) Q.
Proof. intros s Hs. split; [done|]. intros a [=]. Qed.

Lemma keeps_gets {A} (f : S → A) (Q : A → Prop) :
  (∀ s, I s → Q (f s)) → keeps I (gets f) Q.
Proof. intros Hf s Hs. split; [done|]. intros a [= <-]. by apply Hf. Qed.

Lemma keeps_gets_any {A} (f : S → A) : keeps I (gets f) any.
Proof. by apply keeps_gets. Qed.

Lemma keeps_modify (f : S → S) : (∀ s, I s → I (f s)) → keeps I (modify f) any.
Proof. intros Hf s Hs. split; [by apply Hf|done]. Qed.

Lemma keeps_if {A} (b : bool) (m1 m2 : M S A) Q :
  keeps I m1 Q → keeps I m2 Q → keeps I (if b then m1 else m2) Q.
Proof. by destruct b. Qed.

Lemma keeps_try {A} p (m : M S A) h Q :
  keeps I m Q → (∀ e, keeps I (h e) Q) → keeps I (try_with p m h) Q.
Proof.
  intros Hm Hh s Hs. destruct (Hm s Hs) as [Hs' HQ]. unfold try_with.
  destruct (m s) as [[a|e] s']; cbn in *; [auto|].
  destruct (p e); [by apply Hh|]. cbn. split; [done|]. intros a [=].
Qed.

Lemma keeps_for_each {A} (f : A → M S unit) l :
  (∀ x, x ∈ l → keeps I (f x) any) → keeps I (for_each f l) any.
Proof.
  induction l as [|x l IH]; intros Hf; cbn [for_each]; [apply keeps_ret_any|].
  eapply keeps_bind; [apply Hf; left|]. intros _ _. apply IH. set_solver.
Qed.

Lemma keeps_map_m {A B} (f : A → M S B) l :
  (∀ x, x ∈ l → keeps I (f x) any) → keeps I (map_m f l) any.
Proof.
  induction l as [|x l IH]; intros Hf; cbn [map_m]; [apply keeps_ret_any|].
  eapply keeps_bind; [apply Hf; left|]. intros y _.
  eapply keeps_bind; [apply IH; set_solver|]. intros ys _. apply keeps_ret_any.
Qed.
End Keeps.

(** [raises P m]: every exception [m] lets out satisfies [P]; with [never] it
    always returns. *)
Definition raises {S A} (P : exn → Prop) (m : M S A) : Prop :=
  ∀ s e, (m s).1 = Raise e → P e.
Definition never (e : exn) : Prop := False.

Section Raises.
Context {S : Type}.

Lemma raises_weaken {A} (P Q : exn → Prop) (m : M S A) :
  raises P m → (∀ e, P e → Q e) → raises Q m.
Proof. intros Hm HPQ s e He. by eapply HPQ, Hm. Qed.

Lemma raises_never {A} P (m : M S A) : raises never m → raises P m.
Proof. intros Hm. by eapply raises_weaken. Qed.

Lemma raises_bind {A B} P (m : M S A) (f : A → M S B) :
  raises P m → (∀ a, raises P (f a)) → raises P (m ≫= f).
Proof.
  intros Hm Hf s e. unfold mbind, M_bind. pose proof (Hm s) as Hms.
  destruct (m s) as [[a|e'] s']; cbn in *; [by apply Hf|]. intros [= ->]. by apply Hms.
Qed.

Lemma raises_try {A} P Q p (m : M S A) h :
  raises Q m → (∀ e, Q e → p e = false → P e) → (∀ e, raises P (h e)) → raises P (try_with p m h).
Proof.
  intros Hm HQ Hh s e. unfold try_with. pose proof (Hm s) as Hms.
  destruct (m s) as [[a|e'] s']; cbn in *; [done|].
  destruct (p e') eqn:Hp; [by apply Hh|]. intros [= ->]. by apply HQ; [apply Hms|].
Qed.

Lemma raises_if {A} P (b : bool) (m1 m2 : M S A) :
  raises P m1 → raises P m2 → raises P (if b then m1 else m2).
Proof. by destruct b. Qed.

Lemma raises_ret {A} P (a : A) : raises P (mret a : M S A).
Proof. by intros s e [=]. Qed.
Lemma raises_gets {A} P (f : S → A) : raises P (gets f).
Proof. by intros s e [=]. Qed.
Lemma raises_modify P (f : S → S) : raises P (modify f).
Proof. by intros s e [=]. Qed.
Lemma raises_lift {A} (P : exn → Prop) (m : result A) :
  (∀ e, m = Raise e → P e) → raises P (lift m : M S A).
Proof. intros Hm s e He. by apply Hm. Qed.

(** A program that lets nothing out returns. *)
Lemma raises_never_returns {A} (m : M S A) s :
  raises never m → ∃ a, m s = (Ok a, (m s).2).
Proof.
  intros Hm. pose proof (Hm s) as Hs. destruct (m s) as [[a|e] s']; [by exists a|].
  by destruct (Hs e).
Qed.
End Raises.

Create HintDb raises.
#[export] Hint Resolve raises_ret raises_gets raises_modify : raises.
Ltac raises_step :=
  first
  [ solve [eauto with raises]
  | apply raises_if
  | apply raises_bind; [|intros ?]
  | match goal with |- raises _ (match ?x with _ => _ end) => destruct x end ].
Ltac raises_tac := repeat raises_step.

(** [steps I R m]: from a state of [I], [m] returns and its effect is within
    [R], a preorder on states that keeps [I]. *)
Definition steps {S A} (I : S → Prop) (R : S → S → Prop) (m : M S A) : Prop :=
  ∀ s, I s → ∃ a s', m s = (Ok a, s') ∧ R s s'.

Section Steps.
Context {S : Type} (I : S → Prop) (R : S → S → Prop) `{!PreOrder R}.
Hypothesis I_kept : ∀ s s', R s s' → I s → I s'.

Lemma steps_bind {A B} (m : M S A) (f : A → M S B) :
  steps I R m → (∀ a, steps I R (f a)) → steps I R (m ≫= f).
Proof using All.
  intros Hm Hf s Hs. destruct (Hm s Hs) as (a&s1&E&HR).
  destruct (Hf a s1 (I_kept _ _ HR Hs)) as (b&s2&E2&HR2). exists b, s2.
  rewrite (M_bind_run _ _ _ _ _ E). split; [done|]. by transitivity s1.
Qed.

Lemma steps_ret {A} (a : A) : steps I R (mret a).
Proof using PreOrder0. intros s _. by exists a, s. Qed.
Lemma steps_gets {A} (f : S → A) : steps I R (gets f).
Proof using PreOrder0. intros s _. by eexists _, s. Qed.
Lemma steps_lift {A} (a : A) r : r = Ok a → steps I R (lift r).
Proof using PreOrder0. intros -> s _. by exists a, s. Qed.
Lemma steps_modify (f : S → S) : (∀ s, R s (f s)) → steps I R (modify f).
Proof. intros Hf s _. exists tt, (f s). by split; [|apply Hf]. Qed.
Lemma steps_if {A} (b : bool) (m1 m2 : M S A) :
  steps I R m1 → steps I R m2 → steps I R (if b then m1 else m2).
Proof. by destruct b. Qed.
End Steps.

(** [within I R m]: from a state of [I], the effect of [m] is within [R],
    whether it returns or raises. *)
Definition within {S A} (I : S → Prop) (R : S → S → Prop) (m : M S A) : Prop :=
  ∀ s, I s → R s (m s).2.

Section Within.
Context {S : Type} (I : S → Prop) (R : S → S → Prop) `{!PreOrder R}.
Hypothesis I_kept : ∀ s s', R s s' → I s → I s'.

Lemma within_bind {A B} (m : M S A) (f : A → M S B) :
  within I R m → (∀ a, within I R (f a)) → within I R (m ≫= f).
Proof using All.
  intros Hm Hf s Hs. pose proof (Hm s Hs) as H1. unfold mbind, M_bind.
  destruct (m s) as [[a|e] s1]; cbn in *; [|done]. etrans; [exact H1|]. eapply Hf, I_kept; eauto.
Qed.
Lemma within_pure {A} (m : M S A) : (∀ s, (m s).2 = s) → within I R m.
Proof using PreOrder0. intros Hm s _. by rewrite Hm. Qed.
Lemma within_if {A} (b : bool) (m1 m2 : M S A) : within I R m1 → within I R m2 → within I R (if b then m1 else m2).
Proof. by destruct b. Qed.
Lemma within_try {A} p (m : M S A) h :
  within I R m → (∀ e, within I R (h e)) → within I R (try_with p m h).
Proof using All.
  intros Hm Hh s Hs. pose proof (Hm s Hs) as H1. unfold try_with.
  destruct (m s) as [[a|e] s1]; cbn in *; [done|]. destruct (p e); [|done].
  etrans; [exact H1|]. eapply Hh, I_kept; eauto.
Qed.
End Within.

Create HintDb keeps.
#[export] Hint Resolve keeps_ret_any keeps_lift_any keeps_gets_any keeps_raise : keeps.

(** Walks through the binds of a program whose intermediate values do not
    matter; what is left are the steps that touch the state. *)
Ltac keeps_step :=
  first
  [ solve [eauto with keeps]
  | apply keeps_if
  | eapply keeps_bind; [|intros ? _]
  | match goal with |- keeps _ (match ?x with _ => _ end) _ => destruct x end ].
Ltac keeps_tac := repeat keeps_step.

(** ** Generic list lemmas shared by the components *)

Fixpoint drop_while {A} (p : A → bool) (l : list A) : list A :=
  match l with [] => [] | x :: l' => if p x then drop_while p l' else l end.

Fixpoint take_while {A} (p : A → bool) (l : list A) : list A :=
  match l with [] => [] | x :: l' => if p x then x :: take_while p l' else [] end.

Lemma take_drop_while {A} (p : A → bool) l : take_while p l ++ drop_while p l = l.
Proof. induction l as [|x l IH]; cbn; [done|]. destruct (p x); cbn; congruence. Qed.

Lemma drop_while_head {A} (p : A → bool) l x l' : drop_while p l = x :: l' → p x = false.
Proof. induction l as [|y l IH]; cbn; [done|]. destruct (p y) eqn:?; naive_solver. Qed.

Lemma drop_while_sublist {A} (p : A → bool) l : drop_while p l `sublist_of` l.
Proof.
  induction l as [|x l IH]; cbn; [done|]. destruct (p x); [by constructor|done].
Qed.

Lemma drop_while_id {A} (p : A → bool) x l : p x = false → drop_while p (x :: l) = x :: l.
Proof. cbn. by intros ->. Qed.

Lemma take_while_all {A} (p : A → bool) l : Forall (λ x, p x = true) (take_while p l).
Proof.
  induction l as [|x l IH]; cbn; [done|]. destruct (p x) eqn:?; [by constructor|done].
Qed.

Lemma take_while_replicate {A} (p : A → bool) a n l :
  p a = true → (∀ x l', l = x :: l' → p x = false) →
  take_while p (replicate n a ++ l) = replicate n a.
Proof.
  intros Ha Hl. induction n as [|n IH]; cbn.
  - destruct l as [|x l]; cbn; [done|]. by rewrite (Hl x l eq_refl).
  - by rewrite Ha, IH.
Qed.

Lemma drop_while_replicate {A} (p : A → bool) a n l :
  p a = true → (∀ x l', l = x :: l' → p x = false) →
  drop_while p (replicate n a ++ l) = l.
Proof.
  intros Ha Hl. induction n as [|n IH]; cbn.
  - destruct l as [|x l]; cbn; [done|]. by rewrite (Hl x l eq_refl).
  - by rewrite Ha.
Qed.

(** ** Waiting

    The turns a loop makes that sleeps [step] at a time until [timeout] is
    over, and two more: one to see that it is, one to spare. *)

Definition rounds (timeout step : Z) : nat := S (S (Z.to_nat (timeout / step))).
Lemma rounds_enough timeout step : (0 < step)%Z → (0 <= timeout)%Z →
  (timeout < step * (Z.of_nat (rounds timeout step) - 1))%Z.
Proof.
  intros Hs Ht. pose proof (Z.div_pos timeout step Ht Hs).
  pose proof (Z.mul_succ_div_gt timeout step Hs).
  replace (Z.of_nat (rounds timeout step) - 1)%Z with (Z.succ (timeout / step)); [done|].
  unfold rounds. lia.
Qed.

(** ** Tactics *)

(** Opens a chain of binds that ended in [Ok], and the obvious guards. *)
Ltac inv_ok := repeat
  match goal with
  | H : (_ ≫= _) = Ok _ |- _ => apply bind_Ok in H as (? & ? & H)
  | H : Ok _ = Ok _ |- _ => injection H as H; try subst
  | H : Raise _ = Ok _ |- _ => discriminate H
  | H : Ok _ = Raise _ |- _ => discriminate H
  | H : Raise _ = Raise _ |- _ => injection H as H; try subst
  | H : mret _ = Ok _ |- _ => injection H as H; try subst
  | H : guard_or _ _ = Ok _ |- _ => apply guard_or_Ok in H
  | H : of_option _ _ = Ok _ |- _ => apply of_option_Ok in H
  | H : bool_decide _ = true |- _ => apply bool_decide_eq_true in H
  | H : bool_decide _ = false |- _ => apply bool_decide_eq_false in H
  | H : andb _ _ = true |- _ => apply andb_prop in H as [??]
  end.

(** Case analysis on the scrutinee of the innermost [if] or [match]. *)
Ltac split_match := repeat (case_match; simplify_eq/=).
