(* ===== verification/PyStr.v ===== *)
(** * Python [str] and [bytes]: the operations the client uses

    A Python [str] is represented by its UTF-8 encoding, a Rocq [string] of
    8-bit characters: concatenation, comparison, search and splitting at an
    ASCII character commute with the encoding (and the byte order of UTF-8 is
    the code-point order).  Operations that count code points ([len], slices,
    [strip]) go through [uchars], which cuts the encoding into characters.
    [bytes] is [list byte]. *)

From S2P Require Import Prelude.
From Stdlib Require Import Ascii.

Abbreviation bytes := (list byte).

(** ** Bytes and integers *)

Definition byte_val (b : byte) : Z := Z.of_N (Byte.to_N b).
Definition val_byte (z : Z) : byte :=
  match Byte.of_N (Z.to_N (z mod 256)) with Some b => b | None => Byte.x00 end.

#[export] Instance byte_eq_dec : EqDecision byte := Byte.byte_eq_dec.

Lemma byte_val_range b : (0 <= byte_val b < 256)%Z.
Proof.
  unfold byte_val. pose proof (Byte.to_N_bounded b) as Hb.
  split; [apply N2Z.is_nonneg|]. change 256%Z with (Z.of_N 256). apply N2Z.inj_lt. lia.
Qed.

Lemma val_byte_val b : val_byte (byte_val b) = b.
Proof.
  unfold val_byte. rewrite Z.mod_small by apply byte_val_range.
  unfold byte_val. by rewrite N2Z.id, Byte.of_to_N.
Qed.

Lemma byte_val_val z : (0 <= z < 256)%Z → byte_val (val_byte z) = z.
Proof.
  intros Hz. unfold val_byte. rewrite Z.mod_small by done.
  destruct (Byte.of_N (Z.to_N z)) as [b|] eqn:Hb.
  - apply Byte.to_of_N in Hb. unfold byte_val. rewrite Hb. apply Z2N.id. lia.
  - apply Byte.of_N_None_iff in Hb. lia.
Qed.

#[export] Instance byte_val_inj : Inj (=) (=) byte_val.
Proof. intros b1 b2 H. by rewrite <-(val_byte_val b1), H, val_byte_val. Qed.

#[export] Hint Resolve byte_val_range : aim.

(** [int.from_bytes(data, "big")] *)
Definition int_from_bytes (l : bytes) : Z :=
  foldl (λ n b, n * 256 + byte_val b)%Z 0%Z l.

(** [n.to_bytes(k, "big")], for an [n] that fits. *)
Fixpoint int_to_bytes (k : nat) (n : Z) : bytes :=
  match k with
  | O => []
  | S k => int_to_bytes k (n / 256) ++ [val_byte n]
  end.

Lemma int_from_bytes_snoc l b :
  int_from_bytes (l ++ [b]) = (int_from_bytes l * 256 + byte_val b)%Z.
Proof. unfold int_from_bytes. by rewrite foldl_app. Qed.

Lemma int_from_bytes_bound l : (0 <= int_from_bytes l < 256 ^ Z.of_nat (length l))%Z.
Proof.
  induction l as [|b l IH] using rev_ind; [cbn; lia|].
  rewrite int_from_bytes_snoc, length_app, Nat2Z.inj_add, Z.pow_add_r by lia.
  pose proof (byte_val_range b). cbn. lia.
Qed.

Lemma val_byte_mod z : val_byte (z mod 256) = val_byte z.
Proof. unfold val_byte. by rewrite Zmod_mod. Qed.

Lemma int_to_from_bytes l : int_to_bytes (length l) (int_from_bytes l) = l.
Proof.
  induction l as [|b l IH] using rev_ind; [done|].
  rewrite int_from_bytes_snoc, length_app, Nat.add_1_r. cbn.
  pose proof (byte_val_range b).
  replace ((int_from_bytes l * 256 + byte_val b) / 256)%Z with (int_from_bytes l)
    by (rewrite Z.div_add_l by lia; rewrite Z.div_small by done; lia).
  rewrite IH. f_equal. f_equal. rewrite <-val_byte_mod.
  rewrite Z.add_comm, Z_mod_plus_full, Z.mod_small by done. apply val_byte_val.
Qed.

Lemma length_int_to_bytes k n : length (int_to_bytes k n) = k.
Proof.
  revert n; induction k as [|k IH]; intros n; cbn; [done|].
  rewrite length_app, IH. cbn. lia.
Qed.

Lemma int_from_to_bytes k n :
  (0 <= n < 256 ^ Z.of_nat k)%Z → int_from_bytes (int_to_bytes k n) = n.
Proof.
  revert n; induction k as [|k IH]; intros n Hn; [cbn in *; lia|]. cbn [int_to_bytes].
  rewrite Nat2Z.inj_succ, Z.pow_succ_r in Hn by lia.
  rewrite int_from_bytes_snoc, IH.
  - rewrite <-val_byte_mod, byte_val_val by (apply Z.mod_pos_bound; lia).
    pose proof (Z.div_mod n 256). lia.
  - split; [apply Z.div_pos; lia|]. apply Z.div_lt_upper_bound; lia.
Qed.

(** ** Characters *)

Definition code (a : ascii) : Z := Z.of_N (N_of_ascii a).
Definition chr_ascii (z : Z) : ascii := ascii_of_N (Z.to_N z).

(** [chr(z)]: the UTF-8 encoding of a code point. *)
Definition chr (z : Z) : string :=
  let ch := λ z, String (chr_ascii z) "" in
  if (z <? 128)%Z then ch z
  else if (z <? 2048)%Z then ch (192 + z / 64)%Z +:+ ch (128 + z mod 64)%Z
  else if (z <? 65536)%Z then
    ch (224 + z / 4096)%Z +:+ ch (128 + z / 64 mod 64)%Z +:+ ch (128 + z mod 64)%Z
  else
    ch (240 + z / 262144)%Z +:+ ch (128 + z / 4096 mod 64)%Z
      +:+ ch (128 + z / 64 mod 64)%Z +:+ ch (128 + z mod 64)%Z.

Definition is_cont (a : ascii) : bool := (128 <=? code a)%Z && (code a <? 192)%Z.

(** A [str] cut into its characters (each a lead byte and its continuation
    bytes). *)
Definition starts_cont (s : string) : bool :=
  match s with String b _ => is_cont b | "" => false end.
Definition uchar_cons (a : ascii) (s : string) (cs : list string) : list string :=
  match cs with
  | c :: cs' => if starts_cont s then String a c :: cs' else String a "" :: cs
  | [] => [String a ""]
  end.
Fixpoint uchars (s : string) : list string :=
  match s with
  | "" => []
  | String a s => uchar_cons a s (uchars s)
  end.

Definition sconcat (l : list string) : string := foldr String.append "" l.

Lemma sconcat_uchars s : sconcat (uchars s) = s.
Proof.
  induction s as [|a s IH]; [done|]. cbn [uchars]. unfold uchar_cons.
  destruct (uchars s) as [|c cs].
  - by rewrite <-IH.
  - rewrite <-IH at 2. by destruct (starts_cont s).
Qed.

Definition py_len (s : string) : nat := length (uchars s).
(** [s[:n]] and [s[n:]] *)
Definition py_take (n : nat) (s : string) : string := sconcat (take n (uchars s)).
Definition py_drop (n : nat) (s : string) : string := sconcat (drop n (uchars s)).

(** The characters [str.isspace] accepts, which [str.strip] removes. *)
Definition py_whitespace : list string :=
  chr <$> [9; 10; 11; 12; 13; 28; 29; 30; 31; 32; 133; 160; 5760; 8192; 8193; 8194; 8195;
           8196; 8197; 8198; 8199; 8200; 8201; 8202; 8232; 8233; 8239; 8287; 12288]%Z.
Definition is_space (c : string) : bool := bool_decide (c ∈ py_whitespace).

(** [s.strip()], [s.lstrip(cs)], [s.rstrip(cs)], [s.strip(cs)] *)
Definition rstrip_by (p : string → bool) (s : string) : string :=
  sconcat (reverse (drop_while p (reverse (uchars s)))).
Definition lstrip_by (p : string → bool) (s : string) : string :=
  sconcat (drop_while p (uchars s)).
Definition strip_by (p : string → bool) (s : string) : string :=
  sconcat (reverse (drop_while p (reverse (drop_while p (uchars s))))).
Definition strip (s : string) : string := strip_by is_space s.
Definition rstrip (s : string) : string := rstrip_by is_space s.

(** [s.lower()] on ASCII letters. *)
Definition lower_ascii (a : ascii) : ascii :=
  if (65 <=? code a)%Z && (code a <=? 90)%Z then chr_ascii (code a + 32) else a.
Fixpoint map_str (f : ascii → ascii) (s : string) : string :=
  match s with "" => "" | String a s => String (f a) (map_str f s) end.
Definition lower (s : string) : string := map_str lower_ascii s.

Fixpoint str_mem (c : ascii) (s : string) : bool :=
  match s with "" => false | String a s => bool_decide (a = c) || str_mem c s end.
Fixpoint str_all (p : ascii → bool) (s : string) : bool :=
  match s with "" => true | String a s => p a && str_all p s end.
Fixpoint str_filter (p : ascii → bool) (s : string) : string :=
  match s with "" => "" | String a s => if p a then String a (str_filter p s) else str_filter p s end.

Definition startswith (p s : string) : bool := String.prefix p s.
Definition endswith (p s : string) : bool :=
  String.prefix (String.rev p) (String.rev s).

(** [s.split(c)] for a one-character separator, and [c.join(l)] *)
Fixpoint split_on (c : ascii) (s : string) : list string :=
  match s with
  | "" => [""]
  | String a s' =>
    if decide (a = c) then "" :: split_on c s'
    else match split_on c s' with
         | w :: ws => String a w :: ws
         | [] => [String a ""]
         end
  end.
Fixpoint join (sep : string) (l : list string) : string :=
  match l with [] => "" | [x] => x | x :: l => x +:+ sep +:+ join sep l end.

(** [sub in s] *)
Fixpoint contains (sub s : string) : bool :=
  startswith sub s || match s with "" => false | String _ s' => contains sub s' end.

(** [s.split()]: the words between runs of white space. *)
Fixpoint words_of (cs : list string) (word : string) : list string :=
  match cs with
  | [] => if bool_decide (word = "") then [] else [word]
  | c :: cs =>
    if is_space c then if bool_decide (word = "") then words_of cs "" else word :: words_of cs ""
    else words_of cs (word +:+ c)
  end.
Definition words (s : string) : list string := words_of (uchars s) "".

(** [os.path.basename(p)] *)
Definition basename (p : string) : string := List.last (split_on "/" p) "".
(** [os.path.dirname(p)] *)
Definition dirname (p : string) : string :=
  match List.rev (split_on "/" p) with
  | _ :: ((_ :: _) as init) =>
    let head := join "/" (List.rev init) in
    let bare := rstrip_by (λ c, bool_decide (c = "/")) head in
    if bool_decide (bare = "") then head +:+ "/" else bare
  | _ => ""
  end.

(** [int(s)] on a text of ASCII digits with an optional sign, single
    underscores between the digits and white space around. *)
Definition digit_val (a : ascii) : option Z :=
  if (48 <=? code a)%Z && (code a <=? 57)%Z then Some (code a - 48)%Z else None.
Fixpoint digits_val (s : string) (acc : Z) : option Z :=
  match s with
  | "" => Some acc
  | String a s' =>
    match digit_val a, s' with
    | Some d, _ => digits_val s' (10 * acc + d)
    | None, String b s'' =>
      if bool_decide (a = "_"%char) then
        match digit_val b with Some d => digits_val s'' (10 * acc + d) | None => None end
      else None
    | None, "" => None
    end
  end.
Definition py_int (s : string) : result Z :=
  let number s := match s with String a _ => if digit_val a is Some _ then digits_val s 0 else None | "" => None end in
  of_option (ValueError "invalid literal for int() with base 10")
    match strip s with
    | String "-" t => Z.opp <$> number t
    | String "+" t => number t
    | t => number t
    end.

(** [sorted] on strings *)
Definition sorted (l : list string) : list string := merge_sort String.le l.

(** A decimal numeral: [str(n)] *)
Definition str_of_int (z : Z) : string := pretty z.

(** [f"{n:,}"]: the digits grouped by three, from the right. *)
Fixpoint group3 (l : list ascii) : list ascii :=
  match l with
  | a :: b :: c :: ((_ :: _) as l') => a :: b :: c :: ","%char :: group3 l'
  | _ => l
  end.
Definition str_of_int_grouped (z : Z) : string :=
  String.string_of_list_ascii (reverse (group3 (reverse (String.list_ascii_of_string (str_of_int z))))).

(** ** String lemmas *)

Lemma str_app_cons a s1 s2 : String a s1 +:+ s2 = String a (s1 +:+ s2).
Proof. done. Qed.

Lemma str_app_nil_l s : "" +:+ s = s.
Proof. done. Qed.

Lemma str_app_nil_r s : s +:+ "" = s.
Proof. induction s as [|a s IH]; [done|]. by rewrite str_app_cons, IH. Qed.

Lemma str_app_assoc s1 s2 s3 : (s1 +:+ s2) +:+ s3 = s1 +:+ s2 +:+ s3.
Proof. induction s1 as [|a s IH]; [done|]. by rewrite !str_app_cons, IH. Qed.

(** Concatenations of literals and variables, reassociated. *)
Ltac str_norm :=
  repeat first [rewrite str_app_cons | rewrite str_app_nil_l | rewrite str_app_assoc].

Lemma str_app_inj_l s t1 t2 : s +:+ t1 = s +:+ t2 → t1 = t2.
Proof.
  induction s as [|a s IH]; [done|]. rewrite !str_app_cons. intros [= H]. by apply IH.
Qed.

Lemma str_mem_app c s1 s2 : str_mem c (s1 +:+ s2) = str_mem c s1 || str_mem c s2.
Proof.
  induction s1 as [|a s IH]; [done|]. rewrite str_app_cons; cbn. by rewrite IH, orb_assoc.
Qed.

Lemma str_all_app p s1 s2 : str_all p (s1 +:+ s2) = str_all p s1 && str_all p s2.
Proof.
  induction s1 as [|a s IH]; [done|]. rewrite str_app_cons; cbn. by rewrite IH, andb_assoc.
Qed.

Lemma split_on_nonempty c s : ∃ w ws, split_on c s = w :: ws.
Proof.
  induction s as [|a s (w&ws&IH)]; cbn; [eauto|]. rewrite IH. case_decide; eauto.
Qed.

(** Splitting a word with no separator, and a word followed by one. *)
Lemma split_on_word c w : str_mem c w = false → split_on c w = [w].
Proof.
  induction w as [|a w IH]; cbn; [done|]. intros [Ha Hw]%orb_false_elim.
  apply bool_decide_eq_false in Ha. rewrite decide_False by done. by rewrite IH.
Qed.

Lemma split_on_app c w s :
  str_mem c w = false → split_on c (w +:+ String c s) = w :: split_on c s.
Proof.
  induction w as [|a w IH]; cbn [str_mem].
  - intros _. rewrite str_app_nil_l. cbn. by rewrite decide_True.
  - intros [Ha Hw]%orb_false_elim. apply bool_decide_eq_false in Ha.
    rewrite str_app_cons. cbn. rewrite decide_False by done. by rewrite IH.
Qed.

(** The pieces have no separator, and joining them gives the string back. *)
Lemma join_split_on c s : join (String c "") (split_on c s) = s.
Proof.
  induction s as [|a s IH]; [done|]. cbn [split_on].
  destruct (split_on_nonempty c s) as (w&ws&E). rewrite E in *.
  case_decide as Ha.
  - subst a. cbn [join]. rewrite str_app_nil_l, str_app_cons, str_app_nil_l. by f_equal.
  - destruct ws; cbn [join] in IH |- *; [by rewrite IH|]. rewrite str_app_cons. by f_equal.
Qed.

Lemma split_on_no_sep c s : Forall (λ w, str_mem c w = false) (split_on c s).
Proof.
  induction s as [|a s IH]; cbn; [by constructor|].
  case_decide as Ha; [by constructor|].
  destruct (split_on c s) as [|w ws].
  - constructor; [|done]. cbn. by rewrite bool_decide_eq_false_2.
  - inversion IH; subst. constructor; [|done]. cbn. by rewrite bool_decide_eq_false_2.
Qed.

Lemma prefix_app p s : startswith p (p +:+ s) = true.
Proof.
  unfold startswith. induction p as [|a p IH]; [by destruct s|].
  rewrite str_app_cons. cbn. by destruct (ascii_dec a a).
Qed.

(** ** Characters of a concatenation *)

Lemma uchars_nonempty a s : uchars (String a s) ≠ [].
Proof. cbn. unfold uchar_cons. destruct (uchars s); [done|]. by destruct (starts_cont s). Qed.

Lemma uchars_nil_inv s : uchars s = [] → s = "".
Proof. destruct s as [|a s]; [done|]. intros H. by destruct (uchars_nonempty a s). Qed.

Lemma uchars_app s t : starts_cont t = false → uchars (s +:+ t) = uchars s ++ uchars t.
Proof.
  intros Ht. induction s as [|a s IH]; [done|].
  rewrite str_app_cons. cbn [uchars]. rewrite IH. unfold uchar_cons.
  destruct s as [|b s].
  - rewrite str_app_nil_l, Ht. cbn. by destruct (uchars t).
  - pose proof (uchars_nonempty b s) as Hne. rewrite str_app_cons. cbn [starts_cont].
    destruct (uchars (String b s)) as [|c cs]; [done|]. cbn. by destruct (is_cont b).
Qed.

Lemma uchars_pos s : Forall (λ c, c ≠ "") (uchars s).
Proof.
  induction s as [|a s IH]; [constructor|]. cbn. unfold uchar_cons.
  destruct (uchars s) as [|c cs]; [by repeat constructor|].
  apply Forall_cons in IH as [Hc Hcs].
  destruct (starts_cont s); repeat constructor; done.
Qed.

Lemma sconcat_app l1 l2 : sconcat (l1 ++ l2) = sconcat l1 +:+ sconcat l2.
Proof.
  induction l1 as [|x l IH]; [done|].
  change (x +:+ sconcat (l ++ l2) = (x +:+ sconcat l) +:+ sconcat l2).
  by rewrite str_app_assoc, <-IH.
Qed.

Lemma py_drop_prefix p s : starts_cont s = false → py_drop (py_len p) (p +:+ s) = s.
Proof.
  intros Hs. unfold py_drop, py_len. rewrite uchars_app by done.
  rewrite drop_app_length. apply sconcat_uchars.
Qed.

Lemma str_length_app s t : String.length (s +:+ t) = String.length s + String.length t.
Proof. induction s as [|a s IH]; [done|]. rewrite str_app_cons. cbn. by rewrite IH. Qed.

(** Nothing but empty pieces can be dropped without changing the length. *)
Lemma sconcat_app_same l1 l2 l3 :
  Forall (λ c, c ≠ "") (l1 ++ l2 ++ l3) →
  String.length (sconcat l2) = String.length (sconcat (l1 ++ l2 ++ l3)) → l1 = [] ∧ l3 = [].
Proof.
  rewrite !Forall_app. intros (H1&_&H3). rewrite !sconcat_app, !str_length_app. intros Hl.
  assert (Hnil : ∀ l, Forall (λ c, c ≠ "") l → String.length (sconcat l) = 0 → l = []).
  { intros l Hf Hlen. destruct l as [|c l]; [done|]. apply Forall_cons in Hf as [Hc _].
    cbn in Hlen. rewrite str_length_app in Hlen. by destruct c. }
  split; apply Hnil; auto with lia.
Qed.

(** A string that [strip_by] leaves alone has no character to strip at its
    ends. *)
Lemma strip_by_id_inv p s :
  strip_by p s = s →
  drop_while p (uchars s) = uchars s ∧ drop_while p (reverse (uchars s)) = reverse (uchars s).
Proof.
  unfold strip_by. intros Hs. pose proof (uchars_pos s) as Hpos.
  set (l1 := drop_while p (uchars s)) in *.
  assert (H1 : uchars s = take_while p (uchars s) ++ l1) by (symmetry; apply take_drop_while).
  assert (H2 : l1 = reverse (drop_while p (reverse l1)) ++ reverse (take_while p (reverse l1))).
  { rewrite <-reverse_app, take_drop_while. by rewrite reverse_involutive. }
  rewrite H1 in Hpos. rewrite H2 in Hpos.
  assert (Hlen : String.length (sconcat (reverse (drop_while p (reverse l1))))
    = String.length (sconcat (take_while p (uchars s) ++ reverse (drop_while p (reverse l1))
        ++ reverse (take_while p (reverse l1))))) by (by rewrite <-H2, <-H1, Hs, sconcat_uchars).
  destruct (sconcat_app_same _ _ _ Hpos Hlen) as [Hl Hr].
  rewrite Hl in H1. cbn in H1. rewrite Hr, app_nil_r in H2.
  split; [done|]. rewrite H1. rewrite H2 at 2. by rewrite reverse_involutive.
Qed.

(** Stripping [pre ++ s] when neither end has anything to strip. *)
Lemma strip_by_app_id p a pre s :
  uchars (String a pre) = String a "" :: uchars pre → p (String a "") = false →
  starts_cont s = false → s ≠ "" → strip_by p s = s →
  strip_by p (String a pre +:+ s) = String a pre +:+ s.
Proof.
  intros Ha Hp Hc Hs Hstrip. apply strip_by_id_inv in Hstrip as [_ Hr].
  unfold strip_by. rewrite uchars_app, Ha by done. cbn [app drop_while]. rewrite Hp.
  rewrite reverse_cons, reverse_app, <-!app_assoc.
  destruct (reverse (uchars s)) as [|c cs] eqn:Hrev.
  { apply (f_equal reverse) in Hrev. rewrite reverse_involutive in Hrev.
    by apply uchars_nil_inv in Hrev. }
  cbn [app] in *. rewrite drop_while_id by (by apply drop_while_head in Hr).
  rewrite app_comm_cons, <-Hrev, app_assoc, <-reverse_app, <-reverse_cons, reverse_involutive.
  rewrite app_comm_cons, <-Ha, <-uchars_app by done. apply sconcat_uchars.
Qed.

(** Stripping [pre ++ s] when [pre] has nothing to strip at either end. *)
Lemma drop_while_app p (l k : list string) :
  drop_while p k = k → drop_while p (l ++ k) = drop_while p l ++ k.
Proof. intros Hk. induction l as [|x l IH]; [done|]. cbn. by destruct (p x). Qed.
Lemma strip_by_app_rstrip p a pre s :
  uchars (String a pre) = String a "" :: uchars pre → p (String a "") = false →
  drop_while p (reverse (uchars (String a pre))) = reverse (uchars (String a pre)) →
  starts_cont s = false → strip_by p (String a pre +:+ s) = String a pre +:+ rstrip_by p s.
Proof.
  intros Ha Hp Hl Hc. unfold strip_by, rstrip_by. rewrite uchars_app by done.
  assert (Hd : drop_while p (uchars (String a pre) ++ uchars s) = uchars (String a pre) ++ uchars s)
    by (rewrite Ha; cbn [app drop_while]; by rewrite Hp).
  rewrite Hd, reverse_app, drop_while_app, reverse_app, reverse_involutive, sconcat_app by done.
  by rewrite sconcat_uchars.
Qed.

(** What [rstrip] takes off is blank. *)
Lemma rstrip_split s : ∃ t, s = rstrip s +:+ sconcat t ∧ Forall (λ c, is_space c = true) t.
Proof.
  exists (reverse (take_while is_space (reverse (uchars s)))). split.
  - unfold rstrip, rstrip_by. rewrite <-sconcat_app, <-reverse_app, take_drop_while, reverse_involutive.
    by rewrite sconcat_uchars.
  - apply Forall_reverse. induction (reverse (uchars s)) as [|c l IH]; cbn; [constructor|].
    destruct (is_space c) eqn:Hc; [by constructor|constructor].
Qed.

Lemma str_mem_list c s : str_mem c s = bool_decide (c ∈ String.list_ascii_of_string s).
Proof.
  induction s as [|a s IH]; cbn; [by rewrite bool_decide_eq_false_2 by set_solver|].
  rewrite IH. repeat case_bool_decide; cbn; set_solver.
Qed.

Lemma str_all_list p s : str_all p s = forallb p (String.list_ascii_of_string s).
Proof. induction s as [|a s IH]; cbn; by rewrite ?IH. Qed.

(** ** Decimal numerals *)

Definition is_numeral_char (a : ascii) : bool :=
  ((48 <=? code a) && (code a <=? 57))%Z || bool_decide (a = "-"%char).

Lemma pretty_N_char_numeral x : is_numeral_char (pretty_N_char x) = true.
Proof. destruct x as [|p]; [done|]. do 5 (try destruct p as [p|p|]; try done). Qed.

Lemma pretty_N_go_numeral x s :
  str_all is_numeral_char s = true → str_all is_numeral_char (pretty_N_go x s) = true.
Proof.
  revert s. induction (N.lt_wf_0 x) as [x _ IH]. intros s Hs.
  destruct (decide (x = 0%N)) as [->|Hx]; [by rewrite pretty_N_go_0|].
  rewrite pretty_N_go_step by lia. apply IH; [apply N.div_lt; lia|].
  cbn. by rewrite pretty_N_char_numeral.
Qed.

Lemma pretty_N_numeral (x : N) : str_all is_numeral_char (pretty x) = true.
Proof. unfold pretty, pretty_N. case_decide; [done|]. by apply pretty_N_go_numeral. Qed.

Lemma str_of_int_numeral z : str_all is_numeral_char (str_of_int z) = true.
Proof.
  destruct z as [|p|p]; [done|exact (pretty_N_numeral (N.pos p))|].
  change (str_of_int (Z.neg p)) with ("-" +:+ pretty (N.pos p)).
  rewrite str_all_app. by rewrite pretty_N_numeral.
Qed.

Lemma str_of_int_no_mem c z : is_numeral_char c = false → str_mem c (str_of_int z) = false.
Proof.
  intros Hc. pose proof (str_of_int_numeral z) as H. revert H.
  induction (str_of_int z) as [|a s IH]; [done|]. cbn. intros [Ha Hs]%andb_prop.
  rewrite IH, orb_false_r by done. apply bool_decide_eq_false. congruence.
Qed.

#[export] Instance str_of_int_inj : Inj (=) (=) str_of_int.
Proof. apply pretty_Z_inj. Qed.
