(* ===== verification/Codec.v ===== *)
(** * Standard-library codecs: UTF-8, hex, base64, [struct] *)

From S2P Require Import Prelude PyStr.
From Stdlib Require Import Ascii.
Local Open Scope Z_scope.

(** ** UTF-8 *)

(** [s.encode("utf-8")]: the representation itself. *)
Definition utf8_encode (s : string) : bytes := String.list_byte_of_string s.

Definition cont_in (lo hi : Z) (b : byte) : bool := (lo <=? byte_val b) && (byte_val b <=? hi).

(** The well-formed byte sequences of the Unicode standard (table 3-7). *)
Fixpoint utf8_ok (l : bytes) : bool :=
  match l with
  | [] => true
  | b :: l1 =>
    let v := byte_val b in
    if v <? 128 then utf8_ok l1
    else if (194 <=? v) && (v <=? 223) then
      match l1 with c1 :: l2 => cont_in 128 191 c1 && utf8_ok l2 | _ => false end
    else if (224 <=? v) && (v <=? 239) then
      match l1 with
      | c1 :: c2 :: l3 =>
        cont_in (if v =? 224 then 160 else 128) (if v =? 237 then 159 else 191) c1
          && cont_in 128 191 c2 && utf8_ok l3
      | _ => false
      end
    else if (240 <=? v) && (v <=? 244) then
      match l1 with
      | c1 :: c2 :: c3 :: l4 =>
        cont_in (if v =? 240 then 144 else 128) (if v =? 244 then 143 else 191) c1
          && cont_in 128 191 c2 && cont_in 128 191 c3 && utf8_ok l4
      | _ => false
      end
    else false
  end.

(** [data.decode("utf-8")] *)
Definition utf8_decode (l : bytes) : result string :=
  if utf8_ok l then Ok (String.string_of_list_byte l) else Raise (ValueError "utf-8").

(** A [str] value: its representation is well-formed UTF-8. *)
Definition is_str (s : string) : Prop := utf8_ok (utf8_encode s) = true.

Lemma utf8_decode_encode s : is_str s → utf8_decode (utf8_encode s) = Ok s.
Proof.
  unfold is_str, utf8_decode. intros ->. f_equal. apply String.string_of_list_byte_of_string.
Qed.

Lemma utf8_encode_app s1 s2 : utf8_encode (s1 +:+ s2) = utf8_encode s1 ++ utf8_encode s2.
Proof.
  unfold utf8_encode. induction s1 as [|a s IH]; [done|].
  rewrite str_app_cons. cbn. by f_equal.
Qed.

Lemma utf8_encode_decode l s : utf8_decode l = Ok s → utf8_encode s = l.
Proof.
  unfold utf8_decode. destruct (utf8_ok l); [|done]. intros [= <-].
  apply String.list_byte_of_string_of_list_byte.
Qed.

Lemma utf8_encode_inj s1 s2 : utf8_encode s1 = utf8_encode s2 → s1 = s2.
Proof.
  intros H. rewrite <-(String.string_of_list_byte_of_string s1),
    <-(String.string_of_list_byte_of_string s2). f_equal. exact H.
Qed.

Definition is_ascii (a : ascii) : bool := code a <? 128.

(** ** Hexadecimal *)

Definition hex_digit (z : Z) : ascii :=
  chr_ascii (if z <? 10 then 48 + z else 87 + z).
Definition hex_val (a : ascii) : option Z :=
  let c := code a in
  if (48 <=? c) && (c <=? 57) then Some (c - 48)
  else if (97 <=? c) && (c <=? 102) then Some (c - 87)
  else if (65 <=? c) && (c <=? 70) then Some (c - 55)
  else None.
Definition is_hex (a : ascii) : bool := match hex_val a with Some _ => true | None => false end.

(** [data.hex()] *)
Fixpoint hex (l : bytes) : string :=
  match l with
  | [] => ""
  | b :: l => String (hex_digit (byte_val b / 16)) (String (hex_digit (byte_val b mod 16)) (hex l))
  end.

Definition is_ascii_space (a : ascii) : bool :=
  let c := code a in ((9 <=? c) && (c <=? 13)) || (c =? 32).

(** [bytes.fromhex(s)]: ASCII whitespace between two bytes is skipped. *)
Fixpoint fromhex (s : string) : result bytes :=
  match s with
  | "" => Ok []
  | String a s1 =>
    if is_ascii_space a then fromhex s1
    else match s1 with
         | "" => Raise (ValueError "fromhex")
         | String b s2 =>
           match hex_val a, hex_val b with
           | Some x, Some y => l ← fromhex s2; Ok (val_byte (16 * x + y) :: l)
           | _, _ => Raise (ValueError "fromhex")
           end
         end
  end.

Lemma hex_byte_spec b :
  let hi := hex_digit (byte_val b / 16) in let lo := hex_digit (byte_val b mod 16) in
  is_ascii_space hi = false ∧
  match hex_val hi, hex_val lo with Some x, Some y => val_byte (16 * x + y) = b | _, _ => False end.
Proof. by destruct b. Qed.

Lemma fromhex_hex l : fromhex (hex l) = Ok l.
Proof.
  induction l as [|b l IH]; [done|]. cbn [hex fromhex].
  destruct (hex_byte_spec b) as [-> Hb].
  destruct (hex_val _) as [x|]; [|done]. destruct (hex_val _) as [y|]; [|done].
  by rewrite IH, <-Hb at 1.
Qed.

Lemma hex_inj l1 l2 : hex l1 = hex l2 → l1 = l2.
Proof. intros H. apply (f_equal fromhex) in H. rewrite !fromhex_hex in H. by injection H. Qed.

Lemma hex_length l : String.length (hex l) = (2 * length l)%nat.
Proof. induction l as [|b l IH]; cbn in *; lia. Qed.

Lemma hex_all_hex l : str_all is_hex (hex l) = true.
Proof.
  induction l as [|b l IH]; [done|]. cbn [hex str_all]. rewrite IH.
  by destruct b.
Qed.

(** Hex digits are neither separators nor blanks. *)
Lemma hex_no_mem c l : is_hex c = false → str_mem c (hex l) = false.
Proof.
  intros Hc. pose proof (hex_all_hex l) as Hl.
  induction (hex l) as [|a s IH]; [done|]. cbn in *.
  apply andb_prop in Hl as [Ha Hs]. rewrite (IH Hs), orb_false_r.
  apply bool_decide_eq_false. congruence.
Qed.

(** ** Base64 *)

Definition b64_char (z : Z) : ascii :=
  chr_ascii (if z <? 26 then 65 + z else if z <? 52 then 71 + z
             else if z <? 62 then z - 4 else if z =? 62 then 43 else 47).
Definition b64_val (a : ascii) : option Z :=
  let c := code a in
  if (65 <=? c) && (c <=? 90) then Some (c - 65)
  else if (97 <=? c) && (c <=? 122) then Some (c - 71)
  else if (48 <=? c) && (c <=? 57) then Some (c + 4)
  else if c =? 43 then Some 62
  else if c =? 47 then Some 63
  else None.

(** [base64.b64encode(data).decode()] *)
Fixpoint b64encode (l : bytes) : string :=
  match l with
  | [] => ""
  | [a] =>
    let a := byte_val a in
    String (b64_char (a / 4)) (String (b64_char (a mod 4 * 16)) "==")
  | [a; b] =>
    let a := byte_val a in let b := byte_val b in
    String (b64_char (a / 4)) (String (b64_char (a mod 4 * 16 + b / 16))
      (String (b64_char (b mod 16 * 4)) "="))
  | a :: b :: c :: l =>
    let a := byte_val a in let b := byte_val b in let c := byte_val c in
    String (b64_char (a / 4)) (String (b64_char (a mod 4 * 16 + b / 16))
      (String (b64_char (b mod 16 * 4 + c / 64)) (String (b64_char (c mod 64)) (b64encode l))))
  end.

(** [binascii.a2b_base64] in its default, non-strict mode: characters outside
    the alphabet are ignored; [=] signs end the input once a quantum of at
    least two characters is padded to four. [q] is the position in the
    quantum, [left] the bits carried over, [pads] the pad count. *)
Fixpoint a2b_base64 (s : string) (q left pads : Z) : result bytes :=
  match s with
  | "" =>
    if q =? 0 then Ok []
    else Raise (ValueError (if q =? 1 then "Invalid base64-encoded string" else "Incorrect padding"))
  | String a s =>
    if bool_decide (a = "="%char) then
      if (2 <=? q) && (4 <=? q + (pads + 1)) then Ok []
      else a2b_base64 s q left (if 2 <=? q then pads + 1 else pads)
    else match b64_val a with
         | None => a2b_base64 s q left pads
         | Some v =>
           if q =? 0 then a2b_base64 s 1 v 0
           else if q =? 1 then l ← a2b_base64 s 2 (v mod 16) 0; Ok (val_byte (left * 4 + v / 16) :: l)
           else if q =? 2 then l ← a2b_base64 s 3 (v mod 4) 0; Ok (val_byte (left * 16 + v / 4) :: l)
           else l ← a2b_base64 s 0 0 0; Ok (val_byte (left * 64 + v) :: l)
         end
  end.

(** [base64.b64decode(s)] of a [str]. *)
Definition b64decode (s : string) : result bytes :=
  if str_all is_ascii s then a2b_base64 s 0 0 0 else Raise (ValueError "ascii").

Lemma b64_char_spec z :
  0 <= z < 64 →
  b64_char z ≠ "="%char ∧ is_ascii (b64_char z) = true ∧ b64_val (b64_char z) = Some z.
Proof.
  intros Hz.
  assert (Hall : Forall (λ z, b64_char z ≠ "="%char ∧ is_ascii (b64_char z) = true ∧
    b64_val (b64_char z) = Some z) (Z.of_nat <$> seq 0 64)) by (repeat constructor; done).
  rewrite Forall_forall in Hall. apply Hall. apply list_elem_of_fmap. exists (Z.to_nat z).
  split; [lia|]. apply elem_of_seq. lia.
Qed.

(** One alphabet character consumed by the decoder. *)
Lemma a2b_char z s q left pads :
  0 <= z < 64 →
  a2b_base64 (String (b64_char z) s) q left pads =
    if q =? 0 then a2b_base64 s 1 z 0
    else if q =? 1 then l ← a2b_base64 s 2 (z mod 16) 0; Ok (val_byte (left * 4 + z / 16) :: l)
    else if q =? 2 then l ← a2b_base64 s 3 (z mod 4) 0; Ok (val_byte (left * 16 + z / 4) :: l)
    else l ← a2b_base64 s 0 0 0; Ok (val_byte (left * 64 + z) :: l).
Proof.
  intros Hz. destruct (b64_char_spec z Hz) as (Hne&_&Hv).
  cbn [a2b_base64]. by rewrite bool_decide_eq_false_2, Hv.
Qed.

Lemma bytes_ind3 (P : bytes → Prop) :
  P [] → (∀ a, P [a]) → (∀ a b, P [a; b]) → (∀ a b c l, P l → P (a :: b :: c :: l)) → ∀ l, P l.
Proof.
  intros H0 H1 H2 H3. fix IH 1. intros [|a [|b [|c l]]];
    [exact H0|exact (H1 a)|exact (H2 a b)|exact (H3 a b c l (IH l))].
Qed.

Ltac byte_ranges := repeat
  match goal with
  | b : byte |- _ =>
    lazymatch goal with
    | _ : 0 <= byte_val b < 256 |- _ => fail
    | _ => pose proof (byte_val_range b)
    end
  end.

(** [val_byte e] is the byte [b] when [e] computes to its value. *)
Lemma val_byte_eq e b : e = byte_val b → val_byte e = b.
Proof. intros ->. apply val_byte_val. Qed.

Lemma cons_val_byte e b (l l' : bytes) :
  e = byte_val b → l = l' → val_byte e :: l = b :: l'.
Proof. intros He ->. f_equal. by apply val_byte_eq. Qed.

Lemma a2b_pad2 left : a2b_base64 "==" 2 left 0 = Ok [].
Proof. done. Qed.

Lemma a2b_pad1 left : a2b_base64 "=" 3 left 0 = Ok [].
Proof. done. Qed.

Lemma a2b_b64encode l : a2b_base64 (b64encode l) 0 0 0 = Ok l.
Proof.
  induction l as [|a|a b|a b c l IH] using bytes_ind3; byte_ranges; cbn [b64encode]; [done|..];
    repeat (rewrite a2b_char by (Z.div_mod_to_equations; lia); cbn [Z.eqb Pos.eqb]);
    rewrite ?IH, ?a2b_pad2, ?a2b_pad1; cbn -[Z.div Z.modulo]; f_equal;
    repeat (apply cons_val_byte; [Z.div_mod_to_equations; lia|]); done.
Qed.

Lemma b64_char_ascii z : 0 <= z < 64 → is_ascii (b64_char z) = true.
Proof. intros Hz. by destruct (b64_char_spec z Hz) as (_&?&_). Qed.

Lemma b64encode_ascii l : str_all is_ascii (b64encode l) = true.
Proof.
  induction l as [|a|a b|a b c l IH] using bytes_ind3; byte_ranges; cbn [b64encode str_all]; [done|..];
    repeat rewrite b64_char_ascii by (Z.div_mod_to_equations; lia);
    rewrite ?IH; done.
Qed.

Lemma b64decode_encode l : b64decode (b64encode l) = Ok l.
Proof. unfold b64decode. by rewrite b64encode_ascii, a2b_b64encode. Qed.

(** ** [struct.pack("<H", z)], [struct.unpack("<H", data)] *)

Definition pack_H (z : Z) : result bytes :=
  if (0 <=? z) && (z <? 65536) then Ok [val_byte z; val_byte (z / 256)] else Raise StructError.
Definition unpack_H (lo hi : byte) : Z := byte_val lo + 256 * byte_val hi.

Lemma unpack_pack_H z : 0 <= z < 65536 →
  ∃ lo hi, pack_H z = Ok [lo; hi] ∧ unpack_H lo hi = z.
Proof.
  intros Hz. unfold pack_H. do 2 eexists. split.
  - replace (_ && _) with true; [reflexivity|]. symmetry. apply andb_true_intro.
    split; [apply Z.leb_le|apply Z.ltb_lt]; lia.
  - unfold unpack_H. rewrite <-(val_byte_mod z), !byte_val_val;
      Z.div_mod_to_equations; lia.
Qed.

Lemma pack_H_error z : ¬ 0 <= z < 65536 → pack_H z = Raise StructError.
Proof.
  intros Hz. unfold pack_H. destruct (_ && _) eqn:E; [|done].
  apply andb_prop in E as [?%Z.leb_le ?%Z.ltb_lt]. lia.
Qed.


(** ** ASCII strings have one byte per character *)

Lemma is_ascii_not_cont a : is_ascii a = true → is_cont a = false.
Proof. by destruct a as [[] [] [] [] [] [] [] []]. Qed.

Lemma ascii_not_starts_cont s : str_all is_ascii s = true → starts_cont s = false.
Proof. destruct s as [|a s]; [done|]. cbn. intros [Ha _]%andb_prop. by apply is_ascii_not_cont. Qed.

Lemma uchars_ascii_cons a s :
  starts_cont s = false → uchars (String a s) = String a "" :: uchars s.
Proof.
  intros Hs. change (String a s) with (String a "" +:+ s). by rewrite uchars_app.
Qed.

Lemma py_len_ascii s : str_all is_ascii s = true → py_len s = String.length s.
Proof.
  induction s as [|a s IH]; [done|]. cbn [str_all]. intros [Ha Hs]%andb_prop.
  unfold py_len in *. rewrite uchars_ascii_cons by (by apply ascii_not_starts_cont).
  cbn. by rewrite IH.
Qed.

Lemma is_str_not_cont s : is_str s → starts_cont s = false.
Proof.
  unfold is_str. destruct s as [|a s]; [done|].
  change (utf8_encode (String a s)) with (byte_of_ascii a :: utf8_encode s).
  cbn [starts_cont utf8_ok]. by destruct a as [[] [] [] [] [] [] [] []].
Qed.

Lemma is_hex_ascii a : is_hex a = true → is_ascii a = true.
Proof. by destruct a as [[] [] [] [] [] [] [] []]. Qed.

Lemma str_all_impl (p q : ascii → bool) s :
  (∀ a, p a = true → q a = true) → str_all p s = true → str_all q s = true.
Proof.
  intros Hpq. induction s as [|a s IH]; [done|]. cbn. intros [Ha Hs]%andb_prop.
  by rewrite (Hpq a Ha), IH.
Qed.

(** Hex pairs always decode. *)
Lemma fromhex_hex_digits s n :
  str_all is_hex s = true → String.length s = (2 * n)%nat →
  ∃ l, fromhex s = Ok l ∧ length l = n.
Proof.
  revert s; induction n as [|n IH]; intros s Hs Hn.
  { destruct s; [|done]. by exists []. }
  destruct s as [|a [|b s]]; cbn in Hn; [lia..|].
  cbn [str_all] in Hs. apply andb_prop in Hs as [Ha Hs]. apply andb_prop in Hs as [Hb Hs].
  destruct (IH s Hs) as (l&Hl&Hlen); [lia|].
  assert (Hsp : is_ascii_space a = false) by (by destruct a as [[] [] [] [] [] [] [] []]).
  unfold is_hex in Ha, Hb. cbn [fromhex]. rewrite Hsp.
  destruct (hex_val a), (hex_val b); try done. rewrite Hl. cbn.
  eexists. split; [reflexivity|]. cbn. lia.
Qed.

(** ** Decimal numerals read back *)

Lemma pretty_N_char_digit x : (x < 10)%N → digit_val (pretty_N_char x) = Some (Z.of_N x).
Proof. intros Hx. destruct x as [|p]; [done|]. do 4 (try destruct p as [p|p|]; try done; try lia). Qed.

Lemma digits_val_go x s : digits_val (pretty_N_go x s) 0 = digits_val s (Z.of_N x).
Proof.
  revert s. induction (N.lt_wf_0 x) as [x _ IH]. intros s.
  destruct (decide (x = 0%N)) as [->|Hx]; [by rewrite pretty_N_go_0|].
  rewrite pretty_N_go_step, IH by (try apply N.div_lt; lia). cbn [digits_val].
  rewrite pretty_N_char_digit by (apply N.mod_lt; lia). f_equal.
  rewrite (N.div_mod' x 10) at 3. lia.
Qed.

Lemma numeral_no_space a : is_numeral_char a = true → is_ascii a = true ∧ is_space (String a "") = false.
Proof.
  intros Ha. assert (code a = 45 ∨ 48 <= code a <= 57) as Hc.
  { unfold is_numeral_char in Ha. apply orb_prop in Ha as [H|H%bool_decide_eq_true]; [lia|subst a; by left]. }
  assert (Hall : ∀ b : ascii, implb (is_numeral_char b) (is_ascii b && negb (is_space (String b ""))) = true).
  { intros b. destruct b as [[] [] [] [] [] [] [] []]; vm_compute; reflexivity. }
  specialize (Hall a). rewrite Ha in Hall. cbn in Hall. apply andb_prop in Hall as [-> ?%negb_true_iff]. done.
Qed.

Lemma numeral_chars s : str_all is_numeral_char s = true →
  str_all is_ascii s = true ∧ Forall (λ c, is_space c = false) (uchars s).
Proof.
  induction s as [|a s IH]; [by split; [|constructor]|]. cbn [str_all]. intros [Ha Hs]%andb_prop.
  destruct (IH Hs) as [Hascii Hall]. destruct (numeral_no_space a Ha) as [H1 H2]. rewrite H1. split; [done|].
  rewrite uchars_ascii_cons by (by apply ascii_not_starts_cont). by constructor.
Qed.

Lemma drop_while_none {A} (p : A → bool) l : Forall (λ x, p x = false) l → drop_while p l = l.
Proof. intros [|x l' Hx _]; [done|]. cbn. by rewrite Hx. Qed.
Lemma strip_plain s : Forall (λ c, is_space c = false) (uchars s) → strip s = s.
Proof.
  intros Hs. unfold strip, strip_by. rewrite (drop_while_none is_space (uchars s)) by done.
  rewrite drop_while_none by (by apply Forall_reverse). rewrite reverse_involutive. apply sconcat_uchars.
Qed.

Lemma pretty_N_go_head x s :
  x ≠ 0%N → ∃ a t, pretty_N_go x s = String a t ∧ is_Some (digit_val a).
Proof.
  revert s. induction (N.lt_wf_0 x) as [x _ IH]. intros s Hx. rewrite pretty_N_go_step by lia.
  destruct (decide (x `div` 10 = 0)%N) as [Hd|Hd]; [|by apply IH; [apply N.div_lt; lia|]].
  rewrite Hd, pretty_N_go_0. eexists _, _. split; [done|].
  rewrite pretty_N_char_digit by (apply N.mod_lt; lia). by eexists.
Qed.
Lemma pretty_N_number (x : N) :
  ∃ a t, pretty x = String a t ∧ is_Some (digit_val a) ∧ digits_val (pretty x) 0 = Some (Z.of_N x).
Proof.
  unfold pretty, pretty_N. case_decide as Hx; [subst x; by eexists _, _; split_and!|].
  destruct (pretty_N_go_head x "" Hx) as (a&t&Ha&Hd). exists a, t. split_and!; [done..|].
  by rewrite digits_val_go.
Qed.

(** [int(str(n))] is [n]. *)
Lemma py_int_str_of_int z : py_int (str_of_int z) = Ok z.
Proof.
  unfold py_int. rewrite strip_plain by (apply numeral_chars, str_of_int_numeral).
  assert (Hsign : ∀ a, is_Some (digit_val a) → a ≠ "-"%char ∧ a ≠ "+"%char).
  { intros a [d Hd]. split; intros ->; discriminate Hd. }
  destruct z as [|p|p]; [done| |].
  - change (str_of_int (Z.pos p)) with (pretty (N.pos p)).
    destruct (pretty_N_number (N.pos p)) as (a&t&->&[d Hd]&Hv). destruct (Hsign a) as [H1 H2]; [by exists d|].
    assert (Hm : of_option (ValueError "invalid literal for int() with base 10")
      (if digit_val a is Some _ then digits_val (String a t) 0 else None) = Ok (Z.pos p)) by (by rewrite Hd, Hv).
    revert Hm H1 H2. clear. destruct a as [[] [] [] [] [] [] [] []]; done.
  - change (str_of_int (Z.neg p)) with (String "-" (pretty (N.pos p))).
    destruct (pretty_N_number (N.pos p)) as (a&t&->&[d Hd]&Hv). by rewrite Hd, Hv.
Qed.

#[global] Arguments b64encode : simpl never.
#[global] Arguments b64decode : simpl never.
#[global] Arguments utf8_encode : simpl never.
#[global] Arguments utf8_decode : simpl never.
#[global] Arguments hex : simpl never.
#[global] Arguments fromhex : simpl never.
