(* ===== verification/Sha256.v ===== *)
(** * [hashlib.sha256]: FIPS 180-4, on 32-bit words kept in [Z] *)

From S2P Require Import Prelude PyStr Codec.
Local Open Scope Z_scope.

Definition w32 (z : Z) : Z := z mod 4294967296.
Definition rotr (n x : Z) : Z := Z.lor (Z.shiftr x n) (w32 (Z.shiftl x (32 - n))).
Definition ch (x y z : Z) : Z := Z.lxor (Z.land x y) (Z.land (4294967295 - x) z).
Definition maj (x y z : Z) : Z := Z.lxor (Z.lxor (Z.land x y) (Z.land x z)) (Z.land y z).
Definition bsig0 (x : Z) : Z := Z.lxor (Z.lxor (rotr 2 x) (rotr 13 x)) (rotr 22 x).
Definition bsig1 (x : Z) : Z := Z.lxor (Z.lxor (rotr 6 x) (rotr 11 x)) (rotr 25 x).
Definition ssig0 (x : Z) : Z := Z.lxor (Z.lxor (rotr 7 x) (rotr 18 x)) (Z.shiftr x 3).
Definition ssig1 (x : Z) : Z := Z.lxor (Z.lxor (rotr 17 x) (rotr 19 x)) (Z.shiftr x 10).

Definition K256 : list Z :=
  [1116352408; 1899447441; 3049323471; 3921009573; 961987163; 1508970993; 2453635748;
   2870763221; 3624381080; 310598401; 607225278; 1426881987; 1925078388; 2162078206;
   2614888103; 3248222580; 3835390401; 4022224774; 264347078; 604807628; 770255983;
   1249150122; 1555081692; 1996064986; 2554220882; 2821834349; 2952996808; 3210313671;
   3336571891; 3584528711; 113926993; 338241895; 666307205; 773529912; 1294757372;
   1396182291; 1695183700; 1986661051; 2177026350; 2456956037; 2730485921; 2820302411;
   3259730800; 3345764771; 3516065817; 3600352804; 4094571909; 275423344; 430227734;
   506948616; 659060556; 883997877; 958139571; 1322822218; 1537002063; 1747873779;
   1955562222; 2024104815; 2227730452; 2361852424; 2428436474; 2756734187; 3204031479;
   3329325298].

Definition H256 : list Z :=
  [1779033703; 3144134277; 1013904242; 2773480762; 1359893119; 2600822924; 528734635;
   1541459225].

(** The padded message: 0x80, zeros up to 56 modulo 64, the bit length. *)
Definition sha_pad (l : bytes) : bytes :=
  let n := Z.of_nat (length l) in
  l ++ Byte.x80 :: replicate (Z.to_nat ((55 - n) mod 64)) Byte.x00 ++ int_to_bytes 8 (8 * n).

Fixpoint words32 (l : bytes) : list Z :=
  match l with
  | a :: b :: c :: d :: l => int_from_bytes [a; b; c; d] :: words32 l
  | _ => []
  end.

(** The message schedule, most recent word first. *)
Definition sched_step (w : list Z) : list Z :=
  let g i := nth i w 0 in
  w32 (ssig1 (g 1%nat) + g 6%nat + ssig0 (g 14%nat) + g 15%nat) :: w.
Definition schedule (w : list Z) : list Z := reverse (Nat.iter 48 sched_step (reverse w)).

Definition round (s : list Z) (kw : Z * Z) : list Z :=
  match s with
  | [a; b; c; d; e; f; g; h] =>
    let t1 := h + bsig1 e + ch e f g + kw.1 + kw.2 in
    let t2 := bsig0 a + maj a b c in
    [w32 (t1 + t2); a; b; c; w32 (d + t1); e; f; g]
  | _ => s
  end.

Definition compress (h w : list Z) : list Z :=
  zip_with (λ x y, w32 (x + y)) h (foldl round h (zip K256 (schedule w))).

Fixpoint sha_blocks (fuel : nat) (h : list Z) (w : list Z) : list Z :=
  match fuel, w with
  | S k, _ :: _ => sha_blocks k (compress h (take 16 w)) (drop 16 w)
  | _, _ => h
  end.

Definition sha256 (l : bytes) : bytes :=
  let w := words32 (sha_pad l) in
  mjoin (int_to_bytes 4 <$> sha_blocks (length w) H256 w).

(** [hashlib.sha256(data).hexdigest()] *)
Definition sha256_hex (l : bytes) : string := hex (sha256 l).

(** The test vectors of FIPS 180-4 for "abc", and of the empty message. *)
Example sha256_abc :
  sha256_hex (utf8_encode "abc")
  = "ba7816bf8f01cfea414140de5dae2223b00361a396177a9cb410ff61f20015ad".
Proof. vm_compute. reflexivity. Qed.

Example sha256_empty :
  sha256_hex [] = "e3b0c44298fc1c149afbf4c8996fb92427ae41e4649b934ca495991b7852b855".
Proof. vm_compute. reflexivity. Qed.

Example sha256_two_blocks :
  sha256_hex (utf8_encode "abcdbcdecdefdefgefghfghighijhijkijkljklmklmnlmnomnopnopq")
  = "248d6a61d20638b8e5c026930c3e6039a33ce45964ff2167f6ecedd419db06c1".
Proof. vm_compute. reflexivity. Qed.
