(* ===== verification/Json.v ===== *)
(** * Python dictionaries, JSON values and the [json] module

    A [dict] is an association list in insertion order with distinct keys.
    The [json] module is seen through the class [JsonCodec]: [dumps], [loads]
    and the laws the client relies on ([JsonLaws]); [RefCodec] is an instance,
    used where a theorem has to be evaluated. *)

From S2P Require Import Prelude PyStr Codec.
From Stdlib Require Import Ascii.

(** ** Dictionaries *)

Section Dict.
Context {K : Type} `{EqDecision K} {V : Type}.
Implicit Types d : list (K * V).

Fixpoint dict_get (k : K) d : option V :=
  match d with
  | [] => None
  | (k', v) :: d => if decide (k = k') then Some v else dict_get k d
  end.
(** [d[k] = v]: an existing key keeps its place, a new one goes last. *)
Fixpoint dict_set (k : K) (v : V) d : list (K * V) :=
  match d with
  | [] => [(k, v)]
  | (k', v') :: d => if decide (k = k') then (k', v) :: d else (k', v') :: dict_set k v d
  end.
Fixpoint dict_del (k : K) d : list (K * V) :=
  match d with
  | [] => []
  | (k', v) :: d => if decide (k = k') then d else (k', v) :: dict_del k d
  end.
Definition dict_mem (k : K) d : bool :=
  match dict_get k d with Some _ => true | None => false end.
Definition dict_wf d : Prop := NoDup d.*1.
(** [d.update(d')] *)
Definition dict_update d d' : list (K * V) := foldl (λ d '(k, v), dict_set k v d) d d'.

Lemma dict_get_set_eq k v d : dict_get k (dict_set k v d) = Some v.
Proof.
  induction d as [|[k' v'] d IH]; cbn; [by rewrite decide_True|].
  case_decide; cbn; [by rewrite decide_True|by rewrite decide_False].
Qed.

Lemma dict_get_set_ne k k' v d : k ≠ k' → dict_get k' (dict_set k v d) = dict_get k' d.
Proof.
  intros Hk. induction d as [|[k0 v0] d IH]; cbn; [by rewrite decide_False|].
  case_decide; cbn; case_decide; by subst.
Qed.

Lemma dict_get_None k d : dict_get k d = None ↔ k ∉ d.*1.
Proof.
  induction d as [|[k' v'] d IH]; cbn; [set_solver|].
  case_decide; [split; set_solver|]. rewrite IH. set_solver.
Qed.

Lemma dict_mem_true k d : dict_mem k d = true ↔ k ∈ d.*1.
Proof.
  unfold dict_mem. destruct (dict_get k d) eqn:E.
  - split; [intros _|done]. destruct (decide (k ∈ d.*1)) as [|Hn]; [done|].
    apply dict_get_None in Hn. congruence.
  - apply dict_get_None in E. done.
Qed.

Lemma dict_get_elem k v d : dict_get k d = Some v → (k, v) ∈ d.
Proof.
  induction d as [|[k' v'] d IH]; cbn; [done|].
  case_decide; [intros [= ->]; subst; left|right; auto].
Qed.

Lemma dict_elem_get k v d : dict_wf d → (k, v) ∈ d → dict_get k d = Some v.
Proof.
  unfold dict_wf. induction d as [|[k' v'] d IH]; cbn; [set_solver|].
  intros [Hk Hd]%NoDup_cons [[= -> ->]|Hin]%elem_of_cons; [by rewrite decide_True|].
  rewrite decide_False; [auto|]. intros ->. apply Hk. apply list_elem_of_fmap. by exists (k', v).
Qed.

Lemma dict_set_keys k v d k' : k' ∈ (dict_set k v d).*1 ↔ k' = k ∨ k' ∈ d.*1.
Proof.
  induction d as [|[k0 v0] d IH]; cbn; [set_solver|].
  case_decide; cbn; [subst; set_solver|]. rewrite !elem_of_cons, IH. naive_solver.
Qed.

Lemma dict_set_wf k v d : dict_wf d → dict_wf (dict_set k v d).
Proof.
  unfold dict_wf. induction d as [|[k' v'] d IH]; cbn; [intros _; apply NoDup_singleton|].
  intros [Hk Hd]%NoDup_cons. case_decide; cbn; apply NoDup_cons; [done|].
  split; [|auto]. rewrite dict_set_keys. intros [|]; congruence.
Qed.

Lemma dict_del_keys k d k' : k' ∈ (dict_del k d).*1 → k' ∈ d.*1.
Proof.
  induction d as [|[k0 v0] d IH]; cbn; [done|]. case_decide; set_solver.
Qed.

Lemma dict_del_wf k d : dict_wf d → dict_wf (dict_del k d).
Proof.
  unfold dict_wf. induction d as [|[k' v'] d IH]; cbn; [done|].
  intros [Hk Hd]%NoDup_cons. case_decide; [done|]. cbn. apply NoDup_cons.
  split; [|auto]. intros ?%dict_del_keys. done.
Qed.

Lemma dict_get_del_eq k d : dict_wf d → dict_get k (dict_del k d) = None.
Proof.
  unfold dict_wf. induction d as [|[k' v'] d IH]; cbn; [done|].
  intros [Hk Hd]%NoDup_cons. case_decide; subst; [by apply dict_get_None|].
  cbn. rewrite decide_False by done. auto.
Qed.

Lemma dict_get_del_ne k k' d : k ≠ k' → dict_get k' (dict_del k d) = dict_get k' d.
Proof.
  intros Hk. induction d as [|[k0 v0] d IH]; cbn; [done|].
  case_decide; cbn; case_decide; by subst.
Qed.

(** Permuted dictionaries have the same lookups. *)
Lemma dict_get_perm k d1 d2 : dict_wf d1 → d1 ≡ₚ d2 → dict_get k d1 = dict_get k d2.
Proof.
  intros Hwf Hp. assert (dict_wf d2) by (unfold dict_wf in *; by rewrite <-Hp).
  destruct (dict_get k d1) as [v|] eqn:E.
  - symmetry. apply dict_elem_get; [done|]. rewrite <-Hp. by apply dict_get_elem.
  - symmetry. apply dict_get_None in E. apply dict_get_None. by rewrite <-Hp.
Qed.
End Dict.

Lemma dict_get_fmap `{EqDecision K} {V W} (f : V → W) k (d : list (K * V)) :
  dict_get k ((λ kv, (kv.1, f kv.2)) <$> d) = f <$> dict_get k d.
Proof. induction d as [|[k' v'] d IH]; cbn; [done|]. by case_decide. Qed.

#[export] Hint Resolve dict_set_wf dict_del_wf : aim.

(** ** JSON values *)

Inductive json :=
| JNull
| JBool (b : bool)
| JInt (z : Z)
| JStr (s : string)
| JArr (l : list json)
| JObj (d : list (string * json)).

Section JsonInd.
Context (P : json → Prop).
Context (Hnull : P JNull) (Hbool : ∀ b, P (JBool b)) (Hint : ∀ z, P (JInt z))
  (Hstr : ∀ s, P (JStr s)) (Harr : ∀ l, Forall P l → P (JArr l))
  (Hobj : ∀ d, Forall (λ kv, P kv.2) d → P (JObj d)).
Fixpoint json_ind' (j : json) : P j :=
  match j with
  | JNull => Hnull
  | JBool b => Hbool b
  | JInt z => Hint z
  | JStr s => Hstr s
  | JArr l => Harr l ((fix go l : Forall P l :=
      match l with [] => Forall_nil_2 _ | x :: l => Forall_cons_2 _ _ _ (json_ind' x) (go l) end) l)
  | JObj d => Hobj d ((fix go d : Forall (λ kv, P kv.2) d :=
      match d with
      | [] => Forall_nil_2 _
      | kv :: d => Forall_cons_2 _ _ _ (json_ind' kv.2) (go d)
      end) d)
  end.
End JsonInd.

(** Evaluates the lookups of a dictionary display: the tests between literal
    keys are decided. *)
Ltac dict_simpl := cbn; repeat
  match goal with
  | |- context [@decide (?a = ?b) ?d] =>
    first [rewrite (@decide_True _ (a = b) d) by done | rewrite (@decide_False _ (a = b) d) by done]; cbn
  end.

(** A faithful image in stdpp's generic trees gives decidable equality. *)
Fixpoint to_tree (j : json) : gen_tree (bool + Z + string) :=
  match j with
  | JNull => GenNode 0 []
  | JBool b => GenLeaf (inl (inl b))
  | JInt z => GenLeaf (inl (inr z))
  | JStr s => GenLeaf (inr s)
  | JArr l => GenNode 1 (to_tree <$> l)
  | JObj d => GenNode 2 ((λ kv, GenNode 3 [GenLeaf (inr kv.1); to_tree kv.2]) <$> d)
  end.
Fixpoint of_tree (t : gen_tree (bool + Z + string)) : json :=
  match t with
  | GenLeaf (inl (inl b)) => JBool b
  | GenLeaf (inl (inr z)) => JInt z
  | GenLeaf (inr s) => JStr s
  | GenNode 1 l => JArr (of_tree <$> l)
  | GenNode 2 l =>
    JObj ((λ t, match t with
                | GenNode _ [GenLeaf (inr k); v] => (k, of_tree v)
                | _ => (EmptyString, JNull)
                end) <$> l)
  | GenNode _ _ => JNull
  end.
Lemma of_to_tree j : of_tree (to_tree j) = j.
Proof.
  induction j as [|b|z|s|l IH|d IH] using json_ind'; cbn; [done..| |]; f_equal.
  - rewrite <-list_fmap_compose. induction IH as [|x l Hx _ IH]; cbn; by f_equal.
  - rewrite <-list_fmap_compose.
    induction IH as [|[k v] d Hx _ IH]; cbn in *; [done|]. by rewrite Hx, IH.
Qed.
#[export] Instance to_tree_inj : Inj (=) (=) to_tree.
Proof. intros j1 j2 H. by rewrite <-(of_to_tree j1), H, of_to_tree. Qed.
#[export] Instance json_eq_dec : EqDecision json.
Proof.
  refine (λ j1 j2, cast_if (decide (to_tree j1 = to_tree j2))); abstract (by rewrite ?(inj_iff to_tree) in *).
Defined.
#[export] Instance json_countable : Countable json := inj_countable' to_tree of_tree of_to_tree.

(** Python's truth value of a JSON value. *)
Definition truthy (j : json) : bool :=
  match j with
  | JNull => false
  | JBool b => b
  | JInt z => negb (z =? 0)%Z
  | JStr s => negb (bool_decide (s = ""))
  | JArr l => match l with [] => false | _ => true end
  | JObj d => match d with [] => false | _ => true end
  end.

(** [repr(s)]: the quotes [repr] chooses, and its escapes of ASCII characters
    (it would also escape the non-printable ones beyond ASCII). *)
Definition repr_char (quote a : ascii) : string :=
  let backslash := "092"%char in
  if bool_decide (a = quote) || bool_decide (a = backslash) then String backslash (String a "")
  else if bool_decide (a = "010"%char) then String backslash "n"
  else if bool_decide (a = "013"%char) then String backslash "r"
  else if bool_decide (a = "009"%char) then String backslash "t"
  else if (code a <? 32)%Z || (code a =? 127)%Z then String backslash (String "x" (hex [val_byte (code a)]))
  else String a "".
Definition py_repr_str (s : string) : string :=
  let quote := if str_mem "'" s && negb (str_mem "034" s) then "034"%char else "'"%char in
  String quote (foldr (λ a t, repr_char quote a +:+ t) (String quote "") (String.list_ascii_of_string s)).

(** [repr(j)] and [str(j)] *)
Fixpoint py_repr (j : json) : string :=
  match j with
  | JNull => "None"
  | JBool b => if b then "True" else "False"
  | JInt z => str_of_int z
  | JStr s => py_repr_str s
  | JArr l => "[" +:+ join ", " (py_repr <$> l) +:+ "]"
  | JObj d => "{" +:+ join ", " ((λ kv, py_repr_str kv.1 +:+ ": " +:+ py_repr kv.2) <$> d) +:+ "}"
  end.
Definition py_str (j : json) : string := match j with JStr s => s | _ => py_repr j end.

(** [j[k]], [j.get(k)], [k in j] with a string key. *)
Definition jindex (k : string) (j : json) : result json :=
  match j with
  | JObj d => of_option (KeyError k) (dict_get k d)
  | _ => Raise TypeError
  end.
Definition jget (k : string) (j : json) : result (option json) :=
  match j with JObj d => Ok (dict_get k d) | _ => Raise AttributeError end.
Definition jmem (k : string) (j : json) : bool :=
  match j with JObj d => dict_mem k d | _ => false end.
(** [j == s] and [j == n] for a [str] and an [int] ([True == 1]). *)
Definition json_is_str (s : string) (j : json) : bool :=
  match j with JStr s' => bool_decide (s' = s) | _ => false end.
Definition json_int (j : json) : option Z :=
  match j with JInt z => Some z | JBool b => Some (Z.b2z b) | _ => None end.
Definition json_is_int (z : Z) (j : json) : bool := bool_decide (json_int j = Some z).
Definition json_str (j : json) : option string :=
  match j with JStr s => Some s | _ => None end.

(** Distinct keys in every object, well-formed strings everywhere. *)
Fixpoint json_wf (j : json) : Prop :=
  match j with
  | JStr s => is_str s
  | JArr l => foldr (λ x P, json_wf x ∧ P) True l
  | JObj d => dict_wf d ∧ foldr (λ kv P, (is_str kv.1 ∧ json_wf kv.2) ∧ P) True d
  | _ => True
  end.

(** [sort_keys=True] *)
Definition key_le (x y : string * json) : Prop := String.le x.1 y.1.
#[export] Instance key_le_dec : RelDecision key_le := λ x y, decide (String.le x.1 y.1).
Fixpoint json_sort (j : json) : json :=
  match j with
  | JArr l => JArr (json_sort <$> l)
  | JObj d => JObj (merge_sort key_le ((λ kv, (kv.1, json_sort kv.2)) <$> d))
  | _ => j
  end.

(** ** The [json] module *)

Class JsonCodec := {
  json_dumps : json → string;
  (** [json.dumps(j, indent=2)] *)
  json_dumps_indent : json → string;
  json_loads : string → result json;
}.

Class JsonLaws (J : JsonCodec) : Prop := {
  loads_dumps j : json_wf j → json_loads (json_dumps j) = Ok j;
  loads_dumps_indent j : json_wf j → json_loads (json_dumps_indent j) = Ok j;
  loads_error s e : json_loads s = Raise e → is_value_error e = true;
  dumps_ascii j : str_all is_ascii (json_dumps j) = true;
  dumps_indent_ascii j : str_all is_ascii (json_dumps_indent j) = true;
  loads_empty : json_loads "{}" = Ok (JObj []);
}.

(** [json.loads(data)] of a UTF-8 [bytes]. *)
Definition json_loads_bytes `{JsonCodec} (l : bytes) : result json :=
  s ← utf8_decode l; json_loads s.
(** [json.dumps(j, sort_keys=True)] *)
Definition json_dumps_sorted `{JsonCodec} (j : json) : string := json_dumps (json_sort j).

Lemma ascii_is_str s : str_all is_ascii s = true → is_str s.
Proof.
  unfold is_str. induction s as [|a s IH]; [done|].
  change (utf8_encode (String a s)) with (Ascii.byte_of_ascii a :: utf8_encode s).
  cbn [str_all utf8_ok]. intros [Ha Hs]%andb_prop. rewrite (IH Hs).
  replace (byte_val (Ascii.byte_of_ascii a) <? 128)%Z with true; [done|].
  rewrite <-Ha. by destruct a as [[] [] [] [] [] [] [] []].
Qed.

Lemma dumps_is_str `{JsonLaws} j : is_str (json_dumps j).
Proof. apply ascii_is_str, dumps_ascii. Qed.
Lemma dumps_indent_is_str `{JsonLaws} j : is_str (json_dumps_indent j).
Proof. apply ascii_is_str, dumps_indent_ascii. Qed.
#[export] Hint Resolve dumps_is_str dumps_indent_is_str : aim.

Lemma loads_bytes_dumps `{JsonLaws} j :
  json_wf j → json_loads_bytes (utf8_encode (json_dumps j)) = Ok j.
Proof.
  intros Hj. unfold json_loads_bytes. rewrite utf8_decode_encode by apply dumps_is_str.
  by apply loads_dumps.
Qed.

Lemma loads_bytes_indent `{JsonLaws} j :
  json_wf j → json_loads_bytes (utf8_encode (json_dumps_indent j)) = Ok j.
Proof.
  intros Hj. unfold json_loads_bytes. rewrite utf8_decode_encode by apply dumps_indent_is_str.
  by apply loads_dumps_indent.
Qed.

Lemma loads_bytes_error `{JsonLaws} l e :
  json_loads_bytes l = Raise e → is_value_error e = true.
Proof.
  unfold json_loads_bytes, utf8_decode. destruct (utf8_ok l); cbn; [apply loads_error|by intros [= <-]].
Qed.

(** ** Sorting keys changes neither lookups nor well-formedness *)

Lemma fmap_keys_wf {V W} (f : V → W) (d : list (string * V)) :
  dict_wf ((λ kv, (kv.1, f kv.2)) <$> d) ↔ dict_wf d.
Proof. unfold dict_wf. by rewrite <-list_fmap_compose. Qed.

Lemma sorted_keys_wf (d : list (string * json)) : dict_wf (merge_sort key_le d) ↔ dict_wf d.
Proof. unfold dict_wf. by rewrite (merge_sort_Permutation key_le d). Qed.

Lemma dict_get_sort k (d : list (string * json)) :
  dict_wf d →
  dict_get k (merge_sort key_le ((λ kv, (kv.1, json_sort kv.2)) <$> d))
    = json_sort <$> dict_get k d.
Proof.
  intros Hd. rewrite <-dict_get_fmap. symmetry. apply dict_get_perm.
  - by apply fmap_keys_wf.
  - symmetry. apply merge_sort_Permutation.
Qed.

Lemma foldr_and_Forall {A} (P : A → Prop) l :
  foldr (λ x Q, P x ∧ Q) True l ↔ Forall P l.
Proof. induction l as [|x l IH]; cbn; rewrite ?Forall_nil, ?Forall_cons; [done|]. by rewrite IH. Qed.

Lemma json_wf_arr l : json_wf (JArr l) ↔ Forall json_wf l.
Proof. apply foldr_and_Forall. Qed.

Lemma json_wf_obj d :
  json_wf (JObj d) ↔ dict_wf d ∧ Forall (λ kv, is_str kv.1 ∧ json_wf kv.2) d.
Proof. cbn. by rewrite foldr_and_Forall. Qed.

Lemma json_wf_set k v d :
  is_str k → json_wf v → json_wf (JObj d) → json_wf (JObj (dict_set k v d)).
Proof.
  intros Hk Hv. rewrite !json_wf_obj. intros [Hd Hall]. split; [by apply dict_set_wf|]. clear Hd.
  induction Hall as [|[k' v'] d [Hk' Hv'] Hd IH]; cbn [dict_set]; [by apply Forall_singleton|].
  case_match; by apply Forall_cons.
Qed.

Lemma json_wf_sort j : json_wf j → json_wf (json_sort j).
Proof.
  induction j as [|b|z|s|l IH|d IH] using json_ind'; [done..| |].
  - cbn [json_sort]. rewrite !json_wf_arr, Forall_fmap. intros Hl.
    rewrite Forall_forall in *. intros x Hx. by apply IH, Hl.
  - cbn [json_sort]. rewrite !json_wf_obj, sorted_keys_wf, fmap_keys_wf. intros [Hd Hl].
    split; [done|]. rewrite (merge_sort_Permutation key_le), Forall_fmap.
    rewrite Forall_forall in *. intros x Hx. cbn. destruct (Hl x Hx). eauto.
Qed.

Lemma b64_is_str l : is_str (b64encode l).
Proof. apply ascii_is_str, b64encode_ascii. Qed.
Lemma hex_is_str l : is_str (hex l).
Proof. apply ascii_is_str. eapply str_all_impl; [apply is_hex_ascii|apply hex_all_hex]. Qed.
#[export] Hint Resolve b64_is_str hex_is_str : aim.

(** A dictionary display is well-formed: distinct literal keys, well-formed
    values. *)
Ltac json_wf_tac :=
  apply json_wf_obj; split;
  [unfold dict_wf; apply (bool_decide_unpack _); by vm_compute
  |repeat (apply Forall_cons_2; [split; [done|]; first [done|cbn; solve [eauto with aim]|by vm_compute|solve [json_wf_tac]]|]); apply Forall_nil_2].

(** ** A codec to evaluate with

    A compact text form: integers in binary, strings and keys in hex, each
    ended by a semicolon. *)

Fixpoint pos_str (p : positive) : string :=
  match p with
  | xH => ";"
  | xO p => String "0"%char (pos_str p)
  | xI p => String "1"%char (pos_str p)
  end.
Definition int_str (z : Z) : string :=
  match z with Z0 => "z" | Zpos p => String "+"%char (pos_str p) | Zneg p => String "-"%char (pos_str p) end.
Definition text_str (s : string) : string := hex (utf8_encode s) +:+ ";".

Fixpoint dump (j : json) : string :=
  match j with
  | JNull => "n"
  | JBool true => "t"
  | JBool false => "f"
  | JInt z => "i" +:+ int_str z
  | JStr s => "s" +:+ text_str s
  | JArr l => "[" +:+ sconcat (dump <$> l) +:+ "]"
  | JObj d => "{" +:+ sconcat ((λ kv, text_str kv.1 +:+ dump kv.2) <$> d) +:+ "}"
  end.

Fixpoint read_pos (s : string) : option (positive * string) :=
  match s with
  | String ";" s => Some (xH, s)
  | String "0" s => '(p, s) ← read_pos s; Some (xO p, s)
  | String "1" s => '(p, s) ← read_pos s; Some (xI p, s)
  | _ => None
  end.
Definition read_int (s : string) : option (Z * string) :=
  match s with
  | String "z" s => Some (Z0, s)
  | String "+" s => '(p, s) ← read_pos s; Some (Zpos p, s)
  | String "-" s => '(p, s) ← read_pos s; Some (Zneg p, s)
  | _ => None
  end.
Fixpoint read_text (s : string) : option (string * string) :=
  match s with
  | String ";" s => Some ("", s)
  | String a (String b s) =>
    x ← hex_val a; y ← hex_val b;
    '(t, s) ← read_text s;
    Some (String (ascii_of_byte (val_byte (16 * x + y))) t, s)
  | _ => None
  end.

Fixpoint parse (fuel : nat) (s : string) : option (json * string) :=
  match fuel with
  | O => None
  | S fuel =>
    match s with
    | String "n" s => Some (JNull, s)
    | String "t" s => Some (JBool true, s)
    | String "f" s => Some (JBool false, s)
    | String "i" s => '(z, s) ← read_int s; Some (JInt z, s)
    | String "s" s => '(t, s) ← read_text s; Some (JStr t, s)
    | String "[" s => '(l, s) ← parse_items fuel s; Some (JArr l, s)
    | String "{" s => '(d, s) ← parse_fields fuel s; Some (JObj d, s)
    | _ => None
    end
  end
with parse_items (fuel : nat) (s : string) : option (list json * string) :=
  match fuel with
  | O => None
  | S fuel =>
    match s with
    | String "]" s => Some ([], s)
    | _ => '(j, s) ← parse fuel s; '(l, s) ← parse_items fuel s; Some (j :: l, s)
    end
  end
with parse_fields (fuel : nat) (s : string) : option (list (string * json) * string) :=
  match fuel with
  | O => None
  | S fuel =>
    match s with
    | String "}" s => Some ([], s)
    | _ => '(k, s) ← read_text s; '(j, s) ← parse fuel s; '(d, s) ← parse_fields fuel s;
           Some ((k, j) :: d, s)
    end
  end.

Definition RefCodec : JsonCodec := {|
  json_dumps := dump;
  json_dumps_indent := dump;
  json_loads s := match parse (2 * String.length s) s with
                  | Some (j, "") => Ok j
                  | _ => Raise (ValueError "json")
                  end;
|}.

Lemma read_pos_str p rest : read_pos (pos_str p +:+ rest) = Some (p, rest).
Proof. induction p as [p IH|p IH|]; cbn [pos_str]; str_norm; cbn; by rewrite ?IH. Qed.

Lemma read_int_str z rest : read_int (int_str z +:+ rest) = Some (z, rest).
Proof. destruct z; cbn [int_str]; str_norm; cbn; by rewrite ?read_pos_str. Qed.

Lemma hex_digits_byte (b : byte) :
  let hi := hex_digit (byte_val b / 16) in let lo := hex_digit (byte_val b mod 16) in
  ∃ x y, hex_val hi = Some x ∧ hex_val lo = Some y ∧ val_byte (16 * x + y) = b ∧ hi ≠ ";"%char.
Proof. destruct b; do 2 eexists; by repeat split. Qed.

Lemma read_text_cons a b s :
  a ≠ ";"%char →
  read_text (String a (String b s)) =
    (x ← hex_val a; y ← hex_val b; '(t, s) ← read_text s;
     Some (String (ascii_of_byte (val_byte (16 * x + y))) t, s)).
Proof. intros Ha. by destruct a as [[] [] [] [] [] [] [] []]. Qed.

Lemma read_text_str t rest : read_text (text_str t +:+ rest) = Some (t, rest).
Proof.
  unfold text_str. rewrite str_app_assoc. induction t as [|a t IH]; [done|].
  change (utf8_encode (String a t)) with (byte_of_ascii a :: utf8_encode t).
  destruct (hex_digits_byte (byte_of_ascii a)) as (x&y&Hx&Hy&Hb&Hne).
  change (hex (byte_of_ascii a :: utf8_encode t)) with
    (String (hex_digit (byte_val (byte_of_ascii a) / 16))
      (String (hex_digit (byte_val (byte_of_ascii a) mod 16)) (hex (utf8_encode t)))).
  rewrite 2!str_app_cons, read_text_cons, Hx, Hy by done. cbn [mbind option_bind].
  rewrite IH, Hb. cbn. by rewrite ascii_of_byte_of_ascii.
Qed.

(** The fuel a value needs: one unit per constructor and per list cell. *)
Fixpoint json_size (j : json) : nat :=
  match j with
  | JArr l => S (foldr (λ x n, S (json_size x + n)) 1 l)
  | JObj d => S (foldr (λ kv n, S (json_size kv.2 + n)) 1 d)
  | _ => 1
  end.

Lemma json_size_length j : S (json_size j) <= 2 * String.length (dump j).
Proof.
  induction j as [|[]|z|s|l IH|d IH] using json_ind'; cbn [json_size dump];
    rewrite ?str_length_app; cbn [String.length]; try (cbn; lia).
  - assert (Hl : foldr (λ x n, S (json_size x + n)) 1 l <= 1 + 2 * String.length (sconcat (dump <$> l)));
      [|lia].
    induction IH as [|x l Hx _ IHl]; [done|]. cbn [foldr fmap list_fmap sconcat] in *.
    fold (sconcat (dump <$> l)). rewrite str_length_app. lia.
  - assert (Hd : foldr (λ (kv : string * json) n, S (json_size kv.2 + n)) 1 d
      <= 1 + 2 * String.length (sconcat ((λ kv, text_str kv.1 +:+ dump kv.2) <$> d))); [|lia].
    induction IH as [|[k x] d Hx _ IHd]; [done|]. cbn [foldr fmap list_fmap sconcat fst snd] in *.
    fold (sconcat ((λ kv, text_str kv.1 +:+ dump kv.2) <$> d)). rewrite !str_length_app. lia.
Qed.

Lemma dump_head j : ∃ a s, dump j = String a s ∧ a ≠ "]"%char.
Proof. destruct j as [|[]| | | |]; cbn [dump]; rewrite ?str_app_cons; by do 2 eexists. Qed.

Lemma text_str_head t : ∃ a s, text_str t = String a s ∧ a ≠ "}"%char.
Proof.
  unfold text_str. destruct t as [|c t]; [by do 2 eexists|].
  change (utf8_encode (String c t)) with (byte_of_ascii c :: utf8_encode t).
  assert (∀ b : byte, hex_digit (byte_val b / 16) ≠ "}"%char) as Hb by (by intros []).
  do 2 eexists. split; [reflexivity|apply Hb].
Qed.

Lemma parse_items_cons fuel s a s' :
  s = String a s' → a ≠ "]"%char →
  parse_items (S fuel) s = ('(j, s) ← parse fuel s; '(l, s) ← parse_items fuel s; Some (j :: l, s)).
Proof. intros -> Ha. by destruct a as [[] [] [] [] [] [] [] []]. Qed.

Lemma parse_fields_cons fuel s a s' :
  s = String a s' → a ≠ "}"%char →
  parse_fields (S fuel) s =
    ('(k, s) ← read_text s; '(j, s) ← parse fuel s; '(d, s) ← parse_fields fuel s; Some ((k, j) :: d, s)).
Proof. intros -> Ha. by destruct a as [[] [] [] [] [] [] [] []]. Qed.

Lemma parse_dump j fuel rest :
  (json_size j <= fuel)%nat → parse fuel (dump j +:+ rest) = Some (j, rest).
Proof.
  revert fuel rest. induction j as [|[]|z|s|l IH|d IH] using json_ind'; intros fuel rest Hf;
    (destruct fuel as [|fuel]; [cbn in Hf; lia|]); try done.
  - cbn [dump]. str_norm. cbn [parse]. by rewrite read_int_str.
  - cbn [dump]. str_norm. cbn [parse]. by rewrite read_text_str.
  - cbn [dump]. str_norm. cbn [parse]. cbn [json_size] in Hf.
    assert (Hl : ∀ fuel, (foldr (λ x n, S (json_size x + n)) 1 l <= fuel)%nat →
      parse_items fuel (sconcat (dump <$> l) +:+ String "]" rest) = Some (l, rest)).
    { clear Hf fuel. induction IH as [|x l Hx _ IHl]; intros fuel Hf;
        (destruct fuel as [|fuel]; [cbn in Hf; lia|]); [done|].
      cbn [foldr fmap list_fmap sconcat] in *. fold (sconcat (dump <$> l)). rewrite str_app_assoc.
      destruct (dump_head x) as (a&s&Hs&Ha). erewrite parse_items_cons; [|by rewrite Hs, str_app_cons|done].
      rewrite Hx by lia. cbn [mbind option_bind]. rewrite IHl by lia. done. }
    rewrite Hl by lia. done.
  - cbn [dump]. str_norm. cbn [parse]. cbn [json_size] in Hf.
    assert (Hd : ∀ fuel, (foldr (λ (kv : string * json) n, S (json_size kv.2 + n)) 1 d <= fuel)%nat →
      parse_fields fuel (sconcat ((λ kv, text_str kv.1 +:+ dump kv.2) <$> d) +:+ String "}" rest)
        = Some (d, rest)).
    { clear Hf fuel. induction IH as [|[k x] d Hx _ IHd]; intros fuel Hf;
        (destruct fuel as [|fuel]; [cbn in Hf; lia|]); [done|].
      cbn [foldr fmap list_fmap sconcat fst snd] in *.
      fold (sconcat ((λ kv, text_str kv.1 +:+ dump kv.2) <$> d)). rewrite !str_app_assoc.
      destruct (text_str_head k) as (a&s&Hs&Ha).
      erewrite parse_fields_cons; [|by rewrite Hs, str_app_cons|done].
      rewrite read_text_str. cbn [mbind option_bind]. rewrite Hx by lia. cbn [mbind option_bind].
      rewrite IHd by lia. done. }
    rewrite Hd by lia. done.
Qed.

Lemma str_all_sconcat p l : Forall (λ s, str_all p s = true) l → str_all p (sconcat l) = true.
Proof.
  induction 1 as [|s l Hs _ IH]; [done|]. cbn. fold (sconcat l). by rewrite str_all_app, Hs, IH.
Qed.

Lemma text_str_ascii t : str_all is_ascii (text_str t) = true.
Proof.
  unfold text_str. rewrite str_all_app.
  by rewrite (str_all_impl is_hex is_ascii) by (apply is_hex_ascii || apply hex_all_hex).
Qed.

Lemma int_str_ascii z : str_all is_ascii (int_str z) = true.
Proof.
  assert (Hp : ∀ p, str_all is_ascii (pos_str p) = true) by (induction p; done).
  destruct z; cbn; by rewrite ?Hp.
Qed.

Lemma dump_ascii j : str_all is_ascii (dump j) = true.
Proof.
  induction j as [|[]|z|s|l IH|d IH] using json_ind'; cbn [dump]; rewrite ?str_all_app; try done.
  - by rewrite int_str_ascii.
  - by rewrite text_str_ascii.
  - rewrite str_all_sconcat; [done|]. by apply Forall_fmap.
  - rewrite str_all_sconcat; [done|]. apply Forall_fmap. eapply Forall_impl; [exact IH|].
    intros [k x] Hx. cbn in *. by rewrite str_all_app, text_str_ascii.
Qed.

Lemma RefCodec_laws : JsonLaws RefCodec.
Proof.
  assert (Hl : ∀ j, json_wf j → json_loads (JsonCodec := RefCodec) (dump j) = Ok j).
  { intros j _. cbn -[Nat.mul]. pose proof (parse_dump j (2 * String.length (dump j)) "") as H.
    rewrite str_app_nil_r in H. rewrite H; [done|]. pose proof (json_size_length j). lia. }
  split; [done|done|..].
  - intros s e. cbn. destruct (parse _ s) as [[j []]|]; [done|..]; by intros [= <-].
  - intros j. apply dump_ascii.
  - intros j. apply dump_ascii.
  - done.
Qed.
