(* ===== verification/Base58.v ===== *)
(** * base58.py: the Bitcoin alphabet transform, without checksum *)

From S2P Require Import Prelude PyStr Codec Json.
From Stdlib Require Import Ascii.
Local Open Scope Z_scope.

(** ** Definitions *)

Definition _ALPHABET : string := "123456789ABCDEFGHJKLMNPQRSTUVWXYZabcdefghijkmnopqrstuvwxyz".

(** [_INDEX = {c: i for i, c in enumerate(_ALPHABET)}] *)
Fixpoint index_from (i : Z) (s : string) (c : ascii) : option Z :=
  match s with
  | "" => None
  | String a s => if bool_decide (a = c) then Some i else index_from (i + 1) s c
  end.
Definition _INDEX (c : ascii) : option Z := index_from 0 _ALPHABET c.
Definition alphabet_at (r : Z) : ascii := default "?"%char (String.get (Z.to_nat r) _ALPHABET).

(** The loop [while n: n, r = divmod(n, 58); out.append(_ALPHABET[r])], the
    remainders in the order they are appended. [fuel] bounds the iterations;
    [b58_digits] gives one per bit of [n]. *)
Fixpoint b58_loop (fuel : nat) (n : Z) : list Z :=
  match fuel with
  | O => []
  | S k => if n =? 0 then [] else n mod 58 :: b58_loop k (n / 58)
  end.
Definition b58_digits (n : Z) : list Z := b58_loop (Z.to_nat (Z.log2 n + 1)) n.

Definition is_zero (b : byte) : bool := byte_val b =? 0.
Definition is_one (a : ascii) : bool := bool_decide (a = "1"%char).

Definition b58encode (data : bytes) : string :=
  let n := int_from_bytes data in
  let out := alphabet_at <$> b58_digits n in
  let pad := length (take_while is_zero data) in
  String.string_of_list_ascii (replicate pad "1"%char ++ reverse out).

(** The character at the head of a text, and the message that names it. *)
Definition first_char (text : list ascii) : string :=
  default "" (head (uchars (String.string_of_list_ascii text))).
Definition invalid_character (ch : string) : exn :=
  ValueError ("invalid base58 character " +:+ py_repr_str ch).

(** The loop of [b58decode]; before a character that is refused every one is
    of the alphabet, a byte each. *)
Fixpoint b58_value (n : Z) (text : list ascii) : result Z :=
  match text with
  | [] => Ok n
  | ch :: text =>
    i ← of_option (invalid_character (first_char (ch :: text))) (_INDEX ch);
    b58_value (n * 58 + i) text
  end.

(** [(n.bit_length() + 7) // 8] *)
Definition byte_width (n : Z) : nat := Z.to_nat ((Z.log2 n + 1 + 7) / 8).

Definition b58decode (text : string) : result bytes :=
  let chars := String.list_ascii_of_string text in
  n ← b58_value 0 chars;
  let body := if n =? 0 then [] else int_to_bytes (byte_width n) n in
  let pad := length (take_while is_one chars) in
  Ok (replicate pad Byte.x00 ++ body).

(** ** Digits *)

Definition val58 (ds : list Z) : Z := foldl (λ n d, n * 58 + d) 0 ds.

Lemma val58_snoc ds d : val58 (ds ++ [d]) = val58 ds * 58 + d.
Proof. unfold val58. by rewrite foldl_app. Qed.

Definition digit (d : Z) : Prop := 0 <= d < 58.

Lemma b58_loop_spec fuel n :
  0 <= n < 2 ^ Z.of_nat fuel →
  val58 (reverse (b58_loop fuel n)) = n ∧ Forall digit (b58_loop fuel n) ∧
  ∀ ds d, b58_loop fuel n = ds ++ [d] → d ≠ 0.
Proof.
  revert n; induction fuel as [|k IH]; intros n Hn; cbn [b58_loop].
  { cbn in Hn. split; [cbn; lia|split; [done|]]. intros [] ? [=]. }
  destruct (Z.eqb_spec n 0) as [->|Hne].
  { split; [done|split; [done|]]. intros [] ? [=]. }
  rewrite Nat2Z.inj_succ, Z.pow_succ_r in Hn by lia.
  pose proof (Z.div_mod n 58 ltac:(done)). pose proof (Z.mod_pos_bound n 58 ltac:(done)).
  destruct (IH (n / 58)) as (Hv&Hr&Hl); [lia|].
  split; [|split].
  - rewrite reverse_cons, val58_snoc, Hv. lia.
  - constructor; [|done]. unfold digit. lia.
  - intros [|d0 ds] d [= <- Hds]; [|by apply (Hl ds)].
    rewrite Hds in Hv. cbn in Hv. lia.
Qed.

Lemma log2_fuel n : 0 <= n → 0 <= n < 2 ^ Z.of_nat (Z.to_nat (Z.log2 n + 1)).
Proof.
  intros Hn. pose proof (Z.log2_nonneg n). rewrite Z2Nat.id by lia.
  destruct (decide (n = 0)) as [->|]; [done|].
  pose proof (Z.log2_spec n ltac:(lia)). replace (Z.log2 n + 1) with (Z.succ (Z.log2 n)) by lia. lia.
Qed.

(** The loop of [b58encode] ends with [n = 0]: its digits denote [n]. *)
Lemma b58_digits_spec n :
  0 <= n →
  val58 (reverse (b58_digits n)) = n ∧ Forall digit (b58_digits n) ∧
  ∀ ds d, b58_digits n = ds ++ [d] → d ≠ 0.
Proof. intros Hn. apply b58_loop_spec. by apply log2_fuel. Qed.

Lemma val58_bound ds : Forall digit ds → 0 <= val58 ds < 58 ^ Z.of_nat (length ds).
Proof.
  induction ds as [|d ds IH] using rev_ind; [cbn; lia|].
  intros [Hds [Hd _]%Forall_cons]%Forall_app.
  rewrite val58_snoc, length_app, Nat2Z.inj_add, Z.pow_add_r by lia. unfold digit in Hd.
  specialize (IH Hds). cbn. lia.
Qed.

(** A numeral without a leading zero: the digits of a [b58encode] number. *)
Definition no_lead0 (ds : list Z) : Prop := ∀ d ds', ds = d :: ds' → d ≠ 0.

Lemma no_lead0_init ds d : no_lead0 (ds ++ [d]) → no_lead0 ds.
Proof. intros H d' ds' ->. by apply (H d' (ds' ++ [d])). Qed.

Lemma val58_pos ds : Forall digit ds → no_lead0 ds → ds ≠ [] → 0 < val58 ds.
Proof.
  induction ds as [|d ds IH] using rev_ind; [done|].
  intros [Hds [Hd _]%Forall_cons]%Forall_app Hz _. unfold digit in Hd.
  rewrite val58_snoc. destruct (decide (ds = [])) as [->|Hne].
  - pose proof (Hz d [] eq_refl). cbn. lia.
  - specialize (IH Hds (no_lead0_init _ _ Hz) Hne). lia.
Qed.

(** Numerals without a leading zero are determined by their value. *)
Lemma val58_inj ds1 ds2 :
  Forall digit ds1 → Forall digit ds2 → no_lead0 ds1 → no_lead0 ds2 →
  val58 ds1 = val58 ds2 → ds1 = ds2.
Proof.
  revert ds2; induction ds1 as [|d1 ds1 IH] using rev_ind; intros ds2 H1 H2 Hz1 Hz2 Hv.
  { destruct ds2 as [|d ds]; [done|].
    pose proof (val58_pos (d :: ds) H2 Hz2 ltac:(done)). cbn in *. lia. }
  destruct ds2 as [|d2 ds2 _] using rev_ind.
  { pose proof (val58_pos _ H1 Hz1 ltac:(by destruct ds1)). cbn in Hv. lia. }
  apply Forall_app in H1 as [H1 [Hd1 _]%Forall_cons].
  apply Forall_app in H2 as [H2 [Hd2 _]%Forall_cons].
  rewrite !val58_snoc in Hv. unfold digit in Hd1, Hd2.
  assert (val58 ds1 = val58 ds2 ∧ d1 = d2) as [Hv' ->] by lia.
  f_equal. apply IH; eauto using no_lead0_init.
Qed.

Lemma b58_digits_no_lead0 n : 0 <= n → no_lead0 (reverse (b58_digits n)).
Proof.
  intros Hn d ds Hds. destruct (b58_digits_spec n Hn) as (_&_&Hl).
  apply (Hl (reverse ds)). rewrite <-(reverse_involutive (b58_digits n)), Hds.
  by rewrite reverse_cons.
Qed.

Lemma b58_digits_val ds :
  Forall digit ds → no_lead0 ds → reverse (b58_digits (val58 ds)) = ds.
Proof.
  intros Hds Hz. pose proof (val58_bound ds Hds) as [Hn _].
  destruct (b58_digits_spec _ Hn) as (Hv&Hr&_).
  apply val58_inj; [by rewrite Forall_reverse|done|by apply b58_digits_no_lead0|done|done].
Qed.

(** ** The alphabet *)

Lemma alphabet_spec d :
  digit d → _INDEX (alphabet_at d) = Some d ∧ is_one (alphabet_at d) = (d =? 0)
    ∧ alphabet_at d ≠ ":"%char ∧ is_ascii (alphabet_at d) = true.
Proof.
  intros Hd.
  assert (Hall : Forall (λ d, _INDEX (alphabet_at d) = Some d ∧ is_one (alphabet_at d) = (d =? 0)
    ∧ alphabet_at d ≠ ":"%char ∧ is_ascii (alphabet_at d) = true) (Z.of_nat <$> seq 0 58))
    by (repeat constructor; done).
  rewrite Forall_forall in Hall. apply Hall, list_elem_of_fmap. unfold digit in Hd.
  exists (Z.to_nat d). split; [lia|apply elem_of_seq; lia].
Qed.

Lemma index_spec c d : _INDEX c = Some d → digit d ∧ alphabet_at d = c.
Proof.
  unfold _INDEX, _ALPHABET. cbn -[Z.add]. unfold digit.
  repeat (case_bool_decide; [intros [= <-]; subst; split; [lia|done]|]). done.
Qed.

Lemma b58_value_digits ds n :
  Forall digit ds →
  b58_value n (alphabet_at <$> ds) = Ok (foldl (λ n d, n * 58 + d) n ds).
Proof.
  revert n; induction ds as [|d ds IH]; intros n; [done|]. intros [Hd Hds]%Forall_cons.
  rewrite fmap_cons. cbn [b58_value foldl].
  destruct (alphabet_spec d Hd) as [-> _]. by apply IH.
Qed.

Lemma b58_value_inv text n v :
  b58_value n text = Ok v →
  ∃ ds, Forall digit ds ∧ text = alphabet_at <$> ds ∧ v = foldl (λ n d, n * 58 + d) n ds.
Proof.
  revert n; induction text as [|c text IH]; intros n H; cbn in H.
  - injection H as <-. exists []. done.
  - inv_ok. apply index_spec in H0 as [Hd <-].
    destruct (IH _ H) as (ds&Hds&->&->). exists (x :: ds). split; [by constructor|done].
Qed.

(** ** Round trips *)

Lemma is_zero_true b : is_zero b = true ↔ b = Byte.x00.
Proof.
  unfold is_zero. rewrite Z.eqb_eq. split; [|by intros ->].
  intros H. rewrite <-(val_byte_val b), H. done.
Qed.

(** Bytes are some zeros followed by a number without a leading zero byte. *)
Lemma bytes_zeros_split (data : bytes) :
  data = replicate (length (take_while is_zero data)) Byte.x00 ++ drop_while is_zero data.
Proof.
  rewrite <-(take_drop_while is_zero data) at 1. f_equal.
  symmetry. apply replicate_as_Forall. split; [done|].
  eapply Forall_impl; [apply take_while_all|]. intros b. cbn. by rewrite is_zero_true.
Qed.

Lemma int_from_bytes_zeros k (l : bytes) :
  int_from_bytes (replicate k Byte.x00 ++ l) = int_from_bytes l.
Proof.
  unfold int_from_bytes. rewrite foldl_app. f_equal.
  induction k as [|k IH]; [done|]. exact IH.
Qed.

Lemma int_from_bytes_drop (data : bytes) :
  int_from_bytes data = int_from_bytes (drop_while is_zero data).
Proof. rewrite (bytes_zeros_split data) at 1. apply int_from_bytes_zeros. Qed.

(** A number whose first byte is not zero needs exactly its bytes. *)
Lemma int_from_bytes_lower b (l : bytes) :
  b ≠ Byte.x00 → 256 ^ Z.of_nat (length l) <= int_from_bytes (b :: l).
Proof.
  intros Hb. induction l as [|c l IH] using rev_ind.
  - cbn. pose proof (byte_val_range b). assert (byte_val b ≠ 0); [|lia].
    intros H0. apply Hb, is_zero_true. by apply Z.eqb_eq.
  - rewrite app_comm_cons, int_from_bytes_snoc, length_app, Nat2Z.inj_add, Z.pow_add_r by lia.
    pose proof (byte_val_range c). cbn [length]. lia.
Qed.

Lemma byte_width_spec n k :
  256 ^ Z.of_nat k <= n < 256 ^ Z.of_nat (S k) → byte_width n = S k.
Proof.
  intros Hn. assert (Hlog : 8 * Z.of_nat k <= Z.log2 n < 8 * Z.of_nat (S k)).
  { assert (H2 : ∀ j, 256 ^ Z.of_nat j = 2 ^ (8 * Z.of_nat j)) by (intros j; by rewrite Z.pow_mul_r by lia).
    rewrite !H2 in Hn. pose proof (Z.pow_pos_nonneg 2 (8 * Z.of_nat k)).
    split; [apply Z.log2_le_pow2; lia|apply Z.log2_lt_pow2; lia]. }
  unfold byte_width. Z.div_mod_to_equations. lia.
Qed.

Lemma b58_body (l : bytes) :
  (∀ b l', l = b :: l' → is_zero b = false) →
  let n := int_from_bytes l in (if n =? 0 then [] else int_to_bytes (byte_width n) n) = l.
Proof.
  intros Hl. destruct l as [|b l]; [done|]. cbn zeta.
  pose proof (int_from_bytes_bound (b :: l)) as Hub.
  assert (Hb : b ≠ Byte.x00) by (intros H; apply is_zero_true in H; by rewrite (Hl b l) in H).
  pose proof (int_from_bytes_lower b l Hb) as Hlb.
  pose proof (Z.pow_pos_nonneg 256 (Z.of_nat (length l))).
  destruct (Z.eqb_spec (int_from_bytes (b :: l)) 0); [lia|].
  rewrite (byte_width_spec _ (length l)) by (split; [done|apply Hub]).
  exact (int_to_from_bytes (b :: l)).
Qed.

Lemma alphabet_ones k : replicate k "1"%char = alphabet_at <$> replicate k 0.
Proof. induction k as [|k IH]; [done|]. cbn. by rewrite IH. Qed.

Lemma digits_head_one ds x l' :
  Forall digit ds → no_lead0 ds → alphabet_at <$> ds = x :: l' → is_one x = false.
Proof.
  intros Hds Hz H. destruct ds as [|d ds]; [done|]. injection H as <- <-.
  apply Forall_cons in Hds as [Hd _]. destruct (alphabet_spec d Hd) as (_&->&_).
  apply Z.eqb_neq. by apply (Hz d ds).
Qed.

Lemma foldl58_zeros k n : foldl (λ n d, n * 58 + d) n (replicate k 0) = n * 58 ^ Z.of_nat k.
Proof.
  revert n; induction k as [|k IH]; intros n; [cbn; lia|].
  cbn [replicate foldl]. rewrite IH, Nat2Z.inj_succ, Z.pow_succ_r by lia. lia.
Qed.

Lemma val58_zeros k ds : val58 (replicate k 0 ++ ds) = val58 ds.
Proof. unfold val58. rewrite foldl_app, foldl58_zeros. f_equal. Qed.

(** The text of a byte string, as digits. *)
Lemma b58encode_chars data :
  ∃ ds, Forall digit ds ∧ no_lead0 ds ∧ val58 ds = int_from_bytes data ∧
    String.list_ascii_of_string (b58encode data)
      = alphabet_at <$> (replicate (length (take_while is_zero data)) 0 ++ ds).
Proof.
  exists (reverse (b58_digits (int_from_bytes data))).
  destruct (int_from_bytes_bound data) as [Hn _].
  destruct (b58_digits_spec _ Hn) as (Hv&Hr&_).
  split_and!; [by rewrite Forall_reverse|by apply b58_digits_no_lead0|done|].
  unfold b58encode. rewrite String.list_ascii_of_string_of_list_ascii.
  by rewrite fmap_app, alphabet_ones, fmap_reverse.
Qed.

(** ** Properties *)

(** The text of a byte string has no separator, and is shorter than the
    64 characters of a hexadecimal key. *)
Lemma b58encode_ascii data : str_all is_ascii (b58encode data) = true.
Proof.
  destruct (b58encode_chars data) as (ds&Hds&_&_&Hc).
  rewrite str_all_list, Hc. apply forallb_forall. intros a Ha.
  apply list_elem_of_In, list_elem_of_fmap in Ha as (d&->&Hd).
  apply alphabet_spec. apply elem_of_app in Hd as [Hd|Hd].
  - apply elem_of_replicate in Hd as [-> _]. unfold digit. lia.
  - rewrite Forall_forall in Hds. by apply Hds.
Qed.

Lemma b58encode_no_colon data : str_mem ":"%char (b58encode data) = false.
Proof.
  destruct (b58encode_chars data) as (ds&Hds&_&_&Hc).
  rewrite str_mem_list, Hc. apply bool_decide_eq_false. intros Ha.
  apply list_elem_of_fmap in Ha as (d&Heq&Hd). symmetry in Heq. revert Heq.
  apply alphabet_spec. apply elem_of_app in Hd as [Hd|Hd].
  - apply elem_of_replicate in Hd as [-> _]. unfold digit. lia.
  - rewrite Forall_forall in Hds. by apply Hds.
Qed.

Lemma val58_lower ds :
  Forall digit ds → no_lead0 ds → ds ≠ [] → 58 ^ (Z.of_nat (length ds) - 1) <= val58 ds.
Proof.
  induction ds as [|d ds IH] using rev_ind; [done|].
  intros [Hds [Hd _]%Forall_cons]%Forall_app Hz _. unfold digit in Hd.
  rewrite val58_snoc, length_app. cbn [length].
  replace (Z.of_nat (length ds + 1) - 1) with (Z.of_nat (length ds)) by lia.
  destruct (decide (ds = [])) as [->|Hne].
  - cbn. specialize (Hz d [] eq_refl). lia.
  - specialize (IH Hds (no_lead0_init _ _ Hz) Hne).
    replace (Z.of_nat (length ds)) with (Z.succ (Z.of_nat (length ds) - 1)) by lia.
    destruct ds; [done|]. rewrite Z.pow_succ_r by (cbn; lia). lia.
Qed.

Lemma string_length_list s : String.length s = length (String.list_ascii_of_string s).
Proof. induction s as [|a s IH]; cbn; by rewrite ?IH. Qed.

Lemma b58encode_length32 data : length data = 32%nat → (String.length (b58encode data) < 64)%nat.
Proof.
  intros Hlen. destruct (b58encode_chars data) as (ds&Hds&Hz&Hv&Hc).
  rewrite string_length_list, Hc, length_fmap, length_app, length_replicate.
  pose proof (bytes_zeros_split data) as Hsplit. apply (f_equal length) in Hsplit.
  rewrite length_app, length_replicate, Hlen in Hsplit.
  rewrite int_from_bytes_drop in Hv.
  pose proof (int_from_bytes_bound (drop_while is_zero data)) as [_ Hb]. rewrite <-Hv in Hb.
  set (k := length (take_while is_zero data)) in *.
  set (j := length (drop_while is_zero data)) in *.
  destruct (decide (ds = [])) as [->|Hne]; [cbn; lia|].
  pose proof (val58_lower ds Hds Hz Hne) as Hl.
  set (h := Z.of_nat j / 2 + 1).
  assert (H2 : 256 ^ Z.of_nat j <= 58 ^ (3 * h)).
  { trans (256 ^ (2 * h)); [apply Z.pow_le_mono_r; unfold h; Z.div_mod_to_equations; lia|].
    rewrite !Z.pow_mul_r by (unfold h; Z.div_mod_to_equations; lia). apply Z.pow_le_mono_l. lia. }
  assert (H3 : Z.of_nat (length ds) - 1 < 3 * h).
  { apply (Z.pow_lt_mono_r_iff 58); [lia|unfold h; Z.div_mod_to_equations; lia|lia]. }
  unfold h in H3. Z.div_mod_to_equations. lia.
Qed.

Lemma b58_decode_encode data : b58decode (b58encode data) = Ok data.
Proof.
  destruct (b58encode_chars data) as (ds&Hds&Hz&Hv&Hc).
  unfold b58decode. rewrite Hc.
  rewrite b58_value_digits by (apply Forall_app; split; [by apply Forall_replicate|done]).
  fold (val58 (replicate (length (take_while is_zero data)) 0 ++ ds)).
  rewrite val58_zeros, Hv, fmap_app, <-alphabet_ones. cbn [mbind result_bind].
  rewrite take_while_replicate, length_replicate by (done || eauto using digits_head_one).
  rewrite int_from_bytes_drop, b58_body by eauto using drop_while_head.
  by rewrite <-bytes_zeros_split.
Qed.

Lemma take_drop_ones ds :
  Forall digit ds →
  ∃ k ds', ds = replicate k 0 ++ ds' ∧ no_lead0 ds'.
Proof.
  induction 1 as [|d ds Hd _ (k&ds'&->&Hz)].
  - exists 0%nat, []. split; [done|]. intros ?? [=].
  - destruct (decide (d = 0)) as [->|Hne].
    + by exists (S k), ds'.
    + exists 0%nat, (d :: replicate k 0 ++ ds'). split; [done|]. by intros ?? [= <- _].
Qed.

(** The byte form of a numeral has no zero byte in front. *)
Lemma b58_body_head ds :
  Forall digit ds → no_lead0 ds →
  let n := val58 ds in
  ∀ b l', (if n =? 0 then [] else int_to_bytes (byte_width n) n) = b :: l' → is_zero b = false.
Proof.
  intros Hds Hz n b l'. destruct (Z.eqb_spec n 0) as [|Hne]; [done|].
  pose proof (val58_bound ds Hds) as [Hn _]. fold n in Hn.
  intros Hl. destruct (is_zero b) eqn:Hb; [|done]. apply is_zero_true in Hb as ->. exfalso.
  assert (Hlen : length l' = pred (byte_width n))
    by (rewrite <-(length_int_to_bytes (byte_width n) n), Hl; done).
  assert (Hw : 8 * Z.of_nat (pred (byte_width n)) <= Z.log2 n < 8 * Z.of_nat (byte_width n)).
  { unfold byte_width. pose proof (Z.log2_nonneg n). Z.div_mod_to_equations. lia. }
  pose proof (Z.log2_spec n ltac:(lia)) as [Hlo Hhi].
  assert (Hfit : n < 256 ^ Z.of_nat (byte_width n)).
  { change 256 with (2 ^ 8). rewrite <-Z.pow_mul_r by lia.
    eapply Z.lt_le_trans; [exact Hhi|]. apply Z.pow_le_mono_r; lia. }
  pose proof (int_from_to_bytes (byte_width n) n ltac:(lia)) as Hv. rewrite Hl in Hv.
  change (Byte.x00 :: l') with (replicate 1 Byte.x00 ++ l') in Hv.
  rewrite int_from_bytes_zeros in Hv. pose proof (int_from_bytes_bound l') as [_ Hub].
  rewrite Hlen, Hv in Hub. change 256 with (2 ^ 8) in Hub. rewrite <-Z.pow_mul_r in Hub by lia.
  assert (2 ^ (8 * Z.of_nat (pred (byte_width n))) <= 2 ^ Z.log2 n) by (apply Z.pow_le_mono_r; lia).
  lia.
Qed.

Lemma b58_body_value ds :
  Forall digit ds → no_lead0 ds →
  let n := val58 ds in
  int_from_bytes (if n =? 0 then [] else int_to_bytes (byte_width n) n) = n.
Proof.
  intros Hds Hz n. destruct (Z.eqb_spec n 0) as [->|Hne]; [done|].
  pose proof (val58_bound ds Hds) as [Hn _]. fold n in Hn.
  apply int_from_to_bytes. split; [done|].
  pose proof (Z.log2_spec n ltac:(lia)) as [_ Hhi]. pose proof (Z.log2_nonneg n).
  change 256 with (2 ^ 8). rewrite <-Z.pow_mul_r by lia.
  eapply Z.lt_le_trans; [exact Hhi|]. apply Z.pow_le_mono_r; [lia|].
  unfold byte_width. Z.div_mod_to_equations. lia.
Qed.

(** The text leaves the alphabet, first at the character the exception names. *)
Definition refused (e : exn) (text : list ascii) : Prop :=
  ∃ l c rest, text = l ++ c :: rest ∧ Forall (λ a, is_Some (_INDEX a)) l ∧ _INDEX c = None ∧
    e = invalid_character (first_char (c :: rest)).

Lemma refused_is_value_error e text : refused e text → is_value_error e = true.
Proof. by intros (?&?&?&_&_&_&->). Qed.
Lemma refused_outside e text : refused e text → ¬ Forall (λ a, is_Some (_INDEX a)) text.
Proof. intros (l&c&rest&->&_&Hc&_) [_ [[? ?] _]%Forall_cons]%Forall_app. congruence. Qed.
Lemma refused_unique e e' text : refused e text → refused e' text → e = e'.
Proof.
  intros (l&c&r&->&Hl&Hc&->) (l'&c'&r'&E&Hl'&Hc'&->).
  enough (c :: r = c' :: r') as -> by done. revert l' E Hl'. induction Hl as [|a l [x Ha] Hl IH]; intros [|a' l'] E Hl'; simplify_list_eq.
  - done.
  - apply Forall_cons in Hl' as [[? ?] _]. congruence.
  - apply Forall_cons in Hl' as [_ ?]. eauto.
Qed.

Lemma b58_encode_decode text :
  match b58decode text with
  | Ok data => b58encode data = text
  | Raise e => refused e (String.list_ascii_of_string text)
  end.
Proof.
  unfold b58decode. destruct (b58_value 0 _) as [v|e] eqn:Hv; cbn [mbind result_bind].
  - destruct (b58_value_inv _ _ _ Hv) as (ds0&Hds0&Ht&->).
    destruct (take_drop_ones ds0 Hds0) as (k&ds&->&Hz).
    apply Forall_app in Hds0 as [_ Hds]. fold (val58 (replicate k 0 ++ ds)).
    rewrite Ht, val58_zeros, fmap_app, <-alphabet_ones.
    rewrite take_while_replicate, length_replicate by (done || eauto using digits_head_one).
    unfold b58encode. rewrite int_from_bytes_zeros, b58_body_value by done.
    rewrite take_while_replicate, length_replicate by (done || by apply b58_body_head).
    rewrite <-fmap_reverse, b58_digits_val, alphabet_ones, <-fmap_app by done.
    by rewrite <-Ht, String.string_of_list_ascii_of_string.
  - revert Hv. generalize 0. induction (String.list_ascii_of_string text) as [|c l IH]; intros n Hv; [done|].
    cbn [b58_value] in Hv. destruct (_INDEX c) as [d|] eqn:Hc; cbn [of_option mbind result_bind] in Hv.
    + destruct (IH _ Hv) as (l1&c1&rest&->&Hl&Hr). exists (c :: l1), c1, rest.
      split; [done|]. split; [by constructor|done].
    + injection Hv as <-. by exists [], c, l.
Qed.

(** C32: [b58decode] is exactly the inverse of [b58encode], leading zero bytes
    included: a text decodes to the byte string it encodes, and to nothing
    else; it is refused just when it leaves the alphabet, with the [ValueError]
    that names the first character to do so. *)
Theorem base58_bijection text :
  (∀ data, b58decode text = Ok data ↔ b58encode data = text) ∧
  (∀ e, b58decode text = Raise e ↔ refused e (String.list_ascii_of_string text)).
Proof.
  pose proof (b58_encode_decode text) as H. split.
  - intros data. split; [|intros <-; apply b58_decode_encode]. intros E. by rewrite E in H.
  - intros e. destruct (b58decode text) as [data|e'] eqn:E.
    + split; [done|]. intros Hr%refused_outside. destruct Hr. apply Forall_forall. intros c Hc.
      destruct (b58encode_chars data) as (ds&Hds&_&_&Hchars). rewrite H in Hchars.
      rewrite Hchars in Hc. apply list_elem_of_fmap in Hc as (d&->&Hd).
      exists d. apply alphabet_spec. apply elem_of_app in Hd as [Hd|Hd].
      * apply elem_of_replicate in Hd as [-> _]. unfold digit. lia.
      * rewrite Forall_forall in Hds. by apply Hds.
    + split; [by intros [= <-]|]. intros He. by rewrite (refused_unique e e' _ He H).
Qed.
