(* ===== verification/Sys.v ===== *)
(** * The operating system as the client sees it

    Files with their permission bits, the environment, the clock, the
    terminal, the randomness source and the daemon behind its socket.  The
    daemon ([daemon/], Go) is an interface: a state and a reply to each
    request. *)

From S2P Require Import Prelude PyStr Codec Json.
From Stdlib Require Import Ascii.

(** ** Files *)

Record file := File { f_data : bytes; f_mode : Z }.
Abbreviation fs := (gmap string file).

#[export] Instance file_eq_dec : EqDecision file.
Proof. solve_decision. Defined.

(** The system calls of the client's writers. [SOpen] is
    [O_WRONLY | O_CREAT | O_TRUNC]: the mode is that of a file it creates. *)
Inductive syscall :=
| SOpen (path : string) (mode : Z)
| SWrite (path : string) (data : bytes)
| SReplace (src dst : string)
| SRemove (path : string).

Definition not_found (path : string) : exn := OSError ("No such file or directory: " +:+ path).

Definition sys_run (c : syscall) (m : fs) : result fs :=
  match c with
  | SOpen p mode =>
    Ok (<[p := File [] (match m !! p with Some f => f_mode f | None => mode end)]> m)
  | SWrite p data =>
    f ← of_option (not_found p) (m !! p);
    Ok (<[p := File (f_data f ++ data) (f_mode f)]> m)
  | SReplace src dst =>
    f ← of_option (not_found src) (m !! src);
    Ok (<[dst := f]> (delete src m))
  | SRemove p => f ← of_option (not_found p) (m !! p); Ok (delete p m)
  end.

Fixpoint sys_all (cs : list syscall) (m : fs) : result fs :=
  match cs with [] => Ok m | c :: cs => m ← sys_run c m; sys_all cs m end.

(** [with open(path) as f: f.read()] *)
Definition fs_read (path : string) (m : fs) : result bytes :=
  f ← of_option (not_found path) (m !! path); Ok (f_data f).
Definition fs_exists (path : string) (m : fs) : bool := bool_decide (is_Some (m !! path)).

(** The idiom shared by every writer of a key, contact or attachment file:
    write [<path>.tmp], then [os.replace] it over [path]. *)
Definition write_replace (path : string) (data : bytes) (mode : Z) : list syscall :=
  [SOpen (path +:+ ".tmp") mode; SWrite (path +:+ ".tmp") data; SReplace (path +:+ ".tmp") path].

Lemma tmp_ne path : path +:+ ".tmp" ≠ path.
Proof.
  intros H. apply (f_equal String.length) in H.
  assert (Hl : ∀ s t, String.length (s +:+ t) = String.length s + String.length t)
    by (intros s t; induction s; [done|]; rewrite str_app_cons; cbn; lia).
  rewrite Hl in H. cbn in H. lia.
Qed.

Lemma sys_all_app cs1 cs2 m : sys_all (cs1 ++ cs2) m = (sys_all cs1 m ≫= sys_all cs2).
Proof.
  revert m; induction cs1 as [|c cs1 IH]; intros m; [done|]. cbn.
  destruct (sys_run c m); cbn; [apply IH|done].
Qed.

(** The complete write: it always succeeds, [path] holds the new data and
    nothing else but the temporary file changed. *)
Lemma write_replace_spec path data mode m :
  ∃ m' md, sys_all (write_replace path data mode) m = Ok m' ∧
    m' !! path = Some (File data md) ∧ m' !! (path +:+ ".tmp") = None ∧
    md = match m !! (path +:+ ".tmp") with Some f => f_mode f | None => mode end ∧
    ∀ p, p ≠ path → p ≠ path +:+ ".tmp" → m' !! p = m !! p.
Proof.
  pose proof (tmp_ne path) as Hne. set (tmp := path +:+ ".tmp") in *.
  unfold write_replace. fold tmp. cbn [sys_all sys_run mbind result_bind].
  rewrite lookup_insert_eq. cbn [of_option sys_all sys_run mbind result_bind].
  rewrite lookup_insert_eq. cbn [of_option].
  do 2 eexists. split; [reflexivity|]. split_and!.
  - apply lookup_insert_eq.
  - rewrite lookup_insert_ne by done. apply lookup_delete_eq.
  - done.
  - intros p Hp Ht. rewrite lookup_insert_ne, lookup_delete_ne by done.
    by rewrite !lookup_insert_ne.
Qed.

(** A crash between two calls leaves the old file or the new one. *)
Lemma write_replace_atomic path data mode m cs :
  cs `prefix_of` write_replace path data mode →
  ∃ m', sys_all cs m = Ok m' ∧
    (m' !! path = m !! path ∨ ∃ md, m' !! path = Some (File data md)).
Proof.
  pose proof (tmp_ne path) as Hne. intros [rest Hcs].
  destruct cs as [|c1 cs]; [by eexists; split; [done|left]|].
  injection Hcs as <- Hcs. destruct cs as [|c2 cs].
  { eexists. split; [reflexivity|]. left. by rewrite lookup_insert_ne. }
  injection Hcs as <- Hcs. destruct cs as [|c3 cs].
  { cbn. rewrite lookup_insert_eq. cbn. eexists. split; [reflexivity|]. left.
    by rewrite !lookup_insert_ne. }
  injection Hcs as <- Hcs. destruct cs; [|done].
  destruct (write_replace_spec path data mode m) as (m'&md&Hm&Hp&_).
  exists m'. eauto.
Qed.

(** ** The daemon's interface *)

Class Daemon := {
  dstate : Type;
  (** [DaemonClient(path)]: opening the socket, an [OSError] when nobody listens *)
  d_connect : string → dstate → result unit;
  (** one request of an open client: operation, fields; the reply object *)
  d_request : string → list (string * json) → dstate → result json * dstate;
}.

(** ** The world *)

Section World.
Context `{D : Daemon}.

Record world := World {
  w_fs : fs;
  w_env : gmap string string;
  w_home : string;
  w_now : Z;              (* milliseconds *)
  w_rng : nat;            (* draws made from the randomness source *)
  w_in : list string;     (* lines still to be typed *)
  w_out : list string;    (* stdout, last line first *)
  w_err : list string;    (* stderr, last line first *)
  w_daemon : dstate;
}.

Definition set_fs (m : fs) (w : world) : world :=
  World m (w_env w) (w_home w) (w_now w) (w_rng w) (w_in w) (w_out w) (w_err w) (w_daemon w).
Definition set_daemon (d : dstate) (w : world) : world :=
  World (w_fs w) (w_env w) (w_home w) (w_now w) (w_rng w) (w_in w) (w_out w) (w_err w) d.
Definition set_in (l : list string) (w : world) : world :=
  World (w_fs w) (w_env w) (w_home w) (w_now w) (w_rng w) l (w_out w) (w_err w) (w_daemon w).

Definition IO (A : Type) : Type := M world A.

Definition print (s : string) : IO unit := λ w,
  (Ok tt, World (w_fs w) (w_env w) (w_home w) (w_now w) (w_rng w) (w_in w) (s :: w_out w)
            (w_err w) (w_daemon w)).
Definition eprint (s : string) : IO unit := λ w,
  (Ok tt, World (w_fs w) (w_env w) (w_home w) (w_now w) (w_rng w) (w_in w) (w_out w)
            (s :: w_err w) (w_daemon w)).
(** [input(...)], [getpass.getpass(...)] *)
Definition input : IO string := λ w,
  match w_in w with
  | s :: l => (Ok s, set_in l w)
  | [] => (Raise (RuntimeError "EOF"), w)
  end.
Definition draw : IO nat := λ w,
  (Ok (w_rng w), World (w_fs w) (w_env w) (w_home w) (w_now w) (S (w_rng w)) (w_in w)
                   (w_out w) (w_err w) (w_daemon w)).
Definition sys_exit {A} (code : Z) : IO A := raise (SystemExit code).
Definition sys (c : syscall) : IO unit := λ w,
  match sys_run c (w_fs w) with
  | Ok m => (Ok tt, set_fs m w)
  | Raise e => (Raise e, w)
  end.
Definition read_file (path : string) : IO bytes := λ w, (fs_read path (w_fs w), w).
Definition path_exists (path : string) : IO bool := λ w, (Ok (fs_exists path (w_fs w)), w).
Definition request (op : string) (fields : list (string * json)) : IO json := λ w,
  match d_request op fields (w_daemon w) with (r, d) => (r, set_daemon d w) end.
Definition connect (path : string) : IO unit := λ w, (d_connect path (w_daemon w), w).

(** A sequence of calls that succeeds on the files succeeds in the world. *)
Lemma for_each_sys cs w m :
  sys_all cs (w_fs w) = Ok m → for_each sys cs w = (Ok tt, set_fs m w).
Proof.
  revert w; induction cs as [|c cs IH]; intros w; cbn [sys_all for_each].
  - intros [= <-]. by destruct w.
  - intros (m1&Hc&Hcs)%bind_Ok. rewrite (M_bind_run _ _ _ tt (set_fs m1 w)).
    + by rewrite IH.
    + unfold sys. by rewrite Hc.
Qed.
End World.

(** ** Local time

    [time.strftime] formats a moment (here in milliseconds) in the zone and
    the language of the user's session. *)
Class Locale := { strftime : string → Z → string }.

(** [open(path, "a")], [f.write(data)]: the file is created when missing. *)
Definition fs_append (path : string) (data : bytes) (m : fs) : fs :=
  match m !! path with
  | Some f => <[path := File (f_data f ++ data) (f_mode f)]> m
  | None => <[path := File data 438]> m
  end.
Definition append_file `{Daemon} (path : string) (data : bytes) : IO unit :=
  modify (λ w, set_fs (fs_append path data (w_fs w)) w).

(** [open(path, "w")], [f.write(data)] *)
Definition write_file `{Daemon} (path : string) (data : bytes) : IO unit :=
  for_each sys [SOpen path 438; SWrite path data].
Lemma write_file_run `{Daemon} path data w :
  ∃ m, write_file path data w = (Ok tt, set_fs m w) ∧ fs_read path m = Ok data ∧
    ∀ q, q ≠ path → m !! q = w_fs w !! q.
Proof.
  eexists. split_and!.
  - unfold write_file. apply for_each_sys. cbn. by rewrite lookup_insert_eq.
  - unfold fs_read. by rewrite lookup_insert_eq.
  - intros q Hq. by rewrite !lookup_insert_ne.
Qed.
Definition remove_file `{Daemon} (path : string) : IO unit :=
  try_with is_os_error (sys (SRemove path)) (λ _, mret tt).

(** [os.path.join(a, b)] *)
Definition path_join (a b : string) : string :=
  if startswith "/" b then b
  else if bool_decide (a = "") || endswith "/" a then a +:+ b
  else a +:+ "/" +:+ b.
