(* ===== verification/Paths.v ===== *)
(** * paths.py: every on-disk path, derived from the environment *)

From S2P Require Import Prelude PyStr Codec Json Sys.
From Stdlib Require Import Ascii.

Section Paths.
(** The environment and the user's home directory. *)
Context (env : gmap string string) (home : string).

(** [os.environ.get(name) or dflt] *)
Definition env_or (name dflt : string) : string :=
  match env !! name with
  | Some v => if bool_decide (v = "") then dflt else v
  | None => dflt
  end.

(** [os.path.expanduser("~" + rest)] *)
Definition expanduser (rest : string) : string :=
  rstrip_by (λ c, bool_decide (c = "/")) home +:+ rest.

Definition root : string := env_or "AIMLESS_HOME" (expanduser "/.local/share/aimless").
Definition client_dir : string := path_join root "client".
Definition daemon_dir : string := path_join root "daemon".
Definition logs_dir : string := path_join root "logs".
Definition run_dir : string := path_join root "run".
Definition identity_path : string := path_join client_dir "identity.json".
Definition contacts_path : string := path_join client_dir "contacts.json".
Definition cache_path : string := path_join client_dir "state.db".
Definition prefs_path : string := path_join client_dir "prefs.json".
Definition attachments_dir : string := path_join client_dir "attachments".
Definition sock_path : string := env_or "AIMLESS_SOCK" (path_join daemon_dir "api.sock").
Definition app_log_path : string := path_join logs_dir "app.log".
Definition daemon_log_path : string := path_join logs_dir "daemon.log".
Definition tunnel_log_path : string := path_join logs_dir "tunnel.log".
Definition app_pid_path : string := path_join run_dir "app.pid".
Definition daemon_pid_path : string := path_join run_dir "aimlessd.pid".
Definition tunnel_pid_path : string := path_join run_dir "tunnel.pid".
Definition config_home : string := env_or "XDG_CONFIG_HOME" (expanduser "/.config").
Definition autostart_path : string :=
  path_join (path_join config_home "autostart") "aimless-tray.desktop".

(** The directories [ensure_dirs] creates, with their mode, in order. *)
Definition ensure_dirs : list (string * Z) :=
  (λ d, (d, 448%Z)) <$> [root; client_dir; daemon_dir; logs_dir; run_dir].

Definition all_paths : list (string * string) :=
  [("root", root); ("client", client_dir); ("daemon", daemon_dir); ("logs", logs_dir);
   ("run", run_dir); ("identity", identity_path); ("contacts", contacts_path);
   ("history", cache_path); ("prefs", prefs_path); ("attachments", attachments_dir);
   ("socket", sock_path); ("app_log", app_log_path); ("daemon_log", daemon_log_path);
   ("autostart", autostart_path)].
End Paths.

(** ** Properties *)

(** [p] is below [d]: [d] followed by a relative path. *)
Definition below (d p : string) : Prop := ∃ rest, p = d +:+ rest.

Lemma path_join_below d a b : below d a → startswith "/" b = false → below d (path_join a b).
Proof.
  intros [rest ->] Hb. unfold path_join. rewrite Hb.
  case_match; eexists; rewrite ?str_app_assoc; reflexivity.
Qed.

Lemma below_refl d : below d d.
Proof. exists "". by rewrite str_app_nil_r. Qed.

Create HintDb paths.
#[export] Hint Resolve path_join_below below_refl : paths.

(** Every path the client uses, except the socket (which [AIMLESS_SOCK]
    may move) and the autostart entry, lies under the one root; without
    [AIMLESS_SOCK] the socket does too. *)
Theorem paths_under_root env home k p :
  (k, p) ∈ all_paths env home →
  k ≠ "autostart" →
  k ≠ "socket" ∨ env_or env "AIMLESS_SOCK" "" = "" →
  below (root env home) p.
Proof.
  intros Hp Ha Hs. unfold all_paths in Hp.
  repeat (apply elem_of_cons in Hp as [[= -> ->]|Hp]); try done;
    try (unfold identity_path, contacts_path, cache_path, prefs_path, attachments_dir,
           app_log_path, daemon_log_path, client_dir, daemon_dir, logs_dir, run_dir;
         eauto 6 with paths; fail).
  - destruct Hs as [|Hs]; [done|]. unfold sock_path, env_or in *.
    destruct (env !! _) as [v|]; [case_bool_decide; [|done]|];
      unfold daemon_dir; eauto 6 with paths.
  - by apply elem_of_nil in Hp.
Qed.

Example paths_under_root_witness :
  ("identity", "/h/.local/share/aimless/client/identity.json") ∈ all_paths ∅ "/h/" ∧
  below (root ∅ "/h/") "/h/.local/share/aimless/client/identity.json".
Proof.
  assert (H : ("identity", "/h/.local/share/aimless/client/identity.json") ∈ all_paths ∅ "/h/")
    by (vm_compute; set_solver).
  split; [exact H|]. eapply (paths_under_root ∅ "/h/" _ _ H); [done|by left].
Defined.

(** The files of the client and of the daemon: one prefix, then the directory. *)
Lemma endswith_last a b s : endswith (String a "") (s +:+ String b "") = bool_decide (a = b).
Proof.
  assert (Hr : ∀ s t acc, String.rev_app (s +:+ t) acc = String.rev_app t (String.rev_app s acc)).
  { intros s'. induction s' as [|c s' IH]; intros t acc; [done|]. rewrite str_app_cons. apply IH. }
  unfold endswith, String.rev. rewrite Hr. cbn.
  case_bool_decide; destruct (ascii_dec a b); try done. by destruct (String.rev_app s "").
Qed.
Lemma path_join_dir P d a name :
  startswith "/" name = false → a ≠ "/"%char →
  path_join (P +:+ d +:+ String a "") name = P +:+ d +:+ String a ("/" +:+ name).
Proof.
  intros Hn Ha. unfold path_join. rewrite Hn, <-str_app_assoc, endswith_last.
  rewrite (bool_decide_eq_false_2 ("/"%char = a)) by congruence. rewrite bool_decide_eq_false_2.
  - cbn [orb]. by rewrite !str_app_assoc.
  - intros He%(f_equal String.length). rewrite str_length_app in He. cbn in He. lia.
Qed.
Lemma file_layout env home :
  ∃ P, ∀ name, startswith "/" name = false →
    path_join (client_dir env home) name = P +:+ "client/" +:+ name ∧
    path_join (daemon_dir env home) name = P +:+ "daemon/" +:+ name.
Proof.
  set (r := root env home).
  set (P := if bool_decide (r = "") || endswith "/" r then r else r +:+ "/"). exists P.
  assert (Hdir : ∀ dir, startswith "/" dir = false → path_join r dir = P +:+ dir).
  { intros dir Hd. unfold path_join, P. rewrite Hd. case_match; [done|]. by rewrite str_app_assoc. }
  intros name Hn. unfold client_dir, daemon_dir. fold r. rewrite !Hdir by done.
  split; [apply (path_join_dir P "clien" "t")|apply (path_join_dir P "daemo" "n")]; done.
Qed.

(** [ensure_dirs] creates the root first and then directories below it,
    all private to the user (mode 0700). *)
Theorem ensure_dirs_private env home :
  head (ensure_dirs env home) = Some (root env home, 448%Z) ∧
  Forall (λ d, below (root env home) d.1 ∧ d.2 = 448%Z) (ensure_dirs env home).
Proof.
  split; [done|]. unfold ensure_dirs, client_dir, daemon_dir, logs_dir, run_dir.
  cbn [fmap list_fmap]. rewrite !Forall_cons. cbn [fst snd].
  split_and!; eauto with paths.
Qed.
