(* ===== verification/Logging.v ===== *)
(** * logging.py: the append-only log files and their rotation *)

From S2P Require Import Prelude PyStr Codec Json Sys.
From Stdlib Require Import Ascii.
Local Open Scope Z_scope.

Section Logging.
Context `{D : Daemon} `{L : Locale}.

Definition MAX_LOG_BYTES : Z := Z.shiftl 1 20.

(** [os.path.getsize(path)] *)
Definition getsize (path : string) : IO Z :=
  data ← read_file path; mret (Z.of_nat (length data)).

Definition _rotate (path : string) (max_bytes : Z) : IO unit :=
  try_with is_os_error
    (there ← path_exists path;
     if there : bool then
       size ← getsize path;
       if max_bytes <? size then sys (SReplace path (path +:+ ".1")) else mret tt
     else mret tt)
    (λ _, mret tt).

Definition log_line (stamp line : string) : bytes :=
  utf8_encode ("[" +:+ stamp +:+ "] " +:+ line +:+ String "010"%char "").

(** The function [log_fn] returns; its [os.makedirs] leaves the file map alone. *)
Definition log_fn (path : string) (max_bytes : Z) (line : string) : IO unit :=
  _ ← _rotate path max_bytes;
  now ← gets w_now;
  try_with is_os_error (append_file path (log_line (strftime "%Y-%m-%d %H:%M:%S" now) line))
    (λ _, mret tt).

Definition append_line (path line : string) : IO unit := log_fn path MAX_LOG_BYTES line.

(** ** What one call does to the files *)

Definition contents (path : string) (m : fs) : bytes :=
  match m !! path with Some f => f_data f | None => [] end.

Definition rotated (path : string) (max_bytes : Z) (m : fs) : fs :=
  if max_bytes <? Z.of_nat (length (contents path m)) then
    match m !! path with Some f => <[path +:+ ".1" := f]> (delete path m) | None => m end
  else m.

Definition logged (path : string) (max_bytes now : Z) (line : string) (m : fs) : fs :=
  fs_append path (log_line (strftime "%Y-%m-%d %H:%M:%S" now) line) (rotated path max_bytes m).

Lemma rotate_run path max_bytes w :
  _rotate path max_bytes w = (Ok tt, set_fs (if bool_decide (is_Some (w_fs w !! path))
    then rotated path max_bytes (w_fs w) else w_fs w) w).
Proof.
  unfold _rotate, path_exists, fs_exists, getsize, read_file, fs_read, rotated, contents.
  unfold try_with, mbind, M_bind.
  destruct (w_fs w !! path) as [f|] eqn:Hf; cbn; [rewrite Hf; cbn|by destruct w].
  destruct (max_bytes <? _); [|by destruct w]. unfold sys. cbn. by rewrite Hf.
Qed.

(** Logging never raises and touches nothing but the files. *)
Lemma log_fn_run path max_bytes line w :
  log_fn path max_bytes line w = (Ok tt, set_fs (logged path max_bytes (w_now w) line (w_fs w)) w).
Proof.
  unfold log_fn. rewrite (M_bind_run _ _ _ _ _ (rotate_run path max_bytes w)).
  rewrite (M_bind_run _ _ _ (w_now w) _) by done. unfold try_with. cbn.
  unfold logged, rotated, contents. destruct (w_fs w !! path) as [f|] eqn:Hf; cbn; [done|].
  by case_match.
Qed.

Lemma rotated_name_ne path : path ≠ path +:+ ".1".
Proof.
  intros H. apply (f_equal String.length) in H. rewrite str_length_app in H. cbn in H. lia.
Qed.

Lemma contents_append path data m : contents path (fs_append path data m) = contents path m ++ data.
Proof. unfold contents, fs_append. destruct (m !! path); by rewrite lookup_insert_eq. Qed.

Lemma contents_append_ne path path' data m :
  path ≠ path' → contents path' (fs_append path data m) = contents path' m.
Proof. intros H. unfold contents, fs_append. destruct (m !! path); by rewrite lookup_insert_ne. Qed.

Lemma contents_rotated path max_bytes m :
  0 <= max_bytes →
  if max_bytes <? Z.of_nat (length (contents path m)) then
    contents path (rotated path max_bytes m) = [] ∧
    contents (path +:+ ".1") (rotated path max_bytes m) = contents path m
  else rotated path max_bytes m = m.
Proof.
  intros Hmax. unfold rotated. pose proof (rotated_name_ne path) as Hne.
  destruct (m !! path) as [f|] eqn:Hf.
  - destruct (max_bytes <? _); [|done]. unfold contents.
    rewrite lookup_insert_ne, lookup_delete_eq, lookup_insert_eq, Hf by done. done.
  - assert ((max_bytes <? Z.of_nat (length (contents path m))) = false) as ->; [|done].
    unfold contents. rewrite Hf. by apply Z.ltb_ge.
Qed.

Definition entry (now : Z) (line : string) : bytes :=
  log_line (strftime "%Y-%m-%d %H:%M:%S" now) line.

(** Logging a line never raises: the line is appended to the file, or,
    once the file has grown past the limit, starts a new file, its past kept
    whole as [<path>.1]; no other file and nothing else changes. *)
Theorem log_fn_spec path max_bytes line w :
  0 <= max_bytes →
  let old := contents path (w_fs w) in
  ∃ m, log_fn path max_bytes line w = (Ok tt, set_fs m w) ∧
    (if max_bytes <? Z.of_nat (length old)
     then contents path m = entry (w_now w) line ∧ contents (path +:+ ".1") m = old
     else contents path m = old ++ entry (w_now w) line ∧
       contents (path +:+ ".1") m = contents (path +:+ ".1") (w_fs w)) ∧
    ∀ p, p ≠ path → p ≠ path +:+ ".1" → m !! p = w_fs w !! p.
Proof.
  intros Hmax old. eexists. split; [apply log_fn_run|]. unfold logged.
  pose proof (rotated_name_ne path) as Hne. split.
  - pose proof (contents_rotated path max_bytes (w_fs w) Hmax) as Hr. fold old in Hr.
    rewrite contents_append, contents_append_ne by done.
    destruct (max_bytes <? _); [by destruct Hr as [-> ->]|by rewrite Hr].
  - intros p Hp Hp1. unfold fs_append, rotated.
    repeat case_match; rewrite ?lookup_insert_ne, ?lookup_delete_ne by done; done.
Qed.

(** However many lines are logged, the file never holds more than the
    limit and one line, and its rotated past no more than that. *)
Theorem log_bounded path max_bytes k lines w :
  0 <= max_bytes →
  Forall (λ line, Z.of_nat (length (entry (w_now w) line)) <= k) lines →
  Z.of_nat (length (contents path (w_fs w))) <= max_bytes + k →
  Z.of_nat (length (contents (path +:+ ".1") (w_fs w))) <= max_bytes + k →
  ∃ m, for_each (log_fn path max_bytes) lines w = (Ok tt, set_fs m w) ∧
    Z.of_nat (length (contents path m)) <= max_bytes + k ∧
    Z.of_nat (length (contents (path +:+ ".1") m)) <= max_bytes + k.
Proof.
  intros Hmax Hl. revert w Hl. induction lines as [|line lines IH]; intros w Hl H0 H1.
  { exists (w_fs w). by destruct w. }
  apply Forall_cons in Hl as [Hline Hl].
  destruct (log_fn_spec path max_bytes line w Hmax) as (m&Hrun&Hm&_).
  cbn [for_each]. rewrite (M_bind_run _ _ _ _ _ Hrun).
  destruct (IH (set_fs m w)) as (m'&Hrun'&Hb); [done|..|by exists m'].
  - cbn. destruct (max_bytes <? _) eqn:?; destruct Hm as [-> _]; rewrite ?length_app; lia.
  - cbn. destruct (max_bytes <? _) eqn:?; destruct Hm as [_ ->]; lia.
Qed.
End Logging.

Section LoggingWitness.
Local Instance log_daemon : Daemon := {|
  dstate := unit; d_connect _ _ := Ok tt; d_request _ _ d := (Ok JNull, d) |}.
Local Instance log_locale : Locale := {| strftime _ _ := "2026-01-01 00:00:00" |}.
Definition log_world : world := World ∅ ∅ "/h" 0 0 [] [] [] tt.

Example log_fn_spec_witness :
  0 <= 10 ∧ ∃ m, log_fn "l" 10 "hello" log_world = (Ok tt, set_fs m log_world).
Proof.
  split; [lia|]. destruct (log_fn_spec "l" 10 "hello" log_world) as (m&H&_); [lia|]. by exists m.
Defined.

(** three lines of 28 bytes against a limit of 30: the third one rotates *)
Example log_bounded_witness :
  Forall (λ line, Z.of_nat (length (entry 0 line)) <= 28) ["one"; "two"; "six"] ∧
  ∃ m, for_each (log_fn "l" 30) ["one"; "two"; "six"] log_world = (Ok tt, set_fs m log_world) ∧
    Z.of_nat (length (contents "l" m)) <= 30 + 28 ∧
    Z.of_nat (length (contents ("l" +:+ ".1") m)) <= 30 + 28.
Proof.
  assert (H : Forall (λ line, Z.of_nat (length (entry 0 line)) <= 28) ["one"; "two"; "six"])
    by (repeat constructor; vm_compute; discriminate).
  split; [exact H|].
  exact (log_bounded "l" 30 28 ["one"; "two"; "six"] log_world ltac:(lia) H ltac:(vm_compute; discriminate) ltac:(vm_compute; discriminate)).
Defined.
End LoggingWitness.
