(* ===== verification/Crypto.v ===== *)
(** * crypto.py: the identity key and its encrypted file

    PyNaCl and scrypt are the interface [NaCl]; what the client relies on is
    [NaClLaws].  A [SigningKey] is its 32-byte seed.  Randomised primitives
    take the index of the draw they make. *)

From S2P Require Import Prelude PyStr Codec Json Sys.
From Stdlib Require Import Ascii.
Local Open Scope Z_scope.

Class NaCl := {
  (** [bytes(SigningKey(seed).verify_key)] *)
  sign_pk : bytes → bytes;
  (** [SigningKey(seed).sign(m).signature] *)
  sign_detached : bytes → bytes → bytes;
  (** [VerifyKey(pk).verify(m, sig)]; returns or raises *)
  verify_detached : bytes → bytes → bytes → result unit;
  (** [crypto_sign_ed25519_pk_to_curve25519], [..._sk_to_curve25519] *)
  pk_to_curve : bytes → result bytes;
  sk_to_curve : bytes → result bytes;
  (** [SealedBox(PublicKey(pk)).encrypt(m)] at a draw, [SealedBox(PrivateKey(sk)).decrypt(c)] *)
  sealed_encrypt : bytes → bytes → nat → bytes;
  sealed_decrypt : bytes → bytes → result bytes;
  (** [SecretBox(key).encrypt(m, nonce)], [SecretBox(key).decrypt(c)] *)
  secret_encrypt : bytes → bytes → bytes → bytes;
  secret_decrypt : bytes → bytes → result bytes;
  (** [hashlib.scrypt(pw, salt=, n=, r=, p=, dklen=)] *)
  scrypt : bytes → bytes → Z → Z → Z → nat → bytes;
  (** [nacl.utils.random(size)] (and [uuid4().bytes]) at a draw *)
  random_bytes : nat → nat → bytes;
}.

Class NaClLaws (N : NaCl) : Prop := {
  sign_pk_length seed : length seed = 32%nat → length (sign_pk seed) = 32%nat;
  verify_sign seed m : length seed = 32%nat →
    verify_detached (sign_pk seed) m (sign_detached seed m) = Ok tt;
  verify_error pk m sig e : verify_detached pk m sig = Raise e →
    is_value_error e = true ∨ e = CryptoError;
  (** the Curve25519 images of a signing key and of its verify key match *)
  curve_pair seed : length seed = 32%nat →
    ∃ cpk csk, pk_to_curve (sign_pk seed) = Ok cpk ∧
      sk_to_curve (seed ++ sign_pk seed) = Ok csk ∧
      ∀ m r, sealed_decrypt csk (sealed_encrypt cpk m r) = Ok m;
  sealed_error sk c e : sealed_decrypt sk c = Raise e → e = CryptoError;
  secret_roundtrip key m nonce : length key = 32%nat → length nonce = 24%nat →
    secret_decrypt key (secret_encrypt key m nonce) = Ok m;
  secret_error key c e : length key = 32%nat → secret_decrypt key c = Raise e → e = CryptoError;
  scrypt_length pw salt n r p dklen : length (scrypt pw salt n r p dklen) = dklen;
  random_length size i : length (random_bytes size i) = size;
}.

(** [base64.b64decode(j)] of a value read from JSON. *)
Definition json_b64decode (j : json) : result bytes :=
  match j with JStr s => b64decode s | _ => Raise TypeError end.

Section Crypto.
Context `{N : NaCl} `{J : JsonCodec} `{D : Daemon}.

Definition KDF_N : Z := 2 ^ 15.
Definition KDF_R : Z := 8.
Definition KDF_P : Z := 1.

Definition random (size : nat) : IO bytes := i ← draw; mret (random_bytes size i).

Definition new_identity : IO bytes := random 32.

Definition curve_keys (identity : bytes) : result (bytes * bytes) :=
  let sign_pk := sign_pk identity in
  curve_pk ← pk_to_curve sign_pk;
  curve_sk ← sk_to_curve (identity ++ sign_pk);
  Ok (curve_pk, curve_sk).

Definition kdf_key (passphrase : string) (salt : bytes) : bytes :=
  scrypt (utf8_encode passphrase) salt KDF_N KDF_R KDF_P 32.

(** The object [save_identity] writes. *)
Definition identity_object (salt ct : bytes) : json :=
  JObj [("v", JInt 1); ("kdf", JStr "scrypt"); ("n", JInt KDF_N); ("r", JInt KDF_R);
        ("p", JInt KDF_P); ("salt", JStr (b64encode salt)); ("ct", JStr (b64encode ct))].

Definition save_identity (path : string) (identity : bytes) (passphrase : string) : IO unit :=
  salt ← random 16;
  let key := kdf_key passphrase salt in
  nonce ← random 24;
  let ct := secret_encrypt key identity nonce in
  for_each sys (write_replace path (utf8_encode (json_dumps (identity_object salt ct))) 384).

(** [load_identity] after the file was read. *)
Definition parse_identity (content : bytes) (passphrase : string) : result bytes :=
  data ← json_loads_bytes content;
  salt ← jindex "salt" data ≫= json_b64decode;
  ct ← jindex "ct" data ≫= json_b64decode;
  let key := kdf_key passphrase salt in
  seed ← catch (λ e, bool_decide (e = CryptoError)) (secret_decrypt key ct)
    (λ _, Raise (ValueError "wrong passphrase or corrupted identity file"));
  _ ← guard_or (length seed =? 32)%nat (ValueError "corrupted identity file");
  Ok seed.

Definition load_identity (path passphrase : string) : IO bytes :=
  content ← read_file path;
  lift (parse_identity content passphrase).
End Crypto.

(** ** An instance to evaluate with *)

Definition RefNaCl : NaCl := {|
  sign_pk seed := seed;
  sign_detached seed m := seed ++ m;
  verify_detached pk m sig := guard_or (bool_decide (sig = pk ++ m)) CryptoError;
  pk_to_curve pk := guard_or (length pk =? 32)%nat (ValueError "pk") ≫= λ _, Ok pk;
  sk_to_curve sk := Ok (take 32 sk);
  sealed_encrypt pk m r := pk ++ m;
  sealed_decrypt sk c :=
    guard_or (bool_decide (take 32 c = sk)) CryptoError ≫= λ _, Ok (drop 32 c);
  secret_encrypt key m nonce := key ++ nonce ++ m;
  secret_decrypt key c :=
    guard_or (bool_decide (take 32 c = key)) CryptoError ≫= λ _, Ok (drop 56 c);
  scrypt pw salt n r p dklen := take dklen (pw ++ salt ++ replicate dklen Byte.x00);
  random_bytes size i := replicate size (val_byte (Z.of_nat i));
|}.

Lemma RefNaCl_laws : NaClLaws RefNaCl.
Proof.
  split; cbn.
  - done.
  - intros. by rewrite bool_decide_eq_true_2.
  - intros pk m sig e. case_bool_decide; [done|]. intros [= <-]. by right.
  - intros seed Hs. exists seed, seed. rewrite Hs. cbn.
    rewrite take_app_length' by done. split_and!; [done..|]. intros m _.
    rewrite take_app_length', drop_app_length' by done. by rewrite bool_decide_eq_true_2.
  - intros sk c e. case_bool_decide; [done|]. by intros [= <-].
  - intros key m nonce Hk Hn.
    rewrite take_app_length' by done. rewrite bool_decide_eq_true_2 by done. cbn.
    rewrite (app_assoc key), drop_app_length'; [done|]. rewrite length_app. lia.
  - intros key c e _. case_bool_decide; [done|]. by intros [= <-].
  - intros. rewrite length_take, !length_app, length_replicate. lia.
  - intros. apply length_replicate.
Qed.

(** ** Properties *)

Section CryptoProps.
Context `{N : NaCl} {NL : NaClLaws N} `{J : JsonCodec} {JL : JsonLaws J} `{D : Daemon}.

Lemma identity_object_wf salt ct : json_wf (identity_object salt ct).
Proof.
  unfold identity_object. json_wf_tac.
Qed.

Lemma parse_identity_object salt ct passphrase :
  parse_identity (utf8_encode (json_dumps (identity_object salt ct))) passphrase =
    (seed ← catch (λ e, bool_decide (e = CryptoError)) (secret_decrypt (kdf_key passphrase salt) ct)
      (λ _, Raise (ValueError "wrong passphrase or corrupted identity file"));
     _ ← guard_or (length seed =? 32)%nat (ValueError "corrupted identity file");
     Ok seed).
Proof.
  unfold parse_identity. rewrite loads_bytes_dumps by apply identity_object_wf.
  dict_simpl. rewrite !b64decode_encode. done.
Qed.

(** What [save_identity] leaves: the sealed object under [path]. *)
Lemma save_identity_run path identity passphrase w :
  ∃ w' nonce md, length nonce = 24%nat ∧
    save_identity path identity passphrase w = (Ok tt, w') ∧
    let salt := random_bytes 16 (w_rng w) in
    w_fs w' !! path = Some (File (utf8_encode (json_dumps (identity_object salt
      (secret_encrypt (kdf_key passphrase salt) identity nonce)))) md) ∧
    md = match w_fs w !! (path +:+ ".tmp") with Some f => f_mode f | None => 384 end ∧
    w_env w' = w_env w ∧ w_home w' = w_home w ∧ w_in w' = w_in w ∧
    ∀ p, p ≠ path → p ≠ path +:+ ".tmp" → w_fs w' !! p = w_fs w !! p.
Proof.
  unfold save_identity.
  set (salt := random_bytes 16 (w_rng w)). set (nonce := random_bytes 24 (S (w_rng w))).
  set (data := utf8_encode (json_dumps (identity_object salt
      (secret_encrypt (kdf_key passphrase salt) identity nonce)))).
  destruct (write_replace_spec path data 384 (w_fs w)) as (m&md&Hm&Hp&_&Hmd&Hother).
  set (w2 := World (w_fs w) (w_env w) (w_home w) (w_now w) (S (S (w_rng w))) (w_in w) (w_out w)
        (w_err w) (w_daemon w)).
  exists (set_fs m w2), nonce, md. split; [apply random_length|].
  split; [|by split_and!].
  change (for_each sys (write_replace path data 384) w2 = (Ok tt, set_fs m w2)).
  by apply for_each_sys.
Qed.

Lemma load_saved path identity passphrase salt nonce md w :
  length identity = 32%nat → length nonce = 24%nat →
  w_fs w !! path = Some (File (utf8_encode (json_dumps (identity_object salt
    (secret_encrypt (kdf_key passphrase salt) identity nonce)))) md) →
  load_identity path passphrase w = (Ok identity, w).
Proof.
  intros Hid Hn Hf. unfold load_identity, read_file, fs_read, lift, mbind, M_bind. rewrite Hf. cbn.
  rewrite parse_identity_object, secret_roundtrip by (done || apply scrypt_length).
  cbn. by rewrite Hid.
Qed.

(** An identity saved under a passphrase is loaded back with it, and the
    file is private to its owner (mode 0600) unless a temporary file of an
    interrupted save lent it its own mode. *)
Theorem load_save_identity path identity passphrase w :
  length identity = 32%nat →
  ∃ w', save_identity path identity passphrase w = (Ok tt, w') ∧
    load_identity path passphrase w' = (Ok identity, w') ∧
    (w_fs w !! (path +:+ ".tmp") = None → f_mode <$> w_fs w' !! path = Some 384).
Proof.
  intros Hid. destruct (save_identity_run path identity passphrase w)
    as (w'&nonce&md&Hn&Hrun&Hf&Hmd). cbn zeta in Hf.
  exists w'. split; [done|]. split; [by eapply load_saved|].
  rewrite Hf. intros Ht. destruct Hmd as [Hmd _]. rewrite Ht in Hmd. cbn. by rewrite Hmd.
Qed.

(** A passphrase whose key does not open the box is answered by the one
    [ValueError] the front ends report, whatever the file otherwise holds;
    and loading never returns a seed that is not 32 bytes long. *)
Theorem load_identity_rejects path passphrase w salt ct md :
  w_fs w !! path = Some (File (utf8_encode (json_dumps (identity_object salt ct))) md) →
  match (load_identity path passphrase w).1 with
  | Ok seed => secret_decrypt (kdf_key passphrase salt) ct = Ok seed ∧ length seed = 32%nat
  | Raise e => e = ValueError "wrong passphrase or corrupted identity file" ∧
                 secret_decrypt (kdf_key passphrase salt) ct = Raise CryptoError
               ∨ e = ValueError "corrupted identity file"
  end.
Proof.
  intros Hf. unfold load_identity, read_file, fs_read, lift, mbind, M_bind.
  rewrite Hf. cbn. rewrite parse_identity_object.
  destruct (secret_decrypt _ ct) as [seed|e] eqn:Hdec; cbn.
  - destruct (length seed =? 32)%nat eqn:Hl; cbn; [|by right].
    split; [done|]. by apply Nat.eqb_eq.
  - apply secret_error in Hdec; [|apply scrypt_length]. subst e.
    rewrite bool_decide_eq_true_2 by done. cbn. by left.
Qed.

End CryptoProps.

Section CryptoWitness.
Local Instance wit_json : JsonCodec := RefCodec.
Local Instance wit_json_laws : JsonLaws RefCodec := RefCodec_laws.
Local Instance wit_nacl : NaCl := RefNaCl.
Local Instance wit_nacl_laws : NaClLaws RefNaCl := RefNaCl_laws.
Local Instance wit_daemon : Daemon := {|
  dstate := unit; d_connect _ _ := Ok tt; d_request _ _ d := (Ok JNull, d) |}.
Definition wit_world : world := World ∅ ∅ "/h" 0 7 [] [] [] tt.
Definition wit_seed : bytes := replicate 32 Byte.x2a.

Example load_save_identity_witness :
  length wit_seed = 32%nat ∧
  ∃ w', save_identity "id" wit_seed "pw" wit_world = (Ok tt, w') ∧
    load_identity "id" "pw" w' = (Ok wit_seed, w') ∧
    (w_fs wit_world !! ("id" +:+ ".tmp") = None → f_mode <$> w_fs w' !! "id" = Some 384).
Proof. split; [done|]. by apply (load_save_identity "id" wit_seed "pw" wit_world). Defined.

(** a file sealed under the passphrase "a", opened with "b" *)
Definition wit_file : file :=
  File (utf8_encode (json_dumps (identity_object wit_seed
    (secret_encrypt (kdf_key "a" wit_seed) wit_seed (replicate 24 Byte.x00))))) 384.
Example load_identity_rejects_witness :
  match (load_identity "id" "b" (set_fs {["id" := wit_file]} wit_world)).1 with
  | Ok seed => secret_decrypt (kdf_key "b" wit_seed) (secret_encrypt (kdf_key "a" wit_seed)
      wit_seed (replicate 24 Byte.x00)) = Ok seed ∧ length seed = 32%nat
  | Raise e => e = ValueError "wrong passphrase or corrupted identity file" ∧
      secret_decrypt (kdf_key "b" wit_seed) (secret_encrypt (kdf_key "a" wit_seed)
        wit_seed (replicate 24 Byte.x00)) = Raise CryptoError
    ∨ e = ValueError "corrupted identity file"
  end.
Proof. by apply (load_identity_rejects "id" "b" _ wit_seed _ 384). Defined.
End CryptoWitness.
