(* ===== verification/Protocol.v ===== *)
(** * protocol.py: wire formats, sealed envelopes, invites and contacts *)

From S2P Require Import Prelude PyStr Codec Sha256 Json Base58 Sys Crypto.
From Stdlib Require Import Ascii.
Local Open Scope Z_scope.

Definition INVITE_PREFIX : string := "aimless1:".
Definition MAGIC : bytes := utf8_encode "aimless" ++ [Byte.x01].
Definition FILE_CHUNK_SIZE : Z := 32 * 1024.
Definition MAX_SEND_BYTES : Z := 20 * 1024 * 1024.

(** [bytes.fromhex(j)], [j.encode("utf-8")] and [json.loads(j)] of a value
    that came out of JSON. *)
Definition json_fromhex (j : json) : result bytes :=
  match j with JStr s => fromhex s | _ => Raise TypeError end.
Definition json_encode (j : json) : result bytes :=
  match j with JStr s => Ok (utf8_encode s) | _ => Raise AttributeError end.

Section Protocol.
Context `{N : NaCl} `{J : JsonCodec} `{D : Daemon}.

Definition json_loads_str (j : json) : result json :=
  match j with JStr s => json_loads s | _ => Raise TypeError end.

Definition new_transfer_id : IO string := b ← random 16; mret (hex b).

(** ** File chunks: routing header and body *)

Definition file_header (tid_bytes : bytes) (index total : Z) : result bytes :=
  if negb (length tid_bytes =? 16)%nat then Raise (ValueError "transfer id must be 16 bytes")
  else if negb ((0 <=? index) && (index <? total)) then Raise (ValueError "chunk index out of range")
  else i ← pack_H index; t ← pack_H total; Ok (tid_bytes ++ i ++ t).

Record file_payload := FilePayload
  { fp_tid : bytes; fp_index : Z; fp_total : Z; fp_sealed : bytes }.

Definition parse_file_payload (payload_b64 : string) : result file_payload :=
  raw ← b64decode payload_b64;
  if (length raw <? 20)%nat then Raise (ValueError "truncated file payload")
  else
    let tid := take 16 raw in
    match take 4 (drop 16 raw) with
    | [a; b; c; d] =>
      let index := unpack_H a b in
      let total := unpack_H c d in
      if (total =? 0) || (total <=? index) then Raise (ValueError "bad file chunk index/total")
      else Ok (FilePayload tid index total (drop 20 raw))
    | _ => Raise StructError
    end.

Definition make_chunk (tid : string) (index total : Z) (filename mime_hint sha256 : string)
    (size : Z) (data : bytes) (conv : option string) : list (string * json) :=
  let chunk := [("transfer_id", JStr tid); ("index", JInt index); ("total", JInt total);
    ("filename", JStr filename); ("mime_hint", JStr mime_hint); ("sha256", JStr sha256);
    ("size", JInt size); ("data", JStr (b64encode data))] in
  match conv with
  | Some c => if bool_decide (c = "") then chunk else dict_set "conv" (JStr c) chunk
  | None => chunk
  end.

(** ** Signatures *)

Definition _sign (identity body : bytes) : string :=
  b64encode (sign_detached identity (MAGIC ++ body)).

(** The exceptions [_verify] answers with [False]. *)
Definition is_bad_signature (e : exn) : bool :=
  match e with ValueError _ | CryptoError => true | _ => false end.

Definition _verify (from_hex : json) (body : bytes) (sig_b64 : json) : result bool :=
  catch is_bad_signature
    (pk ← json_fromhex from_hex;
     _ ← guard_or (length pk =? 32)%nat (ValueError "The key must be exactly 32 bytes long");
     sig ← json_b64decode sig_b64;
     _ ← verify_detached pk (MAGIC ++ body) sig;
     Ok true)
    (λ _, Ok false).

(** ** The signed and sealed envelope shared by messages, statuses and chunks *)

(** The inner object: [{"v", "kind", "from", "body", "sig"}]. *)
Definition envelope (identity : bytes) (kind body : string) : json :=
  JObj [("v", JInt 1); ("kind", JStr kind); ("from", JStr (hex (sign_pk identity)));
        ("body", JStr body); ("sig", JStr (_sign identity (utf8_encode body)))].

Definition seal_envelope (identity : bytes) (buddy_pubkey_hex kind : string) (body_obj : json)
    (rnd : nat) : result bytes :=
  let body := json_dumps_sorted body_obj in
  let inner := utf8_encode (json_dumps (envelope identity kind body)) in
  buddy_key_bytes ← fromhex buddy_pubkey_hex;
  curve_pk ← pk_to_curve buddy_key_bytes;
  Ok (sealed_encrypt curve_pk inner rnd).

(** Decryption, shape and signature: the sender's key and the body object. *)
Definition open_envelope (identity : bytes) (kind malformed : string) (sealed : bytes)
    : result (json * json) :=
  '(_, curve_sk) ← curve_keys identity;
  inner ← sealed_decrypt curve_sk sealed;
  msg ← json_loads_bytes inner;
  k ← jget "kind" msg;
  _ ← guard_or (default false (json_is_str kind <$> k) && jmem "from" msg && jmem "body" msg
                  && jmem "sig" msg) (ValueError malformed);
  from ← jindex "from" msg;
  body ← jindex "body" msg;
  sig ← jindex "sig" msg;
  body_obj ← json_loads_str body;
  body_bytes ← json_encode body;
  ok ← _verify from body_bytes sig;
  _ ← guard_or ok (ValueError "bad signature");
  Ok (from, body_obj).

Definition seal_file_chunk (identity : bytes) (buddy_pubkey_hex : string)
    (chunk : list (string * json)) (rnd : nat) : result bytes :=
  seal_envelope identity buddy_pubkey_hex "file" (JObj chunk) rnd.

(** [chunk["from"] = msg["from"]] needs an object. *)
Definition open_file_chunk (identity sealed : bytes) : result (list (string * json)) :=
  '(from, chunk) ← open_envelope identity "file" "malformed file chunk" sealed;
  match chunk with
  | JObj d => Ok (dict_set "from" from d)
  | _ => Raise TypeError
  end.

Definition chunk_int (k : string) (chunk : list (string * json)) : result Z :=
  j ← jindex k (JObj chunk); of_option TypeError (json_int j).

Definition build_file_payload (identity : bytes) (recipient_pubkey_hex : string)
    (chunk : list (string * json)) (rnd : nat) : result string :=
  sealed ← seal_file_chunk identity recipient_pubkey_hex chunk rnd;
  tid ← jindex "transfer_id" (JObj chunk) ≫= json_fromhex;
  index ← chunk_int "index" chunk;
  total ← chunk_int "total" chunk;
  header ← file_header tid index total;
  Ok (b64encode (header ++ sealed)).

(** ** Reassembly *)

Definition range (n : Z) : list Z := Z.of_nat <$> seq 0 (Z.to_nat n).

Definition reassemble_file (chunks : gmap Z bytes) (total : Z) : option bytes :=
  if negb (Z.of_nat (size chunks) =? total) || existsb (λ i, bool_decide (chunks !! i = None)) (range total)
  then None
  else Some (concat ((λ i, default [] (chunks !! i)) <$> range total)).

Definition validate_send_size (size : Z) : result unit :=
  if MAX_SEND_BYTES <? size
  then Raise (ValueError ("file is " +:+ str_of_int_grouped size
                          +:+ " bytes - aimless caps attachments at "
                          +:+ str_of_int_grouped MAX_SEND_BYTES +:+ " bytes"))
  else Ok tt.

(** ** Contacts *)

(** [open(tmp, "w")]: mode 0666 before the umask. *)
Definition save_contacts (path : string) (contacts : json) : IO unit :=
  for_each sys (write_replace path (utf8_encode (json_dumps_indent contacts)) 438).

Definition load_contacts (path : string) : IO json :=
  b ← path_exists path;
  if b : bool then content ← read_file path; lift (json_loads_bytes content)
  else mret (JObj []).

(** ** Invites *)

Definition make_invite (identity : bytes) (node_pubkey_hex screen_name : string) : result string :=
  let client_key := b58encode (sign_pk identity) in
  node ← fromhex node_pubkey_hex;
  let node_key := b58encode node in
  Ok (INVITE_PREFIX +:+ client_key +:+ ":" +:+ node_key +:+ ":" +:+ screen_name).

Definition _decode_key_field (field label : string) : result bytes :=
  if (py_len field =? 64)%nat && str_all is_hex field then
    key ← fromhex field;
    _ ← guard_or (length key =? 32)%nat (ValueError (label +:+ " must be 64 hex chars"));
    Ok key
  else
    key ← catch is_value_error (b58decode field)
      (λ e, Raise (ValueError (label +:+ " is neither valid hex nor base58: " +:+ exn_str e)));
    _ ← guard_or (length key =? 32)%nat (ValueError (label +:+ " must decode to 32 bytes"));
    Ok key.

Definition parse_invite (invite : string) : result (string * string * string) :=
  let invite := strip invite in
  if negb (startswith INVITE_PREFIX invite)
  then Raise (ValueError "invite must start with aimless1:")
  else
    let rest := py_drop (py_len INVITE_PREFIX) invite in
    match split_on ":"%char rest with
    | [client_field; node_field; screen_name] =>
      client_bytes ← _decode_key_field client_field "client key";
      node_bytes ← _decode_key_field node_field "node key";
      if bool_decide (screen_name = "") then Raise (ValueError "missing screen name")
      else Ok (hex client_bytes, hex node_bytes, screen_name)
    | _ => Raise (ValueError "invite must be aimless1:<client-pk>:<node-pk>:<screen-name>")
    end.

(** ** Rooms *)

Definition room_id (member_nodes : list string) : string :=
  sha256_hex (utf8_encode (join "|" (sorted member_nodes))).

(** ** Messages and statuses *)

Definition opt_field (k : string) (v : option json) (d : list (string * json)) :=
  match v with Some j => dict_set k j d | None => d end.

(** The signed body of a message; an empty screen name is left out. *)
Definition message_body (text : string) (ts : Z) (screen conv : option string)
    (members : option json) : list (string * json) :=
  let screen := screen ≫= λ s, if bool_decide (s = "") then None else Some (JStr s) in
  opt_field "members" members (opt_field "conv" (JStr <$> conv)
    (opt_field "screen" screen [("text", JStr text); ("ts", JInt ts)])).

Definition seal_message (identity : bytes) (buddy_pubkey_hex text : string) (ts : Z)
    (screen conv : option string) (members : option json) (rnd : nat) : result string :=
  b64encode <$> seal_envelope identity buddy_pubkey_hex "msg"
    (JObj (message_body text ts screen conv members)) rnd.

Definition open_message (identity : bytes) (payload_b64 : string) : result (list (string * json)) :=
  payload ← (_ ← curve_keys identity; b64decode payload_b64);
  '(from, body_obj) ← open_envelope identity "msg" "malformed message" payload;
  text ← jindex "text" body_obj;
  ts ← jindex "ts" body_obj;
  let field k := match body_obj with JObj d => dict_get k d | _ => None end in
  Ok (opt_field "members" (field "members") (opt_field "conv" (field "conv")
    (opt_field "screen" (field "screen") [("from", from); ("text", text); ("ts", ts)]))).

Definition seal_status (identity : bytes) (buddy_pubkey_hex screen : string) (away : json)
    (ts : Z) (rnd : nat) : result string :=
  b64encode <$> seal_envelope identity buddy_pubkey_hex "status"
    (JObj [("screen", JStr screen); ("away", away); ("ts", JInt ts)]) rnd.

Definition open_status (identity : bytes) (payload_b64 : string) : result (list (string * json)) :=
  payload ← (_ ← curve_keys identity; b64decode payload_b64);
  '(from, body_obj) ← open_envelope identity "status" "malformed status" payload;
  screen ← jindex "screen" body_obj;
  away ← jindex "away" body_obj;
  ts ← jindex "ts" body_obj;
  Ok [("from", from); ("screen", screen); ("away", away); ("ts", ts)].
End Protocol.

(** ** Invites *)

Section Invites.
Context `{N : NaCl} {NL : NaClLaws N} `{J : JsonCodec} {JL : JsonLaws J}.

Lemma decode_key_field_b58 key label :
  length key = 32%nat → _decode_key_field (b58encode key) label = Ok key.
Proof.
  intros Hk. unfold _decode_key_field.
  rewrite py_len_ascii by apply b58encode_ascii.
  pose proof (b58encode_length32 key Hk) as Hlen.
  replace (String.length (b58encode key) =? 64)%nat with false
    by (symmetry; apply Nat.eqb_neq; lia).
  cbn [andb]. rewrite b58_decode_encode. cbn. by rewrite Hk.
Qed.

Lemma decode_key_field_hex key label :
  length key = 32%nat → _decode_key_field (hex key) label = Ok key.
Proof.
  intros Hk. unfold _decode_key_field.
  rewrite py_len_ascii, hex_length, Hk, hex_all_hex
    by (eapply str_all_impl; [apply is_hex_ascii|apply hex_all_hex]).
  cbn. rewrite fromhex_hex. cbn. by rewrite Hk.
Qed.

(** A field decodes to a 32-byte key or is refused with a [ValueError]. *)
Lemma decode_key_field_total field label :
  match _decode_key_field field label with
  | Ok key => length key = 32%nat
  | Raise e => is_value_error e = true
  end.
Proof.
  unfold _decode_key_field. destruct (_ && _) eqn:Hhex.
  - apply andb_prop in Hhex as [Hlen%Nat.eqb_eq Hall].
    rewrite py_len_ascii in Hlen by (eapply str_all_impl; [apply is_hex_ascii|done]).
    destruct (fromhex_hex_digits field 32 Hall Hlen) as (key&->&Hk). cbn. by rewrite Hk.
  - pose proof (b58_encode_decode field) as Hb.
    destruct (b58decode field) as [key|e]; cbn.
    + destruct (length key =? 32)%nat eqn:Hk; cbn; [by apply Nat.eqb_eq|done].
    + by rewrite (refused_is_value_error _ _ Hb).
Qed.

Lemma drop_space_colon q :
  drop_while is_space (reverse (uchars (q +:+ ":"))) = reverse (uchars (q +:+ ":")).
Proof.
  rewrite uchars_app by done. change (uchars ":") with [":"]. rewrite reverse_app.
  change (reverse [":"]) with [":"]. by apply drop_while_id.
Qed.

(** The text of an invite, as [parse_invite] sees it. *)
Lemma parse_invite_fields f1 f2 screen :
  str_all is_ascii f1 = true → str_mem ":"%char f1 = false →
  str_all is_ascii f2 = true → str_mem ":"%char f2 = false → is_str screen →
  parse_invite (INVITE_PREFIX +:+ f1 +:+ ":" +:+ f2 +:+ ":" +:+ screen) =
    match split_on ":"%char (rstrip screen) with
    | [name] =>
      c ← _decode_key_field f1 "client key";
      n ← _decode_key_field f2 "node key";
      if bool_decide (name = "") then Raise (ValueError "missing screen name")
      else Ok (hex c, hex n, name)
    | _ => Raise (ValueError "invite must be aimless1:<client-pk>:<node-pk>:<screen-name>")
    end.
Proof.
  intros Ha1 Hc1 Ha2 Hc2 Hs.
  set (pre := "imless1:" +:+ f1 +:+ ":" +:+ f2 +:+ ":").
  assert (Hinv : ∀ s, INVITE_PREFIX +:+ f1 +:+ ":" +:+ f2 +:+ ":" +:+ s
    = String "a"%char pre +:+ s) by (intros s; unfold INVITE_PREFIX, pre; str_norm; done).
  assert (Hpre : str_all is_ascii pre = true)
    by (unfold pre; rewrite !str_all_app, Ha1, Ha2; done).
  assert (Hend : String "a"%char pre = (INVITE_PREFIX +:+ f1 +:+ ":" +:+ f2) +:+ ":")
    by (unfold INVITE_PREFIX, pre; str_norm; done).
  unfold parse_invite. rewrite Hinv. unfold strip.
  rewrite strip_by_app_rstrip; [|by apply uchars_ascii_cons, ascii_not_starts_cont
    |done|rewrite Hend; apply drop_space_colon|by apply is_str_not_cont].
  change (rstrip_by is_space screen) with (rstrip screen).
  rewrite <-Hinv, prefix_app. cbn [negb].
  rewrite py_drop_prefix.
  2: { destruct f1 as [|a f1]; [done|]. rewrite str_app_cons. cbn in *.
       apply andb_prop in Ha1 as [? _]. by apply is_ascii_not_cont. }
  change (":" +:+ ?x) with (String ":"%char x).
  rewrite (split_on_app _ f1 (f2 +:+ String ":" (rstrip screen))) by done.
  rewrite (split_on_app _ f2 (rstrip screen)) by done. done.
Qed.

Lemma rstrip_colon s : str_mem ":"%char (rstrip s) = str_mem ":"%char s.
Proof.
  destruct (rstrip_split s) as (l&Hs&Hl). rewrite Hs at 2. rewrite str_mem_app.
  assert (Hn : str_mem ":"%char (sconcat l) = false).
  { clear Hs. induction Hl as [|c l Hc _ IH]; [done|].
    change (sconcat (c :: l)) with (c +:+ sconcat l). rewrite str_mem_app, IH, orb_false_r.
    apply bool_decide_eq_true in Hc.
    assert (Hall : Forall (λ c, str_mem ":"%char c = false) py_whitespace) by (vm_compute; repeat constructor).
    rewrite Forall_forall in Hall. by apply Hall. }
  by rewrite Hn, orb_false_r.
Qed.

(** A name without blanks at its ends is left as it is. *)
Lemma rstrip_strip_id s : strip s = s → rstrip s = s.
Proof.
  intros Hs. apply strip_by_id_inv in Hs as [_ Hr]. unfold rstrip, rstrip_by.
  by rewrite Hr, reverse_involutive, sconcat_uchars.
Qed.
End Invites.

(** ** Envelopes *)

Section Envelopes.
Context `{N : NaCl} {NL : NaClLaws N} `{J : JsonCodec} {JL : JsonLaws J}.

Lemma envelope_wf identity kind body :
  is_str kind → is_str body → json_wf (envelope identity kind body).
Proof. intros Hk Hb. unfold envelope, _sign. json_wf_tac. Qed.

Lemma verify_signed identity body :
  length identity = 32%nat →
  _verify (JStr (hex (sign_pk identity))) body (JStr (_sign identity body)) = Ok true.
Proof.
  intros Hid. unfold _verify, _sign. cbn. rewrite fromhex_hex. cbn.
  rewrite sign_pk_length by done. cbn. rewrite b64decode_encode. cbn.
  by rewrite verify_sign.
Qed.

(** Sealing for a client whose key is well-formed succeeds. *)
Lemma seal_envelope_ok sender rcpt kind obj r :
  length rcpt = 32%nat → ∃ sealed, seal_envelope sender (hex (sign_pk rcpt)) kind obj r = Ok sealed.
Proof.
  intros Hr. destruct (curve_pair rcpt Hr) as (cpk&csk&Hpk&_&_).
  unfold seal_envelope. rewrite fromhex_hex. cbn. rewrite Hpk. cbn. eauto.
Qed.

Lemma open_seal_envelope sender rcpt kind malformed obj r sealed :
  length sender = 32%nat → length rcpt = 32%nat → is_str kind → json_wf (JObj obj) →
  seal_envelope sender (hex (sign_pk rcpt)) kind (JObj obj) r = Ok sealed →
  open_envelope rcpt kind malformed sealed
    = Ok (JStr (hex (sign_pk sender)), json_sort (JObj obj)).
Proof.
  intros Hs Hr Hk Hobj Hseal. destruct (curve_pair rcpt Hr) as (cpk&csk&Hpk&Hsk&Hdec).
  unfold seal_envelope in Hseal. rewrite fromhex_hex in Hseal. cbn [mbind result_bind] in Hseal.
  rewrite Hpk in Hseal. injection Hseal as <-.
  unfold open_envelope, curve_keys. rewrite Hpk. cbn [mbind result_bind]. rewrite Hsk.
  cbn [mbind result_bind]. rewrite Hdec. cbn [mbind result_bind].
  rewrite loads_bytes_dumps by (apply envelope_wf; [done|apply dumps_is_str]).
  unfold envelope, jmem, dict_mem. dict_simpl. rewrite bool_decide_eq_true_2 by done. cbn.
  unfold json_dumps_sorted. rewrite loads_dumps by (by apply json_wf_sort). cbn.
  by rewrite verify_signed.
Qed.

(** What an opened envelope certifies. *)
Lemma open_envelope_authentic rcpt kind malformed sealed from obj :
  open_envelope rcpt kind malformed sealed = Ok (from, obj) →
  ∃ from_hex pk body sig, from = JStr from_hex ∧ fromhex from_hex = Ok pk ∧
    length pk = 32%nat ∧ json_loads body = Ok obj ∧
    verify_detached pk (MAGIC ++ utf8_encode body) sig = Ok tt.
Proof.
  unfold open_envelope. intros ([cpk csk]&_&H)%bind_Ok. inv_ok.
  match goal with H : jindex "body" _ = Ok ?b |- _ => rename b into body, H into Hbody end.
  match goal with H : _verify _ _ _ = Ok ?b |- _ => rename H into Hv; destruct b; [|done] end.
  unfold _verify in Hv. apply catch_Ok in Hv as [Hv|(?&_&_&[=])]. inv_ok.
  destruct body; try discriminate. destruct from; try discriminate. cbn in *. simplify_eq.
  match goal with H : verify_detached _ _ _ = Ok ?u |- _ => destruct u end.
  match goal with H : (_ =? _)%nat = true |- _ => apply Nat.eqb_eq in H end.
  eauto 15.
Qed.
End Envelopes.

(** ** Properties *)

Section ProtocolProps.
Context `{N : NaCl} {NL : NaClLaws N} `{J : JsonCodec} {JL : JsonLaws J} `{D : Daemon}.

(** Without a colon in the name the invite is parsed back. *)
Lemma invite_parsed_back identity node_key screen invite :
  length identity = 32%nat → length node_key = 32%nat →
  is_str screen → screen ≠ "" → strip screen = screen → str_mem ":"%char screen = false →
  make_invite identity (hex node_key) screen = Ok invite →
  parse_invite invite = Ok (hex (sign_pk identity), hex node_key, screen).
Proof.
  intros Hid Hnode Hs Hne Hstrip Hc. unfold make_invite. rewrite fromhex_hex. cbn [mbind result_bind].
  intros [= <-]. rewrite parse_invite_fields by (done || apply b58encode_ascii || apply b58encode_no_colon).
  rewrite rstrip_strip_id, split_on_word by done.
  rewrite !decode_key_field_b58 by (done || by apply sign_pk_length). cbn.
  by rewrite bool_decide_eq_false_2.
Qed.

(** C33: An invite made for any screen name is parsed back to the client key, the
    node key and the name without the blanks at its end; only with a [:] in
    the name, or nothing but blanks, is it refused, by every client and with the
    error that says so. *)
Theorem parse_make_invite identity node_key screen :
  length identity = 32%nat → length node_key = 32%nat → is_str screen →
  ∃ invite, make_invite identity (hex node_key) screen = Ok invite ∧
    parse_invite invite =
      if str_mem ":"%char screen
      then Raise (ValueError "invite must be aimless1:<client-pk>:<node-pk>:<screen-name>")
      else if bool_decide (rstrip screen = "") then Raise (ValueError "missing screen name")
      else Ok (hex (sign_pk identity), hex node_key, rstrip screen).
Proof.
  intros Hid Hnode Hs. unfold make_invite. rewrite fromhex_hex. eexists. split; [reflexivity|].
  rewrite parse_invite_fields by (done || apply b58encode_ascii || apply b58encode_no_colon).
  rewrite <-rstrip_colon. destruct (str_mem ":" (rstrip screen)) eqn:Hc.
  - destruct (split_on_nonempty ":"%char (rstrip screen)) as (w&[|w' ws]&E); rewrite E; [|done].
    pose proof (split_on_no_sep ":"%char (rstrip screen)) as Hall.
    pose proof (join_split_on ":"%char (rstrip screen)) as Hj. rewrite E in Hall, Hj. cbn in Hj. subst w.
    apply Forall_cons in Hall as [Hw _]. congruence.
  - rewrite split_on_word by done.
    by rewrite !decode_key_field_b58 by (done || by apply sign_pk_length).
Qed.

(** C34: Whatever the text, parsing an invite gives two 32-byte keys in
    lower-case hex and a non-empty name free of [:], or raises [ValueError],
    the only exception the callers catch. *)
Theorem parse_invite_sound invite :
  match parse_invite invite with
  | Ok (client, node, screen) =>
      (∃ ck nk, client = hex ck ∧ node = hex nk ∧ length ck = 32%nat ∧ length nk = 32%nat) ∧
      screen ≠ "" ∧ str_mem ":"%char screen = false
  | Raise e => is_value_error e = true
  end.
Proof.
  unfold parse_invite. cbv zeta. destruct (negb _); [done|].
  set (rest := py_drop _ _).
  pose proof (split_on_no_sep ":"%char rest) as Hsep.
  destruct (split_on ":"%char rest) as [|f1 [|f2 [|screen [|]]]]; try done.
  pose proof (decode_key_field_total f1 "client key") as H1.
  destruct (_decode_key_field f1 _) as [ck|e]; cbn; [|done].
  pose proof (decode_key_field_total f2 "node key") as H2.
  destruct (_decode_key_field f2 _) as [nk|e]; cbn; [|done].
  case_bool_decide; [done|].
  rewrite !Forall_cons in Hsep. split_and!; [|done|naive_solver]. eauto 10.
Qed.

(** The fields [open_message] returns for the arguments of [seal_message]. *)
Definition message_fields (from text : string) (ts : Z) (screen conv : option string)
    (members : option json) : list (string * json) :=
  let screen := screen ≫= λ s, if bool_decide (s = "") then None else Some (JStr s) in
  opt_field "members" (json_sort <$> members) (opt_field "conv" (JStr <$> conv)
    (opt_field "screen" screen [("from", JStr from); ("text", JStr text); ("ts", JInt ts)])).

Lemma message_body_wf text ts screen conv members :
  is_str text → (∀ s, screen = Some s → is_str s) → (∀ c, conv = Some c → is_str c) →
  (∀ m, members = Some m → json_wf m) → json_wf (JObj (message_body text ts screen conv members)).
Proof.
  intros Ht Hs Hc Hm. unfold message_body.
  destruct screen as [s|]; cbn [mbind option_bind]; [case_bool_decide|];
    destruct conv as [c|], members as [m|]; dict_simpl; json_wf_tac.
Qed.

Lemma jindex_sort k d :
  dict_wf d → jindex k (json_sort (JObj d)) = of_option (KeyError k) (json_sort <$> dict_get k d).
Proof. intros Hd. cbn. by rewrite dict_get_sort. Qed.

(** Opening a sealed message gives back the sender's key, the text, the
    timestamp and each optional field that was sent. *)
Theorem open_seal_message sender rcpt text ts screen conv members rnd :
  length sender = 32%nat → length rcpt = 32%nat →
  is_str text → (∀ s, screen = Some s → is_str s) → (∀ c, conv = Some c → is_str c) →
  (∀ m, members = Some m → json_wf m) →
  ∃ payload,
    seal_message sender (hex (sign_pk rcpt)) text ts screen conv members rnd = Ok payload ∧
    open_message rcpt payload
      = Ok (message_fields (hex (sign_pk sender)) text ts screen conv members).
Proof.
  intros Hs Hr Ht Hscr Hconv Hmem.
  pose proof (message_body_wf text ts screen conv members Ht Hscr Hconv Hmem) as Hwf.
  destruct (seal_envelope_ok sender rcpt "msg" (JObj (message_body text ts screen conv members))
    rnd Hr) as [sealed Hseal].
  exists (b64encode sealed). unfold seal_message. rewrite Hseal. split; [done|].
  unfold open_message. destruct (curve_pair rcpt Hr) as (cpk&csk&Hpk&Hsk&_).
  unfold curve_keys at 1. rewrite Hpk. cbn [mbind result_bind]. rewrite Hsk.
  cbn [mbind result_bind]. rewrite b64decode_encode. cbn [mbind result_bind].
  rewrite (open_seal_envelope sender rcpt "msg" _ _ _ _ Hs Hr eq_refl Hwf Hseal).
  cbn [mbind result_bind]. apply json_wf_obj in Hwf as [Hd _].
  rewrite !jindex_sort by done. cbn [json_sort]. rewrite !dict_get_sort by done.
  unfold message_body, message_fields.
  destruct screen as [s|]; cbn [mbind option_bind]; [case_bool_decide|];
    destruct conv as [c|], members as [m|]; dict_simpl; done.
Qed.

(** C6: A message is accepted only under a signature that verifies: the
    opened fields are read from a body signed, after the protocol's tag, by
    the key the message names as its sender. *)
Theorem open_message_authentic rcpt payload out :
  open_message rcpt payload = Ok out →
  ∃ from_hex pk body obj sig,
    dict_get "from" out = Some (JStr from_hex) ∧ fromhex from_hex = Ok pk ∧ length pk = 32%nat ∧
    verify_detached pk (MAGIC ++ utf8_encode body) sig = Ok tt ∧
    json_loads body = Ok (JObj obj) ∧
    ∀ k, k ∈ ["text"; "ts"; "screen"; "conv"; "members"] → dict_get k out = dict_get k obj.
Proof.
  unfold open_message. intros (pl&_&H)%bind_Ok.
  apply bind_Ok in H as ([from obj]&Henv&H).
  apply open_envelope_authentic in Henv as (from_hex&pk&body&sig&->&Hpk&Hlen&Hbody&Hsig).
  apply bind_Ok in H as (text&Htext&H). apply bind_Ok in H as (ts&Hts&H).
  destruct obj as [| | | | |obj]; try done. cbn in Htext, Hts. inv_ok.
  exists from_hex, pk, body, obj, sig.
  assert (Hf : ∀ k, dict_get k (opt_field "members" (dict_get "members" obj)
    (opt_field "conv" (dict_get "conv" obj) (opt_field "screen" (dict_get "screen" obj)
      [("from", JStr from_hex); ("text", text); ("ts", ts)])))
    = if decide (k ∈ ["screen"; "conv"; "members"]) then dict_get k obj
      else dict_get k [("from", JStr from_hex); ("text", text); ("ts", ts)]).
  { intros k. unfold opt_field. case_decide as Hk.
    - rewrite !elem_of_cons, elem_of_nil in Hk. destruct Hk as [->|[->|[->|[]]]];
        destruct (dict_get "screen" obj), (dict_get "conv" obj), (dict_get "members" obj);
        dict_simpl; done.
    - rewrite !not_elem_of_cons in Hk. destruct Hk as (?&?&?&_).
      destruct (dict_get "members" obj), (dict_get "conv" obj), (dict_get "screen" obj);
        repeat rewrite dict_get_set_ne by done; done. }
  rewrite Hf. dict_simpl. split_and!; [done..|]. intros k Hk. rewrite Hf. case_decide; [done|].
  rewrite !elem_of_cons, elem_of_nil in Hk. destruct Hk as [->|[->|Hk]]; dict_simpl; [done..|].
  rewrite !elem_of_cons, elem_of_nil in H. naive_solver.
Qed.

Lemma file_header_ok tid index total :
  length tid = 16%nat → 0 <= index < total → total < 65536 →
  ∃ a b c d, file_header tid index total = Ok (tid ++ [a; b; c; d]) ∧
    unpack_H a b = index ∧ unpack_H c d = total.
Proof.
  intros Ht Hi Htot. unfold file_header. rewrite Ht. cbn [Nat.eqb negb].
  replace ((0 <=? index) && (index <? total)) with true
    by (symmetry; apply andb_true_intro; split; [apply Z.leb_le|apply Z.ltb_lt]; lia).
  destruct (unpack_pack_H index ltac:(lia)) as (a&b&->&Ha).
  destruct (unpack_pack_H total ltac:(lia)) as (c&d&->&Hc). cbn. eauto 10.
Qed.

Lemma parse_payload_header tid a b c d sealed :
  length tid = 16%nat → 0 <= unpack_H a b < unpack_H c d →
  parse_file_payload (b64encode ((tid ++ [a; b; c; d]) ++ sealed))
    = Ok (FilePayload tid (unpack_H a b) (unpack_H c d) sealed).
Proof.
  intros Ht Hi. unfold parse_file_payload. rewrite b64decode_encode. cbn [mbind result_bind].
  rewrite !length_app, Ht. cbn [length Nat.add Nat.ltb Nat.leb].
  rewrite <-!app_assoc, take_app_length', (drop_app_length' tid) by done.
  cbn [app take].
  replace (unpack_H c d =? 0) with false by (symmetry; apply Z.eqb_neq; lia).
  replace (unpack_H c d <=? unpack_H a b) with false by (symmetry; apply Z.leb_gt; lia).
  cbn [orb]. change (a :: b :: c :: d :: sealed) with ([a; b; c; d] ++ sealed).
  rewrite (app_assoc tid), drop_app_length' by (rewrite length_app, Ht; done).
  done.
Qed.

(** A chunk built for a recipient is split by the receiver into the very
    routing header and a sealed body that opens to the chunk's own fields,
    with the sender's key under ["from"]. *)
Theorem file_payload_roundtrip sender rcpt tid index total filename mime sha size data conv rnd :
  length sender = 32%nat → length rcpt = 32%nat → length tid = 16%nat →
  0 <= index < total → total < 65536 →
  is_str filename → is_str mime → is_str sha → (∀ c, conv = Some c → is_str c) →
  let chunk := make_chunk (hex tid) index total filename mime sha size data conv in
  ∃ payload sealed opened,
    build_file_payload sender (hex (sign_pk rcpt)) chunk rnd = Ok payload ∧
    parse_file_payload payload = Ok (FilePayload tid index total sealed) ∧
    open_file_chunk rcpt sealed = Ok opened ∧
    ∀ k, dict_get k opened =
      if decide (k = "from") then Some (JStr (hex (sign_pk sender))) else dict_get k chunk.
Proof.
  intros Hs Hr Ht Hi Htot Hf Hm Hsha Hc chunk.
  assert (Hwf : json_wf (JObj chunk)).
  { subst chunk. unfold make_chunk. destruct conv as [c|]; [case_bool_decide|];
      dict_simpl; json_wf_tac. }
  assert (Hflat : ∀ k v, dict_get k chunk = Some v → json_sort v = v).
  { intros k v Hk%dict_get_elem. subst chunk. unfold make_chunk in Hk.
    destruct conv as [c|]; [case_bool_decide|]; revert Hk; dict_simpl;
      rewrite !elem_of_cons, elem_of_nil; naive_solver. }
  destruct (seal_envelope_ok sender rcpt "file" (JObj chunk) rnd Hr) as [sealed Hseal].
  destruct (file_header_ok tid index total Ht Hi Htot) as (a&b&c&d&Hh&<-&<-).
  assert (Hbuild : build_file_payload sender (hex (sign_pk rcpt)) chunk rnd
    = Ok (b64encode ((tid ++ [a; b; c; d]) ++ sealed))).
  { unfold build_file_payload, seal_file_chunk. rewrite Hseal.
    assert (jindex "transfer_id" (JObj chunk) = Ok (JStr (hex tid)) ∧
      chunk_int "index" chunk = Ok (unpack_H a b) ∧ chunk_int "total" chunk = Ok (unpack_H c d))
      as (->&->&->).
    { subst chunk. unfold chunk_int, make_chunk.
      destruct conv as [cv|]; [case_bool_decide|]; dict_simpl; done. }
    cbn [mbind result_bind json_fromhex]. rewrite fromhex_hex. cbn [mbind result_bind].
    by rewrite Hh. }
  do 3 eexists. split; [exact Hbuild|]. split; [by apply parse_payload_header|].
  unfold open_file_chunk.
  rewrite (open_seal_envelope sender rcpt "file" _ _ _ _ Hs Hr eq_refl Hwf Hseal). cbn.
  split; [reflexivity|]. intros k. case_decide as Hk; [subst; by rewrite dict_get_set_eq|].
  rewrite dict_get_set_ne by done. apply json_wf_obj in Hwf as [Hd _].
  rewrite dict_get_sort by done. destruct (dict_get k chunk) as [v|] eqn:E; [|done].
  cbn. by rewrite (Hflat k v).
Qed.

(** A file that passes [validate_send_size] has at most 640 chunks, so the
    two 16-bit header fields of every chunk fit, and the header is 20 bytes. *)
Theorem send_size_headers size tid i :
  0 <= size → validate_send_size size = Ok tt → length tid = 16%nat →
  let total := (size + FILE_CHUNK_SIZE - 1) / FILE_CHUNK_SIZE in
  0 <= i < total →
  total <= 640 ∧ ∃ h, file_header tid i total = Ok h ∧ length h = 20%nat.
Proof.
  intros Hs Hv Ht total Hi. unfold validate_send_size, MAX_SEND_BYTES in Hv. destruct (Z.ltb_spec (20 * 1024 * 1024) size); [done|].
  assert (Htot : total <= 640) by (subst total; unfold FILE_CHUNK_SIZE; Z.div_mod_to_equations; lia).
  split; [done|].
  destruct (file_header_ok tid i total Ht Hi ltac:(lia)) as (a&b&c&d&->&_).
  eexists. split; [done|]. rewrite length_app, Ht. done.
Qed.

(** The buffer a receiver holds after chunks [arrivals] came in. *)
Definition received (ps : list bytes) (arrivals : list nat) : gmap Z bytes :=
  foldl (λ m i, <[Z.of_nat i := nth i ps []]> m) ∅ arrivals.

Lemma received_lookup (ps : list bytes) arrivals (m : gmap Z bytes) i :
  foldl (λ m i, <[Z.of_nat i := nth i ps []]> m) m arrivals !! i =
    if decide (0 <= i ∧ Z.to_nat i ∈ arrivals) then Some (nth (Z.to_nat i) ps []) else m !! i.
Proof.
  revert m; induction arrivals as [|a l IH]; intros m; cbn.
  - rewrite decide_False; [done|]. by intros [_ ?%elem_of_nil].
  - rewrite IH. destruct (decide (i = Z.of_nat a)) as [->|Hne].
    + rewrite Nat2Z.id, (decide_True (P := 0 <= Z.of_nat a ∧ a ∈ a :: l)) by (split; [lia|left]).
      destruct (decide (0 <= Z.of_nat a ∧ a ∈ l)); [done|]. by rewrite lookup_insert_eq.
    + rewrite lookup_insert_ne by done.
      assert (Hiff : 0 <= i ∧ Z.to_nat i ∈ a :: l ↔ 0 <= i ∧ Z.to_nat i ∈ l).
      { rewrite elem_of_cons. split; [|tauto]. intros (?&[<-|?]); [lia|done]. }
      by rewrite (decide_ext _ _ _ _ Hiff).
Qed.

Lemma range_elem n i : i ∈ range n ↔ 0 <= i < n.
Proof.
  unfold range. rewrite list_elem_of_fmap. split.
  - intros (k&->&Hk%elem_of_seq). lia.
  - intros Hi. exists (Z.to_nat i). rewrite elem_of_seq. lia.
Qed.

Lemma concat_nth (ps : list bytes) :
  concat ((λ i, nth i ps []) <$> seq 0 (length ps)) = concat ps.
Proof.
  f_equal. apply list_eq. intros i. rewrite list_lookup_fmap.
  destruct (decide (i < length ps)%nat) as [Hi|Hi].
  - rewrite lookup_seq_lt by done. cbn.
    destruct (lookup_lt_is_Some_2 ps i Hi) as [x Hx]. rewrite Hx.
    by rewrite (nth_lookup_Some ps i [] x).
  - rewrite lookup_seq_ge by lia. symmetry. apply lookup_ge_None. lia.
Qed.

Lemma received_size ps arrivals :
  (∀ i, i ∈ arrivals → (i < length ps)%nat) →
  (∀ i, (i < length ps)%nat → i ∈ arrivals) →
  size (received ps arrivals) = length ps.
Proof.
  intros Hin Hall. rewrite <-size_dom.
  assert (dom (received ps arrivals) = list_to_set (range (Z.of_nat (length ps)))) as ->.
  { apply set_eq. intros i. rewrite elem_of_dom, elem_of_list_to_set, range_elem.
    unfold received. rewrite received_lookup. split.
    - case_decide as Hd; [|rewrite lookup_empty; by intros []].
      destruct Hd as [Hi Hn]. intros _. specialize (Hin _ Hn). lia.
    - intros Hi. rewrite decide_True; [done|]. split; [lia|]. apply Hall. lia. }
  rewrite size_list_to_set.
  - unfold range. by rewrite length_fmap, length_seq, Nat2Z.id.
  - unfold range. apply NoDup_fmap; [apply _|apply NoDup_seq].
Qed.

(** Chunks may arrive in any order and any number of times: the file is
    rebuilt exactly when each index has arrived, and nothing is returned before. *)
Theorem reassemble_received ps arrivals :
  Forall (λ i, (i < length ps)%nat) arrivals →
  reassemble_file (received ps arrivals) (Z.of_nat (length ps)) =
    if bool_decide (Forall (λ i, i ∈ arrivals) (seq 0 (length ps))) then Some (concat ps) else None.
Proof.
  rewrite Forall_forall. intros Hin. unfold reassemble_file.
  case_bool_decide as Hall.
  - rewrite Forall_forall in Hall. rewrite (received_size ps arrivals Hin) by (intros i Hi; apply Hall, elem_of_seq; lia).
    rewrite Z.eqb_refl. cbn [negb orb].
    assert (Hget : ∀ i, 0 <= i < Z.of_nat (length ps) →
      received ps arrivals !! i = Some (nth (Z.to_nat i) ps [])).
    { intros i Hi. unfold received. rewrite received_lookup, decide_True; [done|].
      split; [lia|]. apply Hall, elem_of_seq. lia. }
    replace (existsb _ _) with false.
    + f_equal. rewrite <-(concat_nth ps). unfold range. rewrite Nat2Z.id, <-list_fmap_compose.
      f_equal. apply list_fmap_ext. intros k i Hi%lookup_seq. destruct Hi as [-> Hi]. cbn.
      rewrite Hget by lia. by rewrite Nat2Z.id.
    + symmetry. apply not_true_iff_false. rewrite existsb_exists.
      intros (i&Hi%list_elem_of_In%range_elem&Hn%bool_decide_eq_true).
      by rewrite Hget in Hn.
  - replace (_ || _) with true; [done|]. symmetry. apply orb_true_intro. right.
    apply existsb_exists.
    assert (∃ i, i ∈ seq 0 (length ps) ∧ i ∉ arrivals) as (i&Hi&Hni).
    { apply not_Forall_Exists in Hall; [|apply _]. by apply Exists_exists in Hall. }
    exists (Z.of_nat i). split.
    + apply list_elem_of_In, range_elem. apply elem_of_seq in Hi. lia.
    + apply bool_decide_eq_true. unfold received. rewrite received_lookup, decide_False; [done|].
      rewrite Nat2Z.id. by intros [_ ?].
Qed.

Lemma sorted_perm l1 l2 : l1 ≡ₚ l2 → sorted l1 = sorted l2.
Proof.
  intros Hp. unfold sorted. apply (StronglySorted_unique String.le).
  - by apply (StronglySorted_merge_sort _).
  - by apply (StronglySorted_merge_sort _).
  - by rewrite !merge_sort_Permutation.
Qed.

(** Two members listing the same nodes in any order agree on the room's id. *)
Theorem room_id_order l1 l2 : l1 ≡ₚ l2 → room_id l1 = room_id l2.
Proof. intros Hp. unfold room_id. by rewrite (sorted_perm l1 l2 Hp). Qed.
End ProtocolProps.

Section ProtocolWitness.
Local Instance pw_json : JsonCodec := RefCodec.
Local Instance pw_json_laws : JsonLaws RefCodec := RefCodec_laws.
Local Instance pw_nacl : NaCl := RefNaCl.
Local Instance pw_nacl_laws : NaClLaws RefNaCl := RefNaCl_laws.

Definition alice : bytes := replicate 32 Byte.x0a.
Definition bob : bytes := replicate 32 Byte.x0b.

Example parse_make_invite_witness :
  ∃ invite, make_invite alice (hex bob) "al " = Ok invite ∧
    parse_invite invite = Ok (hex alice, hex bob, "al").
Proof.
  destruct (parse_make_invite alice bob "al ") as (invite&H1&H2);
    [done..|by vm_compute|]. exists invite. split; [exact H1|exact H2].
Defined.

Example open_seal_message_witness :
  ∃ payload, seal_message alice (hex bob) "hi" 5 (Some "al") None None 0 = Ok payload ∧
    open_message bob payload
      = Ok [("from", JStr (hex alice)); ("text", JStr "hi"); ("ts", JInt 5); ("screen", JStr "al")].
Proof.
  destruct (open_seal_message alice bob "hi" 5 (Some "al") None None 0) as (payload&H1&H2);
    [done..|by intros ? [= <-]|by intros ? [=]|by intros ? [=]|].
  exists payload. split; [exact H1|exact H2].
Defined.

(** a sealed message, evaluated *)
Definition wit_payload : string :=
  match seal_message alice (hex bob) "hi" 5 None None None 0 with Ok p => p | Raise _ => "" end.
Example open_message_authentic_witness :
  ∃ from_hex pk body obj sig,
    dict_get "from" [("from", JStr (hex alice)); ("text", JStr "hi"); ("ts", JInt 5)]
      = Some (JStr from_hex) ∧ fromhex from_hex = Ok pk ∧ length pk = 32%nat ∧
    verify_detached pk (MAGIC ++ utf8_encode body) sig = Ok tt ∧ json_loads body = Ok (JObj obj).
Proof.
  destruct (open_message_authentic bob wit_payload
    [("from", JStr (hex alice)); ("text", JStr "hi"); ("ts", JInt 5)])
    as (f&pk&body&obj&sig&?&?&?&?&?&_); [by vm_compute|]. by exists f, pk, body, obj, sig.
Defined.

Example file_payload_roundtrip_witness :
  let chunk := make_chunk (hex (take 16 alice)) 1 3 "a.png" "image" "00" 5 [Byte.x01] None in
  ∃ payload sealed opened,
    build_file_payload alice (hex bob) chunk 0 = Ok payload ∧
    parse_file_payload payload = Ok (FilePayload (take 16 alice) 1 3 sealed) ∧
    open_file_chunk bob sealed = Ok opened ∧ dict_get "size" opened = Some (JInt 5).
Proof.
  intros chunk. destruct (file_payload_roundtrip alice bob (take 16 alice) 1 3 "a.png" "image" "00"
    5 [Byte.x01] None 0) as (p&s&o&H1&H2&H3&H4); [done..|by intros ? [=]|].
  exists p, s, o. split_and!; [exact H1|exact H2|exact H3|]. by rewrite H4.
Defined.

Example send_size_headers_witness :
  0 <= 70000 ∧ validate_send_size 70000 = Ok tt ∧
  ∃ h, file_header (take 16 alice) 2 3 = Ok h ∧ length h = 20%nat.
Proof.
  split_and!; [done|done|].
  destruct (send_size_headers 70000 (take 16 alice) 2) as [_ Hh]; [done..|]. exact Hh.
Defined.

Example reassemble_received_witness :
  Forall (λ i, (i < 2)%nat) [1; 0; 1]%nat ∧
  reassemble_file (received [[Byte.x01]; [Byte.x02]] [1; 0; 1]%nat) (Z.of_nat 2)
    = Some [Byte.x01; Byte.x02].
Proof.
  split; [repeat constructor|].
  etrans; [apply (reassemble_received [[Byte.x01]; [Byte.x02]] [1; 0; 1]%nat); repeat constructor|done].
Defined.

Example room_id_order_witness : room_id ["n2"; "n1"] = room_id ["n1"; "n2"].
Proof. apply (room_id_order ["n2"; "n1"] ["n1"; "n2"]). constructor. Defined.
End ProtocolWitness.
