(* ===== verification/Keys.v ===== *)
(** * keys.py: Yggdrasil addresses, node keys and encrypted backups *)

From S2P Require Import Prelude PyStr Codec Json Sys Crypto.
From Stdlib Require Import Ascii.
Local Open Scope Z_scope.

(** ** [ipaddress.IPv6Address(data).compressed] *)

(** ["%x" % n] of a 16-bit number: hex digits without leading zeros. *)
Definition hex16 (n : Z) : string :=
  let ds := [hex_digit (n / 4096 mod 16); hex_digit (n / 256 mod 16);
             hex_digit (n / 16 mod 16); hex_digit (n mod 16)] in
  match drop_while (λ a, bool_decide (a = "0"%char)) ds with
  | [] => "0"
  | ds => String.string_of_list_ascii ds
  end.

Fixpoint hextets (l : bytes) : list string :=
  match l with
  | a :: b :: l => hex16 (256 * byte_val a + byte_val b) :: hextets l
  | _ => []
  end.

(** The scan of [_compress_hextets] for the first longest run of zeros. *)
Record run := Run { best_start : Z; best_len : Z; cur_start : Z; cur_len : Z }.
Definition run_step (r : run) (ih : nat * string) : run :=
  let '(i, h) := ih in
  if bool_decide (h = "0") then
    let len := cur_len r + 1 in
    let start := if cur_start r =? -1 then Z.of_nat i else cur_start r in
    if best_len r <? len then Run start len start len
    else Run (best_start r) (best_len r) start len
  else Run (best_start r) (best_len r) (-1) 0.
Definition compress_hextets (hs : list string) : list string :=
  let r := foldl run_step (Run (-1) 0 (-1) 0) (imap (λ i h, (i, h)) hs) in
  if 1 <? best_len r then
    let best_end := best_start r + best_len r in
    let hs' := if best_end =? Z.of_nat (length hs) then hs ++ [""] else hs in
    let hs' := take (Z.to_nat (best_start r)) hs' ++ [""] ++ drop (Z.to_nat best_end) hs' in
    if best_start r =? 0 then "" :: hs' else hs'
  else hs.
Definition ipv6_compressed (data : bytes) : string := join ":" (compress_hextets (hextets data)).

(** ** [yggdrasil_address] *)

(** The loop's locals. *)
Record ygg := Ygg { y_temp : list Z; y_done : bool; y_ones : Z; y_bits : Z; y_nbits : Z }.

Definition ygg_step (y : ygg) (bit : Z) : ygg :=
  if negb (y_done y) && negb (bit =? 0) then
    Ygg (y_temp y) (y_done y) (Z.land (y_ones y + 1) 255) (y_bits y) (y_nbits y)
  else if negb (y_done y) && (bit =? 0) then
    Ygg (y_temp y) true (y_ones y) (y_bits y) (y_nbits y)
  else
    let bits := Z.land (Z.lor (Z.shiftl (y_bits y) 1) bit) 255 in
    let nbits := y_nbits y + 1 in
    if nbits =? 8 then Ygg (y_temp y ++ [bits]) (y_done y) (y_ones y) bits 0
    else Ygg (y_temp y) (y_done y) (y_ones y) bits nbits.

(** [bit = (buf[idx // 8] & (0x80 >> (idx % 8))) >> (7 - (idx % 8))] *)
Definition ygg_bit (buf : list Z) (idx : nat) : Z :=
  let r := Z.of_nat (idx mod 8) in
  Z.shiftr (Z.land (nth (idx / 8) buf 0) (Z.shiftr 128 r)) (7 - r).

(** [addr[2 + i] = b] for the indices below 16 *)
Definition ygg_addr (ones : Z) (temp : list Z) : bytes :=
  val_byte 2 :: val_byte ones :: take 14 ((val_byte <$> temp) ++ replicate 14 Byte.x00).

Definition yggdrasil_bytes (pubkey : bytes) : bytes :=
  let buf := (λ b, Z.lxor (byte_val b) 255) <$> pubkey in
  let y := foldl ygg_step (Ygg [] false 0 0 0) (ygg_bit buf <$> seq 0 (8 * length buf)) in
  ygg_addr (y_ones y) (y_temp y).

Definition yggdrasil_address (pubkey : bytes) : result string :=
  if negb (length pubkey =? 32)%nat then Raise (ValueError "public key must be 32 bytes")
  else Ok (ipv6_compressed (yggdrasil_bytes pubkey)).

(** ** Node keys and bundles *)

Section Keys.
Context `{N : NaCl} `{J : JsonCodec} `{D : Daemon}.

Definition BUNDLE_VERSION : Z := 1.

(** [re.sub(r"\s+", "", s)] *)
Definition remove_spaces (s : string) : string :=
  sconcat (List.filter (λ c, negb (is_space c)) (uchars s)).
Definition is_lower_hex (a : ascii) : bool := is_hex a && bool_decide (lower_ascii a = a).

Definition parse_node_key (text : option string) : result (bytes * bytes) :=
  let raw := lower (remove_spaces (default "" text)) in
  let raw := if startswith "0x" raw then String.substring 2 (String.length raw - 2) raw else raw in
  if bool_decide (raw = "") || negb (str_all is_lower_hex raw) then Raise (ValueError "key must be hex")
  else
    data ← catch is_value_error (fromhex raw) (λ e, Raise (ValueError ("bad hex: " +:+ exn_str e)));
    seed ← (if (length data =? 64)%nat then Ok (take 32 data)
            else if (length data =? 32)%nat then Ok data
            else Raise (ValueError "expected a 64- or 128-hex-character key"));
    Ok (seed, sign_pk seed).

Definition random_node_key : IO (string * string) :=
  seed ← random 32;
  addr ← lift (yggdrasil_address (sign_pk seed));
  mret (hex seed, addr).

Definition _atomic_write (path : string) (data : bytes) (mode : Z) : IO unit :=
  for_each sys (write_replace path data mode).

(** Directories are not part of the file map: [os.makedirs] does nothing to it. *)
Definition write_node_key (datadir : string) (seed : bytes) : IO string :=
  let path := path_join datadir "node.key" in
  _ ← _atomic_write path (utf8_encode (hex seed) ++ [Byte.x0a]) 384;
  mret path.

Definition remove_node_key (datadir : string) : IO unit :=
  try_with is_os_error (sys (SRemove (path_join datadir "node.key"))) (λ _, mret tt).

Definition bundle_object (salt ct : bytes) : json :=
  JObj [("v", JInt BUNDLE_VERSION); ("kdf", JStr "scrypt"); ("salt", JStr (b64encode salt));
        ("ct", JStr (b64encode ct))].

Definition save_bundle (path passphrase : string) (data : json) : IO unit :=
  salt ← random 16;
  let key := kdf_key passphrase salt in
  nonce ← random 24;
  let ct := secret_encrypt key (utf8_encode (json_dumps data)) nonce in
  _atomic_write path (utf8_encode (json_dumps_indent (bundle_object salt ct))) 384.

Definition parse_bundle (content : bytes) (passphrase : string) : result json :=
  blob ← json_loads_bytes content;
  v ← jget "v" blob;
  _ ← guard_or (default false (json_is_int BUNDLE_VERSION <$> v)) (ValueError "unsupported backup version");
  salt ← jindex "salt" blob ≫= json_b64decode;
  ct ← jindex "ct" blob ≫= json_b64decode;
  data ← catch is_exception (secret_decrypt (kdf_key passphrase salt) ct)
    (λ _, Raise (ValueError "wrong passphrase or corrupted backup"));
  json_loads_bytes data.

Definition load_bundle (path passphrase : string) : IO json :=
  content ← read_file path;
  lift (parse_bundle content passphrase).
End Keys.

(** yggdrasil-go's own test vector *)
Definition ygg_vector : bytes := val_byte <$>
  [189; 186; 207; 216; 34; 64; 222; 61; 205; 18; 57; 36; 203; 181; 82; 86;
   251; 141; 171; 8; 170; 152; 227; 5; 82; 138; 184; 79; 65; 158; 110; 251].
Example ygg_vector_ok :
  yggdrasil_address ygg_vector = Ok "200:848a:604f:bb7e:4384:65db:8db6:6895".
Proof. by vm_compute. Qed.

(** ** A reference definition of the address

    The bits of the inverted key: the number of leading ones, then, after the
    first zero, the whole octets of what follows, padded with zeros. *)

Definition inv_bits (pubkey : bytes) : list bool :=
  flat_map (λ b, (λ k, negb (Z.testbit (byte_val b) k)) <$> [7; 6; 5; 4; 3; 2; 1; 0]) pubkey.
Definition bits_val (l : list bool) : Z := foldl (λ n (b : bool), 2 * n + Z.b2z b) 0 l.
Fixpoint octets (l : list bool) : list Z :=
  match l with
  | a :: b :: c :: d :: e :: f :: g :: h :: l => bits_val [a; b; c; d; e; f; g; h] :: octets l
  | _ => []
  end.
Definition address_spec (pubkey : bytes) : bytes :=
  let ones := length (take_while id (inv_bits pubkey)) in
  let body := drop (S ones) (inv_bits pubkey) in
  val_byte 2 :: val_byte (Z.of_nat ones)
    :: take 14 ((val_byte <$> octets body) ++ replicate 14 Byte.x00).

(** The loop reads the bits of the inverted key, most significant first. *)
Lemma ygg_bit_byte b buf :
  ygg_bit (Z.lxor (byte_val b) 255 :: buf) <$> seq 0 8
    = Z.b2z <$> ((λ k, negb (Z.testbit (byte_val b) k)) <$> [7; 6; 5; 4; 3; 2; 1; 0]).
Proof. by destruct b. Qed.

Lemma ygg_bit_skip x buf i : ygg_bit (x :: buf) (8 + i) = ygg_bit buf i.
Proof.
  unfold ygg_bit. replace (8 + i)%nat with (i + 1 * 8)%nat by lia.
  rewrite Nat.Div0.mod_add, Nat.div_add by lia. by rewrite Nat.add_1_r.
Qed.

Lemma ygg_bits pubkey :
  let buf := (λ b, Z.lxor (byte_val b) 255) <$> pubkey in
  ygg_bit buf <$> seq 0 (8 * length buf) = Z.b2z <$> inv_bits pubkey.
Proof.
  cbn zeta. induction pubkey as [|b l IH]; [done|]. rewrite fmap_cons. cbn [length].
  replace (8 * S _)%nat with (8 + 8 * length ((λ b, Z.lxor (byte_val b) 255) <$> l))%nat by lia.
  rewrite seq_app, fmap_app, ygg_bit_byte. cbn [inv_bits flat_map]. rewrite fmap_app. f_equal.
  change (flat_map _ l) with (inv_bits l). rewrite <-IH, <-(fmap_add_seq 8 0), <-list_fmap_compose.
  apply list_fmap_ext. intros k i _. apply ygg_bit_skip.
Qed.

(** First phase: the leading ones are counted, the first zero ends it. *)
Lemma ygg_ones l o :
  0 <= o < 256 →
  foldl ygg_step (Ygg [] false o 0 0) (Z.b2z <$> l) =
    let n := length (take_while id l) in
    let o' := (o + Z.of_nat n) mod 256 in
    match drop n l with
    | [] => Ygg [] false o' 0 0
    | _ :: l' => foldl ygg_step (Ygg [] true o' 0 0) (Z.b2z <$> l')
    end.
Proof.
  revert o; induction l as [|[] l IH]; intros o Ho; cbn.
  - by rewrite Z.add_0_r, Z.mod_small.
  - unfold ygg_step at 2. cbn [y_done y_ones y_temp y_bits y_nbits negb andb Z.b2z Z.eqb].
    change 255 with (Z.ones 8). rewrite Z.land_ones by done. change (2 ^ 8) with 256.
    rewrite IH by (apply Z.mod_pos_bound; done). cbn zeta. rewrite Zplus_mod_idemp_l.
    by replace (o + 1 + Z.of_nat _) with (o + Z.of_nat (S (length (take_while id l)))) by lia.
  - by rewrite Z.add_0_r, Z.mod_small.
Qed.

Lemma bits_val_snoc l b : bits_val (l ++ [b]) = 2 * bits_val l + Z.b2z b.
Proof. unfold bits_val. by rewrite foldl_app. Qed.

Lemma ygg_shift bits (b : bool) :
  0 <= bits → Z.land (Z.lor (Z.shiftl bits 1) (Z.b2z b)) 255 = (2 * bits + Z.b2z b) mod 256.
Proof.
  intros Hb. change 255 with (Z.ones 8). rewrite Z.land_ones by done. f_equal.
  rewrite Z.shiftl_mul_pow2 by done. change (2 ^ 1) with 2. rewrite Z.mul_comm. symmetry.
  rewrite <-Z.lxor_lor, <-Z.add_nocarry_lxor; [done|..];
    (destruct b; [|by rewrite Z.land_0_r]);
    apply Z.bits_inj'; intros n Hn; rewrite Z.land_spec, Z.bits_0;
    destruct (Z.eq_dec n 0) as [->|];
    [by rewrite Z.testbit_even_0|change (Z.b2z true) with 1;
      rewrite (Z.bits_above_log2 1) by (cbn; lia); apply andb_false_r
    |by rewrite Z.testbit_even_0|change (Z.b2z true) with 1;
      rewrite (Z.bits_above_log2 1) by (cbn; lia); apply andb_false_r].
Qed.

Lemma octets_short l : (length l < 8)%nat → octets l = [].
Proof. do 8 (destruct l as [|? l]; [done|]). cbn. lia. Qed.

Lemma octets_full p l : length p = 8%nat → octets (p ++ l) = bits_val p :: octets l.
Proof. do 8 (destruct p as [|? p]; [done|]). by destruct p. Qed.

Lemma ygg_step_done temp o bits n (b : bool) :
  0 <= bits →
  ygg_step (Ygg temp true o bits n) (Z.b2z b) =
    let bits' := (2 * bits + Z.b2z b) mod 256 in
    if n + 1 =? 8 then Ygg (temp ++ [bits']) true o bits' 0 else Ygg temp true o bits' (n + 1).
Proof. intros Hb. unfold ygg_step. cbn [y_done y_bits negb andb]. by rewrite ygg_shift. Qed.

(** Second phase: [p] are the bits of the current octet. *)
Lemma ygg_octets l p temp o bits :
  (length p < 8)%nat → 0 <= bits → bits mod 2 ^ Z.of_nat (length p) = bits_val p →
  let y := foldl ygg_step (Ygg temp true o bits (Z.of_nat (length p))) (Z.b2z <$> l) in
  y_temp y = temp ++ octets (p ++ l) ∧ y_ones y = o.
Proof.
  revert p temp bits; induction l as [|b l IH]; intros p temp bits Hp Hb Hv; cbv zeta;
    cbn [fmap list_fmap foldl].
  { rewrite app_nil_r, octets_short, app_nil_r by done. done. }
  rewrite ygg_step_done by done. cbn zeta.
  assert (Hdouble : (2 * bits + Z.b2z b) mod 2 ^ Z.of_nat (length (p ++ [b])) = bits_val (p ++ [b])).
  { rewrite bits_val_snoc, <-Hv, length_app, Nat2Z.inj_add. cbn [length].
    rewrite Z.pow_add_r by lia. change (2 ^ Z.of_nat 1) with 2.
    assert (0 < 2 ^ Z.of_nat (length p)) by (apply Z.pow_pos_nonneg; lia).
    set (m := 2 ^ Z.of_nat (length p)) in *.
    symmetry. apply (Z.mod_unique_pos _ _ (bits / m)).
    - pose proof (Z.mod_pos_bound bits m ltac:(lia)). destruct b; cbn; lia.
    - pose proof (Z.div_mod bits m ltac:(lia)). lia. }
  assert (Hb' : 0 <= (2 * bits + Z.b2z b) mod 256) by (apply Z.mod_pos_bound; lia).
  replace (p ++ b :: l) with ((p ++ [b]) ++ l) by (by rewrite <-app_assoc).
  destruct (Z.eqb_spec (Z.of_nat (length p) + 1) 8) as [H8|H8].
  - assert (Hlen : length (p ++ [b]) = 8%nat) by (rewrite length_app; cbn; lia).
    rewrite Hlen in Hdouble. change (2 ^ Z.of_nat 8) with 256 in Hdouble.
    destruct (IH [] (temp ++ [(2 * bits + Z.b2z b) mod 256]) ((2 * bits + Z.b2z b) mod 256))
      as [Ht Ho]; [cbn; lia|done|cbn; apply Z.mod_1_r|].
    change (Z.of_nat (length [])) with 0 in Ht, Ho. cbn [app] in Ht. split; [|exact Ho].
    rewrite Ht, octets_full, Hdouble, <-app_assoc by done. done.
  - assert (Hlen : (length (p ++ [b]) < 8)%nat) by (rewrite length_app; cbn; lia).
    destruct (IH (p ++ [b]) temp ((2 * bits + Z.b2z b) mod 256)) as [Ht Ho]; [done|done| |].
    + rewrite <-Hdouble. apply Z.mod_mod_divide.
      exists (2 ^ (8 - Z.of_nat (length (p ++ [b])))). rewrite <-Z.pow_add_r by lia.
      by replace (8 - _ + _) with 8 by lia.
    + rewrite length_app, Nat2Z.inj_add in Ht, Ho. cbn in Ht, Ho. by split.
Qed.

(** ** Properties *)

(** C31: The bit loop of [yggdrasil_address] computes the reference address of
    every key: the prefix 0x02, the number of leading ones of the inverted key
    modulo 256, then the bits after the first zero in whole octets, cut or
    padded with zeros to 16 bytes; a key of another length is refused. *)
Theorem yggdrasil_address_spec pubkey :
  yggdrasil_address pubkey =
    if (length pubkey =? 32)%nat then Ok (ipv6_compressed (address_spec pubkey))
    else Raise (ValueError "public key must be 32 bytes").
Proof.
  unfold yggdrasil_address. destruct (length pubkey =? 32)%nat; cbn [negb]; [|done].
  do 2 f_equal. unfold yggdrasil_bytes, address_spec. cbn zeta. rewrite ygg_bits.
  set (bits := inv_bits pubkey). rewrite ygg_ones by done. cbn zeta. rewrite Z.add_0_l.
  assert (Hcut : drop (S (length (take_while id bits))) bits
    = match drop (length (take_while id bits)) bits with [] => [] | _ :: l => l end).
  { generalize (length (take_while id bits)). intros n. clearbody bits. revert bits.
    induction n as [|n IH]; intros [|x l]; try done. apply IH. }
  rewrite Hcut. unfold ygg_addr.
  destruct (drop (length (take_while id bits)) bits) as [|x l].
  - cbn [y_ones y_temp]. by rewrite val_byte_mod.
  - destruct (ygg_octets l [] [] (Z.of_nat (length (take_while id bits)) mod 256) 0)
      as [Ht Ho]; [cbn; lia|done|done|].
    change (Z.of_nat (length [])) with 0 in Ht, Ho. cbn [app] in Ht.
    by rewrite Ht, Ho, val_byte_mod.
Qed.

Section KeyProps.
Context `{N : NaCl} {NL : NaClLaws N} `{J : JsonCodec} {JL : JsonLaws J} `{D : Daemon}.

Lemma read_atomic_write path data mode w :
  ∃ w', _atomic_write path data mode w = (Ok tt, w') ∧ fs_read path (w_fs w') = Ok data.
Proof.
  destruct (write_replace_spec path data mode (w_fs w)) as (m&md&Hm&Hp&_).
  exists (set_fs m w). unfold _atomic_write. rewrite (for_each_sys _ _ m) by done.
  split; [done|]. unfold fs_read. cbn. by rewrite Hp.
Qed.

Lemma hex_chars l : uchars (hex l) = (λ a, String a "") <$> String.list_ascii_of_string (hex l).
Proof.
  induction l as [|b l IH]; [done|].
  assert (Hh : str_all is_hex (hex (b :: l)) = true) by apply hex_all_hex.
  assert (Hn : starts_cont (hex l) = false)
    by (apply ascii_not_starts_cont; eapply str_all_impl; [apply is_hex_ascii|apply hex_all_hex]).
  change (hex (b :: l)) with (String (hex_digit (byte_val b / 16))
    (String (hex_digit (byte_val b mod 16)) (hex l))) in *.
  cbn [str_all] in Hh. apply andb_prop in Hh as [H1 Hh]. apply andb_prop in Hh as [H2 _].
  rewrite uchars_ascii_cons by (by apply is_ascii_not_cont, is_hex_ascii).
  rewrite uchars_ascii_cons by done. rewrite IH. done.
Qed.

Lemma hex_digit_plain b :
  let hi := hex_digit (byte_val b / 16) in let lo := hex_digit (byte_val b mod 16) in
  is_space (String hi "") = false ∧ is_space (String lo "") = false ∧
  lower_ascii hi = hi ∧ lower_ascii lo = lo ∧ lo ≠ "x"%char ∧
  is_lower_hex hi = true ∧ is_lower_hex lo = true.
Proof. by destruct b; vm_compute. Qed.

(** The key file: the hex seed and a line feed. *)
Definition newline : string := String "010"%char "".

Lemma remove_spaces_hex l rest :
  rest = "" ∨ rest = newline → remove_spaces (hex l +:+ rest) = hex l.
Proof.
  intros Hrest. unfold remove_spaces.
  rewrite uchars_app by (by destruct Hrest as [-> | ->]).
  rewrite List.filter_app, sconcat_app.
  replace (sconcat (List.filter _ (uchars rest))) with ""
    by (destruct Hrest as [-> | ->]; by vm_compute).
  rewrite str_app_nil_r, hex_chars.
  induction l as [|b l IH]; [done|].
  destruct (hex_digit_plain b) as (H1&H2&_).
  change (hex (b :: l)) with (String (hex_digit (byte_val b / 16))
    (String (hex_digit (byte_val b mod 16)) (hex l))).
  cbn [String.list_ascii_of_string fmap list_fmap List.filter]. rewrite H1, H2.
  cbn [negb sconcat foldr]. change (foldr String.append "" ?x) with (sconcat x).
  by rewrite IH.
Qed.

Lemma lower_hex l : lower (hex l) = hex l ∧ str_all is_lower_hex (hex l) = true.
Proof.
  induction l as [|b l [IH1 IH2]]; [done|].
  destruct (hex_digit_plain b) as (_&_&H3&H4&_&H5&H6).
  change (hex (b :: l)) with (String (hex_digit (byte_val b / 16))
    (String (hex_digit (byte_val b mod 16)) (hex l))).
  unfold lower in *. cbn [map_str str_all]. by rewrite H3, H4, H5, H6, IH1, IH2.
Qed.

Lemma hex_not_0x b l : startswith "0x" (hex (b :: l)) = false.
Proof.
  destruct (hex_digit_plain b) as (_&_&_&_&Hx&_).
  change (hex (b :: l)) with (String (hex_digit (byte_val b / 16))
    (String (hex_digit (byte_val b mod 16)) (hex l))).
  unfold startswith. cbn [String.prefix].
  destruct (ascii_dec "0" _); [|done]. by destruct (ascii_dec "x" _).
Qed.

(** A seed, or a full private key, in hex with or without a final newline. *)
Lemma parse_node_key_hex data rest :
  length data = 32%nat ∨ length data = 64%nat → rest = "" ∨ rest = newline →
  parse_node_key (Some (hex data +:+ rest)) = Ok (take 32 data, sign_pk (take 32 data)).
Proof.
  intros Hlen Hrest. unfold parse_node_key. cbn [default from_option id].
  rewrite remove_spaces_hex by done. destruct (lower_hex data) as [-> Hhex].
  destruct data as [|b data]; [by destruct Hlen|]. rewrite hex_not_0x, Hhex.
  rewrite bool_decide_eq_false_2 by done. cbn [orb negb]. rewrite fromhex_hex.
  cbn [catch mbind result_bind]. destruct Hlen as [Hlen|Hlen]; rewrite Hlen; cbn [Nat.eqb mbind result_bind].
  - by rewrite take_ge by lia.
  - done.
Qed.

(** A seed written by [write_node_key] is in the file, in the form
    [parse_node_key] reads back to the seed and its public key. *)
Theorem node_key_roundtrip datadir seed w :
  length seed = 32%nat →
  ∃ path w' content text, write_node_key datadir seed w = (Ok path, w') ∧
    fs_read path (w_fs w') = Ok content ∧ utf8_decode content = Ok text ∧
    parse_node_key (Some text) = Ok (seed, sign_pk seed).
Proof.
  intros Hlen. unfold write_node_key.
  destruct (read_atomic_write (path_join datadir "node.key") (utf8_encode (hex seed) ++ [Byte.x0a])
    384 w) as (w'&Hrun&Hread).
  exists (path_join datadir "node.key"), w', (utf8_encode (hex seed +:+ newline)), (hex seed +:+ newline).
  split_and!.
  - by rewrite (M_bind_run _ _ _ _ _ Hrun).
  - by rewrite utf8_encode_app.
  - apply utf8_decode_encode, ascii_is_str. rewrite str_all_app.
    by rewrite (str_all_impl is_hex is_ascii) by (apply is_hex_ascii || apply hex_all_hex).
  - rewrite parse_node_key_hex by auto. by rewrite take_ge by lia.
Qed.

(** Reading the key file: the line feed goes, the digits stay. *)
Lemma hex_no_space l : Forall (λ c, is_space c = false) (uchars (hex l)).
Proof.
  rewrite hex_chars. induction l as [|b l IH]; [by constructor|].
  destruct (hex_digit_plain b) as (H1&H2&_). by repeat constructor.
Qed.
Lemma strip_hex_line l : strip (hex l +:+ newline) = hex l.
Proof.
  unfold strip, strip_by. rewrite uchars_app by done. change (uchars newline) with [newline].
  pose proof (hex_no_space l) as Hl. destruct l as [|b l]; [by vm_compute|].
  destruct (uchars (hex (b :: l))) as [|c cs] eqn:E; [by apply uchars_nil_inv in E|].
  rewrite <-app_comm_cons, drop_while_id by (by apply Forall_cons in Hl as [? _]).
  rewrite app_comm_cons, reverse_app. change (reverse [newline]) with [newline]. cbn [app drop_while].
  assert (Hnl : is_space newline = true) by (by vm_compute). rewrite Hnl.
  rewrite drop_while_none by (by apply Forall_reverse). rewrite reverse_involutive, <-E. apply sconcat_uchars.
Qed.

(** What [save_bundle] leaves under [path], and what any passphrase makes of it. *)
Lemma save_bundle_run path passphrase data w :
  ∃ w' salt nonce, length nonce = 24%nat ∧ save_bundle path passphrase data w = (Ok tt, w') ∧
    fs_read path (w_fs w') = Ok (utf8_encode (json_dumps_indent (bundle_object salt
      (secret_encrypt (kdf_key passphrase salt) (utf8_encode (json_dumps data)) nonce)))).
Proof.
  set (salt := random_bytes 16 (w_rng w)). set (nonce := random_bytes 24 (S (w_rng w))).
  set (w2 := World (w_fs w) (w_env w) (w_home w) (w_now w) (S (S (w_rng w))) (w_in w) (w_out w)
        (w_err w) (w_daemon w)).
  destruct (read_atomic_write path (utf8_encode (json_dumps_indent (bundle_object salt
    (secret_encrypt (kdf_key passphrase salt) (utf8_encode (json_dumps data)) nonce)))) 384 w2)
    as (w'&Hrun&Hread).
  exists w', salt, nonce. split; [apply random_length|]. by split.
Qed.
Lemma parse_bundle_object salt ct other :
  parse_bundle (utf8_encode (json_dumps_indent (bundle_object salt ct))) other =
    (data ← catch is_exception (secret_decrypt (kdf_key other salt) ct)
       (λ _, Raise (ValueError "wrong passphrase or corrupted backup")); json_loads_bytes data).
Proof.
  unfold parse_bundle. rewrite loads_bytes_indent by (unfold bundle_object; json_wf_tac).
  dict_simpl. by rewrite !b64decode_encode.
Qed.
Lemma parse_saved_bundle salt nonce passphrase data :
  json_wf data → length nonce = 24%nat →
  parse_bundle (utf8_encode (json_dumps_indent (bundle_object salt
    (secret_encrypt (kdf_key passphrase salt) (utf8_encode (json_dumps data)) nonce)))) passphrase = Ok data.
Proof.
  intros Hdata Hn. rewrite parse_bundle_object, secret_roundtrip by (apply scrypt_length || done).
  cbn. by rewrite loads_bytes_dumps.
Qed.

(** A backup bundle is loaded back with its passphrase; with a passphrase
    whose key does not open it the only answer is [ValueError]. *)
Theorem load_save_bundle path passphrase data w :
  json_wf data →
  ∃ w', save_bundle path passphrase data w = (Ok tt, w') ∧
    load_bundle path passphrase w' = (Ok data, w') ∧
    ∀ other, match (load_bundle path other w').1 with
             | Ok data' => ∃ salt ct plain, secret_decrypt (kdf_key other salt) ct = Ok plain ∧
                 json_loads_bytes plain = Ok data'
             | Raise e => is_value_error e = true
             end.
Proof.
  intros Hdata. destruct (save_bundle_run path passphrase data w) as (w'&salt&nonce&Hn&Hrun&Hread).
  exists w'. split; [exact Hrun|].
  assert (Hload : ∀ other content, fs_read path (w_fs w') = Ok content →
    load_bundle path other w' = (parse_bundle content other, w')).
  { intros other content Hc. unfold load_bundle, read_file, lift, mbind, M_bind. by rewrite Hc. }
  split; [by rewrite (Hload _ _ Hread), parse_saved_bundle|].
  intros other. rewrite (Hload _ _ Hread), parse_bundle_object. cbn [fst]. set (ct := secret_encrypt _ _ _).
  destruct (secret_decrypt (kdf_key other salt) ct) as [plain|e] eqn:Hdec; cbn.
  - destruct (json_loads_bytes plain) eqn:Hl; [eauto 10|by eapply loads_bytes_error].
  - apply secret_error in Hdec; [|apply scrypt_length]. by subst.
Qed.
End KeyProps.

Section KeyWitness.
Local Instance kw_json : JsonCodec := RefCodec.
Local Instance kw_json_laws : JsonLaws RefCodec := RefCodec_laws.
Local Instance kw_nacl : NaCl := RefNaCl.
Local Instance kw_nacl_laws : NaClLaws RefNaCl := RefNaCl_laws.

Example node_key_roundtrip_witness :
  length wit_seed = 32%nat ∧
  ∃ path (w' : @world wit_daemon) content text, write_node_key "/d" wit_seed wit_world = (Ok path, w') ∧
    fs_read path (w_fs w') = Ok content ∧ utf8_decode content = Ok text ∧
    parse_node_key (Some text) = Ok (wit_seed, sign_pk wit_seed).
Proof. split; [done|]. by apply (node_key_roundtrip "/d" wit_seed wit_world). Defined.

Example load_save_bundle_witness :
  ∃ w', save_bundle "b" "pw" (JObj [("contacts", JObj [])]) wit_world = (Ok tt, w') ∧
    load_bundle "b" "pw" w' = (Ok (JObj [("contacts", JObj [])]), w').
Proof.
  destruct (load_save_bundle "b" "pw" (JObj [("contacts", JObj [])]) wit_world) as (w'&H1&H2&_).
  - json_wf_tac.
  - by exists w'.
Defined.
End KeyWitness.
