(* ===== verification/Store.v ===== *)
(** * store.py: the encrypted SQLite conversation store

    Each table is the list of its rows in rowid order, keyed by its primary
    key; the SQL statements are list operations on it (one definition per
    statement shape below).  A [store] is a connection to the database: what
    it reads and has written, the key of the [SecretBox], the number of draws
    made from the randomness source, and what the file holds.  A statement
    that writes opens a transaction if none is open; only [commit] puts the
    writes into the file, and closing the connection drops the others. *)

From S2P Require Import Prelude PyStr Codec Json Sys Crypto.
From Stdlib Require Import Ascii.
Local Open Scope Z_scope.

(** ** SQL statements *)

(** [INSERT OR IGNORE]: the row count tells whether the key was new. *)
Definition insert_or_ignore `{EqDecision K} {V} (k : K) (v : V) (t : list (K * V)) : list (K * V) * bool :=
  if dict_mem k t then (t, false) else (t ++ [(k, v)], true).
(** [INSERT ... ON CONFLICT(k) DO UPDATE]: a new row, or [f] of the old one. *)
Definition upsert `{EqDecision K} {V} (k : K) (v : V) (f : V → V) (t : list (K * V)) : list (K * V) :=
  match dict_get k t with Some v0 => dict_set k (f v0) t | None => t ++ [(k, v)] end.
(** [UPDATE ... WHERE key = k] *)
Definition update_key `{EqDecision K} {V} (k : K) (f : V → V) (t : list (K * V)) : list (K * V) :=
  (λ kv, if decide (kv.1 = k) then (kv.1, f kv.2) else kv) <$> t.
(** [DELETE ... WHERE p] *)
Definition delete_where {A} (p : A → bool) (t : list A) : list A := List.filter (λ r, negb (p r)) t.
(** [SELECT MAX(x)]: [NULL] on no row. *)
Definition sql_max (l : list Z) : option Z :=
  foldr (λ x m, Some (match m with Some y => Z.max x y | None => x end)) None l.
Definition sql_sum (l : list Z) : Z := foldr Z.add 0 l.

(** A Python [int] bound to a statement must fit in 64 bits. *)
Definition int64 (z : Z) : bool := (- 2 ^ 63 <=? z) && (z <? 2 ^ 63).
Definition bind_int (z : Z) : result Z := if int64 z then Ok z else Raise OverflowError.

(** ** The schema *)

Inductive direction := In | Out.
#[export] Instance direction_eq_dec : EqDecision direction.
Proof. solve_decision. Defined.

Record conv_row := ConvRow
  { c_dm : Z; c_members : option bytes; c_muted : Z; c_hidden : Z }.
Record msg_row := MsgRow
  { m_conv : string; m_sender : string; m_dir : direction; m_ts : Z; m_seq : Z;
    m_seqs : string; m_text : option bytes; m_att : option bytes }.
Record delivery := Delivery { d_msg : string; d_acked : Z }.

Record db := Db {
  meta_salt : option string;
  conversations : list (string * conv_row);
  messages_t : list (string * msg_row);
  watermark : list (string * Z);
  read_marks : list (string * Z);
  pending_t : list (option string * bytes);
  blocked_screens : list (string * option bytes);
  muted_nodes : list (string * unit);
  deliveries : list ((string * Z) * delivery);
}.
Definition empty_db : db := Db None [] [] [] [] [] [] [] [].

(** [s_saved] is the database file, as the last [commit] left it. *)
Record store := Store { s_db : db; s_key : bytes; s_rng : nat; s_saved : db }.

Definition set_conversations t d := Db (meta_salt d) t (messages_t d) (watermark d) (read_marks d)
  (pending_t d) (blocked_screens d) (muted_nodes d) (deliveries d).
Definition set_messages t d := Db (meta_salt d) (conversations d) t (watermark d) (read_marks d)
  (pending_t d) (blocked_screens d) (muted_nodes d) (deliveries d).
Definition set_watermark t d := Db (meta_salt d) (conversations d) (messages_t d) t (read_marks d)
  (pending_t d) (blocked_screens d) (muted_nodes d) (deliveries d).
Definition set_read_marks t d := Db (meta_salt d) (conversations d) (messages_t d) (watermark d) t
  (pending_t d) (blocked_screens d) (muted_nodes d) (deliveries d).
Definition set_pending t d := Db (meta_salt d) (conversations d) (messages_t d) (watermark d)
  (read_marks d) t (blocked_screens d) (muted_nodes d) (deliveries d).
Definition set_blocked t d := Db (meta_salt d) (conversations d) (messages_t d) (watermark d)
  (read_marks d) (pending_t d) t (muted_nodes d) (deliveries d).
Definition set_muted t d := Db (meta_salt d) (conversations d) (messages_t d) (watermark d)
  (read_marks d) (pending_t d) (blocked_screens d) t (deliveries d).
Definition set_deliveries t d := Db (meta_salt d) (conversations d) (messages_t d) (watermark d)
  (read_marks d) (pending_t d) (blocked_screens d) (muted_nodes d) t.

(** A message as [_row_to_msg] builds it. [g_delivery] holds the three
    delivery fields of an outgoing message: delivered, total, count. *)
Record message := Message
  { g_id : string; g_dir : direction; g_seqs : json; g_ts : Z; g_sender : string;
    g_text : option string; g_att : option json;
    g_delivery : option (option bool * option Z * Z) }.

(** ** Operations *)

Section Store.
Context `{N : NaCl} `{J : JsonCodec}.

Definition ST (A : Type) : Type := M store A.
Definition on_db (f : db → db) : ST unit :=
  modify (λ s, Store (f (s_db s)) (s_key s) (s_rng s) (s_saved s)).
(** [self.conn.commit()] *)
Definition commit : ST unit := modify (λ s, Store (s_db s) (s_key s) (s_rng s) (s_db s)).
(** Statements, and the [commit] that follows them. *)
Definition transact (f : db → db) : ST unit :=
  modify (λ s, let d := f (s_db s) in Store d (s_key s) (s_rng s) d).
Definition query {A} (f : db → A) : ST A := gets (λ s, f (s_db s)).

(** [_salt]: the salt of the database, or one drawn and stored. *)
Definition _salt (d : db) (rng : nat) : result (bytes * (db * nat)) :=
  match meta_salt d with
  | Some v => salt ← b64decode v; Ok (salt, (d, rng))
  | None =>
    let salt := random_bytes 16 rng in
    let d := Db (Some (b64encode salt)) (conversations d) (messages_t d) (watermark d)
      (read_marks d) (pending_t d) (blocked_screens d) (muted_nodes d) (deliveries d) in
    Ok (salt, (d, S rng))
  end.
(** [__init__] on a database file; the schema and a new salt are committed. *)
Definition open_store (d : db) (rng : nat) (passphrase : string) : result store :=
  '(salt, (d, rng)) ← _salt d rng; Ok (Store d (kdf_key passphrase salt) rng d).

(** [_enc], [_dec] *)
Definition _enc (o : option string) : ST (option bytes) := λ s,
  match o with
  | None => (Ok None, s)
  | Some t =>
    (Ok (Some (secret_encrypt (s_key s) (utf8_encode t) (random_bytes 24 (s_rng s)))),
     Store (s_db s) (s_key s) (S (s_rng s)) (s_saved s))
  end.
Definition dec_blob (key : bytes) (blob : option bytes) : result (option string) :=
  match blob with
  | None => Ok None
  | Some b => plain ← secret_decrypt key b; t ← utf8_decode plain; Ok (Some t)
  end.
Definition _dec (blob : option bytes) : ST (option string) := λ s, (dec_blob (s_key s) blob, s).
(** [self._enc(s)] of a string, for a [NOT NULL] use *)
Definition enc_str (t : string) : ST bytes := o ← _enc (Some t); mret (default [] o).
(** [json.loads(self._dec(blob))]; [json.loads(None)] is a [TypeError] *)
Definition loads_blob (key : bytes) (blob : option bytes) : result json :=
  t ← dec_blob key blob; match t with Some t => json_loads t | None => Raise TypeError end.

(** *** Ingest cursor *)

Definition cursor_of (peer : string) (d : db) : Z := default 0 (dict_get peer (watermark d)).
Definition cursor (peer : string) : ST Z := query (cursor_of peer).
Definition set_cursor (peer : string) (seq : Z) : ST unit :=
  seq ← lift (bind_int seq);
  transact (λ d, set_watermark (upsert peer seq (λ old, Z.max old seq) (watermark d)) d).

(** *** Conversations *)

Definition _ensure_conv (conv : string) (dm : bool) : ST unit :=
  m ← _enc (Some "{}");
  on_db (λ d, set_conversations
    (insert_or_ignore conv (ConvRow (Z.b2z dm) m 0 0) (conversations d)).1 d).

Definition ensure_room (conv : string) (members : json) : ST unit :=
  m ← _enc (Some (json_dumps members));
  transact (λ d, set_conversations
    (upsert conv (ConvRow 0 m 0 0) (λ r, ConvRow 0 m (c_muted r) 0) (conversations d)) d).

Definition rooms_of (d : db) : list string :=
  (List.filter (λ r, (c_dm r.2 =? 0) && (c_hidden r.2 =? 0)) (conversations d)).*1.
Definition rooms : ST (list string) := query rooms_of.

Definition members (conv : string) : ST json := λ s,
  (match dict_get conv (conversations (s_db s)) with
   | Some r => match c_members r with
               | Some b => loads_blob (s_key s) (Some b)
               | None => Ok (JObj [])
               end
   | None => Ok (JObj [])
   end, s).

Definition is_room (conv : string) : ST bool := query (λ d,
  match dict_get conv (conversations d) with Some r => c_dm r =? 0 | None => false end).

Definition delete_conv_rows (conv : string) (d : db) : db :=
  set_read_marks (delete_where (λ r, bool_decide (r.1 = conv)) (read_marks d))
    (set_messages (delete_where (λ r, bool_decide (m_conv r.2 = conv)) (messages_t d)) d).

Definition delete_room (conv : string) (scan_points : list (string * Z)) : ST unit :=
  _ ← transact (λ d, let d := delete_conv_rows conv d in
        set_conversations (update_key conv (λ r, ConvRow (c_dm r) (c_members r) (c_muted r) 1)
          (conversations d)) d);
  for_each (λ '(node, latest), if latest =? 0 then mret tt else set_cursor node latest) scan_points.

Definition clear_history (conv : string) : ST unit := transact (delete_conv_rows conv).

(** *** Messages *)

Definition in_id (sender : string) (seq : Z) : string :=
  "in:" +:+ sender +:+ ":" +:+ str_of_int seq.

(** [self._enc(json.dumps(attachment)) if attachment else None] *)
Definition enc_attachment (attachment : option json) : ST (option bytes) :=
  match attachment with
  | Some a => if truthy a then _enc (Some (json_dumps a)) else mret None
  | None => mret None
  end.

Definition ingest (conv sender : string) (seq ts : Z) (text : option string)
    (attachment : option json) : ST bool :=
  let mid := in_id sender seq in
  _ ← _ensure_conv conv (bool_decide (conv = sender));
  t ← _enc text;
  a ← enc_attachment attachment;
  ts ← lift (bind_int ts);
  seq ← lift (bind_int seq);
  let row := MsgRow conv sender In ts seq (json_dumps (JObj [(sender, JInt seq)])) t a in
  new ← query (λ d, (insert_or_ignore mid row (messages_t d)).2);
  _ ← on_db (λ d, set_messages (insert_or_ignore mid row (messages_t d)).1 d);
  _ ← (if new : bool then on_db (λ d, set_conversations
         (update_key conv (λ r, ConvRow (c_dm r) (c_members r) (c_muted r) 0) (conversations d)) d)
       else mret tt);
  _ ← commit;
  mret new.

(** [sorted(seqs.items())], pairs in lexicographic order *)
Definition seqs_le (x y : string * Z) : Prop :=
  x.1 ≠ y.1 ∧ String.le x.1 y.1 ∨ x.1 = y.1 ∧ (x.2 <= y.2).
#[export] Instance seqs_le_dec : RelDecision seqs_le := λ x y, ltac:(unfold seqs_le; apply _).
Definition out_id (seqs : list (string * Z)) : string :=
  "out:" +:+ join "," ((λ '(n, s), n +:+ "=" +:+ str_of_int s) <$> merge_sort seqs_le seqs).

Definition add_delivery (mid : string) (k : string * Z) : ST unit :=
  _ ← lift (bind_int k.2);
  on_db (λ d, set_deliveries (insert_or_ignore k (Delivery mid 0) (deliveries d)).1 d).

(** The keys come in the order in which Python enumerates the set of them;
    it shows in the rows a call that raises has inserted, which no [commit] of
    its own follows. *)
Definition add_sent (conv : string) (seqs : list (string * Z)) (ts : Z) (text : option string)
    (attachment : option json) (delivery_keys : option (list (string * Z))) : ST bool :=
  let mid := out_id seqs in
  let keys := match delivery_keys with
              | None => seqs
              | Some ks => List.filter (λ k, negb (k.2 =? 0)) ks
              end in
  _ ← _ensure_conv conv true;
  t ← _enc text;
  a ← enc_attachment attachment;
  ts ← lift (bind_int ts);
  let row := MsgRow conv "self" Out ts 0
    (json_dumps (JObj ((λ '(n, s), (n, JInt s)) <$> seqs))) t a in
  new ← query (λ d, (insert_or_ignore mid row (messages_t d)).2);
  _ ← on_db (λ d, set_messages (insert_or_ignore mid row (messages_t d)).1 d);
  _ ← for_each (add_delivery mid) keys;
  _ ← commit;
  mret new.

(** The acks of a message, in rowid order. *)
Definition acks_of (mid : string) (d : db) : list ((string * Z) * Z) :=
  (λ r, (r.1, d_acked r.2)) <$>
    List.filter (λ r, bool_decide (d_msg r.2 = mid)) (deliveries d).

Definition delivery_progress_of (mid : string) (d : db) : Z * Z :=
  (Z.of_nat (length (acks_of mid d)), sql_sum (acks_of mid d).*2).
Definition delivery_progress (mid : string) : ST (Z * Z) := query (delivery_progress_of mid).

Definition is_delivered_of (mid : string) (d : db) : option bool :=
  let '(total, acked) := delivery_progress_of mid d in
  if total =? 0 then None else Some (acked =? total).
Definition is_delivered (mid : string) : ST (option bool) := query (is_delivered_of mid).

(** [GROUP BY node]: (node, count, acked) per recipient *)
Definition group_node (rows : list ((string * Z) * Z)) : list (string * (Z * Z)) :=
  (λ n, let g := List.filter (λ r, bool_decide (r.1.1 = n)) rows in
        (n, (Z.of_nat (length g), sql_sum g.*2))) <$> remove_dups (rows.*1.*1).
Definition delivery_members_of (mid : string) (d : db) : Z * Z :=
  let groups := group_node (acks_of mid d) in
  (Z.of_nat (length groups),
   Z.of_nat (length (List.filter (λ g, g.2.2 =? g.2.1) groups))).
Definition delivery_members (mid : string) : ST (Z * Z) := query (delivery_members_of mid).

Definition undelivered_of (mid : string) (d : db) : list (string * Z) :=
  (List.filter (λ r, r.2 =? 0) (acks_of mid d)).*1.
Definition undelivered (mid : string) : ST (list (string * Z)) := query (undelivered_of mid).

Definition mark_delivered (node : string) (seq : Z) : ST (option string) :=
  seq ← lift (bind_int seq);
  row ← query (λ d, dict_get (node, seq) (deliveries d));
  match row with
  | None => mret None
  | Some r =>
    _ ← (if d_acked r =? 0
         then transact (λ d, set_deliveries
                (update_key (node, seq) (λ r, Delivery (d_msg r) 1) (deliveries d)) d)
         else mret tt);
    mret (Some (d_msg r))
  end.

(** [GROUP BY msg_id, node] over the wanted ids, folded into per-message
    recipient counts. *)
Definition _delivery_summary_of (mids : list string) (d : db) : list (string * (Z * Z)) :=
  let rows := List.filter (λ r, bool_decide (d_msg r.2 ∈ mids)) (deliveries d) in
  let keys := remove_dups ((λ r, (d_msg r.2, r.1.1)) <$> rows) in
  foldl (λ summary '(mid, node),
    let g := List.filter (λ r, bool_decide (d_msg r.2 = mid ∧ r.1.1 = node)) rows in
    let '(total, done) := default (0, 0) (dict_get mid summary) in
    let full := sql_sum ((λ r, d_acked r.2) <$> g) =? Z.of_nat (length g) in
    dict_set mid (total + 1, done + Z.b2z full) summary) [] keys.

Definition _row_to_msg (key : bytes) (summary : list (string * (Z * Z))) (row : string * msg_row)
    : result message :=
  let '(mid, r) := row in
  seqs ← json_loads (m_seqs r);
  text ← dec_blob key (m_text r);
  att ← match m_att r with
        | Some b => Some <$> loads_blob key (Some b)
        | None => Ok None
        end;
  let delivery :=
    match m_dir r with
    | In => None
    | Out => Some match dict_get mid summary with
             | None => (None, None, 0)
             | Some (total, acked) => (Some (acked =? total), Some total, acked)
             end
    end in
  Ok (Message mid (m_dir r) seqs (m_ts r) (m_sender r) text att delivery).

(** [ORDER BY ts, id] *)
Definition row_le (x y : string * msg_row) : Prop :=
  m_ts x.2 < m_ts y.2 ∨ m_ts x.2 = m_ts y.2 ∧ String.le x.1 y.1.
#[export] Instance row_le_dec : RelDecision row_le := λ x y, ltac:(unfold row_le; apply _).
Definition rows_of (conv : string) (d : db) : list (string * msg_row) :=
  merge_sort row_le (List.filter (λ r, bool_decide (m_conv r.2 = conv)) (messages_t d)).

Definition messages_of (key : bytes) (conv : string) (d : db) : result (list message) :=
  let rows := rows_of conv d in
  map_result (_row_to_msg key (_delivery_summary_of rows.*1 d)) rows.
Definition messages (conv : string) : ST (list message) := λ s,
  (messages_of (s_key s) conv (s_db s), s).

Definition recv_last (conv node : string) : ST Z := query (λ d,
  default 0 (sql_max ((λ r, m_seq r.2) <$> List.filter (λ r,
    bool_decide (m_conv r.2 = conv ∧ m_dir r.2 = In ∧ m_sender r.2 = node)) (messages_t d)))).

(** *** Read marks *)

Definition mark_read (conv : string) : ST unit :=
  upto ← query (λ d, default 0 (sql_max ((λ r, m_ts r.2) <$>
    List.filter (λ r, bool_decide (m_conv r.2 = conv)) (messages_t d))));
  transact (λ d, set_read_marks (upsert conv upto (λ old, Z.max old upto) (read_marks d)) d).

Definition unread_of (conv : string) (d : db) : Z :=
  let upto := default 0 (dict_get conv (read_marks d)) in
  Z.of_nat (length (List.filter (λ r,
    bool_decide (m_conv r.2 = conv ∧ m_dir r.2 = In) && (upto <? m_ts r.2)) (messages_t d))).
Definition unread (conv : string) : ST Z := query (unread_of conv).

Definition total_unread_of (d : db) : Z :=
  sql_sum ((λ c, unread_of c d) <$>
    (List.filter (λ r, (c_dm r.2 =? 0) || (c_dm r.2 =? 1)) (conversations d)).*1).
Definition total_unread : ST Z := query total_unread_of.

(** *** Mute and block *)

Definition is_conversation_muted (conv : string) : ST bool := query (λ d,
  match dict_get conv (conversations d) with Some r => negb (c_muted r =? 0) | None => false end).
Definition set_conv_muted (conv : string) (v : Z) : ST unit := transact (λ d, set_conversations
  (update_key conv (λ r, ConvRow (c_dm r) (c_members r) v (c_hidden r)) (conversations d)) d).
Definition mute_conversation (conv : string) : ST unit :=
  _ ← _ensure_conv conv true; set_conv_muted conv 1.
Definition unmute_conversation (conv : string) : ST unit := set_conv_muted conv 0.

Definition is_muted (node : string) : ST bool := query (λ d, dict_mem node (muted_nodes d)).
Definition mute (node : string) : ST unit :=
  transact (λ d, set_muted (insert_or_ignore node tt (muted_nodes d)).1 d).
Definition unmute (node : string) : ST unit :=
  transact (λ d, set_muted (delete_where (λ r, bool_decide (r.1 = node)) (muted_nodes d)) d).

Definition set_blocked_screen (node : string) (screen : option string) : ST unit :=
  b ← _enc screen;
  transact (λ d, set_blocked (upsert node b (λ _, b) (blocked_screens d)) d).
Definition blocked_screen (node : string) : ST (option string) := λ s,
  (match dict_get node (blocked_screens (s_db s)) with
   | Some b => dec_blob (s_key s) b
   | None => Ok None
   end, s).
Definition clear_blocked_screen (node : string) : ST unit :=
  transact (λ d, set_blocked (delete_where (λ r, bool_decide (r.1 = node)) (blocked_screens d)) d).

(** *** Pending contact requests *)

(** The primary key is [req.get("node")]; a [NULL] key is never a duplicate
    (and no [=] matches it). *)
Definition pending_key (req : list (string * json)) : option string :=
  dict_get "node" req ≫= json_str.
Definition add_pending (req : list (string * json)) : ST unit :=
  b ← enc_str (json_dumps (JObj req));
  transact (λ d, set_pending
    (match pending_key req with
     | Some n => (insert_or_ignore (Some n) b (pending_t d)).1
     | None => pending_t d ++ [(None, b)]
     end) d).

Definition pending_of (key : bytes) (d : db) : result (list json) :=
  map_result (λ r, loads_blob key (Some r.2)) (pending_t d).
Definition pending : ST (list json) := λ s, (pending_of (s_key s) (s_db s), s).

Definition pending_pop : ST (option json) :=
  row ← query (λ d, head (pending_t d));
  match row with
  | None => mret None
  | Some (node, payload) =>
    _ ← transact (λ d, set_pending
          (delete_where (λ r, match node with
                              | Some n => bool_decide (r.1 = Some n)
                              | None => false
                              end) (pending_t d)) d);
    key ← gets s_key;
    j ← lift (loads_blob key (Some payload));
    mret (Some j)
  end.
End Store.

(** ** Tables *)

(** Distinct keys, every row satisfying [P]. *)
Definition table_ok {K V} (P : K → V → Prop) (t : list (K * V)) : Prop :=
  dict_wf t ∧ Forall (λ kv, P kv.1 kv.2) t.

Section Tables.
Context {K : Type} `{EqDecision K} {V : Type}.
Implicit Types (t : list (K * V)) (P : K → V → Prop).

Lemma table_nil P : table_ok P [].
Proof. split; [constructor|constructor]. Qed.

Lemma insert_or_ignore_new k v t :
  dict_mem k t = false → insert_or_ignore k v t = (t ++ [(k, v)], true).
Proof. unfold insert_or_ignore. by intros ->. Qed.

Lemma insert_or_ignore_old k v t :
  dict_mem k t = true → insert_or_ignore k v t = (t, false).
Proof. unfold insert_or_ignore. by intros ->. Qed.

Lemma insert_or_ignore_snd k v t : (insert_or_ignore k v t).2 = negb (dict_mem k t).
Proof. unfold insert_or_ignore. by destruct (dict_mem k t). Qed.

Lemma dict_mem_false k t : dict_mem k t = false ↔ k ∉ t.*1.
Proof. rewrite <-dict_mem_true. destruct (dict_mem k t); split; congruence. Qed.

Lemma table_snoc P k v t : k ∉ t.*1 → table_ok P t → P k v → table_ok P (t ++ [(k, v)]).
Proof.
  intros Hk [Hwf Hall] HP. split.
  - unfold dict_wf in *. rewrite fmap_app. apply NoDup_app. split; [done|]. split.
    + intros x Hx ->%list_elem_of_singleton. done.
    + apply NoDup_singleton.
  - apply Forall_app. split; [done|]. by constructor.
Qed.

Lemma table_insert P k v t : table_ok P t → P k v → table_ok P (insert_or_ignore k v t).1.
Proof.
  intros Ht HP. unfold insert_or_ignore. destruct (dict_mem k t) eqn:Hk; cbn; [done|].
  apply table_snoc; [by apply dict_mem_false|done..].
Qed.

Lemma table_set P k v t : table_ok P t → P k v → table_ok P (dict_set k v t).
Proof.
  intros [Hwf Hall] HP. split; [by apply dict_set_wf|].
  clear Hwf. induction Hall as [|[k' v'] t Hx Ht IH]; cbn in *; [by repeat constructor|].
  case_decide; subst; by constructor.
Qed.

Lemma table_get P k v t : table_ok P t → dict_get k t = Some v → P k v.
Proof.
  intros [_ Hall] Hk%dict_get_elem. rewrite Forall_forall in Hall. by apply (Hall (k, v)).
Qed.

Lemma table_upsert P k v f t :
  table_ok P t → P k v → (∀ v0, P k v0 → P k (f v0)) → table_ok P (upsert k v f t).
Proof.
  intros Ht HP Hf. unfold upsert. destruct (dict_get k t) as [v0|] eqn:Hk.
  - apply table_set; [done|]. apply Hf. by eapply table_get.
  - apply table_snoc; [by apply dict_get_None|done..].
Qed.

Lemma update_key_keys k f t : (update_key k f t).*1 = t.*1.
Proof.
  unfold update_key. rewrite <-list_fmap_compose. apply list_fmap_ext. intros i [k' v'] _.
  cbn. by case_decide.
Qed.

Lemma table_update P k f t :
  table_ok P t → (∀ v, P k v → P k (f v)) → table_ok P (update_key k f t).
Proof.
  intros [Hwf Hall] Hf. split; [unfold dict_wf; by rewrite update_key_keys|].
  unfold update_key. apply Forall_fmap. eapply Forall_impl; [exact Hall|].
  intros [k' v'] HP. cbn in *. case_decide; subst; cbn; auto.
Qed.

Lemma filter_keys_sublist (p : K * V → bool) t : (List.filter p t).*1 `sublist_of` t.*1.
Proof.
  induction t as [|x t IH]; [done|]. cbn. destruct (p x); cbn; by constructor.
Qed.

Lemma Forall_List_filter {A} (Q : A → Prop) p (l : list A) : Forall Q l → Forall Q (List.filter p l).
Proof. induction 1; cbn; [done|]. case_match; by try constructor. Qed.

Lemma omap_filter_sublist {A B} (f : A → option B) p (l : list A) :
  omap f (List.filter p l) `sublist_of` omap f l.
Proof.
  induction l as [|x l IH]; [done|]. cbn. destruct (p x); cbn; destruct (f x); by try constructor.
Qed.

Lemma table_filter P p t : table_ok P t → table_ok P (List.filter p t).
Proof.
  intros [Hwf Hall]. split; [|by apply Forall_List_filter].
  unfold dict_wf in *. eapply sublist_NoDup; [exact Hwf|apply filter_keys_sublist].
Qed.

Lemma table_delete P p t : table_ok P t → table_ok P (delete_where p t).
Proof. apply table_filter. Qed.

Lemma dict_get_snoc k v t k' :
  dict_get k' (t ++ [(k, v)]) =
    match dict_get k' t with Some x => Some x | None => if decide (k' = k) then Some v else None end.
Proof. induction t as [|[k0 v0] t IH]; cbn; [done|]. by destruct (decide (k' = k0)). Qed.

Lemma dict_get_upsert k v f t k' :
  dict_get k' (upsert k v f t) =
    if decide (k' = k) then Some (from_option f v (dict_get k t)) else dict_get k' t.
Proof.
  unfold upsert. destruct (dict_get k t) as [v0|] eqn:Hk; cbn.
  - case_decide; subst; [apply dict_get_set_eq|by apply dict_get_set_ne].
  - rewrite dict_get_snoc. case_decide; subst; [by rewrite Hk|]. by destruct (dict_get k' t).
Qed.

Lemma dict_get_update k f t k' :
  dict_get k' (update_key k f t) =
    if decide (k' = k) then f <$> dict_get k t else dict_get k' t.
Proof.
  induction t as [|[k0 v0] t IH]; cbn; [by case_decide|].
  destruct (decide (k0 = k)) as [->|Hne]; cbn.
  - destruct (decide (k' = k)) as [->|Hk]; cbn; [by rewrite decide_True|].
    exact IH.
  - rewrite (decide_False (P := k = k0)) by done.
    destruct (decide (k' = k0)) as [->|Hk]; cbn; [by rewrite decide_False|]. exact IH.
Qed.
End Tables.
#[global] Arguments update_key : simpl never.
#[global] Arguments upsert : simpl never.
#[global] Arguments insert_or_ignore : simpl never.
#[global] Arguments delete_where : simpl never.
#[export] Hint Resolve table_nil table_insert table_set table_upsert table_update table_delete table_filter : aim.

(** The JSON of a message's sequence numbers. *)
Lemma seqs_json_wf (seqs : list (string * Z)) :
  dict_wf seqs → Forall (λ ns, is_str ns.1) seqs → json_wf (JObj ((λ '(n, s), (n, JInt s)) <$> seqs)).
Proof.
  intros Hwf Hs. apply json_wf_obj. split.
  - unfold dict_wf. rewrite <-list_fmap_compose.
    replace (fst ∘ _ <$> seqs) with (seqs.*1); [done|].
    apply list_fmap_ext. by intros i [n z] _.
  - apply Forall_fmap. eapply Forall_impl; [exact Hs|]. by intros [n z].
Qed.

(** ** The store invariant *)

Section StoreInv.
Context `{N : NaCl} {NL : NaClLaws N} `{J : JsonCodec} {JL : JsonLaws J}.
Context (key : bytes) (Hkey : length key = 32%nat) (salt : option string).

Definition json_blob_ok (b : option bytes) : Prop :=
  match b with Some b => ∃ j, loads_blob key (Some b) = Ok j | None => True end.
Definition text_blob_ok (b : option bytes) : Prop := ∃ t, dec_blob key b = Ok t.

Definition conv_ok (_ : string) (r : conv_row) : Prop :=
  json_blob_ok (c_members r) ∧ (c_dm r = 0 ∨ c_dm r = 1).
Definition msg_ok (mid : string) (r : msg_row) : Prop :=
  (∃ j, json_loads (m_seqs r) = Ok j) ∧ text_blob_ok (m_text r) ∧ json_blob_ok (m_att r) ∧
  match m_dir r with In => mid = in_id (m_sender r) (m_seq r) | Out => ∃ rest, mid = "out:" +:+ rest end.
Definition delivery_ok (_ : string * Z) (r : delivery) : Prop := d_acked r = 0 ∨ d_acked r = 1.

(** Every table has distinct keys and readable rows: the blobs decrypt under
    the store's key to the text or JSON their column holds. *)
Record db_ok (d : db) : Prop := DbOk {
  ok_salt : meta_salt d = salt;
  ok_conversations : table_ok conv_ok (conversations d);
  ok_messages : table_ok msg_ok (messages_t d);
  ok_watermark : table_ok (λ _ _, True) (watermark d);
  ok_read_marks : table_ok (λ _ _, True) (read_marks d);
  ok_pending : NoDup (omap fst (pending_t d)) ∧ Forall (λ r, json_blob_ok (Some r.2)) (pending_t d);
  ok_blocked : table_ok (λ _, text_blob_ok) (blocked_screens d);
  ok_muted : table_ok (λ _ _, True) (muted_nodes d);
  ok_deliveries : table_ok delivery_ok (deliveries d);
}.

Definition store_ok (s : store) : Prop := s_key s = key ∧ db_ok (s_db s) ∧ db_ok (s_saved s).

Lemma empty_db_ok : db_ok (Db salt [] [] [] [] [] [] [] []).
Proof. split; auto with aim. by repeat constructor. Qed.

(** *** What the steps on the tables keep *)

Ltac db_ok_tac := intros [? ? ? ? ? [? ?] ? ? ?]; split; cbn; auto.

Lemma ok_set_conversations d t :
  table_ok conv_ok t → db_ok d → db_ok (set_conversations t d).
Proof. intros ?. db_ok_tac. Qed.
Lemma ok_set_messages d t : table_ok msg_ok t → db_ok d → db_ok (set_messages t d).
Proof. intros ?. db_ok_tac. Qed.
Lemma ok_set_watermark d t : table_ok (λ _ _, True) t → db_ok d → db_ok (set_watermark t d).
Proof. intros ?. db_ok_tac. Qed.
Lemma ok_set_read_marks d t : table_ok (λ _ _, True) t → db_ok d → db_ok (set_read_marks t d).
Proof. intros ?. db_ok_tac. Qed.
Lemma ok_set_blocked d t : table_ok (λ _, text_blob_ok) t → db_ok d → db_ok (set_blocked t d).
Proof. intros ?. db_ok_tac. Qed.
Lemma ok_set_muted d t : table_ok (λ _ _, True) t → db_ok d → db_ok (set_muted t d).
Proof. intros ?. db_ok_tac. Qed.
Lemma ok_set_deliveries d t : table_ok delivery_ok t → db_ok d → db_ok (set_deliveries t d).
Proof. intros ?. db_ok_tac. Qed.
Lemma ok_set_pending d t :
  NoDup (omap fst t) → Forall (λ r, json_blob_ok (Some r.2)) t → db_ok d → db_ok (set_pending t d).
Proof. intros ??. db_ok_tac. Qed.

Lemma keeps_on_db (f : db → db) :
  (∀ d, db_ok d → db_ok (f d)) → keeps store_ok (on_db f) any.
Proof. intros Hf. apply keeps_modify. intros s (Hk&Hd&Hs). split; [done|]. cbn. auto. Qed.
Lemma keeps_commit : keeps store_ok commit any.
Proof. apply keeps_modify. by intros s (Hk&Hd&Hs). Qed.
Lemma keeps_transact (f : db → db) :
  (∀ d, db_ok d → db_ok (f d)) → keeps store_ok (transact f) any.
Proof. intros Hf. apply keeps_modify. intros s (Hk&Hd&_). split; [done|]. cbn. auto. Qed.

Lemma keeps_query {A} (f : db → A) (Q : A → Prop) :
  (∀ d, db_ok d → Q (f d)) → keeps store_ok (query f) Q.
Proof. intros Hf. apply keeps_gets. intros s (_&Hd&_). auto. Qed.

Lemma dec_enc t r : is_str t → dec_blob key (Some (secret_encrypt key (utf8_encode t) (random_bytes 24 r))) = Ok (Some t).
Proof.
  intros Ht. cbn. rewrite secret_roundtrip by (done || apply random_length). cbn.
  by rewrite utf8_decode_encode.
Qed.

(** A fresh blob decrypts to what was encrypted. *)
Lemma keeps_enc o :
  (∀ t, o = Some t → is_str t) → keeps store_ok (_enc o) (λ b, dec_blob key b = Ok o).
Proof.
  intros Ho s (Hk&Hd&Hs). unfold _enc. destruct o as [t|]; cbn; (split; [by split_and!|]).
  - intros b [= <-]. rewrite Hk. apply dec_enc. auto.
  - by intros b [= <-].
Qed.

Lemma keeps_enc_json j :
  json_wf j → keeps store_ok (_enc (Some (json_dumps j))) (λ b, json_blob_ok b ∧ b ≠ None).
Proof.
  intros Hj. eapply keeps_weaken; [apply keeps_enc; intros t [= <-]; apply dumps_is_str|].
  intros [b|]; cbn; [|done]. intros Hb. split; [|done]. exists j. unfold loads_blob.
  cbn. rewrite Hb. cbn. by apply loads_dumps.
Qed.

Lemma keeps_enc_attachment a :
  (∀ j, a = Some j → json_wf j) → keeps store_ok (enc_attachment a) json_blob_ok.
Proof.
  intros Ha. destruct a as [j|]; cbn; [|by apply keeps_ret].
  apply keeps_if; [|by apply keeps_ret].
  eapply keeps_weaken; [apply keeps_enc_json; auto|]. by intros b [? _].
Qed.

(** *** What the operations keep *)

Lemma keeps_set_cursor peer seq : keeps store_ok (set_cursor peer seq) any.
Proof.
  unfold set_cursor. keeps_tac. apply keeps_transact. intros d Hd.
  apply ok_set_watermark; [|done]. apply table_upsert; [by apply ok_watermark|done..].
Qed.
#[local] Hint Resolve keeps_set_cursor : keeps.

Lemma keeps_ensure_conv conv dm : keeps store_ok (_ensure_conv conv dm) any.
Proof.
  unfold _ensure_conv.
  eapply keeps_bind; [apply keeps_enc; by intros t [= <-]|].
  intros m Hm. apply keeps_on_db. intros d Hd. apply ok_set_conversations; [|done].
  apply table_insert; [by apply ok_conversations|].
  split; cbn; [|destruct dm; auto]. destruct m as [m|]; [|done].
  exists (JObj []). unfold loads_blob. rewrite Hm. apply loads_empty.
Qed.
#[local] Hint Resolve keeps_ensure_conv : keeps.

Lemma keeps_ensure_room conv mem : json_wf mem → keeps store_ok (ensure_room conv mem) any.
Proof.
  intros Hmem. unfold ensure_room. eapply keeps_bind; [by apply keeps_enc_json|].
  intros m [Hm _]. apply keeps_transact. intros d Hd. apply ok_set_conversations; [|done].
  apply table_upsert; [by apply ok_conversations|split; cbn; auto|]. intros r _. split; cbn; auto.
Qed.

Lemma delete_conv_rows_ok conv d : db_ok d → db_ok (delete_conv_rows conv d).
Proof.
  intros Hd. apply ok_set_read_marks; [apply table_delete, (ok_read_marks d Hd)|].
  apply ok_set_messages; [apply table_delete, (ok_messages d Hd)|done].
Qed.

Lemma keeps_clear_history conv : keeps store_ok (clear_history conv) any.
Proof. apply keeps_transact. intros d. apply delete_conv_rows_ok. Qed.

(** Changing the flags of a conversation keeps its roster. *)
Lemma update_conv_ok conv f d :
  (∀ r, c_members (f r) = c_members r ∧ c_dm (f r) = c_dm r) →
  db_ok d → db_ok (set_conversations (update_key conv f (conversations d)) d).
Proof.
  intros Hf Hd. apply ok_set_conversations; [|done].
  apply table_update; [by apply ok_conversations|].
  intros r [Hm Hdm]. destruct (Hf r) as [Hm' Hdm']. unfold conv_ok. by rewrite Hm', Hdm'.
Qed.

Lemma keeps_delete_room conv points : keeps store_ok (delete_room conv points) any.
Proof.
  unfold delete_room. eapply keeps_bind.
  - apply keeps_transact. intros d Hd. apply update_conv_ok; [done|by apply delete_conv_rows_ok].
  - intros _ _. apply keeps_for_each. intros [node latest] _. keeps_tac.
Qed.

Lemma ok_insert_message mid r d :
  msg_ok mid r → db_ok d → db_ok (set_messages (insert_or_ignore mid r (messages_t d)).1 d).
Proof. intros Hr Hd. apply ok_set_messages; [|done]. apply table_insert; [by apply ok_messages|done]. Qed.

Lemma keeps_ingest conv sender seq ts text att :
  is_str sender → (∀ t, text = Some t → is_str t) → (∀ j, att = Some j → json_wf j) →
  keeps store_ok (ingest conv sender seq ts text att) any.
Proof.
  intros Hs Ht Ha. unfold ingest.
  eapply keeps_bind; [apply keeps_ensure_conv|intros _ _].
  eapply keeps_bind; [by apply keeps_enc|intros t Htb].
  eapply keeps_bind; [by apply keeps_enc_attachment|intros a Hab].
  eapply keeps_bind; [apply (keeps_lift _ _ (λ z, z = ts)); unfold bind_int; by case_match; intros ? [= <-]|].
  intros ? ->.
  eapply keeps_bind; [apply (keeps_lift _ _ (λ z, z = seq)); unfold bind_int; by case_match; intros ? [= <-]|].
  intros ? ->.
  eapply keeps_bind; [apply keeps_gets_any|intros new _].
  eapply keeps_bind; [apply keeps_on_db; intros d; apply ok_insert_message|intros _ _].
  - split_and!; cbn; [|by exists text|done|done].
    eexists. apply loads_dumps. json_wf_tac.
  - eapply keeps_bind; [|intros _ _; eapply keeps_bind; [apply keeps_commit|intros _ _; apply keeps_ret_any]].
    apply keeps_if; [|apply keeps_ret_any].
    apply keeps_on_db. intros d. by apply update_conv_ok.
Qed.

Lemma keeps_add_sent conv seqs ts text att keys :
  dict_wf seqs → Forall (λ ns, is_str ns.1) seqs →
  (∀ t, text = Some t → is_str t) → (∀ j, att = Some j → json_wf j) →
  keeps store_ok (add_sent conv seqs ts text att keys) any.
Proof.
  intros Hwf Hs Ht Ha. unfold add_sent.
  eapply keeps_bind; [apply keeps_ensure_conv|intros _ _].
  eapply keeps_bind; [by apply keeps_enc|intros t Htb].
  eapply keeps_bind; [by apply keeps_enc_attachment|intros a Hab].
  eapply keeps_bind; [apply keeps_lift_any|intros ts' _].
  eapply keeps_bind; [apply keeps_gets_any|intros new _].
  eapply keeps_bind; [apply keeps_on_db; intros d; apply ok_insert_message|intros _ _].
  - split_and!; cbn; [|by exists text|done|by eexists].
    eexists. by apply loads_dumps, seqs_json_wf.
  - eapply keeps_bind; [|intros _ _; eapply keeps_bind; [apply keeps_commit|intros _ _; apply keeps_ret_any]].
    apply keeps_for_each. intros k _. unfold add_delivery. keeps_tac.
    apply keeps_on_db. intros d Hd. apply ok_set_deliveries; [|done].
    apply table_insert; [by apply ok_deliveries|by left].
Qed.

Lemma keeps_mark_delivered node seq : keeps store_ok (mark_delivered node seq) any.
Proof.
  unfold mark_delivered. keeps_tac. apply keeps_transact. intros d0 Hd.
  apply ok_set_deliveries; [|done]. apply table_update; [by apply ok_deliveries|by right].
Qed.

Lemma keeps_mark_read conv : keeps store_ok (mark_read conv) any.
Proof.
  unfold mark_read. keeps_tac. apply keeps_transact. intros d Hd.
  apply ok_set_read_marks; [|done]. apply table_upsert; [by apply ok_read_marks|done..].
Qed.

Lemma keeps_set_conv_muted conv v : keeps store_ok (set_conv_muted conv v) any.
Proof. apply keeps_transact. intros d. by apply update_conv_ok. Qed.
#[local] Hint Resolve keeps_set_conv_muted : keeps.

Lemma keeps_mute_conversation conv : keeps store_ok (mute_conversation conv) any.
Proof. unfold mute_conversation. keeps_tac. Qed.

Lemma keeps_mute node : keeps store_ok (mute node) any.
Proof.
  apply keeps_transact. intros d Hd. apply ok_set_muted; [|done].
  apply table_insert; [by apply ok_muted|done].
Qed.

Lemma keeps_unmute node : keeps store_ok (unmute node) any.
Proof.
  apply keeps_transact. intros d Hd. apply ok_set_muted; [|done].
  apply table_delete. by apply ok_muted.
Qed.

Lemma keeps_set_blocked_screen node screen :
  (∀ s, screen = Some s → is_str s) → keeps store_ok (set_blocked_screen node screen) any.
Proof.
  intros Hs. unfold set_blocked_screen. eapply keeps_bind; [by apply keeps_enc|intros b Hb].
  apply keeps_transact. intros d Hd. apply ok_set_blocked; [|done].
  apply table_upsert; [by apply ok_blocked|by exists screen|]. intros _ _. by exists screen.
Qed.

Lemma keeps_clear_blocked_screen node : keeps store_ok (clear_blocked_screen node) any.
Proof.
  apply keeps_transact. intros d Hd. apply ok_set_blocked; [|done].
  apply table_delete. by apply ok_blocked.
Qed.

Lemma omap_fst_mem {A} (n : string) (t : list (option string * A)) :
  dict_mem (Some n) t = false → n ∉ omap fst t.
Proof.
  intros Hm%dict_mem_false Hn. apply list_elem_of_omap in Hn as ([k v]&Hk&Heq). cbn in Heq.
  subst k. apply Hm. apply list_elem_of_fmap. by exists (Some n, v).
Qed.

Lemma keeps_add_pending req : json_wf (JObj req) → keeps store_ok (add_pending req) any.
Proof.
  intros Hreq. unfold add_pending, enc_str.
  eapply (keeps_bind _ _ _ (λ b, json_blob_ok (Some b))).
  { eapply keeps_bind; [by apply keeps_enc_json|].
    intros [b|] [Hb ?]; [|done]. by apply keeps_ret. }
  intros b Hb. apply keeps_transact. intros d Hd. pose proof (ok_pending d Hd) as [Hnd Hall].
  destruct (pending_key req) as [n|]; apply ok_set_pending; try done.
  - unfold insert_or_ignore. destruct (dict_mem _ _) eqn:Hm; cbn; [done|].
    rewrite omap_app. cbn. apply NoDup_app. split_and!; [done| |apply NoDup_singleton].
    intros x Hx ->%list_elem_of_singleton. by apply (omap_fst_mem n (pending_t d)).
  - unfold insert_or_ignore. destruct (dict_mem _ _); cbn; [done|].
    apply Forall_app. split; [done|]. by constructor.
  - rewrite omap_app. cbn. by rewrite app_nil_r.
  - apply Forall_app. split; [done|]. by constructor.
Qed.

Lemma keeps_pending_pop : keeps store_ok pending_pop any.
Proof.
  unfold pending_pop. eapply keeps_bind; [apply keeps_gets_any|intros row _].
  destruct row as [[node payload]|]; [|apply keeps_ret_any].
  eapply keeps_bind; [|intros _ _; keeps_tac].
  apply keeps_transact. intros d Hd. pose proof (ok_pending d Hd) as [Hnd Hall].
  apply ok_set_pending; [|by apply Forall_List_filter|done].
  eapply sublist_NoDup; [exact Hnd|]. apply omap_filter_sublist.
Qed.
End StoreInv.

(** ** Reachable stores *)

(** The calls that change a store. *)
Inductive op :=
| OSetCursor (peer : string) (seq : Z)
| OEnsureRoom (conv : string) (members : json)
| ODeleteRoom (conv : string) (scan_points : list (string * Z))
| OClearHistory (conv : string)
| OIngest (conv sender : string) (seq ts : Z) (text : option string) (att : option json)
| OAddSent (conv : string) (seqs : list (string * Z)) (ts : Z) (text : option string)
    (att : option json) (keys : option (list (string * Z)))
| OMarkDelivered (node : string) (seq : Z)
| OMarkRead (conv : string)
| OMuteConversation (conv : string)
| OUnmuteConversation (conv : string)
| OMute (node : string)
| OUnmute (node : string)
| OSetBlockedScreen (node : string) (screen : option string)
| OClearBlockedScreen (node : string)
| OAddPending (req : list (string * json))
| OPendingPop.

Section Reach.
Context `{N : NaCl} {NL : NaClLaws N} `{J : JsonCodec} {JL : JsonLaws J}.

Definition ignore {A} (m : ST A) : ST unit := _ ← m; mret tt.

Definition run_op (o : op) : ST unit :=
  match o with
  | OSetCursor peer seq => set_cursor peer seq
  | OEnsureRoom conv members => ensure_room conv members
  | ODeleteRoom conv points => delete_room conv points
  | OClearHistory conv => clear_history conv
  | OIngest conv sender seq ts text att => ignore (ingest conv sender seq ts text att)
  | OAddSent conv seqs ts text att keys => ignore (add_sent conv seqs ts text att keys)
  | OMarkDelivered node seq => ignore (mark_delivered node seq)
  | OMarkRead conv => mark_read conv
  | OMuteConversation conv => mute_conversation conv
  | OUnmuteConversation conv => unmute_conversation conv
  | OMute node => mute node
  | OUnmute node => unmute node
  | OSetBlockedScreen node screen => set_blocked_screen node screen
  | OClearBlockedScreen node => clear_blocked_screen node
  | OAddPending req => add_pending req
  | OPendingPop => ignore pending_pop
  end.

Definition opt_str (o : option string) : Prop := ∀ t, o = Some t → is_str t.
Definition opt_json (o : option json) : Prop := ∀ j, o = Some j → json_wf j.

(** The arguments are Python values: well-formed strings, dictionaries with
    distinct keys. *)
Definition op_ok (o : op) : Prop :=
  match o with
  | OEnsureRoom _ members => json_wf members
  | OIngest _ sender _ _ text att => is_str sender ∧ opt_str text ∧ opt_json att
  | OAddSent _ seqs _ text att _ =>
      dict_wf seqs ∧ Forall (λ ns, is_str ns.1) seqs ∧ opt_str text ∧ opt_json att
  | OSetBlockedScreen _ screen => opt_str screen
  | OAddPending req => json_wf (JObj req)
  | _ => True
  end.

(** Stores reached from a fresh database file by calls, failing ones
    included, and by closing and reopening the file with the same passphrase. *)
Inductive reachable (passphrase : string) : store → Prop :=
| reach_open rng s : open_store empty_db rng passphrase = Ok s → reachable passphrase s
| reach_step s o : reachable passphrase s → op_ok o → reachable passphrase (run_op o s).2
| reach_reopen s rng s' :
    reachable passphrase s → open_store (s_saved s) rng passphrase = Ok s' → reachable passphrase s'.

Lemma keeps_ignore {A} I (m : ST A) Q : keeps I m Q → keeps I (ignore m) any.
Proof. intros Hm. eapply keeps_bind; [exact Hm|intros _ _; apply keeps_ret_any]. Qed.

Lemma keeps_op key salt o :
  length key = 32%nat → op_ok o → keeps (store_ok key salt) (run_op o) any.
Proof.
  intros Hkey Ho. destruct o; cbn in Ho |- *; try (eapply keeps_ignore).
  - by apply keeps_set_cursor.
  - by apply keeps_ensure_room.
  - by apply keeps_delete_room.
  - by apply keeps_clear_history.
  - destruct Ho as (?&?&?). by apply keeps_ingest.
  - destruct Ho as (?&?&?&?). by apply keeps_add_sent.
  - by apply keeps_mark_delivered.
  - by apply keeps_mark_read.
  - by apply keeps_mute_conversation.
  - by apply keeps_set_conv_muted.
  - by apply keeps_mute.
  - by apply keeps_unmute.
  - by apply keeps_set_blocked_screen.
  - by apply keeps_clear_blocked_screen.
  - by apply keeps_add_pending.
  - by apply keeps_pending_pop.
Qed.

Lemma reachable_ok passphrase s :
  reachable passphrase s →
  ∃ salt, store_ok (kdf_key passphrase salt) (Some (b64encode salt)) s.
Proof.
  induction 1 as [rng s Hs|s o _ [salt IH] Ho|s rng s' _ (salt&Hk&_&Hd) Hs].
  - cbn in Hs. injection Hs as <-. exists (random_bytes 16 rng). split; [done|]. split; apply empty_db_ok.
  - exists salt. by apply keeps_op; [apply scrypt_length|..].
  - exists salt. unfold open_store, _salt in Hs. rewrite (ok_salt _ _ _ Hd), b64decode_encode in Hs.
    cbn in Hs. injection Hs as <-. by split.
Qed.
End Reach.

#[global] Arguments loads_blob {N J} key blob : simpl never.
#[global] Arguments dec_blob {N} key blob : simpl never.
