(* ===== verification/StoreProps.v ===== *)
(** * What the store promises: totality of its readers, ordering, idempotence,
      read marks, delivery state, isolation of conversations, the request queue *)

From S2P Require Import Prelude PyStr Codec Json Sys Crypto Store.
From Stdlib Require Import Ascii.
Local Open Scope Z_scope.

(** ** Runs of the writers *)

(** The database after [_ensure_conv], and with a conversation shown again. *)
Definition with_conv (conv : string) (r : conv_row) (d : db) : db :=
  set_conversations (insert_or_ignore conv r (conversations d)).1 d.
Definition unhide (conv : string) (d : db) : db :=
  set_conversations (update_key conv (λ r, ConvRow (c_dm r) (c_members r) (c_muted r) 0)
    (conversations d)) d.
Definition with_message (mid : string) (r : msg_row) (d : db) : db :=
  set_messages (insert_or_ignore mid r (messages_t d)).1 d.

(** A store whose database is [d], whatever it has drawn and committed. *)
Abbreviation at_db d k n := (Store d k (fst n) (snd n)).

Section Runs.
Context `{N : NaCl} `{J : JsonCodec}.

Lemma bind_int_ok z : int64 z = true → bind_int z = Ok z.
Proof. unfold bind_int. by intros ->. Qed.

(** A run that ends normally with the database [d]. *)
Definition runs {A} (m : ST A) (s : store) (a : A) (d : db) : Prop :=
  ∃ n : nat * db, m s = (Ok a, at_db d (s_key s) n).

Lemma runs_bind {A B} (m : ST A) (f : A → ST B) s a d b d' :
  runs m s a d → (∀ n : nat * db, runs (f a) (at_db d (s_key s) n) b d') → runs (m ≫= f) s b d'.
Proof.
  intros [n Hm] Hf. destruct (Hf n) as [n' Hf']. exists n'.
  rewrite (M_bind_run _ _ _ _ _ Hm). exact Hf'.
Qed.

Lemma runs_ret {A} (a : A) s : runs (mret a) s a (s_db s).
Proof. exists (s_rng s, s_saved s). by destruct s. Qed.

Lemma runs_ret' {A} (a : A) d k (n : nat * db) : runs (mret a) (at_db d k n) a d.
Proof. by exists n. Qed.

Lemma runs_on_db f s : runs (on_db f) s tt (f (s_db s)).
Proof. by exists (s_rng s, s_saved s). Qed.

Lemma runs_on_db' f d k (n : nat * db) d' : f d = d' → runs (on_db f) (at_db d k n) tt d'.
Proof. intros <-. by exists n. Qed.

Lemma runs_transact f s : runs (transact f) s tt (f (s_db s)).
Proof. by exists (s_rng s, f (s_db s)). Qed.

Lemma runs_transact' f d k (n : nat * db) d' : f d = d' → runs (transact f) (at_db d k n) tt d'.
Proof. intros <-. apply (runs_transact f (at_db d k n)). Qed.

Lemma runs_commit s : runs commit s tt (s_db s).
Proof. by exists (s_rng s, s_db s). Qed.

Lemma runs_query {A} (f : db → A) s : runs (query f) s (f (s_db s)) (s_db s).
Proof. exists (s_rng s, s_saved s). by destruct s. Qed.

Lemma runs_lift {A} (m : result A) a s : m = Ok a → runs (lift m) s a (s_db s).
Proof. intros ->. exists (s_rng s, s_saved s). by destruct s. Qed.

(** What [_enc] makes of a text, with the [k]-th nonce drawn. *)
Definition blob_of (key : bytes) (o : option string) (k : nat) : option bytes :=
  (λ t, secret_encrypt key (utf8_encode t) (random_bytes 24 k)) <$> o.
Lemma enc_run_blob o s : ∃ k, runs (_enc o) s (blob_of (s_key s) o k) (s_db s).
Proof.
  exists (s_rng s). destruct o as [t|]; [by exists (S (s_rng s), s_saved s)|].
  apply runs_ret.
Qed.
Lemma enc_run o s : ∃ b, runs (_enc o) s b (s_db s).
Proof. destruct (enc_run_blob o s). eauto. Qed.

Lemma enc_attachment_run a s : ∃ b, (a = None → b = None) ∧ runs (enc_attachment a) s b (s_db s).
Proof.
  destruct a as [j|]; cbn; [destruct (truthy j)|].
  - destruct (enc_run (Some (json_dumps j)) s) as [b Hb]. by exists b.
  - exists None. split; [done|apply runs_ret].
  - exists None. split; [done|apply runs_ret].
Qed.

Lemma ensure_conv_run conv dm s :
  ∃ m, runs (_ensure_conv conv dm) s tt (with_conv conv (ConvRow (Z.b2z dm) m 0 0) (s_db s)).
Proof.
  destruct (enc_run (Some "{}") s) as [m Hm]. exists m.
  eapply runs_bind; [exact Hm|]. intros n. by apply runs_on_db'.
Qed.

Lemma ingest_run conv sender seq ts text att s :
  int64 seq = true → int64 ts = true →
  let mid := in_id sender seq in
  let new := negb (dict_mem mid (messages_t (s_db s))) in
  ∃ m t a, (∃ k, t = blob_of (s_key s) text k) ∧ (att = None → a = None) ∧
    let r := MsgRow conv sender In ts seq (json_dumps (JObj [(sender, JInt seq)])) t a in
    let d := with_message mid r
      (with_conv conv (ConvRow (Z.b2z (bool_decide (conv = sender))) m 0 0) (s_db s)) in
    runs (ingest conv sender seq ts text att) s new (if new then unhide conv d else d).
Proof.
  intros Hseq Hts mid new.
  destruct (ensure_conv_run conv (bool_decide (conv = sender)) s) as [m Hm].
  destruct Hm as [n1 Hm].
  destruct (enc_run_blob text (at_db (with_conv conv (ConvRow (Z.b2z (bool_decide (conv = sender))) m 0 0)
    (s_db s)) (s_key s) n1)) as [k [n2 Ht]].
  destruct (enc_attachment_run att (at_db (with_conv conv (ConvRow (Z.b2z (bool_decide (conv = sender))) m 0 0)
    (s_db s)) (s_key s) n2)) as (a&Hnone&n3&Ha).
  exists m, (blob_of (s_key s) text k), a. split; [by exists k|]. split; [done|]. cbn in Ht, Ha. unfold ingest.
  unfold runs. rewrite (M_bind_run _ _ _ _ _ Hm), (M_bind_run _ _ _ _ _ Ht), (M_bind_run _ _ _ _ _ Ha).
  rewrite !bind_int_ok by done. subst new mid.
  eapply (runs_bind (lift (Ok ts)) _ (at_db _ _ n3)); [by apply runs_lift|]. intros n4.
  eapply (runs_bind (lift (Ok seq)) _ (at_db _ _ n4)); [by apply runs_lift|]. intros n5.
  eapply runs_bind; [apply runs_query|]. intros n6. cbn [s_db].
  eapply runs_bind; [apply runs_on_db|]. intros n7. cbn [s_db].
  rewrite !insert_or_ignore_snd. cbn [messages_t with_conv set_conversations].
  destruct (dict_mem _ (messages_t (s_db s))); cbn [negb];
    (eapply runs_bind; [first [apply runs_on_db|apply runs_ret]|]; intros n8;
     eapply runs_bind; [apply runs_commit|]; intros n9; apply runs_ret').
Qed.

Lemma add_delivery_run mid k s :
  int64 k.2 = true →
  runs (add_delivery mid k) s tt
    (set_deliveries (insert_or_ignore k (Delivery mid 0) (deliveries (s_db s))).1 (s_db s)).
Proof.
  intros Hk. unfold add_delivery. eapply runs_bind; [by apply runs_lift, bind_int_ok|].
  intros n. by apply runs_on_db'.
Qed.

(** The deliveries added by the loop of [add_sent]. *)
Definition with_deliveries (mid : string) (keys : list (string * Z)) (d : db) : db :=
  foldl (λ d k, set_deliveries (insert_or_ignore k (Delivery mid 0) (deliveries d)).1 d) d keys.

Lemma add_deliveries_run mid keys s :
  Forall (λ k, int64 k.2 = true) keys →
  runs (for_each (add_delivery mid) keys) s tt (with_deliveries mid keys (s_db s)).
Proof.
  intros Hk. revert s. induction Hk as [|k keys Hk _ IH]; intros s; cbn; [apply runs_ret|].
  eapply runs_bind; [by apply add_delivery_run|]. intros n. apply (IH (at_db _ _ n)).
Qed.

Definition sent_keys (seqs : list (string * Z)) (keys : option (list (string * Z))) :=
  match keys with
  | None => seqs
  | Some ks => List.filter (λ k : string * Z, negb (k.2 =? 0)) ks
  end.

Lemma add_sent_run conv seqs ts text att keys s :
  int64 ts = true → Forall (λ k, int64 k.2 = true) (sent_keys seqs keys) →
  let mid := out_id seqs in
  ∃ m t a,
    let r := MsgRow conv "self" Out ts 0
      (json_dumps (JObj ((λ '(n, s), (n, JInt s)) <$> seqs))) t a in
    runs (add_sent conv seqs ts text att keys) s (negb (dict_mem mid (messages_t (s_db s))))
      (with_deliveries mid (sent_keys seqs keys)
        (with_message mid r (with_conv conv (ConvRow 1 m 0 0) (s_db s)))).
Proof.
  intros Hts Hkeys mid.
  destruct (ensure_conv_run conv true s) as [m [n1 Hm]].
  destruct (enc_run text (at_db (with_conv conv (ConvRow 1 m 0 0) (s_db s)) (s_key s) n1))
    as [t [n2 Ht]].
  destruct (enc_attachment_run att (at_db (with_conv conv (ConvRow 1 m 0 0) (s_db s)) (s_key s) n2))
    as (a&_&n3&Ha).
  exists m, t, a. cbn zeta. unfold add_sent. cbn in Ht, Ha, Hm. unfold runs.
  rewrite (M_bind_run _ _ _ _ _ Hm), (M_bind_run _ _ _ _ _ Ht), (M_bind_run _ _ _ _ _ Ha).
  rewrite bind_int_ok by done.
  eapply (runs_bind (lift (Ok ts)) _ (at_db _ _ n3)); [by apply runs_lift|]. intros n4.
  eapply runs_bind; [apply runs_query|]. intros n5. cbn [s_db].
  eapply runs_bind; [apply runs_on_db|]. intros n6. cbn [s_db].
  eapply runs_bind; [by apply add_deliveries_run|]. intros n7. cbn [s_db].
  rewrite insert_or_ignore_snd. eapply runs_bind; [apply runs_commit|]. intros n8. apply runs_ret'.
Qed.
End Runs.

(** ** Readers *)

Lemma map_result_total {A B} (f : A → result B) l :
  Forall (λ x, ∃ y, f x = Ok y) l → ∃ ys, map_result f l = Ok ys ∧ Forall2 (λ x y, f x = Ok y) l ys.
Proof.
  induction 1 as [|x l [y Hy] _ (ys&Hys&IH)]; [by exists []|]. cbn. rewrite Hy. cbn.
  rewrite Hys. cbn. eexists. split; [reflexivity|]. by constructor.
Qed.

Lemma list_filter_elem {A} (p : A → bool) x l : x ∈ List.filter p l ↔ x ∈ l ∧ p x = true.
Proof. rewrite !list_elem_of_In. apply filter_In. Qed.

#[export] Instance string_le_po : PartialOrder String.le.
Proof. apply _. Qed.

#[export] Instance row_le_total : Total row_le.
Proof.
  intros x y. unfold row_le. destruct (Z.lt_trichotomy (m_ts x.2) (m_ts y.2)) as [|[->|]]; [auto..|].
  - destruct (total String.le x.1 y.1); auto.
  - auto.
Qed.

#[export] Instance row_le_trans : Transitive row_le.
Proof.
  intros x y z [Hxy|[Hxy Hs]] [Hyz|[Hyz Ht]]; unfold row_le; [left; lia..|].
  right. split; [lia|]. by trans y.1.
Qed.

(** The order of the answers of [messages]: by timestamp, then by id. *)
Definition message_le (x y : message) : Prop :=
  g_ts x < g_ts y ∨ g_ts x = g_ts y ∧ String.le (g_id x) (g_id y).

Section Readers.
Context `{N : NaCl} {NL : NaClLaws N} `{J : JsonCodec} {JL : JsonLaws J}.

Lemma row_to_msg_ok key summary row :
  msg_ok key row.1 row.2 → ∃ g, _row_to_msg key summary row = Ok g.
Proof.
  destruct row as [mid r]. intros ([j Hj]&[t Ht]&Ha&_). cbn in *. rewrite Hj. cbn. rewrite Ht. cbn.
  destruct (m_att r) as [b|]; cbn; [|eauto]. destruct Ha as [a Ha]. rewrite Ha. cbn. eauto.
Qed.

Lemma row_to_msg_fields key summary row g :
  _row_to_msg key summary row = Ok g → g_id g = row.1 ∧ g_ts g = m_ts row.2.
Proof. destruct row as [mid r]. cbn. intros H. inv_ok. done. Qed.

Lemma rows_sorted_messages rows l :
  Forall2 (λ row g, g_id g = row.1 ∧ g_ts g = m_ts row.2) rows l → StronglySorted row_le rows →
  StronglySorted message_le l ∧ g_id <$> l = rows.*1.
Proof.
  induction 1 as [|row g rows l [Hid Hts] HF IH]; [split; constructor|].
  intros [Hs Hr]%StronglySorted_inv. destruct (IH Hs) as [Hsl Hids].
  split; [|cbn; by rewrite Hid, Hids]. constructor; [done|].
  clear IH Hs Hsl Hids. induction HF as [|row' g' rows l [Hid' Hts'] _ IH]; [constructor|].
  apply Forall_cons in Hr as [Hr Hrs]. constructor; [|by apply IH].
  unfold message_le. by rewrite Hid, Hts, Hid', Hts'.
Qed.

Lemma rows_of_perm conv d :
  rows_of conv d ≡ₚ List.filter (λ r, bool_decide (m_conv r.2 = conv)) (messages_t d).
Proof. apply merge_sort_Permutation. Qed.

(** C4: On every store the program can reach, [messages] answers (it never
    fails to decrypt or parse a row), its answer is sorted by timestamp and
    then id, and it holds exactly the stored messages of the conversation,
    each once. *)
Theorem messages_total_sorted passphrase s conv :
  reachable passphrase s →
  ∃ l, messages conv s = (Ok l, s) ∧
    StronglySorted message_le l ∧ NoDup (g_id <$> l) ∧
    ∀ mid, mid ∈ g_id <$> l ↔ ∃ r, dict_get mid (messages_t (s_db s)) = Some r ∧ m_conv r = conv.
Proof.
  intros (salt&Hk&Hd&_)%reachable_ok. pose proof (ok_messages _ _ _ Hd) as [Hwf Hall].
  set (rows := rows_of conv (s_db s)).
  assert (Hrows : ∀ row, row ∈ rows ↔ row ∈ messages_t (s_db s) ∧ m_conv row.2 = conv).
  { intros row. unfold rows. rewrite rows_of_perm, list_filter_elem. by rewrite bool_decide_eq_true. }
  destruct (map_result_total (_row_to_msg (s_key s) (_delivery_summary_of rows.*1 (s_db s))) rows)
    as (l&Hl&HF).
  { apply Forall_forall. intros row [Hrow _]%Hrows. apply row_to_msg_ok. rewrite Hk.
    rewrite Forall_forall in Hall. by apply Hall. }
  exists l. split; [unfold messages, messages_of; fold rows; by rewrite Hl|].
  destruct (rows_sorted_messages rows l) as [Hsorted Hids].
  { eapply Forall2_impl; [exact HF|]. intros row g. apply row_to_msg_fields. }
  { by apply (StronglySorted_merge_sort row_le). }
  split_and!; [done|..].
  - rewrite Hids. unfold rows. rewrite rows_of_perm.
    eapply sublist_NoDup; [exact Hwf|apply filter_keys_sublist].
  - intros mid. rewrite Hids, list_elem_of_fmap. split.
    + intros ([m r]&->&[Hin Hc]%Hrows). exists r. split; [by apply dict_elem_get|done].
    + intros (r&Hr%dict_get_elem&Hc). exists (mid, r). split; [done|]. by apply Hrows.
Qed.

(** The other readers of encrypted columns answer too: the roster of a
    room, the pending requests and the name of a blocked node. *)
Theorem readers_total passphrase s conv node :
  reachable passphrase s →
  (∃ j, members conv s = (Ok j, s)) ∧ (∃ l, pending s = (Ok l, s)) ∧
  (∃ o, blocked_screen node s = (Ok o, s)).
Proof.
  intros (salt&Hk&Hd&_)%reachable_ok. split_and!.
  - unfold members. destruct (dict_get conv _) as [r|] eqn:Hr; [|eauto].
    apply (table_get _ _ _ _ (ok_conversations _ _ _ Hd)) in Hr as [Hb _].
    destruct (c_members r) as [b|]; [|eauto]. destruct Hb as [j Hj]. rewrite Hk, Hj. eauto.
  - unfold pending, pending_of. destruct (ok_pending _ _ _ Hd) as [_ Hall].
    destruct (map_result_total (λ r : option string * bytes, loads_blob (s_key s) (Some r.2))
      (pending_t (s_db s))) as (l&Hl&_); [by rewrite Hk|]. rewrite Hl. eauto.
  - unfold blocked_screen. destruct (dict_get node _) as [b|] eqn:Hb; [|eauto].
    apply (table_get _ _ _ _ (ok_blocked _ _ _ Hd)) in Hb as [o Ho]. rewrite Hk, Ho. eauto.
Qed.
End Readers.

(** ** The ingest cursor *)

Section Cursor.
Context `{N : NaCl} `{J : JsonCodec}.

Definition at_least (peer : string) (z : Z) (s : store) : Prop := z <= cursor_of peer (s_db s).

Lemma at_least_on_db peer z f :
  (∀ d, watermark (f d) = watermark d) → keeps (at_least peer z) (on_db f) any.
Proof. intros Hf. apply keeps_modify. intros s. unfold at_least, cursor_of. cbn. by rewrite Hf. Qed.

Lemma at_least_transact peer z f :
  (∀ d, watermark (f d) = watermark d) → keeps (at_least peer z) (transact f) any.
Proof. intros Hf. apply keeps_modify. intros s. unfold at_least, cursor_of. cbn. by rewrite Hf. Qed.

Lemma at_least_commit peer z : keeps (at_least peer z) commit any.
Proof. by apply keeps_modify. Qed.

Lemma at_least_enc peer z o : keeps (at_least peer z) (_enc o) any.
Proof. intros s Hs. by destruct o. Qed.

Lemma cursor_upsert peer p seq d :
  cursor_of p (set_watermark (upsert peer seq (λ old, Z.max old seq) (watermark d)) d) =
    if decide (p = peer) then from_option (λ old, Z.max old seq) seq (dict_get peer (watermark d))
    else cursor_of p d.
Proof. unfold cursor_of. cbn. rewrite dict_get_upsert. by case_decide. Qed.

Lemma at_least_set_cursor peer z p seq : 0 <= seq → keeps (at_least peer z) (set_cursor p seq) any.
Proof.
  intros Hseq. unfold set_cursor.
  eapply keeps_bind; [apply (keeps_lift _ _ (λ x, x = seq)); unfold bind_int;
    by case_match; intros ? [= <-]|]. intros ? ->.
  apply keeps_modify. intros s Hs. unfold at_least in *. cbn [s_db]. rewrite cursor_upsert.
  case_decide; [subst|done]. unfold cursor_of in Hs.
  destruct (dict_get p _) as [old|]; cbn in *; lia.
Qed.

Lemma at_least_enc_att peer z a : keeps (at_least peer z) (enc_attachment a) any.
Proof.
  destruct a as [j|]; cbn; [|apply keeps_ret_any].
  apply keeps_if; [apply at_least_enc|apply keeps_ret_any].
Qed.
#[local] Hint Resolve at_least_enc at_least_enc_att at_least_commit : keeps.
#[local] Hint Extern 1 (keeps _ (on_db _) _) => (apply at_least_on_db; reflexivity) : keeps.
#[local] Hint Extern 1 (keeps _ (transact _) _) => (apply at_least_transact; reflexivity) : keeps.

Definition op_nonneg (o : op) : Prop :=
  match o with
  | OSetCursor _ seq => 0 <= seq
  | ODeleteRoom _ points => Forall (λ p, 0 <= p.2) points
  | _ => True
  end.

(** No call moves the cursor of any peer backwards, not even one that
    raises half-way; so a peer's stream is never scanned again from an
    earlier point. *)
Theorem cursor_monotone o s peer :
  op_nonneg o → cursor_of peer (s_db s) <= cursor_of peer (s_db (run_op o s).2).
Proof.
  intros Ho. apply (λ H : keeps (at_least peer (cursor_of peer (s_db s))) (run_op o) any,
    proj1 (H s ltac:(unfold at_least; lia))).
  destruct o; cbn in Ho |- *; try (eapply keeps_ignore);
    unfold ensure_room, clear_history, ingest, add_sent, mark_delivered, mark_read,
      mute_conversation, set_conv_muted, mute, unmute, set_blocked_screen, clear_blocked_screen,
      add_pending, enc_str, pending_pop, _ensure_conv, query;
    [by apply at_least_set_cursor| |  | | | | | | | | | | | | | ];
    try (by keeps_tac).
  - unfold delete_room. eapply keeps_bind; [auto with keeps|intros _ _].
    apply keeps_for_each. intros [node latest] Hin. apply keeps_if; [auto with keeps|].
    apply at_least_set_cursor. rewrite Forall_forall in Ho. by apply (Ho (node, latest)).
  - keeps_tac. apply keeps_for_each. intros k _. unfold add_delivery. keeps_tac.
Qed.
End Cursor.

(** ** Ingestion *)

Section Ingest.
Context `{N : NaCl} `{J : JsonCodec}.

Lemma with_conv_id conv r d : dict_mem conv (conversations d) = true → with_conv conv r d = d.
Proof. intros Hc. unfold with_conv. rewrite insert_or_ignore_old by done. by destruct d. Qed.
Lemma with_message_id mid r d : dict_mem mid (messages_t d) = true → with_message mid r d = d.
Proof. intros Hc. unfold with_message. rewrite insert_or_ignore_old by done. by destruct d. Qed.

Lemma with_message_mem mid r d : dict_mem mid (messages_t (with_message mid r d)) = true.
Proof.
  unfold with_message, insert_or_ignore. destruct (dict_mem mid (messages_t d)) eqn:E; cbn; [done|].
  apply dict_mem_true. rewrite fmap_app. set_solver.
Qed.
Lemma with_conv_mem conv r d : dict_mem conv (conversations (with_conv conv r d)) = true.
Proof.
  unfold with_conv, insert_or_ignore. destruct (dict_mem conv (conversations d)) eqn:E; cbn; [done|].
  apply dict_mem_true. rewrite fmap_app. set_solver.
Qed.
Lemma update_key_mem (k : string) f (t : list (string * conv_row)) k' :
  dict_mem k' (update_key k f t) = dict_mem k' t.
Proof.
  destruct (dict_mem k' t) eqn:E.
  - apply dict_mem_true in E. apply dict_mem_true. by rewrite update_key_keys.
  - apply dict_mem_false in E. apply dict_mem_false. by rewrite update_key_keys.
Qed.

Lemma unhide_mem conv c d :
  dict_mem c (conversations (unhide conv d)) = dict_mem c (conversations d).
Proof. apply update_key_mem. Qed.

(** A message is identified by its sender and sequence number: the first
    ingestion reports it new and stores it, and ingesting it again, whatever
    text and timestamp come with it, reports it old and changes nothing; the
    numbers SQLite cannot hold are refused before any message is stored. *)
Theorem ingest_idempotent conv sender seq ts text att ts' text' att' s :
  int64 seq = true → int64 ts = true → int64 ts' = true →
  ∃ s1 s2,
    ingest conv sender seq ts text att s
      = (Ok (negb (dict_mem (in_id sender seq) (messages_t (s_db s)))), s1) ∧
    dict_mem (in_id sender seq) (messages_t (s_db s1)) = true ∧
    ingest conv sender seq ts' text' att' s1 = (Ok false, s2) ∧ s_db s2 = s_db s1.
Proof.
  intros Hseq Hts Hts'.
  destruct (ingest_run conv sender seq ts text att s Hseq Hts) as (m&t&a&_&_&n&Hrun).
  set (d := with_message _ _ _) in Hrun. set (new := negb _) in Hrun.
  set (s1 := at_db (if new then unhide conv d else d) (s_key s) n) in Hrun.
  assert (Hmem : dict_mem (in_id sender seq) (messages_t (s_db s1)) = true)
    by (subst s1; cbn; destruct new; apply with_message_mem).
  assert (Hconv : dict_mem conv (conversations (s_db s1)) = true).
  { subst s1; cbn [s_db]; destruct new; rewrite ?unhide_mem; apply with_conv_mem. }
  destruct (ingest_run conv sender seq ts' text' att' s1 Hseq Hts') as (m2&t2&a2&_&_&n2&Hrun2).
  rewrite Hmem in Hrun2. cbn [negb] in Hrun2.
  rewrite with_message_id, with_conv_id in Hrun2; [|done|].
  - do 2 eexists. split; [exact Hrun|]. split; [done|]. by split; [exact Hrun2|].
  - unfold with_conv, insert_or_ignore. by destruct (dict_mem conv (conversations (s_db s1))).
Qed.

(** An [int] that does not fit in 64 bits is refused with [OverflowError],
    and no message, cursor or delivery is recorded. *)
Lemma ingest_refused conv sender seq ts text att s :
  int64 seq && int64 ts = false →
  ∃ s', ingest conv sender seq ts text att s = (Raise OverflowError, s') ∧
    s_key s' = s_key s ∧ messages_t (s_db s') = messages_t (s_db s) ∧
    watermark (s_db s') = watermark (s_db s) ∧ deliveries (s_db s') = deliveries (s_db s).
Proof.
  intros Hb. destruct (ensure_conv_run conv (bool_decide (conv = sender)) s) as [m [n1 Hm]].
  set (d := with_conv _ _ _) in Hm.
  destruct (enc_run text (at_db d (s_key s) n1)) as [t [n2 Ht]].
  destruct (enc_attachment_run att (at_db d (s_key s) n2)) as (a&_&n3&Ha).
  exists (at_db d (s_key s) n3). cbn in Ht, Ha. unfold ingest.
  rewrite (M_bind_run _ _ _ _ _ Hm), (M_bind_run _ _ _ _ _ Ht), (M_bind_run _ _ _ _ _ Ha).
  split; [|done]. unfold lift, bind_int. apply andb_false_iff in Hb.
  destruct (int64 ts) eqn:Hts; [|done]. destruct Hb as [Hb|]; [|done].
  rewrite (M_bind_run _ _ _ ts (at_db d (s_key s) n3)) by done. by rewrite Hb.
Qed.

(** *** Message ids *)

(** The part after the last separator is determined. *)
Lemma last_sep_inj c s1 t1 s2 t2 :
  str_mem c t1 = false → str_mem c t2 = false →
  s1 +:+ String c t1 = s2 +:+ String c t2 → s1 = s2 ∧ t1 = t2.
Proof.
  intros Ht1 Ht2. revert s2. induction s1 as [|a s1 IH]; intros [|b s2];
    rewrite ?str_app_nil_l, ?str_app_cons; intros [=].
  - done.
  - subst. exfalso. rewrite str_mem_app in Ht1. cbn in Ht1.
    rewrite bool_decide_eq_true_2, orb_true_r in Ht1 by done. done.
  - subst. exfalso. rewrite str_mem_app in Ht2. cbn in Ht2.
    rewrite bool_decide_eq_true_2, orb_true_r in Ht2 by done. done.
  - subst. destruct (IH s2) as [-> ->]; done.
Qed.
End Ingest.

Lemma split_on_join c l :
  Forall (λ w, str_mem c w = false) l → l ≠ [] → split_on c (join (String c "") l) = l.
Proof.
  induction 1 as [|w l Hw Hl IH]; [done|]. intros _. destruct l as [|w' l].
  - by apply split_on_word.
  - change (join (String c "") (w :: w' :: l)) with (w +:+ String c "" +:+ join (String c "") (w' :: l)).
    rewrite str_app_cons, str_app_nil_l, split_on_app by done. by rewrite IH.
Qed.

(** A node id as the ids embed it: no separator of [out_id] in it. *)
Definition plain_node (n : string) : Prop := str_mem ","%char n = false ∧ str_mem "="%char n = false.

(** Message ids identify messages: an incoming id determines its sender and
    number, no incoming id is an outgoing one, and an outgoing id determines
    the set of (recipient, number) pairs it was made from. *)
Theorem message_ids_injective :
  (∀ s1 n1 s2 n2, in_id s1 n1 = in_id s2 n2 → s1 = s2 ∧ n1 = n2) ∧
  (∀ s n seqs, in_id s n ≠ out_id seqs) ∧
  (∀ seqs1 seqs2, Forall (λ k, plain_node k.1) seqs1 → Forall (λ k, plain_node k.1) seqs2 →
     out_id seqs1 = out_id seqs2 → seqs1 ≡ₚ seqs2).
Proof.
  split_and!.
  - unfold in_id. intros s1 n1 s2 n2 H%str_app_inj_l.
    change (":" +:+ ?x) with (String ":"%char x) in H.
    apply last_sep_inj in H as [-> H]; [|by apply str_of_int_no_mem..].
    apply (inj str_of_int) in H. done.
  - intros s n seqs H. unfold in_id, out_id in H. by rewrite !str_app_cons in H.
  - set (item := λ '(n, s), n +:+ "=" +:+ str_of_int s).
    assert (Hitem : ∀ seqs : list (string * Z), Forall (λ k, plain_node k.1) seqs →
      Forall (λ w, str_mem ","%char w = false ∧ w ≠ "") (item <$> merge_sort seqs_le seqs)).
    { intros seqs Hp. rewrite Forall_fmap, merge_sort_Permutation. eapply Forall_impl; [exact Hp|].
      intros [n z] [Hc He]. cbn in *. rewrite !str_mem_app, Hc, str_of_int_no_mem by done.
      split; [done|]. by destruct n. }
    assert (Hsplit : ∀ l, Forall (λ w, str_mem ","%char w = false ∧ w ≠ "") l →
      split_on ","%char (join "," l) = match l with [] => [""] | _ => l end).
    { intros [|w l] Hl; [done|]. apply split_on_join; [|done].
      eapply Forall_impl; [exact Hl|]. by intros ? []. }
    intros seqs1 seqs2 H1 H2 H. unfold out_id in H. apply str_app_inj_l in H.
    apply (f_equal (split_on ","%char)) in H. fold item in H.
    rewrite !Hsplit in H by auto. pose proof (Hitem _ H1) as Hi1. pose proof (Hitem _ H2) as Hi2.
    assert (Heq : item <$> merge_sort seqs_le seqs1 = item <$> merge_sort seqs_le seqs2).
    { destruct (item <$> merge_sort seqs_le seqs1) as [|w1 l1],
        (item <$> merge_sort seqs_le seqs2) as [|w2 l2]; try done.
      - injection H as <- <-. by apply Forall_cons in Hi2 as [[_ ?] _].
      - injection H as -> ->. by apply Forall_cons in Hi1 as [[_ ?] _]. }
    rewrite <-(merge_sort_Permutation seqs_le seqs1), <-(merge_sort_Permutation seqs_le seqs2).
    assert (Hinj : Inj (=) (=) item).
    { intros [n1 z1] [n2 z2] Hi. cbn in Hi.
      change ("=" +:+ ?x) with (String "="%char x) in Hi.
      apply last_sep_inj in Hi as [-> Hi]; [|by apply str_of_int_no_mem..].
      by apply (inj str_of_int) in Hi as ->. }
    apply (inj (fmap item)) in Heq. by rewrite Heq.
Qed.

(** ** Read marks *)

Lemma sql_max_spec l : match sql_max l with Some m => Forall (λ x, x <= m) l | None => l = [] end.
Proof.
  induction l as [|x l IH]; [done|].
  change (sql_max (x :: l)) with (Some match sql_max l with Some y => Z.max x y | None => x end).
  destruct (sql_max l) as [m|] eqn:E.
  - constructor; [lia|]. eapply Forall_impl; [exact IH|]. intros y Hy. cbn beta in *. lia.
  - subst. repeat constructor. lia.
Qed.

Lemma length_filter_none {A} (p : A → bool) l :
  Forall (λ x, p x = false) l → List.filter p l = [].
Proof. induction 1 as [|x l Hx _ IH]; [done|]. cbn. by rewrite Hx. Qed.

Section Unread.
Context `{N : NaCl} `{J : JsonCodec}.

(** [mark_read] leaves no unread message in its conversation, whatever the
    timestamps, touches no other conversation's count, and a message that
    arrives later counts exactly when it is newer than everything read. *)
Theorem unread_spec conv s sender seq ts text att :
  int64 seq = true → int64 ts = true →
  ∃ s1 s2 new, mark_read conv s = (Ok tt, s1) ∧ unread_of conv (s_db s1) = 0 ∧
    (∀ c, c ≠ conv → unread_of c (s_db s1) = unread_of c (s_db s)) ∧
    ingest conv sender seq ts text att s1 = (Ok new, s2) ∧
    let upto := default 0 (dict_get conv (read_marks (s_db s1))) in
    unread_of conv (s_db s2) = Z.b2z (new && (upto <? ts)) ∧
    Forall (λ r : string * msg_row, m_conv r.2 = conv → m_ts r.2 <= upto) (messages_t (s_db s)).
Proof.
  intros Hseq Hts. set (d := s_db s).
  set (m := default 0 (sql_max ((λ r, m_ts r.2) <$>
    List.filter (λ r, bool_decide (m_conv r.2 = conv)) (messages_t d)))).
  set (d1 := set_read_marks (upsert conv m (λ old, Z.max old m) (read_marks d)) d).
  set (s1 := Store d1 (s_key s) (s_rng s) d1).
  set (upto := default 0 (dict_get conv (read_marks d1))).
  assert (Hupto : m <= upto).
  { subst upto d1. cbn. rewrite dict_get_upsert, decide_True by done.
    destruct (dict_get conv _); cbn; lia. }
  assert (Hall : Forall (λ r : string * msg_row, m_conv r.2 = conv → m_ts r.2 <= upto) (messages_t d)).
  { apply Forall_forall. intros r Hr Hc.
    assert (Hin : m_ts r.2 ∈ (λ r, m_ts r.2) <$>
      List.filter (λ r, bool_decide (m_conv r.2 = conv)) (messages_t d)).
    { apply list_elem_of_fmap. exists r. split; [done|]. apply list_filter_elem.
      by rewrite bool_decide_eq_true. }
    pose proof (sql_max_spec ((λ r, m_ts r.2) <$>
      List.filter (λ r, bool_decide (m_conv r.2 = conv)) (messages_t d))) as Hmax.
    subst m. destruct (sql_max ((λ r, m_ts r.2) <$>
      List.filter (λ r, bool_decide (m_conv r.2 = conv)) (messages_t d))) as [x|];
      [|rewrite Hmax in Hin; by apply elem_of_nil in Hin].
    rewrite Forall_forall in Hmax. specialize (Hmax _ Hin). cbn in *. lia. }
  assert (Hzero : unread_of conv d1 = 0).
  { unfold unread_of. fold upto. rewrite length_filter_none; [done|].
    eapply Forall_impl; [exact Hall|]. intros r Hr. apply not_true_iff_false.
    rewrite andb_true_iff, bool_decide_eq_true, Z.ltb_lt. intros [[Hc _] ?]. specialize (Hr Hc). cbn beta in *. lia. }
  destruct (ingest_run conv sender seq ts text att s1 Hseq Hts) as (cm&t&a&_&_&n&Hrun).
  exists s1. eexists _, _. split; [done|]. split; [done|]. split.
  { intros c Hc. unfold unread_of, s1, d1. cbn. by rewrite dict_get_upsert, decide_False. }
  split; [exact Hrun|]. split; [|done]. cbn [s_db]. fold upto.
  destruct (dict_mem (in_id sender seq) (messages_t (s_db s1))) eqn:Hmem; cbn [negb andb].
  - rewrite with_message_id by done. exact Hzero.
  - unfold with_message. rewrite insert_or_ignore_new by done.
    unfold unread_of, unhide. cbn. fold upto.
    rewrite List.filter_app, length_app, Nat2Z.inj_add.
    unfold unread_of in Hzero. fold upto in Hzero. cbn in Hzero. rewrite Hzero. cbn.
    rewrite bool_decide_eq_true_2 by done. cbn [andb]. by destruct (_ <? ts).
Qed.
End Unread.

(** ** Isolation of conversations *)

Section Isolation.
Context `{N : NaCl} `{J : JsonCodec}.

Lemma filter_delete_other {A} (p q : A → bool) l :
  (∀ x, q x = true → p x = false) → List.filter q (delete_where p l) = List.filter q l.
Proof.
  intros Hpq. unfold delete_where. induction l as [|x l IH]; [done|]. cbn.
  destruct (q x) eqn:Hq.
  - rewrite (Hpq x Hq). cbn. by rewrite Hq, IH.
  - destruct (p x); cbn; [done|]. by rewrite Hq.
Qed.

Lemma filter_delete_self {A} (p : A → bool) l : List.filter p (delete_where p l) = [].
Proof.
  unfold delete_where. induction l as [|x l IH]; [done|]. cbn.
  destruct (p x) eqn:Hp; cbn; [done|]. by rewrite Hp.
Qed.

(** The scan points of [delete_room]. *)
Definition scan_step (d : db) (p : string * Z) : db :=
  if p.2 =? 0 then d
  else set_watermark (upsert p.1 p.2 (λ old, Z.max old p.2) (watermark d)) d.

Lemma scan_points_run points s :
  Forall (λ p, int64 p.2 = true) points →
  runs (for_each (λ '(node, latest), if latest =? 0 then mret tt else set_cursor node latest) points)
    s tt (foldl scan_step (s_db s) points).
Proof.
  intros Hp. revert s. induction Hp as [|[p z] points Hz _ IH]; intros s; cbn; [apply runs_ret|].
  eapply (runs_bind _ _ _ _ (scan_step (s_db s) (p, z))); [|intros n; apply (IH (at_db _ _ n))].
  unfold scan_step. cbn. destruct (z =? 0); [apply runs_ret|].
  unfold set_cursor. cbn in Hz. rewrite bind_int_ok by done.
  eapply runs_bind; [by apply runs_lift|]. intros n. by apply runs_transact'.
Qed.

Lemma scan_steps_frame points d :
  messages_t (foldl scan_step d points) = messages_t d ∧
  conversations (foldl scan_step d points) = conversations d.
Proof.
  revert d. induction points as [|p points IH]; intros d; [done|]. cbn.
  destruct (IH (scan_step d p)) as [-> ->]. unfold scan_step. by destruct (p.2 =? 0).
Qed.

Lemma scan_steps_mono points d peer v :
  dict_get peer (watermark d) = Some v →
  ∃ v', dict_get peer (watermark (foldl scan_step d points)) = Some v' ∧ v <= v'.
Proof.
  revert d v. induction points as [|p points IH]; intros d v Hv; [eauto with lia|]. cbn.
  assert (∃ v1, dict_get peer (watermark (scan_step d p)) = Some v1 ∧ v <= v1) as (v1&Hv1&Hle).
  { unfold scan_step. destruct (p.2 =? 0); [eauto with lia|]. cbn. rewrite dict_get_upsert.
    case_decide; [subst; rewrite Hv; cbn; eauto with lia|eauto with lia]. }
  destruct (IH _ _ Hv1) as (v'&Hv'&?). exists v'. split; [done|lia].
Qed.

Lemma scan_steps_reach points d p :
  p ∈ points → p.2 = 0 ∨ p.2 <= cursor_of p.1 (foldl scan_step d points).
Proof.
  intros Hp. revert d. induction points as [|q points IH]; intros d; [by apply elem_of_nil in Hp|].
  cbn. apply elem_of_cons in Hp as [->|Hp]; [|by apply IH].
  destruct (Z.eqb_spec q.2 0) as [|Hne]; [by left|right].
  assert (∃ v, dict_get q.1 (watermark (scan_step d q)) = Some v ∧ q.2 <= v) as (v&Hv&Hle).
  { unfold scan_step. destruct (Z.eqb_spec q.2 0); [done|]. cbn.
    rewrite dict_get_upsert, decide_True by done.
    destruct (dict_get q.1 _); cbn; eauto with lia. }
  destruct (scan_steps_mono points _ _ _ Hv) as (v'&Hv'&?). unfold cursor_of. rewrite Hv'. cbn. lia.
Qed.

Definition hide (conv : string) (d : db) : db :=
  set_conversations (update_key conv (λ r, ConvRow (c_dm r) (c_members r) (c_muted r) 1)
    (conversations d)) d.

Lemma delete_room_run conv points s :
  Forall (λ p, int64 p.2 = true) points →
  runs (delete_room conv points) s tt
    (foldl scan_step (hide conv (delete_conv_rows conv (s_db s))) points).
Proof.
  intros Hp. unfold delete_room. eapply runs_bind; [apply runs_transact|]. intros n.
  apply (scan_points_run points (at_db _ _ n) Hp).
Qed.

Lemma rooms_elem c d :
  c ∈ rooms_of d ↔ ∃ r, (c, r) ∈ conversations d ∧ c_dm r = 0 ∧ c_hidden r = 0.
Proof.
  unfold rooms_of. rewrite list_elem_of_fmap. split.
  - intros ([c' r]&->&[Hin Hr]%list_filter_elem). cbn in *. apply andb_prop in Hr as [?%Z.eqb_eq ?%Z.eqb_eq].
    eauto.
  - intros (r&Hin&Hdm&Hh). exists (c, r). split; [done|]. apply list_filter_elem. split; [done|].
    cbn. by rewrite Hdm, Hh.
Qed.

Lemma update_key_elem (k : string) f (t : list (string * conv_row)) k' r :
  (k', r) ∈ update_key k f t ↔ ∃ r0, (k', r0) ∈ t ∧ r = if decide (k' = k) then f r0 else r0.
Proof.
  unfold update_key. rewrite list_elem_of_fmap. split.
  - intros ([k0 r0]&Heq&Hin). cbn in Heq. case_decide; injection Heq as -> ->; exists r0;
      (split; [done|]); by case_decide.
  - intros (r0&Hin&->). exists (k', r0). split; [|done]. cbn. by case_decide.
Qed.

(** [delete_room] removes every message of its room and hides the room,
    leaves the messages and the visibility of all others alone, and moves the
    cursor of each given peer at least to the given point; the next new
    message of the room makes it visible again. *)
Theorem delete_room_spec conv points s sender seq ts text att :
  Forall (λ p, int64 p.2 = true) points → int64 seq = true → int64 ts = true →
  ∃ s1 s2 new, delete_room conv points s = (Ok tt, s1) ∧
    rows_of conv (s_db s1) = [] ∧ (conv ∉ rooms_of (s_db s1)) ∧
    (∀ c, c ≠ conv → rows_of c (s_db s1) = rows_of c (s_db s) ∧
       (c ∈ rooms_of (s_db s1) ↔ c ∈ rooms_of (s_db s))) ∧
    (∀ p, p ∈ points → p.2 = 0 ∨ p.2 <= cursor_of p.1 (s_db s1)) ∧
    ingest conv sender seq ts text att s1 = (Ok new, s2) ∧
    (new = true → (∃ r, (conv, r) ∈ conversations (s_db s) ∧ c_dm r = 0) →
       conv ∈ rooms_of (s_db s2)).
Proof.
  intros Hp Hseq Hts. destruct (delete_room_run conv points s Hp) as [n Hrun].
  set (d0 := hide conv (delete_conv_rows conv (s_db s))) in Hrun.
  set (d1 := foldl scan_step d0 points) in Hrun.
  destruct (scan_steps_frame points d0) as [Hmsgs Hconvs]. fold d1 in Hmsgs, Hconvs.
  destruct (ingest_run conv sender seq ts text att (at_db d1 (s_key s) n) Hseq Hts)
    as (m&t&a&_&_&n2&Hing).
  do 3 eexists. split; [exact Hrun|]. cbn [s_db]. split_and!; [..|exact Hing|].
  - unfold rows_of. rewrite Hmsgs. unfold d0. cbn. by rewrite filter_delete_self.
  - rewrite rooms_elem, Hconvs. intros (r&Hin&_&Hh). unfold d0 in Hin. cbn in Hin.
    apply update_key_elem in Hin as (r0&_&->). by rewrite decide_True in Hh.
  - intros c Hc. split.
    + unfold rows_of. rewrite Hmsgs. unfold d0. cbn. rewrite filter_delete_other; [done|].
      intros r Hr%bool_decide_eq_true. apply bool_decide_eq_false. congruence.
    + rewrite !rooms_elem, Hconvs. unfold d0. cbn.
      split; intros (r&Hin&?&?); exists r; (split; [|done]).
      * apply update_key_elem in Hin as (r0&Hin&->). by rewrite decide_False.
      * apply update_key_elem. exists r. by rewrite decide_False.
  - intros p Hin. by apply scan_steps_reach.
  - intros Hnew (r&Hr&Hdm). cbn [s_db] in Hnew. cbn [s_db]. rewrite Hnew.
    rewrite rooms_elem. cbn. set (r1 := ConvRow (c_dm r) (c_members r) (c_muted r) 1).
    exists (ConvRow (c_dm r) (c_members r) (c_muted r) 0). split; [|done].
    apply update_key_elem. exists r1. rewrite decide_True by done. split; [|done].
    assert (Hin : (conv, r1) ∈ conversations d1).
    { rewrite Hconvs. unfold d0. cbn. apply update_key_elem. exists r. by rewrite decide_True. }
    unfold insert_or_ignore. destruct (dict_mem conv _); cbn; [done|]. apply elem_of_app. by left.
Qed.
End Isolation.

(** ** Delivery state *)

Section Delivery.
Context `{N : NaCl} `{J : JsonCodec}.

Lemma with_deliveries_rows mid keys d :
  NoDup keys → Forall (λ k, k ∉ (deliveries d).*1) keys →
  deliveries (with_deliveries mid keys d) = deliveries d ++ ((λ k, (k, Delivery mid 0)) <$> keys).
Proof.
  revert d. induction keys as [|k keys IH]; intros d; cbn; [by rewrite app_nil_r|].
  intros [Hk Hnd]%NoDup_cons [Hfresh Hrest]%Forall_cons.
  unfold with_deliveries in IH. rewrite IH; [|done|]; cbn;
    rewrite insert_or_ignore_new by (by apply dict_mem_false); cbn.
  - by rewrite <-app_assoc.
  - rewrite Forall_forall in Hrest |- *. intros k' Hk'. rewrite fmap_app. cbn.
    rewrite not_elem_of_app, list_elem_of_singleton. split; [by apply Hrest|]. congruence.
Qed.

(** One ack, whatever it names. *)
Definition ack_step (d : db) (k : string * Z) : db :=
  match dict_get k (deliveries d) with
  | Some r => if d_acked r =? 0
              then set_deliveries (update_key k (λ r, Delivery (d_msg r) 1) (deliveries d)) d else d
  | None => d
  end.

Lemma mark_delivered_run node seq s :
  int64 seq = true →
  runs (mark_delivered node seq) s (d_msg <$> dict_get (node, seq) (deliveries (s_db s)))
    (ack_step (s_db s) (node, seq)).
Proof.
  intros Hseq. unfold mark_delivered. rewrite bind_int_ok by done.
  eapply runs_bind; [by apply runs_lift|]. intros n1.
  eapply runs_bind; [apply runs_query|]. intros n2. cbn [s_db]. unfold ack_step.
  destruct (dict_get _ _) as [r|]; [|apply runs_ret'].
  destruct (d_acked r =? 0); (eapply runs_bind; [first [apply runs_transact|apply runs_ret]|]);
    intros n3; apply runs_ret'.
Qed.

Definition mark_all (acks : list (string * Z)) : ST unit :=
  for_each (λ '(n, s), ignore (mark_delivered n s)) acks.

Lemma mark_all_run acks s :
  Forall (λ k, int64 k.2 = true) acks → runs (mark_all acks) s tt (foldl ack_step (s_db s) acks).
Proof.
  intros Ha. revert s. induction Ha as [|[n z] acks Hz _ IH]; intros s; cbn; [apply runs_ret|].
  eapply runs_bind; [|intros k; apply (IH (at_db _ _ k))]. unfold ignore.
  eapply runs_bind; [by apply mark_delivered_run|]. intros k. apply runs_ret'.
Qed.

(** The rows of one message: acked exactly when their key has been acked. *)
Definition tracked (mid : string) (keys acked : list (string * Z)) (d : db) : Prop :=
  NoDup (deliveries d).*1 ∧
  List.filter (λ r, bool_decide (d_msg r.2 = mid)) (deliveries d)
    = (λ k, (k, Delivery mid (Z.b2z (bool_decide (k ∈ acked))))) <$> keys.

Lemma filter_update_key (p : (string * Z) * delivery → bool) k f (t : list ((string * Z) * delivery)) :
  (∀ k v, p (k, f v) = p (k, v)) →
  List.filter p (update_key k f t) = update_key k f (List.filter p t).
Proof.
  intros Hp. unfold update_key. induction t as [|[k' v] t IH]; [done|]. cbn.
  case_decide as Hk; cbn; rewrite ?Hp, IH; destruct (p (k', v)); cbn;
    try first [rewrite decide_True by done|rewrite decide_False by done]; done.
Qed.

Lemma ack_step_tracked mid keys acked d k :
  tracked mid keys acked d → tracked mid keys (acked ++ [k]) (ack_step d k).
Proof.
  intros [Hnd Hrows].
  assert (Hsame : ∀ k', k' ∈ keys → k' ≠ k →
    bool_decide (k' ∈ acked ++ [k]) = bool_decide (k' ∈ acked)).
  { intros k' _ Hne. apply bool_decide_ext. rewrite elem_of_app, list_elem_of_singleton. naive_solver. }
  assert (Hin : ∀ a, (k, Delivery mid a) ∈ deliveries d →
    a = Z.b2z (bool_decide (k ∈ acked)) ∧ k ∈ keys).
  { intros a Ha. assert (Hf : (k, Delivery mid a) ∈
      List.filter (λ r, bool_decide (d_msg r.2 = mid)) (deliveries d))
      by (apply list_filter_elem; by rewrite bool_decide_eq_true).
    rewrite Hrows in Hf. apply list_elem_of_fmap in Hf as (k'&[= -> ->]&?). done. }
  assert (Hnot : ∀ r, dict_get k (deliveries d) = Some r → k ∈ keys → d_msg r = mid).
  { intros r Hr Hk. assert (Hf : (k, Delivery mid (Z.b2z (bool_decide (k ∈ acked)))) ∈
      List.filter (λ r, bool_decide (d_msg r.2 = mid)) (deliveries d))
      by (rewrite Hrows; apply list_elem_of_fmap; eauto).
    apply list_filter_elem in Hf as [Hf _]. apply dict_elem_get in Hf; [|done].
    rewrite Hr in Hf. by injection Hf as ->. }
  assert (Hgone : dict_get k (deliveries d) = None → k ∉ keys).
  { intros Hnone Hk. assert (Hf : (k, Delivery mid (Z.b2z (bool_decide (k ∈ acked)))) ∈
      List.filter (λ r, bool_decide (d_msg r.2 = mid)) (deliveries d))
      by (rewrite Hrows; apply list_elem_of_fmap; eauto).
    apply list_filter_elem in Hf as [Hf _]. apply dict_elem_get in Hf; [|done]. congruence. }
  unfold ack_step. destruct (dict_get k (deliveries d)) as [r|] eqn:Hr.
  - destruct (Z.eqb_spec (d_acked r) 0) as [H0|H0]; split; cbn;
      [by rewrite update_key_keys| |done|].
    + rewrite filter_update_key by done. rewrite Hrows. unfold update_key.
      rewrite <-list_fmap_compose. apply list_fmap_ext. intros i k' Hi%list_elem_of_lookup_2. cbn.
      destruct (decide (k' = k)) as [Hk|Hk]; [subst|by rewrite Hsame].
      rewrite bool_decide_eq_true_2; [done|set_solver].
    + rewrite Hrows. apply list_fmap_ext. intros i k' Hi%list_elem_of_lookup_2.
      destruct (decide (k' = k)) as [->|Hne]; [|by rewrite Hsame].
      destruct r as [m a]. cbn in H0. apply dict_get_elem in Hr as Hr'.
      assert (m = mid) as -> by (by apply (Hnot (Delivery m a))).
      destruct (Hin a Hr') as [Ha _]. rewrite (bool_decide_eq_true_2 (k ∈ acked ++ [k])) by set_solver.
      case_bool_decide; [done|]. cbn in Ha. lia.
  - split; [done|]. rewrite Hrows. apply list_fmap_ext. intros i k' Hi%list_elem_of_lookup_2.
    rewrite Hsame; [done..|]. intros ->. by apply Hgone.
Qed.

Lemma ack_steps_tracked mid keys acked acks d :
  tracked mid keys acked d → tracked mid keys (acked ++ acks) (foldl ack_step d acks).
Proof.
  revert acked d. induction acks as [|k acks IH]; intros acked d Ht; cbn; [by rewrite app_nil_r|].
  replace (acked ++ k :: acks) with ((acked ++ [k]) ++ acks) by (by rewrite <-app_assoc).
  by apply IH, ack_step_tracked.
Qed.

Lemma sql_sum_b2z {A} (p : A → bool) l :
  sql_sum ((λ x, Z.b2z (p x)) <$> l) = Z.of_nat (length (List.filter p l)).
Proof.
  unfold sql_sum. induction l as [|x l IH]; [done|]. cbn [fmap list_fmap foldr List.filter].
  rewrite IH. destruct (p x); cbn [length Z.b2z]; lia.
Qed.

Lemma length_filter_le {A} (p : A → bool) l :
  (length (List.filter p l) <= length l)%nat ∧
  (length (List.filter p l) = length l ↔ Forall (λ x, p x = true) l).
Proof.
  induction l as [|x l [IH1 IH2]]; [by split|]. cbn. rewrite Forall_cons, <-IH2.
  destruct (p x); cbn; split; [lia| |lia|].
  - split; [intros H; split; [done|lia]|intros [_ H]; lia].
  - split; [lia|]. by intros [? _].
Qed.

Lemma tracked_views mid keys acked d :
  tracked mid keys acked d →
  delivery_progress_of mid d = (Z.of_nat (length keys),
    Z.of_nat (length (List.filter (λ k, bool_decide (k ∈ acked)) keys))) ∧
  undelivered_of mid d = List.filter (λ k, negb (bool_decide (k ∈ acked))) keys.
Proof.
  intros [_ Hrows]. unfold delivery_progress_of, undelivered_of, acks_of. rewrite Hrows.
  rewrite <-!list_fmap_compose, length_fmap. split.
  - f_equal. by rewrite <-sql_sum_b2z.
  - clear. induction keys as [|k keys IH]; [done|]. cbn.
    case_bool_decide; cbn; by rewrite IH.
Qed.

(** C5: A sent message starts undelivered and becomes delivered exactly when
    every tracked (recipient, number) key has been acked, in whatever order
    the acks come, repeated or mixed with those of other messages; until then
    [undelivered] lists exactly the missing keys. *)
Theorem delivered_iff_all_acked conv seqs ts text att keys acks s :
  int64 ts = true → Forall (λ k, int64 k.2 = true) (sent_keys seqs keys) →
  Forall (λ k, int64 k.2 = true) acks →
  NoDup (deliveries (s_db s)).*1 → NoDup (sent_keys seqs keys) → sent_keys seqs keys ≠ [] →
  Forall (λ k, k ∉ (deliveries (s_db s)).*1) (sent_keys seqs keys) →
  Forall (λ r, d_msg r.2 ≠ out_id seqs) (deliveries (s_db s)) →
  ∃ new s1 s2, add_sent conv seqs ts text att keys s = (Ok new, s1) ∧
    mark_all acks s1 = (Ok tt, s2) ∧
    is_delivered_of (out_id seqs) (s_db s2)
      = Some (bool_decide (Forall (λ k, k ∈ acks) (sent_keys seqs keys))) ∧
    undelivered_of (out_id seqs) (s_db s2)
      = List.filter (λ k, negb (bool_decide (k ∈ acks))) (sent_keys seqs keys).
Proof.
  intros Hts Hkeys Hacks Hnd Hknd Hne Hfresh Hmid. set (ks := sent_keys seqs keys) in *.
  set (mid := out_id seqs) in *.
  destruct (add_sent_run conv seqs ts text att keys s Hts Hkeys) as (m&t&a&n&Hrun).
  fold mid ks in Hrun. set (d1 := with_message mid _ _) in Hrun.
  destruct (mark_all_run acks (at_db (with_deliveries mid ks d1) (s_key s) n) Hacks) as [n2 Hmark].
  do 3 eexists. split; [exact Hrun|]. split; [exact Hmark|]. cbn [s_db].
  assert (Hdel : deliveries (with_deliveries mid ks d1)
    = deliveries (s_db s) ++ ((λ k, (k, Delivery mid 0)) <$> ks)) by (by apply (with_deliveries_rows mid ks d1)).
  assert (Ht : tracked mid ks [] (with_deliveries mid ks d1)).
  { split; rewrite Hdel.
    - rewrite fmap_app, <-list_fmap_compose. apply NoDup_app. split; [done|].
      rewrite Forall_forall in Hfresh.
      replace (fst ∘ (λ k, (k, Delivery mid 0)) <$> ks) with ks by (by rewrite list_fmap_id).
      split; [|done]. intros k Hk Hin. by apply (Hfresh k).
    - rewrite List.filter_app, length_filter_none; cbn [app].
      + clear. induction ks as [|k ks IH]; [done|]. cbn.
        rewrite bool_decide_eq_true_2 by done. cbn. by rewrite IH.
      + eapply Forall_impl; [exact Hmid|]. intros r Hr. cbn. by apply bool_decide_eq_false. }
  apply (ack_steps_tracked _ _ _ acks) in Ht. cbn [app] in Ht.
  apply tracked_views in Ht as [Hprog Hund]. split; [|done].
  unfold is_delivered_of. rewrite Hprog.
  destruct (length_filter_le (λ k, bool_decide (k ∈ acks)) ks) as [_ Hall].
  replace (Z.of_nat (length ks) =? 0) with false
    by (symmetry; apply Z.eqb_neq; destruct ks; [done|cbn; lia]).
  assert (Hiff : Forall (λ k, bool_decide (k ∈ acks) = true) ks ↔ Forall (λ k, k ∈ acks) ks)
    by (split; intros H; eapply Forall_impl; [exact H|by intros k ?%bool_decide_eq_true|exact H|];
        intros k Hk; by apply bool_decide_eq_true).
  f_equal. destruct (Z.eqb_spec (Z.of_nat (length (List.filter (λ k, bool_decide (k ∈ acks)) ks)))
    (Z.of_nat (length ks))) as [H|H]; symmetry.
  - apply bool_decide_eq_true_2, Hiff, Hall. lia.
  - apply bool_decide_eq_false_2. intros Hf%Hiff%Hall. lia.
Qed.
End Delivery.

(** ** The three views of delivery agree *)

Section Views.
Implicit Types (d : db) (mid : string) (mids : list string).

Lemma sum01 l :
  Forall (λ z, z = 0 ∨ z = 1) l →
  sql_sum l <= Z.of_nat (length l) ∧ (sql_sum l = Z.of_nat (length l) ↔ Forall (λ z, z = 1) l).
Proof.
  unfold sql_sum. induction 1 as [|z l Hz _ [IH1 IH2]]; [by split|].
  cbn [foldr length]. rewrite Nat2Z.inj_succ, Forall_cons, <-IH2. lia.
Qed.

Lemma all_ones {A} (l : list (A * Z)) :
  Forall (λ r, r.2 = 0 ∨ r.2 = 1) l →
  sql_sum l.*2 = Z.of_nat (length l) ↔ Forall (λ r, r.2 = 1) l.
Proof.
  intros Hl. destruct (sum01 l.*2) as [_ H]; [by apply Forall_fmap|].
  rewrite length_fmap, Forall_fmap in H. exact H.
Qed.

Lemma acks_ok mid d :
  Forall (λ r, delivery_ok r.1 r.2) (deliveries d) → Forall (λ r, r.2 = 0 ∨ r.2 = 1) (acks_of mid d).
Proof. intros Hok. unfold acks_of. apply Forall_fmap, Forall_List_filter. exact Hok. Qed.

(** Folding groups into per-message counts. *)
Definition summary_step (full : string * string → bool) (summary : list (string * (Z * Z)))
    (k : string * string) : list (string * (Z * Z)) :=
  let '(total, done) := default (0, 0) (dict_get k.1 summary) in
  dict_set k.1 (total + 1, done + Z.b2z (full k)) summary.

Lemma summary_fold full ks acc mid :
  dict_get mid (foldl (summary_step full) acc ks) =
    let mine := List.filter (λ k, bool_decide (k.1 = mid)) ks in
    match mine with
    | [] => dict_get mid acc
    | _ => let '(total, done) := default (0, 0) (dict_get mid acc) in
           Some (total + Z.of_nat (length mine), done + Z.of_nat (length (List.filter full mine)))
    end.
Proof.
  revert acc. induction ks as [|[m n] ks IH]; intros acc; [done|]. cbn [foldl List.filter fst].
  rewrite IH. cbv zeta. unfold summary_step. cbn [fst].
  destruct (default (0, 0) (dict_get m acc)) as [t dn] eqn:Hacc.
  case_bool_decide as Hm.
  - subst m. rewrite dict_get_set_eq. cbn [default from_option id].
    rewrite Hacc. cbn [length List.filter].
    destruct (List.filter _ ks) as [|k0 mine]; cbn [List.filter length].
    + destruct (full (mid, n)); cbn; f_equal; f_equal; lia.
    + f_equal. destruct (full (mid, n)); cbn [length Z.b2z]; f_equal; lia.
  - by rewrite dict_get_set_ne.
Qed.

Definition node_full (mid : string) (d : db) (n : string) : bool :=
  let g := List.filter (λ r, bool_decide (r.1.1 = n)) (acks_of mid d) in
  sql_sum g.*2 =? Z.of_nat (length g).

Lemma foldl_ext_in {A B} (f g : A → B → A) l a :
  (∀ a b, f a b = g a b) → foldl f a l = foldl g a l.
Proof. intros H. revert a. induction l as [|b l IH]; intros a; [done|]. cbn. by rewrite H, IH. Qed.

Lemma filter_fmap {A B} (f : A → B) p (l : list A) :
  List.filter p (f <$> l) = f <$> List.filter (λ x, p (f x)) l.
Proof. induction l as [|x l IH]; [done|]. cbn. rewrite IH. by destruct (p (f x)). Qed.

Lemma filter_filter_and {A} (p q : A → bool) (l : list A) :
  List.filter p (List.filter q l) = List.filter (λ x, q x && p x) l.
Proof.
  induction l as [|x l IH]; [done|]. cbn. destruct (q x); cbn; [|done]. by rewrite IH.
Qed.

Lemma filter_ext_in {A} (p q : A → bool) (l : list A) :
  (∀ x, p x = q x) → List.filter p l = List.filter q l.
Proof. intros H. induction l as [|x l IH]; [done|]. cbn. by rewrite H, IH. Qed.

(** The rows the summary groups are those of the per-message query. *)
Lemma group_rows mids mid n d :
  mid ∈ mids →
  let rows := List.filter (λ r, bool_decide (d_msg r.2 ∈ mids)) (deliveries d) in
  let g := List.filter (λ r : (string * Z) * delivery,
             bool_decide (d_msg r.2 = mid ∧ r.1.1 = n)) rows in
  (sql_sum ((λ r, d_acked r.2) <$> g) =? Z.of_nat (length g)) = node_full mid d n.
Proof.
  intros Hin. cbv zeta. unfold node_full, acks_of. rewrite filter_fmap, length_fmap.
  rewrite <-list_fmap_compose, !filter_filter_and.
  replace (List.filter (λ x, bool_decide (d_msg x.2 ∈ mids) && bool_decide (d_msg x.2 = mid ∧ x.1.1 = n))
    (deliveries d)) with (List.filter (λ x : (string * Z) * delivery,
      bool_decide (d_msg x.2 = mid) && bool_decide (x.1.1 = n)) (deliveries d)); [done|].
  apply filter_ext_in. intros [[n' z] [m a]]. cbn.
  repeat case_bool_decide; subst; cbn; naive_solver.
Qed.

Lemma NoDup_List_filter {A} p (l : list A) : NoDup l → NoDup (List.filter p l).
Proof.
  induction 1 as [|x l Hx Hnd IH]; cbn; [constructor|].
  destruct (p x); [|done]. constructor; [|done]. rewrite list_filter_elem. naive_solver.
Qed.

Lemma filter_length_perm {A} (p : A → bool) (l1 l2 : list A) :
  l1 ≡ₚ l2 → length (List.filter p l1) = length (List.filter p l2).
Proof.
  induction 1 as [|x l1 l2 _ IH|x y l|l1 l2 l3 _ IH1 _ IH2]; cbn; [done|..].
  - by destruct (p x); cbn; rewrite IH.
  - by destruct (p x), (p y).
  - by rewrite IH1.
Qed.

(** The recipients of a message, as the message query and as the summary
    enumerate them. *)
Definition recipients (mid : string) (d : db) : list string := remove_dups (acks_of mid d).*1.*1.
Definition summary_rows (mids : list string) (d : db) : list ((string * Z) * delivery) :=
  List.filter (λ r, bool_decide (d_msg r.2 ∈ mids)) (deliveries d).
Definition summary_keys (mids : list string) (mid : string) (d : db) : list (string * string) :=
  List.filter (λ k : string * string, bool_decide (k.1 = mid))
    (remove_dups ((λ r : (string * Z) * delivery, (d_msg r.2, r.1.1)) <$> summary_rows mids d)).

Lemma recipients_elem mid d n :
  n ∈ recipients mid d ↔ ∃ z r, ((n, z), r) ∈ deliveries d ∧ d_msg r = mid.
Proof.
  unfold recipients, acks_of. rewrite elem_of_remove_dups, <-!list_fmap_compose, list_elem_of_fmap.
  split.
  - intros ([[n0 z] r]&->&[Hr Hm]%list_filter_elem). apply bool_decide_eq_true in Hm. cbn. eauto.
  - intros (z&r&Hr&Hm). exists ((n, z), r). split; [done|]. apply list_filter_elem.
    split; [done|]. by apply bool_decide_eq_true.
Qed.

Lemma summary_keys_elem mids mid d k :
  mid ∈ mids →
  k ∈ summary_keys mids mid d ↔ k.1 = mid ∧ ∃ z r, ((k.2, z), r) ∈ deliveries d ∧ d_msg r = mid.
Proof.
  intros Hin. unfold summary_keys, summary_rows.
  rewrite list_filter_elem, elem_of_remove_dups, list_elem_of_fmap, bool_decide_eq_true. split.
  - intros [([[n z] r]&->&[Hr _]%list_filter_elem) Hm]. cbn in *. eauto 10.
  - intros [Hk (z&r&Hr&Hm)]. split; [|done]. exists ((k.2, z), r). cbn. destruct k as [m n]. cbn in *.
    split; [congruence|]. apply list_filter_elem. split; [done|]. apply bool_decide_eq_true.
    cbn. by rewrite Hm.
Qed.

Lemma summary_keys_fst mids mid d : Forall (λ k, k.1 = mid) (summary_keys mids mid d).
Proof. apply Forall_forall. intros k [_ Hk]%list_filter_elem. by apply bool_decide_eq_true in Hk. Qed.

Lemma NoDup_same_fst {A B} (x : A) (l : list (A * B)) :
  Forall (λ k, k.1 = x) l → NoDup l → NoDup l.*2.
Proof.
  intros Hf Hnd. induction Hnd as [|[a b] l Hk Hl IH]; cbn; [constructor|].
  apply Forall_cons in Hf as [Hkf Hf]. constructor; [|by apply IH].
  intros ([a' b']&Heq&Hk')%list_elem_of_fmap. rewrite Forall_forall in Hf.
  specialize (Hf _ Hk'). cbn in *. subst. done.
Qed.

Lemma summary_keys_perm mids mid d :
  mid ∈ mids → (summary_keys mids mid d).*2 ≡ₚ recipients mid d.
Proof.
  intros Hin. apply NoDup_Permutation; [|apply NoDup_remove_dups|].
  - eapply NoDup_same_fst; [apply summary_keys_fst|].
    apply NoDup_List_filter, NoDup_remove_dups.
  - intros n. rewrite recipients_elem, list_elem_of_fmap. split.
    + intros (k&->&[_ H]%summary_keys_elem); [|done]. done.
    + intros H. exists (mid, n). split; [done|]. by apply summary_keys_elem.
Qed.

Lemma members_recipients mid d :
  delivery_members_of mid d = (Z.of_nat (length (recipients mid d)),
    Z.of_nat (length (List.filter (node_full mid d) (recipients mid d)))).
Proof.
  unfold delivery_members_of, group_node. by rewrite length_fmap, filter_fmap, length_fmap.
Qed.

Definition pair_full (mids : list string) (d : db) (k : string * string) : bool :=
  let g := List.filter (λ r : (string * Z) * delivery,
             bool_decide (d_msg r.2 = k.1 ∧ r.1.1 = k.2)) (summary_rows mids d) in
  sql_sum ((λ r, d_acked r.2) <$> g) =? Z.of_nat (length g).

Lemma summary_full mids mid d :
  mid ∈ mids →
  length (List.filter (pair_full mids d) (summary_keys mids mid d))
    = length (List.filter (node_full mid d) (recipients mid d)).
Proof.
  intros Hin. rewrite <-(filter_length_perm _ _ _ (summary_keys_perm mids mid d Hin)).
  rewrite filter_fmap, length_fmap. f_equal.
  induction (summary_keys_fst mids mid d) as [|[m n] l Hm _ IH]; [done|]. cbn in Hm. subst m.
  cbn [List.filter snd].
  assert (Hg : pair_full mids d (mid, n) = node_full mid d n) by (apply (group_rows mids mid n d Hin)).
  by rewrite Hg, IH.
Qed.

Lemma recipients_nil mid d : recipients mid d = [] ↔ acks_of mid d = [].
Proof.
  unfold recipients. split; [|by intros ->]. intros H.
  destruct (acks_of mid d) as [|[[n z] a] l]; [done|].
  assert (Hn : n ∈ remove_dups ((((n, z), a) :: l).*1.*1))
    by (apply elem_of_remove_dups; cbn; set_solver).
  rewrite H in Hn. by apply elem_of_nil in Hn.
Qed.

Lemma all_recipients_full mid d :
  Forall (λ r, r.2 = 0 ∨ r.2 = 1) (acks_of mid d) →
  sql_sum (acks_of mid d).*2 = Z.of_nat (length (acks_of mid d)) ↔
  length (List.filter (node_full mid d) (recipients mid d)) = length (recipients mid d).
Proof.
  intros Hacks. rewrite (all_ones _ Hacks). destruct (length_filter_le (node_full mid d) (recipients mid d)) as [_ ->].
  rewrite !Forall_forall. split.
  - intros H n Hn. unfold node_full. apply Z.eqb_eq, all_ones; [by apply Forall_List_filter|].
    apply Forall_List_filter, Forall_forall. exact H.
  - intros H r Hr.
    assert (Hn : r.1.1 ∈ recipients mid d)
      by (apply elem_of_remove_dups, list_elem_of_fmap; eexists; split; [done|];
          apply list_elem_of_fmap; eauto).
    specialize (H _ Hn). unfold node_full in H. apply Z.eqb_eq, all_ones in H;
      [|by apply Forall_List_filter].
    rewrite Forall_forall in H. apply H, list_filter_elem. by rewrite bool_decide_eq_true.
Qed.

(** The summary of a conversation, one message at a time. *)
Lemma summary_get mids mid d :
  mid ∈ mids →
  dict_get mid (_delivery_summary_of mids d)
    = (if bool_decide (acks_of mid d = []) then None else Some (delivery_members_of mid d)).
Proof.
  intros Hin. rewrite members_recipients. pose proof (recipients_nil mid d) as Hnil.
  trans (dict_get mid (foldl (summary_step (pair_full mids d)) []
    (remove_dups ((λ r : (string * Z) * delivery, (d_msg r.2, r.1.1)) <$> summary_rows mids d)))).
  { unfold _delivery_summary_of. f_equal. apply foldl_ext_in. by intros s [m n]. }
  rewrite summary_fold. cbv zeta. fold (summary_keys mids mid d).
  pose proof (summary_full mids mid d Hin) as Hfull.
  pose proof (Permutation_length (summary_keys_perm mids mid d Hin)) as Hlen.
  rewrite length_fmap in Hlen. rewrite <-Hlen, <-Hfull.
  cbn [dict_get default from_option id].
  destruct (summary_keys mids mid d) as [|k l].
  - rewrite bool_decide_eq_true_2; [done|]. by apply Hnil, length_zero_iff_nil.
  - rewrite bool_decide_eq_false_2; [done|]. intros Ha%Hnil. by rewrite Ha in Hlen.
Qed.

Lemma is_delivered_members mid d :
  Forall (λ r, delivery_ok r.1 r.2) (deliveries d) →
  is_delivered_of mid d
    = (if bool_decide (acks_of mid d = []) then None
       else Some ((delivery_members_of mid d).2 =? (delivery_members_of mid d).1)).
Proof.
  intros Hacks%(acks_ok mid). rewrite members_recipients. cbn [fst snd].
  unfold is_delivered_of, delivery_progress_of. case_bool_decide as He; [by rewrite He|].
  replace (Z.of_nat (length (acks_of mid d)) =? 0) with false
    by (symmetry; apply Z.eqb_neq; destruct (acks_of mid d); [done|cbn; lia]).
  f_equal. apply eq_true_iff_eq. rewrite !Z.eqb_eq, all_recipients_full by done. lia.
Qed.

(** The per-recipient summary shown with a conversation, the per-message
    recipient counts and the delivered flag are views of one state: the
    summary of a tracked message is its recipient count and fully acked
    recipient count, an untracked one has none, and a message is delivered
    exactly when all of its recipients are done. *)
Theorem delivery_views_agree mids mid d :
  mid ∈ mids → Forall (λ r, delivery_ok r.1 r.2) (deliveries d) →
  dict_get mid (_delivery_summary_of mids d)
    = (if bool_decide (acks_of mid d = []) then None else Some (delivery_members_of mid d)) ∧
  is_delivered_of mid d
    = (if bool_decide (acks_of mid d = []) then None
       else Some ((delivery_members_of mid d).2 =? (delivery_members_of mid d).1)).
Proof. intros Hin Hok. split; [by apply summary_get|by apply is_delivered_members]. Qed.
End Views.

(** ** The queue of contact requests *)

Section Queue.
Context `{N : NaCl} {NL : NaClLaws N} `{J : JsonCodec} {JL : JsonLaws J}.

Lemma map_result_app {A B} (f : A → result B) l1 l2 ys1 :
  map_result f l1 = Ok ys1 →
  map_result f (l1 ++ l2) = (ys2 ← map_result f l2; Ok (ys1 ++ ys2)).
Proof.
  revert ys1. induction l1 as [|x l1 IH]; intros ys1; cbn.
  - intros [= <-]. by destruct (map_result f l2).
  - destruct (f x) as [y|]; cbn; [|done]. destruct (map_result f l1) as [ys|]; cbn; [|done].
    intros [= <-]. rewrite (IH ys) by done. by destruct (map_result f l2).
Qed.

Lemma delete_where_none {A} (p : A → bool) l : Forall (λ x, p x = false) l → delete_where p l = l.
Proof. induction 1 as [|x l Hx _ IH]; [done|]. unfold delete_where in *. cbn. rewrite Hx. cbn. by f_equal. Qed.

Lemma pending_pop_run key s l :
  s_key s = key → NoDup (omap fst (pending_t (s_db s))) → pending_of key (s_db s) = Ok l →
  ∃ s2, pending_pop s = (Ok (head l), s2) ∧
    pending s2 = (Ok (match pending_t (s_db s) with (None, _) :: _ => l | _ => tail l end), s2).
Proof.
  intros Hk Hnd Hl. unfold pending_pop, query.
  rewrite (M_bind_run _ _ _ (head (pending_t (s_db s))) s) by done. unfold pending_of in Hl.
  destruct (pending_t (s_db s)) as [|[node payload] t] eqn:Hp; cbn [head].
  - cbn in Hl. injection Hl as <-. exists s. split; [done|].
    unfold pending, pending_of. by rewrite Hp.
  - cbn in Hl. destruct (loads_blob key (Some payload)) as [j|] eqn:Hj; [|done].
    cbn in Hl. destruct (map_result _ t) as [js|] eqn:Hjs; [|done]. injection Hl as <-.
    eexists. split.
    + unfold mbind, M_bind, on_db, modify, gets, lift. subst key. cbn. by rewrite Hj.
    + unfold pending, pending_of. cbn. rewrite Hp. subst key. f_equal.
      destruct node as [n|]; cbn.
      * cbn in Hnd. apply NoDup_cons in Hnd as [Hn _]. unfold delete_where. cbn [List.filter fst].
        rewrite bool_decide_eq_true_2 by done. cbn [negb].
        fold (delete_where (λ r : option string * bytes, bool_decide (r.1 = Some n)) t).
        rewrite delete_where_none; [done|]. apply Forall_forall. intros [m b'] Hin. cbn.
        apply bool_decide_eq_false. intros ->. apply Hn. apply list_elem_of_omap. by exists (Some n, b').
      * rewrite delete_where_none by (by apply Forall_true). cbn. by rewrite Hj, Hjs.
Qed.

(** Contact requests form a queue without duplicates: adding one from a
    node already queued changes nothing, adding another puts it last, and
    [pending_pop] returns the oldest; it removes it unless the request names
    no node, in which case it stays at the head for ever. *)
Theorem pending_queue passphrase s req :
  reachable passphrase s → json_wf (JObj req) →
  ∃ l s1 s2, pending s = (Ok l, s) ∧
    add_pending req s = (Ok tt, s1) ∧
    pending s1 = (Ok (if match pending_key req with
                         | Some n => dict_mem (Some n) (pending_t (s_db s))
                         | None => false
                         end then l else l ++ [JObj req]), s1) ∧
    pending_pop s = (Ok (head l), s2) ∧
    pending s2 = (Ok (match pending_t (s_db s) with (None, _) :: _ => l | _ => tail l end), s2).
Proof.
  intros (salt&Hk&Hd&_)%reachable_ok Hreq.
  set (key := kdf_key passphrase salt) in *.
  assert (Hkey : length key = 32%nat) by apply scrypt_length.
  destruct (ok_pending _ _ _ Hd) as [Hnd Hall].
  destruct (map_result_total (λ r : option string * bytes, loads_blob key (Some r.2))
    (pending_t (s_db s))) as (l&Hl&_); [done|].
  set (b := secret_encrypt key (utf8_encode (json_dumps (JObj req))) (random_bytes 24 (s_rng s))).
  assert (Hb : loads_blob key (Some b) = Ok (JObj req)).
  { unfold loads_blob, b. rewrite dec_enc by (done || apply dumps_is_str). cbn. by apply loads_dumps. }
  set (t1 := match pending_key req with
             | Some n => (insert_or_ignore (Some n) b (pending_t (s_db s))).1
             | None => pending_t (s_db s) ++ [(None, b)]
             end).
  assert (Hadd : map_result (λ r : option string * bytes, loads_blob key (Some r.2))
    (pending_t (s_db s) ++ [(pending_key req, b)]) = Ok (l ++ [JObj req])).
  { rewrite (map_result_app _ _ _ l) by done. cbn. by rewrite Hb. }
  destruct (pending_pop_run key s l Hk Hnd Hl) as (s2&Hpop&Hrest).
  exists l, (Store (set_pending t1 (s_db s)) (s_key s) (S (s_rng s)) (set_pending t1 (s_db s))), s2.
  split_and!; [| | |exact Hpop|exact Hrest].
  - unfold pending, pending_of. by rewrite Hk, Hl.
  - unfold add_pending, enc_str, mbind, M_bind, on_db, modify. cbn. by rewrite Hk.
  - unfold pending, pending_of. cbn. rewrite Hk. f_equal. subst t1.
    destruct (pending_key req) as [n|]; [|exact Hadd].
    unfold insert_or_ignore. destruct (dict_mem (Some n) _); [done|exact Hadd].
Qed.
End Queue.

(** ** Evaluated instances *)

Section StoreWitness.
Local Instance sw_json : JsonCodec := RefCodec.
Local Instance sw_json_laws : JsonLaws RefCodec := RefCodec_laws.
Local Instance sw_nacl : NaCl := RefNaCl.
Local Instance sw_nacl_laws : NaClLaws RefNaCl := RefNaCl_laws.

(** A fresh store, and one with a message from a peer. *)
Definition fresh_store : store := match open_store empty_db 0 "pw" with Ok s => s | _ => Store empty_db [] 0 empty_db end.
Definition first_op : op := OIngest "room" "peer" 3 100 (Some "hi") None.
Definition used_store : store := (run_op first_op fresh_store).2.

Lemma used_store_reachable : reachable "pw" used_store.
Proof.
  apply reach_step; [by eapply (reach_open "pw" 0)|].
  split_and!; [done|by intros ? [= <-]|by intros ? [=]].
Qed.

Example messages_total_sorted_witness :
  ∃ l, messages "room" used_store = (Ok l, used_store) ∧ StronglySorted message_le l ∧
    NoDup (g_id <$> l) ∧
    ∀ mid, mid ∈ g_id <$> l ↔
      ∃ r, dict_get mid (messages_t (s_db used_store)) = Some r ∧ m_conv r = "room".
Proof. apply (messages_total_sorted "pw" used_store "room" used_store_reachable). Defined.

Example readers_total_witness :
  (∃ j, members "room" used_store = (Ok j, used_store)) ∧
  (∃ l, pending used_store = (Ok l, used_store)) ∧
  (∃ o, blocked_screen "peer" used_store = (Ok o, used_store)).
Proof. apply (readers_total "pw" used_store "room" "peer" used_store_reachable). Defined.

Example cursor_monotone_witness :
  op_nonneg (ODeleteRoom "room" [("peer", 9)]) ∧
  cursor_of "peer" (s_db used_store)
    <= cursor_of "peer" (s_db (run_op (ODeleteRoom "room" [("peer", 9)]) used_store).2).
Proof.
  assert (H : op_nonneg (ODeleteRoom "room" [("peer", 9)])) by (repeat constructor; done).
  split; [exact H|]. apply (cursor_monotone (ODeleteRoom "room" [("peer", 9)]) used_store "peer" H).
Defined.

Example ingest_idempotent_witness :
  ∃ s1 s2, ingest "room" "peer" 4 101 (Some "a") None used_store = (Ok true, s1) ∧
    dict_mem (in_id "peer" 4) (messages_t (s_db s1)) = true ∧
    ingest "room" "peer" 4 102 (Some "b") None s1 = (Ok false, s2) ∧ s_db s2 = s_db s1.
Proof. by apply (ingest_idempotent "room" "peer" 4 101 (Some "a") None 102 (Some "b") None used_store). Defined.

Example unread_spec_witness :
  ∃ s1 s2 new, mark_read "room" used_store = (Ok tt, s1) ∧ unread_of "room" (s_db s1) = 0 ∧
    (∀ c, c ≠ "room" → unread_of c (s_db s1) = unread_of c (s_db used_store)) ∧
    ingest "room" "peer" 4 101 (Some "a") None s1 = (Ok new, s2) ∧
    let upto := default 0 (dict_get "room" (read_marks (s_db s1))) in
    unread_of "room" (s_db s2) = Z.b2z (new && (upto <? 101)) ∧
    Forall (λ r : string * msg_row, m_conv r.2 = "room" → m_ts r.2 <= upto)
      (messages_t (s_db used_store)).
Proof. by apply (unread_spec "room" used_store "peer" 4 101 (Some "a") None). Defined.

Example delete_room_spec_witness :
  ∃ s1 s2 new, delete_room "room" [("peer", 9)] used_store = (Ok tt, s1) ∧
    rows_of "room" (s_db s1) = [] ∧ (9 = 0 ∨ 9 <= cursor_of "peer" (s_db s1)) ∧
    ingest "room" "peer" 10 101 None None s1 = (Ok new, s2).
Proof.
  destruct (delete_room_spec "room" [("peer", 9)] used_store "peer" 10 101 None None)
    as (s1&s2&new&H1&H2&_&_&H5&H6&_); [by repeat constructor|done|done|].
  exists s1, s2, new. split_and!; [exact H1|exact H2| |exact H6]. apply (H5 ("peer", 9)). left.
Defined.

Example delivered_iff_all_acked_witness :
  ∃ new s1 s2, add_sent "peer" [("peer", 7)] 100 (Some "x") None None used_store = (Ok new, s1) ∧
    mark_all [("other", 1); ("peer", 7)] s1 = (Ok tt, s2) ∧
    is_delivered_of (out_id [("peer", 7)]) (s_db s2) = Some true.
Proof.
  destruct (delivered_iff_all_acked "peer" [("peer", 7)] 100 (Some "x") None None
    [("other", 1); ("peer", 7)] used_store) as (new&s1&s2&H1&H2&H3&_);
    [done|by repeat constructor|by repeat constructor|by vm_compute; constructor
    |by apply NoDup_singleton|done|by vm_compute; repeat constructor; apply not_elem_of_nil
    |by vm_compute; constructor|].
  exists new, s1, s2. split_and!; [exact H1|exact H2|exact H3].
Defined.

Example delivery_views_agree_witness :
  let d := set_deliveries [(("a", 1), Delivery "m" 1); (("b", 1), Delivery "m" 0)] empty_db in
  dict_get "m" (_delivery_summary_of ["m"] d) = Some (2, 1) ∧ is_delivered_of "m" d = Some false.
Proof.
  intros d. apply (delivery_views_agree ["m"] "m" d); [left|].
  constructor; [by right|constructor; [by left|constructor]].
Defined.

Example pending_queue_witness :
  ∃ l s1 s2, pending used_store = (Ok l, used_store) ∧
    add_pending [("node", JStr "n")] used_store = (Ok tt, s1) ∧
    pending s1 = (Ok (l ++ [JObj [("node", JStr "n")]]), s1) ∧
    pending_pop used_store = (Ok (head l), s2).
Proof.
  destruct (pending_queue "pw" used_store [("node", JStr "n")] used_store_reachable)
    as (l&s1&s2&H1&H2&H3&H4&_); [json_wf_tac|]. exists l, s1, s2. split_and!; done.
Defined.
End StoreWitness.
