(* ===== verification/StoreSpec.v ===== *)
(** * What the conversation store is: a mailbox

    The abstract specification of [store.py]: conversations, messages, cursors
    and delivery state as finite maps of plaintext values, no encryption, no
    row order, no SQL; and next to the mailbox the one that is saved, which a
    call that goes through updates and reopening goes back to.  Each operation
    of the store has its specification here, in the same monad, so that the
    exceptions are specified too. *)

From S2P Require Import Prelude PyStr Codec Json Crypto Store StoreProps.
Local Open Scope Z_scope.

Record chat := Chat { h_room : bool; h_roster : json; h_muted : bool; h_hidden : bool }.

(** A message; its delivery state is not part of it. *)
Record entry := Entry
  { e_conv : string; e_sender : string; e_dir : direction; e_ts : Z; e_seq : Z;
    e_seqs : json; e_text : option string; e_att : option json }.

Record mailbox := Mailbox {
  x_chats : gmap string chat;
  x_entries : gmap string entry;
  x_cursors : gmap string Z;
  x_read : gmap string Z;
  x_requests : list (option string * json);
  x_blocked : gmap string (option string);
  x_muted : gset string;
  x_acks : gmap (string * Z) (string * bool);  (* recipient, seq: message, acked *)
}.
Definition empty_mailbox : mailbox := Mailbox ∅ ∅ ∅ ∅ [] ∅ ∅ ∅.

Definition put_chats t x := Mailbox t (x_entries x) (x_cursors x) (x_read x) (x_requests x)
  (x_blocked x) (x_muted x) (x_acks x).
Definition put_entries t x := Mailbox (x_chats x) t (x_cursors x) (x_read x) (x_requests x)
  (x_blocked x) (x_muted x) (x_acks x).
Definition put_cursors t x := Mailbox (x_chats x) (x_entries x) t (x_read x) (x_requests x)
  (x_blocked x) (x_muted x) (x_acks x).
Definition put_read t x := Mailbox (x_chats x) (x_entries x) (x_cursors x) t (x_requests x)
  (x_blocked x) (x_muted x) (x_acks x).
Definition put_requests t x := Mailbox (x_chats x) (x_entries x) (x_cursors x) (x_read x) t
  (x_blocked x) (x_muted x) (x_acks x).
Definition put_blocked t x := Mailbox (x_chats x) (x_entries x) (x_cursors x) (x_read x)
  (x_requests x) t (x_muted x) (x_acks x).
Definition put_muted t x := Mailbox (x_chats x) (x_entries x) (x_cursors x) (x_read x)
  (x_requests x) (x_blocked x) t (x_acks x).
Definition put_acks t x := Mailbox (x_chats x) (x_entries x) (x_cursors x) (x_read x)
  (x_requests x) (x_blocked x) (x_muted x) t.

(** The mailbox as it is read, and as it is saved. *)
Record post := Post { o_now : mailbox; o_saved : mailbox }.
Definition empty_post : post := Post empty_mailbox empty_mailbox.

Module Mail.
Definition MB (A : Type) : Type := M post A.
Definition see {A} (f : mailbox → A) : MB A := gets (λ o, f (o_now o)).
(** A change, saved or not yet; and what is saved from here on. *)
Definition change (f : mailbox → mailbox) : MB unit := modify (λ o, Post (f (o_now o)) (o_saved o)).
Definition save (f : mailbox → mailbox) : MB unit := modify (λ o, let x := f (o_now o) in Post x x).
Definition settle : MB unit := save id.
Definition go_back : MB unit := modify (λ o, Post (o_saved o) (o_saved o)).

(** A key that is there already is left alone. *)
Definition add_new `{Countable K} {V} (k : K) (v : V) (m : gmap K V) : gmap K V :=
  match m !! k with Some _ => m | None => <[k:=v]> m end.

(** ** Writers *)

Definition advance (peer : string) (seq : Z) (m : gmap string Z) : gmap string Z :=
  <[peer := from_option (λ old, Z.max old seq) seq (m !! peer)]> m.
Definition set_cursor (peer : string) (seq : Z) : MB unit :=
  seq ← lift (bind_int seq); save (λ x, put_cursors (advance peer seq (x_cursors x)) x).

Definition ensure_conv (conv : string) (dm : bool) : MB unit :=
  change (λ x, put_chats (add_new conv (Chat (negb dm) (JObj []) false false) (x_chats x)) x).
Definition ensure_room (conv : string) (members : json) : MB unit :=
  save (λ x, put_chats
    (<[conv := Chat true members (from_option h_muted false (x_chats x !! conv)) false]> (x_chats x)) x).

Definition hide (b : bool) (c : chat) : chat := Chat (h_room c) (h_roster c) (h_muted c) b.
Definition silence (b : bool) (c : chat) : chat := Chat (h_room c) (h_roster c) b (h_hidden c).

(** Forgetting a conversation's messages and read mark. *)
Definition forget (conv : string) (x : mailbox) : mailbox :=
  put_read (delete conv (x_read x))
    (put_entries (filter (λ kv, e_conv kv.2 ≠ conv) (x_entries x)) x).
Definition clear_history (conv : string) : MB unit := save (forget conv).
Definition delete_room (conv : string) (points : list (string * Z)) : MB unit :=
  _ ← save (λ x, let x := forget conv x in put_chats (alter (hide true) conv (x_chats x)) x);
  for_each (λ '(node, latest), if latest =? 0 then mret tt else set_cursor node latest) points.

Definition meaningful (att : option json) : option json :=
  match att with Some a => if truthy a then Some a else None | None => None end.

(** A received message is added once, and shows its conversation; what is
    left of a call that raises is not saved. *)
Definition ingest (conv sender : string) (seq ts : Z) (text : option string) (att : option json)
    : MB bool :=
  let mid := in_id sender seq in
  _ ← ensure_conv conv (bool_decide (conv = sender));
  ts ← lift (bind_int ts);
  seq ← lift (bind_int seq);
  let e := Entry conv sender In ts seq (JObj [(sender, JInt seq)]) text (meaningful att) in
  new ← see (λ x, negb (bool_decide (is_Some (x_entries x !! mid))));
  _ ← change (λ x, put_entries (add_new mid e (x_entries x)) x);
  _ ← (if new : bool then change (λ x, put_chats (alter (hide false) conv (x_chats x)) x) else mret tt);
  _ ← settle;
  mret new.

Definition expect (mid : string) (k : string * Z) : MB unit :=
  _ ← lift (bind_int k.2); change (λ x, put_acks (add_new k (mid, false) (x_acks x)) x).

Definition add_sent (conv : string) (seqs : list (string * Z)) (ts : Z) (text : option string)
    (att : option json) (keys : option (list (string * Z))) : MB bool :=
  let mid := out_id seqs in
  _ ← ensure_conv conv true;
  ts ← lift (bind_int ts);
  let e := Entry conv "self" Out ts 0 (JObj ((λ '(n, s), (n, JInt s)) <$> seqs)) text (meaningful att) in
  new ← see (λ x, negb (bool_decide (is_Some (x_entries x !! mid))));
  _ ← change (λ x, put_entries (add_new mid e (x_entries x)) x);
  _ ← for_each (expect mid) (sent_keys seqs keys);
  _ ← settle;
  mret new.

Definition mark_delivered (node : string) (seq : Z) : MB (option string) :=
  seq ← lift (bind_int seq);
  ack ← see (λ x, x_acks x !! (node, seq));
  match ack with
  | None => mret None
  | Some (mid, acked) =>
    _ ← (if acked : bool then mret tt
         else save (λ x, put_acks (alter (λ a, (a.1, true)) (node, seq) (x_acks x)) x));
    mret (Some mid)
  end.

(** The newest moment of a conversation. *)
Definition newest (conv : string) (x : mailbox) : Z :=
  default 0 (sql_max (e_ts <$> (map_to_list (filter (λ kv, e_conv kv.2 = conv) (x_entries x))).*2)).
Definition mark_read (conv : string) : MB unit :=
  upto ← see (newest conv); save (λ x, put_read (advance conv upto (x_read x)) x).

Definition mute_conversation (conv : string) : MB unit :=
  _ ← ensure_conv conv true;
  save (λ x, put_chats (alter (silence true) conv (x_chats x)) x).
Definition unmute_conversation (conv : string) : MB unit :=
  save (λ x, put_chats (alter (silence false) conv (x_chats x)) x).
Definition mute (node : string) : MB unit := save (λ x, put_muted ({[node]} ∪ x_muted x) x).
Definition unmute (node : string) : MB unit := save (λ x, put_muted (x_muted x ∖ {[node]}) x).
Definition set_blocked_screen (node : string) (screen : option string) : MB unit :=
  save (λ x, put_blocked (<[node := screen]> (x_blocked x)) x).
Definition clear_blocked_screen (node : string) : MB unit :=
  save (λ x, put_blocked (delete node (x_blocked x)) x).

(** Requests queue up, one per node; those without a node always. *)
Definition add_pending (req : list (string * json)) : MB unit := save (λ x, put_requests
  (match pending_key req with
   | Some n => if decide (Some n ∈ (x_requests x).*1) then x_requests x
               else x_requests x ++ [(Some n, JObj req)]
   | None => x_requests x ++ [(None, JObj req)]
   end) x).
Definition pending_pop : MB (option json) :=
  first ← see (λ x, head (x_requests x));
  match first with
  | None => mret None
  | Some (node, req) =>
    _ ← save (λ x, put_requests
          (List.filter (λ r, bool_decide (node = None ∨ r.1 ≠ node)) (x_requests x)) x);
    mret (Some req)
  end.

(** ** Readers *)

Definition cursor (peer : string) (x : mailbox) : Z := default 0 (x_cursors x !! peer).
Definition rooms (x : mailbox) : gset string :=
  dom (filter (λ kv, h_room kv.2 = true ∧ h_hidden kv.2 = false) (x_chats x)).
Definition members (conv : string) (x : mailbox) : json :=
  from_option h_roster (JObj []) (x_chats x !! conv).
Definition is_room (conv : string) (x : mailbox) : bool := from_option h_room false (x_chats x !! conv).
Definition is_conversation_muted (conv : string) (x : mailbox) : bool :=
  from_option h_muted false (x_chats x !! conv).

(** Who a message was sent to, and whose acks have all come. *)
Definition recipients (mid : string) (x : mailbox) : gset string :=
  set_map fst (dom (filter (λ kv, kv.2.1 = mid) (x_acks x))).
Definition complete (mid node : string) (x : mailbox) : Prop :=
  map_Forall (λ k a, k.1 = node → a.1 = mid → a.2 = true) (x_acks x).
#[global] Instance complete_dec mid node x : Decision (complete mid node x).
Proof. unfold complete. apply _. Defined.
Definition delivery_members (mid : string) (x : mailbox) : Z * Z :=
  (Z.of_nat (size (recipients mid x)),
   Z.of_nat (size (filter (λ n, complete mid n x) (recipients mid x)))).
(** How many acks are expected, and how many have come. *)
Definition delivery_progress (mid : string) (x : mailbox) : Z * Z :=
  (Z.of_nat (size (filter (λ kv, kv.2.1 = mid) (x_acks x))),
   Z.of_nat (size (filter (λ kv, kv.2 = (mid, true)) (x_acks x)))).
Definition is_delivered (mid : string) (x : mailbox) : option bool :=
  if decide (recipients mid x = ∅) then None
  else Some (bool_decide (map_Forall (λ _ a, a.1 = mid → a.2 = true) (x_acks x))).
Definition undelivered (mid : string) (x : mailbox) : gset (string * Z) :=
  dom (filter (λ kv, kv.2 = (mid, false)) (x_acks x)).

Definition to_message (x : mailbox) (ke : string * entry) : message :=
  let '(mid, e) := ke in
  Message mid (e_dir e) (e_seqs e) (e_ts e) (e_sender e) (e_text e) (e_att e)
    match e_dir e with
    | In => None
    | Out => Some (if decide (recipients mid x = ∅) then (None, None, 0)
                   else let '(total, acked) := delivery_members mid x in
                        (Some (acked =? total), Some total, acked))
    end.
#[global] Instance message_le_dec : RelDecision message_le := λ a b, ltac:(unfold message_le; apply _).
(** The messages of a conversation, in their order of time. *)
Definition messages (conv : string) (x : mailbox) : list message :=
  merge_sort message_le
    (to_message x <$> map_to_list (filter (λ kv, e_conv kv.2 = conv) (x_entries x))).

Definition recv_last (conv node : string) (x : mailbox) : Z :=
  default 0 (sql_max (e_seq <$> (map_to_list (filter
    (λ kv, e_conv kv.2 = conv ∧ e_dir kv.2 = In ∧ e_sender kv.2 = node) (x_entries x))).*2)).
Definition unread (conv : string) (x : mailbox) : Z :=
  Z.of_nat (size (filter (λ kv, e_conv kv.2 = conv ∧ e_dir kv.2 = In ∧
    default 0 (x_read x !! conv) < e_ts kv.2) (x_entries x))).
Definition total_unread (x : mailbox) : Z :=
  sql_sum ((λ c, unread c x) <$> elements (dom (x_chats x))).
End Mail.

(** ** Calls and their answers

    Every call of the store's interface, and what it returns; the order of
    the rooms and of the outstanding acks is the database's own. *)
Inductive call :=
| Do (o : op)
| Reopen (rng : nat)
| Cursor (peer : string)
| Rooms
| Members (conv : string)
| IsRoom (conv : string)
| IsConversationMuted (conv : string)
| IsMuted (node : string)
| BlockedScreen (node : string)
| Pending
| Messages (conv : string)
| RecvLast (conv node : string)
| Unread (conv : string)
| TotalUnread
| DeliveryProgress (mid : string)
| DeliveryMembers (mid : string)
| IsDelivered (mid : string)
| Undelivered (mid : string).

Inductive answer :=
| Done
| ABool (b : bool)
| AFlag (o : option bool)
| AInt (z : Z)
| APair (z : Z * Z)
| AText (o : option string)
| AJson (j : json)
| ARequest (o : option json)
| ARequests (l : list json)
| AMessages (l : list message)
| ANames (X : gset string)
| AKeys (X : gset (string * Z)).

Definition call_ok (c : call) : Prop := match c with Do o => op_ok o | _ => True end.

Definition returning {S A} (f : A → answer) (m : M S A) : M S answer := a ← m; mret (f a).
Definition nothing : unit → answer := λ _, Done.

(** What a sequence of calls returns, exceptions included. *)
Fixpoint answers {S C} (f : C → M S answer) (cs : list C) (s : S) : list (result answer) :=
  match cs with [] => [] | c :: cs => let '(r, s) := f c s in r :: answers f cs s end.

Section Perform.
Context `{N : NaCl} `{J : JsonCodec}.

Definition write (o : op) : ST answer :=
  match o with
  | OSetCursor peer seq => returning nothing (set_cursor peer seq)
  | OEnsureRoom conv members => returning nothing (ensure_room conv members)
  | ODeleteRoom conv points => returning nothing (delete_room conv points)
  | OClearHistory conv => returning nothing (clear_history conv)
  | OIngest conv sender seq ts text att => returning ABool (ingest conv sender seq ts text att)
  | OAddSent conv seqs ts text att keys => returning ABool (add_sent conv seqs ts text att keys)
  | OMarkDelivered node seq => returning AText (mark_delivered node seq)
  | OMarkRead conv => returning nothing (mark_read conv)
  | OMuteConversation conv => returning nothing (mute_conversation conv)
  | OUnmuteConversation conv => returning nothing (unmute_conversation conv)
  | OMute node => returning nothing (mute node)
  | OUnmute node => returning nothing (unmute node)
  | OSetBlockedScreen node screen => returning nothing (set_blocked_screen node screen)
  | OClearBlockedScreen node => returning nothing (clear_blocked_screen node)
  | OAddPending req => returning nothing (add_pending req)
  | OPendingPop => returning ARequest pending_pop
  end.

(** Closing the store, which drops what is not committed, and opening its file
    again. *)
Definition reopen (passphrase : string) (rng : nat) : ST unit := λ s,
  match open_store (s_saved s) rng passphrase with
  | Ok s' => (Ok tt, s')
  | Raise e => (Raise e, s)
  end.

Definition perform (passphrase : string) (c : call) : ST answer :=
  match c with
  | Do o => write o
  | Reopen rng => returning nothing (reopen passphrase rng)
  | Cursor peer => returning AInt (cursor peer)
  | Rooms => returning (ANames ∘ list_to_set) rooms
  | Members conv => returning AJson (members conv)
  | IsRoom conv => returning ABool (is_room conv)
  | IsConversationMuted conv => returning ABool (is_conversation_muted conv)
  | IsMuted node => returning ABool (is_muted node)
  | BlockedScreen node => returning AText (blocked_screen node)
  | Pending => returning ARequests pending
  | Messages conv => returning AMessages (messages conv)
  | RecvLast conv node => returning AInt (recv_last conv node)
  | Unread conv => returning AInt (unread conv)
  | TotalUnread => returning AInt total_unread
  | DeliveryProgress mid => returning APair (delivery_progress mid)
  | DeliveryMembers mid => returning APair (delivery_members mid)
  | IsDelivered mid => returning AFlag (is_delivered mid)
  | Undelivered mid => returning (AKeys ∘ list_to_set) (undelivered mid)
  end.
End Perform.

Definition mail_write (o : op) : Mail.MB answer :=
  match o with
  | OSetCursor peer seq => returning nothing (Mail.set_cursor peer seq)
  | OEnsureRoom conv members => returning nothing (Mail.ensure_room conv members)
  | ODeleteRoom conv points => returning nothing (Mail.delete_room conv points)
  | OClearHistory conv => returning nothing (Mail.clear_history conv)
  | OIngest conv sender seq ts text att => returning ABool (Mail.ingest conv sender seq ts text att)
  | OAddSent conv seqs ts text att keys => returning ABool (Mail.add_sent conv seqs ts text att keys)
  | OMarkDelivered node seq => returning AText (Mail.mark_delivered node seq)
  | OMarkRead conv => returning nothing (Mail.mark_read conv)
  | OMuteConversation conv => returning nothing (Mail.mute_conversation conv)
  | OUnmuteConversation conv => returning nothing (Mail.unmute_conversation conv)
  | OMute node => returning nothing (Mail.mute node)
  | OUnmute node => returning nothing (Mail.unmute node)
  | OSetBlockedScreen node screen => returning nothing (Mail.set_blocked_screen node screen)
  | OClearBlockedScreen node => returning nothing (Mail.clear_blocked_screen node)
  | OAddPending req => returning nothing (Mail.add_pending req)
  | OPendingPop => returning ARequest Mail.pending_pop
  end.

Definition mail_perform (c : call) : Mail.MB answer :=
  match c with
  | Do o => mail_write o
  | Reopen _ => returning nothing Mail.go_back
  | Cursor peer => Mail.see (λ x, AInt (Mail.cursor peer x))
  | Rooms => Mail.see (λ x, ANames (Mail.rooms x))
  | Members conv => Mail.see (λ x, AJson (Mail.members conv x))
  | IsRoom conv => Mail.see (λ x, ABool (Mail.is_room conv x))
  | IsConversationMuted conv => Mail.see (λ x, ABool (Mail.is_conversation_muted conv x))
  | IsMuted node => Mail.see (λ x, ABool (bool_decide (node ∈ x_muted x)))
  | BlockedScreen node => Mail.see (λ x, AText (default None (x_blocked x !! node)))
  | Pending => Mail.see (λ x, ARequests (x_requests x).*2)
  | Messages conv => Mail.see (λ x, AMessages (Mail.messages conv x))
  | RecvLast conv node => Mail.see (λ x, AInt (Mail.recv_last conv node x))
  | Unread conv => Mail.see (λ x, AInt (Mail.unread conv x))
  | TotalUnread => Mail.see (λ x, AInt (Mail.total_unread x))
  | DeliveryProgress mid => Mail.see (λ x, APair (Mail.delivery_progress mid x))
  | DeliveryMembers mid => Mail.see (λ x, APair (Mail.delivery_members mid x))
  | IsDelivered mid => Mail.see (λ x, AFlag (Mail.is_delivered mid x))
  | Undelivered mid => Mail.see (λ x, AKeys (Mail.undelivered mid x))
  end.
