(* ===== verification/StoreRefine.v ===== *)
(** * The store implements the mailbox

    A relation between a store and a mailbox, kept by every operation with
    its specification, and under which every reader gives the specified
    answer; from there, the equality of what any sequence of calls returns;
    every reachable store holds a mailbox, and a message sent that is later
    than the others comes last in its conversation. *)

From S2P Require Import Prelude PyStr Codec Json Sys Crypto Store StoreProps StoreSpec.
Local Open Scope Z_scope.

(** ** Tables and finite maps *)

(** A table with distinct keys, and the map of what its rows stand for. *)
Definition rep {K V V'} `{Countable K} (P : V → V' → Prop) (t : list (K * V)) (m : gmap K V') : Prop :=
  dict_wf t ∧ ∀ k, option_Forall2 P (dict_get k t) (m !! k).

(** A table of keys alone, and the set of them. *)
Definition rep_set {K V} `{Countable K} (t : list (K * V)) (X : gset K) : Prop :=
  dict_wf t ∧ ∀ k, k ∈ t.*1 ↔ k ∈ X.

Section Rep.
Context {K V V' : Type} `{Countable K} (P : V → V' → Prop).
Implicit Types (t : list (K * V)) (m : gmap K V').

Lemma rep_nil : rep (K:=K) P [] ∅.
Proof. split; [constructor|]. intros k. rewrite lookup_empty. constructor. Qed.

Lemma rep_mem t m k : rep P t m → dict_mem k t = bool_decide (is_Some (m !! k)).
Proof.
  intros [_ Hr]. unfold dict_mem. destruct (Hr k) as [a b _|];
    [by rewrite bool_decide_eq_true_2|rewrite bool_decide_eq_false_2; [done|by intros []]].
Qed.

Lemma rep_insert_or_ignore t m k v v' :
  rep P t m → P v v' → rep P (insert_or_ignore k v t).1 (Mail.add_new k v' m).
Proof.
  intros Hr Hv. pose proof (rep_mem t m k Hr) as Hk. destruct Hr as [Hwf Hr].
  unfold insert_or_ignore, Mail.add_new. rewrite Hk. destruct (m !! k) as [w|] eqn:Hm; cbn; [done|].
  split.
  - apply (table_snoc (λ _ _, True)); [|split; [done|by apply Forall_true]|done].
    apply dict_get_None. specialize (Hr k). rewrite Hm in Hr. by inversion Hr.
  - intros k'. rewrite dict_get_snoc. specialize (Hr k'). destruct (decide (k' = k)) as [->|Hne].
    + rewrite lookup_insert_eq. rewrite Hm in Hr. inversion Hr. by constructor.
    + rewrite lookup_insert_ne by done. by destruct (dict_get k' t).
Qed.

Lemma rep_upsert t m k v v' f g :
  rep P t m → P v v' → (∀ a a', P a a' → P (f a) (g a')) →
  rep P (upsert k v f t) (<[k := from_option g v' (m !! k)]> m).
Proof.
  intros [Hwf Hr] Hv Hf. split.
  - apply (table_upsert (λ _ _, True)); [split; [done|by apply Forall_true]|done..].
  - intros k'. rewrite dict_get_upsert. case_decide as Hk; [subst|by rewrite lookup_insert_ne].
    rewrite lookup_insert_eq. constructor. destruct (Hr k); cbn; auto.
Qed.

Lemma rep_update t m k f g :
  rep P t m → (∀ a a', P a a' → P (f a) (g a')) → rep P (update_key k f t) (alter g k m).
Proof.
  intros [Hwf Hr] Hf. split; [unfold dict_wf; by rewrite update_key_keys|].
  intros k'. rewrite dict_get_update. case_decide as Hk; [subst|by rewrite lookup_alter_ne].
  rewrite lookup_alter_eq. destruct (Hr k); cbn; constructor; auto.
Qed.

Lemma dict_get_filter (p : K * V → bool) t k :
  dict_wf t → dict_get k (List.filter p t) = (v ← dict_get k t; if p (k, v) then Some v else None).
Proof.
  unfold dict_wf. induction t as [|[k' v] t IH]; cbn; [done|]. intros [Hk Hwf]%NoDup_cons.
  specialize (IH Hwf). destruct (p (k', v)) eqn:Hp; cbn.
  - case_decide; [subst; cbn; by rewrite Hp|exact IH].
  - case_decide; [subst|exact IH]. cbn. rewrite Hp, IH.
    by replace (dict_get k' t) with (@None V) by (symmetry; by apply dict_get_None).
Qed.

Lemma rep_filter p (Q : K * V' → Prop) `{∀ x, Decision (Q x)} t m :
  rep P t m → (∀ k v v', dict_get k t = Some v → P v v' → p (k, v) = bool_decide (Q (k, v'))) →
  rep P (List.filter p t) (filter Q m).
Proof.
  intros [Hwf Hr] Hp. split; [eapply sublist_NoDup; [exact Hwf|apply filter_keys_sublist]|].
  intros k. rewrite dict_get_filter by done. specialize (Hr k).
  destruct (dict_get k t) as [v|] eqn:Hk; inversion Hr as [? v' Hv Hv'|Hv']; cbn.
  - rewrite (Hp k v v') by done. case_bool_decide.
    + rewrite map_lookup_filter_Some_2 with (x := v'); [by constructor|done|done].
    + rewrite map_lookup_filter_None_2; [constructor|]. right. intros ? ?. congruence.
  - rewrite map_lookup_filter_None_2; [constructor|by left].
Qed.

Lemma rep_delete t m k : rep P t m → rep P (delete_where (λ r, bool_decide (r.1 = k)) t) (delete k m).
Proof.
  intros Hr. unfold delete_where. split; [eapply sublist_NoDup; [apply Hr|apply filter_keys_sublist]|].
  intros k'. rewrite dict_get_filter by apply Hr. destruct Hr as [_ Hr]. specialize (Hr k'). cbn.
  destruct (decide (k' = k)) as [->|Hne].
  - rewrite lookup_delete_eq, bool_decide_eq_true_2 by done. destruct (dict_get k t); constructor.
  - rewrite lookup_delete_ne, bool_decide_eq_false_2 by done. by destruct (dict_get k' t).
Qed.

(** The rows of a table are those of its map, in some order. *)
Lemma rep_list t m :
  rep P t m → ∃ l, l ≡ₚ map_to_list m ∧ Forall2 (λ a b, a.1 = b.1 ∧ P a.2 b.2) t l.
Proof.
  revert m. induction t as [|[k v] t IH]; intros m [Hwf Hr].
  - exists []. split; [|constructor].
    replace m with (∅ : gmap K V'); [by rewrite map_to_list_empty|].
    apply map_eq. intros k. specialize (Hr k). cbn in Hr. inversion Hr. by rewrite lookup_empty.
  - pose proof (Hr k) as Hk. cbn in Hk. rewrite decide_True in Hk by done.
    inversion Hk as [? v' Hv Hv'|]; subst. unfold dict_wf in Hwf. cbn in Hwf.
    apply NoDup_cons in Hwf as [Hn Hwf]. destruct (IH (delete k m)) as (l&Hl&HF).
    { split; [done|]. intros k'. specialize (Hr k'). cbn in Hr.
      destruct (decide (k' = k)) as [->|Hne]; [|by rewrite lookup_delete_ne].
      rewrite lookup_delete_eq. replace (dict_get k t) with (@None V); [constructor|].
      symmetry. by apply dict_get_None. }
    exists ((k, v') :: l). split; [|by constructor].
    rewrite Hl. by apply map_to_list_delete.
Qed.

Lemma rep_size t m : rep P t m → length t = size m.
Proof.
  intros (l&Hl&HF)%rep_list. rewrite (Forall2_length _ _ _ HF), Hl. apply length_map_to_list.
Qed.

(** A number computed from rows, summed, is computed from the map. *)
Lemma rep_values {B} (f : V → B) (g : V' → B) t m :
  rep P t m → (∀ v v', P v v' → f v = g v') → (λ r, f r.2) <$> t ≡ₚ g <$> (map_to_list m).*2.
Proof.
  intros (l&Hl&HF)%rep_list Hfg. rewrite <-Hl. clear Hl m.
  induction HF as [|[k v] [k' v'] t l [_ Hv] _ IH]; [done|]. cbn in *. by rewrite (Hfg v v'), IH.
Qed.

Lemma rep_elem t m k : rep P t m → k ∈ t.*1 ↔ k ∈ dom m.
Proof.
  intros Hr. rewrite <-dict_mem_true, (rep_mem _ _ _ Hr), bool_decide_eq_true. symmetry. apply elem_of_dom.
Qed.

Lemma rep_keys t m : rep P t m → t.*1 ≡ₚ elements (dom m).
Proof.
  intros Hr. apply NoDup_Permutation; [apply Hr|apply NoDup_elements|]. intros k.
  rewrite elem_of_elements. by apply rep_elem.
Qed.
End Rep.

Section RepSet.
Context {K V : Type} `{Countable K}.
Implicit Types (t : list (K * V)) (X : gset K).

Lemma rep_set_add t X k v :
  rep_set t X → rep_set (insert_or_ignore k v t).1 ({[k]} ∪ X).
Proof.
  intros [Hwf HX]. unfold insert_or_ignore. destruct (dict_mem k t) eqn:Hk; cbn.
  - apply dict_mem_true in Hk. split; [done|]. intros k'. rewrite HX in *. set_solver.
  - split; [|intros k'; rewrite fmap_app; set_solver].
    apply (table_snoc (λ _ _, True)); [by apply dict_mem_false|split; [done|by apply Forall_true]|done].
Qed.

Lemma rep_set_remove t X k :
  rep_set t X → rep_set (delete_where (λ r, bool_decide (r.1 = k)) t) (X ∖ {[k]}).
Proof.
  intros [Hwf HX]. split; [eapply sublist_NoDup; [exact Hwf|apply filter_keys_sublist]|].
  intros k'. rewrite elem_of_difference, elem_of_singleton, <-HX, !list_elem_of_fmap. split.
  - intros (r&->&[Hr Hk]%list_filter_elem). apply negb_true_iff, bool_decide_eq_false in Hk. eauto.
  - intros [(r&->&Hr) Hk]. exists r. split; [done|]. apply list_filter_elem. split; [done|].
    by apply negb_true_iff, bool_decide_eq_false.
Qed.
End RepSet.

Lemma rep_eq_get {K V} `{Countable K} (t : list (K * V)) (m : gmap K V) k :
  rep eq t m → dict_get k t = m !! k.
Proof. intros [_ Hr]. destruct (Hr k) as [a b Hab|]; [by rewrite Hab|done]. Qed.

(** ** Two programs in step

    [sim R Q m m']: started in related states, both return related values or
    both raise the same exception, and end in related states. *)
Definition sim {S S' A A'} (R : S → S' → Prop) (Q : A → A' → Prop) (m : M S A) (m' : M S' A') : Prop :=
  ∀ s s', R s s' → R (m s).2 (m' s').2 ∧
    match (m s).1, (m' s').1 with
    | Ok a, Ok a' => Q a a'
    | Raise e, Raise e' => e = e'
    | _, _ => False
    end.

Section Sim.
Context {S S' : Type} (R : S → S' → Prop).

Lemma sim_bind {A A' B B'} (Q : A → A' → Prop) (Q' : B → B' → Prop) m m' f f' :
  sim R Q m m' → (∀ a a', Q a a' → sim R Q' (f a) (f' a')) → sim R Q' (m ≫= f) (m' ≫= f').
Proof.
  intros Hm Hf s s' Hs. destruct (Hm s s' Hs) as [Hs1 HQ]. unfold mbind, M_bind.
  destruct (m s) as [[a|e] s1], (m' s') as [[a'|e'] s1']; cbn in *; try done. by apply Hf.
Qed.

(** A step of the first program alone. *)
Lemma sim_left {A B B'} (Q : A → Prop) (Q' : B → B' → Prop) (m : M S A) f (m' : M S' B') :
  (∀ s s', R s s' → ∃ a s1, m s = (Ok a, s1) ∧ R s1 s' ∧ Q a) →
  (∀ a, Q a → sim R Q' (f a) m') → sim R Q' (m ≫= f) m'.
Proof.
  intros Hm Hf s s' Hs. destruct (Hm s s' Hs) as (a&s1&E&Hs1&Ha).
  rewrite (M_bind_run _ _ _ _ _ E). by apply Hf.
Qed.

Lemma sim_ret {A A'} (Q : A → A' → Prop) a a' : Q a a' → sim R Q (mret a) (mret a').
Proof. by intros HQ s s' Hs. Qed.

Lemma sim_lift {A} (m : result A) : sim R eq (lift m) (lift m).
Proof. intros s s' Hs. split; [done|]. by destruct m. Qed.

Lemma sim_modify f f' : (∀ s s', R s s' → R (f s) (f' s')) → sim R eq (modify f) (modify f').
Proof. intros Hf s s' Hs. split; [by apply Hf|done]. Qed.

Lemma sim_gets {A A'} (Q : A → A' → Prop) f f' :
  (∀ s s', R s s' → Q (f s) (f' s')) → sim R Q (gets f) (gets f').
Proof. intros Hf s s' Hs. split; [done|by apply Hf]. Qed.

Lemma sim_if {A A'} (Q : A → A' → Prop) (b : bool) m1 m2 m1' m2' :
  sim R Q m1 m1' → sim R Q m2 m2' → sim R Q (if b then m1 else m2) (if b then m1' else m2').
Proof. by destruct b. Qed.

Lemma sim_for_each {A} (f : A → M S unit) (f' : A → M S' unit) l :
  (∀ a, sim R eq (f a) (f' a)) → sim R eq (for_each f l) (for_each f' l).
Proof.
  intros Hf. induction l as [|a l IH]; cbn; [by apply sim_ret|].
  eapply sim_bind; [apply Hf|]. by intros [] [] _.
Qed.

Lemma sim_map_m {A B} (f : A → M S B) (f' : A → M S' B) l :
  Forall (λ a, sim R eq (f a) (f' a)) l → sim R eq (map_m f l) (map_m f' l).
Proof.
  induction 1 as [|a l Ha _ IH]; cbn; [by apply sim_ret|].
  eapply sim_bind; [exact Ha|]. intros b ? <-.
  eapply sim_bind; [exact IH|]. intros bs ? <-. by apply sim_ret.
Qed.

Lemma sim_weaken {A A'} (Q Q' : A → A' → Prop) m m' :
  sim R Q m m' → (∀ a a', Q a a' → Q' a a') → sim R Q' m m'.
Proof.
  intros Hm HQ s s' Hs. destruct (Hm s s' Hs) as [Hs1 Ha]. split; [done|].
  destruct (m s).1, (m' s').1; auto.
Qed.
End Sim.

(** ** A store and the mailbox it holds *)

Section Refine.
Context `{N : NaCl} {NL : NaClLaws N} `{J : JsonCodec} {JL : JsonLaws J}.
Context (passphrase : string) (salt : bytes).
Let key : bytes := kdf_key passphrase salt.

Lemma key_length : length key = 32%nat.
Proof. apply scrypt_length. Qed.

Definition roster_rep (b : option bytes) (j : json) : Prop :=
  match b with Some b => loads_blob key (Some b) = Ok j | None => j = JObj [] end.
Definition chat_rep (r : conv_row) (c : chat) : Prop :=
  (c_dm r = 0 ∨ c_dm r = 1) ∧ roster_rep (c_members r) (h_roster c) ∧
  h_room c = (c_dm r =? 0) ∧ h_muted c = negb (c_muted r =? 0) ∧ h_hidden c = negb (c_hidden r =? 0).
Definition att_rep (b : option bytes) (o : option json) : Prop :=
  match b with Some b => ∃ j, o = Some j ∧ loads_blob key (Some b) = Ok j | None => o = None end.
Definition entry_rep (r : msg_row) (e : entry) : Prop :=
  m_conv r = e_conv e ∧ m_sender r = e_sender e ∧ m_dir r = e_dir e ∧ m_ts r = e_ts e ∧
  m_seq r = e_seq e ∧ json_loads (m_seqs r) = Ok (e_seqs e) ∧
  dec_blob key (m_text r) = Ok (e_text e) ∧ att_rep (m_att r) (e_att e).
Definition ack_rep (r : delivery) (a : string * bool) : Prop :=
  (d_acked r = 0 ∨ d_acked r = 1) ∧ a = (d_msg r, d_acked r =? 1).
Definition request_rep (r : option string * bytes) (q : option string * json) : Prop :=
  r.1 = q.1 ∧ loads_blob key (Some r.2) = Ok q.2.

Record db_rep (d : db) (x : mailbox) : Prop := DbRep {
  rp_salt : meta_salt d = Some (b64encode salt);
  rp_chats : rep chat_rep (conversations d) (x_chats x);
  rp_entries : rep entry_rep (messages_t d) (x_entries x);
  rp_cursors : rep eq (watermark d) (x_cursors x);
  rp_read : rep eq (read_marks d) (x_read x);
  rp_requests : Forall2 request_rep (pending_t d) (x_requests x);
  rp_blocked : rep (λ b o, dec_blob key b = Ok o) (blocked_screens d) (x_blocked x);
  rp_muted : rep_set (muted_nodes d) (x_muted x);
  rp_acks : rep ack_rep (deliveries d) (x_acks x);
}.
(** What the store reads, and what its file holds. *)
Definition holds (s : store) (o : post) : Prop :=
  s_key s = key ∧ db_rep (s_db s) (o_now o) ∧ db_rep (s_saved s) (o_saved o).

(** *** Steps on the tables *)

Ltac rep_tac := intros [? ? ? ? ? ? ? ? ?]; split; cbn; auto.

Lemma rep_set_conversations d x t t' :
  rep chat_rep t t' → db_rep d x → db_rep (set_conversations t d) (put_chats t' x).
Proof. intros ?. rep_tac. Qed.
Lemma rep_set_messages d x t t' :
  rep entry_rep t t' → db_rep d x → db_rep (set_messages t d) (put_entries t' x).
Proof. intros ?. rep_tac. Qed.
Lemma rep_set_watermark d x t t' :
  rep eq t t' → db_rep d x → db_rep (set_watermark t d) (put_cursors t' x).
Proof. intros ?. rep_tac. Qed.
Lemma rep_set_read d x t t' :
  rep eq t t' → db_rep d x → db_rep (set_read_marks t d) (put_read t' x).
Proof. intros ?. rep_tac. Qed.
Lemma rep_set_requests d x t t' :
  Forall2 request_rep t t' → db_rep d x → db_rep (set_pending t d) (put_requests t' x).
Proof. intros ?. rep_tac. Qed.
Lemma rep_set_blocked d x t t' :
  rep (λ b o, dec_blob key b = Ok o) t t' → db_rep d x → db_rep (set_blocked t d) (put_blocked t' x).
Proof. intros ?. rep_tac. Qed.
Lemma rep_set_muted d x t X :
  rep_set t X → db_rep d x → db_rep (set_muted t d) (put_muted X x).
Proof. intros ?. rep_tac. Qed.
Lemma rep_set_acks d x t t' :
  rep ack_rep t t' → db_rep d x → db_rep (set_deliveries t d) (put_acks t' x).
Proof. intros ?. rep_tac. Qed.

Lemma sim_on_db (f : db → db) (g : mailbox → mailbox) :
  (∀ d x, db_rep d x → db_rep (f d) (g x)) → sim holds eq (on_db f) (Mail.change g).
Proof. intros Hf. apply sim_modify. intros s o (Hk&Hd&Hs). split_and!; [done|by apply Hf|done]. Qed.

Lemma sim_transact (f : db → db) (g : mailbox → mailbox) :
  (∀ d x, db_rep d x → db_rep (f d) (g x)) → sim holds eq (transact f) (Mail.save g).
Proof. intros Hf. apply sim_modify. intros s o (Hk&Hd&Hs). split_and!; [done|by apply Hf..]. Qed.

Lemma sim_commit : sim holds eq commit Mail.settle.
Proof. apply sim_modify. by intros s o (Hk&Hd&Hs). Qed.

(** A call that ends with [commit]. *)
Lemma sim_committed {A A'} (Q : A → A' → Prop) a a' :
  Q a a' → sim holds Q (_ ← commit; mret a) (_ ← Mail.settle; mret a').
Proof. intros Ha. eapply sim_bind; [apply sim_commit|intros _ _ _; by apply sim_ret]. Qed.

Lemma sim_query {A A'} (Q : A → A' → Prop) (f : db → A) (g : mailbox → A') :
  (∀ d x, db_rep d x → Q (f d) (g x)) → sim holds Q (query f) (Mail.see g).
Proof. intros Hf. apply sim_gets. intros s o (_&Hd&_). by apply Hf. Qed.

Lemma sim_enc {B B'} (Q : B → B' → Prop) o f (m' : M post B') :
  opt_str o → (∀ b, dec_blob key b = Ok o → sim holds Q (f b) m') → sim holds Q (_enc o ≫= f) m'.
Proof.
  intros Ho Hf. apply (sim_left _ (λ b, dec_blob key b = Ok o)); [|exact Hf].
  intros s x (Hk&Hd&Hs). unfold _enc. destruct o as [t|]; cbn.
  - do 2 eexists. split; [done|]. split; [by split_and!|]. rewrite Hk. apply (dec_enc key key_length). by apply Ho.
  - by eexists None, s.
Qed.

Lemma sim_enc_json {B B'} (Q : B → B' → Prop) j f (m' : M post B') :
  json_wf j → (∀ b, loads_blob key (Some b) = Ok j → sim holds Q (f (Some b)) m') →
  sim holds Q (_enc (Some (json_dumps j)) ≫= f) m'.
Proof.
  intros Hj Hf. apply (sim_left _ (λ b, ∃ b', b = Some b' ∧ loads_blob key (Some b') = Ok j)).
  - intros s x (Hk&Hd&Hs). do 2 eexists. split; [done|]. split; [by split_and!|]. eexists. split; [done|].
    unfold loads_blob. rewrite Hk, (dec_enc key key_length) by apply dumps_is_str. cbn. by apply loads_dumps.
  - intros b (b'&->&Hb). by apply Hf.
Qed.

Lemma sim_enc_attachment {B B'} (Q : B → B' → Prop) a f (m' : M post B') :
  opt_json a → (∀ b, att_rep b (Mail.meaningful a) → sim holds Q (f b) m') →
  sim holds Q (enc_attachment a ≫= f) m'.
Proof.
  intros Ha Hf. unfold enc_attachment, Mail.meaningful in *. destruct a as [j|]; [destruct (truthy j)|].
  - apply sim_enc_json; [by apply Ha|]. intros b Hb. apply Hf. by exists j.
  - intros s x Hs. by apply (Hf None).
  - intros s x Hs. by apply (Hf None).
Qed.
(** *** The operations *)

Lemma sim_set_cursor peer seq : sim holds eq (set_cursor peer seq) (Mail.set_cursor peer seq).
Proof.
  eapply sim_bind; [apply sim_lift|]. intros z ? <-. apply sim_transact. intros d x Hd.
  apply rep_set_watermark; [|done]. apply rep_upsert; [by apply rp_cursors|done|]. by intros a ? <-.
Qed.

Lemma sim_ensure_conv conv dm :
  sim holds eq (_ensure_conv conv dm) (Mail.ensure_conv conv dm).
Proof.
  apply sim_enc; [by intros t [= <-]|]. intros b Hb. apply sim_on_db. intros d x Hd.
  apply rep_set_conversations; [|done]. apply rep_insert_or_ignore; [by apply rp_chats|].
  split_and!; cbn; [destruct dm; auto| |by destruct dm|done|done].
  destruct b as [b|]; [|done]. cbn. unfold loads_blob. rewrite Hb. apply loads_empty.
Qed.

Lemma sim_ensure_room conv mem :
  json_wf mem → sim holds eq (ensure_room conv mem) (Mail.ensure_room conv mem).
Proof.
  intros Hmem. apply sim_enc_json; [done|]. intros b Hb. apply sim_transact. intros d x Hd.
  apply rep_set_conversations; [|done].
  replace (Chat true mem (from_option h_muted false (x_chats x !! conv)) false)
    with (from_option (λ c, Chat true mem (h_muted c) false) (Chat true mem false false) (x_chats x !! conv))
    by (by destruct (x_chats x !! conv)).
  apply rep_upsert; [by apply rp_chats|split_and!; cbn; auto|].
  intros r c (_&_&_&Hm&_). split_and!; cbn; auto.
Qed.

(** A change of flags. *)
Lemma rep_chat_flags d x conv f g :
  (∀ r c, chat_rep r c → chat_rep (f r) (g c)) → db_rep d x →
  db_rep (set_conversations (update_key conv f (conversations d)) d)
    (put_chats (alter g conv (x_chats x)) x).
Proof.
  intros Hf Hd. apply rep_set_conversations; [|done]. apply rep_update; [by apply rp_chats|done].
Qed.

Lemma rep_forget conv d x : db_rep d x → db_rep (delete_conv_rows conv d) (Mail.forget conv x).
Proof.
  intros Hd. apply rep_set_read; [apply rep_delete, (rp_read _ _ Hd)|].
  apply rep_set_messages; [|done]. apply rep_filter; [by apply rp_entries|].
  intros k r e _ (Hc&_). cbn. rewrite Hc. by repeat case_bool_decide.
Qed.

Lemma sim_clear_history conv : sim holds eq (clear_history conv) (Mail.clear_history conv).
Proof. apply sim_transact. intros d x. apply rep_forget. Qed.

Lemma sim_delete_room conv points :
  sim holds eq (delete_room conv points) (Mail.delete_room conv points).
Proof.
  eapply sim_bind.
  - apply sim_transact. intros d x Hd. apply rep_chat_flags; [|by apply rep_forget].
    intros r c (?&?&?&?&?). split_and!; cbn; auto.
  - intros _ _ _. apply sim_for_each. intros [node latest]. apply sim_if; [by apply sim_ret|].
    apply sim_set_cursor.
Qed.

(** Adding a message, its id being new or not. *)
Lemma sim_add_message {B B'} (Q : B → B' → Prop) mid r e f f' :
  entry_rep r e → (∀ new, sim holds Q (f new) (f' new)) →
  sim holds Q
    (new ← query (λ d, (insert_or_ignore mid r (messages_t d)).2);
     _ ← on_db (λ d, set_messages (insert_or_ignore mid r (messages_t d)).1 d); f new)
    (new ← Mail.see (λ x, negb (bool_decide (is_Some (x_entries x !! mid))));
     _ ← Mail.change (λ x, put_entries (Mail.add_new mid e (x_entries x)) x); f' new).
Proof.
  intros He Hf. eapply (sim_bind _ eq).
  - apply sim_query. intros d x Hd. by rewrite insert_or_ignore_snd, (rep_mem _ _ _ mid (rp_entries _ _ Hd)).
  - intros new ? <-. eapply sim_bind; [|intros _ _ _; apply Hf].
    apply sim_on_db. intros d x Hd. apply rep_set_messages; [|done].
    apply rep_insert_or_ignore; [by apply rp_entries|done].
Qed.

Lemma sim_ingest conv sender seq ts text att :
  is_str sender → opt_str text → opt_json att →
  sim holds eq (ingest conv sender seq ts text att) (Mail.ingest conv sender seq ts text att).
Proof.
  intros Hs Ht Ha. eapply sim_bind; [apply sim_ensure_conv|intros _ _ _].
  apply sim_enc; [done|intros t Htb]. apply sim_enc_attachment; [done|intros a Hab].
  eapply sim_bind; [apply sim_lift|intros ts' ? <-].
  eapply sim_bind; [apply sim_lift|intros seq' ? <-].
  apply sim_add_message.
  - split_and!; try done. cbn. apply loads_dumps. json_wf_tac.
  - intros new. eapply (sim_bind _ eq); [|intros _ _ _; by apply sim_committed].
    apply sim_if; [|by apply sim_ret]. apply sim_on_db. intros d x. apply rep_chat_flags.
    intros r c (?&?&?&?&?). split_and!; cbn; auto.
Qed.

Lemma sim_add_sent conv seqs ts text att keys :
  dict_wf seqs → Forall (λ ns, is_str ns.1) seqs → opt_str text → opt_json att →
  sim holds eq (add_sent conv seqs ts text att keys) (Mail.add_sent conv seqs ts text att keys).
Proof.
  intros Hwf Hs Ht Ha. eapply sim_bind; [apply sim_ensure_conv|intros _ _ _].
  apply sim_enc; [done|intros t Htb]. apply sim_enc_attachment; [done|intros a Hab].
  eapply sim_bind; [apply sim_lift|intros ts' ? <-].
  apply sim_add_message.
  - split_and!; try done. cbn. by apply loads_dumps, seqs_json_wf.
  - intros new. eapply (sim_bind _ eq); [|intros _ _ _; by apply sim_committed].
    apply sim_for_each. intros k. eapply sim_bind; [apply sim_lift|intros z ? _].
    apply sim_on_db. intros d x Hd. apply rep_set_acks; [|done].
    apply rep_insert_or_ignore; [by apply rp_acks|]. split; [by left|done].
Qed.

Lemma sim_mark_delivered node seq :
  sim holds eq (mark_delivered node seq) (Mail.mark_delivered node seq).
Proof.
  eapply sim_bind; [apply sim_lift|intros z ? <-]. clear seq.
  eapply (sim_bind _ (option_Forall2 ack_rep)).
  { apply sim_query. intros d x Hd. apply (rp_acks _ _ Hd). }
  intros o o' [r a [Hr ->]|]; [|by apply sim_ret]. cbn.
  eapply (sim_bind _ eq); [|intros _ _ _; by apply sim_ret].
  destruct Hr as [->| ->]; cbn; [|by apply sim_ret].
  apply sim_transact. intros d x Hd. apply rep_set_acks; [|done].
  apply rep_update; [by apply rp_acks|]. intros r' a [_ ->]. split; [by right|done].
Qed.

(** The rows selected by a condition stand for the entries it selects. *)
Lemma rep_rows p (Q : string * entry → Prop) `{∀ x, Decision (Q x)} d x :
  (∀ k r e, entry_rep r e → p (k, r) = bool_decide (Q (k, e))) → db_rep d x →
  rep entry_rep (List.filter p (messages_t d)) (filter Q (x_entries x)).
Proof. intros Hp Hd. apply rep_filter; [by apply rp_entries|]. intros k r e _. apply Hp. Qed.

Lemma sql_max_perm l1 l2 : l1 ≡ₚ l2 → sql_max l1 = sql_max l2.
Proof.
  unfold sql_max. induction 1 as [|x l1 l2 _ IH|x y l|l1 l2 l3 _ IH1 _ IH2]; cbn; [done|..].
  - by rewrite IH.
  - f_equal. destruct (foldr _ None l); lia.
  - by rewrite IH1.
Qed.

Lemma sql_sum_perm l1 l2 : l1 ≡ₚ l2 → sql_sum l1 = sql_sum l2.
Proof. unfold sql_sum. induction 1; cbn; lia. Qed.

Lemma rep_newest conv d x :
  db_rep d x →
  default 0 (sql_max ((λ r, m_ts r.2) <$> List.filter (λ r, bool_decide (m_conv r.2 = conv)) (messages_t d)))
    = Mail.newest conv x.
Proof.
  intros Hd. unfold Mail.newest. f_equal. apply sql_max_perm.
  apply (rep_values entry_rep m_ts e_ts); [|by intros r e (?&?&?&?&?)].
  apply rep_rows; [|done]. intros k r e (Hc&_). cbn. by rewrite Hc.
Qed.

Lemma sim_mark_read conv : sim holds eq (mark_read conv) (Mail.mark_read conv).
Proof.
  eapply (sim_bind _ eq); [apply sim_query, rep_newest|]. intros upto ? <-.
  apply sim_transact. intros d x Hd. apply rep_set_read; [|done].
  apply rep_upsert; [by apply rp_read|done|]. by intros a ? <-.
Qed.

Lemma sim_set_muted_flag conv b :
  sim holds eq (set_conv_muted conv (Z.b2z b))
    (Mail.save (λ x, put_chats (alter (Mail.silence b) conv (x_chats x)) x)).
Proof.
  apply sim_transact. intros d x. apply rep_chat_flags.
  intros r c (?&?&?&?&?). destruct b; split_and!; cbn; auto.
Qed.

Lemma sim_mute_conversation conv :
  sim holds eq (mute_conversation conv) (Mail.mute_conversation conv).
Proof.
  eapply sim_bind; [apply sim_ensure_conv|intros _ _ _]. apply (sim_set_muted_flag conv true).
Qed.

Lemma sim_unmute_conversation conv :
  sim holds eq (unmute_conversation conv) (Mail.unmute_conversation conv).
Proof. apply (sim_set_muted_flag conv false). Qed.

Lemma sim_mute node : sim holds eq (mute node) (Mail.mute node).
Proof.
  apply sim_transact. intros d x Hd. apply rep_set_muted; [|done]. by apply rep_set_add, (rp_muted _ _ Hd).
Qed.

Lemma sim_unmute node : sim holds eq (unmute node) (Mail.unmute node).
Proof.
  apply sim_transact. intros d x Hd. apply rep_set_muted; [|done].
  by apply rep_set_remove, (rp_muted _ _ Hd).
Qed.

Lemma sim_set_blocked_screen node screen :
  opt_str screen →
  sim holds eq (set_blocked_screen node screen) (Mail.set_blocked_screen node screen).
Proof.
  intros Hs. apply sim_enc; [done|]. intros b Hb. apply sim_transact. intros d x Hd.
  apply rep_set_blocked; [|done].
  replace screen with (from_option (λ _, screen) screen (x_blocked x !! node))
    by (by destruct (x_blocked x !! node)).
  by apply rep_upsert; [apply rp_blocked|..].
Qed.

Lemma sim_clear_blocked_screen node :
  sim holds eq (clear_blocked_screen node) (Mail.clear_blocked_screen node).
Proof.
  apply sim_transact. intros d x Hd. apply rep_set_blocked; [|done]. by apply rep_delete, rp_blocked.
Qed.

Lemma requests_keys t l : Forall2 request_rep t l → t.*1 = l.*1.
Proof. induction 1 as [|r q t l [Hk _] _ IH]; cbn; [done|]. by rewrite Hk, IH. Qed.

Lemma sim_add_pending req :
  json_wf (JObj req) → sim holds eq (add_pending req) (Mail.add_pending req).
Proof.
  intros Hreq. unfold add_pending, enc_str. intros s x Hs.
  refine (sim_enc_json eq (JObj req) (λ o, b ← mret (default [] o); transact _) _ Hreq _ s x Hs).
  intros b Hb. clear s x Hs. apply sim_transact. intros d x Hd. pose proof (rp_requests _ _ Hd) as Hr.
  apply rep_set_requests; [|done]. destruct (pending_key req) as [n|];
    [|apply Forall2_app; [done|by repeat constructor]].
  rewrite <-(requests_keys _ _ Hr). unfold insert_or_ignore.
  destruct (dict_mem (Some n) (pending_t d)) eqn:E; cbn.
  - apply dict_mem_true in E. by rewrite decide_True.
  - apply dict_mem_false in E. rewrite decide_False by done.
    apply Forall2_app; [done|]. by repeat constructor.
Qed.

Lemma sim_pending_pop : sim holds eq pending_pop Mail.pending_pop.
Proof.
  eapply (sim_bind _ (option_Forall2 request_rep)).
  { apply sim_query. intros d x Hd. by destruct (rp_requests _ _ Hd); constructor. }
  intros o o' [[node b] [node' j] [Hn Hj]|]; [|by apply sim_ret]. cbn in Hn, Hj. subst node'.
  eapply sim_bind.
  - apply sim_transact. intros d x Hd. apply rep_set_requests; [|done].
    induction (rp_requests _ _ Hd) as [|[n1 b1] [n2 j2] t l [Hn Hj2] _ IH]; [constructor|].
    cbn in Hn. subst n2. unfold delete_where. cbn [List.filter fst].
    destruct node as [n|]; cbn; [|by constructor].
    destruct (decide (n1 = Some n)) as [->|Hne].
    + rewrite bool_decide_eq_true_2, bool_decide_eq_false_2 by naive_solver. exact IH.
    + rewrite bool_decide_eq_false_2, bool_decide_eq_true_2 by naive_solver. by constructor.
  - intros _ _ _. apply (sim_left _ (λ k, k = key)).
    + intros s x Hs. exists (s_key s), s. split_and!; [done..|apply Hs].
    + intros ? ->. rewrite Hj. by intros s x Hs.
Qed.

(** *** The readers *)

(** A reader that answers what the mailbox says. *)
Lemma sim_read {A} (f : A → answer) (m : ST A) (g : mailbox → answer) :
  (∀ s o, holds s o → ∃ a, m s = (Ok a, s) ∧ f a = g (o_now o)) →
  sim holds eq (returning f m) (Mail.see g).
Proof.
  intros Hm s x Hs. destruct (Hm s x Hs) as (a&Ha&Hfa). unfold returning.
  rewrite (M_bind_run _ _ _ _ _ Ha). by split.
Qed.

Lemma sim_read_query {A} (f : A → answer) (q : db → A) (g : mailbox → answer) :
  (∀ d x, db_rep d x → f (q d) = g x) → sim holds eq (returning f (query q)) (Mail.see g).
Proof. intros Hq. apply sim_read. intros s o (_&Hd&_). eexists. split; [done|]. by apply Hq. Qed.

Lemma rep_cursor peer d x : db_rep d x → cursor_of peer d = Mail.cursor peer x.
Proof.
  intros Hd. unfold cursor_of, Mail.cursor. by rewrite (rep_eq_get _ _ peer (rp_cursors _ _ Hd)).
Qed.

Lemma rep_rooms d x : db_rep d x → list_to_set (rooms_of d) = Mail.rooms x.
Proof.
  intros Hd. unfold rooms_of, Mail.rooms. apply set_eq. intros c. rewrite elem_of_list_to_set.
  apply (rep_elem chat_rep), rep_filter; [by apply rp_chats|].
  intros k r h _ (_&_&Hr&_&Hh). cbn.
  apply eq_true_iff_eq. by rewrite andb_true_iff, bool_decide_eq_true, Hr, Hh, negb_false_iff.
Qed.

Lemma rep_members conv s o :
  holds s o → members conv s = (Ok (Mail.members conv (o_now o)), s).
Proof.
  intros (Hk&Hd&_). unfold members, Mail.members.
  destruct (proj2 (rp_chats _ _ Hd) conv) as [r h (_&Hr&_)|]; cbn; [|done].
  unfold roster_rep in Hr. destruct (c_members r); [by rewrite Hk, Hr|by rewrite Hr].
Qed.

Lemma rep_is_room conv d x :
  db_rep d x → match dict_get conv (conversations d) with Some r => c_dm r =? 0 | None => false end
    = Mail.is_room conv x.
Proof.
  intros Hd. unfold Mail.is_room. by destruct (proj2 (rp_chats _ _ Hd) conv) as [r h (_&_&Hr&_)|].
Qed.

Lemma rep_is_conversation_muted conv d x :
  db_rep d x →
  match dict_get conv (conversations d) with Some r => negb (c_muted r =? 0) | None => false end
    = Mail.is_conversation_muted conv x.
Proof.
  intros Hd. unfold Mail.is_conversation_muted.
  by destruct (proj2 (rp_chats _ _ Hd) conv) as [r h (_&_&_&Hr&_)|].
Qed.

Lemma rep_blocked_screen node s o :
  holds s o → blocked_screen node s = (Ok (default None (x_blocked (o_now o) !! node)), s).
Proof.
  intros (Hk&Hd&_). unfold blocked_screen. rewrite Hk.
  by destruct (proj2 (rp_blocked _ _ Hd) node) as [b sc Hb|]; [rewrite Hb|].
Qed.

Lemma rep_pending s o : holds s o → pending s = (Ok (x_requests (o_now o)).*2, s).
Proof.
  intros (Hk&Hd&_). unfold pending, pending_of. rewrite Hk. f_equal.
  induction (rp_requests _ _ Hd) as [|r q t l [_ Hj] _ IH]; [done|]. cbn. rewrite Hj. cbn. by rewrite IH.
Qed.

Lemma rep_recv_last conv node d x :
  db_rep d x →
  default 0 (sql_max ((λ r, m_seq r.2) <$> List.filter (λ r,
    bool_decide (m_conv r.2 = conv ∧ m_dir r.2 = In ∧ m_sender r.2 = node)) (messages_t d)))
    = Mail.recv_last conv node x.
Proof.
  intros Hd. unfold Mail.recv_last. f_equal. apply sql_max_perm.
  apply (rep_values entry_rep m_seq e_seq); [|by intros r e (?&?&?&?&?&?)].
  apply rep_rows; [|done]. intros k r e (Hc&Hs&Hdir&_). cbn. by rewrite Hc, Hs, Hdir.
Qed.

Lemma rep_unread conv d x : db_rep d x → unread_of conv d = Mail.unread conv x.
Proof.
  intros Hd. unfold unread_of, Mail.unread. f_equal. apply (rep_size entry_rep).
  rewrite (rep_eq_get _ _ conv (rp_read _ _ Hd)).
  apply rep_rows; [|done]. intros k r e (Hc&_&Hdir&Hts&_). cbn. rewrite Hc, Hdir, Hts.
  apply eq_true_iff_eq. rewrite andb_true_iff, !bool_decide_eq_true, Z.ltb_lt. tauto.
Qed.

Lemma rep_total_unread d x : db_rep d x → total_unread_of d = Mail.total_unread x.
Proof.
  intros Hd. unfold total_unread_of, Mail.total_unread. apply sql_sum_perm.
  replace (List.filter _ (conversations d)) with (conversations d).
  - rewrite (rep_keys chat_rep _ _ (rp_chats _ _ Hd)).
    rewrite (list_fmap_ext (λ c, unread_of c d) (λ c, Mail.unread c x)); [done|].
    intros _ c _. by apply rep_unread.
  - destruct (rp_chats _ _ Hd) as [Hwf Hr]. symmetry. apply List.forallb_filter_id.
    apply List.forallb_forall. intros [k r] Hin%list_elem_of_In%(dict_elem_get _ _ _ Hwf). cbn.
    specialize (Hr k). rewrite Hin in Hr. inversion Hr as [? h [Hdm _]|]; subst.
    by destruct Hdm as [-> | ->].
Qed.

(** *** Delivery state *)

Lemma rep_acks_ok d x : db_rep d x → Forall (λ r, delivery_ok r.1 r.2) (deliveries d).
Proof.
  intros Hd. destruct (rp_acks _ _ Hd) as [Hwf Hr]. apply Forall_forall.
  intros [k r] Hin%(dict_elem_get _ _ _ Hwf). specialize (Hr k). rewrite Hin in Hr. cbn.
  by inversion Hr as [? a [Hz _]|].
Qed.

Lemma rep_ack_rows p (Q : (string * Z) * (string * bool) → Prop) `{∀ x, Decision (Q x)} d x :
  (∀ k r a, ack_rep r a → p (k, r) = bool_decide (Q (k, a))) → db_rep d x →
  rep ack_rep (List.filter p (deliveries d)) (filter Q (x_acks x)).
Proof. intros Hp Hd. apply rep_filter; [by apply rp_acks|]. intros k r e _. apply Hp. Qed.

(** The acks of a message, found in the mailbox. *)
Lemma acks_of_elem mid d x k z :
  db_rep d x → (k, z) ∈ acks_of mid d ↔ (z = 0 ∨ z = 1) ∧ x_acks x !! k = Some (mid, z =? 1).
Proof.
  intros Hd. destruct (rp_acks _ _ Hd) as [Hwf Hr]. specialize (Hr k).
  unfold acks_of. rewrite list_elem_of_fmap. split.
  - intros ([k' r]&[= -> ->]&[Hin Hm]%list_filter_elem). apply bool_decide_eq_true in Hm. cbn in Hm.
    rewrite (dict_elem_get _ _ _ Hwf Hin) in Hr. inversion Hr as [? a [Hz ->] Hx|]. by rewrite Hm.
  - intros [Hz Hx]. rewrite Hx in Hr. inversion Hr as [r a [Hz' Ha] Hg|]. subst a.
    injection Ha as Hm Hb. exists (k, r). apply eq_sym, dict_get_elem in Hg. split.
    + cbn. f_equal. destruct Hz as [->| ->], Hz' as [Hz'|Hz']; rewrite Hz' in *; done.
    + apply list_filter_elem. by rewrite bool_decide_eq_true.
Qed.

Lemma rep_recipients mid d x :
  db_rep d x → recipients mid d ≡ₚ elements (Mail.recipients mid x).
Proof.
  intros Hd. apply NoDup_Permutation; [apply NoDup_remove_dups|apply NoDup_elements|]. intros n.
  unfold recipients, Mail.recipients.
  rewrite elem_of_remove_dups, elem_of_elements, elem_of_map, <-list_fmap_compose, list_elem_of_fmap.
  split.
  - intros ([k z]&->&[_ Hk]%(acks_of_elem _ _ x))%id; [|done]. exists k. split; [done|].
    apply elem_of_dom. exists (mid, z =? 1). by apply map_lookup_filter_Some.
  - intros (k&->&([m b]&[Hk Hm]%map_lookup_filter_Some)%elem_of_dom). cbn in Hm. subst m.
    exists (k, Z.b2z b). split; [done|]. apply (acks_of_elem _ _ x); [done|].
    split; [destruct b; auto|]. rewrite Hk. by destruct b.
Qed.

Lemma rep_no_acks mid d x : db_rep d x → acks_of mid d = [] ↔ Mail.recipients mid x = ∅.
Proof.
  intros Hd. rewrite <-recipients_nil. pose proof (rep_recipients mid d x Hd) as Hp.
  split; intros He; rewrite He in Hp.
  - apply leibniz_equiv, elements_empty_inv, Permutation_nil. done.
  - rewrite elements_empty in Hp. by apply Permutation_nil.
Qed.

Lemma rep_node_full mid n d x :
  db_rep d x → node_full mid d n = bool_decide (Mail.complete mid n x).
Proof.
  intros Hd. unfold node_full. apply eq_true_iff_eq. rewrite bool_decide_eq_true, Z.eqb_eq.
  rewrite all_ones by apply Forall_List_filter, acks_ok, (rep_acks_ok _ _ Hd).
  rewrite Forall_forall. unfold Mail.complete. split.
  - intros Hall k [m b] Hk Hn Hm. cbn in *. subst m. destruct b; [done|].
    assert (Hin : (k, 0) ∈ acks_of mid d) by (apply (acks_of_elem _ _ x); auto).
    specialize (Hall (k, 0)). cbn in Hall. discriminate Hall. apply list_filter_elem.
    by rewrite bool_decide_eq_true.
  - intros Hall [k z] [[Hz Hk]%(acks_of_elem _ _ x) Hn%bool_decide_eq_true]%list_filter_elem; [|done].
    specialize (Hall _ _ Hk Hn eq_refl). cbn in *. by apply Z.eqb_eq.
Qed.

Lemma size_filter_elements {A} `{Countable A} p (P : A → Prop) `{∀ a, Decision (P a)} (X : gset A) :
  (∀ a, p a = bool_decide (P a)) → length (List.filter p (elements X)) = size (filter P X).
Proof.
  intros Hp. unfold size, set_size. cbn. apply Permutation_length, NoDup_Permutation.
  - apply NoDup_List_filter, NoDup_elements.
  - apply NoDup_elements.
  - intros a. rewrite list_filter_elem, !elem_of_elements, elem_of_filter, Hp, bool_decide_eq_true. tauto.
Qed.

Lemma rep_delivery_members mid d x :
  db_rep d x → delivery_members_of mid d = Mail.delivery_members mid x.
Proof.
  intros Hd. rewrite members_recipients. unfold Mail.delivery_members.
  pose proof (rep_recipients mid d x Hd) as Hp. f_equal; f_equal.
  - by rewrite Hp.
  - rewrite (filter_length_perm _ _ _ Hp). apply size_filter_elements. intros n. by apply rep_node_full.
Qed.

Lemma rep_acked_rows mid b d x :
  db_rep d x →
  length (List.filter (λ r, r.2 =? Z.b2z b) (acks_of mid d)) = size (filter (λ kv, kv.2 = (mid, b)) (x_acks x)).
Proof.
  intros Hd. unfold acks_of. rewrite filter_fmap, length_fmap, filter_filter_and.
  apply (rep_size ack_rep), rep_ack_rows; [|done]. intros k r a [Hz ->]. cbn.
  apply eq_true_iff_eq. rewrite andb_true_iff, !bool_decide_eq_true, Z.eqb_eq.
  destruct b, Hz as [-> | ->]; cbn; naive_solver.
Qed.

Lemma rep_delivery_progress mid d x :
  db_rep d x → delivery_progress_of mid d = Mail.delivery_progress mid x.
Proof.
  intros Hd. unfold delivery_progress_of, Mail.delivery_progress. f_equal.
  - f_equal. unfold acks_of. rewrite length_fmap. apply (rep_size ack_rep), rep_ack_rows; [|done].
    by intros k r a [_ ->].
  - rewrite <-(rep_acked_rows mid true d x Hd), <-sql_sum_b2z. f_equal.
    pose proof (acks_ok mid d (rep_acks_ok d x Hd)) as Hall.
    induction Hall as [|r l Hz _ IH]; [done|]. cbn. rewrite IH. by destruct Hz as [-> | ->].
Qed.

Lemma rep_is_delivered mid d x :
  db_rep d x → is_delivered_of mid d = Mail.is_delivered mid x.
Proof.
  intros Hd. unfold is_delivered_of, Mail.is_delivered, delivery_progress_of.
  pose proof (rep_no_acks mid d x Hd) as Hno. case_decide as He.
  - by apply Hno in He as ->.
  - replace (Z.of_nat (length (acks_of mid d)) =? 0) with false
      by (symmetry; apply Z.eqb_neq; destruct (acks_of mid d); [by destruct He; apply Hno|cbn; lia]).
    f_equal. apply eq_true_iff_eq.
    rewrite bool_decide_eq_true, Z.eqb_eq, all_ones by apply acks_ok, (rep_acks_ok _ _ Hd).
    rewrite Forall_forall. split.
    + intros Hall k [m b] Hk Hm. cbn in Hm. subst m. destruct b; [done|].
      specialize (Hall (k, 0)). cbn in Hall. discriminate Hall. apply (acks_of_elem _ _ x); auto.
    + intros Hall [k z] [Hz Hk]%(acks_of_elem _ _ x); [|done].
      specialize (Hall _ _ Hk eq_refl). cbn in *. by apply Z.eqb_eq.
Qed.

Lemma rep_undelivered mid d x :
  db_rep d x → list_to_set (undelivered_of mid d) = Mail.undelivered mid x.
Proof.
  intros Hd. unfold undelivered_of, Mail.undelivered, acks_of. apply set_eq. intros k.
  rewrite elem_of_list_to_set, filter_fmap, filter_filter_and, <-list_fmap_compose.
  apply (rep_elem ack_rep), rep_ack_rows; [|done]. intros k' r a [Hz ->]. cbn.
  apply eq_true_iff_eq. rewrite andb_true_iff, !bool_decide_eq_true, Z.eqb_eq.
  destruct Hz as [-> | ->]; cbn; naive_solver.
Qed.

(** *** Conversations *)

Lemma rep_message_row mid r e mids d x :
  db_rep d x → mid ∈ mids → entry_rep r e →
  _row_to_msg key (_delivery_summary_of mids d) (mid, r) = Ok (Mail.to_message x (mid, e)).
Proof.
  intros Hd Hin (_&Hs&Hdir&Hts&_&Hseqs&Ht&Ha). unfold _row_to_msg, Mail.to_message.
  rewrite Hseqs, Ht. cbn [mbind result_bind].
  assert (Hatt : match m_att r with Some b => Some <$> loads_blob key (Some b) | None => Ok None end
    = Ok (e_att e)).
  { unfold att_rep in Ha. destruct (m_att r); [|by rewrite Ha]. destruct Ha as (j&->&Hj). by rewrite Hj. }
  rewrite Hatt. cbn [mbind result_bind]. rewrite Hs, Hts, Hdir.
  f_equal. f_equal. destruct (e_dir e); [done|]. f_equal.
  rewrite summary_get, <-(rep_delivery_members mid d x Hd) by done.
  pose proof (rep_no_acks mid d x Hd). case_bool_decide; case_decide; tauto.
Qed.

Lemma conversation_rows conv d x row :
  db_rep d x → row ∈ rows_of conv d →
  ∃ e, x_entries x !! row.1 = Some e ∧ e_conv e = conv ∧ entry_rep row.2 e.
Proof.
  intros Hd. rewrite rows_of_perm, list_filter_elem, bool_decide_eq_true. intros [Hin Hc].
  destruct (rp_entries _ _ Hd) as [Hwf Hr]. specialize (Hr row.1). destruct row as [mid r].
  rewrite (dict_elem_get _ _ _ Hwf Hin) in Hr. inversion Hr as [? e He Hx|]. exists e. cbn in *.
  split_and!; [done| |done]. destruct He as (Hce&_). congruence.
Qed.

#[local] Instance message_le_total : Total message_le.
Proof.
  intros a b. unfold message_le. destruct (Z.lt_trichotomy (g_ts a) (g_ts b)) as [|[->|]]; [auto..|].
  - destruct (total String.le (g_id a) (g_id b)); auto.
  - auto.
Qed.
#[local] Instance message_le_trans : Transitive message_le.
Proof.
  intros a b c [Hab|[Hab Hs]] [Hbc|[Hbc Ht]]; unfold message_le; [left; lia..|].
  right. split; [lia|]. by trans (g_id b).
Qed.

Lemma mail_messages_elem conv x g :
  g ∈ Mail.messages conv x ↔
    ∃ mid e, x_entries x !! mid = Some e ∧ e_conv e = conv ∧ g = Mail.to_message x (mid, e).
Proof.
  unfold Mail.messages. rewrite merge_sort_Permutation, list_elem_of_fmap. split.
  - intros ([mid e]&->&[Hm Hc]%elem_of_map_to_list%map_lookup_filter_Some). eauto.
  - intros (mid&e&Hm&Hc&->). exists (mid, e). split; [done|]. apply elem_of_map_to_list.
    by apply map_lookup_filter_Some.
Qed.

Lemma mail_messages_sorted conv x : StronglySorted message_le (Mail.messages conv x).
Proof. apply (StronglySorted_merge_sort message_le). Qed.

Lemma NoDup_to_messages x (m : gmap string entry) : NoDup (Mail.to_message x <$> map_to_list m).
Proof.
  apply (NoDup_fmap_1 g_id). rewrite <-list_fmap_compose.
  rewrite (list_fmap_ext _ fst); [apply NoDup_fst_map_to_list|]. by intros _ [mid e] _.
Qed.

Lemma Forall2_in_r {A B} (P : A → B → Prop) l k y : Forall2 P l k → y ∈ k → ∃ x, x ∈ l ∧ P x y.
Proof. induction 1 as [|a b l k Hab _ IH]; set_solver. Qed.

Lemma Forall2_in_l {A B} (P : A → B → Prop) l k x : Forall2 P l k → x ∈ l → ∃ y, y ∈ k ∧ P x y.
Proof. induction 1 as [|a b l k Hab _ IH]; set_solver. Qed.

Lemma entry_row conv d x mid e :
  db_rep d x → x_entries x !! mid = Some e → e_conv e = conv → ∃ r, (mid, r) ∈ rows_of conv d ∧ entry_rep r e.
Proof.
  intros Hd Hx Hc. destruct (rp_entries _ _ Hd) as [Hwf Hr]. specialize (Hr mid). rewrite Hx in Hr.
  inversion Hr as [r ? He Hg|]; subst. exists r. split; [|done].
  rewrite rows_of_perm, list_filter_elem, bool_decide_eq_true. split; [by apply dict_get_elem|apply He].
Qed.

Lemma to_message_id x ke : g_id (Mail.to_message x ke) = ke.1.
Proof. by destruct ke. Qed.

(** Sorted lists of the same messages are equal. *)
Lemma sorted_messages_unique conv x l :
  StronglySorted message_le l → NoDup l → (∀ g, g ∈ l ↔ g ∈ Mail.messages conv x) →
  l = Mail.messages conv x.
Proof.
  intros Hl Hnd Hin. apply (StronglySorted_unique_strong message_le); [|done|..].
  - intros a b Ha%Hin Hb Hab Hba.
    apply mail_messages_elem in Ha as (m1&e1&H1&_&->), Hb as (m2&e2&H2&_&->).
    assert (Hm : m1 = m2).
    { unfold message_le in *. rewrite !to_message_id in *. cbn [fst] in *.
      destruct Hab as [?|[? ?]], Hba as [?|[? ?]]; [lia..|]. by apply (anti_symm String.le). }
    subst m2. congruence.
  - apply mail_messages_sorted.
  - apply NoDup_Permutation; [done| |done].
    unfold Mail.messages. rewrite merge_sort_Permutation. apply NoDup_to_messages.
Qed.

Lemma rep_messages conv s o :
  holds s o → messages conv s = (Ok (Mail.messages conv (o_now o)), s).
Proof.
  intros (Hk&Hd&_). set (x := o_now o) in *. unfold messages, messages_of. f_equal. rewrite Hk. set (d := s_db s) in *.
  set (rows := rows_of conv d).
  destruct (map_result_total (_row_to_msg key (_delivery_summary_of rows.*1 d)) rows) as (l&Hl&HF).
  { apply Forall_forall. intros [mid r] Hin.
    destruct (conversation_rows conv d x (mid, r) Hd Hin) as (e&_&_&He). eexists.
    apply rep_message_row; [done| |done]. apply list_elem_of_fmap. by exists (mid, r). }
  rewrite Hl. f_equal. destruct (rows_sorted_messages rows l) as [Hsorted Hids].
  { eapply Forall2_impl; [exact HF|]. intros row g. apply row_to_msg_fields. }
  { by apply (StronglySorted_merge_sort row_le). }
  apply sorted_messages_unique; [done|..].
  - apply (NoDup_fmap_1 g_id). rewrite Hids. unfold rows. rewrite rows_of_perm.
    eapply sublist_NoDup; [apply (rp_entries _ _ Hd)|apply filter_keys_sublist].
  - intros g. rewrite mail_messages_elem. split.
    + intros Hg. destruct (Forall2_in_r _ _ _ _ HF Hg) as ([mid r]&Hin&Hrow).
      destruct (conversation_rows conv d x (mid, r) Hd Hin) as (e&Hx&Hc&He). exists mid, e.
      split_and!; [done..|]. rewrite (rep_message_row mid r e _ d x) in Hrow; [congruence|done| |done].
      apply list_elem_of_fmap. by exists (mid, r).
    + intros (mid&e&Hx&Hc&->).
      destruct (entry_row conv d x mid e Hd Hx Hc) as (r&Hin&He).
      destruct (Forall2_in_l _ _ _ _ HF Hin) as (g&Hg&Hrow).
      rewrite (rep_message_row mid r e _ d x) in Hrow; [by injection Hrow as <-|done| |done].
      apply list_elem_of_fmap. by exists (mid, r).
Qed.

(** *** All the calls *)

Lemma sim_returning {A} (f : A → answer) (m : ST A) (m' : Mail.MB A) :
  sim holds eq m m' → sim holds eq (returning f m) (returning f m').
Proof. intros Hm. eapply sim_bind; [exact Hm|]. intros a ? <-. by apply sim_ret. Qed.

Lemma sim_write o : op_ok o → sim holds eq (write o) (mail_write o).
Proof.
  destruct o; cbn [op_ok write mail_write]; intros Ho; apply sim_returning.
  - apply sim_set_cursor.
  - by apply sim_ensure_room.
  - apply sim_delete_room.
  - apply sim_clear_history.
  - destruct Ho as (?&?&?). by apply sim_ingest.
  - destruct Ho as (?&?&?&?). by apply sim_add_sent.
  - apply sim_mark_delivered.
  - apply sim_mark_read.
  - apply sim_mute_conversation.
  - apply sim_unmute_conversation.
  - apply sim_mute.
  - apply sim_unmute.
  - by apply sim_set_blocked_screen.
  - apply sim_clear_blocked_screen.
  - by apply sim_add_pending.
  - apply sim_pending_pop.
Qed.

Lemma sim_reopen rng :
  sim holds eq (returning nothing (reopen passphrase rng)) (returning nothing Mail.go_back).
Proof.
  intros s o (Hk&_&Hd). unfold returning, reopen, open_store, _salt, mbind, M_bind.
  rewrite (rp_salt _ _ Hd), b64decode_encode. cbn. by split_and!.
Qed.

Lemma sim_perform c : call_ok c → sim holds eq (perform passphrase c) (mail_perform c).
Proof.
  destruct c; cbn [call_ok perform mail_perform]; intros Ho.
  - by apply sim_write.
  - apply sim_reopen.
  - apply sim_read_query. intros d x Hd. by rewrite (rep_cursor _ _ _ Hd).
  - apply sim_read_query. intros d x Hd. unfold compose. by rewrite (rep_rooms _ _ Hd).
  - apply sim_read. intros s x Hs. eexists. split; [by apply rep_members|done].
  - apply sim_read_query. intros d x Hd. by rewrite (rep_is_room _ _ _ Hd).
  - apply sim_read_query. intros d x Hd. by rewrite (rep_is_conversation_muted _ _ _ Hd).
  - apply sim_read_query. intros d x Hd. f_equal. apply eq_true_iff_eq.
    rewrite dict_mem_true, bool_decide_eq_true. apply (rp_muted _ _ Hd).
  - apply sim_read. intros s x Hs. eexists. split; [by apply rep_blocked_screen|done].
  - apply sim_read. intros s x Hs. eexists. split; [by apply rep_pending|done].
  - apply sim_read. intros s x Hs. eexists. split; [by apply rep_messages|done].
  - apply sim_read_query. intros d x Hd. by rewrite (rep_recv_last _ _ _ _ Hd).
  - apply sim_read_query. intros d x Hd. by rewrite (rep_unread _ _ _ Hd).
  - apply sim_read_query. intros d x Hd. by rewrite (rep_total_unread _ _ Hd).
  - apply sim_read_query. intros d x Hd. by rewrite (rep_delivery_progress _ _ _ Hd).
  - apply sim_read_query. intros d x Hd. by rewrite (rep_delivery_members _ _ _ Hd).
  - apply sim_read_query. intros d x Hd. by rewrite (rep_is_delivered _ _ _ Hd).
  - apply sim_read_query. intros d x Hd. unfold compose. by rewrite (rep_undelivered _ _ _ Hd).
Qed.

Lemma sim_answers cs s o :
  Forall call_ok cs → holds s o → answers (perform passphrase) cs s = answers mail_perform cs o.
Proof.
  intros Hcs. revert s o. induction Hcs as [|c cs Hc _ IH]; intros s o Hs; [done|]. cbn.
  destruct (sim_perform c Hc s o Hs) as [Hs' Ha].
  destruct (perform passphrase c s) as [r s'], (mail_perform c o) as [r' o']. cbn in *.
  f_equal; [|by apply IH]. by destruct r, r'; subst.
Qed.

Lemma fresh_rep : db_rep (Db (Some (b64encode salt)) [] [] [] [] [] [] [] []) empty_mailbox.
Proof. split; cbn; try apply rep_nil; [done|constructor|split; [constructor|set_solver]]. Qed.
End Refine.

(** ** A message sent that comes last *)

Section Last.
Context `{N : NaCl} `{J : JsonCodec}.

(** The acks expected for a message, added to the mailbox. *)
Definition expecting (mid : string) (keys : list (string * Z)) (m : gmap (string * Z) (string * bool)) :=
  foldl (λ m k, Mail.add_new k (mid, false) m) m keys.
Lemma add_new_lookup {V} (k k' : string * Z) (v : V) m :
  Mail.add_new k v m !! k' = match m !! k' with Some v' => Some v' | None => if decide (k' = k) then Some v else None end.
Proof.
  unfold Mail.add_new. destruct (decide (k' = k)) as [->|Hne].
  - destruct (m !! k) eqn:E; [done|]. by rewrite lookup_insert_eq.
  - destruct (m !! k) eqn:E; [by destruct (m !! k')|]. rewrite lookup_insert_ne by done. by destruct (m !! k').
Qed.
Lemma expecting_lookup mid keys m k :
  expecting mid keys m !! k =
    match m !! k with Some a => Some a | None => if decide (k ∈ keys) then Some (mid, false) else None end.
Proof.
  unfold expecting. revert m. induction keys as [|k0 keys IH]; intros m; cbn [foldl].
  - rewrite decide_False by (by intros ?%elem_of_nil). by destruct (m !! k).
  - rewrite IH, add_new_lookup. destruct (m !! k); [done|].
    destruct (decide (k = k0)) as [->|Hne]; [by rewrite decide_True by left|].
    destruct (decide (k ∈ keys)) as [Hk|Hk]; [by rewrite decide_True by by right|].
    rewrite decide_False; [done|]. by intros [|]%elem_of_cons.
Qed.

Lemma expect_run mid keys o o' :
  for_each (Mail.expect mid) keys o = (Ok tt, o') →
  o' = Post (put_acks (expecting mid keys (x_acks (o_now o))) (o_now o)) (o_saved o).
Proof.
  revert o. induction keys as [|k keys IH]; intros o H; cbn in H.
  - injection H as <-. by destruct o as [[] ?].
  - apply M_bind_Ok in H as ([]&o1&H1&H). unfold Mail.expect in H1.
    apply M_bind_Ok in H1 as (z&o2&H1&H2). injection H1 as _ <-. injection H2 as <-.
    apply IH in H as ->. by destruct o as [[] ?].
Qed.

(** The entry of a message sent. *)
Definition sent_entry (conv : string) (seqs : list (string * Z)) (ts : Z) (text : option string) (att : option json) : entry :=
  Entry conv "self" Out ts 0 (JObj ((λ '(n, s), (n, JInt s)) <$> seqs)) text (Mail.meaningful att).
Lemma mail_add_sent_run conv seqs ts text att keys o b o' :
  Mail.add_sent conv seqs ts text att keys o = (Ok b, o') → x_entries (o_now o) !! out_id seqs = None →
  x_entries (o_now o') = <[out_id seqs := sent_entry conv seqs ts text att]> (x_entries (o_now o)) ∧
  x_acks (o_now o') = expecting (out_id seqs) (sent_keys seqs keys) (x_acks (o_now o)).
Proof.
  intros H Hnew. unfold Mail.add_sent in H.
  apply M_bind_Ok in H as ([]&o1&H1&H). injection H1 as <-.
  apply M_bind_Ok in H as (ts'&o2&H2&H). unfold lift, bind_int in H2. case_match; [|done]. injection H2 as <- <-.
  apply M_bind_Ok in H as (new&o3&H3&H). injection H3 as _ <-.
  apply M_bind_Ok in H as ([]&o4&H4&H). injection H4 as <-.
  apply M_bind_Ok in H as ([]&o5&H5&H). apply expect_run in H5 as ->.
  apply M_bind_Ok in H as ([]&o6&H6&H). injection H6 as <-. injection H as _ <-. cbn.
  split; [|done]. unfold Mail.add_new. by rewrite Hnew.
Qed.

Section Added.
Context (conv mid : string) (keys : list (string * Z)) (e : entry) (x x' : mailbox).
Context (Hnew : x_entries x !! mid = None) (Hconv : e_conv e = conv).
Context (Hentries : x_entries x' = <[mid := e]> (x_entries x)).
Context (Hacks : x_acks x' = expecting mid keys (x_acks x)).

(** What is known of the acks of other messages stays. *)
Lemma acks_other m k a : a.1 = m → m ≠ mid → x_acks x' !! k = Some a ↔ x_acks x !! k = Some a.
Proof.
  intros Ha Hm. rewrite Hacks, expecting_lookup. destruct (x_acks x !! k); [done|].
  destruct (decide (k ∈ keys)); [|done]. split; [|done]. intros [= <-]. by destruct Hm.
Qed.
Lemma recipients_other m : m ≠ mid → Mail.recipients m x' = Mail.recipients m x.
Proof.
  intros Hm. unfold Mail.recipients. f_equal. apply set_eq. intros k. rewrite !elem_of_dom.
  split; intros [a [Hk Ha]%map_lookup_filter_Some]; exists a; apply map_lookup_filter_Some;
    (split; [by apply (acks_other m)|done]).
Qed.
Lemma complete_other m n : m ≠ mid → Mail.complete m n x' ↔ Mail.complete m n x.
Proof. intros Hm. split; intros H k a Hk Hn Ha; apply (H k a); try done; by apply (acks_other m). Qed.
Lemma delivery_members_other m : m ≠ mid → Mail.delivery_members m x' = Mail.delivery_members m x.
Proof.
  intros Hm. unfold Mail.delivery_members. rewrite recipients_other by done. do 3 f_equal.
  apply set_eq. intros n. by rewrite !elem_of_filter, complete_other.
Qed.
Lemma undelivered_other m : m ≠ mid → Mail.undelivered m x' = Mail.undelivered m x.
Proof.
  intros Hm. unfold Mail.undelivered. apply set_eq. intros k. rewrite !elem_of_dom.
  split; intros [a [Hk Ha]%map_lookup_filter_Some]; exists a; apply map_lookup_filter_Some;
    (split; [|done]); cbn in Ha; apply (acks_other m); try done; by rewrite Ha.
Qed.
Lemma to_message_other ke : ke.1 ≠ mid → Mail.to_message x' ke = Mail.to_message x ke.
Proof.
  destruct ke as [m e0]. cbn [fst]. intros Hm. unfold Mail.to_message.
  by rewrite recipients_other, delivery_members_other.
Qed.

(** With nothing known of the message before, all its acks are waited for. *)
Lemma undelivered_new :
  (∀ k, k ∈ keys → x_acks x !! k = None) → Mail.recipients mid x = ∅ → Mail.undelivered mid x' = list_to_set keys.
Proof.
  intros Hk Hr. apply set_eq. intros k. unfold Mail.undelivered. rewrite elem_of_dom, elem_of_list_to_set. split.
  - intros [a [Ha Hm]%map_lookup_filter_Some]. cbn in Hm. subst a. rewrite Hacks, expecting_lookup in Ha.
    destruct (x_acks x !! k) as [a|] eqn:E; [|by destruct (decide (k ∈ keys))]. injection Ha as ->.
    assert (k.1 ∈ Mail.recipients mid x) as Hin; [|by rewrite Hr in Hin; apply elem_of_empty in Hin].
    apply elem_of_map. exists k. split; [done|]. apply elem_of_dom. exists (mid, false).
    by apply map_lookup_filter_Some.
  - intros Hin. exists (mid, false). apply map_lookup_filter_Some. split; [|done].
    by rewrite Hacks, expecting_lookup, Hk, decide_True.
Qed.
Lemma recipients_new :
  (∀ k, k ∈ keys → x_acks x !! k = None) → Mail.recipients mid x = ∅ →
  Mail.recipients mid x' = set_map fst (list_to_set keys : gset (string * Z)).
Proof.
  intros Hk Hr. rewrite <-undelivered_new by done. unfold Mail.recipients, Mail.undelivered. f_equal.
  apply set_eq. intros k. rewrite !elem_of_dom.
  split; intros [a [Ha Hm]%map_lookup_filter_Some]; exists a; apply map_lookup_filter_Some; (split; [done|]); cbn in *;
    [|by subst].
  destruct a as [m b]. cbn in Hm. subst m. rewrite Hacks, expecting_lookup in Ha.
  destruct (x_acks x !! k) as [a|] eqn:E; [|by destruct (decide (k ∈ keys)); [injection Ha as <-|]].
  assert (k.1 ∈ Mail.recipients mid x) as Hin; [|by rewrite Hr in Hin; apply elem_of_empty in Hin].
  apply elem_of_map. exists k. split; [done|]. apply elem_of_dom. exists a. apply map_lookup_filter_Some.
  split; [done|]. by injection Ha as ->.
Qed.

(** Sorted after the others, the message comes last. *)
Lemma messages_snoc :
  Forall (λ g, message_le g (Mail.to_message x' (mid, e))) (Mail.messages conv x) →
  Mail.messages conv x' = Mail.messages conv x ++ [Mail.to_message x' (mid, e)].
Proof.
  intros Hlast. symmetry. apply (sorted_messages_unique conv).
  - apply StronglySorted_app_2; [|apply mail_messages_sorted|by repeat constructor].
    intros g1 g2 H1 ->%list_elem_of_singleton. rewrite Forall_forall in Hlast. by apply Hlast.
  - apply NoDup_app. split; [|split; [|apply NoDup_singleton]].
    + unfold Mail.messages. rewrite merge_sort_Permutation. apply NoDup_to_messages.
    + intros g (m&e'&Hm&_&->)%mail_messages_elem He%list_elem_of_singleton. apply (f_equal g_id) in He.
      rewrite !to_message_id in He. cbn in He. congruence.
  - intros g. rewrite elem_of_app, list_elem_of_singleton, !mail_messages_elem, Hentries. split.
    + intros [(m&e'&Hm&Hc&->)| ->].
      * assert (m ≠ mid) by congruence. exists m, e'. rewrite lookup_insert_ne by done.
        split; [done|]. split; [done|]. by rewrite to_message_other.
      * exists mid, e. by rewrite lookup_insert_eq.
    + intros (m&e'&Hm&Hc&->). destruct (decide (m = mid)) as [->|Hne].
      * rewrite lookup_insert_eq in Hm. injection Hm as <-. by right.
      * rewrite lookup_insert_ne in Hm by done. left. exists m, e'. by rewrite to_message_other.
Qed.
End Added.
End Last.

(** Every store the program can reach holds a mailbox. *)
Lemma run_op_write `{NaCl} `{JsonCodec} o s : (run_op o s).2 = (write o s).2.
Proof.
  destruct o; cbn [run_op write]; unfold ignore, returning, mbind, M_bind;
    match goal with |- context [match ?m s with _ => _ end] => by destruct (m s) as [[]] end.
Qed.
Lemma reachable_holds `{NaClLaws} `{JsonLaws} passphrase s :
  reachable passphrase s → ∃ salt o, holds passphrase salt s o.
Proof.
  induction 1 as [rng s Hs|s o _ (salt&x&IH) Ho|s rng s' _ (salt&x&Hk&_&Hd) Hs].
  - injection Hs as <-. exists (random_bytes 16 rng), empty_post.
    pose proof (fresh_rep passphrase (random_bytes 16 rng)). by split_and!.
  - exists salt, (mail_write o x).2. rewrite run_op_write. by apply sim_write.
  - exists salt, (Post (o_saved x) (o_saved x)).
    unfold open_store, _salt in Hs. rewrite (rp_salt _ _ _ _ Hd), b64decode_encode in Hs.
    cbn in Hs. injection Hs as <-. by split_and!.
Qed.

(** C1: The encrypted store, used through any sequence of calls from an empty
    database file, failing calls and reopenings of the file included, answers
    every call as the mailbox does: messages in the order of time then id,
    unread counts, cursors, rosters, delivery states and requests are those
    of plaintext finite maps, the exceptions are the same, and reopening goes
    back to what was saved: what a call that raised had begun is gone, unless
    a later one saved it. *)
Theorem store_refines_mailbox `{NaClLaws} `{JsonLaws} passphrase rng s cs :
  open_store empty_db rng passphrase = Ok s → Forall call_ok cs →
  answers (perform passphrase) cs s = answers mail_perform cs empty_post.
Proof.
  intros [= <-] Hcs. apply (sim_answers passphrase (random_bytes 16 rng)); [done|].
  pose proof (fresh_rep passphrase (random_bytes 16 rng)). by split_and!.
Qed.

(** ** Evaluated instances *)

Section RefineWitness.
Local Instance rw_json : JsonCodec := RefCodec.
Local Instance rw_json_laws : JsonLaws RefCodec := RefCodec_laws.
Local Instance rw_nacl : NaCl := RefNaCl.
Local Instance rw_nacl_laws : NaClLaws RefNaCl := RefNaCl_laws.

(** A message received twice, one sent and acked, with reopenings between; a
    message for a room with a number SQLite refuses, whose room is listed until
    the file is opened again. *)
Definition a_session : list call :=
  [Do (OIngest "peer" "peer" 3 100 (Some "hi") None); Do (OIngest "peer" "peer" 3 100 (Some "hi") None);
   Unread "peer"; Reopen 5; Do (OAddSent "peer" [("peer", 7)] 90 (Some "yo") None None);
   IsDelivered (out_id [("peer", 7)]); Do (OMarkDelivered "peer" 7); Messages "peer";
   Do (OSetCursor "peer" (2 ^ 70)); Cursor "peer";
   Do (OIngest "room" "peer" (2 ^ 70) 100 (Some "hi") None); Rooms; Reopen 6; Rooms].

Example store_refines_mailbox_witness :
  ∃ s, open_store empty_db 0 "pw" = Ok s ∧
    answers (perform "pw") a_session s = answers mail_perform a_session empty_post.
Proof.
  eexists. split; [reflexivity|]. apply (store_refines_mailbox "pw" 0); [reflexivity|].
  repeat (apply Forall_cons; split; [|]); try exact I; cbn; [| | | |by apply Forall_nil];
    split_and!; try done; try (by intros ? [= <-]); try (by intros ? [=]).
  - apply NoDup_singleton.
  - by repeat constructor.
Defined.

Example a_session_answers :
  answers mail_perform a_session empty_post =
    [Ok (ABool true); Ok (ABool false); Ok (AInt 1); Ok Done; Ok (ABool true); Ok (AFlag (Some false));
     Ok (AText (Some "out:peer=7"));
     Ok (AMessages [Message "out:peer=7" Out (JObj [("peer", JInt 7)]) 90 "self" (Some "yo") None
                      (Some (Some true, Some 1, 1));
                    Message "in:peer:3" In (JObj [("peer", JInt 3)]) 100 "peer" (Some "hi") None None]);
     Raise OverflowError; Ok (AInt 0);
     Raise OverflowError; Ok (ANames {["room"]}); Ok Done; Ok (ANames ∅)].
Proof. vm_compute. reflexivity. Qed.
End RefineWitness.
