(* ===== verification/DaemonClient.v ===== *)
(** * daemon.py: the socket client of the daemon, and the client operations

    [Module Conn] holds the queues of the connection: the reader thread's
    dispatch of incoming lines and what a request does with the next message;
    the threads that run them are in [Reconnect.v]. [Section Client] holds the operations of class [Client], over the world's
    [request]. *)

From S2P Require Import Prelude PyStr Codec Json Sys Crypto Protocol.
From Stdlib Require Import Ascii.
Local Open Scope Z_scope.

(** [j.get(k, dflt)] *)
Definition get_or (k : string) (dflt j : json) : result json :=
  o ← jget k j; Ok (default dflt o).

Module Conn.

Definition EVENT_OPS : list string := ["recv"; "acked"].
Definition RESPONSE_MAP : list (string * string) :=
  [("send", "queued"); ("sendfile", "queued"); ("watch", "watching"); ("setstatus", "statusset");
   ("pendingattachments", "pendingattachments"); ("fetchattachment", "fetchattachment");
   ("ackfile", "ackfile")].

(** The state shared by the reader and the requests. Queues are lists, oldest
    first; [pending] maps a request id to its mailbox. *)
Record conn := MkConn {
  events : list json;
  raw : list json;
  stash : list json;
  id_counter : nat;
  pending : gmap string (list json);
  multiplex : bool;
  want_reconnect : bool;
}.

Definition set_events l c := MkConn l (raw c) (stash c) (id_counter c) (pending c) (multiplex c) (want_reconnect c).
Definition set_raw l c := MkConn (events c) l (stash c) (id_counter c) (pending c) (multiplex c) (want_reconnect c).
Definition set_stash l c := MkConn (events c) (raw c) l (id_counter c) (pending c) (multiplex c) (want_reconnect c).
Definition set_pending m c := MkConn (events c) (raw c) (stash c) (id_counter c) m (multiplex c) (want_reconnect c).
Definition set_multiplex b c := MkConn (events c) (raw c) (stash c) (id_counter c) (pending c) b (want_reconnect c).
Definition set_want b c := MkConn (events c) (raw c) (stash c) (id_counter c) (pending c) (multiplex c) b.

Definition _new_id (c : conn) : string * conn :=
  let n := S (id_counter c) in
  ("r" +:+ pretty n,
   MkConn (events c) (raw c) (stash c) n (pending c) (multiplex c) (want_reconnect c)).

Definition op_of (msg : json) : option json := match msg with JObj d => dict_get "op" d | _ => None end.
Definition is_event (msg : json) : bool :=
  match op_of msg with Some (JStr s) => bool_decide (s ∈ EVENT_OPS) | _ => false end.
Definition has_op (s : string) (msg : json) : bool := default false (json_is_str s <$> op_of msg).

(** The reader's treatment of one parsed line. *)
Definition dispatch (msg : json) (c : conn) : result conn :=
  match msg with
  | JObj d =>
    if is_event msg then Ok (set_events (events c ++ [msg]) c)
    else
      match dict_get "id" d with
      | Some (JStr rid) =>
        match pending c !! rid with
        | Some mb => Ok (set_pending (<[rid := mb ++ [msg]]> (pending c)) c)
        | None => Ok (set_raw (raw c ++ [msg]) c)
        end
      | Some (JArr _ | JObj _) => Raise TypeError (* unhashable *)
      | _ => Ok (set_raw (raw c ++ [msg]) c)
      end
  | _ => Raise AttributeError
  end.

(** One pass of [_read_loop] over a line; an empty one is the end of the
    stream, one that is not JSON is skipped. *)
Definition read_line `{JsonCodec} (line : string) (c : conn) : result conn :=
  if bool_decide (line = "") then Ok (set_want true c)
  else match json_loads line with
       | Ok msg => dispatch msg c
       | Raise e => if is_value_error e then Ok c else Raise e
       end.

(** How a request's wait for a message ends: with the loop, or with another
    turn of it. *)
Inductive outcome := Again (c : conn) | Done (r : result json) (c : conn).

Definition unreachable (op : string) : result json :=
  Raise (DaemonError ("daemon unreachable (" +:+ op +:+ ")")).
Definition timed_out (op : string) : result json :=
  Raise (DaemonError ("timeout waiting for response to " +:+ op)).

(** [raise DaemonError(msg.get("error", "unknown error"))] *)
Definition error_text (msg : json) : string :=
  match msg with
  | JObj d => match dict_get "error" d with Some j => py_str j | None => "unknown error" end
  | _ => "unknown error"
  end.

(** The end of an iteration of [_request_legacy], [time_left] until its
    deadline: the next message of the shared queue, if one is there. *)
Definition legacy_recv (op : string) (time_left : bool) (c : conn) : outcome :=
  let expected := default op (dict_get op RESPONSE_MAP) in
  if negb time_left then Done (timed_out op) c
  else match raw c with
       | [] => Again c
       | msg :: rest =>
         let c := set_raw rest c in
         if is_event msg then Again (set_events (events c ++ [msg]) c)
         else if negb (has_op expected msg) then Again (set_stash (stash c ++ [msg]) c)
         else
           let id := match msg with JObj d => dict_get "id" d | _ => None end in
           let c := if default false (truthy <$> id) then set_multiplex true c else c in
           if has_op "error" msg then Done (Raise (DaemonError (error_text msg))) c
           else Done (Ok msg) c
       end.

(** The end of an iteration of [_request_multiplex]: the next message of its
    mailbox. *)
Definition multiplex_recv (rid op : string) (time_left : bool) (c : conn) : outcome :=
  if negb time_left then Done (timed_out op) c
  else match pending c !! rid with
       | Some (msg :: rest) =>
         let c := set_pending (<[rid := rest]> (pending c)) c in
         if has_op "error" msg then Done (Raise (DaemonError (error_text msg))) c
         else Done (Ok msg) c
       | _ => Again c
       end.

(** [next_event(timeout)] when the timeout is over *)
Definition next_event (c : conn) : option json * conn :=
  match events c with [] => (None, c) | e :: l => (Some e, set_events l c) end.

(** ** Properties *)

Definition reply_id (msg : json) : option string :=
  match msg with JObj d => dict_get "id" d ≫= json_str | _ => None end.

(** What dispatch does: an event and a reply nobody waits for go to their
    queues, any other reply to the mailbox of the request it names. *)
Inductive dispatched (msg : json) (c : conn) : conn → Prop :=
  | to_events : is_event msg = true → dispatched msg c (set_events (events c ++ [msg]) c)
  | to_mailbox rid mb : is_event msg = false → reply_id msg = Some rid → pending c !! rid = Some mb →
      dispatched msg c (set_pending (<[rid := mb ++ [msg]]> (pending c)) c)
  | to_raw : is_event msg = false → dispatched msg c (set_raw (raw c ++ [msg]) c).

Lemma dispatch_inv msg c c' : dispatch msg c = Ok c' → dispatched msg c c'.
Proof.
  destruct msg as [| | | | |d]; try done. cbn [dispatch].
  destruct (is_event (JObj d)) eqn:He; [intros [= <-]; by constructor|].
  destruct (dict_get "id" d) as [[| | |rid| |]|] eqn:Hid; try done; try (intros [= <-]; by constructor).
  destruct (pending c !! rid) eqn:Hp; intros [= <-]; [|by constructor].
  apply to_mailbox; [done| |done]. cbn. by rewrite Hid.
Qed.

(** The mailbox of [rid] only holds replies carrying that id. *)
Definition mailboxes_ok (c : conn) : Prop :=
  ∀ rid mb, pending c !! rid = Some mb →
    Forall (λ m, reply_id m = Some rid ∧ is_event m = false) mb.

Lemma mailboxes_insert rid mb c :
  mailboxes_ok c → Forall (λ m, reply_id m = Some rid ∧ is_event m = false) mb →
  mailboxes_ok (set_pending (<[rid := mb]> (pending c)) c).
Proof.
  intros Hok Hmb r l. cbn. destruct (decide (r = rid)) as [->|Hne].
  - rewrite lookup_insert_eq. by intros [= <-].
  - rewrite lookup_insert_ne by done. apply Hok.
Qed.

Lemma mailboxes_delete rid c : mailboxes_ok c → mailboxes_ok (set_pending (delete rid (pending c)) c).
Proof. intros Hok r l. cbn. intros [_ Hr]%lookup_delete_Some. by apply Hok. Qed.

Lemma dispatch_mailboxes msg c c' : mailboxes_ok c → dispatch msg c = Ok c' → mailboxes_ok c'.
Proof.
  intros Hok Hd%dispatch_inv. destruct Hd as [|rid mb He Hr Hp|]; [done| |done].
  apply mailboxes_insert; [done|]. apply Forall_app. split; [by apply Hok|]. by repeat constructor.
Qed.

Lemma read_line_mailboxes `{JsonCodec} line c c' :
  mailboxes_ok c → read_line line c = Ok c' → mailboxes_ok c'.
Proof.
  intros Hok. unfold read_line. case_bool_decide; [by intros [= <-]|].
  destruct (json_loads line) as [msg|e]; [by apply dispatch_mailboxes|].
  case_match; [by intros [= <-]|done].
Qed.

(** What a wait may end with: a reply [good], the text of an error reply
    [bad], or the deadline. *)
Definition answers (op : string) (good bad : json → Prop) (r : result json) : Prop :=
  (∃ msg, r = Ok msg ∧ good msg) ∨
  (∃ msg, r = Raise (DaemonError (error_text msg)) ∧ bad msg) ∨ r = timed_out op.

Definition own_reply (rid : string) (msg : json) : Prop := reply_id msg = Some rid ∧ is_event msg = false.

Lemma multiplex_recv_spec rid op time_left c :
  mailboxes_ok c →
  match multiplex_recv rid op time_left c with
  | Again c' => mailboxes_ok c'
  | Done r c' => mailboxes_ok c' ∧
      answers op (λ msg, own_reply rid msg ∧ has_op "error" msg = false)
                 (λ msg, own_reply rid msg ∧ has_op "error" msg = true) r
  end.
Proof.
  intros Hok. unfold multiplex_recv, answers. destruct time_left; cbn [negb]; [|by eauto].
  destruct (pending c !! rid) as [[|msg rest]|] eqn:Hmb; [done| |done].
  pose proof (Hok _ _ Hmb) as [Hm Hrest]%Forall_cons.
  assert (mailboxes_ok (set_pending (<[rid:=rest]> (pending c)) c)) by by apply mailboxes_insert.
  destruct (has_op "error" msg) eqn:He; (split; [done|]); [right|]; left; eauto.
Qed.

(** No operation of the client expects the reply ["error"]. *)
Lemma expected_not_error op : op ≠ "error" → default op (dict_get op RESPONSE_MAP) ≠ "error".
Proof. intros Hop. cbn. repeat case_match; done. Qed.

Lemma has_op_other s t msg : has_op s msg = true → s ≠ t → has_op t msg = false.
Proof.
  unfold has_op. destruct (op_of msg) as [[]|]; cbn; try done.
  intros ->%bool_decide_eq_true Hs. by apply bool_decide_eq_false.
Qed.

(** On the uncorrelated path no error reply is ever reported: one does not
    have the expected operation, so it is set aside. *)
Lemma legacy_recv_spec op time_left c :
  op ≠ "error" →
  match legacy_recv op time_left c with
  | Again c' => pending c' = pending c
  | Done r c' => pending c' = pending c ∧
      answers op (λ msg, has_op (default op (dict_get op RESPONSE_MAP)) msg = true ∧ is_event msg = false)
                 (λ _, False) r
  end.
Proof.
  intros Hop. unfold legacy_recv, answers. destruct time_left; cbn [negb]; [|by eauto].
  destruct (raw c) as [|msg rest] eqn:Hr; [done|].
  destruct (is_event msg) eqn:He; [done|].
  destruct (has_op (default op (dict_get op RESPONSE_MAP)) msg) eqn:Ho; cbn [negb]; [|done].
  rewrite (has_op_other _ "error" _ Ho) by by apply expected_not_error.
  split; [by case_match|]. left. eauto.
Qed.
End Conn.

(** ** Class [Client] *)

(** [_node_key] caches the daemon's own key. *)
Record client := Client { cl_identity : bytes; cl_screen : string; cl_node_key : option string }.

(** A value of a dictionary used as a string or as an integer. *)
Definition as_str (j : json) : result string := of_option TypeError (json_str j).
Definition as_int (j : json) : result Z := of_option TypeError (json_int j).
Definition as_list (j : json) : result (list json) :=
  match j with JArr l => Ok l | _ => Raise TypeError end.

Section Client.
Context `{N : NaCl} `{J : JsonCodec} `{D : Daemon}.

(** The client's methods run on its cache and the world. *)
Definition CL (A : Type) : Type := M (client * world) A.
Definition io {A} (m : IO A) : CL A := λ '(c, w), let '(r, w) := m w in (r, (c, w)).
Definition self : CL client := gets fst.

Definition call (op : string) (fields : list (string * json)) : CL json := io (request op fields).

Definition pubkey_hex (c : client) : string := hex (sign_pk (cl_identity c)).

Definition whoami : CL json := call "whoami" [].
Definition node_key : CL string :=
  c ← self;
  match cl_node_key c with
  | Some k => mret k
  | None =>
    me ← whoami;
    k ← lift (jindex "key" me ≫= as_str);
    _ ← modify (λ cw : client * world, (Client (cl_identity cw.1) (cl_screen cw.1) (Some k), cw.2));
    mret k
  end.
Definition add_contact (buddy_node_hex : string) : CL json := call "watch" [("to", JStr buddy_node_hex)].
Definition block (node_hex : string) : CL json := call "block" [("to", JStr node_hex)].
Definition unblock (node_hex : string) : CL json := call "unblock" [("to", JStr node_hex)].
Definition blocklist : CL json :=
  r ← call "blocklist" []; lift (get_or "blocked" (JArr []) r).

Definition send (buddy_client_hex buddy_node_hex text : string) (ts : Z) : CL json :=
  c ← self;
  r ← io draw;
  payload ← lift (seal_message (cl_identity c) buddy_client_hex text ts (Some (cl_screen c)) None None r);
  call "send" [("to", JStr buddy_node_hex); ("payload", JStr payload)].

Definition send_file (buddy_node_hex payload_b64 : string) : CL json :=
  call "sendfile" [("to", JStr buddy_node_hex); ("payload", JStr payload_b64)].

(** The loop of the two room senders: skip ourselves, otherwise seal, send
    and note the sequence number under the member's node. *)
Fixpoint fan_out (my_node : string) (seal : json → nat → result string) (op : string)
    (members : list json) (seqs : list (string * json)) : CL (list (string * json)) :=
  match members with
  | [] => mret seqs
  | m :: members =>
    node ← lift (jindex "node" m);
    if json_is_str my_node node then fan_out my_node seal op members seqs
    else
      r ← io draw;
      payload ← lift (seal m r);
      resp ← call op [("to", node); ("payload", JStr payload)];
      seq ← lift (get_or "seq" (JInt 0) resp);
      n ← lift (as_str node);
      fan_out my_node seal op members (dict_set n seq seqs)
  end.

Definition send_file_room (members : list json) (conv : string) (chunk : list (string * json))
    : CL (list (string * json)) :=
  my_node ← node_key;
  c ← self;
  let body := dict_set "conv" (JStr conv) chunk in
  header ← lift (tid ← jindex "transfer_id" (JObj body) ≫= json_fromhex;
                 index ← chunk_int "index" body;
                 total ← chunk_int "total" body;
                 file_header tid index total);
  let seal m r :=
    pk ← jindex "pubkey" m ≫= as_str;
    sealed ← seal_file_chunk (cl_identity c) pk body r;
    Ok (b64encode (header ++ sealed)) in
  fan_out my_node seal "sendfile" members [].

Definition pending_attachments (node_hex : string) : CL json :=
  r ← call "pendingattachments" [("from", JStr node_hex)]; lift (get_or "transfers" (JArr []) r).
Definition fetch_attachment (node_hex tid : string) : CL json :=
  r ← call "fetchattachment" [("from", JStr node_hex); ("tid", JStr tid)];
  lift (get_or "chunks" (JArr []) r).
Definition ack_attachment (node_hex tid : string) : CL json :=
  call "ackfile" [("from", JStr node_hex); ("tid", JStr tid)].

Definition triplet (m : json) : result json :=
  node ← jindex "node" m;
  pubkey ← jindex "pubkey" m;
  screen ← get_or "screen" (JStr "") m;
  Ok (JObj [("node", node); ("pubkey", pubkey); ("screen", screen)]).

Definition send_room (members : list json) (conv text : string) (ts : Z) : CL (list (string * json)) :=
  triplets ← lift (map_result triplet members);
  my_node ← node_key;
  c ← self;
  let seal m r :=
    pk ← jindex "pubkey" m ≫= as_str;
    seal_message (cl_identity c) pk text ts (Some (cl_screen c)) (Some conv)
      (Some (JArr triplets)) r in
  fan_out my_node seal "send" triplets [].

Definition set_status (buddy_client_hex buddy_node_hex : string) (away : json) : CL json :=
  c ← self;
  now ← io (gets w_now);
  r ← io draw;
  payload ← lift (seal_status (cl_identity c) buddy_client_hex (cl_screen c) away now r);
  call "setstatus" [("to", JStr buddy_node_hex); ("payload", JStr payload)].

Definition history (buddy_node_hex : string) (after_seq : Z) : CL json :=
  call "history" [("from", JStr buddy_node_hex); ("seq", JInt after_seq)].
Definition presence : CL json := r ← call "presence" []; lift (get_or "presence" (JArr []) r).

Definition decrypt_recv (identity : bytes) (event : json) : result (list (string * json)) :=
  payload ← jindex "payload" event ≫= as_str; open_message identity payload.
Definition decrypt_status (identity : bytes) (payload_b64 : string) : result (list (string * json)) :=
  open_status identity payload_b64.
End Client.

(** ** Properties of the room senders *)

Section ClientProps.
Context `{N : NaCl} `{J : JsonCodec} `{D : Daemon}.

Lemma fan_out_keys my_node seal op members seqs s seqs' s' :
  fan_out my_node seal op members seqs s = (Ok seqs', s') →
  ∀ n, n ∈ seqs'.*1 ↔ n ∈ seqs.*1 ∨ n ≠ my_node ∧ ∃ m, m ∈ members ∧ jindex "node" m = Ok (JStr n).
Proof.
  revert seqs s. induction members as [|m members IH]; intros seqs s; cbn [fan_out].
  - intros [= <- <-] n. set_solver.
  - intros (node&s1&Hnode&H)%M_bind_Ok. unfold lift in Hnode. injection Hnode as Hnode <-.
    destruct (json_is_str my_node node) eqn:Hme.
    + intros n. rewrite (IH _ _ H). destruct node; try done. cbn in Hme.
      apply bool_decide_eq_true in Hme as ->. split; [set_solver|].
      intros [|[Hn (m'&Hm'&Hk)]]; [by left|]. apply elem_of_cons in Hm' as [->|]; [congruence|set_solver].
    + apply M_bind_Ok in H as (r&s2&_&H). apply M_bind_Ok in H as (payload&s3&_&H).
      apply M_bind_Ok in H as (resp&s4&_&H). apply M_bind_Ok in H as (seq&s5&_&H).
      apply M_bind_Ok in H as (n0&s6&Hn0&H). unfold lift in Hn0. injection Hn0 as Hn0 <-.
      destruct node; try done. injection Hn0 as ->. cbn in Hme. apply bool_decide_eq_false in Hme.
      intros n. rewrite (IH _ _ H), dict_set_keys. split.
      * intros [[->|]|[? (m'&?&?)]]; [right; split; [done|]; exists m; set_solver|by left|].
        right. split; [done|]. exists m'. set_solver.
      * intros [|[Hn (m'&Hm'&Hk)]]; [by left; right|].
        apply elem_of_cons in Hm' as [->|]; [left; left; congruence|right; eauto].
Qed.

Lemma triplets_nodes members triplets :
  map_result triplet members = Ok triplets →
  ∀ n, (∃ m, m ∈ members ∧ jindex "node" m = Ok (JStr n)) ↔
       (∃ m, m ∈ triplets ∧ jindex "node" m = Ok (JStr n)).
Proof.
  revert triplets. induction members as [|m members IH]; intros triplets; cbn.
  - intros [= <-]. set_solver.
  - intros H. inv_ok. rename x into t, x0 into ts. intros n.
    assert (Ht : jindex "node" t = jindex "node" m).
    { match goal with H : triplet m = Ok t |- _ => unfold triplet in H end. inv_ok.
      match goal with H : jindex "node" m = Ok _ |- _ => rewrite H end. done. }
    specialize (IH ts ltac:(done) n). split.
    + intros (m'&[->|Hm']%elem_of_cons&Hk); [exists t; rewrite Ht; set_solver|].
      destruct (proj1 IH) as (t'&?&?); [eauto|]. exists t'. set_solver.
    + intros (t'&[->|Ht']%elem_of_cons&Hk); [exists m; rewrite <-Ht; set_solver|].
      destruct (proj2 IH) as (m'&?&?); [eauto|]. exists m'. set_solver.
Qed.

Lemma node_key_cached s k s' : node_key s = (Ok k, s') → cl_node_key s'.1 = Some k.
Proof.
  destruct s as [c w]. unfold node_key. intros (c'&s1&Hc&H)%M_bind_Ok.
  injection Hc as <- <-. cbn in H. destruct (cl_node_key c) as [k'|] eqn:Hk.
  - by injection H as -> <-.
  - apply M_bind_Ok in H as (me&s2&_&H). apply M_bind_Ok in H as (k1&s3&_&H).
    apply M_bind_Ok in H as ([]&s4&Hm&H). injection Hm as <-. by injection H as -> <-.
Qed.

(** A text or a file chunk sent to a room goes to every member's node
    except our own: the nodes for which a sequence number comes back are
    exactly those. *)
Theorem room_send_targets members conv text ts chunk s seqs s' :
  send_room members conv text ts s = (Ok seqs, s') ∨
  send_file_room members conv chunk s = (Ok seqs, s') →
  ∃ my_node, (∃ s0, node_key s = (Ok my_node, s0)) ∧
    ∀ n, n ∈ seqs.*1 ↔ n ≠ my_node ∧ ∃ m, m ∈ members ∧ jindex "node" m = Ok (JStr n).
Proof.
  intros [H|H].
  - unfold send_room in H. apply M_bind_Ok in H as (triplets&s1&Ht&H).
    unfold lift in Ht. injection Ht as Ht <-.
    apply M_bind_Ok in H as (my_node&s2&Hk&H). apply M_bind_Ok in H as (c&s3&_&H).
    exists my_node. split; [eauto|]. intros n. rewrite (fan_out_keys _ _ _ _ _ _ _ _ H).
    rewrite (triplets_nodes _ _ Ht n). set_solver.
  - unfold send_file_room in H. apply M_bind_Ok in H as (my_node&s2&Hk&H).
    apply M_bind_Ok in H as (c&s3&_&H). apply M_bind_Ok in H as (header&s4&_&H).
    exists my_node. split; [eauto|]. intros n. rewrite (fan_out_keys _ _ _ _ _ _ _ _ H). set_solver.
Qed.
End ClientProps.

Section ClientWitness.
Local Instance dw_json : JsonCodec := RefCodec.
Local Instance dw_nacl : NaCl := RefNaCl.
(** a daemon that numbers what it queues *)
Local Instance counting_daemon : Daemon := {|
  dstate := Z; d_connect _ _ := Ok tt;
  d_request op fields d := (Ok (JObj [("op", JStr "queued"); ("seq", JInt d)]), d + 1) |}.
Definition room_world : @world counting_daemon := World ∅ ∅ "/h" 0 0 [] [] [] 7.
Definition room_members : list json :=
  [JObj [("node", JStr "me"); ("pubkey", JStr (hex (replicate 32 Byte.x01)))];
   JObj [("node", JStr "n1"); ("pubkey", JStr (hex (replicate 32 Byte.x02)))]].

Example room_send_targets_witness :
  let s := (Client (replicate 32 Byte.x01) "al" (Some "me"), room_world) in
  ∃ s', send_room room_members "room" "hi" 1 s = (Ok [("n1", JInt 7)], s') ∧
    ∃ my_node, (∃ s0, node_key s = (Ok my_node, s0)) ∧
      ∀ n, n ∈ ["n1"] ↔ n ≠ my_node ∧ ∃ m, m ∈ room_members ∧ jindex "node" m = Ok (JStr n).
Proof.
  intros s. eexists. split; [vm_compute; reflexivity|].
  apply (room_send_targets room_members "room" "hi" 1 [] s [("n1", JInt 7)]
    (send_room room_members "room" "hi" 1 s).2). left. vm_compute. reflexivity.
Defined.
End ClientWitness.
