(* ===== verification/Reconnect.v ===== *)
(** * daemon.py: the threads of the daemon connection

    The reader thread, any number of requests and [close()] over one
    [DaemonClient], as a step function: each step is one access to an
    attribute, an event, a queue or a lock that the threads share, and the
    label says which thread moves and what the operating system answers it.
    The queues and what a line or a reply does to them are [DaemonClient.Conn]'s. *)

From S2P Require Import Prelude PyStr Codec Json Sys DaemonClient.
Import Conn.
Local Open Scope nat_scope.

(** ** State *)

(** A socket object: made, connected, shut down, closed. *)
Inductive sockstate := Fresh | Connected | Shut | Closed.

#[global] Instance sockstate_eq_dec : EqDecision sockstate.
Proof. solve_decision. Defined.

(** The attributes of the client that say which socket is in use; sockets
    are numbered in the order [_connect] makes them. *)
Record net := Net {
  stopped : bool;          (* _stop *)
  sock : option nat;       (* _sock *)
  sockfile : option nat;   (* _sockfile *)
  generation : nat;        (* _generation *)
  socks : list sockstate;
}.

Definition set_stopped b n := Net b (sock n) (sockfile n) (generation n) (socks n).
Definition set_sock o n := Net (stopped n) o (sockfile n) (generation n) (socks n).
Definition set_sockfile o n := Net (stopped n) (sock n) o (generation n) (socks n).
Definition next_generation n := Net (stopped n) (sock n) (sockfile n) (S (generation n)) (socks n).
Definition set_state k x n := Net (stopped n) (sock n) (sockfile n) (generation n) (<[k := x]> (socks n)).
Definition new_socket n :=
  Net (stopped n) (Some (length (socks n))) (sockfile n) (generation n) (socks n ++ [Fresh]).

Definition connected (k : nat) (n : net) : bool := bool_decide (socks n !! k = Some Connected).

(** What all threads share: the queues, the sockets, who holds which lock, and
    the log of the request lines written, oldest first: (request, socket). *)
Record shared := Shared {
  con : conn;
  nt : net;
  roundtrip_lock : option nat;
  send_lock : option nat;
  sends : list (nat * nat);
}.
Definition set_con c h := Shared c (nt h) (roundtrip_lock h) (send_lock h) (sends h).
Definition set_net n h := Shared (con h) n (roundtrip_lock h) (send_lock h) (sends h).
Definition set_roundtrip o h := Shared (con h) (nt h) o (send_lock h) (sends h).
Definition set_send_lock o h := Shared (con h) (nt h) (roundtrip_lock h) o (sends h).
Definition log_send i k h := Shared (con h) (nt h) (roundtrip_lock h) (send_lock h) (sends h ++ [(i, k)]).

(** What the outside answers to a step: whether a call of the system succeeds
    (or a deadline has not passed), and the line that [readline] returns. *)
Record env := Env { ok : bool; line : string }.

(** ** [_close_socket], run by the reader and by [close()] *)

(** [CsSock] to [CsClose] carry the local variable [sock]. *)
Inductive closing := CsLoad | CsSock (s : option nat) | CsFile (s : option nat)
  | CsShut (k : nat) | CsClose (k : nat) | CsDone.

(** [shutdown] of a socket that is not connected raises, and is ignored. *)
Definition _close_socket (n : net) (p : closing) : option (net * closing) :=
  match p with
  | CsLoad => Some (n, CsSock (sock n))
  | CsSock s => Some (set_sock None n, CsFile s)
  | CsFile s => Some (set_sockfile None n, match s with Some k => CsShut k | None => CsDone end)
  | CsShut k => Some (if connected k n then set_state k Shut n else n, CsClose k)
  | CsClose k => Some (set_state k Closed n, CsDone)
  | CsDone => None
  end.

(** ** The reader thread *)

(** Where [_read_loop] is; [Re...] is [_reader_reconnect], [ReMake] to [ReGen]
    the [_connect] it calls. [Reading k] is blocked in [readline] on the
    file of socket [k]. *)
Inductive reader :=
  | Top | TestWant | TestSock
  | ReClose (p : closing) | ReTop | ReMake | ReConnect | ReConnecting (k : nat)
  | ReFile | ReGen | ReClear | ReWait
  | Read | Reading (k : nat)
  | Ended | Crashed.

Section Steps.
Context `{J : JsonCodec}.

(** The four statements of [_connect], an [OSError] of which the caller
    treats as [ReWait]; an [AttributeError] on a socket that is gone is not
    caught. *)
Definition _connect (e : env) (n : net) (r : reader) : net * reader :=
  match r with
  | ReMake => if ok e then (new_socket n, ReConnect) else (n, ReWait)
  | ReConnect => (n, match sock n with Some k => ReConnecting k | None => Crashed end)
  | ReConnecting k =>
    if ok e && bool_decide (socks n !! k = Some Fresh) then (set_state k Connected n, ReFile) else (n, ReWait)
  | ReFile => match sock n with Some k => (set_sockfile (Some k) n, ReGen) | None => (n, Crashed) end
  | ReGen => (next_generation n, ReClear)
  | _ => (n, r)
  end.

Definition _reader_reconnect (e : env) (h : shared) (r : reader) : shared * reader :=
  let n := nt h in
  match r with
  | ReClose p =>
    match _close_socket n p with
    | Some (n, p) => (set_net n h, ReClose p)
    | None => (h, ReTop)
    end
  | ReTop => (h, if stopped n then Ended else ReMake)
  | ReClear => (set_con (set_want false (con h)) h, Top)
  | ReWait => (h, if stopped n then Ended else ReTop)
  | _ => let '(n, r) := _connect e n r in (set_net n h, r)
  end.

Definition _read_loop (e : env) (h : shared) (r : reader) : option (shared * reader) :=
  let n := nt h in
  match r with
  | Top => Some (h, if stopped n then Ended else TestWant)
  | TestWant => Some (h, if want_reconnect (con h) then ReClose CsLoad else TestSock)
  | TestSock => Some (h, match sock n with None => ReClose CsLoad | Some _ => Read end)
  | Read =>
    match sockfile n with
    | Some k => Some (h, Reading k)
    | None => Some (set_con (set_want true (con h)) h, Top) (* AttributeError *)
    end
  | Reading _ =>
    match read_line (line e) (con h) with
    | Ok c => Some (set_con c h, Top)
    | Raise _ => Some (h, Crashed)
    end
  | Ended | Crashed => None
  | _ => Some (_reader_reconnect e h r)
  end.

(** ** Requests *)

(** Where a request is: waiting for the round-trip lock, before the loop, at
    the two tests of its first condition, in the wait for another
    generation, waiting for the send lock, at and inside [sendall], at the
    assignment after it, in its [except] clause, in the wait after a failed
    send, at the receiving end, over. *)
Inductive qpc :=
  | QLock | QStart | QSock | QWant | QWait | QSendLock | QSend | QSending (k : nat)
  | QGen | QFail | QWait2 | QRecv | QDone (r : result json).

(** The local variables of a request. [q_first] is the generation it began
    with. *)
Record req := Req {
  q_op : string; q_id : string; q_mux : bool;
  q_sent : bool; q_gen : nat; q_first : nat; q_pc : qpc;
}.
Definition at_pc p q := Req (q_op q) (q_id q) (q_mux q) (q_sent q) (q_gen q) (q_first q) p.
Definition set_sent b q := Req (q_op q) (q_id q) (q_mux q) b (q_gen q) (q_first q) (q_pc q).
Definition set_gen g q := Req (q_op q) (q_id q) (q_mux q) (q_sent q) g (q_first q) (q_pc q).
Definition started g q := Req (q_op q) (q_id q) (q_mux q) false g g (q_pc q).

(** A turn of [_wait_generation_change]: [None] to sleep and look again. *)
Definition _wait_generation_change (e : env) (n : net) (old_gen : nat) : option bool :=
  if ok e && negb (stopped n) then if bool_decide (generation n = old_gen) then None else Some true
  else Some false.

(** The mailbox of a correlated request is dropped, the lock of the other
    path released, however the request ends. *)
Definition finish (r : result json) (h : shared) (q : req) : shared * req :=
  (if q_mux q then set_con (set_pending (delete (q_id q) (pending (con h))) (con h)) h
   else set_roundtrip None h,
   at_pc (QDone r) q).

(** [request(op)]: the path is chosen and the id allotted. *)
Definition request (op : string) (h : shared) : shared * req :=
  let mux := multiplex (con h) in
  let '(rid, c) := _new_id (con h) in
  (set_con (if mux then set_pending (<[rid := []]> (pending c)) c else c) h,
   Req op rid mux false 0 0 (if mux then QStart else QLock)).

(** The next step of request number [i]; [None] while a lock is taken. *)
Definition request_step (e : env) (i : nat) (h : shared) (q : req) : option (shared * req) :=
  let n := nt h in
  let send := if q_mux q then QSendLock else QSend in
  match q_pc q with
  | QLock =>
    match roundtrip_lock h with
    | None => Some (set_roundtrip (Some i) h, at_pc QStart q)
    | Some _ => None
    end
  | QStart => Some (h, at_pc QSock (started (generation n) q))
  | QSock => Some (h, at_pc (match sock n with None => QWait | Some _ => QWant end) q)
  | QWant =>
    Some (h, at_pc (if want_reconnect (con h) then QWait else if q_sent q then QRecv else send) q)
  | QWait =>
    match _wait_generation_change e n (q_gen q) with
    | None => Some (h, q)
    | Some false => Some (finish (unreachable (q_op q)) h q)
    | Some true => Some (h, at_pc send (set_sent false q))
    end
  | QSendLock =>
    match send_lock h with
    | None => Some (set_send_lock (Some i) h, at_pc QSend q)
    | Some _ => None
    end
  | QSend => Some (h, at_pc (match sock n with Some k => QSending k | None => QFail end) q)
  | QSending k =>
    if ok e && connected k n then Some (log_send i k h, at_pc QGen (set_sent true q))
    else Some (h, at_pc QFail q)
  | QGen =>
    Some (if q_mux q then set_send_lock None h else h, at_pc QRecv (set_gen (generation n) q))
  | QFail =>
    let h := set_con (set_want true (con h)) h in
    Some (if q_mux q then set_send_lock None h else h, at_pc QWait2 (set_sent false q))
  | QWait2 =>
    match _wait_generation_change e n (q_gen q) with
    | None => Some (h, q)
    | Some false => Some (finish (unreachable (q_op q)) h q)
    | Some true => Some (h, at_pc QSock q)
    end
  | QRecv =>
    match (if q_mux q then multiplex_recv (q_id q) (q_op q) (ok e) (con h)
           else legacy_recv (q_op q) (ok e) (con h)) with
    | Again c => Some (set_con c h, at_pc QSock q)
    | Done r c => Some (finish r (set_con c h) q)
    end
  | QDone _ => None
  end.

(** ** The whole client *)

Record threads := Running { sh : shared; rd : reader; cl : option closing; reqs : list req }.

Inductive label :=
  | LReader (e : env) | LRequest (op : string) | LStep (i : nat) (e : env) | LClose | LNext.

(** [close()] sets the stop flag, then closes the socket as the reader does.
    [LNext] is [next_event(0)]. *)
Definition close (h : shared) : shared * closing := (set_net (set_stopped true (nt h)) h, CsLoad).

Definition step (l : label) (s : threads) : option threads :=
  match l with
  | LReader e => '(h, r) ← _read_loop e (sh s) (rd s); Some (Running h r (cl s) (reqs s))
  | LRequest op => let '(h, q) := request op (sh s) in Some (Running h (rd s) (cl s) (reqs s ++ [q]))
  | LStep i e =>
    q ← reqs s !! i;
    '(h, q) ← request_step e i (sh s) q;
    Some (Running h (rd s) (cl s) (<[i := q]> (reqs s)))
  | LClose =>
    match cl s with
    | None => let '(h, p) := close (sh s) in Some (Running h (rd s) (Some p) (reqs s))
    | Some p =>
      '(n, p) ← _close_socket (nt (sh s)) p;
      Some (Running (set_net n (sh s)) (rd s) (Some p) (reqs s))
    end
  | LNext =>
    let '(_, c) := next_event (con (sh s)) in Some (Running (set_con c (sh s)) (rd s) (cl s) (reqs s))
  end.

(** [DaemonClient(socket_path)] after the first [_connect], which raised
    otherwise: the reader starts. *)
Definition connection : threads :=
  Running (Shared (MkConn [] [] [] 0 ∅ false false) (Net false (Some 0) (Some 0) 1 [Connected]) None None [])
    Top None [].

Inductive reachable : threads → Prop :=
  | reach_start : reachable connection
  | reach_step s l s' : reachable s → step l s = Some s' → reachable s'.

Fixpoint run (ls : list label) (s : threads) : option threads :=
  match ls with [] => Some s | l :: ls => s' ← step l s; run ls s' end.

Lemma run_reachable ls s s' : reachable s → run ls s = Some s' → reachable s'.
Proof.
  revert s. induction ls as [|l ls IH]; cbn; intros s Hs; [by intros [= <-]|].
  destruct (step l s) as [s1|] eqn:E; [|done]. cbn. apply IH. by econstructor.
Qed.
End Steps.
