(* ===== verification/ReconnectProps.v ===== *)
(** * The daemon connection: what holds whatever the threads do

    Rule induction over the steps of [Reconnect.v]: the socket the reader reads
    is the one the requests write and the only one open, locks exclude,
    replies go to the request they name, and a request is written at most once
    per connection it lives through. Then what is lost in the races the locks do
    not cover, as runs. *)

From S2P Require Import Prelude PyStr Codec Json Sys DaemonClient Reconnect.
Import Conn.
Local Open Scope nat_scope.

Section Props.
Context `{J : JsonCodec}.

(** ** Frames *)

Lemma request_step_same e i h q h' q' :
  request_step e i h q = Some (h', q') →
  nt h' = nt h ∧ q_id q' = q_id q ∧ q_op q' = q_op q ∧ q_mux q' = q_mux q.
Proof.
  unfold request_step, finish. intros H.
  repeat case_match; simplify_eq; cbn; done.
Qed.

Lemma _connect_generation e n r : generation n ≤ generation (_connect e n r).1.
Proof. destruct r; cbn; repeat case_match; cbn; lia. Qed.

Lemma _close_socket_frame n p n' p' :
  _close_socket n p = Some (n', p') → generation n' = generation n ∧ stopped n' = stopped n.
Proof. destruct p; cbn; intros; simplify_eq; try case_match; done. Qed.

Lemma _read_loop_frame e h r h' r' :
  _read_loop e h r = Some (h', r') →
  sends h' = sends h ∧ roundtrip_lock h' = roundtrip_lock h ∧ send_lock h' = send_lock h ∧
  generation (nt h) ≤ generation (nt h') ∧ stopped (nt h') = stopped (nt h).
Proof.
  intros H. assert (stopped (nt h') = stopped (nt h) ∧ generation (nt h) ≤ generation (nt h')) as [? ?].
  { destruct r as [| | |[]| | | | | | | | | | | |]; cbn in H; repeat case_match; simplify_eq; cbn; (split; [done|lia]). }
  repeat split; try done;
  destruct r as [| | |[]| | | | | | | | | | | |]; cbn in H; repeat case_match; by simplify_eq.
Qed.

(** ** The sockets *)

Definition lone (k : nat) (n : net) : Prop := ∀ j, socks n !! j = Some Connected ↔ j = k.
Definition none_open (n : net) : Prop := ∀ j, socks n !! j ≠ Some Connected.
Definition live_on (k : nat) (n : net) : Prop := sock n = Some k ∧ sockfile n = Some k ∧ lone k n.
Definition between (n : net) : Prop := none_open n ∧ sockfile n = None.

(** What the reader's place says of the sockets, before [close()]. *)
Definition reader_inv (n : net) (r : reader) : Prop :=
  match r with
  | Top | TestWant | TestSock | Read | ReGen | ReClear | ReClose CsLoad => ∃ k, live_on k n
  | Reading k => live_on k n
  | ReClose (CsSock s) => ∃ k, s = Some k ∧ live_on k n
  | ReClose (CsFile s) => ∃ k, s = Some k ∧ lone k n
  | ReClose (CsShut k) => lone k n ∧ sockfile n = None
  | ReClose (CsClose _) | ReClose CsDone | ReTop | ReMake | ReWait => between n
  | ReConnect => between n ∧ ∃ k, sock n = Some k ∧ socks n !! k = Some Fresh
  | ReConnecting k => between n ∧ sock n = Some k ∧ socks n !! k = Some Fresh
  | ReFile => ∃ k, sock n = Some k ∧ lone k n
  | Ended => False
  | Crashed => ∃ k, live_on k n
  end.

Lemma lone_connected k n : lone k n → connected k n = true.
Proof. intros H. apply bool_decide_eq_true. by apply H. Qed.

Lemma none_open_state k x n : none_open n → x ≠ Connected → none_open (set_state k x n).
Proof. intros Hn Hx j. cbn. rewrite list_lookup_insert. case_decide; [naive_solver|apply Hn]. Qed.

Lemma lone_shut k n : lone k n → none_open (set_state k Shut n).
Proof.
  intros Hn j. cbn. rewrite list_lookup_insert. case_decide as Hj; [naive_solver|].
  intros Hc. pose proof Hc as ->%Hn. apply Hj. split; [done|]. by eapply lookup_lt_Some.
Qed.

Lemma none_open_connect k n :
  none_open n → socks n !! k = Some Fresh → lone k (set_state k Connected n).
Proof.
  intros Hn Hk j. cbn. rewrite list_lookup_insert. case_decide as Hj; [naive_solver|].
  split; [by intros ?%Hn|]. intros ->. exfalso. apply Hj. split; [done|]. by eapply lookup_lt_Some.
Qed.

Lemma none_open_new n : none_open n → none_open (new_socket n).
Proof.
  intros Hn j. cbn. rewrite lookup_app. case_match eqn:E; [rewrite <-E; apply Hn|].
  intros ?%list_elem_of_lookup_2. set_solver.
Qed.

Lemma new_socket_fresh n : socks (new_socket n) !! length (socks n) = Some Fresh.
Proof. cbn. by rewrite list_lookup_middle. Qed.

Lemma _read_loop_inv e h r h' r' :
  _read_loop e h r = Some (h', r') → stopped (nt h) = false →
  reader_inv (nt h) r → reader_inv (nt h') r'.
Proof.
  intros H Hs. destruct r as [| | |[]| | | | | | | | | | | |]; cbn in H; rewrite ?Hs in H.
  all: repeat (case_match || simplify_eq); cbn; unfold live_on, between; try naive_solver.
  all: try (intros [Hn Hf]).
  - pose proof (lone_shut _ _ Hn). done.
  - rewrite lone_connected in * by done. done.
  - split; [|done]. by apply none_open_state.
  - split; [split; [by apply none_open_new|done]|]. eexists. split; [done|]. apply new_socket_fresh.
  - destruct Hf as [Hk Hf]. eexists. split; [done|]. apply none_open_connect; [apply Hn|done].
Qed.

(** ** Requests *)

(** How often the line of request [i] has been written. *)
Definition written (i : nat) (h : shared) : nat := length (filter (λ p : nat * nat, p.1 = i) (sends h)).

(** The number of lines written, against the generations gone by. *)
Definition bound_inv (g m : nat) (q : req) : Prop :=
  match q_pc q with
  | QLock | QStart => m = 0
  | QSock | QWant | QWait =>
    if q_sent q then m + q_first q ≤ S (q_gen q) ∧ q_gen q ≤ g else m + q_first q ≤ g
  | QSendLock | QSend | QSending _ | QFail => m + q_first q ≤ g
  | QWait2 => q_sent q = false ∧ m + q_first q ≤ g
  | QRecv => q_sent q = true ∧ m + q_first q ≤ S (q_gen q) ∧ q_gen q ≤ g
  | QGen => q_sent q = true ∧ m + q_first q ≤ S g
  | QDone _ => m + q_first q ≤ S g
  end.

Lemma bound_inv_mono g g' m q : g ≤ g' → bound_inv g m q → bound_inv g' m q.
Proof. unfold bound_inv. repeat case_match; intros; destruct_and?; split_and?; done || lia. Qed.

Lemma written_log i j k h : written i (log_send j k h) = written i h + (if decide (j = i) then 1 else 0).
Proof.
  unfold written, log_send. cbn. rewrite filter_app, length_app, filter_cons. cbn.
  by destruct (decide (j = i)).
Qed.

Lemma _wait_true e n g : _wait_generation_change e n g = Some true → generation n ≠ g.
Proof. unfold _wait_generation_change. repeat case_match; try done. by case_bool_decide. Qed.

Lemma request_step_sends e i h q h' q' :
  request_step e i h q = Some (h', q') →
  sends h' = sends h ∨ ∃ k, sends h' = sends h ++ [(i, k)] ∧ q_pc q = QSending k.
Proof.
  unfold request_step, finish. intros H. repeat case_match; simplify_eq; cbn; eauto.
Qed.

(** The cases of a step that was taken. *)
Ltac step_cases H :=
  repeat match type of H with context [match ?x with _ => _ end] => destruct x eqn:? end;
  try discriminate H; injection H as <- <-.

Lemma request_step_bound e i h q h' q' :
  request_step e i h q = Some (h', q') →
  bound_inv (generation (nt h)) (written i h) q →
  bound_inv (generation (nt h')) (written i h') q'.
Proof.
  intros H HB. pose proof (request_step_same _ _ _ _ _ _ H) as [-> _].
  destruct q as [op rid mux sent g first pc]. unfold request_step, bound_inv, finish in *.
  destruct pc, sent; cbn -[_wait_generation_change legacy_recv multiplex_recv] in *; step_cases H; cbn -[written].
  all: repeat match goal with E : _wait_generation_change _ _ _ = Some true |- _ => apply _wait_true in E end.
  all: rewrite ?written_log, ?decide_True by done; repeat change (written i (_ ?b h)) with (written i h).
  all: try (unfold written in *; cbn; intuition (done || lia)).
Qed.

(** How a request may end. *)
Definition verdict (q : req) (r : result json) : Prop :=
  r = unreachable (q_op q) ∨
  (if q_mux q
   then answers (q_op q) (λ msg, own_reply (q_id q) msg ∧ has_op "error" msg = false)
          (λ msg, own_reply (q_id q) msg ∧ has_op "error" msg = true) r
   else q_op q ≠ "error" →
        answers (q_op q) (λ msg, has_op (default (q_op q) (dict_get (q_op q) RESPONSE_MAP)) msg = true ∧
                                 is_event msg = false) (λ _, False) r).

Definition verdict_inv (q : req) : Prop :=
  match q_pc q with QDone r => verdict q r | _ => True end.

Lemma mailboxes_ext c c' : pending c' = pending c → mailboxes_ok c → mailboxes_ok c'.
Proof. intros Hp Hok rid mb. rewrite Hp. apply Hok. Qed.

Lemma legacy_recv_pending op t c :
  match legacy_recv op t c with Again c' | Done _ c' => pending c' = pending c end.
Proof. unfold legacy_recv. repeat case_match; simplify_eq; done. Qed.

Lemma request_step_verdict e i h q h' q' :
  request_step e i h q = Some (h', q') → mailboxes_ok (con h) → mailboxes_ok (con h') ∧ verdict_inv q'.
Proof.
  intros H Hok. destruct q as [op rid mux sent g first pc]. unfold request_step, finish in *.
  assert (Hdel : ∀ c, mailboxes_ok c → mailboxes_ok (set_pending (delete rid (pending c)) c))
    by (intros; by apply mailboxes_delete).
  assert (Hext : ∀ c, pending c = pending (con h) → mailboxes_ok c) by (intros; by eapply mailboxes_ext).
  pose proof (multiplex_recv_spec rid op (ok e) (con h) Hok) as Hm.
  pose proof (legacy_recv_pending op (ok e) (con h)) as Hp.
  pose proof (legacy_recv_spec op (ok e) (con h)) as Hl.
  destruct pc, mux; cbn -[_wait_generation_change legacy_recv multiplex_recv] in *; step_cases H;
    repeat match goal with
      E : multiplex_recv _ _ _ _ = _ |- _ => rewrite E in Hm; clear E
    | E : legacy_recv _ _ _ = _ |- _ => rewrite E in Hp, Hl; clear E end;
    unfold verdict_inv, verdict; cbn.
  all: split; [by intuition auto|try (by auto)].
  - right. apply Hm.
  - right. by intros ?%Hl%proj2.
Qed.

(** *** Locks and mailboxes *)

(** [held l holds reqs]: the lock is held by the one request that [holds] it. *)
Definition held (l : option nat) (holds : req → bool) (reqs : list req) : Prop :=
  ∀ i, l = Some i ↔ ∃ q, reqs !! i = Some q ∧ holds q = true.

Definition in_roundtrip (q : req) : bool :=
  negb (q_mux q) && match q_pc q with QLock | QDone _ => false | _ => true end.
Definition in_send (q : req) : bool :=
  q_mux q && match q_pc q with QSend | QSending _ | QGen | QFail => true | _ => false end.
Definition running (q : req) : bool :=
  q_mux q && match q_pc q with QDone _ => false | _ => true end.

(** A request changes a lock only by taking it free or by leaving it. *)
Definition handover (l l' : option nat) (i : nat) (b b' : bool) : Prop :=
  (l' = l ∧ b' = b) ∨ (l = None ∧ l' = Some i ∧ b' = true) ∨ (b = true ∧ l' = None ∧ b' = false).

Lemma held_update l l' holds reqs i q q' :
  held l holds reqs → reqs !! i = Some q → handover l l' i (holds q) (holds q') →
  held l' holds (<[i := q']> reqs).
Proof.
  intros Hl Hi Hh j. pose proof (Hl i) as Hli. pose proof (Hl j) as Hlj.
  rewrite list_lookup_insert. pose proof (lookup_lt_Some _ _ _ Hi) as Hlt.
  case_decide as Hij.
  - destruct Hij as [<- _]. destruct Hh as [[-> Hb]|[(->&->&Hb)|(Hb&->&Hb')]]; naive_solver congruence.
  - assert (i ≠ j) by naive_solver.
    destruct Hh as [[-> Hb]|[(->&->&Hb)|(Hb&->&Hb')]]; [done|naive_solver|].
    rewrite <-Hlj. split; [done|]. intros ->. naive_solver.
Qed.

Lemma held_new l holds reqs q : held l holds reqs → holds q = false → held l holds (reqs ++ [q]).
Proof.
  intros Hl Hq j. rewrite (Hl j). split; intros (q'&Hj&Hh); exists q'; (split; [|done]).
  - by apply lookup_app_l_Some.
  - apply lookup_app_Some in Hj as [?|[_ Hj]]; [done|]. apply list_lookup_singleton_Some in Hj as [_ ->].
    congruence.
Qed.

Lemma held_unique l holds reqs i j q q' :
  held l holds reqs → reqs !! i = Some q → holds q = true → reqs !! j = Some q' → holds q' = true → i = j.
Proof. intros Hl Hi Hq Hj Hq'. assert (l = Some i ∧ l = Some j) by (split; apply Hl; eauto). naive_solver. Qed.

(** Each path waits for its own lock. *)
Definition path_ok (q : req) : Prop :=
  match q_pc q with QLock => q_mux q = false | QSendLock => q_mux q = true | _ => True end.

Lemma request_step_locks e i h q h' q' :
  request_step e i h q = Some (h', q') → path_ok q →
  path_ok q' ∧
  handover (roundtrip_lock h) (roundtrip_lock h') i (in_roundtrip q) (in_roundtrip q') ∧
  handover (send_lock h) (send_lock h') i (in_send q) (in_send q').
Proof.
  intros H Hp. destruct q as [op rid mux sent g first pc]. unfold request_step, finish in *.
  destruct pc, mux; try done; cbn -[_wait_generation_change legacy_recv multiplex_recv] in *; step_cases H;
    unfold handover, in_roundtrip, in_send, path_ok; cbn; intuition done.
Qed.

Definition rid_of (i : nat) : string := "r" +:+ pretty (S i).

#[local] Instance rid_of_inj : Inj (=) (=) rid_of.
Proof. intros i j. unfold rid_of. intros H. apply (inj (String.app "r")) in H. by apply (inj pretty), (inj S) in H. Qed.

(** Requests are numbered by their ids, and the mailboxes are those of the
    correlated ones that are not over. *)
Definition ids_ok (c : conn) (reqs : list req) : Prop :=
  id_counter c = length reqs ∧ ∀ i q, reqs !! i = Some q → q_id q = rid_of i.
Definition owned (c : conn) (reqs : list req) : Prop :=
  ∀ rid, rid ∈ dom (pending c) ↔ ∃ i q, reqs !! i = Some q ∧ running q = true ∧ q_id q = rid.

Definition same_ids (c c' : conn) : Prop :=
  id_counter c' = id_counter c ∧ dom (pending c') = dom (pending c).

Lemma dom_insert_same {A} (m : gmap string A) k x y : m !! k = Some x → dom (<[k := y]> m) = dom m.
Proof. intros Hk. apply dom_insert_lookup_L. by eexists. Qed.

Lemma read_line_ids l c c' : read_line l c = Ok c' → same_ids c c'.
Proof.
  unfold read_line, same_ids. case_bool_decide; [by intros [= <-]|].
  destruct (json_loads l) as [msg|e]; [|by case_match; [intros [= <-]|]].
  intros []%dispatch_inv; [done| |done]. split; [done|]. by eapply dom_insert_same.
Qed.

Lemma legacy_recv_ids op t c :
  match legacy_recv op t c with Again c' | Done _ c' => id_counter c' = id_counter c end.
Proof. unfold legacy_recv. repeat case_match; simplify_eq; done. Qed.

Lemma multiplex_recv_ids rid op t c :
  match multiplex_recv rid op t c with Again c' | Done _ c' => same_ids c c' end.
Proof.
  unfold multiplex_recv, same_ids. repeat case_match; simplify_eq; try done;
    (split; [done|]; by eapply dom_insert_same).
Qed.

Lemma request_step_owner e i h q h' q' :
  request_step e i h q = Some (h', q') →
  id_counter (con h') = id_counter (con h) ∧
  ((dom (pending (con h')) = dom (pending (con h)) ∧ running q' = running q) ∨
   (dom (pending (con h')) = dom (pending (con h)) ∖ {[ q_id q ]} ∧ running q = true ∧ running q' = false)).
Proof.
  intros H. destruct q as [op rid mux sent g first pc]. unfold request_step, finish in *.
  pose proof (multiplex_recv_ids rid op (ok e) (con h)) as Hm.
  pose proof (legacy_recv_ids op (ok e) (con h)) as Hl.
  pose proof (legacy_recv_pending op (ok e) (con h)) as Hp.
  destruct pc, mux; cbn -[_wait_generation_change legacy_recv multiplex_recv] in *; step_cases H;
    repeat match goal with
      E : multiplex_recv _ _ _ _ = _ |- _ => rewrite E in Hm; clear E
    | E : legacy_recv _ _ _ = _ |- _ => rewrite E in Hl, Hp; clear E end;
    unfold running; cbn; rewrite ?dom_delete_L.
  all: try match type of Hm with same_ids _ ?c => destruct Hm as [-> ->] end.
  all: try match type of Hp with pending ?c = _ => rewrite Hl, Hp end.
  all: intuition done.
Qed.

Lemma owned_step i q q' c c' reqs :
  ids_ok c reqs → owned c reqs → reqs !! i = Some q → q_id q' = q_id q →
  (dom (pending c') = dom (pending c) ∧ running q' = running q) ∨
  (dom (pending c') = dom (pending c) ∖ {[ q_id q ]} ∧ running q = true ∧ running q' = false) →
  owned c' (<[i := q']> reqs).
Proof.
  intros [_ Hid] Ho Hi Hq Hc rid. pose proof (lookup_lt_Some _ _ _ Hi) as Hlt.
  assert (Hother : (∃ j p, <[i := q']> reqs !! j = Some p ∧ running p = true ∧ q_id p = rid) ↔
    (running q' = true ∧ q_id q = rid) ∨
    (∃ j p, j ≠ i ∧ reqs !! j = Some p ∧ running p = true ∧ q_id p = rid)).
  { split.
    - intros (j&p&Hj&Hr&Hp). rewrite list_lookup_insert in Hj. case_decide as E.
      + left. naive_solver congruence.
      + right. exists j, p. naive_solver.
    - intros [[Hr Hp]|(j&p&Hne&Hj&Hr&Hp)].
      + exists i, q'. rewrite list_lookup_insert_eq by done. by rewrite Hq.
      + exists j, p. by rewrite list_lookup_insert_ne. }
  rewrite Hother. destruct Hc as [[-> Hr]|(->&Hr&Hr')].
  - rewrite (Ho rid), Hr. split.
    + intros (j&p&Hj&?&?). destruct (decide (j = i)) as [->|]; [left; naive_solver|right; eauto 6].
    + intros [[? ?]|(j&p&_&?)]; eauto.
  - rewrite elem_of_difference, (Ho rid), elem_of_singleton. split.
    + intros [(j&p&Hj&?&?) Hne]. right. exists j, p. split; [|done]. naive_solver.
    + intros [[? ?]|(j&p&Hne&Hj&?&Hp)]; [congruence|]. split; [eauto|].
      intros ->. apply Hne, (inj rid_of). rewrite <-(Hid _ _ Hi), <-(Hid _ _ Hj). done.
Qed.

Lemma request_spec op h h' q :
  request op h = (h', q) →
  nt h' = nt h ∧ sends h' = sends h ∧ roundtrip_lock h' = roundtrip_lock h ∧ send_lock h' = send_lock h ∧
  q_op q = op ∧ q_id q = rid_of (id_counter (con h)) ∧ id_counter (con h') = S (id_counter (con h)) ∧
  (q_pc q = if q_mux q then QStart else QLock) ∧ q_mux q = multiplex (con h) ∧
  pending (con h') = if q_mux q then <[q_id q := []]> (pending (con h)) else pending (con h).
Proof.
  unfold request, _new_id. intros H. destruct (multiplex (con h)); injection H as <- <-; done.
Qed.

Lemma owned_new c c' reqs q :
  owned c reqs → running q = q_mux q →
  pending c' = (if q_mux q then <[q_id q := []]> (pending c) else pending c) →
  owned c' (reqs ++ [q]).
Proof.
  intros Ho Hr Hp rid.
  assert (Happ : (∃ i p, (reqs ++ [q]) !! i = Some p ∧ running p = true ∧ q_id p = rid) ↔
    (running q = true ∧ q_id q = rid) ∨ (∃ i p, reqs !! i = Some p ∧ running p = true ∧ q_id p = rid)).
  { split.
    - intros (i&p&[Hi|[_ Hi]]%lookup_app_Some&?&?); [right; eauto|].
      apply list_lookup_singleton_Some in Hi as [_ ->]. by left.
    - intros [[? ?]|(i&p&Hi&?)].
      + exists (length reqs), q. by rewrite list_lookup_middle.
      + exists i, p. split; [by apply lookup_app_l_Some|done]. }
  rewrite Happ, <-(Ho rid), Hp, Hr. destruct (q_mux q); [|naive_solver].
  rewrite dom_insert_L. set_solver.
Qed.

(** ** The invariant *)

Record inv (s : threads) : Prop := Inv {
  inv_net : stopped (nt (sh s)) = false → cl s = None ∧ reader_inv (nt (sh s)) (rd s);
  inv_bound : ∀ i q, reqs s !! i = Some q → bound_inv (generation (nt (sh s))) (written i (sh s)) q;
  inv_log : Forall (λ p, p.1 < length (reqs s)) (sends (sh s));
  inv_mailboxes : mailboxes_ok (con (sh s));
  inv_ids : ids_ok (con (sh s)) (reqs s);
  inv_owned : owned (con (sh s)) (reqs s);
  inv_reqs : ∀ i q, reqs s !! i = Some q → verdict_inv q ∧ path_ok q;
  inv_roundtrip : held (roundtrip_lock (sh s)) in_roundtrip (reqs s);
  inv_send : held (send_lock (sh s)) in_send (reqs s);
}.

Lemma inv_start : inv connection.
Proof.
  split; cbn.
  - intros _. split; [done|]. exists 0. split; [done|]. split; [done|]. intros [|j]; cbn; [done|].
    split; [done|lia].
  - by intros i q.
  - constructor.
  - intros rid mb. cbn. by rewrite lookup_empty.
  - split; [done|]. by intros i q.
  - intros rid. cbn. rewrite dom_empty_L. split; [set_solver|]. by intros (i&q&?&_).
  - by intros i q.
  - intros i. split; [done|]. by intros (q&?&_).
  - intros i. split; [done|]. by intros (q&?&_).
Qed.

(** A step of a thread other than the requests. *)
Lemma inv_other s h' r' c' :
  inv s → sends h' = sends (sh s) → roundtrip_lock h' = roundtrip_lock (sh s) → send_lock h' = send_lock (sh s) →
  generation (nt (sh s)) ≤ generation (nt h') → mailboxes_ok (con h') → same_ids (con (sh s)) (con h') →
  (stopped (nt h') = false → c' = None ∧ reader_inv (nt h') r') →
  inv (Running h' r' c' (reqs s)).
Proof.
  intros [Hn Hb Hlog Hm Hi Ho Hr Hrt Hsl] Hs Hrl Hl Hg Hm' [Hc Hd] Hn'. split; cbn.
  - done.
  - intros i q Hq. eapply bound_inv_mono; [exact Hg|]. unfold written. rewrite Hs. by apply Hb.
  - by rewrite Hs.
  - done.
  - destruct Hi as [Hi1 Hi2]. split; [congruence|done].
  - intros rid. rewrite Hd. apply Ho.
  - done.
  - by rewrite Hrl.
  - by rewrite Hl.
Qed.

Lemma _read_loop_con e h r h' r' :
  _read_loop e h r = Some (h', r') → mailboxes_ok (con h) → mailboxes_ok (con h') ∧ same_ids (con h) (con h').
Proof.
  intros H Hm. assert (con h' = con h ∨ pending (con h') = pending (con h) ∧ id_counter (con h') = id_counter (con h) ∨
    ∃ l, read_line l (con h) = Ok (con h')) as [->|[[Hp Hc]|[l Hl]]].
  { destruct r as [| | |[]| | | | | | | | | | | |]; cbn in H; step_cases H; cbn; eauto. }
  - done.
  - split; [by eapply mailboxes_ext|]. split; [done|by rewrite Hp].
  - split; [by eapply read_line_mailboxes|by eapply read_line_ids].
Qed.

Lemma inv_reader e s s' : step (LReader e) s = Some s' → inv s → inv s'.
Proof.
  intros H Hinv. cbn in H. destruct (_read_loop e (sh s) (rd s)) as [[h r]|] eqn:E; [|done].
  injection H as <-. pose proof (_read_loop_frame _ _ _ _ _ E) as (?&?&?&?&Hst).
  destruct (_read_loop_con _ _ _ _ _ E) as [? ?]; [apply Hinv|].
  apply inv_other; [done..|]. rewrite Hst. intros Hs. destruct (inv_net s Hinv Hs) as [? ?].
  split; [done|]. by eapply _read_loop_inv.
Qed.

Lemma inv_close s s' : step LClose s = Some s' → inv s → inv s'.
Proof.
  intros H Hinv. cbn in H. destruct (cl s) as [p|] eqn:Hc.
  - destruct (_close_socket (nt (sh s)) p) as [[n p']|] eqn:E; [|done]. injection H as <-.
    apply _close_socket_frame in E as [Hg Hst].
    apply inv_other; [done..| |apply Hinv|done|]; cbn; [lia|]. rewrite Hst. intros Hs.
    destruct (inv_net s Hinv Hs). congruence.
  - injection H as <-. apply inv_other; [done..|apply Hinv|done|done].
Qed.

Lemma inv_next s s' : step LNext s = Some s' → inv s → inv s'.
Proof.
  intros H Hinv. cbn in H. destruct (next_event (con (sh s))) as [o c] eqn:E. injection H as <-.
  assert (pending c = pending (con (sh s)) ∧ id_counter c = id_counter (con (sh s))) as [Hp Hc].
  { unfold next_event in E. case_match; by injection E as <- <-. }
  apply inv_other; [done..| | |apply Hinv]; cbn.
  - eapply mailboxes_ext; [exact Hp|apply Hinv].
  - split; [done|by rewrite Hp].
Qed.

Lemma written_other i j h h' :
  i ≠ j → sends h' = sends h ∨ (∃ k, sends h' = sends h ++ [(i, k)]) → written j h' = written j h.
Proof.
  unfold written. intros Hij [->|[k ->]]; [done|].
  by rewrite filter_app, filter_cons_False, filter_nil, app_nil_r.
Qed.

Lemma inv_step i e s s' : step (LStep i e) s = Some s' → inv s → inv s'.
Proof.
  intros H [Hn Hb Hlog Hm Hi Ho Hr Hrt Hsl]. cbn in H. destruct (reqs s !! i) as [q|] eqn:Hq; [|done].
  cbn in H. destruct (request_step e i (sh s) q) as [[h q']|] eqn:E; [|done]. injection H as <-.
  pose proof (request_step_same _ _ _ _ _ _ E) as (Hnt&Hid&_&_).
  destruct (request_step_owner _ _ _ _ _ _ E) as [Hic Hown].
  destruct (request_step_verdict _ _ _ _ _ _ E Hm) as [Hm' Hv].
  destruct (request_step_locks _ _ _ _ _ _ E) as (Hp&Hh1&Hh2); [by eapply Hr|].
  pose proof (request_step_sends _ _ _ _ _ _ E) as Hsends.
  split; cbn; try done.
  - by rewrite Hnt.
  - intros j p. rewrite list_lookup_insert. case_decide as Hj.
    + intros [= <-]. destruct Hj as [<- _]. eapply request_step_bound; [done|by apply Hb].
    + intros Hp'. assert (i ≠ j) by (intros ->; apply Hj; split; [done|by eapply lookup_lt_Some]).
      rewrite Hnt, (written_other i j (sh s) h) by (done || naive_solver). by apply Hb.
  - rewrite length_insert. destruct Hsends as [->|(k&->&_)]; [done|]. apply Forall_app. split; [done|].
    constructor; [by eapply lookup_lt_Some|constructor].
  - destruct Hi as [Hi1 Hi2]. split; [by rewrite Hic, length_insert|]. intros j p. rewrite list_lookup_insert.
    case_decide as Hj; [|apply Hi2]. intros [= <-]. destruct Hj as [<- _]. rewrite Hid. by apply Hi2.
  - eapply owned_step; [exact Hi|exact Ho|exact Hq|exact Hid|exact Hown].
  - intros j p. rewrite list_lookup_insert. case_decide as Hj; [by intros [= <-]|apply Hr].
  - eapply held_update; [exact Hrt|exact Hq|exact Hh1].
  - eapply held_update; [exact Hsl|exact Hq|exact Hh2].
Qed.

Lemma written_fresh n h : Forall (λ p : nat * nat, p.1 < n) (sends h) → written n h = 0.
Proof.
  unfold written. induction 1 as [|p l Hp _ IH]; [done|]. rewrite filter_cons_False; [done|lia].
Qed.

Lemma inv_request op s s' : step (LRequest op) s = Some s' → inv s → inv s'.
Proof.
  intros H [Hn Hb Hlog Hm Hi Ho Hr Hrt Hsl]. unfold step in H. destruct (request op (sh s)) as [h q] eqn:E.
  injection H as <-. apply request_spec in E as (Hnt&Hs&H1&H2&Hop&Hid&Hic&Hpc&_&Hp).
  assert (Hlast : ∀ j p, (reqs s ++ [q]) !! j = Some p → reqs s !! j = Some p ∨ j = length (reqs s) ∧ p = q).
  { intros j p [?|[? Hj]]%lookup_app_Some; [by left|]. right.
    apply list_lookup_singleton_Some in Hj as [? ->]. split; [lia|done]. }
  assert (Hw : ∀ j, written j h = written j (sh s)) by (intros j; unfold written; by rewrite Hs).
  assert (Hpcs : q_pc q = QStart ∧ q_mux q = true ∨ q_pc q = QLock ∧ q_mux q = false)
    by (destruct (q_mux q); auto).
  destruct Hi as [Hi1 Hi2]. split; cbn -[written]; rewrite ?Hnt, ?H1, ?H2, ?Hs; try done.
  - intros j p [Hj|[-> ->]]%Hlast; rewrite Hw; [by apply Hb|].
    unfold bound_inv. destruct Hpcs as [[-> _]|[-> _]]; by apply written_fresh.
  - rewrite length_app. cbn. eapply Forall_impl; [exact Hlog|]. cbn. lia.
  - intros rid mb. rewrite Hp. destruct (q_mux q); [|apply Hm]. apply (mailboxes_insert _ [] _ Hm). constructor.
  - split; [rewrite length_app, Hic; cbn; lia|].
    intros j p [Hj|[-> ->]]%Hlast; [by apply Hi2|]. by rewrite Hid, Hi1.
  - eapply owned_new; [exact Ho| |exact Hp]. unfold running. destruct Hpcs as [[-> ->]|[-> ->]]; done.
  - intros j p [Hj|[-> ->]]%Hlast; [by eapply Hr|]. unfold verdict_inv, path_ok.
    destruct Hpcs as [[-> ?]|[-> ?]]; done.
  - apply held_new; [done|]. unfold in_roundtrip. destruct Hpcs as [[-> ->]|[-> ->]]; done.
  - apply held_new; [done|]. unfold in_send. destruct Hpcs as [[-> ->]|[-> ->]]; done.
Qed.

Lemma reachable_inv s : reachable s → inv s.
Proof.
  induction 1 as [|s [] s' _ IH H]; [apply inv_start|..].
  - by eapply inv_reader. - by eapply inv_request. - by eapply inv_step.
  - by eapply inv_close. - by eapply inv_next.
Qed.

(** ** What it gives *)

(** The reader is in [_reader_reconnect], or about to be. *)
Definition reconnecting (r : reader) : bool :=
  match r with
  | ReClose _ | ReTop | ReMake | ReConnect | ReConnecting _ | ReFile | ReGen | ReWait => true
  | _ => false
  end.

Lemma reader_inv_open n r : reader_inv n r → none_open n ∨ ∃ k, lone k n.
Proof.
  destruct r as [| | |[]| | | | | | | | | | | |]; cbn; unfold live_on, between;
    intros; destruct_and?; repeat match goal with H : ∃ _, _ |- _ => destruct H end; destruct_and?; first [done|eauto].
Qed.

(** C26: Until [close()], however requests, the reader and the daemon interleave,
    at most one socket is open; outside a reconnection it is the one the
    requests write to and the one whose file the reader reads, and a
    reader blocked in [readline] is blocked on it. *)
Theorem one_connection s :
  reachable s → stopped (nt (sh s)) = false →
  (∀ i j, connected i (nt (sh s)) = true → connected j (nt (sh s)) = true → i = j) ∧
  (reconnecting (rd s) = false → ∃ k, sock (nt (sh s)) = Some k ∧ sockfile (nt (sh s)) = Some k ∧
     connected k (nt (sh s)) = true ∧ ∀ j, rd s = Reading j → j = k).
Proof.
  intros Hs%reachable_inv Hst. destruct (inv_net s Hs Hst) as [_ Hr].
  unfold connected. split.
  - intros i j Hi%bool_decide_eq_true Hj%bool_decide_eq_true.
    apply reader_inv_open in Hr as [Hn|[k Hk]]; [by destruct (Hn i)|].
    by apply Hk in Hi as ->; apply Hk in Hj as ->.
  - intros Hre. destruct (rd s); try done; cbn in Hr;
      first [destruct Hr as (k&Hk&Hf&Hl); exists k | destruct Hr as (Hk&Hf&Hl); exists k];
      (repeat split; [done..|by apply bool_decide_eq_true, Hl|naive_solver]).
Qed.

(** C28: A request's line is not written more often in all than once and once for
    every connection made since the request began.  (Which connections the
    writes go to is not said: [written_twice_to_one_connection].) *)
Theorem sends_bounded s i q :
  reachable s → reqs s !! i = Some q →
  written i (sh s) ≤ 1 + (generation (nt (sh s)) - q_first q).
Proof.
  intros Hs%reachable_inv Hq. pose proof (inv_bound s Hs i q Hq) as H. unfold bound_inv in H.
  destruct (q_pc q); try destruct (q_sent q); lia.
Qed.

(** C25: Whatever the other threads do and whatever lines arrive, a request ends
    with the daemon unreachable, with its own deadline, or with a reply: on the
    correlated path one that carries its own id, which no other request has
    and which is no event, raised when it is an error; on the other path one
    with the operation expected, and never with an error reply. Its mailbox is then gone. *)
Theorem request_answered s i q r :
  reachable s → reqs s !! i = Some q → q_pc q = QDone r → q_op q ≠ "error" →
  verdict q r ∧ pending (con (sh s)) !! q_id q = None ∧
  ∀ j q', reqs s !! j = Some q' → q_id q' = q_id q → j = i.
Proof.
  intros Hs%reachable_inv Hq Hpc Hop.
  assert (Hu : ∀ j q', reqs s !! j = Some q' → q_id q' = q_id q → j = i).
  { intros j q' Hj Hid. apply (inj rid_of). destruct (inv_ids s Hs) as [_ Hids].
    by rewrite <-(Hids _ _ Hj), <-(Hids _ _ Hq). }
  split; [|split; [|exact Hu]].
  - pose proof (inv_reqs s Hs i q Hq) as [Hv _]. unfold verdict_inv in Hv. by rewrite Hpc in Hv.
  - apply not_elem_of_dom. intros (j&q'&Hj&Hr&Hid)%(inv_owned s Hs).
    assert (j = i) as -> by by eapply Hu. assert (q' = q) as -> by congruence.
    unfold running in Hr. rewrite Hpc, andb_false_r in Hr. done.
Qed.

(** Two threads are inside [sendall] at once only if one is on the
    correlated path and one on the other. *)
Theorem writers_excluded s i j p q k l :
  reachable s → i ≠ j → reqs s !! i = Some p → reqs s !! j = Some q →
  q_pc p = QSending k → q_pc q = QSending l → q_mux p ≠ q_mux q.
Proof.
  intros Hs%reachable_inv Hij Hp Hq Hpk Hql Hmux. apply Hij. destruct (q_mux q) eqn:Hm.
  - eapply held_unique; [apply (inv_send s Hs)|exact Hp| |exact Hq|]; unfold in_send;
      rewrite ?Hmux, ?Hm, ?Hpk, ?Hql; done.
  - eapply held_unique; [apply (inv_roundtrip s Hs)|exact Hp| |exact Hq|]; unfold in_roundtrip;
      rewrite ?Hmux, ?Hm, ?Hpk, ?Hql; done.
Qed.

(** Until [close()], the reader thread dies only of a line that is JSON but
    no object with a usable id. *)
Theorem reader_survives e s s' :
  reachable s → stopped (nt (sh s)) = false → step (LReader e) s = Some s' → rd s' = Crashed →
  ∃ k exn, rd s = Reading k ∧ read_line (line e) (con (sh s)) = Raise exn.
Proof.
  intros Hs%reachable_inv Hst H Hc. destruct (inv_net s Hs Hst) as [_ Hr]. unfold step in H.
  destruct (_read_loop e (sh s) (rd s)) as [[h r]|] eqn:E; [|done]. injection H as <-. cbn in Hc.
  destruct (rd s) as [| | |[]| | | | | | | | | | | |]; cbn in E, Hr; step_cases E; try done; eauto.
  all: repeat case_match; simplify_eq; try done; destruct Hr; naive_solver.
Qed.

(** *** Recovery *)

(** The reader's steps up to the next generation. *)
Definition rank (r : reader) : nat :=
  match r with
  | ReClose CsLoad => 12 | ReClose (CsSock _) => 11 | ReClose (CsFile _) => 10 | ReClose (CsShut _) => 9
  | ReClose (CsClose _) => 8 | ReClose CsDone | ReWait => 7 | ReTop => 6 | ReMake => 5 | ReConnect => 4
  | ReConnecting _ => 3 | ReFile => 2 | ReGen => 1
  | _ => 0
  end.

(** The daemon accepts connections, and nobody calls [close()]. *)
Definition up (l : label) : bool :=
  match l with LReader e => ok e | LClose => false | _ => true end.
Definition is_reader (l : label) : bool := match l with LReader _ => true | _ => false end.

Lemma reader_progress e s s' :
  inv s → stopped (nt (sh s)) = false → reconnecting (rd s) = true → ok e = true →
  step (LReader e) s = Some s' →
  generation (nt (sh s)) < generation (nt (sh s')) ∨
  reconnecting (rd s') = true ∧ rank (rd s') < rank (rd s).
Proof.
  intros Hs Hst Hre Hok H. destruct (inv_net s Hs Hst) as [_ Hr]. unfold step in H.
  destruct (_read_loop e (sh s) (rd s)) as [[h r]|] eqn:E; [|done]. injection H as <-. cbn.
  destruct (rd s) as [| | |[]| | | | | | | | | | | |]; try done; cbn in E, Hr; rewrite ?Hok, ?Hst in E;
    step_cases E; cbn; try (right; split; [done|lia]); try (left; lia).
  all: unfold between in Hr; repeat case_match; simplify_eq; cbn; try (right; split; [done|lia]); try (left; lia).
  - destruct Hr as [_ (k&?&_)]. done.
  - destruct Hr as (_&_&Hf). match goal with H : _ && _ = false |- _ => rename H into Hb end.
    by rewrite bool_decide_eq_true_2 in Hb.
  - destruct Hr as (k&?&_). done.
Qed.

Lemma step_up l s s' :
  step l s = Some s' → up l = true →
  stopped (nt (sh s')) = stopped (nt (sh s)) ∧ generation (nt (sh s)) ≤ generation (nt (sh s')) ∧
  (is_reader l = false → rd s' = rd s ∧ nt (sh s') = nt (sh s)).
Proof.
  intros H Hup. unfold step in H. destruct l as [e|op|i e| |]; try done.
  - destruct (_read_loop e (sh s) (rd s)) as [[h r]|] eqn:E; [|done]. injection H as <-.
    apply _read_loop_frame in E as (_&_&_&?&?). done.
  - destruct (request op (sh s)) as [h q] eqn:E. injection H as <-. apply request_spec in E as (Hn&_).
    cbn. by rewrite Hn.
  - destruct (reqs s !! i) as [q|]; [|done]. cbn in H.
    destruct (request_step e i (sh s) q) as [[h q']|] eqn:E; [|done]. injection H as <-.
    apply request_step_same in E as [Hn _]. cbn. by rewrite Hn.
  - destruct (next_event _). injection H as <-. done.
Qed.

(** C27: While the daemon accepts connections, a reader that found its
    connection gone makes the next generation within twelve of its own steps,
    whatever the requests do in between, in any order. *)
Theorem reader_recovers ls s s' :
  reachable s → stopped (nt (sh s)) = false → reconnecting (rd s) = true →
  Forall (λ l, up l = true) ls → run ls s = Some s' →
  12 ≤ length (filter (λ l, is_reader l = true) ls) →
  generation (nt (sh s)) < generation (nt (sh s')).
Proof.
  intros Hs Hst Hre Hup Hrun Hlen. assert (Hrank : rank (rd s) ≤ 12) by (destruct (rd s) as [| | |[]| | | | | | | | | | | |]; cbn; lia).
  assert (H : rank (rd s) ≤ length (filter (λ l, is_reader l = true) ls)) by lia. clear Hlen Hrank.
  assert (Hmono : ∀ ls s s', Forall (λ l, up l = true) ls → run ls s = Some s' →
    generation (nt (sh s)) ≤ generation (nt (sh s'))).
  { clear. intros ls s s' Hup. revert s. induction Hup as [|l ls Hl _ IH]; cbn; intros s; [by intros [= ->]|].
    destruct (step l s) as [s1|] eqn:E; [|done]. cbn. intros ?%IH. apply step_up in E as (_&?&_); [lia|done]. }
  revert s Hs Hst Hre Hrun H. induction Hup as [|l ls Hl Hup IH]; cbn [run]; intros s Hs Hst Hre Hrun H.
  { destruct (rd s) as [| | |[]| | | | | | | | | | | |]; try done; cbn in H; lia. }
  destruct (step l s) as [s1|] eqn:E; [|done]. cbn in Hrun. pose proof (Hmono _ _ _ Hup Hrun) as Hm.
  pose proof (step_up _ _ _ E Hl) as (Hst1&Hg1&Hsame). rewrite filter_cons in H.
  assert (Hs1 : reachable s1) by by econstructor.
  destruct (is_reader l) eqn:Hr.
  - destruct l; try done. rewrite decide_True in H by done. cbn in H.
    destruct (reader_progress _ _ _ (reachable_inv s Hs) Hst Hre Hl E) as [?|[Hre1 Hrk]]; [lia|].
    eapply Nat.le_lt_trans; [exact Hg1|]. apply IH; [done|congruence|done|done|lia].
  - destruct Hsame as [Hrd Hnt]; [done|]. rewrite decide_False in H by done. rewrite <-Hnt.
    apply IH; [done|congruence|by rewrite Hrd|done|by rewrite Hrd].
Qed.
End Props.

(** ** Runs *)

Section Runs.
Local Instance runs_json : JsonCodec := RefCodec.

(** [n] steps of the reader, or of request [i], the system answering [b]. *)
Definition reads (n : nat) : list label := replicate n (LReader (Env true "")).
Definition asks (i n : nat) : list label := replicate n (LStep i (Env true "")).
Definition times_out (i : nat) : list label := [LStep i (Env false "")].
Definition reply (op rid : string) : label :=
  LReader (Env true (json_dumps (JObj [("op", JStr op); ("id", JStr rid)]))).

(** A first request, on the uncorrelated path, is written and waits. *)
Definition written_first : list label := LRequest "whoami" :: asks 0 7.
(** The reader finds its connection closed by the daemon, and asks for another. *)
Definition lost : list label := reads 7.

(** What a run leaves: the sockets, the generation and the reconnect flag, the
    lines written, and where the requests are. *)
Definition shows (ls : list label) :
    option (list sockstate * nat * bool * list (nat * nat) * list qpc) :=
  s ← run ls connection;
  Some (socks (nt (sh s)), generation (nt (sh s)), want_reconnect (con (sh s)), sends (sh s), q_pc <$> reqs s).

(** A connection lost and made again between two looks of a request at it:
    the request compares no generation before it waits for its reply, so
    it is never written to the new connection, and times out. *)
Example lost_on_fast_reconnect :
  shows (written_first ++ lost ++ reads 13 ++ asks 0 3 ++ times_out 0) =
    Some ([Closed; Connected], 2, false, [(0, 0)], [QDone (timed_out "whoami")]).
Proof. by vm_compute. Qed.

(** A request that begins between [_generation += 1] and
    [_want_reconnect.clear()] waits for a generation after the one it has:
    the connection is up and nothing is written, until the wait is over. *)
Example late_clear_unreachable :
  shows (lost ++ reads 12 ++ [LRequest "whoami"] ++ asks 0 4 ++ reads 1 ++ asks 0 10 ++ times_out 0) =
    Some ([Closed; Connected], 2, false, [], [QDone (unreachable "whoami")]).
Proof. by vm_compute. Qed.

(** A send that fails on a connection replaced meanwhile has the new one
    replaced too; written before the generation of the third is counted,
    the line is written again after it, to the same connection. *)
Definition twice : list label :=
  LRequest "send" :: asks 0 5 ++ lost ++ reads 13 ++ asks 0 3 ++ reads 12 ++ asks 0 9 ++ reads 2 ++ asks 0 3.
Example written_twice_to_one_connection :
  shows twice = Some ([Closed; Closed; Connected], 3, true, [(0, 2); (0, 2)], [QGen]).
Proof. by vm_compute. Qed.

(** [close()] between the reader's test of the stop flag and its [_connect]:
    the connection the reader then makes is never closed. *)
Example close_leaves_connection :
  (λ s, (socks (nt (sh s)), rd s, cl s)) <$>
    run (lost ++ reads 7 ++ replicate 4 LClose ++ reads 7) connection =
    Some ([Closed; Connected], Ended, Some CsDone).
Proof. by vm_compute. Qed.

(** [close()] within [_connect]: the reader dies of an [AttributeError]. *)
Example close_kills_reader :
  rd <$> run (lost ++ reads 8 ++ replicate 6 LClose ++ reads 1) connection = Some Crashed.
Proof. by vm_compute. Qed.

(** Two requests began on the uncorrelated path; the reply to one turns the
    correlated path on, and a third request is inside [sendall] with the
    second, under another lock. *)
Definition overlap : list label :=
  [LRequest "whoami"; LRequest "presence"] ++ asks 0 7 ++ reads 4 ++ [reply "whoami" "r1"] ++ asks 0 1 ++
  asks 1 5 ++ [LRequest "send"] ++ asks 2 5.
Example writers_overlap :
  (λ s, (λ q, (q_mux q, q_pc q)) <$> reqs s) <$> run overlap connection =
    Some [(false, QDone (Ok (JObj [("op", JStr "whoami"); ("id", JStr "r1")])));
          (false, QSending 0); (true, QSending 0)].
Proof. by vm_compute. Qed.

(** *** The properties at runs *)

Lemma run_is ls s : run ls connection = Some s → reachable s.
Proof. apply run_reachable. constructor. Qed.

Example one_connection_witness : ∃ s,
  run (lost ++ reads 13 ++ reads 4) connection = Some s ∧
  rd s = Reading 1 ∧
  (∀ i j, connected i (nt (sh s)) = true → connected j (nt (sh s)) = true → i = j) ∧
  (reconnecting (rd s) = false → ∃ k, sock (nt (sh s)) = Some k ∧ sockfile (nt (sh s)) = Some k ∧
     connected k (nt (sh s)) = true ∧ ∀ j, rd s = Reading j → j = k).
Proof.
  eexists. split; [vm_compute; reflexivity|]. split; [reflexivity|].
  apply one_connection; [|reflexivity].
  apply (run_is (lost ++ reads 13 ++ reads 4)). vm_compute. reflexivity.
Defined.

Example sends_bounded_witness : ∃ s q,
  run twice connection = Some s ∧ reqs s !! 0 = Some q ∧
  written 0 (sh s) = 2 ∧ written 0 (sh s) ≤ 1 + (generation (nt (sh s)) - q_first q).
Proof.
  do 2 eexists. split; [vm_compute; reflexivity|]. split; [reflexivity|]. split; [reflexivity|].
  apply (sends_bounded _ 0); [|reflexivity]. apply (run_is twice). vm_compute. reflexivity.
Defined.

(** A request on the correlated path, and the reply that carries its id. *)
Definition correlated : list label :=
  written_first ++ reads 4 ++ [reply "whoami" "r1"] ++ asks 0 1 ++ [LRequest "presence"] ++ asks 1 7 ++
  reads 4 ++ [reply "presence" "r2"] ++ asks 1 1.
Example request_answered_witness : ∃ s q r,
  run correlated connection = Some s ∧ reqs s !! 1 = Some q ∧ q_pc q = QDone r ∧
  r = Ok (JObj [("op", JStr "presence"); ("id", JStr "r2")]) ∧
  verdict q r ∧ pending (con (sh s)) !! q_id q = None ∧
  ∀ j q', reqs s !! j = Some q' → q_id q' = q_id q → j = 1.
Proof.
  do 3 eexists. split; [vm_compute; reflexivity|]. split; [reflexivity|]. split; [reflexivity|].
  split; [reflexivity|]. apply (request_answered _ 1); [|reflexivity|reflexivity|done].
  apply (run_is correlated). vm_compute. reflexivity.
Defined.

Example reader_recovers_witness : ∃ s s',
  run lost connection = Some s ∧ run (LRequest "whoami" :: reads 6 ++ asks 0 3 ++ reads 6) s = Some s' ∧
  generation (nt (sh s')) = 2 ∧ generation (nt (sh s)) < generation (nt (sh s')).
Proof.
  do 2 eexists. split; [vm_compute; reflexivity|]. split; [vm_compute; reflexivity|]. split; [reflexivity|].
  apply (reader_recovers (LRequest "whoami" :: reads 6 ++ asks 0 3 ++ reads 6)); try reflexivity.
  - apply (run_is lost). vm_compute. reflexivity.
  - by repeat constructor.
Defined.
End Runs.
