(* ===== verification/Service.v ===== *)
(** * service.py: conversation sync

    [fetch] talks to the daemon, [apply], [on_event] and [ingest_opened] to the
    store.  The state is the store, the client and the world. *)

From S2P Require Import Prelude PyStr Codec Json Sys Crypto Protocol Store StoreProps DaemonClient.
From Stdlib Require Import Ascii.
Local Open Scope Z_scope.

(** What the sync code needs to know of a decrypted entry. *)
Section Service.
Context `{N : NaCl} `{J : JsonCodec} `{D : Daemon}.

Definition APP (A : Type) : Type := M (store * (client * world)) A.
Definition on_store {A} (m : ST A) : APP A := λ '(s, cw), let '(r, s) := m s in (r, (s, cw)).
Definition on_client {A} (m : CL A) : APP A := λ '(s, cw), let '(r, cw) := m cw in (r, (s, cw)).

(** ** Routing *)

(** The entries of [{m["node"]: m for m in members}]. Iterating a string or
    an object gives strings, which [m["node"]] refuses. *)
Fixpoint member_dict (l : list json) (d : list (string * json)) : result (list (string * json)) :=
  match l with
  | [] => Ok d
  | m :: l => node ← jindex "node" m ≫= as_str; member_dict l (dict_set node m d)
  end.
Definition members_of_json (j : json) : result (list (string * json)) :=
  match j with JArr l => member_dict l [] | _ => Raise TypeError end.

(** [opened.get("conv") or peer]; the store's columns take strings. *)
Definition conv_of (peer : string) (opened : list (string * json)) : result string :=
  match dict_get "conv" opened with
  | Some j => if truthy j then of_option SqlError (json_str j) else Ok peer
  | None => Ok peer
  end.

(** The arguments of [store.ingest] as they come out of the entry: the text
    is a string or [None], the timestamp an integer; anything else fails when
    it is encrypted or bound, after the conversation row was ensured. *)
Definition ingest_opened_fields (conv peer : string) (seq : Z) (ts text : json) : ST bool :=
  match text with
  | JStr _ | JNull =>
    match json_int ts with
    | Some ts => ingest conv peer seq ts (json_str text) None
    | None => _ ← _ensure_conv conv (bool_decide (conv = peer)); raise SqlError
    end
  | _ => _ ← _ensure_conv conv (bool_decide (conv = peer)); raise AttributeError
  end.

Definition _route (peer : string) (seq : Z) (opened : list (string * json)) : ST (string * bool) :=
  conv ← lift (conv_of peer opened);
  _ ← (match dict_get "members" opened with
       | Some members =>
         if truthy members then
           d ← lift (members_of_json members);
           ensure_room conv (JObj d)
         else mret tt
       | None => mret tt
       end);
  ts ← lift (jindex "ts" (JObj opened));
  text ← lift (jindex "text" (JObj opened));
  new ← ingest_opened_fields conv peer seq ts text;
  mret (conv, new).

(** ** Applying a fetched tail *)

Definition entry_seq (m : json) : result Z := get_or "seq" (JInt 0) m ≫= as_int.

(** One entry of the response: decrypted and routed, or skipped when it
    raises [ValueError] or [KeyError]. Returns whether it was new. *)
Definition apply_entry (identity : bytes) (peer : string) (seq : Z) (m : json) : ST bool :=
  opened ← lift (catch is_value_or_key
    (payload ← jindex "payload" m ≫= as_str; Some <$> open_message identity payload)
    (λ _, Ok None));
  match opened with
  | None => mret false
  | Some opened => '(_, new) ← _route peer seq opened; mret new
  end.

(** The loop over [resp.get("msgs", [])]: [max_seen] and [added]. *)
Fixpoint apply_loop (identity : bytes) (peer : string) (msgs : list json) (max_seen added : Z)
    : ST (Z * Z) :=
  match msgs with
  | [] => mret (max_seen, added)
  | m :: msgs =>
    seq ← lift (entry_seq m);
    new ← apply_entry identity peer seq m;
    apply_loop identity peer msgs (Z.max seq max_seen) (added + Z.b2z new)
  end.

Definition apply (identity : bytes) (peer : string) (resp : json) : ST Z :=
  after ← cursor peer;
  msgs ← lift (get_or "msgs" (JArr []) resp ≫= as_list);
  '(max_seen, added) ← apply_loop identity peer msgs after 0;
  _ ← (if after <? max_seen then set_cursor peer max_seen else mret tt);
  mret added.

(** ** Fetching *)

Fixpoint fetch_loop (peers : list string) (acc : list (string * json)) : APP (list (string * json)) :=
  match peers with
  | [] => mret acc
  | p :: peers =>
    after ← on_store (cursor p);
    resp ← on_client (history p after);
    fetch_loop peers (dict_set p resp acc)
  end.
Definition fetch (peers : list string) : APP (list (string * json)) := fetch_loop peers [].

Definition apply_app (peer : string) (resp : json) : APP Z :=
  c ← on_client self; on_store (apply (cl_identity c) peer resp).

Definition sync_peer (peer : string) : APP Z :=
  fetched ← fetch [peer];
  resp ← lift (of_option (KeyError peer) (dict_get peer fetched));
  apply_app peer resp.

Fixpoint sum_apply (l : list (string * json)) (n : Z) : APP Z :=
  match l with
  | [] => mret n
  | (p, r) :: l => k ← apply_app p r; sum_apply l (n + k)
  end.
Definition sync_peers (peers : list string) : APP Z :=
  fetched ← fetch peers; sum_apply fetched 0.

(** ** Live events *)

Definition ingest_opened (peer : string) (seq : Z) (opened : list (string * json)) : ST (string * bool) :=
  '(conv, new) ← _route peer seq opened;
  cur ← cursor peer;
  _ ← (if cur <? seq then set_cursor peer seq else mret tt);
  mret (conv, new).

Definition on_event (identity : bytes) (event : json) : ST (option string * bool) :=
  peer ← lift (jget "from" event);
  match peer with
  | Some peer =>
    if truthy peer then
      opened ← lift (catch is_value_or_key (Some <$> decrypt_recv identity event) (λ _, Ok None));
      match opened with
      | None => mret (None, false)
      | Some opened =>
        seq ← lift (entry_seq event);
        peer ← lift (as_str peer);
        '(conv, new) ← ingest_opened peer seq opened;
        mret (Some conv, new)
      end
    else mret (None, false)
  | None => mret (None, false)
  end.
End Service.

(** ** Runs *)

Section Runs.
Context `{N : NaCl} `{J : JsonCodec}.

(** What a step of the sync leaves alone. *)
Definition frame (s s' : store) : Prop :=
  s_key s' = s_key s ∧ watermark (s_db s') = watermark (s_db s) ∧
  deliveries (s_db s') = deliveries (s_db s).

Lemma frame_refl s : frame s s.
Proof. done. Qed.
Lemma frame_trans s1 s2 s3 : frame s1 s2 → frame s2 s3 → frame s1 s3.
Proof. intros (?&?&?) (?&?&?). unfold frame. split_and!; congruence. Qed.

(** The messages grow by [rows], and nothing else happens to them. *)
Definition extends (s s' : store) (rows : list (string * msg_row)) : Prop :=
  messages_t (s_db s') = messages_t (s_db s) ++ rows.

Lemma extends_mem s s' rows mid :
  extends s s' rows →
  dict_mem mid (messages_t (s_db s')) = dict_mem mid (messages_t (s_db s)) || bool_decide (mid ∈ rows.*1).
Proof.
  intros Hm. rewrite Hm. apply eq_true_iff_eq.
  rewrite orb_true_iff, !dict_mem_true, bool_decide_eq_true, fmap_app. set_solver.
Qed.

Lemma extends_nil s s' : messages_t (s_db s') = messages_t (s_db s) → extends s s' [].
Proof. intros H. unfold extends. by rewrite app_nil_r. Qed.

Lemma extends_trans s1 s2 s3 l1 l2 : extends s1 s2 l1 → extends s2 s3 l2 → extends s1 s3 (l1 ++ l2).
Proof. intros H1 H2. unfold extends. by rewrite H2, H1, <-app_assoc. Qed.
End Runs.

(** ** What an entry comes to

    [route_plan] is what [_route] will store, computed without the store;
    [entry_plan] adds the decryption: an entry without a routing is skipped. *)

Record routing := Routing
  { r_conv : string; r_members : option (list (string * json)); r_ts : Z; r_text : option string }.

Section Plans.
Context `{N : NaCl} `{J : JsonCodec}.

Definition text_of (text : json) : result (option string) :=
  match text with JStr t => Ok (Some t) | JNull => Ok None | _ => Raise AttributeError end.

Definition route_plan (peer : string) (seq : Z) (opened : list (string * json)) : result routing :=
  conv ← conv_of peer opened;
  members ← match dict_get "members" opened with
            | Some j => if truthy j then Some <$> members_of_json j else Ok None
            | None => Ok None
            end;
  ts ← jindex "ts" (JObj opened);
  text ← jindex "text" (JObj opened) ≫= text_of;
  ts ← of_option SqlError (json_int ts);
  ts ← bind_int ts;
  _ ← bind_int seq;
  Ok (Routing conv members ts text).

Definition opened_of (identity : bytes) (m : json) : result (option (list (string * json))) :=
  catch is_value_or_key
    (payload ← jindex "payload" m ≫= as_str; Some <$> open_message identity payload)
    (λ _, Ok None).

Definition entry_plan (identity : bytes) (peer : string) (m : json) : result (Z * option routing) :=
  seq ← entry_seq m;
  opened ← opened_of identity m;
  match opened with
  | None => Ok (seq, None)
  | Some o => r ← route_plan peer seq o; Ok (seq, Some r)
  end.

(** The row of a routed entry: under the number [seq] of [peer], the text
    encrypted with the store's key and some nonce. *)
Definition stored_as (key : bytes) (peer : string) (e : Z * routing) (row : string * msg_row) : Prop :=
  ∃ k, row = (in_id peer e.1, MsgRow (r_conv e.2) peer In (r_ts e.2) e.1
    (json_dumps (JObj [(peer, JInt e.1)])) (blob_of key (r_text e.2) k) None).

(** The routed entries whose id is not among [known] and comes up for the
    first time. *)
Fixpoint fresh (peer : string) (known : list string) (plans : list (Z * option routing))
    : list (Z * routing) :=
  match plans with
  | [] => []
  | (seq, Some r) :: plans =>
    if decide (in_id peer seq ∈ known) then fresh peer known plans
    else (seq, r) :: fresh peer (known ++ [in_id peer seq]) plans
  | (_, None) :: plans => fresh peer known plans
  end.

Lemma fresh_nil peer known plans :
  (∀ p, p ∈ plans → is_Some p.2 → in_id peer p.1 ∈ known) → fresh peer known plans = [].
Proof.
  induction plans as [|[seq [r|]] plans IH]; cbn; intros H; [done| |].
  - rewrite decide_True by (apply (H (seq, Some r)); [left|done]). apply IH. intros p Hp. apply H. by right.
  - apply IH. intros p Hp. apply H. by right.
Qed.

Lemma fresh_all peer known plans p :
  p ∈ plans → is_Some p.2 →
  in_id peer p.1 ∈ known ++ ((λ e, in_id peer e.1) <$> fresh peer known plans).
Proof.
  intros Hp Hr. revert known. induction plans as [|[seq [r|]] plans IH]; intros known; cbn;
    [by apply elem_of_nil in Hp| |];
    apply elem_of_cons in Hp as [->|Hp]; cbn in *.
  - rewrite elem_of_app. case_decide; cbn; [by left|right; by left].
  - case_decide; [by apply IH|]. cbn. specialize (IH Hp (known ++ [in_id peer seq])).
    by rewrite <-app_assoc in IH.
  - by destruct Hr.
  - by apply IH.
Qed.

Lemma stored_ids key peer es rows :
  Forall2 (stored_as key peer) es rows → rows.*1 = (λ e, in_id peer e.1) <$> es.
Proof. induction 1 as [|e row es rows [k ->] _ IH]; [done|]. cbn. by rewrite IH. Qed.

(** *** Running the routing *)

Lemma ensure_room_run conv j s :
  ∃ m, runs (ensure_room conv j) s tt (set_conversations
    (upsert conv (ConvRow 0 m 0 0) (λ r, ConvRow 0 m (c_muted r) 0) (conversations (s_db s))) (s_db s)).
Proof.
  destruct (enc_run (Some (json_dumps j)) s) as [m Hm]. exists m.
  eapply runs_bind; [exact Hm|]. intros n. by apply runs_transact'.
Qed.

Definition room_step (conv : string) (members : option (list (string * json))) : ST unit :=
  match members with Some d => ensure_room conv (JObj d) | None => mret tt end.

Lemma room_step_run conv members s :
  ∃ d, runs (room_step conv members) s tt d ∧ messages_t d = messages_t (s_db s) ∧
    watermark d = watermark (s_db s) ∧ deliveries d = deliveries (s_db s).
Proof.
  destruct members as [l|]; cbn.
  - destruct (ensure_room_run conv (JObj l) s) as [m Hm]. by eexists.
  - exists (s_db s). split; [apply runs_ret|done].
Qed.

Lemma bind_int_inv z z' : bind_int z = Ok z' → z' = z ∧ int64 z = true.
Proof. unfold bind_int. case_match; [by intros [= <-]|done]. Qed.

(** The rows of one entry that is routed. *)
Definition added (key : bytes) (peer : string) (s : store) (e : Z * routing) (rows : list (string * msg_row)) : Prop :=
  Forall2 (stored_as key peer) (fresh peer (messages_t (s_db s)).*1 [(e.1, Some e.2)]) rows.

Lemma fresh_one peer s e :
  fresh peer (messages_t (s_db s)).*1 [(e.1, Some e.2)]
  = if dict_mem (in_id peer e.1) (messages_t (s_db s)) then [] else [e].
Proof.
  cbn. destruct e as [seq r]. cbn. destruct (dict_mem _ _) eqn:E; case_decide as H; try done.
  - by apply dict_mem_true in E.
  - apply dict_mem_true in H. congruence.
Qed.

Lemma ingest_effect peer seq r s :
  int64 seq = true → int64 (r_ts r) = true →
  ∃ s' rows, ingest (r_conv r) peer seq (r_ts r) (r_text r) None s
      = (Ok (negb (dict_mem (in_id peer seq) (messages_t (s_db s)))), s') ∧
    frame s s' ∧ extends s s' rows ∧ added (s_key s) peer s (seq, r) rows.
Proof.
  intros Hseq Hts.
  destruct (ingest_run (r_conv r) peer seq (r_ts r) (r_text r) None s Hseq Hts) as (m&t&a&[k Hk]&Ha&n&Hrun).
  rewrite (Ha eq_refl), Hk in Hrun. unfold added. rewrite fresh_one. cbn [fst].
  destruct (dict_mem (in_id peer seq) (messages_t (s_db s))) eqn:Hmem; cbn [negb] in *.
  - eexists _, []. split; [exact Hrun|]. rewrite with_message_id by done. split; [done|].
    split; [by apply extends_nil|constructor].
  - eexists _, [_]. split; [exact Hrun|]. unfold with_message. rewrite insert_or_ignore_new by done.
    split; [done|]. split; [reflexivity|]. constructor; [|constructor]. by exists k.
Qed.

Lemma route_run peer seq opened r s :
  route_plan peer seq opened = Ok r →
  ∃ s' rows, _route peer seq opened s
      = (Ok (r_conv r, negb (dict_mem (in_id peer seq) (messages_t (s_db s)))), s') ∧
    frame s s' ∧ extends s s' rows ∧ added (s_key s) peer s (seq, r) rows.
Proof.
  unfold route_plan. intros H. apply bind_Ok in H as (conv&Hconv&H).
  apply bind_Ok in H as (members&Hmem&H). apply bind_Ok in H as (tsj&Hts&H).
  apply bind_Ok in H as (text&Htext&H). apply bind_Ok in Htext as (tj&Htj&Htext).
  apply bind_Ok in H as (ts0&Hts0&H). apply of_option_Ok in Hts0.
  apply bind_Ok in H as (ts&Hts1&H). apply bind_int_inv in Hts1 as [-> Hts64].
  apply bind_Ok in H as (seq'&Hseq&H). apply bind_int_inv in Hseq as [-> Hseq64]. injection H as <-.
  destruct (room_step_run conv members s) as (d&[n Hroom]&Hm&Hw&Hd).
  destruct (ingest_effect peer seq (Routing conv members ts0 text) (at_db d (s_key s) n) Hseq64 Hts64)
    as (s'&rows&Hing&Hf&He&Ha).
  unfold added, extends in Ha, He. cbn [r_conv r_ts r_text s_db s_key] in Hing, Ha, He. rewrite Hm in Hing, Ha, He.
  exists s', rows. split; [|split; [|split; [exact He|exact Ha]]].
  - unfold _route. rewrite Hconv. cbn [r_conv].
    rewrite (M_bind_run _ _ _ conv s) by done.
    assert (Hstep : (match dict_get "members" opened with
       | Some members0 => if truthy members0 then
           d0 ← lift (members_of_json members0); ensure_room conv (JObj d0) else mret tt
       | None => mret tt end : ST unit) s = (Ok tt, at_db d (s_key s) n)).
    { destruct (dict_get "members" opened) as [j|]; [destruct (truthy j)|];
        [|injection Hmem as <-; exact Hroom..].
      destruct (members_of_json j) as [l|]; [|done]. injection Hmem as <-. exact Hroom. }
    rewrite (M_bind_run _ _ _ _ _ Hstep), Hts, Htj.
    rewrite (M_bind_run _ _ _ tsj (at_db d (s_key s) n)) by done.
    rewrite (M_bind_run _ _ _ tj (at_db d (s_key s) n)) by done.
    assert (Hf' : ingest_opened_fields conv peer seq tsj tj (at_db d (s_key s) n)
      = ingest conv peer seq ts0 text None (at_db d (s_key s) n)).
    { unfold ingest_opened_fields. rewrite Hts0. destruct tj; try done; by injection Htext as <-. }
    rewrite (M_bind_run _ _ _ _ s' (eq_trans Hf' Hing)). done.
  - destruct Hf as (Hk&Hw'&Hd'). cbn in *. unfold frame. split_and!; congruence.
Qed.

(** A step that fails, or ends, without touching messages, cursors or
    deliveries. *)
Definition fails {A} (m : ST A) (s : store) : Prop :=
  ∃ e s', m s = (Raise e, s') ∧ frame s s' ∧ messages_t (s_db s') = messages_t (s_db s).

Lemma fails_bind {A B} (m : ST A) (f : A → ST B) s a s1 :
  m s = (Ok a, s1) → frame s s1 → messages_t (s_db s1) = messages_t (s_db s) →
  fails (f a) s1 → fails (m ≫= f) s.
Proof.
  intros Hm Hf Hmsg (e&s'&Hr&Hf'&Hmsg'). exists e, s'. rewrite (M_bind_run _ _ _ _ _ Hm).
  split; [done|]. split; [by eapply frame_trans|congruence].
Qed.

Lemma fails_here {A B} (m : ST A) (f : A → ST B) s : fails m s → fails (m ≫= f) s.
Proof. intros (e&s'&Hm&?&?). exists e, s'. by rewrite (M_bind_raise _ _ _ _ _ Hm). Qed.

Lemma fails_lift {A} (m : result A) s e : m = Raise e → fails (lift m) s.
Proof. intros ->. by exists e, s. Qed.

Lemma ensure_then_raise conv dm e s : fails (_ ← _ensure_conv conv dm; raise e : ST bool) s.
Proof.
  destruct (ensure_conv_run conv dm s) as [m [n Hm]].
  eapply fails_bind; [exact Hm|done..|]. by exists e, (at_db (with_conv conv (ConvRow (Z.b2z dm) m 0 0) (s_db s)) (s_key s) n).
Qed.

Lemma ingest_fields_fail conv peer seq ts text s e :
  (text ← text_of text; ts ← of_option SqlError (json_int ts); _ ← bind_int ts; bind_int seq) = Raise e →
  fails (ingest_opened_fields conv peer seq ts text) s.
Proof.
  intros H. unfold ingest_opened_fields.
  assert (Hnum : ∀ t ts0, json_int ts = Some ts0 → (_ ← bind_int ts0; bind_int seq) = Raise e →
    fails (ingest conv peer seq ts0 t None) s).
  { intros t ts0 _ Hb. destruct (ingest_refused conv peer seq ts0 t None s) as (s'&Hr&?&?&?&?).
    - unfold bind_int in Hb. destruct (int64 ts0), (int64 seq); done.
    - by exists OverflowError, s'. }
  destruct text; cbn in H; try apply ensure_then_raise;
    (destruct (json_int ts) as [ts0|] eqn:Hts; cbn in H; [by apply Hnum|apply ensure_then_raise]).
Qed.

Lemma route_fail peer seq opened e s :
  route_plan peer seq opened = Raise e → fails (_route peer seq opened) s.
Proof.
  unfold route_plan, _route. intros H.
  destruct (conv_of peer opened) as [conv|] eqn:Hconv; [|by apply fails_here; eapply fails_lift].
  eapply (fails_bind _ _ _ conv s); [done..|].
  cbn [mbind result_bind] in H.
  set (step := match dict_get "members" opened with Some _ => _ | None => _ end : ST unit).
  assert (Hstep : fails step s ∨ ∃ members d n, step s = (Ok tt, at_db d (s_key s) n) ∧
    messages_t d = messages_t (s_db s) ∧ watermark d = watermark (s_db s) ∧
    deliveries d = deliveries (s_db s) ∧
    (match dict_get "members" opened with
     | Some j => if truthy j then Some <$> members_of_json j else Ok None
     | None => Ok None end) = Ok members).
  { subst step. destruct (dict_get "members" opened) as [j|]; [destruct (truthy j)|];
      [|right; destruct (room_step_run conv None s) as (d&[n ?]&?&?&?); by exists None, d, n..].
    destruct (members_of_json j) as [l|] eqn:Hl; [|left; apply fails_here; by eapply fails_lift].
    right. destruct (room_step_run conv (Some l) s) as (d&[n ?]&?&?&?). by exists (Some l), d, n. }
  destruct Hstep as [Hstep|(members&d&n&Hstep&Hm&Hw&Hd&Hmem)]; [by apply fails_here|].
  rewrite Hmem in H. cbn [mbind result_bind] in H.
  eapply fails_bind; [exact Hstep|done..|].
  destruct (jindex "ts" (JObj opened)) as [ts|] eqn:Hts; [|by apply fails_here; eapply fails_lift].
  eapply (fails_bind _ _ _ ts (at_db d (s_key s) n)); [done..|]. cbn [mbind result_bind] in H.
  destruct (jindex "text" (JObj opened)) as [text|] eqn:Htext; [|by apply fails_here; eapply fails_lift].
  eapply (fails_bind _ _ _ text (at_db d (s_key s) n)); [done..|]. cbn [mbind result_bind] in H.
  apply fails_here. apply (ingest_fields_fail _ _ _ _ _ _ e).
  destruct (text_of text); cbn in *; [|by injection H as ->].
  destruct (json_int ts); cbn in *; [|by injection H as ->].
  destruct (bind_int z); cbn in *; [|by injection H as ->].
  destruct (bind_int seq); cbn in *; [done|by injection H as ->].
Qed.

(** *** Running an entry *)

Lemma entry_run identity peer m s p :
  entry_plan identity peer m = Ok p →
  ∃ s' rows, apply_entry identity peer p.1 m s = (Ok (bool_decide (rows ≠ [])), s') ∧
    entry_seq m = Ok p.1 ∧ frame s s' ∧ extends s s' rows ∧
    Forall2 (stored_as (s_key s) peer) (fresh peer (messages_t (s_db s)).*1 [p]) rows.
Proof.
  unfold entry_plan, apply_entry. intros H. apply bind_Ok in H as (seq&Hseq&H).
  apply bind_Ok in H as (opened&Hop&H). unfold opened_of in Hop.
  destruct opened as [o|].
  - apply bind_Ok in H as (r&Hr&H). injection H as <-.
    destruct (route_run peer seq o r s Hr) as (s'&rows&Hrun&Hf&He&Ha).
    exists s', rows. cbn [fst]. rewrite Hop.
    rewrite (M_bind_run _ _ _ (Some o) s) by done. rewrite (M_bind_run _ _ _ _ _ Hrun).
    split_and!; [|done..]. unfold added in Ha. rewrite fresh_one in Ha. cbn [fst] in Ha.
    destruct (dict_mem _ _); [apply Forall2_nil_inv_l in Ha as ->; done|].
    by apply Forall2_cons_inv_l in Ha as (row&rows'&_&_&->).
  - injection H as <-. exists s, []. cbn [fst]. rewrite Hop. rewrite (M_bind_run _ _ _ None s) by done.
    split_and!; [done..| |constructor]. by apply extends_nil.
Qed.

Lemma entry_fail identity peer m s seq e :
  entry_seq m = Ok seq → entry_plan identity peer m = Raise e → fails (apply_entry identity peer seq m) s.
Proof.
  unfold entry_plan, apply_entry. intros -> H. cbn [mbind result_bind] in H. unfold opened_of in H.
  destruct (catch is_value_or_key _ _) as [[o|]|] eqn:Hop; cbn [mbind result_bind] in H;
    [|done|apply fails_here; by eapply fails_lift].
  eapply (fails_bind _ _ _ (Some o) s); [done..|].
  apply fails_here. destruct (route_plan peer seq o) eqn:Hr; [done|]. by eapply route_fail.
Qed.
End Plans.

(** ** Properties *)

Section SyncProps.
Context `{N : NaCl} `{J : JsonCodec} `{D : Daemon}.

Definition max_seq (z : Z) (plans : list (Z * option routing)) : Z := foldl (λ m p, Z.max p.1 m) z plans.

(** The loop over entries that all have a plan. *)
Lemma loop_run identity peer msgs plans mx n s :
  Forall2 (λ m p, entry_plan identity peer m = Ok p) msgs plans →
  ∃ rows s', apply_loop identity peer msgs mx n s
      = (Ok (max_seq mx plans, n + Z.of_nat (length rows)), s') ∧
    frame s s' ∧ extends s s' rows ∧
    Forall2 (stored_as (s_key s) peer) (fresh peer (messages_t (s_db s)).*1 plans) rows.
Proof.
  intros HF. revert mx n s. induction HF as [|m p msgs plans Hp _ IH]; intros mx n s.
  - exists [], s. cbn. rewrite Z.add_0_r. split; [done|]. split; [done|].
    split; [by apply extends_nil|constructor].
  - destruct (entry_run identity peer m s p Hp) as (s1&rows1&Hrun&Hseq&Hf&He&Ha).
    destruct (IH (Z.max p.1 mx) (n + Z.b2z (bool_decide (rows1 ≠ []))) s1)
      as (rows2&s2&Hloop&Hf2&He2&Ha2).
    exists (rows1 ++ rows2), s2. destruct p as [seq o]. cbn [fst] in *.
    assert (Hfresh : fresh peer (messages_t (s_db s)).*1 ((seq, o) :: plans)
      = fresh peer (messages_t (s_db s)).*1 [(seq, o)] ++ fresh peer (messages_t (s_db s1)).*1 plans
      ∧ Z.b2z (bool_decide (rows1 ≠ [])) = Z.of_nat (length rows1)).
    { unfold extends in He. rewrite He, fmap_app, (stored_ids _ _ _ _ Ha). cbn in Ha |- *.
      destruct o as [r|]; [case_decide|]; cbn in *;
        try (apply Forall2_nil_inv_l in Ha as ->; by rewrite app_nil_r).
      apply Forall2_cons_inv_l in Ha as (row&rows'&_&->%Forall2_nil_inv_l&->). done. }
    destruct Hfresh as [Hfresh Hlen]. split_and!.
    + cbn [apply_loop]. rewrite Hseq. rewrite (M_bind_run _ _ _ seq s) by done.
      rewrite (M_bind_run _ _ _ _ _ Hrun), Hloop. cbn [max_seq foldl fst].
      do 3 f_equal. rewrite length_app. lia.
    + by eapply frame_trans.
    + by eapply extends_trans.
    + rewrite Hfresh. apply Forall2_app; [done|]. by rewrite <-(proj1 Hf).
Qed.

(** One entry without a plan stops the loop. *)
Lemma loop_fail identity peer msgs mx added s :
  Forall (λ m, is_Some (to_option (entry_seq m))) msgs →
  Exists (λ m, ∃ e, entry_plan identity peer m = Raise e) msgs →
  ∃ e s', apply_loop identity peer msgs mx added s = (Raise e, s') ∧ frame s s'.
Proof.
  intros Hseqs Hex. revert mx added s. induction msgs as [|m msgs IH]; intros mx added s;
    [by inversion Hex|].
  apply Forall_cons in Hseqs as [[seq Hseq] Hseqs].
  destruct (entry_seq m) as [z|] eqn:Hz; [|done]. injection Hseq as ->.
  cbn [apply_loop]. rewrite Hz. rewrite (M_bind_run _ _ _ seq s) by done.
  destruct (entry_plan identity peer m) as [p|e] eqn:Hplan.
  - destruct (entry_run identity peer m s p Hplan) as (s1&rows&Hrun&Hseq'&Hf&_).
    rewrite Hz in Hseq'. injection Hseq' as ->. rewrite (M_bind_run _ _ _ _ _ Hrun).
    apply Exists_cons in Hex as [[e He]|Hex]; [congruence|].
    destruct (IH Hseqs Hex (Z.max p.1 mx) (added + Z.b2z (bool_decide (rows ≠ []))) s1) as (e&s2&Hr&Hf2).
    exists e, s2. split; [done|]. by eapply frame_trans.
  - destruct (entry_fail identity peer m s seq e Hz Hplan) as (e'&s'&Hr&Hf&_).
    exists e', s'. by rewrite (M_bind_raise _ _ _ _ _ Hr).
Qed.

Lemma loop_ok_plans identity peer msgs mx added s r s' :
  apply_loop identity peer msgs mx added s = (Ok r, s') →
  ∃ plans, Forall2 (λ m p, entry_plan identity peer m = Ok p) msgs plans.
Proof.
  revert mx added s. induction msgs as [|m msgs IH]; intros mx added s; [by exists []|].
  cbn [apply_loop]. intros (seq&s1&Hseq&H)%M_bind_Ok. unfold lift in Hseq. injection Hseq as Hseq <-.
  apply M_bind_Ok in H as (new&s2&Hentry&H). destruct (IH _ _ _ H) as [plans HF].
  destruct (entry_plan identity peer m) as [p|e] eqn:Hp.
  - exists (p :: plans). by constructor.
  - destruct (entry_fail identity peer m s seq e Hseq Hp) as (e'&s''&Hr&_). congruence.
Qed.

Lemma max_seq_ge z plans : z <= max_seq z plans.
Proof.
  unfold max_seq. revert z. induction plans as [|p plans IH]; intros z; cbn [foldl]; [lia|].
  specialize (IH (Z.max p.1 z)). lia.
Qed.

Lemma cursor_set_max peer z d :
  cursor_of peer d < z →
  cursor_of peer (set_watermark (upsert peer z (λ old, Z.max old z) (watermark d)) d) = z.
Proof.
  unfold cursor_of. cbn. rewrite dict_get_upsert, decide_True by done.
  destruct (dict_get peer _); cbn; lia.
Qed.

(** What a successful [apply] did. *)
Lemma apply_effect identity peer resp s n s1 :
  apply identity peer resp s = (Ok n, s1) →
  ∃ msgs plans rows, (get_or "msgs" (JArr []) resp ≫= as_list) = Ok msgs ∧
    Forall2 (λ m p, entry_plan identity peer m = Ok p) msgs plans ∧
    n = Z.of_nat (length rows) ∧ extends s s1 rows ∧
    Forall2 (stored_as (s_key s) peer) (fresh peer (messages_t (s_db s)).*1 plans) rows ∧
    cursor_of peer (s_db s1) = max_seq (cursor_of peer (s_db s)) plans ∧
    (∀ p, p ≠ peer → cursor_of p (s_db s1) = cursor_of p (s_db s)).
Proof.
  unfold apply, cursor, query. rewrite (M_bind_run _ _ _ (cursor_of peer (s_db s)) s) by done.
  intros (msgs&s0&Hmsgs&H)%M_bind_Ok. unfold lift in Hmsgs. injection Hmsgs as Hmsgs <-.
  apply M_bind_Ok in H as ([mx added]&s2&Hloop&H).
  destruct (loop_ok_plans _ _ _ _ _ _ _ _ Hloop) as [plans HF].
  destruct (loop_run identity peer msgs plans (cursor_of peer (s_db s)) 0 s HF)
    as (rows&s2'&Hloop'&(Hk&Hw&Hd)&He&Ha).
  rewrite Hloop in Hloop'. injection Hloop' as -> -> ->. cbn zeta in H.
  exists msgs, plans, rows. split; [done|]. split; [done|].
  pose proof (max_seq_ge (cursor_of peer (s_db s)) plans) as Hge.
  assert (Hcur : ∀ p, cursor_of p (s_db s2') = cursor_of p (s_db s)) by (intros p; unfold cursor_of; by rewrite Hw).
  apply M_bind_Ok in H as ([]&s3&Hset&H). injection H as <- <-. cbn [Z.add].
  destruct (Z.ltb_spec (cursor_of peer (s_db s)) (max_seq (cursor_of peer (s_db s)) plans)) as [Hlt|Hle].
  - unfold set_cursor in Hset. apply M_bind_Ok in Hset as (z&s4&Hz&Hset).
    unfold lift in Hz. injection Hz as Hz <-. apply bind_int_inv in Hz as [-> _].
    injection Hset as <-. split_and!; [lia|done|done| |].
    + apply cursor_set_max. rewrite Hcur. lia.
    + intros p Hp. cbn [s_db]. rewrite cursor_upsert, decide_False by done. apply Hcur.
  - injection Hset as <-. split_and!; [lia|done|done| |done]. rewrite Hcur. lia.
Qed.

Lemma rows_mem peer s s1 plans rows p :
  extends s s1 rows → Forall2 (stored_as (s_key s) peer) (fresh peer (messages_t (s_db s)).*1 plans) rows →
  p ∈ plans → is_Some p.2 → dict_mem (in_id peer p.1) (messages_t (s_db s1)) = true.
Proof.
  intros He Ha Hp Hr. apply dict_mem_true. unfold extends in He.
  rewrite He, fmap_app, (stored_ids _ _ _ _ Ha). by apply fresh_all.
Qed.

(** C3: A successful [apply] stores the new messages of the response and
    nothing else.  The messages that were there stay as they were; the rows
    added are, one for one and in order, those of the entries that open and are
    routed and whose id was neither in the store nor in an earlier entry, each
    with the conversation and time its entry says, the sender and the number it
    came under, and its text encrypted with the store's key; the count returned
    is the number of rows added; every entry that opens is in the store
    afterwards; and the peer's cursor is the highest sequence number seen, while
    the cursors of other peers do not move. *)
Theorem apply_spec identity peer resp s n s1 :
  apply identity peer resp s = (Ok n, s1) →
  ∃ msgs plans rows, (get_or "msgs" (JArr []) resp ≫= as_list) = Ok msgs ∧
    Forall2 (λ m p, entry_plan identity peer m = Ok p) msgs plans ∧
    messages_t (s_db s1) = messages_t (s_db s) ++ rows ∧ n = Z.of_nat (length rows) ∧
    Forall2 (stored_as (s_key s) peer) (fresh peer (messages_t (s_db s)).*1 plans) rows ∧
    (∀ p, p ∈ plans → is_Some p.2 → dict_mem (in_id peer p.1) (messages_t (s_db s1)) = true) ∧
    cursor_of peer (s_db s1) = max_seq (cursor_of peer (s_db s)) plans ∧
    ∀ p, p ≠ peer → cursor_of p (s_db s1) = cursor_of p (s_db s).
Proof.
  intros H. destruct (apply_effect _ _ _ _ _ _ H) as (msgs&plans&rows&Hmsgs&HF&Hn&He&Ha&Hcur&Hothers).
  exists msgs, plans, rows. split_and!; try done. intros p. by apply (rows_mem peer s s1 plans rows).
Qed.

(** C2: Fetching the same tail twice is harmless: applying a response again,
    after any further messages were stored in between, adds nothing and leaves
    messages and cursor as they are. *)
Theorem apply_idempotent identity peer resp s n s1 :
  apply identity peer resp s = (Ok n, s1) →
  ∃ s2, apply identity peer resp s1 = (Ok 0, s2) ∧
    messages_t (s_db s2) = messages_t (s_db s1) ∧ watermark (s_db s2) = watermark (s_db s1).
Proof.
  intros H. destruct (apply_effect _ _ _ _ _ _ H) as (msgs&plans&rows&Hmsgs&HF&_&He1&Ha1&Hcur&_).
  destruct (loop_run identity peer msgs plans (cursor_of peer (s_db s1)) 0 s1 HF)
    as (rows2&s2&Hloop&(Hk&Hw&Hd)&He&Ha).
  rewrite fresh_nil in Ha by (intros p Hp Hr; apply dict_mem_true; by apply (rows_mem peer s s1 plans rows)).
  apply Forall2_nil_inv_l in Ha as ->. exists s2. unfold extends in He. rewrite app_nil_r in He.
  split; [|done]. unfold apply, cursor, query.
  rewrite (M_bind_run _ _ _ (cursor_of peer (s_db s1)) s1) by done. rewrite Hmsgs.
  rewrite (M_bind_run _ _ _ msgs s1) by done. rewrite (M_bind_run _ _ _ _ _ Hloop).
  assert (Hfix : max_seq (cursor_of peer (s_db s1)) plans = cursor_of peer (s_db s1)).
  { rewrite Hcur. generalize (cursor_of peer (s_db s)). clear. intros z.
    assert (Hbound : ∀ plans z, Forall (λ p : Z * option routing, p.1 <= max_seq z plans) plans).
    { clear. unfold max_seq. induction plans as [|p plans IH]; intros z; constructor; cbn [foldl].
      - pose proof (max_seq_ge (Z.max p.1 z) plans). unfold max_seq in *. lia.
      - apply IH. }
    specialize (Hbound plans z). revert Hbound. generalize (max_seq z plans). clear.
    intros m Hb. unfold max_seq. induction Hb as [|p plans Hp _ IH]; [done|].
    cbn [foldl]. by replace (Z.max p.1 m) with m by lia. }
  rewrite Hfix, Z.ltb_irrefl. done.
Qed.

(** One entry whose decryption, decoding or routing raises anything but
    [ValueError] or [KeyError] makes [apply] raise and leaves the cursor where
    it was, whatever the other entries are; so every later fetch starts with
    the same entry again. *)
Theorem apply_poisoned identity peer resp msgs s :
  (get_or "msgs" (JArr []) resp ≫= as_list) = Ok msgs →
  Forall (λ m, is_Some (to_option (entry_seq m))) msgs →
  Exists (λ m, ∃ e, entry_plan identity peer m = Raise e) msgs →
  ∃ e s', apply identity peer resp s = (Raise e, s') ∧
    cursor_of peer (s_db s') = cursor_of peer (s_db s).
Proof.
  intros Hmsgs Hseqs Hex. unfold apply, cursor, query.
  rewrite (M_bind_run _ _ _ (cursor_of peer (s_db s)) s), Hmsgs by done.
  rewrite (M_bind_run _ _ _ msgs s) by done.
  destruct (loop_fail identity peer msgs (cursor_of peer (s_db s)) 0 s Hseqs Hex) as (e&s'&Hr&(_&Hw&_)).
  exists e, s'. rewrite (M_bind_raise _ _ _ _ _ Hr). split; [done|]. unfold cursor_of. by rewrite Hw.
Qed.

(** A message delivered live and found again in the journal is stored
    once: the live event moves the cursor at least to its number, and a later
    response that contains the entry adds nothing for it. *)
Theorem live_then_sync peer seq opened s conv new s1 identity m resp :
  ingest_opened peer seq opened s = (Ok (conv, new), s1) →
  entry_seq m = Ok seq → opened_of identity m = Ok (Some opened) →
  (get_or "msgs" (JArr []) resp ≫= as_list) = Ok [m] →
  seq <= cursor_of peer (s_db s1) ∧ cursor_of peer (s_db s) <= cursor_of peer (s_db s1) ∧
  dict_mem (in_id peer seq) (messages_t (s_db s1)) = true ∧
  ∃ s2, apply identity peer resp s1 = (Ok 0, s2) ∧
    messages_t (s_db s2) = messages_t (s_db s1) ∧
    cursor_of peer (s_db s2) = cursor_of peer (s_db s1).
Proof.
  intros Hlive Hseq Hop Hmsgs. unfold ingest_opened in Hlive.
  apply M_bind_Ok in Hlive as ([c n]&s0&Hroute&H). cbn zeta in H.
  destruct (route_plan peer seq opened) as [r|e] eqn:Hplan.
  2: { destruct (route_fail peer seq opened e s Hplan) as (e'&s'&Hr&_). congruence. }
  destruct (route_run peer seq opened r s Hplan) as (s0'&rows&Hrun&(Hk&Hw&Hd)&He&Ha).
  rewrite Hroute in Hrun. injection Hrun as -> -> ->.
  assert (Hcur0 : cursor_of peer (s_db s0') = cursor_of peer (s_db s)) by (unfold cursor_of; by rewrite Hw).
  unfold cursor, query in H. rewrite (M_bind_run _ _ _ (cursor_of peer (s_db s0')) s0') in H by done.
  apply M_bind_Ok in H as ([]&s1'&Hset&H). injection H as <- <- <-.
  assert (Hs1 : messages_t (s_db s1') = messages_t (s_db s0') ∧
    cursor_of peer (s_db s1') = Z.max (cursor_of peer (s_db s)) seq).
  { destruct (Z.ltb_spec (cursor_of peer (s_db s0')) seq) as [Hlt|Hle].
    - unfold set_cursor in Hset. apply M_bind_Ok in Hset as (z&s4&Hz&Hset).
      unfold lift in Hz. injection Hz as Hz <-. apply bind_int_inv in Hz as [-> _].
      injection Hset as <-. split; [done|]. cbn [s_db]. rewrite cursor_set_max by done. lia.
    - injection Hset as <-. split; [done|]. lia. }
  destruct Hs1 as [Hm1 Hc1].
  assert (Hmem : dict_mem (in_id peer seq) (messages_t (s_db s1')) = true).
  { rewrite Hm1. by apply (rows_mem peer s s0' [(seq, Some r)] rows (seq, Some r)); [..|left|]. }
  split; [lia|]. split; [lia|]. split; [done|].
  assert (HF : Forall2 (λ m p, entry_plan identity peer m = Ok p) [m] [(seq, Some r)]).
  { constructor; [|constructor]. unfold entry_plan. rewrite Hseq. cbn. rewrite Hop. cbn. by rewrite Hplan. }
  destruct (loop_run identity peer [m] [(seq, Some r)] (cursor_of peer (s_db s1')) 0 s1' HF)
    as (rows2&s2&Hloop&(_&Hw2&_)&He2&Ha2).
  rewrite fresh_nil in Ha2
    by (intros p [->|Hp]%elem_of_cons _; [by apply dict_mem_true|by apply elem_of_nil in Hp]).
  apply Forall2_nil_inv_l in Ha2 as ->. unfold extends in He2. rewrite app_nil_r in He2.
  exists s2. split; [|split; [done|unfold cursor_of; by rewrite Hw2]].
  unfold apply, cursor, query. rewrite (M_bind_run _ _ _ (cursor_of peer (s_db s1')) s1'), Hmsgs by done.
  rewrite (M_bind_run _ _ _ [m] s1') by done. rewrite (M_bind_run _ _ _ _ _ Hloop).
  cbn [max_seq foldl fst]. replace (Z.max seq (cursor_of peer (s_db s1'))) with (cursor_of peer (s_db s1')) by lia.
  by rewrite Z.ltb_irrefl.
Qed.
End SyncProps.

(** ** Evaluated instances *)

Section ServiceWitness.
Local Instance vw_json : JsonCodec := RefCodec.
Local Instance vw_nacl : NaCl := RefNaCl.

Definition wit_entry (seq : Z) (payload : string) : json :=
  JObj [("seq", JInt seq); ("payload", JStr payload)].
Definition good_resp : json := JObj [("msgs", JArr [wit_entry 4 wit_payload])].
Definition bad_resp : json :=
  JObj [("msgs", JArr [wit_entry 4 wit_payload; wit_entry 5 (b64encode alice)])].
Definition synced : store := (apply bob "alice" good_resp fresh_store).2.

Example apply_spec_witness :
  apply bob "alice" good_resp fresh_store = (Ok 1, synced) ∧
  cursor_of "alice" (s_db synced) = 4 ∧
  ∃ msgs plans rows, (get_or "msgs" (JArr []) good_resp ≫= as_list) = Ok msgs ∧
    Forall2 (λ m p, entry_plan bob "alice" m = Ok p) msgs plans ∧
    messages_t (s_db synced) = messages_t (s_db fresh_store) ++ rows ∧ 1 = Z.of_nat (length rows).
Proof.
  assert (H : apply bob "alice" good_resp fresh_store = (Ok 1, synced)) by (vm_compute; reflexivity).
  split; [exact H|]. split; [by vm_compute|].
  destruct (apply_spec bob "alice" good_resp fresh_store 1 synced H) as (m&p&r&H1&H2&H3&H4&_).
  exists m, p, r. split; [exact H1|]. split; [exact H2|]. split; [exact H3|exact H4].
Defined.

Example apply_idempotent_witness :
  ∃ s2, apply bob "alice" good_resp synced = (Ok 0, s2) ∧
    messages_t (s_db s2) = messages_t (s_db synced) ∧ watermark (s_db s2) = watermark (s_db synced).
Proof.
  apply (apply_idempotent bob "alice" good_resp fresh_store 1 synced). vm_compute. reflexivity.
Defined.

(** the second entry is not sealed for us: PyNaCl raises [CryptoError] *)
Example apply_poisoned_witness :
  (apply bob "alice" bad_resp fresh_store).1 = Raise CryptoError ∧
  ∃ e s', apply bob "alice" bad_resp fresh_store = (Raise e, s') ∧
    cursor_of "alice" (s_db s') = cursor_of "alice" (s_db fresh_store).
Proof.
  split; [by vm_compute|].
  apply (apply_poisoned bob "alice" bad_resp [wit_entry 4 wit_payload; wit_entry 5 (b64encode alice)]
    fresh_store); [done|by repeat constructor|].
  right. left. exists CryptoError. vm_compute. reflexivity.
Defined.

Definition wit_opened : list (string * json) :=
  [("from", JStr (hex alice)); ("text", JStr "hi"); ("ts", JInt 5)].
Example live_then_sync_witness :
  let s1 := (ingest_opened "alice" 4 wit_opened fresh_store).2 in
  4 <= cursor_of "alice" (s_db s1) ∧
  ∃ s2, apply bob "alice" good_resp s1 = (Ok 0, s2) ∧
    messages_t (s_db s2) = messages_t (s_db s1).
Proof.
  intros s1. destruct (live_then_sync "alice" 4 wit_opened fresh_store "alice" true s1 bob
    (wit_entry 4 wit_payload) good_resp) as (H1&_&_&s2&H2&H3&_).
  - vm_compute. reflexivity.
  - done.
  - vm_compute. reflexivity.
  - done.
  - split; [exact H1|]. exists s2. split; [exact H2|exact H3].
Defined.
End ServiceWitness.
