(* ===== verification/Tunnel.v ===== *)
(** * tunnel.py: the SSH tunnel to a remote daemon

    The supervisor's state, the operating system's processes, and what the
    rest of the machine does while the supervisor waits, which is an
    environment the theorems quantify over: it also says whether a directory
    can be made, and the state keeps the commands it has started itself. *)

From S2P Require Import Prelude PyStr Codec Json Sys Paths.
From Stdlib Require Import Ascii.
Local Open Scope Z_scope.

(** ** Which socket the client connects to *)

Definition SSH_OPTS : list string :=
  ["-o"; "BatchMode=yes"; "-o"; "ExitOnForwardFailure=yes"; "-o"; "StrictHostKeyChecking=accept-new";
   "-o"; "StreamLocalBindUnlink=yes"; "-o"; "ServerAliveInterval=15"; "-o"; "ServerAliveCountMax=3";
   "-o"; "TCPKeepAlive=yes"].

Definition BACKOFF : list Z := [2; 4; 8; 15; 30].

Record remote := Remote { rm_host : string; rm_socket : string; rm_local_socket : string }.

Section Config.
Context `{J : JsonCodec} `{D : Daemon}.

Definition default_local_socket (env : gmap string string) (home : string) : string :=
  match env !! "XDG_RUNTIME_DIR" with
  | Some runtime =>
    if bool_decide (runtime = "") then path_join (run_dir env home) "remote.sock"
    else path_join (path_join runtime "aimless") "remote.sock"
  | None => path_join (run_dir env home) "remote.sock"
  end.

(** The value of [d.get(k)] when it is set to something true. *)
Definition get_true (k : string) (d : list (string * json)) : option json :=
  match dict_get k d with Some v => if truthy v then Some v else None | None => None end.

(** The block of a preferences object; only the reading and the parsing of
    the file are inside the handler. *)
Definition remote_of_prefs (dflt : string) (prefs : json) : result (option remote) :=
  block ← jget "remote" prefs;
  Ok match block with
     | Some (JObj d) =>
       match get_true "host" d, get_true "socket" d with
       | Some host, Some socket =>
         Some (Remote (py_str host) (py_str socket)
                 match get_true "local_socket" d with Some v => py_str v | None => dflt end)
       | _, _ => None
       end
     | _ => None
     end.

Definition remote_config : IO (option remote) :=
  env ← gets w_env;
  home ← gets w_home;
  prefs ← try_with is_exception
    (content ← read_file (prefs_path env home); Some <$> lift (json_loads_bytes content))
    (λ _, mret None);
  match prefs with
  | None => mret None
  | Some prefs => lift (remote_of_prefs (default_local_socket env home) prefs)
  end.

Definition local_socket : IO (option string) :=
  r ← remote_config; mret (rm_local_socket <$> r).

Definition client_socket : IO string :=
  env ← gets w_env;
  home ← gets w_home;
  if bool_decide (env_or env "AIMLESS_SOCK" "" = "") then
    r ← remote_config;
    match r with Some r => mret (rm_local_socket r) | None => mret (sock_path env home) end
  else mret (env_or env "AIMLESS_SOCK" "").
End Config.

(** ** Processes *)

Inductive pstatus := Running | Zombie.

(** A child of this process, another process of this user, anybody else's. *)
Inductive owner := OurChild | OurUser | Other.

(** A process: its command name and arguments, its state, whose it is. *)
Record proc := Proc { p_comm : string; p_argv : list string; p_status : pstatus; p_owner : owner }.

#[export] Instance pstatus_eq_dec : EqDecision pstatus.
Proof. solve_decision. Defined.

Inductive signal := SIG0 | SIGTERM | SIGKILL | SIGINT | SIGUSR1.

#[export] Instance signal_eq_dec : EqDecision signal.
Proof. solve_decision. Defined.

Section Os.
Context `{D : Daemon}.

(** The machine: the world of files and the daemon, the process table, the
    programs on the search path, the signals sent so far and the commands
    started by us, both last first. *)
Record os := Os {
  o_world : world;
  o_procs : gmap Z proc;
  o_bins : gset string;
  o_signals : list (Z * signal);
  o_started : list (list string);
}.
Definition set_world (w : world) (o : os) : os := Os w (o_procs o) (o_bins o) (o_signals o) (o_started o).
Definition set_procs (p : gmap Z proc) (o : os) : os := Os (o_world o) p (o_bins o) (o_signals o) (o_started o).

(** What the other processes do: [pass d o] is the machine [d] milliseconds
    later, and the kernel picks the number of a new process; [makes_dir d now]
    says whether the directory [d] is there, or can be made, at that time. *)
Class Env := {
  pass : Z → os → os;
  new_pid : os → Z;
  makes_dir : string → Z → bool;
}.

(** The clock runs, our environment is our own, an exited child stays a zombie
    until it is reaped, new pids are positive and unused. *)
Class EnvLaws (E : Env) : Prop := {
  pass_clock : ∀ d o, 0 <= d → w_now (o_world o) + d <= w_now (o_world (pass d o));
  pass_env : ∀ d o, w_env (o_world (pass d o)) = w_env (o_world o) ∧
    w_home (o_world (pass d o)) = w_home (o_world o);
  pass_child : ∀ d o pid p, o_procs o !! pid = Some p → p_owner p = OurChild →
    ∃ p', o_procs (pass d o) !! pid = Some p' ∧ p_owner p' = OurChild ∧
      (p_status p = Zombie → p_status p' = Zombie);
  pass_signals : ∀ d o, o_signals (pass d o) = o_signals o ∧ o_started (pass d o) = o_started o;
  new_pid_fresh : ∀ o, o_procs o !! new_pid o = None;
  new_pid_pos : ∀ o, 0 < new_pid o;
}.

Definition proc_state (s : pstatus) : string := match s with Running => "S" | Zombie => "Z" end.

(** [/proc/<pid>/stat] begins with the pid, the name in parentheses, the state. *)
Definition stat_text (pid : Z) (p : proc) : string :=
  str_of_int pid +:+ " (" +:+ p_comm p +:+ ") " +:+ proc_state (p_status p) +:+ " 1 1".

Definition _pid_zombie (pid : Z) (o : os) : bool :=
  match o_procs o !! pid with
  | Some p => let fields := words (stat_text pid p) in bool_decide (fields !! 2%nat = Some "Z")
  | None => false
  end.

(** [os.kill]: the signal is recorded as sent; the target takes [SIGTERM] in
    its own time and [SIGKILL] at once. *)
Definition os_kill (pid : Z) (sig : signal) (o : os) : result unit * os :=
  match o_procs o !! pid with
  | Some p =>
    match p_owner p with
    | Other => (Raise (OSError "Operation not permitted"), o)
    | own =>
      (Ok tt, Os (o_world o)
         match sig with
         | SIGKILL => <[pid := Proc (p_comm p) (p_argv p) Zombie own]> (o_procs o)
         | _ => o_procs o
         end (o_bins o)
         match sig with SIG0 => o_signals o | _ => (pid, sig) :: o_signals o end (o_started o))
    end
  | None => (Raise (OSError "No such process"), o)
  end.

Definition _pid_alive (pid : Z) (o : os) : bool :=
  match (os_kill pid SIG0 o).1 with
  | Ok _ => negb (_pid_zombie pid o)
  | Raise _ => false
  end.

(** The arguments, each followed by a NUL; those of a zombie are gone. *)
Definition _cmdline (pid : Z) (o : os) : list string :=
  match o_procs o !! pid with
  | Some p => match p_status p with Running => p_argv p ++ [""] | Zombie => [""] end
  | None => []
  end.

Definition _is_our_ssh (pid : Z) (local_socket_path : string) (o : os) : bool :=
  match _cmdline pid o with
  | [] => false
  | p0 :: _ as parts =>
    bool_decide (basename p0 = "ssh") && existsb (contains local_socket_path) parts
  end.

(** A child of ours: its pid, and whether its exit status was collected. *)
Record child := Child { ch_pid : Z; ch_done : bool }.

(** [Popen.poll()]: [None] while it runs; an exited child is reaped. *)
Definition poll (c : child) (o : os) : bool * (child * os) :=
  if ch_done c then (true, (c, o))
  else match o_procs o !! ch_pid c with
       | Some p =>
         match p_status p with
         | Running => (false, (c, o))
         | Zombie => (true, (Child (ch_pid c) true, set_procs (delete (ch_pid c) (o_procs o)) o))
         end
       | None => (true, (Child (ch_pid c) true, o))
       end.

(** [subprocess.Popen(argv)]: a program that cannot be started raises. *)
Definition start_process `{E : !Env} (argv : list string) (o : os) : result child * os :=
  match argv with
  | prog :: _ =>
    if bool_decide (prog ∈ o_bins o) then
      let pid := new_pid o in
      (Ok (Child pid false),
       Os (o_world o) (<[pid := Proc (basename prog) argv Running OurChild]> (o_procs o)) (o_bins o) (o_signals o)
         (argv :: o_started o))
    else (Raise (OSError ("No such file or directory: " +:+ prog)), o)
  | [] => (Raise IndexError, o)
  end.
End Os.

(** ** The supervisor *)

Record supervisor := Supervisor {
  host : string;
  remote_socket : string;
  sup_socket : string;      (* [self.local_socket] *)
  sup_child : option child;
  restarts : Z;
  last_error : string;
  last_ok : Z;
  _backoff_index : nat;
}.
Definition set_child (c : option child) (t : supervisor) : supervisor :=
  Supervisor (host t) (remote_socket t) (sup_socket t) c (restarts t) (last_error t) (last_ok t) (_backoff_index t).
Definition set_restarts (n : Z) (t : supervisor) : supervisor :=
  Supervisor (host t) (remote_socket t) (sup_socket t) (sup_child t) n (last_error t) (last_ok t) (_backoff_index t).
Definition set_error (e : string) (t : supervisor) : supervisor :=
  Supervisor (host t) (remote_socket t) (sup_socket t) (sup_child t) (restarts t) e (last_ok t) (_backoff_index t).
Definition set_ok (now : Z) (t : supervisor) : supervisor :=
  Supervisor (host t) (remote_socket t) (sup_socket t) (sup_child t) (restarts t) (last_error t) now (_backoff_index t).
Definition set_backoff (n : nat) (t : supervisor) : supervisor :=
  Supervisor (host t) (remote_socket t) (sup_socket t) (sup_child t) (restarts t) (last_error t) (last_ok t) n.

Definition new_supervisor (r : remote) : supervisor :=
  Supervisor (rm_host r) (rm_socket r) (rm_local_socket r) None 0 "" 0 0.

Definition ssh_argv (t : supervisor) : list string :=
  ["ssh"; "-N"] ++ SSH_OPTS ++ ["-L"; sup_socket t +:+ ":" +:+ remote_socket t; host t].

Definition next_backoff (t : supervisor) : Z * supervisor :=
  (default 0 (BACKOFF !! Nat.min (_backoff_index t) (length BACKOFF - 1)),
   set_backoff (S (_backoff_index t)) t).
Definition reset_backoff (t : supervisor) : supervisor := set_backoff 0 t.

Section Supervisor.
Context `{J : JsonCodec} `{D : Daemon} `{E : !Env}.

(** The methods run on the supervisor and the machine. *)
Definition TM (A : Type) : Type := M (supervisor * os) A.
Definition self_ : TM supervisor := gets fst.
Definition update (f : supervisor → supervisor) : TM unit := modify (λ s, (f s.1, s.2)).
Definition machine {A} (f : os → A) : TM A := gets (λ s, f s.2).
Definition on_world {A} (m : IO A) : TM A := λ '(t, o),
  let '(r, w) := m (o_world o) in (r, (t, set_world w o)).
Definition kill (pid : Z) (sig : signal) : TM unit := λ '(t, o),
  let '(r, o) := os_kill pid sig o in (r, (t, o)).
Definition sleep (ms : Z) : TM unit := modify (λ s, (s.1, pass ms s.2)).
Definition time : TM Z := gets (λ s, w_now (o_world s.2)).

(** [self.child.poll()] *)
Definition poll_child (c : child) : TM bool := λ '(t, o),
  let '(exited, (c, o)) := poll c o in (Ok exited, (set_child (Some c) t, o)).
(** [self.child.wait(timeout)]: a child still running is given the whole
    timeout before [TimeoutExpired]. *)
Definition wait_child (c : child) (ms : Z) : TM unit :=
  exited ← poll_child c;
  if exited : bool then mret tt
  else
    _ ← sleep ms;
    exited ← poll_child c;
    if exited : bool then mret tt else raise (RuntimeError "timed out").

Definition tunnel_pid_file : TM string :=
  on_world (env ← gets w_env; home ← gets w_home; mret (tunnel_pid_path env home)).

Definition _pid_from_file : TM (option Z) :=
  path ← tunnel_pid_file;
  try_with is_exception
    (content ← on_world (read_file path);
     Some <$> lift (text ← utf8_decode content; py_int (strip text)))
    (λ _, mret None).

Definition _write_pid (pid : Z) : TM unit :=
  path ← tunnel_pid_file;
  try_with is_exception (on_world (write_file path (utf8_encode (str_of_int pid)))) (λ _, mret tt).

Definition _remove_pid : TM unit := path ← tunnel_pid_file; on_world (remove_file path).

Definition socket_exists : TM bool := t ← self_; on_world (path_exists (sup_socket t)).

Definition is_running : TM bool :=
  t ← self_;
  exited ← match sup_child t with Some c => poll_child c | None => mret true end;
  if exited : bool then
    pid ← _pid_from_file;
    match pid with
    | Some pid =>
      alive ← machine (_pid_alive pid);
      if negb (pid =? 0) && alive then socket_exists else mret false
    | None => mret false
    end
  else socket_exists.

Definition popen (argv : list string) : TM child := λ '(t, o),
  let '(r, o) := start_process argv o in (r, (t, o)).

(** [os.makedirs(dir, exist_ok=True)], where nothing catches its error *)
Definition no_directory (dir : string) : exn := OSError ("cannot make the directory " +:+ dir).
Definition makedirs (dir : string) : TM unit :=
  now ← time; if makes_dir dir now then mret tt else raise (no_directory dir).
(** [os.path.dirname(self.local_socket) or "."] *)
Definition socket_dir (t : supervisor) : string :=
  let dir := dirname (sup_socket t) in if bool_decide (dir = "") then "." else dir.

Definition spawn : TM Z :=
  t ← self_;
  _ ← match sup_child t with
      | Some c => try_with is_exception (wait_child c 200) (λ _, mret tt)
      | None => mret tt
      end;
  _ ← makedirs (socket_dir t);
  path ← on_world (env ← gets w_env; home ← gets w_home; mret (tunnel_log_path env home));
  _ ← on_world (append_file path []);
  c ← popen (ssh_argv t);
  _ ← update (set_child (Some c));
  _ ← _write_pid (ch_pid c);
  mret (ch_pid c).

Definition probe : TM bool :=
  t ← self_;
  try_with is_exception
    (_ ← on_world (connect (sup_socket t));
     _ ← on_world (request "whoami" []);
     now ← time;
     _ ← update (set_ok now);
     _ ← update (set_backoff 0);
     mret true)
    (λ e, _ ← update (set_error (exn_str e)); mret false).

(** The loop of [wait_for_socket]; [fuel] bounds its rounds of 200 ms. *)
Fixpoint wait_loop (fuel : nat) (deadline : Z) : TM bool :=
  match fuel with
  | O => raise (RuntimeError "out of fuel")
  | S fuel =>
    now ← time;
    if now <? deadline then
      t ← self_;
      exited ← match sup_child t with Some c => poll_child c | None => mret false end;
      if exited : bool then _ ← update (set_error "ssh exited immediately"); mret false
      else
        there ← socket_exists;
        if there : bool then mret true
        else _ ← sleep 200; wait_loop fuel deadline
    else _ ← update (set_error "tunnel socket did not appear"); mret false
  end.
Definition wait_for_socket (timeout : Z) : TM bool :=
  now ← time; wait_loop (rounds timeout 200) (now + timeout).

(** The grace loop for a process that is not a child of ours. *)
Fixpoint reap_loop (fuel : nat) (pid deadline : Z) : TM unit :=
  match fuel with
  | O => raise (RuntimeError "out of fuel")
  | S fuel =>
    now ← time;
    alive ← machine (_pid_alive pid);
    if (now <? deadline) && alive then _ ← sleep 100; reap_loop fuel pid deadline else mret tt
  end.

Definition kill_quietly (pid : Z) (sig : signal) : TM unit :=
  try_with is_os_error (kill pid sig) (λ _, mret tt).

Definition _reap (pid timeout : Z) : TM unit :=
  t ← self_;
  match sup_child t with
  | Some c =>
    try_with is_exception (wait_child c timeout) (λ _,
      _ ← kill_quietly pid SIGKILL;
      t ← self_;
      match sup_child t with
      | Some c => try_with is_exception (wait_child c 1000) (λ _, mret tt)
      | None => mret tt
      end)
  | None =>
    now ← time;
    _ ← reap_loop (rounds timeout 100) pid (now + timeout);
    alive ← machine (_pid_alive pid);
    if alive : bool then _ ← kill_quietly pid SIGKILL; sleep 300 else mret tt
  end.

Definition stop : TM unit :=
  t ← self_;
  pid ← match sup_child t with Some c => mret (Some (ch_pid c)) | None => _pid_from_file end;
  ours ← match sup_child t, pid with
         | Some _, _ => mret true
         | None, Some p =>
           o ← machine (_is_our_ssh p (sup_socket t)); mret (negb (p =? 0) && o)
         | None, None => mret false
         end;
  _ ← match pid with
      | Some p =>
        if negb (p =? 0) && ours then _ ← kill_quietly p SIGTERM; _reap p 2000 else mret tt
      | None => mret tt
      end;
  _ ← update (set_child None);
  _ ← _remove_pid;
  on_world (remove_file (sup_socket t)).

Definition restart (log : string → TM unit) : TM bool :=
  _ ← stop;
  _ ← update (λ t, set_restarts (restarts t + 1) t);
  _ ← spawn;
  up ← wait_for_socket 20000;
  t ← self_;
  if up : bool then
    _ ← update (set_backoff 0);
    _ ← log ("tunnel: up (" +:+ host t +:+ ")");
    mret true
  else
    _ ← log ("tunnel: not up (" +:+ host t +:+ "): " +:+ last_error t);
    mret false.

Definition ensure (log : string → TM unit) : TM bool :=
  up ← is_running; if up : bool then mret true else restart log.

Definition state : TM (list (string * json)) :=
  up ← is_running;
  t ← self_;
  mret [("up", JBool up); ("host", JStr (host t)); ("remote_socket", JStr (remote_socket t));
        ("local_socket", JStr (sup_socket t)); ("restarts", JInt (restarts t));
        ("last_error", JStr (last_error t)); ("last_ok", JInt (last_ok t))].
End Supervisor.
