(* ===== verification/TunnelProps.v ===== *)
(** * Properties of the tunnel supervisor *)

From S2P Require Import Prelude PyStr Codec Json Sys Paths Tunnel.
From Stdlib Require Import Ascii.
Local Open Scope Z_scope.

(** ** Backoff *)

Fixpoint delays (n : nat) (t : supervisor) : list Z :=
  match n with O => [] | S n => let '(d, t) := next_backoff t in d :: delays n t end.

Lemma delays_capped n t : (4 <= _backoff_index t)%nat → delays n t = replicate n 30.
Proof.
  revert t; induction n as [|n IH]; intros t Ht; [done|]. cbn [delays next_backoff replicate].
  rewrite IH by (cbn; lia). f_equal. cbn [length BACKOFF].
  by replace (Nat.min (_backoff_index t) (5 - 1)) with 4%nat by lia.
Qed.

(** After a reset the delays between restarts are the five of the table,
    in order, then the last of them for ever. *)
Theorem backoff_schedule n t :
  delays n (reset_backoff t) = take n BACKOFF ++ replicate (n - 5) 30.
Proof.
  destruct (decide (n <= 5)%nat) as [Hn|Hn].
  - replace (n - 5)%nat with 0%nat by lia. rewrite app_nil_r.
    by do 6 (destruct n as [|n]; [done|]); lia.
  - replace n with (5 + (n - 5))%nat at 1 by lia. do 5 cbn [delays next_backoff Nat.add].
    rewrite delays_capped by (cbn; lia). by rewrite take_ge by (cbn; lia).
Qed.

(** ** Where the client connects *)

Section ClientSocket.
Context `{J : JsonCodec} `{!JsonLaws J} `{D : Daemon}.

(** The preferences as the tunnel reads them: none when the file is missing
    or is not JSON. *)
Definition prefs_of (w : world) : option json :=
  to_option (fs_read (prefs_path (w_env w) (w_home w)) (w_fs w) ≫= json_loads_bytes).

Definition config_of (w : world) : result (option remote) :=
  match prefs_of w with
  | None => Ok None
  | Some prefs => remote_of_prefs (default_local_socket (w_env w) (w_home w)) prefs
  end.

Lemma read_prefs_error path (m : fs) e :
  (fs_read path m ≫= json_loads_bytes) = Raise e → is_exception e = true.
Proof.
  unfold fs_read. intros H. apply bind_Raise in H as [H|(l&_&H)].
  - destruct (m !! path); cbn in H; [done|by injection H as <-].
  - apply loads_bytes_error in H. by destruct e.
Qed.

Lemma remote_config_run w : remote_config w = (config_of w, w).
Proof.
  unfold remote_config. rewrite (M_bind_run _ _ _ _ w) by done.
  rewrite (M_bind_run _ _ _ _ w) by done.
  rewrite (M_bind_run _ _ _ (prefs_of w) w).
  - unfold config_of. by destruct (prefs_of w).
  - unfold prefs_of, try_with, read_file, mbind, M_bind.
    pose proof (read_prefs_error (prefs_path (w_env w) (w_home w)) (w_fs w)) as He.
    destruct (fs_read _ _) as [l|e]; cbn in *;
      [|by pose proof (He e eq_refl); destruct e].
    destruct (json_loads_bytes l) as [j|e]; cbn in *; [done|].
    by pose proof (He e eq_refl); destruct e.
Qed.

(** The block is used when it names a host and a socket. *)
Lemma remote_of_prefs_some dflt d block h s :
  dict_get "remote" d = Some (JObj block) →
  get_true "host" block = Some h → get_true "socket" block = Some s →
  remote_of_prefs dflt (JObj d) = Ok (Some (Remote (py_str h) (py_str s)
    match get_true "local_socket" block with Some v => py_str v | None => dflt end)).
Proof. intros Hr Hh Hs. unfold remote_of_prefs. cbn. by rewrite Hr, Hh, Hs. Qed.

(** The client connects to the socket the environment names; else to the
    tunnel's local socket, when the preferences have a complete [remote]
    block; else to the local daemon's socket. Preferences that are JSON but
    not an object make it raise [AttributeError]. *)
Theorem client_socket_spec w :
  client_socket w =
    (let override := env_or (w_env w) "AIMLESS_SOCK" "" in
     let local := sock_path (w_env w) (w_home w) in
     if bool_decide (override = "") then
       match prefs_of w with
       | None => Ok local
       | Some (JObj d) =>
         match dict_get "remote" d with
         | Some (JObj block) =>
           match get_true "host" block, get_true "socket" block, get_true "local_socket" block with
           | Some _, Some _, Some v => Ok (py_str v)
           | Some _, Some _, None => Ok (default_local_socket (w_env w) (w_home w))
           | _, _, _ => Ok local
           end
         | _ => Ok local
         end
       | Some _ => Raise AttributeError
       end
     else Ok override, w).
Proof.
  unfold client_socket. rewrite (M_bind_run _ _ _ _ w) by done.
  rewrite (M_bind_run _ _ _ _ w) by done.
  destruct (bool_decide _); [|done].
  unfold mbind, M_bind. rewrite remote_config_run. unfold config_of, remote_of_prefs.
  destruct (prefs_of w) as [[| | | | |d]|]; try done. cbn [jget mbind result_bind].
  destruct (dict_get "remote" d) as [[| | | | |block]|]; try done.
  by destruct (get_true "host" block), (get_true "socket" block), (get_true "local_socket" block).
Qed.
End ClientSocket.

(** ** Stopping *)

Section Stop.
Context `{J : JsonCodec} `{D : Daemon} `{E : !Env} `{!EnvLaws E}.

(** The pid file as [_pid_from_file] reads it. *)
Definition file_pid (w : world) : option Z :=
  to_option (content ← fs_read (tunnel_pid_path (w_env w) (w_home w)) (w_fs w);
             text ← utf8_decode content; py_int (strip text)).

(** The process [stop] may signal: the child, or the process the pid file
    names when its command line is that of our ssh. *)
Definition stop_target (t : supervisor) (o : os) : option Z :=
  match sup_child t with
  | Some c => if ch_pid c =? 0 then None else Some (ch_pid c)
  | None =>
    match file_pid (o_world o) with
    | Some p => if negb (p =? 0) && _is_our_ssh p (sup_socket t) o then Some p else None
    | None => None
    end
  end.

Lemma py_int_error s e : py_int s = Raise e → is_exception e = true.
Proof. unfold py_int. intros H. by destruct (match _ with "" => _ | _ => _ end); cbn in H; [|injection H as <-]. Qed.

Lemma pid_from_file_run t o : _pid_from_file (t, o) = (Ok (file_pid (o_world o)), (t, o)).
Proof.
  destruct o as [w ps bs sg st]. unfold _pid_from_file. rewrite (M_bind_run _ _ _ (tunnel_pid_path (w_env w) (w_home w)) (t, Os w ps bs sg st)) by done.
  unfold file_pid, try_with, on_world, read_file, mbind, M_bind, fmap, M_fmap, lift. cbn [o_world].
  destruct (fs_read _ _) as [l|e] eqn:Hr; cbn [result_bind to_option fst].
  - destruct (utf8_decode l) as [text|e] eqn:Hd; cbn [result_bind to_option].
    + destruct (py_int (strip text)) as [z|e] eqn:Hp; [done|]. by rewrite (py_int_error _ _ Hp).
    + unfold utf8_decode in Hd. destruct (utf8_ok l); [done|]. by injection Hd as <-.
  - unfold fs_read in Hr. destruct (w_fs w !! _); cbn in Hr; [done|]. by injection Hr as <-.
Qed.

(** Signals go to [p] only, and the environment stays. *)
Definition confined (p : option Z) (s0 s : supervisor * os) : Prop :=
  w_env (o_world s.2) = w_env (o_world s0.2) ∧ w_home (o_world s.2) = w_home (o_world s0.2) ∧
  ∃ l, o_signals s.2 = l ++ o_signals s0.2 ∧ Forall (λ x, Some x.1 = p) l.

Lemma confined_refl p s : confined p s s.
Proof. split_and!; [done..|]. by exists []. Qed.

Section Confined.
Context (p : option Z) (s0 : supervisor * os).
Let I := confined p s0.

Lemma confined_self : keeps I self_ any.
Proof. apply keeps_gets_any. Qed.
Lemma confined_time : keeps I time any.
Proof. apply keeps_gets_any. Qed.
Lemma confined_machine {A} (f : os → A) : keeps I (machine f) any.
Proof. apply keeps_gets_any. Qed.
Lemma confined_update f : keeps I (update f) any.
Proof. by apply keeps_modify. Qed.
Lemma confined_sleep ms : keeps I (sleep ms) any.
Proof.
  apply keeps_modify. intros [t o] (He&Hh&l&Hl&Hf). destruct (pass_env ms o) as [He' Hh'].
  unfold I, confined. cbn in *. rewrite (proj1 (pass_signals _ _)). split_and!; [congruence..|]. eauto.
Qed.
Lemma confined_poll c : keeps I (poll_child c) any.
Proof.
  intros [t o] H. split; [|done]. revert H. unfold I, confined, poll_child, poll. cbn.
  by repeat case_match; simplify_eq/=.
Qed.
Lemma confined_kill pid sig : p = Some pid → keeps I (kill_quietly pid sig) any.
Proof.
  intros ->. apply keeps_try; [|intros; apply keeps_ret_any].
  intros [t o] (He&Hh&l&Hl&Hf). split; [|done]. unfold I, confined, kill, os_kill. cbn in *.
  destruct (o_procs o !! pid) as [q|]; [|by eauto 6]. destruct (p_owner q), sig; cbn; eauto 6;
    (split_and!; [done..|]; eexists (_ :: l); rewrite Hl; split; [done|by constructor]).
Qed.
Lemma confined_world {A} (m : IO A) :
  (∀ w, w_env (m w).2 = w_env w ∧ w_home (m w).2 = w_home w) → keeps I (on_world m) any.
Proof.
  intros Hm [t o] (He&Hh&H). split; [|done]. unfold I, confined, on_world. cbn in *.
  destruct (Hm (o_world o)) as [He' Hh']. destruct (m (o_world o)) as [r w]; cbn in *.
  split_and!; [congruence..|done].
Qed.
Lemma confined_remove path : keeps I (on_world (remove_file path)) any.
Proof.
  apply confined_world. intros w. unfold remove_file, try_with, sys.
  by destruct (sys_run _ _) as [|[]].
Qed.
End Confined.
#[local] Hint Resolve confined_self confined_time confined_machine confined_update confined_sleep
  confined_poll confined_remove : keeps.

Lemma confined_wait p s0 c ms : keeps (confined p s0) (wait_child c ms) any.
Proof. unfold wait_child. keeps_tac. Qed.
#[local] Hint Resolve confined_wait : keeps.

Lemma confined_reap_loop p s0 fuel pid d : keeps (confined p s0) (reap_loop fuel pid d) any.
Proof. induction fuel; cbn [reap_loop]; keeps_tac. Qed.
#[local] Hint Resolve confined_reap_loop : keeps.

Lemma confined_reap s0 pid timeout : keeps (confined (Some pid) s0) (_reap pid timeout) any.
Proof.
  pose proof (confined_kill (Some pid) s0 pid SIGKILL eq_refl). unfold _reap. keeps_tac;
    repeat (apply keeps_try; [keeps_tac|intros]; keeps_tac).
Qed.

(** *** It always returns *)

Lemma raises_on_world {A} P (m : IO A) : raises P m → raises P (on_world m).
Proof.
  intros Hm [t o] e. unfold on_world. pose proof (Hm (o_world o)) as H.
  destruct (m (o_world o)) as [r w]; cbn in *. by apply H.
Qed.

Lemma raises_remove path : raises never (on_world (remove_file path)).
Proof.
  apply raises_on_world. eapply (raises_try _ (λ e, is_os_error e = true)); [|by intros e ->|].
  - intros w e. unfold sys. cbn. destruct (w_fs w !! path); cbn; [done|by intros [= <-]].
  - intros e. apply raises_ret.
Qed.

Lemma raises_kill pid sig : raises never (kill_quietly pid sig).
Proof.
  eapply (raises_try _ (λ e, is_os_error e = true)); [|by intros e ->|].
  - intros [t o] e. unfold kill, os_kill. destruct (o_procs o !! pid) as [q|]; cbn.
    + destruct (p_owner q), sig; cbn; try done; by intros [= <-].
    + by intros [= <-].
  - intros e. apply raises_ret.
Qed.

Lemma raises_poll P c : raises P (poll_child c).
Proof. intros [t o] e. unfold poll_child. by destruct (poll c o) as [b [c' o']]. Qed.

Lemma raises_sleep P ms : raises P (sleep ms).
Proof. apply raises_modify. Qed.
#[local] Hint Resolve raises_remove raises_kill raises_poll raises_sleep : raises.

Lemma raises_wait c ms : raises (λ e, is_exception e = true) (wait_child c ms).
Proof.
  unfold wait_child. raises_tac. by intros s e [= <-].
Qed.

Lemma raises_wait_quietly c ms (h : exn → TM unit) :
  (∀ e, raises never (h e)) → raises never (try_with is_exception (wait_child c ms) h).
Proof. intros Hh. eapply raises_try; [apply raises_wait|by intros e ->|done]. Qed.

Lemma raises_self P : raises P self_.
Proof. apply raises_gets. Qed.

Lemma reap_loop_returns fuel pid deadline t o :
  (0 < fuel)%nat → deadline - w_now (o_world o) < 100 * (Z.of_nat fuel - 1) →
  ∃ s, reap_loop fuel pid deadline (t, o) = (Ok tt, s).
Proof.
  revert o; induction fuel as [|fuel IH]; intros o H0 Hf; [lia|]. cbn [reap_loop].
  rewrite (M_bind_run _ _ _ (w_now (o_world o)) (t, o)) by done.
  rewrite (M_bind_run _ _ _ (_pid_alive pid o) (t, o)) by done.
  destruct (w_now (o_world o) <? deadline) eqn:Hd; cbn [andb]; [|by eexists].
  destruct (_pid_alive pid o); [|by eexists].
  rewrite (M_bind_run _ _ _ tt (t, pass 100 o)) by done.
  pose proof (pass_clock 100 o ltac:(lia)). apply IH; lia.
Qed.

Lemma raises_reap pid timeout : 0 <= timeout → raises never (_reap pid timeout).
Proof.
  intros Ht. unfold _reap. apply raises_bind; [apply raises_self|]. intros t1.
  destruct (sup_child t1) as [c|].
  - apply raises_wait_quietly. intros _. raises_tac. apply raises_wait_quietly.
    intros _. apply raises_ret.
  - intros [t o] e. rewrite (M_bind_run _ _ _ (w_now (o_world o)) (t, o)) by done.
    destruct (reap_loop_returns (rounds timeout 100) pid (w_now (o_world o) + timeout) t o) as [s Hs];
      [unfold rounds; lia|pose proof (rounds_enough timeout 100); lia|].
    rewrite (M_bind_run _ _ _ _ _ Hs). clear Hs. revert s e.
    change (raises never (alive ← machine (_pid_alive pid);
      if alive : bool then _ ← kill_quietly pid SIGKILL; sleep 300 else mret tt)).
    raises_tac; apply raises_gets.
Qed.

(** *** What it does *)

Definition stop_process (target : option Z) : TM unit :=
  match target with Some p => _ ← kill_quietly p SIGTERM; _reap p 2000 | None => mret tt end.
Definition stop_files (sock : string) : TM unit :=
  _ ← update (set_child None); _ ← _remove_pid; on_world (remove_file sock).

Lemma stop_steps t o :
  stop (t, o) = (_ ← stop_process (stop_target t o); stop_files (sup_socket t)) (t, o).
Proof.
  unfold stop. rewrite (M_bind_run _ _ _ t (t, o)) by done. unfold stop_target.
  destruct (sup_child t) as [c|].
  - rewrite (M_bind_run _ _ _ (Some (ch_pid c)) (t, o)) by done.
    rewrite (M_bind_run _ _ _ true (t, o)) by done. by destruct (ch_pid c =? 0).
  - rewrite (M_bind_run _ _ _ _ _ (pid_from_file_run t o)).
    destruct (file_pid (o_world o)) as [p|].
    + rewrite (M_bind_run _ _ _ (negb (p =? 0) && _is_our_ssh p (sup_socket t) o) (t, o)) by done.
      by destruct (p =? 0), (_is_our_ssh p (sup_socket t) o).
    + by rewrite (M_bind_run _ _ _ false (t, o)) by done.
Qed.

Lemma remove_file_run path w :
  remove_file path w = (Ok tt, set_fs (delete path (w_fs w)) w).
Proof.
  unfold remove_file, try_with, sys, sys_run. destruct (w_fs w !! path) as [f|] eqn:Hf; cbn; [done|].
  rewrite delete_id by done. by destruct w.
Qed.

Definition removed (sock : string) (w : world) : world :=
  set_fs (delete sock (delete (tunnel_pid_path (w_env w) (w_home w)) (w_fs w))) w.

Lemma stop_files_run sock t o :
  stop_files sock (t, o) = (Ok tt, (set_child None t, set_world (removed sock (o_world o)) o)).
Proof.
  destruct o as [w ps bs sg st]. unfold stop_files. rewrite (M_bind_run _ _ _ tt (set_child None t, Os w ps bs sg st)) by done.
  unfold _remove_pid, tunnel_pid_file.
  rewrite (M_bind_run _ _ _ tt (set_child None t,
    Os (set_fs (delete (tunnel_pid_path (w_env w) (w_home w)) (w_fs w)) w) ps bs sg st)).
  - unfold on_world. cbn [o_world]. by rewrite remove_file_run.
  - rewrite (M_bind_run _ _ _ (tunnel_pid_path (w_env w) (w_home w)) (set_child None t, Os w ps bs sg st)) by done.
    unfold on_world. cbn [o_world]. by rewrite remove_file_run.
Qed.

Lemma stop_process_ok target t o :
  ∃ s, stop_process target (t, o) = (Ok tt, s) ∧ confined target (t, o) s ∧
    (target = None → s = (t, o)).
Proof.
  destruct target as [p|]; [|exists (t, o); split_and!; [done|apply confined_refl|done]].
  assert (Hr : raises never (stop_process (Some p))).
  { cbn. apply raises_bind; [apply raises_kill|]. intros _. by apply raises_reap. }
  assert (Hk : keeps (confined (Some p) (t, o)) (stop_process (Some p)) any).
  { cbn. pose proof (confined_kill (Some p) (t, o) p SIGTERM eq_refl).
    pose proof confined_reap. keeps_tac. }
  destruct (raises_never_returns _ (t, o) Hr) as [[] Hrun]. eexists. split; [exact Hrun|].
  split; [|done]. by apply Hk, confined_refl.
Qed.

(** The numbers [stop] may signal: the one its child has, or had; with no child,
    the one in the pid file, if that process is our ssh. *)
Definition may_signal (t : supervisor) (o : os) (p : Z) : Prop :=
  (∃ c, sup_child t = Some c ∧ ch_pid c = p) ∨
  sup_child t = None ∧ file_pid (o_world o) = Some p ∧ _is_our_ssh p (sup_socket t) o = true.
Lemma stop_target_may t o p : stop_target t o = Some p → may_signal t o p.
Proof.
  unfold stop_target, may_signal. destruct (sup_child t) as [c|].
  - destruct (ch_pid c =? 0); [done|]. intros [= <-]. left. eauto.
  - destruct (file_pid (o_world o)) as [q|]; [|done]. destruct (_ && _) eqn:Hs; [|done].
    intros [= <-]. apply andb_prop in Hs as [_ Hs]. by right.
Qed.

(** C40: Stopping always returns; the supervisor forgets its child, and no pid
    file or local socket is left.  It signals no number but that of its child
    or, without a child, that of the process the pid file names when its
    command line is our ssh forwarding this very socket.  (The number of a child
    that an earlier poll has collected can be another process's by now, as
    [stop_signals_reused_pid] shows.) *)
Theorem stop_spec t o :
  ∃ t' o', stop (t, o) = (Ok tt, (t', o')) ∧ sup_child t' = None ∧
    w_fs (o_world o') !! sup_socket t = None ∧
    w_fs (o_world o') !! tunnel_pid_path (w_env (o_world o)) (w_home (o_world o)) = None ∧
    (∃ l, o_signals o' = l ++ o_signals o ∧ Forall (λ x, may_signal t o x.1) l) ∧
    (stop_target t o = None → o_procs o' = o_procs o).
Proof.
  destruct (stop_process_ok (stop_target t o) t o) as ([t1 o1]&Hrun&(He&Hh&l&Hl&Hf)&Hnone).
  do 2 eexists. rewrite stop_steps, (M_bind_run _ _ _ _ _ Hrun), stop_files_run.
  split; [reflexivity|]. cbn in He, Hh, Hl |- *. unfold removed. rewrite He, Hh. cbn.
  split_and!; [done|by rewrite lookup_delete_eq| | |].
  2: { exists l. split; [done|]. eapply Forall_impl; [exact Hf|]. intros x Hx. by apply stop_target_may. }
  - destruct (decide (sup_socket t = tunnel_pid_path (w_env (o_world o)) (w_home (o_world o)))) as [->|Hne].
    + by rewrite lookup_delete_eq.
    + by rewrite lookup_delete_ne, lookup_delete_eq.
  - intros Ht. by injection (Hnone Ht) as -> ->.
Qed.

(** *** The child does not survive *)

Definition has_child (pid : Z) (st : option pstatus) (s : supervisor * os) : Prop :=
  sup_child s.1 = Some (Child pid false) ∧
  ∃ p, o_procs s.2 !! pid = Some p ∧ p_owner p = OurChild ∧ ∀ x, st = Some x → p_status p = x.
Definition reaped (pid : Z) (s : supervisor * os) : Prop := o_procs s.2 !! pid = None.

Lemma poll_child_spec pid st s :
  has_child pid st s →
  (∃ s', poll_child (Child pid false) s = (Ok true, s') ∧ reaped pid s') ∨
  (st ≠ Some Zombie ∧ ∃ s', poll_child (Child pid false) s = (Ok false, s') ∧ has_child pid None s').
Proof.
  destruct s as [t o]. intros (Hc&p&Hp&Ho&Hst). unfold poll_child, poll. cbn in *. rewrite Hp.
  destruct (p_status p) eqn:Hs.
  - right. split; [by intros ->; specialize (Hst Zombie eq_refl)|]. eexists. split; [done|].
    split; [done|]. by exists p.
  - left. eexists. split; [done|]. unfold reaped. cbn. by rewrite lookup_delete_eq.
Qed.

Lemma sleep_child pid ms s : has_child pid None s → has_child pid None (s.1, pass ms s.2).
Proof.
  intros (Hc&p&Hp&Ho&_). split; [done|]. destruct (pass_child ms s.2 pid p Hp Ho) as (p'&Hp'&Ho'&_).
  by exists p'.
Qed.

Lemma wait_child_spec pid st ms s :
  has_child pid st s →
  (∃ s', wait_child (Child pid false) ms s = (Ok tt, s') ∧ reaped pid s') ∨
  (st ≠ Some Zombie ∧ ∃ s' m, wait_child (Child pid false) ms s = (Raise (RuntimeError m), s') ∧
    has_child pid None s').
Proof.
  intros H. unfold wait_child. destruct (poll_child_spec _ _ _ H) as [(s1&Hr&H1)|(Hst&s1&Hr&H1)];
    rewrite (M_bind_run _ _ _ _ _ Hr); [left; by exists s1|].
  rewrite (M_bind_run _ _ _ tt (s1.1, pass ms s1.2)) by done. apply (sleep_child pid ms) in H1.
  destruct (poll_child_spec _ _ _ H1) as [(s2&Hr2&H2)|(_&s2&Hr2&H2)];
    rewrite (M_bind_run _ _ _ _ _ Hr2); [left; by exists s2|right].
  split; [done|]. by do 2 eexists.
Qed.

Lemma kill_child pid sig s :
  has_child pid None s →
  ∃ s', kill_quietly pid sig s = (Ok tt, s') ∧
    has_child pid (match sig with SIGKILL => Some Zombie | _ => None end) s'.
Proof.
  destruct s as [t o]. intros (Hc&p&Hp&Ho&_). unfold kill_quietly, try_with, kill, os_kill. cbn in *.
  rewrite Hp, Ho. eexists. split; [reflexivity|]. split; [done|]. cbn.
  destruct sig; try by exists p. eexists. rewrite lookup_insert_eq. split; [done|].
  split; [done|]. by intros x [= <-].
Qed.

Lemma reap_child pid timeout s :
  has_child pid None s → ∃ s', _reap pid timeout s = (Ok tt, s') ∧ reaped pid s'.
Proof.
  intros H. unfold _reap. rewrite (M_bind_run _ _ _ s.1 s) by done. pose proof H as [Hc _]. rewrite Hc.
  unfold try_with at 1. destruct (wait_child_spec _ _ timeout _ H) as [(s1&->&H1)|(_&s1&m&->&H1)];
    [by exists s1|]. cbn [is_exception].
  destruct (kill_child _ SIGKILL _ H1) as (s2&Hk&H2). rewrite (M_bind_run _ _ _ _ _ Hk).
  rewrite (M_bind_run _ _ _ s2.1 s2) by done. pose proof H2 as [Hc2 _]. rewrite Hc2. unfold try_with.
  destruct (wait_child_spec _ _ 1000 _ H2) as [(s3&->&H3)|(?&_)]; [by exists s3|done].
Qed.

(** A child the supervisor started and has not collected is dead and
    collected when [stop] returns, whether or not it minds [SIGTERM]. *)
Theorem stop_kills_child pid p t o :
  sup_child t = Some (Child pid false) → 0 < pid →
  o_procs o !! pid = Some p → p_owner p = OurChild →
  ∃ s', stop (t, o) = (Ok tt, s') ∧ o_procs s'.2 !! pid = None.
Proof.
  intros Hc Hpos Hp Ho. rewrite stop_steps. unfold stop_target. rewrite Hc. cbn [ch_pid].
  destruct (pid =? 0) eqn:?; [lia|].
  assert (H : has_child pid None (t, o)) by (split; [done|]; by exists p).
  destruct (kill_child _ SIGTERM _ H) as (s1&Hk&H1).
  destruct (reap_child _ 2000 _ H1) as ([t2 o2]&Hr&H2).
  assert (Hs : stop_process (Some pid) (t, o) = (Ok tt, (t2, o2))).
  { unfold stop_process. by rewrite (M_bind_run _ _ _ _ _ Hk). }
  rewrite (M_bind_run _ _ _ _ _ Hs), stop_files_run. eexists. split; [done|]. exact H2.
Qed.
End Stop.

(** ** Waiting for the socket *)

Section Wait.
Context `{J : JsonCodec} `{D : Daemon} `{E : !Env} `{!EnvLaws E}.

Definition socket_there (s : supervisor * os) : Prop :=
  is_Some (w_fs (o_world s.2) !! sup_socket s.1).

Lemma poll_any c t o : ∃ b c' o', poll_child c (t, o) = (Ok b, (set_child (Some c') t, o')) ∧
  ch_pid c' = ch_pid c ∧ o_world o' = o_world o ∧ o_started o' = o_started o.
Proof.
  unfold poll_child. destruct (poll c o) as [b [c' o']] eqn:Hp. exists b, c', o'. split; [done|].
  revert Hp. unfold poll. by repeat case_match; intros; simplify_eq/=.
Qed.

(** The configuration of the supervisor, which no operation changes. *)
Definition config (t : supervisor) : remote := Remote (host t) (remote_socket t) (sup_socket t).

Lemma socket_exists_run t o :
  socket_exists (t, o) = (Ok (bool_decide (is_Some (w_fs (o_world o) !! sup_socket t))), (t, o)).
Proof. by destruct o. Qed.

Lemma wait_loop_returns fuel deadline t o :
  (0 < fuel)%nat → deadline - w_now (o_world o) < 200 * (Z.of_nat fuel - 1) →
  ∃ b s', wait_loop fuel deadline (t, o) = (Ok b, s') ∧ config s'.1 = config t ∧
    restarts s'.1 = restarts t ∧ (ch_pid <$> sup_child s'.1) = (ch_pid <$> sup_child t) ∧
    o_started s'.2 = o_started o ∧
    if b : bool then socket_there s' else
      last_error s'.1 = "ssh exited immediately" ∨
      last_error s'.1 = "tunnel socket did not appear" ∧ deadline <= w_now (o_world s'.2).
Proof.
  revert t o; induction fuel as [|fuel IH]; intros t o H0 Hf; [lia|]. cbn [wait_loop].
  rewrite (M_bind_run _ _ _ (w_now (o_world o)) (t, o)) by done.
  destruct (w_now (o_world o) <? deadline) eqn:Hd.
  2: { eexists false, _. split; [reflexivity|]. cbn. split_and!; [done..|right]. split; [done|lia]. }
  rewrite (M_bind_run _ _ _ t (t, o)) by done.
  assert (Hp : ∃ b t' o', match sup_child t with Some c => poll_child c | None => mret false end (t, o)
      = (Ok b, (t', o')) ∧ config t' = config t ∧ restarts t' = restarts t ∧
        (ch_pid <$> sup_child t') = (ch_pid <$> sup_child t) ∧ o_world o' = o_world o ∧ o_started o' = o_started o).
  { destruct (sup_child t) as [c|] eqn:Hc; [|by exists false, t, o; rewrite Hc].
    destruct (poll_any c t o) as (b&c'&o'&Hr&Hpid&Hw&Hst). exists b, (set_child (Some c') t), o'.
    split_and!; [done..| |done|done]. cbn. by rewrite Hpid. }
  destruct Hp as (b&t1&o1&Hr&Hconf&Hres&Hpid&Hw&Hst). rewrite (M_bind_run _ _ _ _ _ Hr).
  destruct b.
  { eexists false, _. split; [reflexivity|]. cbn. split_and!; [done..|by left]. }
  rewrite (M_bind_run _ _ _ _ _ (socket_exists_run t1 o1)).
  destruct (bool_decide _) eqn:Hs.
  { exists true, (t1, o1). apply bool_decide_eq_true in Hs. by split_and!. }
  rewrite (M_bind_run _ _ _ tt (t1, pass 200 o1)) by done.
  pose proof (pass_clock 200 o1 ltac:(lia)) as Hclock. rewrite Hw in Hclock.
  destruct (IH t1 (pass 200 o1)) as (b&s'&Hrun&Hc&Hn&Hp'&Hs'&Hb); [lia..|]. rewrite (proj2 (pass_signals _ _)) in Hs'.
  exists b, s'. split_and!; [done|congruence..|done].
Qed.

(** Waiting for the socket always ends, at the latest once the clock has
    passed the deadline: with success exactly when the socket is seen, else
    with the reason recorded. *)
Theorem wait_for_socket_returns timeout t o :
  0 <= timeout →
  ∃ b s', wait_for_socket timeout (t, o) = (Ok b, s') ∧
    if b : bool then socket_there s' else
      last_error s'.1 = "ssh exited immediately" ∨
      last_error s'.1 = "tunnel socket did not appear" ∧
        w_now (o_world o) + timeout <= w_now (o_world s'.2).
Proof.
  intros Ht. unfold wait_for_socket. rewrite (M_bind_run _ _ _ (w_now (o_world o)) (t, o)) by done.
  destruct (wait_loop_returns (rounds timeout 200) (w_now (o_world o) + timeout) t o)
    as (b&s'&Hr&_&_&_&_&Hb); [unfold rounds; lia|pose proof (rounds_enough timeout 200); lia|].
  by exists b, s'.
Qed.

(** ** Restarting *)

(** What the configuration, the counter and the commands started are, whatever
    the rest of the machine does. *)
Definition same_config (r : remote) (n : Z) (l : list (list string)) (s : supervisor * os) : Prop :=
  config s.1 = r ∧ restarts s.1 = n ∧ o_started s.2 = l.

Section SameConfig.
Context (r : remote) (n : Z) (l : list (list string)).
Let I := same_config r n l.

Lemma same_poll c : keeps I (poll_child c) any.
Proof.
  intros [t o] H. split; [|done]. destruct (poll_any c t o) as (b&c'&o'&->&_&_&Hst). destruct H as (?&?&?). split_and!; [done..|]. cbn. by rewrite Hst.
Qed.
Lemma same_sleep ms : keeps I (sleep ms) any.
Proof.
  apply keeps_modify. intros [t o] (?&?&?). split_and!; [done..|]. cbn. by rewrite (proj2 (pass_signals _ _)).
Qed.
Lemma same_kill pid sig : keeps I (kill_quietly pid sig) any.
Proof.
  apply keeps_try; [|intros; apply keeps_ret_any]. intros [t o] H. split; [|done].
  unfold kill, os_kill. destruct (o_procs o !! pid) as [p|]; [destruct (p_owner p)|]; exact H.
Qed.
Lemma same_world {A} (m : IO A) : keeps I (on_world m) any.
Proof. intros [t o] H. split; [|done]. unfold on_world. by destruct (m (o_world o)). Qed.
Lemma same_self : keeps I self_ any.
Proof. apply keeps_gets_any. Qed.
Lemma same_time : keeps I time any.
Proof. apply keeps_gets_any. Qed.
Lemma same_machine {A} (f : os → A) : keeps I (machine f) any.
Proof. apply keeps_gets_any. Qed.
#[local] Hint Resolve same_poll same_sleep same_kill same_world same_self same_time same_machine : keeps.

Lemma same_stop_process target : keeps I (stop_process target) any.
Proof.
  assert (Hw : ∀ c ms, keeps I (wait_child c ms) any) by (intros; unfold wait_child; keeps_tac).
  assert (Hl : ∀ fuel pid d, keeps I (reap_loop fuel pid d) any)
    by (induction fuel; intros; cbn [reap_loop]; keeps_tac).
  unfold stop_process, _reap. keeps_tac; repeat (apply keeps_try; [keeps_tac|intros]; keeps_tac).
Qed.

Lemma write_pid_ok pid t o : ∃ o', _write_pid pid (t, o) = (Ok tt, (t, o')) ∧ o_started o' = o_started o.
Proof.
  unfold _write_pid, tunnel_pid_file. destruct o as [w ps bs sg st].
  rewrite (M_bind_run _ _ _ (tunnel_pid_path (w_env w) (w_home w)) (t, Os w ps bs sg st)) by done.
  unfold try_with, on_world, write_file. cbn [o_world].
  unfold for_each, mbind, M_bind, sys. cbn. rewrite lookup_insert_eq. cbn. by eexists.
Qed.
End SameConfig.

(** What can keep [spawn] from starting [ssh]. *)
Definition no_start (t : supervisor) (o : os) (e : exn) : Prop :=
  e = not_found "ssh" ∧ "ssh" ∉ o_bins o ∨
  e = no_directory (socket_dir t) ∧ makes_dir (socket_dir t) (w_now (o_world o)) = false.

Lemma spawn_spec t o :
  sup_child t = None →
  (∃ e o', spawn (t, o) = (Raise e, (t, o')) ∧ no_start t o e ∧ o_started o' = o_started o) ∨
  (∃ pid t' o', spawn (t, o) = (Ok pid, (t', o')) ∧ t' = set_child (Some (Child pid false)) t ∧
    o_started o' = ssh_argv t :: o_started o).
Proof.
  intros Hc. unfold spawn. rewrite (M_bind_run _ _ _ t (t, o)) by done. rewrite Hc.
  rewrite (M_bind_run _ _ _ tt (t, o)) by done. destruct o as [w ps bs sg st].
  destruct (makes_dir (socket_dir t) (w_now w)) eqn:Hdir.
  2: { left. eexists _, _. rewrite (M_bind_raise _ _ _ (no_directory (socket_dir t)) (t, Os w ps bs sg st));
       [split; [done|]; split; [by right|done]|].
       unfold makedirs, time, mbind, M_bind, gets. cbn. by rewrite Hdir. }
  rewrite (M_bind_run _ _ _ tt (t, Os w ps bs sg st))
    by (unfold makedirs, time, mbind, M_bind, gets; cbn; by rewrite Hdir).
  rewrite (M_bind_run _ _ _ (tunnel_log_path (w_env w) (w_home w)) (t, Os w ps bs sg st)) by done.
  set (w1 := set_fs (fs_append (tunnel_log_path (w_env w) (w_home w)) [] (w_fs w)) w).
  rewrite (M_bind_run _ _ _ tt (t, Os w1 ps bs sg st)) by done.
  set (o1 := Os w1 ps bs sg st).
  destruct (decide ("ssh" ∈ bs)) as [Hin|Hin]; [right|left].
  - set (o2 := Os w1 (<[new_pid o1 := Proc "ssh" (ssh_argv t) Running OurChild]> ps) bs sg (ssh_argv t :: st)).
    assert (Hp : popen (ssh_argv t) (t, o1) = (Ok (Child (new_pid o1) false), (t, o2)))
      by (unfold popen, start_process, ssh_argv; cbn; by rewrite bool_decide_eq_true_2).
    rewrite (M_bind_run _ _ _ _ _ Hp). cbn [ch_pid].
    set (t1 := set_child (Some (Child (new_pid o1) false)) t).
    rewrite (M_bind_run _ _ _ tt (t1, o2)) by done.
    destruct (write_pid_ok (new_pid o1) t1 o2) as (o3&Hw&Hst). rewrite (M_bind_run _ _ _ _ _ Hw).
    by exists (new_pid o1), t1, o3.
  - exists (not_found "ssh"), o1. split; [|split; [by left|done]].
    rewrite (M_bind_raise _ _ _ (not_found "ssh") (t, o1)); [done|].
    unfold popen, start_process, ssh_argv. cbn. by rewrite bool_decide_eq_false_2.
Qed.

(** The part of [restart] before the report. *)
Definition restart_attempt : TM bool :=
  _ ← stop;
  _ ← update (λ t, set_restarts (restarts t + 1) t);
  _ ← spawn;
  wait_for_socket 20000.

Lemma restart_split log s :
  restart log s = (up ← restart_attempt;
    t ← self_;
    if up : bool then _ ← update (set_backoff 0); _ ← log ("tunnel: up (" +:+ host t +:+ ")"); mret true
    else _ ← log ("tunnel: not up (" +:+ host t +:+ "): " +:+ last_error t); mret false) s.
Proof.
  unfold restart, restart_attempt, mbind, M_bind.
  destruct (stop s) as [[[]|e] s1]; [|done]. cbn [update modify].
  by destruct (spawn _) as [[pid|e] s2].
Qed.

Lemma restart_attempt_spec t o :
  ∃ r s', restart_attempt (t, o) = (r, s') ∧
    config s'.1 = config t ∧ restarts s'.1 = restarts t + 1 ∧
    o_started s'.2 = match r with Ok _ => [ssh_argv t] | Raise _ => [] end ++ o_started o ∧
    match r with
    | Ok up => is_Some (sup_child s'.1) ∧
        if up : bool then socket_there s' else
          last_error s'.1 = "ssh exited immediately" ∨ last_error s'.1 = "tunnel socket did not appear"
    | Raise e => sup_child s'.1 = None ∧ no_start t (stop (t, o)).2.2 e
    end.
Proof.
  destruct (stop_process_ok (stop_target t o) t o) as ([t1 o1]&Hrun&_).
  assert (Hsame : same_config (config t) (restarts t) (o_started o) (t1, o1)).
  { pose proof (same_stop_process (config t) (restarts t) (o_started o) (stop_target t o) (t, o)
      (conj eq_refl (conj eq_refl eq_refl))) as [H _]. by rewrite Hrun in H. }
  destruct Hsame as (Hconf&Hres&Hst). cbn in Hconf, Hres, Hst.
  set (o2 := set_world (removed (sup_socket t) (o_world o1)) o1).
  assert (Hstop : stop (t, o) = (Ok tt, (set_child None t1, o2)))
    by (by rewrite stop_steps, (M_bind_run _ _ _ _ _ Hrun), stop_files_run).
  unfold restart_attempt. rewrite (M_bind_run _ _ _ _ _ Hstop), Hstop.
  set (t2 := set_restarts (restarts t1 + 1) (set_child None t1)).
  rewrite (M_bind_run _ _ _ tt (t2, o2)) by done.
  assert (Hargv : ssh_argv t2 = ssh_argv t ∧ socket_dir t2 = socket_dir t).
  { revert Hconf. destruct t, t1. cbn. by intros [= -> -> ->]. }
  destruct Hargv as [Hargv Hdir].
  destruct (spawn_spec t2 o2 eq_refl) as [(e&o3&Hs&Hno&Hst3)|(pid&t3&o3&Hs&Ht3&Hst3)].
  { rewrite (M_bind_raise _ _ _ _ _ Hs). do 2 eexists. split; [done|]. cbn. rewrite Hres, Hst3. cbn. rewrite Hst.
    split_and!; [done..|]. unfold no_start in *. by rewrite Hdir in Hno. }
  rewrite (M_bind_run _ _ _ _ _ Hs). unfold wait_for_socket.
  destruct (wait_loop_returns (rounds 20000 200) (w_now (o_world o3) + 20000) t3 o3)
    as (b&[t4 o4]&Hw&Hc4&Hr4&Hp4&Hs4&Hb); [unfold rounds; lia|pose proof (rounds_enough 20000 200); lia|].
  rewrite (M_bind_run _ _ _ (w_now (o_world o3)) (t3, o3)) by done.
  cbn in Hc4, Hr4, Hp4, Hs4. rewrite Ht3 in Hc4, Hr4, Hp4. cbn in Hp4.
  assert (is_Some (sup_child t4)) by (by destruct (sup_child t4)).
  exists (Ok b), (t4, o4). split; [exact Hw|]. cbn in Hb |- *.
  split; [by rewrite <-Hconf|]. split; [by rewrite Hr4; cbn; rewrite Hres|].
  split; [rewrite Hs4, Hst3, Hargv; cbn; by rewrite Hst|]. split; [done|].
  destruct b; [done|]. destruct Hb as [?|[??]]; auto.
Qed.

(** A restart stops the old process, counts itself and starts one new
    child; it answers true with the backoff reset exactly when the socket has
    appeared, false with the reason recorded, and lets out only the errors of
    a missing [ssh] and of a socket's directory that cannot be made. *)
Theorem restart_spec t o :
  ∃ r s', restart (λ _, mret tt) (t, o) = (r, s') ∧
    config s'.1 = config t ∧ restarts s'.1 = restarts t + 1 ∧
    match r with
    | Ok true => socket_there s' ∧ _backoff_index s'.1 = 0%nat ∧ is_Some (sup_child s'.1)
    | Ok false => is_Some (sup_child s'.1) ∧
        (last_error s'.1 = "ssh exited immediately" ∨ last_error s'.1 = "tunnel socket did not appear")
    | Raise e => (e = not_found "ssh" ∨ e = no_directory (socket_dir t)) ∧ sup_child s'.1 = None ∧
        o_started s'.2 = o_started o
    end.
Proof.
  rewrite restart_split. destruct (restart_attempt_spec t o) as (r&[t1 o1]&Hrun&Hc&Hn&Hst&Hr).
  destruct r as [up|e].
  - rewrite (M_bind_run _ _ _ _ _ Hrun). rewrite (M_bind_run _ _ _ t1 (t1, o1)) by done.
    destruct up; do 2 eexists; (split; [reflexivity|]); by destruct Hr.
  - rewrite (M_bind_raise _ _ _ _ _ Hrun). do 2 eexists. split; [done|].
    destruct Hr as (?&[[]|[]]); split_and!; auto.
Qed.
End Wait.

(** ** Witnesses *)

Section TunnelWitness.
Local Instance tun_json : JsonCodec := RefCodec.
Local Instance tun_json_laws : JsonLaws RefCodec := RefCodec_laws.
Local Instance tun_daemon : Daemon := {|
  dstate := unit; d_connect _ _ := Ok tt; d_request _ _ d := (Ok JNull, d) |}.

(** A machine on which time passes and the forwarded socket [/l] appears. *)
Definition later (d : Z) (w : world) : world :=
  World (<["/l" := File [] 384]> (w_fs w)) (w_env w) (w_home w) (w_now w + d) (w_rng w) (w_in w)
    (w_out w) (w_err w) (w_daemon w).
Local Instance tun_env : Env := {|
  pass d o := set_world (later d (o_world o)) o;
  new_pid o := 1 + foldr Z.max 0 (elements (dom (o_procs o))); makes_dir _ _ := true |}.

Lemma foldr_max_ge x l : x ∈ l → x <= foldr Z.max 0 l.
Proof. induction 1; cbn; lia. Qed.

Local Instance tun_env_laws : EnvLaws tun_env.
Proof.
  split.
  - intros d o Hd. cbn. lia.
  - done.
  - intros d o pid p Hp Ho. by exists p.
  - done.
  - intros o. apply not_elem_of_dom. intros H. apply elem_of_elements, foldr_max_ge in H. cbn in H. lia.
  - intros o. cbn. induction (elements _); cbn in *; lia.
Qed.

Definition tun_sup : supervisor := new_supervisor (Remote "u@h" "/s" "/l").
Definition tun_world : world := World ∅ {["AIMLESS_HOME" := "/a"]} "/h" 0 0 [] [] [] tt.
Definition tun_os : os := Os tun_world ∅ {["ssh"]} [] [].

(** preferences that name a remote *)
Definition tun_prefs : string := json_dumps
  (JObj [("remote", JObj [("host", JStr "u@h"); ("socket", JStr "/s"); ("local_socket", JStr "/l")])]).
Definition tun_prefs_world (text : string) : world :=
  set_fs {["/a/client/prefs.json" := File (utf8_encode text) 384]} tun_world.

Example client_socket_spec_witness :
  client_socket (tun_prefs_world tun_prefs) = (Ok "/l", tun_prefs_world tun_prefs).
Proof. rewrite (client_socket_spec (tun_prefs_world tun_prefs)). vm_compute. reflexivity. Defined.

(** The preferences file holding the JSON list [[]]. *)
Example client_socket_list_prefs :
  client_socket (tun_prefs_world (json_dumps (JArr []))) =
    (Raise AttributeError, tun_prefs_world (json_dumps (JArr []))).
Proof. vm_compute. reflexivity. Qed.

Example stop_spec_witness :
  ∃ t' o', stop (tun_sup, tun_os) = (Ok tt, (t', o')) ∧ sup_child t' = None ∧ o_procs o' = ∅.
Proof.
  destruct (stop_spec tun_sup tun_os) as (t'&o'&H&Hc&_&_&_&Hn). exists t', o'.
  split; [exact H|]. split; [exact Hc|]. apply Hn. vm_compute. reflexivity.
Defined.

Definition tun_ssh (own : owner) : proc := Proc "ssh" (ssh_argv tun_sup) Running own.
Definition tun_os_child : os := Os tun_world {[7 := tun_ssh OurChild]} {["ssh"]} [] [].
Example stop_kills_child_witness :
  ∃ s', stop (set_child (Some (Child 7 false)) tun_sup, tun_os_child) = (Ok tt, s') ∧
    o_procs s'.2 !! 7 = None.
Proof.
  apply (stop_kills_child 7 (tun_ssh OurChild) (set_child (Some (Child 7 false)) tun_sup) tun_os_child);
    [reflexivity|lia|vm_compute; reflexivity|reflexivity].
Defined.

(** A child that was collected by an earlier [poll] leaves its number to other
    processes, and [stop] signals it all the same. *)
Example stop_signals_reused_pid :
  let o := Os tun_world {[7 := Proc "vim" ["vim"] Running OurUser]} {["ssh"]} [] [] in
  let t := set_child (Some (Child 7 true)) tun_sup in
  o_signals (stop (t, o)).2.2 = [(7, SIGTERM)].
Proof. vm_compute. reflexivity. Qed.

Example wait_for_socket_returns_witness :
  0 <= 20000 ∧ ∃ b s', wait_for_socket 20000 (tun_sup, tun_os) = (Ok b, s') ∧
    if b : bool then socket_there s' else
      last_error s'.1 = "ssh exited immediately" ∨
      last_error s'.1 = "tunnel socket did not appear" ∧ 0 + 20000 <= w_now (o_world s'.2).
Proof. split; [lia|]. apply (wait_for_socket_returns 20000 tun_sup tun_os). lia. Defined.

Example restart_spec_witness :
  ∃ r s', restart (λ _, mret tt) (tun_sup, tun_os) = (r, s') ∧ restarts s'.1 = 1.
Proof.
  destruct (restart_spec tun_sup tun_os) as (r&s'&H&_&Hr&_). exists r, s'. split; [exact H|exact Hr].
Defined.
End TunnelWitness.
