(* ===== verification/Cli.v ===== *)
(** * cli.py: the commands

    A command runs on the session's cached passphrase, the conversation
    store, the client object and the machine. *)

From S2P Require Import Prelude PyStr Codec Json Sys Paths Crypto Protocol Store DaemonClient Service Tunnel.
From Stdlib Require Import Ascii.
Local Open Scope Z_scope.

(** [f"{s:<n}"] *)
Definition ljust (n : nat) (s : string) : string := s +:+ sconcat (replicate (n - py_len s) " ").

Section Cli.
Context `{N : NaCl} `{J : JsonCodec} `{D : Daemon} `{E : !Env} `{L : Locale}.

(** [_PASSPHRASE], the store once opened, the client once made, the machine. *)
Record session := Session
  { c_pass : option string; c_store : store; c_client : client; c_os : os }.
Definition CLI (A : Type) : Type := M session A.

Definition on_io {A} (m : IO A) : CLI A := λ c,
  let '(r, w) := m (o_world (c_os c)) in
  (r, Session (c_pass c) (c_store c) (c_client c) (set_world w (c_os c))).
Definition on_st {A} (m : ST A) : CLI A := λ c,
  let '(r, s) := m (c_store c) in (r, Session (c_pass c) s (c_client c) (c_os c)).
Definition on_cl {A} (m : CL A) : CLI A := λ c,
  let '(r, (k, w)) := m (c_client c, o_world (c_os c)) in
  (r, Session (c_pass c) (c_store c) k (set_world w (c_os c))).
Definition on_app {A} (m : APP A) : CLI A := λ c,
  let '(r, (s, (k, w))) := m (c_store c, (c_client c, o_world (c_os c))) in
  (r, Session (c_pass c) s k (set_world w (c_os c))).
Definition on_tm {A} (t : supervisor) (m : TM A) : CLI (A * supervisor) := λ c,
  let '(r, (t, o)) := m (t, c_os c) in
  (r ≫= λ a, Ok (a, t), Session (c_pass c) (c_store c) (c_client c) o).

Definition path_of (f : gmap string string → string → string) : CLI string :=
  gets (λ c, f (w_env (o_world (c_os c))) (w_home (o_world (c_os c)))).
Definition say (s : string) : CLI unit := on_io (print s).
Definition complain (s : string) : CLI unit := on_io (eprint s).
Definition exit {A} (code : Z) : CLI A := raise (SystemExit code).
(** [print(s, file=sys.stderr); sys.exit(1)] *)
Definition die {A} (s : string) : CLI A := _ ← complain s; exit 1.

(** ** Identity and contacts *)

Definition prompt_passphrase (confirm : bool) : CLI string :=
  pw ← on_io input;
  if bool_decide (pw = "") then die "passphrase must not be empty"
  else if confirm then
    pw2 ← on_io input;
    if bool_decide (pw = pw2) then mret pw else die "passphrases do not match"
  else mret pw.

Definition get_passphrase (confirm : bool) : CLI string :=
  cached ← gets c_pass;
  match cached with
  | Some pw => mret pw
  | None =>
    pw ← prompt_passphrase confirm;
    _ ← modify (λ c, Session (Some pw) (c_store c) (c_client c) (c_os c));
    mret pw
  end.

Definition load_or_exit : CLI bytes :=
  path ← path_of identity_path;
  there ← on_io (path_exists path);
  if there : bool then pw ← get_passphrase false; on_io (load_identity path pw)
  else die "no identity found - run: aimless init".

Definition contacts_file : CLI json := path ← path_of contacts_path; on_io (load_contacts path).
Definition write_contacts (contacts : json) : CLI unit :=
  path ← path_of contacts_path; on_io (save_contacts path contacts).

(** [contacts.get("_self", {}).get("screen", "anonymous")] *)
Definition self_screen (contacts : json) : result string :=
  s ← get_or "_self" (JObj []) contacts; get_or "screen" (JStr "anonymous") s ≫= as_str.

Definition get_client : CLI client :=
  identity ← load_or_exit;
  contacts ← contacts_file;
  screen ← lift (self_screen contacts);
  let c := Client identity screen None in
  _ ← modify (λ s, Session (c_pass s) (c_store s) c (c_os s));
  mret c.

Definition as_obj (j : json) : result (list (string * json)) :=
  match j with JObj d => Ok d | _ => Raise AttributeError end.

Definition is_unreachable (e : exn) : bool :=
  match e with OSError _ | DaemonError _ | KeyError _ | IndexError => true | _ => false end.

Definition hex_pubkey (identity : bytes) : string := hex (sign_pk identity).

(** The end of [cmd_init]: what it prints, the invite when the daemon answers. *)
Definition greet (identity : bytes) (screen : string) : CLI unit :=
  _ ← say "identity created";
  _ ← say ("  pubkey: " +:+ hex_pubkey identity);
  try_with is_unreachable
    (sock ← on_io client_socket;
     _ ← on_io (connect sock);
     me ← on_io (request "whoami" []);
     node_hex ← lift (jindex "key" me ≫= as_str);
     invite ← lift (make_invite identity node_hex screen);
     say ("  invite: " +:+ invite))
    (λ _, say "  (start aimlessd, then run `aimless invite` to get your full invite string)").

Definition cmd_init : CLI unit :=
  path ← path_of identity_path;
  there ← on_io (path_exists path);
  if there : bool then die ("identity already exists at " +:+ path)
  else
    pw ← prompt_passphrase true;
    identity ← on_io new_identity;
    _ ← on_io (save_identity path identity pw);
    answer ← on_io input;
    let screen := if bool_decide (strip answer = "") then "anonymous" else strip answer in
    contacts ← contacts_file;
    d ← lift (match contacts with JObj d => Ok d | _ => Raise TypeError end);
    _ ← write_contacts (JObj (dict_set "_self"
      (JObj [("screen", JStr screen); ("pubkey", JStr (hex_pubkey identity))]) d));
    greet identity screen.

(** ** The daemon, through the tunnel when there is one *)

Definition ensure_tunnel : CLI unit :=
  r ← on_io remote_config;
  match r with
  | None => mret tt
  | Some r =>
    let sup := new_supervisor r in
    '(ok, sup) ← on_tm sup (up ← is_running; if up : bool then probe else mret false);
    if ok : bool then mret tt
    else
      '(up, _) ← on_tm sup (ensure (λ line, on_world (eprint line)));
      if up : bool then mret tt else die ("cannot start the SSH tunnel to " +:+ rm_host r)
  end.

Definition connect_daemon : CLI unit :=
  _ ← ensure_tunnel;
  try_with is_os_error (sock ← on_io client_socket; on_io (connect sock))
    (λ e, sock ← on_io client_socket;
          die ("cannot reach daemon at " +:+ sock +:+ ": " +:+ exn_str e)).

Definition is_no_invite (e : exn) : bool :=
  match e with DaemonError _ | KeyError _ | IndexError => true | _ => false end.

Definition cmd_invite : CLI unit :=
  path ← path_of identity_path;
  there ← on_io (path_exists path);
  if there : bool then
    pw ← get_passphrase false;
    identity ← on_io (load_identity path pw);
    contacts ← contacts_file;
    screen ← lift (self_screen contacts);
    node_hex ← try_with is_no_invite
      (_ ← connect_daemon;
       me ← on_io (request "whoami" []);
       lift (jindex "key" me ≫= as_str))
      (λ _, _ ← complain "warning: daemon unreachable - invite will lack routing key";
            die "hint: start aimlessd, then re-run aimless invite");
    invite ← lift (make_invite identity node_hex screen);
    say invite
  else die "no identity found - run: aimless init".

(** ** Contacts *)

(** The first contact with this client key, with its name. *)
Fixpoint find_contact (client_hex : string) (l : list (string * json)) : result (option (string * json)) :=
  match l with
  | [] => Ok None
  | (k, c) :: l =>
    if bool_decide (k = "_self") then find_contact client_hex l
    else
      pk ← jget "pubkey" c;
      if default false (json_is_str client_hex <$> pk) then Ok (Some (k, c)) else find_contact client_hex l
  end.

Definition set_field (k : string) (v : json) (j : json) : result json :=
  match j with JObj d => Ok (JObj (dict_set k v d)) | _ => Raise TypeError end.

Definition truthy_opt (o : option json) : bool := default false (truthy <$> o).

(** Our own key, remembered in the contacts the first time it is needed. *)
Definition own_pubkey (contacts : json) : CLI (option json * json) :=
  self_pk ← lift (s ← get_or "_self" (JObj []) contacts; jget "pubkey" s);
  path ← path_of identity_path;
  there ← on_io (path_exists path);
  if negb (truthy_opt self_pk) && there then
    pw ← get_passphrase false;
    identity ← on_io (load_identity path pw);
    let pk := JStr (hex_pubkey identity) in
    contacts ← lift (d ← as_obj contacts;
                     s ← set_field "pubkey" pk (default (JObj []) (dict_get "_self" d));
                     Ok (JObj (dict_set "_self" s d)));
    _ ← write_contacts contacts;
    mret (Some pk, contacts)
  else mret (self_pk, contacts).

Definition cmd_add (invite : string) (petname : option string) : CLI unit :=
  '(client_hex, node_hex, screen) ← try_with is_value_error (lift (parse_invite invite))
    (λ e, die ("error: " +:+ exn_str e));
  contacts ← contacts_file;
  '(self_pk, contacts) ← own_pubkey contacts;
  if truthy_opt self_pk && default false (json_is_str client_hex <$> self_pk)
  then die "that's your own invite - send it to a friend, not to yourself"
  else
    let petname := match petname with
                   | Some p => if bool_decide (p = "") then screen else p
                   | None => screen
                   end in
    d ← lift (as_obj contacts);
    found ← lift (find_contact client_hex d);
    match found with
    | Some (k, c) =>
      node ← lift (jget "node" c);
      _ ← (if default false (json_is_str node_hex <$> node) then say "contact already known"
           else
             c ← lift (set_field "node" (JStr node_hex) c);
             _ ← write_contacts (JObj (dict_set k c d));
             say ("updated routing key for " +:+ petname));
      exit 0
    | None =>
      _ ← write_contacts (JObj (dict_set petname
        (JObj [("pubkey", JStr client_hex); ("node", JStr node_hex); ("screen", JStr screen)]) d));
      say ("added " +:+ screen +:+ " as " +:+ petname)
    end.

Definition cmd_remove (petname : string) : CLI unit :=
  contacts ← contacts_file;
  d ← lift (as_obj contacts);
  if dict_mem petname d then
    _ ← write_contacts (JObj (dict_del petname d));
    say ("removed " +:+ petname)
  else die ("unknown contact: " +:+ petname).

Definition resolve_buddy (name : string) : CLI json :=
  contacts ← contacts_file;
  d ← lift (as_obj contacts);
  match dict_get name d with
  | Some c => mret c
  | None => die ("unknown contact: " +:+ name +:+ " - add them first")
  end.

(** [f"{o}"] of a value that may be missing *)
Definition fmt (o : option json) : string := match o with Some j => py_str j | None => "None" end.

(** [{p["key"]: p for p in presence}] *)
Fixpoint presence_dict (l : list json) (d : list (string * json)) : result (list (string * json)) :=
  match l with
  | [] => Ok d
  | p :: l => k ← jindex "key" p ≫= as_str; presence_dict l (dict_set k p d)
  end.

(** The line of one contact: its status message may replace its screen name. *)
Definition list_line (identity : bytes) (presence : list (string * json)) (petname : string) (info : json)
    : result string :=
  node ← jindex "node" info ≫= as_str;
  let p := default (JObj []) (dict_get node presence) in
  online ← jget "online" p;
  let state := if truthy_opt online then "online" else "offline" in
  screen ← get_or "screen" (JStr "?") info;
  payload ← jget "status_payload" p;
  '(screen, away) ←
    (if truthy_opt payload then
       catch is_value_or_key
         (st ← as_str (default JNull payload) ≫= decrypt_status identity;
          let away := match dict_get "away" st with
                      | Some a => if truthy a then " | away: " +:+ py_str a else ""
                      | None => ""
                      end in
          let screen := match dict_get "screen" st with
                        | Some s => if truthy s then s else screen
                        | None => screen
                        end in
          Ok (screen, away))
         (λ _, Ok (screen, ""))
     else Ok (screen, ""));
  Ok ("  " +:+ ljust 16 petname +:+ " " +:+ ljust 8 state +:+ " " +:+ py_str screen +:+ away).

Definition cmd_list : CLI unit :=
  contacts ← contacts_file;
  _ ← connect_daemon;
  client ← get_client;
  found ← on_cl presence;
  presence ← lift (as_list found ≫= λ l, presence_dict l []);
  _ ← say ("screen name: " +:+ cl_screen client);
  d ← lift (as_obj contacts);
  for_each (λ '(petname, info),
    if bool_decide (petname = "_self") then mret tt
    else line ← lift (list_line (cl_identity client) presence petname info); say line)
    (merge_sort key_le d).

(** ** Messages *)

Definition _passphrase_for_cache : CLI string :=
  path ← path_of identity_path;
  there ← on_io (path_exists path);
  if there : bool then get_passphrase false else die "no identity found - run: aimless init".

(** [Store(cache_path(), passphrase)]: the database file opened under the
    passphrase; the session keeps the open store. *)
Definition open_cache : CLI unit :=
  pw ← _passphrase_for_cache;
  s ← gets c_store;
  s ← lift (open_store (s_saved s) (s_rng s) pw);
  modify (λ c, Session (c_pass c) s (c_client c) (c_os c)).

Definition now_ms : CLI Z := gets (λ c, w_now (o_world (c_os c))).

(** [client.send], then the copy in the store under the daemon's sequence
    number. *)
Definition send_and_store (buddy_client buddy_node text : string) : CLI json :=
  ts ← now_ms;
  resp ← on_cl (send buddy_client buddy_node text ts);
  seq ← lift (get_or "seq" (JInt 0) resp ≫= as_int);
  _ ← on_st (add_sent buddy_node [(buddy_node, seq)] ts (Some text) None None);
  mret resp.

Definition cmd_send (petname text : string) : CLI unit :=
  buddy ← resolve_buddy petname;
  _ ← connect_daemon;
  _ ← get_client;
  _ ← open_cache;
  pubkey ← lift (jindex "pubkey" buddy ≫= as_str);
  node ← lift (jindex "node" buddy ≫= as_str);
  resp ← send_and_store pubkey node text;
  seq ← lift (jget "seq" resp);
  say ("queued (seq " +:+ fmt seq +:+ ")").

Definition str_list (j : json) : result (list string) := as_list j ≫= map_result as_str.

Definition cmd_blocked : CLI unit :=
  _ ← open_cache;
  _ ← connect_daemon;
  nodes ← try_with is_daemon_error (_ ← get_client; on_cl blocklist)
    (λ e, die ("blocklist unavailable: " +:+ exn_str e));
  if truthy nodes then
    nodes ← lift (str_list nodes);
    for_each (λ node,
      screen ← on_st (blocked_screen node);
      say (node +:+ " · " +:+ match screen with
                              | Some s => if bool_decide (s = "") then "?" else s
                              | None => "?"
                              end)) (sorted nodes)
  else say "nothing blocked".

Definition cmd_unblock (node : string) : CLI unit :=
  _ ← open_cache;
  _ ← on_st (unmute node);
  _ ← on_st (clear_blocked_screen node);
  _ ← say ("cleared local suppression for " +:+ py_take 16 node +:+ "…");
  reached ← try_with is_os_error
    (_ ← ensure_tunnel; sock ← on_io client_socket; _ ← on_io (connect sock); mret true)
    (λ e, _ ← complain ("daemon not reachable (" +:+ exn_str e +:+
             ") - the client mute is cleared; start the app to fully apply");
          mret false);
  if reached : bool then
    try_with is_daemon_error
      (_ ← get_client; _ ← on_cl (unblock node); say "daemon block removed")
      (λ e, complain ("daemon unblock failed: " +:+ exn_str e +:+ " - client mute cleared"))
  else mret tt.

Definition away_of (message : list string) : json :=
  match message with [] => JNull | _ => JStr (join " " message) end.

Definition cmd_away (message : list string) : CLI unit :=
  contacts ← contacts_file;
  d ← lift (as_obj contacts);
  let buddies := List.filter (λ kv, negb (bool_decide (kv.1 = "_self"))) d in
  match buddies with
  | [] => die "no contacts"
  | _ =>
    _ ← connect_daemon;
    _ ← get_client;
    let away := away_of message in
    _ ← for_each (λ '(petname, info),
      try_with is_daemon_error
        (pubkey ← lift (jindex "pubkey" info ≫= as_str);
         node ← lift (jindex "node" info ≫= as_str);
         _ ← on_cl (set_status pubkey node away);
         mret tt)
        (λ e, complain ("warn: " +:+ petname +:+ ": " +:+ exn_str e))) buddies;
    say (if truthy away then "away" else "back")
  end.

Definition cmd_paths : CLI unit :=
  l ← gets (λ c, all_paths (w_env (o_world (c_os c))) (w_home (o_world (c_os c))));
  for_each (λ '(key, val), say (ljust 12 key +:+ " " +:+ val)) l.

(** ** Chatting *)

Definition min_seq (m : message) : result Z :=
  match g_seqs m with
  | JObj d =>
    l ← map_result as_int d.*2;
    match l with [] => Raise (ValueError "min() arg is an empty sequence") | x :: l => Ok (foldr Z.min x l) end
  | _ => Raise AttributeError
  end.

Definition chat_le (x y : (Z * Z) * message) : Prop :=
  x.1.1 < y.1.1 ∨ x.1.1 = y.1.1 ∧ x.1.2 <= y.1.2.
#[export] Instance chat_le_dec : RelDecision chat_le := λ x y, ltac:(unfold chat_le; apply _).

Definition chat_order (l : list message) : result (list message) :=
  keyed ← map_result (λ m, s ← min_seq m; Ok ((g_ts m, s), m)) l;
  Ok (merge_sort chat_le keyed).*2.

Definition text_str_opt (o : option string) : string := default "None" o.

Definition chat_line (screen buddy_screen : string) (m : message) : string :=
  "[" +:+ strftime "%H:%M" (g_ts m) +:+ "] " +:+
  match g_dir m with Out => screen | In => buddy_screen end +:+ ": " +:+ text_str_opt (g_text m).

Definition _handle_event (buddy_node buddy_screen : string) (ev : json) : CLI unit :=
  op ← lift (jget "op" ev);
  from ← lift (jget "from" ev);
  if negb (default false (json_is_str "recv" <$> op)) ||
     negb (default false (json_is_str buddy_node <$> from)) then mret tt
  else
    k ← gets c_client;
    '(conv, new) ← on_st (on_event (cl_identity k) ev);
    if negb new || negb (bool_decide (conv = Some buddy_node)) then mret tt
    else
      l ← on_st (messages buddy_node);
      match last l with
      | None => raise IndexError
      | Some m =>
        _ ← say (String "013" ("[" +:+ strftime "%H:%M" (g_ts m) +:+ "] " +:+ buddy_screen +:+ ": " +:+
               text_str_opt (g_text m)));
        say "> "
      end.

(** One line typed at the prompt; [events] are those that arrive while the
    message is sent. Returns whether the session goes on. *)
Definition chat_step (buddy_client buddy_node buddy_screen line : string) (events : list json) : CLI bool :=
  if bool_decide (line = "") then mret true
  else if bool_decide (line = "/quit") then mret false
  else if startswith "/away" line then
    let away := strip (py_drop 5 line) in
    _ ← on_cl (set_status buddy_client buddy_node (if bool_decide (away = "") then JNull else JStr away));
    _ ← say ("[you are " +:+ (if bool_decide (away = "") then "back" else "away: " +:+ away) +:+ "]");
    mret true
  else if bool_decide (line = "/back") then
    _ ← on_cl (set_status buddy_client buddy_node JNull);
    _ ← say "[you are back]";
    mret true
  else
    _ ← send_and_store buddy_client buddy_node line;
    now ← now_ms;
    k ← gets c_client;
    _ ← say ("[" +:+ strftime "%H:%M" now +:+ "] " +:+ cl_screen k +:+ ": " +:+ line);
    _ ← for_each (_handle_event buddy_node buddy_screen) events;
    mret true.

(** The prompt, until [/quit] or the end of the input, which raises; [sched]
    gives the events of each round. *)
Fixpoint chat_loop (buddy_client buddy_node buddy_screen : string) (sched : list (list json)) : CLI unit :=
  line ← on_io input;
  match sched with
  | [] => raise (RuntimeError "out of rounds")
  | events :: sched =>
    more ← chat_step buddy_client buddy_node buddy_screen line events;
    if more : bool then chat_loop buddy_client buddy_node buddy_screen sched else mret tt
  end.

Definition cmd_chat (petname : string) (sched : list (list json)) : CLI unit :=
  buddy ← resolve_buddy petname;
  buddy_client ← lift (jindex "pubkey" buddy ≫= as_str);
  buddy_node ← lift (jindex "node" buddy ≫= as_str);
  screen ← lift (get_or "screen" (JStr petname) buddy);
  let buddy_screen := py_str screen in
  _ ← connect_daemon;
  client ← get_client;
  _ ← open_cache;
  _ ← on_app (sync_peer buddy_node);
  _ ← on_cl (add_contact buddy_node);
  _ ← try_with is_daemon_error (_ ← on_cl (set_status buddy_client buddy_node JNull); mret tt)
    (λ _, mret tt);
  _ ← say ("── chat with " +:+ buddy_screen +:+ " (" +:+ petname +:+ ") ──  /away <msg> /back /quit");
  l ← on_st (messages buddy_node);
  l ← lift (chat_order l);
  _ ← for_each (λ m, say (chat_line (cl_screen client) buddy_screen m)) l;
  chat_loop buddy_client buddy_node buddy_screen sched.

(** ** The dispatch of [main]

    [gui], [tray], [autostart] and [stop] hand over to gtkui.py. *)

Inductive command :=
| Init | Invite | Add (invite : string) (petname : option string) | Remove (petname : string)
| List_ | Send (petname text : string) | Chat (petname : string) | Away (message : list string)
| Blocked | Unblock (node : string) | Paths_.

Definition run_command (c : command) (sched : list (list json)) : CLI unit :=
  match c with
  | Init => cmd_init
  | Invite => cmd_invite
  | Add invite petname => cmd_add invite petname
  | Remove petname => cmd_remove petname
  | List_ => cmd_list
  | Send petname text => cmd_send petname text
  | Chat petname => cmd_chat petname sched
  | Away message => cmd_away message
  | Blocked => cmd_blocked
  | Unblock node => cmd_unblock node
  | Paths_ => cmd_paths
  end.
End Cli.
