(* ===== verification/CliProps.v ===== *)
(** * Properties of the command line *)

From S2P Require Import Prelude PyStr Codec Json Base58 Sys Paths Crypto Protocol Store StoreProps DaemonClient Service Tunnel TunnelProps Cli.
From Stdlib Require Import Ascii.
Local Open Scope Z_scope.

Section CliProps.
Context `{N : NaCl} `{!NaClLaws N} `{J : JsonCodec} `{!JsonLaws J} `{D : Daemon} `{E : !Env} `{L : Locale}.

(** ** The contacts file *)

Definition world_of (c : session) : world := o_world (c_os c).
Definition contacts_name (c : session) : string :=
  contacts_path (w_env (world_of c)) (w_home (world_of c)).
(** What [load_contacts] answers. *)
Definition contacts_in (c : session) : result json :=
  match w_fs (world_of c) !! contacts_name c with
  | Some f => json_loads_bytes (f_data f)
  | None => Ok (JObj [])
  end.

Lemma session_eta c : Session (c_pass c) (c_store c) (c_client c) (set_world (world_of c) (c_os c)) = c.
Proof. by destruct c as [? ? ? []]. Qed.

Lemma contacts_file_run c : contacts_file c = (contacts_in c, c).
Proof.
  unfold contacts_file. rewrite (M_bind_run _ _ _ (contacts_name c) c) by done.
  unfold on_io, load_contacts, path_exists, fs_exists, contacts_in, mbind, M_bind.
  fold (world_of c). destruct (w_fs (world_of c) !! contacts_name c) as [f|] eqn:Hf.
  - rewrite bool_decide_eq_true_2 by done. unfold read_file, fs_read, lift. rewrite Hf. cbn.
    by rewrite session_eta.
  - rewrite bool_decide_eq_false_2 by (by intros [? [=]]). cbn. by rewrite session_eta.
Qed.

(** Only the files of the session differ, and of these only [path] and its
    temporary file. *)
Definition only_file (path : string) (c c' : session) : Prop :=
  ∃ m, c' = Session (c_pass c) (c_store c) (c_client c) (set_world (set_fs m (world_of c)) (c_os c)) ∧
    ∀ p, p ≠ path → p ≠ path +:+ ".tmp" → m !! p = w_fs (world_of c) !! p.

Lemma write_contacts_run j c :
  json_wf j →
  ∃ c', write_contacts j c = (Ok tt, c') ∧ contacts_in c' = Ok j ∧ only_file (contacts_name c) c c'.
Proof.
  intros Hj. unfold write_contacts. rewrite (M_bind_run _ _ _ (contacts_name c) c) by done.
  destruct (write_replace_spec (contacts_name c) (utf8_encode (json_dumps_indent j)) 438 (w_fs (world_of c)))
    as (m&md&Hm&Hp&_&_&Hother).
  unfold on_io, save_contacts. fold (world_of c). rewrite (for_each_sys _ (world_of c) m Hm).
  eexists. split; [reflexivity|]. split; [|by exists m]. change (match m !! contacts_name c with
    Some f => json_loads_bytes (f_data f) | None => Ok (JObj []) end = Ok j). rewrite Hp. by apply loads_bytes_indent.
Qed.

Lemma find_contact_new ck name rec d :
  name ≠ "_self" → dict_get "pubkey" rec = Some (JStr ck) →
  find_contact ck d = Ok None → dict_get name d = None →
  find_contact ck (dict_set name (JObj rec) d) = Ok (Some (name, JObj rec)).
Proof.
  intros Hn Hrec. induction d as [|[k c] d IH]; cbn [dict_set find_contact]; intros Hf Hg.
  - cbn. rewrite bool_decide_eq_false_2 by done. cbn. rewrite Hrec. cbn.
    by rewrite bool_decide_eq_true_2.
  - cbn in Hg. destruct (decide (name = k)) as [->|Hk]; [done|]. cbn [find_contact].
    destruct (bool_decide (k = "_self")); [auto|].
    destruct (jget "pubkey" c) as [pk|]; cbn [mbind result_bind] in *; [|done].
    destruct (default false (json_is_str ck <$> pk)); [done|auto].
Qed.

(** A contact of ours: the client keeps our own public key under [_self]. *)
Definition knows_self (me : string) (d : list (string * json)) : Prop :=
  ∃ s, dict_get "_self" d = Some (JObj s) ∧ dict_get "pubkey" s = Some (JStr me) ∧ me ≠ "".

Lemma own_pubkey_known me d c :
  knows_self me d → own_pubkey (JObj d) c = (Ok (Some (JStr me), JObj d), c).
Proof.
  intros (s&Hs&Hpk&Hne). unfold own_pubkey.
  rewrite (M_bind_run _ _ _ (Some (JStr me)) c).
  2: { unfold lift, get_or. cbn. rewrite Hs. cbn. by rewrite Hpk. }
  rewrite (M_bind_run _ _ _ (identity_path (w_env (world_of c)) (w_home (world_of c))) c) by done.
  rewrite (M_bind_run _ _ _ (fs_exists (identity_path (w_env (world_of c)) (w_home (world_of c))) (w_fs (world_of c))) c).
  2: { unfold on_io, path_exists. by rewrite session_eta. }
  cbn. by rewrite bool_decide_eq_false_2.
Qed.

Definition contact (ck nk screen : string) : list (string * json) :=
  [("pubkey", JStr ck); ("node", JStr nk); ("screen", JStr screen)].

(** [cmd_add] once the invite is parsed and the file is read. *)
Lemma cmd_add_run invite name ck nk screen me d c :
  parse_invite invite = Ok (ck, nk, screen) → contacts_in c = Ok (JObj d) → knows_self me d →
  ck ≠ me → name ≠ "" →
  cmd_add invite (Some name) c =
    (found ← lift (find_contact ck d);
     match found with
     | Some (k, r) =>
       node ← lift (jget "node" r);
       _ ← (if default false (json_is_str nk <$> node) then say "contact already known"
            else
              r ← lift (set_field "node" (JStr nk) r);
              _ ← write_contacts (JObj (dict_set k r d));
              say ("updated routing key for " +:+ name));
       exit 0
     | None =>
       _ ← write_contacts (JObj (dict_set name (JObj (contact ck nk screen)) d));
       say ("added " +:+ screen +:+ " as " +:+ name)
     end) c.
Proof.
  intros Hp Hc Hs Hne Hname. unfold cmd_add.
  rewrite (M_bind_run _ _ _ (ck, nk, screen) c) by (unfold try_with, lift; by rewrite Hp).
  rewrite (M_bind_run _ _ _ (JObj d) c) by (by rewrite contacts_file_run, Hc).
  rewrite (M_bind_run _ _ _ _ _ (own_pubkey_known me d c Hs)).
  assert (truthy_opt (Some (JStr me)) && default false (json_is_str ck <$> Some (JStr me)) = false) as ->.
  { cbn. rewrite (bool_decide_eq_false_2 (me = ck)) by congruence. apply andb_false_r. }
  rewrite bool_decide_eq_false_2 by done.
  by rewrite (M_bind_run _ _ _ d c) by done.
Qed.

Lemma say_keeps_contacts s c : contacts_in (say s c).2 = contacts_in c ∧ (say s c).1 = Ok tt.
Proof. by destruct c as [? ? ? []]. Qed.

(** Adding the invite another user made, under a name that is free, makes
    that name resolve to exactly their two keys and screen name and leaves
    every other contact alone; adding it again reports the contact as known
    and changes nothing. *)
Theorem add_invite identity node_key screen invite name name2 me d c :
  length identity = 32%nat → length node_key = 32%nat →
  is_str screen → screen ≠ "" → strip screen = screen → str_mem ":"%char screen = false →
  make_invite identity (hex node_key) screen = Ok invite →
  contacts_in c = Ok (JObj d) → json_wf (JObj d) → knows_self me d → hex (sign_pk identity) ≠ me →
  find_contact (hex (sign_pk identity)) d = Ok None →
  is_str name → name ≠ "" → name ≠ "_self" → dict_get name d = None → name2 ≠ "" →
  ∃ c' d', cmd_add invite (Some name) c = (Ok tt, c') ∧ contacts_in c' = Ok (JObj d') ∧
    resolve_buddy name c' = (Ok (JObj (contact (hex (sign_pk identity)) (hex node_key) screen)), c') ∧
    (∀ k, k ≠ name → dict_get k d' = dict_get k d) ∧
    let '(r, c2) := cmd_add invite (Some name2) c' in
    r = Raise (SystemExit 0) ∧ contacts_in c2 = Ok (JObj d').
Proof.
  intros Hid Hnk Hstr Hne Hstrip Hcolon Hinv Hc Hwf Hself Hme Hfind Hname Hname0 Hnself Hfree Hname2.
  set (ck := hex (sign_pk identity)) in *. set (rec := contact ck (hex node_key) screen).
  set (d' := dict_set name (JObj rec) d).
  assert (Hp : parse_invite invite = Ok (ck, hex node_key, screen)).
  { by apply invite_parsed_back. }
  assert (Hwf' : json_wf (JObj d')).
  { apply json_wf_set; [done| |done]. unfold rec, contact. json_wf_tac; apply hex_is_str. }
  assert (Hself' : knows_self me d').
  { destruct Hself as (s&Hs&?). exists s. unfold d'. by rewrite dict_get_set_ne by congruence. }
  destruct (write_contacts_run (JObj d') c Hwf') as (c1&Hw&Hc1&_).
  rewrite (cmd_add_run _ _ ck (hex node_key) screen me d) by done.
  rewrite (M_bind_run _ _ _ None c) by (unfold lift; by rewrite Hfind).
  rewrite (M_bind_run _ _ _ _ _ Hw).
  destruct (say_keeps_contacts ("added " +:+ screen +:+ " as " +:+ name) c1) as [Hs1 Hs2].
  exists (say ("added " +:+ screen +:+ " as " +:+ name) c1).2, d'.
  set (c' := (say _ c1).2) in *. assert (Hc' : contacts_in c' = Ok (JObj d')) by congruence.
  split; [by apply injective_projections|]. split; [done|]. split; [|split].
  - unfold resolve_buddy. rewrite (M_bind_run _ _ _ (JObj d') c') by (by rewrite contacts_file_run, Hc').
    rewrite (M_bind_run _ _ _ d' c') by done. unfold d'. by rewrite dict_get_set_eq.
  - intros k Hk. by apply dict_get_set_ne.
  - clearbody c'. rewrite (cmd_add_run _ _ ck (hex node_key) screen me d') by done.
    rewrite (M_bind_run _ _ _ (Some (name, JObj rec)) c')
      by (unfold lift; f_equal; by apply find_contact_new).
    rewrite (M_bind_run _ _ _ (Some (JStr (hex node_key))) c') by done. cbn [fmap option_fmap option_map json_is_str].
    rewrite bool_decide_eq_true_2 by done. cbn [default].
    destruct (say_keeps_contacts "contact already known" c') as [Hk1 Hk2].
    destruct (say "contact already known" c') as [r c2] eqn:Hsay. cbn in Hk1, Hk2. subst r.
    rewrite (M_bind_run _ _ _ _ _ Hsay). cbn. split; [done|]. congruence.
Qed.

(** ** Unblocking *)

Section StoreKept.
Context (s : store).
Let I (c : session) := c_store c = s.

Lemma kept_io {A} (m : IO A) : keeps I (on_io m) any.
Proof. intros c Hc. split; [|done]. unfold on_io. by destruct (m _). Qed.
Lemma kept_cl {A} (m : CL A) : keeps I (on_cl m) any.
Proof. intros c Hc. split; [|done]. unfold on_cl. by destruct (m _) as [? [? ?]]. Qed.
Lemma kept_tm {A} t (m : TM A) : keeps I (on_tm t m) any.
Proof. intros c Hc. split; [|done]. unfold on_tm. by destruct (m _) as [? [? ?]]. Qed.
Lemma kept_path f : keeps I (path_of f) any.
Proof. apply keeps_gets_any. Qed.
#[local] Hint Resolve kept_io kept_cl kept_tm kept_path : keeps.

Lemma kept_say t : keeps I (say t) any.
Proof. apply kept_io. Qed.
Lemma kept_complain t : keeps I (complain t) any.
Proof. apply kept_io. Qed.
Lemma kept_die {A} t : keeps I (die t : CLI A) any.
Proof. unfold die, exit. keeps_tac. Qed.
#[local] Hint Resolve kept_say kept_complain kept_die : keeps.

Lemma kept_ensure_tunnel : keeps I ensure_tunnel any.
Proof. unfold ensure_tunnel. keeps_tac. Qed.

Lemma kept_get_client : keeps I get_client any.
Proof.
  unfold get_client, load_or_exit, get_passphrase, prompt_passphrase, contacts_file. keeps_tac;
    try (apply keeps_modify; done).
Qed.
#[local] Hint Resolve kept_ensure_tunnel kept_get_client : keeps.

Lemma kept_unblock_daemon node :
  keeps I (reached ← try_with is_os_error
      (_ ← ensure_tunnel; sock ← on_io client_socket; _ ← on_io (connect sock); mret true)
      (λ e, _ ← complain ("daemon not reachable (" +:+ exn_str e +:+
               ") - the client mute is cleared; start the app to fully apply");
            mret false);
    if reached : bool then
      try_with is_daemon_error
        (_ ← get_client; _ ← on_cl (unblock node); say "daemon block removed")
        (λ e, complain ("daemon unblock failed: " +:+ exn_str e +:+ " - client mute cleared"))
    else mret tt) any.
Proof.
  eapply keeps_bind.
  - apply keeps_try; [keeps_tac|intros e; keeps_tac].
  - intros b _. destruct b; [|keeps_tac]. apply keeps_try; [keeps_tac|intros e; keeps_tac].
Qed.
End StoreKept.

Lemma dict_get_delete_where {V} (node : string) (t : list (string * V)) :
  dict_get node (delete_where (λ r, bool_decide (r.1 = node)) t) = None.
Proof.
  unfold delete_where. induction t as [|[k v] t IH]; [done|]. cbn [List.filter fst].
  destruct (bool_decide (k = node)) eqn:Hk; cbn [negb]; [done|]. cbn.
  apply bool_decide_eq_false in Hk. by rewrite decide_False by congruence.
Qed.

(** [unblock] clears the local mute and the remembered name of the node
    and nothing else of the store, whatever becomes of the daemon: no tunnel,
    nobody listening, a refusal or any other failure. *)
Theorem unblock_local node c c1 :
  open_cache c = (Ok tt, c1) →
  let d := s_db (c_store c1) in
  let d' := s_db (c_store (cmd_unblock node c).2) in
  dict_mem node (muted_nodes d') = false ∧ dict_get node (blocked_screens d') = None ∧
  (∀ k, k ≠ node → dict_mem k (muted_nodes d') = dict_mem k (muted_nodes d)) ∧
  messages_t d' = messages_t d ∧ conversations d' = conversations d ∧ watermark d' = watermark d ∧
  deliveries d' = deliveries d ∧ pending_t d' = pending_t d.
Proof.
  intros Hopen. cbv zeta. unfold cmd_unblock. rewrite (M_bind_run _ _ _ _ _ Hopen).
  set (s1 := (unmute node (c_store c1)).2).
  set (s2 := (clear_blocked_screen node s1).2).
  set (c2 := Session (c_pass c1) s2 (c_client c1) (c_os c1)).
  rewrite (M_bind_run _ _ _ tt (Session (c_pass c1) s1 (c_client c1) (c_os c1))) by done.
  rewrite (M_bind_run _ _ _ tt c2) by done.
  set (t := "cleared local suppression for " +:+ py_take 16 node +:+ "…").
  destruct (say_keeps_contacts t c2) as [_ Hsay].
  rewrite (M_bind_run _ _ _ tt (say t c2).2) by (by apply injective_projections).
  assert (Hs : c_store (say t c2).2 = s2) by (by apply (kept_say s2 t c2)).
  pose proof (proj1 (kept_unblock_daemon s2 node (say t c2).2 Hs)) as Hfin. cbn beta in Hfin.
  rewrite Hfin. split_and!; [| |intros k Hk|done..].
  - apply not_true_is_false. rewrite dict_mem_true.
    apply dict_get_None, dict_get_delete_where.
  - apply dict_get_delete_where.
  - apply eq_true_iff_eq. rewrite !dict_mem_true. unfold s2, delete_where. cbn.
    rewrite !list_elem_of_fmap. setoid_rewrite list_elem_of_In. setoid_rewrite filter_In.
    split; intros (r&->&H).
    + exists r. split; [done|]. apply H.
    + exists r. split; [done|]. split; [exact H|]. by rewrite bool_decide_eq_false_2.
Qed.

(** ** Initialising *)

Lemma path_join_inj a b b' :
  startswith "/" b = false → startswith "/" b' = false → path_join a b = path_join a b' → b = b'.
Proof.
  intros Hb Hb'. unfold path_join. rewrite Hb, Hb'.
  destruct (bool_decide (a = "") || endswith "/" a); intros H%(inj (String.append a)); [done|].
  by apply (inj (String.append "/")) in H.
Qed.

Lemma identity_not_contacts env home :
  identity_path env home ≠ contacts_path env home ∧ identity_path env home ≠ contacts_path env home +:+ ".tmp".
Proof.
  unfold identity_path, contacts_path. split.
  - intros H. by apply path_join_inj in H.
  - intros H. assert (Hj : path_join (client_dir env home) "contacts.json" +:+ ".tmp"
      = path_join (client_dir env home) "contacts.json.tmp").
    { unfold path_join. change (startswith "/" "contacts.json") with false.
      change (startswith "/" "contacts.json.tmp") with false.
      destruct (_ || _); by rewrite !str_app_assoc. }
    rewrite Hj in H. by apply path_join_inj in H.
Qed.

Section FilesKept.
Context (m : fs) (env : gmap string string) (home : string).
Let I (c : session) := w_fs (world_of c) = m ∧ w_env (world_of c) = env ∧ w_home (world_of c) = home.

Lemma files_say t : keeps I (say t) any.
Proof. intros c H. by destruct c as [? ? ? []]. Qed.
Lemma files_connect sock : keeps I (on_io (connect sock)) any.
Proof. intros c H. split; [|done]. by destruct c as [? ? ? [[] ? ? ?]]. Qed.
Lemma files_request op fields : keeps I (on_io (request op fields)) any.
Proof.
  intros c H. split; [|done]. destruct c as [? ? ? [[] ? ? ?]]. unfold on_io, request. cbn in *.
  by destruct (d_request _ _ _).
Qed.
Lemma files_socket : keeps I (on_io client_socket) any.
Proof.
  intros c H. split; [|done]. unfold on_io, client_socket, mbind, M_bind, gets.
  destruct (bool_decide _); [rewrite remote_config_run; destruct (config_of _) as [[]|]|];
    by destruct c as [? ? ? [[] ? ? ?]].
Qed.
#[local] Hint Resolve files_say files_connect files_request files_socket : keeps.

Lemma files_greet identity screen : keeps I (greet identity screen) any.
Proof.
  unfold greet. keeps_tac. apply keeps_try; [keeps_tac|intros e; keeps_tac].
Qed.
End FilesKept.

Definition with_world (w : world) (c : session) : session :=
  Session (c_pass c) (c_store c) (c_client c) (set_world w (c_os c)).

Lemma on_io_run {A} (m : IO A) c a w : m (world_of c) = (Ok a, w) → on_io m c = (Ok a, with_world w c).
Proof. unfold on_io, world_of. by intros ->. Qed.

Lemma contacts_in_frame c c' :
  w_env (world_of c') = w_env (world_of c) → w_home (world_of c') = w_home (world_of c) →
  w_fs (world_of c') !! contacts_name c = w_fs (world_of c) !! contacts_name c →
  contacts_in c' = contacts_in c.
Proof. intros He Hh Hf. unfold contacts_in, contacts_name in *. by rewrite He, Hh, Hf. Qed.

Lemma prompt_confirmed pw rest c :
  pw ≠ "" → w_in (world_of c) = pw :: pw :: rest →
  prompt_passphrase true c = (Ok pw, with_world (set_in rest (world_of c)) c).
Proof.
  intros Hpw Hin. unfold prompt_passphrase.
  rewrite (M_bind_run _ _ _ _ _ (on_io_run input c pw (set_in (pw :: rest) (world_of c))
    ltac:(unfold input; by rewrite Hin))).
  rewrite bool_decide_eq_false_2 by done.
  rewrite (M_bind_run _ _ _ _ _ (on_io_run input (with_world (set_in (pw :: rest) (world_of c)) c)
    pw (set_in rest (world_of c)) eq_refl)).
  by rewrite bool_decide_eq_true_2.
Qed.

Lemma contacts_not_identity env home :
  contacts_path env home ≠ identity_path env home ∧ contacts_path env home ≠ identity_path env home +:+ ".tmp".
Proof.
  unfold identity_path, contacts_path. split.
  - intros H. by apply path_join_inj in H.
  - intros H. assert (Hj : path_join (client_dir env home) "identity.json" +:+ ".tmp"
      = path_join (client_dir env home) "identity.json.tmp").
    { unfold path_join. change (startswith "/" "identity.json") with false.
      change (startswith "/" "identity.json.tmp") with false.
      destruct (_ || _); by rewrite !str_app_assoc. }
    rewrite Hj in H. by apply path_join_inj in H.
Qed.

Lemma load_frame path pw identity w w' :
  load_identity path pw w = (Ok identity, w) → w_fs w' = w_fs w →
  load_identity path pw w' = (Ok identity, w').
Proof.
  unfold load_identity, read_file, lift, mbind, M_bind. intros H ->.
  destruct (fs_read path (w_fs w)) as [l|]; [|done]. by injection H as ->.
Qed.

(** [cmd_init] up to the greeting. *)
Lemma init_run c pw name rest d :
  let path := identity_path (w_env (world_of c)) (w_home (world_of c)) in
  let screen := if bool_decide (strip name = "") then "anonymous" else strip name in
  contacts_in c = Ok (JObj d) → json_wf (JObj d) → is_str (strip name) → pw ≠ "" →
  w_in (world_of c) = pw :: pw :: name :: rest → fs_exists path (w_fs (world_of c)) = false →
  ∃ identity c5, cmd_init c = greet identity screen c5 ∧
    load_identity path pw (world_of c5) = (Ok identity, world_of c5) ∧
    contacts_in c5 = Ok (JObj (dict_set "_self" (JObj
      [("screen", JStr screen); ("pubkey", JStr (hex (sign_pk identity)))]) d)).
Proof.
  cbv zeta. intros Hc Hwf Hname Hpw Hin Hno. unfold cmd_init.
  set (path := identity_path (w_env (world_of c)) (w_home (world_of c))).
  rewrite (M_bind_run _ _ _ path c) by done.
  rewrite (M_bind_run _ _ _ (fs_exists path (w_fs (world_of c))) c)
    by (unfold on_io, path_exists; by rewrite session_eta).
  unfold path. rewrite Hno. fold path.
  rewrite (M_bind_run _ _ _ _ _ (prompt_confirmed pw (name :: rest) c Hpw Hin)).
  set (c1 := with_world (set_in (name :: rest) (world_of c)) c).
  set (identity := random_bytes 32 (w_rng (world_of c))).
  assert (Hid : length identity = 32%nat) by apply random_length.
  destruct (draw (world_of c1)) as [? w2] eqn:Hdraw. injection Hdraw as _ Hw2.
  rewrite (M_bind_run _ _ _ _ _ (on_io_run new_identity c1 identity w2 ltac:(by rewrite <-Hw2))).
  destruct (save_identity_run path identity pw w2)
    as (w3&nonce&md&Hn&Hrun&Hfile&_&He3&Hh3&Hi3&Hother). cbn zeta in Hfile.
  rewrite (M_bind_run _ _ _ _ _ (on_io_run (save_identity path identity pw) (with_world w2 c1) tt w3 Hrun)).
  assert (Hi : w_in w3 = name :: rest) by (by rewrite Hi3, <-Hw2).
  set (c3 := with_world w3 (with_world w2 c1)).
  rewrite (M_bind_run _ _ _ _ _ (on_io_run input c3 name (set_in rest w3)
    ltac:(unfold input; change (world_of c3) with w3; by rewrite Hi))).
  set (c4 := with_world (set_in rest w3) c3).
  destruct (contacts_not_identity (w_env (world_of c)) (w_home (world_of c))) as [Hp1 Hp2].
  assert (Hc4 : contacts_in c4 = Ok (JObj d)).
  { rewrite <-Hc. apply contacts_in_frame; [cbn; by rewrite He3, <-Hw2|cbn; by rewrite Hh3, <-Hw2|].
    change (w_fs w3 !! contacts_name c = w_fs (world_of c) !! contacts_name c).
    rewrite Hother by done. by rewrite <-Hw2. }
  rewrite (M_bind_run _ _ _ (JObj d) c4) by (by rewrite contacts_file_run, Hc4).
  rewrite (M_bind_run _ _ _ d c4) by done.
  set (screen := if bool_decide (strip name = "") then "anonymous" else strip name).
  set (d' := dict_set "_self" _ d).
  assert (Hwf' : json_wf (JObj d')).
  { apply json_wf_set; [done| |done].
    assert (is_str screen) by (unfold screen; by destruct (bool_decide _)).
    unfold hex_pubkey. json_wf_tac; apply hex_is_str. }
  destruct (write_contacts_run (JObj d') c4 Hwf') as (c5&Hw&Hc5&m&Hc5'&Hm).
  rewrite (M_bind_run _ _ _ _ _ Hw).
  exists identity, c5. split; [done|]. split; [|exact Hc5].
  apply (load_saved path identity pw (random_bytes 16 (w_rng w2)) nonce md); [done..|].
  rewrite Hc5'. change (m !! path = Some (File (utf8_encode (json_dumps (identity_object
    (random_bytes 16 (w_rng w2)) (secret_encrypt (kdf_key pw (random_bytes 16 (w_rng w2)))
      identity nonce)))) md)).
  destruct (identity_not_contacts (w_env (world_of c)) (w_home (world_of c))) as [Hq1 Hq2].
  assert (Hcn : contacts_name c4 = contacts_path (w_env (world_of c)) (w_home (world_of c)))
    by (unfold contacts_name; cbn; by rewrite He3, Hh3, <-Hw2).
  rewrite Hm by (rewrite Hcn; done). exact Hfile.
Qed.

(** [init] on a fresh home creates an identity that the chosen passphrase
    opens, and records its public key and the screen name, whether or not the
    daemon answers; where an identity exists it exits with status 1 and
    leaves every file as it is. *)
Theorem init_creates c pw name rest d :
  let path := identity_path (w_env (world_of c)) (w_home (world_of c)) in
  let c' := (cmd_init c).2 in
  contacts_in c = Ok (JObj d) → json_wf (JObj d) → is_str (strip name) → pw ≠ "" →
  w_in (world_of c) = pw :: pw :: name :: rest →
  if fs_exists path (w_fs (world_of c))
  then (cmd_init c).1 = Raise (SystemExit 1) ∧ w_fs (world_of c') = w_fs (world_of c)
  else ∃ identity, load_identity path pw (world_of c') = (Ok identity, world_of c') ∧
    contacts_in c' = Ok (JObj (dict_set "_self" (JObj
      [("screen", JStr (if bool_decide (strip name = "") then "anonymous" else strip name));
       ("pubkey", JStr (hex (sign_pk identity)))]) d)).
Proof.
  cbv zeta. intros Hc Hwf Hname Hpw Hin.
  destruct (fs_exists _ _) eqn:Hex.
  - unfold cmd_init. rewrite (M_bind_run _ _ _ (identity_path (w_env (world_of c)) (w_home (world_of c))) c) by done.
    rewrite (M_bind_run _ _ _ true c) by (unfold on_io, path_exists; fold (world_of c); by rewrite Hex, session_eta).
    by destruct c as [? ? ? [[] ? ? ?]].
  - destruct (init_run c pw name rest d) as (identity&c5&Hrun&Hload&Hc5); [done..|].
    rewrite Hrun. exists identity.
    set (screen := if bool_decide (strip name = "") then "anonymous" else strip name) in *.
    destruct (files_greet (w_fs (world_of c5)) (w_env (world_of c5)) (w_home (world_of c5))
      identity screen c5 ltac:(done)) as [(Hf&He&Hh) _].
    split; [by apply (load_frame _ _ _ (world_of c5))|].
    rewrite (contacts_in_frame c5) by (done || by rewrite Hf). exact Hc5.
Qed.
End CliProps.

(** ** Witnesses *)

Section CliWitness.
Local Instance cli_json : JsonCodec := RefCodec.
Local Instance cli_json_laws : JsonLaws RefCodec := RefCodec_laws.
Local Instance cli_nacl : NaCl := RefNaCl.
Local Instance cli_nacl_laws : NaClLaws RefNaCl := RefNaCl_laws.
Local Instance cli_daemon : Daemon := {|
  dstate := unit; d_connect _ _ := Raise (OSError "no daemon"); d_request _ _ d := (Ok JNull, d) |}.
Local Instance cli_env : Env := {| pass _ o := o; new_pid _ := 1; makes_dir _ _ := true |}.
Local Instance cli_locale : Locale := {| strftime _ _ := "12:00" |}.

(** A session whose contacts file holds [d] and whose input is [typed]. *)
Definition cli_files (d : list (string * json)) : fs :=
  {["/a/client/contacts.json" := File (utf8_encode (json_dumps_indent (JObj d))) 384]}.
Definition cli_session (m : fs) (typed : list string) (pass : option string) : session :=
  Session pass (Store empty_db [] 0 empty_db) (Client alice "al" None)
    (Os (World m {["AIMLESS_HOME" := "/a"]} "/h" 0 0 typed [] [] tt) ∅ ∅ [] []).

Definition cli_self : list (string * json) :=
  [("_self", JObj [("screen", JStr "al"); ("pubkey", JStr (hex alice))])].
Definition cli_start : session := cli_session (cli_files cli_self) [] None.

Lemma cli_start_contacts : contacts_in cli_start = Ok (JObj cli_self).
Proof. vm_compute. reflexivity. Qed.
Lemma cli_self_wf : json_wf (JObj cli_self).
Proof. unfold cli_self. json_wf_tac; vm_compute; reflexivity. Qed.
Definition cli_invite : string :=
  match make_invite bob (hex bob) "bo" with Ok i => i | Raise _ => "" end.

Example add_invite_witness :
  ∃ c', cmd_add cli_invite (Some "friend") cli_start = (Ok tt, c') ∧
    resolve_buddy "friend" c' = (Ok (JObj (contact (hex bob) (hex bob) "bo")), c').
Proof.
  destruct (add_invite bob bob "bo" cli_invite "friend" "again" (hex alice) cli_self cli_start)
    as (c'&d'&H1&_&H2&_);
    [reflexivity|reflexivity|vm_compute; reflexivity|discriminate|vm_compute; reflexivity
    |reflexivity|vm_compute; reflexivity|exact cli_start_contacts|exact cli_self_wf
    |by eexists|discriminate|reflexivity|reflexivity|discriminate|discriminate|reflexivity|discriminate|].
  exists c'. split; [exact H1|exact H2].
Defined.

(** Adding under the name [_self] replaces our own record. *)
Example add_over_self :
  to_option (contacts_in (cmd_add cli_invite (Some "_self") cli_start).2)
    = Some (JObj [("_self", JObj (contact (hex bob) (hex bob) "bo"))]).
Proof. vm_compute. reflexivity. Qed.

(** A session with a cached passphrase and an identity file, on a machine
    where no daemon listens. *)
Definition cli_blocking : session :=
  cli_session {["/a/client/identity.json" := File [] 384]} [] (Some "pw").
Definition cli_opened : session := (open_cache cli_blocking).2.
Example unblock_local_witness :
  open_cache cli_blocking = (Ok tt, cli_opened) ∧
  dict_mem "n" (muted_nodes (s_db (c_store (cmd_unblock "n" cli_blocking).2))) = false.
Proof.
  assert (H : open_cache cli_blocking = (Ok tt, cli_opened)) by (vm_compute; reflexivity).
  split; [exact H|]. exact (proj1 (unblock_local "n" cli_blocking cli_opened H)).
Defined.

Definition cli_fresh : session := cli_session (cli_files []) ["pw"; "pw"; " al "] None.
Example init_creates_witness :
  ∃ identity, load_identity "/a/client/identity.json" "pw" (world_of (cmd_init cli_fresh).2)
    = (Ok identity, world_of (cmd_init cli_fresh).2).
Proof.
  destruct (init_creates cli_fresh "pw" " al " [] []) as (identity&H&_);
    [vm_compute; reflexivity|split; [constructor|exact I]|vm_compute; reflexivity|discriminate|reflexivity|].
  exists identity. exact H.
Defined.
End CliWitness.
