(* ===== verification/Desktop.v ===== *)
(** * gtkui.py: the helpers of the desktop application

    File names, sizes, links, preferences, window placement, notifications
    and sounds: the functions above the widgets (lines 47 to 634). *)

From S2P Require Import Prelude PyStr Codec Json Sys Paths.
From Stdlib Require Import Ascii.
Local Open Scope Z_scope.

(** ** File names *)

(** The class [[A-Za-z0-9 ._-]]. *)
Definition filename_char (a : ascii) : bool :=
  let c := code a in
  ((65 <=? c) && (c <=? 90)) || ((97 <=? c) && (c <=? 122)) || ((48 <=? c) && (c <=? 57)) ||
  bool_decide (a = " "%char) || bool_decide (a = "."%char) || bool_decide (a = "_"%char) ||
  bool_decide (a = "-"%char).
Definition space_or_dot (c : string) : bool := bool_decide (c = " ") || bool_decide (c = ".").

Definition sanitize_filename (name : option string) : string :=
  let clean := str_filter filename_char (default "" name) in
  let clean := strip_by space_or_dot clean in
  let clean := if bool_decide (clean = "") then "file" else clean in
  py_take 64 clean.

(** ** Sizes *)

(** [f"{num/den:.1f}"] for a non-negative quotient: the nearest tenth, a tie
    to the even one. The quotients of [_human_size] are exact as floats. *)
Definition round_tenths (num den : Z) : Z :=
  let q := (10 * num) / den in
  let r := 2 * ((10 * num) mod den) in
  if r <? den then q
  else if den <? r then q + 1
  else if Z.even q then q else q + 1.
Definition show_tenths (t : Z) : string := str_of_int (t / 10) +:+ "." +:+ str_of_int (t mod 10).

Fixpoint human_size_loop (units : list string) (n den : Z) : string :=
  match units with
  | [] => ""
  | unit :: units =>
    if (n <? 1024 * den) || bool_decide (unit = "GB") then
      if bool_decide (unit = "B") then str_of_int n +:+ " " +:+ unit
      else show_tenths (round_tenths n den) +:+ " " +:+ unit
    else human_size_loop units n (1024 * den)
  end.
Definition _human_size (n : Z) : string := human_size_loop ["B"; "KB"; "MB"; "GB"] n 1.

(** ** Links *)

(** GLib's escaping, and the letters and digits beyond ASCII, which the word
    boundary of the pattern depends on. *)
Class Markup := {
  markup_escape_text : string → string;
  word_beyond_ascii : string → bool;
}.

Section Linkify.
Context `{Markup}.

Definition is_word (c : string) : bool :=
  match c with
  | String a "" =>
    let z := code a in
    if z <? 128 then ((65 <=? z) && (z <=? 90)) || ((97 <=? z) && (z <=? 122)) ||
      ((48 <=? z) && (z <=? 57)) || (z =? 95)
    else word_beyond_ascii c
  | _ => word_beyond_ascii c
  end.

(** The characters of a URL: no white space, angle bracket or quote. *)
Definition url_char (c : string) : bool :=
  negb (is_space c) && negb (bool_decide (c ∈ ["<"; ">"; String "034" ""; "'"])).
Definition trailing_punct (c : string) : bool :=
  bool_decide (c ∈ ["."; ","; ";"; ":"; "!"; "?"; ")"; "'"; "]"]).

Fixpoint has_prefix (p cs : list string) : bool :=
  match p, cs with
  | [], _ => true
  | x :: p, c :: cs => bool_decide (x = c) && has_prefix p cs
  | _ :: _, [] => false
  end.

(** A match of [_URL_RE] at the head of [cs], after the character [prev]. *)
Definition url_match (prev : option string) (cs : list string) : option (list string) :=
  let http := ["h"; "t"; "t"; "p"; ":"; "/"; "/"] in
  let https := ["h"; "t"; "t"; "p"; "s"; ":"; "/"; "/"] in
  let after scheme := take_while url_char (drop (length scheme) cs) in
  let found scheme := match after scheme with [] => None | _ => Some (scheme ++ after scheme) end in
  if default false (is_word <$> prev) then None
  else if has_prefix https cs then found https
  else if has_prefix http cs then found http
  else None.

(** [url.rstrip(_TRAILING_PUNCT)] on characters *)
Definition rstrip_punct (cs : list string) : list string :=
  reverse (drop_while trailing_punct (reverse cs)).

Inductive segment := Plain (cs : list string) | Link (cs : list string).
Definition raw (s : segment) : list string := match s with Plain cs | Link cs => cs end.

(** [_URL_RE.finditer] with the cutting of [linkify]: [pending] is what was
    passed since the last link. A match the stripping empties is passed over. *)
Fixpoint segments (fuel : nat) (prev : option string) (pending cs : list string) : list segment :=
  match fuel, cs with
  | O, _ => [Plain (pending ++ cs)]
  | _, [] => [Plain pending]
  | S fuel, c :: cs' =>
    match url_match prev cs with
    | None => segments fuel (Some c) (pending ++ [c]) cs'
    | Some m =>
      let rest := drop (length m) cs in
      match rstrip_punct m with
      | [] => segments fuel (last m) (pending ++ m) rest
      | url => Plain pending :: Link url :: segments fuel (last m) (drop (length url) m) rest
      end
    end
  end.

Definition render (s : segment) : string :=
  match s with
  | Plain cs => markup_escape_text (sconcat cs)
  | Link cs =>
    let esc := markup_escape_text (sconcat cs) in
    let quote := String "034" "" in
    "<a href=" +:+ quote +:+ esc +:+ quote +:+ ">" +:+ esc +:+ "</a>"
  end.

Definition linkify (text : string) : string :=
  let cs := uchars text in
  sconcat (render <$> segments (length cs) None [] cs).
End Linkify.

(** ** Preferences *)

Definition DEFAULT_PREFS : list (string * json) :=
  [("remember_position", JBool true); ("notifications", JBool true);
   ("notification_sound", JStr "single"); ("enter_to_send", JBool true);
   ("time_format", JStr "24h"); ("theme", JStr "system"); ("seen_onboarding", JBool false)].

Definition pref (prefs : list (string * json)) (key : string) : json :=
  default (default JNull (dict_get key DEFAULT_PREFS)) (dict_get key prefs).

Section Prefs.
Context `{J : JsonCodec} `{D : Daemon}.

Definition load_prefs : IO json :=
  env ← gets w_env;
  home ← gets w_home;
  try_with is_exception
    (content ← read_file (prefs_path env home); lift (json_loads_bytes content))
    (λ _, mret (JObj [])).

Definition save_prefs (prefs : json) : IO unit :=
  env ← gets w_env;
  home ← gets w_home;
  write_file (prefs_path env home) (utf8_encode (json_dumps_indent prefs)).
End Prefs.

(** ** Window placement *)

Record area := Area { a_x : Z; a_y : Z; a_w : Z; a_h : Z }.

Definition on_area (x y w h margin : Z) (a : area) : bool :=
  (a_x a - w + margin <=? x) && (x <=? a_x a + a_w a - margin) &&
  (a_y a - h + margin <=? y) && (y <=? a_y a + a_h a - margin).

Definition clamp_to_workarea (x y w h : Z) (areas : list area) (margin : Z) : Z * Z :=
  match areas with
  | [] => (x, y)
  | a :: _ =>
    if existsb (on_area x y w h margin) areas then (x, y)
    else (Z.min (Z.max x (a_x a)) (a_x a + Z.max 0 (a_w a - w)),
          Z.min (Z.max y (a_y a)) (a_y a + Z.max 0 (a_h a - h)))
  end.

(** ** Notifications and sounds *)

Definition should_notify (window_visible muted blocked : bool) (prefs : list (string * json)) : bool :=
  if negb (truthy (pref prefs "notifications")) then false
  else if muted || blocked then false
  else negb window_visible.

Definition SOUND_OPTIONS : list string := ["off"; "single"; "double"; "triple"; "long"].
Definition SOUND_MIN_GAP : Z := 2000.
Definition _BEEP (dur : string) : string := "timeout " +:+ dur +:+ "s speaker-test -t sine -f 800 -l 1".

Definition beeps (kind : string) : nat :=
  default 0%nat (dict_get kind [("single", 1%nat); ("double", 2%nat); ("triple", 3%nat)]).
(** The parts for [i], [i+1], ... *)
Fixpoint beep_parts (i n : nat) : list string :=
  match n with
  | O => []
  | S n => (if (0 <? i)%nat then ["sleep 0.12"] else []) ++ _BEEP "0.2" :: beep_parts (S i) n
  end.
Definition sound_command (kind : string) : string :=
  if negb (bool_decide (kind ∈ SOUND_OPTIONS)) || bool_decide (kind = "off") then ""
  else if bool_decide (kind = "long") then _BEEP "0.5"
  else join "; " (beep_parts 0 (beeps kind)).

Definition sound_enabled (env : gmap string string) (prefs : list (string * json)) : string :=
  match env !! "AIMLESS_SOUND" with
  | Some v => if bool_decide (v ∈ SOUND_OPTIONS) then v else
    match pref prefs "notification_sound" with
    | JStr kind => if bool_decide (kind ∈ SOUND_OPTIONS) then kind else "single"
    | _ => "single"
    end
  | None =>
    match pref prefs "notification_sound" with
    | JStr kind => if bool_decide (kind ∈ SOUND_OPTIONS) then kind else "single"
    | _ => "single"
    end
  end.

Definition should_play_sound (env : gmap string string) (window_visible muted blocked : bool)
    (prefs : list (string * json)) : bool :=
  if muted || blocked || window_visible then false
  else negb (bool_decide (sound_enabled env prefs = "off")).

(** What makes the sound: the first of the backends that works. *)
Inductive beep := SpeakerTest (cmd : string) | Paplay (path : string) | DisplayBeep | Silence.

(** The programs on the path, the programs that can be started, the sound
    files that exist, whether the display can beep. *)
Record sound_system := SoundSystem
  { which : string → bool; can_run : string → bool; sound_file : string → bool; display_beeps : bool }.

Definition EVENT_SOUNDS : list string :=
  ["/usr/share/sounds/freedesktop/stereo/message.oga"; "/usr/share/sounds/freedesktop/stereo/bell.oga"].

Definition _run_beep (s : sound_system) (shell_cmd : string) : beep :=
  let speaker := which s "speaker-test" && negb (bool_decide (shell_cmd = "")) && can_run s "bash" in
  let sound := if which s "paplay" && can_run s "paplay"
               then List.find (sound_file s) EVENT_SOUNDS else None in
  if speaker then SpeakerTest shell_cmd
  else match sound with
       | Some path => Paplay path
       | None => if display_beeps s then DisplayBeep else Silence
       end.

(** [_LAST_SOUND] against the monotonic clock, in milliseconds: what is
    played, if anything, and the new value. *)
Definition play_notification_sound (s : sound_system) (kind : string) (force : bool) (now last : Z)
    : option beep * Z :=
  if negb (bool_decide (kind ∈ SOUND_OPTIONS)) || bool_decide (kind = "off") then (None, last)
  else if negb force && (now - last <? SOUND_MIN_GAP) then (None, last)
  else (Some (_run_beep s (sound_command kind)), now).

(** ** Dates *)

(** The zone's offset from UTC at a moment, in milliseconds. *)
Class Zone := { utc_offset : Z → Z }.

(** The first of January of a year, in days from 1970-01-01. *)
Definition jan1 (y : Z) : Z := 365 * (y - 1970) + (y - 1) / 4 - (y - 1) / 100 + (y - 1) / 400 - 477.
(** [date.year]: the mean year gives it up to one. *)
Definition year_of_day (d : Z) : Z :=
  let y := 1970 + (400 * d) / 146097 in
  if d <? jan1 y then y - 1 else if jan1 (y + 1) <=? d then y + 1 else y.

Section Dates.
Context `{Z_ : Zone} `{L : Locale}.

(** [datetime.fromtimestamp(ts / 1000).date()] in days from 1970-01-01 *)
Definition local_day (ts : Z) : Z := (ts + utc_offset ts) / 86400000.

Definition format_time (ts : Z) (time_format : json) : string :=
  if json_is_str "12h" time_format then lstrip_by (λ c, bool_decide (c = "0")) (strftime "%I:%M %p" ts)
  else strftime "%H:%M" ts.

Definition date_label (ts now : Z) : string :=
  let day := local_day ts in
  let today := local_day now in
  if day =? today then "Today"
  else if day =? today - 1 then "Yesterday"
  else if year_of_day day =? year_of_day today then strftime "%A, %d %b" ts
  else strftime "%d %b %Y" ts.

(** [_maybe_date_divider] over a conversation: a divider before each message
    whose day differs from the one before. *)
Fixpoint date_dividers (last_date : option Z) (now : Z) (stamps : list Z) : list (option string) :=
  match stamps with
  | [] => []
  | ts :: stamps =>
    (if bool_decide (last_date = Some (local_day ts)) then None else Some (date_label ts now))
      :: date_dividers (Some (local_day ts)) now stamps
  end.
End Dates.

(** ** Properties *)

Lemma year_of_day_spec d : jan1 (year_of_day d) <= d < jan1 (year_of_day d + 1).
Proof.
  unfold year_of_day. set (y := 1970 + 400 * d / 146097).
  assert (Hy : 146097 * (y - 1970) <= 400 * d < 146097 * (y - 1969))
    by (unfold y; Z.div_mod_to_equations; lia).
  unfold jan1 in *. clearbody y.
  destruct (d <? _) eqn:H1; [|destruct (_ <=? d) eqn:H2];
    rewrite ?Z.ltb_lt, ?Z.ltb_ge, ?Z.leb_le, ?Z.leb_gt in *; Z.div_mod_to_equations; lia.
Qed.

Definition sing (a : ascii) : string := String a "".

Lemma uchars_ascii_chars s :
  str_all is_ascii s = true → uchars s = sing <$> String.list_ascii_of_string s.
Proof.
  induction s as [|a s IH]; [done|]. cbn [str_all]. intros [Ha Hs]%andb_prop.
  rewrite uchars_ascii_cons by (by apply ascii_not_starts_cont). cbn. by rewrite IH.
Qed.

Lemma sconcat_sing l : sconcat (sing <$> l) = String.string_of_list_ascii l.
Proof.
  induction l as [|a l IH]; [done|].
  change (sing a +:+ sconcat (sing <$> l) = sing a +:+ String.string_of_list_ascii l). by rewrite IH.
Qed.

Lemma drop_while_fmap {A B} (f : A → B) p l : drop_while p (f <$> l) = f <$> drop_while (p ∘ f) l.
Proof. induction l as [|x l IH]; [done|]. cbn. by destruct (p (f x)). Qed.

Lemma fmap_reverse' {A B} (f : A → B) l : reverse (f <$> l) = f <$> reverse l.
Proof. by rewrite fmap_reverse. Qed.

(** Stripping and cutting, on the characters of an ASCII text. *)
Definition strip_list (p : ascii → bool) (l : list ascii) : list ascii :=
  reverse (drop_while p (reverse (drop_while p l))).

Lemma strip_by_ascii p s :
  str_all is_ascii s = true →
  strip_by p s = String.string_of_list_ascii (strip_list (p ∘ sing) (String.list_ascii_of_string s)).
Proof.
  intros Hs. unfold strip_by. rewrite uchars_ascii_chars, drop_while_fmap, fmap_reverse' by done.
  by rewrite drop_while_fmap, fmap_reverse', sconcat_sing.
Qed.

Lemma py_take_ascii n s :
  str_all is_ascii s = true →
  py_take n s = String.string_of_list_ascii (take n (String.list_ascii_of_string s)).
Proof.
  intros Hs. unfold py_take. by rewrite uchars_ascii_chars, <-fmap_take, sconcat_sing.
Qed.

Lemma strip_list_subset p l x : x ∈ strip_list p l → x ∈ l.
Proof.
  unfold strip_list. rewrite elem_of_reverse. intros Hx.
  eapply elem_of_sublist in Hx; [|apply drop_while_sublist]. rewrite elem_of_reverse in Hx.
  by eapply elem_of_sublist in Hx; [|apply drop_while_sublist].
Qed.

Lemma strip_list_head p l x l' : strip_list p l = x :: l' → p x = false.
Proof.
  unfold strip_list. set (m := drop_while p l). intros H.
  assert (Hm : m = reverse (drop_while p (reverse m)) ++ reverse (take_while p (reverse m))).
  { rewrite <-reverse_app, take_drop_while. by rewrite reverse_involutive. }
  rewrite H in Hm. cbn in Hm. unfold m in Hm. by apply drop_while_head in Hm.
Qed.

Lemma filename_char_ascii a : filename_char a = true → is_ascii a = true.
Proof.
  unfold filename_char, is_ascii.
  rewrite !orb_true_iff, !andb_true_iff, !bool_decide_eq_true.
  intros [[[[[[H|H]|H]|H]|H]|H]|H]; subst; try reflexivity; lia.
Qed.

Lemma str_all_filter p s : str_all p (str_filter p s) = true.
Proof. induction s as [|a s IH]; [done|]. cbn. destruct (p a) eqn:Ha; [|done]. cbn. by rewrite Ha. Qed.

Lemma str_all_Forall p l :
  str_all p (String.string_of_list_ascii l) = true ↔ Forall (λ a, p a = true) l.
Proof.
  induction l as [|a l IH]; cbn; [by split; [constructor|]|].
  by rewrite andb_true_iff, IH, Forall_cons.
Qed.

Lemma string_of_list_length l : String.length (String.string_of_list_ascii l) = length l.
Proof. induction l as [|a l IH]; [done|]. cbn. by rewrite IH. Qed.

(** The text [sanitize_filename] cuts to 64 characters. *)
Lemma sanitize_stem (name : option string) :
  let s := strip_by space_or_dot (str_filter filename_char (default "" name)) in
  let clean := if bool_decide (s = "") then "file" else s in
  clean ≠ "" ∧ str_all filename_char clean = true ∧
  ∀ a t, clean = String a t → a ≠ "."%char ∧ a ≠ " "%char.
Proof.
  cbv zeta. set (f := str_filter filename_char (default "" name)).
  assert (Hf : str_all filename_char f = true) by apply str_all_filter.
  assert (Ha : str_all is_ascii f = true)
    by (eapply str_all_impl; [|exact Hf]; apply filename_char_ascii).
  rewrite (strip_by_ascii _ _ Ha). set (l := strip_list _ _).
  destruct (bool_decide (_ = "")) eqn:He.
  { split; [done|]. split; [by vm_compute|]. by intros a t [= <- _]. }
  apply bool_decide_eq_false in He. split; [done|]. split.
  - apply str_all_Forall, Forall_forall. intros x Hx%strip_list_subset.
    rewrite <-(String.string_of_list_ascii_of_string f) in Hf. apply str_all_Forall in Hf.
    rewrite Forall_forall in Hf. by apply Hf.
  - intros a t Ht. destruct l as [|x l'] eqn:Hl; [done|]. injection Ht as -> _.
    apply strip_list_head in Hl. unfold space_or_dot, sing in Hl. cbn in Hl.
    apply orb_false_iff in Hl as [H1 H2]. apply bool_decide_eq_false in H1, H2. by split; intros ->.
Qed.

(** C36: Whatever a sender calls a file, the name it is stored under is a
    non-empty run of at most 64 letters, digits, spaces, dots, underscores
    and dashes that does not begin with a dot or a space: it has no slash and
    is neither [.] nor [..], so it stays in its directory. *)
Theorem sanitize_safe name :
  let r := sanitize_filename name in
  r ≠ "" ∧ (py_len r <= 64)%nat ∧ str_all filename_char r = true ∧
  (∀ a t, r = String a t → a ≠ "."%char ∧ a ≠ " "%char) ∧
  str_mem "/"%char r = false ∧ str_mem "000"%char r = false.
Proof.
  cbv zeta. unfold sanitize_filename. destruct (sanitize_stem name) as (Hne&Hall&Hhead).
  set (clean := if bool_decide _ then _ else _) in *.
  assert (Ha : str_all is_ascii clean = true)
    by (eapply str_all_impl; [|exact Hall]; apply filename_char_ascii).
  rewrite (py_take_ascii _ _ Ha).
  rewrite <-(String.string_of_list_ascii_of_string clean) in Hall. apply str_all_Forall in Hall.
  assert (Ht : str_all filename_char
    (String.string_of_list_ascii (take 64 (String.list_ascii_of_string clean))) = true)
    by (apply str_all_Forall; by apply Forall_take).
  assert (Hno : ∀ c, filename_char c = false →
    str_mem c (String.string_of_list_ascii (take 64 (String.list_ascii_of_string clean))) = false).
  { intros c Hc. apply not_true_is_false. rewrite str_mem_list, bool_decide_eq_true.
    rewrite String.list_ascii_of_string_of_list_ascii. intros Hin.
    apply str_all_Forall in Ht. rewrite Forall_forall in Ht. specialize (Ht c Hin). congruence. }
  split_and!.
  - destruct clean as [|a t]; [done|]. by cbn.
  - rewrite py_len_ascii by (eapply str_all_impl; [|exact Ht]; apply filename_char_ascii).
    rewrite string_of_list_length, length_take. lia.
  - done.
  - intros a t. destruct clean as [|a' t']; [done|]. cbn. intros [= -> _]. by apply (Hhead a t').
  - by apply Hno.
  - by apply Hno.
Qed.

(** *** Links *)

Section LinkifyProps.
Context `{M : Markup}.

(** The law of GLib's escaping the links rely on: markup is inert. *)
Class MarkupLaws : Prop := {
  escape_inert : ∀ s c, c ∈ ["<"; ">"; "034"]%char → str_mem c (markup_escape_text s) = false;
}.

Definition http : list string := ["h"; "t"; "t"; "p"; ":"; "/"; "/"].
Definition https : list string := ["h"; "t"; "t"; "p"; "s"; ":"; "/"; "/"].

Lemma has_prefix_app p cs : has_prefix p cs = true → cs = p ++ drop (length p) cs.
Proof.
  revert cs; induction p as [|x p IH]; intros cs; [done|]. destruct cs as [|c cs]; [done|].
  cbn. intros [->%bool_decide_eq_true H]%andb_prop. by rewrite <-IH.
Qed.

Lemma drop_take_while {A} (p : A → bool) l : drop (length (take_while p l)) l = drop_while p l.
Proof. induction l as [|x l IH]; [done|]. cbn. by destruct (p x). Qed.

Lemma url_match_spec prev cs m :
  url_match prev cs = Some m →
  ∃ scheme run, (scheme = http ∨ scheme = https) ∧ m = scheme ++ run ∧ run ≠ [] ∧
    Forall (λ c, url_char c = true) run ∧ cs = m ++ drop (length m) cs.
Proof.
  unfold url_match. fold http https. destruct (default _ _); [done|].
  assert (H : ∀ scheme, has_prefix scheme cs = true →
    match take_while url_char (drop (length scheme) cs) with [] => None | _ =>
      Some (scheme ++ take_while url_char (drop (length scheme) cs)) end = Some m →
    ∃ run, m = scheme ++ run ∧ run ≠ [] ∧ Forall (λ c, url_char c = true) run ∧
      cs = m ++ drop (length m) cs).
  { intros scheme Hp Hm. set (run := take_while url_char (drop (length scheme) cs)) in *.
    exists run. destruct run as [|c r] eqn:Hr; [done|]. rewrite <-Hr in *. injection Hm as <-.
    split; [done|]. split; [by rewrite Hr|]. split; [apply take_while_all|].
    rewrite length_app, <-drop_drop. apply has_prefix_app in Hp. rewrite Hp at 1.
    rewrite <-app_assoc. f_equal. unfold run. by rewrite drop_take_while, take_drop_while. }
  destruct (has_prefix https cs) eqn:H2; [|destruct (has_prefix http cs) eqn:H1; [|done]];
    intros Hm; [exists https|exists http]; destruct (H _ ltac:(eassumption) Hm) as (run&?);
    exists run; tauto.
Qed.

Lemma rstrip_punct_app l x r :
  trailing_punct x = false → rstrip_punct (l ++ x :: r) = l ++ x :: rstrip_punct r.
Proof.
  intros Hx. unfold rstrip_punct. rewrite reverse_app, reverse_cons, <-app_assoc. cbn [app].
  set (q := reverse r).
  assert (H : drop_while trailing_punct (q ++ x :: reverse l) = drop_while trailing_punct q ++ x :: reverse l).
  { clearbody q. induction q as [|y q IH]; cbn; [by rewrite Hx|]. by destruct (trailing_punct y). }
  rewrite H, reverse_app, reverse_cons, reverse_involutive, <-app_assoc. done.
Qed.

Lemma rstrip_punct_prefix l : l = rstrip_punct l ++ drop (length (rstrip_punct l)) l.
Proof.
  unfold rstrip_punct. set (q := reverse l).
  assert (Hl : l = reverse (drop_while trailing_punct q) ++ reverse (take_while trailing_punct q)).
  { rewrite <-reverse_app, take_drop_while. unfold q. by rewrite reverse_involutive. }
  set (l1 := reverse (drop_while trailing_punct q)) in *. rewrite Hl. by rewrite drop_app_length.
Qed.

(** What may become a link: a scheme and a run of URL characters that does
    not end in punctuation. *)
Definition url_ok (cs : list string) : Prop :=
  ∃ scheme run, (scheme = http ∨ scheme = https) ∧ cs = scheme ++ run ∧
    Forall (λ c, url_char c = true) run ∧ (∀ c, last run = Some c → trailing_punct c = false).
Definition segment_ok (s : segment) : Prop := match s with Plain _ => True | Link cs => url_ok cs end.

Lemma url_stripped prev cs m : url_match prev cs = Some m → url_ok (rstrip_punct m).
Proof.
  intros (scheme&run&Hs&->&_&Hrun&_)%url_match_spec. exists scheme, (rstrip_punct run).
  split; [done|]. split_and!.
  - destruct Hs as [-> | ->].
    + exact (rstrip_punct_app ["h"; "t"; "t"; "p"; ":"; "/"] "/" run eq_refl).
    + exact (rstrip_punct_app ["h"; "t"; "t"; "p"; "s"; ":"; "/"] "/" run eq_refl).
  - rewrite (rstrip_punct_prefix run) in Hrun. by apply Forall_app in Hrun as [? _].
  - intros c. unfold rstrip_punct. rewrite last_reverse.
    destruct (drop_while trailing_punct (reverse run)) as [|x l] eqn:Hd; [done|].
    apply drop_while_head in Hd. by intros [= <-].
Qed.

Lemma segments_spec fuel prev pending cs :
  concat (raw <$> segments fuel prev pending cs) = pending ++ cs ∧
  Forall segment_ok (segments fuel prev pending cs).
Proof.
  revert prev pending cs; induction fuel as [|fuel IH]; intros prev pending cs; cbn [segments].
  { cbn. rewrite app_nil_r. by repeat constructor. }
  destruct cs as [|c cs]; [cbn; by repeat constructor|].
  destruct (url_match prev (c :: cs)) as [m|] eqn:Hm.
  - pose proof (url_stripped _ _ _ Hm) as Hok. pose proof (rstrip_punct_prefix m) as Hpre.
    apply url_match_spec in Hm as (_&_&_&_&_&_&Hcs).
    destruct (rstrip_punct m) as [|u us] eqn:Hu.
    + destruct (IH (last m) (pending ++ m) (drop (length m) (c :: cs))) as [H1 H2].
      split; [|done]. by rewrite H1, <-app_assoc, <-Hcs.
    + rewrite <-Hu in *. destruct (IH (last m) (drop (length (rstrip_punct m)) m) (drop (length m) (c :: cs))) as [H1 H2].
      split; [|by repeat constructor]. cbn [fmap list_fmap concat raw]. rewrite H1.
      rewrite (app_assoc (rstrip_punct m)), <-Hpre. by rewrite <-Hcs.
  - destruct (IH (Some c) (pending ++ [c]) cs) as [H1 H2]. split; [|done].
    by rewrite H1, <-app_assoc.
Qed.

(** More fuel changes nothing: a round takes at least one character. *)
Lemma segments_fuel fuel prev pending cs :
  (length cs <= fuel)%nat → segments fuel prev pending cs = segments (length cs) prev pending cs.
Proof.
  remember (length cs) as n eqn:Hn. revert fuel prev pending cs Hn.
  induction n as [n IH] using lt_wf_ind; intros fuel prev pending cs -> Hf.
  destruct fuel as [|fuel]; [by destruct cs; [|cbn in Hf; lia]|].
  destruct cs as [|c cs]; [cbn; by rewrite app_nil_r|]. cbn [length segments].
  assert (Hrec : ∀ pr pe rest, (length rest <= length cs)%nat →
    segments fuel pr pe rest = segments (length cs) pr pe rest).
  { intros pr pe rest Hr. cbn [length] in Hf, IH.
    rewrite (IH (length rest) ltac:(lia) fuel) by lia.
    by rewrite (IH (length rest) ltac:(lia) (length cs)) by lia. }
  destruct (url_match prev (c :: cs)) as [m|] eqn:Hm; [|by apply Hrec].
  apply url_match_spec in Hm as (scheme&run&Hs&->&_).
  assert (Hlen : (length (drop (length (scheme ++ run)) (c :: cs)) <= length cs)%nat)
    by (rewrite length_drop, length_app; destruct Hs as [-> | ->]; cbn; lia).
  destruct (rstrip_punct _); by rewrite Hrec.
Qed.

Fixpoint str_count (c : ascii) (s : string) : nat :=
  match s with "" => 0%nat | String a s => ((if decide (a = c) then 1 else 0) + str_count c s)%nat end.
Definition links (segs : list segment) : nat :=
  length (List.filter (λ s, match s with Link _ => true | Plain _ => false end) segs).

Lemma str_count_app c s t : str_count c (s +:+ t) = (str_count c s + str_count c t)%nat.
Proof. induction s as [|a s IH]; [done|]. rewrite str_app_cons. cbn. rewrite IH. lia. Qed.

Lemma str_count_none c s : str_mem c s = false → str_count c s = 0%nat.
Proof.
  induction s as [|a s IH]; [done|]. cbn. intros [Ha Hs]%orb_false_iff.
  apply bool_decide_eq_false in Ha. by rewrite decide_False, IH by done.
Qed.

Lemma render_tags `{!MarkupLaws} segs :
  str_count "<"%char (sconcat (render <$> segs)) = (2 * links segs)%nat.
Proof.
  assert (He : ∀ s, str_count "<"%char (markup_escape_text s) = 0%nat)
    by (intros s; apply str_count_none, escape_inert; set_solver).
  induction segs as [|s segs IH]; [done|].
  change (sconcat (render <$> s :: segs)) with (render s +:+ sconcat (render <$> segs)).
  rewrite str_count_app, IH. destruct s as [cs|cs]; unfold links; cbn [render List.filter length].
  - by rewrite He.
  - rewrite !str_count_app, !He.
    change (str_count "<" "<a href=") with 1%nat. change (str_count "<" (String "034" "")) with 0%nat.
    change (str_count "<" ">") with 0%nat. change (str_count "<" "</a>") with 1%nat.
    set (n := length _). lia.
Qed.

(** C37: A message becomes markup without losing or repeating a character: it
    is cut into plain runs, escaped, and links, each an anchor around a run
    that starts with [http://] or [https://], has no white space, quote or
    angle bracket and does not end in punctuation. The only tags of the
    result are those anchors, whatever the sender typed. *)
Theorem linkify_spec `{!MarkupLaws} text :
  ∃ segs, linkify text = sconcat (render <$> segs) ∧
    sconcat (concat (raw <$> segs)) = text ∧ Forall segment_ok segs ∧
    str_count "<"%char (linkify text) = (2 * links segs)%nat.
Proof.
  exists (segments (length (uchars text)) None [] (uchars text)).
  destruct (segments_spec (length (uchars text)) None [] (uchars text)) as [Hraw Hok].
  split; [done|]. split; [by rewrite Hraw, app_nil_l, sconcat_uchars|]. split; [done|].
  apply render_tags.
Qed.
End LinkifyProps.

(** *** Placement *)

(** How much of the stretch [x, x+w] lies in [ax, ax+aw]. *)
Definition overlap (x w ax aw : Z) : Z := Z.min (x + w) (ax + aw) - Z.max x ax.

Lemma overlap_kept x w ax aw margin :
  0 <= margin → ax - w + margin <= x <= ax + aw - margin →
  Z.min margin (Z.min w aw) <= overlap x w ax aw.
Proof. unfold overlap. lia. Qed.

Lemma overlap_clamped x w ax aw :
  0 <= w → 0 <= aw → Z.min w aw <= overlap (Z.min (Z.max x ax) (ax + Z.max 0 (aw - w))) w ax aw.
Proof. unfold overlap. lia. Qed.

(** A window put back at its saved corner shows, on some monitor, at
    least [margin] pixels of its width and of its height (or the whole of
    whichever of window and monitor is smaller); a corner that already shows
    as much is left where it is. *)
Theorem clamp_visible x y w h areas margin :
  areas ≠ [] → 0 <= margin → 0 <= w → 0 <= h → Forall (λ a, 0 <= a_w a ∧ 0 <= a_h a) areas →
  let '(cx, cy) := clamp_to_workarea x y w h areas margin in
  (∃ a, a ∈ areas ∧ Z.min margin (Z.min w (a_w a)) <= overlap cx w (a_x a) (a_w a) ∧
    Z.min margin (Z.min h (a_h a)) <= overlap cy h (a_y a) (a_h a)) ∧
  (existsb (on_area x y w h margin) areas = true → (cx, cy) = (x, y)).
Proof.
  intros Hne Hm Hw Hh Hall. unfold clamp_to_workarea. destruct areas as [|a0 areas]; [done|].
  destruct (existsb _ _) eqn:Hex.
  - split; [|done]. apply existsb_exists in Hex as (a&Ha&Hon). exists a.
    split; [by apply list_elem_of_In|]. unfold on_area in Hon.
    rewrite !andb_true_iff, !Z.leb_le in Hon. split; apply overlap_kept; lia.
  - split; [|done]. exists a0. split; [left|]. apply Forall_cons in Hall as [[? ?] _].
    pose proof (overlap_clamped x w (a_x a0) (a_w a0)). pose proof (overlap_clamped y h (a_y a0) (a_h a0)).
    lia.
Qed.

(** *** Sounds *)

(** The calls of a session, oldest first: the kind, whether it is forced, and
    the clock. What is played, with the times. *)
Fixpoint play_all (s : sound_system) (last : Z) (calls : list (string * bool * Z)) : list (bool * Z) :=
  match calls with
  | [] => []
  | (kind, force, now) :: calls =>
    let '(played, last) := play_notification_sound s kind force now last in
    (if played is Some _ then [(force, now)] else []) ++ play_all s last calls
  end.

Fixpoint spaced (last : Z) (l : list (bool * Z)) : Prop :=
  match l with
  | [] => True
  | (force, now) :: l => (force = false → last + SOUND_MIN_GAP <= now) ∧ spaced now l
  end.

(** However often messages arrive, a sound that is not forced is played
    at least two seconds after the one before it; and the choice [off], or a
    choice that does not exist, plays nothing. *)
Theorem sounds_spaced s last calls :
  spaced last (play_all s last calls) ∧
  (Forall (λ c, c.1.1 = "off" ∨ c.1.1 ∉ SOUND_OPTIONS) calls → play_all s last calls = []).
Proof.
  revert last; induction calls as [|[[kind force] now] calls IH]; intros last; [done|].
  cbn [play_all]. unfold play_notification_sound.
  destruct (negb _ || _) eqn:Hoff.
  - cbn. destruct (IH last) as [H1 H2]. split; [done|]. intros [_ Hc]%Forall_cons. by apply H2.
  - apply orb_false_iff in Hoff as [Hin%negb_false_iff%bool_decide_eq_true Hne%bool_decide_eq_false].
    assert (Hno : ¬ Forall (λ c : string * bool * Z, c.1.1 = "off" ∨ c.1.1 ∉ SOUND_OPTIONS)
      ((kind, force, now) :: calls)) by (intros [[?|?] _]%Forall_cons; done).
    destruct (negb force && _) eqn:Hgap; (split; [|by intros ?]); cbn; [apply IH|].
    split; [|apply IH]. intros ->. cbn in Hgap. unfold SOUND_MIN_GAP in *. lia.
Qed.

(** ** Witnesses *)

Section DesktopWitness.
Local Instance dsk_markup : Markup := {|
  markup_escape_text s := str_filter (λ a, negb (bool_decide (a ∈ ["<"; ">"; "034"]%char))) s;
  word_beyond_ascii _ := false |}.

Lemma str_filter_no_mem p c s : p c = false → str_mem c (str_filter p s) = false.
Proof.
  intros Hc. induction s as [|a s IH]; [done|]. cbn. destruct (p a) eqn:Ha; [|done]. cbn.
  rewrite IH, orb_false_r. apply bool_decide_eq_false. by intros ->; congruence.
Qed.

Local Instance dsk_laws : MarkupLaws.
Proof.
  split. intros s c Hc. apply str_filter_no_mem. by rewrite bool_decide_eq_true_2.
Qed.

Example linkify_spec_witness :
  linkify "see http://x.org/a, ok"
    = "see <a href=" +:+ String "034" "http://x.org/a" +:+ String "034" ">http://x.org/a</a>, ok" ∧
  ∃ segs, linkify "see http://x.org/a, ok" = sconcat (render <$> segs) ∧
    Forall segment_ok segs.
Proof.
  split; [vm_compute; reflexivity|].
  destruct (linkify_spec "see http://x.org/a, ok") as (segs&H1&_&H2&_). exists segs. split; assumption.
Defined.

Example sanitize_path : sanitize_filename (Some "../../etc/pass wd") = "etcpass wd".
Proof. vm_compute. reflexivity. Qed.

Example clamp_visible_witness :
  clamp_to_workarea 5000 20 800 600 [Area 0 0 1920 1080] 40 = (1120, 20) ∧
  Z.min 40 (Z.min 800 1920) <= overlap 1120 800 0 1920.
Proof.
  split; [reflexivity|].
  destruct (clamp_visible 5000 20 800 600 [Area 0 0 1920 1080] 40) as [(a&Ha&H&_) _];
    [done|lia|lia|lia|repeat constructor; cbn; lia|].
  apply list_elem_of_singleton in Ha as ->. exact H.
Defined.
End DesktopWitness.
