(* ===== verification/Themes.v ===== *)
(** * gtkui.py: the colour themes

    The palettes, the choice of the one in use and the style sheet built from
    it (lines 118 to 446, and [apply_theme]). *)

From S2P Require Import Prelude PyStr Codec Json.
From Stdlib Require Import Ascii.

(** ** Palettes *)

Definition palette_dark : list (string * json) :=
  [("name", JStr "Aimless Dark"); ("bg", JStr "#191b22"); ("header", JStr "#14161d");
   ("surface", JStr "#1e212b"); ("sidebar", JStr "#21242e"); ("sidebar_hover", JStr "#262a35");
   ("sidebar_selected", JStr "#323748"); ("button", JStr "#262a35");
   ("button_hover", JStr "#2e3240"); ("button_active", JStr "#33363f");
   ("border", JStr "#3a3e4a"); ("border_dark", JStr "#0d0e13"); ("sep", JStr "#2a2d37");
   ("text", JStr "#e8eaf0"); ("text2", JStr "#dfe3ec"); ("text_bright", JStr "#f2f4f8");
   ("muted", JStr "#9aa0ad"); ("muted2", JStr "#aab0bd"); ("subtitle", JStr "#8c8c8c");
   ("bubble_in", JStr "#31343d"); ("bubble_in_fg", JStr "#e8eaf0");
   ("bubble_out", JStr "#8ab4f8"); ("bubble_out_fg", JStr "#10131a");
   ("out_link", JStr "#0b3d91"); ("badge_bg", JStr "#7fa8f0"); ("badge_fg", JStr "#10131a");
   ("focus", JStr "#4a5060"); ("log_text", JStr "#c8cdd8"); ("away_bg", JStr "#3a3020");
   ("away_border", JStr "#5a4a28"); ("away_text", JStr "#f5d78e");
   ("away_icon", JStr "#f5d36b"); ("chip", JStr "#22252e"); ("chip_hover", JStr "#2c313d");
   ("online", JStr "#a6e3a1"); ("away", JStr "#fab387"); ("offline", JStr "#6c7086");
   ("danger", JStr "#f38ba8"); ("link", JStr "#8ab4f8")].

Definition palette_mocha : list (string * json) :=
  [("name", JStr "Mocha"); ("mono", JBool false); ("bg", JStr "#1e1e2e");
   ("header", JStr "#11111b"); ("surface", JStr "#181825"); ("sidebar", JStr "#181825");
   ("sidebar_hover", JStr "#1e1e2e"); ("sidebar_selected", JStr "#313244");
   ("button", JStr "#313244"); ("button_hover", JStr "#45475a");
   ("button_active", JStr "#45475a"); ("border", JStr "#45475a");
   ("border_dark", JStr "#11111b"); ("sep", JStr "#313244"); ("text", JStr "#cdd6f4");
   ("text2", JStr "#cdd6f4"); ("text_bright", JStr "#ffffff"); ("muted", JStr "#7f849c");
   ("muted2", JStr "#6c7086"); ("subtitle", JStr "#6c7086"); ("bubble_in", JStr "#313244");
   ("bubble_in_fg", JStr "#cdd6f4"); ("bubble_out", JStr "#89b4fa");
   ("bubble_out_fg", JStr "#1e1e2e"); ("out_link", JStr "#11111b");
   ("badge_bg", JStr "#89b4fa"); ("badge_fg", JStr "#11111b"); ("focus", JStr "#6c7086");
   ("log_text", JStr "#cdd6f4"); ("away_bg", JStr "#313244"); ("away_border", JStr "#fab387");
   ("away_text", JStr "#f9e2af"); ("away_icon", JStr "#f9e2af"); ("chip", JStr "#313244");
   ("chip_hover", JStr "#45475a"); ("online", JStr "#a6e3a1"); ("away", JStr "#fab387");
   ("offline", JStr "#6c7086"); ("danger", JStr "#f38ba8"); ("link", JStr "#89b4fa")].

Definition palette_nord : list (string * json) :=
  [("name", JStr "Nord"); ("mono", JBool false); ("bg", JStr "#2e3440");
   ("header", JStr "#242933"); ("surface", JStr "#2e3440"); ("sidebar", JStr "#2e3440");
   ("sidebar_hover", JStr "#3b4252"); ("sidebar_selected", JStr "#434c5e");
   ("button", JStr "#3b4252"); ("button_hover", JStr "#434c5e");
   ("button_active", JStr "#4c566a"); ("border", JStr "#4c566a");
   ("border_dark", JStr "#1b1f27"); ("sep", JStr "#434c5e"); ("text", JStr "#eceff4");
   ("text2", JStr "#e5e9f0"); ("text_bright", JStr "#ffffff"); ("muted", JStr "#7b8ea1");
   ("muted2", JStr "#9caabb"); ("subtitle", JStr "#4c566a"); ("bubble_in", JStr "#3b4252");
   ("bubble_in_fg", JStr "#eceff4"); ("bubble_out", JStr "#88c0d0");
   ("bubble_out_fg", JStr "#2e3440"); ("out_link", JStr "#2e3440");
   ("badge_bg", JStr "#88c0d0"); ("badge_fg", JStr "#2e3440"); ("focus", JStr "#4c566a");
   ("log_text", JStr "#d8dee9"); ("away_bg", JStr "#3b4252"); ("away_border", JStr "#d08770");
   ("away_text", JStr "#ebcb8b"); ("away_icon", JStr "#ebcb8b"); ("chip", JStr "#3b4252");
   ("chip_hover", JStr "#434c5e"); ("online", JStr "#a3be8c"); ("away", JStr "#ebcb8b");
   ("offline", JStr "#4c566a"); ("danger", JStr "#bf616a"); ("link", JStr "#88c0d0")].

Definition palette_tokyo : list (string * json) :=
  [("name", JStr "Tokyo Night"); ("mono", JBool false); ("bg", JStr "#1a1b26");
   ("header", JStr "#16161e"); ("surface", JStr "#1f2335"); ("sidebar", JStr "#1a1b26");
   ("sidebar_hover", JStr "#24283b"); ("sidebar_selected", JStr "#292e42");
   ("button", JStr "#24283b"); ("button_hover", JStr "#292e42");
   ("button_active", JStr "#3b4261"); ("border", JStr "#3b4261");
   ("border_dark", JStr "#0f0f14"); ("sep", JStr "#292e42"); ("text", JStr "#c0caf5");
   ("text2", JStr "#c0caf5"); ("text_bright", JStr "#ffffff"); ("muted", JStr "#565f89");
   ("muted2", JStr "#737aa2"); ("subtitle", JStr "#565f89"); ("bubble_in", JStr "#24283b");
   ("bubble_in_fg", JStr "#c0caf5"); ("bubble_out", JStr "#7aa2f7");
   ("bubble_out_fg", JStr "#1a1b26"); ("out_link", JStr "#1a1b26");
   ("badge_bg", JStr "#7aa2f7"); ("badge_fg", JStr "#1a1b26"); ("focus", JStr "#565f89");
   ("log_text", JStr "#a9b1d6"); ("away_bg", JStr "#24283b"); ("away_border", JStr "#e0af68");
   ("away_text", JStr "#e0af68"); ("away_icon", JStr "#e0af68"); ("chip", JStr "#24283b");
   ("chip_hover", JStr "#292e42"); ("online", JStr "#9ece6a"); ("away", JStr "#e0af68");
   ("offline", JStr "#414868"); ("danger", JStr "#f7768e"); ("link", JStr "#7aa2f7")].

Definition palette_latte : list (string * json) :=
  [("name", JStr "Latte (light)"); ("mono", JBool false); ("bg", JStr "#eff1f5");
   ("header", JStr "#e6e9ef"); ("surface", JStr "#ffffff"); ("sidebar", JStr "#e6e9ef");
   ("sidebar_hover", JStr "#dce0e8"); ("sidebar_selected", JStr "#ccd0da");
   ("button", JStr "#ccd0da"); ("button_hover", JStr "#bcc0cc");
   ("button_active", JStr "#acb0be"); ("border", JStr "#bcc0cc");
   ("border_dark", JStr "#dce0e8"); ("sep", JStr "#ccd0da"); ("text", JStr "#4c4f69");
   ("text2", JStr "#4c4f69"); ("text_bright", JStr "#11111b"); ("muted", JStr "#7c7f93");
   ("muted2", JStr "#9ca0b0"); ("subtitle", JStr "#8c8fa1"); ("bubble_in", JStr "#e6e9ef");
   ("bubble_in_fg", JStr "#4c4f69"); ("bubble_out", JStr "#1e66f5");
   ("bubble_out_fg", JStr "#eff1f5"); ("out_link", JStr "#eff1f5");
   ("badge_bg", JStr "#1e66f5"); ("badge_fg", JStr "#eff1f5"); ("focus", JStr "#9ca0b0");
   ("log_text", JStr "#4c4f69"); ("away_bg", JStr "#f2e9de"); ("away_border", JStr "#df8e1d");
   ("away_text", JStr "#df8e1d"); ("away_icon", JStr "#df8e1d"); ("chip", JStr "#e6e9ef");
   ("chip_hover", JStr "#dce0e8"); ("online", JStr "#40a02b"); ("away", JStr "#df8e1d");
   ("offline", JStr "#9ca0b0"); ("danger", JStr "#d20f39"); ("link", JStr "#1e66f5")].

Definition palette_dawn : list (string * json) :=
  [("name", JStr "Dawn (light)"); ("mono", JBool false); ("bg", JStr "#faf4ed");
   ("header", JStr "#f2e9de"); ("surface", JStr "#fffaf3"); ("sidebar", JStr "#f2e9de");
   ("sidebar_hover", JStr "#e4dfde"); ("sidebar_selected", JStr "#dfdad9");
   ("button", JStr "#e4dfde"); ("button_hover", JStr "#dfdad9");
   ("button_active", JStr "#cecacd"); ("border", JStr "#cecacd");
   ("border_dark", JStr "#e4dfde"); ("sep", JStr "#dfdad9"); ("text", JStr "#575279");
   ("text2", JStr "#575279"); ("text_bright", JStr "#26233a"); ("muted", JStr "#9893a5");
   ("muted2", JStr "#797593"); ("subtitle", JStr "#9893a5"); ("bubble_in", JStr "#f2e9de");
   ("bubble_in_fg", JStr "#575279"); ("bubble_out", JStr "#907aa9");
   ("bubble_out_fg", JStr "#faf4ed"); ("out_link", JStr "#faf4ed");
   ("badge_bg", JStr "#907aa9"); ("badge_fg", JStr "#faf4ed"); ("focus", JStr "#9893a5");
   ("log_text", JStr "#575279"); ("away_bg", JStr "#f4ede8"); ("away_border", JStr "#ea9d34");
   ("away_text", JStr "#ea9d34"); ("away_icon", JStr "#ea9d34"); ("chip", JStr "#f2e9de");
   ("chip_hover", JStr "#e4dfde"); ("online", JStr "#56949f"); ("away", JStr "#ea9d34");
   ("offline", JStr "#9893a5"); ("danger", JStr "#b4637a"); ("link", JStr "#907aa9")].

Definition palette_matrix : list (string * json) :=
  [("name", JStr "Matrix"); ("mono", JBool true); ("bg", JStr "#000000");
   ("header", JStr "#001100"); ("surface", JStr "#001a0d"); ("sidebar", JStr "#001100");
   ("sidebar_hover", JStr "#032006"); ("sidebar_selected", JStr "#063a0d");
   ("button", JStr "#03310f"); ("button_hover", JStr "#064a15");
   ("button_active", JStr "#0a5a1e"); ("border", JStr "#0a5a1e");
   ("border_dark", JStr "#001100"); ("sep", JStr "#03310f"); ("text", JStr "#b8ffb8");
   ("text2", JStr "#b8ffb8"); ("text_bright", JStr "#e8ffe8"); ("muted", JStr "#0a8a2a");
   ("muted2", JStr "#0a8a2a"); ("subtitle", JStr "#0a8a2a"); ("bubble_in", JStr "#071f0d");
   ("bubble_in_fg", JStr "#b8ffb8"); ("bubble_out", JStr "#00ff41");
   ("bubble_out_fg", JStr "#001100"); ("out_link", JStr "#00260a");
   ("badge_bg", JStr "#00ff41"); ("badge_fg", JStr "#001100"); ("focus", JStr "#0a8a2a");
   ("log_text", JStr "#00c22e"); ("away_bg", JStr "#1a1200"); ("away_border", JStr "#ffb000");
   ("away_text", JStr "#ffb000"); ("away_icon", JStr "#ffb000"); ("chip", JStr "#03310f");
   ("chip_hover", JStr "#064a15"); ("online", JStr "#00ff41"); ("away", JStr "#ffb000");
   ("offline", JStr "#1f5a1f"); ("danger", JStr "#ff2a2a"); ("link", JStr "#39ff88")].

Definition palette_amber : list (string * json) :=
  [("name", JStr "Amber CRT"); ("mono", JBool true); ("bg", JStr "#0a0700");
   ("header", JStr "#120d00"); ("surface", JStr "#1a1200"); ("sidebar", JStr "#120d00");
   ("sidebar_hover", JStr "#241a00"); ("sidebar_selected", JStr "#332500");
   ("button", JStr "#241a00"); ("button_hover", JStr "#332500");
   ("button_active", JStr "#4a3600"); ("border", JStr "#5a4200");
   ("border_dark", JStr "#120d00"); ("sep", JStr "#332500"); ("text", JStr "#ffc95c");
   ("text2", JStr "#ffc95c"); ("text_bright", JStr "#ffe9b0"); ("muted", JStr "#a8791f");
   ("muted2", JStr "#a8791f"); ("subtitle", JStr "#a8791f"); ("bubble_in", JStr "#241a00");
   ("bubble_in_fg", JStr "#ffc95c"); ("bubble_out", JStr "#ffb000");
   ("bubble_out_fg", JStr "#1a1200"); ("out_link", JStr "#4a3000");
   ("badge_bg", JStr "#ffb000"); ("badge_fg", JStr "#1a1200"); ("focus", JStr "#a8791f");
   ("log_text", JStr "#d9a23a"); ("away_bg", JStr "#241a00"); ("away_border", JStr "#ffb000");
   ("away_text", JStr "#ffe9b0"); ("away_icon", JStr "#ffb000"); ("chip", JStr "#241a00");
   ("chip_hover", JStr "#332500"); ("online", JStr "#ffb000"); ("away", JStr "#ff8c00");
   ("offline", JStr "#5a4200"); ("danger", JStr "#ff5544"); ("link", JStr "#ffd27f")].

Definition THEMES : list (string * list (string * json)) :=
  [("dark", palette_dark);
   ("mocha", palette_mocha);
   ("nord", palette_nord);
   ("tokyo", palette_tokyo);
   ("latte", palette_latte);
   ("dawn", palette_dawn);
   ("matrix", palette_matrix);
   ("amber", palette_amber)].

Definition THEME_ENTRIES : list (string * string * string) :=
  [("system", "System", "Match the desktop");
   ("dark", "Aimless Dark", "Default");
   ("mocha", "Mocha", "Catppuccin · dark");
   ("nord", "Nord", "Arctic · dark");
   ("tokyo", "Tokyo Night", "Deep blue · dark");
   ("latte", "Latte", "Catppuccin · light");
   ("dawn", "Dawn", "Rosé Pine · light");
   ("matrix", "Matrix", "Hacker green · monospace");
   ("amber", "Amber CRT", "Phosphor amber · monospace")].

(** ** The palette in use *)

(** The desktop's settings: the theme's name and the dark preference, or
    none when there is no desktop to ask. *)
Definition detect_system_palette (settings : option (string * bool)) : string :=
  match settings with
  | None => "dark"
  | Some (name, prefer_dark) =>
    let name := lower name in
    if prefer_dark || existsb (λ k, contains k name) ["dark"; "black"; "night"; "midnight"]
    then "dark" else "latte"
  end.

Definition get_theme (settings : option (string * bool)) (name : string) : result (list (string * json)) :=
  let name := if bool_decide (name = "system") || negb (dict_mem name THEMES)
              then detect_system_palette settings else name in
  of_option (KeyError name) (dict_get name THEMES).

(** [AIMLESS_THEME], when it names a theme or [system], wins over the choice. *)
Definition env_theme (env : gmap string string) : option string :=
  match env !! "AIMLESS_THEME" with
  | Some v => if dict_mem v THEMES || bool_decide (v = "system") then Some v else None
  | None => None
  end.
Definition CURRENT_THEME (env : gmap string string) : string := default "system" (env_theme env).

(** [set_theme]: the new [CURRENT_THEME] and [C]. *)
Definition set_theme (settings : option (string * bool)) (name : string)
    : result (string * list (string * json)) :=
  C ← get_theme settings name; Ok (name, C).
(** [name not in THEMES]: a list or an object has no hash to look up. *)
Definition hashable (j : json) : bool := match j with JArr _ | JObj _ => false | _ => true end.
(** The theme [apply_theme] sets; the choice comes as it was saved. *)
Definition apply_theme (env : gmap string string) (settings : option (string * bool)) (name : json)
    : result (string * list (string * json)) :=
  let name := match env_theme env with Some v => JStr v | None => name end in
  name ← match name with
         | JStr t => Ok (if negb (bool_decide (t = "system")) && negb (dict_mem t THEMES) then "system" else t)
         | _ => if hashable name then Ok "system" else Raise TypeError
         end;
  set_theme settings name.

(** ** The style sheet *)

(** The pieces of the template: text, the colour of a role, the font rule of
    a monospace theme. *)
Inductive piece := Lit (s : string) | Role (key : string) | Mono.

(** The template, line by line. *)
Definition css_lines : list (list piece) :=
  [[];
   [Lit "* { "; Mono; Lit " }"];
   [Lit "headerbar {"];
   [Lit "    background-image: none;"];
   [Lit "    background-color: "; Role "header"; Lit ";"];
   [Lit "    color: "; Role "text"; Lit ";"];
   [Lit "    border-bottom: 1px solid "; Role "border_dark"; Lit ";"];
   [Lit "    min-height: 40px;"];
   [Lit "}"];
   [];
   [Lit ".aimless-window { background-image: none; background-color: "; Role "bg";
    Lit "; color: "; Role "text"; Lit "; }"];
   [Lit ".aimless-window label { color: "; Role "text"; Lit "; }"];
   [Lit ".aimless-window .muted { color: "; Role "muted"; Lit "; }"];
   [];
   [Lit ".aimless-window button {"];
   [Lit "    background-image: none;"];
   [Lit "    background-color: "; Role "button"; Lit ";"];
   [Lit "    color: "; Role "text2"; Lit ";"];
   [Lit "    border: 1px solid "; Role "border"; Lit ";"];
   [Lit "    border-radius: 8px;"];
   [Lit "}"];
   [Lit ".aimless-window button:hover { background-color: "; Role "button_hover"; Lit "; }"];
   [Lit ".aimless-window button:active { background-color: "; Role "button_active"; Lit "; }"];
   [Lit ".aimless-window button:checked { background-color: "; Role "button_active"; Lit "; }"];
   [Lit ".aimless-window button:disabled { opacity: 0.5; }"];
   [];
   [Lit ".aimless-send { padding: 10px 20px; }"];
   [];
   [Lit "stackswitcher { background-color: "; Role "surface"; Lit "; border-radius: 8px; }"];
   [Lit "stackswitcher > button {"];
   [
    Lit "    background-image: none; background-color: transparent; border: none; box-shadow: none;"];
   [Lit "    color: "; Role "muted2";
    Lit "; padding: 5px 14px; margin: 2px; border-radius: 6px; outline: none;"];
   [Lit "}"];
   [Lit "stackswitcher > button:checked { background-color: "; Role "button_active";
    Lit "; color: "; Role "text_bright"; Lit "; }"];
   [];
   [Lit "menu { background-color: "; Role "surface"; Lit "; color: "; Role "text2";
    Lit "; border: 1px solid "; Role "border"; Lit "; border-radius: 6px; }"];
   [Lit "menuitem { color: "; Role "text2"; Lit "; }"];
   [Lit "menuitem:hover { background-color: "; Role "button_active"; Lit "; }"];
   [];
   [Lit ".muted { color: "; Role "muted"; Lit "; font-size: 90%; }"];
   [];
   [Lit ".aimless-sidebar scrolledwindow,"];
   [Lit ".aimless-sidebar list,"];
   [Lit ".aimless-sidebar row { background-color: "; Role "sidebar"; Lit "; }"];
   [Lit ".aimless-sidebar row:hover { background-color: "; Role "sidebar_hover"; Lit "; }"];
   [Lit ".aimless-sidebar row:selected { background-color: "; Role "sidebar_selected"; Lit "; }"];
   [Lit ".aimless-sidebar row label { color: "; Role "text2"; Lit "; }"];
   [];
   [Lit ".aimless-chat row label { color: "; Role "text"; Lit "; }"];
   [Lit ".aimless-chat,"];
   [Lit ".aimless-chat stack,"];
   [Lit ".aimless-chat scrolledwindow,"];
   [Lit ".aimless-chat list,"];
   [Lit ".aimless-chat row { background-color: "; Role "bg"; Lit "; }"];
   [Lit ".aimless-chat separator { background-color: "; Role "sep"; Lit "; min-height: 1px; }"];
   [];
   [Lit ".aimless-bubble { padding: 8px 12px; border-radius: 14px; }"];
   [Lit ".aimless-bubble-in { background-color: "; Role "bubble_in"; Lit "; }"];
   [Lit ".aimless-bubble-out { background-color: "; Role "bubble_out"; Lit "; }"];
   [Lit ".aimless-chat row .aimless-bubble-in { color: "; Role "bubble_in_fg"; Lit "; }"];
   [Lit ".aimless-chat row .aimless-bubble-out { color: "; Role "bubble_out_fg"; Lit "; }"];
   [Lit ".aimless-bubble-out link, .aimless-bubble-out link:visited { color: ";
    Role "out_link"; Lit "; }"];
   [Lit ".aimless-bubble-in link, .aimless-bubble-in link:visited { color: "; Role "link";
    Lit "; }"];
   [];
   [Lit ".aimless-badge {"];
   [Lit "    background-color: "; Role "badge_bg"; Lit "; color: "; Role "badge_fg"; Lit ";"];
   [Lit "    border-radius: 10px; padding: 0 8px; font-size: 85%;"];
   [Lit "}"];
   [];
   [Lit ".aimless-composer-frame { background-color: "; Role "surface";
    Lit "; border: 1px solid "; Role "border"; Lit "; border-radius: 6px; }"];
   [Lit ".aimless-composer-frame textview,"];
   [Lit ".aimless-composer-frame textview text { background-color: transparent; color: ";
    Role "text"; Lit "; caret-color: "; Role "text"; Lit "; }"];
   [];
   [Lit ".aimless-window entry {"];
   [Lit "    background-color: "; Role "surface"; Lit "; color: "; Role "text"; Lit ";"];
   [Lit "    border: 1px solid "; Role "border"; Lit "; border-radius: 6px; padding: 6px 10px;"];
   [Lit "}"];
   [Lit ".aimless-window entry:focus { border-color: "; Role "focus"; Lit "; }"];
   [];
   [Lit ".aimless-log text,"];
   [Lit ".aimless-log textview,"];
   [Lit ".aimless-log textview text { background-color: "; Role "header"; Lit "; color: ";
    Role "log_text"; Lit "; }"];
   [];
   [Lit ".aimless-away-banner {"];
   [Lit "    background-color: mix("; Role "away_border"; Lit ", "; Role "bg"; Lit ", 0.45);"];
   [Lit "    border-top: 1px solid "; Role "away_border"; Lit ";"];
   [Lit "    border-bottom: 1px solid "; Role "away_border"; Lit ";"];
   [Lit "    color: "; Role "text"; Lit ";"];
   [Lit "}"];
   [Lit ".aimless-away-banner image { color: "; Role "away_icon"; Lit "; }"];
   [Lit ".aimless-away-banner button {"];
   [Lit "    background-image: none;"];
   [Lit "    background-color: transparent;"];
   [Lit "    border: 1px solid "; Role "away_border"; Lit ";"];
   [Lit "    color: "; Role "text"; Lit ";"];
   [Lit "}"];
   [Lit ".aimless-away-banner button:hover { background-color: alpha("; Role "away_border";
    Lit ", 0.25); }"];
   [];
   [Lit ".aimless-route-bar { background-color: "; Role "header";
    Lit "; border-top: 1px solid "; Role "sep"; Lit "; color: "; Role "muted2"; Lit "; }"];
   [Lit ".aimless-route-bar image { color: "; Role "muted2"; Lit "; }"];
   [];
   [Lit ".aimless-onboarding {"];
   [Lit "    background-color: "; Role "surface"; Lit ";"];
   [Lit "    border-bottom: 1px solid "; Role "border"; Lit ";"];
   [Lit "}"];
   [Lit ".aimless-onboarding label { color: "; Role "text"; Lit "; }"];
   [];
   [Lit ".aimless-contacts frame {"];
   [Lit "    background-color: "; Role "surface"; Lit ";"];
   [Lit "    border: 1px solid "; Role "border"; Lit ";"];
   [Lit "    border-radius: 6px;"];
   [Lit "}"];
   [Lit ".aimless-contacts frame > label {"];
   [Lit "    color: "; Role "muted2"; Lit ";"];
   [Lit "    background-color: "; Role "bg"; Lit ";"];
   [Lit "    padding: 0 4px;"];
   [Lit "}"];
   [Lit ".aimless-contacts scrolledwindow,"];
   [Lit ".aimless-contacts list,"];
   [Lit ".aimless-contacts row { background-color: "; Role "surface"; Lit "; }"];
   [Lit ".aimless-contacts row:hover { background-color: "; Role "button_hover"; Lit "; }"];
   [Lit ".aimless-contacts row label { color: "; Role "text2"; Lit "; }"];
   [Lit ".aimless-muted { opacity: 0.55; }"];
   [];
   [
    Lit ".aimless-chip { padding: 2px 8px; margin: 1px; border-radius: 11px; background-color: ";
    Role "chip"; Lit "; }"];
   [Lit ".aimless-chip:hover { background-color: "; Role "chip_hover"; Lit "; }"];
   [];
   [Lit ".aimless-jump {"];
   [Lit "    background-color: "; Role "badge_bg"; Lit "; color: "; Role "badge_fg"; Lit ";"];
   [Lit "    border-radius: 14px; padding: 4px 12px;"];
   [Lit "}"];
   []].

Definition piece_css (C : list (string * json)) (p : piece) : result string :=
  match p with
  | Lit s => Ok s
  | Role k => v ← of_option (KeyError k) (dict_get k C); Ok (py_str v)
  | Mono => Ok (if default false (truthy <$> dict_get "mono" C) then "font-family: monospace;" else "")
  end.

Definition build_css (C : list (string * json)) : result string :=
  lines ← map_result (λ l, ps ← map_result (piece_css C) l; Ok (sconcat ps)) css_lines;
  Ok (join (String "010"%char "") lines).

(** ** Properties *)

(** What a palette gives a colour to: all its entries but its name and whether
    it is monospace. *)
Definition is_role (k : string) : bool := bool_decide (k ∉ ["name"; "mono"]).
Definition roles : list string := List.filter is_role palette_dark.*1.

(** [#rrggbb] *)
Definition is_colour (j : json) : bool :=
  match j with
  | JStr (String a s) =>
    bool_decide (a = "#"%char) && str_all is_hex s && (String.length s =? 6)%nat
  | _ => false
  end.

Definition palette_ok (C : list (string * json)) : bool :=
  forallb (λ k, default false (is_colour <$> dict_get k C)) roles &&
  forallb (λ kv, negb (is_role kv.1) || is_colour kv.2) C &&
  forallb (forallb (λ p, match p with
    | Role k => default false (is_colour <$> dict_get k C) | _ => true end)) css_lines.

Lemma themes_ok : forallb (λ t, palette_ok t.2) THEMES = true.
Proof. vm_compute. reflexivity. Qed.

Lemma get_theme_in settings name :
  ∃ n C, get_theme settings name = Ok C ∧ (n, C) ∈ THEMES ∧
    (dict_mem name THEMES = true → name ≠ "system" → n = name).
Proof.
  unfold get_theme.
  set (n := if _ || _ then _ else name).
  assert (Hn : ∃ C, dict_get n THEMES = Some C).
  { unfold n. destruct (bool_decide _); cbn [orb].
    - unfold detect_system_palette. destruct settings as [[t d]|]; [|by eexists].
      destruct (d || _); by eexists.
    - destruct (dict_mem name THEMES) eqn:Hm; cbn [negb].
      + unfold dict_mem in Hm. destruct (dict_get name THEMES) as [C|]; [by exists C|done].
      + unfold detect_system_palette. destruct settings as [[t d]|]; [|by eexists].
        destruct (d || _); by eexists. }
  destruct Hn as [C HC]. exists n, C. rewrite HC. split; [done|].
  split; [by apply dict_get_elem|]. intros Hm Hs. unfold n.
  by rewrite bool_decide_eq_false_2, Hm by done.
Qed.

Lemma map_result_ok {A B} (f : A → result B) l :
  Forall (λ x, ∃ y, f x = Ok y) l → ∃ ys, map_result f l = Ok ys.
Proof.
  induction 1 as [|x l [y Hy] _ [ys Hys]]; [by eexists|]. cbn. rewrite Hy. cbn. rewrite Hys. by eexists.
Qed.

Lemma palette_css C : palette_ok C = true → ∃ css, build_css C = Ok css.
Proof.
  unfold palette_ok. intros [_ H]%andb_prop. unfold build_css.
  assert (Hl : ∃ ls, map_result (λ l, ps ← map_result (piece_css C) l; Ok (sconcat ps)) css_lines = Ok ls).
  { apply map_result_ok, Forall_forall. intros l Hl%list_elem_of_In.
    rewrite forallb_forall in H. specialize (H l Hl). rewrite forallb_forall in H.
    assert (Hps : ∃ ps, map_result (piece_css C) l = Ok ps).
    { apply map_result_ok, Forall_forall. intros p Hp%list_elem_of_In. specialize (H p Hp).
      destruct p as [s|k|]; cbn in *; [by eexists| |by eexists].
      destruct (dict_get k C); [by eexists|done]. }
    destruct Hps as [ps ->]. by eexists. }
  destruct Hl as [ls ->]. by eexists.
Qed.

Lemma theme_palette_ok n C : (n, C) ∈ THEMES → palette_ok C = true.
Proof.
  intros Hin. pose proof themes_ok as H. rewrite forallb_forall in H.
  apply list_elem_of_In in Hin. exact (H (n, C) Hin).
Qed.

Lemma palette_colours C : palette_ok C = true →
  Forall (λ k, ∃ c, dict_get k C = Some c ∧ is_colour c = true) roles ∧
  (∀ k c, (k, c) ∈ C → k ≠ "name" → k ≠ "mono" → is_colour c = true).
Proof.
  unfold palette_ok. intros [[Hroles Hentries]%andb_prop _]%andb_prop. rewrite forallb_forall in Hroles, Hentries. split.
  - apply Forall_forall. intros k Hk%list_elem_of_In. specialize (Hroles k Hk).
    destruct (dict_get k C) as [c|]; [by exists c|done].
  - intros k c Hkc%list_elem_of_In Hk1 Hk2. specialize (Hentries (k, c) Hkc).
    unfold is_role in Hentries. rewrite bool_decide_eq_true_2 in Hentries; [done|]. cbn. set_solver.
Qed.

(** C38: Whatever theme is asked for, a known one, [system], an unknown name or
    any saved value that can be looked up, and whatever the desktop and the
    environment say, a theme is set: the one the environment names, else the one
    asked for if it is known, else [system].  Its palette is that of the theme,
    or for [system] one of the themes'; the style sheet builds from it; and all
    of its roles, the same in every theme, are colours, [#rrggbb].  A saved list
    or object, with no theme in the environment, is a [TypeError]. *)
Theorem theme_total env settings name :
  if hashable name || bool_decide (is_Some (env_theme env)) then
    ∃ n C css, apply_theme env settings name = Ok (n, C) ∧ build_css C = Ok css ∧
      n = default (match name with
                   | JStr t => if dict_mem t THEMES then t else "system"
                   | _ => "system"
                   end) (env_theme env) ∧
      ((n, C) ∈ THEMES ∨ n = "system" ∧ ∃ m, (m, C) ∈ THEMES) ∧
      Forall (λ k, ∃ c, dict_get k C = Some c ∧ is_colour c = true) roles ∧
      (∀ k c, (k, c) ∈ C → k ≠ "name" → k ≠ "mono" → is_colour c = true)
  else apply_theme env settings name = Raise TypeError.
Proof.
  set (n := default (match name with JStr _ => _ | _ => _ end) (env_theme env)).
  assert (Hn : n = "system" ∨ dict_mem n THEMES = true).
  { subst n. unfold env_theme. destruct (env !! _) as [v|]; cbn.
    - destruct (dict_mem v THEMES) eqn:Hv; cbn; [by right|].
      case_bool_decide; [by left|]. cbn. destruct name as [| | |t| |]; try by left.
      destruct (dict_mem t THEMES) eqn:Ht; [by right|by left].
    - destruct name as [| | |t| |]; try by left. destruct (dict_mem t THEMES) eqn:Ht; [by right|by left]. }
  assert (Happ : apply_theme env settings name =
    if hashable name || bool_decide (is_Some (env_theme env)) then set_theme settings n else Raise TypeError).
  { unfold apply_theme. subst n. destruct (env_theme env) as [v|]; cbn in *.
    - rewrite orb_true_r. destruct Hn as [->|Hv]; [done|]. by rewrite Hv, andb_false_r.
    - rewrite orb_false_r. destruct name as [| | |t| |]; try done. cbn.
      destruct (dict_mem t THEMES); [by rewrite andb_false_r|].
      case_bool_decide; subst; done. }
  rewrite Happ. destruct (hashable name || _); [|done].
  destruct (get_theme_in settings n) as (n'&C&HC&Hin&Hname).
  pose proof (theme_palette_ok _ _ Hin) as Hok. destruct (palette_css C Hok) as [css Hcss].
  destruct (palette_colours C Hok) as [Hroles Hentries].
  exists n, C, css. unfold set_theme. rewrite HC. split_and!; [done..| |done|done].
  destruct (decide (n = "system")) as [Hs|Hs]; [right; split; [done|by exists n']|left].
  destruct Hn as [?|Hn]; [done|]. by rewrite <-(Hname Hn Hs).
Qed.

(** Every entry of the preferences menu names a theme or [system]. *)
Lemma theme_entries_known :
  Forall (λ e, e.1.1 = "system" ∨ dict_mem e.1.1 THEMES = true) THEME_ENTRIES.
Proof. repeat constructor; by vm_compute; auto. Qed.
