(* ===== verification/View.v ===== *)
(** * gtkui.py: the state of the messages window

    The threads of the sidebar, the conversation shown, the files in transit
    and what the window tells the user, over the session's store, client and
    world.  Widgets are the texts they carry. *)

From S2P Require Import Prelude PyStr Codec Json Sys Paths Crypto Protocol Store DaemonClient Service Desktop.
From Stdlib Require Import Ascii.
Local Open Scope Z_scope.

(** What [_presence_state] answers: online, away message, client offline. *)
Record presence_state := Presence { ps_online : bool; ps_away : json; ps_client_offline : bool }.

(** An entry of [self.threads]. *)
Record thread := Thread {
  th_is_room : bool;
  th_petname : string;
  th_contact : json;                       (* [None] for a room *)
  th_members : list (string * json);
  th_screen : string;
  th_online : bool;
  th_away : json;
  th_preview : string;
  th_unread : Z;
  th_presence : list (string * presence_state);
}.

(** A row of the conversation shown. *)
Inductive shown :=
| Bubble (outgoing : bool) (text : string) (ts : Z) (sender : option string) (attachment : option json)
| StatusRow (id : nat)
| Note (text : string).

(** A transfer being received, an entry of [_file_bufs]. *)
Record incoming_buf := Buf {
  b_total : Z;
  b_meta : list (string * json);
  b_chunks : gmap Z bytes;
  b_row : option nat;
  b_failed : bool;
}.

(** A sent file whose delivery is followed. The record is shared by all its
    keys in [_pending_files]: the view holds it under an identity. *)
Record tracked := Tracked {
  k_row : nat;
  k_filename : string;
  k_keys : gset (string * Z);
  k_members_total : Z;
}.

Inductive alert := Notified (sender body : string) | Played (b : beep).

(** Work handed to a thread whose result is not waited for. *)
Inductive job :=
| AckAttachment (node tid : string)
| SetBlock (node : string) (blocked : bool)
| AddContact (node : string).

Record view := View {
  v_threads : list (string * thread);
  v_selected : option string;
  v_shown : list shown;
  v_status : gmap nat string;              (* the texts of the status rows alive *)
  v_next : nat;
  v_bubble_status : list (string * string);
  v_file_bufs : list ((string * string) * incoming_buf);
  v_recs : gmap nat tracked;
  v_pending_files : gmap (string * Z) nat;
  v_acked_seen : gset (string * Z);
  v_prefs : list (string * json);
  v_active : bool;                         (* the window has the focus *)
  v_tab : string;                          (* the page shown *)
  v_last_sound : Z;
  v_alerts : list alert;                   (* last first *)
  v_log : list string;                     (* the activity log, last first *)
  v_jobs : list job;                       (* jobs not run yet *)
}.

Definition empty_view : view :=
  View [] None [] ∅ 0 [] [] ∅ ∅ ∅ [] false "messages" 0 [] [] [].

Definition set_threads x v := View x (v_selected v) (v_shown v) (v_status v) (v_next v) (v_bubble_status v)
  (v_file_bufs v) (v_recs v) (v_pending_files v) (v_acked_seen v) (v_prefs v) (v_active v) (v_tab v)
  (v_last_sound v) (v_alerts v) (v_log v) (v_jobs v).
Definition set_selected x v := View (v_threads v) x (v_shown v) (v_status v) (v_next v) (v_bubble_status v)
  (v_file_bufs v) (v_recs v) (v_pending_files v) (v_acked_seen v) (v_prefs v) (v_active v) (v_tab v)
  (v_last_sound v) (v_alerts v) (v_log v) (v_jobs v).
Definition set_shown x v := View (v_threads v) (v_selected v) x (v_status v) (v_next v) (v_bubble_status v)
  (v_file_bufs v) (v_recs v) (v_pending_files v) (v_acked_seen v) (v_prefs v) (v_active v) (v_tab v)
  (v_last_sound v) (v_alerts v) (v_log v) (v_jobs v).
Definition set_status x n v := View (v_threads v) (v_selected v) (v_shown v) x n (v_bubble_status v)
  (v_file_bufs v) (v_recs v) (v_pending_files v) (v_acked_seen v) (v_prefs v) (v_active v) (v_tab v)
  (v_last_sound v) (v_alerts v) (v_log v) (v_jobs v).
Definition set_bubble_status x v := View (v_threads v) (v_selected v) (v_shown v) (v_status v) (v_next v) x
  (v_file_bufs v) (v_recs v) (v_pending_files v) (v_acked_seen v) (v_prefs v) (v_active v) (v_tab v)
  (v_last_sound v) (v_alerts v) (v_log v) (v_jobs v).
Definition set_file_bufs x v := View (v_threads v) (v_selected v) (v_shown v) (v_status v) (v_next v)
  (v_bubble_status v) x (v_recs v) (v_pending_files v) (v_acked_seen v) (v_prefs v) (v_active v) (v_tab v)
  (v_last_sound v) (v_alerts v) (v_log v) (v_jobs v).
Definition set_tracking recs pend seen v := View (v_threads v) (v_selected v) (v_shown v) (v_status v)
  (v_next v) (v_bubble_status v) (v_file_bufs v) recs pend seen (v_prefs v) (v_active v) (v_tab v)
  (v_last_sound v) (v_alerts v) (v_log v) (v_jobs v).
Definition set_alerts last x v := View (v_threads v) (v_selected v) (v_shown v) (v_status v) (v_next v)
  (v_bubble_status v) (v_file_bufs v) (v_recs v) (v_pending_files v) (v_acked_seen v) (v_prefs v)
  (v_active v) (v_tab v) last x (v_log v) (v_jobs v).
Definition set_log x v := View (v_threads v) (v_selected v) (v_shown v) (v_status v) (v_next v)
  (v_bubble_status v) (v_file_bufs v) (v_recs v) (v_pending_files v) (v_acked_seen v) (v_prefs v)
  (v_active v) (v_tab v) (v_last_sound v) (v_alerts v) x (v_jobs v).
Definition set_jobs x v := View (v_threads v) (v_selected v) (v_shown v) (v_status v) (v_next v)
  (v_bubble_status v) (v_file_bufs v) (v_recs v) (v_pending_files v) (v_acked_seen v) (v_prefs v)
  (v_active v) (v_tab v) (v_last_sound v) (v_alerts v) (v_log v) x.

Definition set_prefs x v := View (v_threads v) (v_selected v) (v_shown v) (v_status v) (v_next v)
  (v_bubble_status v) (v_file_bufs v) (v_recs v) (v_pending_files v) (v_acked_seen v) x (v_active v)
  (v_tab v) (v_last_sound v) (v_alerts v) (v_log v) (v_jobs v).
(** The window has the focus, and shows the page [tab]. *)
Definition set_focus active tab v := View (v_threads v) (v_selected v) (v_shown v) (v_status v) (v_next v)
  (v_bubble_status v) (v_file_bufs v) (v_recs v) (v_pending_files v) (v_acked_seen v) (v_prefs v) active
  tab (v_last_sound v) (v_alerts v) (v_log v) (v_jobs v).

Section View.
Context `{N : NaCl} `{J : JsonCodec} `{D : Daemon} `{MU : Markup} `{Z_ : Zone} `{L : Locale}.

(** The application: [Session] (store, client, our node key), world, window. *)
Record gui := Gui
  { g_store : store; g_client : client; g_self_node : string; g_world : world; g_view : view }.
Definition GUI (A : Type) : Type := M gui A.

Definition gst {A} (m : ST A) : GUI A := λ g,
  let '(r, s) := m (g_store g) in (r, Gui s (g_client g) (g_self_node g) (g_world g) (g_view g)).
Definition gio {A} (m : IO A) : GUI A := λ g,
  let '(r, w) := m (g_world g) in (r, Gui (g_store g) (g_client g) (g_self_node g) w (g_view g)).
Definition gcl {A} (m : CL A) : GUI A := λ g,
  let '(r, (c, w)) := m (g_client g, g_world g) in (r, Gui (g_store g) c (g_self_node g) w (g_view g)).
Definition seen {A} (f : view → A) : GUI A := gets (λ g, f (g_view g)).
Definition show (f : view → view) : GUI unit :=
  modify (λ g, Gui (g_store g) (g_client g) (g_self_node g) (g_world g) (f (g_view g))).
Definition self_node : GUI string := gets g_self_node.
Definition identity : GUI bytes := gets (λ g, cl_identity (g_client g)).
Definition clock : GUI Z := gets (λ g, w_now (g_world g)).

Definition activity (line : string) : GUI unit := show (λ v, set_log (line :: v_log v) v).
Definition spawn_job (j : job) : GUI unit := show (λ v, set_jobs (v_jobs v ++ [j]) v).
(** The body of a job's thread. *)
Definition run_job (j : job) : CL json :=
  match j with
  | AckAttachment node tid => ack_attachment node tid
  | SetBlock node blocked => if blocked then block node else unblock node
  | AddContact node =>
    _ ← try_with is_daemon_error (_ ← unblock node; mret tt) (λ _, mret tt);
    add_contact node
  end.

(** ** Threads *)

Definition get_thread (conv : string) : GUI (option thread) := seen (λ v, dict_get conv (v_threads v)).
Definition put_thread (conv : string) (t : thread) : GUI unit :=
  show (λ v, set_threads (dict_set conv t (v_threads v)) v).
Definition with_preview (p : string) (t : thread) : thread :=
  Thread (th_is_room t) (th_petname t) (th_contact t) (th_members t) (th_screen t) (th_online t)
    (th_away t) p (th_unread t) (th_presence t).
Definition with_unread (n : Z) (t : thread) : thread :=
  Thread (th_is_room t) (th_petname t) (th_contact t) (th_members t) (th_screen t) (th_online t)
    (th_away t) (th_preview t) n (th_presence t).
Definition with_presence (online : bool) (away : json) (pb : list (string * presence_state)) (t : thread) : thread :=
  Thread (th_is_room t) (th_petname t) (th_contact t) (th_members t) (th_screen t) online away
    (th_preview t) (th_unread t) pb.

(** [o.get(k) or dflt] of a dictionary, [dflt] a string *)
Definition str_or (dflt : string) (o : option json) : result string :=
  match o with
  | Some j => if truthy j then as_str j else Ok dflt
  | None => Ok dflt
  end.

Definition _sender_label (t : option thread) (sender : string) : result (option string) :=
  if bool_decide (sender = "") || bool_decide (sender = "self") then Ok None
  else
    let info := match t with Some t => dict_get sender (th_members t) | None => None end in
    let stranger := Some (py_take 8 sender) in
    match info with
    | Some i =>
      if truthy i then screen ← jget "screen" i; Some <$> str_or (py_take 8 sender) screen
      else Ok stranger
    | None =>
      match t with
      | Some t =>
        if truthy (th_contact t) then
          node ← jget "node" (th_contact t);
          Ok (if default false (json_is_str sender <$> node) then Some (th_screen t) else stranger)
        else Ok stranger
      | None => Ok stranger
      end
    end.

(** [label or node[:8]] *)
Definition label_or (node : string) (label : option string) : string :=
  match label with Some l => if bool_decide (l = "") then py_take 8 node else l | None => py_take 8 node end.

(** ** Rows *)

Definition append_row (r : shown) : GUI unit := show (λ v, set_shown (v_shown v ++ [r]) v).
Definition append_system_note (text : string) : GUI unit := append_row (Note text).
Definition _append_status_row (text : string) : GUI nat :=
  id ← seen v_next;
  _ ← show (λ v, set_status (<[id := text]> (v_status v)) (S id) v);
  _ ← append_row (StatusRow id);
  mret id.
Definition _update_status_row (row : nat) (text : string) : GUI unit :=
  show (λ v, set_status (alter (λ _, text) row (v_status v)) (v_next v) v).
Definition is_status_row (row : nat) (r : shown) : bool :=
  match r with StatusRow i => bool_decide (i = row) | _ => false end.
(** [row.destroy()] *)
Definition destroy_row (row : nat) : GUI unit :=
  show (λ v, set_status (delete row (v_status v)) (v_next v)
    (set_shown (List.filter (λ r, negb (is_status_row row r)) (v_shown v)) v)).

(** The text under an outgoing bubble; [None] when nothing is tracked. *)
Definition delivery_text (total acked : Z) : option string :=
  if total =? 0 then None
  else if total <=? acked then Some "✓ delivered"
  else if acked =? 0 then Some "• sending…"
  else Some ("• " +:+ str_of_int acked +:+ "/" +:+ str_of_int total +:+ " delivered").

(** [append_bubble]: the row, and the status label of a sent text. *)
Definition append_bubble (outgoing : bool) (text : string) (ts : Z) (sender : option string)
    (attachment : option json) (msg : option (string * (Z * Z))) : GUI unit :=
  _ ← append_row (Bubble outgoing text ts sender attachment);
  match msg, attachment with
  | Some (mid, (total, acked)), None =>
    if outgoing then
      match delivery_text total acked with
      | Some t => show (λ v, set_bubble_status (dict_set mid t (v_bubble_status v)) v)
      | None => mret tt
      end
    else mret tt
  | _, _ => mret tt
  end.

(** ** Alerts *)

Definition _alert_state (conv node : string) : GUI (bool * bool * bool) :=
  v ← seen id;
  muted ← gst (is_conversation_muted conv);
  blocked ← gst (is_muted node);
  mret (v_active v && bool_decide (v_tab v = "messages") && bool_decide (v_selected v = Some conv),
        muted, blocked).

Definition notify_new_message (sender text : string) : GUI unit :=
  show (λ v, set_alerts (v_last_sound v) (Notified sender (py_take 200 text) :: v_alerts v) v).
Definition play_sound (s : sound_system) (kind : string) : GUI unit :=
  now ← clock;
  show (λ v, let '(b, last) := play_notification_sound s kind false now (v_last_sound v) in
             set_alerts last (match b with Some b => Played b :: v_alerts v | None => v_alerts v end) v).

(** The end of [incoming] and of [_finalize_attachment]. *)
Definition alert_message (s : sound_system) (conv node sender body : string) : GUI unit :=
  '(visible, muted, blocked) ← _alert_state conv node;
  prefs ← seen v_prefs;
  env ← gets (λ g, w_env (g_world g));
  _ ← (if should_notify visible muted blocked prefs then notify_new_message sender body else mret tt);
  if should_play_sound env visible muted blocked prefs then play_sound s (sound_enabled env prefs) else mret tt.

(** ** Contacts *)

Definition contacts_file : GUI json :=
  path ← gets (λ g, contacts_path (w_env (g_world g)) (w_home (g_world g)));
  gio (load_contacts path).
Definition write_contacts (contacts : list (string * json)) : GUI unit :=
  path ← gets (λ g, contacts_path (w_env (g_world g)) (w_home (g_world g)));
  gio (save_contacts path (JObj contacts)).
Definition contacts_dict : GUI (list (string * json)) :=
  j ← contacts_file; lift (match j with JObj d => Ok d | _ => Raise AttributeError end).
(** [Session.contacts()] *)
Definition contacts : GUI (list (string * json)) :=
  d ← contacts_dict; mret (List.filter (λ kv, negb (bool_decide (kv.1 = "_self"))) d).
(** [{info["node"] for info in contacts.values()}] *)
Definition contact_nodes (d : list (string * json)) : result (list string) :=
  map_result (λ kv : string * json, jindex "node" kv.2 ≫= as_str) d.
End View.
