(* ===== verification/Transfers.v ===== *)
(** * gtkui.py: sending, receiving and following files

    [_send_file] to [catchup_attachments].  The body of a worker thread is a
    client program of its own; what it hands back to the main loop is another
    step, so that anything may happen in between. *)

From S2P Require Import Prelude PyStr Codec Sha256 Json Sys Paths Crypto Protocol Store StoreProps DaemonClient Service Desktop View.
From Stdlib Require Import Ascii.
Local Open Scope Z_scope.

Section Transfers.
Context `{N : NaCl} `{J : JsonCodec} `{D : Daemon} `{MU : Markup} `{Z_ : Zone} `{L : Locale}.
Context (sounds : sound_system).

(** ** Sending *)

Definition IMAGE_SUFFIXES : list string := [".png"; ".jpg"; ".jpeg"; ".gif"; ".webp"].
Definition mime_of (filename : string) : string :=
  if existsb (λ s, endswith s (lower filename)) IMAGE_SUFFIXES then "image" else "application".

(** [[data[i:i + n] for i in range(0, len(data), n)]] *)
Fixpoint pieces_loop (fuel n : nat) (data : bytes) : list bytes :=
  match fuel, data with
  | O, _ | _, [] => []
  | S fuel, _ => take n data :: pieces_loop fuel n (drop n data)
  end.
Definition pieces_of (data : bytes) : list bytes :=
  pieces_loop (length data) (Z.to_nat FILE_CHUNK_SIZE) data.

(** What [_send_file] prepares for its worker. *)
Record outgoing := Outgoing {
  o_conv : string;
  o_thread : thread;
  o_tid : string;
  o_pieces : list bytes;
  o_filename : string;
  o_mime : string;
  o_sha : string;
  o_size : Z;
  o_path : string;
  o_row : nat;
}.

Definition sending_text (filename : string) (done total : nat) : string :=
  "Sending " +:+ filename +:+ " - " +:+ str_of_int (Z.of_nat done) +:+ "/" +:+ str_of_int (Z.of_nat total).

(** [_send_file], up to the start of the worker; [None] when the file cannot
    be read. *)
Definition _send_file (conv : string) (t : thread) (path filename : string) (size : Z)
    : GUI (option outgoing) :=
  data ← try_with is_os_error (Some <$> gio (read_file path))
    (λ e, _ ← append_system_note ("attach failed: " +:+ exn_str e); mret None);
  match data with
  | None => mret None
  | Some data =>
    tid ← gio new_transfer_id;
    let pieces := pieces_of data in
    row ← _append_status_row (sending_text filename 0 (length pieces));
    mret (Some (Outgoing conv t tid pieces filename (mime_of filename) (sha256_hex data) size path row))
  end.

(** [seqs] and [expected], as the worker collects them. *)
Definition sent : Type := list (string * Z) * gset (string * Z).

Definition chunk_of (o : outgoing) (i : nat) (piece : bytes) : list (string * json) :=
  make_chunk (o_tid o) (Z.of_nat i) (Z.of_nat (length (o_pieces o))) (o_filename o) (o_mime o)
    (o_sha o) (o_size o) piece (if th_is_room (o_thread o) then Some (o_conv o) else None).

Definition send_piece (o : outgoing) (i : nat) (piece : bytes) (acc : sent) : CL sent :=
  let '(seqs, expected) := acc in
  let chunk := chunk_of o i piece in
  if th_is_room (o_thread o) then
    chunk_seqs ← send_file_room (th_members (o_thread o)).*2 (o_conv o) chunk;
    chunk_seqs ← lift (map_result (λ kv : string * json, s ← as_int kv.2; Ok (kv.1, s)) chunk_seqs);
    mret (dict_update seqs chunk_seqs, expected ∪ list_to_set chunk_seqs)
  else
    c ← self;
    pubkey ← lift (jindex "pubkey" (th_contact (o_thread o)) ≫= as_str);
    r ← io draw;
    payload ← lift (build_file_payload (cl_identity c) pubkey chunk r);
    resp ← send_file (o_conv o) payload;
    seq ← lift (get_or "seq" (JInt 0) resp ≫= as_int);
    mret (dict_set (o_conv o) seq seqs, expected ∪ {[(o_conv o, seq)]}).

Fixpoint send_pieces (o : outgoing) (i : nat) (pieces : list bytes) (acc : sent) : CL sent :=
  match pieces with
  | [] => mret acc
  | piece :: pieces => acc ← send_piece o i piece acc; send_pieces o (S i) pieces acc
  end.
(** The worker; after each piece it posts [_progress] to the main loop. *)
Definition send_worker (o : outgoing) : CL sent := send_pieces o 0 (o_pieces o) ([], ∅).
Definition _progress (o : outgoing) (done : nat) : GUI unit :=
  _update_status_row (o_row o) (sending_text (o_filename o) done (length (o_pieces o))).

(** [_append_outgoing]: the copy in the store, and its bubble, in whatever
    conversation is shown. *)
Definition _append_outgoing (conv : string) (seqs : list (string * Z)) (ts : Z) (text : string)
    (attachment : option json) (keys : option (list (string * Z))) : GUI string :=
  _ ← gst (add_sent conv seqs ts (Some text) attachment keys);
  let mid := out_id seqs in
  '(total, done) ← gst (delivery_members mid);
  _ ← append_bubble true text ts None attachment (Some (mid, (total, done)));
  mret mid.

(** ** Following the delivery of a file *)

Definition nodes_of (keys : gset (string * Z)) : gset string := set_map fst keys.

Definition file_delivery_text (k : tracked) : string :=
  let total := k_members_total k in
  let left := Z.of_nat (size (nodes_of (k_keys k))) in
  let done := total - left in
  if total =? 0 then "Sent " +:+ k_filename k
  else if left =? 0 then "Delivered " +:+ k_filename k +:+ " ✓"
  else if total =? 1 then "Sending " +:+ k_filename k +:+ "…"
  else "Sending " +:+ k_filename k +:+ " - " +:+ str_of_int done +:+ "/" +:+ str_of_int total +:+ " delivered".
Definition _set_delivery_text (k : tracked) : GUI unit := _update_status_row (k_row k) (file_delivery_text k).

Definition register_file_delivery (row : nat) (filename : string) (keys : gset (string * Z)) : GUI unit :=
  seen_acks ← seen v_acked_seen;
  let keys := filter (λ k : string * Z, k.2 ≠ 0) keys in
  let pending := keys ∖ (keys ∩ seen_acks) in
  let rec := Tracked row filename pending (Z.of_nat (size (nodes_of keys))) in
  id ← seen v_next;
  _ ← show (λ v, set_status (v_status v) (S id) v);
  _ ← show (λ v, set_tracking (<[id := rec]> (v_recs v))
         (set_fold (λ k m, <[k := id]> m) (v_pending_files v) pending) (v_acked_seen v) v);
  _set_delivery_text rec.

Definition ACKED_SEEN_MAX : nat := 4096.

(** The label under the bubble of a text message whose delivery moved on. *)
Definition bubble_delivery (labels : list (string * string)) (mid : option string) : GUI unit :=
  match mid with
  | Some mid =>
    if dict_mem mid labels then
      '(total, done) ← gst (delivery_members mid);
      if negb (total =? 0) then
        show (λ v, set_bubble_status (dict_set mid
          (if total <=? done then "✓ delivered"
           else "• " +:+ str_of_int done +:+ "/" +:+ str_of_int total +:+ " delivered")
          (v_bubble_status v)) v)
      else mret tt
    else mret tt
  | None => mret tt
  end.
Definition note_acked (node : string) (seq : Z) : GUI bool :=
  let key := (node, seq) in
  _ ← show (λ v, let acked := {[key]} ∪ v_acked_seen v in
       set_tracking (v_recs v) (v_pending_files v)
         (if (ACKED_SEEN_MAX <? size acked)%nat then ∅ else acked) v);
  mid ← gst (mark_delivered node seq);
  v ← seen id;
  hit ← match v_pending_files v !! key with
        | Some i =>
          match v_recs v !! i with
          | Some rec =>
            let rec := Tracked (k_row rec) (k_filename rec) (k_keys rec ∖ {[key]}) (k_members_total rec) in
            _ ← show (λ v, set_tracking (<[i := rec]> (v_recs v)) (delete key (v_pending_files v))
                  (v_acked_seen v) v);
            _ ← _set_delivery_text rec;
            mret true
          | None => mret false
          end
        | None => mret false
        end;
  _ ← bubble_delivery (v_bubble_status v) mid;
  mret hit.

Definition update_thread (conv : string) (f : thread → thread) : GUI unit :=
  t ← get_thread conv;
  match t with Some t => put_thread conv (f t) | None => mret tt end.

(** The callbacks of [_send_file]'s worker. *)
Definition send_done (o : outgoing) (r : sent) : GUI unit :=
  let '(seqs, expected) := r in
  _ ← destroy_row (o_row o);
  ts ← clock;
  let attachment := JObj [("path", JStr (o_path o)); ("filename", JStr (o_filename o));
    ("mime_hint", JStr (o_mime o)); ("size", JInt (o_size o))] in
  _ ← _append_outgoing (o_conv o) seqs ts (o_filename o) (Some attachment) (Some (elements expected));
  selected ← seen v_selected;
  _ ← (if bool_decide (selected = Some (o_conv o))
       then update_thread (o_conv o) (with_preview (o_filename o)) else mret tt);
  row ← _append_status_row "";
  register_file_delivery row (o_filename o) expected.
Definition send_fail (o : outgoing) (e : exn) : GUI unit :=
  _ ← _update_status_row (o_row o) (o_filename o +:+ " - send failed: " +:+ exn_str e);
  activity ("send failed: " +:+ exn_str e).

(** ** Receiving *)

Definition attachments_path : GUI string :=
  gets (λ g, attachments_dir (w_env (g_world g)) (w_home (g_world g))).

(** Where an attachment is kept: [conv] and [tid] come from the sender. *)
Definition attachment_path (dir conv tid filename : string) : string :=
  path_join (path_join dir conv) (tid +:+ "-" +:+ sanitize_filename (Some filename)).

Definition _store_attachment (conv tid filename : string) (data : bytes) : GUI string :=
  dir ← attachments_path;
  let path := attachment_path dir conv tid filename in
  _ ← gio (for_each sys (write_replace path data 438));
  mret path.

(** [d.get(k) or dflt] *)
Definition field_or (k dflt : string) (d : list (string * json)) : result string := str_or dflt (dict_get k d).

Definition _finalize_attachment (conv node : string) (buf : incoming_buf) (seq ts : Z) (notify : bool)
    : GUI bool :=
  let chunk := b_meta buf in
  match reassemble_file (b_chunks buf) (b_total buf) with
  | None => mret false
  | Some rebuilt =>
    if negb (default false (json_is_str (sha256_hex rebuilt) <$> dict_get "sha256" chunk)) then mret false
    else
      filename ← lift (field_or "filename" "file" chunk);
      tid ← lift (jindex "transfer_id" (JObj chunk) ≫= as_str);
      path ← _store_attachment conv tid filename rebuilt;
      let attachment := JObj [("path", JStr path); ("filename", JStr filename);
        ("mime_hint", default (JStr "") (dict_get "mime_hint" chunk));
        ("size", JInt (Z.of_nat (length rebuilt)))] in
      _ ← gst (ingest conv node seq ts (Some filename) (Some attachment));
      _ ← match b_row buf with Some row => destroy_row row | None => mret tt end;
      t ← get_thread conv;
      _ ← match t with
          | Some t =>
            let t := with_preview filename t in
            _ ← put_thread conv t;
            selected ← seen v_selected;
            if bool_decide (selected = Some conv) then
              label ← lift (_sender_label (Some t) node);
              append_bubble false filename ts label (Some attachment) None
            else put_thread conv (with_unread (th_unread t + 1) t)
          | None => mret tt
          end;
      _ ← spawn_job (AckAttachment node tid);
      _ ← (if notify then
             t ← get_thread conv;
             label ← lift (_sender_label t node);
             alert_message sounds conv node (label_or node label) ("file: " +:+ filename)
           else mret tt);
      mret true
  end.

(** [ev.get(k, 0)] used as an integer; the daemon's events carry integers. *)
Definition event_int (k : string) (ev : json) : result Z := get_or k (JInt 0) ev ≫= as_int.

(** The routing header and the chunk sealed under it; none when either cannot
    be opened or they disagree. *)
Definition open_chunk (identity : bytes) (ev : json) : option (file_payload * list (string * json)) :=
  match (payload ← jindex "payload" ev ≫= as_str;
         parsed ← parse_file_payload payload;
         chunk ← open_file_chunk identity (fp_sealed parsed);
         Ok (parsed, chunk)) with
  | Raise _ => None
  | Ok (parsed, chunk) =>
    if default false (json_is_str (hex (fp_tid parsed)) <$> dict_get "transfer_id" chunk) &&
       default false (json_is_int (fp_index parsed) <$> dict_get "index" chunk) &&
       default false (json_is_int (fp_total parsed) <$> dict_get "total" chunk)
    then Some (parsed, chunk) else None
  end.

Definition set_buf (key : string * string) (b : incoming_buf) : GUI unit :=
  show (λ v, set_file_bufs (dict_set key b (v_file_bufs v)) v).
Definition receiving_text (filename : string) (have total : Z) : string :=
  "Receiving " +:+ filename +:+ " - " +:+ str_of_int have +:+ "/" +:+ str_of_int total.

Definition _mark_file_failed (key : string * string) (buf : incoming_buf) : GUI unit :=
  _ ← set_buf key (Buf (b_total buf) (b_meta buf) (b_chunks buf) (b_row buf) true);
  match b_row buf with
  | Some row =>
    filename ← lift (field_or "filename" "file" (b_meta buf));
    _update_status_row row (filename +:+ " - failed to receive")
  | None => mret tt
  end.

(** The buffer of a transfer, made on its first chunk. *)
Definition buffer_for (conv : string) (key : string * string) (parsed : file_payload)
    (chunk : list (string * json)) : GUI incoming_buf :=
  bufs ← seen v_file_bufs;
  match dict_get key bufs with
  | Some b => mret b
  | None =>
    let b := Buf (fp_total parsed) chunk ∅ None false in
    _ ← set_buf key b;
    selected ← seen v_selected;
    if bool_decide (selected = Some conv) then
      filename ← lift (field_or "filename" "file" chunk);
      row ← _append_status_row (receiving_text filename 1 (fp_total parsed));
      let b := Buf (fp_total parsed) chunk ∅ (Some row) false in
      _ ← set_buf key b;
      mret b
    else mret b
  end.

(** An event of the daemon names its sender under [from]. *)
Definition _incoming_file (ev : json) : GUI unit :=
  node ← lift (jindex "from" ev ≫= as_str);
  id ← identity;
  match open_chunk id ev with
  | None => mret tt
  | Some (parsed, chunk) =>
    conv ← lift (field_or "conv" node chunk);
    let key := (conv, hex (fp_tid parsed)) in
    b ← buffer_for conv key parsed chunk;
    if b_failed b then mret tt
    else
      data ← lift (jindex "data" (JObj chunk) ≫= json_b64decode);
      let b := Buf (b_total b) (b_meta b) (<[fp_index parsed := data]> (b_chunks b)) (b_row b) false in
      _ ← set_buf key b;
      let have := Z.of_nat (size (b_chunks b)) in
      _ ← match b_row b with
          | Some row =>
            filename ← lift (field_or "filename" "file" chunk);
            _update_status_row row (receiving_text filename have (fp_total parsed))
          | None => mret tt
          end;
      if have =? b_total b then
        seq ← lift (event_int "seq" ev);
        ts ← lift (event_int "ts" ev);
        ok ← _finalize_attachment conv node b seq ts true;
        _ ← (if ok : bool then mret tt else _mark_file_failed key b);
        show (λ v, set_file_bufs (dict_del key (v_file_bufs v)) v)
      else mret tt
  end.

(** ** Transfers the daemon kept while no client ran *)

(** One fetched entry: chunks that do not open are passed over. *)
Definition fetch_step (identity : bytes) (acc : incoming_buf * (Z * Z)) (entry : json)
    : result (incoming_buf * (Z * Z)) :=
  let '(buf, (seq, ts)) := acc in
  match open_chunk identity entry with
  | None => Ok acc
  | Some (parsed, chunk) =>
    data ← jindex "data" (JObj chunk) ≫= json_b64decode;
    s ← event_int "seq" entry;
    t ← event_int "ts" entry;
    Ok (Buf (fp_total parsed) chunk (<[fp_index parsed := data]> (b_chunks buf)) None false,
        (Z.max s seq, Z.max t ts))
  end.
Fixpoint fetch_all (identity : bytes) (acc : incoming_buf * (Z * Z)) (entries : list json)
    : result (incoming_buf * (Z * Z)) :=
  match entries with
  | [] => Ok acc
  | e :: entries => acc ← fetch_step identity acc e; fetch_all identity acc entries
  end.

Definition _process_fetched_transfer (node : string) (chunks : list json) : GUI unit :=
  id ← identity;
  '(buf, (seq, ts)) ← lift (fetch_all id (Buf 0 [] ∅ None false, (0, 0)) chunks);
  if bool_decide (b_chunks buf = ∅) then mret tt
  else
    conv ← lift (field_or "conv" node (b_meta buf));
    _ ← _finalize_attachment conv node buf seq ts false;
    mret tt.

(** [catchup_attachments]: the nodes to ask, the worker that fetches, and the
    callback. A daemon error skips a node or a transfer. *)
Definition catchup_nodes (self : string) (contacts : list (string * json)) (rooms : list json)
    : result (list string) :=
  ns ← map_result (λ kv : string * json, n ← jget "node" kv.2; str_or "" n) contacts;
  let members := concat ((λ m, match m with JObj d => d.*1 | _ => [] end) <$> rooms) in
  Ok (remove_dups (List.filter (λ n, negb (bool_decide (n = ""))) ns ++
                   List.filter (λ n, negb (bool_decide (n = self))) members)).

Fixpoint fetch_transfers (node : string) (transfers : list json) (jobs : list (string * list json))
    : CL (list (string * list json)) :=
  match transfers with
  | [] => mret jobs
  | t :: transfers =>
    tid ← lift (jindex "tid" t ≫= as_str);
    chunks ← try_with is_daemon_error
      (c ← fetch_attachment node tid; Some <$> lift (as_list c)) (λ _, mret None);
    fetch_transfers node transfers (match chunks with Some c => jobs ++ [(node, c)] | None => jobs end)
  end.
Fixpoint catchup_worker (nodes : list string) (jobs : list (string * list json))
    : CL (list (string * list json)) :=
  match nodes with
  | [] => mret jobs
  | n :: nodes =>
    transfers ← try_with is_daemon_error
      (t ← pending_attachments n; Some <$> lift (as_list t)) (λ _, mret None);
    jobs ← match transfers with Some t => fetch_transfers n t jobs | None => mret jobs end;
    catchup_worker nodes jobs
  end.
Definition catchup_done (jobs : list (string * list json)) : GUI unit :=
  for_each (λ '(node, chunks), _process_fetched_transfer node chunks) jobs.
End Transfers.
