(* ===== verification/TransfersProps.v ===== *)
(** * Properties of file transfers

    A file cut up by the sender reaches the receiver's disk whole, whatever
    order its chunks come in; a file is stored only from a buffer whose bytes
    have the SHA-256 its chunks announced;
    where a stored file ends up; what the sender reads about its delivery. *)

From S2P Require Import Prelude PyStr Codec Sha256 Json Sys Paths Crypto Protocol Store StoreProps DaemonClient Service Desktop View Transfers.
From Stdlib Require Import Ascii.
Local Open Scope Z_scope.

(** ** Cutting a file up *)

Lemma pieces_loop_spec fuel n (data : bytes) :
  (0 < n)%nat → (length data <= fuel)%nat →
  concat (pieces_loop fuel n data) = data ∧
  Forall (λ p, 1 <= length p <= n)%nat (pieces_loop fuel n data) ∧
  (length (pieces_loop fuel n data) * n < length data + n)%nat.
Proof.
  intros Hn. revert data. induction fuel as [|fuel IH]; intros data Hf; cbn [pieces_loop].
  { destruct data; [|cbn in Hf; lia]. cbn. split_and!; [done..|lia]. }
  destruct data as [|b data]; [cbn; split_and!; [done..|lia]|].
  destruct (IH (drop n (b :: data))) as (Hc&Hl&Hlen); [rewrite length_drop; cbn in *; lia|].
  cbn [concat length]. rewrite Hc, take_drop. rewrite length_drop in Hlen. cbn [length] in *.
  split_and!; [done| |].
  - constructor; [|done]. rewrite length_take. cbn. lia.
  - destruct (length (pieces_loop fuel n (drop n (b :: data)))); nia.
Qed.

Lemma pieces_concat data : concat (pieces_of data) = data.
Proof. apply (pieces_loop_spec _ _ data); unfold FILE_CHUNK_SIZE; lia. Qed.

(** A file the application agrees to send is cut into at most 640 pieces of at
    most 32 KiB, so that the chunk count fits its 16-bit header field. *)
Lemma pieces_bounded data :
  Z.of_nat (length data) <= MAX_SEND_BYTES → (length (pieces_of data) <= 640)%nat.
Proof.
  intros Hl. destruct (pieces_loop_spec (length data) (Z.to_nat FILE_CHUNK_SIZE) data) as (_&_&H);
    [unfold FILE_CHUNK_SIZE; lia|lia|].
  fold (pieces_of data) in H. unfold FILE_CHUNK_SIZE, MAX_SEND_BYTES in *. lia.
Qed.

(** ** Keys mapped to one record *)

Lemma set_fold_insert (X : gset (string * Z)) (i : nat) (m : gmap (string * Z) nat) k :
  set_fold (λ k m, <[k := i]> m) m X !! k = if decide (k ∈ X) then Some i else m !! k.
Proof.
  set (P := λ (r : gmap (string * Z) nat) (X : gset (string * Z)),
    r !! k = if decide (k ∈ X) then Some i else m !! k).
  change (P (set_fold (λ k m, <[k := i]> m) m X) X). apply (set_fold_ind_L P); subst P; cbv beta.
  - by rewrite decide_False by set_solver.
  - intros x Y r _ IH. destruct (decide (k = x)) as [->|Hne].
    + by rewrite lookup_insert_eq, decide_True by set_solver.
    + rewrite lookup_insert_ne, IH by done.
      assert (Hiff : k ∈ Y ↔ k ∈ {[x]} ∪ Y) by set_solver. by rewrite (decide_ext _ _ _ _ Hiff).
Qed.

(** ** One transfer *)

Section Receive.
Context `{N : NaCl} {NL : NaClLaws N} `{J : JsonCodec} {JL : JsonLaws J} `{D : Daemon}
  `{MU : Markup} `{Z_ : Zone} `{L : Locale}.
Context (sounds : sound_system).

(** The sender, the recipient, the transfer. *)
Record transfer := Transfer {
  x_sender : bytes; x_rcpt : bytes; x_node : string; x_tid : bytes;
  x_filename : string; x_mime : string; x_data : bytes; x_conv : option string }.

Definition transfer_ok (x : transfer) : Prop :=
  length (x_sender x) = 32%nat ∧ length (x_rcpt x) = 32%nat ∧ length (x_tid x) = 16%nat ∧
  Z.of_nat (length (x_data x)) <= MAX_SEND_BYTES ∧
  is_str (x_filename x) ∧ is_str (x_mime x) ∧ (∀ c, x_conv x = Some c → is_str c).

Definition x_total (x : transfer) : Z := Z.of_nat (length (pieces_of (x_data x))).
Definition x_chunk (x : transfer) (i : nat) : list (string * json) :=
  make_chunk (hex (x_tid x)) (Z.of_nat i) (x_total x) (x_filename x) (x_mime x)
    (sha256_hex (x_data x)) (Z.of_nat (length (x_data x))) (nth i (pieces_of (x_data x)) []) (x_conv x).

(** The event the receiver's daemon reports for chunk [i]. *)
Definition file_event (node payload : string) (seq ts : Z) : json :=
  JObj [("type", JStr "file"); ("from", JStr node); ("payload", JStr payload);
        ("seq", JInt seq); ("ts", JInt ts)].
Definition chunk_event (x : transfer) (i : nat) (ev : json) : Prop :=
  (i < length (pieces_of (x_data x)))%nat ∧
  ∃ rnd payload seq ts,
    build_file_payload (x_sender x) (hex (sign_pk (x_rcpt x))) (x_chunk x i) rnd = Ok payload ∧
    ev = file_event (x_node x) payload seq ts ∧ int64 seq = true ∧ int64 ts = true.

(** Where the receiver files it, and under which name. *)
Definition x_thread (x : transfer) : string :=
  match x_conv x with Some c => if bool_decide (c = "") then x_node x else c | None => x_node x end.
Definition x_name (x : transfer) : string :=
  if bool_decide (x_filename x = "") then "file" else x_filename x.
Definition x_key (x : transfer) : string * string := (x_thread x, hex (x_tid x)).

(** The fields of an opened chunk the receiver goes by. *)
Definition opened_chunk (x : transfer) (i : nat) (c : list (string * json)) : Prop :=
  dict_get "transfer_id" c = Some (JStr (hex (x_tid x))) ∧
  dict_get "index" c = Some (JInt (Z.of_nat i)) ∧ dict_get "total" c = Some (JInt (x_total x)) ∧
  dict_get "data" c = Some (JStr (b64encode (nth i (pieces_of (x_data x)) []))) ∧
  dict_get "filename" c = Some (JStr (x_filename x)) ∧
  dict_get "sha256" c = Some (JStr (sha256_hex (x_data x))) ∧
  field_or "conv" (x_node x) c = Ok (x_thread x).

Lemma open_chunk_event x i ev :
  transfer_ok x → chunk_event x i ev →
  ∃ sealed c, open_chunk (x_rcpt x) ev = Some (FilePayload (x_tid x) (Z.of_nat i) (x_total x) sealed, c) ∧
    opened_chunk x i c.
Proof using NL JL.
  intros (Hs&Hr&Ht&Hd&Hf&Hm&Hc) (Hi&rnd&payload&seq&ts&Hb&->&_).
  pose proof (pieces_bounded _ Hd) as Hn.
  assert (Hsha : is_str (sha256_hex (x_data x))) by apply hex_is_str.
  destruct (file_payload_roundtrip (x_sender x) (x_rcpt x) (x_tid x) (Z.of_nat i) (x_total x)
    (x_filename x) (x_mime x) (sha256_hex (x_data x)) (Z.of_nat (length (x_data x)))
    (nth i (pieces_of (x_data x)) []) (x_conv x) rnd) as (p&sealed&c&H1&H2&H3&H4);
    try (unfold x_total; lia); try done.
  fold (x_chunk x i) in H1, H4. rewrite Hb in H1. injection H1 as <-.
  exists sealed, c.
  assert (Hopen : opened_chunk x i c).
  { unfold opened_chunk, field_or. rewrite !H4. unfold x_chunk, make_chunk, x_thread.
    destruct (x_conv x) as [cv|]; [case_bool_decide as Hcv|]; dict_simpl; split_and!; try done.
    by rewrite bool_decide_eq_false_2 by done. }
  split; [|done]. destruct Hopen as (Ht1&Hi1&Hn1&_).
  unfold open_chunk, file_event. cbn [jindex dict_get]. dict_simpl.
  rewrite H2. cbn [mbind result_bind fp_sealed]. rewrite H3.
  cbn [mbind result_bind fp_tid fp_index fp_total]. rewrite Ht1, Hi1, Hn1. cbn.
  unfold json_is_int. cbn [json_int]. by rewrite !bool_decide_eq_true_2.
Qed.

(** *** What a step leaves alone *)

Definition label_ok (conv node : string) (g : gui) : Prop :=
  ∀ t, dict_get conv (v_threads (g_view g)) = Some t → ∃ l, _sender_label (Some t) node = Ok l.

(** Only the window's rows, alerts and threads moved. *)
Record still (g g' : gui) : Prop := {
  st_store : g_store g' = g_store g;
  st_client : g_client g' = g_client g;
  st_world : g_world g' = g_world g;
  st_bufs : v_file_bufs (g_view g') = v_file_bufs (g_view g);
  st_jobs : v_jobs (g_view g) ⊆ v_jobs (g_view g');
  st_labels conv node : label_ok conv node g → label_ok conv node g';
}.

#[local] Instance still_preorder : PreOrder still.
Proof.
  split; [by split|]. intros g1 g2 g3 [] []. split; try congruence; [set_solver|auto].
Qed.

Lemma with_preview_label p t node : _sender_label (Some (with_preview p t)) node = _sender_label (Some t) node.
Proof. done. Qed.
Lemma with_unread_label n t node : _sender_label (Some (with_unread n t)) node = _sender_label (Some t) node.
Proof. done. Qed.

Section Quiet.
Context (conv node : string).
Abbreviation quiet := (steps (label_ok conv node) still).

Lemma still_label g g' : still g g' → label_ok conv node g → label_ok conv node g'.
Proof. intros []. auto. Qed.

Lemma quiet_bind {A B} (m : GUI A) (f : A → GUI B) : quiet m → (∀ a, quiet (f a)) → quiet (m ≫= f).
Proof. intros Hm Hf. apply steps_bind; [apply _|exact still_label|done..]. Qed.

Lemma quiet_show f :
  (∀ v, v_file_bufs (f v) = v_file_bufs v ∧ v_jobs v ⊆ v_jobs (f v) ∧ v_threads (f v) = v_threads v) →
  quiet (show f).
Proof.
  intros Hf. apply steps_modify. intros g. destruct (Hf (g_view g)) as (Hb&Hj&Ht).
  split; cbn; [done..|]. intros c n Hl t. cbn. rewrite Ht. apply Hl.
Qed.
Lemma quiet_seen {A} (f : view → A) : quiet (seen f).
Proof. apply steps_gets; apply _. Qed.
Lemma quiet_gets {A} (f : gui → A) : quiet (gets f).
Proof. apply steps_gets; apply _. Qed.
Lemma quiet_ret {A} (a : A) : quiet (mret a).
Proof. apply steps_ret; apply _. Qed.
Lemma quiet_lift {A} (a : A) r : r = Ok a → quiet (lift r).
Proof. apply steps_lift; apply _. Qed.
Lemma quiet_if {A} (b : bool) (m1 m2 : GUI A) : quiet m1 → quiet m2 → quiet (if b then m1 else m2).
Proof. by destruct b. Qed.
Lemma quiet_query {A} (f : db → A) : quiet (gst (query f)).
Proof. intros [] _. eexists _, _. split; [done|]. cbn. reflexivity. Qed.
End Quiet.
Create HintDb quiet.
Hint Resolve quiet_seen quiet_gets quiet_ret quiet_query : quiet.
Ltac quiet_step :=
  first
  [ solve [eauto with quiet]
  | apply quiet_if
  | apply quiet_show; intros ?; split_and!; solve [done|cbn; set_solver]
  | apply quiet_bind; [|intros ?]
  | match goal with |- steps _ _ (match ?x with _ => _ end) => destruct x end ].
Ltac quiet_tac := repeat quiet_step.

Lemma quiet_alert conv node c n sender body :
  steps (label_ok conv node) still (alert_message sounds c n sender body).
Proof.
  unfold alert_message, _alert_state, is_conversation_muted, is_muted, notify_new_message, play_sound, clock.
  quiet_tac. apply quiet_show. intros v. case_match. by split_and!.
Qed.
Lemma quiet_append_status conv node text : steps (label_ok conv node) still (_append_status_row text).
Proof. unfold _append_status_row, append_row. quiet_tac. Qed.
Lemma quiet_update_status conv node row text : steps (label_ok conv node) still (_update_status_row row text).
Proof. unfold _update_status_row. quiet_tac. Qed.
Lemma quiet_destroy conv node row : steps (label_ok conv node) still (destroy_row row).
Proof. unfold destroy_row. quiet_tac. Qed.
Lemma quiet_bubble conv node b text ts s a m : steps (label_ok conv node) still (append_bubble b text ts s a m).
Proof. unfold append_bubble, append_row. quiet_tac. Qed.
Lemma quiet_job conv node j : steps (label_ok conv node) still (spawn_job j).
Proof. unfold spawn_job. quiet_tac. Qed.

(** *** The end of a transfer *)

Lemma still_put g c t t' :
  dict_get c (v_threads (g_view g)) = Some t →
  (∀ n, _sender_label (Some t') n = _sender_label (Some t) n) →
  ∃ g', put_thread c t' g = (Ok tt, g') ∧ still g g' ∧ dict_get c (v_threads (g_view g')) = Some t'.
Proof.
  intros Ht Hl. eexists. split; [reflexivity|]. split; [|apply dict_get_set_eq].
  split; cbn; [done..|]. intros c' n Hok t0. cbn. destruct (decide (c' = c)) as [->|Hne].
  - rewrite dict_get_set_eq. intros [= <-]. rewrite Hl. by apply Hok.
  - rewrite dict_get_set_ne by done. apply Hok.
Qed.

(** The thread of the file, when it has one. *)
Definition thread_block (conv node filename : string) (ts : Z) (attachment : json) : GUI unit :=
  t ← get_thread conv;
  match t with
  | Some t =>
    let t := with_preview filename t in
    _ ← put_thread conv t;
    selected ← seen v_selected;
    if bool_decide (selected = Some conv) then
      label ← lift (_sender_label (Some t) node);
      append_bubble false filename ts label (Some attachment) None
    else put_thread conv (with_unread (th_unread t + 1) t)
  | None => mret tt
  end.

Lemma thread_block_still conv node filename ts att g :
  label_ok conv node g →
  ∃ g', thread_block conv node filename ts att g = (Ok tt, g') ∧ still g g'.
Proof.
  intros Hl. unfold thread_block, get_thread.
  rewrite (M_bind_run _ _ g (dict_get conv (v_threads (g_view g))) g) by done.
  destruct (dict_get conv (v_threads (g_view g))) as [t|] eqn:Ht; [|by exists g].
  cbv zeta. destruct (still_put g conv t (with_preview filename t) Ht) as (g1&E1&S1&Ht1); [done|].
  rewrite (M_bind_run _ _ _ _ _ E1).
  rewrite (M_bind_run _ _ g1 (v_selected (g_view g1)) g1) by done.
  case_bool_decide.
  - destruct (Hl t Ht) as [l Hlab].
    rewrite (M_bind_run _ _ g1 l g1) by (by rewrite <-Hlab).
    destruct (quiet_bubble conv node false filename ts l (Some att) None g1) as ([]&g2&E2&S2).
    + by eapply still_label.
    + exists g2. split; [done|]. by transitivity g1.
  - destruct (still_put g1 conv _ (with_unread (th_unread t + 1) (with_preview filename t)) Ht1)
      as (g2&E2&S2&_); [done|].
    exists g2. split; [done|]. by transitivity g1.
Qed.

(** The alert that ends a live transfer. *)
Definition alert_block (notify : bool) (conv node filename : string) : GUI unit :=
  if notify then
    t ← get_thread conv;
    label ← lift (_sender_label t node);
    alert_message sounds conv node (label_or node label) ("file: " +:+ filename)
  else mret tt.

Lemma no_thread_label node : ∃ l, _sender_label None node = Ok l.
Proof. unfold _sender_label. case_match; eauto. Qed.

Lemma alert_block_still notify conv node filename g :
  label_ok conv node g →
  ∃ g', alert_block notify conv node filename g = (Ok tt, g') ∧ still g g'.
Proof.
  intros Hl. unfold alert_block. destruct notify; [|by exists g].
  unfold get_thread. rewrite (M_bind_run _ _ g (dict_get conv (v_threads (g_view g))) g) by done.
  assert (∃ l, _sender_label (dict_get conv (v_threads (g_view g))) node = Ok l) as [l Hlab].
  { destruct (dict_get conv _) as [t|] eqn:Ht; [by apply Hl|apply no_thread_label]. }
  rewrite (M_bind_run _ _ g l g) by (by rewrite <-Hlab).
  destruct (quiet_alert conv node conv node (label_or node l) ("file: " +:+ filename) g Hl) as ([]&g'&E&S).
  eauto.
Qed.

(** A complete buffer whose bytes have the announced hash is stored whole,
    recorded in the conversation, and acknowledged to the daemon. *)
Lemma finalize_complete conv node b seq ts notify rebuilt filename tid g :
  reassemble_file (b_chunks b) (b_total b) = Some rebuilt →
  dict_get "sha256" (b_meta b) = Some (JStr (sha256_hex rebuilt)) →
  field_or "filename" "file" (b_meta b) = Ok filename →
  dict_get "transfer_id" (b_meta b) = Some (JStr tid) →
  int64 seq = true → int64 ts = true → label_ok conv node g →
  let dir := attachments_dir (w_env (g_world g)) (w_home (g_world g)) in
  let path := attachment_path dir conv tid filename in
  ∃ g', _finalize_attachment sounds conv node b seq ts notify g = (Ok true, g') ∧
    sys_all (write_replace path rebuilt 438) (w_fs (g_world g)) = Ok (w_fs (g_world g')) ∧
    w_daemon (g_world g') = w_daemon (g_world g) ∧
    dict_mem (in_id node seq) (messages_t (s_db (g_store g'))) = true ∧
    v_file_bufs (g_view g') = v_file_bufs (g_view g) ∧
    AckAttachment node tid ∈ v_jobs (g_view g').
Proof.
  intros Hre Hsha Hfn Htid Hseq Hts Hl dir path.
  unfold _finalize_attachment. rewrite Hre, Hsha. cbn [fmap option_fmap option_map json_is_str default].
  rewrite bool_decide_eq_true_2 by done. cbv beta iota zeta delta [negb id].
  rewrite (M_bind_run _ _ g filename g) by (by rewrite <-Hfn).
  rewrite (M_bind_run _ _ g tid g) by (unfold lift, jindex; by rewrite Htid).
  destruct (write_replace_spec path rebuilt 438 (w_fs (g_world g))) as (m'&md&Hm&_).
  set (g1 := Gui (g_store g) (g_client g) (g_self_node g) (set_fs m' (g_world g)) (g_view g)).
  rewrite (M_bind_run _ _ g path g1).
  2: { unfold _store_attachment, attachments_path. rewrite (M_bind_run _ _ g dir g) by done.
       cbv zeta. fold path.
       rewrite (M_bind_run _ _ g tt g1); [done|]. unfold gio.
       by rewrite (for_each_sys _ _ m' Hm). }
  cbv zeta. set (att := JObj _).
  destruct (ingest_run conv node seq ts (Some filename) (Some att) (g_store g1) Hseq Hts)
    as (cm&ct&ca&_&_&n&Hrun). cbv zeta in Hrun.
  match type of Hrun with _ = (Ok ?new, ?s') => set (g2 := Gui s' (g_client g1) (g_self_node g1)
    (g_world g1) (g_view g1)); rewrite (M_bind_run _ _ g1 new g2)
    by (unfold gst; by rewrite Hrun) end.
  assert (Hmem : dict_mem (in_id node seq) (messages_t (s_db (g_store g2))) = true).
  { subst g2; cbn [g_store s_db]. destruct (negb _); apply with_message_mem. }
  assert (Hl2 : label_ok conv node g2) by exact Hl.
  assert (Hfs2 : w_fs (g_world g2) = m' ∧ w_daemon (g_world g2) = w_daemon (g_world g) ∧
    v_file_bufs (g_view g2) = v_file_bufs (g_view g)) by done.
  clearbody g2. destruct Hfs2 as (Hfs2&Hd2&Hb2).
  assert (∃ g3, (match b_row b with Some row => destroy_row row | None => mret tt end : GUI unit) g2 = (Ok tt, g3)
    ∧ still g2 g3) as (g3&E3&S3).
  { destruct (b_row b) as [row|]; [|by exists g2].
    destruct (quiet_destroy conv node row g2 Hl2) as ([]&g3&E3&S3). eauto. }
  rewrite (M_bind_run _ _ _ _ _ E3).
  destruct (thread_block_still conv node filename ts att g3) as (g4&E4&S4); [by eapply still_label|].
  unfold thread_block in E4.
  apply M_bind_Ok in E4 as (t&g3'&E3'&E4). rewrite (M_bind_run _ _ _ _ _ E3').
  rewrite (M_bind_run _ _ _ _ _ E4).
  set (g5 := (spawn_job (AckAttachment node tid) g4).2).
  rewrite (M_bind_run _ _ g4 tt g5) by done.
  assert (S5 : still g4 g5). { subst g5. split; cbn; [done..|set_solver|done]. }
  assert (Hl5 : label_ok conv node g5).
  { eapply still_label; [exact S5|]. eapply still_label; [exact S4|]. by eapply still_label. }
  assert (Hj5 : AckAttachment node tid ∈ v_jobs (g_view g5)). { subst g5. cbn. set_solver. }
  clearbody g5.
  destruct (alert_block_still notify conv node filename g5 Hl5) as (g6&E6&S6).
  unfold alert_block in E6. rewrite (M_bind_run _ _ _ _ _ E6).
  exists g6. split; [done|].
  assert (S : still g2 g6) by (do 3 (etrans; [eassumption|]); done). clear -S Hm Hmem Hfs2 Hd2 Hb2 Hj5 S6.
  destruct S as [Hst _ Hw Hb _ _]. rewrite Hw, Hst, Hb. split_and!; [by rewrite Hfs2|done..|].
  by apply S6.
Qed.

(** *** Taking a chunk in *)

(** As [still], but the buffer of one transfer may move. *)
Record moved (key : string * string) (g g' : gui) : Prop := {
  mv_store : g_store g' = g_store g;
  mv_client : g_client g' = g_client g;
  mv_world : g_world g' = g_world g;
  mv_jobs : v_jobs (g_view g) ⊆ v_jobs (g_view g');
  mv_labels conv node : label_ok conv node g → label_ok conv node g';
  mv_bufs k : k ≠ key → dict_get k (v_file_bufs (g_view g')) = dict_get k (v_file_bufs (g_view g));
  mv_wf : dict_wf (v_file_bufs (g_view g)) → dict_wf (v_file_bufs (g_view g'));
}.

#[local] Instance moved_preorder key : PreOrder (moved key).
Proof.
  split; [by split|]. intros g1 g2 g3 [????? H1 ?] [????? H2 ?].
  split; [congruence|congruence|congruence|by etrans|auto| |auto].
  intros k Hk. by rewrite H2, H1.
Qed.
Lemma still_moved key g g' : still g g' → moved key g g'.
Proof. intros [??? Hb ??]. split; [done..|by rewrite Hb|by rewrite Hb]. Qed.

Lemma set_buf_moved key b g :
  ∃ g', set_buf key b g = (Ok tt, g') ∧ moved key g g' ∧
    dict_get key (v_file_bufs (g_view g')) = Some b ∧ v_selected (g_view g') = v_selected (g_view g).
Proof.
  eexists. split; [reflexivity|]. split; [|split; [apply dict_get_set_eq|done]].
  split; cbn; [done..|by intros k Hk; rewrite dict_get_set_ne|by apply dict_set_wf].
Qed.

(** The buffer of a transfer after the chunks [arr]. *)
Definition buf_ok (x : transfer) (arr : list nat) (b : incoming_buf) : Prop :=
  b_chunks b = received (pieces_of (x_data x)) arr ∧ b_total b = x_total x ∧ b_failed b = false ∧
  ∃ i, opened_chunk x i (b_meta b).
Definition holds (x : transfer) (arr : list nat) (g : gui) : Prop :=
  match arr with
  | [] => dict_get (x_key x) (v_file_bufs (g_view g)) = None
  | _ => ∃ b, dict_get (x_key x) (v_file_bufs (g_view g)) = Some b ∧ buf_ok x arr b
  end.

Lemma opened_name x i c : opened_chunk x i c → field_or "filename" "file" c = Ok (x_name x).
Proof.
  intros (_&_&_&_&Hf&_). unfold field_or, str_or, x_name. rewrite Hf. cbn.
  by case_bool_decide.
Qed.

Lemma buffer_for_run x arr i sealed c g :
  holds x arr g → opened_chunk x i c → label_ok (x_thread x) (x_node x) g →
  ∃ b g', buffer_for (x_thread x) (x_key x) (FilePayload (x_tid x) (Z.of_nat i) (x_total x) sealed) c g
      = (Ok b, g') ∧ buf_ok x arr b ∧ moved (x_key x) g g'.
Proof.
  intros Hh Hc Hl. unfold buffer_for.
  rewrite (M_bind_run _ _ g (v_file_bufs (g_view g)) g) by done.
  destruct arr as [|a arr].
  2: { destruct Hh as (b&->&Hb). by exists b, g. }
  unfold holds in Hh. rewrite Hh. cbn [fp_total].
  set (b0 := Buf (x_total x) c ∅ None false).
  destruct (set_buf_moved (x_key x) b0 g) as (g1&E1&M1&_&Hs). rewrite (M_bind_run _ _ _ _ _ E1).
  rewrite (M_bind_run _ _ g1 (v_selected (g_view g1)) g1) by done.
  assert (Hb : ∀ r, buf_ok x [] (Buf (x_total x) c ∅ r false)) 
    by (intros r; refine (conj eq_refl (conj eq_refl (conj eq_refl _))); by exists i).
  case_bool_decide; [|exists b0, g1; split; [reflexivity|by split; [apply Hb|]]].
  rewrite (M_bind_run _ _ g1 (x_name x) g1) by (unfold lift; by rewrite (opened_name x i c)).
  destruct (quiet_append_status (x_thread x) (x_node x) (receiving_text (x_name x) 1 (x_total x)) g1) as (row&g2&E2&S2).
  { by eapply mv_labels. }
  rewrite (M_bind_run _ _ _ _ _ E2). cbv zeta.
  destruct (set_buf_moved (x_key x) (Buf (x_total x) c ∅ (Some row) false) g2) as (g3&E3&M3&_&_).
  rewrite (M_bind_run _ _ _ _ _ E3).
  eexists _, g3. split; [done|]. split; [apply Hb|].
  etrans; [exact M1|]. etrans; [apply still_moved, S2|exact M3].
Qed.

(** What [_incoming_file] does once the buffer holds every chunk. *)
Definition finish (conv node : string) (key : string * string) (b : incoming_buf) (ev : json) : GUI unit :=
  seq ← lift (event_int "seq" ev);
  ts ← lift (event_int "ts" ev);
  ok ← _finalize_attachment sounds conv node b seq ts true;
  _ ← (if ok : bool then mret tt else _mark_file_failed key b);
  show (λ v, set_file_bufs (dict_del key (v_file_bufs v)) v).

Definition x_complete (x : transfer) (arr : list nat) : bool :=
  Z.of_nat (size (received (pieces_of (x_data x)) arr)) =? x_total x.

Lemma absorb_chunk x arr i ev g :
  transfer_ok x → chunk_event x i ev → holds x arr g →
  cl_identity (g_client g) = x_rcpt x → label_ok (x_thread x) (x_node x) g →
  ∃ b g', _incoming_file sounds ev g =
      (if x_complete x (arr ++ [i]) then finish (x_thread x) (x_node x) (x_key x) b ev else mret tt) g' ∧
    buf_ok x (arr ++ [i]) b ∧ dict_get (x_key x) (v_file_bufs (g_view g')) = Some b ∧ moved (x_key x) g g'.
Proof.
  intros Hx Hev Hh Hid Hl.
  destruct (open_chunk_event x i ev Hx Hev) as (sealed&c&Hopen&Hc).
  destruct Hev as (_&rnd&payload&seq&ts&_&->&_).
  unfold _incoming_file. rewrite (M_bind_run _ _ g (x_node x) g) by done.
  rewrite (M_bind_run _ _ g (x_rcpt x) g) by (unfold identity, gets; by rewrite Hid).
  rewrite Hopen. cbn [fp_tid fp_index fp_total].
  pose proof Hc as (_&_&_&Hdata&_&_&Hconv).
  rewrite (M_bind_run _ _ g (x_thread x) g) by (unfold lift; by rewrite Hconv).
  cbv zeta. change (x_thread x, hex (x_tid x)) with (x_key x).
  destruct (buffer_for_run x arr i sealed c g Hh Hc Hl) as (b0&g1&E1&(Hb1&Hb2&Hb3&Hb4)&M1).
  rewrite (M_bind_run _ _ _ _ _ E1). rewrite Hb3.
  rewrite (M_bind_run _ _ g1 (nth i (pieces_of (x_data x)) []) g1).
  2: { unfold lift, jindex. rewrite Hdata. cbn. by rewrite b64decode_encode. }
  set (b := Buf _ _ _ _ _).
  assert (Hb : buf_ok x (arr ++ [i]) b).
  { refine (conj _ (conj Hb2 (conj eq_refl Hb4))). subst b. cbn [b_chunks]. rewrite Hb1.
    unfold received. rewrite foldl_app. reflexivity. }
  destruct (set_buf_moved (x_key x) b g1) as (g2&E2&M2&Hg2&_).
  rewrite (M_bind_run _ _ _ _ _ E2).
  assert (Hl2 : label_ok (x_thread x) (x_node x) g2) by (by eapply mv_labels, mv_labels).
  assert (∃ g3, (match b_row b with
      | Some row => filename ← lift (field_or "filename" "file" c);
          _update_status_row row (receiving_text filename (Z.of_nat (size (b_chunks b))) (x_total x))
      | None => mret tt end : GUI unit) g2 = (Ok tt, g3) ∧ still g2 g3) as (g3&E3&S3).
  { destruct (b_row b) as [row|]; [|by exists g2].
    rewrite (M_bind_run _ _ g2 (x_name x) g2) by (unfold lift; by rewrite (opened_name x i c)).
    edestruct (quiet_update_status (x_thread x) (x_node x) row) as ([]&g3&E3&S3); [exact Hl2|eauto]. }
  rewrite (M_bind_run _ _ _ _ _ E3).
  exists b, g3. split_and!; [|done|by rewrite (st_bufs _ _ S3)|].
  - destruct Hb as (Hbc&Hbt&_). rewrite Hbc, Hbt. unfold x_complete. case_match; [|done]. reflexivity.
  - etrans; [exact M1|]. etrans; [exact M2|]. by apply still_moved.
Qed.

Lemma received_missing (ps : list bytes) arr j :
  Forall (λ i, (i < length ps)%nat) arr → (j < length ps)%nat → j ∉ arr →
  (size (received ps arr) < length ps)%nat.
Proof.
  intros Hin Hj Hn. rewrite <-size_dom.
  assert (Hsub : dom (received ps arr) ⊂ list_to_set (C := gset Z) (range (Z.of_nat (length ps)))).
  { apply strict_spec_alt. split.
    - intros k. rewrite elem_of_dom, elem_of_list_to_set, range_elem. unfold received.
      rewrite received_lookup. case_decide as Hd; [|rewrite lookup_empty; by intros []].
      destruct Hd as [Hk Ha]. intros _. rewrite Forall_forall in Hin. specialize (Hin _ Ha). lia.
    - intros Heq. assert (Hd : Z.of_nat j ∈ dom (received ps arr)).
      { rewrite Heq, elem_of_list_to_set, range_elem. lia. }
      apply elem_of_dom in Hd. unfold received in Hd. rewrite received_lookup in Hd.
      rewrite decide_False in Hd; [by rewrite lookup_empty in Hd; destruct Hd|].
      rewrite Nat2Z.id. by intros [_ ?]. }
  apply subset_size in Hsub. rewrite size_list_to_set in Hsub.
  - unfold range in Hsub. by rewrite length_fmap, length_seq, Nat2Z.id in Hsub.
  - unfold range. apply NoDup_fmap; [apply _|apply NoDup_seq].
Qed.

Lemma complete_spec x arr :
  Forall (λ i, (i < length (pieces_of (x_data x)))%nat) arr →
  x_complete x arr = true ↔ ∀ j, (j < length (pieces_of (x_data x)))%nat → j ∈ arr.
Proof.
  intros Hin. unfold x_complete, x_total. rewrite Z.eqb_eq. split.
  - intros Hs j Hj. destruct (decide (j ∈ arr)) as [|Hn]; [done|].
    pose proof (received_missing _ arr j Hin Hj Hn). lia.
  - intros Hall. rewrite Forall_forall in Hin. by rewrite received_size.
Qed.

Lemma receive_many x pre arr g j :
  transfer_ok x → Forall (λ p, chunk_event x p.1 p.2) arr →
  Forall (λ i, (i < length (pieces_of (x_data x)))%nat) pre →
  holds x pre g → (j < length (pieces_of (x_data x)))%nat → j ∉ pre ++ arr.*1 →
  cl_identity (g_client g) = x_rcpt x → label_ok (x_thread x) (x_node x) g →
  ∃ g', for_each (_incoming_file sounds) arr.*2 g = (Ok tt, g') ∧
    holds x (pre ++ arr.*1) g' ∧ moved (x_key x) g g'.
Proof.
  intros Hx. revert pre g. induction arr as [|[i ev] arr IH]; intros pre g Hev Hpre Hh Hj Hn Hid Hl.
  { exists g. cbn. by rewrite app_nil_r. }
  apply Forall_cons in Hev as [He Hev]. cbn [fst snd fmap list_fmap for_each] in *.
  destruct (absorb_chunk x pre i ev g Hx He Hh Hid Hl) as (b&g1&E1&Hb&Hg1&M1).
  assert (Hpre' : Forall (λ i, (i < length (pieces_of (x_data x)))%nat) (pre ++ [i])).
  { apply Forall_app. split; [done|]. constructor; [by destruct He|done]. }
  assert (x_complete x (pre ++ [i]) = false) as Hc.
  { apply not_true_iff_false. rewrite complete_spec by done. intros Hall.
    apply Hn. specialize (Hall j Hj). set_solver. }
  rewrite Hc in E1. rewrite (M_bind_run _ _ _ _ _ E1).
  destruct (IH (pre ++ [i]) g1) as (g2&E2&H2&M2); try done.
  - destruct pre; (exists b; split; [done|exact Hb]).
  - by rewrite <-app_assoc.
  - by rewrite (mv_client _ _ _ M1).
  - by eapply mv_labels.
  - exists g2. split; [done|]. rewrite <-app_assoc in H2. split; [done|]. by transitivity g1.
Qed.

(** C22: A file cut up, sealed and sent chunk by chunk reaches the receiver's
    disk whole: whatever order the chunks arrive in and however often each
    one does, nothing is written and nothing stored before the last missing
    chunk; on that chunk the file holds exactly the sender's bytes, the
    message is in the conversation, the daemon is sent the acknowledgement
    and the buffer is dropped. *)
Theorem file_arrives x arr i ev g :
  let dir := attachments_dir (w_env (g_world g)) (w_home (g_world g)) in
  let path := attachment_path dir (x_thread x) (hex (x_tid x)) (x_name x) in
  let n := length (pieces_of (x_data x)) in
  transfer_ok x → Forall (λ p, chunk_event x p.1 p.2) arr → chunk_event x i ev →
  (∃ j, (j < n)%nat ∧ j ∉ arr.*1) → (∀ j, (j < n)%nat → j ∈ arr.*1 ++ [i]) →
  cl_identity (g_client g) = x_rcpt x → label_ok (x_thread x) (x_node x) g →
  dict_get (x_key x) (v_file_bufs (g_view g)) = None → dict_wf (v_file_bufs (g_view g)) →
  ∃ g1 g2, for_each (_incoming_file sounds) arr.*2 g = (Ok tt, g1) ∧
    g_world g1 = g_world g ∧ g_store g1 = g_store g ∧
    _incoming_file sounds ev g1 = (Ok tt, g2) ∧
    (∃ md, w_fs (g_world g2) !! path = Some (File (x_data x) md)) ∧
    (∃ seq, event_int "seq" ev = Ok seq ∧
      dict_mem (in_id (x_node x) seq) (messages_t (s_db (g_store g2))) = true) ∧
    AckAttachment (x_node x) (hex (x_tid x)) ∈ v_jobs (g_view g2) ∧
    dict_get (x_key x) (v_file_bufs (g_view g2)) = None.
Proof.
  intros dir path n Hx Harr Hev (j&Hj&Hn) Hall Hid Hl Hnone Hwf.
  destruct (receive_many x [] arr g j) as (g1&E1&H1&M1); [done|done|done|done|done|done|done|done|].
  cbn [app] in H1.
  destruct (absorb_chunk x arr.*1 i ev g1 Hx Hev H1) as (b&g2&E2&Hb&Hg2&M2);
    [by rewrite (mv_client _ _ _ M1)|by eapply mv_labels|].
  assert (Hin : Forall (λ i, (i < n)%nat) (arr.*1 ++ [i])).
  { apply Forall_app. split; [|constructor; [by destruct Hev|done]].
    apply Forall_fmap. eapply Forall_impl; [exact Harr|]. intros p [Hp _]. exact Hp. }
  rewrite (proj2 (complete_spec x _ Hin) Hall) in E2.
  destruct Hev as (_&rnd&payload&seq&ts&_&->&Hseq&Hts).
  destruct Hb as (Hb1&Hb2&Hb3&i0&Hm). pose proof Hm as (Htid&_&_&_&_&Hsha&_).
  assert (Hre : reassemble_file (b_chunks b) (b_total b) = Some (x_data x)).
  { rewrite Hb1, Hb2. unfold x_total. rewrite reassemble_received by done.
    rewrite bool_decide_eq_true_2; [by rewrite pieces_concat|].
    apply Forall_forall. intros k Hk%elem_of_seq. apply Hall. subst n. lia. }
  destruct (finalize_complete (x_thread x) (x_node x) b seq ts true (x_data x) (x_name x) (hex (x_tid x)) g2)
    as (g3&E3&Hfs&_&Hmem&Hbufs&Hjob); try done.
  { by eapply opened_name. }
  { by eapply mv_labels, mv_labels. }
  exists g1. eexists. split; [exact E1|]. split_and!; [apply M1|apply M1| |..].
  - rewrite E2. unfold finish. rewrite (M_bind_run _ _ g2 seq g2) by done.
    rewrite (M_bind_run _ _ g2 ts g2) by done. rewrite (M_bind_run _ _ _ _ _ E3).
    rewrite (M_bind_run _ _ g3 tt g3) by done. reflexivity.
  - cbn. destruct (write_replace_spec path (x_data x) 438 (w_fs (g_world g2))) as (m&md&Hw&Hp&_).
    exists md. rewrite (mv_world _ _ _ M2), (mv_world _ _ _ M1) in Hfs, Hw.
    fold dir path in Hfs. rewrite Hw in Hfs. by injection Hfs as <-.
  - exists seq. by split.
  - exact Hjob.
  - cbn. rewrite Hbufs. apply dict_get_del_eq. by apply M2, M1.
Qed.

(** ** What is ever written *)

(** Attachment [b], complete, is written: its bytes, put together, have the
    SHA-256 its chunk [b_meta b] announces, and go under the name that has. *)
Definition stored_file (dir conv : string) (b : incoming_buf) (F F' : fs) : Prop :=
  ∃ rebuilt tid filename,
    reassemble_file (b_chunks b) (b_total b) = Some rebuilt ∧
    dict_get "sha256" (b_meta b) = Some (JStr (sha256_hex rebuilt)) ∧
    jindex "transfer_id" (JObj (b_meta b)) ≫= as_str = Ok tid ∧
    field_or "filename" "file" (b_meta b) = Ok filename ∧
    sys_all (write_replace (attachment_path dir conv tid filename) rebuilt 438) F = Ok F'.

(** The buffer an event fills, with its chunk in it: the one the window holds
    for the transfer, or a new one that announces what this chunk says. *)
Definition event_buffer (ev : json) (g : gui) : result (string * incoming_buf) :=
  node ← jindex "from" ev ≫= as_str;
  '(parsed, chunk) ← of_option (KeyError "payload") (open_chunk (cl_identity (g_client g)) ev);
  conv ← field_or "conv" node chunk;
  data ← jindex "data" (JObj chunk) ≫= json_b64decode;
  let b := default (Buf (fp_total parsed) chunk ∅ None false)
    (dict_get (conv, hex (fp_tid parsed)) (v_file_bufs (g_view g))) in
  Ok (conv, Buf (b_total b) (b_meta b) (<[fp_index parsed := data]> (b_chunks b)) None false).
(** The one a fetched transfer fills. *)
Definition fetched_buffer (node : string) (chunks : list json) (g : gui) : result (string * incoming_buf) :=
  '(b, _) ← fetch_all (cl_identity (g_client g)) (Buf 0 [] ∅ None false, (0, 0)) chunks;
  conv ← field_or "conv" node (b_meta b);
  Ok (conv, b).

Definition same_parts (b b' : incoming_buf) : Prop :=
  b_total b = b_total b' ∧ b_meta b = b_meta b' ∧ b_chunks b = b_chunks b'.
Lemma stored_same dir conv b b' F F' : same_parts b b' → stored_file dir conv b F F' → stored_file dir conv b' F F'.
Proof. intros (H1&H2&H3). unfold stored_file. by rewrite H1, H2, H3. Qed.

Section Written.
Context (P : world → Prop).
Let I (g : gui) : Prop := P (g_world g).

Lemma keeps_world_show f : keeps I (show f) any.
Proof. by apply keeps_modify. Qed.
Lemma keeps_world_gst {A} (m : ST A) : keeps I (gst m) any.
Proof.
  intros g Hg. unfold gst. destruct (m (g_store g)) as [r s]. by split.
Qed.
Lemma keeps_world_seen {A} (f : view → A) : keeps I (seen f) any.
Proof. apply keeps_gets_any. Qed.
End Written.
Hint Resolve keeps_world_show keeps_world_gst keeps_world_seen : keeps.
Ltac world_tac :=
  repeat first
  [ progress unfold append_bubble, append_row, _append_status_row, _update_status_row, destroy_row,
      put_thread, get_thread, spawn_job, alert_message, _alert_state, notify_new_message, play_sound,
      clock, set_buf, identity, self_node
  | apply keeps_world_show | apply keeps_world_gst | apply keeps_world_seen | keeps_step ].

Lemma keeps_alert P conv node sender body :
  keeps (λ g, P (g_world g)) (alert_message sounds conv node sender body) any.
Proof. world_tac. Qed.
Lemma keeps_mark_failed P key b : keeps (λ g, P (g_world g)) (_mark_file_failed key b) any.
Proof. unfold _mark_file_failed. world_tac. Qed.
Lemma keeps_buffer_for P conv key parsed chunk :
  keeps (λ g, P (g_world g)) (buffer_for conv key parsed chunk) any.
Proof. unfold buffer_for. world_tac. Qed.
Hint Resolve keeps_alert keeps_mark_failed keeps_buffer_for : keeps.

Lemma finalize_stores conv node b seq ts notify g :
  let F := w_fs (g_world g) in
  let F' := w_fs (g_world (_finalize_attachment sounds conv node b seq ts notify g).2) in
  F' = F ∨ stored_file (attachments_dir (w_env (g_world g)) (w_home (g_world g))) conv b F F'.
Proof.
  cbv zeta. unfold _finalize_attachment. destruct (reassemble_file _ _) as [rebuilt|] eqn:Hre; [|by left].
  cbv zeta. destruct (default false _) eqn:Hsha; cbn [negb]; [|by left].
  assert (Hs : dict_get "sha256" (b_meta b) = Some (JStr (sha256_hex rebuilt))).
  { destruct (dict_get "sha256" (b_meta b)) as [j|]; [|done]. cbn in Hsha.
    destruct j; try done. cbn in Hsha. apply bool_decide_eq_true in Hsha. by rewrite Hsha. }
  destruct (field_or "filename" "file" (b_meta b)) as [filename|e] eqn:Hf; [|by left].
  rewrite (M_bind_run _ _ g filename g) by done.
  destruct (jindex "transfer_id" (JObj (b_meta b)) ≫= as_str) as [tid|e] eqn:Ht; [|by left].
  rewrite (M_bind_run _ _ g tid g) by done.
  set (dir := attachments_dir _ _). set (path := attachment_path dir conv tid filename).
  destruct (write_replace_spec path rebuilt 438 (w_fs (g_world g))) as (m'&md&Hm&_).
  set (g1 := Gui (g_store g) (g_client g) (g_self_node g) (set_fs m' (g_world g)) (g_view g)).
  rewrite (M_bind_run _ _ g path g1).
  2: { unfold _store_attachment, attachments_path. rewrite (M_bind_run _ _ g dir g) by done.
       cbv zeta. fold path. rewrite (M_bind_run _ _ g tt g1); [done|]. unfold gio.
       by rewrite (for_each_sys _ _ m' Hm). }
  right. exists rebuilt, tid, filename. split_and!; try done.
  fold path. rewrite Hm. f_equal. symmetry.
  set (rest := gst _ ≫= _).
  assert (Hk : keeps (λ g, w_fs (g_world g) = m') rest any); [|by apply (Hk g1)].
  subst rest. apply (keeps_bind _ _ _ any); [apply (keeps_world_gst (λ w, w_fs w = m'))|intros new _].
  set (P := λ w, w_fs w = m'). change (λ g : gui, w_fs (g_world g) = m') with (λ g : gui, P (g_world g)).
  clearbody P. world_tac.
Qed.

(** [buffer_for] answers the buffer held, or a new one with this chunk's
    announcement. *)
Lemma buffer_for_parts conv key parsed chunk g :
  let b0 := default (Buf (fp_total parsed) chunk ∅ None false) (dict_get key (v_file_bufs (g_view g))) in
  ∃ r g', buffer_for conv key parsed chunk g = (r, g') ∧ g_world g' = g_world g ∧
    ∀ b, r = Ok b → same_parts b b0.
Proof.
  cbv zeta. destruct (buffer_for conv key parsed chunk g) as [r g'] eqn:E. exists r, g'. split; [done|].
  split.
  - destruct (keeps_buffer_for (λ w, w = g_world g) conv key parsed chunk g eq_refl) as [H _]. by rewrite E in H.
  - intros b ->. revert E. unfold buffer_for. rewrite (M_bind_run _ _ g (v_file_bufs (g_view g)) g) by done.
    destruct (dict_get key (v_file_bufs (g_view g))) as [b0|]; cbn [default]; [by intros [= <- _]|].
    intros ([]&g1&_&H)%M_bind_Ok. apply M_bind_Ok in H as (sel&g2&_&H).
    case_bool_decide; [|by injection H as <- _].
    apply M_bind_Ok in H as (filename&g3&_&H). apply M_bind_Ok in H as (row&g4&_&H).
    apply M_bind_Ok in H as ([]&g5&_&H). by injection H as <- _.
Qed.

(** C23: A received file is written only when all its chunks are there and their
    bytes have the SHA-256 the transfer's chunk announces.  Whatever the event
    and the state of the buffers, and however the handler ends, the files are
    those of before, or the buffer this event fills (the one held for its
    transfer, which keeps the announcement of its first chunk, or a new one with
    this chunk's) has all its chunks, with the hash it announces, and is what is
    written, under the name it announces.  The same holds of a transfer fetched
    from the daemon, for the last of its chunks that opens. *)
Theorem only_announced_bytes g :
  let F := w_fs (g_world g) in
  let dir := attachments_dir (w_env (g_world g)) (w_home (g_world g)) in
  (∀ ev, let F' := w_fs (g_world (_incoming_file sounds ev g).2) in
    F' = F ∨ ∃ conv b, event_buffer ev g = Ok (conv, b) ∧ stored_file dir conv b F F') ∧
  (∀ node chunks, let F' := w_fs (g_world (_process_fetched_transfer sounds node chunks g).2) in
    F' = F ∨ ∃ conv b, fetched_buffer node chunks g = Ok (conv, b) ∧ stored_file dir conv b F F').
Proof.
  cbv zeta. split.
  - intros ev. set (P := λ w, w = g_world g). set (I := λ g' : gui, P (g_world g')).
    set (W := λ g' : gui, w_fs (g_world g') = w_fs (g_world g) ∨ ∃ conv b, event_buffer ev g = Ok (conv, b) ∧
      stored_file (attachments_dir (w_env (g_world g)) (w_home (g_world g))) conv b
        (w_fs (g_world g)) (w_fs (g_world g'))).
    assert (Hrefl : ∀ g', I g' → W g') by (intros g' Hw; left; by rewrite Hw).
    change (W (_incoming_file sounds ev g).2). assert (Hg : I g) by done. unfold _incoming_file.
    destruct (jindex "from" ev ≫= as_str) as [node|e] eqn:Hnode; [|by apply Hrefl].
    rewrite (M_bind_run _ _ g node g), (M_bind_run _ _ g (cl_identity (g_client g)) g) by done.
    destruct (open_chunk (cl_identity (g_client g)) ev) as [[parsed chunk]|] eqn:Hopen; [|by apply Hrefl].
    destruct (field_or "conv" node chunk) as [conv|e] eqn:Hconv; [|by apply Hrefl].
    rewrite (M_bind_run _ _ g conv g) by done. cbv zeta.
    destruct (buffer_for_parts conv (conv, hex (fp_tid parsed)) parsed chunk g) as (r&g1&E1&H1&Hb).
    destruct r as [b|e]; [|rewrite (M_bind_raise _ _ _ _ _ E1); by apply Hrefl].
    rewrite (M_bind_run _ _ _ _ _ E1). specialize (Hb b eq_refl) as (Ht&Hme&Hch).
    destruct (b_failed b); [by apply Hrefl|].
    destruct (jindex "data" (JObj chunk) ≫= json_b64decode) as [data|e] eqn:Hdata; [|by apply Hrefl].
    rewrite (M_bind_run _ _ g1 data g1) by done.
    set (b1 := Buf (b_total b) (b_meta b) _ (b_row b) false).
    assert (Hbuf : ∃ b2, event_buffer ev g = Ok (conv, b2) ∧ same_parts b1 b2).
    { eexists. split; [unfold event_buffer; rewrite Hnode; cbn; rewrite Hopen; cbn; rewrite Hconv; cbn;
        cbn in Hdata; rewrite Hdata; cbn; reflexivity|]. by rewrite <-Ht, <-Hme, <-Hch. }
    clearbody b1. clear E1.
    assert (Hfin : ∀ seq ts g', I g' → W (_finalize_attachment sounds conv node b1 seq ts true g').2).
    { intros seq ts g' Hw. pose proof (finalize_stores conv node b1 seq ts true g') as Hf. cbv zeta in Hf.
      rewrite Hw in Hf. destruct Hf as [Hf|Hf]; [by left|right].
      destruct Hbuf as (b2&Hbuf&Hsame). exists conv, b2. split; [done|]. by eapply stored_same. }
    apply (keeps_then I W _ _ any); [apply keeps_world_show|done|done|]. intros _ g6 _ H6.
    apply (keeps_then I W _ _ any); [subst I; world_tac|done|done|]. intros _ g7 _ H7.
    case_match; [|by apply Hrefl].
    apply (keeps_then I W _ _ any); [apply keeps_lift_any|done|done|]. intros seq g8 _ H8.
    apply (keeps_then I W _ _ any); [apply keeps_lift_any|done|done|]. intros ts g9 _ H9.
    apply (then_keeps W); [by apply Hfin|]. intros ok.
    change W with (λ g' : gui, (λ w, w_fs w = w_fs (g_world g) ∨ ∃ conv b, event_buffer ev g = Ok (conv, b) ∧
      stored_file (attachments_dir (w_env (g_world g)) (w_home (g_world g))) conv b
        (w_fs (g_world g)) (w_fs w)) (g_world g')).
    match goal with |- keeps (λ g', ?Q (g_world g')) _ _ => generalize Q end. intros Q. world_tac.
  - intros node chunks. unfold _process_fetched_transfer, fetched_buffer.
    rewrite (M_bind_run _ _ g (cl_identity (g_client g)) g) by done.
    destruct (fetch_all _ _ chunks) as [[b [seq ts]]|e]; [|by left]. cbn [mbind result_bind].
    rewrite (M_bind_run _ _ g (b, (seq, ts)) g) by done.
    case_bool_decide; [by left|].
    destruct (field_or "conv" node (b_meta b)) as [conv|e]; [|by left].
    rewrite (M_bind_run _ _ g conv g) by done.
    pose proof (finalize_stores conv node b seq ts false g) as Hf. cbv zeta in Hf. unfold mbind, M_bind.
    destruct (_finalize_attachment sounds conv node b seq ts false g) as [[ok|e] g']; cbn in *;
      (destruct Hf; [by left|right; by exists conv, b]).
Qed.

(** ** Where a stored file ends up *)

(** The sender's [conv] decides the directory, and a [conv] that is an
    absolute path leaves the attachments directory altogether. *)
Lemma attachment_escapes dir conv tid filename :
  startswith "/" conv = true →
  attachment_path dir conv tid filename = path_join conv (tid +:+ "-" +:+ sanitize_filename (Some filename)).
Proof. intros Hc. unfold attachment_path, path_join at 2. by rewrite Hc. Qed.

(** ** The delivery of a sent file *)

(** The record [id], shown in [row], still waits for the acks [left]. *)
Record following (id row : nat) (filename : string) (total : Z) (left : gset (string * Z)) (g : gui) : Prop := {
  fo_rec : v_recs (g_view g) !! id = Some (Tracked row filename left total);
  fo_pending k : v_pending_files (g_view g) !! k = Some id ↔ k ∈ left;
  fo_rows i rec : v_recs (g_view g) !! i = Some rec → i ≠ id → k_row rec ≠ row;
  fo_text : v_status (g_view g) !! row = Some (file_delivery_text (Tracked row filename left total));
}.

(** What follows the record leaves it alone. *)
Lemma following_bubble id row filename total left labels mid g :
  following id row filename total left g →
  ∃ g', bubble_delivery labels mid g = (Ok tt, g') ∧ following id row filename total left g'.
Proof.
  intros F. unfold bubble_delivery. destruct mid as [mid|]; [|by exists g]. destruct (dict_mem _ _); [|by exists g].
  destruct (delivery_members_of mid (s_db (g_store g))) as [tot don] eqn:Hd.
  unfold mbind, M_bind, gst, delivery_members, query, gets. rewrite Hd. cbn.
  destruct (tot =? 0); cbn; (eexists; split; [reflexivity|]); destruct F; by split.
Qed.
Lemma not_left (k : string * Z) (left : gset (string * Z)) : k ∉ left → left ∖ {[k]} = left.
Proof. intros Hk. by apply difference_disjoint_L, disjoint_singleton_r. Qed.

(** The view in which record [i], [rec], has the ack of [key]. *)
Definition acked (i : nat) (rec : tracked) (key : string * Z) (v : view) : view :=
  let rec := Tracked (k_row rec) (k_filename rec) (k_keys rec ∖ {[key]}) (k_members_total rec) in
  let v := set_tracking (<[i := rec]> (v_recs v)) (delete key (v_pending_files v)) (v_acked_seen v) v in
  set_status (alter (λ _, file_delivery_text rec) (k_row rec) (v_status v)) (v_next v) v.
Lemma following_acked id row filename total left g i rec key :
  following id row filename total left g →
  v_pending_files (g_view g) !! key = Some i → v_recs (g_view g) !! i = Some rec →
  following id row filename total (left ∖ {[key]}) (show (acked i rec key) g).2.
Proof.
  intros [F1 F2 F3 F4] Hp Hi. cbn. destruct (decide (i = id)) as [->|Hne].
  - rewrite F1 in Hi. injection Hi as <-. split; cbn.
    + apply lookup_insert_eq.
    + intros k. destruct (decide (k = key)) as [->|Hk].
      * rewrite lookup_delete_eq. split; [done|set_solver].
      * rewrite lookup_delete_ne by done. rewrite F2. set_solver.
    + intros j r. destruct (decide (j = id)) as [->|]; [done|]. rewrite lookup_insert_ne by done. apply F3.
    + by rewrite lookup_alter_eq, F4.
  - rewrite not_left by (intros Hk%F2; congruence). split; cbn.
    + by rewrite lookup_insert_ne.
    + intros k. destruct (decide (k = key)) as [->|Hk].
      * rewrite lookup_delete_eq. split; [done|intros ?%F2; congruence].
      * rewrite lookup_delete_ne by done. apply F2.
    + intros j r. destruct (decide (j = i)) as [->|]; [|rewrite lookup_insert_ne by done; apply F3].
      rewrite lookup_insert_eq. intros [= <-] _. cbn. by eapply F3.
    + rewrite lookup_alter_ne; [done|]. by eapply F3.
Qed.

Lemma note_acked_follows id row filename total left node seq g :
  int64 seq = true → following id row filename total left g →
  ∃ b g', note_acked node seq g = (Ok b, g') ∧
    following id row filename total (left ∖ {[(node, seq)]}) g'.
Proof.
  intros Hseq F. unfold note_acked. cbv zeta.
  set (key := (node, seq)).
  match goal with |- context [show ?f ≫= _] => set (g1 := (show f g).2) end.
  rewrite (M_bind_run _ _ g tt g1) by done.
  destruct (mark_delivered_run node seq (g_store g1) Hseq) as [n Hm].
  match type of Hm with _ = (Ok ?o, ?s') => set (mid := o) in *;
    set (g2 := Gui s' (g_client g1) (g_self_node g1) (g_world g1) (g_view g1));
    rewrite (M_bind_run _ _ g1 mid g2) by (unfold gst; by rewrite Hm) end.
  rewrite (M_bind_run _ _ g2 (g_view g2) g2) by done.
  assert (F2 : following id row filename total left g2) by (destruct F; by split).
  clearbody mid g2. clear F g1 Hm.
  assert (Hend : ∀ b g3, following id row filename total (left ∖ {[key]}) g3 →
    ∃ b' g', (_ ← bubble_delivery (v_bubble_status (g_view g2)) mid; mret b : GUI bool) g3 = (Ok b', g') ∧
      following id row filename total (left ∖ {[key]}) g').
  { intros b g3 F3. destruct (following_bubble _ _ _ _ _ (v_bubble_status (g_view g2)) mid _ F3) as (g'&E&F').
    exists b, g'. by rewrite (M_bind_run _ _ _ _ _ E). }
  destruct (v_pending_files (g_view g2) !! key) as [i|] eqn:Hp; [destruct (v_recs (g_view g2) !! i) as [rec|] eqn:Hi|].
  - rewrite (M_bind_run _ _ g2 true (show (acked i rec key) g2).2) by done. by apply Hend, following_acked.
  - rewrite (M_bind_run _ _ g2 false g2) by done. apply Hend. rewrite not_left; [done|].
    intros Hk%(fo_pending _ _ _ _ _ _ F2). destruct F2 as [F1 _ _ _]. congruence.
  - rewrite (M_bind_run _ _ g2 false g2) by done. apply Hend. rewrite not_left; [done|].
    intros Hk%(fo_pending _ _ _ _ _ _ F2). congruence.
Qed.

Lemma nodes_of_empty X : size (nodes_of X) = 0%nat ↔ X = ∅.
Proof.
  unfold nodes_of. rewrite size_empty_iff. split; [|intros ->; set_solver].
  intros He. apply leibniz_equiv. set_solver.
Qed.

Lemma note_acks_follow id row filename total acks left g :
  Forall (λ k, int64 k.2 = true) acks → following id row filename total left g →
  ∃ g', for_each (λ k, _ ← note_acked k.1 k.2; mret tt) acks g = (Ok tt, g') ∧
    following id row filename total (left ∖ list_to_set acks) g'.
Proof.
  intros Ha. revert left g. induction Ha as [|[node z] acks Hz _ IH]; intros left g F.
  { exists g. split; [done|]. by rewrite list_to_set_nil, difference_empty_L. }
  cbn [for_each fst snd].
  destruct (note_acked_follows id row filename total left node z g Hz F) as (b&g1&E&F1).
  destruct (IH _ _ F1) as (g2&E2&F2). exists g2. split.
  - rewrite (M_bind_run _ _ g tt g1); [done|]. by rewrite (M_bind_run _ _ _ _ _ E).
  - rewrite list_to_set_cons, <-difference_difference_l_L. exact F2.
Qed.

(** C24: The row under a sent file tells what the window has been told: once it is
    registered and any acks came in after it, in any order, repeated or for
    other transfers, it reads "Delivered" exactly when every chunk the daemon
    queued is among those acks or among the ones the window still remembers when
    the row is registered ([_acked_seen], which it empties above 4096 entries);
    otherwise it counts the recipients that have all theirs. *)
Theorem file_delivery_shown row filename keys acks g :
  let ks := filter (λ k : string * Z, k.2 ≠ 0) keys in
  let left := ks ∖ v_acked_seen (g_view g) ∖ list_to_set acks in
  let k := Tracked row filename left (Z.of_nat (size (nodes_of ks))) in
  is_Some (v_status (g_view g) !! row) →
  (∀ i rec, v_recs (g_view g) !! i = Some rec → (i < v_next (g_view g))%nat ∧ k_row rec ≠ row) →
  (∀ q i, v_pending_files (g_view g) !! q = Some i → (i < v_next (g_view g))%nat) →
  Forall (λ q, int64 q.2 = true) acks →
  ∃ g1 g2, register_file_delivery row filename keys g = (Ok tt, g1) ∧
    for_each (λ q, _ ← note_acked q.1 q.2; mret tt) acks g1 = (Ok tt, g2) ∧
    v_status (g_view g2) !! row = Some (file_delivery_text k) ∧
    (ks ≠ ∅ → file_delivery_text k = "Delivered " +:+ filename +:+ " ✓" ↔ left = ∅).
Proof.
  intros ks left k [t0 Ht0] Hrecs Hpend Hacks.
  set (g1 := (register_file_delivery row filename keys g).2).
  set (total := Z.of_nat (size (nodes_of ks))).
  assert (F : following (v_next (g_view g)) row filename total (ks ∖ v_acked_seen (g_view g)) g1).
  { subst g1. unfold register_file_delivery, _set_delivery_text, _update_status_row.
    rewrite (M_bind_run _ _ g (v_acked_seen (g_view g)) g) by done. cbv zeta. fold ks.
    assert (ks ∖ (ks ∩ v_acked_seen (g_view g)) = ks ∖ v_acked_seen (g_view g)) as -> by set_solver.
    fold total. rewrite (M_bind_run _ _ g (v_next (g_view g)) g) by done.
    unfold mbind, M_bind, show, modify. split; cbn -[set_fold].
    - apply lookup_insert_eq.
    - intros q. rewrite set_fold_insert. case_decide as Hq; [by split|].
      split; [|by intros ?]. intros Hi%Hpend. lia.
    - intros i rec Hi Hne. rewrite lookup_insert_ne in Hi by done. by apply (Hrecs i).
    - by rewrite lookup_alter_eq, Ht0. }
  destruct (note_acks_follow _ _ _ _ acks _ g1 Hacks F) as (g2&E2&[_ _ _ Ht]).
  exists g1, g2. split_and!; [done|done|exact Ht|].
  intros Hks. unfold file_delivery_text. cbn [k_members_total k_keys k_filename k].
  assert (Hn : size (nodes_of ks) ≠ 0%nat) by (by rewrite nodes_of_empty).
  rewrite (proj2 (Z.eqb_neq _ 0)) by lia.
  destruct (Z.eqb_spec (Z.of_nat (size (nodes_of left))) 0) as [H0|H0].
  - split; [intros _|done]. apply nodes_of_empty. lia.
  - split; [by case_match|]. intros He. destruct H0. rewrite He. by rewrite (proj2 (nodes_of_empty ∅)).
Qed.
End Receive.

(** ** Witnesses *)

Section TransfersWitness.
Local Instance tr_json : JsonCodec := RefCodec.
Local Instance tr_json_laws : JsonLaws RefCodec := RefCodec_laws.
Local Instance tr_nacl : NaCl := RefNaCl.
Local Instance tr_nacl_laws : NaClLaws RefNaCl := RefNaCl_laws.
Local Instance tr_daemon : Daemon := {|
  dstate := unit; d_connect _ _ := Ok tt; d_request _ _ d := (Ok JNull, d) |}.
Local Instance tr_markup : Markup := {| markup_escape_text s := s; word_beyond_ascii _ := false |}.
Local Instance tr_zone : Zone := {| utc_offset _ := 0 |}.
Local Instance tr_locale : Locale := {| strftime _ _ := "12:00" |}.
Definition tr_sounds : sound_system := SoundSystem (λ _, false) (λ _, false) (λ _, false) false.

Definition tr_gui (v : view) : gui :=
  Gui (Store empty_db [] 0 empty_db) (Client bob "bo" None) "n0"
    (World ∅ {["AIMLESS_HOME" := "/a"]} "/h" 0 0 [] [] [] tt) v.

(** A contact whose chunks name a directory of the receiver's session as
    their conversation: two chunks, the second one arriving first and twice. *)
Definition tr_file : transfer :=
  Transfer alice bob "n1" (take 16 alice) "a.desktop" "application" (replicate (Z.to_nat 32769) Byte.x01)
    (Some "/h/.config/autostart").

Lemma tr_file_ok : transfer_ok tr_file.
Proof.
  split_and!; [reflexivity..|by apply Z.leb_le; vm_compute|by vm_compute|by vm_compute|].
  intros c [= <-]. by vm_compute.
Qed.
Lemma tr_file_pieces : length (pieces_of (x_data tr_file)) = 2%nat.
Proof. vm_compute. reflexivity. Qed.

Lemma chunk_event_exists x i seq :
  transfer_ok x → (i < length (pieces_of (x_data x)))%nat → int64 seq = true → ∃ ev, chunk_event x i ev.
Proof.
  intros (Hs&Hr&Ht&Hd&Hf&Hm&Hc) Hi Hseq. pose proof (pieces_bounded _ Hd) as Hn.
  assert (Hsha : is_str (sha256_hex (x_data x))) by apply hex_is_str.
  destruct (file_payload_roundtrip (x_sender x) (x_rcpt x) (x_tid x) (Z.of_nat i) (x_total x)
    (x_filename x) (x_mime x) (sha256_hex (x_data x)) (Z.of_nat (length (x_data x)))
    (nth i (pieces_of (x_data x)) []) (x_conv x) 0) as (p&_&_&H1&_); try (unfold x_total; lia); try done.
  exists (file_event (x_node x) p seq 0). split; [done|]. by exists 0%nat, p, seq, 0.
Qed.

Example file_arrives_witness :
  ∃ arr ev g1 g2, length arr = 2%nat ∧
    for_each (_incoming_file tr_sounds) arr (tr_gui empty_view) = (Ok tt, g1) ∧
    _incoming_file tr_sounds ev g1 = (Ok tt, g2) ∧
    ∃ md, w_fs (g_world g2) !! "/h/.config/autostart/0a0a0a0a0a0a0a0a0a0a0a0a0a0a0a0a-a.desktop"
      = Some (File (replicate (Z.to_nat 32769) Byte.x01) md).
Proof.
  destruct (chunk_event_exists tr_file 1 7 tr_file_ok) as [ev1 H1];
    [rewrite tr_file_pieces; lia|reflexivity|].
  destruct (chunk_event_exists tr_file 0 8 tr_file_ok) as [ev0 H0];
    [rewrite tr_file_pieces; lia|reflexivity|].
  destruct (file_arrives tr_sounds tr_file [(1%nat, ev1); (1%nat, ev1)] 0 ev0 (tr_gui empty_view))
    as (g1&g2&E1&_&_&E2&Hf&_).
  - exact tr_file_ok.
  - constructor; [exact H1|constructor; [exact H1|constructor]].
  - exact H0.
  - exists 0%nat. rewrite tr_file_pieces. split; [lia|]. cbn. set_solver.
  - rewrite tr_file_pieces. intros [|[|j]] Hj; [set_solver|set_solver|lia].
  - reflexivity.
  - by intros t [=].
  - reflexivity.
  - constructor.
  - exists [ev1; ev1], ev0, g1, g2. split; [reflexivity|]. split; [exact E1|]. split; [exact E2|]. exact Hf.
Defined.

Definition tr_view : view := set_status {[0%nat := ""]} 1 empty_view.
Example file_delivery_shown_witness :
  ∃ g1 g2,
    register_file_delivery 0 "a.png" {[("n1", 3); ("n1", 4); ("n1", 0)]} (tr_gui tr_view) = (Ok tt, g1) ∧
    for_each (λ q, _ ← note_acked q.1 q.2; mret tt) [("n1", 4); ("n2", 9); ("n1", 3)] g1 = (Ok tt, g2) ∧
    v_status (g_view g2) !! 0%nat = Some "Delivered a.png ✓".
Proof.
  destruct (file_delivery_shown 0 "a.png" {[("n1", 3); ("n1", 4); ("n1", 0)]}
    [("n1", 4); ("n2", 9); ("n1", 3)] (tr_gui tr_view)) as (g1&g2&E1&E2&Ht&_).
  - by eexists.
  - by intros i rec Hi.
  - by intros q i Hi.
  - by repeat constructor.
  - exists g1, g2. split; [exact E1|]. split; [exact E2|]. rewrite Ht. vm_compute. reflexivity.
Defined.
End TransfersWitness.
