(* ===== verification/Conversations.v ===== *)
(** * gtkui.py: the conversations of the messages window

    The sidebar and its threads, the conversation shown, sending and
    receiving, contact requests, blocking, the contacts page: the handlers of
    [MessagesView], [ContactsView] and [AimlessWindow], on the state of the
    window.  A worker's body, and what it hands back, are steps of their own.
    Dialogs are the choice made in them; widgets that repeat a thread's state
    (row titles, badges, the header) are functions of it, which [Sidebar.v]
    shows of the rows. *)

From S2P Require Import Prelude PyStr Codec Json Sys Paths Crypto Protocol Keys Store DaemonClient Service Desktop View Transfers.
From Stdlib Require Import Ascii.
Local Open Scope Z_scope.

(** The flags that keep a second worker of a kind from starting, the open
    request dialog, and the text being composed. *)
Record flags := Flags {
  f_sending : bool;
  f_history_busy : bool;
  f_catchup_busy : bool;
  f_presence_busy : bool;
  f_status_busy : bool;
  f_request_open : bool;
  f_composer : string;
}.
Definition no_flags : flags := Flags false false false false false false "".
Definition set_sending b f := Flags b (f_history_busy f) (f_catchup_busy f) (f_presence_busy f)
  (f_status_busy f) (f_request_open f) (f_composer f).
Definition set_history_busy b f := Flags (f_sending f) b (f_catchup_busy f) (f_presence_busy f)
  (f_status_busy f) (f_request_open f) (f_composer f).
Definition set_catchup_busy b f := Flags (f_sending f) (f_history_busy f) b (f_presence_busy f)
  (f_status_busy f) (f_request_open f) (f_composer f).
Definition set_presence_busy b f := Flags (f_sending f) (f_history_busy f) (f_catchup_busy f) b
  (f_status_busy f) (f_request_open f) (f_composer f).
Definition set_status_busy b f := Flags (f_sending f) (f_history_busy f) (f_catchup_busy f)
  (f_presence_busy f) b (f_request_open f) (f_composer f).
Definition set_request_open b f := Flags (f_sending f) (f_history_busy f) (f_catchup_busy f)
  (f_presence_busy f) (f_status_busy f) b (f_composer f).
Definition set_composer x f := Flags (f_sending f) (f_history_busy f) (f_catchup_busy f) (f_presence_busy f)
  (f_status_busy f) (f_request_open f) x.

(** ** Names *)

(** [_free_petname]: [base], [base 2], [base 3]... the first one not taken. *)
Fixpoint free_loop (fuel : nat) (taken : list (string * json)) (base petname : string) (i : Z) : string :=
  if dict_mem petname taken then
    match fuel with
    | O => petname
    | S fuel => free_loop fuel taken base (base +:+ " " +:+ str_of_int i) (i + 1)
    end
  else petname.
Definition _free_petname (taken : list (string * json)) (base : string) : string :=
  free_loop (length taken) taken base base 2.

(** [sorted((screen, node))]: by screen name, then by node. *)
Definition roster_le (x y : string * string) : Prop :=
  x.1 ≠ y.1 ∧ String.le x.1 y.1 ∨ x.1 = y.1 ∧ String.le x.2 y.2.
#[export] Instance roster_le_dec : RelDecision roster_le := λ x y, ltac:(unfold roster_le; apply _).

(** [m.get("screen") or n[:8]] of a member *)
Definition member_screen (nm : string * json) : result string :=
  screen ← jget "screen" nm.2; str_or (py_take 8 nm.1) screen.
Definition others (self : string) (members : list (string * json)) : list (string * json) :=
  List.filter (λ nm, negb (bool_decide (nm.1 = self))) members.

(** The title of a room: the first three screen names, and how many more. *)
Definition room_title (self : string) (members : list (string * json)) : result string :=
  screens ← map_result member_screen (others self members);
  let screens := merge_sort String.le screens in
  let n := length screens in
  Ok (join ", " (take 3 screens) +:+
      (if (3 <? n)%nat then " +" +:+ str_of_int (Z.of_nat n - 3) else "")).

(** ** What the rows read *)

Section Markup.
Context `{MU : Markup}.
(** The palette in use, [C]. *)
Context (role : string → string).

Definition dot (color : string) : string := "<span foreground='" +:+ color +:+ "'>●</span>".
Definition presence_color (p : option presence_state) : string :=
  match p with
  | Some p => if ps_online p then role "online" else if truthy (ps_away p) then role "away" else role "offline"
  | None => role "offline"
  end.
Definition _room_dots_markup (members : list (string * json)) (pb : list (string * presence_state))
    (exclude : string) : result string :=
  entries ← map_result (λ nm, s ← member_screen nm; Ok (s, nm.1)) (others exclude members);
  Ok (join "" ((λ e, dot (presence_color (dict_get e.2 pb))) <$> merge_sort roster_le entries)).

Definition online_count (self : string) (t : thread) : nat * nat :=
  let ns := others self (th_members t) in
  (length (List.filter (λ nm, match dict_get nm.1 (th_presence t) with Some p => ps_online p | None => false end) ns),
   length ns).
Definition online_text (self : string) (t : thread) : string :=
  let '(online, total) := online_count self t in
  str_of_int (Z.of_nat online) +:+ "/" +:+ str_of_int (Z.of_nat total).
Definition _sidebar_title_markup (t : thread) (self : string) : string :=
  let name := "<b>" +:+ markup_escape_text (th_screen t) +:+ "</b>" in
  if th_is_room t then
    dot (if (0 <? (online_count self t).1)%nat then role "online" else role "offline")
      +:+ "  <span size='small' foreground='" +:+ role "subtitle" +:+ "'>" +:+ online_text self t
      +:+ "</span>  " +:+ name
  else
    dot (if th_online t then role "online" else if truthy (th_away t) then role "away" else role "offline")
      +:+ "  " +:+ name.
Definition _room_header_markup (t : thread) (self : string) : result string :=
  dots ← _room_dots_markup (th_members t) (th_presence t) self;
  Ok ("<big><b>" +:+ markup_escape_text (th_screen t) +:+ "</b></big>  " +:+ dots
      +:+ "  <span size='small' foreground='" +:+ role "subtitle" +:+ "'>" +:+ online_text self t
      +:+ " online</span>").
End Markup.

(** The second line of a sidebar row, and its badge. *)
Definition row_subtitle (muted : bool) (t : thread) : string :=
  if muted then "muted"
  else match th_away t with
       | JStr a => if bool_decide (a = "") then th_preview t else a
       | _ => th_preview t
       end.
Definition row_badge (t : thread) : option Z := if 0 <? th_unread t then Some (th_unread t) else None.
(** [refresh_unread_indicator]: the window's title. *)
Definition unread_total (threads : list (string * thread)) : Z :=
  foldr Z.add 0 ((λ kt : string * thread, th_unread kt.2) <$> threads).
Definition window_title (app_name : string) (threads : list (string * thread)) : string :=
  let n := unread_total threads in
  if n =? 0 then app_name else app_name +:+ " (" +:+ str_of_int n +:+ ")".

Section Conversations.
Context `{N : NaCl} `{J : JsonCodec} `{D : Daemon} `{MU : Markup} `{Z_ : Zone} `{L : Locale}.
Context (sounds : sound_system).

(** The programs of the window. *)
Definition WM (A : Type) : Type := M (flags * gui) A.
Definition on_gui {A} (m : GUI A) : WM A := λ '(f, g), let '(r, g) := m g in (r, (f, g)).
Definition flag {A} (p : flags → A) : WM A := gets (λ s, p s.1).
Definition mark (p : flags → flags) : WM unit := modify (λ s, (p s.1, s.2)).
(** [session.sync] on the session's store and client. *)
Definition gapp {A} (m : APP A) : GUI A := λ g,
  let '(r, (s, (c, w))) := m (g_store g, (g_client g, g_world g)) in
  (r, Gui s c (g_self_node g) w (g_view g)).

(** ** The session *)

(** [Session.__init__], once the store and the connection are open: our node
    key, and no contact muted. *)
Definition unmute_contact (kv : string * json) : GUI unit :=
  node ← lift (jget "node" kv.2);
  match node with
  | Some n =>
    if truthy n then
      n ← lift (as_str n);
      muted ← gst (is_muted n);
      if muted : bool then gst (unmute n) else mret tt
    else mret tt
  | None => mret tt
  end.
Definition session_ready : GUI unit :=
  who ← gcl whoami;
  key ← lift (jindex "key" who ≫= as_str);
  _ ← modify (λ g, Gui (g_store g) (g_client g) key (g_world g) (g_view g));
  d ← contacts_dict;
  for_each unmute_contact d.
Definition my_invite : GUI string :=
  who ← gcl whoami;
  key ← lift (jindex "key" who ≫= as_str);
  c ← gets g_client;
  lift (make_invite (cl_identity c) key (cl_screen c)).
Definition refresh_node : GUI string :=
  who ← gcl whoami;
  key ← lift (jindex "key" who ≫= as_str);
  _ ← modify (λ g, Gui (g_store g) (g_client g) key (g_world g) (g_view g));
  mret key.

(** [Session.save_contacts] *)
Definition save_session_contacts (contacts : list (string * json)) (self_info : json) : GUI unit :=
  write_contacts (dict_set "_self" self_info contacts).

Definition _add_contact_from_roster (node : string) (pubkey : json) (screen : string) : GUI string :=
  d ← contacts_dict;
  let screen := label_or node (Some screen) in
  let petname := _free_petname d screen in
  _ ← write_contacts (dict_set petname
        (JObj [("pubkey", pubkey); ("node", JStr node); ("screen", JStr screen)]) d);
  mret petname.

(** ** Presence *)

Definition _presence_state (identity : bytes) (p : json) : result presence_state :=
  online ← jget "online" p;
  attached ← get_or "client_attached" (JBool true) p;
  payload ← jget "status_payload" p;
  if negb (default false (truthy <$> online)) then Ok (Presence false JNull false)
  else if negb (truthy attached)
  then Ok (Presence false (JStr "client offline - messages will be delivered") true)
  else
    let away := match payload with
                | Some pl =>
                  if truthy pl then
                    match (text ← as_str pl; st ← decrypt_status identity text; jget "away" (JObj st)) with
                    | Ok (Some a) => if truthy a then a else JNull
                    | _ => JNull
                    end
                  else JNull
                | None => JNull
                end in
    Ok (Presence true away false).

(** [presence.get(n, {})] *)
Definition presence_of (n : string) (presence : list (string * json)) : json :=
  default (JObj []) (dict_get n presence).

Definition refresh_thread (identity : bytes) (self : string) (presence : list (string * json))
    (conv : string) (t : thread) : result thread :=
  if th_is_room t then
    pb ← map_result (λ nm : string * json,
           p ← _presence_state identity (presence_of nm.1 presence); Ok (nm.1, p)) (others self (th_members t));
    Ok (with_presence (existsb (λ np, ps_online np.2) pb) JNull pb t)
  else
    p ← _presence_state identity (presence_of conv presence);
    Ok (with_presence (ps_online p) (ps_away p) (th_presence t) t).
Definition refresh_presence (presence : list (string * json)) : GUI unit :=
  c ← gets g_client;
  self ← self_node;
  threads ← seen v_threads;
  for_each (λ kt : string * thread,
    t ← lift (refresh_thread (cl_identity c) self presence kt.1 kt.2); put_thread kt.1 t) threads.

(** [poll_presence]: its worker and its callbacks. *)
Definition poll_presence : WM bool :=
  busy ← flag f_presence_busy;
  if busy : bool then mret false else _ ← mark (set_presence_busy true); mret true.
Fixpoint by_key (l : list json) (d : list (string * json)) : result (list (string * json)) :=
  match l with
  | [] => Ok d
  | p :: l => k ← jindex "key" p ≫= as_str; by_key l (dict_set k p d)
  end.
Definition presence_worker : CL (list (string * json)) :=
  l ← presence; lift (as_list l ≫= λ l, by_key l []).
Definition presence_done (presence : list (string * json)) : WM unit :=
  _ ← mark (set_presence_busy false); on_gui (refresh_presence presence).
Definition presence_fail : WM unit :=
  _ ← mark (set_presence_busy false);
  _ ← on_gui (show (λ v, set_threads
        ((λ kt : string * thread, (kt.1, with_presence false (th_away kt.2) (th_presence kt.2) kt.2)) <$> v_threads v) v));
  on_gui (refresh_presence []).

(** ** The conversation shown *)

(** The status row under a sent file that is still tracked. *)
Definition show_file_row (m : message) : GUI unit :=
  '(total, _) ← gst (delivery_members (g_id m));
  if total =? 0 then mret tt
  else
    row ← _append_status_row "";
    left ← gst (undelivered (g_id m));
    id ← seen v_next;
    let rec := Tracked row (default "" (g_text m)) (list_to_set left) total in
    _ ← show (λ v, set_status (v_status v) (S id) v);
    _ ← show (λ v, set_tracking (<[id := rec]> (v_recs v))
           (foldr (λ k p, <[k := id]> p) (v_pending_files v) left) (v_acked_seen v) v);
    _set_delivery_text rec.

(** A message without text cannot be marked up. *)
Definition show_message (t : thread) (m : message) : GUI unit :=
  text ← lift (of_option TypeError (g_text m));
  match g_dir m, g_delivery m with
  | Out, Some (delivered, total, acked) =>
    _ ← append_bubble true text (g_ts m) None (g_att m) (Some (g_id m, (default 0 total, acked)));
    match g_att m, delivered with
    | Some a, Some _ => if truthy a then show_file_row m else mret tt
    | _, _ => mret tt
    end
  | _, _ =>
    label ← lift (_sender_label (Some t) (g_sender m));
    append_bubble false text (g_ts m) label (g_att m) None
  end.
Definition _render_messages (conv : string) (t : thread) : GUI unit :=
  _ ← show (λ v, set_bubble_status [] (set_shown [] (set_status ∅ (v_next v) v)));
  ms ← gst (messages conv);
  for_each (show_message t) ms.

(** [_history_loaded], [refresh_conversation]: a conversation is drawn again
    when it is the one shown. *)
Definition _history_loaded (conv : string) : GUI unit :=
  selected ← seen v_selected;
  t ← get_thread conv;
  match t with
  | Some t => if bool_decide (selected = Some conv) then _render_messages conv t else mret tt
  | None => mret tt
  end.

(** [load_history_async]: the nodes whose streams its worker fetches, unless
    one is at work already; the worker; its callbacks. *)
Definition thread_nodes (conv : string) (t : option thread) : list string :=
  match t with Some t => if th_is_room t then (th_members t).*1 else [conv] | None => [conv] end.
Definition load_history_async (conv : string) : WM (option (list string)) :=
  busy ← flag f_history_busy;
  if busy : bool then mret None
  else
    _ ← mark (set_history_busy true);
    t ← on_gui (get_thread conv);
    mret (Some (thread_nodes conv t)).
Definition fetch_worker (nodes : list string) : GUI (list (string * json)) := gapp (fetch nodes).
Definition apply_all (hists : list (string * json)) : GUI unit :=
  for_each (λ pr : string * json, _ ← gapp (apply_app pr.1 pr.2); mret tt) hists.
Definition history_done (conv : string) (hists : list (string * json)) : WM unit :=
  _ ← mark (set_history_busy false);
  on_gui (_ ← apply_all hists; _history_loaded conv).
Definition history_fail (e : exn) : WM unit :=
  _ ← mark (set_history_busy false);
  on_gui (append_system_note ("history unavailable: " +:+ exn_str e)).

(** [on_thread_selected]: the conversation becomes the one shown and is read. *)
Definition on_thread_selected (conv : option string) : WM (option (list string)) :=
  match conv with
  | None => _ ← on_gui (show (set_selected None)); mret None
  | Some conv =>
    t ← on_gui (get_thread conv);
    match t with
    | None => mret None
    | Some t =>
      _ ← on_gui (show (set_selected (Some conv)));
      let t := with_unread 0 t in
      _ ← on_gui (put_thread conv t);
      _ ← on_gui (gst (mark_read conv));
      _ ← on_gui (_render_messages conv t);
      load_history_async conv
    end
  end.

(** ** The sidebar *)

(** A thread leaves the sidebar; the conversation shown closes with it. *)
Definition drop_thread (conv : string) : GUI unit :=
  selected ← seen v_selected;
  _ ← show (λ v, set_threads (dict_del conv (v_threads v)) v);
  if bool_decide (selected = Some conv) then show (set_selected None) else mret tt.

Definition new_dm (petname : string) (info : json) (screen : string) : thread :=
  Thread false petname info [] screen false JNull "" 0 [].
Definition new_room (members : list (string * json)) (title : string) : thread :=
  Thread true "" JNull members title false JNull "" 0 [].
Definition as_contact (petname : string) (info : json) (screen : string) (t : thread) : thread :=
  Thread (th_is_room t) petname info (th_members t) screen (th_online t) (th_away t) (th_preview t)
    (th_unread t) (th_presence t).
Definition as_room (members : list (string * json)) (title : string) (t : thread) : thread :=
  Thread (th_is_room t) (th_petname t) (th_contact t) members title (th_online t) (th_away t)
    (th_preview t) (th_unread t) (th_presence t).

(** One buddy of the contact list, one room of the store. *)
Definition sync_contact (kv : string * json) : GUI unit :=
  node ← lift (jindex "node" kv.2 ≫= as_str);
  screen ← lift (get_or "screen" (JStr kv.1) kv.2 ≫= as_str);
  t ← get_thread node;
  put_thread node (match t with
                   | Some t => as_contact kv.1 kv.2 screen t
                   | None => new_dm kv.1 kv.2 screen
                   end).
Definition sync_room (conv : string) : GUI unit :=
  mem ← gst (members conv);
  mem ← lift (match mem with JObj d => Ok d | _ => Raise AttributeError end);
  self ← self_node;
  title ← lift (room_title self mem);
  t ← get_thread conv;
  put_thread conv (match t with Some t => as_room mem title t | None => new_room mem title end).

Definition sync_sidebar : GUI unit :=
  d ← contacts;
  nodes ← lift (contact_nodes d);
  threads ← seen v_threads;
  _ ← for_each (λ kt : string * thread,
        if th_is_room kt.2 || bool_decide (kt.1 ∈ nodes) then mret tt else drop_thread kt.1) threads;
  _ ← for_each sync_contact (merge_sort key_le d);
  rs ← gst rooms;
  for_each sync_room rs.

(** [create_room], from the contacts chosen in the dialog. *)
Definition create_room (chosen : list json) : WM (option (list string)) :=
  self ← on_gui self_node;
  c ← on_gui (gets g_client);
  let me := (self, JObj [("node", JStr self); ("pubkey", JStr (pubkey_hex c)); ("screen", JStr (cl_screen c))]) in
  infos ← lift (map_result (λ info,
    node ← jindex "node" info;
    n ← as_str node;
    pubkey ← jindex "pubkey" info;
    screen ← get_or "screen" (JStr "") info;
    Ok (n, JObj [("node", node); ("pubkey", pubkey); ("screen", screen)])) chosen);
  let mem := dict_update [me] infos in
  let conv := room_id (merge_sort String.le mem.*1) in
  _ ← on_gui (gst (ensure_room conv (JObj mem)));
  _ ← on_gui sync_sidebar;
  t ← on_gui (get_thread conv);
  match t with Some _ => on_thread_selected (Some conv) | None => mret None end.

(** [catchup_unread]: everything journaled while no client ran is fetched
    once, and what arrived is counted per conversation. *)
Definition catchup_unread : WM (option (list string)) :=
  busy ← flag f_catchup_busy;
  if busy : bool then mret None
  else
    _ ← mark (set_catchup_busy true);
    threads ← on_gui (seen v_threads);
    mret (Some (remove_dups (concat ((λ kt : string * thread, thread_nodes kt.1 (Some kt.2)) <$> threads)))).
Definition message_count (conv : string) : GUI Z :=
  ms ← gst (messages conv); mret (Z.of_nat (length ms)).
Definition count_arrived (before : list (string * Z)) (arrived : Z) (kt : string * thread) : GUI Z :=
  n ← message_count kt.1;
  let delta := n - default 0 (dict_get kt.1 before) in
  if 0 <? delta then
    selected ← seen v_selected;
    _ ← (if bool_decide (selected = Some kt.1) then mret tt
         else put_thread kt.1 (with_unread (th_unread kt.2 + delta) kt.2));
    mret (arrived + delta)
  else mret arrived.
Fixpoint count_all (before : list (string * Z)) (threads : list (string * thread)) (arrived : Z) : GUI Z :=
  match threads with
  | [] => mret arrived
  | kt :: threads => arrived ← count_arrived before arrived kt; count_all before threads arrived
  end.
Definition catchup_unread_done (hists : list (string * json)) : WM unit :=
  _ ← mark (set_catchup_busy false);
  on_gui (
    threads ← seen v_threads;
    before ← map_m (λ kt : string * thread, n ← message_count kt.1; mret (kt.1, n)) threads;
    _ ← apply_all hists;
    arrived ← count_all before threads 0;
    if 0 <? arrived
    then activity ("unread sweep: " +:+ str_of_int arrived +:+ " message(s) arrived while you were away")
    else mret tt).
Definition catchup_unread_fail : WM unit := mark (set_catchup_busy false).

(** ** Sending *)

(** A message handed to a worker; its conversation's thread is that of the
    moment it was sent. *)
Record sending := Sending { s_conv : string; s_thread : thread; s_text : string; s_ts : Z }.

Definition send_message : WM (option sending) :=
  selected ← on_gui (seen v_selected);
  match selected with
  | None => mret None
  | Some conv =>
    composed ← flag f_composer;
    let text := strip composed in
    busy ← flag f_sending;
    t ← on_gui (get_thread conv);
    match t with
    | Some t =>
      if bool_decide (text = "") then mret None
      else if busy : bool then mret None
      else
        ts ← on_gui clock;
        _ ← mark (set_sending true);
        _ ← mark (set_composer "");
        mret (Some (Sending conv t text ts))
    | None => mret None
    end
  end.
(** The sequence number the daemon gave, per recipient. *)
Definition message_worker (s : sending) : CL (list (string * Z)) :=
  if th_is_room (s_thread s) then
    seqs ← send_room (th_members (s_thread s)).*2 (s_conv s) (s_text s) (s_ts s);
    lift (map_result (λ kv : string * json, z ← as_int kv.2; Ok (kv.1, z)) seqs)
  else
    pubkey ← lift (jindex "pubkey" (th_contact (s_thread s)) ≫= as_str);
    node ← lift (jindex "node" (th_contact (s_thread s)) ≫= as_str);
    resp ← send pubkey node (s_text s) (s_ts s);
    seq ← lift (get_or "seq" (JInt 0) resp ≫= as_int);
    mret [(node, seq)].
(** The preview goes to the conversation shown by then; with none shown
    [self.selected["preview"]] fails. *)
Definition message_done (s : sending) (seqs : list (string * Z)) : WM unit :=
  _ ← mark (set_sending false);
  on_gui (
    _ ← _append_outgoing (s_conv s) seqs (s_ts s) (s_text s) None None;
    selected ← seen v_selected;
    match selected with
    | Some conv => update_thread conv (with_preview (s_text s))
    | None => raise TypeError
    end).
Definition message_fail (e : exn) : WM unit :=
  _ ← mark (set_sending false);
  on_gui (
    _ ← append_system_note ("⚠ send failed: " +:+ exn_str e +:+ " - the message was not queued");
    activity ("send failed: " +:+ exn_str e)).

(** ** Receiving *)

(** The items of [opened.get("members", [])], as rosters keep them. *)
Fixpoint roster (l : list json) (d : list (string * json)) : result (list (string * json)) :=
  match l with
  | [] => Ok d
  | m :: l =>
    node ← jindex "node" m;
    n ← as_str node;
    pubkey ← jindex "pubkey" m;
    screen ← get_or "screen" (JStr "") m;
    roster l (dict_set n (JObj [("node", node); ("pubkey", pubkey); ("screen", screen)]) d)
  end.
Definition roster_of (opened : list (string * json)) : result (list (string * json)) :=
  members ← get_or "members" (JArr []) (JObj opened);
  match members with
  | JArr l => roster l []
  | JStr "" | JObj [] => Ok []
  | _ => Raise TypeError
  end.
(** A message that names a conversation brings the room's roster. *)
Definition adopt_room (conv : string) (opened : list (string * json)) : GUI unit :=
  if default false (truthy <$> dict_get "conv" opened) then
    mem ← lift (roster_of opened);
    match mem with [] => mret tt | _ => gst (ensure_room conv (JObj mem)) end
  else mret tt.

(** [cache.add_recv(conv, node, ev.get("seq", 0), opened["ts"], opened["text"])] *)
Definition keep_message (conv node : string) (ev : json) (opened : list (string * json)) : GUI unit :=
  seq ← lift (event_int "seq" ev);
  ts ← lift (jindex "ts" (JObj opened));
  text ← lift (jindex "text" (JObj opened));
  _ ← gst (ingest_opened_fields conv node seq ts text);
  mret tt.
(** The bubble of a message that has just come. *)
Definition show_incoming (conv node : string) (opened : list (string * json)) : GUI unit :=
  text ← lift (jindex "text" (JObj opened) ≫= as_str);
  ts ← lift (jindex "ts" (JObj opened) ≫= as_int);
  t ← get_thread conv;
  label ← lift (_sender_label t node);
  append_bubble false text ts label None None.

(** The request kept for a message from a stranger. *)
Definition request_of (node : string) (ev : json) (opened : list (string * json)) : result (list (string * json)) :=
  from ← jget "from" (JObj opened);
  screen ← field_or "screen" (py_take 8 node) opened;
  conv ← jget "conv" (JObj opened);
  members ← jget "members" (JObj opened);
  seq ← get_or "seq" (JInt 0) ev;
  ts ← jindex "ts" (JObj opened);
  text ← jindex "text" (JObj opened);
  Ok [("node", JStr node); ("pubkey", default JNull from); ("screen", JStr screen);
      ("conv", default JNull conv);
      ("members", match members with Some m => if truthy m then m else JArr [] | None => JArr [] end);
      ("seq", seq); ("ts", ts); ("text", text)].

(** [surface_pending_requests], up to the dialog: the request to ask about. *)
Definition surface_pending_requests : WM (option json) :=
  open ← flag f_request_open;
  if open : bool then mret None
  else
    req ← on_gui (gst pending_pop);
    match req with
    | None => mret None
    | Some req => _ ← mark (set_request_open true); mret (Some req)
    end.

(** A message from a buddy: stored, shown or counted, and announced. *)
Definition receive (conv node : string) (ev : json) (opened : list (string * json)) : GUI unit :=
  _ ← keep_message conv node ev opened;
  text ← lift (jindex "text" (JObj opened) ≫= as_str);
  _ ← update_thread conv (with_preview text);
  selected ← seen v_selected;
  _ ← (if bool_decide (selected = Some conv) then show_incoming conv node opened
       else update_thread conv (λ t, with_unread (th_unread t + 1) t));
  screen ← lift (field_or "screen" (py_take 8 node) opened);
  alert_message sounds conv node screen text.

(** A message from a buddy, and one from anybody else; the answer is the
    request to ask about, if there is one. *)
Definition from_contact (conv node : string) (ev : json) (opened : list (string * json)) : WM (option json) :=
  t ← on_gui (get_thread conv);
  _ ← (match t with Some _ => mret tt | None => on_gui sync_sidebar end);
  t ← on_gui (get_thread conv);
  match t with
  | None => mret None
  | Some _ => _ ← on_gui (receive conv node ev opened); mret None
  end.
Definition from_stranger (node : string) (ev : json) (opened : list (string * json)) : WM (option json) :=
  blocked ← on_gui (gst (is_muted node));
  if blocked : bool then mret None
  else
    req ← lift (request_of node ev opened);
    _ ← on_gui (gst (add_pending req));
    surface_pending_requests.
(** In a muted conversation a message is kept, and shown if that is the one
    shown. *)
Definition in_muted (conv node : string) (ev : json) (opened : list (string * json)) : WM (option json) :=
  _ ← on_gui (keep_message conv node ev opened);
  selected ← on_gui (seen v_selected);
  t ← on_gui (get_thread conv);
  _ ← on_gui (match t with
              | Some _ => if bool_decide (selected = Some conv) then show_incoming conv node opened else mret tt
              | None => mret tt
              end);
  mret None.

(** A text message that was decrypted. *)
Definition incoming_opened (node : string) (ev : json) (opened : list (string * json)) : WM (option json) :=
  conv ← lift (conv_of node opened);
  _ ← on_gui (adopt_room conv opened);
  muted ← on_gui (gst (is_conversation_muted conv));
  if muted : bool then in_muted conv node ev opened
  else
    d ← on_gui contacts;
    nodes ← lift (contact_nodes d);
    if bool_decide (node ∈ nodes) then from_contact conv node ev opened else from_stranger node ev opened.

Definition incoming (ev : json) : WM (option json) :=
  kind ← lift (jget "type" ev);
  if default false (json_is_str "file" <$> kind) then _ ← on_gui (_incoming_file sounds ev); mret None
  else
    node ← lift (jget "from" ev ≫= λ o, of_option TypeError (o ≫= json_str));
    id ← on_gui identity;
    opened ← lift (catch is_value_or_key (Some <$> decrypt_recv id ev) (λ _, Ok None));
    match opened with
    | None => mret None
    | Some opened => incoming_opened node ev opened
    end.

(** ** Contact requests *)

Inductive choice := Accept | Deny | Block.

(** [req.get(k, dflt)] of a request, as the store keeps it *)
Definition req_text (k : string) (req : list (string * json)) : result string := jindex k (JObj req) ≫= as_str.

Definition accept_request (req : list (string * json)) : GUI unit :=
  node ← lift (req_text "node" req);
  pubkey ← lift (jindex "pubkey" (JObj req));
  screen ← lift (field_or "screen" "" req);
  petname ← _add_contact_from_roster node pubkey screen;
  _ ← gst (unmute node);
  _ ← spawn_job (SetBlock node false);
  conv ← lift (conv_of node req);
  _ ← adopt_room conv req;
  seq ← lift (get_or "seq" (JInt 0) (JObj req) ≫= as_int);
  ts ← lift (get_or "ts" (JInt 0) (JObj req));
  text ← lift (get_or "text" (JStr "") (JObj req));
  _ ← gst (ingest_opened_fields conv node seq ts text);
  _ ← sync_sidebar;
  _ ← _history_loaded conv;
  activity ("added " +:+ petname).
Definition block_request (req : list (string * json)) : GUI unit :=
  node ← lift (req_text "node" req);
  _ ← gst (mute node);
  screen ← lift (field_or "screen" (py_take 8 node) req);
  _ ← gst (set_blocked_screen node (Some screen));
  _ ← spawn_job (SetBlock node true);
  activity ("blocked " +:+ screen).
Definition deny_request (req : list (string * json)) : GUI unit :=
  node ← lift (req_text "node" req);
  screen ← lift (field_or "screen" (py_take 8 node) req);
  activity ("denied " +:+ screen).
(** What follows the dialog, which is closed whatever happens; the next
    request is looked for later. *)
Definition answer_request (req : list (string * json)) (c : choice) : WM unit :=
  _ ← mark (set_request_open false);
  on_gui (match c with
          | Accept => accept_request req
          | Block => block_request req
          | Deny => deny_request req
          end).

(** ** Deleting, clearing, muting, blocking *)

(** What is confirmed in a dialog, with the nodes whose streams are asked
    about; the worker of both; the callbacks. *)
Record removal := Removal { r_conv : string; r_title : string; r_nodes : list string }.
Definition other_nodes (self : string) (t : thread) : list string :=
  merge_sort String.le (others self (th_members t)).*1.
Definition on_delete_room (confirmed : bool) : GUI (option removal) :=
  selected ← seen v_selected;
  match selected with
  | None => mret None
  | Some conv =>
    t ← get_thread conv;
    self ← self_node;
    match t with
    | Some t => mret (if th_is_room t && confirmed then Some (Removal conv (th_screen t) (other_nodes self t)) else None)
    | None => mret None
    end
  end.
Definition on_clear_history (confirmed : bool) : GUI (option removal) :=
  selected ← seen v_selected;
  match selected with
  | None => mret None
  | Some conv =>
    t ← get_thread conv;
    self ← self_node;
    match t with
    | Some t => mret (if confirmed then Some (Removal conv (th_screen t)
                        (if th_is_room t then other_nodes self t else [conv])) else None)
    | None => mret None
    end
  end.
Fixpoint latest_worker (nodes : list string) : CL (list (string * Z)) :=
  match nodes with
  | [] => mret []
  | n :: nodes =>
    resp ← history n 0;
    latest ← lift (get_or "latest" (JInt 0) resp ≫= as_int);
    rest ← latest_worker nodes;
    mret ((n, latest) :: rest)
  end.
(** The thread is the one the dialog was about. *)
Definition delete_done (r : removal) (latests : list (string * Z)) : GUI unit :=
  _ ← gst (delete_room (r_conv r) latests);
  _ ← drop_thread (r_conv r);
  activity ("deleted room " +:+ r_title r).
Definition delete_fail (e : exn) : GUI unit :=
  _ ← append_system_note ("delete failed: " +:+ exn_str e); activity ("delete failed: " +:+ exn_str e).
Definition clear_done (r : removal) (latests : list (string * Z)) : GUI unit :=
  _ ← gst (clear_history (r_conv r));
  _ ← for_each (λ '(n, latest), if latest =? 0 then mret tt else gst (set_cursor n latest)) latests;
  _ ← update_thread (r_conv r) (with_preview "");
  selected ← seen v_selected;
  _ ← (if bool_decide (selected = Some (r_conv r))
       then show (λ v, set_shown [] (set_status ∅ (v_next v) v)) else mret tt);
  activity ("cleared history with " +:+ r_title r).
Definition clear_fail (e : exn) : GUI unit :=
  _ ← append_system_note ("clear failed: " +:+ exn_str e); activity ("clear failed: " +:+ exn_str e).

Definition on_toggle_mute : GUI unit :=
  selected ← seen v_selected;
  match selected with
  | None => mret tt
  | Some conv =>
    t ← get_thread conv;
    match t with
    | None => mret tt
    | Some t =>
      muted ← gst (is_conversation_muted conv);
      if muted : bool
      then _ ← gst (unmute_conversation conv); activity ("unmuted " +:+ th_screen t)
      else _ ← gst (mute_conversation conv); activity ("muted " +:+ th_screen t)
    end
  end.

(** The contacts of a node, taken out of the file's. *)
Definition without_node (node : string) (d : list (string * json)) : result (list (string * json)) :=
  marked ← map_result (λ kv : string * json,
    if bool_decide (kv.1 = "_self") then Ok (kv, true)
    else n ← jget "node" kv.2; Ok (kv, negb (default false (json_is_str node <$> n)))) d;
  Ok (List.filter snd marked).*1.
Definition on_block (confirmed : bool) : GUI unit :=
  selected ← seen v_selected;
  match selected with
  | None => mret tt
  | Some node =>
    t ← get_thread node;
    match t with
    | None => mret tt
    | Some t =>
      if th_is_room t || negb confirmed then mret tt
      else
        _ ← gst (mute node);
        _ ← gst (set_blocked_screen node (Some (th_screen t)));
        d ← contacts_dict;
        d ← lift (without_node node d);
        _ ← write_contacts d;
        _ ← drop_thread node;
        _ ← spawn_job (SetBlock node true);
        activity ("blocked " +:+ th_screen t)
    end
  end.

(** A member of the room shown: a buddy's conversation is opened, another is
    made a buddy first. *)
Definition on_member_chip (node screen : string) (known confirmed : bool) : WM (option (list string)) :=
  let open :=
    t ← on_gui (get_thread node);
    match t with Some _ => on_thread_selected (Some node) | None => mret None end in
  if known then open
  else if negb confirmed then mret None
  else
    selected ← on_gui (seen v_selected);
    t ← match selected with Some conv => on_gui (get_thread conv) | None => mret None end;
    match t ≫= λ t, dict_get node (th_members t) with
    | None => mret None
    | Some info =>
      if truthy info then
        pubkey ← lift (jget "pubkey" info);
        petname ← on_gui (_add_contact_from_roster node (default JNull pubkey) screen);
        _ ← on_gui (gst (unmute node));
        _ ← on_gui (spawn_job (SetBlock node false));
        _ ← on_gui sync_sidebar;
        _ ← on_gui (activity ("added " +:+ petname +:+ " from the room"));
        open
      else mret None
    end.

(** ** The contacts page *)

Fixpoint find_by_pubkey (client_hex : string) (d : list (string * json)) : result (option (string * json)) :=
  match d with
  | [] => Ok None
  | kv :: d =>
    pk ← jget "pubkey" kv.2;
    if default false (json_is_str client_hex <$> pk) then Ok (Some kv) else find_by_pubkey client_hex d
  end.
(** What [on_add] writes under the entries: its status line. *)
Definition on_add (invite petname : string) : GUI string :=
  let petname := strip petname in
  parsed ← lift (catch is_value_error (inl <$> parse_invite (strip invite))
             (λ e, Ok (inr ("error: " +:+ exn_str e))));
  match parsed with
  | inr message => mret message
  | inl (client_hex, node_hex, screen) =>
    c ← gets g_client;
    if bool_decide (client_hex = pubkey_hex c) then mret "error: that's your own invite - send it to a friend"
    else
      d ← contacts;
      found ← lift (find_by_pubkey client_hex d);
      match found with
      | Some (k, info) =>
        node ← lift (jget "node" info);
        if default false (json_is_str node_hex <$> node) then mret ("already known as " +:+ k)
        else
          allc ← contacts_dict;
          info ← lift (jindex k (JObj allc));
          info ← lift (match info with JObj i => Ok (JObj (dict_set "node" (JStr node_hex) i)) | _ => Raise TypeError end);
          _ ← write_contacts (dict_set k info allc);
          _ ← sync_sidebar;
          mret ("updated routing key for " +:+ k)
      | None =>
        allc ← contacts_dict;
        let name := if bool_decide (petname = "") then screen else petname in
        _ ← write_contacts (dict_set name
              (JObj [("pubkey", JStr client_hex); ("node", JStr node_hex); ("screen", JStr screen)]) allc);
        _ ← spawn_job (AddContact node_hex);
        _ ← sync_sidebar;
        mret ("added " +:+ screen)
      end
  end.
Definition on_remove (petname : string) (confirmed : bool) : GUI (option string) :=
  if negb confirmed then mret None
  else
    allc ← contacts_dict;
    _ ← write_contacts (dict_del petname allc);
    _ ← sync_sidebar;
    mret (Some ("removed " +:+ petname)).
(** The mute is lifted whatever the daemon answers. *)
Definition on_unblock (node : string) : GUI unit :=
  _ ← gst (unmute node);
  _ ← gst (clear_blocked_screen node);
  spawn_job (SetBlock node false).

(** ** Away *)

Fixpoint push_status (contacts : list (string * json)) (away : json) (errors : list string) : CL (list string) :=
  match contacts with
  | [] => mret errors
  | (_, info) :: contacts =>
    failed ← try_with is_exception
      (pubkey ← lift (jindex "pubkey" info ≫= as_str);
       node ← lift (jindex "node" info ≫= as_str);
       _ ← DaemonClient.set_status pubkey node away; mret None)
      (λ e, mret (Some e));
    match failed with
    | Some e =>
      screen ← lift (jget "screen" info);
      push_status contacts away (errors ++ [py_str (default (JStr "?") screen) +:+ ": " +:+ exn_str e])
    | None => push_status contacts away errors
    end
  end.
Definition push_status_done (away : string) (log_status : bool) (errors : list string) : GUI unit :=
  _ ← (match errors with [] => mret tt | _ => activity ("setstatus failed: " +:+ join "; " errors) end);
  if log_status then activity (if bool_decide (away = "") then "available" else "away: " +:+ away) else mret tt.
(** [on_set_away], [set_away], with what was typed: the preference kept, and
    what the buddies are told. *)
Definition set_away (typed : string) : GUI json :=
  let away := strip typed in
  prefs ← seen v_prefs;
  let prefs := dict_set "away" (JStr away) prefs in
  _ ← show (set_prefs prefs);
  _ ← gio (save_prefs (JObj prefs));
  mret (if bool_decide (away = "") then JNull else JStr away).

(** ** The events of the daemon *)

(** [int(seq or 0)] *)
Definition ack_seq (o : option json) : result Z :=
  match o with Some j => if truthy j then as_int j else Ok 0 | None => Ok 0 end.
(** An event that fails ends the loop for this time; the requests to ask
    about come out in order. *)
Definition handle_event (ev : json) : WM (option json) :=
  op ← lift (jget "op" ev);
  if default false (json_is_str "recv" <$> op) then incoming ev
  else if default false (json_is_str "acked" <$> op) then
    to_ ← lift (jget "to" ev);
    seq ← lift (jget "seq" ev);
    node ← lift (of_option TypeError (to_ ≫= json_str));
    n ← lift (ack_seq seq);
    hit ← on_gui (note_acked node n);
    _ ← (if hit : bool then mret tt
         else on_gui (activity ("delivered: seq " +:+ py_str (default JNull seq) +:+ " → "
                                +:+ py_take 16 node +:+ "…")));
    mret None
  else mret None.
Fixpoint drain_events (evs : list json) (requests : list json) : WM (list json * list json) :=
  match evs with
  | [] => mret ([], requests)
  | ev :: evs =>
    r ← try_with is_exception (q ← handle_event ev; mret (Some q))
          (λ e, _ ← on_gui (activity ("event error: " +:+ exn_str e)); mret None);
    match r with
    | Some q => drain_events evs (match q with Some q => requests ++ [q] | None => requests end)
    | None => mret (evs, requests)
    end
  end.

(** ** Keys and backups *)

Definition _backup_payload : GUI json :=
  dir ← gets (λ g, daemon_dir (w_env (g_world g)) (w_home (g_world g)));
  seed ← gio (try_with is_os_error
    (content ← read_file (path_join dir "node.key");
     text ← lift (utf8_decode content); mret (JStr (strip text)))
    (λ _, mret JNull));
  c ← gets g_client;
  allc ← contacts_file;
  mret (JObj [("identitySeed", JStr (hex (cl_identity c))); ("nodeSeed", seed);
              ("screen", JStr (cl_screen c)); ("pubkey", JStr (pubkey_hex c)); ("contacts", allc)]).
Definition export_backup_to (path passphrase : string) : GUI unit :=
  data ← _backup_payload; gio (save_bundle path passphrase data).
End Conversations.

(** *** Without a window *)

Section Setup.
Context `{N : NaCl} `{J : JsonCodec} `{D : Daemon}.

Definition io_path (f : gmap string string → string → string) : IO string :=
  gets (λ w, f (w_env w) (w_home w)).

Definition create_identity (passphrase screen : string) : IO string :=
  identity ← new_identity;
  path ← io_path identity_path;
  _ ← save_identity path identity passphrase;
  cpath ← io_path contacts_path;
  allc ← load_contacts cpath;
  d ← lift (match allc with JObj d => Ok d | _ => Raise TypeError end);
  _ ← save_contacts cpath (JObj (dict_set "_self"
        (JObj [("screen", JStr (if bool_decide (screen = "") then "anonymous" else screen));
               ("pubkey", JStr (hex (sign_pk identity)))]) d));
  mret passphrase.

Definition restore_bundle (path bundle_passphrase app_passphrase : string) : IO json :=
  data ← load_bundle path bundle_passphrase;
  seed ← lift (get_or "identitySeed" (JStr "") data ≫= json_fromhex);
  if negb (length seed =? 32)%nat then raise (ValueError "backup is missing the identity seed")
  else
    ipath ← io_path identity_path;
    _ ← save_identity ipath seed app_passphrase;
    node_seed ← lift (jget "nodeSeed" data);
    _ ← (match node_seed with
         | Some j =>
           if truthy j then
             node_bytes ← lift (json_fromhex j);
             dir ← io_path daemon_dir;
             _ ← write_node_key dir node_bytes; mret tt
           else mret tt
         | None => mret tt
         end);
    saved ← lift (jget "contacts" data);
    _ ← (match saved with
         | Some j => if truthy j then cpath ← io_path contacts_path; save_contacts cpath j else mret tt
         | None => mret tt
         end);
    mret data.
End Setup.
