(* ===== verification/ConversationsProps.v ===== *)
(** * Properties of the conversations window

    The name a new contact gets; what a stranger's message leaves alone and a
    contact's message brings; the sidebar after it is brought up to date; and,
    evaluated, where the handlers do more than they should. *)

From S2P Require Import Prelude PyStr Codec Json Sys Paths Crypto Protocol Keys Store StoreProps DaemonClient Service Desktop View Transfers Conversations.
From Stdlib Require Import Ascii.
Local Open Scope Z_scope.

(** ** Free names *)

(** The names tried, in order. *)
Definition petname_candidate (base : string) (k : nat) : string :=
  match k with O => base | S k => base +:+ " " +:+ str_of_int (Z.of_nat k + 2) end.

#[local] Instance petname_candidate_inj base : Inj (=) (=) (petname_candidate base).
Proof.
  assert (Hne : ∀ k, petname_candidate base (S k) ≠ base).
  { intros k Hk%(f_equal String.length). cbn in Hk. rewrite !str_length_app in Hk. cbn in Hk. lia. }
  intros [|j] [|k]; [done|intros H; by destruct (Hne k)|intros H; by destruct (Hne j)|].
  cbn. intros H%str_app_inj_l%(str_app_inj_l " ")%(inj str_of_int). lia.
Qed.

Lemma free_loop_spec fuel taken base k :
  ∃ j, free_loop fuel taken base (petname_candidate base k) (Z.of_nat k + 2) = petname_candidate base (k + j) ∧
    (j <= fuel)%nat ∧ (∀ i, (i < j)%nat → dict_mem (petname_candidate base (k + i)) taken = true) ∧
    (dict_mem (petname_candidate base (k + j)) taken = false ∨ j = fuel).
Proof.
  revert k. induction fuel as [|fuel IH]; intros k; cbn [free_loop];
    destruct (dict_mem (petname_candidate base k) taken) eqn:Hk.
  - exists 0%nat. rewrite Nat.add_0_r. split_and!; [done|lia|lia|by right].
  - exists 0%nat. rewrite Nat.add_0_r. split_and!; [done|lia|lia|by left].
  - destruct (IH (S k)) as (j&E&Hj&Hall&Hend). exists (S j).
    rewrite <-Nat.add_succ_comm. split_and!; [|lia| |naive_solver lia].
    + rewrite <-E. f_equal. lia.
    + intros [|i] Hi; [by rewrite Nat.add_0_r|]. rewrite <-Nat.add_succ_comm. apply Hall. lia.
  - exists 0%nat. rewrite Nat.add_0_r. split_and!; [done|lia|lia|by left].
Qed.

(** The name a contact is added under is never taken, and it is the first free
    one of the screen name, the screen name and 2, 3...: the loop of
    [_free_petname] ends, after at most as many tries as there are names. *)
Theorem free_petname_spec taken base :
  ∃ k, _free_petname taken base = petname_candidate base k ∧ (k <= length taken)%nat ∧
    dict_mem (petname_candidate base k) taken = false ∧
    ∀ i, (i < k)%nat → dict_mem (petname_candidate base i) taken = true.
Proof.
  destruct (free_loop_spec (length taken) taken base 0) as (k&E&Hk&Hall&Hend).
  exists k. split_and!; [exact E|done| |exact Hall].
  destruct Hend as [?| ->]; [done|]. apply not_true_iff_false. intros Hlast.
  assert (Hin : (petname_candidate base <$> seq 0 (S (length taken))) ⊆ taken.*1).
  { intros x (i & Hx & Hi%elem_of_seq)%list_elem_of_fmap. subst x. apply dict_mem_true.
    destruct (decide (i = length taken)) as [->|]; [done|]. apply Hall. lia. }
  assert (Hnd : NoDup (petname_candidate base <$> seq 0 (S (length taken)))).
  { apply NoDup_fmap; [apply _|apply NoDup_seq]. }
  pose proof (submseteq_length _ _ (NoDup_submseteq _ _ Hnd Hin)) as Hlen.
  rewrite !length_fmap, length_seq in Hlen. lia.
Qed.

Section Windows.
Context `{N : NaCl} `{J : JsonCodec} `{D : Daemon} `{MU : Markup} `{Z_ : Zone} `{L : Locale}.
Context (sounds : sound_system).

(** ** Messages that come in *)

Definition conv_muted (conv : string) (d : db) : bool :=
  match dict_get conv (conversations d) with Some r => negb (c_muted r =? 0) | None => false end.

(** [g] with another table of conversations in its store. *)
Definition with_rooms (t : list (string * conv_row)) (n : nat * db) (g : gui) : gui :=
  Gui (at_db (set_conversations t (s_db (g_store g))) (s_key (g_store g)) n)
    (g_client g) (g_self_node g) (g_world g) (g_view g).

(** What a message does to the table of conversations before anybody asks who
    sent it: nothing, or, when it names a conversation and brings a roster, it
    makes that conversation's row a room with that roster, as muted as before. *)
Definition roster_adopted (conv : string) (opened : list (string * json)) (t t' : list (string * conv_row)) : Prop :=
  t' = t ∨ ∃ mem m, (truthy <$> dict_get "conv" opened) = Some true ∧
    roster_of opened = Ok mem ∧ mem ≠ [] ∧
    t' = upsert conv (ConvRow 0 m 0 0) (λ r, ConvRow 0 m (c_muted r) 0) t.

(** A roster is adopted, or refused, without a word, and whether the
    conversation is muted does not change. *)
Lemma adopt_room_run conv opened g :
  ∃ r t n, adopt_room conv opened g = (r, with_rooms t n g) ∧
    roster_adopted conv opened (conversations (s_db (g_store g))) t ∧
    conv_muted conv (set_conversations t (s_db (g_store g))) = conv_muted conv (s_db (g_store g)) ∧
    (r = Ok tt ∨ ∃ e, r = Raise e).
Proof.
  assert (Hsame : ∃ n, with_rooms (conversations (s_db (g_store g))) n g = g).
  { exists (s_rng (g_store g), s_saved (g_store g)). by destruct g as [[[] ? ? ?] ? ? ? ?]. }
  destruct Hsame as [n Hn].
  assert (Hstay : ∀ r : result unit, adopt_room conv opened g = (r, g) → (r = Ok tt ∨ ∃ e, r = Raise e) →
    ∃ r t n, adopt_room conv opened g = (r, with_rooms t n g) ∧
      roster_adopted conv opened (conversations (s_db (g_store g))) t ∧
      conv_muted conv (set_conversations t (s_db (g_store g))) = conv_muted conv (s_db (g_store g)) ∧
      (r = Ok tt ∨ ∃ e, r = Raise e)).
  { intros r Hr ?. exists r, (conversations (s_db (g_store g))), n. rewrite Hn. split_and!; [done|by left|done..]. }
  unfold adopt_room in *. destruct (truthy <$> dict_get "conv" opened) as [[]|] eqn:Hc; cbn [default id] in *;
    [|by apply (Hstay (Ok tt)); [|left]..].
  unfold mbind, M_bind, lift in *.
  destruct (roster_of opened) as [mem|e] eqn:Hros; [|by apply (Hstay (Raise e)); [|right; eauto]].
  destruct mem as [|kv mem]; [by apply (Hstay (Ok tt)); [|left]|]. clear Hstay.
  eexists (Ok tt), _, (_, _). split_and!; [reflexivity| | |by left].
  { right. exists (kv :: mem). eexists. split; [done|]. split; [exact Hros|]. split; [done|]. reflexivity. }
  unfold conv_muted. cbn. rewrite dict_get_upsert, decide_True by done.
  by destruct (dict_get conv _).
Qed.

(** What no stranger's message touches. *)
Record untouched (g g' : gui) : Prop := {
  un_view : g_view g' = g_view g;
  un_world : g_world g' = g_world g;
  un_client : g_client g' = g_client g;
  un_self : g_self_node g' = g_self_node g;
  un_messages : messages_t (s_db (g_store g')) = messages_t (s_db (g_store g));
  un_cursors : watermark (s_db (g_store g')) = watermark (s_db (g_store g));
  un_read : read_marks (s_db (g_store g')) = read_marks (s_db (g_store g));
  un_deliveries : deliveries (s_db (g_store g')) = deliveries (s_db (g_store g));
  un_muted : muted_nodes (s_db (g_store g')) = muted_nodes (s_db (g_store g));
  un_blocked : blocked_screens (s_db (g_store g')) = blocked_screens (s_db (g_store g));
  un_salt : meta_salt (s_db (g_store g')) = meta_salt (s_db (g_store g));
  un_key : s_key (g_store g') = s_key (g_store g);
}.
#[local] Instance untouched_preorder : PreOrder untouched.
Proof. split; [by split|]. intros g1 g2 g3 [] []. split; congruence. Qed.


(** The contacts file read at [g]. *)
Definition contact_list (g : gui) : result (list (string * json)) := eval contacts g.

Lemma load_contacts_run path w : load_contacts path w = (eval (load_contacts path) w, w).
Proof.
  unfold eval, load_contacts, path_exists, read_file, lift, mbind, M_bind. cbn.
  destruct (fs_exists path (w_fs w)); [|done]. by destruct (fs_read path (w_fs w)).
Qed.
Lemma read_contacts_run g : contacts_file g = (eval contacts_file g, g).
Proof.
  unfold contacts_file, eval, gio, gets, mbind, M_bind. cbn. rewrite load_contacts_run. by destruct g.
Qed.
Lemma contacts_dict_run g : contacts_dict g = (eval contacts_dict g, g).
Proof.
  unfold contacts_dict, contacts_file, eval, gio, gets, mbind, M_bind, lift. cbn.
  rewrite load_contacts_run. by destruct g, (eval _ _) as [[]|].
Qed.
Lemma contacts_run g : contacts g = (contact_list g, g).
Proof.
  unfold contact_list, contacts, eval, mbind, M_bind. rewrite contacts_dict_run.
  by destruct (eval contacts_dict g).
Qed.

Lemma on_gui_run {A} (m : GUI A) f g r g' : m g = (r, g') → on_gui m (f, g) = (r, (f, g')).
Proof. unfold on_gui. by intros ->. Qed.
Lemma gst_run {A} (m : ST A) g r s : m (g_store g) = (r, s) →
  gst m g = (r, Gui s (g_client g) (g_self_node g) (g_world g) (g_view g)).
Proof. unfold gst. by intros ->. Qed.



(** The handler up to the question whose message it is. *)
Lemma incoming_unmuted conv node ev opened d nodes f g :
  conv_of node opened = Ok conv → conv_muted conv (s_db (g_store g)) = false →
  contact_list g = Ok d → contact_nodes d = Ok nodes →
  ∃ r t n, adopt_room conv opened g = (r, with_rooms t n g) ∧
    roster_adopted conv opened (conversations (s_db (g_store g))) t ∧
    match r with
    | Ok _ => incoming_opened sounds node ev opened (f, g) =
        (if bool_decide (node ∈ nodes) then from_contact sounds conv node ev opened
         else from_stranger node ev opened) (f, with_rooms t n g)
    | Raise e => incoming_opened sounds node ev opened (f, g) = (Raise e, (f, with_rooms t n g))
    end.
Proof.
  intros Hconv Hmuted Hd Hnodes.
  destruct (adopt_room_run conv opened g) as (r&t&n&E1&Ha&Hm&Hr).
  exists r, t, n. split; [done|]. split; [done|]. unfold incoming_opened.
  rewrite (M_bind_run _ _ (f, g) conv (f, g)) by (unfold lift; by rewrite Hconv).
  destruct Hr as [->|[e ->]]; [|by rewrite (M_bind_raise _ _ _ _ _ (on_gui_run _ f _ _ _ E1))].
  rewrite (M_bind_run _ _ _ _ _ (on_gui_run _ f _ _ _ E1)).
  assert (M1 : gst (is_conversation_muted conv) (with_rooms t n g) = (Ok false, with_rooms t n g)).
  { change (gst (is_conversation_muted conv) (with_rooms t n g)) with
      (Ok (conv_muted conv (set_conversations t (s_db (g_store g)))), with_rooms t n g).
    by rewrite Hm, Hmuted. }
  assert (C1 : contacts (with_rooms t n g) = (Ok d, with_rooms t n g)).
  { rewrite contacts_run. unfold contact_list, eval, contacts, contacts_dict, contacts_file, gio, gets,
      mbind, M_bind, lift in *. cbn. rewrite load_contacts_run. rewrite load_contacts_run in Hd. cbn in Hd.
    destruct (eval _ _) as [[]|]; cbn in *; congruence. }
  rewrite (M_bind_run _ _ _ _ _ (on_gui_run _ f _ _ _ M1)).
  rewrite (M_bind_run _ _ _ _ _ (on_gui_run _ f _ _ _ C1)).
  rewrite (M_bind_run _ _ _ nodes (f, with_rooms t n g)) by (unfold lift; by rewrite Hnodes). done.
Qed.


Lemma alert_message_run conv node sender body g :
  ∃ l a, alert_message sounds conv node sender body g =
    (Ok tt, Gui (g_store g) (g_client g) (g_self_node g) (g_world g) (set_alerts l a (g_view g))).
Proof.
  unfold alert_message, _alert_state, is_conversation_muted, is_muted, query, notify_new_message, play_sound,
    clock, gst, seen, show, gets, modify, mbind, M_bind. cbn.
  set (b1 := should_notify _ _ _ _). clearbody b1. destruct g as [[sd sk sn ss] c self w [ ]]; cbn.
  destruct b1; cbn; set (b2 := should_play_sound _ _ _ _ _); clearbody b2; destruct b2; cbn;
    try (set (p := play_notification_sound _ _ _ _ _); clearbody p; destruct p); by eexists _, _.
Qed.

(** The parts of an opened text message its handler goes by. *)
Record text_message (node : string) (ev : json) (opened : list (string * json)) (seq ts : Z) (text screen : string) : Prop := {
  tm_seq : event_int "seq" ev = Ok seq;
  tm_seq_fits : int64 seq = true;
  tm_ts : dict_get "ts" opened = Some (JInt ts);
  tm_ts_fits : int64 ts = true;
  tm_text : dict_get "text" opened = Some (JStr text);
  tm_screen : field_or "screen" (py_take 8 node) opened = Ok screen;
}.

(** The row a message received makes. *)
Record received (key : bytes) (conv node : string) (seq ts : Z) (text : string) (r : msg_row) : Prop := {
  rc_conv : m_conv r = conv;
  rc_sender : m_sender r = node;
  rc_dir : m_dir r = In;
  rc_ts : m_ts r = ts;
  rc_seq : m_seq r = seq;
  rc_text : ∃ k, m_text r = blob_of key (Some text) k;
}.
(** The roster of the conversation is the one it was. *)
Definition roster_kept (conv : string) (s s' : store) : Prop :=
  ∀ r, dict_get conv (conversations (s_db s)) = Some r →
    ∃ r', dict_get conv (conversations (s_db s')) = Some r' ∧ c_members r' = c_members r.
Definition stored (conv node : string) (seq ts : Z) (text : string) (s s' : store) : Prop :=
  s_key s' = s_key s ∧ roster_kept conv s s' ∧
  ∃ r, dict_get (in_id node seq) (messages_t (s_db s')) = Some r ∧
    (dict_get (in_id node seq) (messages_t (s_db s)) = None → received (s_key s) conv node seq ts text r).

Lemma roster_kept_ingest conv row mid new r d :
  let d' := with_message mid r (with_conv conv row d) in
  ∀ r0, dict_get conv (conversations d) = Some r0 →
  ∃ r1, dict_get conv (conversations (if new : bool then unhide conv d' else d')) = Some r1 ∧
    c_members r1 = c_members r0.
Proof.
  intros d' r0 Hr. assert (Hd : dict_get conv (conversations d') = Some r0).
  { unfold d', with_message, with_conv, insert_or_ignore. cbn. destruct (dict_mem conv (conversations d)) eqn:Hm; cbn.
    - exact Hr.
    - unfold dict_mem in Hm. by rewrite Hr in Hm. }
  clearbody d'. destruct new; [|eauto]. unfold unhide. cbn. rewrite dict_get_update, decide_True, Hd by done. cbn. eauto.
Qed.

Lemma keep_message_run conv node ev opened seq ts text screen g :
  text_message node ev opened seq ts text screen →
  ∃ s, keep_message conv node ev opened g = (Ok tt, Gui s (g_client g) (g_self_node g) (g_world g) (g_view g)) ∧
    stored conv node seq ts text (g_store g) s.
Proof.
  intros [Hseq Hs Hts Ht Htext _]. unfold keep_message, jindex.
  rewrite (M_bind_run _ _ g seq g) by (unfold lift; by rewrite Hseq).
  rewrite (M_bind_run _ _ g (JInt ts) g) by (unfold lift; by rewrite Hts).
  rewrite (M_bind_run _ _ g (JStr text) g) by (unfold lift; by rewrite Htext).
  cbn [ingest_opened_fields json_int json_str].
  destruct (ingest_run conv node seq ts (Some text) None (g_store g) Hs Ht) as (m&t&a&[k Hk]&_&n&Hrun).
  cbv zeta in Hrun. rewrite (M_bind_run _ _ _ _ _ (gst_run _ _ _ _ Hrun)).
  eexists. split; [reflexivity|]. split; [done|]. cbn [s_db].
  split; [intros r0 Hr0; by apply roster_kept_ingest|].
  set (d := with_conv _ _ _). assert (Hd : messages_t d = messages_t (s_db (g_store g))) by done.
  clearbody d.
  assert (Hu : ∀ r, ∃ r', dict_get (in_id node seq) (messages_t (with_message (in_id node seq) r d)) = Some r' ∧
    (dict_get (in_id node seq) (messages_t (s_db (g_store g))) = None → r' = r)).
  { intros r. unfold with_message, insert_or_ignore, dict_mem. cbn. rewrite Hd.
    destruct (dict_get _ (messages_t _)) as [r'|] eqn:E; cbn.
    - rewrite E. by exists r'.
    - rewrite dict_get_snoc, E, decide_True by done. eauto. }
  match goal with |- context [with_message _ ?r d] => destruct (Hu r) as (r'&Hr'&Hc) end.
  exists r'. split; [by destruct (negb _)|]. intros Hnew. rewrite (Hc Hnew). split; [done..|]. by exists k.
Qed.

(** The thread of a message that came, and its bubble when it is shown. *)
Definition thread_received (text : string) (is_shown : bool) (t : thread) : thread :=
  with_unread (th_unread t + (if is_shown then 0 else 1)) (with_preview text t).
Definition bubbles_received (text : string) (ts : Z) (label : option string) (is_shown : bool) : list shown :=
  if is_shown then [Bubble false text ts label None] else [].

Lemma update_thread_run conv (h : thread → thread) t g :
  dict_get conv (v_threads (g_view g)) = Some t →
  update_thread conv h g = (Ok tt, Gui (g_store g) (g_client g) (g_self_node g) (g_world g)
    (set_threads (dict_set conv (h t) (v_threads (g_view g))) (g_view g))).
Proof. intros Ht. unfold update_thread, get_thread, seen, gets, mbind, M_bind. cbn. by rewrite Ht. Qed.

Lemma show_incoming_run conv node ev opened seq ts text screen t label g :
  text_message node ev opened seq ts text screen → dict_get conv (v_threads (g_view g)) = Some t →
  _sender_label (Some t) node = Ok label →
  show_incoming conv node opened g = (Ok tt, Gui (g_store g) (g_client g) (g_self_node g) (g_world g)
    (set_shown (v_shown (g_view g) ++ [Bubble false text ts label None]) (g_view g))).
Proof.
  intros [_ _ Hts _ Htext _] Ht Hl. unfold show_incoming, jindex. rewrite Hts, Htext. cbn.
  unfold get_thread, seen, gets, lift, mbind, M_bind. cbn. by rewrite Ht, Hl.
Qed.

Lemma receive_run conv node ev opened seq ts text screen t label g :
  text_message node ev opened seq ts text screen →
  dict_get conv (v_threads (g_view g)) = Some t → _sender_label (Some t) node = Ok label →
  let is_shown := bool_decide (v_selected (g_view g) = Some conv) in
  ∃ g', receive sounds conv node ev opened g = (Ok tt, g') ∧
    stored conv node seq ts text (g_store g) (g_store g') ∧
    dict_get conv (v_threads (g_view g')) = Some (thread_received text is_shown t) ∧
    (∀ c, c ≠ conv → dict_get c (v_threads (g_view g')) = dict_get c (v_threads (g_view g))) ∧
    v_selected (g_view g') = v_selected (g_view g) ∧
    v_shown (g_view g') = v_shown (g_view g) ++ bubbles_received text ts label is_shown.
Proof.
  intros Htm Ht Hl is_shown. unfold receive.
  destruct (keep_message_run conv node ev opened seq ts text screen g Htm) as (s&E1&Hmsg).
  rewrite (M_bind_run _ _ _ _ _ E1). set (g1 := Gui s _ _ _ _) in *.
  rewrite (M_bind_run _ _ g1 text g1) by (unfold lift, jindex; by rewrite (tm_text _ _ _ _ _ _ _ Htm)).
  rewrite (M_bind_run _ _ _ _ _ (update_thread_run conv (with_preview text) t g1 Ht)).
  set (g2 := Gui _ _ _ _ (set_threads _ _)).
  assert (Ht2 : dict_get conv (v_threads (g_view g2)) = Some (with_preview text t)) by apply dict_get_set_eq.
  rewrite (M_bind_run _ _ g2 (v_selected (g_view g)) g2) by done. fold is_shown.
  set (step := if is_shown then _ else _).
  assert (∃ g3, step g2 = (Ok tt, g3) ∧ g_store g3 = s ∧
    dict_get conv (v_threads (g_view g3)) = Some (thread_received text is_shown t) ∧
    (∀ c, c ≠ conv → dict_get c (v_threads (g_view g3)) = dict_get c (v_threads (g_view g))) ∧
    v_selected (g_view g3) = v_selected (g_view g) ∧
    v_shown (g_view g3) = v_shown (g_view g) ++ bubbles_received text ts label is_shown)
    as (g3&E3&Hs3&Ht3&Ho3&Hsel3&Hsh3).
  { subst step. destruct is_shown.
    - rewrite (show_incoming_run conv node ev opened seq ts text screen _ label g2 Htm Ht2) by exact Hl.
      eexists. split; [reflexivity|]. cbn. split_and!; [done| |by intros; rewrite dict_get_set_ne|done|done].
      rewrite dict_get_set_eq. unfold thread_received, with_unread. cbn. by rewrite Z.add_0_r.
    - rewrite (update_thread_run conv _ _ g2 Ht2). eexists. split; [reflexivity|].
      cbn. rewrite app_nil_r. split_and!; [done|by rewrite dict_get_set_eq| |done|done].
      intros c Hc. by rewrite !dict_get_set_ne. }
  rewrite (M_bind_run _ _ _ _ _ E3). clear E1 E3. clearbody step g1 g2.
  rewrite (M_bind_run _ _ g3 screen g3) by (unfold lift; by rewrite (tm_screen _ _ _ _ _ _ _ Htm)).
  destruct (alert_message_run conv node screen text g3) as (l&a&E4). rewrite E4.
  eexists. split; [reflexivity|]. cbn. rewrite Hs3. done.
Qed.

(** A message of a contact arrives: it is stored, under its conversation if it
    is new; the thread has it as preview; if the conversation is the one shown
    its bubble is added at the end, otherwise one more message is unread. No
    other thread, and not the conversation shown, changes. *)
Theorem contact_message_received conv node ev opened d nodes seq ts text screen t label f g :
  conv_of node opened = Ok conv → conv_muted conv (s_db (g_store g)) = false →
  contact_list g = Ok d → contact_nodes d = Ok nodes → node ∈ nodes →
  (default false (truthy <$> dict_get "conv" opened) = true → ∃ mem, roster_of opened = Ok mem) →
  text_message node ev opened seq ts text screen →
  dict_get conv (v_threads (g_view g)) = Some t → _sender_label (Some t) node = Ok label →
  let is_shown := bool_decide (v_selected (g_view g) = Some conv) in
  ∃ tb n g', adopt_room conv opened g = (Ok tt, with_rooms tb n g) ∧
    incoming_opened sounds node ev opened (f, g) = (Ok None, (f, g')) ∧
    stored conv node seq ts text (g_store (with_rooms tb n g)) (g_store g') ∧
    dict_get conv (v_threads (g_view g')) = Some (thread_received text is_shown t) ∧
    (∀ c, c ≠ conv → dict_get c (v_threads (g_view g')) = dict_get c (v_threads (g_view g))) ∧
    v_selected (g_view g') = v_selected (g_view g) ∧
    v_shown (g_view g') = v_shown (g_view g) ++ bubbles_received text ts label is_shown.
Proof.
  intros Hconv Hmuted Hd Hnodes Hnode Hroster Htm Ht Hl is_shown.
  destruct (incoming_unmuted conv node ev opened d nodes f g Hconv Hmuted Hd Hnodes) as (r&tb&n&Ha&_&Hrun).
  assert (r = Ok tt) as ->.
  { revert Ha. unfold adopt_room. destruct (default false _); [|by intros [= <- _]].
    destruct (Hroster eq_refl) as [mem ->]. unfold mbind, M_bind, lift. cbn.
    destruct mem; [by intros [= <- _]|]. by intros [= <- _]. }
  exists tb, n. rewrite bool_decide_eq_true_2 in Hrun by done. rewrite Hrun. clear Hrun.
  set (g1 := with_rooms tb n g). unfold from_contact.
  assert (Eg : ∀ h : flags * gui → flags * gui, on_gui (get_thread conv) (f, g1) = (Ok (Some t), (f, g1))).
  { intros _. unfold on_gui, get_thread, seen, gets. cbn. by rewrite Ht. }
  specialize (Eg id). rewrite (M_bind_run _ _ _ _ _ Eg), (M_bind_run _ _ (f, g1) tt (f, g1)) by done.
  rewrite (M_bind_run _ _ _ _ _ Eg).
  destruct (receive_run conv node ev opened seq ts text screen t label g1 Htm Ht Hl) as (g'&E&Hrest).
  exists g'. rewrite (M_bind_run _ _ _ _ _ (on_gui_run _ f _ _ _ E)). by split.
Qed.

(** ** The sidebar *)

(** What the refreshed sidebar keeps of a thread. *)
Record kept (t t' : thread) : Prop := {
  ke_room : th_is_room t' = th_is_room t;
  ke_online : th_online t' = th_online t;
  ke_away : th_away t' = th_away t;
  ke_preview : th_preview t' = th_preview t;
  ke_unread : th_unread t' = th_unread t;
  ke_presence : th_presence t' = th_presence t;
}.
#[local] Instance kept_preorder : PreOrder kept.
Proof. split; [by split|]. intros t1 t2 t3 [] []. split; congruence. Qed.

Definition with_threads (ts : list (string * thread)) (g : gui) : gui :=
  Gui (g_store g) (g_client g) (g_self_node g) (g_world g) (set_threads ts (g_view g)).

(** Threads put one after the other, each made from the one it replaces. *)
Section PutPhase.
Context {A : Type} (key : A → string) (upd : A → option thread → thread).
Definition put_step (ts : list (string * thread)) (x : A) : list (string * thread) :=
  dict_set (key x) (upd x (dict_get (key x) ts)) ts.

Lemma put_phase_run (f : A → GUI unit) l g :
  (∀ x ts, x ∈ l → f x (with_threads ts g) = (Ok tt, with_threads (put_step ts x) g)) →
  ∀ ts, for_each f l (with_threads ts g) = (Ok tt, with_threads (foldl put_step ts l) g).
Proof.
  induction l as [|x l IH]; intros Hf ts; [done|]. cbn [for_each foldl].
  rewrite (M_bind_run _ _ _ tt _ (Hf x ts ltac:(set_solver))). apply IH. set_solver.
Qed.
Lemma put_phase_mem l ts c :
  dict_mem c (foldl put_step ts l) = true ↔ c ∈ key <$> l ∨ dict_mem c ts = true.
Proof.
  revert ts. induction l as [|x l IH]; intros ts; cbn [foldl fmap list_fmap].
  - rewrite elem_of_nil. tauto.
  - rewrite IH, elem_of_cons. unfold put_step at 1. rewrite !dict_mem_true, dict_set_keys. tauto.
Qed.
Lemma put_phase_kept l ts c t :
  (∀ x t, kept t (upd x (Some t))) → dict_get c ts = Some t →
  ∃ t', dict_get c (foldl put_step ts l) = Some t' ∧ kept t t'.
Proof.
  intros Hk. revert ts t. induction l as [|x l IH]; intros ts t Ht; cbn [foldl]; [by exists t|].
  destruct (decide (key x = c)) as [<-|Hne].
  - destruct (IH (put_step ts x) (upd x (Some t))) as (t'&Ht'&K).
    { unfold put_step. by rewrite dict_get_set_eq, Ht. }
    exists t'. split; [done|]. by etrans; [apply Hk|].
  - apply IH. unfold put_step. by rewrite dict_get_set_ne.
Qed.
End PutPhase.

(** The threads that leave: direct conversations with nobody in the list. *)
Definition leaves (nodes : list string) (kt : string * thread) : bool :=
  negb (th_is_room kt.2 || bool_decide (kt.1 ∈ nodes)).
Definition leaving (nodes : list string) (l : list (string * thread)) : list string :=
  (List.filter (leaves nodes) l).*1.
Definition still_open (gone : list string) (selected : option string) : option string :=
  match selected with Some c => if bool_decide (c ∈ gone) then None else Some c | None => None end.

Definition without (gone : list string) (g : gui) : gui :=
  Gui (g_store g) (g_client g) (g_self_node g) (g_world g)
    (set_selected (still_open gone (v_selected (g_view g)))
      (set_threads (foldl (λ ts c, dict_del c ts) (v_threads (g_view g)) gone) (g_view g))).

Lemma drop_thread_run conv g : drop_thread conv g = (Ok tt, without [conv] g).
Proof.
  unfold drop_thread, without, seen, show, gets, modify, mbind, M_bind. cbn.
  destruct g as [s c n w []]; cbn. destruct v_selected as [x|]; cbn.
  - destruct (decide (x = conv)) as [->|Hne].
    + rewrite bool_decide_eq_true_2 by done. by rewrite bool_decide_eq_true_2 by set_solver.
    + rewrite (bool_decide_eq_false_2 (x ∈ [conv])) by set_solver.
      rewrite bool_decide_eq_false_2 by congruence. done.
  - by rewrite bool_decide_eq_false_2.
Qed.

Lemma drop_phase_run nodes l g :
  for_each (λ kt : string * thread, if th_is_room kt.2 || bool_decide (kt.1 ∈ nodes) then mret tt
                                    else drop_thread kt.1) l g
  = (Ok tt, without (leaving nodes l) g).
Proof.
  revert g. induction l as [|kt l IH]; intros g; cbn [for_each].
  - unfold without. cbn. destruct g as [? ? ? ? []]. cbn. by destruct v_selected.
  - unfold leaving, leaves in *. cbn [List.filter]. destruct (_ || _); cbn [negb].
    + rewrite (M_bind_run _ _ g tt g) by done. apply IH.
    + rewrite (M_bind_run _ _ _ _ _ (drop_thread_run kt.1 g)), IH. cbn [fmap list_fmap].
      unfold without. cbn. 
      assert (Hs : ∀ gone sel, still_open gone (still_open [kt.1] sel) = still_open (kt.1 :: gone) sel).
      { intros gone [x|]; [|done]. cbn. repeat (case_bool_decide; cbn); set_solver. }
      by rewrite Hs.
Qed.

Lemma dict_dels_get (gone : list string) (ts : list (string * thread)) c :
  dict_wf ts → dict_get c (foldl (λ ts c, dict_del c ts) ts gone) =
    if bool_decide (c ∈ gone) then None else dict_get c ts.
Proof.
  revert ts. induction gone as [|x gone IH]; intros ts Hwf; cbn [foldl]; [done|].
  rewrite IH by (by apply dict_del_wf). destruct (decide (x = c)) as [-> |Hne].
  - rewrite dict_get_del_eq by done. rewrite (bool_decide_eq_true_2 (c ∈ c :: gone)) by set_solver.
    by case_bool_decide.
  - rewrite dict_get_del_ne by done.
    rewrite (bool_decide_ext (c ∈ gone) (c ∈ x :: gone)); [done|set_solver].
Qed.

(** A contact whose record names its node, and a room whose roster reads. *)
Definition contact_ok (kv : string * json) : Prop :=
  ∃ node screen, jindex "node" kv.2 ≫= as_str = Ok node ∧ get_or "screen" (JStr kv.1) kv.2 ≫= as_str = Ok screen.
Definition room_ok (g : gui) (conv : string) : Prop :=
  ∃ mem title, members conv (g_store g) = (Ok (JObj mem), g_store g) ∧
    room_title (g_self_node g) mem = Ok title.

Definition contact_node (kv : string * json) : string :=
  match jindex "node" kv.2 ≫= as_str with Ok n => n | Raise _ => "" end.
Definition contact_thread (kv : string * json) (o : option thread) : thread :=
  let screen := match get_or "screen" (JStr kv.1) kv.2 ≫= as_str with Ok s => s | Raise _ => "" end in
  match o with Some t => as_contact kv.1 kv.2 screen t | None => new_dm kv.1 kv.2 screen end.
Definition room_thread (g : gui) (conv : string) (o : option thread) : thread :=
  let mem := match (members conv (g_store g)).1 with Ok (JObj mem) => mem | _ => [] end in
  let title := match room_title (g_self_node g) mem with Ok t => t | Raise _ => "" end in
  match o with Some t => as_room mem title t | None => new_room mem title end.

Lemma sync_contact_run kv ts g :
  contact_ok kv →
  sync_contact kv (with_threads ts g) = (Ok tt, with_threads (put_step contact_node contact_thread ts kv) g).
Proof.
  intros (node&screen&Hn&Hs). unfold sync_contact, put_step, contact_node, contact_thread.
  rewrite Hn, Hs. unfold mbind, M_bind, lift, get_thread, seen, gets, put_thread, show, modify. cbn.
  by destruct (dict_get node ts).
Qed.
Lemma sync_room_run conv ts g :
  room_ok g conv →
  sync_room conv (with_threads ts g) = (Ok tt, with_threads (put_step id (room_thread g) ts conv) g).
Proof.
  intros (mem&title&Hm&Ht). unfold sync_room, put_step, room_thread. rewrite Hm. cbn [fst]. rewrite Ht.
  unfold gst. unfold mbind at 1, M_bind at 1. cbn [with_threads g_store]. rewrite Hm.
  unfold mbind, M_bind, lift, self_node, get_thread, seen, gets, put_thread, show, modify. cbn. rewrite Ht.
  by destruct (dict_get conv ts).
Qed.

Lemma contact_nodes_ok d :
  Forall contact_ok d → contact_nodes d = Ok (contact_node <$> d).
Proof.
  unfold contact_nodes. induction 1 as [|kv d (node&screen&Hn&_) _ IH]; [done|].
  cbn [map_result fmap list_fmap]. unfold contact_node at 1. rewrite Hn. cbn [mbind result_bind].
  rewrite IH. done.
Qed.

(** C13: The refreshed sidebar holds the rooms it held, those of the store, and a
    direct conversation per contact; other direct conversations leave it, and
    the conversation shown closes exactly when it is one of them. The threads
    that stay keep their kind, their presence, preview and unread count. *)
Theorem sync_sidebar_spec d g :
  contact_list g = Ok d → Forall contact_ok d → Forall (room_ok g) (rooms_of (s_db (g_store g))) →
  dict_wf (v_threads (g_view g)) →
  let nodes := contact_node <$> d in
  let before := v_threads (g_view g) in
  let stays c t := dict_get c before = Some t ∧ (th_is_room t = true ∨ c ∈ nodes) in
  ∃ after, sync_sidebar g =
      (Ok tt, Gui (g_store g) (g_client g) (g_self_node g) (g_world g)
        (set_selected (still_open (leaving nodes before) (v_selected (g_view g))) (set_threads after (g_view g)))) ∧
    (∀ c, dict_mem c after = true ↔
      (∃ t, stays c t) ∨ c ∈ nodes ∨ c ∈ rooms_of (s_db (g_store g))) ∧
    (∀ c t, stays c t → ∃ t', dict_get c after = Some t' ∧ kept t t').
Proof.
  intros Hd Hcs Hrs Hwf nodes before stays.
  set (g1 := without (leaving nodes before) g).
  set (ts1 := v_threads (g_view g1)).
  set (ts2 := foldl (put_step contact_node contact_thread) ts1 (merge_sort key_le d)).
  set (ts3 := foldl (put_step id (room_thread g1)) ts2 (rooms_of (s_db (g_store g)))).
  assert (Hg1 : with_threads ts1 g1 = g1) by (by destruct g1 as [? ? ? ? []]).
  exists ts3. split_and!.
  - unfold sync_sidebar.
    rewrite (M_bind_run _ _ g d g) by (by rewrite contacts_run, Hd).
    rewrite (M_bind_run _ _ g nodes g) by (unfold lift; by rewrite contact_nodes_ok).
    rewrite (M_bind_run _ _ g before g) by done.
    rewrite (M_bind_run _ _ _ _ _ (drop_phase_run nodes before g)). fold g1. rewrite <-Hg1.
    rewrite (M_bind_run _ _ (with_threads ts1 g1) tt (with_threads ts2 g1)).
    2: { apply put_phase_run. intros kv ts Hin. apply sync_contact_run. rewrite Forall_forall in Hcs.
         apply Hcs. by rewrite merge_sort_Permutation in Hin. }
    rewrite (M_bind_run _ _ (with_threads ts2 g1) (rooms_of (s_db (g_store g))) (with_threads ts2 g1)) by done.
    rewrite (put_phase_run id (room_thread g1) _ _ g1); [done|].
    intros c ts Hin. apply sync_room_run. rewrite Forall_forall in Hrs. by apply Hrs.
  - intros c. unfold ts3, ts2. rewrite !put_phase_mem, list_fmap_id.
    assert (contact_node <$> merge_sort key_le d ≡ₚ nodes) as -> by (by rewrite merge_sort_Permutation).
    assert (H1 : dict_mem c ts1 = true ↔ ∃ t, dict_get c before = Some t ∧ leaves nodes (c, t) = false).
    { unfold dict_mem, ts1, g1, without. cbn [g_view v_threads set_selected set_threads].
      rewrite dict_dels_get by done. unfold leaving. fold before. destruct (dict_get c before) as [t|] eqn:E.
      - case_bool_decide as Hin; (split; [|]); [done| |intros _; exists t; split; [done|]|done].
        + intros (t'&[= <-]&Hl). apply list_elem_of_fmap in Hin as ([c' t'] & Hc & [Hin Hl']%list_filter_elem).
          cbn in Hc. subst c'. apply (dict_elem_get _ _ _ Hwf) in Hin. fold before in Hin. simplify_eq. congruence.
        + destruct (leaves nodes (c, t)) eqn:Hl; [|done]. destruct Hin. apply list_elem_of_fmap.
          exists (c, t). split; [done|]. apply list_filter_elem. split; [|done]. by apply dict_get_elem.
      - split; [by case_bool_decide|]. by intros (t&[=]&_). }
    rewrite H1. unfold leaves, stays. cbn [fst snd].
    assert (Hl : ∀ t, negb (th_is_room t || bool_decide (c ∈ nodes)) = false ↔ th_is_room t = true ∨ c ∈ nodes).
    { intros t. rewrite negb_false_iff, orb_true_iff, bool_decide_eq_true. done. }
    setoid_rewrite Hl. naive_solver.
  - intros c t [Ht Hs].
    assert (Ht1 : dict_get c ts1 = Some t).
    { unfold ts1, g1, without. cbn [g_view v_threads set_selected set_threads].
      rewrite dict_dels_get by done. rewrite bool_decide_eq_false_2; [done|].
      unfold leaving. intros ([c' t'] & Hc & [Hin Hl]%list_filter_elem)%list_elem_of_fmap. cbn in Hc. subst c'.
      apply (dict_elem_get _ _ _ Hwf) in Hin. fold before in Hin. simplify_eq.
      unfold leaves in Hl. cbn in Hl. apply negb_true_iff, orb_false_iff in Hl as [Hr Hn%bool_decide_eq_false].
      destruct Hs; [congruence|done]. }
    destruct (put_phase_kept contact_node contact_thread (merge_sort key_le d) ts1 c t) as (t2&Ht2&K2); [done|done|].
    destruct (put_phase_kept id (room_thread g1) (rooms_of (s_db (g_store g))) ts2 c t2) as (t3&Ht3&K3); [done|done|].
    exists t3. split; [done|]. by etrans.
Qed.
End Windows.

(** ** Evaluated instances *)

Section ConversationsWitness.
Local Instance cw_json : JsonCodec := RefCodec.
Local Instance cw_nacl : NaCl := RefNaCl.
Local Instance cw_daemon : Daemon := {|
  dstate := unit; d_connect _ _ := Ok tt; d_request _ _ d := (Ok JNull, d) |}.
Local Instance cw_markup : Markup := {| markup_escape_text s := s; word_beyond_ascii _ := false |}.
Local Instance cw_zone : Zone := {| utc_offset _ := 0 |}.
Local Instance cw_locale : Locale := {| strftime _ _ := "12:00" |}.
Definition cw_sounds : sound_system := SoundSystem (λ _, false) (λ _, false) (λ _, false) false.

(** One contact, Bo at node n1, whose conversation is not the one shown; a
    room of Bo and ours, and a node that is blocked. *)
Definition bo : string * json :=
  ("bo", JObj [("pubkey", JStr "11"); ("node", JStr "n1"); ("screen", JStr "Bo")]).
Definition roster_json (nodes : list string) : json :=
  JObj ((λ n, (n, JObj [("node", JStr n); ("pubkey", JStr "11"); ("screen", JStr n)])) <$> nodes).
Definition cw_store : store :=
  (ensure_room "room" (roster_json ["n0"; "n1"]) (mute "n9" (Store empty_db (kdf_key "pw" []) 0 empty_db)).2).2.
Definition cw_env : gmap string string := {["AIMLESS_HOME" := "/a"]}.
Definition cw_world : world :=
  World {[contacts_path cw_env "/h" := File (utf8_encode (json_dumps_indent (JObj [bo]))) 384]}
    cw_env "/h" 0 0 [] [] [] tt.
Definition cw_view : view := set_threads [("n1", new_dm "bo" bo.2 "Bo"); ("n7", new_dm "x" JNull "X")] empty_view.
Definition cw_gui : gui := Gui cw_store (Client bob "bo" None) "n0" cw_world cw_view.

Definition text_event (node : string) (seq : Z) : json :=
  JObj [("type", JStr "text"); ("from", JStr node); ("payload", JStr ""); ("seq", JInt seq)].
Definition opened_text (text : string) (more : list (string * json)) : list (string * json) :=
  [("from", JStr "11"); ("text", JStr text); ("ts", JInt 5)] ++ more.

Example contacts_of_file : contact_list cw_gui = Ok [bo].
Proof. vm_compute. reflexivity. Qed.


Example contact_message_received_witness :
  ∃ g', incoming_opened cw_sounds "n1" (text_event "n1" 3) (opened_text "hi" []) (no_flags, cw_gui)
      = (Ok None, (no_flags, g')) ∧
    dict_get "n1" (v_threads (g_view g')) = Some (with_unread 1 (with_preview "hi" (new_dm "bo" bo.2 "Bo"))).
Proof.
  destruct (contact_message_received cw_sounds "n1" "n1" (text_event "n1" 3) (opened_text "hi" []) [bo] ["n1"]
    3 5 "hi" "n1" (new_dm "bo" bo.2 "Bo") (Some "Bo") no_flags cw_gui) as (tb&n&g'&_&E&_&Ht&_);
    [reflexivity|vm_compute; reflexivity|vm_compute; reflexivity|reflexivity|set_solver|done
    |split; vm_compute; reflexivity|vm_compute; reflexivity|vm_compute; reflexivity|].
  exists g'. split; [exact E|exact Ht].
Defined.

(** The conversation with n7, whom no contact has, leaves; the room comes. *)
Example sync_sidebar_spec_witness :
  ∃ g' after, sync_sidebar cw_gui = (Ok tt, g') ∧ v_threads (g_view g') = after ∧
    dict_mem "n7" after = false ∧ dict_mem "room" after = true ∧ dict_mem "n1" after = true.
Proof.
  assert (Hrooms : rooms_of (s_db (g_store cw_gui)) = ["room"]) by (vm_compute; reflexivity).
  destruct (sync_sidebar_spec [bo] cw_gui) as (after&E&Hmem&_).
  - vm_compute. reflexivity.
  - constructor; [|constructor]. by exists "n1", "Bo".
  - rewrite Hrooms. constructor; [|constructor].
    exists [("n0", JObj [("node", JStr "n0"); ("pubkey", JStr "11"); ("screen", JStr "n0")]);
            ("n1", JObj [("node", JStr "n1"); ("pubkey", JStr "11"); ("screen", JStr "n1")])], "n1".
    split; vm_compute; reflexivity.
  - unfold cw_gui, cw_view, dict_wf. cbn. apply NoDup_cons. split; [set_solver|]. apply NoDup_singleton.
  - eexists _, after. split; [exact E|]. split; [done|].
    assert (Hnodes : contact_node <$> [bo] = ["n1"]) by (vm_compute; reflexivity).
    rewrite Hrooms, Hnodes in Hmem. clear E. split_and!.
    + apply not_true_iff_false. rewrite Hmem. intros [(t&Ht&[Hr|Hr])|[Hr|Hr]].
      { vm_compute in Ht. by injection Ht as <-. }
      all: by apply list_elem_of_singleton in Hr.
    + apply Hmem. right; right. by apply list_elem_of_singleton.
    + apply Hmem. right; left. by apply list_elem_of_singleton.
Defined.

(** *** What the handlers do that they should not *)

(** [incoming] adopts the roster before it asks who the sender is: a blocked
    node rewrites who is in a room, and makes a room of any conversation. *)
Example roster_rewritten_by_blocked :
  let ev := text_event "n9" 3 in
  let opened := opened_text "x" [("conv", JStr "room");
    ("members", JArr [JObj [("node", JStr "n9"); ("pubkey", JStr "99"); ("screen", JStr "Bo")]])] in
  let g' := (incoming_opened cw_sounds "n9" ev opened (no_flags, cw_gui)).2.2 in
  dict_mem "n9" (muted_nodes (s_db (g_store cw_gui))) = true ∧
  (members "room" (g_store cw_gui)).1 = Ok (roster_json ["n0"; "n1"]) ∧
  (members "room" (g_store g')).1 =
    Ok (JObj [("n9", JObj [("node", JStr "n9"); ("pubkey", JStr "99"); ("screen", JStr "Bo")])]).
Proof. vm_compute. split_and!; reflexivity. Qed.

(** A message that names a muted conversation is stored whoever sent it. *)
Example stranger_stored_when_muted :
  let g := (gst (mute_conversation "room") cw_gui).2 in
  let g' := (incoming_opened cw_sounds "n9" (text_event "n9" 3) (opened_text "x" [("conv", JStr "room")])
    (no_flags, g)).2.2 in
  dict_mem "n9" (muted_nodes (s_db (g_store g))) = true ∧
  messages_t (s_db (g_store g)) = [] ∧ (messages_t (s_db (g_store g'))).*1 = [in_id "n9" 3].
Proof. vm_compute. split_and!; reflexivity. Qed.

(** The callback of a message that was being sent puts its preview under the
    conversation shown by then, and fails if there is none. *)
Example preview_of_another :
  let s := Sending "n1" (new_dm "bo" bo.2 "Bo") "secret" 5 in
  let shown c := Gui (g_store cw_gui) (g_client cw_gui) "n0" cw_world (set_selected c cw_view) in
  (message_done s [("n1", 3)] (no_flags, shown None)).1 = Raise TypeError ∧
  (th_preview <$> dict_get "n7" (v_threads (g_view
    (message_done s [("n1", 3)] (no_flags, shown (Some "n7"))).2.2))) = Some "secret".
Proof. vm_compute. split; reflexivity. Qed.
End ConversationsWitness.
