(* ===== verification/ArrivalProps.v ===== *)
(** * A message, from one user's window to the other's

    What [message_worker] seals and hands to the daemon, and what the
    receiver's window makes of the event that carries it. *)

From S2P Require Import Prelude PyStr Codec Json Sys Paths Crypto Protocol Keys Store StoreProps DaemonClient Service Desktop View Transfers Conversations ConversationsProps.
From Stdlib Require Import Ascii.
Local Open Scope Z_scope.

Section Arrival.
Context `{N : NaCl} {NL : NaClLaws N} `{J : JsonCodec} {JL : JsonLaws J} `{D : Daemon} `{MU : Markup} `{Z_ : Zone} `{L : Locale}.
Context (sounds : sound_system).

(** A message for the contact at [node], who signs with [rcpt]. *)
Record addressed (s : sending) (rcpt : bytes) (node : string) : Prop := {
  ad_direct : th_is_room (s_thread s) = false;
  ad_pubkey : jindex "pubkey" (th_contact (s_thread s)) = Ok (JStr (hex (sign_pk rcpt)));
  ad_node : jindex "node" (th_contact (s_thread s)) = Ok (JStr node);
  ad_text : is_str (s_text s);
  ad_ts : int64 (s_ts s) = true;
}.
(** An event of the receiver's daemon that carries a payload. *)
Record carries (ev : json) (node payload : string) (seq : Z) : Prop := {
  ca_type : ∃ k, jget "type" ev = Ok k ∧ default false (json_is_str "file" <$> k) = false;
  ca_from : jget "from" ev = Ok (Some (JStr node));
  ca_payload : jindex "payload" ev = Ok (JStr payload);
  ca_seq : event_int "seq" ev = Ok seq;
  ca_fits : int64 seq = true;
}.
(** A window in which the sender is a contact, and the conversation listed and
    not muted. *)
Record knows (conv node : string) (rcpt : bytes) (t : thread) (label : option string) (g : gui) : Prop := {
  kn_identity : cl_identity (g_client g) = rcpt;
  kn_contact : ∃ d nodes, contact_list g = Ok d ∧ contact_nodes d = Ok nodes ∧ node ∈ nodes;
  kn_muted : conv_muted conv (s_db (g_store g)) = false;
  kn_thread : dict_get conv (v_threads (g_view g)) = Some t;
  kn_label : _sender_label (Some t) node = Ok label;
  kn_key : length (s_key (g_store g)) = 32%nat;
}.
(** What a window makes of a text: unless a message of that number was there
    it is stored with the sender's time under the conversation, where it reads
    as it was written; it is the preview, and the last bubble of the conversation
    when that is shown, one more unread message otherwise. *)
Record shows (conv node : string) (seq ts : Z) (text : string) (label : option string) (t : thread) (g g' : gui)
    : Prop := {
  sh_stored : ∃ r, dict_get (in_id node seq) (messages_t (s_db (g_store g'))) = Some r ∧
    (dict_get (in_id node seq) (messages_t (s_db (g_store g))) = None →
     m_conv r = conv ∧ m_ts r = ts ∧ dec_blob (s_key (g_store g')) (m_text r) = Ok (Some text));
  sh_thread : dict_get conv (v_threads (g_view g'))
    = Some (thread_received text (bool_decide (v_selected (g_view g) = Some conv)) t);
  sh_bubble : v_shown (g_view g') = v_shown (g_view g)
    ++ bubbles_received text ts label (bool_decide (v_selected (g_view g) = Some conv));
}.

(** ** The receiver *)

(** The fields a message sent by a client has when it is opened. *)
Lemma fields_of from text ts screen conv members :
  let o := message_fields from text ts (Some screen) conv members in
  dict_get "ts" o = Some (JInt ts) ∧ dict_get "text" o = Some (JStr text) ∧
  dict_get "conv" o = JStr <$> conv ∧ dict_get "members" o = json_sort <$> members ∧
  ∀ dflt, ∃ sc, field_or "screen" dflt o = Ok sc.
Proof.
  unfold message_fields, field_or. cbn [mbind option_bind].
  destruct (bool_decide (screen = "")) eqn:Hb; destruct conv, members; dict_simpl; split_and!; try done; intros dflt;
    dict_simpl; unfold str_or; cbn [truthy]; rewrite ?Hb; cbn; eauto.
Qed.

Lemma incoming_shows ev node payload seq conv rcpt t label opened text ts f g :
  carries ev node payload seq → knows conv node rcpt t label g → open_message rcpt payload = Ok opened →
  conv_of node opened = Ok conv →
  (default false (truthy <$> dict_get "conv" opened) = true → ∃ mem, roster_of opened = Ok mem) →
  dict_get "ts" opened = Some (JInt ts) → int64 ts = true → dict_get "text" opened = Some (JStr text) → is_str text →
  (∀ dflt, ∃ sc, field_or "screen" dflt opened = Ok sc) →
  ∃ tb n g', adopt_room conv opened g = (Ok tt, with_rooms tb n g) ∧
    incoming sounds ev (f, g) = (Ok None, (f, g')) ∧ shows conv node seq ts text label t g g' ∧
    s_key (g_store g') = s_key (g_store g) ∧ roster_kept conv (g_store (with_rooms tb n g)) (g_store g').
Proof.
  intros [(k&Htype&Hk) Hfrom Hpay Hseq Hfits] [Hid (d&nodes&Hd&Hnodes&Hin) Hmuted Ht Hl Hkey]
    Hopen Hconv Hroster Hts Htsf Htext Hstr Hsc.
  destruct (Hsc (py_take 8 node)) as [sc Hsc'].
  destruct (contact_message_received sounds conv node ev opened d nodes seq ts text sc t label f g)
    as (tb&n&g'&Ha&E&(Hk'&Hros&r&Hrow&Hnew)&Hth&_&_&Hsh); try done.
  exists tb, n, g'. split; [done|]. split.
  { unfold incoming. rewrite (M_bind_run _ _ (f, g) k (f, g)) by (unfold lift; by rewrite Htype). rewrite Hk.
    rewrite (M_bind_run _ _ (f, g) node (f, g)) by (unfold lift; by rewrite Hfrom).
    rewrite (M_bind_run _ _ (f, g) rcpt (f, g)) by (unfold on_gui, identity, gets; cbn; by rewrite Hid).
    rewrite (M_bind_run _ _ (f, g) (Some opened) (f, g))
      by (unfold lift, catch, decrypt_recv; rewrite Hpay; cbn; by rewrite Hopen).
    exact E. }
  split; [|by split]. split; [|done..]. exists r. split; [done|]. intros Hfresh.
  destruct (Hnew Hfresh) as [Hrc _ _ Hrt _ [m Htx]]. rewrite Hk', Htx. cbn. split_and!; [done..|].
  by apply dec_enc.
Qed.

(** ** A message to one contact *)

Lemma send_run c w rcpt node text ts :
  length (cl_identity c) = 32%nat → length rcpt = 32%nat → is_str text → is_str (cl_screen c) →
  ∃ payload, open_message rcpt payload
      = Ok (message_fields (hex (sign_pk (cl_identity c))) text ts (Some (cl_screen c)) None None) ∧
    ∀ r d, d_request "send" [("to", JStr node); ("payload", JStr payload)] (w_daemon w) = (r, d) →
      ∃ w', send (hex (sign_pk rcpt)) node text ts (c, w) = (r, (c, w')) ∧ w_daemon w' = d.
Proof.
  intros Hc Hr Ht Hs.
  destruct (open_seal_message (cl_identity c) rcpt text ts (Some (cl_screen c)) None None (w_rng w))
    as (payload&Hseal&Hopen); [done|done|done|by intros ? [= <-]|done|done|].
  exists payload. split; [done|]. intros r d Hd. eexists. split.
  - unfold send, mbind, M_bind, self, gets, io, draw, lift, call, request. cbn. rewrite Hseal. cbn. by rewrite Hd.
  - done.
Qed.

(** C7: A message composed for a contact reaches the other's window as it was
    written: the worker hands the daemon one payload for the contact's node and
    reports the number it was given; whichever event carries that payload from
    the sender's node, a window that has the sender as a contact, with the
    conversation listed and not muted, and has not had the message yet, stores
    the text with the sender's time under the sender's conversation, where it
    is read back unaltered, makes it the preview, and shows it at the end
    of the conversation or counts it unread. *)
Theorem text_arrives s c w rcpt node :
  addressed s rcpt node → length (cl_identity c) = 32%nat → length rcpt = 32%nat → is_str (cl_screen c) →
  ∃ payload,
    (∀ resp d n, d_request "send" [("to", JStr node); ("payload", JStr payload)] (w_daemon w) = (Ok resp, d) →
      (get_or "seq" (JInt 0) resp ≫= as_int) = Ok n →
      ∃ w', message_worker s (c, w) = (Ok [(node, n)], (c, w')) ∧ w_daemon w' = d) ∧
    ∀ from ev seq t label f g,
      carries ev from payload seq → knows from from rcpt t label g →
      ∃ g', incoming sounds ev (f, g) = (Ok None, (f, g')) ∧
        shows from from seq (s_ts s) (s_text s) label t g g'.
Proof.
  intros [Hdirect Hpk Hnode Htext Hts] Hc Hr Hscreen.
  destruct (send_run c w rcpt node (s_text s) (s_ts s) Hc Hr Htext Hscreen) as (payload&Hopen&Hsend).
  exists payload. split.
  - intros resp d n Hd Hn. destruct (Hsend _ _ Hd) as (w'&E&Hw). exists w'. split; [|done].
    unfold message_worker. rewrite Hdirect.
    rewrite (M_bind_run _ _ (c, w) (hex (sign_pk rcpt)) (c, w)) by (unfold lift; by rewrite Hpk).
    rewrite (M_bind_run _ _ (c, w) node (c, w)) by (unfold lift; by rewrite Hnode).
    rewrite (M_bind_run _ _ _ _ _ E). by rewrite (M_bind_run _ _ (c, w') n (c, w')) by (unfold lift; by rewrite Hn).
  - intros from ev seq t label f g Hcarries Hknows.
    destruct (fields_of (hex (sign_pk (cl_identity c))) (s_text s) (s_ts s) (cl_screen c) None None)
      as (Hfts&Hftext&Hfconv&_&Hsc).
    destruct (incoming_shows ev from payload seq from rcpt t label _ (s_text s) (s_ts s) f g Hcarries Hknows Hopen)
      as (tb&n&g'&_&E&Hsh&_); try done.
    { unfold conv_of. by rewrite Hfconv. }
    { by rewrite Hfconv. }
    by exists g'.
Qed.

(** ** A message to a room *)

(** A member of a room: its node, its signing key, the name it goes by. *)
Record participant := Participant { pa_node : string; pa_key : bytes; pa_screen : string }.
Definition triplet_of (p : participant) : json :=
  JObj [("node", JStr (pa_node p)); ("pubkey", JStr (hex (sign_pk (pa_key p)))); ("screen", JStr (pa_screen p))].
Definition room_roster (ps : list participant) : list (string * json) := (λ p, (pa_node p, triplet_of p)) <$> ps.
Record participant_ok (p : participant) : Prop := {
  po_node : is_str (pa_node p);
  po_screen : is_str (pa_screen p);
  po_key : length (pa_key p) = 32%nat;
}.
(** A message for the room of [ps]. *)
Record addressed_room (s : sending) (ps : list participant) : Prop := {
  ar_room : th_is_room (s_thread s) = true;
  ar_members : th_members (s_thread s) = room_roster ps;
  ar_nodes : NoDup (pa_node <$> ps);
  ar_ok : Forall participant_ok ps;
  ar_conv : s_conv s ≠ "" ∧ is_str (s_conv s);
  ar_text : is_str (s_text s);
  ar_ts : int64 (s_ts s) = true;
}.
(** The daemon handed one payload per member, and its numbers. *)
Fixpoint hand (l : list (string * string)) (d : dstate) : result (list (string * json)) * dstate :=
  match l with
  | [] => (Ok [], d)
  | (node, payload) :: l =>
    let '(resp, d) := d_request "send" [("to", JStr node); ("payload", JStr payload)] d in
    match (resp ≫= get_or "seq" (JInt 0)) with
    | Ok seq => let '(r, d) := hand l d in ((λ rest, (node, seq) :: rest) <$> r, d)
    | Raise e => (Raise e, d)
    end
  end.
Definition members_but (me : string) (ps : list participant) : list participant := filter (λ p, pa_node p ≠ me) ps.

Lemma dict_set_fresh {V} (k : string) (v : V) d : k ∉ d.*1 → dict_set k v d = d ++ [(k, v)].
Proof.
  induction d as [|[k' v'] d IH]; [done|]. rewrite fmap_cons, not_elem_of_cons. intros [Hk Hd]. cbn in *.
  by rewrite decide_False, IH by done.
Qed.
Lemma roster_wf ps : NoDup (pa_node <$> ps) → Forall participant_ok ps → json_wf (JObj (room_roster ps)).
Proof.
  intros Hnd Hok. apply json_wf_obj. split; [unfold dict_wf, room_roster; by rewrite <-list_fmap_compose|].
  apply Forall_fmap. eapply Forall_impl; [exact Hok|]. intros p [Hn Hs _]. split; [done|]. unfold triplet_of. cbn. json_wf_tac.
Qed.
Lemma triplets_run ps : map_result triplet (triplet_of <$> ps) = Ok (triplet_of <$> ps).
Proof. induction ps as [|p ps IH]; [done|]. cbn in *. by rewrite IH. Qed.
Lemma roster_run ps acc :
  NoDup (pa_node <$> ps) → (∀ p, p ∈ ps → pa_node p ∉ acc.*1) →
  roster (triplet_of <$> ps) acc = Ok (acc ++ room_roster ps).
Proof.
  revert acc. induction ps as [|p ps IH]; intros acc Hnd Hacc; [by rewrite app_nil_r|].
  apply NoDup_cons in Hnd as [Hp Hnd].
  change (roster (triplet_of <$> p :: ps) acc) with (roster (triplet_of <$> ps) (dict_set (pa_node p) (triplet_of p) acc)).
  rewrite dict_set_fresh by (apply Hacc; left).
  rewrite IH; [by rewrite <-app_assoc|done|]. intros q Hq. rewrite fmap_app, not_elem_of_app.
  split; [apply Hacc; by right|]. intros Hqp%list_elem_of_singleton. apply Hp. cbn in Hqp. rewrite <-Hqp. by apply list_elem_of_fmap_2.
Qed.

(** The fan-out, whatever the daemon answers: what is handed to it depends on
    the draws alone. *)
Lemma fan_out_run me ps r seal fields :
  (∀ p k, p ∈ ps → ∃ payload, seal (triplet_of p) k = Ok payload ∧ open_message (pa_key p) payload = Ok fields) →
  NoDup (pa_node <$> ps) →
  ∃ sent : list (participant * string), sent.*1 = members_but me ps ∧
    Forall (λ pp, open_message (pa_key pp.1) pp.2 = Ok fields) sent ∧
    ∀ c w seqs outs d, w_rng w = r → (∀ p, p ∈ ps → pa_node p ∉ seqs.*1) →
      hand ((λ pp, (pa_node pp.1, pp.2)) <$> sent) (w_daemon w) = (Ok outs, d) →
      ∃ w', fan_out me seal "send" (triplet_of <$> ps) seqs (c, w) = (Ok (seqs ++ outs), (c, w')) ∧ w_daemon w' = d.
Proof.
  revert r. induction ps as [|p ps IH]; intros r Hseal Hnd.
  - exists []. split; [done|]. split; [done|]. intros c w seqs outs d _ _ [= <- <-]. exists w. by rewrite app_nil_r.
  - apply NoDup_cons in Hnd as [Hp Hnd].
    assert (Hseal' : ∀ q k, q ∈ ps → ∃ payload, seal (triplet_of q) k = Ok payload ∧ open_message (pa_key q) payload = Ok fields)
      by (intros q k Hq; apply Hseal; by right).
    unfold members_but. rewrite filter_cons. case_decide as Hme.
    + destruct (Hseal p r (list_elem_of_here _ _)) as (payload&Hpay&Hopen).
      destruct (IH (S r) Hseal' Hnd) as (sent&Hsent&Hall&Hrun).
      exists ((p, payload) :: sent). split; [cbn; by rewrite Hsent|]. split; [by constructor|].
      intros c w seqs outs d Hr Hfresh. cbn [fmap list_fmap hand fst snd].
      set (w1 := World (w_fs w) (w_env w) (w_home w) (w_now w) (S (w_rng w)) (w_in w) (w_out w) (w_err w) (w_daemon w)).
      destruct (d_request "send" _ (w_daemon w)) as [resp d1] eqn:Ed.
      destruct resp as [resp|e]; [|done]. cbn [mbind result_bind].
      destruct (get_or "seq" (JInt 0) resp) as [seq|e] eqn:Eseq; [|done].
      destruct (hand _ d1) as [outs1 d2] eqn:Eh. destruct outs1 as [outs1|e]; [|done]. intros [= <- <-].
      set (w2 := World (w_fs w1) (w_env w1) (w_home w1) (w_now w1) (w_rng w1) (w_in w1) (w_out w1) (w_err w1) d1).
      destruct (Hrun c w2 (seqs ++ [(pa_node p, seq)]) outs1 d2) as (w'&E&Hd).
      { cbn. by rewrite Hr. }
      { intros q Hq. rewrite fmap_app, not_elem_of_app. split; [apply Hfresh; by right|].
        intros Hqp%list_elem_of_singleton. apply Hp. cbn in Hqp. rewrite <-Hqp. by apply list_elem_of_fmap_2. }
      { exact Eh. }
      exists w'. split; [|done]. rewrite <-app_assoc in E. cbn [app] in E. rewrite <-E.
      cbn [fmap list_fmap fan_out].
      rewrite (M_bind_run _ _ (c, w) (JStr (pa_node p)) (c, w)) by done. cbn [json_is_str].
      rewrite bool_decide_eq_false_2 by done.
      rewrite (M_bind_run _ _ (c, w) (w_rng w) (c, w1)) by done. rewrite Hr.
      rewrite (M_bind_run _ _ (c, w1) payload (c, w1)) by (unfold lift; by rewrite Hpay).
      rewrite (M_bind_run _ _ (c, w1) resp (c, w2)) by (unfold call, io, request; cbn; by rewrite Ed).
      rewrite (M_bind_run _ _ (c, w2) seq (c, w2)) by (unfold lift; by rewrite Eseq).
      rewrite (M_bind_run _ _ (c, w2) (pa_node p) (c, w2)) by done.
      by rewrite dict_set_fresh by (apply Hfresh; left).
    + destruct (IH r Hseal' Hnd) as (sent&Hsent&Hall&Hrun).
      exists sent. split; [done|]. split; [done|]. intros c w seqs outs d Hr Hfresh Hh.
      destruct (Hrun c w seqs outs d Hr ltac:(intros q Hq; apply Hfresh; by right) Hh) as (w'&E&Hd).
      exists w'. split; [|done]. cbn [fmap list_fmap fan_out].
      rewrite (M_bind_run _ _ (c, w) (JStr (pa_node p)) (c, w)) by done. cbn [json_is_str].
      by rewrite bool_decide_eq_true_2.
Qed.

Lemma node_key_client c w me c1 w1 :
  node_key (c, w) = (Ok me, (c1, w1)) → cl_identity c1 = cl_identity c ∧ cl_screen c1 = cl_screen c.
Proof.
  unfold node_key. intros (c0&s1&Hc&H)%M_bind_Ok. injection Hc as <- <-. cbn in H.
  destruct (cl_node_key c) as [k|].
  - injection H as _ <- _. done.
  - apply M_bind_Ok in H as (who&[c2 w2]&Hwho&H). unfold whoami, call, io in Hwho.
    destruct (request "whoami" [] w) as [r w3]. injection Hwho as _ <- _.
    apply M_bind_Ok in H as (k&s3&Hk&H). injection Hk as _ <-.
    apply M_bind_Ok in H as (u&s4&Hm&H). injection Hm as _ <-. injection H as _ <- _. done.
Qed.

(** A roster adopted is the room's, as it is read back. *)
Lemma adopted_roster conv opened mem g tb n :
  default false (truthy <$> dict_get "conv" opened) = true → roster_of opened = Ok mem → mem ≠ [] →
  json_wf (JObj mem) → length (s_key (g_store g)) = 32%nat → adopt_room conv opened g = (Ok tt, with_rooms tb n g) →
  ∃ r, dict_get conv (conversations (s_db (g_store (with_rooms tb n g)))) = Some r ∧
    ∃ b, c_members r = Some b ∧ loads_blob (s_key (g_store g)) (Some b) = Ok (JObj mem).
Proof.
  intros Hconv Hros Hne Hwf Hkey. unfold adopt_room. rewrite Hconv.
  rewrite (M_bind_run _ _ g mem g) by (unfold lift; by rewrite Hros). destruct mem as [|kv mem]; [done|].
  set (j := JObj (kv :: mem)) in *. destruct (enc_run_blob (Some (json_dumps j)) (g_store g)) as (k&n1&Henc).
  unfold ensure_room. intros H. unfold gst in H. rewrite (M_bind_run _ _ _ _ _ Henc) in H.
  apply (f_equal (λ x, s_db (g_store x.2))) in H. cbn beta in H. cbn [snd] in H. rewrite <-H. cbn.
  rewrite dict_get_upsert, decide_True by done.
  assert (Hb : loads_blob (s_key (g_store g)) (blob_of (s_key (g_store g)) (Some (json_dumps j)) k) = Ok j).
  { unfold loads_blob, blob_of. cbn [fmap option_fmap option_map]. rewrite dec_enc by (done || apply dumps_is_str). cbn. by rewrite loads_dumps. }
  destruct (dict_get conv _); (eexists; split; [reflexivity|]; eexists; split; [reflexivity|exact Hb]).
Qed.

Lemma triplets_wf ps : NoDup (pa_node <$> ps) → Forall participant_ok ps → json_wf (JArr (triplet_of <$> ps)).
Proof.
  intros Hnd Hok. apply json_wf_arr, Forall_fmap. pose proof (roster_wf ps Hnd Hok) as [_ Hall]%json_wf_obj.
  apply Forall_fmap in Hall. eapply Forall_impl; [exact Hall|]. by intros p [_ ?].
Qed.
(** The roster is read out of the opened message as it was sent. *)
Lemma roster_of_sent ps opened :
  NoDup (pa_node <$> ps) → dict_get "members" opened = Some (json_sort (JArr (triplet_of <$> ps))) →
  roster_of opened = Ok (room_roster ps).
Proof.
  intros Hnd Hmem. unfold roster_of, get_or, jget. cbn [mbind result_bind]. rewrite Hmem. cbn -[roster triplet_of].
  replace (json_sort <$> (triplet_of <$> ps)) with (triplet_of <$> ps) by (by rewrite <-list_fmap_compose).
  rewrite roster_run by (done || intros; apply not_elem_of_nil). done.
Qed.

(** C8: A message composed for a room reaches every other member's window as it
    was written, in the same conversation: the worker hands the daemon one
    payload for each member but the sender, in the roster's order, and reports
    the numbers it was given; whichever event carries a member's payload
    from the sender's node, that member's window, when it has the sender as a
    contact, the room listed and not muted, and has not had the message yet,
    stores, previews and shows or counts the text under the room's own id, and
    adopts exactly the sender's roster. A window that lacks the sender as a
    contact is the subject of the quarantine of strangers. *)
Theorem room_text_arrives s ps c w c1 w1 me :
  addressed_room s ps → length (cl_identity c) = 32%nat → is_str (cl_screen c) →
  node_key (c, w) = (Ok me, (c1, w1)) →
  ∃ sent : list (participant * string), sent.*1 = members_but me ps ∧
    (∀ outs seqs d, hand ((λ pp, (pa_node pp.1, pp.2)) <$> sent) (w_daemon w1) = (Ok outs, d) →
      map_result (λ kv : string * json, z ← as_int kv.2; Ok (kv.1, z)) outs = Ok seqs →
      ∃ w', message_worker s (c, w) = (Ok seqs, (c1, w')) ∧ w_daemon w' = d) ∧
    ∀ p payload, (p, payload) ∈ sent → ∀ from ev seq t label f g,
      carries ev from payload seq → knows (s_conv s) from (pa_key p) t label g →
      ∃ g', incoming sounds ev (f, g) = (Ok None, (f, g')) ∧
        shows (s_conv s) from seq (s_ts s) (s_text s) label t g g' ∧
        members (s_conv s) (g_store g') = (Ok (JObj (room_roster ps)), g_store g').
Proof.
  intros [Hroom Hmem Hnd Hok [Hcne Hcstr] Htext Hts] Hc Hscreen Hme.
  destruct (node_key_client _ _ _ _ _ Hme) as [Hid1 Hscr1].
  pose proof (triplets_wf ps Hnd Hok) as Hjwf.
  set (fields := message_fields (hex (sign_pk (cl_identity c))) (s_text s) (s_ts s) (Some (cl_screen c))
    (Some (s_conv s)) (Some (JArr (triplet_of <$> ps)))).
  set (seal m r := pk ← jindex "pubkey" m ≫= as_str;
    seal_message (cl_identity c1) pk (s_text s) (s_ts s) (Some (cl_screen c1)) (Some (s_conv s))
      (Some (JArr (triplet_of <$> ps))) r).
  destruct (fan_out_run me ps (w_rng w1) seal fields) as (sent&Hsent&Hall&Hrun); [|exact Hnd|].
  { intros p k Hp. pose proof (proj1 (Forall_forall _ _) Hok p Hp) as [_ _ Hkey].
    destruct (open_seal_message (cl_identity c) (pa_key p) (s_text s) (s_ts s) (Some (cl_screen c))
      (Some (s_conv s)) (Some (JArr (triplet_of <$> ps))) k) as (payload&Hseal&Hopen);
      [done|done|done|by intros ? [= <-]|by intros ? [= <-]|by intros ? [= <-]|].
    exists payload. split; [|exact Hopen]. unfold seal. rewrite Hid1, Hscr1. exact Hseal. }
  exists sent. split; [done|]. split.
  - intros outs seqs d Hh Hseqs.
    destruct (Hrun c1 w1 [] outs d eq_refl ltac:(intros; apply not_elem_of_nil) Hh) as (w'&E&Hd).
    exists w'. split; [|done]. unfold message_worker. rewrite Hroom, Hmem.
    rewrite (M_bind_run _ _ (c, w) outs (c1, w')).
    { unfold lift. by rewrite Hseqs. }
    unfold send_room. replace (room_roster ps).*2 with (triplet_of <$> ps)
      by (unfold room_roster; by rewrite <-list_fmap_compose).
    rewrite (M_bind_run _ _ (c, w) (triplet_of <$> ps) (c, w)) by (unfold lift; by rewrite triplets_run).
    rewrite (M_bind_run _ _ _ _ _ Hme), (M_bind_run _ _ (c1, w1) c1 (c1, w1)) by done. exact E.
  - intros p payload Hp from ev seq t label f g Hcarries Hknows.
    pose proof (proj1 (Forall_forall _ _) Hall _ Hp) as Hopen. cbn [fst snd] in Hopen.
    destruct (fields_of (hex (sign_pk (cl_identity c))) (s_text s) (s_ts s) (cl_screen c) (Some (s_conv s))
      (Some (JArr (triplet_of <$> ps)))) as (Hfts&Hftext&Hfconv&Hfmem&Hsc). fold fields in Hfts, Hftext, Hfconv, Hfmem, Hsc.
    assert (Htrue : default false (truthy <$> dict_get "conv" fields) = true)
      by (rewrite Hfconv; cbn; by rewrite bool_decide_eq_false_2).
    pose proof (roster_of_sent ps fields Hnd Hfmem) as Hros.
    assert (Hpin : p ∈ ps).
    { assert (Hin : p ∈ sent.*1) by (by apply (list_elem_of_fmap_2 fst _ (p, payload))).
      rewrite Hsent in Hin. by apply list_elem_of_filter in Hin as [_ ?]. }
    destruct (incoming_shows ev from payload seq (s_conv s) (pa_key p) t label fields (s_text s) (s_ts s) f g
      Hcarries Hknows Hopen) as (tb&n&g'&Ha&E&Hsh&Hk&Hkept); try done.
    { unfold conv_of. rewrite Hfconv. cbn. by rewrite bool_decide_eq_false_2. }
    { by eexists. }
    exists g'. split; [done|]. split; [done|].
    destruct (adopted_roster (s_conv s) fields (room_roster ps) g tb n) as (r&Hr&b&Hb&Hload);
      [done|done|by intros ->%fmap_nil_inv; apply elem_of_nil in Hpin|by apply roster_wf|apply Hknows|done|].
    destruct (Hkept r Hr) as (r'&Hr'&Hc'). unfold members. by rewrite Hr', Hc', Hb, Hk, Hload.
Qed.
End Arrival.

(** ** An evaluated instance *)

Section ArrivalWitness.
Local Existing Instances cw_json cw_nacl cw_daemon cw_markup cw_zone cw_locale.
Local Instance cw_json_laws : JsonLaws RefCodec := RefCodec_laws.
Local Instance cw_nacl_laws : NaClLaws RefNaCl := RefNaCl_laws.

(** Alice writes to Bob, who has her node as the contact Bo. *)
Definition to_bob : sending :=
  Sending "nb" (new_dm "bob" (JObj [("pubkey", JStr (hex (sign_pk bob))); ("node", JStr "nb")]) "Bob") "hi" 5.
Definition event_with (payload : string) : json :=
  JObj [("type", JStr "text"); ("from", JStr "n1"); ("payload", JStr payload); ("seq", JInt 3)].
Example text_arrives_witness : ∃ payload g',
  incoming cw_sounds (event_with payload) (no_flags, cw_gui) = (Ok None, (no_flags, g')) ∧
  (th_preview <$> dict_get "n1" (v_threads (g_view g'))) = Some "hi".
Proof.
  destruct (text_arrives cw_sounds to_bob (Client alice "al" None) cw_world bob "nb") as (payload&_&H);
    [by split|done..|].
  destruct (H "n1" (event_with payload) 3 (new_dm "bo" bo.2 "Bo") (Some "Bo") no_flags cw_gui) as (g'&E&[_ Ht _]).
  - split; try done. by eexists.
  - split; try done. exists [bo], ["n1"]. split; [vm_compute; reflexivity|]. split; [reflexivity|]. set_solver.
  - exists payload, g'. split; [exact E|]. by rewrite Ht.
Defined.

(** Alice writes to the room she shares with Bob and a third, whose window has
    it listed. *)
Definition room_of : list participant :=
  [Participant "n0" bob "Bo"; Participant "n1" alice "Al"; Participant "n2" (replicate 32 Byte.x0c) "Cy"].
Definition to_room : sending := Sending "room" (new_room (room_roster room_of) "Bo, Cy") "hello all" 5.
Definition bobs_gui : gui :=
  Gui cw_store (Client bob "bo" None) "n0" cw_world
    (set_threads [("n1", new_dm "bo" bo.2 "Bo"); ("room", new_room (room_roster room_of) "Al, Cy")] empty_view).
Example room_text_arrives_witness : ∃ payload g',
  incoming cw_sounds (event_with payload) (no_flags, bobs_gui) = (Ok None, (no_flags, g')) ∧
  (th_preview <$> dict_get "room" (v_threads (g_view g'))) = Some "hello all" ∧
  (members "room" (g_store g')).1 = Ok (JObj (room_roster room_of)).
Proof.
  destruct (room_text_arrives cw_sounds to_room room_of (Client alice "al" (Some "n1")) cw_world
    (Client alice "al" (Some "n1")) cw_world "n1") as (sent&Hsent&_&H); [|done|done|done|].
  - split; try done.
    + apply (bool_decide_unpack _). by vm_compute.
    + repeat constructor.
  - destruct sent as [|[p payload] sent]; [done|]. assert (p = Participant "n0" bob "Bo") as -> by (by injection Hsent).
    destruct (H (Participant "n0" bob "Bo") payload (list_elem_of_here _ _) "n1" (event_with payload) 3
      (new_room (room_roster room_of) "Al, Cy") (Some "Al") no_flags bobs_gui) as (g'&E&[_ Ht _]&Hm).
    + split; try done. by eexists.
    + split; try done. exists [bo], ["n1"]. split; [vm_compute; reflexivity|]. split; [reflexivity|]. set_solver.
    + change (s_conv to_room) with "room" in Ht, Hm.
      exists payload, g'. split; [exact E|]. split; [by rewrite Ht|]. by rewrite Hm.
Defined.
End ArrivalWitness.
