(* ===== verification/WindowProps.v ===== *)
(** * What every handler of the messages window keeps

    The window starts empty; after any moves of the user, the daemon's events
    and the workers, in any order and whether or not they raise, its state is
    well formed: the conversation shown is a thread of the sidebar, unread
    counts are counts, and the rows of the transfers are rows alive. *)

From S2P Require Import Prelude PyStr Codec Json Sys Paths Crypto Protocol Keys Store StoreProps DaemonClient Service Desktop View Transfers TransfersProps Conversations ConversationsProps.
From Stdlib Require Import Ascii.
Local Open Scope Z_scope.

Section Window.
Context `{N : NaCl} `{J : JsonCodec} `{D : Daemon} `{MU : Markup} `{Z_ : Zone} `{L : Locale}.
Context (sounds : sound_system).

Record window_ok (v : view) : Prop := WindowOk {
  wo_threads : dict_wf (v_threads v);
  wo_unread : ∀ c t, dict_get c (v_threads v) = Some t → 0 <= th_unread t;
  wo_selected : ∀ c, v_selected v = Some c → dict_mem c (v_threads v) = true;
  wo_bufs : dict_wf (v_file_bufs v);
  wo_rows : ∀ i, StatusRow i ∈ v_shown v → is_Some (v_status v !! i);
  wo_status : ∀ i, is_Some (v_status v !! i) → (i < v_next v)%nat;
  wo_recs : ∀ i r, v_recs v !! i = Some r → (i < v_next v)%nat ∧ (k_row r < v_next v)%nat;
  wo_pending : ∀ k i, v_pending_files v !! k = Some i → is_Some (v_recs v !! i);
}.

Definition fine (g : gui) : Prop := window_ok (g_view g).
Abbreviation safe := (keeps fine).

(** ** What does not touch the window *)

Lemma safe_gst {A} (m : ST A) : safe (gst m) any.
Proof. intros g Hg. unfold gst. destruct (m (g_store g)). by split. Qed.
Lemma safe_gio {A} (m : IO A) : safe (gio m) any.
Proof. intros g Hg. unfold gio. destruct (m (g_world g)). by split. Qed.
Lemma safe_gcl {A} (m : CL A) : safe (gcl m) any.
Proof. intros g Hg. unfold gcl. destruct (m _) as [? [? ?]]. by split. Qed.
Lemma safe_gapp {A} (m : APP A) : safe (gapp m) any.
Proof. intros g Hg. unfold gapp. destruct (m _) as [? [? [? ?]]]. by split. Qed.
Lemma safe_seen {A} (f : view → A) : safe (seen f) any.
Proof. apply keeps_gets_any. Qed.
Lemma safe_show f : (∀ v, window_ok v → window_ok (f v)) → safe (show f) any.
Proof. intros Hf. apply keeps_modify. intros g. apply Hf. Qed.

(** An update of what the invariant does not speak of. *)
Lemma safe_frame f :
  (∀ v, v_threads (f v) = v_threads v ∧ v_selected (f v) = v_selected v ∧ v_file_bufs (f v) = v_file_bufs v ∧
    v_shown (f v) = v_shown v ∧ v_status (f v) = v_status v ∧ v_next (f v) = v_next v ∧
    v_recs (f v) = v_recs v ∧ v_pending_files (f v) = v_pending_files v) →
  safe (show f) any.
Proof.
  intros Hf. apply safe_show. intros v []. destruct (Hf v) as (E1&E2&E3&E4&E5&E6&E7&E8).
  split; rewrite ?E1, ?E2, ?E3, ?E4, ?E5, ?E6, ?E7, ?E8; done.
Qed.

(** ** Threads *)

Definition counted (o : option thread) : Prop := ∀ t, o = Some t → 0 <= th_unread t.

Lemma safe_get_thread conv : safe (get_thread conv) counted.
Proof. apply keeps_gets. intros g [] t. eauto. Qed.

Lemma window_ok_put c t v : 0 <= th_unread t → window_ok v → window_ok (set_threads (dict_set c t (v_threads v)) v).
Proof.
  intros Ht []. split; cbn; try done.
  - by apply dict_set_wf.
  - intros c' t'. destruct (decide (c = c')) as [<- |Hne].
    + rewrite dict_get_set_eq. by intros [= <-].
    + rewrite dict_get_set_ne by done. eauto.
  - intros c' Hc. apply dict_mem_true, dict_set_keys. right. by apply dict_mem_true, wo_selected0.
Qed.
Lemma safe_put_thread c t : 0 <= th_unread t → safe (put_thread c t) any.
Proof. intros Ht. apply safe_show. intros v. by apply window_ok_put. Qed.

Lemma safe_update_thread conv h :
  (∀ t, 0 <= th_unread t → 0 <= th_unread (h t)) → safe (update_thread conv h) any.
Proof.
  intros Hh. eapply keeps_bind; [apply safe_get_thread|]. intros [t|] Ht; [|apply keeps_ret_any].
  apply safe_put_thread. auto.
Qed.

Lemma window_ok_closed v : window_ok v → window_ok (set_selected None v).
Proof. intros []. by split. Qed.
Lemma window_ok_opened c v : dict_mem c (v_threads v) = true → window_ok v → window_ok (set_selected (Some c) v).
Proof. intros Hc []. split; cbn; try done. by intros ? [= <-]. Qed.

Lemma safe_drop_thread conv : safe (drop_thread conv) any.
Proof.
  intros g []. rewrite drop_thread_run. cbn. split; [|done].
  assert (Hget : ∀ c, dict_get c (dict_del conv (v_threads (g_view g))) =
    if bool_decide (c = conv) then None else dict_get c (v_threads (g_view g))).
  { intros c. case_bool_decide as Hc; [subst; by apply dict_get_del_eq|by rewrite dict_get_del_ne]. }
  split; cbn; try done.
  - by apply dict_del_wf.
  - intros c t. rewrite Hget. case_bool_decide; [done|]. apply wo_unread0.
  - intros c. unfold still_open. destruct (v_selected (g_view g)) as [x|] eqn:Hx; [|done].
    case_bool_decide as Hin; [done|]. intros [= ->]. unfold dict_mem. rewrite Hget.
    rewrite bool_decide_eq_false_2 by set_solver. by apply wo_selected0.
Qed.

(** ** Rows *)

Lemma safe_append_row r : (∀ i, r ≠ StatusRow i) → safe (append_row r) any.
Proof.
  intros Hr. apply safe_show. intros v []. split; cbn; try done.
  intros i [Hi|Hi]%elem_of_app; [eauto|]. apply list_elem_of_singleton in Hi. by destruct (Hr i).
Qed.

(** A row added under a fresh number. *)
Definition add_row (text : string) (v : view) : view :=
  set_shown (v_shown v ++ [StatusRow (v_next v)])
    (set_status (<[v_next v := text]> (v_status v)) (S (v_next v)) v).
Lemma append_status_run text g :
  _append_status_row text g =
    (Ok (v_next (g_view g)), Gui (g_store g) (g_client g) (g_self_node g) (g_world g) (add_row text (g_view g))).
Proof. done. Qed.
Lemma window_ok_add_row text v : window_ok v → window_ok (add_row text v).
Proof.
  intros []. split; cbn; try done.
  - intros i [Hi|Hi]%elem_of_app.
    + destruct (decide (i = v_next v)) as [->|]; [rewrite lookup_insert_eq; eauto|].
      rewrite lookup_insert_ne by done. eauto.
    + apply list_elem_of_singleton in Hi. injection Hi as ->. rewrite lookup_insert_eq. eauto.
  - intros i. destruct (decide (i = v_next v)) as [->|]; [lia|].
    rewrite lookup_insert_ne by done. intros Hi%wo_status0. lia.
  - intros i r Hi. apply wo_recs0 in Hi. lia.
Qed.
Lemma safe_append_status text : safe (_append_status_row text) any.
Proof. intros g Hg. rewrite append_status_run. split; [by apply window_ok_add_row|done]. Qed.

Lemma safe_update_status row text : safe (_update_status_row row text) any.
Proof.
  apply safe_show. intros v []. split; cbn; try done.
  - intros i Hi. rewrite lookup_alter_is_Some. eauto.
  - intros i. rewrite lookup_alter_is_Some. eauto.
Qed.
Lemma safe_destroy_row row : safe (destroy_row row) any.
Proof.
  apply safe_show. intros v []. split; cbn; try done.
  - intros i [Hi Hn]%list_filter_elem. cbn in Hn. case_bool_decide; [done|].
    rewrite lookup_delete_ne by done. eauto.
  - intros i [t Hi]. apply lookup_delete_Some in Hi as [_ Hi]. eauto.
Qed.

(** The files followed: a record under a fresh number, reached by some keys. *)
Definition follow (rec : tracked) (keys : gmap (string * Z) nat → gmap (string * Z) nat) (v : view) : view :=
  set_tracking (<[v_next v := rec]> (v_recs v)) (keys (v_pending_files v)) (v_acked_seen v)
    (set_status (v_status v) (S (v_next v)) v).
Lemma window_ok_follow rec keys v :
  (k_row rec < v_next v)%nat → (∀ m k i, keys m !! k = Some i → i = v_next v ∨ m !! k = Some i) →
  window_ok v → window_ok (follow rec keys v).
Proof.
  intros Hrow Hkeys []. split; cbn; try done.
  - intros i Hi%wo_status0. lia.
  - intros i r. destruct (decide (i = v_next v)) as [->|]; [rewrite lookup_insert_eq; intros [= <-]; lia|].
    rewrite lookup_insert_ne by done. intros Hi%wo_recs0. lia.
  - intros k i Hi. destruct (decide (i = v_next v)) as [->|Hne]; [rewrite lookup_insert_eq; eauto|].
    rewrite lookup_insert_ne by done. apply Hkeys in Hi as [->|Hi]; [done|eauto].
Qed.
Lemma foldr_keys (l : list (string * Z)) (n : nat) (m : gmap (string * Z) nat) k i :
  foldr (λ k p, <[k := n]> p) m l !! k = Some i → i = n ∨ m !! k = Some i.
Proof.
  induction l as [|x l IH]; cbn; [by right|].
  destruct (decide (x = k)) as [->|]; [rewrite lookup_insert_eq; intros [= <-]; by left|].
  by rewrite lookup_insert_ne.
Qed.

(** A row and the record that names it are made together. *)
Lemma safe_register text filename keys :
  safe (row ← _append_status_row text; register_file_delivery row filename keys) any.
Proof.
  intros g Hg. rewrite (M_bind_run _ _ _ _ _ (append_status_run text g)).
  set (g1 := Gui _ _ _ _ _). assert (H1 : window_ok (g_view g1)) by (by apply window_ok_add_row).
  assert (Hn : (v_next (g_view g) < v_next (g_view g1))%nat) by (cbn; lia). clearbody g1.
  unfold register_file_delivery. rewrite (M_bind_run _ _ g1 (v_acked_seen (g_view g1)) g1) by done. cbv zeta.
  set (rec := Tracked _ _ _ _). set (pending := _ ∖ _). clearbody pending.
  rewrite (M_bind_run _ _ g1 (v_next (g_view g1)) g1) by done.
  set (g2 := Gui (g_store g1) (g_client g1) (g_self_node g1) (g_world g1)
    (follow rec (λ m, set_fold (λ k m, <[k := v_next (g_view g1)]> m) m pending) (g_view g1))).
  match goal with |- context [(show ?a ≫= λ _, show ?b ≫= λ _, ?k) g1] =>
    change ((show a ≫= λ _, show b ≫= λ _, k) g1) with (k g2) end.
  apply safe_update_status. apply window_ok_follow; [done| |done].
  intros m k i. rewrite set_fold_insert. case_decide; [|by right]. intros [= <-]. by left.
Qed.
Lemma safe_show_file_row m : safe (show_file_row m) any.
Proof.
  unfold show_file_row. eapply keeps_bind; [apply safe_gst|]. intros [total don] _.
  destruct (total =? 0); [apply keeps_ret_any|]. intros g Hg.
  rewrite (M_bind_run _ _ _ _ _ (append_status_run "" g)).
  set (g1 := Gui _ _ _ _ _). assert (H1 : window_ok (g_view g1)) by (by apply window_ok_add_row).
  assert (Hn : (v_next (g_view g) < v_next (g_view g1))%nat) by (cbn; lia). clearbody g1.
  rewrite (M_bind_run _ _ g1 (undelivered_of (g_id m) (s_db (g_store g1))) g1) by (by destruct g1).
  rewrite (M_bind_run _ _ g1 (v_next (g_view g1)) g1) by done. cbv zeta.
  set (left := undelivered_of _ _). clearbody left. set (rec := Tracked _ _ _ _).
  set (g2 := Gui (g_store g1) (g_client g1) (g_self_node g1) (g_world g1)
    (follow rec (λ p, foldr (λ k p, <[k := v_next (g_view g1)]> p) p left) (g_view g1))).
  match goal with |- context [(show ?a ≫= λ _, show ?b ≫= λ _, ?k) g1] =>
    change ((show a ≫= λ _, show b ≫= λ _, k) g1) with (k g2) end.
  apply safe_update_status. apply window_ok_follow; [done| |done]. intros p k i. apply foldr_keys.
Qed.

(** ** The handlers *)

Hint Resolve safe_gst safe_gio safe_gcl safe_gapp safe_seen safe_drop_thread safe_append_status
  safe_update_status safe_destroy_row safe_show_file_row safe_register : keeps.
Ltac count :=
  repeat match goal with
  | H : counted (Some ?t) |- _ => specialize (H t eq_refl)
  | H : counted ?o |- context [match ?o with _ => _ end] => destruct o
  end; cbn in *; lia.
Ltac safe_leaf :=
  first
  [ apply safe_append_row; intros ? [=]
  | apply safe_frame; intros ?; split_and!; reflexivity
  | apply safe_put_thread; count
  | apply safe_update_thread; intros ? ?; cbn; lia ].
Ltac safe_step :=
  first
  [ solve [eauto with keeps]
  | safe_leaf
  | match goal with
    | |- keeps _ (get_thread _ ≫= _) _ => eapply keeps_bind; [apply safe_get_thread|intros ? ?]
    | H : counted (Some ?t) |- _ => specialize (H t eq_refl)
    end
  | apply keeps_if
  | apply keeps_for_each; intros ? ?
  | eapply keeps_bind; [|intros ? _]
  | match goal with |- keeps _ (match ?x with _ => _ end) _ => destruct x end
  | apply keeps_try; [|intros ?] ].
Ltac safe_tac := repeat safe_step.
Ltac safe_unfold := unfold append_bubble, append_system_note, spawn_job, activity, self_node, identity, clock,
  contacts, contacts_dict, contacts_file, write_contacts in *.

Lemma safe_bubble b text ts s a m : safe (append_bubble b text ts s a m) any.
Proof. safe_unfold. safe_tac. Qed.
Lemma safe_alert conv node sender body : safe (alert_message sounds conv node sender body) any.
Proof.
  intros g Hg. destruct (alert_message_run sounds conv node sender body g) as (l&a&->). cbn.
  split; [|done]. destruct Hg. by split.
Qed.
Lemma safe_activity line : safe (activity line) any.
Proof. safe_unfold. safe_tac. Qed.
Lemma safe_job j : safe (spawn_job j) any.
Proof. safe_unfold. safe_tac. Qed.
Hint Resolve safe_bubble safe_alert safe_activity safe_job : keeps.

(** One chunk less to wait for, in the record a key leads to. *)
Lemma window_ok_retrack i rec rec' key seen v :
  v_recs v !! i = Some rec → k_row rec' = k_row rec → window_ok v →
  window_ok (set_tracking (<[i := rec']> (v_recs v)) (delete key (v_pending_files v)) seen v).
Proof.
  intros Hi Hrow []. split; cbn; try done.
  - intros j r. destruct (decide (j = i)) as [->|].
    + rewrite lookup_insert_eq. intros [= <-]. rewrite Hrow. eauto.
    + rewrite lookup_insert_ne by done. eauto.
  - intros k j [_ Hk]%lookup_delete_Some. destruct (decide (j = i)) as [->|].
    + rewrite lookup_insert_eq. eauto.
    + rewrite lookup_insert_ne by done. eauto.
Qed.
Lemma safe_note_acked node seq : safe (note_acked node seq) any.
Proof.
  unfold note_acked. cbv zeta. eapply keeps_bind; [|intros _ _].
  { apply safe_show. intros v []. by split. }
  eapply keeps_bind; [apply safe_gst|]. intros mid _ g Hg. split; [|done].
  rewrite (M_bind_run _ _ g (g_view g) g) by done. apply (then_keeps fine).
  - destruct (v_pending_files (g_view g) !! (node, seq)) as [i|]; [|done].
    destruct (v_recs (g_view g) !! i) as [rec|] eqn:Hi; [|done].
    set (rec' := Tracked _ _ _ _).
    assert (K : safe (_ ← _set_delivery_text rec'; mret true) any) by (unfold _set_delivery_text; safe_tac).
    match goal with |- context [show ?f ≫= _] => set (g2 := (show f g).2); rewrite (M_bind_run _ _ g tt g2) by done end.
    apply K. by apply (window_ok_retrack i rec rec').
  - intros hit. unfold bubble_delivery. safe_tac.
Qed.
Lemma safe_set_buf key b : safe (set_buf key b) any.
Proof. apply safe_show. intros v []. split; cbn; try done. by apply dict_set_wf. Qed.
Lemma safe_del_buf key : safe (show (λ v, set_file_bufs (dict_del key (v_file_bufs v)) v)) any.
Proof. apply safe_show. intros v []. split; cbn; try done. by apply dict_del_wf. Qed.
Hint Resolve safe_note_acked safe_set_buf safe_del_buf : keeps.

Lemma safe_finalize conv node b seq ts notify : safe (_finalize_attachment sounds conv node b seq ts notify) any.
Proof. unfold _finalize_attachment, _store_attachment, attachments_path. safe_tac. Qed.
Lemma safe_buffer_for conv key parsed chunk : safe (buffer_for conv key parsed chunk) any.
Proof. unfold buffer_for. safe_tac. Qed.
Hint Resolve safe_finalize safe_buffer_for : keeps.
Lemma safe_incoming_file ev : safe (_incoming_file sounds ev) any.
Proof. unfold _incoming_file, _mark_file_failed, identity. safe_tac. Qed.
Lemma safe_catchup_done jobs : safe (catchup_done sounds jobs) any.
Proof. unfold catchup_done, _process_fetched_transfer, identity. safe_tac. Qed.
Lemma safe_send_file conv t path filename size : safe (_send_file conv t path filename size) any.
Proof. unfold _send_file, append_system_note. safe_tac. Qed.
Lemma safe_append_outgoing conv seqs ts text att keys : safe (_append_outgoing conv seqs ts text att keys) any.
Proof. unfold _append_outgoing. safe_tac. Qed.
Hint Resolve safe_incoming_file safe_append_outgoing : keeps.
Lemma safe_send_done o r : safe (send_done o r) any.
Proof. unfold send_done, clock. safe_tac. Qed.

Lemma safe_presence p : safe (refresh_presence p) any.
Proof.
  unfold refresh_presence, self_node. eapply keeps_bind; [apply keeps_gets_any|]. intros c _.
  eapply keeps_bind; [apply keeps_gets_any|]. intros self _.
  apply (keeps_bind _ _ _ (λ ts, ∀ kt, kt ∈ ts → 0 <= th_unread kt.2)).
  { apply keeps_gets. intros g [] [k t] Hin. cbn. eapply wo_unread0. by apply dict_elem_get. }
  intros ts Hts. apply keeps_for_each. intros kt Hin.
  apply (keeps_bind _ _ _ (λ t, 0 <= th_unread t)).
  { apply keeps_lift. intros t. unfold refresh_thread. destruct (th_is_room kt.2); intros H; inv_ok; cbn; by apply Hts. }
  intros t Ht. by apply safe_put_thread.
Qed.
Lemma safe_render conv t : safe (_render_messages conv t) any.
Proof.
  unfold _render_messages. eapply keeps_bind; [|intros _ _].
  { apply safe_show. intros v []. split; cbn; try done.
    - intros i Hi. by apply not_elem_of_nil in Hi.
    - intros i. by rewrite lookup_empty, is_Some_alt. }
  unfold show_message. safe_tac.
Qed.
Lemma safe_clear_shown : safe (show (λ v, set_shown [] (set_status ∅ (v_next v) v))) any.
Proof.
  apply safe_show. intros v []. split; cbn; try done.
  - intros i Hi. by apply not_elem_of_nil in Hi.
  - intros i. by rewrite lookup_empty, is_Some_alt.
Qed.
Hint Resolve safe_presence safe_render safe_clear_shown : keeps.

Lemma safe_history_loaded conv : safe (_history_loaded conv) any.
Proof. unfold _history_loaded. safe_tac. Qed.
Lemma safe_apply_all hists : safe (apply_all hists) any.
Proof. unfold apply_all. safe_tac. Qed.
Lemma safe_sync_contact kv : safe (sync_contact kv) any.
Proof. unfold sync_contact. safe_tac. Qed.
Lemma safe_sync_room conv : safe (sync_room conv) any.
Proof. unfold sync_room, self_node. safe_tac. Qed.
Hint Resolve safe_history_loaded safe_apply_all safe_sync_contact safe_sync_room : keeps.
Lemma safe_sync_sidebar : safe sync_sidebar any.
Proof. unfold sync_sidebar. safe_unfold. safe_tac. Qed.
Hint Resolve safe_sync_sidebar : keeps.

Lemma safe_count_all before ts n :
  (∀ kt, kt ∈ ts → 0 <= th_unread kt.2) → safe (count_all before ts n) any.
Proof.
  revert n. induction ts as [|kt ts IH]; intros n Hts; cbn [count_all]; [apply keeps_ret_any|].
  eapply keeps_bind; [|intros m _; apply IH; set_solver].
  unfold count_arrived. pose proof (Hts kt ltac:(set_solver)) as Hu.
  eapply keeps_bind; [unfold message_count; safe_tac|]. intros k _. cbv zeta. set (delta := k - _).
  destruct (0 <? delta) eqn:E; [apply Z.ltb_lt in E; safe_tac|apply keeps_ret_any].
Qed.
Lemma safe_map_count (ts : list (string * thread)) :
  safe (map_m (λ kt : string * thread, n ← message_count kt.1; mret (kt.1, n)) ts) any.
Proof. apply keeps_map_m. intros kt _. unfold message_count. safe_tac. Qed.

Lemma safe_keep_message conv node ev opened : safe (keep_message conv node ev opened) any.
Proof. unfold keep_message. safe_tac. Qed.
Lemma safe_show_incoming conv node opened : safe (show_incoming conv node opened) any.
Proof. unfold show_incoming. safe_tac. Qed.
Lemma safe_adopt_room conv opened : safe (adopt_room conv opened) any.
Proof. unfold adopt_room. safe_tac. Qed.
Hint Resolve safe_map_count safe_keep_message safe_show_incoming safe_adopt_room : keeps.
Lemma safe_receive conv node ev opened : safe (receive sounds conv node ev opened) any.
Proof. unfold receive. safe_tac. Qed.
Lemma safe_contacts : safe contacts any.
Proof. safe_unfold. safe_tac. Qed.
Lemma safe_write_contacts d : safe (write_contacts d) any.
Proof. safe_unfold. safe_tac. Qed.
Lemma safe_contacts_dict : safe contacts_dict any.
Proof. safe_unfold. safe_tac. Qed.
Lemma safe_add_from_roster node pubkey screen : safe (_add_contact_from_roster node pubkey screen) any.
Proof. unfold _add_contact_from_roster. safe_unfold. safe_tac. Qed.
Hint Resolve safe_receive safe_contacts safe_write_contacts safe_contacts_dict safe_add_from_roster : keeps.

Lemma safe_answer req c :
  safe (match c with Accept => accept_request req | Block => block_request req | Deny => deny_request req end) any.
Proof. unfold accept_request, block_request, deny_request. safe_tac. Qed.
Lemma safe_delete_done r latests : safe (delete_done r latests) any.
Proof. unfold delete_done. safe_tac. Qed.
Lemma safe_clear_done r latests : safe (clear_done r latests) any.
Proof. unfold clear_done. safe_tac. Qed.
Lemma safe_toggle_mute : safe on_toggle_mute any.
Proof. unfold on_toggle_mute. safe_tac. Qed.
Lemma safe_block confirmed : safe (on_block confirmed) any.
Proof. unfold on_block. safe_tac. Qed.
Lemma safe_add invite petname : safe (on_add invite petname) any.
Proof. unfold on_add. safe_tac. Qed.
Lemma safe_remove petname confirmed : safe (on_remove petname confirmed) any.
Proof. unfold on_remove. safe_tac. Qed.
Lemma safe_unblock node : safe (on_unblock node) any.
Proof. unfold on_unblock. safe_tac. Qed.
Lemma safe_set_away typed : safe (set_away typed) any.
Proof. unfold set_away. safe_tac. Qed.
Lemma safe_push_done away log errors : safe (push_status_done away log errors) any.
Proof. unfold push_status_done. safe_tac. Qed.

(** ** The window with its flags *)

Definition ready (s : flags * gui) : Prop := fine s.2.
Abbreviation sound := (keeps ready).

Lemma sound_gui {A} (m : GUI A) Q : safe m Q → sound (on_gui m) Q.
Proof. intros Hm [f g] Hg. destruct (Hm g Hg) as [H1 H2]. unfold on_gui. by destruct (m g). Qed.
Lemma sound_mark p : sound (mark p) any.
Proof. by apply keeps_modify. Qed.
Lemma sound_flag {A} (p : flags → A) : sound (flag p) any.
Proof. apply keeps_gets_any. Qed.
Hint Resolve sound_mark sound_flag : keeps.
Ltac sound_step :=
  first
  [ solve [eauto with keeps]
  | apply sound_gui; solve [safe_tac]
  | apply keeps_if
  | match goal with
    | |- keeps _ (on_gui (get_thread _) ≫= _) _ =>
        eapply keeps_bind; [apply sound_gui, safe_get_thread|intros ? ?]
    end
  | eapply keeps_bind; [|intros ? _]
  | match goal with |- keeps _ (match ?x with _ => _ end) _ => destruct x end
  | apply keeps_try; [|intros ?] ].
Ltac sound_tac := repeat sound_step.

Lemma sound_load_history conv : sound (load_history_async conv) any.
Proof. unfold load_history_async. sound_tac. Qed.
Hint Resolve sound_load_history : keeps.
(** Opening a conversation: its thread is there when it is opened. *)
Lemma sound_select conv : sound (on_thread_selected conv) any.
Proof.
  destruct conv as [conv|]; cbn [on_thread_selected].
  - intros [f g] Hg. split; [|done].
    assert (E : on_gui (get_thread conv) (f, g) = (Ok (dict_get conv (v_threads (g_view g))), (f, g))) by done.
    rewrite (M_bind_run _ _ _ _ _ E). destruct (dict_get conv (v_threads (g_view g))) as [t|] eqn:Ht; [|done].
    set (g1 := (show (set_selected (Some conv)) g).2).
    rewrite (M_bind_run _ _ (f, g) tt (f, g1)) by done. cbv zeta.
    assert (H1 : ready (f, g1)).
    { apply (window_ok_opened conv (g_view g)); [|done]. unfold dict_mem. by rewrite Ht. }
    clearbody g1. revert H1. generalize (f, g1). clear - sounds. intros s Hs.
    refine (proj1 ((_ : sound _ any) s Hs)).
    eapply keeps_bind; [apply sound_gui, safe_put_thread; cbn; lia|intros _ _]. sound_tac.
  - eapply keeps_bind; [|intros _ _; apply keeps_ret_any]. apply sound_gui, safe_show, window_ok_closed.
Qed.
Hint Resolve sound_select : keeps.

Lemma sound_pending : sound surface_pending_requests any.
Proof. unfold surface_pending_requests. sound_tac. Qed.
Hint Resolve sound_pending : keeps.
Lemma sound_incoming ev : sound (incoming sounds ev) any.
Proof. unfold incoming, incoming_opened, in_muted, from_contact, from_stranger. sound_tac. Qed.
Hint Resolve sound_incoming : keeps.
Lemma sound_drain evs requests : sound (drain_events sounds evs requests) any.
Proof.
  revert requests. induction evs as [|ev evs IH]; intros requests; cbn [drain_events]; [apply keeps_ret_any|].
  unfold handle_event. sound_tac.
Qed.
Lemma sound_create_room chosen : sound (create_room chosen) any.
Proof. unfold create_room, self_node. sound_tac. Qed.
Lemma sound_member_chip node screen known confirmed : sound (on_member_chip node screen known confirmed) any.
Proof. unfold on_member_chip. cbv zeta. sound_tac. Qed.
Lemma sound_catchup_done hists : sound (catchup_unread_done hists) any.
Proof.
  unfold catchup_unread_done. eapply keeps_bind; [apply sound_mark|intros _ _]. apply sound_gui.
  apply (keeps_bind _ _ _ (λ ts, ∀ kt, kt ∈ ts → 0 <= th_unread kt.2)).
  { apply keeps_gets. intros g [] [k t] Hin. cbn. eapply wo_unread0. by apply dict_elem_get. }
  intros ts Hts. eapply keeps_bind; [apply safe_map_count|]. intros before _.
  eapply keeps_bind; [apply safe_apply_all|]. intros _ _.
  eapply keeps_bind; [by apply safe_count_all|]. intros n _. safe_tac.
Qed.
Lemma sound_presence_fail : sound presence_fail any.
Proof.
  unfold presence_fail. eapply keeps_bind; [apply sound_mark|intros _ _].
  eapply keeps_bind; [|intros _ _; apply sound_gui, safe_presence]. apply sound_gui, safe_show.
  intros v []. set (h := λ t, with_presence false (th_away t) (th_presence t) t).
  change (window_ok (set_threads ((λ kt : string * thread, (kt.1, h kt.2)) <$> v_threads v) v)).
  split; cbn; try done.
  - unfold dict_wf. rewrite <-list_fmap_compose. done.
  - intros c t. rewrite dict_get_fmap. destruct (dict_get c (v_threads v)) as [t'|] eqn:E; [|done].
    intros [= <-]. cbn. eauto.
  - intros c Hc. unfold dict_mem. rewrite dict_get_fmap. apply wo_selected0 in Hc. unfold dict_mem in Hc.
    by destruct (dict_get c (v_threads v)).
Qed.

(** ** Moves *)

(** What can happen to the window: the user acts, the daemon reports events, a
    worker hands back its result or its error, and the workers and the rest of
    the machine go on. *)
Inductive move :=
| Compose (text : string) | Focus (active : bool) (tab : string)
| Open (conv : option string) | Resync | Events (evs : list json)
| LoadHistory (conv : string) | HistoryDone (conv : string) (hists : list (string * json)) | HistoryFail (e : exn)
| Poll | PresenceDone (p : list (string * json)) | PresenceFail
| Catchup | CatchupDone (hists : list (string * json)) | CatchupFail
| Send | Sent (s : sending) (seqs : list (string * Z)) | SendFail (e : exn)
| SendFile (conv : string) (t : thread) (path filename : string) (size : Z)
| Progress (o : outgoing) (n : nat) | FileSent (o : outgoing) (r : sent) | FileFail (o : outgoing) (e : exn)
| CatchupFiles (jobs : list (string * list json))
| Ask | Answer (req : list (string * json)) (c : choice)
| CreateRoom (chosen : list json) | Member (node screen : string) (known confirmed : bool)
| Delete (r : removal) (latests : list (string * Z)) | DeleteFail (e : exn)
| Clear (r : removal) (latests : list (string * Z)) | ClearFail (e : exn)
| ToggleMute | BlockShown (confirmed : bool)
| Add (invite petname : string) | Remove (petname : string) (confirmed : bool) | Unblock (node : string)
| Away (typed : string) | AwayDone (away : string) (log : bool) (errors : list string)
| Elsewhere (c : client) (w : world).

Definition do_move (m : move) : WM unit :=
  match m with
  | Compose text => mark (set_composer text)
  | Focus active tab => on_gui (show (set_focus active tab))
  | Open conv => _ ← on_thread_selected conv; mret tt
  | Resync => on_gui sync_sidebar
  | Events evs => _ ← drain_events sounds evs []; mret tt
  | LoadHistory conv => _ ← load_history_async conv; mret tt
  | HistoryDone conv hists => history_done conv hists
  | HistoryFail e => history_fail e
  | Poll => _ ← poll_presence; mret tt
  | PresenceDone p => presence_done p
  | PresenceFail => presence_fail
  | Catchup => _ ← catchup_unread; mret tt
  | CatchupDone hists => catchup_unread_done hists
  | CatchupFail => catchup_unread_fail
  | Send => _ ← send_message; mret tt
  | Sent s seqs => message_done s seqs
  | SendFail e => message_fail e
  | SendFile conv t path filename size => on_gui (_ ← _send_file conv t path filename size; mret tt)
  | Progress o n => on_gui (_progress o n)
  | FileSent o r => on_gui (send_done o r)
  | FileFail o e => on_gui (send_fail o e)
  | CatchupFiles jobs => on_gui (catchup_done sounds jobs)
  | Ask => _ ← surface_pending_requests; mret tt
  | Answer req c => answer_request req c
  | CreateRoom chosen => _ ← create_room chosen; mret tt
  | Member node screen known confirmed => _ ← on_member_chip node screen known confirmed; mret tt
  | Delete r latests => on_gui (delete_done r latests)
  | DeleteFail e => on_gui (delete_fail e)
  | Clear r latests => on_gui (clear_done r latests)
  | ClearFail e => on_gui (clear_fail e)
  | ToggleMute => on_gui on_toggle_mute
  | BlockShown confirmed => on_gui (on_block confirmed)
  | Add invite petname => on_gui (_ ← on_add invite petname; mret tt)
  | Remove petname confirmed => on_gui (_ ← on_remove petname confirmed; mret tt)
  | Unblock node => on_gui (on_unblock node)
  | Away typed => on_gui (_ ← set_away typed; mret tt)
  | AwayDone away log errors => on_gui (push_status_done away log errors)
  | Elsewhere c w => modify (λ s, (s.1, Gui (g_store s.2) c (g_self_node s.2) w (g_view s.2)))
  end.

(** A handler that raises ends; the main loop goes on. *)
Definition run_moves (ms : list move) (s : flags * gui) : flags * gui :=
  foldl (λ s m, exec (do_move m) s) s ms.

Hint Resolve safe_finalize safe_catchup_done safe_send_file safe_send_done safe_answer safe_delete_done safe_clear_done
  safe_toggle_mute safe_block safe_add safe_remove safe_unblock safe_set_away safe_push_done
  sound_drain sound_create_room sound_member_chip sound_catchup_done sound_presence_fail : keeps.
Lemma sound_move m : sound (do_move m) any.
Proof.
  destruct m; cbn [do_move];
    unfold history_done, history_fail, poll_presence, presence_done, catchup_unread, catchup_unread_fail,
      send_message, message_done, message_fail, answer_request, send_fail, _progress, delete_fail, clear_fail,
      append_system_note; sound_tac.
  by apply keeps_modify.
Qed.

(** A new session's window: empty, with the preferences kept on disk. *)
Definition new_window (prefs : list (string * json)) (s : store) (c : client) (self : string) (w : world)
    : flags * gui := (no_flags, Gui s c self w (set_prefs prefs empty_view)).
Lemma new_window_ready prefs s c self w : ready (new_window prefs s c self w).
Proof.
  split; cbn; try done; try (by intros; constructor).
  - intros i Hi. by apply not_elem_of_nil in Hi.
  - intros i [t Hi]. by rewrite lookup_empty in Hi.
Qed.

(** C11: Whatever happens to the window, in whatever order and however the handlers
    end, its state stays well formed: every thread is listed once, the
    conversation shown is one of them, unread counts are never negative, every
    status row on display has its text, and every key a delivery waits for
    leads to a record whose row was made by the window. *)
Theorem window_invariant prefs s c self w ms :
  window_ok (g_view (run_moves ms (new_window prefs s c self w)).2).
Proof.
  change (ready (run_moves ms (new_window prefs s c self w))).
  pose proof (new_window_ready prefs s c self w) as H. revert H. generalize (new_window prefs s c self w).
  induction ms as [|m ms IH]; intros st Hst; [done|]. cbn. apply IH. by apply sound_move.
Qed.
End Window.
