(* ===== verification/BackupProps.v ===== *)
(** * A backup taken on one machine and restored on another *)

From S2P Require Import Prelude PyStr Codec Json Sys Paths Crypto Protocol Keys Store DaemonClient Service Desktop View Transfers Conversations ConversationsProps.
From Stdlib Require Import Ascii.
Local Open Scope Z_scope.

Section Backup.
Context `{N : NaCl} {NL : NaClLaws N} `{J : JsonCodec} {JL : JsonLaws J} `{D : Daemon}
  `{MU : Markup} `{Z_ : Zone} `{L : Locale}.

(** The three files a restoration writes never meet, nor do the temporary
    files they are written through. *)
Lemma restored_files_apart env home :
  let id := identity_path env home in
  let contacts := contacts_path env home in
  let key := path_join (daemon_dir env home) "node.key" in
  id ≠ contacts ∧ id ≠ contacts +:+ ".tmp" ∧ id ≠ key ∧ id ≠ key +:+ ".tmp" ∧
  key ≠ contacts ∧ key ≠ contacts +:+ ".tmp".
Proof.
  destruct (file_layout env home) as [P HP]. unfold identity_path, contacts_path.
  destruct (HP "identity.json" eq_refl) as [-> _], (HP "contacts.json" eq_refl) as [-> _],
    (HP "node.key" eq_refl) as [_ ->]. cbv zeta. rewrite !str_app_assoc.
  split_and!; intros H%str_app_inj_l; discriminate H.
Qed.

(** The file [write_node_key] makes of a seed. *)
Definition key_file (seed : bytes) : bytes := utf8_encode (hex seed) ++ [Byte.x0a].

Lemma read_key_file seed : utf8_decode (key_file seed) = Ok (hex seed +:+ newline).
Proof.
  change (key_file seed) with (utf8_encode (hex seed) ++ utf8_encode newline). rewrite <-utf8_encode_app.
  apply utf8_decode_encode, ascii_is_str. rewrite str_all_app.
  by rewrite (str_all_impl is_hex is_ascii) by (apply is_hex_ascii || apply hex_all_hex).
Qed.

Lemma fs_read_file path f (m : fs) : m !! path = Some f → fs_read path m = Ok (f_data f).
Proof. intros Hf. unfold fs_read. by rewrite Hf. Qed.
Lemma load_saved_contacts path contacts md w :
  json_wf contacts → w_fs w !! path = Some (File (utf8_encode (json_dumps_indent contacts)) md) →
  load_contacts path w = (Ok contacts, w).
Proof.
  intros Hwf Hf. unfold load_contacts, path_exists, read_file, fs_exists, lift, mbind, M_bind.
  rewrite bool_decide_eq_true_2 by (by rewrite Hf). rewrite (fs_read_file _ _ _ Hf). cbn [f_data]. by rewrite loads_bytes_indent.
Qed.

Definition bundle_data (identity node : bytes) (screen : string) (contacts : json) : json :=
  JObj [("identitySeed", JStr (hex identity)); ("nodeSeed", JStr (hex node)); ("screen", JStr screen);
        ("pubkey", JStr (hex (sign_pk identity))); ("contacts", contacts)].

(** What a restoration does with the data of a bundle. *)
Lemma restore_run path pass app identity node screen contacts w :
  length identity = 32%nat → json_wf contacts → truthy contacts = true → hex node ≠ "" →
  load_bundle path pass w = (Ok (bundle_data identity node screen contacts), w) →
  ∃ w', restore_bundle path pass app w = (Ok (bundle_data identity node screen contacts), w') ∧
    load_identity (identity_path (w_env w) (w_home w)) app w' = (Ok identity, w') ∧
    load_contacts (contacts_path (w_env w) (w_home w)) w' = (Ok contacts, w') ∧
    fs_read (path_join (daemon_dir (w_env w) (w_home w)) "node.key") (w_fs w') = Ok (key_file node).
Proof.
  intros Hid Hwf Htrue Hnode Hload. unfold restore_bundle. rewrite (M_bind_run _ _ _ _ _ Hload).
  unfold bundle_data, get_or, jget. dict_simpl.
  rewrite (M_bind_run _ _ w identity w) by (unfold lift; cbn; by rewrite fromhex_hex).
  rewrite Hid. cbn [Nat.eqb negb].
  destruct (restored_files_apart (w_env w) (w_home w)) as (A1&A2&A3&A4&A5&A6).
  set (ipath := identity_path _ _) in *. set (cpath := contacts_path _ _) in *.
  set (kpath := path_join _ "node.key") in *.
  rewrite (M_bind_run _ _ w ipath w) by done.
  destruct (save_identity_run ipath identity app w) as (w1&nonce&md&Hn&Hsave&Hf&_&He&Hh&_&_).
  rewrite (M_bind_run _ _ _ _ _ Hsave).
  rewrite (M_bind_run _ _ w1 (Some (JStr (hex node))) w1) by done.
  assert (Ht : truthy (JStr (hex node)) = true) by (cbn; by rewrite bool_decide_eq_false_2). rewrite Ht.
  destruct (write_replace_spec kpath (key_file node) 384 (w_fs w1)) as (m2&md2&Hm2&Hk2&_&_&Ho2).
  set (w2 := set_fs m2 w1).
  assert (Hkey : write_node_key (daemon_dir (w_env w) (w_home w)) node w1 = (Ok kpath, w2)).
  { unfold write_node_key, _atomic_write. fold kpath. fold (key_file node).
    rewrite (M_bind_run _ _ w1 tt w2) by (by apply for_each_sys). done. }
  match goal with |- context [?m ≫= _] => rewrite (M_bind_run m _ w1 tt w2) end.
  2: { rewrite (M_bind_run _ _ w1 node w1) by (unfold lift; cbn; by rewrite fromhex_hex).
       rewrite (M_bind_run _ _ w1 (daemon_dir (w_env w) (w_home w)) w1) by (unfold io_path, gets; by rewrite He, Hh).
       by rewrite (M_bind_run _ _ _ _ _ Hkey). }
  rewrite (M_bind_run _ _ w2 (Some contacts) w2) by done. rewrite Htrue.
  destruct (write_replace_spec cpath (utf8_encode (json_dumps_indent contacts)) 438 (w_fs w2)) as (m3&md3&Hm3&Hc3&_&_&Ho3).
  set (w3 := set_fs m3 w2).
  match goal with |- context [?m ≫= _] => rewrite (M_bind_run m _ w2 tt w3) end.
  2: { rewrite (M_bind_run _ _ w2 cpath w2) by (unfold io_path, gets; cbn; by rewrite He, Hh).
       exact (for_each_sys _ w2 m3 Hm3). }
  exists w3. split; [done|]. split_and!.
  - eapply load_saved; [done|exact Hn|]. cbn. rewrite Ho3 by done. cbn. rewrite Ho2 by done. exact Hf.
  - eapply load_saved_contacts; [done|exact Hc3].
  - apply (fs_read_file kpath (File (key_file node) md2)). change (m3 !! kpath = Some (File (key_file node) md2)).
    rewrite Ho3 by done. exact Hk2.
Qed.

(** C35: An identity and its contacts move to another machine by the backup alone:
    what [export_backup_to] writes, copied to any machine under any name,
    restores there under the passphrase of the bundle, and then the identity
    file opens under the new passphrase with the same seed, the contacts are
    those of the backup, and the daemon finds the same node key. *)
Theorem backup_moves path pass g node contacts :
  length (cl_identity (g_client g)) = 32%nat → is_str (cl_screen (g_client g)) → node ≠ [] →
  eval contacts_file g = Ok contacts → json_wf contacts → truthy contacts = true →
  fs_read (path_join (daemon_dir (w_env (g_world g)) (w_home (g_world g))) "node.key") (w_fs (g_world g))
    = Ok (key_file node) →
  ∃ g' content, export_backup_to path pass g = (Ok tt, g') ∧ fs_read path (w_fs (g_world g')) = Ok content ∧
    ∀ path2 app w, fs_read path2 (w_fs w) = Ok content →
      ∃ data w', restore_bundle path2 pass app w = (Ok data, w') ∧
        load_identity (identity_path (w_env w) (w_home w)) app w' = (Ok (cl_identity (g_client g)), w') ∧
        load_contacts (contacts_path (w_env w) (w_home w)) w' = (Ok contacts, w') ∧
        fs_read (path_join (daemon_dir (w_env w) (w_home w)) "node.key") (w_fs w') = Ok (key_file node).
Proof.
  intros Hid Hscreen Hnode Hcontacts Hwf Htrue Hkey.
  set (data := bundle_data (cl_identity (g_client g)) node (cl_screen (g_client g)) contacts).
  assert (Hdata : json_wf data).
  { unfold data, bundle_data. json_wf_tac. }
  assert (Hpay : _backup_payload g = (Ok data, g)).
  { unfold _backup_payload. set (dir := daemon_dir _ _) in *. rewrite (M_bind_run _ _ g dir g) by done.
    rewrite (M_bind_run _ _ g (JStr (hex node)) g).
    2: { unfold gio, try_with, read_file, lift, mbind, M_bind. rewrite Hkey, read_key_file, strip_hex_line.
         by destruct g. }
    rewrite (M_bind_run _ _ g (g_client g) g) by done.
    rewrite (M_bind_run _ _ g contacts g) by (by rewrite read_contacts_run, Hcontacts). done. }
  destruct (save_bundle_run path pass data (g_world g)) as (w'&salt&nonce&Hn&Hsave&Hread).
  exists (Gui (g_store g) (g_client g) (g_self_node g) w' (g_view g)). eexists.
  split; [|split; [exact Hread|]].
  { unfold export_backup_to. rewrite (M_bind_run _ _ _ _ _ Hpay). unfold gio. by rewrite Hsave. }
  intros path2 app w Hw. exists data.
  destruct (restore_run path2 pass app (cl_identity (g_client g)) node (cl_screen (g_client g)) contacts w)
    as (w3&H3); [done|done|done| | |by exists w3].
  - by destruct node.
  - unfold load_bundle, read_file, lift, mbind, M_bind. rewrite Hw. by rewrite parse_saved_bundle.
Qed.
End Backup.

Section BackupWitness.
Local Instance bw_json : JsonCodec := RefCodec.
Local Instance bw_json_laws : JsonLaws RefCodec := RefCodec_laws.
Local Instance bw_nacl : NaCl := RefNaCl.
Local Instance bw_nacl_laws : NaClLaws RefNaCl := RefNaCl_laws.
Local Instance bw_daemon : Daemon := {|
  dstate := unit; d_connect _ _ := Ok tt; d_request _ _ d := (Ok JNull, d) |}.

Definition bw_env : gmap string string := {["AIMLESS_HOME" := "/a"]}.
Definition bw_contacts : json := JObj [("bo", JObj [("node", JStr "n1")])].
Definition bw_gui : gui :=
  Gui (Store empty_db [] 0 empty_db) (Client bob "bo" None) "n0"
    (World {[contacts_path bw_env "/h" := File (utf8_encode (json_dumps_indent bw_contacts)) 384;
             path_join (daemon_dir bw_env "/h") "node.key" := File (key_file alice) 384]}
       bw_env "/h" 0 0 [] [] [] tt) empty_view.
Definition bw_machine (content : bytes) : world :=
  World {["/usb/backup" := File content 420]} ∅ "/home/b" 0 5 [] [] [] tt.

Example backup_moves_witness :
  ∃ g' content data w', export_backup_to "/b" "pw" bw_gui = (Ok tt, g') ∧
    restore_bundle "/usb/backup" "pw" "new" (bw_machine content) = (Ok data, w') ∧
    load_identity "/home/b/.local/share/aimless/client/identity.json" "new" w' = (Ok bob, w') ∧
    load_contacts "/home/b/.local/share/aimless/client/contacts.json" w' = (Ok bw_contacts, w').
Proof.
  destruct (backup_moves "/b" "pw" bw_gui alice bw_contacts) as (g'&content&He&_&Hr);
    [reflexivity|by vm_compute|done|vm_compute; reflexivity|unfold bw_contacts; json_wf_tac|reflexivity
    |vm_compute; reflexivity|].
  destruct (Hr "/usb/backup" "new" (bw_machine content)) as (data&w'&H1&H2&H3&_); [reflexivity|].
  exists g', content, data, w'. split_and!; [exact He|exact H1|exact H2|exact H3].
Defined.
End BackupWitness.
