(* ===== verification/Sidebar.v ===== *)
(** * gtkui.py: the rows of the sidebar

    What the sidebar's rows read, and when they are brought up to date: a
    [sidebar] holds the widgets [append_thread_row] makes for the threads of
    the view, the window's title and the tray icon's tooltip. *)

From S2P Require Import Prelude PyStr Codec Json Sys Paths Crypto Protocol Keys Store DaemonClient Service Desktop View Transfers Conversations.
From Stdlib Require Import Ascii.
Local Open Scope Z_scope.

(** [thread["widgets"]], with the row's tooltip and style class. *)
Record thread_row := ThreadRow {
  r_title : string;
  r_subtitle : string;
  r_badge : option string;
  r_tip : option string;
  r_muted : bool;
}.

(** [tip] is [None] when there is no tray icon. *)
Record sidebar := Bar { sb_rows : list (string * thread_row); sb_title : string; sb_tip : option string }.
Definition set_rows l s := Bar l (sb_title s) (sb_tip s).
Definition set_indicator title tip s := Bar (sb_rows s) title tip.

Definition APP_NAME : string := "AIMless".

Section Sidebar.
Context `{N : NaCl} `{J : JsonCodec} `{D : Daemon} `{MU : Markup} `{Z_ : Zone} `{L : Locale}.
Context (role : string → string).

Definition SB (A : Type) : Type := M (sidebar * gui) A.
Definition on_view {A} (m : GUI A) : SB A := λ '(b, g), let '(r, g) := m g in (r, (b, g)).
Definition on_bar (f : sidebar → sidebar) : SB unit := modify (λ s, (f s.1, s.2)).

(** [away_text if away_text else ...]: the away message is a text or [None]. *)
Definition away_text (t : thread) : option string :=
  match th_away t with JStr a => if bool_decide (a = "") then None else Some a | _ => None end.
Definition badge_markup (t : thread) : string := "<b>" +:+ str_of_int (th_unread t) +:+ "</b>".

Definition fresh_row (self : string) (t : thread) : thread_row :=
  ThreadRow (_sidebar_title_markup role t self) (default (th_preview t) (away_text t))
    (if 0 <? th_unread t then Some (badge_markup t) else None) None false.
Definition append_thread_row (conv : string) (t : thread) : SB unit :=
  self ← on_view self_node;
  on_bar (λ s, set_rows (sb_rows s ++ [(conv, fresh_row self t)]) s).

(** The widgets of a row, brought up to date. *)
Definition updated (self : string) (muted : bool) (t : thread) (r : thread_row) : thread_row :=
  ThreadRow (_sidebar_title_markup role t self)
    (if muted then "muted" else default (th_preview t) (away_text t))
    (if 0 <? th_unread t then Some (badge_markup t)
     else if th_unread t =? 0 then None else r_badge r)
    (if muted then None else away_text t)
    muted.

Definition refresh_unread_indicator : SB unit := modify (λ s,
  let n := unread_total (v_threads (g_view s.2)) in
  (set_indicator
     (if n =? 0 then APP_NAME else APP_NAME +:+ " (" +:+ str_of_int n +:+ ")")
     ((λ _, if n =? 0 then APP_NAME +:+ " - running" +:+ newline +:+ "Left-click to open Messages"
            else APP_NAME +:+ " - " +:+ str_of_int n +:+ " unread" +:+ newline +:+ "Left-click to open Messages")
        <$> sb_tip s.1) s.1, s.2)).

Definition update_thread_row (conv : string) : SB unit :=
  t ← on_view (get_thread conv);
  r ← gets (λ s, dict_get conv (sb_rows s.1));
  match t, r with
  | Some t, Some r =>
    self ← on_view self_node;
    muted ← on_view (gst (is_conversation_muted conv));
    _ ← on_bar (λ s, set_rows (dict_set conv (updated self muted t r) (sb_rows s)) s);
    refresh_unread_indicator
  | _, _ => mret tt
  end.

(** [thread["row"].destroy()], with the thread taken out. *)
Definition drop_row (conv : string) : SB unit :=
  _ ← on_view (drop_thread conv);
  on_bar (λ s, set_rows (dict_del conv (sb_rows s)) s).

(** [sync_sidebar] again, its rows included: a thread that is new gets one, and
    every contact's and every room's is brought up to date. *)
Definition row_for (conv : string) (had : option thread) : SB unit :=
  _ ← (match had with
       | Some _ => mret tt
       | None =>
         t ← on_view (get_thread conv);
         match t with Some t => append_thread_row conv t | None => mret tt end
       end);
  update_thread_row conv.
Definition sync_contact_row (kv : string * json) : SB unit :=
  node ← on_view (lift (jindex "node" kv.2 ≫= as_str));
  had ← on_view (get_thread node);
  _ ← on_view (sync_contact kv);
  row_for node had.
Definition sync_room_row (conv : string) : SB unit :=
  had ← on_view (get_thread conv);
  _ ← on_view (sync_room conv);
  row_for conv had.
Definition sync_rows : SB unit :=
  d ← on_view contacts;
  nodes ← on_view (lift (contact_nodes d));
  threads ← on_view (seen v_threads);
  _ ← for_each (λ kt : string * thread,
        if th_is_room kt.2 || bool_decide (kt.1 ∈ nodes) then mret tt else drop_row kt.1) threads;
  _ ← for_each sync_contact_row (merge_sort key_le d);
  rs ← on_view (gst rooms);
  for_each sync_room_row rs.

(** What a row reads of its thread. *)
Definition row_of (self : string) (muted : bool) (t : thread) : thread_row :=
  ThreadRow (_sidebar_title_markup role t self)
    (if muted then "muted" else default (th_preview t) (away_text t))
    (if 0 <? th_unread t then Some (badge_markup t) else None)
    (if muted then None else away_text t)
    muted.
End Sidebar.
