(* ===== verification/SidebarProps.v ===== *)
(** * The sidebar's rows show their threads *)

From S2P Require Import Prelude PyStr Codec Json Sys Paths Crypto Protocol Keys Store DaemonClient Service Desktop View Transfers Conversations ConversationsProps Sidebar.
From Stdlib Require Import Ascii.
Local Open Scope Z_scope.

Section Props.
Context `{N : NaCl} `{J : JsonCodec} `{D : Daemon} `{MU : Markup} `{Z_ : Zone} `{L : Locale}.
Context (role : string → string).

(** Whatever a row read before, updating it makes it read its thread. *)
Lemma updated_row_of self muted t r : 0 <= th_unread t → updated role self muted t r = row_of role self muted t.
Proof.
  intros Ht. unfold updated, row_of. destruct (Z.ltb_spec 0 (th_unread t)); [done|].
  by destruct (Z.eqb_spec (th_unread t) 0); [|lia].
Qed.

(** ** The rows are written beside the threads *)

(** [m] does to the view what [m'] does. *)
Definition projects {A} (m : SB A) (m' : GUI A) : Prop :=
  ∀ b g, ∃ b', m (b, g) = ((m' g).1, (b', (m' g).2)).

Lemma projects_view {A} (m : GUI A) : projects (on_view m) m.
Proof. intros b g. exists b. unfold on_view. by destruct (m g). Qed.
Lemma projects_bind {A B} (m : SB A) (m' : GUI A) (f : A → SB B) (f' : A → GUI B) :
  projects m m' → (∀ x, projects (f x) (f' x)) → projects (m ≫= f) (m' ≫= f').
Proof.
  intros Hm Hf b g. destruct (Hm b g) as [b1 E]. unfold mbind, M_bind. rewrite E.
  destruct (m' g) as [[x|e] g1]; cbn; [apply Hf|by exists b1].
Qed.
Lemma projects_for_each {A} (f : A → SB unit) (f' : A → GUI unit) l :
  (∀ x, projects (f x) (f' x)) → projects (for_each f l) (for_each f' l).
Proof.
  intros Hf. induction l as [|x l IH]; cbn; [by intros b g; exists b|].
  apply projects_bind; [apply Hf|intros []; exact IH].
Qed.

(** A step that leaves the view as it is, and raises nothing. *)
Definition beside (m : SB unit) : Prop := ∀ b g, ∃ b', m (b, g) = (Ok tt, (b', g)).
Lemma projects_then (m : SB unit) (m' : GUI unit) (k : unit → SB unit) :
  projects m m' → (∀ x, beside (k x)) → projects (m ≫= k) m'.
Proof.
  intros Hm Hk b g. destruct (Hm b g) as [b1 E]. unfold mbind, M_bind. rewrite E.
  destruct (m' g) as [[[]|e] g1]; cbn; [apply Hk|by exists b1].
Qed.
Lemma beside_bar f : beside (on_bar f).
Proof. intros b g. by exists (f b). Qed.
Lemma beside_bind (m k : SB unit) : beside m → beside k → beside (m ≫= λ _, k).
Proof.
  intros Hm Hk b g. destruct (Hm b g) as [b1 E]. unfold mbind, M_bind. rewrite E. apply Hk.
Qed.
Lemma beside_append conv t : beside (append_thread_row role conv t).
Proof. intros b g. by eexists. Qed.
Lemma beside_update conv : beside (update_thread_row role conv).
Proof.
  intros b g. unfold update_thread_row.
  rewrite (M_bind_run _ _ (b, g) (dict_get conv (v_threads (g_view g))) (b, g)) by done.
  rewrite (M_bind_run _ _ (b, g) (dict_get conv (sb_rows b)) (b, g)) by done.
  destruct (dict_get conv (v_threads (g_view g))), (dict_get conv (sb_rows b)); try by exists b.
  rewrite (M_bind_run _ _ (b, g) (g_self_node g) (b, g)) by done.
  by destruct g; eexists.
Qed.
Lemma beside_row_for conv had : beside (row_for role conv had).
Proof.
  apply beside_bind; [|apply beside_update]. destruct had; [by intros b g; exists b|].
  intros b g. rewrite (M_bind_run _ _ (b, g) (dict_get conv (v_threads (g_view g))) (b, g)) by done.
  destruct (dict_get conv (v_threads (g_view g))) as [t|]; [apply beside_append|by exists b].
Qed.

Lemma sync_contact_row_projects kv : projects (sync_contact_row role kv) (sync_contact kv).
Proof.
  intros b g. unfold sync_contact_row.
  destruct (jindex "node" kv.2 ≫= as_str) as [node|e] eqn:Hn.
  - rewrite (M_bind_run _ _ (b, g) node (b, g)) by done.
    rewrite (M_bind_run _ _ (b, g) (dict_get node (v_threads (g_view g))) (b, g)) by done.
    apply (projects_then (on_view (sync_contact kv)) (sync_contact kv)); [apply projects_view|].
    intros []. apply beside_row_for.
  - exists b. unfold sync_contact.
    rewrite (M_bind_raise _ _ (b, g) e (b, g)) by done.
    by rewrite (M_bind_raise _ _ g e g) by (unfold lift; by rewrite Hn).
Qed.
Lemma sync_room_row_projects conv : projects (sync_room_row role conv) (sync_room conv).
Proof.
  intros b g. unfold sync_room_row.
  rewrite (M_bind_run _ _ (b, g) (dict_get conv (v_threads (g_view g))) (b, g)) by done.
  apply (projects_then (on_view (sync_room conv)) (sync_room conv)); [apply projects_view|].
  intros []. apply beside_row_for.
Qed.
Lemma drop_row_projects conv : projects (drop_row conv) (drop_thread conv).
Proof. apply projects_then; [apply projects_view|intros []; apply beside_bar]. Qed.

Lemma sync_rows_projects : projects (sync_rows role) sync_sidebar.
Proof.
  unfold sync_rows, sync_sidebar.
  apply projects_bind; [apply projects_view|intros d]. apply projects_bind; [apply projects_view|intros nodes].
  apply projects_bind; [apply projects_view|intros threads]. apply projects_bind.
  { apply projects_for_each. intros kt. case_match; [by intros b g; exists b|apply drop_row_projects]. }
  intros []. apply projects_bind; [apply projects_for_each, sync_contact_row_projects|intros []].
  apply projects_bind; [apply projects_view|intros rs]. apply projects_for_each, sync_room_row_projects.
Qed.

(** ** Every row shows its thread *)

Definition conv_muted (g : gui) (conv : string) : bool :=
  match dict_get conv (conversations (s_db (g_store g))) with Some r => negb (c_muted r =? 0) | None => false end.

(** The threads and the rows are those of the same conversations, each once,
    and no thread has fewer than no unread messages. *)
Record rows_ok (b : sidebar) (g : gui) : Prop := {
  ro_threads : dict_wf (v_threads (g_view g));
  ro_rows : dict_wf (sb_rows b);
  ro_same : ∀ c, c ∈ (sb_rows b).*1 ↔ c ∈ (v_threads (g_view g)).*1;
  ro_unread : ∀ c t, dict_get c (v_threads (g_view g)) = Some t → 0 <= th_unread t;
}.

Definition shows (b : sidebar) (g : gui) (c : string) : Prop :=
  ∃ t, dict_get c (v_threads (g_view g)) = Some t ∧
       dict_get c (sb_rows b) = Some (row_of role (g_self_node g) (conv_muted g c) t).

(** The title says how many messages are unread. *)
Definition title_shows (b : sidebar) (g : gui) : Prop :=
  sb_title b = window_title APP_NAME (v_threads (g_view g)).

(** A thread put in the view, and nothing else. *)
Definition puts (conv : string) (t : thread) (g g' : gui) : Prop :=
  g' = Gui (g_store g) (g_client g) (g_self_node g) (g_world g)
         (set_threads (dict_set conv t (v_threads (g_view g))) (g_view g)).

Lemma sync_contact_puts kv g g' :
  (∀ c t, dict_get c (v_threads (g_view g)) = Some t → 0 <= th_unread t) →
  sync_contact kv g = (Ok tt, g') →
  ∃ node t, (jindex "node" kv.2 ≫= as_str) = Ok node ∧ 0 <= th_unread t ∧ puts node t g g'.
Proof.
  intros Hu H. unfold sync_contact in H. apply M_bind_Ok in H as (node&g1&Hn&H). injection Hn as Hn <-.
  apply M_bind_Ok in H as (screen&g2&Hs&H). injection Hs as Hs <-.
  apply M_bind_Ok in H as (t&g3&Ht&H). injection Ht as <- <-. injection H as <-.
  exists node. eexists. split; [done|]. split; [|reflexivity].
  destruct (dict_get node (v_threads (g_view g))) as [t|] eqn:E; cbn; [by eapply Hu|lia].
Qed.
Lemma sync_room_puts conv g g' :
  (∀ c t, dict_get c (v_threads (g_view g)) = Some t → 0 <= th_unread t) →
  sync_room conv g = (Ok tt, g') → ∃ t, 0 <= th_unread t ∧ puts conv t g g'.
Proof.
  intros Hu H. unfold sync_room in H. apply M_bind_Ok in H as (mem&g1&Hm&H).
  assert (g1 = g) as ->.
  { unfold gst, members in Hm. injection Hm as _ <-. by destruct g. }
  apply M_bind_Ok in H as (mem'&g2&Hm2&H). injection Hm2 as Hm2 <-.
  apply M_bind_Ok in H as (self&g3&Hs&H). injection Hs as <- <-.
  apply M_bind_Ok in H as (title&g4&Ht&H). injection Ht as Ht <-.
  apply M_bind_Ok in H as (t&g5&Hg&H). injection Hg as <- <-. injection H as <-.
  eexists. split; [|reflexivity].
  destruct (dict_get conv (v_threads (g_view g))) as [t|] eqn:E; cbn; [by eapply Hu|lia].
Qed.

(** The row of a conversation there is a thread of, made if it is new. *)
Lemma row_made conv t b g g' :
  rows_ok b g → puts conv t g g' →
  ∃ r rows1, row_for role conv (dict_get conv (v_threads (g_view g))) (b, g') =
    update_thread_row role conv (Bar rows1 (sb_title b) (sb_tip b), g') ∧
    dict_get conv rows1 = Some r ∧ dict_wf rows1 ∧ (∀ c, c ∈ rows1.*1 ↔ c = conv ∨ c ∈ (sb_rows b).*1) ∧
    (∀ c, c ≠ conv → dict_get c rows1 = dict_get c (sb_rows b)).
Proof.
  intros [Ht Hr Hs Hu] Hputs. unfold row_for. destruct (dict_get conv (v_threads (g_view g))) as [t0|] eqn:Hg.
  - assert (Hin : conv ∈ (sb_rows b).*1).
    { apply Hs. apply dict_mem_true. unfold dict_mem. by rewrite Hg. }
    destruct (dict_get conv (sb_rows b)) as [r|] eqn:Hrow; [|by apply dict_get_None in Hrow].
    exists r, (sb_rows b). split; [by destruct b|]. split; [done|]. split; [done|]. split; [|done].
    intros c. split; [auto|]. by intros [->|].
  - assert (Hin : conv ∉ (sb_rows b).*1).
    { intros Hin%Hs. apply dict_mem_true in Hin. unfold dict_mem in Hin. by rewrite Hg in Hin. }
    assert (Hget : dict_get conv (v_threads (g_view g')) = Some t).
    { rewrite Hputs. cbn. apply dict_get_set_eq. }
    eexists _, (sb_rows b ++ [(conv, _)]). split_and!.
    + rewrite (M_bind_run _ _ (b, g') tt
        (set_rows (sb_rows b ++ [(conv, fresh_row role (g_self_node g') t)]) b, g')); [by destruct b|].
      rewrite (M_bind_run _ _ (b, g') (Some t) (b, g')); [done|]. unfold on_view, get_thread, seen, gets. by rewrite Hget.
    + rewrite dict_get_snoc. apply dict_get_None in Hin. rewrite Hin. by rewrite decide_True.
    + unfold dict_wf. rewrite fmap_app. apply NoDup_app. split; [done|]. split; [|apply NoDup_singleton].
      intros c Hc. cbn. by intros ->%list_elem_of_singleton.
    + intros c. rewrite fmap_app, elem_of_app. cbn. rewrite list_elem_of_singleton. tauto.
    + intros c Hne. rewrite dict_get_snoc, decide_False by done. by destruct (dict_get c (sb_rows b)).
Qed.
Lemma update_run conv t r b g :
  dict_get conv (v_threads (g_view g)) = Some t → dict_get conv (sb_rows b) = Some r →
  update_thread_row role conv (b, g) =
    (refresh_unread_indicator (set_rows (dict_set conv (updated role (g_self_node g) (conv_muted g conv) t r) (sb_rows b)) b, g)).
Proof.
  intros Ht Hr. unfold update_thread_row.
  rewrite (M_bind_run _ _ (b, g) (Some t) (b, g)) by (unfold on_view, get_thread, seen, gets; by rewrite Ht).
  rewrite (M_bind_run _ _ (b, g) (Some r) (b, g)) by (unfold gets; cbn; by rewrite Hr).
  rewrite (M_bind_run _ _ (b, g) (g_self_node g) (b, g)) by done.
  rewrite (M_bind_run _ _ (b, g) (conv_muted g conv) (b, g)) by by destruct g. done.
Qed.

(** After [row_for], the row of the conversation shows the thread put, other
    rows are as they were, and the title is right. *)
Lemma row_for_shows conv t b g g' b' g'' :
  rows_ok b g → 0 <= th_unread t → puts conv t g g' →
  row_for role conv (dict_get conv (v_threads (g_view g))) (b, g') = (Ok tt, (b', g'')) →
  g'' = g' ∧ rows_ok b' g' ∧ shows b' g' conv ∧ title_shows b' g' ∧
  ∀ c, c ≠ conv → shows b g c → shows b' g' c.
Proof.
  intros [Ht Hr Hs Hu] Hpos Hputs H.
  assert (Hget : dict_get conv (v_threads (g_view g')) = Some t).
  { rewrite Hputs. cbn. apply dict_get_set_eq. }
  destruct (row_made conv t b g g') as (r&rows1&E&Hr1&Hwf1&Hk1&Ho1); [by split|done|].
  rewrite E in H. rewrite (update_run conv t r) in H by done. injection H as <- <-.
  split; [done|]. split; [|split; [|split; [done|]]].
  - split; cbn.
    + rewrite Hputs. by apply dict_set_wf.
    + by apply dict_set_wf.
    + intros c. rewrite dict_set_keys, Hk1, Hs, Hputs. cbn. rewrite dict_set_keys. tauto.
    + intros c t'. rewrite Hputs. cbn. destruct (decide (c = conv)) as [->|Hne].
      * rewrite dict_get_set_eq. by intros [= <-].
      * rewrite dict_get_set_ne by done. apply Hu.
  - exists t. split; [done|]. cbn. rewrite dict_get_set_eq. by rewrite updated_row_of.
  - intros c Hne (t'&Ht'&Hr'). exists t'. cbn. rewrite dict_get_set_ne by done. rewrite Ho1 by done.
    rewrite Hputs. cbn. by rewrite dict_get_set_ne.
Qed.

(** A step that brings the row of one conversation up to date. *)
Definition refreshes (c : string) (b : sidebar) (g : gui) (b' : sidebar) (g' : gui) : Prop :=
  rows_ok b' g' ∧ g_store g' = g_store g ∧ shows b' g' c ∧ title_shows b' g' ∧
  ∀ c', shows b g c' → shows b' g' c'.

Lemma row_for_refreshes conv t b g g' b' g'' :
  rows_ok b g → 0 <= th_unread t → puts conv t g g' →
  row_for role conv (dict_get conv (v_threads (g_view g))) (b, g') = (Ok tt, (b', g'')) →
  refreshes conv b g b' g''.
Proof.
  intros Hok Ht Hp H. destruct (row_for_shows _ _ _ _ _ _ _ Hok Ht Hp H) as (->&?&?&?&Ho).
  split; [done|]. split; [by rewrite Hp|]. split; [done|]. split; [done|]. intros c Hc. destruct (decide (c = conv)) as [->|]; auto.
Qed.

Lemma sync_contact_refreshes kv b g b' g' :
  rows_ok b g → sync_contact_row role kv (b, g) = (Ok tt, (b', g')) →
  ∃ node, (jindex "node" kv.2 ≫= as_str) = Ok node ∧ refreshes node b g b' g'.
Proof.
  intros Hok H. unfold sync_contact_row in H. apply M_bind_Ok in H as (node&s1&Hn&H).
  injection Hn as Hn <-. apply M_bind_Ok in H as (had&s2&Hh&H). injection Hh as <- <-.
  apply M_bind_Ok in H as ([]&[b1 g1]&Hc&H). unfold on_view in Hc.
  destruct (sync_contact kv g) as [r g2] eqn:E. injection Hc as -> <- ->.
  apply sync_contact_puts in E as (node'&t&Hn'&Ht&Hp); [|apply Hok].
  assert (node' = node) as -> by congruence. exists node. split; [done|].
  by eapply row_for_refreshes.
Qed.
Lemma sync_room_refreshes conv b g b' g' :
  rows_ok b g → sync_room_row role conv (b, g) = (Ok tt, (b', g')) → refreshes conv b g b' g'.
Proof.
  intros Hok H. unfold sync_room_row in H. apply M_bind_Ok in H as (had&s2&Hh&H). injection Hh as <- <-.
  apply M_bind_Ok in H as ([]&[b1 g1]&Hc&H). unfold on_view in Hc.
  destruct (sync_room conv g) as [r g2] eqn:E. injection Hc as -> <- ->.
  apply sync_room_puts in E as (t&Ht&Hp); [|apply Hok]. by eapply row_for_refreshes.
Qed.

Lemma for_each_refreshes {A} (f : A → SB unit) (key : A → string → Prop) l :
  (∀ x b g b' g', rows_ok b g → f x (b, g) = (Ok tt, (b', g')) → ∃ c, key x c ∧ refreshes c b g b' g') →
  ∀ b g b' g', rows_ok b g → for_each f l (b, g) = (Ok tt, (b', g')) →
  rows_ok b' g' ∧ g_store g' = g_store g ∧ (∀ c, shows b g c → shows b' g' c) ∧ (∀ x, x ∈ l → ∃ c, key x c ∧ shows b' g' c) ∧
  (title_shows b g ∨ l ≠ [] → title_shows b' g').
Proof.
  intros Hf. induction l as [|x l IH]; intros b g b' g' Hok H; cbn in H.
  - injection H as <- <-. split; [done|]. split; [done|]. split; [done|]. split; [set_solver|tauto].
  - apply M_bind_Ok in H as ([]&[b1 g1]&H1&H).
    destruct (Hf _ _ _ _ _ Hok H1) as (c&Hk&Hok1&Hst1&Hc&Ht&Hm1).
    destruct (IH _ _ _ _ Hok1 H) as (Hok'&Hst'&Hm'&Hall&Ht').
    split; [done|]. split; [congruence|]. split; [auto|]. split; [|auto].
    intros y [->|Hy]%elem_of_cons; [exists c; auto|by apply Hall].
Qed.

(** *** Threads that leave take their rows along *)

Lemma keys_del {V} (k : string) (d : list (string * V)) c :
  dict_wf d → c ∈ (dict_del k d).*1 ↔ c ≠ k ∧ c ∈ d.*1.
Proof.
  intros Hd. rewrite <-!dict_mem_true. unfold dict_mem. destruct (decide (c = k)) as [->|Hne].
  - rewrite dict_get_del_eq by done. naive_solver.
  - rewrite dict_get_del_ne by done. naive_solver.
Qed.

Lemma drop_row_ok conv b g b' g' :
  rows_ok b g → drop_row conv (b, g) = (Ok tt, (b', g')) → rows_ok b' g'.
Proof.
  intros [Ht Hr Hs Hu] H. destruct g as [st c sn w v].
  assert (sb_rows b' = dict_del conv (sb_rows b) ∧ v_threads (g_view g') = dict_del conv (v_threads v)) as [E1 E2].
  { unfold drop_row, on_view, on_bar, drop_thread, seen, show, mbind, M_bind, gets, modify in H. cbn in H.
    by destruct (bool_decide _); injection H as <- <-. }
  split; rewrite ?E1, ?E2.
  - by apply dict_del_wf.
  - by apply dict_del_wf.
  - intros k. rewrite !keys_del by done. by rewrite Hs.
  - intros k t Hk. destruct (decide (k = conv)) as [->|Hne].
    + by rewrite dict_get_del_eq in Hk.
    + rewrite dict_get_del_ne in Hk by done. by eapply Hu.
Qed.
Lemma drops_ok (nodes : list string) l b g b' g' :
  rows_ok b g →
  for_each (λ kt : string * thread, if th_is_room kt.2 || bool_decide (kt.1 ∈ nodes) then mret tt else drop_row kt.1) l
    (b, g) = (Ok tt, (b', g')) → rows_ok b' g'.
Proof.
  revert b g. induction l as [|kt l IH]; intros b g Hok H; cbn in H; [by injection H as <- <-|].
  apply M_bind_Ok in H as ([]&[b1 g1]&H1&H). apply IH in H; [done|].
  case_match; [by injection H1 as <- <-|by eapply drop_row_ok].
Qed.

(** What the drops leave: the rows of rooms, the store and the title. *)
Lemma drop_row_keeps conv b g b' g' :
  drop_row conv (b, g) = (Ok tt, (b', g')) → dict_wf (v_threads (g_view g)) → dict_wf (sb_rows b) →
  g_store g' = g_store g ∧ sb_title b' = sb_title b ∧
  (∀ c, c ≠ conv → dict_get c (v_threads (g_view g')) = dict_get c (v_threads (g_view g))) ∧
  ∀ c, c ≠ conv → shows b g c → shows b' g' c.
Proof.
  intros H Ht Hr. destruct g as [st cl sn w v].
  assert (sb_rows b' = dict_del conv (sb_rows b) ∧ sb_title b' = sb_title b ∧ g_store g' = st ∧ g_self_node g' = sn ∧
    v_threads (g_view g') = dict_del conv (v_threads v)) as (E1&E2&E3&E4&E5).
  { unfold drop_row, on_view, on_bar, drop_thread, seen, show, mbind, M_bind, gets, modify in H. cbn in H.
    by destruct (bool_decide _); injection H as <- <-. }
  split; [done|]. split; [done|]. split; [intros c Hc; rewrite E5; by apply dict_get_del_ne|].
  intros c Hc (t&Hth&Hrow). exists t. unfold conv_muted. rewrite E1, E3, E4, E5.
  by rewrite !dict_get_del_ne.
Qed.
Lemma drops_keep (nodes : list string) l b g b' g' :
  rows_ok b g →
  for_each (λ kt : string * thread, if th_is_room kt.2 || bool_decide (kt.1 ∈ nodes) then mret tt else drop_row kt.1) l
    (b, g) = (Ok tt, (b', g')) →
  g_store g' = g_store g ∧ sb_title b' = sb_title b ∧
  ∀ c, Forall (λ kt : string * thread, kt.1 = c → th_is_room kt.2 = true) l → shows b g c → shows b' g' c.
Proof.
  revert b g. induction l as [|kt l IH]; intros b g Hok H; cbn in H; [by injection H as <- <-|].
  apply M_bind_Ok in H as ([]&[b1 g1]&H1&H).
  destruct (th_is_room kt.2 || bool_decide (kt.1 ∈ nodes)) eqn:Hk.
  - injection H1 as <- <-. destruct (IH b g Hok H) as (?&?&Hc). split; [done|]. split; [done|].
    intros c [_ Hl]%Forall_cons. by apply Hc.
  - pose proof (drop_row_ok _ _ _ _ _ Hok H1) as Hok1.
    destruct (drop_row_keeps _ _ _ _ _ H1) as (Hst&Hti&_&Hkeep); [apply Hok..|].
    destruct (IH b1 g1 Hok1 H) as (?&?&Hc). split; [congruence|]. split; [congruence|].
    intros c [Hroom Hl]%Forall_cons Hs. apply Hc; [done|]. apply Hkeep; [|done].
    intros ->. rewrite (Hroom eq_refl) in Hk. done.
Qed.
Lemma for_each_none {A} (f : A → SB unit) b g b' g' :
  for_each f [] (b, g) = (Ok tt, (b', g')) → b' = b ∧ g' = g.
Proof. by intros [= <- <-]. Qed.

(** C14: The sidebar's rows keep to its threads: when it has been brought in line
    with contacts and rooms, there is one row per thread; the row of every
    contact and of every room reads exactly what its thread is, the mute and
    the unread count included, whatever it read before; the row of a room
    that the store lists no more and that read what its thread is still does;
    and the window's title counts what is unread when there is a contact or a
    room, and stays as it was otherwise. The threads are those of the
    sidebar's own specification. *)
Theorem sidebar_shows b g d b' g' :
  rows_ok b g → contact_list g = Ok d → sync_rows role (b, g) = (Ok tt, (b', g')) →
  sync_sidebar g = (Ok tt, g') ∧ rows_ok b' g' ∧
  (∀ kv, kv ∈ d → ∃ node, (jindex "node" kv.2 ≫= as_str) = Ok node ∧ shows b' g' node) ∧
  (∀ conv, conv ∈ rooms_of (s_db (g_store g')) → shows b' g' conv) ∧
  (∀ c t, dict_get c (v_threads (g_view g)) = Some t → th_is_room t = true → shows b g c → shows b' g' c) ∧
  (if bool_decide (d ≠ [] ∨ rooms_of (s_db (g_store g')) ≠ []) then title_shows b' g' else sb_title b' = sb_title b).
Proof.
  intros Hok Hd H. split.
  { destruct (sync_rows_projects b g) as [b1 E]. rewrite E in H. injection H as H1 _ H2.
    by rewrite (surjective_pairing (sync_sidebar g)), H1, H2. }
  unfold sync_rows in H. apply M_bind_Ok in H as (d'&s1&H1&H). unfold on_view in H1.
  rewrite contacts_run, Hd in H1. injection H1 as <- <-.
  apply M_bind_Ok in H as (nodes&s2&H2&H). injection H2 as _ <-.
  apply M_bind_Ok in H as (threads&s3&H3&H). injection H3 as <- <-.
  apply M_bind_Ok in H as ([]&[b1 g1]&H4&H).
  destruct (drops_keep _ _ _ _ _ _ Hok H4) as (Hst1&Hti1&Hkeep1). apply drops_ok in H4; [|done].
  apply M_bind_Ok in H as ([]&[b2 g2]&H5&H).
  destruct (for_each_refreshes _ (λ kv c, (jindex "node" kv.2 ≫= as_str) = Ok c) _
    sync_contact_refreshes _ _ _ _ H4 H5) as (Hok2&_&Hm2&Hc2&Ht2).
  apply M_bind_Ok in H as (rs&s6&H6&H). injection H6 as <- Hs6. destruct g2 as [st2 c2 sn2 w2 v2]. cbn in Hs6. subst s6.
  destruct (for_each_refreshes _ (λ conv c, c = conv) (rooms_of (s_db st2))
    (λ conv b g b' g' Hok E, ex_intro _ conv (conj eq_refl (sync_room_refreshes conv b g b' g' Hok E))) _ _ _ _ Hok2 H)
    as (Hok3&Hst3&Hm3&Hc3&Ht3). cbn in Hst3.
  rewrite Hst3. split; [done|]. split; [|split; [|split]].
  - intros kv Hkv. destruct (Hc2 kv) as (c&Hk&Hs); [by rewrite merge_sort_Permutation|]. eauto.
  - intros conv Hconv. by destruct (Hc3 conv Hconv) as (c&->&Hs).
  - intros c t Ht Hroom Hs. apply Hm3, Hm2, Hkeep1; [|done].
    apply Forall_forall. intros [k t'] Hin Hk. cbn in Hk |- *. subst k.
    apply (dict_elem_get _ _ _ (ro_threads _ _ Hok)) in Hin. congruence.
  - case_bool_decide as Hne.
    + destruct Hne as [Hne|Hne]; apply Ht3; [left|by right]. apply Ht2. right. intros Hnil. apply Hne.
      apply Permutation_nil. by rewrite <-Hnil, merge_sort_Permutation.
    + destruct d as [|kv d]; [|by destruct Hne; left].
      cbn [g_store] in H. destruct (rooms_of (s_db st2)) as [|room rs]; [|by destruct Hne; right].
      apply for_each_none in H5 as [-> _]. by apply for_each_none in H as [-> _].
Qed.
End Props.

(** ** Runs *)

Section Runs.
Local Existing Instances cw_json cw_nacl cw_daemon cw_markup cw_zone cw_locale.
Definition plain (r : string) : string := r.

(** The rows of Bo's conversation and of one that no contact has. *)
Definition two_rows : sidebar :=
  Bar [("n1", fresh_row plain "n0" (new_dm "bo" bo.2 "Bo")); ("n7", fresh_row plain "n0" (new_dm "x" JNull "X"))]
    "AIMless" None.
Lemma two_rows_ok : rows_ok two_rows cw_gui.
Proof.
  split; cbn.
  - unfold dict_wf. cbn. apply NoDup_cons. split; [set_solver|]. apply NoDup_singleton.
  - unfold dict_wf. cbn. apply NoDup_cons. split; [set_solver|]. apply NoDup_singleton.
  - done.
  - intros c t. cbn. repeat case_match; by intros [= <-].
Qed.

Example sidebar_shows_witness : ∃ b' g',
  sync_rows plain (two_rows, cw_gui) = (Ok tt, (b', g')) ∧ (sb_rows b').*1 = ["n1"; "room"] ∧
  shows plain b' g' "n1" ∧ title_shows b' g'.
Proof.
  eexists _, _. split; [vm_compute; reflexivity|]. split; [reflexivity|].
  edestruct (sidebar_shows plain two_rows cw_gui [bo]) as (_&_&Hc&_&_&Ht);
    [apply two_rows_ok|vm_compute; reflexivity|vm_compute; reflexivity|].
  split; [|apply Ht; by left].
  destruct (Hc bo) as (node&Hn&Hs); [by apply list_elem_of_singleton|]. vm_compute in Hn. by injection Hn as <-.
Defined.

(** Without contacts and rooms nothing brings the title up to date: the last
    contact removed leaves its unread messages in it. *)
Definition bo_unread : thread := with_unread 3 (new_dm "bo" bo.2 "Bo").
Definition no_contacts : world :=
  World {[contacts_path cw_env "/h" := File (utf8_encode (json_dumps_indent (JObj []))) 384]}
    cw_env "/h" 0 0 [] [] [] tt.
Example title_left_behind :
  let g := Gui (Store empty_db (kdf_key "pw" []) 0 empty_db) (Client bob "bo" None) "n0" no_contacts
             (set_threads [("n1", bo_unread)] empty_view) in
  let b := Bar [("n1", row_of plain "n0" false bo_unread)] "AIMless (3)" None in
  (λ s : sidebar * gui, (sb_rows s.1, sb_title s.1, v_threads (g_view s.2))) (sync_rows plain (b, g)).2
    = ([], "AIMless (3)", []).
Proof. by vm_compute. Qed.
End Runs.
