(* ===== verification/Draw.v ===== *)
(** * gtkui.py: what the conversation shows, and its controls

    [timeline]: the lines of the conversation shown with their date dividers:
    drawn again from the messages of the store ([render_messages]), as a text or
    a file is sent ([append_outgoing], [append_delivery_row]) and as messages
    come; following the bottom;
    the chips of a room's members; the keys of the composer; attaching, saving
    and opening files; the dialog of a new room. *)

From S2P Require Import Prelude PyStr Codec Json Sys Paths Logging Crypto Protocol Keys Store DaemonClient Service Desktop View Transfers Conversations.
From Stdlib Require Import Ascii.
Local Open Scope Z_scope.

(** ** Lines *)

(** A widget of a message's row, from the top: a plain text, the bubble with
    its style class and markup, a picture, a button with the file it is about. *)
Inductive widget :=
| Text (text : string)
| BubbleText (style markup : string)
| Picture (path : string)
| Button (label path : string).

(** [d_outgoing]: on the right side. *)
Record drawn := Drawn { d_outgoing : bool; d_widgets : list widget }.
Inductive entry := Divider (text : string) | Bubble (d : drawn) | StatusLine (text : string).

Section Lines.
Context `{N : NaCl} `{J : JsonCodec} `{MU : Markup} `{Z_ : Zone} `{L : Locale}.
(** Which files are there, and which of them hold an image. *)
Context (there loads : string → bool).

(** [attachment.get(k, dflt)], a text *)
Definition att_text (k dflt : string) (a : list (string * json)) : result string :=
  match dict_get k a with Some j => as_str j | None => Ok dflt end.

Definition _render_attachment_box (attachment : list (string * json)) : result (list widget) :=
  path ← att_text "path" "" attachment;
  filename ← att_text "filename" "file" attachment;
  size ← match dict_get "size" attachment with Some j => as_int j | None => Ok 0 end;
  Ok ([Text filename]
      ++ (if default false (json_is_str "image" <$> dict_get "mime_hint" attachment) && there path && loads path then [Picture path] else [])
      ++ [Text (_human_size size)]
      ++ (if there path then [Button "Open" path] else [])
      ++ [Button "Save" path]).

(** [append_bubble]: the row of a message. *)
Definition bubble (time_format : json) (outgoing : bool) (text : string) (ts : Z) (sender : option string)
    (attachment : option (list (string * json))) (delivery : option (Z * Z)) : result drawn :=
  let stamp := if ts =? 0 then "" else format_time ts time_format in
  let who := match sender with
             | Some s => if negb (bool_decide (s = "")) && negb outgoing then [Text s] else []
             | None => []
             end in
  let attachment := match attachment with Some [] => None | a => a end in
  body ← match attachment with
         | Some a => _render_attachment_box a
         | None => Ok [BubbleText (if outgoing then "aimless-bubble-out" else "aimless-bubble-in") (linkify text)]
         end;
  let status := match attachment, delivery with
                | None, Some (total, acked) =>
                  if outgoing then match delivery_text total acked with Some t => [Text t] | None => [] end else []
                | _, _ => []
                end in
  Ok (Drawn outgoing (who ++ body ++ status ++ (if bool_decide (stamp = "") then [] else [Text stamp]))).

(** ** The timeline *)

(** [tl_day] is [_last_msg_date]. *)
Record timeline := Timeline { tl_entries : list entry; tl_day : option Z }.
Definition add_entry (l : entry) (t : timeline) : timeline := Timeline (tl_entries t ++ [l]) (tl_day t).

Definition _maybe_date_divider (now ts : Z) (t : timeline) : timeline :=
  let day := local_day ts in
  if bool_decide (tl_day t = Some day) then t
  else Timeline (tl_entries t ++ [Divider (date_label ts now)]) (Some day).

(** *** A conversation drawn from the store *)

(** [msg.get("attachment")], of which keys are asked *)
Definition attachment_of (a : option json) : result (option (list (string * json))) :=
  match a with
  | Some (JObj l) => Ok (Some l)
  | Some j => if truthy j then Raise AttributeError else Ok None
  | None => Ok None
  end.
Context (time_format : json).

(** The bubble of a message of the store; only the text of one without an
    attachment is marked up. *)
Definition message_bubble (t : thread) (m : message) : result drawn :=
  sender ← match g_dir m with Out => Ok None | In => _sender_label (Some t) (g_sender m) end;
  attachment ← attachment_of (g_att m);
  text ← match attachment with
         | Some (_ :: _) => Ok (default "None" (g_text m))
         | _ => of_option TypeError (g_text m)
         end;
  bubble time_format (bool_decide (g_dir m = Out)) text (g_ts m) sender attachment
    match g_delivery m with Some (_, Some total, acked) => Some (total, acked) | _ => None end.
(** A file sent, and tracked by the store. *)
Definition is_tracked_file (m : message) : bool :=
  match g_dir m, g_att m, g_delivery m with Out, Some a, Some (Some _, _, _) => truthy a | _, _, _ => false end.
(** A turn of the loop of [_render_messages]: a divider if the day is another,
    the bubble, and for a file the row that follows its delivery. *)
Definition draw_message (d : db) (now : Z) (t : thread) (m : message) (tl : timeline) : result timeline :=
  let tl := _maybe_date_divider now (g_ts m) tl in
  b ← message_bubble t m;
  let tl := add_entry (Bubble b) tl in
  Ok (if is_tracked_file m then
        let total := (delivery_members_of (g_id m) d).1 in
        if total =? 0 then tl
        else add_entry (StatusLine (file_delivery_text
               (Tracked 0 (default "None" (g_text m)) (list_to_set (undelivered_of (g_id m) d)) total))) tl
      else tl).
Fixpoint draw_messages (d : db) (now : Z) (t : thread) (ms : list message) (tl : timeline) : result timeline :=
  match ms with
  | [] => Ok tl
  | m :: ms => tl ← draw_message d now t m tl; draw_messages d now t ms tl
  end.
(** [_render_messages]: everything is drawn again. *)
Definition render_messages (now : Z) (conv : string) (t : thread) : ST timeline :=
  ms ← messages conv;
  d ← query id;
  lift (draw_messages d now t ms (Timeline [] None)).

(** [_append_outgoing]: what was just sent goes to the store, and under what is
    drawn already. *)
Definition append_outgoing (now : Z) (conv : string) (seqs : list (string * Z)) (ts : Z) (text : string)
    (attachment : option json) (keys : option (list (string * Z))) (tl : timeline) : ST timeline :=
  _ ← add_sent conv seqs ts (Some text) attachment keys;
  '(total, done) ← delivery_members (out_id seqs);
  let tl := _maybe_date_divider now ts tl in
  a ← lift (attachment_of attachment);
  b ← lift (bubble time_format true text ts None a (if total =? 0 then None else Some (total, done)));
  mret (add_entry (Bubble b) tl).
(** [register_file_delivery]: the row under a file just sent, of the chunks
    expected and the acks seen already. *)
Definition append_delivery_row (filename : string) (expected acked : gset (string * Z)) (tl : timeline) : timeline :=
  let keys := filter (λ k : string * Z, k.2 ≠ 0) expected in
  add_entry (StatusLine (file_delivery_text
    (Tracked 0 filename (keys ∖ (keys ∩ acked)) (Z.of_nat (size (nodes_of keys)))))) tl.
(** What [done] of [_send_file] draws. *)
Definition append_file (now : Z) (conv : string) (seqs : list (string * Z)) (ts : Z) (filename : string)
    (attachment : json) (expected acked : gset (string * Z)) (tl : timeline) : ST timeline :=
  tl ← append_outgoing now conv seqs ts filename (Some attachment) (Some (elements expected)) tl;
  mret (append_delivery_row filename expected acked tl).

(** [incoming] and [_finalize_attachment]: the bubble alone. *)
Definition draw_incoming (b : drawn) (tl : timeline) : timeline := add_entry (Bubble b) tl.
(** [on_clear_history]: the lines go. *)
Definition clear_entries (t : timeline) : timeline := Timeline [] (tl_day t).
End Lines.

(** ** Following the bottom *)

(** [_at_bottom], whether the button to jump there shows, and whether a
    scroll to the bottom is on its way. *)
Record follow := Follow { at_bottom : bool; jump_shown : bool; scrolling : bool }.

(** The adjustment: the position, the height of the whole, that of the page. *)
Record adjustment := Adj { adj_value : Z; adj_upper : Z; adj_page : Z }.
Definition _near_bottom (margin : Z) (a : adjustment) : bool := adj_upper a - adj_page a - margin <=? adj_value a.
Definition _on_scrolled (a : adjustment) (f : follow) : follow :=
  let near := _near_bottom 40 a in
  Follow near (if near then false else jump_shown f) (scrolling f).
Definition jump_to_bottom (f : follow) : follow := Follow true false true.
Definition _maybe_scroll (f : follow) : follow :=
  if at_bottom f then Follow (at_bottom f) (jump_shown f) true else Follow (at_bottom f) true (scrolling f).

(** [scroll_to_bottom]: at each turn the position goes to the bottom of what is
    laid out so far; over when the height is the one of the turn before. The
    list is what the turns find: height and page. *)
Fixpoint _settle (upper : option Z) (value : Z) (turns : list (Z * Z)) : Z * bool :=
  match turns with
  | [] => (value, false)
  | (u, page) :: turns =>
    if bool_decide (upper = Some u) then (u - page, true) else _settle (Some u) (u - page) turns
  end.

(** ** The composer *)

(** [on_composer_key], of a return key: whether the message is sent. *)
Definition on_composer_key (prefs : list (string * json)) (is_return shift ctrl : bool) : bool :=
  if negb is_return then false
  else
    let enter_sends := truthy (pref prefs "enter_to_send") in
    (enter_sends && negb shift) || (negb enter_sends && ctrl).

(** The away banner: its text, or none. *)
Definition _apply_away_banner `{Markup} (away : option string) : option string :=
  match away with
  | Some a => if bool_decide (a = "") then None
              else Some ("<b>Away</b> - " +:+ markup_escape_text a +:+ "  "
                         +:+ "<span size='small'>(buddies see this as your away message)</span>")
  | None => None
  end.

(** A question asked before something is lost or sent: its two texts, and
    whether a return key answers it with OK. *)
Record question := Question { q_text : string; q_secondary : string; q_default_ok : bool }.
Definition _confirm_clear (title : string) : question :=
  Question ("Clear history with " +:+ title +:+ "?")
    ("This conversation is emptied here and the existing history is dismissed - "
     +:+ "only messages that arrive after this are shown.") false.
Definition _confirm_delete (title : string) : question :=
  Question ("Delete the room " +:+ title +:+ "?")
    ("Messages are removed from this device and old history is dismissed - "
     +:+ "if someone sends to the room again, it reappears with only the new messages.") false.
Definition _confirm_add_member (screen : string) : question :=
  Question ("Add " +:+ screen +:+ " as a buddy?")
    ("You'll be able to message them directly. Their identity is as claimed by "
     +:+ "whoever added them to this room - invites exchanged directly are stronger.") true.
Definition _confirm_block (screen : string) : question :=
  Question ("Block and remove " +:+ screen +:+ "?")
    "They won't be able to message you. You can unblock them later from the Contacts list." false.
Definition _confirm_large_room_send (filename : string) (size : Z) (members : nat) : question :=
  Question ("Send " +:+ filename +:+ " (" +:+ _human_size size +:+ ") to " +:+ str_of_int (Z.of_nat members) +:+ " members?")
    ("Every member receives a full copy - a large transfer to a big room uses "
     +:+ "real bandwidth, just like text does, scaled per file.") false.

Section Controls.
Context `{N : NaCl} `{J : JsonCodec} `{D : Daemon} `{MU : Markup} `{Z_ : Zone} `{L : Locale}.
Context (role : string → string).

(** ** A room's members *)

Record chip := Chip { c_node : string; c_screen : string; c_known : bool; c_markup : string; c_tip : string }.

Definition chip_of (nodes : list string) (t : thread) (e : string * string) : chip :=
  let '(screen, n) := e in
  let p := dict_get n (th_presence t) in
  let known := bool_decide (n ∈ nodes) in
  Chip n screen known
    ("<span foreground='" +:+ presence_color role p +:+ "'>" +:+ (if known then "●" else "○") +:+ "</span> "
     +:+ markup_escape_text screen)
    ((if known then "Open conversation - your buddy" else "Add as buddy (not your buddy yet)")
     +:+ (if default false (ps_client_offline <$> p) then " · client offline (messages will be delivered)" else "")).
(** The chips of the thread shown; none unless it is a room. *)
Definition _render_member_chips (t : option thread) : GUI (list chip) :=
  match t with
  | Some t =>
    if th_is_room t then
      d ← contacts;
      nodes ← lift (contact_nodes d);
      self ← self_node;
      entries ← lift (map_result (λ nm, s ← member_screen nm; Ok (s, nm.1)) (others self (th_members t)));
      mret (chip_of nodes t <$> merge_sort roster_le entries)
    else mret []
  | None => mret []
  end.

(** ** Attaching a file *)

(** [on_attach], with the file chosen and the user's answers; [None]: nothing
    is sent. *)
Definition large_room_send (t : thread) (size : Z) : bool :=
  th_is_room t && (5 * 1024 * 1024 <? size) && (3 <? length (th_members t))%nat.
Definition on_attach (chosen : option string) (answer : question → bool) : GUI (option outgoing) :=
  selected ← seen v_selected;
  t ← match selected with Some conv => get_thread conv | None => mret None end;
  match selected, t, chosen with
  | Some conv, Some t, Some path =>
    if bool_decide (path = "") then mret None
    else
      size ← try_with (λ e, is_value_error e || is_os_error e)
        (size ← gio (getsize path); _ ← lift (validate_send_size size); mret (Some size))
        (λ e, _ ← append_system_note ("attach failed: " +:+ exn_str e); mret None);
      match size with
      | None => mret None
      | Some size =>
        if large_room_send t size && negb (answer (_confirm_large_room_send (basename path) size (length (th_members t)))) then mret None
        else _send_file conv t path (basename path) size
      end
  | _, _, _ => mret None
  end.

(** ** Attachments received *)

(** How Python writes a text with [!r]. *)
Context (repr : string → string).

(** [shutil.copyfile] *)
Definition copyfile (src dst : string) : IO unit :=
  if bool_decide (src = dst)
  then raise (OSError (repr src +:+ " and " +:+ repr dst +:+ " are the same file"))
  else data ← read_file src; write_file dst data.
Definition on_save_attachment (path filename : string) (dest : option string) : GUI unit :=
  match dest with
  | Some dest =>
    if bool_decide (dest = "") then mret tt
    else
      try_with is_os_error
        (_ ← gio (copyfile path dest); activity ("saved " +:+ filename))
        (λ e, activity ("save failed: " +:+ exn_str e))
  | None => mret tt
  end.
(** [on_open_attachment], with the error the desktop answers, if any. *)
Definition on_open_attachment (err : option string) : GUI unit :=
  match err with Some e => activity ("couldn't open file: " +:+ e) | None => mret tt end.
(** What the desktop makes of a link: an error, or whether a program took it.
    The click is always taken care of. *)
Definition on_link_activated (launched : string + bool) (uri : string) : GUI bool :=
  _ ← match launched with
      | inl e => activity ("couldn't open link: " +:+ e)
      | inr false => activity ("couldn't open link: no default handler for " +:+ uri)
      | inr true => mret tt
      end;
  mret true.

(** ** Rooms and requests *)

(** [on_new_room], up to [create_room]: there is a box per contact, and
    [checks] keeps, under each node, the one of its last contact by name. *)
Fixpoint boxes (l : list (string * json)) (d : list (string * (string * json)))
    : result (list (string * (string * json))) :=
  match l with
  | [] => Ok d
  | kv :: l => node ← jindex "node" kv.2 ≫= as_str; boxes l (dict_set node kv d)
  end.
Definition on_new_room (checked : string → bool) (created : bool) : WM (option (list string)) :=
  d ← on_gui contacts;
  if (length d <? 2)%nat then
    _ ← on_gui (activity "a room needs at least two buddies - add more people first"); mret None
  else
    checks ← lift (boxes (merge_sort key_le d) []);
    let chosen := (List.filter (λ c : string * (string * json), checked c.2.1) checks).*2.*2 in
    if negb created then mret None
    else if (length chosen <? 2)%nat then
      _ ← on_gui (append_system_note "a room needs at least two buddies"); mret None
    else create_room chosen.

(** The question of [_ask_request]. *)
Definition invited (self : string) (m : json) : result (list string) :=
  node ← jindex "node" m;
  if json_is_str self node then Ok []
  else
    screen ← jget "screen" m;
    name ← (if default false (truthy <$> screen) then str_or "" screen else py_take 8 <$> as_str node);
    Ok [name].
Definition request_text (self : string) (req : list (string * json)) : result (string * string) :=
  conv ← jget "conv" (JObj req);
  question ← (
    if default false (truthy <$> conv) then
      members ← get_or "members" (JArr []) (JObj req) ≫= as_list;
      names ← map_result (invited self) members;
      screen ← jindex "screen" (JObj req);
      Ok (py_str screen +:+ " invited you to a conversation with " +:+ join ", " (concat names))
    else screen ← jindex "screen" (JObj req); Ok (py_str screen +:+ " wants to chat with you"));
  text ← jget "text" (JObj req);
  secondary ← str_or "" text;
  Ok (question, py_take 300 secondary).

(** [daemon_block_set]: its worker is the job [SetBlock]; its error. *)
Definition daemon_block_fail (blocked : bool) (e : exn) : GUI unit :=
  activity ("daemon " +:+ (if blocked then "block" else "unblock") +:+ " failed: " +:+ exn_str e
            +:+ " - client-side only").
End Controls.
