(* ===== verification/DrawProps.v ===== *)
(** * Properties of the conversation shown and of its controls *)

From S2P Require Import Prelude PyStr Codec Sha256 Json Sys Paths Logging Crypto Protocol Keys Store StoreProps StoreSpec StoreRefine DaemonClient Service Desktop View Transfers TransfersProps Conversations ConversationsProps Draw.
From Stdlib Require Import Ascii.
Local Open Scope Z_scope.

(** ** The timeline *)

Section Timeline.
Context `{N : NaCl} {NL : NaClLaws N} `{J : JsonCodec} {JL : JsonLaws J} `{MU : Markup} `{Z_ : Zone} `{L : Locale}.
Context (there loads : string → bool) (time_format : json) (now : Z).

Abbreviation draw_message := (draw_message there loads time_format).
Abbreviation draw_messages := (draw_messages there loads time_format).
Abbreviation render_messages := (render_messages there loads time_format).
Abbreviation append_outgoing := (append_outgoing there loads time_format).
Abbreviation append_file := (append_file there loads time_format).
Abbreviation message_bubble := (message_bubble there loads time_format).

(** The bubbles in order, each with the text of the divider it stands under. *)
Fixpoint under (label : option string) (es : list entry) : list (option string * drawn) :=
  match es with
  | [] => []
  | Divider text :: es => under (Some text) es
  | Bubble b :: es => (label, b) :: under label es
  | StatusLine _ :: es => under label es
  end.
Definition last_label (label : option string) (es : list entry) : option string :=
  foldl (λ label e, match e with Divider text => Some text | _ => label end) label es.
Definition dividers (es : list entry) : nat :=
  length (List.filter (λ e, match e with Divider _ => true | _ => false end) es).

(** The bubble is the message's, and the divider that of its day. *)
Definition stands_under (t : thread) (m : message) (lb : option string * drawn) : Prop :=
  message_bubble t m = Ok lb.2 ∧ ∃ ts, local_day ts = local_day (g_ts m) ∧ lb.1 = Some (date_label ts now).

Lemma under_app label es1 es2 : under label (es1 ++ es2) = under label es1 ++ under (last_label label es1) es2.
Proof. revert label. induction es1 as [|[] es1 IH]; intros label; cbn; [done| |f_equal|]; apply IH. Qed.
Lemma last_label_app label es1 es2 : last_label label (es1 ++ es2) = last_label (last_label label es1) es2.
Proof. apply foldl_app. Qed.
Lemma dividers_app es1 es2 : dividers (es1 ++ es2) = (dividers es1 + dividers es2)%nat.
Proof. unfold dividers. by rewrite List.filter_app, length_app. Qed.

(** The last divider is that of the day noted. *)
Definition day_noted (tl : timeline) : Prop :=
  ∀ day, tl_day tl = Some day → ∃ ts, local_day ts = day ∧ last_label None (tl_entries tl) = Some (date_label ts now).

(** What a turn adds: a divider if the day is another, the bubble, and rows
    that are neither. *)
Lemma draw_message_adds d t m tl tl' :
  draw_message d now t m tl = Ok tl' →
  ∃ b row, message_bubble t m = Ok b ∧ tl_day tl' = Some (local_day (g_ts m)) ∧
    tl_entries tl' = tl_entries tl
      ++ (if bool_decide (tl_day tl = Some (local_day (g_ts m))) then [] else [Divider (date_label (g_ts m) now)])
      ++ Bubble b :: row ∧ (row = [] ∨ ∃ text, row = [StatusLine text]).
Proof.
  intros H. unfold Draw.draw_message in H. destruct (message_bubble t m) as [b|] eqn:Hb; [|done].
  cbn in H. injection H as <-. exists b. unfold _maybe_date_divider.
  destruct (bool_decide (tl_day tl = Some (local_day (g_ts m)))) eqn:Hd;
    try apply bool_decide_eq_true in Hd; repeat case_match; eexists; cbn;
    (split; [done|]; split; [done|]; split; [by rewrite <-?app_assoc|]); eauto.
Qed.

Lemma draw_messages_under d t ms tl tl' :
  draw_messages d now t ms tl = Ok tl' → day_noted tl →
  ∃ lbs, under None (tl_entries tl') = under None (tl_entries tl) ++ lbs ∧ Forall2 (stands_under t) ms lbs.
Proof.
  revert tl. induction ms as [|m ms IH]; intros tl H Hn; cbn in H.
  { injection H as ->. exists []. by rewrite app_nil_r. }
  destruct (draw_message d now t m tl) as [tl1|] eqn:H1; [|done].
  apply draw_message_adds in H1 as (b&row&Hb&Hday&He&Hrow).
  assert (Hlab : ∃ ts, local_day ts = local_day (g_ts m) ∧
    last_label None (tl_entries tl1) = Some (date_label ts now) ∧
    under None (tl_entries tl1) = under None (tl_entries tl) ++ [(Some (date_label ts now), b)]).
  { rewrite He, under_app, last_label_app. case_bool_decide as Hd.
    - destruct (Hn _ Hd) as (ts&Hts&->). exists ts. split; [done|]. by destruct Hrow as [->|[? ->]].
    - exists (g_ts m). split; [done|]. by destruct Hrow as [->|[? ->]]. }
  destruct Hlab as (ts&Hts&Hlast&Hund).
  apply IH in H as (lbs&->&HF).
  - exists ((Some (date_label ts now), b) :: lbs). rewrite Hund, <-app_assoc. split; [done|].
    constructor; [|done]. split; [done|]. by exists ts.
  - intros day. rewrite Hday. intros [= <-]. by exists ts.
Qed.

Lemma size_with (z : Z) (X : gset Z) : size ({[z]} ∪ X ∖ {[z]}) = S (size (X ∖ {[z]})).
Proof. rewrite size_union; [by rewrite size_singleton|set_solver]. Qed.

(** Later moments are not on earlier days. *)
Definition days_forward : Prop := ∀ a b : Z, a <= b → local_day a <= local_day b.

Lemma StronglySorted_days ms :
  days_forward → StronglySorted message_le ms → StronglySorted Z.le (local_day ∘ g_ts <$> ms).
Proof.
  intros Hf. induction 1 as [|m ms _ IH Hall]; [constructor|]. cbn. constructor; [done|].
  rewrite Forall_fmap. eapply Forall_impl; [exact Hall|]. intros m' Hle. apply Hf. unfold message_le in Hle. lia.
Qed.
Lemma draw_messages_dividers d t ms tl tl' :
  draw_messages d now t ms tl = Ok tl' → StronglySorted Z.le (local_day ∘ g_ts <$> ms) →
  (∀ day, tl_day tl = Some day → Forall (Z.le day) (local_day ∘ g_ts <$> ms)) →
  dividers (tl_entries tl') = (dividers (tl_entries tl) +
    size ((list_to_set (local_day ∘ g_ts <$> ms) : gset Z) ∖ from_option singleton ∅ (tl_day tl)))%nat.
Proof.
  revert tl. induction ms as [|m ms IH]; intros tl H Hs Hday; cbn in H.
  { injection H as ->. assert (Hz : ∀ Y : gset Z, ∅ ∖ Y = ∅) by set_solver. cbn. rewrite Hz, size_empty. lia. }
  destruct (draw_message d now t m tl) as [tl1|] eqn:H1; [|done].
  apply draw_message_adds in H1 as (b&row&_&Hd1&He&Hrow).
  apply StronglySorted_inv in Hs as [Hs Hm].
  rewrite (IH tl1 H Hs) by (intros day; rewrite Hd1; by intros [= <-]).
  rewrite Hd1. cbn [fmap list_fmap list_to_set]. cbn [from_option]. unfold compose at 2.
  set (dm := local_day (g_ts m)) in *. set (X := list_to_set (local_day ∘ g_ts <$> ms) : gset Z).
  assert (Hn : dividers (Bubble b :: row) = 0%nat) by (by destruct Hrow as [->|[? ->]]).
  rewrite He, !dividers_app, Hn. case_bool_decide as Hd.
  - rewrite Hd. cbn [from_option]. change (dividers []) with 0%nat. rewrite !Nat.add_0_r. f_equal. f_equal. set_solver.
  - change (dividers [Divider (date_label (g_ts m) now)]) with 1%nat.
    assert (Hne : ({[dm]} ∪ X) ∖ from_option singleton ∅ (tl_day tl) = {[dm]} ∪ X ∖ {[dm]}).
    { destruct (tl_day tl) as [day|] eqn:E; cbn [from_option]; [|apply set_eq; intros z; destruct (decide (z = dm)); set_solver].
      specialize (Hday day eq_refl). cbn in Hday. apply Forall_cons in Hday as [Hle Hall]. fold dm in Hle.
      assert (day ∉ {[dm]} ∪ X); [|apply set_eq; intros z; destruct (decide (z = dm)); set_solver].
      intros [->%elem_of_singleton|Hin]%elem_of_union; [done|].
      apply elem_of_list_to_set in Hin. rewrite Forall_forall in Hm. specialize (Hm _ Hin). unfold compose in Hm.
      fold dm in Hm. apply Hd. f_equal. lia. }
    rewrite Hne, size_with. lia.
Qed.

(** *** What is sent is drawn as it is when all is drawn again *)

Lemma draw_messages_app d t ms1 ms2 tl :
  draw_messages d now t (ms1 ++ ms2) tl = (tl ← draw_messages d now t ms1 tl; draw_messages d now t ms2 tl).
Proof.
  revert tl. induction ms1 as [|m ms1 IH]; intros tl; [done|]. cbn.
  destruct (draw_message d now t m tl); cbn; [apply IH|done].
Qed.
Lemma draw_one d t m tl : draw_messages d now t [m] tl = draw_message d now t m tl.
Proof. cbn [Draw.draw_messages]. by destruct (draw_message d now t m tl). Qed.
Lemma draw_messages_frame d d' t ms tl :
  Forall (λ m, delivery_members_of (g_id m) d' = delivery_members_of (g_id m) d ∧
               (list_to_set (undelivered_of (g_id m) d') : gset (string * Z)) = list_to_set (undelivered_of (g_id m) d)) ms →
  draw_messages d' now t ms tl = draw_messages d now t ms tl.
Proof.
  intros Hms. revert tl. induction Hms as [|m ms [H1 H2] _ IH]; intros tl; [done|]. cbn.
  assert (E : draw_message d' now t m tl = draw_message d now t m tl) by (unfold Draw.draw_message; by rewrite H1, H2).
  rewrite E. destruct (draw_message d now t m tl); cbn; [apply IH|done].
Qed.

(** A message not in the store yet, later than those of the conversation. *)
Record sends_last (s : store) (ms : list message) (seqs : list (string * Z)) (ts : Z) (text : string) : Prop := {
  sl_wf : dict_wf seqs;
  sl_nodes : Forall (λ ns, is_str ns.1) seqs;
  sl_text : is_str text;
  sl_new : dict_get (out_id seqs) (messages_t (s_db s)) = None;
  sl_last : Forall (λ m, g_ts m < ts ∨ g_ts m = ts ∧ String.le (g_id m) (out_id seqs)) ms;
}.

Section Sent.
Context (passphrase : string) (salt : bytes) (conv : string) (seqs : list (string * Z)) (ts : Z) (text : string).
Context (att : option json) (keys : option (list (string * Z))) (Hatt : opt_json att).
Let mid := out_id seqs.

Lemma sent_redrawn s o ms t b s' :
  StoreRefine.holds passphrase salt s o → messages conv s = (Ok ms, s) → sends_last s ms seqs ts text →
  add_sent conv seqs ts (Some text) att keys s = (Ok b, s') →
  ∃ o', StoreRefine.holds passphrase salt s' o' ∧
    x_acks (o_now o') = expecting mid (sent_keys seqs keys) (x_acks (o_now o)) ∧
    render_messages now conv t s' =
      (tl ← draw_messages (s_db s) now t ms (Timeline [] None);
       draw_message (s_db s') now t (Mail.to_message (o_now o') (mid, sent_entry conv seqs ts (Some text) att)) tl, s').
Proof.
  intros Ho Hms [Hwf Hn Ht Hnew Hlast] Hrun.
  assert (Hx : x_entries (o_now o) !! mid = None).
  { destruct Ho as (_&Hd&_). destruct (rp_entries _ _ _ _ Hd) as [_ Hr]. specialize (Hr mid).
    unfold mid in *. rewrite Hnew in Hr. by inversion Hr. }
  destruct (sim_add_sent passphrase salt conv seqs ts (Some text) att keys Hwf Hn ltac:(by intros ? [= <-]) Hatt s o Ho)
    as [Ho' Hb].
  destruct (Mail.add_sent conv seqs ts (Some text) att keys o) as [r o'] eqn:Hm. rewrite Hrun in Ho', Hb. cbn in Ho', Hb.
  destruct r as [b'|]; [|done].
  destruct (mail_add_sent_run _ _ _ _ _ _ _ _ _ Hm Hx) as [He Ha]. exists o'. split; [done|]. split; [done|].
  fold mid in He, Ha. set (e := sent_entry _ _ _ _ _) in *.
  rewrite (rep_messages _ _ conv s o Ho) in Hms. injection Hms as Hms.
  assert (Hsnoc : Mail.messages conv (o_now o') = ms ++ [Mail.to_message (o_now o') (mid, e)]).
  { rewrite <-Hms. apply (messages_snoc conv mid (sent_keys seqs keys) e); try done.
    rewrite Hms. eapply Forall_impl; [exact Hlast|]. intros m. done. }
  assert (Hframe : draw_messages (s_db s') now t ms (Timeline [] None) = draw_messages (s_db s) now t ms (Timeline [] None)).
  { apply draw_messages_frame, Forall_forall. intros m Hin. rewrite <-Hms in Hin.
    apply mail_messages_elem in Hin as (m'&e'&Hm'&_&->). rewrite to_message_id. cbn [fst].
    assert (Hne : m' ≠ mid) by congruence. destruct Ho as (_&Hd&_), Ho' as (_&Hd'&_).
    rewrite !(rep_delivery_members _ _ _ _ _ Hd), !(rep_delivery_members _ _ _ _ _ Hd').
    rewrite !(rep_undelivered _ _ _ _ _ Hd), !(rep_undelivered _ _ _ _ _ Hd').
    by rewrite (delivery_members_other _ _ _ _ Ha), (undelivered_other _ _ _ _ Ha). }
  unfold Draw.render_messages. rewrite (M_bind_run _ _ s' (ms ++ [Mail.to_message (o_now o') (mid, e)]) s').
  2: { rewrite (rep_messages _ _ conv s' o' Ho'). by rewrite Hsnoc. }
  rewrite (M_bind_run _ _ s' (s_db s') s') by done. unfold lift. f_equal.
  rewrite draw_messages_app, Hframe. destruct (draw_messages (s_db s) now t ms (Timeline [] None)) as [tl|]; [|done].
  apply draw_one.
Qed.
End Sent.

Lemma render_inv conv t s ms r s' :
  messages conv s = (Ok ms, s) → render_messages now conv t s = (r, s') →
  r = draw_messages (s_db s) now t ms (Timeline [] None).
Proof.
  intros Hms H. unfold Draw.render_messages in H. rewrite (M_bind_run _ _ _ _ _ Hms) in H.
  rewrite (M_bind_run _ _ s (s_db s) s) in H by done. by injection H as <- <-.
Qed.

(** The row of a file that the store tracks. *)
Definition file_row (d : db) (m : message) (tl : timeline) : timeline :=
  if is_tracked_file m then
    let total := (delivery_members_of (g_id m) d).1 in
    if total =? 0 then tl
    else add_entry (StatusLine (file_delivery_text
           (Tracked 0 (default "None" (g_text m)) (list_to_set (undelivered_of (g_id m) d)) total))) tl
  else tl.

(** The message just sent, read back: what [append_outgoing] drew of it, and the
    row of a file. *)
Lemma append_drawn passphrase salt s s0 o' conv seqs ts text att keys b t tl tl' s' :
  StoreRefine.holds passphrase salt s0 o' → Mail.meaningful att = att →
  add_sent conv seqs ts (Some text) att keys s = (Ok b, s0) →
  append_outgoing now conv seqs ts text att keys tl s = (Ok tl', s') →
  let m := Mail.to_message (o_now o') (out_id seqs, sent_entry conv seqs ts (Some text) att) in
  s' = s0 ∧ draw_message (s_db s0) now t m tl = Ok (file_row (s_db s0) m tl').
Proof.
  intros (_&Hd&_) Hatt Hadd H m. unfold Draw.append_outgoing in H. rewrite (M_bind_run _ _ _ _ _ Hadd) in H.
  rewrite (M_bind_run _ _ s0 (delivery_members_of (out_id seqs) (s_db s0)) s0) in H by done.
  set (x := o_now o') in *. set (mid := out_id seqs) in *.
  set (dm := if decide (Mail.recipients mid x = ∅) then None else Some (Mail.delivery_members mid x)).
  assert (Hdel : match g_delivery m with Some (_, Some total, acked) => Some (total, acked) | _ => None end = dm).
  { unfold m, dm, Mail.to_message. cbn. by case_decide. }
  rewrite (rep_delivery_members _ _ _ _ _ Hd) in H. fold x in H.
  destruct (Mail.delivery_members mid x) as [total done] eqn:Hdm.
  assert (Hn : (if total =? 0 then None else Some (total, done)) = dm).
  { unfold dm. unfold Mail.delivery_members in Hdm. injection Hdm as <- _. case_decide as He.
    - by rewrite He, size_empty.
    - destruct (Z.eqb_spec (Z.of_nat (size (Mail.recipients mid x))) 0) as [Hz|]; [|done].
      destruct He. apply leibniz_equiv, size_empty_inv. lia. }
  rewrite Hn in H. apply M_bind_Ok in H as (a&s1&Ha&H). injection Ha as Ha <-.
  apply M_bind_Ok in H as (bub&s2&Hb&H). injection Hb as Hb <-. injection H as <- <-. split; [by subst|].
  unfold Draw.draw_message, Draw.message_bubble. rewrite Hdel.
  assert (Ht : g_text m = Some text) by done. assert (Hg : g_att m = att) by (unfold m; cbn; done).
  rewrite Hg, Ha. change (g_dir m) with Out. rewrite Ht. change (g_ts m) with ts. rewrite bool_decide_eq_true_2 by done.
  assert (E : match a with Some (_ :: _) => Ok (default "None" (Some text)) | _ => of_option TypeError (Some text) end
    = Ok text) by (by destruct a as [[]|]).
  cbn [mbind result_bind]. rewrite E. cbn [mbind result_bind]. rewrite Hb. cbn [mbind result_bind].
  unfold file_row. by rewrite Ht.
Qed.

Lemma filter_elements (P : string * Z → Prop) `{∀ k, Decision (P k)} (p : string * Z → bool) (X : gset (string * Z)) :
  (∀ k, p k = bool_decide (P k)) →
  (list_to_set (List.filter p (elements X)) : gset (string * Z)) = filter P X.
Proof.
  intros Hp. apply set_eq. intros k.
  rewrite elem_of_list_to_set, list_filter_elem, elem_of_elements, elem_of_filter, Hp, bool_decide_eq_true. tauto.
Qed.

(** The row drawn for a file just sent, none of whose acks is there yet. *)
Lemma file_row_new passphrase salt s o s0 o' conv seqs ts text a expected acked tl :
  StoreRefine.holds passphrase salt s o → StoreRefine.holds passphrase salt s0 o' →
  x_acks (o_now o') = expecting (out_id seqs) (sent_keys seqs (Some (elements expected))) (x_acks (o_now o)) →
  truthy a = true → Forall (λ r, d_msg r.2 ≠ out_id seqs) (deliveries (s_db s)) →
  (∃ k, k ∈ expected ∧ k.2 ≠ 0) →
  (∀ k, k ∈ expected → k.2 ≠ 0 → (k ∉ acked) ∧ (k ∉ (deliveries (s_db s)).*1)) →
  file_row (s_db s0) (Mail.to_message (o_now o') (out_id seqs, sent_entry conv seqs ts (Some text) (Some a))) tl
  = append_delivery_row text expected acked tl.
Proof.
  intros (_&Hd&_) (_&Hd'&_) Hacks Ha Hmid Hne Hfresh.
  set (x := o_now o) in *. set (x' := o_now o') in *. set (mid := out_id seqs) in *.
  set (keys := sent_keys seqs (Some (elements expected))) in *.
  set (K := filter (λ k : string * Z, k.2 ≠ 0) expected).
  assert (HK : (list_to_set keys : gset (string * Z)) = K).
  { unfold keys, sent_keys. apply filter_elements. intros k. apply eq_true_iff_eq.
    rewrite negb_true_iff, Z.eqb_neq, bool_decide_eq_true. done. }
  assert (Hrec : Mail.recipients mid x = ∅).
  { apply (rep_no_acks _ _ mid _ _ Hd). unfold acks_of. rewrite length_filter_none; [done|].
    eapply Forall_impl; [exact Hmid|]. intros r Hr. by apply bool_decide_eq_false. }
  assert (Hnone : ∀ k, k ∈ keys → x_acks x !! k = None).
  { intros k Hk. assert (Hk' : k ∈ K) by (rewrite <-HK; by apply elem_of_list_to_set).
    apply elem_of_filter in Hk' as [Hz Hk']. destruct (Hfresh k Hk' Hz) as [_ Hnot].
    destruct (rp_acks _ _ _ _ Hd) as [_ Hr]. specialize (Hr k). apply dict_get_None in Hnot.
    rewrite Hnot in Hr. by inversion Hr. }
  pose proof (undelivered_new _ _ _ _ Hacks Hnone Hrec) as Hund. rewrite HK in Hund.
  pose proof (recipients_new _ _ _ _ Hacks Hnone Hrec) as Hrec'. rewrite HK in Hrec'.
  assert (Hsz : size (nodes_of K) ≠ 0%nat).
  { intros Hz%size_empty_inv. destruct Hne as (k&Hk&Hkz). unfold nodes_of in Hz.
    apply (not_elem_of_empty (C:=gset string) k.1). rewrite <-Hz. apply elem_of_map. exists k.
    split; [done|]. by apply elem_of_filter. }
  assert (Hr0 : Mail.recipients mid x' ≠ ∅).
  { rewrite Hrec'. intros Hz. apply Hsz. unfold nodes_of. by rewrite Hz, size_empty. }
  unfold file_row, append_delivery_row, is_tracked_file. unfold Mail.to_message at 1 2 3. cbn [g_dir g_att g_delivery e_dir e_att sent_entry].
  fold K. unfold Mail.meaningful. rewrite Ha. rewrite decide_False by done. destruct (Mail.delivery_members mid x') as [tot dn] eqn:Hdm.
  rewrite Ha. rewrite to_message_id. cbn [fst].
  rewrite (rep_delivery_members _ _ mid _ _ Hd'), (rep_undelivered _ _ mid _ _ Hd'). fold x'.
  unfold Mail.delivery_members. cbn [fst]. rewrite Hund, Hrec'. change (set_map fst K) with (nodes_of K).
  destruct (Z.eqb_spec (Z.of_nat (size (nodes_of K))) 0) as [Hz|_]; [lia|].
  replace (K ∖ (K ∩ acked)) with K; [done|]. apply set_eq. intros k. split; [|set_solver].
  intros Hk. pose proof Hk as [Hz Hk']%elem_of_filter. destruct (Hfresh k Hk' Hz) as [Hnot _]. set_solver.
Qed.

(** The chunks of a file just sent: there are some, no ack of theirs has been
    seen, and the store knows neither them nor the message. *)
Record fresh_chunks (s : store) (mid : string) (expected acked : gset (string * Z)) : Prop := {
  fc_some : ∃ k, k ∈ expected ∧ k.2 ≠ 0;
  fc_new : ∀ k, k ∈ expected → k.2 ≠ 0 → (k ∉ acked) ∧ (k ∉ (deliveries (s_db s)).*1);
  fc_mid : Forall (λ r, d_msg r.2 ≠ mid) (deliveries (s_db s));
}.

Lemma append_inv conv seqs ts text att keys tl s r s' :
  append_outgoing now conv seqs ts text att keys tl s = (Ok r, s') →
  ∃ b s0, add_sent conv seqs ts (Some text) att keys s = (Ok b, s0).
Proof. intros H. apply M_bind_Ok in H as (b&s0&H&_). eauto. Qed.

(** C15: A conversation is drawn from the store as its messages in their order,
    each under a divider of its own day, and where later moments are not on
    earlier days with as many dividers as there are days. What is sent, being
    later than what the store holds, is drawn under it as it is when everything
    is drawn again from the store that now holds it: the divider, the bubble
    with its delivery and, for a file none of whose chunks has been acked yet,
    the row that follows it. *)
Theorem drawing_spec passphrase s conv t ms tl :
  reachable passphrase s → messages conv s = (Ok ms, s) → render_messages now conv t s = (Ok tl, s) →
  Forall2 (stands_under t) ms (under None (tl_entries tl)) ∧
  (days_forward → dividers (tl_entries tl) = size (list_to_set (local_day ∘ g_ts <$> ms) : gset Z)) ∧
  ∀ seqs ts text, sends_last s ms seqs ts text →
    (∀ tl' s', append_outgoing now conv seqs ts text None None tl s = (Ok tl', s') →
       render_messages now conv t s' = (Ok tl', s')) ∧
    (∀ a expected acked tl' s', json_wf a → truthy a = true → fresh_chunks s (out_id seqs) expected acked →
       append_file now conv seqs ts text a expected acked tl s = (Ok tl', s') →
       render_messages now conv t s' = (Ok tl', s')).
Proof.
  intros Hr Hms Hdraw. pose proof (render_inv _ _ _ _ _ _ Hms Hdraw) as Hd. symmetry in Hd.
  destruct (reachable_holds _ _ Hr) as (salt&o&Ho). split; [|split].
  - apply draw_messages_under in Hd as (lbs&->&HF); [done|]. by intros day.
  - intros Hfwd. rewrite (draw_messages_dividers _ _ _ _ _ Hd); [|rewrite (rep_messages _ _ conv s o Ho) in Hms; injection Hms as <-; eapply StronglySorted_days; [exact Hfwd|apply mail_messages_sorted]|by intros day].
    cbn [from_option tl_day tl_entries dividers List.filter length]. rewrite Nat.add_0_l. f_equal.
    apply difference_empty_L.
  - intros seqs ts text Hlast. split.
    + intros tl' s' H. destruct (append_inv _ _ _ _ _ _ _ _ _ _ H) as (b&s0&Hadd).
      destruct (sent_redrawn passphrase salt conv seqs ts text None None ltac:(by intros ? [=]) _ _ _ t _ _ Ho Hms Hlast Hadd) as (o'&Ho'&_&E).
      destruct (append_drawn _ _ _ _ _ _ _ _ _ _ _ _ t _ _ _ Ho' eq_refl Hadd H) as [-> Hm].
      rewrite E, Hd. cbn [mbind result_bind]. by rewrite Hm.
    + intros a expected acked tl' s' Hwf Htr [Hsome Hnew Hmid] H.
      apply M_bind_Ok in H as (tl1&s1&H&H1). injection H1 as <- <-.
      destruct (append_inv _ _ _ _ _ _ _ _ _ _ H) as (b&s0&Hadd).
      destruct (sent_redrawn passphrase salt conv seqs ts text (Some a) (Some (elements expected)) ltac:(by intros ? [= <-]) _ _ _ t _ _ Ho Hms Hlast Hadd) as (o'&Ho'&Hacks&E).
      destruct (append_drawn _ _ _ _ _ _ _ _ _ (Some a) _ _ t _ _ _ Ho' ltac:(cbn; by rewrite Htr) Hadd H) as [-> Hm].
      rewrite E, Hd. cbn [mbind result_bind]. rewrite Hm.
      by rewrite (file_row_new passphrase salt s o s0 o' conv seqs ts text a expected acked).
Qed.
End Timeline.

(** ** Following the bottom *)

(** The scroll to the bottom ends at the first turn that finds the height of
    the turn before, with the bottom of that height in view. *)
Lemma settle_spec upper value turns v :
  _settle upper value turns = (v, true) →
  ∃ before u p after, turns = before ++ (u, p) :: after ∧ v = u - p ∧
    last (default [] ((λ x, [x]) <$> upper) ++ before.*1) = Some u.
Proof.
  revert upper value. induction turns as [|[u p] turns IH]; intros upper value; cbn; [done|].
  case_bool_decide as Hu.
  - intros [= <-]. exists [], u, p, turns. by rewrite Hu.
  - intros (before&u'&p'&after&->&->&Hl)%IH. exists ((u, p) :: before), u', p', after.
    split; [done|]. split; [done|]. cbn in *. rewrite last_app. by rewrite Hl.
Qed.

Lemma settle_ends upper value turns u p q :
  _settle upper value (turns ++ [(u, p); (u, q)]) ≠ ((_settle upper value (turns ++ [(u, p); (u, q)])).1, false).
Proof.
  revert upper value. induction turns as [|[u' p'] turns IH]; intros upper value; cbn.
  - case_bool_decide; [done|]. by rewrite bool_decide_eq_true_2.
  - case_bool_decide; [done|]. apply IH.
Qed.

(** What happens to the position: the user scrolls, a row is added, the button
    is pressed. *)
Inductive scroll_event := Scrolled (a : adjustment) | Added | Jump.
Definition scroll_step (f : follow) (e : scroll_event) : follow :=
  match e with Scrolled a => _on_scrolled a f | Added => _maybe_scroll f | Jump => jump_to_bottom f end.

(** A row added while the user reads further up moves nothing and offers the
    button, which stays until the bottom is in view again. *)
Lemma reader_not_moved f a n :
  _near_bottom 40 a = false →
  let f' := foldl scroll_step (scroll_step f (Scrolled a)) (replicate n Added) in
  scrolling f' = scrolling f ∧ jump_shown f' = (jump_shown f || (0 <? n)%nat).
Proof.
  intros Hn. cbn. unfold _on_scrolled. rewrite Hn. destruct f as [ab js sc]. cbn.
  revert js. induction n as [|n IH]; intros js; cbn; [by rewrite orb_false_r|].
  destruct (IH true) as [-> ->]. by rewrite orb_true_r.
Qed.

(** ** Controls *)

Section Controls.
Context `{N : NaCl} `{J : JsonCodec} `{D : Daemon} `{MU : Markup} `{Z_ : Zone} `{L : Locale}.
Context (role : string → string) (repr : string → string).

#[local] Instance roster_le_total : Total roster_le.
Proof.
  intros [a b] [c d]. unfold roster_le. cbn. destruct (decide (a = c)) as [->|Hne].
  - destruct (total String.le b d); auto.
  - destruct (total String.le a c); [left|right]; left; auto.
Qed.
#[local] Instance roster_le_trans : Transitive roster_le.
Proof.
  intros [a b] [c d] [e f]. unfold roster_le. cbn.
  intros [[H1 H2]|[-> H2]] [[H3 H4]|[-> H4]]; [|by left|by left|right; split; [done|by etransitivity]].
  left. split; [|by etransitivity]. intros ->. apply H1. by apply (anti_symm String.le).
Qed.

Lemma map_result_fst {A B} (f : A → result B) l r (P : A → B → Prop) :
  (∀ x y, f x = Ok y → P x y) → map_result f l = Ok r → Forall2 P l r.
Proof.
  intros Hf. revert r. induction l as [|x l IH]; intros r; cbn; [intros [= <-]; constructor|].
  intros H. inv_ok. constructor; [by apply Hf|by apply IH].
Qed.

(** A room shows a chip for every member but us, each once, in the order of
    their names; a chip says whether its member is a contact of ours. *)
Theorem chips_spec t g l g' :
  th_is_room t = true → dict_wf (th_members t) →
  _render_member_chips role (Some t) g = (Ok l, g') →
  g' = g ∧ c_node <$> l ≡ₚ (others (g_self_node g) (th_members t)).*1 ∧ NoDup (c_node <$> l) ∧
  StronglySorted roster_le ((λ c, (c_screen c, c_node c)) <$> l) ∧
  ∃ d nodes, contact_list g = Ok d ∧ contact_nodes d = Ok nodes ∧
    ∀ c, c ∈ l → c_known c = bool_decide (c_node c ∈ nodes).
Proof.
  intros Hroom Hwf H. unfold _render_member_chips in H. rewrite Hroom in H.
  apply M_bind_Ok in H as (d&g1&Hd&H). rewrite contacts_run in Hd. injection Hd as Hd <-.
  apply M_bind_Ok in H as (nodes&g2&Hn&H). injection Hn as Hn <-.
  apply M_bind_Ok in H as (self&g3&Hs&H). injection Hs as <- <-.
  apply M_bind_Ok in H as (es&g4&He&H). injection He as He <-. injection H as <- <-.
  assert (Hes : es.*2 = (others (g_self_node g) (th_members t)).*1).
  { apply (map_result_fst _ _ _ (λ nm e, e.2 = nm.1)) in He; [|intros x y ?; inv_ok; done].
    clear -He. induction He as [|x y l1 l2 Hxy _ IH]; cbn; [done|]. by rewrite Hxy, IH. }
  assert (Hp : c_node <$> (chip_of role nodes t <$> merge_sort roster_le es) ≡ₚ (others (g_self_node g) (th_members t)).*1).
  { rewrite <-Hes, <-list_fmap_compose. rewrite merge_sort_Permutation.
    erewrite (list_fmap_ext _ snd); [done|]. by intros i [? ?] _. }
  split; [done|]. split; [exact Hp|]. split; [|split].
  - rewrite Hp. unfold others. clear -Hwf. unfold dict_wf in Hwf.
    induction (th_members t) as [|nm d IH]; cbn in *; [constructor|].
    apply NoDup_cons in Hwf as [Hn Hwf]. case_match; cbn; [|by apply IH]. constructor; [|by apply IH].
    intros Hin. apply Hn. apply list_elem_of_fmap in Hin as (x&->&Hx). apply list_elem_of_fmap. exists x.
    split; [done|]. by apply list_elem_of_In, List.filter_In, proj1, list_elem_of_In in Hx.
  - rewrite <-list_fmap_compose. erewrite (list_fmap_ext _ id); [|by intros i [? ?] _].
    rewrite list_fmap_id. apply (StronglySorted_merge_sort _).
  - exists d, nodes. split; [done|]. split; [done|].
    intros c ([screen n]&->&_)%list_elem_of_fmap. done.
Qed.

Lemma getsize_run path w :
  getsize path w = match fs_read path (w_fs w) with
                   | Ok data => (Ok (Z.of_nat (length data)), w)
                   | Raise e => (Raise e, w)
                   end.
Proof. unfold getsize, mbind, M_bind, read_file. by destruct (fs_read path (w_fs w)). Qed.

(** A file goes to the worker that sends it only when it can be read, within
    the limit of size, whole and cut up as it is; a file of more than
    5 MB only goes to a room of more than three after a confirmation. *)
Theorem attach_guarded chosen answer g o g' :
  on_attach chosen answer g = (Ok (Some o), g') →
  ∃ path data, chosen = Some path ∧ fs_read path (w_fs (g_world g)) = Ok data ∧
    Z.of_nat (length data) <= MAX_SEND_BYTES ∧ o_size o = Z.of_nat (length data) ∧
    concat (o_pieces o) = data ∧ o_sha o = sha256_hex data ∧
    v_selected (g_view g) = Some (o_conv o) ∧ dict_get (o_conv o) (v_threads (g_view g)) = Some (o_thread o) ∧
    (large_room_send (o_thread o) (o_size o) = true →
     answer (_confirm_large_room_send (o_filename o) (o_size o) (length (th_members (o_thread o)))) = true).
Proof.
  intros H. unfold on_attach in H. apply M_bind_Ok in H as (sel&g1&Hs&H). injection Hs as <- <-.
  apply M_bind_Ok in H as (t&g1&Ht&H).
  destruct (v_selected (g_view g)) as [conv|] eqn:Hsel; [|by injection Ht as <- <-].
  injection Ht as <- <-.
  destruct (dict_get conv (v_threads (g_view g))) as [t|] eqn:Hth; [|done].
  destruct chosen as [path|]; [|done]. case_bool_decide as Hpath; [done|].
  apply M_bind_Ok in H as (size&g2&Hsz&H). destruct size as [size|]; [|done].
  assert (g2 = g ∧ ∃ data, fs_read path (w_fs (g_world g)) = Ok data ∧ size = Z.of_nat (length data) ∧
    validate_send_size size = Ok tt) as (->&data&Hread&->&Hval).
  { unfold try_with, mbind, M_bind, gio, lift in Hsz. rewrite getsize_run in Hsz. destruct g as [st c sn w v]. cbn in *.
    destruct (fs_read path (w_fs w)) as [data|e]; cbn in Hsz.
    - destruct (validate_send_size (Z.of_nat (length data))) as [[]|e] eqn:Hv; cbn in Hsz.
      + injection Hsz as <- <-. split; [done|]. by exists data.
      + by destruct (is_value_error e || is_os_error e).
    - by destruct (is_value_error e || is_os_error e). }
  assert (Hmax : Z.of_nat (length data) <= MAX_SEND_BYTES).
  { unfold validate_send_size in Hval. destruct (Z.ltb_spec MAX_SEND_BYTES (Z.of_nat (length data))); [done|lia]. }
  match type of H with context [large_room_send _ _ && ?a] => destruct (large_room_send t (Z.of_nat (length data)) && a) eqn:Hlarge end; [done|].
  unfold _send_file in H. apply M_bind_Ok in H as (r&g3&Hr&H).
  assert (g3 = g ∧ r = Some data) as [-> ->].
  { unfold try_with, fmap, M_fmap, gio, read_file in Hr. cbn in Hr. rewrite Hread in Hr.
    injection Hr as <- <-. by destruct g. }
  apply M_bind_Ok in H as (tid&g4&_&H). apply M_bind_Ok in H as (row&g5&_&H). injection H as <- _.
  exists path, data. cbn. split_and!; try done; [by apply pieces_concat|].
  intros Hl. rewrite Hl in Hlarge. by apply negb_false_iff in Hlarge.
Qed.

Lemma copyfile_run src dst w :
  src ≠ dst →
  copyfile repr src dst w = match fs_read src (w_fs w) with
                            | Ok data => write_file dst data w
                            | Raise e => (Raise e, w)
                            end.
Proof.
  intros Hne. unfold copyfile. rewrite bool_decide_eq_false_2 by done.
  unfold mbind, M_bind, read_file. by destruct (fs_read src (w_fs w)).
Qed.

(** Saving an attachment writes exactly its bytes to the place chosen and
    leaves every other file as it was, the attachment included; and where
    nothing is chosen or it cannot be read, no file changes. *)
Theorem save_attachment_spec path filename dest g r g' :
  on_save_attachment repr path filename dest g = (r, g') →
  r = Ok tt ∧
  match dest, fs_read path (w_fs (g_world g)) with
  | Some d, Ok data =>
    if bool_decide (d = "") || bool_decide (path = d) then w_fs (g_world g') = w_fs (g_world g)
    else fs_read d (w_fs (g_world g')) = Ok data ∧ ∀ q, q ≠ d → w_fs (g_world g') !! q = w_fs (g_world g) !! q
  | _, _ => w_fs (g_world g') = w_fs (g_world g)
  end.
Proof.
  unfold on_save_attachment. destruct dest as [d|]; [|by intros [= <- <-]].
  destruct (bool_decide (d = "")) eqn:Hd.
  { intros [= <- <-]. split; [done|]. by destruct (fs_read _ _). }
  destruct g as [st c sn w v]. cbn [g_world]. intros H.
  unfold try_with, mbind, M_bind, gio, activity, show in H. cbn [g_world] in H.
  destruct (bool_decide (path = d)) eqn:Hp.
  { unfold copyfile in H. rewrite Hp in H. cbn in H. injection H as <- <-. split; [done|]. by destruct (fs_read _ _). }
  rewrite copyfile_run in H by (by apply bool_decide_eq_false in Hp).
  destruct (fs_read path (w_fs w)) as [data|e] eqn:Hr.
  - destruct (write_file_run d data w) as (m&Hw&Hrd&Ho). rewrite Hw in H. cbn in H. injection H as <- <-. done.
  - unfold fs_read in Hr. destruct (w_fs w !! path); [done|]. injection Hr as <-. cbn in H. by injection H as <- <-.
Qed.
End Controls.

(** ** Evaluated instances *)

Section Runs.
Local Existing Instances cw_json cw_nacl cw_daemon cw_markup cw_zone cw_locale.

(** A room of ours with Bo, who is a contact, and Al, who is not. *)
Definition three : list (string * json) := [("n0", JObj []); ("n1", JObj [("screen", JStr "Bo")]); ("n2", JObj [("screen", JStr "Al")])].
Example chips_spec_witness :
  (∃ l, _render_member_chips id (Some (new_room three "R")) cw_gui = (Ok l, cw_gui) ∧
        (λ c, (c_screen c, c_known c)) <$> l = [("Al", false); ("Bo", true)]) ∧
  dict_wf three.
Proof.
  assert (W : dict_wf three) by (unfold dict_wf; cbn; repeat (apply NoDup_cons; split; [set_solver|]); apply NoDup_nil_2).
  split; [|exact W]. eexists. split; [vm_compute; reflexivity|].
  edestruct (chips_spec id (new_room three "R") cw_gui) as (_&_&_&_&d&nodes&Hd&Hn&Hk);
    [reflexivity|exact W|vm_compute; reflexivity|].
  vm_compute in Hd. injection Hd as <-. vm_compute in Hn. injection Hn as <-.
  cbn. cbn in Hk. f_equal.
Defined.

(** A file of three bytes, with Bo's conversation open. *)
Definition pic : bytes := [Byte.x61; Byte.x62; Byte.x63].
Definition attach_gui : gui :=
  Gui cw_store (Client bob "bo" None) "n0" (set_fs {["/pic" := File pic 420; "/other" := File [] 420]} cw_world)
    (set_selected (Some "n1") cw_view).
Example attach_guarded_witness : ∃ o g',
  on_attach (Some "/pic") (λ _, false) attach_gui = (Ok (Some o), g') ∧ concat (o_pieces o) = pic ∧ o_size o = 3.
Proof.
  eexists _, _. split; [vm_compute; reflexivity|].
  edestruct (attach_guarded (Some "/pic") (λ _, false) attach_gui) as (p&data&Hp&Hr&_&Hs&Hc&_); [vm_compute; reflexivity|].
  injection Hp as <-. vm_compute in Hr. injection Hr as <-. split; [exact Hc|exact Hs].
Defined.

Example save_attachment_spec_witness : ∃ g',
  on_save_attachment id "/pic" "pic" (Some "/other") attach_gui = (Ok tt, g') ∧
  fs_read "/other" (w_fs (g_world g')) = Ok pic.
Proof.
  eexists. split; [vm_compute; reflexivity|].
  edestruct (save_attachment_spec id "/pic" "pic" (Some "/other") attach_gui) as [_ H]; [vm_compute; reflexivity|].
  exact (proj1 H).
Defined.

Definition day : Z := 86400000.
(** A room with a message of the first day; a text and a file of two chunks
    sent into it a day later. *)
Local Existing Instances sw_json_laws sw_nacl_laws.
Definition no_file (_ : string) : bool := false.
Definition t24 : json := JStr "24h".
Definition pic_att : json := JObj [("path", JStr "/pic"); ("filename", JStr "pic"); ("size", JInt 3)].
Definition pic_chunks : gset (string * Z) := {[("peer", 8); ("peer", 9)]}.
Lemma used_sends_last text : is_str text →
  sends_last used_store [Message "in:peer:3" In (JObj [("peer", JInt 3)]) 100 "peer" (Some "hi") None None] [("peer", 9)] day text.
Proof.
  intros Ht. split.
  - apply NoDup_singleton.
  - by repeat constructor.
  - done.
  - by vm_compute.
  - apply Forall_singleton. by left.
Qed.
Lemma pic_fresh : fresh_chunks used_store (out_id [("peer", 9)]) pic_chunks ∅.
Proof.
  split.
  - exists ("peer", 8). split; [by apply elem_of_union_l, elem_of_singleton|done].
  - intros k _ _. split; [set_solver|by intros ?%elem_of_nil].
  - by vm_compute.
Qed.
Example drawing_spec_witness : ∃ tl tl1 s1 tl2 s2,
  let t := new_room three "R" in
  render_messages no_file no_file t24 day "room" t used_store = (Ok tl, used_store) ∧
  append_outgoing no_file no_file t24 day "room" [("peer", 9)] day "yo" None None tl used_store = (Ok tl1, s1) ∧
  render_messages no_file no_file t24 day "room" t s1 = (Ok tl1, s1) ∧
  append_file no_file no_file t24 day "room" [("peer", 9)] day "pic" pic_att pic_chunks ∅ tl used_store = (Ok tl2, s2) ∧
  render_messages no_file no_file t24 day "room" t s2 = (Ok tl2, s2) ∧
  (dividers (tl_entries tl), dividers (tl_entries tl1), last (tl_entries tl2)) = (1%nat, 2%nat, Some (StatusLine "Sending pic…")).
Proof.
  assert (W : json_wf pic_att).
  { vm_compute. repeat split. all: try (repeat constructor; set_solver). all: done. }
  do 5 eexists. intros t.
  split; [vm_compute; reflexivity|]. split; [vm_compute; reflexivity|].
  edestruct (drawing_spec no_file no_file t24 day "pw" used_store "room" t) as (_&_&H);
    [apply used_store_reachable|vm_compute; reflexivity|vm_compute; reflexivity|].
  split; [apply (H [("peer", 9)] day "yo"); [by apply used_sends_last|vm_compute; reflexivity]|].
  split; [vm_compute; reflexivity|].
  split; [|vm_compute; reflexivity].
  eapply (H [("peer", 9)] day "pic"); [by apply used_sends_last|exact W|done|apply pic_fresh|vm_compute; reflexivity].
Defined.

Definition said (s : string) (ts : Z) : message := Message s In (JObj []) ts "self" (Some s) None None.
Definition drawn_all (ms : list message) : result timeline :=
  draw_messages no_file no_file t24 empty_db (3 * day) (new_dm "bo" bo.2 "Bo") ms (Timeline [] None).

(** The message that comes on another day is shown under the day before: its
    divider comes when the conversation is drawn again. *)
Example no_divider_when_received :
  let ms := [said "a" day] in let m := said "b" (3 * day) in
  (tl ← drawn_all ms;
   b ← message_bubble no_file no_file t24 (new_dm "bo" bo.2 "Bo") m;
   again ← drawn_all (ms ++ [m]);
   Ok (dividers (tl_entries (draw_incoming b tl)), dividers (tl_entries again))) = Ok (1%nat, 2%nat).
Proof. vm_compute. reflexivity. Qed.

(** A history cleared takes the divider and keeps its day: what is sent the
    same day stands without one. *)
Example no_divider_when_cleared :
  (tl ← drawn_all [said "a" day];
   match append_outgoing no_file no_file t24 day "n1" [("n1", 4)] day "b" None None (clear_entries tl) used_store with
   | (Ok tl, _) => Ok (dividers (tl_entries tl))
   | (Raise e, _) => Raise e
   end) = Ok 0%nat.
Proof. vm_compute. reflexivity. Qed.

(** A file whose ack came before its row was made: delivered, says the row;
    still on its way, once all is drawn again. *)
Example early_ack_forgotten :
  (λ s, match append_file no_file no_file t24 day "room" [("peer", 9)] day "pic" pic_att pic_chunks pic_chunks
          (Timeline [] None) used_store with
        | (Ok tl, s') => match render_messages no_file no_file t24 day "room" (new_room three "R") s' with
                         | (Ok again, _) => Some (last (tl_entries tl), last (tl_entries again))
                         | _ => None
                         end
        | _ => None
        end) tt
  = Some (Some (StatusLine "Delivered pic ✓"), Some (StatusLine "Sending pic…")).
Proof. vm_compute. reflexivity. Qed.

(** Two contacts at one node: the box of the first by name is not looked at. *)
Definition at_n1 (screen : string) : json := JObj [("pubkey", JStr "11"); ("node", JStr "n1"); ("screen", JStr screen)].
Example box_without_effect :
  let contacts := [("al", at_n1 "Al"); ("bo", at_n1 "Bo")] in
  (λ d, (d : list (string * (string * json))).*2.*1) <$> (match boxes contacts [] with Ok d => Some d | Raise _ => None end)
  = Some ["bo"].
Proof. vm_compute. reflexivity. Qed.
End Runs.
