(* ===== verification/Workers.v ===== *)
(** * gtkui.py: the window, its workers and its timers

    [run_async] and what its callers hand it: the threads the messages window
    has at work, with their bodies and their callbacks; the timers of
    [AimlessWindow]; the poll of the supervisor; the window as it opens and as
    its theme changes. *)

From S2P Require Import Prelude PyStr Codec Json Sys Paths Crypto Protocol Keys Store DaemonClient Service Desktop Themes View Transfers Conversations Draw.
From Stdlib Require Import Ascii.
Local Open Scope Z_scope.

Section Window.
Context `{N : NaCl} `{J : JsonCodec} `{D : Daemon} `{MU : Markup} `{Z_ : Zone} `{L : Locale}.
Context (sounds : sound_system).

(** ** Workers *)

(** [catchup_attachments]: the nodes to ask, unless a sweep is at work; its
    callbacks. *)
Definition catchup_attachments : WM (option (list string)) :=
  busy ← flag f_catchup_busy;
  if busy : bool then mret None
  else
    _ ← mark (set_catchup_busy true);
    d ← on_gui contacts;
    rs ← on_gui (gst rooms);
    ms ← on_gui (map_m (λ conv, gst (members conv)) rs);
    self ← on_gui self_node;
    nodes ← lift (catchup_nodes self d ms);
    mret (Some nodes).
Definition catchup_attachments_done (jobs : list (string * list json)) : WM unit :=
  _ ← mark (set_catchup_busy false); on_gui (catchup_done sounds jobs).
Definition catchup_attachments_fail : WM unit := mark (set_catchup_busy false).

(** [poll_status]: whether a worker is started; its callbacks, of which [done]
    goes on to show the answer ([Pages.status_done]). *)
Definition poll_status : WM bool :=
  busy ← flag f_status_busy;
  if busy : bool then mret false else _ ← mark (set_status_busy true); mret true.
Definition poll_status_done : WM unit := mark (set_status_busy false).
Definition poll_status_fail : WM unit := mark (set_status_busy false).

(** [watch_all]: the daemon is told of every contact. *)
Definition watch_all : GUI unit :=
  d ← contacts;
  for_each (λ kv : string * json,
    try_with is_daemon_error
      (node ← lift (jindex "node" kv.2 ≫= as_str); _ ← gcl (add_contact node); mret tt)
      (λ _, mret tt)) d.

(** What [run_async] has at work, with what its callers close over. *)
Inductive worker :=
| WHistory (conv : string) (nodes : list string)
| WUnread (nodes : list string)
| WFiles (nodes : list string)
| WPresence
| WPoll
| WMessage (s : sending)
| WStatus (contacts : list (string * json)) (away : json) (log : bool)
| WWatch.
Definition reply (w : worker) : Type :=
  match w with
  | WHistory _ _ | WUnread _ | WPresence => list (string * json)
  | WFiles _ => list (string * list json)
  | WPoll => bool * option (list (string * json))
  | WMessage _ => list (string * Z)
  | WStatus _ _ _ => list string
  | WWatch => unit
  end.

(** [fn], in its thread; [asked] is what the supervisor answers it. *)
Definition body (asked : result (bool * option (list (string * json)))) (w : worker) : GUI (reply w) :=
  match w with
  | WHistory _ nodes | WUnread nodes => fetch_worker nodes
  | WFiles nodes => gcl (catchup_worker nodes [])
  | WPresence => gcl presence_worker
  | WPoll => lift asked
  | WMessage s => gcl (message_worker s)
  | WStatus contacts away _ => gcl (push_status contacts away [])
  | WWatch => watch_all
  end.

(** [run_async], once [fn] has returned or raised: a turn of the main loop
    calls [on_done] or [on_error], where there is one. *)
Definition run_async {A} (on_done : option (A → WM unit)) (on_error : option (exn → WM unit)) (r : result A) : WM unit :=
  match r with
  | Ok a => match on_done with Some f => f a | None => mret tt end
  | Raise e => match on_error with Some f => f e | None => mret tt end
  end.
Definition report (w : worker) : result (reply w) → WM unit :=
  match w with
  | WHistory conv _ => run_async (Some (history_done conv)) (Some history_fail)
  | WUnread _ => run_async (Some catchup_unread_done) (Some (λ _, catchup_unread_fail))
  | WFiles _ => run_async (Some catchup_attachments_done) (Some (λ _, catchup_attachments_fail))
  | WPresence => run_async (Some presence_done) (Some (λ _, presence_fail))
  | WPoll => run_async (Some (λ _, poll_status_done)) (Some (λ _, poll_status_fail))
  | WMessage s => run_async (Some (message_done s)) (Some message_fail)
  | WStatus _ away log =>
    run_async (Some (λ errors, on_gui (push_status_done (match away with JStr a => a | _ => "" end) log errors))) None
  | WWatch => run_async None None
  end.

(** ** The main loop *)

(** The two timers that fire once. *)
Inductive sweep := UnreadSweep | FilesSweep.
#[export] Instance sweep_dec : EqDecision sweep.
Proof. solve_decision. Defined.

(** The workers in flight, and the sweeps whose timers are still to fire. *)
Record loop := Loop { lp_flight : list worker; lp_sweeps : list sweep; lp_window : flags * gui }.
Definition launch (ws : list worker) (s : flags * gui) (l : loop) : loop := Loop (lp_flight l ++ ws) (lp_sweeps l) s.

(** A handler runs; what it answers says which worker it has started. *)
Definition starts {A} (m : WM A) (begun : A → flags * gui → list worker) (l : loop) : loop :=
  let '(r, s) := m (lp_window l) in
  launch (match r with Ok a => begun a s | Raise _ => [] end) s l.
(** The worker for the history of the conversation that was selected. *)
Definition history_worker (conv : string) (nodes : option (list string)) : list worker :=
  match nodes with Some nodes => [WHistory conv nodes] | None => [] end.
Definition of_selected (nodes : option (list string)) (s : flags * gui) : list worker :=
  history_worker (default "" (v_selected (g_view s.2))) nodes.

(** [_push_status], with the buddies of this moment. *)
Definition _push_status (away : json) (log : bool) : WM worker :=
  d ← on_gui contacts; mret (WStatus d away log).
(** [self.prefs.get("away") or None] *)
Definition away_now (prefs : list (string * json)) : json :=
  match dict_get "away" prefs with Some a => if truthy a then a else JNull | None => JNull end.
Definition _reassert_status : WM worker :=
  prefs ← on_gui (seen v_prefs); _push_status (away_now prefs) false.
(** [on_set_away], [set_away]: [None] is the dialog cancelled. *)
Definition on_set_away (typed : option string) : WM worker :=
  away ← on_gui (set_away (default "" typed)); _push_status away true.

(** [apply_theme]: the theme that is set, and whether [poll_status] started a
    worker; the sidebar and the conversation shown are drawn again, and the
    supervisor asked, as far as nothing fails. *)
Definition redraw : WM bool :=
  _ ← on_gui (
    _ ← sync_sidebar;
    selected ← seen v_selected;
    match selected with
    | Some conv => t ← get_thread conv; match t with Some t => _render_messages conv t | None => mret tt end
    | None => mret tt
    end);
  poll_status.
Definition apply_theme (settings : option (string * bool)) (name : json)
    : WM ((string * list (string * json)) * bool) :=
  env ← on_gui (gets (λ g, w_env (g_world g)));
  theme ← lift (Themes.apply_theme env settings name);
  polled ← try_with is_exception redraw (λ _, mret false);
  mret (theme, polled).
(** [_on_system_theme]: the desktop's theme has changed. *)
Definition _on_system_theme (settings : option (string * bool)) (current : string * list (string * json))
    : WM ((string * list (string * json)) * bool) :=
  if bool_decide (current.1 = "system") then apply_theme settings (JStr "system") else mret (current, false).

Inductive event :=
| Selects (conv : option string)
| Chip (node screen : string) (known confirmed : bool)
| NewRoom (chosen : list json)
| Types (text : string)
| Sends
| Away (typed : option string)
| Drains (evs : list json)
| Asks
| Answers (req : list (string * json)) (c : choice)
| Polls
| StatusPolls
| Themed (settings : option (string * bool)) (name : json)
| Reasserts
| Sweeps (s : sweep)
| Reports (i : nat) (answer : ∀ w, result (reply w))
| Handler (h : GUI unit).

(** [Reports]: the [i]-th worker in flight is done, having returned or raised
    anything. [Handler]: any other handler of the window, which has no part in
    the flags, and what other threads and the machine do. *)
Definition on_event (e : event) (l : loop) : loop :=
  match e with
  | Selects conv => starts (on_thread_selected conv) of_selected l
  | Chip node screen known confirmed => starts (on_member_chip node screen known confirmed) of_selected l
  | NewRoom chosen => starts (create_room chosen) of_selected l
  | Types text => starts (mark (set_composer text)) (λ _ _, []) l
  | Sends => starts send_message (λ s _, match s with Some s => [WMessage s] | None => [] end) l
  | Away typed => starts (on_set_away typed) (λ w _, [w]) l
  | Drains evs => starts (drain_events sounds evs []) (λ _ _, []) l
  | Asks => starts surface_pending_requests (λ _ _, []) l
  | Answers req c => starts (answer_request req c) (λ _ _, []) l
  | Polls => starts poll_presence (λ b _, if b : bool then [WPresence] else []) l
  | StatusPolls => starts poll_status (λ b _, if b : bool then [WPoll] else []) l
  | Themed settings name => starts (apply_theme settings name) (λ r _, if r.2 then [WPoll] else []) l
  | Reasserts => starts _reassert_status (λ w _, [w]) l
  | Sweeps s =>
    if bool_decide (s ∈ lp_sweeps l) then
      let l := Loop (lp_flight l) (filter (λ s', s' ≠ s) (lp_sweeps l)) (lp_window l) in
      match s with
      | UnreadSweep => starts catchup_unread (λ n _, match n with Some n => [WUnread n] | None => [] end) l
      | FilesSweep => starts catchup_attachments (λ n _, match n with Some n => [WFiles n] | None => [] end) l
      end
    else l
  | Reports i answer =>
    match lp_flight l !! i with
    | Some w => starts (report w (answer w)) (λ _ _, []) (Loop (delete i (lp_flight l)) (lp_sweeps l) (lp_window l))
    | None => l
    end
  | Handler h => starts (on_gui h) (λ _ _, []) l
  end.
Definition run_loop (es : list event) (l : loop) : loop := foldl (λ l e, on_event e l) l es.

(** ** The window *)

(** [AimlessWindow.__init__]: the hint for a first start, the away banner, and
    the loop the window begins with: a poll of the supervisor, [watch_all] and the
    status pushed once at work, both sweeps to come. [None]: it raised. *)
Record opened := Opened { op_hint : bool; op_banner : option string; op_loop : loop }.
Definition open_messages (prefs : list (string * json)) : WM (bool * option string * worker) :=
  _ ← on_gui (show (set_prefs prefs));
  _ ← on_gui sync_sidebar;
  hint ← (if truthy (pref prefs "seen_onboarding") then mret false
          else d ← on_gui contacts; mret (match d with [] => true | _ => false end));
  let away := away_now prefs in
  banner ← lift (match away with JStr a => Ok (Some a) | JNull => Ok None | _ => Raise TypeError end);
  _ ← poll_status;
  w ← _push_status away false;
  mret (hint, _apply_away_banner banner, w).
Definition window_init (prefs : list (string * json)) (s : store) (c : client) (self : string) (w : world)
    : option opened :=
  match open_messages prefs (no_flags, Gui s c self w empty_view) with
  | (Ok (hint, banner, status), st) =>
    Some (Opened hint banner (Loop [WPoll; WWatch; status] [UnreadSweep; FilesSweep] st))
  | (Raise _, _) => None
  end.
(** [dismiss_info]: either button of the hint. *)
Definition dismiss_info : GUI unit :=
  prefs ← seen v_prefs;
  let prefs := dict_set "seen_onboarding" (JBool true) prefs in
  _ ← show (set_prefs prefs);
  gio (save_prefs (JObj prefs)).

End Window.
