(* ===== verification/WorkersProps.v ===== *)
(** * Properties of the window's workers and timers *)

From S2P Require Import Prelude PyStr Codec Json Sys Paths Crypto Protocol Keys Store StoreProps DaemonClient Service Desktop Themes View Transfers TransfersProps Conversations ConversationsProps Workers.
From Stdlib Require Import Ascii.
Local Open Scope Z_scope.

Section Workers.
Context `{N : NaCl} `{J : JsonCodec} `{D : Daemon} `{MU : Markup} `{Z_ : Zone} `{L : Locale}.
Context (sounds : sound_system).

(** ** Flags and workers *)

Definition is_history (w : worker) : bool := match w with WHistory _ _ => true | _ => false end.
Definition is_sweep (w : worker) : bool := match w with WUnread _ | WFiles _ => true | _ => false end.
Definition is_presence (w : worker) : bool := match w with WPresence => true | _ => false end.
Definition is_poll (w : worker) : bool := match w with WPoll => true | _ => false end.
Definition is_message (w : worker) : bool := match w with WMessage _ => true | _ => false end.
Definition count (p : worker → bool) (ws : list worker) : nat := length (List.filter p ws).

Lemma count_app p ws ws' : count p (ws ++ ws') = (count p ws + count p ws')%nat.
Proof. unfold count. by rewrite List.filter_app, length_app. Qed.
Lemma count_delete p ws i w :
  ws !! i = Some w → count p ws = (count p (delete i ws) + if p w then 1 else 0)%nat.
Proof.
  intros Hi. rewrite <-(take_drop_middle ws i w Hi) at 1. rewrite (delete_take_drop ws i).
  rewrite !count_app. unfold count at 2. cbn. fold (count p (drop (S i) ws)).
  destruct (p w); cbn; unfold count; lia.
Qed.

(** The flags, and what a step may do to them together with the workers it
    starts; [n] counts the sweeps that raised their flag and then failed to
    start. *)
Definition busy_of (f : flags) : bool * bool * bool * bool * bool :=
  (f_sending f, f_history_busy f, f_presence_busy f, f_catchup_busy f, f_status_busy f).
Record balanced (n : nat) (f f' : flags) (ws : list worker) : Prop := {
  ba_history : Nat.b2n (f_history_busy f') = (Nat.b2n (f_history_busy f) + count is_history ws)%nat;
  ba_presence : Nat.b2n (f_presence_busy f') = (Nat.b2n (f_presence_busy f) + count is_presence ws)%nat;
  ba_message : Nat.b2n (f_sending f') = (Nat.b2n (f_sending f) + count is_message ws)%nat;
  ba_poll : Nat.b2n (f_status_busy f') = (Nat.b2n (f_status_busy f) + count is_poll ws)%nat;
  ba_sweep : Nat.b2n (f_catchup_busy f') = (Nat.b2n (f_catchup_busy f) + count is_sweep ws + n)%nat;
}.
Definition matched (n : nat) (l : loop) : Prop := balanced n no_flags (lp_window l).1 (lp_flight l).

Lemma balanced_nil f f' : busy_of f' = busy_of f → balanced 0 f f' [].
Proof. destruct f, f'. cbn. intros [= -> -> -> -> ->]. split; cbn; lia. Qed.
Lemma balanced_app n n' f1 f2 f3 ws ws' :
  balanced n f1 f2 ws → balanced n' f2 f3 ws' → balanced (n + n') f1 f3 (ws ++ ws').
Proof. intros [] []. split; rewrite count_app; lia. Qed.

(** A program that leaves the flags as they are. *)
Definition calm (b : bool * bool * bool * bool * bool) {A} (m : WM A) : Prop := keeps (λ s, busy_of s.1 = b) m any.
Lemma calm_gui b {A} (m : GUI A) : calm b (on_gui m).
Proof. intros [f g] Hf. unfold on_gui. by destruct (m g). Qed.
Lemma on_gui_pure {A} (m : GUI A) f g r f1 g1 : on_gui m (f, g) = (r, (f1, g1)) → f1 = f.
Proof. unfold on_gui. destruct (m g). by intros [= _ -> _]. Qed.
Lemma calm_mark b (p : flags → flags) : (∀ f, busy_of (p f) = busy_of f) → calm b (mark p).
Proof. intros Hp. apply keeps_modify. intros [f g] Hf. cbn. by rewrite Hp. Qed.
Lemma calm_flag b {A} (p : flags → A) : calm b (flag p).
Proof. apply keeps_gets_any. Qed.

Ltac calm_step :=
  first
  [ apply calm_gui | apply calm_flag | apply calm_mark; by intros []
  | apply keeps_ret_any | apply keeps_lift_any | apply keeps_raise
  | eapply keeps_bind; [|intros ? _]
  | apply keeps_try; [|intros ?]
  | match goal with |- keeps _ (match ?x with _ => _ end) _ => destruct x end
  | match goal with |- calm _ (match ?x with _ => _ end) => destruct x end
  | progress unfold calm ].
Ltac calm_tac := repeat calm_step.

Lemma calm_surface b : calm b surface_pending_requests.
Proof. unfold surface_pending_requests. calm_tac. Qed.
Lemma calm_incoming b ev : calm b (incoming sounds ev).
Proof.
  unfold incoming, incoming_opened, in_muted, from_contact, from_stranger. calm_tac; apply calm_surface.
Qed.
Lemma calm_drain b evs requests : calm b (drain_events sounds evs requests).
Proof.
  revert requests. induction evs as [|ev evs IH]; intros requests; cbn [drain_events]; [calm_tac|].
  eapply keeps_bind; [|intros [q|] _; [apply IH|calm_tac]].
  unfold handle_event. calm_tac; try apply calm_incoming.
Qed.
Lemma calm_answer b req c : calm b (answer_request req c).
Proof. unfold answer_request. calm_tac. Qed.
Lemma calm_status b away log : calm b (_push_status away log).
Proof. unfold _push_status. calm_tac. Qed.

(** What a handler starts is balanced by the flags it raises. *)
Definition fair {A} (m : WM A) (begun : A → flags * gui → list worker) : Prop :=
  ∀ f g, let '(r, s) := m (f, g) in
    balanced 0 f s.1 (match r with Ok a => begun a s | Raise _ => [] end).
Lemma fair_calm {A} (m : WM A) begun :
  (∀ b, calm b m) → (∀ a s p, count p (begun a s) = count p []) → fair m begun.
Proof.
  intros Hm Hb f g. destruct (m (f, g)) as [r s] eqn:E.
  pose proof (proj1 (Hm (busy_of f) (f, g) eq_refl)) as Hf. rewrite E in Hf. cbn in Hf.
  apply balanced_nil in Hf as []. destruct r; split; rewrite ?Hb; done.
Qed.
Lemma fair_bind {A B} (m : WM A) (k : A → WM B) begun :
  (∀ b, calm b m) → (∀ a, fair (k a) begun) → fair (m ≫= k) begun.
Proof.
  intros Hm Hk f g. unfold mbind, M_bind. destruct (m (f, g)) as [r [f1 g1]] eqn:E.
  pose proof (proj1 (Hm (busy_of f) (f, g) eq_refl)) as Hf. rewrite E in Hf. cbn in Hf.
  destruct r as [a|e]; [|by apply balanced_nil].
  specialize (Hk a f1 g1). destruct (k a (f1, g1)) as [r s].
  by eapply (balanced_app 0 0 f f1 _ []); [apply balanced_nil|].
Qed.
Lemma fair_ret {A} (a : A) begun : (∀ s, begun a s = []) → fair (mret a) begun.
Proof. intros Hb f g. cbn. rewrite Hb. by apply balanced_nil. Qed.

Lemma fair_load conv : fair (load_history_async conv) of_selected.
Proof.
  intros f g. unfold load_history_async, mbind, M_bind, flag, gets. cbn.
  destruct (f_history_busy f) eqn:E; cbn; [by apply balanced_nil|]. split; unfold of_selected, count; cbn; rewrite ?E; cbn; lia.
Qed.
Lemma fair_select conv : fair (on_thread_selected conv) of_selected.
Proof.
  destruct conv as [conv|]; cbn [on_thread_selected].
  - apply fair_bind; [intros b; apply calm_gui|intros [t|]]; [|by apply fair_ret].
    repeat (apply fair_bind; [intros b; apply calm_gui|intros _]). apply fair_load.
  - apply fair_bind; [intros b; apply calm_gui|intros _; by apply fair_ret].
Qed.
Ltac fair_tac :=
  repeat first
    [ apply fair_select | apply fair_ret; done
    | match goal with |- fair (match ?x with _ => _ end) _ => destruct x end
    | apply fair_bind; [intros b; solve [calm_tac]|intros ?] ].
Lemma fair_room chosen : fair (create_room chosen) of_selected.
Proof. unfold create_room. fair_tac. Qed.
Lemma fair_chip node screen known confirmed : fair (on_member_chip node screen known confirmed) of_selected.
Proof. unfold on_member_chip. fair_tac. Qed.

Lemma fair_push away log : fair (_push_status away log) (λ w _, [w]).
Proof.
  unfold _push_status. apply fair_bind; [intros b; calm_tac|]. intros d f g. split; cbn; lia.
Qed.
Lemma fair_send : fair send_message (λ s _, match s with Some s => [WMessage s] | None => [] end).
Proof.
  unfold send_message. apply fair_bind; [intros b; calm_tac|intros [conv|]]; [|by apply fair_ret].
  apply fair_bind; [intros b; calm_tac|intros composed].
  intros f g. unfold mbind, M_bind, flag, gets, on_gui, get_thread, seen. cbn.
  destruct (dict_get conv _); cbn; [|by apply balanced_nil].
  case_bool_decide; [by apply balanced_nil|].
  destruct (f_sending f) eqn:E; [by apply balanced_nil|]. split; unfold of_selected, count; cbn; rewrite ?E; cbn; lia.
Qed.
Lemma fair_poll : fair poll_presence (λ b _, if b : bool then [WPresence] else []).
Proof.
  intros f g. unfold poll_presence, mbind, M_bind, flag, gets. cbn.
  destruct (f_presence_busy f) eqn:E; cbn; [by apply balanced_nil|]. split; unfold of_selected, count; cbn; rewrite ?E; cbn; lia.
Qed.
Lemma fair_unread : fair catchup_unread (λ n _, match n with Some n => [WUnread n] | None => [] end).
Proof.
  intros f g. unfold catchup_unread, mbind, M_bind, flag, gets. cbn.
  destruct (f_catchup_busy f) eqn:E; cbn; [by apply balanced_nil|]. split; unfold of_selected, count; cbn; rewrite ?E; cbn; lia.
Qed.
Lemma fair_status : fair poll_status (λ b _, if b : bool then [WPoll] else []).
Proof.
  intros f g. unfold poll_status, mbind, M_bind, flag, gets. cbn.
  destruct (f_status_busy f) eqn:E; cbn; [by apply balanced_nil|]. split; unfold count; cbn; rewrite ?E; cbn; lia.
Qed.
Lemma fair_theme settings name : fair (apply_theme settings name) (λ r _, if r.2 : bool then [WPoll] else []).
Proof.
  unfold apply_theme. do 2 (apply fair_bind; [intros b; calm_tac|intros ?]).
  assert (H : fair redraw (λ b _, if b : bool then [WPoll] else [])).
  { unfold redraw. apply fair_bind; [intros b; apply calm_gui|intros _]. apply fair_status. }
  intros f g. specialize (H f g). unfold mbind, M_bind, try_with.
  destruct (redraw (f, g)) as [[b|e] s]; cbn; [exact H|]. by destruct (is_exception e).
Qed.
(** A sweep for files starts its worker, or raises once its flag is up. *)
Definition breaks (e : event) (l : loop) : bool :=
  match e with
  | Sweeps FilesSweep =>
    bool_decide (FilesSweep ∈ lp_sweeps l) && negb (f_catchup_busy (lp_window l).1) &&
    match catchup_attachments (lp_window l) with (Raise _, _) => true | (Ok _, _) => false end
  | _ => false
  end.
(** How often that happens. *)
Fixpoint broken (es : list event) (l : loop) : nat :=
  match es with [] => 0 | e :: es => Nat.b2n (breaks e l) + broken es (on_event sounds e l) end.

Lemma files_balanced f g :
  let '(r, s) := catchup_attachments (f, g) in
  balanced (Nat.b2n (negb (f_catchup_busy f) && match r with Raise _ => true | Ok _ => false end)) f s.1
    (match r with Ok (Some n) => [WFiles n] | _ => [] end).
Proof. unfold catchup_attachments. rewrite (M_bind_run _ _ (f, g) (f_catchup_busy f) (f, g)) by done.
  destruct (f_catchup_busy f) eqn:E; [by apply balanced_nil|].
  rewrite (M_bind_run _ _ (f, g) tt (set_catchup_busy true f, g)) by done.
  match goal with |- context [?m (set_catchup_busy true f, g)] =>
    assert (H : keeps (λ s, busy_of s.1 = busy_of (set_catchup_busy true f)) m (λ r, is_Some r))
      by (repeat (eapply keeps_bind; [calm_tac|intros ? _]); apply keeps_ret; by eexists);
    specialize (H (set_catchup_busy true f, g) eq_refl); destruct (m (set_catchup_busy true f, g)) as [r s] end.
  destruct H as [H Hr]. cbn in H. destruct f, s as [[] ?]; cbn in *. injection H as -> -> -> -> ->. subst.
  destruct r as [[n|]|]; [|by destruct (Hr None eq_refl)|]; split; cbn; lia.
Qed.

(** A worker's callback first takes back the flag its start raised. *)
Definition lower (w : worker) (f : flags) : flags :=
  match w with
  | WHistory _ _ => set_history_busy false f
  | WUnread _ | WFiles _ => set_catchup_busy false f
  | WPresence => set_presence_busy false f
  | WPoll => set_status_busy false f
  | WMessage _ => set_sending false f
  | WStatus _ _ _ | WWatch => f
  end.
Lemma mark_then {A} (p : flags → flags) (k : unit → WM A) f g :
  (∀ b, calm b (k tt)) → busy_of ((mark p ≫= k) (f, g)).2.1 = busy_of (p f).
Proof. intros Hk. exact (proj1 (Hk (busy_of (p f)) (p f, g) eq_refl)). Qed.
Lemma report_flags w r f g : busy_of (report sounds w r (f, g)).2.1 = busy_of (lower w f).
Proof.
  destruct w; destruct r as [a|e]; cbn [report run_async lower]; try done;
    unfold history_done, history_fail, catchup_unread_done, catchup_attachments_done, presence_done, presence_fail,
      poll_status_done, poll_status_fail, message_done, message_fail;
    try (apply mark_then; intros b; calm_tac); try exact (proj1 (calm_gui _ _ (f, g) eq_refl)).
Qed.

Lemma starts_matched {A} (m : WM A) begun n l : fair m begun → matched n l → matched n (starts m begun l).
Proof.
  intros Hm Hl. unfold starts, matched. destruct l as [ws sw [f g]]. cbn [lp_window].
  specialize (Hm f g). destruct (m (f, g)) as [r s]. cbn.
  rewrite (Nat.add_comm n 0) || idtac. rewrite <-(Nat.add_0_r n). by eapply balanced_app.
Qed.
Lemma b2n_le b : (Nat.b2n b ≤ 1)%nat.
Proof. destruct b; cbn; lia. Qed.
Lemma report_matched i w answer n l :
  lp_flight l !! i = Some w → matched n l →
  matched n (starts (report sounds w (answer w)) (λ _ _, []) (Loop (delete i (lp_flight l)) (lp_sweeps l) (lp_window l))).
Proof.
  destruct l as [ws sw [f g]]. cbn [lp_flight lp_window lp_sweeps]. intros Hi [Hh Hp Hm Ht Hs].
  cbn [lp_flight lp_window fst] in Hh, Hp, Hm, Ht, Hs.
  rewrite (count_delete is_history _ _ _ Hi) in Hh. rewrite (count_delete is_presence _ _ _ Hi) in Hp.
  rewrite (count_delete is_message _ _ _ Hi) in Hm. rewrite (count_delete is_poll _ _ _ Hi) in Ht. rewrite (count_delete is_sweep _ _ _ Hi) in Hs.
  unfold starts. pose proof (report_flags w (answer w) f g) as Hf. cbn [lp_window].
  destruct (report sounds w (answer w) (f, g)) as [r [f' g']]. cbn in Hf. unfold launch, matched. cbn [lp_flight lp_sweeps lp_window fst].
  assert ((match r with Ok _ => [] | Raise _ => [] end : list worker) = []) as -> by (by destruct r).
  rewrite app_nil_r. destruct f, f', w; cbn in *; injection Hf as -> -> -> -> ->; split; cbn in *;
    pose proof (b2n_le f_history_busy); pose proof (b2n_le f_presence_busy); pose proof (b2n_le f_sending);
    pose proof (b2n_le f_status_busy); pose proof (b2n_le f_catchup_busy); lia.
Qed.

Lemma matched_step e n l : matched n l → matched (n + Nat.b2n (breaks e l)) (on_event sounds e l).
Proof.
  intros Hl. assert (Hcalm : ∀ {A} (m : WM A), (∀ b, calm b m) → fair m (λ _ _, [])).
  { intros A m Hm. by apply fair_calm. }
  destruct e; cbn [on_event breaks]; rewrite ?Nat.add_0_r; try (apply starts_matched; [|done]).
  - apply fair_select.
  - apply fair_chip.
  - apply fair_room.
  - apply Hcalm. intros b. calm_tac.
  - apply fair_send.
  - unfold on_set_away. apply fair_bind; [intros b; calm_tac|intros away; apply fair_push].
  - apply Hcalm. intros b. apply calm_drain.
  - apply Hcalm. intros b. apply calm_surface.
  - apply Hcalm. intros b. apply calm_answer.
  - apply fair_poll.
  - apply fair_status.
  - apply fair_theme.
  - unfold _reassert_status. apply fair_bind; [intros b; calm_tac|intros prefs; apply fair_push].
  - destruct s; cbn [andb]; [rewrite Nat.add_0_r; case_bool_decide; [|done]; apply starts_matched; [apply fair_unread|exact Hl]|].
    case_bool_decide; [|by rewrite Nat.add_0_r]. cbn [andb].
    pose proof (files_balanced (lp_window l).1 (lp_window l).2) as Hfb. rewrite <-surjective_pairing in Hfb.
    unfold starts, launch, matched. cbn [lp_window lp_flight].
    destruct (catchup_attachments (lp_window l)) as [[a|e] s]; cbn [lp_flight lp_window]; by eapply balanced_app.
  - destruct (lp_flight l !! i) as [w|] eqn:Hi; [|done]. by apply report_matched.
  - apply Hcalm. intros b. apply calm_gui.
Qed.
Lemma open_messages_fair prefs g r s :
  open_messages prefs (no_flags, g) = (Ok r, s) → balanced 0 no_flags s.1 [WPoll; WWatch; r.2].
Proof.
  unfold open_messages. intros H.
  do 2 (apply M_bind_Ok in H as ([]&[f g']&E&H); apply on_gui_pure in E as ->; clear g; rename g' into g).
  apply M_bind_Ok in H as (hint&[f g1]&E&H).
  assert (busy_of f = busy_of no_flags) as Hf.
  { match type of E with ?m _ = _ => assert (Hc : calm (busy_of no_flags) m) by calm_tac;
      specialize (Hc (no_flags, g) eq_refl); rewrite E in Hc end. apply Hc. }
  cbv zeta in H. apply M_bind_Ok in H as (banner&s2&E2&H). injection E2 as _ <-.
  apply M_bind_Ok in H as (polled&[f3 g3]&E3&H).
  assert (f3 = set_status_busy true f ∧ polled = true) as [-> ->].
  { revert E3. unfold poll_status, mbind, M_bind, flag, gets. cbn. destruct f; cbn in *.
    injection Hf as -> -> -> -> ->. by intros [= <- <- _]. }
  apply M_bind_Ok in H as (w&s4&E4&H). injection H as <- <-. unfold _push_status in E4.
  apply M_bind_Ok in E4 as (d&[f5 g5]&E5&E6). apply on_gui_pure in E5 as ->. injection E6 as <- <-.
  destruct f; cbn in *. injection Hf as -> -> -> -> ->. split; reflexivity.
Qed.
Lemma matched_init prefs s c self w op : window_init prefs s c self w = Some op → matched 0 (op_loop op).
Proof.
  unfold window_init. destruct (open_messages prefs _) as [[[[hint banner] status]|e] st] eqn:E; [|done].
  intros [= <-]. exact (open_messages_fair _ _ _ _ E).
Qed.
Lemma matched_run es n l : matched n l → matched (n + broken es l) (run_loop sounds es l).
Proof.
  revert n l. induction es as [|e es IH]; intros n l Hl; cbn [broken]; [by rewrite Nat.add_0_r|].
  rewrite Nat.add_assoc. by apply IH, matched_step.
Qed.

(** C12: Whatever is done in the window and whatever its workers answer, in any
    order: a flag that holds back a second worker is up exactly while a worker
    of its kind is in flight, so at most one history, one presence poll, one
    poll of the supervisor and one message are under way, and each flag is down
    again with its worker's report, whatever that was.  The two sweeps share a
    flag, never overlap, and it too is up exactly while one is in flight, but
    for one case, counted by [broken]: the sweep for files has raised its flag
    and then fails to read the contacts, the rooms or a roster, so that no
    worker of it ever takes the flag back. *)
Theorem workers_match prefs s c self w op es :
  window_init prefs s c self w = Some op →
  let l := run_loop sounds es (op_loop op) in
  let f := (lp_window l).1 in
  count is_history (lp_flight l) = Nat.b2n (f_history_busy f) ∧
  count is_presence (lp_flight l) = Nat.b2n (f_presence_busy f) ∧
  count is_poll (lp_flight l) = Nat.b2n (f_status_busy f) ∧
  count is_message (lp_flight l) = Nat.b2n (f_sending f) ∧
  (count is_sweep (lp_flight l) + broken es (op_loop op) = Nat.b2n (f_catchup_busy f))%nat.
Proof.
  intros Hop. pose proof (matched_run es 0 (op_loop op) (matched_init _ _ _ _ _ _ Hop)) as [].
  cbn in *. lia.
Qed.

(** ** A message sent *)

Lemma append_outgoing_run conv seqs ts text g :
  int64 ts = true → Forall (λ k, int64 k.2 = true) seqs →
  ∃ b, _append_outgoing conv seqs ts text None None g =
    (Ok (out_id seqs), Gui (add_sent conv seqs ts (Some text) None None (g_store g)).2 (g_client g) (g_self_node g)
      (g_world g) (set_bubble_status b (set_shown (v_shown (g_view g) ++ [Bubble true text ts None None]) (g_view g)))).
Proof.
  intros Hts Hseqs. unfold _append_outgoing.
  destruct (add_sent_run conv seqs ts (Some text) None None (g_store g) Hts Hseqs) as (m&t&a&n&Hrun).
  cbv zeta in Hrun. rewrite Hrun. rewrite (M_bind_run _ _ _ _ _ (gst_run _ _ _ _ Hrun)). cbn [snd].
  set (s := Store _ _ _ _). clearbody s.
  unfold gst at 1, delivery_members, query, gets, mbind, M_bind. cbn [g_store].
  destruct (delivery_members_of (out_id seqs) (s_db s)) as [total done_]. cbn.
  unfold append_bubble, append_row, show, modify, mbind, M_bind. cbn.
  destruct (delivery_text total done_) as [d|]; cbn.
  - eexists. reflexivity.
  - exists (v_bubble_status (g_view g)). by destruct g as [? ? ? ? []].
Qed.

(** C9: Sending what is composed empties the composer and hands the text,
    trimmed, to a worker for the conversation shown.  When the worker reports,
    the message is in the store as sent, in the conversation it was sent from,
    and its bubble is at the end of what is shown.  If that conversation is still
    the one shown, the text is the preview of its thread and no other thread
    changes; if another is, the preview goes to that one, and if none is, the
    callback raises after all the rest.  When the worker fails nothing is stored.
    Whichever it is, the next message can be sent. *)
Theorem message_sent conv t f g :
  v_selected (g_view g) = Some conv → dict_get conv (v_threads (g_view g)) = Some t →
  strip (f_composer f) ≠ "" → f_sending f = false →
  let text := strip (f_composer f) in
  let ts := w_now (g_world g) in
  let s := Sending conv t text ts in
  send_message (f, g) = (Ok (Some s), (set_composer "" (set_sending true f), g)) ∧
  (∀ seqs f' g',
    int64 ts = true → Forall (λ k, int64 k.2 = true) seqs →
    ∃ r g'', message_done s seqs (f', g') = (r, (set_sending false f', g'')) ∧
      g_store g'' = (add_sent conv seqs ts (Some text) None None (g_store g')).2 ∧
      v_shown (g_view g'') = v_shown (g_view g') ++ [Bubble true text ts None None] ∧
      match v_selected (g_view g') with
      | Some c =>
        ∀ t', dict_get c (v_threads (g_view g')) = Some t' →
          r = Ok tt ∧ dict_get c (v_threads (g_view g'')) = Some (with_preview text t') ∧
          ∀ c', c' ≠ c → dict_get c' (v_threads (g_view g'')) = dict_get c' (v_threads (g_view g'))
      | None => r = Raise TypeError ∧ v_threads (g_view g'') = v_threads (g_view g')
      end) ∧
  ∀ e f' g', ∃ g'', message_fail e (f', g') = (Ok tt, (set_sending false f', g'')) ∧ g_store g'' = g_store g'.
Proof.
  intros Hsel Ht Htext Hbusy text ts s. split; [|split].
  - unfold send_message, mbind, M_bind, on_gui, seen, get_thread, flag, clock, gets. cbn. rewrite Hsel. cbn.
    rewrite Ht. cbn. rewrite bool_decide_eq_false_2 by done. rewrite Hbusy. cbn. by destruct f.
  - intros seqs f' g' Hts Hseqs. unfold message_done.
    rewrite (M_bind_run _ _ (f', g') tt (set_sending false f', g')) by done.
    destruct (append_outgoing_run conv seqs ts text g' Hts Hseqs) as [b E].
    cbn [s_conv s_text s_ts s].
    match type of E with _ = (_, ?g1) => set (g1' := g1) in E;
      assert (Hsel1 : seen v_selected g1' = (Ok (v_selected (g_view g')), g1')) by done end.
    destruct (v_selected (g_view g')) as [c|] eqn:Hc.
    + destruct (dict_get c (v_threads (g_view g'))) as [t'|] eqn:Ht'.
      * eexists _, _. split; [|split; [|split]].
        -- apply on_gui_run. rewrite (M_bind_run _ _ _ _ _ E), (M_bind_run _ _ _ _ _ Hsel1).
           by apply (update_thread_run c (with_preview text) t').
        -- done.
        -- done.
        -- intros t'' [= <-]. cbn. split; [done|]. split; [by rewrite dict_get_set_eq|].
           intros c' Hc'. by rewrite dict_get_set_ne.
      * eexists _, _. split; [|split; [|split]].
        -- apply on_gui_run. rewrite (M_bind_run _ _ _ _ _ E), (M_bind_run _ _ _ _ _ Hsel1).
           unfold update_thread, get_thread, seen, gets, mbind, M_bind. cbn. by rewrite Ht'.
        -- done.
        -- done.
        -- intros t'' H. done.
    + eexists _, g1'. split; [|split; [done|split; [done|split; [reflexivity|done]]]].
      apply on_gui_run. by rewrite (M_bind_run _ _ _ _ _ E), (M_bind_run _ _ _ _ _ Hsel1).
  - intros e f' g'. eexists. split; [reflexivity|]. done.
Qed.
End Workers.

(** ** Evaluated instances *)

Section WorkersWitness.
Local Existing Instances cw_json cw_nacl cw_daemon cw_markup cw_zone cw_locale.

Definition opening : option opened := window_init [] cw_store (Client bob "bo" None) "n0" cw_world.
Definition selects : list event := [Selects (Some "n1"); Sends; Polls; Polls].
Definition no_answer (w : worker) : result (reply w) := Raise TypeError.

(** A conversation is opened, which asks for its history, and presence is
    polled: two workers besides the three the window starts with. *)
Example workers_match_witness : ∃ op,
  opening = Some op ∧
  length (lp_flight (run_loop cw_sounds selects (op_loop op))) = 5%nat ∧
  count is_history (lp_flight (run_loop cw_sounds selects (op_loop op))) = 1%nat.
Proof.
  eexists. split; [vm_compute; reflexivity|]. split; [vm_compute; reflexivity|].
  refine (eq_trans (proj1 (workers_match cw_sounds [] cw_store (Client bob "bo" None) "n0" cw_world _ selects _)) _);
    [vm_compute; reflexivity|vm_compute; reflexivity].
Defined.

Definition composing : flags * gui :=
  (set_composer " hello " no_flags,
   Gui cw_store (Client bob "bo" None) "n0" cw_world (set_selected (Some "n1") cw_view)).
Example message_sent_witness : ∃ s g'',
  send_message composing = (Ok (Some s), (set_composer "" (set_sending true composing.1), composing.2)) ∧
  message_done s [("n1", 4)] (no_flags, composing.2) = (Ok tt, (no_flags, g'')) ∧
  v_shown (g_view g'') = [Bubble true "hello" 0 None None].
Proof.
  destruct (message_sent "n1" (new_dm "bo" bo.2 "Bo") composing.1 composing.2) as (E1&E2&_);
    [reflexivity|reflexivity|vm_compute; discriminate|reflexivity|].
  destruct (E2 [("n1", 4)] no_flags composing.2) as (r&g''&E&_&Hs&Hr); [reflexivity|by repeat constructor|].
  destruct (Hr (new_dm "bo" bo.2 "Bo") eq_refl) as [-> _].
  eexists _, g''. split; [exact E1|]. split; [exact E|]. exact Hs.
Defined.

(** A daemon slow to answer the first sweep: the second finds its flag up, and
    the files that wait for us are not asked for again while this window lives. *)
Example files_never_fetched : ∃ op,
  opening = Some op ∧
  let l := run_loop cw_sounds [Sweeps UnreadSweep; Sweeps FilesSweep; Reports 3 no_answer; Sweeps FilesSweep] (op_loop op) in
  (List.filter is_sweep (lp_flight l), lp_sweeps l, f_catchup_busy (lp_window l).1) = ([], [], false).
Proof. eexists. split; [vm_compute; reflexivity|]. vm_compute. reflexivity. Qed.

(** Contacts that cannot be read when the sweep for files begins: its flag goes
    up, and no worker takes it back. *)
Example sweep_leaves_flag : ∃ op,
  opening = Some op ∧
  let es := [Sweeps UnreadSweep; Reports 3 no_answer; Handler (write_contacts [("x", JNull)]); Sweeps FilesSweep] in
  let l := run_loop cw_sounds es (op_loop op) in
  (List.filter is_sweep (lp_flight l), broken cw_sounds es (op_loop op), f_catchup_busy (lp_window l).1) = ([], 1%nat, true).
Proof. eexists. split; [vm_compute; reflexivity|]. vm_compute. reflexivity. Qed.

(** Cancel in the dialog of the away message makes one available. *)
Example cancel_ends_away :
  let g := Gui cw_store (Client bob "bo" None) "n0" cw_world (set_prefs [("away", JStr "lunch")] cw_view) in
  let '(r, (_, g')) := on_set_away None (no_flags, g) in
  (match r with Ok (WStatus _ away _) => away | _ => JStr "lunch" end, v_prefs (g_view g')) = (JNull, [("away", JStr "")]).
Proof. vm_compute. reflexivity. Qed.
End WorkersWitness.
