(* ===== verification/Supervise.v ===== *)
(** * gtkui.py: the daemon's supervisor

    [DaemonSupervisor], over the local daemon or over the SSH tunnel, and the
    functions that find, stop and restart daemon processes.  The machine is
    that of the tunnel's file: files, processes, clock, daemon. *)

From S2P Require Import Prelude PyStr Codec Json Sys Paths Logging DaemonClient Tunnel.
From Stdlib Require Import Ascii.
Local Open Scope Z_scope.

(** [os.path.normpath(p)] of an absolute path (a leading [//] is kept by
    Python and collapsed here), [os.path.abspath(p)]. *)
Definition norm_step (acc : list string) (part : string) : list string :=
  if bool_decide (part = "") || bool_decide (part = ".") then acc
  else if bool_decide (part = "..") then List.tl acc
  else part :: acc.
Definition normpath (p : string) : string :=
  "/" +:+ join "/" (List.rev (foldl norm_step [] (split_on "/" p))).
Definition abspath (cwd p : string) : string := normpath (path_join cwd p).

(** [DaemonSupervisor.__init__] *)
Record dsup := DSup {
  ds_remote : option remote;               (* [external] when it is set *)
  ds_tunnel : option supervisor;
  ds_datadir : option string;
  ds_sock : string;
  ds_child : option child;
}.
Definition external (d : dsup) : bool := match ds_remote d with Some _ => true | None => false end.
Definition with_child (c : option child) (d : dsup) : dsup :=
  DSup (ds_remote d) (ds_tunnel d) (ds_datadir d) (ds_sock d) c.
Definition with_tunnel (t : supervisor) (d : dsup) : dsup :=
  DSup (ds_remote d) (Some t) (ds_datadir d) (ds_sock d) (ds_child d).

Section Processes.
Context `{J : JsonCodec} `{D : Daemon} `{E : !Env}.

(** Programs that run on the machine. *)
Definition OM (A : Type) : Type := M os A.
Definition om_world {A} (m : IO A) : OM A := λ o,
  let '(r, w) := m (o_world o) in (r, set_world w o).
Definition om_path (f : gmap string string → string → string) : OM string :=
  gets (λ o, f (w_env (o_world o)) (w_home (o_world o))).
Definition om_time : OM Z := gets (λ o, w_now (o_world o)).
Definition om_sleep (ms : Z) : OM unit := modify (pass ms).
Definition om_kill (pid : Z) (sig : signal) : OM unit :=
  try_with is_os_error (os_kill pid sig) (λ _, mret tt).

Definition new_dsup : OM dsup :=
  r ← om_world remote_config;
  sock ← om_world client_socket;
  datadir ← om_path daemon_dir;
  mret (DSup r (new_supervisor <$> r) (match r with Some _ => None | None => Some datadir end) sock None).

Definition pid_alive (pid : Z) : OM bool :=
  try_with is_os_error (_ ← os_kill pid SIG0; mret true) (λ _, mret false).

Definition read_pid (path : string) : OM (option Z) :=
  try_with is_exception
    (content ← om_world (read_file path);
     Some <$> lift (text ← utf8_decode content; py_int (strip text)))
    (λ _, mret None).

(** [int(j)] of a value read from JSON *)
Definition int_of_json (j : json) : result Z :=
  match j with
  | JStr s => py_int s
  | _ => of_option TypeError (json_int j)
  end.

Definition daemon_pid_from_socket : OM (option Z) :=
  try_with is_exception
    (sock ← om_world client_socket;
     _ ← om_world (connect sock);
     who ← om_world (request "whoami" []);
     pid ← lift (get_or "pid" (JInt 0) who ≫= int_of_json);
     mret (if pid =? 0 then None else Some pid))
    (λ _, mret None).

(** [int(entry)] for the entries of [/proc], in the order the kernel lists
    them, here that of the table. *)
Definition is_our_daemon (target legacy : string) (cmdline : list string) : bool :=
  match cmdline with
  | [] => false
  | name :: _ =>
    startswith "aimlessd" (basename name) &&
    (if bool_decide ("-datadir" ∈ cmdline) then bool_decide (target ∈ cmdline)
     else bool_decide (target = legacy))
  end.
Definition daemon_pid_from_procs : OM (option Z) :=
  target ← om_path daemon_dir;
  legacy ← om_path (λ _ home, expanduser home "/.local/share/aimless/daemon");
  gets (λ o, fst <$> List.find (λ p : Z * proc, is_our_daemon target legacy (_cmdline p.1 o))
                       (map_to_list (o_procs o))).

(** [shutil.which(name)]: the first executable file of that name on [PATH], a
    list of directories that may be empty. *)
Definition executable (m : fs) (p : string) : bool :=
  match m !! p with Some f => Z.testbit (f_mode f) 6 | None => false end.
Definition which (name : string) : OM (option string) := gets (λ o,
  let w := o_world o in
  let path := env_or (w_env w) "PATH" "/bin:/usr/bin" in
  if bool_decide (path = "") then None
  else List.find (executable (w_fs w)) ((λ d, path_join d name) <$> split_on ":" path)).

(** [cwd] is the working directory, [argv0] is [sys.argv[0]]. *)
Definition daemon_binary (cwd argv0 : string) : OM (option string) :=
  local_bin ← om_path (λ _ home, expanduser home "/.local/bin");
  let dirs := List.filter (λ d, negb (bool_decide (d = "")))
                (dirname (abspath cwd argv0) :: cwd :: [local_bin]) in
  let places := concat ((λ d, [path_join d "aimlessd"; path_join d "aimlessd-linux-amd64"]) <$> dirs) in
  found ← gets (λ o, List.find (λ p, fs_exists p (w_fs (o_world o))) places);
  match found with Some p => mret (Some p) | None => which "aimlessd" end.

(** ** The supervisor's methods *)

Definition SM (A : Type) : Type := M (dsup * os) A.
Definition on_os {A} (m : OM A) : SM A := λ '(d, o), let '(r, o) := m o in (r, (d, o)).
Definition sup {A} (f : dsup → A) : SM A := gets (λ s, f s.1).
(** A method of [self.tunnel]; [None] has none. *)
Definition on_tunnel {A} (m : TM A) : SM A := λ '(d, o),
  match ds_tunnel d with
  | Some t => let '(r, (t, o)) := m (t, o) in (r, (with_tunnel t d, o))
  | None => (Raise AttributeError, (d, o))
  end.
(** The [log] argument of the methods. *)
Definition logger : Type := string → IO unit.
Definition say (log : logger) (line : string) : SM unit := on_os (om_world (log line)).

Definition reaches (sock : string) : OM bool :=
  try_with is_exception (_ ← om_world (connect sock); mret true) (λ _, mret false).

End Processes.

Module Sup.
Section Sup.
Context `{J : JsonCodec} `{D : Daemon} `{E : !Env}.
Context (cwd argv0 : string).

Definition is_running : SM bool := sock ← sup ds_sock; on_os (reaches sock).

Definition _reachable : SM bool :=
  sock ← sup ds_sock;
  on_os (try_with is_exception
    (_ ← om_world (connect sock); _ ← om_world (request "whoami" []); mret true) (λ _, mret false)).

Definition _local_daemon_running : SM bool :=
  dir ← on_os (om_path daemon_dir);
  let local := path_join dir "api.sock" in
  sock ← sup ds_sock;
  if bool_decide (abspath cwd local = abspath cwd sock) then mret false
  else on_os (reaches local).

Definition tunnel_state : SM (option (list (string * json))) :=
  t ← sup ds_tunnel;
  match t with Some _ => Some <$> on_tunnel Tunnel.state | None => mret None end.

Definition status_of (who st : json) : result (list (string * json)) :=
  peers ← get_or "peers" (JArr []) st ≫= as_list;
  ups ← map_result (λ p, jget "up" p) peers;
  address ← get_or "address" (JStr "") who;
  key ← get_or "key" (JStr "") who;
  build ← get_or "build" (JStr "") st;
  mtu ← get_or "mtu" (JInt 0) st;
  Ok [("address", address); ("pubkey", key);
      ("peers_up", JInt (Z.of_nat (length (List.filter (λ u, default false (truthy <$> u)) ups))));
      ("peers_total", JInt (Z.of_nat (length peers))); ("build", build); ("mtu", mtu)].
Definition status : SM (option (list (string * json))) :=
  sock ← sup ds_sock;
  on_os (try_with is_exception
    (_ ← om_world (connect sock);
     who ← om_world (request "whoami" []);
     st ← om_world (request "status" []);
     Some <$> lift (status_of who st))
    (λ _, mret None)).

Definition spawn : SM Z :=
  d ← sup id;
  if external d then raise (RuntimeError "external daemon mode - not spawning a local aimlessd")
  else
    binary ← on_os (daemon_binary cwd argv0);
    match binary with
    | None => raise (RuntimeError ("aimlessd not found - put aimlessd-linux-amd64 (or aimlessd) next to "
                                   +:+ "aimless.pyz, or add it to PATH"))
    | Some binary =>
      log_path ← on_os (om_path daemon_log_path);
      _ ← on_os (try_with is_os_error (om_world (append_file log_path [])) (λ _, mret tt));
      c ← on_os (start_process [binary; "-datadir"; default "" (ds_datadir d); "-api"; ds_sock d]);
      _ ← modify (λ s, (with_child (Some c) s.1, s.2));
      pid_path ← on_os (om_path daemon_pid_path);
      _ ← on_os (try_with is_exception
            (om_world (write_file pid_path (utf8_encode (str_of_int (ch_pid c))))) (λ _, mret tt));
      mret (ch_pid c)
    end.

(** [self.child and self.child.poll() is not None] *)
Definition child_exited : SM bool := λ '(d, o),
  match ds_child d with
  | Some c => let '(exited, (c, o)) := poll c o in (Ok exited, (with_child (Some c) d, o))
  | None => (Ok false, (d, o))
  end.

(** The wait for the remote daemon, and for the local one just started. *)
Fixpoint await_remote (fuel : nat) (deadline : Z) : SM bool :=
  match fuel with
  | O => raise (RuntimeError "out of fuel")
  | S fuel =>
    now ← on_os om_time;
    if now <? deadline then
      up ← _reachable;
      if up : bool then mret true else _ ← on_os (om_sleep 200); await_remote fuel deadline
    else mret false
  end.
Fixpoint await_local (fuel : nat) (log : logger) (deadline : Z) : SM bool :=
  match fuel with
  | O => raise (RuntimeError "out of fuel")
  | S fuel =>
    now ← on_os om_time;
    if now <? deadline then
      up ← is_running;
      if up : bool then _ ← say log "daemon running"; mret true
      else
        exited ← child_exited;
        if exited : bool then
          root ← on_os (om_path root);
          raise (RuntimeError ("aimlessd exited immediately (check " +:+ root +:+ ")"))
        else _ ← on_os (om_sleep 200); await_local fuel log deadline
    else raise (RuntimeError "daemon did not come up within 20s")
  end.

Definition ensure (log : logger) : SM bool :=
  d ← sup id;
  if external d then
    conflict ← _local_daemon_running;
    if conflict : bool then
      dir ← on_os (om_path daemon_dir);
      raise (RuntimeError ("a local aimlessd is running at " +:+ path_join dir "api.sock"
                           +:+ " - run `aimless stop` before using the remote daemon"))
    else
      up ← on_tunnel (Tunnel.ensure (λ l, on_world (log l)));
      t ← on_tunnel self_;
      if negb up then
        raise (RuntimeError ("could not start the SSH tunnel to " +:+ host t
                +:+ (if bool_decide (last_error t = "") then "" else " (" +:+ last_error t +:+ ")")))
      else
        now ← on_os om_time;
        ready ← await_remote (rounds 10000 200) (now + 10000);
        if ready : bool then _ ← say log ("remote daemon ready (" +:+ host t +:+ ")"); mret true
        else raise (RuntimeError ("remote daemon not reachable through the tunnel (" +:+ host t +:+ ")"))
  else
    up ← is_running;
    if up : bool then mret true
    else
      _ ← say log "starting aimlessd …";
      _ ← spawn;
      now ← on_os om_time;
      await_local (rounds 20000 200) log (now + 20000).

Definition or_else (pid : option Z) (m : SM (option Z)) : SM (option Z) :=
  match pid with Some p => mret (Some p) | None => m end.

Fixpoint await_stop (fuel : nat) (deadline : Z) : SM bool :=
  match fuel with
  | O => raise (RuntimeError "out of fuel")
  | S fuel =>
    now ← on_os om_time;
    if now <? deadline then
      up ← is_running;
      if up : bool then _ ← on_os (om_sleep 200); await_stop fuel deadline else mret true
    else mret false
  end.

Definition stop : SM unit :=
  d ← sup id;
  if external d then
    match ds_tunnel d with Some _ => on_tunnel Tunnel.stop | None => mret tt end
  else
    pid ← on_os daemon_pid_from_socket;
    pid ← or_else pid (path ← on_os (om_path daemon_pid_path); on_os (read_pid path));
    pid ← or_else pid (mret (ch_pid <$> ds_child d));
    pid ← or_else pid (on_os daemon_pid_from_procs);
    let target := match pid with Some p => if p =? 0 then None else Some p | None => None end in
    _ ← match target with Some p => on_os (om_kill p SIGTERM) | None => mret tt end;
    now ← on_os om_time;
    stopped ← await_stop (rounds 5000 200) (now + 5000);
    _ ← match target with
        | Some p =>
          if stopped : bool then mret tt
          else _ ← on_os (om_kill p SIGKILL); on_os (om_sleep 500)
        | None => mret tt
        end;
    path ← on_os (om_path daemon_pid_path);
    on_os (om_world (remove_file path)).

(** [restart_daemon]: both waits are counted rounds of 100 ms. *)
Fixpoint wait_while (up : bool) (n : nat) : SM unit :=
  match n with
  | O => mret tt
  | S n =>
    now_up ← is_running;
    if Bool.eqb now_up up then _ ← on_os (om_sleep 100); wait_while up n else mret tt
  end.
Definition restart_daemon (log : logger) : SM unit :=
  _ ← try_with is_exception stop (λ _, mret tt);
  _ ← wait_while true 50;
  _ ← try_with is_exception (_ ← ensure log; mret tt) (λ _, mret tt);
  wait_while false 150.
End Sup.
End Sup.
