(* ===== verification/App.v ===== *)
(** * gtkui.py: the application's main loop

    [AimlessApp]: the first connection, the tunnel's monitor, the daemon's
    monitor, the heartbeat, quitting.  What GLib keeps (timers, idle
    callbacks of worker threads) and the worker threads still running are the
    [source]s of the state; [fire] runs one. *)

From S2P Require Import Prelude PyStr Codec Json Sys Paths Logging Crypto Protocol DaemonClient Tunnel Supervise.
From Stdlib Require Import Ascii.
Local Open Scope Z_scope.

Inductive source :=
| Probe                                  (* every 20 s: [probe_tunnel] *)
| Confirm                                (* in 1 s: [_confirm_tunnel] *)
| Restart                                (* after the backoff: [_do_tunnel_restart] *)
| Poll                                   (* every 5 s: [poll] *)
| Heartbeat                              (* every 10 s: [heartbeat] *)
| MaybeShow                              (* in 1 s: [_maybe_show_connect] *)
| Retry                                  (* in 3 s: [_retry_connect] *)
| ConnectWork                            (* the worker thread of [_try_connect] *)
| ConnectDone (err : option string)      (* its [done], waiting in the main loop *)
| Beat                                   (* the worker thread of [heartbeat] *)
| Rewatch (nodes : list json).           (* the worker thread of [rewatch] *)

#[export] Instance source_eq_dec : EqDecision source.
Proof. solve_decision. Defined.

Section App.
Context `{N : NaCl} `{J : JsonCodec} `{D : Daemon} `{E : !Env} `{L : Locale}.
Context (cwd argv0 : string).

Record app := App {
  a_sup : dsup;
  a_os : os;
  a_session : option client;
  a_window : bool;
  a_tray : bool;                           (* [tray.have_tray] *)
  a_quitting : bool;
  a_tunnel_fail : Z;
  a_restarting : bool;                     (* [_tunnel_restarting] *)
  a_down_logged : bool;                    (* [_daemon_down_logged] *)
  a_awaiting : bool;                       (* [_awaiting_connect] *)
  a_connect_busy : bool;
  a_connect_show : bool;
  a_connect_state : string * string;
  a_connect_window : bool;
  a_sources : list source;
  a_refreshes : nat;                       (* calls of the window's [poll_status] *)
  a_opens : nat;                           (* calls of [open_window] that build one *)
}.

Definition set_sup d a := App d (a_os a) (a_session a) (a_window a) (a_tray a) (a_quitting a) (a_tunnel_fail a)
  (a_restarting a) (a_down_logged a) (a_awaiting a) (a_connect_busy a) (a_connect_show a) (a_connect_state a)
  (a_connect_window a) (a_sources a) (a_refreshes a) (a_opens a).
Definition set_os o a := App (a_sup a) o (a_session a) (a_window a) (a_tray a) (a_quitting a) (a_tunnel_fail a)
  (a_restarting a) (a_down_logged a) (a_awaiting a) (a_connect_busy a) (a_connect_show a) (a_connect_state a)
  (a_connect_window a) (a_sources a) (a_refreshes a) (a_opens a).
Definition set_quitting b a := App (a_sup a) (a_os a) (a_session a) (a_window a) (a_tray a) b (a_tunnel_fail a)
  (a_restarting a) (a_down_logged a) (a_awaiting a) (a_connect_busy a) (a_connect_show a) (a_connect_state a)
  (a_connect_window a) (a_sources a) (a_refreshes a) (a_opens a).
(** The monitor: failures counted, a restart under way, the report made. *)
Definition set_monitor fail restarting logged a := App (a_sup a) (a_os a) (a_session a) (a_window a) (a_tray a)
  (a_quitting a) fail restarting logged (a_awaiting a) (a_connect_busy a) (a_connect_show a)
  (a_connect_state a) (a_connect_window a) (a_sources a) (a_refreshes a) (a_opens a).
Definition set_connect awaiting busy show st win a := App (a_sup a) (a_os a) (a_session a) (a_window a)
  (a_tray a) (a_quitting a) (a_tunnel_fail a) (a_restarting a) (a_down_logged a) awaiting busy show st win
  (a_sources a) (a_refreshes a) (a_opens a).
Definition set_sources l a := App (a_sup a) (a_os a) (a_session a) (a_window a) (a_tray a) (a_quitting a)
  (a_tunnel_fail a) (a_restarting a) (a_down_logged a) (a_awaiting a) (a_connect_busy a) (a_connect_show a)
  (a_connect_state a) (a_connect_window a) l (a_refreshes a) (a_opens a).
Definition set_windows refreshes opens a := App (a_sup a) (a_os a) (a_session a) (a_window a) (a_tray a)
  (a_quitting a) (a_tunnel_fail a) (a_restarting a) (a_down_logged a) (a_awaiting a) (a_connect_busy a)
  (a_connect_show a) (a_connect_state a) (a_connect_window a) (a_sources a) refreshes opens.

Definition AM (A : Type) : Type := M app A.
Definition own {A} (f : app → A) : AM A := gets f.
Definition on_sup {A} (m : SM A) : AM A := λ a,
  let '(r, (d, o)) := m (a_sup a, a_os a) in (r, set_os o (set_sup d a)).
Definition tunnel {A} (m : TM A) : AM A := on_sup (on_tunnel m).

(** [self.log], and the writer handed to the supervisor's methods *)
Definition app_logger : logger := λ line,
  env ← gets w_env; home ← gets w_home; log_fn (app_log_path env home) MAX_LOG_BYTES line.
Definition log (line : string) : AM unit := on_sup (say app_logger line).

(** [GLib.timeout_add...], [GLib.idle_add], [Thread.start] *)
Definition add_source (s : source) : AM unit := modify (λ a, set_sources (a_sources a ++ [s]) a).

Definition poll_status : AM unit := modify (λ a,
  if a_window a then set_windows (S (a_refreshes a)) (a_opens a) a else a).

(** A window is built only when none is open or announced. *)
Definition open_window : AM unit := modify (λ a,
  if a_awaiting a || a_window a then a else set_windows (a_refreshes a) (S (a_opens a)) a).

Definition rewatch : AM unit :=
  session ← own a_session;
  match session with
  | None => mret tt
  | Some _ =>
    contacts ← on_sup (on_os (om_world (
      env ← gets w_env; home ← gets w_home; load_contacts (contacts_path env home))));
    d ← lift (match contacts with JObj d => Ok d | _ => Raise AttributeError end);
    add_source (Rewatch (List.filter (λ kv : string * json, negb (bool_decide (kv.1 = "_self"))) d).*2)
  end.
Definition rewatch_worker (c : client) (nodes : list json) : CL unit :=
  for_each (λ info, try_with is_exception
    (node ← lift (jindex "node" info ≫= as_str); _ ← add_contact node; mret tt) (λ _, mret tt)) nodes.

(** ** The first connection *)

Definition _set_connect_state (ssh daemon : string) : AM unit := modify (λ a,
  set_connect (a_awaiting a) (a_connect_busy a) (a_connect_show a) (ssh, daemon) (a_connect_window a) a).

Definition _try_connect : AM unit :=
  a ← own id;
  if negb (a_awaiting a) || a_connect_busy a then mret tt
  else
    _ ← modify (λ a, set_connect (a_awaiting a) true (a_connect_show a) (a_connect_state a) (a_connect_window a) a);
    _ ← _set_connect_state "connecting" "waiting";
    add_source ConnectWork.

(** The worker: a [RuntimeError] is its answer, any other exception reaches
    [on_error]. *)
Definition connect_worker : AM (option string) :=
  try_with is_exception (_ ← on_sup (Sup.ensure cwd argv0 app_logger); mret None)
    (λ e, mret (Some (match e with RuntimeError m => m | _ => "error" end))).

Definition _on_connected : AM unit :=
  _ ← modify (λ a, set_connect false (a_connect_busy a) (a_connect_show a) (a_connect_state a) (a_connect_window a) a);
  _ ← _set_connect_state "connected" "connected";
  _ ← modify (λ a, set_connect (a_awaiting a) (a_connect_busy a) (a_connect_show a) (a_connect_state a) false a);
  t ← tunnel self_;
  _ ← log ("connected to remote daemon (" +:+ host t +:+ ")");
  a ← own id;
  if a_connect_show a || negb (a_tray a) then open_window else mret tt.

Definition connect_done (err : option string) : AM unit :=
  _ ← modify (λ a, set_connect (a_awaiting a) false (a_connect_show a) (a_connect_state a) (a_connect_window a) a);
  a ← own id;
  if negb (a_awaiting a) then mret tt
  else
    ready ← match err with None => on_sup Sup._reachable | Some _ => mret false end;
    if ready : bool then _on_connected
    else
      ssh_ok ← tunnel is_running;
      _ ← _set_connect_state (if ssh_ok : bool then "connected" else "failed")
                             (if ssh_ok then "unreachable" else "waiting");
      add_source Retry.

Definition _retry_connect : AM unit :=
  a ← own id; if a_awaiting a then _try_connect else mret tt.

Definition _maybe_show_connect : AM unit := modify (λ a,
  if a_awaiting a && negb (a_connect_window a)
  then set_connect (a_awaiting a) (a_connect_busy a) (a_connect_show a) (a_connect_state a) true a else a).

Definition _begin_connect (show_window : bool) : AM unit :=
  _ ← modify (λ a, set_connect true false show_window (a_connect_state a) (a_connect_window a) a);
  _ ← _try_connect;
  if show_window then add_source MaybeShow else mret tt.

(** ** The tunnel's monitor *)

Definition _schedule_tunnel_restart : AM unit :=
  a ← own id;
  if a_restarting a || a_quitting a then mret tt
  else
    _ ← modify (λ a, set_monitor (a_tunnel_fail a) true (a_down_logged a) a);
    delay ← tunnel (λ s, let '(n, t) := next_backoff s.1 in (Ok n, (t, s.2)));
    t ← tunnel self_;
    _ ← log ("tunnel: restarting in " +:+ str_of_int delay +:+ "s (" +:+ host t +:+ ")");
    add_source Restart.

Definition set_fail (n : Z) : AM unit := modify (λ a, set_monitor n (a_restarting a) (a_down_logged a) a).
Definition set_logged (b : bool) : AM unit := modify (λ a, set_monitor (a_tunnel_fail a) (a_restarting a) b a).

(** A callback's answer: whether its source stays. *)
Definition probe_tunnel : AM bool :=
  a ← own id;
  if a_quitting a || negb (external (a_sup a)) || a_awaiting a then mret false
  else if a_restarting a then mret true
  else
    up ← tunnel is_running;
    if negb up then
      _ ← set_fail (a_tunnel_fail a + 1);
      _ ← (if a_tunnel_fail a + 1 =? 1 then
             _ ← log "tunnel: down (1/2) - confirming"; add_source Confirm
           else _ ← set_fail 0; _schedule_tunnel_restart);
      mret true
    else
      ok ← tunnel probe;
      if ok : bool then
        _ ← (if negb (a_tunnel_fail a =? 0) then log "tunnel: healthy again" else mret tt);
        _ ← set_fail 0;
        _ ← (if a_down_logged a then
               _ ← set_logged false; log "remote daemon reachable again" else mret tt);
        mret true
      else
        _ ← set_fail 0;
        t ← tunnel self_;
        _ ← (if negb (a_down_logged a) then
               _ ← set_logged true;
               log ("tunnel: up, but remote daemon unreachable (" +:+ host t +:+ ")") else mret tt);
        _ ← poll_status;
        mret true.

Definition _confirm_tunnel : AM bool :=
  a ← own id;
  if a_quitting a || a_restarting a then mret false
  else
    up ← tunnel is_running;
    _ ← set_fail 0;
    _ ← (if up : bool then log "tunnel: recovered" else _schedule_tunnel_restart);
    mret false.

Definition _do_tunnel_restart : AM bool :=
  a ← own id;
  if a_quitting a then
    _ ← modify (λ a, set_monitor (a_tunnel_fail a) false (a_down_logged a) a); mret false
  else
    ok ← tunnel (restart (λ l, on_world (app_logger l)));
    _ ← modify (λ a, set_monitor (a_tunnel_fail a) false (a_down_logged a) a);
    _ ← (if ok : bool then _ ← tunnel (update reset_backoff); rewatch else _schedule_tunnel_restart);
    _ ← poll_status;
    mret false.

(** ** The daemon's monitor, the heartbeat, the end *)

Definition poll : AM bool :=
  a ← own id;
  if a_quitting a then mret false
  else if external (a_sup a) then
    if a_awaiting a then mret true
    else
      match ds_tunnel (a_sup a) with
      | Some _ =>
        if a_restarting a then mret true
        else
          up ← tunnel is_running;
          _ ← (if negb up then
                 _ ← log "tunnel: ssh process gone - restarting"; _schedule_tunnel_restart else mret tt);
          mret true
      | None => mret true
      end
  else
    up ← on_sup Sup.is_running;
    if up : bool then mret true
    else
      _ ← log "aimlessd died - restarting";
      failed ← try_with (λ e, match e with RuntimeError _ => true | _ => false end)
        (_ ← on_sup (Sup.ensure cwd argv0 app_logger); mret false)
        (λ e, _ ← log ("restart failed: " +:+ exn_str e); mret true);
      if failed : bool then mret true else _ ← rewatch; mret true.

Definition heartbeat : AM bool :=
  a ← own id;
  if a_quitting a then mret false else _ ← add_source Beat; mret true.
Definition beat : SM unit :=
  on_os (try_with is_exception
    (sock ← om_world client_socket; _ ← om_world (connect sock); _ ← om_world (request "whoami" []); mret tt)
    (λ _, mret tt)).

(** [quit], the window's geometry and the lock's handle aside *)
Definition quit : AM unit :=
  a ← own id;
  if a_quitting a then mret tt
  else
    _ ← modify (set_quitting true);
    _ ← modify (λ a, set_connect false (a_connect_busy a) (a_connect_show a) (a_connect_state a) (a_connect_window a) a);
    _ ← log "shutting down - stopping aimlessd";
    _ ← try_with is_exception (on_sup Sup.stop) (λ _, mret tt);
    on_sup (on_os (path ← om_path app_pid_path; om_world (remove_file path))).

(** ** The main loop *)

Definition once (m : AM unit) : AM bool := _ ← m; mret false.
Definition callback (s : source) : AM bool :=
  match s with
  | Probe => probe_tunnel
  | Confirm => _confirm_tunnel
  | Restart => _do_tunnel_restart
  | Poll => poll
  | Heartbeat => heartbeat
  | MaybeShow => once _maybe_show_connect
  | Retry => once _retry_connect
  | ConnectWork => once (err ← connect_worker; add_source (ConnectDone err))
  | ConnectDone err => once (connect_done err)
  | Beat => once (on_sup beat)
  | Rewatch nodes => once (
      session ← own a_session;
      match session with
      | Some c => on_sup (on_os (om_world (λ w,
          let '(r, (_, w)) := rewatch_worker c nodes (c, w) in (r, w))))
      | None => mret tt
      end)
  end.

(** The first occurrence of [s] goes. *)
Fixpoint remove_source (s : source) (l : list source) : list source :=
  match l with
  | [] => []
  | s' :: l => if decide (s = s') then l else s' :: remove_source s l
  end.

(** GLib runs a source and drops it unless it answered true; PyGObject prints
    an exception and counts it as false. *)
Definition fire (s : source) (a : app) : app :=
  match callback s a with
  | (Ok true, a) => a
  | (_, a) => set_sources (remove_source s (a_sources a)) a
  end.

(** One move of the whole: a source runs, the user quits or asks for the
    window, time passes. *)
Inductive move :=
| MFire (s : source)
| MQuit
| MOpen
| MPass (ms : Z).

Definition run_move (m : move) (a : app) : app :=
  match m with
  | MFire s => if decide (s ∈ a_sources a) then fire s a else a
  | MQuit => (quit a).2
  | MOpen => (open_window a).2
  | MPass ms => set_os (pass (Z.max 0 ms) (a_os a)) a
  end.

(** The application as [_setup] leaves it once it runs, in remote mode. *)
Definition started (d : dsup) (o : os) (session : option client) (tray show : bool) : app :=
  let a := App d o session false tray false 0 false false false false false ("connecting", "waiting") false
             [] 0 0 in
  let a := (_begin_connect show a).2 in
  set_sources (a_sources a ++ [Poll; Heartbeat; Probe]) a.
End App.
