(* ===== verification/Startup.v ===== *)
(** * gtkui.py: opening the session, unlocking, one instance, autostart, stop

    [Session.__init__] on whatever the cache file holds, and whether or not a
    refused file can be set aside; [_open_window_unlocked]
    with what the user does in its dialogs as a list of forms; the lock of the
    running application; [install_autostart]; [stop_all]. *)

From S2P Require Import Prelude PyStr Codec Json Sys Paths Logging Crypto Protocol Keys Store DaemonClient Service Tunnel Cli Desktop View Transfers Conversations Supervise App.
From Stdlib Require Import Ascii.
Local Open Scope Z_scope.

(** ** The session *)

(** What is at [cache_path()]: nothing, a database, or something SQLite or the
    store refuses. *)
Inductive cache_file := NoCache | Database (d : db) | Garbage.

(** A dialog closed with a button, and what was typed in its entries. *)
Inductive button := Cancel | OK | Apply.
Record form := Form { pressed : button; typed : list string }.
Definition entry (i : nat) (f : form) : string := nth i (typed f) "".

Section Startup.
Context `{N : NaCl} `{J : JsonCodec} `{D : Daemon} `{E : !Env} `{L : Locale}.
Context (cwd argv0 : string).

Record start := Start {
  st_sup : dsup;
  st_os : os;
  st_cache : cache_file;
  st_bad : list cache_file;                (* renamed to [.bad], last first *)
  st_movable : bool;                       (* whether the cache may be renamed *)
  st_draws : nat;
  st_pass : option string;                 (* [app.passphrase] *)
  st_embedded : bool;                      (* a tray icon is on display *)
  st_forms : list form;                    (* the dialogs still to come *)
  st_errors : list string;                 (* the error dialogs, last first *)
}.
Definition set_machine d o s := Start d o (st_cache s) (st_bad s) (st_movable s) (st_draws s) (st_pass s)
  (st_embedded s) (st_forms s) (st_errors s).
Definition set_cache c bad n s := Start (st_sup s) (st_os s) c bad (st_movable s) n (st_pass s) (st_embedded s)
  (st_forms s) (st_errors s).
Definition set_pass p s := Start (st_sup s) (st_os s) (st_cache s) (st_bad s) (st_movable s) (st_draws s) p (st_embedded s)
  (st_forms s) (st_errors s).
Definition set_forms l s := Start (st_sup s) (st_os s) (st_cache s) (st_bad s) (st_movable s) (st_draws s) (st_pass s)
  (st_embedded s) l (st_errors s).
Definition set_errors l s := Start (st_sup s) (st_os s) (st_cache s) (st_bad s) (st_movable s) (st_draws s) (st_pass s)
  (st_embedded s) (st_forms s) l.

Definition UM (A : Type) : Type := M start A.
Definition um_sup {A} (m : SM A) : UM A := λ s,
  let '(r, (d, o)) := m (st_sup s, st_os s) in (r, set_machine d o s).
Definition um_os {A} (m : OM A) : UM A := um_sup (on_os m).
Definition um_io {A} (m : IO A) : UM A := um_os (om_world m).
Definition um_log (line : string) : UM unit := um_sup (say app_logger line).

(** [Store(cache_path(), passphrase)] *)
Definition open_cache (passphrase : string) : UM store := λ s,
  match (match st_cache s with
         | NoCache => open_store empty_db (st_draws s) passphrase
         | Database d => open_store d (st_draws s) passphrase
         | Garbage => Raise SqlError
         end) with
  | Ok st => (Ok st, set_cache (Database (s_saved st)) (st_bad s) (s_rng st) s)
  | Raise e => (Raise e, s)
  end.
(** [os.replace(cache_path(), cache_path() + ".bad")]; its [OSError], of no file
    or of one that may not be renamed, is passed over. *)
Definition discard_cache : UM unit := modify (λ s,
  match st_cache s with
  | NoCache => s
  | c => if st_movable s then set_cache NoCache (c :: st_bad s) (st_draws s) s else s
  end).
Definition store_or_recover (passphrase : string) : UM (store * option string) :=
  try_with is_exception (st ← open_cache passphrase; mret (st, None))
    (λ e, _ ← discard_cache;
          st ← open_cache passphrase;
          mret (st, Some ("corrupted state recovered as .bad (" +:+ exn_str e +:+ ")"))).

(** The rest of [__init__] runs on the store, the client and the machine. *)
Definition on_session {A} (st : store) (c : client) (m : GUI A) : UM (A * gui) := λ s,
  let o := st_os s in
  let '(r, g) := m (Gui st c "" (o_world o) empty_view) in
  (r ≫= λ a, Ok (a, g),
   set_cache (Database (s_saved (g_store g))) (st_bad s) (s_rng (g_store g))
     (set_machine (st_sup s) (set_world (g_world g) o) s)).

Record opened := Opened { op_store : store; op_client : client; op_node : string; op_recovered : option string }.

Definition session_of (passphrase : string) : UM opened :=
  path ← um_os (om_path identity_path);
  identity ← um_io (load_identity path passphrase);
  '(st, recovered) ← store_or_recover passphrase;
  sock ← um_io client_socket;
  _ ← um_io (connect sock);
  '(_, g) ← on_session st (Client identity "" None) session_ready;
  cpath ← um_os (om_path contacts_path);
  contacts ← um_io (load_contacts cpath);
  screen ← lift (self_screen contacts);
  mret (Opened (g_store g) (Client identity screen None) (g_self_node g) recovered).

(** ** Dialogs *)

Definition next_form : UM form := λ s,
  match st_forms s with
  | f :: l => (Ok f, set_forms l s)
  | [] => (Ok (Form Cancel []), s)
  end.
Definition _error_dialog (text : string) : UM unit := modify (λ s, set_errors (text :: st_errors s) s).

(** [ask_secret]: cancelled, refused with an error, or a passphrase; without a
    parent window the error is not shown. *)
Inductive secret := NoSecret | Refused (why : string) | Secret (pw : string).
Definition secret_of (confirm : bool) (f : form) : secret :=
  let pw := entry 0 f in
  let conf := if confirm then entry 1 f else pw in
  match pressed f with
  | OK => if bool_decide (pw = "") then Refused "Passphrase must not be empty."
          else if bool_decide (pw = conf) then Secret pw else Refused "Passphrases do not match."
  | _ => NoSecret
  end.
Definition ask_secret (confirm : bool) : UM (option string) :=
  f ← next_form;
  mret (match secret_of confirm f with Secret pw => Some pw | _ => None end).
Definition ask_passphrase : UM (option string) :=
  f ← next_form;
  mret (match pressed f with
        | OK => if bool_decide (entry 0 f = "") then None else Some (entry 0 f)
        | _ => None
        end).
(** The tuple it returns, as a list. *)
Definition ask_create_identity : UM (option (list string)) :=
  f ← next_form;
  mret (match pressed f with
        | Apply => Some ["__import__"]
        | OK => if bool_decide (entry 0 f = "") then None
                else if bool_decide (entry 0 f = entry 1 f) then Some [entry 0 f; entry 2 f]
                else Some ["__mismatch__"]
        | Cancel => None
        end).

Definition _cancel_or_quit : UM unit :=
  embedded ← gets st_embedded;
  if embedded : bool then um_log "cancel - keeping app in the system tray"
  else um_log "cancel - no usable tray (headless/container) - nothing to show".

Definition is_import_error (e : exn) : bool :=
  match e with ValueError _ | OSError _ | KeyError _ => true | _ => false end.
Definition _import_backup_on_init : UM (option string) :=
  chosen ← next_form;
  match pressed chosen with
  | OK =>
    let path := entry 0 chosen in
    if bool_decide (path = "") then mret None
    else
      bundle_pw ← ask_secret false;
      match bundle_pw with
      | None => mret None
      | Some bundle_pw =>
        app_pw ← ask_secret true;
        match app_pw with
        | None => mret None
        | Some app_pw =>
          restored ← try_with is_import_error
            (_ ← um_io (restore_bundle path bundle_pw app_pw); mret true)
            (λ e, _ ← _error_dialog ("Import failed: " +:+ exn_str e); mret false);
          if negb restored then mret None
          else
            _ ← um_sup (Sup.restart_daemon cwd argv0 app_logger);
            up ← um_sup Sup.is_running;
            if negb up then
              _ ← _error_dialog ("Imported, but the daemon did not restart. " +:+ "Quit aimless and reopen.");
              mret None
            else
              _ ← um_log "imported identity from backup on the init screen";
              mret (Some app_pw)
        end
      end
  | _ => mret None
  end.

(** ** Unlocking *)

(** How a round of questions ends: with a session and its passphrase, with
    another round, or with nothing. *)
Inductive outcome := Unlocked (pw : string) (s : opened) | Again | Left.

(** [created[0]] decides, a passphrase like any other tuple's first part. *)
Definition create_round : UM outcome :=
  created ← ask_create_identity;
  match created with
  | None => _ ← _cancel_or_quit; mret Left
  | Some t =>
    if bool_decide (nth 0 t "" = "__import__") then
      imported ← _import_backup_on_init;
      match imported with
      | Some pw =>
        try_with (λ e, is_value_error e || is_os_error e)
          (s ← session_of pw; mret (Unlocked pw s))
          (λ e, _ ← _error_dialog ("imported identity could not be opened: " +:+ exn_str e); mret Again)
      | None => mret Again
      end
    else if bool_decide (nth 0 t "" = "__mismatch__") then
      _ ← _error_dialog "passphrases do not match - try again"; mret Again
    else
      match t with
      | [pw; screen] =>
        try_with is_os_error
          (_ ← um_io (create_identity pw screen); s ← session_of pw; mret (Unlocked pw s))
          (λ e, _ ← _error_dialog ("could not create identity: " +:+ exn_str e); mret Left)
      | _ => raise (ValueError "not enough values to unpack")
      end
  end.
Definition unlock_round : UM outcome :=
  pw ← ask_passphrase;
  match pw with
  | None => _ ← _cancel_or_quit; mret Left
  | Some pw =>
    try_with (λ e, is_value_error e || is_os_error e)
      (s ← session_of pw; mret (Unlocked pw s))
      (λ e, if is_value_error e
            then _ ← _error_dialog "wrong passphrase or corrupted identity - try again"; mret Again
            else _ ← _error_dialog ("daemon not reachable: " +:+ exn_str e +:+ newline
                                    +:+ "retry after starting aimless"); mret Left)
  end.
Fixpoint rounds_of (n : nat) (round : UM outcome) : UM (option (string * opened)) :=
  match n with
  | O => mret None
  | S n =>
    r ← round;
    match r with
    | Unlocked pw s => mret (Some (pw, s))
    | Again => rounds_of n round
    | Left => mret None
    end
  end.

(** The passphrase kept from an earlier window: the session it opens, or that
    the user is asked, or that the daemon does not answer. *)
Inductive kept_pass := KeptOpens (pw : string) (s : opened) | KeptAsk | KeptUnreachable (pw : string).
Definition try_kept : UM kept_pass :=
  kept ← gets st_pass;
  match kept with
  | None => mret KeptAsk
  | Some pw =>
    if bool_decide (pw = "") then mret KeptAsk
    else
      try_with (λ e, is_value_error e || is_os_error e)
        (s ← session_of pw; mret (KeptOpens pw s))
        (λ e, if is_value_error e then mret KeptAsk
              else _ ← um_log ("daemon unreachable during unlock (" +:+ exn_str e +:+ ") - retrying");
                   mret (KeptUnreachable pw))
  end.

(** The end: the passphrase is kept and [session.cache_recovered] looked at,
    which [None] has not. The session is what the window is built on. *)
Definition unlocked (pw : string) (s : option opened) : UM (option opened) :=
  _ ← modify (set_pass (Some pw));
  match s with
  | None => raise AttributeError
  | Some o =>
    _ ← (match op_recovered o with
         | Some r => um_log ("cache recovery: " +:+ r)
         | None => mret tt
         end);
    mret (Some o)
  end.
Definition unlocked_or_left (r : option (string * opened)) : UM (option opened) :=
  match r with Some (pw, s) => unlocked pw (Some s) | None => mret None end.

Definition _open_window_unlocked : UM (option opened) :=
  path ← um_os (om_path identity_path);
  there ← um_io (path_exists path);
  if negb there then r ← rounds_of 3 create_round; unlocked_or_left r
  else
    k ← try_kept;
    match k with
    | KeptOpens pw s => unlocked pw (Some s)
    | KeptUnreachable pw => unlocked pw None
    | KeptAsk => r ← rounds_of 3 unlock_round; unlocked_or_left r
    end.
End Startup.

(** ** One instance, autostart, stop *)

Section Processes.
Context `{J : JsonCodec} `{D : Daemon} `{E : !Env}.

(** [acquire_app_lock] by process [self], [locked] when another holds the
    lock: [None] when it is ours, the holder's number or -1 otherwise. *)
Definition acquire_app_lock (locked : bool) (self : Z) : OM (option Z) :=
  path ← om_path app_pid_path;
  _ ← om_world (append_file path []);
  if locked then
    holder ← read_pid path;
    mret (Some (match holder with Some p => if p =? 0 then -1 else p | None => -1 end))
  else
    _ ← om_world (write_file path (utf8_encode (str_of_int self)));
    mret None.

Definition desktop_entry (exec_line : string) : string :=
  join newline
    ["[Desktop Entry]"; "Type=Application"; "Name=AIMless";
     "Comment=AIMless tray + daemon - messages are received in the background";
     "Exec=" +:+ exec_line; "Icon=user-available"; "Categories=Network;InstantMessaging;";
     "X-GNOME-Autostart-enabled=true"; "X-XFCE-Autostart-Override=true"; "Hidden=false"; ""].
(** [python] is [sys.executable]. *)
Definition install_autostart (cwd argv0 python : string) : OM (option string) :=
  path ← om_path autostart_path;
  on_path ← which "aimless";
  local ← om_path (λ _ home, expanduser home "/.local/bin/aimless");
  let aimless_bin := default local on_path in
  there ← om_world (path_exists aimless_bin);
  local_dir ← om_path (λ _ home, expanduser home "/.local/bin");
  let places := (λ d, path_join d "aimless.pyz") <$> [dirname (abspath cwd argv0); cwd; local_dir] in
  pyz ← gets (λ o, List.find (λ p, fs_exists p (w_fs (o_world o))) places);
  let exec_line :=
    if there : bool then Some (aimless_bin +:+ " tray")
    else (λ p, python +:+ " " +:+ p +:+ " tray") <$> pyz in
  match exec_line with
  | None => mret None
  | Some line => _ ← om_world (write_file path (utf8_encode (desktop_entry line))); mret (Some path)
  end.

(** [stop_all], by process [self]; [pkill] is the program of that name. *)
Fixpoint await_gone (fuel : nat) (deadline pid : Z) : OM unit :=
  match fuel with
  | O => raise (RuntimeError "out of fuel")
  | S fuel =>
    now ← om_time;
    if now <? deadline then
      alive ← pid_alive pid;
      if alive : bool then _ ← om_sleep 100; await_gone fuel deadline pid else mret tt
    else mret tt
  end.
Definition nonzero (o : option Z) : option Z :=
  match o with Some p => if p =? 0 then None else Some p | None => None end.
Definition terminate (pid : Z) (what : string) : OM (list string) :=
  try_with is_os_error
    (_ ← os_kill pid SIGTERM; mret [what +:+ " (pid " +:+ str_of_int pid +:+ ")"]) (λ _, mret []).
Definition stop_app (self : Z) (pid : option Z) : OM (list string) :=
  match nonzero pid with
  | None => mret []
  | Some p =>
    if p =? self then mret []
    else
      alive ← pid_alive p;
      if alive : bool then
        stopped ← terminate p "app";
        now ← om_time;
        _ ← await_gone (rounds 10000 100) (now + 10000) p;
        mret stopped
      else mret []
  end.
Definition stop_legacy (pid : option Z) : OM (list string) :=
  run ← om_path run_dir;
  legacy ← read_pid (path_join run "tray.pid");
  match nonzero legacy with
  | None => mret []
  | Some p =>
    if bool_decide (pid = Some p) then mret []
    else
      alive ← pid_alive p;
      if alive : bool then terminate p "tray supervisor" else mret []
  end.
Definition stop_all (pkill : list string → OM unit) (self : Z) : OM (list string) :=
  path ← om_path app_pid_path;
  pid ← read_pid path;
  app ← stop_app self pid;
  legacy ← stop_legacy pid;
  run ← om_path run_dir;
  _ ← for_each (λ name, om_world (remove_file (path_join run name))) ["tray.pid"; "gui.pid"; "session.json"];
  d ← new_dsup;
  daemon ← (λ o, let '(r, (_, o)) :=
    (if external d then _ ← Sup.stop; mret ["remote tunnel"]
     else
       up ← Sup.is_running;
       stopped ← (if up : bool then _ ← Sup.stop; mret ["aimlessd"] else mret []);
       _ ← on_os (pkill ["-x"; "aimlessd"]);
       mret stopped : SM (list string)) (d, o) in (r, o));
  _ ← pkill ["-f"; "aimless.cli gui"];
  _ ← pkill ["-f"; "aimless.cli tray"];
  mret (app ++ legacy ++ daemon).
End Processes.
