(* ===== verification/Entry.v ===== *)
(** * How the client starts: cli.py's [main], gtkui.py's [AimlessApp._setup]

    The dispatch of the command line with the commands that need GTK, the
    start of the application up to its main loop, [open_window] in full, the
    tray icon's handlers, the signals and the connect window's text. A
    [boot] is the application ([App.v]) with what its dialogs and session need
    ([Startup.v]). *)

From S2P Require Import Prelude PyStr Codec Json Sys Paths Logging Crypto Protocol Keys Store DaemonClient Service Tunnel Cli Desktop Themes View Transfers Conversations Supervise App Startup.
From Stdlib Require Import Ascii.
Local Open Scope Z_scope.

(** ** The connect window *)

Section ConnectWindow.
Context `{Markup}.

(** [d.get(k, d[dflt])] *)
Definition get_entry {A} (k dflt : string) (l : list (string * A)) : result A :=
  of_option (KeyError dflt) (match dict_get k l with Some x => Some x | None => dict_get dflt l end).

(** [{host}] stands where [str.format] puts it: a text is what is before it
    and what is after it, if it is there at all. *)
Definition SSH_TEXT : list (string * (string * (string * option string))) :=
  [("connecting", ("away", ("●  ssh: connecting to ", Some "…")));
   ("connected", ("online", ("●  ssh: connected (", Some ")")));
   ("failed", ("danger", ("●  ssh: failed - retrying (", Some ")…")))].
Definition DAEMON_TEXT : list (string * (string * string)) :=
  [("waiting", ("muted", "●  daemon: waiting for the tunnel…"));
   ("connecting", ("away", "●  daemon: connecting…"));
   ("connected", ("online", "●  daemon: connected"));
   ("unreachable", ("danger", "●  daemon: unreachable - retrying…"))].

Definition label_markup (color text : string) : string :=
  "<span foreground='" +:+ color +:+ "'>" +:+ markup_escape_text text +:+ "</span>".

(** [update(ssh, daemon)] under the palette [c]: the markup of both labels. *)
Definition update (c : list (string * json)) (host ssh daemon : string) : result (string * string) :=
  '(color, (before, after)) ← get_entry ssh "connecting" SSH_TEXT;
  let text := before +:+ match after with Some a => host +:+ a | None => "" end in
  ssh_color ← jindex color (JObj c) ≫= as_str;
  '(color', text') ← get_entry daemon "waiting" DAEMON_TEXT;
  daemon_color ← jindex color' (JObj c) ≫= as_str;
  Ok (label_markup ssh_color text, label_markup daemon_color text').
End ConnectWindow.

Section Entry.
Context `{N : NaCl} `{J : JsonCodec} `{D : Daemon} `{E : !Env} `{L : Locale}.
(** [repr e] is how Python writes an exception with [!r]. *)
Context (cwd argv0 : string) (repr : exn → string).

Record boot := Boot {
  bt_app : app;
  bt_start : start;              (* passphrase, cache file, dialogs *)
  bt_opened : option opened;     (* the session the window shows *)
  bt_unlocking : bool;
  bt_lock : bool;                (* [lock_fh] holds the lock *)
  bt_handlers : list signal;     (* [GLib.unix_signal_add] *)
}.
Definition set_app a b := Boot a (bt_start b) (bt_opened b) (bt_unlocking b) (bt_lock b) (bt_handlers b).
Definition set_start s b := Boot (bt_app b) s (bt_opened b) (bt_unlocking b) (bt_lock b) (bt_handlers b).
Definition set_opened o b := Boot (bt_app b) (bt_start b) o (bt_unlocking b) (bt_lock b) (bt_handlers b).
Definition set_unlocking x b := Boot (bt_app b) (bt_start b) (bt_opened b) x (bt_lock b) (bt_handlers b).
Definition set_lock x b := Boot (bt_app b) (bt_start b) (bt_opened b) (bt_unlocking b) x (bt_handlers b).
Definition set_handlers l b := Boot (bt_app b) (bt_start b) (bt_opened b) (bt_unlocking b) (bt_lock b) l.

Definition BT (A : Type) : Type := M boot A.
Definition bt_am {A} (m : AM A) : BT A := λ b, let '(r, a) := m (bt_app b) in (r, set_app a b).
(** The machine is the application's. *)
Definition bt_um {A} (m : UM A) : BT A := λ b,
  let a := bt_app b in
  let '(r, s) := m (set_machine (a_sup a) (a_os a) (bt_start b)) in
  (r, set_start s (set_app (set_os (st_os s) (set_sup (st_sup s) a)) b)).
Definition bt_os {A} (m : OM A) : BT A := bt_am (on_sup (on_os m)).
Definition log (line : string) : BT unit := bt_am (App.log line).

(** ** The window *)

Definition with_window (c : client) (a : app) : app := App (a_sup a) (a_os a) (Some c) true (a_tray a)
  (a_quitting a) (a_tunnel_fail a) (a_restarting a) (a_down_logged a) (a_awaiting a) (a_connect_busy a)
  (a_connect_show a) (a_connect_state a) (a_connect_window a) (a_sources a) (a_refreshes a) (a_opens a).

(** [_open_window_unlocked] and the window built on its session; [finally]
    lets the next one in. *)
Definition unlock_window : BT unit := λ b,
  let '(r, b) := (
    o ← bt_um (_open_window_unlocked cwd argv0);
    match o with
    | Some o => modify (λ b, set_opened (Some o) (set_app (with_window (op_client o) (bt_app b)) b))
    | None => mret tt
    end : BT unit) (set_unlocking true b) in
  (r, set_unlocking false b).

(** An open window, or the connect window, is only presented. *)
Definition open_window : BT unit :=
  b ← gets id;
  if a_awaiting (bt_app b) then mret tt
  else if a_window (bt_app b) then mret tt
  else if bt_unlocking b then mret tt
  else unlock_window.

(** ** The tray icon *)

Definition set_tray (x : bool) (a : app) : app := App (a_sup a) (a_os a) (a_session a) (a_window a) x
  (a_quitting a) (a_tunnel_fail a) (a_restarting a) (a_down_logged a) (a_awaiting a) (a_connect_busy a)
  (a_connect_show a) (a_connect_state a) (a_connect_window a) (a_sources a) (a_refreshes a) (a_opens a).
Definition set_embedded (x : bool) (s : start) : start := Start (st_sup s) (st_os s) (st_cache s) (st_bad s) (st_movable s)
  (st_draws s) (st_pass s) x (st_forms s) (st_errors s).

(** The machine's part in a start: what GTK makes of the icon ([None]: made;
    its error's [repr] otherwise) and whether a host adopts it, who holds the
    application's lock, our own number, whether GTK can be imported, the
    file at [cache_path()], whether it may be renamed, and what the user does in
    dialogs. *)
Record desk := Desk {
  dk_icon : option string;
  dk_host : bool;
  dk_locked : bool;
  dk_self : Z;
  dk_gtk : result unit;
  dk_cache : cache_file;
  dk_movable : bool;
  dk_forms : list form;
}.

(** [TrayIcon(self)]; the icon is embedded when it was made and adopted. *)
Definition new_tray (k : desk) : BT unit :=
  match dk_icon k with
  | None => modify (λ b, set_start (set_embedded (dk_host k) (bt_start b)) (set_app (set_tray true (bt_app b)) b))
  | Some e => log ("tray icon unavailable (" +:+ e +:+ ") - running as a plain window app")
  end.
Definition is_embedded (b : boot) : bool := a_tray (bt_app b) && st_embedded (bt_start b).

Definition on_open : BT unit :=
  try_with is_exception open_window (λ e, log ("open failed: " +:+ repr e)).

(** [quit]: [App.quit], and the lock goes with its file handle. *)
Definition quit : BT unit :=
  b ← gets id;
  if a_quitting (bt_app b) then mret tt
  else _ ← bt_am App.quit; modify (set_lock false).
Definition on_quit : BT unit :=
  try_with is_exception quit (λ e, log ("shutdown error: " +:+ repr e)).

(** ** Signals *)

(** Both handlers answer [SOURCE_REMOVE]. *)
Definition on_signal (sig : signal) : BT bool :=
  _ ← match sig with SIGUSR1 => open_window | _ => quit end; mret false.
(** A signal that comes while the main loop runs: the source stays only when
    its handler answers true. [None] when there is no handler. *)
Definition deliver (sig : signal) (b : boot) : option boot :=
  if bool_decide (sig ∈ bt_handlers b) then
    match on_signal sig b with
    | (Ok true, b) => Some b
    | (_, b) => Some (set_handlers (List.filter (λ s, negb (bool_decide (s = sig))) (bt_handlers b)) b)
    end
  else None.

(** ** [_setup] *)

Definition error_dialog (text : string) : BT unit := bt_um (_error_dialog text).

(** Another instance runs: it is asked to show its window. *)
Definition present_other (holder : Z) : BT unit :=
  _ ← log ("another instance is running (pid " +:+ str_of_int holder +:+ ") - presenting its window");
  if 0 <? holder then try_with is_os_error (bt_os (os_kill holder SIGUSR1)) (λ _, mret tt) else mret tt.

(** The daemon of this machine, unless it is reached through the tunnel:
    whether it could be started. *)
Definition ensure_local : BT bool :=
  b ← gets id;
  if external (a_sup (bt_app b)) then mret true
  else
    failed ← try_with (λ e, match e with RuntimeError _ => true | _ => false end)
      (_ ← bt_am (on_sup (Sup.ensure cwd argv0 app_logger)); mret None) (λ e, mret (Some (exn_str e)));
    match failed with
    | Some text => _ ← error_dialog text; mret false
    | None => mret true
    end.

(** The first window, or the first connection: whether to go on. *)
Definition first_window (show : bool) : BT bool :=
  b ← gets id;
  let show := show || negb (a_tray (bt_app b)) in
  if external (a_sup (bt_app b)) then
    conflict ← bt_am (on_sup (Sup._local_daemon_running cwd));
    if conflict : bool then
      _ ← error_dialog "a local aimlessd is running - run `aimless stop` before using the remote daemon";
      mret false
    else _ ← bt_am (_begin_connect show); mret true
  else _ ← (if show then open_window else mret tt); mret true.

Definition _no_window_headless (b : boot) : bool :=
  if a_awaiting (bt_app b) then false else negb (a_window (bt_app b)) && negb (is_embedded b).

(** The signals' handlers and the periodic timers. *)
Definition add_sources (self : Z) : BT unit :=
  _ ← modify (set_handlers [SIGUSR1; SIGTERM; SIGINT]);
  _ ← bt_am (_ ← add_source Poll; add_source Heartbeat);
  b ← gets id;
  _ ← (if external (a_sup (bt_app b)) then
         t ← bt_am (tunnel self_);
         _ ← log ("external daemon mode - tunnel to " +:+ host t);
         bt_am (add_source Probe)
       else mret tt);
  log ("app started (pid " +:+ str_of_int self +:+ ", tray="
       +:+ (if a_tray (bt_app b) then "True" else "False") +:+ ")").

(** The exit status, or [None] when the main loop is to run. *)
Definition _setup (k : desk) (show : bool) : BT (option Z) :=
  holder ← bt_os (acquire_app_lock (dk_locked k) (dk_self k));
  match holder with
  | Some h => _ ← present_other h; mret (Some 0)
  | None =>
    _ ← modify (set_lock true);
    ok ← ensure_local;
    if negb ok then mret (Some 1)
    else
      _ ← new_tray k;
      ok ← first_window show;
      if negb ok then mret (Some 1)
      else
        b ← gets id;
        if _no_window_headless b then
          _ ← log "no window after setup (no usable tray) - exiting for the supervisor to restart";
          mret (Some 0)
        else _ ← add_sources (dk_self k); mret None
  end.

(** [AimlessApp()], its supervisor being the one of the preferences. *)
Definition new_app (d : dsup) (o : os) : app :=
  App d o None false false false 0 false false false false false ("connecting", "waiting") false [] 0 0.
Definition new_boot (k : desk) (d : dsup) (o : os) : boot :=
  Boot (new_app d o) (Start d o (dk_cache k) [] (dk_movable k) 0 None false (dk_forms k) []) None false false [].

(** ** cli.py *)

Definition cli_os {A} (m : OM A) : CLI A := λ c,
  let '(r, o) := m (c_os c) in (r, Session (c_pass c) (c_store c) (c_client c) o).

(** [run_app(open_window)]; the main loop ends with 0. *)
Definition run_app (k : desk) (show : bool) : CLI Z :=
  d ← cli_os new_dsup;
  (λ c, let '(r, b) := _setup k show (new_boot k d (c_os c)) in
    (r ≫= λ rc, Ok (default 0 rc),
     Session (c_pass c) (c_store c) (c_client c) (a_os (bt_app b)))) : CLI Z.

Definition is_import_or_value (e : exn) : bool :=
  match e with ImportError _ | ValueError _ => true | _ => false end.
Definition is_import (e : exn) : bool := match e with ImportError _ => true | _ => false end.

(** [from . import gtkui] in a [try], and what comes after it. *)
Definition with_gtkui (k : desk) (caught : exn → bool) (handler : exn → CLI unit) (m : CLI unit) : CLI unit :=
  match dk_gtk k with
  | Ok _ => m
  | Raise e => if caught e then handler e else raise e
  end.

(** The hint of [cmd_gui]; [Namespace] is looked for in the text. *)
Definition gui_message (e : exn) : string :=
  let hint := if contains "Namespace" (exn_str e)
    then "the Gtk introspection data is missing: sudo apt install gir1.2-gtk-3.0"
    else "install the GTK stack: sudo apt install python3-gi gir1.2-gtk-3.0" in
  "GUI unavailable: " +:+ exn_str e +:+ newline +:+ hint +:+ newline +:+
  "(also needs a display - check `echo $DISPLAY`; over ssh use ssh -X)".
Definition cmd_gui (k : desk) : CLI unit :=
  with_gtkui k is_import_or_value
    (λ e, let msg := gui_message e in
          _ ← complain msg;
          _ ← try_with is_exception
            (path ← path_of app_log_path; on_io (append_line path msg)) (λ _, mret tt);
          exit 1)
    (rc ← run_app k true; exit rc).
Definition cmd_tray (k : desk) : CLI unit :=
  with_gtkui k is_import
    (λ e, die ("GUI unavailable (" +:+ exn_str e +:+ ") - install the GTK stack: sudo apt install python3-gi"))
    (rc ← run_app k false; exit rc).
Definition cmd_autostart (k : desk) (python : string) : CLI unit :=
  with_gtkui k is_import
    (λ e, die ("GUI unavailable (" +:+ exn_str e +:+ ") - install the GTK stack: python3-gi"))
    (path ← cli_os (install_autostart cwd argv0 python); Cli.say (default "None" path)).
Definition cmd_stop (k : desk) (pkill : list string → OM unit) : CLI unit :=
  with_gtkui k is_import
    (λ e, die ("GUI unavailable (" +:+ exn_str e +:+ ") - install the GTK stack: sudo apt install python3-gi"))
    (stopped ← cli_os (stop_all pkill (dk_self k));
     Cli.say ("stopped: " +:+ match stopped with [] => "nothing was running" | _ => join ", " stopped end)).

(** [parse_args().command]: none, one of the commands of [Cli.v], or one that
    hands over to gtkui.py. *)
Inductive invocation := Bare | Command (c : command) | Gui | Tray | Autostart | Stop.

Definition main (k : desk) (python : string) (pkill : list string → OM unit) (sched : list (list json))
    (i : invocation) : CLI unit :=
  match i with
  | Bare => with_gtkui k (λ _, false) (λ _, mret tt) (rc ← run_app k true; exit rc)
  | Command c => run_command c sched
  | Gui => cmd_gui k
  | Tray => cmd_tray k
  | Autostart => cmd_autostart k python
  | Stop => cmd_stop k pkill
  end.
End Entry.
