(* ===== verification/KeysPage.v ===== *)
(** * gtkui.py: the Keys & Identity dialog

    [AimlessWindow.on_keys] and the methods its buttons call.  A [page] is the
    dialog's entries and labels with what the buttons work on: the session,
    the window, the supervisor and the machine; what the user does in the
    dialogs opened from it is a list of forms, what they show a list of texts.
    The window belongs to an application ([app_ref] is set). *)

From S2P Require Import Prelude PyStr Codec Json Sys Paths Crypto Protocol Keys Store DaemonClient Service Tunnel Cli Desktop View Transfers Conversations Supervise App Startup.
From Stdlib Require Import Ascii.
Local Open Scope Z_scope.

(** The dialog's labels and entries. *)
Record labels := Labels {
  l_node_status : string; l_node_entry : string; l_node_preview : string;
  l_id_entry : string; l_id_warn : string; l_bk_status : string;
}.
Definition node_status_to t l := Labels t (l_node_entry l) (l_node_preview l) (l_id_entry l) (l_id_warn l) (l_bk_status l).
Definition node_entry_to t l := Labels (l_node_status l) t (l_node_preview l) (l_id_entry l) (l_id_warn l) (l_bk_status l).
Definition node_preview_to t l := Labels (l_node_status l) (l_node_entry l) t (l_id_entry l) (l_id_warn l) (l_bk_status l).
Definition id_warn_to t l := Labels (l_node_status l) (l_node_entry l) (l_node_preview l) (l_id_entry l) t (l_bk_status l).
Definition bk_status_to t l := Labels (l_node_status l) (l_node_entry l) (l_node_preview l) (l_id_entry l) (l_id_warn l) t.

(** A message shown: a question to confirm, an information, an error. *)
Inductive message :=
| Confirm (title text : string) | Info (title : string) (secondary : option string) | ErrorBox (text : string).

(** Addresses and names of a bundle in the question before a restoration:
    [x[:16]] and [len([k for k in x if k != "_self"])] of a JSON value. *)
Definition first16 (j : json) : result string :=
  match j with
  | JStr s => Ok (py_take 16 s)
  | JArr l => Ok (py_repr (JArr (take 16 l)))
  | _ => Raise TypeError
  end.
Definition count_names (j : json) : result Z :=
  match j with
  | JObj d => Ok (Z.of_nat (length (List.filter (λ kv : string * json, negb (bool_decide (kv.1 = "_self"))) d)))
  | JArr l => Ok (Z.of_nat (length (List.filter (λ x, negb (json_is_str "_self" x)) l)))
  | JStr s => Ok (Z.of_nat (py_len s))
  | _ => Raise TypeError
  end.

Section KeysPage.
Context `{N : NaCl} `{J : JsonCodec} `{D : Daemon} `{E : !Env} `{MU : Markup} `{Z_ : Zone} `{L : Locale}.
Context (cwd argv0 : string).

Record page := Page {
  p_sup : dsup;
  p_os : os;
  p_store : store;
  p_client : client;
  p_self_node : string;
  p_view : view;
  p_pass : option string;                  (* [app_ref.passphrase] *)
  p_forms : list form;                     (* the dialogs still to come *)
  p_shown : list message;                  (* last first *)
  p_labels : labels;
}.
Definition KM (A : Type) : Type := M page A.
Definition set_labels f p := Page (p_sup p) (p_os p) (p_store p) (p_client p) (p_self_node p) (p_view p) (p_pass p)
  (p_forms p) (p_shown p) (f (p_labels p)).
Definition set_shown x p := Page (p_sup p) (p_os p) (p_store p) (p_client p) (p_self_node p) (p_view p) (p_pass p)
  (p_forms p) x (p_labels p).
Definition set_p_forms x p := Page (p_sup p) (p_os p) (p_store p) (p_client p) (p_self_node p) (p_view p) (p_pass p)
  x (p_shown p) (p_labels p).
Definition set_p_machine d o p := Page d o (p_store p) (p_client p) (p_self_node p) (p_view p) (p_pass p)
  (p_forms p) (p_shown p) (p_labels p).

Definition km_sup {A} (m : SM A) : KM A := λ p,
  let '(r, (d, o)) := m (p_sup p, p_os p) in (r, set_p_machine d o p).
Definition km_io {A} (m : IO A) : KM A := km_sup (on_os (om_world m)).
Definition km_gui {A} (m : GUI A) : KM A := λ p,
  let '(r, g) := m (Gui (p_store p) (p_client p) (p_self_node p) (o_world (p_os p)) (p_view p)) in
  (r, Page (p_sup p) (set_world (g_world g) (p_os p)) (g_store g) (g_client g) (g_self_node g) (g_view g)
        (p_pass p) (p_forms p) (p_shown p) (p_labels p)).
Definition label (f : labels → labels) : KM unit := modify (set_labels f).
Definition entry_of (f : labels → string) : KM string := gets (λ p, f (p_labels p)).
Definition display (m : message) : KM unit := modify (λ p, set_shown (m :: p_shown p) p).
Definition next_answer : KM form := λ p,
  match p_forms p with
  | f :: l => (Ok f, set_p_forms l p)
  | [] => (Ok (Form Cancel []), p)
  end.

(** Its [text] is not used. *)
Definition _info_dialog (title text : string) (secondary : option string) : KM unit :=
  display (Info title secondary).
Definition _confirm (title secondary : string) : KM bool :=
  _ ← display (Confirm title secondary);
  f ← next_answer;
  mret (match pressed f with OK => true | _ => false end).
(** [ask_secret] with the dialog as its parent *)
Definition ask_secret_here (confirm : bool) : KM (option string) :=
  f ← next_answer;
  match secret_of confirm f with
  | NoSecret => mret None
  | Refused why => _ ← display (ErrorBox why); mret None
  | Secret pw => mret (Some pw)
  end.
(** The path picked in a file chooser. *)
Definition choose_file : KM (option string) :=
  f ← next_answer;
  mret (match pressed f with
        | OK => if bool_decide (entry 0 f = "") then None else Some (entry 0 f)
        | _ => None
        end).

Definition _daemon_restart : KM unit := km_sup (Sup.restart_daemon cwd argv0 app_logger).
Definition refresh_self : KM unit :=
  _ ← try_with is_exception (_ ← km_gui refresh_node; mret tt) (λ _, mret tt);
  km_gui sync_sidebar.
Definition _apply_node_seed (seed : bytes) : KM unit :=
  dir ← km_io (io_path daemon_dir);
  _ ← km_io (write_node_key dir seed);
  _ ← _daemon_restart;
  refresh_self.

(** [(status() or {}).get("address", "?")] in a label *)
Definition current_address : KM string :=
  st ← km_sup Sup.status;
  mret ("current: " +:+ py_str (default (JStr "?") (dict_get "address" (default [] st)))).
(** What the dialog opens with. *)
Definition open_keys : KM unit :=
  addr ← current_address;
  modify (set_labels (λ _, Labels addr "" "" ""
    ("Replacing your identity changes the key friends encrypt to; existing "
     +:+ "conversations break and everyone must re-add your invite.") "")).

(** *** Node key *)

Definition preview_node : KM unit :=
  text ← entry_of l_node_entry;
  match parse_node_key (Some text) with
  | Ok (_, pub) =>
    addr ← lift (yggdrasil_address pub);
    label (node_preview_to ("address: " +:+ addr +:+ newline +:+ "pubkey: " +:+ hex pub))
  | Raise e => if is_value_error e then label (node_preview_to ("error: " +:+ exn_str e)) else raise e
  end.
Definition apply_node : KM unit :=
  text ← entry_of l_node_entry;
  match parse_node_key (Some text) with
  | Ok (seed, pub) =>
    addr ← lift (yggdrasil_address pub);
    go ← _confirm "Replace your Yggdrasil node key?"
      ("Your address becomes " +:+ addr +:+ ". Anyone who saved your old "
       +:+ "invite must add you again. The daemon restarts now.");
    if negb go then mret tt
    else
      applied ← try_with is_os_error (_ ← _apply_node_seed seed; mret true)
        (λ e, _ ← _info_dialog "Could not write node key" (exn_str e) None; mret false);
      if negb applied then mret tt
      else
        _ ← label (node_status_to ("current: " +:+ addr));
        _info_dialog "Node key applied" ("Your address is now " +:+ addr +:+ ".") None
  | Raise e => if is_value_error e then label (node_preview_to ("error: " +:+ exn_str e)) else raise e
  end.
Definition gen_node : KM unit :=
  '(seed_hex, addr) ← km_io random_node_key;
  _ ← label (node_entry_to seed_hex);
  label (node_preview_to ("address: " +:+ addr)).
Definition reset_node : KM unit :=
  go ← _confirm "Reset to a fresh node key?"
    ("Your current address is discarded and a new one is generated; "
     +:+ "old invites stop working. The daemon restarts now.");
  if negb go then mret tt
  else
    dir ← km_io (io_path daemon_dir);
    _ ← km_io (remove_node_key dir);
    _ ← _daemon_restart;
    _ ← refresh_self;
    addr ← current_address;
    label (node_status_to addr).

(** *** Identity *)

Definition import_identity : KM unit :=
  text ← entry_of l_id_entry;
  match (seed ← fromhex (strip text); if (length seed =? 32)%nat then Ok seed else Raise (ValueError "")) with
  | Raise e => if is_value_error e then label (id_warn_to "error: expected a 64-hex identity seed") else raise e
  | Ok seed =>
    go ← _confirm "Replace your client identity?"
      ("This breaks existing conversations and cannot be undone here. " +:+ "Restart aimless afterwards to use it.");
    if negb go then mret tt
    else
      pw ← gets p_pass;
      if bool_decide (default "" pw = "") then
        _info_dialog "Passphrase unavailable" "Reopen aimless to import an identity." None
      else
        path ← km_io (io_path identity_path);
        _ ← km_io (save_identity path seed (default "" pw));
        _info_dialog "Identity written" "Quit and reopen aimless to use the new identity." None
  end.

(** *** Backups *)

Definition export_backup : KM unit :=
  pw ← ask_secret_here true;
  match pw with
  | None => mret tt
  | Some pw =>
    path ← choose_file;
    match path with
    | None => mret tt
    | Some path =>
      try_with (λ e, is_os_error e || is_value_error e)
        (_ ← km_gui (export_backup_to path pw);
         _ ← label (bk_status_to ("backup written to " +:+ path));
         _info_dialog "Backup written" path None)
        (λ e, _ ← label (bk_status_to ("backup failed: " +:+ exn_str e));
              _info_dialog "Backup failed" (exn_str e) None)
    end
  end.

(** The bundle looked at before it is restored: its data, its node's address
    and the number of its contacts. *)
Definition read_bundle (path pw : string) : KM json :=
  data ← km_io (load_bundle path pw);
  seed ← lift (get_or "identitySeed" (JStr "") data ≫= json_fromhex);
  if (length seed =? 32)%nat then mret data else raise (ValueError "missing identity seed").
Definition bundle_address (data : json) : result string :=
  node_seed ← jget "nodeSeed" data;
  match node_seed with
  | Some j =>
    if truthy j then
      text ← as_str j;
      catch is_value_error ('(_, pub) ← parse_node_key (Some text); yggdrasil_address pub) (λ _, Ok "?")
    else Ok "?"
  | None => Ok "?"
  end.
Definition bundle_contacts (data : json) : result Z :=
  saved ← jget "contacts" data;
  match saved with Some j => if truthy j then count_names j else Ok 0 | None => Ok 0 end.
Definition restore_question (data : json) : result string :=
  addr ← bundle_address data;
  n ← bundle_contacts data;
  pub ← get_or "pubkey" (JStr "?") data ≫= first16;
  Ok ("identity " +:+ pub +:+ "…" +:+ newline +:+ "node address " +:+ addr +:+ newline
      +:+ str_of_int n +:+ " contact(s)" +:+ newline +:+ newline
      +:+ "This overwrites your current keys; restart aimless after.").

Definition import_backup : KM unit :=
  path ← choose_file;
  match path with
  | None => mret tt
  | Some path =>
    pw ← ask_secret_here false;
    match pw with
    | None => mret tt
    | Some pw =>
      data ← try_with is_import_error (data ← read_bundle path pw; mret (Some data))
        (λ e, _ ← label (bk_status_to ("import failed: " +:+ exn_str e));
              _ ← _info_dialog "Import failed" (exn_str e) None; mret None);
      match data with
      | None => mret tt
      | Some data =>
        question ← lift (restore_question data);
        go ← _confirm "Restore this backup?" question;
        if negb go then mret tt
        else
          app_pw ← gets p_pass;
          if bool_decide (default "" app_pw = "") then
            _info_dialog "Passphrase unavailable" "Reopen aimless to import a backup." None
          else
            restored ← try_with (λ e, is_value_error e || is_os_error e)
              (_ ← km_io (restore_bundle path pw (default "" app_pw)); mret true)
              (λ e, _ ← label (bk_status_to ("restore failed: " +:+ exn_str e));
                    _ ← _info_dialog "Restore failed" (exn_str e) None; mret false);
            if negb restored then mret tt
            else
              _ ← _daemon_restart;
              _info_dialog "Backup restored" "Quit and reopen aimless to use the restored identity." None
      end
    end
  end.

(** The buttons of the dialog, and the typing in its two entries. *)
Inductive keys_action :=
| PreviewNode | ApplyNode | GenNode | ResetNode | ImportIdentity | ExportBackup | ImportBackup
| TypeNode (text : string) | TypeIdentity (text : string).
Definition id_entry_to t l := Labels (l_node_status l) (l_node_entry l) (l_node_preview l) t (l_id_warn l) (l_bk_status l).
Definition keys_handler (a : keys_action) : KM unit :=
  match a with
  | PreviewNode => preview_node
  | ApplyNode => apply_node
  | GenNode => gen_node
  | ResetNode => reset_node
  | ImportIdentity => import_identity
  | ExportBackup => export_backup
  | ImportBackup => import_backup
  | TypeNode t => label (node_entry_to t)
  | TypeIdentity t => label (id_entry_to t)
  end.
End KeysPage.
