(* ===== verification/Pages.v ===== *)
(** * gtkui.py: the contacts page's list, the daemon's state and the route

    [ContactsView._render_buddy_rows], [refresh] and [refresh_presence];
    [ActivityView.refresh_info]; what [AimlessWindow.poll_status] shows of the
    answer (its flag is in [Workers.v]), [refresh_route] and
    [refresh_self_id].  A row or a label is the texts and colours it shows. *)

From S2P Require Import Prelude PyStr Codec Json Sys Paths Crypto Protocol Keys Store DaemonClient Service Tunnel Desktop View Transfers Conversations Supervise.
From Stdlib Require Import Ascii.
Local Open Scope Z_scope.

(** ** The list of buddies *)

(** The button of a row, with the argument of its handler. *)
Inductive row_button := Unblock (node : string) | Remove (petname : string).
Record row := Row {
  row_title : string;                      (* markup, for a stranger a label *)
  row_sub : string;
  row_dim : bool;                          (* the style class [muted] *)
  row_action : row_button;
}.
Record buddies := Buddies {
  b_rows : list row;                       (* the children of [buddy_list] *)
  b_index : list (string * nat);           (* [_buddy_rows] *)
  b_blocked : gset string;                 (* [_blocked], empty before it is set *)
  b_presence : list (string * json);       (* [_cached_presence] *)
  b_invite : string;                       (* the text of [invite_entry] *)
}.
Definition set_rows rows index b := Buddies rows index (b_blocked b) (b_presence b) (b_invite b).
Definition set_row_title i t b := set_rows
  (alter (λ r, Row t (row_sub r) (row_dim r) (row_action r)) i (b_rows b)) (b_index b) b.

(** [sorted(contacts.items())] and [sorted(blocked)] *)
Definition item_le (a b : string * json) : Prop := String.le a.1 b.1.
#[export] Instance item_le_dec a b : Decision (item_le a b).
Proof. unfold item_le. apply _. Defined.
Definition sorted_set (s : gset string) : list string := sorted (elements s).

Section Buddies.
Context `{N : NaCl} `{J : JsonCodec} `{D : Daemon} `{MU : Markup} `{Z_ : Zone} `{L : Locale}.
(** The palette in use, [C]. *)
Context (role : string → string).

Definition BM (A : Type) : Type := M (gui * buddies) A.
Definition bm_gui {A} (m : GUI A) : BM A := λ '(g, b), let '(r, g) := m g in (r, (g, b)).
Definition rows (f : buddies → buddies) : BM unit := modify (λ '(g, b), (g, f b)).
Definition row_state {A} (f : buddies → A) : BM A := gets (λ gb, f gb.2).

Definition bold (s : string) : string := "<b>" +:+ markup_escape_text s +:+ "</b>".
Definition ellipsis20 (s : string) : string := py_take 20 s +:+ "…".

Definition contact_row (blocked : gset string) (kv : string * json) : result row :=
  screen ← get_or "screen" (JStr kv.1) kv.2 ≫= as_str;
  node ← jindex "node" kv.2 ≫= as_str;
  let is_blocked := bool_decide (node ∈ blocked) in
  Ok (Row (bold screen) (kv.1 +:+ " · " +:+ ellipsis20 node) is_blocked
        (if is_blocked then Unblock node else Remove kv.1)).
Definition stranger_row (name : option string) (node : string) : row :=
  let named := match name with Some n => negb (bool_decide (n = "")) | None => false end in
  Row (if named then default "" name else ellipsis20 node)
      (if named then ellipsis20 node else "blocked") true (Unblock node).
(** [self.buddy_list.add(row)] and [self._buddy_rows[key] = title] *)
Definition add_row (key : string) (r : row) (b : buddies) : buddies :=
  set_rows (b_rows b ++ [r]) (dict_set key (length (b_rows b)) (b_index b)) b.

Definition presence_title (label : string) (p : presence_state) : string :=
  let '(color, state) :=
    if ps_client_offline p then (role "away", "client offline")
    else (if ps_online p then role "online" else role "muted", if ps_online p then "online" else "offline") in
  bold label +:+ " <span foreground='" +:+ color +:+ "' size='small'>" +:+ state +:+ "</span>".

(** One title of [refresh_presence]: of a contact, or of a blocked stranger. *)
Definition title_of (contacts presence : list (string * json)) (key : string) : GUI string :=
  c ← gets g_client;
  let info := default (JObj []) (dict_get key contacts) in
  '(node, label) ← (
    if truthy info then
      node ← lift (jget "node" info);
      label ← lift (get_or "screen" (JStr key) info ≫= as_str);
      mret (default JNull node, label)
    else
      name ← gst (blocked_screen key);
      mret (JStr key, match name with Some n => if bool_decide (n = "") then key else n | None => key end));
  let p := match node with JStr n => default (JObj []) (dict_get n presence) | _ => JObj [] end in
  p ← lift (_presence_state (cl_identity c) p);
  mret (presence_title label p).
Definition refresh_presence (presence : list (string * json)) : BM unit :=
  contacts ← bm_gui contacts;
  index ← row_state b_index;
  for_each (λ ki : string * nat, t ← bm_gui (title_of contacts presence ki.1); rows (set_row_title ki.2 t)) index.

Definition _render_buddy_rows (blocked : gset string) : BM unit :=
  _ ← rows (set_rows [] []);
  contacts ← bm_gui contacts;
  nodes ← lift (contact_nodes contacts);
  _ ← for_each (λ kv : string * json, r ← lift (contact_row blocked kv); rows (add_row kv.1 r))
        (merge_sort item_le contacts);
  _ ← for_each (λ node,
        if bool_decide (node ∈ nodes) then mret tt
        else name ← bm_gui (gst (blocked_screen node)); rows (add_row node (stranger_row name node)))
        (sorted_set blocked);
  presence ← row_state b_presence;
  refresh_presence presence.

(** [refresh], the worker it starts and what its callback does. *)
Definition refresh : BM unit :=
  blocked ← row_state b_blocked;
  _ ← _render_buddy_rows blocked;
  presence ← row_state b_presence;
  refresh_presence presence.
Definition refresh_worker : GUI (string * list (string * json) * gset string) :=
  invite ← my_invite;
  l ← gcl presence;
  presence ← lift (as_list l ≫= λ l, by_key l []);
  blocked ← try_with is_daemon_error
    (j ← gcl blocklist; l ← lift (as_list j ≫= map_result as_str); mret (list_to_set l))
    (λ _, mret ∅);
  mret (invite, presence, blocked).
Definition refresh_done (r : string * list (string * json) * gset string) : BM unit :=
  let '(invite, presence, blocked) := r in
  _ ← rows (λ b, Buddies (b_rows b) (b_index b) (b_blocked b) presence invite);
  known ← row_state b_blocked;
  _ ← (if bool_decide (blocked = known) then mret tt
       else _ ← rows (λ b, Buddies (b_rows b) (b_index b) blocked (b_presence b) (b_invite b));
            _render_buddy_rows blocked);
  refresh_presence presence.
End Buddies.

(** ** The daemon's state *)

Definition version : string := "0.9.7".
Definition MIN_DAEMON_BUILD : list Z := [0; 9; 5].

(** [s.split("/", 1)[1]] *)
Definition after_slash (s : string) : result string :=
  match split_on "/" s with
  | _ :: ((_ :: _) as rest) => Ok (join "/" rest)
  | _ => Raise IndexError
  end.
(** [tuple(int(x) for x in build.split("/", 1)[1].split("."))], [None] when
    it is no such text *)
Definition daemon_version (build : string) : option (list Z) :=
  match (rest ← after_slash build; map_result py_int (split_on "." rest)) with
  | Ok l => Some l
  | Raise _ => None
  end.
(** [<] on tuples of integers *)
Fixpoint tuple_lt (a b : list Z) : bool :=
  match a, b with
  | [], _ :: _ => true
  | _, [] => false
  | x :: a, y :: b => (x <? y) || ((x =? y) && tuple_lt a b)
  end.
Definition too_old (build : string) : bool :=
  match daemon_version build with Some v => tuple_lt v MIN_DAEMON_BUILD | None => false end.
Definition need : string := join "." (str_of_int <$> MIN_DAEMON_BUILD).

(** What the two pages show, and the flags behind them. *)
Record status_view := StatusView {
  sv_info : string;                        (* [info_label], markup *)
  sv_warned : bool;                        (* [_version_warned] *)
  sv_log : list string;                    (* the activity log, last first *)
  sv_route : string;                       (* [route_label], markup *)
  sv_route_tip : option string;
  sv_route_icon : string;
  sv_self_id : option (string * string);   (* [_self_id] *)
  sv_self : string;                        (* [self_id_label], markup *)
  sv_self_tip : string;
}.
Definition set_info x warned log v := StatusView x warned log (sv_route v) (sv_route_tip v) (sv_route_icon v)
  (sv_self_id v) (sv_self v) (sv_self_tip v).
Definition set_route x tip icon v := StatusView (sv_info v) (sv_warned v) (sv_log v) x tip icon
  (sv_self_id v) (sv_self v) (sv_self_tip v).
Definition set_self id x tip v := StatusView (sv_info v) (sv_warned v) (sv_log v) (sv_route v) (sv_route_tip v)
  (sv_route_icon v) id x tip.

(** A dictionary the supervisor answers: [d[k]] in an f-string. *)
Definition fmt (k : string) (d : list (string * json)) : result string := py_str <$> jindex k (JObj d).

Section Status.
Context `{J : JsonCodec} `{D : Daemon} `{E : !Env} `{MU : Markup}.
(** The palette in use, [C], and the icons the theme has. *)
Context (role : string → string) (has_icon : string → bool).

Fixpoint first_icon (name : string) (names : list string) : string :=
  match names with
  | [] => name
  | next :: names => if has_icon name then name else first_icon next names
  end.

Definition span (color text : string) : string := "<span foreground='" +:+ role color +:+ "'>" +:+ text +:+ "</span>".
Definition escaped (k : string) (d : list (string * json)) : result string :=
  markup_escape_text <$> (jindex k (JObj d) ≫= as_str).
Definition holds (k : string) (d : list (string * json)) : result bool := truthy <$> jindex k (JObj d).
(** [d.get(k)] that is true *)
Definition given (k : string) (d : list (string * json)) : bool := default false (truthy <$> dict_get k d).

Definition tunnel_note (tunnel : option (list (string * json))) : result string :=
  match tunnel with
  | None => Ok ""
  | Some t =>
    host ← escaped "host" t;
    up ← holds "up" t;
    restarted ← holds "restarts" t;
    n ← fmt "restarts" t;
    error ← (if negb up && given "last_error" t then e ← escaped "last_error" t; Ok (" · " +:+ e) else Ok "");
    remote ← escaped "remote_socket" t;
    local ← escaped "local_socket" t;
    Ok (newline +:+ "ssh tunnel: " +:+ host +:+ " - " +:+ (if up : bool then "up" else "down")
        +:+ (if restarted : bool then " · restarts " +:+ n else "") +:+ error
        +:+ newline +:+ "  remote " +:+ remote +:+ newline +:+ "  local  " +:+ local)
  end.

(** The build named, the note under it, and the line logged the first time. *)
Definition build_note (build : json) (warned : bool) : result (string * string * option string) :=
  if negb (truthy build) then
    Ok ("unknown", newline +:+ span "danger" ("this daemon is an old build - "
          +:+ "run `aimless stop`, then reopen aimless to update"), None)
  else
    match build with
    | JStr b =>
      if too_old b then
        Ok (b, newline +:+ span "danger" ("daemon " +:+ b +:+ " is too old for this client "
                 +:+ "(needs ≥ " +:+ need +:+ ") - update aimlessd-linux-amd64, then `aimless stop` and " +:+ "reopen"),
            if warned then None
            else Some ("⚠ daemon " +:+ b +:+ " is too old for this client (needs ≥ " +:+ need +:+ ") "
                       +:+ "- update aimlessd-linux-amd64, then `aimless stop` and reopen"))
      else Ok (b, "", None)
    | _ => Raise AttributeError
    end.

Definition SV (A : Type) : Type := M status_view A.
(** [not st] *)
Definition nonempty (st : option (list (string * json))) : option (list (string * json)) :=
  match st with Some [] => None | _ => st end.
Definition refresh_info (tunnel st : option (list (string * json))) : SV unit :=
  tnote ← lift (tunnel_note tunnel);
  match nonempty st with
  | None => modify (λ v, set_info (span "danger" "●  offline - daemon not reachable" +:+ tnote) (sv_warned v) (sv_log v) v)
  | Some st =>
    warned ← gets sv_warned;
    '(build, note, line) ← lift (build_note (default (JStr "") (dict_get "build" st)) warned);
    _ ← (match line with
         | Some l => modify (λ v, set_info (sv_info v) true (l :: sv_log v) v)
         | None => mret tt
         end);
    up ← lift (jindex "peers_up" (JObj st) ≫= as_int);
    address ← lift (fmt "address" st);
    peers_up ← lift (fmt "peers_up" st);
    total ← lift (fmt "peers_total" st);
    let state := if 0 <? up then span "online" "●  you are online"
                 else span "away" "●  connecting - no Yggdrasil peers yet" in
    modify (λ v, set_info
      (state +:+ "  -  address <b>" +:+ address +:+ "</b>  ·  peers " +:+ peers_up +:+ "/" +:+ total +:+ newline
       +:+ "daemon: " +:+ build +:+ "  ·  client: aimless/" +:+ version +:+ note +:+ tnote) (sv_warned v) (sv_log v) v)
  end.

(** ** The route *)

Definition _tunnel_tooltip (t : list (string * json)) : result string :=
  up ← holds "up" t;
  host ← fmt "host" t;
  remote ← fmt "remote_socket" t;
  local ← fmt "local_socket" t;
  restarts ← fmt "restarts" t;
  let lines := ["SSH tunnel: " +:+ (if up : bool then "up" else "down"); "remote: " +:+ host +:+ " " +:+ remote;
                "local:  " +:+ local; "restarts: " +:+ restarts] in
  error ← (if given "last_error" t then e ← fmt "last_error" t; Ok ["last error: " +:+ e] else Ok []);
  Ok (join newline (lines ++ error)).

(** [session.self_screen], [self_node], [pubkey_hex] *)
Definition refresh_self_id (screen node pubkey : string) : SV unit :=
  let screen := if bool_decide (screen = "") then "anonymous" else screen in
  shown ← gets sv_self_id;
  if bool_decide (shown = Some (screen, node)) then mret tt
  else
    let short := if bool_decide (node = "") then "-" else py_take 16 node +:+ "…" in
    modify (set_self (Some (screen, node))
      (span "muted2" ("you: " +:+ markup_escape_text screen) +:+ "  ·  " +:+ span "subtitle" short)
      ("node key: " +:+ node +:+ (if bool_decide (pubkey = "") then "" else newline +:+ "client pubkey: " +:+ pubkey))).

Definition no_signal : string :=
  first_icon "network-wireless-signal-none-symbolic" ["network-offline-symbolic"; "network-error-symbolic"].
(** The two texts of a daemon that answers: without peers, and with some. *)
Definition reached (st : list (string * json)) (tail : string) (tip : option string) :
    result (string * option string * string) :=
  up ← jindex "peers_up" (JObj st) ≫= as_int;
  if up =? 0 then
    Ok (span "away" "●  connecting - no Yggdrasil peers yet" +:+ tail, tip,
        first_icon "network-wireless-signal-weak-symbolic" ["network-wireless-signal-ok-symbolic"; "network-idle-symbolic"])
  else
    address ← fmt "address" st;
    total ← fmt "peers_total" st;
    Ok (span "online" "●  online" +:+ "  -  " +:+ address +:+ "  ·  " +:+ "peers " +:+ str_of_int up +:+ "/" +:+ total
        +:+ tail, tip,
        first_icon "network-wireless-signal-excellent-symbolic" ["applications-internet"]).
(** The label, tooltip and icon of the route. *)
Definition route_of (tunnel st : option (list (string * json))) : result (string * option string * string) :=
  match tunnel with
  | Some t =>
    up ← holds "up" t;
    host ← escaped "host" t;
    tip ← _tunnel_tooltip t;
    if negb up then Ok (span "danger" "●  tunnel down" +:+ "  -  " +:+ host +:+ " · reconnecting…", Some tip, no_signal)
    else
      match nonempty st with
      | None => Ok (span "away" "●  remote daemon unreachable" +:+ "  -  tunnel " +:+ host, Some tip, no_signal)
      | Some st => reached st ("  ·  ↗ " +:+ host) (Some tip)
      end
  | None =>
    match nonempty st with
    | None => Ok (span "danger" "●  offline - daemon not reachable", None, no_signal)
    | Some st => reached st "" None
    end
  end.
Definition refresh_route (screen node pubkey : string) (tunnel st : option (list (string * json))) : SV unit :=
  '(text, tip, icon) ← lift (route_of tunnel st);
  _ ← modify (set_route text tip icon);
  refresh_self_id screen node pubkey.

(** [poll_status], but for its flag, which is the window's ([Workers.poll_status]):
    its worker, and what [done] shows. *)
Definition PM (A : Type) : Type := M (dsup * os * status_view) A.
Definition pm_sup {A} (m : SM A) : PM A := λ '(s, v), let '(r, s) := m s in (r, (s, v)).
Definition pm_view {A} (m : SV A) : PM A := λ '(s, v), let '(r, v) := m v in (r, (s, v)).
Definition status_worker : SM (bool * option (list (string * json))) :=
  running ← Sup.is_running; st ← Sup.status; mret (running, st).
Definition status_done (screen node pubkey : string) (r : bool * option (list (string * json))) : PM unit :=
  tunnel ← try_with is_exception (pm_sup Sup.tunnel_state) (λ _, mret None);
  _ ← pm_view (refresh_info tunnel r.2);
  tunnel ← pm_sup Sup.tunnel_state;
  pm_view (refresh_route screen node pubkey tunnel r.2).
End Status.
