(* ===== verification/Placement.v ===== *)
(** * gtkui.py: where the window is, and the Preferences dialog

    [AimlessWindow]'s geometry methods and the handlers of [on_preferences].
    A [frame] is the window as the window manager has it, with the preferences
    and the flags of the class; the main loop's pending calls are counted. *)

From S2P Require Import Prelude PyStr Codec Json Sys Paths Desktop Themes.
From Stdlib Require Import Ascii.
Local Open Scope Z_scope.

(** [_workareas]: those of the display's monitors up to one that cannot be
    asked; without any, the whole of the screen, if there is one. *)
Fixpoint monitor_areas (monitors : list (result area)) : list area :=
  match monitors with Ok a :: monitors => a :: monitor_areas monitors | _ => [] end.
Definition _workareas (monitors : list (result area)) (screen : option (Z * Z)) : list area :=
  match monitor_areas monitors, screen with
  | [], Some (w, h) => [Area 0 0 w h]
  | areas, _ => areas
  end.

Record frame := Frame {
  fr_size : Z * Z;                         (* [get_size()] *)
  fr_pos : Z * Z;                          (* [get_position()], (0, 0) when unknown *)
  fr_max : bool;                           (* maximized *)
  fr_gdk : bool;                           (* [get_window()] is there *)
  fr_hidden : bool;
  fr_areas : list area;                    (* [_workareas()] *)
  fr_prefs : list (string * json);         (* [prefs] *)
  fr_restoring : bool;                     (* [_geometry_restoring] *)
  fr_want : bool;                          (* [_want_geometry] *)
  fr_timer : bool;                         (* [_geometry_timer] is set *)
  fr_timers : nat;                         (* timeouts of [_save_geometry_now] *)
  fr_idles : nat;                          (* idle calls of [_apply_saved_position] *)
  fr_theme : string * list (string * json); (* [CURRENT_THEME], [C] *)
  fr_redrawn : nat;                        (* the messages drawn again *)
  fr_log : list string;                    (* the activity log, last first *)
}.
Definition set_place size pos max f := Frame size pos max (fr_gdk f) (fr_hidden f) (fr_areas f) (fr_prefs f)
  (fr_restoring f) (fr_want f) (fr_timer f) (fr_timers f) (fr_idles f) (fr_theme f) (fr_redrawn f) (fr_log f).
Definition set_fprefs p f := Frame (fr_size f) (fr_pos f) (fr_max f) (fr_gdk f) (fr_hidden f) (fr_areas f) p
  (fr_restoring f) (fr_want f) (fr_timer f) (fr_timers f) (fr_idles f) (fr_theme f) (fr_redrawn f) (fr_log f).
Definition set_restoring b f := Frame (fr_size f) (fr_pos f) (fr_max f) (fr_gdk f) (fr_hidden f) (fr_areas f)
  (fr_prefs f) b (fr_want f) (fr_timer f) (fr_timers f) (fr_idles f) (fr_theme f) (fr_redrawn f) (fr_log f).
Definition set_want b idles f := Frame (fr_size f) (fr_pos f) (fr_max f) (fr_gdk f) (fr_hidden f) (fr_areas f)
  (fr_prefs f) (fr_restoring f) b (fr_timer f) (fr_timers f) idles (fr_theme f) (fr_redrawn f) (fr_log f).
Definition set_timer b n f := Frame (fr_size f) (fr_pos f) (fr_max f) (fr_gdk f) (fr_hidden f) (fr_areas f)
  (fr_prefs f) (fr_restoring f) (fr_want f) b n (fr_idles f) (fr_theme f) (fr_redrawn f) (fr_log f).
Definition set_hidden b f := Frame (fr_size f) (fr_pos f) (fr_max f) (fr_gdk f) b (fr_areas f) (fr_prefs f)
  (fr_restoring f) (fr_want f) (fr_timer f) (fr_timers f) (fr_idles f) (fr_theme f) (fr_redrawn f) (fr_log f).
Definition set_look theme n log f := Frame (fr_size f) (fr_pos f) (fr_max f) (fr_gdk f) (fr_hidden f) (fr_areas f)
  (fr_prefs f) (fr_restoring f) (fr_want f) (fr_timer f) (fr_timers f) (fr_idles f) theme n log.

(** [prefs.pop(k, None)] *)
Definition dict_pop (k : string) (d : list (string * json)) : list (string * json) :=
  List.filter (λ kv, negb (bool_decide (kv.1 = k))) d.

Section Placement.
Context `{J : JsonCodec} `{D : Daemon}.
(** What the desktop says of its theme. *)
Context (settings : option (string * bool)).

Definition FM (A : Type) : Type := M (frame * world) A.
Definition fm_io {A} (m : IO A) : FM A := λ '(f, w), let '(r, w) := m w in (r, (f, w)).
Definition win {A} (g : frame → A) : FM A := gets (λ fw, g fw.1).
Definition change (g : frame → frame) : FM unit := modify (λ '(f, w), (g f, w)).
Definition save : FM unit := prefs ← win fr_prefs; fm_io (save_prefs (JObj prefs)).
Definition put_pref (k : string) (v : json) : FM unit := change (λ f, set_fprefs (dict_set k v (fr_prefs f)) f).

Definition remembers (prefs : list (string * json)) : bool := truthy (pref prefs "remember_position").

Definition save_geometry : FM unit :=
  size ← win fr_size;
  _ ← put_pref "window_width" (JInt size.1);
  _ ← put_pref "window_height" (JInt size.2);
  prefs ← win fr_prefs;
  _ ← (if remembers prefs then
         gdk ← win fr_gdk;
         pos ← win fr_pos;
         _ ← (if bool_decide (pos = (0, 0)) then mret tt
              else _ ← put_pref "window_x" (JInt pos.1); put_pref "window_y" (JInt pos.2));
         max ← win fr_max;
         if gdk : bool then put_pref "window_maximized" (JBool max) else mret tt
       else mret tt);
  save.

Definition _apply_saved_position : FM unit :=
  prefs ← win fr_prefs;
  size ← win fr_size;
  _ ← change (set_restoring true);
  areas ← win fr_areas;
  _ ← (match dict_get "window_x" prefs ≫= json_int, dict_get "window_y" prefs ≫= json_int with
       | Some x, Some y =>
         if bool_decide ((x, y) = (0, 0)) then mret tt
         else change (λ f, set_place (fr_size f) (clamp_to_workarea x y size.1 size.2 areas 40) (fr_max f) f)
       | _, _ => mret tt
       end);
  _ ← (if default false (truthy <$> dict_get "window_maximized" prefs)
       then change (λ f, set_place (fr_size f) (fr_pos f) true f) else mret tt);
  change (set_restoring false).
Definition restore_geometry : FM unit :=
  prefs ← win fr_prefs;
  if remembers prefs then
    idles ← win fr_idles; _ ← change (set_want true idles); _apply_saved_position
  else mret tt.

Definition _on_map : FM unit :=
  want ← win fr_want;
  if want : bool then idles ← win fr_idles; change (set_want false (S idles)) else mret tt.
Definition on_configure : FM unit :=
  restoring ← win fr_restoring;
  if restoring : bool then mret tt
  else
    timer ← win fr_timer;
    if timer : bool then mret tt else n ← win fr_timers; change (set_timer true (S n)).
Definition _save_geometry_now : FM unit :=
  n ← win fr_timers; _ ← change (set_timer false n); save_geometry.

Definition reset_geometry : FM unit :=
  _ ← change (λ f, set_fprefs
        (dict_pop "window_maximized" (dict_pop "window_y" (dict_pop "window_x" (fr_prefs f)))) f);
  save.

(** [on_delete], whether the window stays hidden in the tray; [on_destroy]
    before the application quits. *)
Definition on_delete (embedded : bool) : FM bool :=
  _ ← save_geometry;
  if embedded then _ ← change (set_hidden true); mret true else mret false.
Definition on_destroy : FM unit := save_geometry.

(** *** The Preferences dialog *)

(** The switch of a preference. *)
Definition on_toggle (k : string) (active : bool) : FM unit :=
  _ ← put_pref k (JBool active);
  _ ← (if bool_decide (k = "remember_position") && negb active then reset_geometry else mret tt);
  save.
Definition on_reset : FM unit :=
  _ ← reset_geometry;
  _ ← change (λ f, set_place (fr_size f) (fr_pos f) false f);
  change (λ f, set_look (fr_theme f) (fr_redrawn f) ("window position reset" :: fr_log f) f).
(** [w.get_active_id() or dflt] *)
Definition chosen (dflt : string) (id : option string) : string :=
  match id with Some s => if bool_decide (s = "") then dflt else s | None => dflt end.
Definition on_snd (id : option string) : FM unit :=
  _ ← put_pref "notification_sound" (JStr (chosen "single" id)); save.
(** [open_conv]: a conversation is shown. *)
Definition on_fmt (open_conv : bool) (id : option string) : FM unit :=
  _ ← put_pref "time_format" (JStr (chosen "24h" id));
  _ ← save;
  if open_conv then change (λ f, set_look (fr_theme f) (S (fr_redrawn f)) (fr_log f) f) else mret tt.
Definition on_theme (id : option string) : FM unit :=
  let name := chosen "system" id in
  _ ← put_pref "theme" (JStr name);
  _ ← save;
  env ← gets (λ fw : frame * world, w_env fw.2);
  theme ← lift (apply_theme env settings (JStr name));
  change (λ f, set_look theme (S (fr_redrawn f)) (fr_log f) f).

(** *** What happens to a window *)

(** What the user, the window manager and the main loop do. *)
Inductive frame_event :=
| Configure (size pos : Z * Z) (max : bool)
| Monitors (areas : list area)
| Mapped (gdk : bool)
| Reopened
| TimerFires
| IdleRuns
| Deleted (embedded : bool)
| Toggled (key : string) (active : bool)
| ResetPressed
| SoundChosen (id : option string)
| FormatChosen (open_conv : bool) (id : option string)
| ThemeChosen (id : option string).
Definition switches : list string := ["remember_position"; "notifications"; "enter_to_send"].
Definition on_event (e : frame_event) : FM unit :=
  match e with
  | Configure size pos max => _ ← change (set_place size pos max); on_configure
  | Monitors areas => change (λ f, Frame (fr_size f) (fr_pos f) (fr_max f) (fr_gdk f) (fr_hidden f) areas (fr_prefs f)
      (fr_restoring f) (fr_want f) (fr_timer f) (fr_timers f) (fr_idles f) (fr_theme f) (fr_redrawn f) (fr_log f))
  | Mapped gdk =>
    _ ← change (λ f, Frame (fr_size f) (fr_pos f) (fr_max f) gdk false (fr_areas f) (fr_prefs f)
      (fr_restoring f) (fr_want f) (fr_timer f) (fr_timers f) (fr_idles f) (fr_theme f) (fr_redrawn f) (fr_log f));
    _on_map
  | Reopened => restore_geometry
  | TimerFires =>
    n ← win fr_timers;
    match n with
    | O => mret tt
    | S n => timer ← win fr_timer; _ ← change (set_timer timer n); _save_geometry_now
    end
  | IdleRuns =>
    idles ← win fr_idles;
    match idles with O => mret tt | S n => want ← win fr_want; _ ← change (set_want want n); _apply_saved_position end
  | Deleted embedded => _ ← on_delete embedded; mret tt
  | Toggled k active => if bool_decide (k ∈ switches) then on_toggle k active else mret tt
  | ResetPressed => on_reset
  | SoundChosen id => on_snd id
  | FormatChosen open_conv id => on_fmt open_conv id
  | ThemeChosen id => on_theme id
  end.
End Placement.
