(* ===== verification/AppProps.v ===== *)
(** * Properties of the main loop

    The tunnel's monitor never loses a restart nor schedules two, the first
    connection always has one attempt on its way, a tunnel seen down is
    restarted; and what happens when a restart cannot start [ssh]. *)

From S2P Require Import Prelude PyStr Codec Json Sys Paths Logging Crypto Protocol DaemonClient Tunnel TunnelProps Supervise App.
From Stdlib Require Import Ascii.
Local Open Scope Z_scope.

(** ** The tunnel's operations return while [ssh] is there

    [ssh] stays installed, directories can be made, and what the daemon's socket
    raises are exceptions. *)

Section Ssh.
Context `{J : JsonCodec} `{D : Daemon} `{E : !Env} `{EL : !EnvLaws E} `{L : Locale}.
Hypothesis ssh_stays : ∀ ms o, "ssh" ∈ o_bins o → "ssh" ∈ o_bins (pass ms o).
Hypothesis dirs_made : ∀ dir now, makes_dir dir now = true.
Hypothesis connect_errors : ∀ sock s e, d_connect sock s = Raise e → is_exception e = true.
Hypothesis request_errors : ∀ op f s e, (d_request op f s).1 = Raise e → is_exception e = true.

Definition ssh (s : supervisor * os) : Prop := "ssh" ∈ o_bins s.2.

Lemma ssh_gets {A} (f : supervisor * os → A) : keeps ssh (gets f) any.
Proof. apply keeps_gets_any. Qed.
Lemma ssh_self : keeps ssh self_ any.
Proof. apply keeps_gets_any. Qed.
Lemma ssh_time : keeps ssh time any.
Proof. apply keeps_gets_any. Qed.
Lemma ssh_machine {A} (f : os → A) : keeps ssh (machine f) any.
Proof. apply keeps_gets_any. Qed.
Lemma ssh_update f : keeps ssh (update f) any.
Proof. by apply keeps_modify. Qed.
Lemma ssh_world {A} (m : IO A) : keeps ssh (on_world m) any.
Proof. intros [t o] H. split; [|done]. unfold on_world. by destruct (m (o_world o)). Qed.
Lemma ssh_sleep ms : keeps ssh (sleep ms) any.
Proof using All. apply keeps_modify. intros [t o]. apply ssh_stays. Qed.
Lemma ssh_poll c : keeps ssh (poll_child c) any.
Proof.
  intros [t o] H. split; [|done]. unfold poll_child, Tunnel.poll. destruct (ch_done c); [exact H|].
  destruct (o_procs o !! ch_pid c) as [p|]; [destruct (p_status p)|]; exact H.
Qed.
Lemma ssh_kill pid sig : keeps ssh (kill_quietly pid sig) any.
Proof.
  apply keeps_try; [|intros; apply keeps_ret_any]. intros [t o] H. split; [|done].
  unfold kill, os_kill. destruct (o_procs o !! pid) as [p|]; [destruct (p_owner p)|]; exact H.
Qed.
Lemma ssh_popen argv : keeps ssh (popen argv) any.
Proof.
  intros [t o] H. split; [|done]. unfold popen, start_process. destruct argv as [|prog argv]; [exact H|].
  destruct (bool_decide _); exact H.
Qed.
Lemma ssh_makedirs dir : keeps ssh (makedirs dir) any.
Proof. unfold makedirs, time. keeps_tac. Qed.
#[local] Hint Resolve ssh_makedirs ssh_gets ssh_self ssh_time ssh_machine ssh_update ssh_world ssh_sleep ssh_poll
  ssh_kill ssh_popen : keeps.
Ltac ssh_tac := keeps_tac; repeat (apply keeps_try; [keeps_tac|intros]; keeps_tac).

Lemma ssh_wait c ms : keeps ssh (wait_child c ms) any.
Proof using All. unfold wait_child. ssh_tac. Qed.
Lemma ssh_pid_file : keeps ssh _pid_from_file any.
Proof using All. unfold _pid_from_file, tunnel_pid_file. ssh_tac. Qed.
#[local] Hint Resolve ssh_wait ssh_pid_file : keeps.
Lemma ssh_is_running : keeps ssh is_running any.
Proof using All. unfold is_running, socket_exists. ssh_tac. Qed.
Lemma ssh_probe : keeps ssh probe any.
Proof using All. unfold probe. ssh_tac. Qed.
Lemma ssh_reap_loop fuel pid d : keeps ssh (reap_loop fuel pid d) any.
Proof using All. induction fuel; cbn [reap_loop]; ssh_tac. Qed.
#[local] Hint Resolve ssh_reap_loop : keeps.
Lemma ssh_stop : keeps ssh stop any.
Proof using All. unfold stop, _reap, _remove_pid, tunnel_pid_file. ssh_tac. Qed.
Lemma ssh_spawn : keeps ssh spawn any.
Proof using All. unfold spawn, _write_pid, tunnel_pid_file. ssh_tac. Qed.
Lemma ssh_wait_loop fuel d : keeps ssh (wait_loop fuel d) any.
Proof using All. induction fuel; cbn [wait_loop]; unfold socket_exists; ssh_tac. Qed.
#[local] Hint Resolve ssh_is_running ssh_probe ssh_stop ssh_spawn ssh_wait_loop : keeps.
Lemma ssh_restart (lg : logger) : keeps ssh (restart (λ l, on_world (lg l))) any.
Proof using All. unfold restart, wait_for_socket. ssh_tac. Qed.

(** A program that returns from every state of [I], and keeps [I]. *)
Definition returns {S A} (I : S → Prop) (m : M S A) : Prop :=
  ∀ s, I s → ∃ a s', m s = (Ok a, s') ∧ I s'.

Lemma keeps_returns {S A} (I : S → Prop) (m : M S A) :
  keeps I m any → (∀ s, I s → ∃ a s', m s = (Ok a, s')) → returns I m.
Proof.
  intros Hk Hm s Hs. destruct (Hm s Hs) as (a&s'&E1). exists a, s'. split; [done|].
  destruct (Hk s Hs) as [H _]. by rewrite E1 in H.
Qed.

Lemma never_ex {S A} (m : M S A) s : raises never m → ∃ a s', m s = (Ok a, s').
Proof. intros Hm. destruct (raises_never_returns m s Hm) as [a Ha]. eauto. Qed.

Lemma is_running_returns : returns ssh is_running.
Proof using All.
  apply keeps_returns; [apply ssh_is_running|]. intros [t o] _. unfold is_running.
  rewrite (M_bind_run _ _ _ t (t, o)) by done.
  assert (∃ b t' o', (match sup_child t with Some c => poll_child c | None => mret true end) (t, o)
    = (Ok b, (t', o'))) as (b&t1&o1&E1).
  { destruct (sup_child t) as [c|]; [|by eexists _, _, _].
    destruct (poll_any c t o) as (b&c'&o'&E1&_). by eexists _, _, _. }
  rewrite (M_bind_run _ _ _ _ _ E1).
  destruct b; [|by eexists _, _; rewrite socket_exists_run].
  rewrite (M_bind_run _ _ _ _ _ (pid_from_file_run t1 o1)).
  destruct (file_pid (o_world o1)) as [pid|]; [|by eexists _, _].
  rewrite (M_bind_run _ _ _ (_pid_alive pid o1) (t1, o1)) by done.
  destruct (_ && _); [|by eexists _, _]. by eexists _, _; rewrite socket_exists_run.
Qed.

Lemma probe_returns : returns ssh probe.
Proof using All.
  apply keeps_returns; [apply ssh_probe|]. intros [t o] _. apply never_ex.
  unfold probe. apply raises_bind; [apply raises_gets|intros t'].
  eapply (raises_try _ (λ e, is_exception e = true)); [|by intros e ->|].
  - apply raises_bind; [apply raises_on_world; intros w e; apply connect_errors|intros _].
    apply raises_bind.
    { apply raises_on_world. intros w e. unfold request.
      pose proof (request_errors "whoami" [] (w_daemon w)) as Hr.
      destruct (d_request "whoami" [] (w_daemon w)) as [r d]. apply Hr. }
    intros who. unfold time, update. raises_tac.
  - intros e. unfold update. raises_tac.
Qed.

Lemma restart_returns (lg : logger) :
  (∀ l, raises never (lg l)) → returns ssh (restart (λ l, on_world (lg l))).
Proof using All.
  intros Hlg. apply keeps_returns; [apply ssh_restart|]. intros [t o] Hssh.
  rewrite restart_split. destruct (restart_attempt_spec t o) as (r&[t1 o1]&Hrun&_&_&_&Hr).
  destruct r as [up|e].
  - rewrite (M_bind_run _ _ _ _ _ Hrun). apply never_ex.
    assert (∀ l, raises never (on_world (lg l))) by (intros l; apply raises_on_world, Hlg).
    apply raises_bind; [apply raises_gets|intros t2]. unfold update. destruct up; raises_tac; auto.
  - exfalso. destruct Hr as (_&[[_ Hno]|[_ Hno]]); [apply Hno; by apply (ssh_stop (t, o))|].
    by rewrite dirs_made in Hno.
Qed.

(** ** Programs of the supervisor, run by the application *)

Definition sup_ok (s : dsup * os) : Prop :=
  external s.1 = true ∧ is_Some (ds_tunnel s.1) ∧ "ssh" ∈ o_bins s.2.

Lemma on_tunnel_keeps {A} (m : TM A) : keeps ssh m any → keeps sup_ok (on_tunnel m) any.
Proof.
  intros Hm [d o] (He&[t Ht]&Hs). cbn in He, Ht, Hs. unfold on_tunnel. rewrite Ht.
  destruct (Hm (t, o) Hs) as [Hs' _]. destruct (m (t, o)) as [r [t' o']]. by split; [split_and!|].
Qed.
Lemma on_tunnel_returns {A} (m : TM A) : returns ssh m → returns sup_ok (on_tunnel m).
Proof.
  intros Hm [d o] (He&[t Ht]&Hs). cbn in He, Ht, Hs. unfold on_tunnel. rewrite Ht.
  destruct (Hm (t, o) Hs) as (a&[t' o']&->&Hs'). by eexists _, _; split; [done|split_and!].
Qed.
Lemma on_world_keeps {A} (m : IO A) : keeps sup_ok (on_os (om_world m)) any.
Proof.
  intros [d o] H. split; [|done]. unfold on_os, om_world. by destruct (m (o_world o)).
Qed.

Lemma log_fn_returns (line : string) : raises never (app_logger line).
Proof.
  intros w e. unfold app_logger. rewrite (M_bind_run _ _ _ (w_env w) w) by done.
  rewrite (M_bind_run _ _ _ (w_home w) w) by done. by rewrite log_fn_run.
Qed.
Lemma say_returns (line : string) : returns sup_ok (say app_logger line).
Proof.
  apply keeps_returns; [apply on_world_keeps|]. intros [d o] _. apply never_ex.
  intros [d' o'] e. unfold say, on_os, om_world. pose proof (log_fn_returns line (o_world o') e) as H.
  destruct (app_logger line (o_world o')) as [r w]; cbn in *. apply H.
Qed.

(** [safe m]: keeps [sup_ok], and lets out exceptions only. *)
Definition safe {A} (m : SM A) : Prop :=
  ∀ s, sup_ok s → sup_ok (m s).2 ∧ ∀ e, (m s).1 = Raise e → is_exception e = true.

Lemma safe_bind {A B} (m : SM A) (f : A → SM B) : safe m → (∀ a, safe (f a)) → safe (m ≫= f).
Proof.
  intros Hm Hf s Hs. destruct (Hm s Hs) as [Hs' He]. unfold mbind, M_bind.
  destruct (m s) as [[a|e] s']; cbn in *; [by apply Hf|]. split; [done|]. intros e' [= <-]. by apply He.
Qed.
Lemma safe_returns {A} (m : SM A) : returns sup_ok m → safe m.
Proof. intros Hm s Hs. destruct (Hm s Hs) as (a&s'&->&Hs'). by split. Qed.
Lemma safe_ret {A} (a : A) : safe (mret a).
Proof. intros s Hs. by split. Qed.
Lemma safe_raise {A} msg : safe (raise (RuntimeError msg) : SM A).
Proof. intros s Hs. split; [done|]. by intros e [= <-]. Qed.
Lemma safe_gets {A} (f : dsup * os → A) : safe (gets f).
Proof. intros s Hs. by split. Qed.

Lemma returns_os {A} (m : OM A) :
  (∀ o, "ssh" ∈ o_bins o → "ssh" ∈ o_bins (m o).2) → raises never m → returns sup_ok (on_os m).
Proof.
  intros Hb Hr. intros [d o] (He&Ht&Hs). unfold on_os. pose proof (Hr o) as Hro.
  specialize (Hb o Hs). destruct (m o) as [[a|e] o']; cbn in *; [|by destruct (Hro e)].
  exists a, (d, o'). by split.
Qed.
(** Programs on files and the daemon only. *)
Abbreviation bins_same o0 := (keeps (λ o, o_bins o = o_bins o0)).
Lemma bins_world {A} o0 (m : IO A) : bins_same o0 (om_world m) any.
Proof. intros o H. split; [|done]. unfold om_world. by destruct (m (o_world o)). Qed.
Lemma raises_om {A} P (m : IO A) : raises P m → raises P (om_world m).
Proof.
  intros Hm o e. unfold om_world. pose proof (Hm (o_world o) e) as H. by destruct (m (o_world o)).
Qed.
Lemma returns_files {A} (m : OM A) :
  (∀ o0, bins_same o0 m any) → raises never m → returns sup_ok (on_os m).
Proof.
  intros Hb Hr. apply returns_os; [|done]. intros o Ho. destruct (Hb o o eq_refl) as [H _].
  cbn in H. by rewrite H.
Qed.

Lemma raises_connect sock : raises (λ e, is_exception e = true) (connect sock).
Proof using connect_errors. intros w e. apply connect_errors. Qed.
Lemma raises_request op f : raises (λ e, is_exception e = true) (request op f).
Proof using request_errors.
  intros w e. unfold request. pose proof (request_errors op f (w_daemon w) e) as H.
  by destruct (d_request op f (w_daemon w)).
Qed.
#[local] Hint Resolve bins_world : keeps.

Lemma reaches_returns sock : returns sup_ok (on_os (reaches sock)).
Proof using All.
  apply returns_files; unfold reaches.
  - intros o0. apply keeps_try; [keeps_tac|intros; keeps_tac].
  - eapply (raises_try _ (λ e, is_exception e = true)); [|by intros e ->|intros e; apply raises_ret].
    apply raises_bind; [apply raises_om, raises_connect|intros _; apply raises_ret].
Qed.
Lemma reachable_returns : returns sup_ok Sup._reachable.
Proof using All.
  intros [d o] H. unfold Sup._reachable.
  rewrite (M_bind_run _ _ _ (ds_sock d) (d, o)) by done. generalize (ds_sock d) as sock. intros sock.
  revert H. generalize (d, o) as s. clear d o. apply returns_files.
  - intros o0. apply keeps_try; [keeps_tac|intros; keeps_tac].
  - eapply (raises_try _ (λ e, is_exception e = true)); [|by intros e ->|intros e; apply raises_ret].
    apply raises_bind; [apply raises_om, raises_connect|intros _].
    apply raises_bind; [apply raises_om, raises_request|intros _; apply raises_ret].
Qed.

Lemma tunnel_safe {A} (m : TM A) : returns ssh m → safe (on_tunnel m).
Proof. intros Hm. by apply safe_returns, on_tunnel_returns. Qed.

Lemma tunnel_ensure_returns : returns ssh (Tunnel.ensure (λ l, on_world (app_logger l))).
Proof using All.
  intros s Hs. unfold Tunnel.ensure. destruct (is_running_returns s Hs) as (up&s1&E1&Hs1).
  rewrite (M_bind_run _ _ _ _ _ E1). destruct up; [by eexists _, _|].
  by apply restart_returns; [apply log_fn_returns|].
Qed.

Lemma safe_await fuel deadline : safe (Sup.await_remote fuel deadline).
Proof using All.
  induction fuel as [|fuel IH]; cbn [Sup.await_remote]; [apply safe_raise|].
  apply safe_bind; [|intros now].
  { apply safe_returns, returns_files; [intros o0; apply keeps_gets_any|apply raises_gets]. }
  destruct (now <? deadline); [|apply safe_ret].
  apply safe_bind; [apply safe_returns, reachable_returns|intros up].
  destruct up; [apply safe_ret|]. apply safe_bind; [|done].
  apply safe_returns, returns_os; [apply ssh_stays|apply raises_modify].
Qed.

Lemma safe_ensure cwd argv0 : safe (Sup.ensure cwd argv0 app_logger).
Proof using All.
  intros [d o] Hs. unfold Sup.ensure. rewrite (M_bind_run _ _ _ d (d, o)) by done.
  pose proof Hs as (He&_). cbn in He. rewrite He. revert Hs. generalize (d, o) as s.
  assert (Hos : ∀ A (f : os → A), safe (on_os (gets f))).
  { intros A f. apply safe_returns, returns_files; [intros o0; apply keeps_gets_any|apply raises_gets]. }
  clear d o He. apply safe_bind.
  { unfold Sup._local_daemon_running. apply safe_bind; [apply Hos|intros dir].
    apply safe_bind; [apply safe_gets|intros sock]. case_match; [apply safe_ret|].
    apply safe_returns, reaches_returns. }
  intros conflict. destruct conflict; [apply safe_bind; [apply Hos|intros dir; apply safe_raise]|].
  apply safe_bind; [apply tunnel_safe, tunnel_ensure_returns|intros up].
  apply safe_bind; [apply tunnel_safe; intros s Hs; by eexists _, s|intros t].
  destruct up; [|apply safe_raise]. apply safe_bind; [apply Hos|intros now].
  apply safe_bind; [apply safe_await|intros ready]. destruct ready; [|apply safe_raise].
  apply safe_bind; [apply safe_returns, say_returns|intros _; apply safe_ret].
Qed.

(** ** What the main loop keeps *)

Context `{N : NaCl} (cwd argv0 : string).

Definition is_restart (s : source) : bool := bool_decide (s = Restart).
Definition is_work (s : source) : bool :=
  match s with ConnectWork | ConnectDone _ => true | _ => false end.
Definition is_retry (s : source) : bool := bool_decide (s = Retry).
Definition occ (p : source → bool) (l : list source) : nat := length (List.filter p l).

Lemma occ_app p l1 l2 : occ p (l1 ++ l2) = (occ p l1 + occ p l2)%nat.
Proof. unfold occ. by rewrite List.filter_app, length_app. Qed.
Lemma occ_remove p s l : s ∈ l → (occ p (remove_source s l) + Nat.b2n (p s) = occ p l)%nat.
Proof.
  induction l as [|s' l IH]; [by intros ?%elem_of_nil|]. cbn. case_decide as Hs.
  - intros _. subst s'. unfold occ. cbn. destruct (p s); cbn; lia.
  - intros [|Hin]%elem_of_cons; [done|]. specialize (IH Hin). unfold occ in *. cbn.
    destruct (p s'); cbn; lia.
Qed.

Definition aok (a : app) : Prop := sup_ok (a_sup a, a_os a).

(** What a step of a monitor may do: schedule at most one restart, and then
    only if none was under way. *)
Record mstep (a a' : app) : Prop := {
  ms_ok : aok a → aok a';
  ms_quitting : a_quitting a' = a_quitting a;
  ms_awaiting : a_awaiting a' = a_awaiting a;
  ms_busy : a_connect_busy a' = a_connect_busy a;
  ms_sources : ∃ new, a_sources a' = a_sources a ++ new ∧ occ is_work new = 0%nat ∧ occ is_retry new = 0%nat ∧
    (Nat.b2n (a_restarting a) + occ is_restart new = Nat.b2n (a_restarting a'))%nat;
}.
#[local] Instance mstep_preorder : PreOrder mstep.
Proof.
  split.
  - intros a. split; [done..|]. exists []. rewrite app_nil_r. cbn. split_and!; [done..|lia].
  - intros a b c [H1 H2 H3 H4 (n1&Hn1&W1&T1&R1)] [K1 K2 K3 K4 (n2&Hn2&W2&T2&R2)].
    split; [auto|congruence..|]. exists (n1 ++ n2). rewrite Hn2, Hn1, app_assoc, !occ_app. split_and!; [done|lia..].
Qed.

Abbreviation mon := (within aok mstep).
Lemma mstep_aok a a' : mstep a a' → aok a → aok a'.
Proof. intros []. auto. Qed.
Lemma mon_bind {A B} (m : AM A) (f : A → AM B) : mon m → (∀ x, mon (f x)) → mon (m ≫= f).
Proof. intros Hm Hf. apply within_bind; [apply _|exact mstep_aok|done..]. Qed.
Lemma mon_ret {A} (x : A) : mon (mret x).
Proof. apply within_pure; [apply _|done]. Qed.
Lemma mon_own {A} (f : app → A) : mon (own f).
Proof. apply within_pure; [apply _|done]. Qed.
Lemma mon_lift {A} (r : result A) : mon (lift r).
Proof. apply within_pure; [apply _|done]. Qed.

(** The supervisor's part of the state. *)
Lemma sup_moved d o a : sup_ok (d, o) → mstep a (set_os o (set_sup d a)).
Proof.
  intros H. split; [by intros _|done..|]. exists []. rewrite app_nil_r. cbn. split_and!; [done..|lia].
Qed.
Lemma mon_sup {A} (m : SM A) : keeps sup_ok m any → mon (on_sup m).
Proof.
  intros Hm a Ha. destruct (Hm _ Ha) as [H _]. unfold on_sup.
  destruct (m (a_sup a, a_os a)) as [r [d o]]. by apply sup_moved.
Qed.
Lemma mon_tunnel {A} (m : TM A) : keeps ssh m any → mon (tunnel m).
Proof. intros Hm. by apply mon_sup, on_tunnel_keeps. Qed.
Lemma mon_log line : mon (log line).
Proof. apply mon_sup, on_world_keeps. Qed.
Lemma sup_run {A} (m : SM A) a :
  returns sup_ok m → aok a → ∃ x d o, on_sup m a = (Ok x, set_os o (set_sup d a)) ∧ sup_ok (d, o).
Proof.
  intros Hm Ha. destruct (Hm _ Ha) as (x&[d o]&E1&H1). exists x, d, o. unfold on_sup. by rewrite E1.
Qed.
Lemma mon_modify f :
  (∀ a, a_sup (f a) = a_sup a ∧ a_os (f a) = a_os a ∧ a_quitting (f a) = a_quitting a ∧
    a_awaiting (f a) = a_awaiting a ∧ a_connect_busy (f a) = a_connect_busy a ∧
    a_restarting (f a) = a_restarting a ∧ a_sources (f a) = a_sources a) →
  mon (modify f).
Proof.
  intros Hf a Ha. destruct (Hf a) as (H1&H2&H3&H4&H5&H6&H7). cbn.
  split; [unfold aok; by rewrite H1, H2|done..|]. exists []. rewrite app_nil_r, H6, H7.
  cbn. split_and!; [done..|lia].
Qed.
Lemma mon_add s : is_restart s = false → is_work s = false → is_retry s = false → mon (add_source s).
Proof.
  intros H1 H2 H3 a Ha. split; [done..|]. exists [s]. cbn. unfold occ. cbn. rewrite H1, H2, H3. cbn.
  split_and!; [done..|lia].
Qed.

Lemma next_backoff_returns : returns ssh (λ s, let '(n, t) := next_backoff s.1 in (Ok n, (t, s.2))).
Proof. intros [t o] Hs. by eexists _, _. Qed.
Lemma self_returns : returns ssh self_.
Proof. intros s Hs. by eexists _, s. Qed.

(** A restart is put on its way exactly when none is. *)
Lemma schedule_run a :
  aok a → ∃ a', _schedule_tunnel_restart a = (Ok tt, a') ∧ aok a' ∧ mstep a a' ∧
    a_restarting a' = a_restarting a || negb (a_quitting a) ∧
    (a_restarting a || a_quitting a = false → Restart ∈ a_sources a').
Proof using All.
  intros Ha. unfold _schedule_tunnel_restart.
  rewrite (M_bind_run _ _ a a a) by done. destruct (a_restarting a) eqn:Hr; cbn [orb].
  { exists a. split_and!; [done|done|done|by rewrite Hr|done]. }
  destruct (a_quitting a) eqn:Hq. { exists a. split_and!; [done|done|done|by rewrite Hr|done]. }
  set (a1 := set_monitor (a_tunnel_fail a) true (a_down_logged a) a).
  rewrite (M_bind_run _ _ a tt a1) by done.
  destruct (sup_run _ a1 (on_tunnel_returns _ next_backoff_returns) Ha) as (delay&d2&o2&E2&H2).
  fold (tunnel (A := Z)) in E2. rewrite (M_bind_run _ _ _ _ _ E2).
  set (a2 := set_os o2 (set_sup d2 a1)).
  destruct (sup_run _ a2 (on_tunnel_returns _ self_returns) H2) as (t&d3&o3&E3&H3).
  rewrite (M_bind_run _ _ _ _ _ E3). set (a3 := set_os o3 (set_sup d3 a2)).
  destruct (sup_run _ a3 (say_returns ("tunnel: restarting in " +:+ str_of_int delay +:+ "s (" +:+ host t +:+ ")")) H3)
    as (u&d4&o4&E4&H4).
  rewrite (M_bind_run _ _ _ _ _ E4). eexists. split; [reflexivity|]. split; [exact H4|].
  split; [|split; [done|intros _; cbn; set_solver]].
  split; [by intros _|done..|]. exists [Restart]. cbn. rewrite Hr. split_and!; done.
Qed.
Lemma mon_schedule : mon _schedule_tunnel_restart.
Proof using All. intros a Ha. destruct (schedule_run a Ha) as (a'&E1&_&H&_). by rewrite E1. Qed.

Lemma mon_set_fail n : mon (set_fail n).
Proof. by apply mon_modify. Qed.
Lemma mon_set_logged b : mon (set_logged b).
Proof. by apply mon_modify. Qed.
Lemma mon_poll_status : mon poll_status.
Proof. apply mon_modify. intros a. by destruct (a_window a). Qed.
Lemma mon_rewatch : mon rewatch.
Proof.
  unfold rewatch. apply mon_bind; [apply mon_own|intros session]. destruct session; [|apply mon_ret].
  apply mon_bind; [apply mon_sup, on_world_keeps|intros cs]. apply mon_bind; [apply mon_lift|intros d].
  by apply mon_add.
Qed.
Lemma mon_open : mon open_window.
Proof. apply mon_modify. intros a. by destruct (a_awaiting a || a_window a). Qed.
Lemma is_running_keeps : keeps ssh is_running any.
Proof using All. by apply ssh_is_running. Qed.
Lemma probe_keeps : keeps ssh probe any.
Proof using All. by apply ssh_probe. Qed.
Lemma self_keeps : keeps ssh self_ any.
Proof. apply keeps_gets_any. Qed.

Ltac mon_tac := repeat first
  [ apply mon_ret | apply mon_own | apply mon_log | apply mon_set_fail | apply mon_set_logged
  | apply mon_poll_status | apply mon_schedule | apply mon_rewatch
  | apply mon_tunnel, is_running_keeps | apply mon_tunnel, probe_keeps | apply mon_tunnel, self_keeps
  | by apply mon_add
  | apply mon_bind; [|intros ?]
  | match goal with |- within _ _ (if ?b then _ else _) => destruct b end
  | match goal with |- within _ _ (match ?x with _ => _ end) => destruct x end ].

Lemma mon_probe : mon probe_tunnel.
Proof using All. unfold probe_tunnel. mon_tac. Qed.
Lemma mon_confirm : mon _confirm_tunnel.
Proof using All. unfold _confirm_tunnel. mon_tac. Qed.
Lemma mon_heartbeat : mon heartbeat.
Proof using All. unfold heartbeat. mon_tac. Qed.
Lemma mon_beat : mon (once (on_sup beat)).
Proof using All.
  unfold once, beat. mon_tac. apply mon_sup. intros [d o] Hs. split; [|done]. unfold on_os.
  assert (keeps (λ o', o_bins o' = o_bins o) (try_with is_exception
    (sock ← om_world client_socket; _ ← om_world (connect sock); _ ← om_world (request "whoami" []); mret tt)
    (λ _, mret tt)) any) as Hk by (apply keeps_try; [keeps_tac|intros; keeps_tac]).
  destruct (Hk o eq_refl) as [Hb _]. destruct (try_with _ _ _ o) as [r o']. cbn in *.
  destruct Hs as (?&?&?). split_and!; [done|done|]. cbn in *. by rewrite Hb.
Qed.
Lemma mon_poll : mon (poll cwd argv0).
Proof using All.
  intros a Ha. unfold poll. rewrite (M_bind_run _ _ a a a) by done.
  pose proof Ha as (He&_). cbn in He. rewrite He.
  match goal with |- mstep _ (?p a).2 => cut (mon p); [intros Hm; by apply Hm|] end.
  mon_tac.
Qed.

(** *** The invariant *)

(** The machine can run [ssh]; a restart is pending exactly when one is under
    way, and never two; the attempts to connect never overlap, and one is
    pending as long as the application awaits the connection. *)
Record loop_ok (a : app) : Prop := {
  lo_ok : aok a;
  lo_restart : occ is_restart (a_sources a) = Nat.b2n (a_restarting a);
  lo_work : occ is_work (a_sources a) = Nat.b2n (a_connect_busy a);
  lo_one : (occ is_work (a_sources a) + occ is_retry (a_sources a) <= 1)%nat;
  lo_await : a_awaiting a = true → (occ is_work (a_sources a) + occ is_retry (a_sources a) = 1)%nat;
}.

Lemma mstep_loop a a' : mstep a a' → loop_ok a → loop_ok a'.
Proof.
  intros [H1 H2 H3 H4 (new&Hn&W&T&R)] [K1 K2 K3 K4 K5].
  split; [auto|..]; rewrite ?Hn, ?occ_app, ?W, ?T, ?H4, ?Nat.add_0_r; try lia.
  intros Haw. rewrite H3 in Haw. by apply K5.
Qed.

Definition never_true (m : AM bool) : Prop := ∀ a, (m a).1 ≠ Ok true.
Lemma never_true_bind {A} (m : AM A) (f : A → AM bool) : (∀ x, never_true (f x)) → never_true (m ≫= f).
Proof.
  intros Hf a. unfold mbind, M_bind. destruct (m a) as [[x|e] a1]; [apply Hf|done].
Qed.
Lemma never_true_once m : never_true (once m).
Proof. by apply never_true_bind. Qed.
Lemma never_true_restart : never_true _do_tunnel_restart.
Proof.
  apply never_true_bind. intros a. destruct (a_quitting a); [by apply never_true_bind|].
  by repeat (apply never_true_bind; intros ?).
Qed.

Lemma fire_once s a :
  never_true (callback cwd argv0 s) →
  fire cwd argv0 s a = (let a' := (callback cwd argv0 s a).2 in
    set_sources (remove_source s (a_sources a')) a').
Proof.
  intros Hn. unfold fire. specialize (Hn a). destruct (callback cwd argv0 s a) as [[[]|e] a']; done.
Qed.

(** Dropping a source that neither restarts nor connects. *)
Lemma drop_loop s a :
  is_restart s = false → is_work s = false → is_retry s = false → s ∈ a_sources a →
  loop_ok a → loop_ok (set_sources (remove_source s (a_sources a)) a).
Proof.
  intros H1 H2 H3 Hin [K1 K2 K3 K4 K5].
  pose proof (occ_remove is_restart s _ Hin) as O1. pose proof (occ_remove is_work s _ Hin) as O2.
  pose proof (occ_remove is_retry s _ Hin) as O3. rewrite H1 in O1. rewrite H2 in O2. rewrite H3 in O3.
  cbn [Nat.b2n] in *. split; cbn [a_sources set_sources a_restarting a_connect_busy a_awaiting];
    [done|lia..|]. intros Haw. specialize (K5 Haw). lia.
Qed.

Lemma fire_mon s a :
  is_restart s = false → is_work s = false → is_retry s = false → s ∈ a_sources a →
  mon (callback cwd argv0 s) → loop_ok a → loop_ok (fire cwd argv0 s a).
Proof.
  intros H1 H2 H3 Hin Hm Hok. pose proof (Hm a (lo_ok a Hok)) as Hs. unfold fire.
  assert (Hin' : s ∈ a_sources (callback cwd argv0 s a).2).
  { destruct (ms_sources _ _ Hs) as (new&->&_). set_solver. }
  pose proof (mstep_loop _ _ Hs Hok) as Hok'.
  destruct (callback cwd argv0 s a) as [[[]|e] a']; cbn in *; [done|by apply drop_loop..].
Qed.

Lemma fire_restart a : Restart ∈ a_sources a → loop_ok a → loop_ok (fire cwd argv0 Restart a).
Proof using All.
  intros Hin Hok. rewrite fire_once by apply never_true_restart. cbv zeta. cbn [callback].
  assert (Hr : a_restarting a = true).
  { pose proof (lo_restart _ Hok) as Hc. pose proof (occ_remove is_restart _ _ Hin) as O.
    change (Nat.b2n (is_restart Restart)) with 1%nat in O.
    destruct (a_restarting a); [done|]. cbn [Nat.b2n] in Hc. lia. }
  assert (∃ a2 a', (_do_tunnel_restart a).2 = a' ∧ mstep a2 a' ∧ a_restarting a2 = false ∧
    aok a2 ∧ a_sources a2 = a_sources a ∧ a_awaiting a2 = a_awaiting a ∧ a_connect_busy a2 = a_connect_busy a)
    as (a2&a'&->&Hs&Hr2&Hok2&Hs2&Hw2&Hb2).
  { unfold _do_tunnel_restart. rewrite (M_bind_run _ _ a a a) by done.
    destruct (a_quitting a).
    { set (a2 := set_monitor (a_tunnel_fail a) false (a_down_logged a) a).
      exists a2, a2. split; [reflexivity|]. split; [reflexivity|]. split_and!; try done. by apply Hok. }
    destruct (sup_run _ a (on_tunnel_returns _ (restart_returns app_logger log_fn_returns)) (lo_ok _ Hok))
      as (ok&d&o&E1&H1).
    fold (tunnel (A := bool)) in E1. rewrite (M_bind_run _ _ _ _ _ E1).
    set (a1 := set_os o (set_sup d a)). set (a2 := set_monitor (a_tunnel_fail a1) false (a_down_logged a1) a1).
    rewrite (M_bind_run _ _ a1 tt a2) by done. exists a2. eexists. split; [reflexivity|].
    split; [|by split_and!].
    match goal with |- mstep _ (?p a2).2 => cut (mon p); [intros Hm; by apply Hm|] end.
    mon_tac. apply mon_tunnel. by apply ssh_update. }
  destruct Hs as [M1 M2 M3 M4 (new&Hn&W&T&R)]. destruct Hok as [K1 K2 K3 K4 K5].
  assert (Hin' : Restart ∈ a_sources a') by (rewrite Hn, Hs2; set_solver).
  pose proof (occ_remove is_restart _ _ Hin') as O1. pose proof (occ_remove is_work _ _ Hin') as O2.
  pose proof (occ_remove is_retry _ _ Hin') as O3. rewrite Hn, Hs2, occ_app in O1, O2, O3.
  rewrite Hr in *. rewrite Hr2 in R. 
  change (Nat.b2n (is_restart Restart)) with 1%nat in O1.
  change (Nat.b2n (is_work Restart)) with 0%nat in O2.
  change (Nat.b2n (is_retry Restart)) with 0%nat in O3. cbn [Nat.b2n] in K2, R.
  split; cbn [a_sources set_sources a_restarting a_connect_busy a_awaiting].
  - by apply M1.
  - rewrite Hn, Hs2. lia.
  - rewrite Hn, Hs2, M4, Hb2. lia.
  - rewrite Hn, Hs2. lia.
  - rewrite Hn, Hs2, M3, Hw2. intros Haw. specialize (K5 Haw). lia.
Qed.

(** The sources after a one-shot callback that appended [new]. *)
Lemma occ_after p s l new :
  s ∈ l → (occ p (remove_source s (l ++ new)) + Nat.b2n (p s) = occ p l + occ p new)%nat.
Proof. intros Hin. rewrite occ_remove by set_solver. apply occ_app. Qed.

Lemma fire_retry a : Retry ∈ a_sources a → loop_ok a → loop_ok (fire cwd argv0 Retry a).
Proof.
  intros Hin [K1 K2 K3 K4 K5]. rewrite fire_once by apply never_true_once. cbv zeta. cbn [callback].
  pose proof (occ_remove is_retry _ _ Hin) as O. change (Nat.b2n (is_retry Retry)) with 1%nat in O.
  assert (Hb : a_connect_busy a = false) by (destruct (a_connect_busy a); [cbn in K3; lia|done]).
  unfold once, _retry_connect, _try_connect, _set_connect_state, add_source, own, mbind, M_bind, gets, modify.
  cbn [fst snd id]. destruct (a_awaiting a) eqn:Haw; cbn; rewrite ?Haw, ?Hb; cbn.
  - pose proof (occ_after is_restart Retry (a_sources a) [ConnectWork] Hin) as O1.
    pose proof (occ_after is_work Retry (a_sources a) [ConnectWork] Hin) as O2.
    pose proof (occ_after is_retry Retry (a_sources a) [ConnectWork] Hin) as O3.
    rewrite Hb in K3. cbn [Nat.b2n] in K3.
    change (Nat.b2n (is_restart Retry)) with 0%nat in O1. change (Nat.b2n (is_work Retry)) with 0%nat in O2.
    change (Nat.b2n (is_retry Retry)) with 1%nat in O3.
    change (occ is_restart [ConnectWork]) with 0%nat in O1. change (occ is_work [ConnectWork]) with 1%nat in O2.
    change (occ is_retry [ConnectWork]) with 0%nat in O3.
    split; cbn [a_sources set_sources a_restarting a_connect_busy a_awaiting set_connect Nat.b2n]; [done|lia..].
  - pose proof (occ_remove is_restart Retry (a_sources a) Hin) as O1.
    pose proof (occ_remove is_work Retry (a_sources a) Hin) as O2.
    change (Nat.b2n (is_restart Retry)) with 0%nat in O1. change (Nat.b2n (is_work Retry)) with 0%nat in O2.
    rewrite Hb in K3. cbn [Nat.b2n] in K3.
    split; cbn [a_sources set_sources a_restarting a_connect_busy a_awaiting]; rewrite ?Hb; cbn [Nat.b2n];
      [done|lia..|]. by rewrite Haw.
Qed.

Lemma connect_worker_run a :
  aok a → ∃ err a', connect_worker cwd argv0 a = (Ok err, a') ∧ ∃ d o, a' = set_os o (set_sup d a) ∧ sup_ok (d, o).
Proof using All.
  intros Ha. unfold connect_worker, try_with.
  destruct (safe_ensure cwd argv0 _ Ha) as [Hs He]. unfold on_sup.
  unfold mbind, M_bind. destruct (Sup.ensure cwd argv0 app_logger (a_sup a, a_os a)) as [[up|e] [d o]]; cbn in *.
  - eexists _, _. split; [done|]. by exists d, o.
  - rewrite (He e eq_refl). eexists _, _. split; [done|]. by exists d, o.
Qed.

Lemma fire_work a : ConnectWork ∈ a_sources a → loop_ok a → loop_ok (fire cwd argv0 ConnectWork a).
Proof using All.
  intros Hin [K1 K2 K3 K4 K5]. rewrite fire_once by apply never_true_once. cbv zeta. cbn [callback].
  destruct (connect_worker_run a K1) as (err&a'&E1&d&o&->&Hok).
  unfold once. rewrite (M_bind_run _ _ a tt (set_sources (a_sources a ++ [ConnectDone err]) (set_os o (set_sup d a))))
    by (by rewrite (M_bind_run _ _ _ _ _ E1)).
  cbn [snd mret M_ret].
  pose proof (occ_after is_restart ConnectWork (a_sources a) [ConnectDone err] Hin) as O1.
  pose proof (occ_after is_work ConnectWork (a_sources a) [ConnectDone err] Hin) as O2.
  pose proof (occ_after is_retry ConnectWork (a_sources a) [ConnectDone err] Hin) as O3.
  change (Nat.b2n (is_restart ConnectWork)) with 0%nat in O1. change (Nat.b2n (is_work ConnectWork)) with 1%nat in O2.
  change (Nat.b2n (is_retry ConnectWork)) with 0%nat in O3.
  change (occ is_restart [ConnectDone err]) with 0%nat in O1. change (occ is_work [ConnectDone err]) with 1%nat in O2.
  change (occ is_retry [ConnectDone err]) with 0%nat in O3.
  split; cbn [a_sources set_sources set_os set_sup a_restarting a_connect_busy a_awaiting]; [exact Hok|lia..|].
  intros Haw. specialize (K5 Haw). lia.
Qed.

Lemma mon_set_connect_state ssh_s daemon_s : mon (_set_connect_state ssh_s daemon_s).
Proof. by apply mon_modify. Qed.

Lemma mon_connected : mon (
  _ ← _set_connect_state "connected" "connected";
  _ ← modify (λ a, set_connect (a_awaiting a) (a_connect_busy a) (a_connect_show a) (a_connect_state a) false a);
  t ← tunnel self_;
  _ ← log ("connected to remote daemon (" +:+ host t +:+ ")");
  a ← own id;
  if a_connect_show a || negb (a_tray a) then open_window else mret tt).
Proof using All.
  apply mon_bind; [apply mon_set_connect_state|intros _].
  apply mon_bind; [by apply mon_modify|intros _].
  repeat first [apply mon_open | progress mon_tac].
Qed.

(** The callback of an attempt ends connected, abandoned, or with the next
    attempt pending. *)
Lemma connect_done_run err a :
  aok a → ∃ a' new, (connect_done err a).2 = a' ∧ aok a' ∧ a_connect_busy a' = false ∧
    a_sources a' = a_sources a ++ new ∧ occ is_work new = 0%nat ∧ (occ is_retry new <= 1)%nat ∧
    (Nat.b2n (a_restarting a) + occ is_restart new = Nat.b2n (a_restarting a'))%nat ∧
    (a_awaiting a' = true → occ is_retry new = 1%nat).
Proof using All.
  intros Ha. unfold connect_done.
  set (a1 := set_connect (a_awaiting a) false (a_connect_show a) (a_connect_state a) (a_connect_window a) a).
  rewrite (M_bind_run _ _ a tt a1) by done. rewrite (M_bind_run _ _ a1 a1 a1) by done.
  assert (Ha1 : aok a1) by exact Ha.
  destruct (a_awaiting a1) eqn:Haw; cbn [negb].
  2: { exists a1, []. rewrite app_nil_r. split_and!; try done; [cbn; lia|by rewrite Haw]. }
  assert (∃ ready d o, (match err with None => on_sup Sup._reachable | Some _ => mret false end) a1
    = (Ok ready, set_os o (set_sup d a1)) ∧ sup_ok (d, o)) as (ready&d&o&E1&H1).
  { destruct err; [exists false, (a_sup a1), (a_os a1); split; [by destruct a|done]|].
    by apply sup_run; [apply reachable_returns|]. }
  rewrite (M_bind_run _ _ _ _ _ E1). set (a2 := set_os o (set_sup d a1)). destruct ready.
  - unfold _on_connected.
    set (a3 := set_connect false (a_connect_busy a2) (a_connect_show a2) (a_connect_state a2) (a_connect_window a2) a2).
    rewrite (M_bind_run _ _ a2 tt a3) by done.
    destruct (mon_connected a3 H1) as [M1 M2 M3 M4 (new&Hn&W&T&R)].
    eexists _, new. split; [reflexivity|].
    split; [by apply M1|]. split; [by rewrite M4|]. split; [exact Hn|]. split; [done|]. split; [lia|].
    split; [exact R|]. by rewrite M3.
  - destruct (sup_run _ a2 (on_tunnel_returns _ is_running_returns) H1) as (ssh_ok&d3&o3&E3&H3).
    fold (tunnel (A := bool)) in E3. rewrite (M_bind_run _ _ _ _ _ E3).
    eexists _, [Retry]. split; [reflexivity|]. cbn. split_and!; try done; by destruct (a_restarting a).
Qed.

Lemma fire_done err a : ConnectDone err ∈ a_sources a → loop_ok a → loop_ok (fire cwd argv0 (ConnectDone err) a).
Proof using All.
  intros Hin [K1 K2 K3 K4 K5]. rewrite fire_once by apply never_true_once. cbv zeta. cbn [callback].
  set (s := ConnectDone err) in *.
  destruct (connect_done_run err a K1) as (a'&new&E1&H1&H2&H3&H4&H5&H6&H7).
  assert ((once (connect_done err) a).2 = a') as ->.
  { unfold once, mbind, M_bind. by destruct (connect_done err a) as [[u|e] a'']. }
  pose proof (occ_after is_restart s (a_sources a) new Hin) as O1.
  pose proof (occ_after is_work s (a_sources a) new Hin) as O2.
  pose proof (occ_after is_retry s (a_sources a) new Hin) as O3.
  change (Nat.b2n (is_restart s)) with 0%nat in O1. change (Nat.b2n (is_work s)) with 1%nat in O2.
  change (Nat.b2n (is_retry s)) with 0%nat in O3.
  assert (Nat.b2n (a_connect_busy a) = 1%nat) by (destruct (a_connect_busy a); cbn [Nat.b2n] in *; lia).
  split; cbn [a_sources set_sources a_connect_busy a_restarting a_awaiting]; rewrite ?H2, ?H3; cbn [Nat.b2n];
    [exact H1|lia..|]. intros Haw. specialize (H7 Haw). lia.
Qed.

(** *** Every move *)

Lemma mon_maybe_show : mon (once _maybe_show_connect).
Proof. apply mon_bind; [|intros _; apply mon_ret]. apply mon_modify. intros a. by destruct (_ && _). Qed.
Lemma mon_rewatched nodes : mon (callback cwd argv0 (Rewatch nodes)).
Proof.
  apply mon_bind; [|intros _; apply mon_ret]. apply mon_bind; [apply mon_own|intros [cl|]]; [|apply mon_ret].
  apply mon_sup, on_world_keeps.
Qed.

Lemma quit_loop a : loop_ok a → loop_ok (quit a).2.
Proof using All.
  intros Hok. unfold quit. rewrite (M_bind_run _ _ a a a) by done. destruct (a_quitting a); [done|].
  set (a1 := set_connect false (a_connect_busy a) (a_connect_show a) (a_connect_state a) (a_connect_window a)
    (set_quitting true a)).
  assert (Hok1 : loop_ok a1) by (destruct Hok as [K1 K2 K3 K4 K5]; by split).
  rewrite (M_bind_run _ _ a tt (set_quitting true a)) by done.
  rewrite (M_bind_run _ _ (set_quitting true a) tt a1) by done.
  match goal with |- loop_ok (?p a1).2 => cut (mon p); [intros Hm; exact (mstep_loop _ _ (Hm a1 (lo_ok _ Hok1)) Hok1)|] end.
  apply mon_bind; [apply mon_log|intros _]. apply mon_bind.
  - apply within_try; [apply _|exact mstep_aok| |intros e; apply mon_ret].
    intros b Hb. assert (mstep b (on_sup Sup.stop b).2) as Hs; [|exact Hs].
    unfold on_sup. assert (Hk : sup_ok (Sup.stop (a_sup b, a_os b)).2).
    { unfold Sup.stop. rewrite (M_bind_run _ _ _ (a_sup b) (a_sup b, a_os b)) by done.
      pose proof Hb as (He&[t Ht]&_). cbn in He, Ht. rewrite He, Ht.
      by apply (on_tunnel_keeps Tunnel.stop); [by apply ssh_stop|]. }
    destruct (Sup.stop (a_sup b, a_os b)) as [r [d o]]. by apply sup_moved.
  - intros _. apply mon_sup. intros [d o] Hs. split; [|done]. unfold on_os, om_path, om_world, mbind, M_bind, gets. cbn.
    by destruct (remove_file _ (o_world o)) as [r w].
Qed.

Lemma move_loop m a : loop_ok a → loop_ok (run_move cwd argv0 m a).
Proof using All.
  intros Hok. destruct m as [s| | |ms]; cbn [run_move].
  - case_decide as Hin; [|done].
    destruct s;
      first [ by apply fire_restart | by apply fire_retry | by apply fire_work | by apply fire_done | idtac ];
      apply fire_mon; try done.
    + apply mon_probe.
    + apply mon_confirm.
    + apply mon_poll.
    + apply mon_heartbeat.
    + apply mon_maybe_show.
    + apply mon_beat.
    + apply mon_rewatched.
  - by apply quit_loop.
  - eapply mstep_loop; [|exact Hok]. apply mon_open, Hok.
  - destruct Hok as [K1 K2 K3 K4 K5]. split; [|done..].
    destruct K1 as (?&?&?). split_and!; [done|done|]. by apply ssh_stays.
Qed.

Definition run_moves (ms : list move) (a : app) : app := foldl (λ a m, run_move cwd argv0 m a) a ms.

Lemma moves_loop ms a : loop_ok a → loop_ok (run_moves ms a).
Proof using All.
  revert a; induction ms as [|m ms IH]; intros a Hok; [done|]. by apply IH, move_loop.
Qed.

Lemma started_loop d o session tray show : sup_ok (d, o) → loop_ok (started d o session tray show).
Proof.
  intros Hok. unfold started. by destruct show; (split; [exact Hok|cbn..]).
Qed.

(** However the timers fire, the workers end, the user opens windows or
    quits, and time passes: the monitor has a restart of the tunnel pending
    exactly when it says one is under way, never two; the attempts to connect
    never overlap; and while the application awaits the first connection, an
    attempt or its retry is pending, so that it never waits for nothing. *)
Theorem main_loop_invariant d o session tray show ms :
  external d = true → is_Some (ds_tunnel d) → "ssh" ∈ o_bins o →
  let a := run_moves ms (started d o session tray show) in
  occ is_restart (a_sources a) = Nat.b2n (a_restarting a) ∧
  occ is_work (a_sources a) = Nat.b2n (a_connect_busy a) ∧
  (occ is_work (a_sources a) + occ is_retry (a_sources a) <= 1)%nat ∧
  (a_awaiting a = true → (occ is_work (a_sources a) + occ is_retry (a_sources a) = 1)%nat).
Proof using All.
  intros H1 H2 H3 a. assert (Hok : loop_ok a) by (apply moves_loop, started_loop; done).
  by destruct Hok.
Qed.

Definition tunnel_restarts (a : app) : option Z := restarts <$> ds_tunnel (a_sup a).

(** A restart counts itself and starts one [ssh], with this configuration. *)
Lemma restart_counts (lg : logger) t o :
  (∀ l, raises never (lg l)) → ssh (t, o) →
  let s' := (restart (λ l, on_world (lg l)) (t, o)).2 in
  restarts s'.1 = restarts t + 1 ∧ o_started s'.2 = ssh_argv t :: o_started o.
Proof using All.
  intros Hlg Hssh. cbv zeta. rewrite restart_split.
  destruct (restart_attempt_spec t o) as (r&[t1 o1]&Hrun&Hc&Hn&Hst&Hr).
  destruct r as [up|e].
  - rewrite (M_bind_run _ _ _ _ _ Hrun).
    set (rest := _ ≫= _). assert (Hk : keeps (same_config (config t) (restarts t + 1) (ssh_argv t :: o_started o)) rest any).
    { subst rest. keeps_tac; first [apply same_world | by apply keeps_modify | apply keeps_gets_any]. }
    destruct (Hk (t1, o1)) as [(?&?&?) _]; [by split_and!|done].
  - exfalso. destruct Hr as (_&[[_ Hno]|[_ Hno]]); [apply Hno; by apply (ssh_stop (t, o))|].
    by rewrite dirs_made in Hno.
Qed.

(** Programs that start no [ssh]: the counter is [n], the commands started [l]. *)
Definition counted (n : Z) (l : list (list string)) (a : app) : Prop :=
  tunnel_restarts a = Some n ∧ o_started (a_os a) = l.
Lemma counted_tunnel {A} n l (m : TM A) :
  keeps (λ s, restarts s.1 = n ∧ o_started s.2 = l) m any → keeps (counted n l) (tunnel m) any.
Proof.
  intros Hm a [Ha Hl]. split; [|done]. unfold tunnel, on_sup, on_tunnel, counted, tunnel_restarts in *.
  destruct (ds_tunnel (a_sup a)) as [t|] eqn:Ht; [|done]. injection Ha as Ha.
  destruct (Hm (t, a_os a) (conj Ha Hl)) as [[H1 H2] _]. destruct (m (t, a_os a)) as [r [t' o']]. cbn in *.
  by rewrite H1, H2.
Qed.
Lemma counted_world {A} n l (m : IO A) : keeps (counted n l) (on_sup (on_os (om_world m))) any.
Proof.
  intros a Ha. split; [|done]. unfold on_sup, on_os, om_world. by destruct (m (o_world (a_os a))) as [r w].
Qed.
Lemma counted_log n l line : keeps (counted n l) (log line) any.
Proof. apply counted_world. Qed.
Lemma counted_schedule n l : keeps (counted n l) _schedule_tunnel_restart any.
Proof.
  unfold _schedule_tunnel_restart, own, add_source. keeps_tac; try by apply keeps_modify.
  - apply counted_tunnel. intros [t o'] H. by split.
  - apply counted_tunnel, keeps_gets_any.
  - apply counted_log.
Qed.
Lemma counted_rewatch n l : keeps (counted n l) rewatch any.
Proof.
  unfold rewatch, own, add_source. keeps_tac; [apply counted_world|by apply keeps_modify].
Qed.

#[local] Hint Resolve counted_log counted_schedule counted_rewatch : keeps.
Lemma fire_restart_counts a t :
  aok a → a_quitting a = false → ds_tunnel (a_sup a) = Some t →
  counted (restarts t + 1) (ssh_argv t :: o_started (a_os a)) (fire cwd argv0 Restart a).
Proof using All.
  intros Ha Hq Ht. rewrite fire_once by apply never_true_restart. cbv zeta. cbn [callback].
  match goal with |- counted ?n ?l (set_sources _ ?x) => change (counted n l x) end.
  unfold _do_tunnel_restart. rewrite (M_bind_run _ _ a a a) by done. rewrite Hq.
  destruct (on_tunnel_returns _ (restart_returns app_logger log_fn_returns) _ Ha) as (ok&[d o]&E1&H1).
  set (a1 := set_os o (set_sup d a)).
  assert (Hn1 : counted (restarts t + 1) (ssh_argv t :: o_started (a_os a)) a1).
  { unfold on_tunnel in E1. destruct Ha as (_&_&Hssh). cbn in Hssh. rewrite Ht in E1.
    destruct (restart_counts app_logger t (a_os a) log_fn_returns Hssh) as [Hc Hl].
    destruct (restart _ (t, a_os a)) as [r [t' o']]. cbn in Hc, Hl. injection E1 as _ <- <-.
    unfold counted, tunnel_restarts. cbn. by rewrite Hc, Hl. }
  rewrite (M_bind_run _ _ a ok a1) by (unfold tunnel, on_sup; by rewrite E1).
  match goal with |- counted ?n ?l (?p a1).2 => assert (Hk : keeps (counted n l) p any) end.
  - unfold poll_status. keeps_tac; try (by apply keeps_modify).
    + apply counted_tunnel, keeps_modify. by intros [t' o'].
    + apply keeps_modify. intros b Hb. by destruct (a_window b).
  - by apply Hk.
Qed.

(** C30: A tunnel seen down is restarted: in any state the application reaches
    in which it neither quits nor awaits the connection, [poll] finding the
    process or the socket gone leaves a restart pending; and whatever happens in
    between, when a pending restart runs, unless the user has quit by then, one
    [ssh] is started, with the tunnel's host and sockets.  ([ssh] is on the search
    path and stays there, and directories can be made.) *)
Theorem down_tunnel_restarted a0 ms ms' :
  loop_ok a0 → let a := run_moves ms a0 in
  a_quitting a = false → a_awaiting a = false →
  (tunnel is_running a).1 = Ok false → Poll ∈ a_sources a →
  let a1 := run_move cwd argv0 (MFire Poll) a in
  (a_restarting a1 = true ∧ Restart ∈ a_sources a1 ∧ Poll ∈ a_sources a1) ∧
  let a2 := run_moves ms' a1 in
  (a_quitting a2 = false → Restart ∈ a_sources a2 → ∃ t, ds_tunnel (a_sup a2) = Some t ∧
    o_started (a_os (run_move cwd argv0 (MFire Restart) a2)) = ssh_argv t :: o_started (a_os a2)).
Proof using All.
  intros H0 a Hq Haw Hdown Hin a1.
  assert (Hok : loop_ok a) by (by apply moves_loop). clearbody a. clear H0.
  split.
  2: { intros a2 Hq2 Hin2. assert (Hok2 : loop_ok a2)
         by (apply moves_loop; exact (moves_loop [MFire Poll] a Hok)).
       pose proof (lo_ok _ Hok2) as Ha2. pose proof Ha2 as (_&[t Ht]&_). exists t. split; [done|].
       cbn [run_move]. rewrite decide_True by done. by apply (fire_restart_counts a2 t). }
  subst a1. cbn [run_move]. rewrite decide_True by done. unfold fire. cbn [callback]. unfold poll.
  rewrite (M_bind_run _ _ a a a) by done. rewrite Hq, Haw. pose proof (lo_ok _ Hok) as (He&[t Ht]&_).
  cbn in He, Ht. rewrite He, Ht. destruct (a_restarting a) eqn:Hr.
  { cbn. split_and!; try done.
    pose proof (lo_restart _ Hok) as Ho. rewrite Hr in Ho. unfold occ in Ho. cbn [Nat.b2n] in Ho.
    destruct (List.filter is_restart (a_sources a)) as [|s l] eqn:Hf; [done|].
    assert (Hs : s ∈ List.filter is_restart (a_sources a)) by (rewrite Hf; left).
    apply list_elem_of_In, filter_In in Hs as [Hs Hp]. apply bool_decide_eq_true in Hp as ->.
    by apply list_elem_of_In. }
  destruct (sup_run _ a (on_tunnel_returns _ is_running_returns) (lo_ok _ Hok)) as (up&d&o&E1&H1).
  change (on_sup (on_tunnel is_running) a) with (tunnel is_running a) in E1.
  rewrite E1 in Hdown. injection Hdown as ->. rewrite (M_bind_run _ _ _ _ _ E1). cbn [negb].
  set (a2 := set_os o (set_sup d a)) in *.
  destruct (sup_run _ a2 (say_returns "tunnel: ssh process gone - restarting") H1) as (u&d3&o3&E3&H3).
  change (on_sup (say app_logger ?l) a2) with (log l a2) in E3.
  set (a3 := set_os o3 (set_sup d3 a2)) in *.
  destruct (schedule_run a3 H3) as (a4&E4&H4&Hs4&Hr4&Hin4).
  rewrite (M_bind_run _ _ a2 tt a4) by (by rewrite (M_bind_run _ _ _ _ _ E3)).
  cbn [mret M_ret]. split_and!.
  - rewrite Hr4. cbn. by rewrite Hr, Hq.
  - apply Hin4. cbn. by rewrite Hr, Hq.
  - destruct (ms_sources _ _ Hs4) as (new&->&_). cbn. set_solver.
Qed.

(** ** A restart that cannot start [ssh] *)

(** The flag says a restart is under way, and none is pending. *)
Record wedged (n : Z) (a : app) : Prop := {
  we_external : external (a_sup a) = true;
  we_count : tunnel_restarts a = Some n;
  we_flag : a_restarting a = true;
  we_none : Restart ∉ a_sources a;
  we_connected : a_awaiting a = false ∧ occ is_work (a_sources a) = 0%nat;
}.

Lemma occ_remove_le p s l : (occ p (remove_source s l) <= occ p l)%nat.
Proof.
  unfold occ. induction l as [|s' l IH]; [done|]. cbn [remove_source].
  case_decide; cbn [List.filter]; destruct (p s'); cbn [length]; lia.
Qed.
Lemma remove_source_sub s s' l : s' ∈ remove_source s l → s' ∈ l.
Proof.
  induction l as [|s0 l IH]; cbn; [done|]. case_decide; [by right|].
  rewrite !elem_of_cons. intros [->|Hs]; [by left|right; by apply IH].
Qed.
Lemma wedged_drop n s a : wedged n a → wedged n (set_sources (remove_source s (a_sources a)) a).
Proof.
  intros [W1 W2 W3 W4 [W5 W6]]. split; [done..| |split; [done|]]; cbn [a_sources set_sources].
  - by intros ?%remove_source_sub.
  - apply Nat.le_0_r. rewrite <-W6. apply occ_remove_le.
Qed.
Lemma work_in s a : is_work s = true → s ∈ a_sources a → occ is_work (a_sources a) ≠ 0%nat.
Proof.
  intros Hs Hin. pose proof (occ_remove is_work s _ Hin) as O. rewrite Hs in O. cbn [Nat.b2n] in O. lia.
Qed.

(** Programs of the machine alone. *)
Lemma wedged_os {A} n (m : OM A) : keeps (wedged n) (on_sup (on_os m)) any.
Proof.
  intros a [W1 W2 W3 W4 W5]. split; [|done]. unfold on_sup, on_os.
  destruct (m (a_os a)) as [r o']. by split.
Qed.
Lemma counted_stop n : keeps (λ s, restarts s.1 = n) Tunnel.stop any.
Proof.
  intros [t o] Hn. split; [|done]. rewrite stop_steps.
  pose proof (same_stop_process (config t) n (o_started o) (stop_target t o) (t, o)
    (conj eq_refl (conj Hn eq_refl))) as [(_&H&_) _].
  unfold mbind, M_bind. destruct (stop_process (stop_target t o) (t, o)) as [[u|e] [t1 o1]]; [|done].
  by rewrite stop_files_run.
Qed.

Lemma wedged_callback n s a :
  s ∈ a_sources a → wedged n a → wedged n (callback cwd argv0 s a).2.
Proof.
  intros Hin W. pose proof W as [W1 W2 W3 W4 [W5 W6]]. destruct s; cbn [callback].
  - unfold probe_tunnel. rewrite (M_bind_run _ _ a a a) by done. rewrite W1, W5, W3.
    by destruct (a_quitting a).
  - unfold _confirm_tunnel. rewrite (M_bind_run _ _ a a a) by done. rewrite W3. by destruct (a_quitting a).
  - done.
  - unfold poll. rewrite (M_bind_run _ _ a a a) by done. rewrite W1, W5, W3.
    destruct (a_quitting a); [done|]. by destruct (ds_tunnel _).
  - unfold heartbeat. rewrite (M_bind_run _ _ a a a) by done. destruct (a_quitting a); [done|].
    split; [done..| |split; [done|]];
      [by intros [?|?%list_elem_of_singleton]%elem_of_app|].
    change (occ is_work (a_sources a ++ [Beat]) = 0%nat). by rewrite occ_app, W6.
  - unfold once, _maybe_show_connect, mbind, M_bind, modify. cbn. rewrite W5. cbn. exact W.
  - unfold once, _retry_connect, own, mbind, M_bind, gets. cbn. rewrite W5. exact W.
  - by destruct (work_in ConnectWork a eq_refl Hin).
  - by destruct (work_in (ConnectDone err) a eq_refl Hin).
  - assert (Hk : keeps (wedged n) (once (on_sup beat)) any); [|by apply Hk].
    unfold once, beat. eapply keeps_bind; [apply wedged_os|intros ? _; apply keeps_ret_any].
  - match goal with |- wedged n (?m a).2 => assert (Hk : keeps (wedged n) m any); [|by apply Hk] end.
    unfold once, own. keeps_tac. apply wedged_os.
Qed.

Lemma wedged_quit n a : wedged n a → wedged n (quit a).2.
Proof.
  intros W. unfold quit. rewrite (M_bind_run _ _ a a a) by done. destruct (a_quitting a); [done|].
  set (a1 := set_connect false (a_connect_busy a) (a_connect_show a) (a_connect_state a) (a_connect_window a)
    (set_quitting true a)).
  rewrite (M_bind_run _ _ a tt (set_quitting true a)) by done.
  rewrite (M_bind_run _ _ (set_quitting true a) tt a1) by done.
  assert (W1 : wedged n a1) by (destruct W as [? ? ? ? [? ?]]; by split).
  match goal with |- wedged n (?m a1).2 => assert (Hk : keeps (wedged n) m any); [|by apply Hk] end.
  eapply keeps_bind; [apply wedged_os|intros ? _].
  eapply (keeps_bind _ _ _ any); [|intros ? _; apply wedged_os].
  apply keeps_try; [|intros e; apply keeps_ret_any].
  intros b [V1 V2 V3 V4 V5]. split; [|done]. unfold on_sup, Sup.stop.
  rewrite (M_bind_run _ _ _ (a_sup b) (a_sup b, a_os b)) by done. rewrite V1.
  destruct (ds_tunnel (a_sup b)) as [t|] eqn:Ht; [|by unfold tunnel_restarts in V2; rewrite Ht in V2].
  unfold on_tunnel. rewrite Ht. unfold tunnel_restarts in V2. rewrite Ht in V2. injection V2 as V2.
  pose proof (counted_stop n (t, a_os b) V2) as [Hc _].
  destruct (Tunnel.stop (t, a_os b)) as [r [t' o']]. split; try done. cbn. unfold tunnel_restarts. cbn. by f_equal.
Qed.

Lemma wedged_move n m a : wedged n a → wedged n (run_move cwd argv0 m a).
Proof.
  intros W. destruct m as [s| | |ms]; cbn [run_move].
  - case_decide as Hin; [|done]. pose proof (wedged_callback n s a Hin W) as W'. unfold fire.
    destruct (callback cwd argv0 s a) as [[[]|e] a']; [done|by apply wedged_drop..].
  - by apply wedged_quit.
  - unfold open_window. cbn. destruct (_ || _); [done|]. destruct W. by split.
  - destruct W. by split.
Qed.

Lemma restart_raises (lg : logger) t o e s' :
  (∀ l, raises never (lg l)) → restart (λ l, on_world (lg l)) (t, o) = (Raise e, s') →
  restarts s'.1 = restarts t + 1.
Proof.
  intros Hlg. rewrite restart_split.
  destruct (restart_attempt_spec t o) as (r&[t1 o1]&Hrun&Hc&Hn&_&_).
  destruct r as [up|e']; [|rewrite (M_bind_raise _ _ _ _ _ Hrun); by intros [= _ <-]].
  rewrite (M_bind_run _ _ _ _ _ Hrun). set (rest := _ ≫= _).
  assert (Hr : raises never rest).
  { assert (∀ l, raises never (on_world (lg l))) by (intros l; apply raises_on_world, Hlg).
    subst rest. apply raises_bind; [apply raises_gets|intros t2]. unfold update. destruct up; raises_tac; auto. }
  intros He. exfalso. apply (Hr (t1, o1) e). by rewrite He.
Qed.

(** When a restart raises, as it does when [ssh] cannot be started or the
    directory of its socket cannot be made, the flag [_tunnel_restarting] stays set and no timer is left: whatever happens
    afterwards, were [ssh] back, the monitor never attempts another one. *)
Theorem restart_error_wedges a e n ms :
  external (a_sup a) = true → tunnel_restarts a = Some n → a_restarting a = true → a_quitting a = false →
  a_awaiting a = false → occ is_work (a_sources a) = 0%nat →
  occ is_restart (a_sources a) = 1%nat → Restart ∈ a_sources a →
  (tunnel (restart (λ l, on_world (app_logger l))) a).1 = Raise e →
  let a' := run_moves ms (run_move cwd argv0 (MFire Restart) a) in
  a_restarting a' = true ∧ (Restart ∉ a_sources a') ∧ tunnel_restarts a' = Some (n + 1).
Proof.
  intros He Hn Hr Hq Haw Hw Ho Hin Hraise a'.
  assert (W : wedged (n + 1) (run_move cwd argv0 (MFire Restart) a)).
  { cbn [run_move]. rewrite decide_True by done. unfold fire. cbn [callback]. unfold _do_tunnel_restart.
    rewrite (M_bind_run _ _ a a a) by done. rewrite Hq.
    destruct (tunnel (restart (λ l, on_world (app_logger l))) a) as [r a1] eqn:E1. cbn in Hraise. subst r.
    rewrite (M_bind_raise _ _ _ _ _ E1).
    unfold tunnel, on_sup, on_tunnel, tunnel_restarts in E1, Hn.
    destruct (ds_tunnel (a_sup a)) as [t|] eqn:Ht; [|done]. injection Hn as Hn.
    destruct (restart _ (t, a_os a)) as [r [t' o']] eqn:E2. injection E1 as -> <-.
    pose proof (restart_raises _ _ _ _ _ log_fn_returns E2) as Hc. cbn in Hc.
    pose proof (occ_remove is_restart _ _ Hin) as O. change (Nat.b2n (is_restart Restart)) with 1%nat in O.
    split; cbn [a_sources set_sources a_restarting a_awaiting a_sup set_os set_sup with_tunnel external].
    - exact He.
    - unfold tunnel_restarts. cbn. by rewrite Hc, Hn.
    - exact Hr.
    - intros Hin'. pose proof (occ_remove is_restart _ _ Hin') as O'. rewrite Ho in O.
      change (Nat.b2n (is_restart Restart)) with 1%nat in O'. rewrite Nat.add_1_r in O, O'. congruence.
    - split; [done|]. apply Nat.le_0_r. rewrite <-Hw. apply occ_remove_le. }
  assert (W' : wedged (n + 1) a').
  { subst a'. revert W. generalize (run_move cwd argv0 (MFire Restart) a). clear -EL.
    induction ms as [|m ms IH]; intros a W; [done|]. by apply IH, wedged_move. }
  by destruct W'.
Qed.
End Ssh.

(** ** Witnesses *)

Section AppWitness.
Local Existing Instances tun_json tun_daemon tun_env tun_env_laws.
Local Instance app_nacl : NaCl := RefNaCl.
Local Instance app_locale : Locale := {| strftime _ _ := "12:00" |}.

Definition app_dsup : dsup := DSup (Some (Remote "u@h" "/s" "/l")) (Some tun_sup) None "/l" None.

Lemma tun_ssh_stays ms (o : os) : "ssh" ∈ o_bins o → "ssh" ∈ o_bins (pass ms o).
Proof. done. Qed.
Lemma tun_dirs_made (dir : string) (now : Z) : makes_dir dir now = true.
Proof. done. Qed.
Lemma tun_connect_errors (sock : string) (s : dstate) (e : exn) :
  d_connect sock s = Raise e → is_exception e = true.
Proof. done. Qed.
Lemma tun_request_errors (op : string) (f : list (string * json)) (s : dstate) (e : exn) :
  (d_request op f s).1 = Raise e → is_exception e = true.
Proof. done. Qed.

Example main_loop_invariant_witness :
  let a := run_moves "/" "aimless" [MFire ConnectWork; MOpen; MPass 7; MQuit]
             (started app_dsup tun_os None true true) in
  occ is_work (a_sources a) = Nat.b2n (a_connect_busy a).
Proof.
  destruct (main_loop_invariant tun_ssh_stays tun_dirs_made tun_connect_errors tun_request_errors "/" "aimless"
    app_dsup tun_os None true true [MFire ConnectWork; MOpen; MPass 7; MQuit]) as (_&H&_);
    [reflexivity|by eexists|by apply elem_of_singleton|]. exact H.
Defined.

(** Connected, with nothing under way but the polling. *)
Definition app_idle (o : os) (restarting : bool) (l : list source) : app :=
  App app_dsup o None false true false 0 restarting false false false true ("connected", "connected") false l 0 0.

Lemma app_idle_ok : loop_ok (app_idle tun_os false [Poll]).
Proof. split; [split_and!; [done|by eexists|by apply elem_of_singleton]|reflexivity|reflexivity|apply le_S, le_n|discriminate]. Qed.

Example down_tunnel_restarted_witness :
  let a1 := run_move "/" "aimless" (MFire Poll) (app_idle tun_os false [Poll]) in
  a_restarting a1 = true ∧
  o_started (a_os (run_move "/" "aimless" (MFire Restart) a1)) = [ssh_argv tun_sup].
Proof.
  destruct (down_tunnel_restarted tun_ssh_stays tun_dirs_made tun_connect_errors tun_request_errors "/" "aimless"
    (app_idle tun_os false [Poll]) [] []) as ((H1&_)&H2);
    [exact app_idle_ok|reflexivity|reflexivity|vm_compute; reflexivity|left|].
  split; [exact H1|]. destruct H2 as (t&Ht&H2); [reflexivity|vm_compute; right; left|].
  refine (eq_trans H2 _). revert Ht. vm_compute. by intros [= <-].
Defined.

(** The same machine without [ssh]. *)
Definition tun_os_bare : os := Os tun_world ∅ ∅ [] [].
Example restart_error_wedges_witness :
  let a' := run_moves "/" "aimless" [MPass 1000; MFire Poll; MFire Probe]
    (run_move "/" "aimless" (MFire Restart) (app_idle tun_os_bare true [Poll; Probe; Restart])) in
  a_restarting a' = true ∧ (Restart ∉ a_sources a') ∧ tunnel_restarts a' = Some 1.
Proof.
  apply (restart_error_wedges "/" "aimless" (app_idle tun_os_bare true [Poll; Probe; Restart])
    (not_found "ssh") 0 [MPass 1000; MFire Poll; MFire Probe]); try reflexivity.
  right; right; left.
Defined.
End AppWitness.
