(* ===== verification/SuperviseProps.v ===== *)
(** * Properties of the daemon's supervisor

    Starting the local daemon always ends: with a daemon that answers, or with
    an error that says what went wrong.  Stopping it signals whatever process
    its pid file names. *)

From S2P Require Import Prelude PyStr Codec Json Sys Paths Logging Crypto DaemonClient Tunnel TunnelProps Supervise App AppProps.
Local Open Scope Z_scope.

(** ** Ensuring the local daemon *)

Section Ensure.
Context `{J : JsonCodec} `{D : Daemon} `{E : !Env} `{EL : !EnvLaws E} `{L : Locale}.
Hypothesis connect_errors : ∀ sock s e, d_connect sock s = Raise e → is_exception e = true.
Context (cwd argv0 : string).

(** Somebody listens on the supervisor's socket. *)
Definition answers (s : dsup * os) : Prop :=
  d_connect (ds_sock s.1) (w_daemon (o_world s.2)) = Ok tt.
Definition clock (s : dsup * os) : Z := w_now (o_world s.2).

Lemma om_world_pure {A} (m : IO A) r o : m (o_world o) = (r, o_world o) → om_world m o = (r, o).
Proof. unfold om_world. intros ->. by destruct o. Qed.

Lemma is_running_run d o :
  ∃ up, Sup.is_running (d, o) = (Ok up, (d, o)) ∧ (up = true ↔ answers (d, o)).
Proof using connect_errors.
  unfold Sup.is_running, answers. rewrite (M_bind_run _ _ _ (ds_sock d) (d, o)) by done.
  unfold on_os, reaches, try_with. cbn [fst snd].
  destruct (d_connect (ds_sock d) (w_daemon (o_world o))) as [[]|e] eqn:Hc.
  - exists true. rewrite (M_bind_run _ _ _ tt o); [done|]. apply om_world_pure. unfold connect. by rewrite Hc.
  - exists false. rewrite (M_bind_raise _ _ _ e o).
    + rewrite (connect_errors _ _ _ Hc). by split.
    + apply om_world_pure. unfold connect. by rewrite Hc.
Qed.

Lemma app_logger_run line w : ∃ m, app_logger line w = (Ok tt, set_fs m w).
Proof.
  unfold app_logger. rewrite (M_bind_run _ _ _ (w_env w) w) by done.
  rewrite (M_bind_run _ _ _ (w_home w) w) by done. eexists. by rewrite log_fn_run.
Qed.

(** Logging changes files only. *)
Lemma say_run line d o :
  ∃ m, say app_logger line (d, o) = (Ok tt, (d, set_world (set_fs m (o_world o)) o)).
Proof.
  unfold say, on_os, om_world. destruct (app_logger_run line (o_world o)) as [m ->]. by exists m.
Qed.

Lemma child_exited_run d o :
  ∃ b d' o', Sup.child_exited (d, o) = (Ok b, (d', o')) ∧ o_world o' = o_world o ∧
    ds_sock d' = ds_sock d ∧
    (b = true → ∃ c, ds_child d' = Some c ∧ ch_done c = true).
Proof.
  unfold Sup.child_exited. destruct (ds_child d) as [c|]; [|by exists false, d, o].
  assert (H : ∃ b c' o', Tunnel.poll c o = (b, (c', o')) ∧ o_world o' = o_world o ∧
    (b = true → ch_done c' = true)).
  { unfold Tunnel.poll. destruct (ch_done c) eqn:Hc; [by exists true, c, o|].
    destruct (o_procs o !! ch_pid c) as [p|]; [destruct (p_status p)|]; by eexists _, _, _. }
  destruct H as (b&c'&o'&->&Hw&Hb). exists b, (with_child (Some c') d), o'. split_and!; [done..|].
  intros Hbt. exists c'. by split; [|apply Hb].
Qed.

(** Why a daemon that was started is given up. *)
Inductive given_up (deadline : Z) (s' : dsup * os) : exn → Prop :=
| exited_at_once root c : ds_child s'.1 = Some c → ch_done c = true →
    given_up deadline s' (RuntimeError ("aimlessd exited immediately (check " +:+ root +:+ ")"))
| came_too_late : deadline <= clock s' →
    given_up deadline s' (RuntimeError "daemon did not come up within 20s").

Lemma await_local_run fuel deadline d o :
  (0 < fuel)%nat → deadline - clock (d, o) < 200 * (Z.of_nat fuel - 1) →
  ∃ r s', Sup.await_local fuel app_logger deadline (d, o) = (r, s') ∧
    match r with Ok b => b = true ∧ answers s' | Raise e => given_up deadline s' e end.
Proof using All.
  revert d o; induction fuel as [|fuel IH]; intros d o H0 Hf; [lia|]. cbn [Sup.await_local].
  rewrite (M_bind_run _ _ _ (clock (d, o)) (d, o)) by done.
  destruct (clock (d, o) <? deadline) eqn:Hd; [|do 2 eexists; split; [done|constructor; lia]].
  destruct (is_running_run d o) as (up&Hrun&Hup). rewrite (M_bind_run _ _ _ _ _ Hrun). destruct up.
  { destruct (say_run "daemon running" d o) as [m Hm]. rewrite (M_bind_run _ _ _ _ _ Hm).
    do 2 eexists. split; [done|]. split; [done|]. by apply Hup. }
  destruct (child_exited_run d o) as (b&d1&o1&Hb&Hw&Hsock&Hdone). rewrite (M_bind_run _ _ _ _ _ Hb).
  destruct b.
  { destruct (Hdone eq_refl) as (c&Hc&Hcd).
    rewrite (M_bind_run _ _ _ (root (w_env (o_world o1)) (w_home (o_world o1))) (d1, o1)) by done.
    do 2 eexists. split; [done|]. by eapply exited_at_once. }
  rewrite (M_bind_run _ _ _ tt (d1, pass 200 o1)) by done.
  pose proof (pass_clock 200 o1 ltac:(lia)) as Hclock. rewrite Hw in Hclock.
  apply IH; unfold clock in *; cbn [snd fst] in *; lia.
Qed.

(** *** Starting it *)

Definition not_found_text : string :=
  "aimlessd not found - put aimlessd-linux-amd64 (or aimlessd) next to " +:+ "aimless.pyz, or add it to PATH".
(** Why a daemon is not started. *)
Inductive not_started : exn → Prop :=
| no_binary : not_started (RuntimeError not_found_text)
| cannot_execute m : not_started (OSError m).

Lemma binary_run d o : ∃ b, on_os (daemon_binary cwd argv0) (d, o) = (Ok b, (d, o)).
Proof.
  assert (H : ∃ b, daemon_binary cwd argv0 o = (Ok b, o)).
  { unfold daemon_binary. rewrite (M_bind_run _ _ _ (expanduser (w_home (o_world o)) "/.local/bin") o) by done.
    unfold gets, mbind, M_bind. cbv beta zeta iota.
    match goal with |- context [match ?x with _ => _ end] => destruct x end; eexists; reflexivity. }
  unfold on_os. destruct H as [b ->]. by exists b.
Qed.

Lemma start_run b args o :
  ∃ r o', start_process (b :: args) o = (r, o') ∧ o_world o' = o_world o ∧
    match r with Ok c => True | Raise e => not_started e end.
Proof.
  unfold start_process. destruct (bool_decide (b ∈ o_bins o)); do 2 eexists; (split; [done|]);
    split; [done..|done|constructor].
Qed.

(** Starting leaves the socket's name and the clock, and on an error the
    supervisor, as they are. *)
Lemma spawn_run d o :
  ds_remote d = None →
  ∃ r s', Sup.spawn cwd argv0 (d, o) = (r, s') ∧ clock s' = clock (d, o) ∧ ds_sock s'.1 = ds_sock d ∧
    match r with Ok pid => ch_pid <$> ds_child s'.1 = Some pid | Raise e => not_started e ∧ s'.1 = d end.
Proof.
  intros Hd. unfold Sup.spawn. rewrite (M_bind_run _ _ _ d (d, o)) by done.
  unfold external. rewrite Hd. destruct (binary_run d o) as [b Hb].
  rewrite (M_bind_run _ _ _ _ _ Hb).
  destruct b as [b|]; [|do 2 eexists; split; [done|]; split_and!; [done..|constructor|done]].
  set (lp := daemon_log_path (w_env (o_world o)) (w_home (o_world o))).
  rewrite (M_bind_run _ _ _ lp (d, o)) by done.
  set (o1 := set_world (set_fs (fs_append lp [] (w_fs (o_world o))) (o_world o)) o).
  rewrite (M_bind_run _ _ _ tt (d, o1)) by done.
  destruct (start_run b ["-datadir"; default "" (ds_datadir d); "-api"; ds_sock d] o1) as (r&o2&Hs&Hw&Hr).
  assert (Hrun : on_os (start_process [b; "-datadir"; default "" (ds_datadir d); "-api"; ds_sock d]) (d, o1)
    = (r, (d, o2))) by (unfold on_os; by rewrite Hs).
  destruct r as [c|e]; [rewrite (M_bind_run _ _ _ _ _ Hrun)|rewrite (M_bind_raise _ _ _ _ _ Hrun)].
  2: { do 2 eexists. split; [done|]. unfold clock. cbn. rewrite Hw. by split_and!. }
  set (d1 := with_child (Some c) d). rewrite (M_bind_run _ _ _ tt (d1, o2)) by done.
  set (pp := daemon_pid_path (w_env (o_world o2)) (w_home (o_world o2))).
  rewrite (M_bind_run _ _ _ pp (d1, o2)) by done.
  destruct (write_file_run pp (utf8_encode (str_of_int (ch_pid c))) (o_world o2)) as (m&Hm&_).
  rewrite (M_bind_run _ _ _ tt (d1, set_world (set_fs m (o_world o2)) o2)).
  - do 2 eexists. split; [done|]. unfold clock. cbn. by rewrite Hw.
  - unfold on_os, try_with, om_world. by rewrite Hm.
Qed.

(** C39: With a local daemon [ensure] always ends.  When the daemon answers already nothing
    is done; otherwise either a daemon answers in the end, or an error says
    that there is no program to start, that it ended at once, or that 20
    seconds were not enough. *)
Theorem ensure_local_spec d o :
  ds_remote d = None →
  ∃ r s', Sup.ensure cwd argv0 app_logger (d, o) = (r, s') ∧
    (answers (d, o) → r = Ok true ∧ s' = (d, o)) ∧
    match r with
    | Ok b => b = true ∧ answers s'
    | Raise e => (not_started e ∧ s'.1 = d) ∨ given_up (clock (d, o) + 20000) s' e
    end.
Proof using All.
  intros Hd. unfold Sup.ensure. rewrite (M_bind_run _ _ _ d (d, o)) by done.
  unfold external. rewrite Hd.
  destruct (is_running_run d o) as (up&Hrun&Hup). rewrite (M_bind_run _ _ _ _ _ Hrun). destruct up.
  { do 2 eexists. split; [done|]. split; [done|]. split; [done|]. by apply Hup. }
  assert (Hno : ¬ answers (d, o)) by (by rewrite <-Hup).
  destruct (say_run "starting aimlessd …" d o) as [m Hm]. rewrite (M_bind_run _ _ _ _ _ Hm).
  set (o1 := set_world _ o). destruct (spawn_run d o1 Hd) as (r&[d2 o2]&Hs&Hc&Hk&Hr).
  destruct r as [pid|e]; [rewrite (M_bind_run _ _ _ _ _ Hs)|rewrite (M_bind_raise _ _ _ _ _ Hs)].
  2: { do 2 eexists. split; [done|]. split; [done|by left]. }
  rewrite (M_bind_run _ _ _ (clock (d2, o2)) (d2, o2)) by done.
  destruct (await_local_run (rounds 20000 200) (clock (d2, o2) + 20000) d2 o2) as (r&s'&Hrun'&Hr').
  { unfold rounds. lia. }
  { pose proof (rounds_enough 20000 200). lia. }
  exists r, s'. split; [done|]. split; [done|]. destruct r; [done|]. right. by rewrite Hc in Hr'.
Qed.
End Ensure.

(** ** Witnesses *)

Section SuperviseWitness.
Local Existing Instances tun_json.
Local Instance svw_locale : Locale := {| strftime _ _ := "12:00" |}.

(** A daemon that is there or not, and a machine on which a started [aimlessd]
    is there the next time one looks. *)
Local Instance svw_daemon : Daemon := {|
  dstate := bool;
  d_connect _ up := if up then Ok tt else Raise (OSError "Connection refused");
  d_request _ _ up := (Raise (DaemonError "no reply"), up) |}.
Definition svw_later (d : Z) (o : os) : os :=
  let w := o_world o in
  set_world (World (w_fs w) (w_env w) (w_home w) (w_now w + d) (w_rng w) (w_in w) (w_out w) (w_err w)
    (existsb (λ p : Z * proc, bool_decide (p_comm p.2 = "aimlessd")) (map_to_list (o_procs o)))) o.
Local Instance svw_env : Env := {|
  pass := svw_later;
  new_pid o := 1 + foldr Z.max 0 (elements (dom (o_procs o))); makes_dir _ _ := true |}.
Local Instance svw_env_laws : EnvLaws svw_env.
Proof.
  split.
  - intros d o Hd. cbn. lia.
  - done.
  - intros d o pid p Hp Ho. by exists p.
  - done.
  - intros o. apply not_elem_of_dom. intros H. apply elem_of_elements, foldr_max_ge in H. cbn in H. lia.
  - intros o. cbn. induction (elements _); cbn in *; lia.
Qed.

Lemma svw_connect_errors (sock : string) (s : dstate) (e : exn) :
  d_connect sock s = Raise e → is_exception e = true.
Proof. destruct s; [done|]. by intros [= <-]. Qed.

Definition svw_world : world :=
  World {["/h/.local/bin/aimlessd" := File [] 493]} {["AIMLESS_HOME" := "/a"]} "/h" 0 0 [] [] [] false.
Definition svw_os : os := Os svw_world ∅ {["/h/.local/bin/aimlessd"]} [] [].
Definition svw_dsup : dsup := DSup None None (Some "/a/daemon") "/a/daemon/api.sock" None.

Example ensure_local_spec_witness :
  ∃ r s', Sup.ensure "/" "aimless" app_logger (svw_dsup, svw_os) = (r, s') ∧
    match r with Ok b => b = true ∧ answers s' | Raise e => True end.
Proof.
  destruct (ensure_local_spec svw_connect_errors "/" "aimless" svw_dsup svw_os) as (r&s'&H&_&Hr);
    [reflexivity|]. exists r, s'. split; [exact H|]. destruct r; [exact Hr|exact I].
Defined.

(** There the daemon is started, and answers. *)
Example ensure_local_starts :
  (Sup.ensure "/" "aimless" app_logger (svw_dsup, svw_os)).1 = Ok true.
Proof. vm_compute. reflexivity. Qed.

(** A pid file left behind names a process that has nothing to do with the
    daemon, and stopping the daemon terminates that one. *)
Definition svw_stale : os :=
  Os (set_fs {["/a/run/aimlessd.pid" := File (utf8_encode "7") 420]} svw_world)
    {[7 := Proc "vim" ["vim"; "thesis.tex"] Running OurUser]} ∅ [] [].
Example stop_signals_stale_pid :
  o_signals (Sup.stop (svw_dsup, svw_stale)).2.2 = [(7, SIGTERM)].
Proof. vm_compute. reflexivity. Qed.
End SuperviseWitness.
