(* ===== verification/StartupProps.v ===== *)
(** * What a session is opened on, and what unlocking answers *)

From S2P Require Import Prelude PyStr Codec Json Sys Paths Logging Crypto Protocol Keys Store DaemonClient Service Tunnel Cli CliProps Desktop View Transfers Conversations TunnelProps Supervise App AppProps Startup.
From Stdlib Require Import Ascii.
Local Open Scope Z_scope.

Lemma a2b_raises s q left pads e : a2b_base64 s q left pads = Raise e → is_exception e = true.
Proof.
  revert q left pads; induction s as [|a s IH]; intros q left pads; cbn [a2b_base64];
    [destruct (q =? 0); [done|by intros [= <-]]|].
  repeat case_match; eauto; try done;
    (intros Hb; destruct (a2b_base64 _ _ _ _) as [l|e'] eqn:Hl in Hb; [done|]; injection Hb as <-; eauto).
Qed.

Lemma b64decode_raises s e : b64decode s = Raise e → is_exception e = true.
Proof. unfold b64decode. destruct (str_all is_ascii s); [apply a2b_raises|by intros [= <-]]. Qed.

(** Deleting the rows of one key. *)
Lemma delete_key_keys {V} (node k : string) (t : list (string * V)) :
  k ∈ (delete_where (λ r, bool_decide (r.1 = node)) t).*1 ↔ k ∈ t.*1 ∧ k ≠ node.
Proof.
  unfold delete_where. induction t as [|[k' v] t IH]; cbn [List.filter fst]; [set_solver|].
  destruct (bool_decide_reflect (k' = node)) as [->|Hne]; cbn [negb]; [set_solver|].
  rewrite !fmap_cons, !elem_of_cons, IH. cbn. split; [intros [->|?]; tauto|tauto].
Qed.

Section Startup.
Context `{N : NaCl} `{J : JsonCodec} `{D : Daemon} `{E : !Env} `{L : Locale}.
Context (cwd argv0 : string).

Lemma set_world_own o : set_world (o_world o) o = o.
Proof. by destruct o. Qed.
Lemma set_machine_own s : set_machine (st_sup s) (st_os s) s = s.
Proof. by destruct s. Qed.
Lemma um_io_run {A} (m : IO A) s r w :
  m (o_world (st_os s)) = (r, w) → um_io m s = (r, set_machine (st_sup s) (set_world w (st_os s)) s).
Proof. intros Hm. unfold um_io, um_os, um_sup, on_os, om_world. by rewrite Hm. Qed.
(** A reading call leaves the state as it was. *)
Lemma um_io_read {A} (m : IO A) s r :
  m (o_world (st_os s)) = (r, o_world (st_os s)) → um_io m s = (r, s).
Proof. intros Hm. rewrite (um_io_run _ _ _ _ Hm). by rewrite set_world_own, set_machine_own. Qed.
Lemma um_path_run f s : um_os (om_path f) s = (Ok (f (w_env (o_world (st_os s))) (w_home (o_world (st_os s)))), s).
Proof. unfold um_os, um_sup, on_os, om_path, gets. by rewrite set_machine_own. Qed.

Definition home_of (s : start) : world := o_world (st_os s).
Definition id_path (s : start) : string := identity_path (w_env (home_of s)) (w_home (home_of s)).
Definition contacts_at (s : start) : string := contacts_path (w_env (home_of s)) (w_home (home_of s)).

Lemma load_contacts_frame path c w w' :
  load_contacts path w = (Ok c, w) → w_fs w' = w_fs w → load_contacts path w' = (Ok c, w').
Proof.
  unfold load_contacts, path_exists, read_file, lift, gets, mbind, M_bind. cbn. intros H Hf. rewrite Hf.
  destruct (fs_exists path (w_fs w)); [|by injection H as ->]. rewrite Hf.
  destruct (fs_read path (w_fs w)); [|done]. injection H as H. by rewrite H.
Qed.

(** ** The contacts lose their mute, and nobody else *)

Definition contact_node (d : list (string * json)) (k : string) : Prop :=
  ∃ kv, kv ∈ d ∧ jget "node" kv.2 = Ok (Some (JStr k)) ∧ k ≠ "".
(** The entries the loop can read: records whose node, if any, is a text. *)
Definition readable_nodes (d : list (string * json)) : Prop :=
  ∀ kv, kv ∈ d → jget "node" kv.2 = Ok None ∨ ∃ t, jget "node" kv.2 = Ok (Some (JStr t)).

Definition put_muted_nodes muted (st : store) : store :=
  let d := set_muted muted (s_db st) in Store d (s_key st) (s_rng st) d.
(** Nothing waits for a commit. *)
Definition committed (st : store) : Prop := s_saved st = s_db st.
Definition unmuted_by (d : list (string * json)) (t t' : list (string * unit)) : Prop :=
  ∀ k, k ∈ t'.*1 ↔ k ∈ t.*1 ∧ ¬ contact_node d k.

Lemma unmuted_nil t : unmuted_by [] t t.
Proof. intros k. split; [|tauto]. intros Hk. split; [done|]. intros (kv&Hkv&_). set_solver. Qed.
Lemma unmuted_skip kv d t t' :
  (∀ k, jget "node" kv.2 = Ok (Some (JStr k)) → k = "" ∨ k ∉ t.*1) → unmuted_by d t t' → unmuted_by (kv :: d) t t'.
Proof.
  intros Hkv Ht k. rewrite (Ht k). split.
  - intros [Hk Hc]. split; [done|]. intros (x&[->|Hx]%elem_of_cons&Hj&Hne); [|by apply Hc; exists x].
    by destruct (Hkv k Hj).
  - intros [Hk Hc]. split; [done|]. intros (x&Hx&Hj&Hne). apply Hc. exists x. set_solver.
Qed.
Lemma unmuted_delete kv n d t t' :
  jget "node" kv.2 = Ok (Some (JStr n)) → n ≠ "" →
  unmuted_by d (delete_where (λ r, bool_decide (r.1 = n)) t) t' → unmuted_by (kv :: d) t t'.
Proof.
  intros Hj Hn Ht k. rewrite (Ht k), delete_key_keys. split.
  - intros [[Hk Hne] Hc]. split; [done|].
    intros (x&[->|Hx]%elem_of_cons&Hx2&Hx3); [congruence|by apply Hc; exists x].
  - intros [Hk Hc]. split; [split; [done|]|].
    + intros ->. apply Hc. exists kv. set_solver.
    + intros (x&Hx&Hx2&Hx3). apply Hc. exists x. set_solver.
Qed.

Lemma unmute_contact_run kv g :
  committed (g_store g) →
  jget "node" kv.2 = Ok None ∨ (∃ t, jget "node" kv.2 = Ok (Some (JStr t))) →
  ∃ t', unmute_contact kv g =
    (Ok tt, Gui (put_muted_nodes t' (g_store g)) (g_client g) (g_self_node g) (g_world g) (g_view g)) ∧
    ∀ d t, unmuted_by d t' t → unmuted_by (kv :: d) (muted_nodes (s_db (g_store g))) t.
Proof.
  intros Hsaved Hkv. destruct g as [st c k w v]. cbn [g_store g_client g_self_node g_world g_view] in *.
  assert (Hid : put_muted_nodes (muted_nodes (s_db st)) st = st) by (unfold committed in Hsaved; destruct st as [[] ? ? ?]; cbn in *; by subst).
  unfold unmute_contact. destruct Hkv as [Hj|[n Hj]].
  - exists (muted_nodes (s_db st)). rewrite Hid. split; [unfold lift, mbind, M_bind; by rewrite Hj|].
    intros d t Ht. apply unmuted_skip; [intros k' Hk'; congruence|done].
  - rewrite (M_bind_run _ _ _ (Some (JStr n)) (Gui st c k w v)) by (unfold lift; by rewrite Hj).
    cbn [truthy]. destruct (bool_decide_reflect (n = "")) as [->|Hn]; cbn [negb].
    { exists (muted_nodes (s_db st)). rewrite Hid. split; [done|].
      intros d t Ht. apply unmuted_skip; [intros k' Hk'; left; congruence|done]. }
    rewrite (M_bind_run _ _ _ n (Gui st c k w v)) by done.
    rewrite (M_bind_run _ _ _ (dict_mem n (muted_nodes (s_db st))) (Gui st c k w v)) by done.
    destruct (dict_mem n (muted_nodes (s_db st))) eqn:Hm.
    + eexists. split; [reflexivity|]. intros d t. by apply unmuted_delete.
    + exists (muted_nodes (s_db st)). rewrite Hid. split; [done|]. intros d t Ht. apply unmuted_skip; [|done].
      intros k' Hk'. right. assert (k' = n) as -> by congruence. rewrite <-dict_mem_true. by rewrite Hm.
Qed.

Lemma unmute_contacts_run d g :
  committed (g_store g) → readable_nodes d →
  ∃ t', for_each unmute_contact d g =
    (Ok tt, Gui (put_muted_nodes t' (g_store g)) (g_client g) (g_self_node g) (g_world g) (g_view g)) ∧
    unmuted_by d (muted_nodes (s_db (g_store g))) t'.
Proof.
  revert g; induction d as [|kv d IH]; intros g Hsaved Hd; cbn [for_each].
  - exists (muted_nodes (s_db (g_store g))). split; [|apply unmuted_nil].
    destruct g as [[[] ? ? ?] ? ? ? ?]. unfold committed in Hsaved. cbn in *. by subst.
  - destruct (unmute_contact_run kv g Hsaved) as (t1&H1&Hstep); [apply Hd; set_solver|].
    rewrite (M_bind_run _ _ _ _ _ H1).
    destruct (IH (Gui (put_muted_nodes t1 (g_store g)) (g_client g) (g_self_node g) (g_world g) (g_view g)))
      as (t2&H2&Hu); [done|intros x Hx; apply Hd; set_solver|].
    exists t2. rewrite H2. split; [done|]. by apply Hstep.
Qed.

Lemma session_ready_run st c w who node d ds v :
  committed st →
  d_request "whoami" [] (w_daemon w) = (Ok who, ds) → jindex "key" who ≫= as_str = Ok node →
  load_contacts (contacts_path (w_env w) (w_home w)) w = (Ok (JObj d), w) → readable_nodes d →
  ∃ t', session_ready (Gui st c "" w v) =
    (Ok tt, Gui (put_muted_nodes t' st) c node (set_daemon ds w) v) ∧ unmuted_by d (muted_nodes (s_db st)) t'.
Proof.
  intros Hsaved Hwho Hnode Hc Hd. unfold session_ready.
  rewrite (M_bind_run _ _ _ who (Gui st c "" (set_daemon ds w) v)).
  2: { unfold gcl, whoami, call, io, request. cbn. by rewrite Hwho. }
  rewrite (M_bind_run _ _ _ node (Gui st c "" (set_daemon ds w) v)) by (unfold lift; by rewrite Hnode).
  rewrite (M_bind_run _ _ _ tt (Gui st c node (set_daemon ds w) v)) by done.
  rewrite (M_bind_run _ _ _ d (Gui st c node (set_daemon ds w) v)).
  2: { unfold contacts_dict, contacts_file. unfold gets, gio, lift, mbind, M_bind. cbn.
       by rewrite (load_contacts_frame _ (JObj d) w). }
  destruct (unmute_contacts_run d (Gui st c node (set_daemon ds w) v) Hsaved Hd) as (t'&Ht&Hu). by exists t'.
Qed.

(** ** Opening the cache *)

(** The store a cache file opens as, if it does. *)
Definition opens (c : cache_file) (n : nat) (pw : string) : result store :=
  match c with NoCache => open_store empty_db n pw | Database d => open_store d n pw | Garbage => Raise SqlError end.

Lemma opens_raises c n pw e : opens c n pw = Raise e → is_exception e = true.
Proof.
  destruct c as [|d|]; cbn [opens]; [by intros [=]| |by intros [= <-]]. unfold open_store, _salt.
  destruct (meta_salt d) as [v|]; [|by intros [=]]. destruct (b64decode v) eqn:Hv; [by intros [=]|]. intros [= <-].
  by eapply b64decode_raises.
Qed.

Lemma open_store_committed d n pw st : open_store d n pw = Ok st → committed st.
Proof. unfold open_store. intros H. apply bind_Ok in H as ([salt [d' n']]&_&H). by injection H as <-. Qed.
Lemma opens_committed c n pw st : opens c n pw = Ok st → committed st.
Proof. destruct c; [apply open_store_committed..|done]. Qed.

Lemma open_cache_ok pw s st :
  opens (st_cache s) (st_draws s) pw = Ok st →
  open_cache pw s = (Ok st, set_cache (Database (s_db st)) (st_bad s) (s_rng st) s).
Proof.
  intros Ho. rewrite <-(opens_committed _ _ _ _ Ho). revert Ho. unfold open_cache, opens. destruct (st_cache s); intros Ho; first [discriminate|by rewrite Ho|by injection Ho as ->].
Qed.
Lemma open_cache_raises pw s e :
  opens (st_cache s) (st_draws s) pw = Raise e → open_cache pw s = (Raise e, s).
Proof. unfold open_cache, opens. destruct (st_cache s); intros Ho; first [discriminate|by rewrite Ho|by injection Ho as ->]. Qed.

(** An empty database always opens. *)
Definition fresh (n : nat) (pw : string) : store :=
  let salt := random_bytes 16 n in
  let d := Db (Some (b64encode salt)) [] [] [] [] [] [] [] [] in Store d (kdf_key pw salt) (S n) d.

(** What [Session.__init__] makes of the cache: the file opened as it is, or
    set aside and a new one in its place; the error again, when it cannot be set
    aside. *)
Definition recovery (pw : string) (s : start) : result (store * option string * list cache_file) :=
  match opens (st_cache s) (st_draws s) pw with
  | Ok st => Ok (st, None, st_bad s)
  | Raise e =>
    if st_movable s
    then Ok (fresh (st_draws s) pw, Some ("corrupted state recovered as .bad (" +:+ exn_str e +:+ ")"),
             st_cache s :: st_bad s)
    else Raise e
  end.

Lemma store_or_recover_run pw s :
  match recovery pw s with
  | Ok (st, r, bad) =>
    store_or_recover pw s = (Ok (st, r), set_cache (Database (s_db st)) bad (s_rng st) s) ∧ committed st
  | Raise e => store_or_recover pw s = (Raise e, s)
  end.
Proof.
  unfold recovery, store_or_recover, try_with. destruct (opens _ _ _) as [st|e] eqn:Ho.
  - rewrite (M_bind_run _ _ _ _ _ (open_cache_ok _ _ _ Ho)). split; [done|by eapply opens_committed].
  - rewrite (M_bind_raise _ _ _ _ _ (open_cache_raises _ _ _ Ho)), (opens_raises _ _ _ _ Ho).
    destruct (st_movable s) eqn:Hm.
    2: { assert (Hd : discard_cache s = (Ok tt, s)).
         { unfold discard_cache, modify. rewrite Hm. by destruct (st_cache s). }
         rewrite (M_bind_run _ _ _ _ _ Hd). by rewrite (M_bind_raise _ _ _ _ _ (open_cache_raises _ _ _ Ho)). }
    set (s1 := set_cache NoCache (st_cache s :: st_bad s) (st_draws s) s).
    assert (Hd : discard_cache s = (Ok tt, s1)).
    { unfold discard_cache, modify, s1. rewrite Hm. by destruct (st_cache s); [discriminate Ho|..]. }
    rewrite (M_bind_run _ _ _ _ _ Hd). split; [|done]. by rewrite (M_bind_run _ _ _ _ _ (open_cache_ok pw s1 _ eq_refl)).
Qed.

(** ** Opening the session *)

(** C17: A session opens on whatever the cache file holds.  With an identity the
    passphrase opens, a daemon that says who it is and readable contacts,
    [Session.__init__] returns: with that identity, our screen name and node;
    with the store of the cache file when it opens, and otherwise with a fresh
    one, the refused file kept under [.bad] and the reason told; and with
    exactly the contacts' nodes taken off the muted ones.  A refused file that
    cannot be renamed raises its error again and stays where it is. *)
Theorem session_of_spec pw s identity sock who node d ds screen :
  load_identity (id_path s) pw (home_of s) = (Ok identity, home_of s) →
  client_socket (home_of s) = (Ok sock, home_of s) → d_connect sock (w_daemon (home_of s)) = Ok tt →
  d_request "whoami" [] (w_daemon (home_of s)) = (Ok who, ds) → jindex "key" who ≫= as_str = Ok node →
  load_contacts (contacts_at s) (home_of s) = (Ok (JObj d), home_of s) → readable_nodes d →
  self_screen (JObj d) = Ok screen →
  match recovery pw s with
  | Ok (st, recovered, bad) =>
    ∃ t' s', session_of pw s =
        (Ok (Opened (put_muted_nodes t' st) (Client identity screen None) node recovered), s') ∧
      unmuted_by d (muted_nodes (s_db st)) t' ∧
      st_cache s' = Database (set_muted t' (s_db st)) ∧ st_bad s' = bad ∧ st_pass s' = st_pass s
  | Raise e => session_of pw s = (Raise e, s)
  end.
Proof.
  intros Hid Hsock Hconn Hwho Hnode Hc Hd Hscreen.
  pose proof (store_or_recover_run pw s) as Hr. destruct (recovery pw s) as [[[st recovered] bad]|e].
  2: { unfold session_of. rewrite (M_bind_run _ _ s (id_path s) s) by apply um_path_run.
       rewrite (M_bind_run _ _ s identity s) by by apply um_io_read. by apply M_bind_raise. }
  destruct Hr as [Hr Hsaved].
  destruct (session_ready_run st (Client identity "" None) (home_of s) who node d ds empty_view)
    as (t'&Hready&Hu); [done..|].
  set (s1 := set_cache (Database (s_db st)) bad (s_rng st) s) in *.
  unfold session_of. rewrite (M_bind_run _ _ s (id_path s) s) by apply um_path_run.
  rewrite (M_bind_run _ _ s identity s) by by apply um_io_read.
  rewrite (M_bind_run _ _ _ _ _ Hr).
  rewrite (M_bind_run _ _ s1 sock s1) by by apply um_io_read.
  rewrite (M_bind_run _ _ s1 tt s1) by (apply um_io_read; exact (f_equal (λ r, (r, home_of s)) Hconn)).
  set (w2 := set_daemon ds (home_of s)).
  set (s2 := set_cache (Database (set_muted t' (s_db st))) bad (s_rng st)
    (set_machine (st_sup s) (set_world w2 (st_os s)) s)).
  rewrite (M_bind_run _ _ s1 (tt, Gui (put_muted_nodes t' st) (Client identity "" None) node w2 empty_view) s2).
  2: { unfold on_session. change (o_world (st_os s1)) with (home_of s). by rewrite Hready. }
  rewrite (M_bind_run _ _ s2 (contacts_at s) s2) by apply um_path_run.
  rewrite (M_bind_run _ _ s2 (JObj d) s2).
  2: { apply um_io_read. by apply (load_contacts_frame _ _ (home_of s)). }
  rewrite (M_bind_run _ _ s2 screen s2) by (unfold lift; by rewrite Hscreen).
  by exists t', s2.
Qed.

(** A passphrase the identity file refuses stops there: nothing is opened,
    set aside or written. *)
Lemma session_of_refused pw s e :
  load_identity (id_path s) pw (home_of s) = (Raise e, home_of s) → session_of pw s = (Raise e, s).
Proof.
  intros Hid. unfold session_of. rewrite (M_bind_run _ _ s (id_path s) s) by apply um_path_run.
  apply M_bind_raise. by apply um_io_read.
Qed.

(** ** Unlocking *)

Definition opened_by (pw : string) (o : opened) : Prop := ∃ s0 s1, session_of pw s0 = (Ok o, s1).
Definition outcome_ok (r : outcome) : Prop :=
  match r with Unlocked pw o => opened_by pw o | _ => True end.
Definition answer_ok (r : option (string * opened)) : Prop :=
  match r with Some (pw, o) => opened_by pw o | None => True end.

Section Kept.
Variable p : option string.
Local Definition pass_is (s : start) : Prop := st_pass s = p.

Lemma pass_um_sup {A} (m : SM A) : keeps pass_is (um_sup m) any.
Proof. intros s Hs. unfold um_sup. by destruct (m _) as [r [d o]]. Qed.
Lemma pass_um_io {A} (m : IO A) : keeps pass_is (um_io m) any.
Proof. apply pass_um_sup. Qed.
Lemma pass_um_os {A} (m : OM A) : keeps pass_is (um_os m) any.
Proof. apply pass_um_sup. Qed.
Lemma pass_um_log l : keeps pass_is (um_log l) any.
Proof. apply pass_um_sup. Qed.
Lemma pass_open_cache pw : keeps pass_is (open_cache pw) any.
Proof. intros s Hs. unfold open_cache. by destruct (match st_cache s with NoCache => _ | Database _ => _ | Garbage => _ end). Qed.
Lemma pass_discard : keeps pass_is discard_cache any.
Proof. apply keeps_modify. intros s Hs. destruct (st_cache s); [done|by case_match..]. Qed.
Lemma pass_on_session {A} st c (m : GUI A) : keeps pass_is (on_session st c m) any.
Proof. intros s Hs. unfold on_session. by destruct (m _) as [r g]. Qed.
Lemma pass_next_form : keeps pass_is next_form any.
Proof. intros s Hs. unfold next_form. by destruct (st_forms s). Qed.
Lemma pass_error t : keeps pass_is (_error_dialog t) any.
Proof. by apply keeps_modify. Qed.
Local Hint Resolve pass_um_sup pass_um_io pass_um_os pass_um_log pass_open_cache pass_discard
  pass_on_session pass_next_form pass_error : keeps.

Lemma pass_session pw : keeps pass_is (session_of pw) any.
Proof.
  unfold session_of, store_or_recover. repeat keeps_step.
  all: apply keeps_try; [|intros e]; keeps_tac.
Qed.
Lemma session_opened pw : keeps pass_is (session_of pw) (opened_by pw).
Proof.
  intros s Hs. split; [by apply pass_session|]. intros o Ho. exists s, (session_of pw s).2.
  rewrite <-Ho. apply surjective_pairing.
Qed.

Lemma pass_import : keeps pass_is (_import_backup_on_init cwd argv0) any.
Proof.
  unfold _import_backup_on_init, ask_secret. repeat keeps_step.
  all: apply keeps_try; [|intros e]; keeps_tac.
Qed.

(** A session that opens, whatever answers when it does not. *)
Lemma pass_open_or pw q h :
  (∀ e, keeps pass_is (h e) outcome_ok) →
  keeps pass_is (try_with q (s ← session_of pw; mret (Unlocked pw s)) h) outcome_ok.
Proof.
  intros Hh. apply keeps_try; [|done].
  eapply keeps_bind; [apply session_opened|]. intros o Ho. by apply keeps_ret.
Qed.
Lemma pass_say_then {A} (m : UM unit) (a : A) (Q : A → Prop) :
  keeps pass_is m any → Q a → keeps pass_is (_ ← m; mret a) Q.
Proof. intros Hm Ha. eapply keeps_bind; [exact Hm|]. intros _ _. by apply keeps_ret. Qed.

Lemma pass_create_round : keeps pass_is (create_round cwd argv0) outcome_ok.
Proof.
  unfold create_round. eapply keeps_bind; [unfold ask_create_identity; keeps_tac|]. intros [t|] _.
  2: { apply pass_say_then; [unfold _cancel_or_quit; keeps_tac|done]. }
  apply keeps_if.
  { eapply keeps_bind; [apply pass_import|]. intros [pw|] _; [|by apply keeps_ret].
    apply pass_open_or. intros e. apply pass_say_then; [apply pass_error|done]. }
  apply keeps_if; [apply pass_say_then; [apply pass_error|done]|].
  destruct t as [|pw [|screen [|]]]; try apply keeps_raise.
  apply keeps_try; [|intros e; apply pass_say_then; [apply pass_error|done]].
  eapply keeps_bind; [apply pass_um_io|]. intros _ _.
  eapply keeps_bind; [apply session_opened|]. intros o Ho. by apply keeps_ret.
Qed.
Lemma pass_unlock_round : keeps pass_is unlock_round outcome_ok.
Proof.
  unfold unlock_round. eapply keeps_bind; [unfold ask_passphrase; keeps_tac|]. intros [pw|] _.
  2: { apply pass_say_then; [unfold _cancel_or_quit; keeps_tac|done]. }
  apply pass_open_or. intros e. destruct (is_value_error e); (apply pass_say_then; [apply pass_error|done]).
Qed.
Lemma pass_rounds n round :
  keeps pass_is round outcome_ok → keeps pass_is (rounds_of n round) answer_ok.
Proof.
  intros Hround. induction n as [|n IH]; cbn [rounds_of]; [by apply keeps_ret|].
  eapply keeps_bind; [exact Hround|]. intros [pw o| |] Ho; [by apply keeps_ret|done|by apply keeps_ret].
Qed.

Definition kept_ok (k : kept_pass) : Prop :=
  match k with KeptOpens pw o => opened_by pw o | KeptUnreachable pw => p = Some pw | KeptAsk => True end.
Lemma pass_try_kept : keeps pass_is try_kept kept_ok.
Proof.
  unfold try_kept. eapply keeps_bind; [apply (keeps_gets _ _ (λ k, k = p)); by intros s Hs|]. intros k Hk.
  destruct k as [pw|]; [|by apply keeps_ret]. apply keeps_if; [by apply keeps_ret|].
  apply keeps_try.
  - eapply keeps_bind; [apply session_opened|]. intros o Ho. by apply keeps_ret.
  - intros e. apply keeps_if; [by apply keeps_ret|]. apply pass_say_then; [apply pass_um_log|done].
Qed.
End Kept.

Lemma um_log_run l s : ∃ w, um_log l s = (Ok tt, set_machine (st_sup s) (set_world w (st_os s)) s).
Proof.
  unfold um_log, um_sup, say, on_os, om_world. pose proof (log_fn_returns l (o_world (st_os s))) as H.
  destruct (app_logger l (o_world (st_os s))) as [[[]|e] w]; [by exists w|]. by destruct (H e).
Qed.

(** What [_open_window_unlocked] answers: a session, which the passphrase it
    keeps opened, or none, and the passphrase is as it was. *)
Definition unlock_ok (s : start) (r : result (option opened) * start) : Prop :=
  match r.1 with
  | Ok (Some o) => ∃ pw, opened_by pw o ∧ st_pass r.2 = Some pw
  | _ => st_pass r.2 = st_pass s
  end.

Lemma unlocked_ok s pw o s1 : opened_by pw o → unlock_ok s (unlocked pw (Some o) s1).
Proof.
  intros Ho. unfold unlocked. rewrite (M_bind_run _ _ _ tt (set_pass (Some pw) s1)) by done.
  destruct (op_recovered o) as [why|].
  - destruct (um_log_run ("cache recovery: " +:+ why) (set_pass (Some pw) s1)) as (w&H2).
    rewrite (M_bind_run _ _ _ _ _ H2). exists pw. by split.
  - exists pw. by split.
Qed.

Lemma unlock_bind {A} s (m : UM A) (f : A → UM (option opened)) (Q : A → Prop) s1 :
  st_pass s1 = st_pass s → keeps (pass_is (st_pass s)) m Q →
  (∀ a s2, Q a → st_pass s2 = st_pass s → unlock_ok s (f a s2)) → unlock_ok s ((m ≫= f) s1).
Proof.
  intros Hs1 Hm Hf. destruct (Hm s1 Hs1) as [Hs2 HQ]. unfold mbind, M_bind.
  destruct (m s1) as [[a|e] s2]; [by apply Hf; [apply HQ|]|exact Hs2].
Qed.

(** C18: A window opens on an unlocked session only: whatever is typed and
    chosen in the dialogs, whatever the files and the daemon hold, the session
    [_open_window_unlocked] goes on with is one that [Session.__init__] made
    from the passphrase it remembers; in every other outcome, the exceptions
    included, the passphrase remembered is the one before. *)
Theorem window_needs_session s :
  let r := _open_window_unlocked cwd argv0 s in
  match r.1 with
  | Ok (Some o) => ∃ pw s0 s1, session_of pw s0 = (Ok o, s1) ∧ st_pass r.2 = Some pw
  | _ => st_pass r.2 = st_pass s
  end.
Proof.
  assert (Hok : unlock_ok s (_open_window_unlocked cwd argv0 s)).
  { unfold _open_window_unlocked. eapply unlock_bind; [done|apply pass_um_os|]. intros path s1 _ H1.
    eapply unlock_bind; [done|apply pass_um_io|]. intros there s2 _ H2.
    assert (Hleft : ∀ m s3, keeps (pass_is (st_pass s)) m answer_ok → st_pass s3 = st_pass s →
      unlock_ok s ((r ← m; unlocked_or_left r) s3)).
    { intros m s3 Hm H3. eapply unlock_bind; [done|exact Hm|]. intros [[pw o]|] s4 Ho H4;
        [by apply unlocked_ok|exact H4]. }
    destruct there; cbn [negb]; [|apply Hleft; [apply pass_rounds, pass_create_round|done]].
    eapply unlock_bind; [done|apply pass_try_kept|]. intros [pw o| |pw] s3 Hk H3.
    - by apply unlocked_ok.
    - apply Hleft; [apply pass_rounds, pass_unlock_round|done].
    - exact (eq_sym Hk). }
  cbv zeta. unfold unlock_ok in Hok. destruct (_open_window_unlocked cwd argv0 s) as [[[o|]|e] s']; [|done..].
  cbn in *. destruct Hok as (pw&(s0&s1&Ho)&Hp). by exists pw, s0, s1.
Qed.

(** ** Wrong passphrases *)

Definition attempt (pw : string) : form := Form OK [pw].
Definition wrong_text : string := "wrong passphrase or corrupted identity - try again".
(** The state once the attempts of [wrong] were made and [rest] is to come. *)
Definition asked (wrong : list string) (rest : list form) (s : start) : start :=
  set_forms rest (set_errors (replicate (length wrong) wrong_text ++ st_errors s) s).
Definition refused (s : start) (pw : string) : Prop :=
  pw ≠ "" ∧ ∃ m, load_identity (id_path s) pw (home_of s) = (Raise (ValueError m), home_of s).

Lemma ask_passphrase_run pw rest s :
  pw ≠ "" → st_forms s = attempt pw :: rest → ask_passphrase s = (Ok (Some pw), set_forms rest s).
Proof.
  intros Hpw Hf. unfold ask_passphrase, next_form, mbind, M_bind. rewrite Hf. cbn.
  by rewrite bool_decide_eq_false_2.
Qed.

Lemma round_refused pw rest s :
  refused s pw → st_forms s = attempt pw :: rest →
  unlock_round s = (Ok Again, asked [pw] rest s).
Proof.
  intros [Hpw [m Hm]] Hf. unfold unlock_round. rewrite (M_bind_run _ _ _ _ _ (ask_passphrase_run _ _ _ Hpw Hf)).
  unfold try_with. by rewrite (M_bind_raise _ _ _ _ _ (session_of_refused pw (set_forms rest s) (ValueError m) Hm)).
Qed.

Lemma rounds_refused n wrong rest s :
  Forall (refused s) wrong → st_forms s = (attempt <$> wrong) ++ rest →
  rounds_of (length wrong + n) unlock_round s = rounds_of n unlock_round (asked wrong rest s).
Proof.
  revert s; induction wrong as [|pw wrong IH]; intros s Hall Hf; cbn [length plus].
  - f_equal. cbn in Hf. unfold asked. cbn. rewrite <-Hf. by destruct s.
  - apply Forall_cons in Hall as [Hpw Hall]. cbn [rounds_of].
    rewrite (M_bind_run _ _ _ _ _ (round_refused pw _ s Hpw Hf)). rewrite IH.
    + f_equal. assert (Hl : replicate (length wrong) wrong_text ++ wrong_text :: st_errors s
        = wrong_text :: replicate (length wrong) wrong_text ++ st_errors s).
      { change (wrong_text :: st_errors s) with ([wrong_text] ++ st_errors s).
        by rewrite app_assoc, <-replicate_S_end. }
      unfold asked, set_forms, set_errors. cbn. by rewrite Hl.
    + eapply Forall_impl; [exact Hall|]. done.
    + done.
Qed.

(** C19: Three attempts.  With an identity on the machine and no passphrase
    remembered, passphrases the identity file refuses are answered by one
    error dialog each and leave everything else as it was; the third one ends
    the unlocking without a window; and an attempt within the three that opens
    a session opens the window on it. *)
Theorem unlock_attempts s wrong rest :
  st_pass s = None → fs_exists (id_path s) (w_fs (home_of s)) = true →
  Forall (refused s) wrong → st_forms s = (attempt <$> wrong) ++ rest →
  (length wrong = 3%nat → _open_window_unlocked cwd argv0 s = (Ok None, asked wrong rest s)) ∧
  (∀ pw rest' o s1, (length wrong < 3)%nat → pw ≠ "" → rest = attempt pw :: rest' →
    session_of pw (asked wrong rest' s) = (Ok o, s1) →
    ∃ s2, _open_window_unlocked cwd argv0 s = (Ok (Some o), s2) ∧
      st_pass s2 = Some pw ∧ st_cache s2 = st_cache s1 ∧ st_forms s2 = st_forms s1 ∧ st_errors s2 = st_errors s1).
Proof.
  intros Hp Hthere Hall Hf.
  assert (Hrun : _open_window_unlocked cwd argv0 s = (r ← rounds_of 3 unlock_round; unlocked_or_left r) s).
  { unfold _open_window_unlocked. rewrite (M_bind_run _ _ s (id_path s) s) by apply um_path_run.
    rewrite (M_bind_run _ _ s true s) by (apply um_io_read; unfold path_exists, gets; by rewrite <-Hthere).
    cbn [negb]. rewrite (M_bind_run _ _ s KeptAsk s); [done|].
    unfold try_kept. rewrite (M_bind_run _ _ s None s); [done|]. unfold gets. by rewrite Hp. }
  rewrite Hrun. split.
  - intros Hlen. pose proof (rounds_refused 0 wrong rest s Hall Hf) as Hr. rewrite Nat.add_0_r, Hlen in Hr.
    by rewrite (M_bind_run _ _ s None (asked wrong rest s)).
  - intros pw rest' o s1 Hlen Hpw -> Ho.
    pose proof (rounds_refused (3 - length wrong) wrong (attempt pw :: rest') s Hall Hf) as Hr.
    replace (length wrong + (3 - length wrong))%nat with 3%nat in Hr by lia.
    replace (3 - length wrong)%nat with (S (2 - length wrong)) in Hr by lia.
    set (s0 := asked wrong (attempt pw :: rest') s) in *.
    assert (Hround : unlock_round s0 = (Ok (Unlocked pw o), s1)).
    { unfold unlock_round. rewrite (M_bind_run _ _ _ _ _ (ask_passphrase_run pw rest' s0 Hpw eq_refl)).
      unfold try_with. by rewrite (M_bind_run _ _ _ _ _ Ho). }
    rewrite (M_bind_run _ _ s (Some (pw, o)) s1) by (rewrite Hr; cbn [rounds_of]; by rewrite (M_bind_run _ _ _ _ _ Hround)).
    cbn [unlocked_or_left]. unfold unlocked. rewrite (M_bind_run _ _ _ tt (set_pass (Some pw) s1)) by done.
    destruct (op_recovered o) as [why|]; [|by eexists].
    destruct (um_log_run ("cache recovery: " +:+ why) (set_pass (Some pw) s1)) as (w&Hl).
    rewrite (M_bind_run _ _ _ _ _ Hl). by eexists.
Qed.
End Startup.

(** ** Stopping the application *)

Section Stop.
Context `{J : JsonCodec} `{D : Daemon} `{E : !Env} {EL : EnvLaws E}.

Lemma pid_alive_run pid o : ∃ b, pid_alive pid o = (Ok b, o).
Proof.
  unfold pid_alive, try_with, mbind, M_bind, os_kill. destruct (o_procs o !! pid) as [q|]; [|by eexists].
  destruct o, (p_owner q); by eexists.
Qed.

Lemma await_gone_returns fuel deadline pid o :
  (1 <= fuel)%nat → deadline < w_now (o_world o) + 100 * (Z.of_nat fuel - 1) →
  ∃ o', await_gone fuel deadline pid o = (Ok tt, o') ∧ o_signals o' = o_signals o.
Proof.
  revert o; induction fuel as [|fuel IH]; intros o Hf Hd; [lia|]. cbn [await_gone].
  rewrite (M_bind_run _ _ _ (w_now (o_world o)) o) by done.
  destruct (w_now (o_world o) <? deadline) eqn:Hlt; [|by exists o].
  destruct (pid_alive_run pid o) as [[] Ha]; rewrite (M_bind_run _ _ _ _ _ Ha); [|by exists o].
  rewrite (M_bind_run _ _ _ tt (pass 100 o)) by done.
  pose proof (pass_clock 100 o ltac:(lia)). destruct (IH (pass 100 o)) as (o'&H'&Hs); [lia..|].
  exists o'. split; [exact H'|]. by rewrite Hs, (proj1 (pass_signals _ _)).
Qed.

(** Stopping the running application always ends, and sends the one signal it
    reports, to the process of the lock file and never to itself. *)
Lemma stop_app_ends self pid o :
  ∃ l o', stop_app self pid o = (Ok l, o') ∧
    (l = [] ∧ o_signals o' = o_signals o ∨
     ∃ p, pid = Some p ∧ p ≠ self ∧ p ≠ 0 ∧ l = ["app (pid " +:+ str_of_int p +:+ ")"] ∧
       o_signals o' = (p, SIGTERM) :: o_signals o).
Proof.
  assert (Hnil : ∃ l o', (mret [] : OM (list string)) o = (Ok l, o') ∧
    (l = [] ∧ o_signals o' = o_signals o ∨
     ∃ p, pid = Some p ∧ p ≠ self ∧ p ≠ 0 ∧ l = ["app (pid " +:+ str_of_int p +:+ ")"] ∧
       o_signals o' = (p, SIGTERM) :: o_signals o)) by (exists [], o; split; [done|by left]).
  unfold stop_app, nonzero. destruct pid as [p|]; [|exact Hnil].
  destruct (p =? 0) eqn:H0; [exact Hnil|]. destruct (p =? self) eqn:Hself; [exact Hnil|].
  destruct (pid_alive_run p o) as [[] Ha]; rewrite (M_bind_run _ _ _ _ _ Ha); [clear Hnil|exact Hnil].
  assert (Ht : ∃ l o1, terminate p "app" o = (Ok l, o1) ∧ (l = [] ∧ o_signals o1 = o_signals o ∨
    l = ["app (pid " +:+ str_of_int p +:+ ")"] ∧ o_signals o1 = (p, SIGTERM) :: o_signals o)).
  { unfold terminate, try_with, mbind, M_bind, os_kill. destruct (o_procs o !! p) as [q|].
    - destruct (p_owner q); [eexists _, _; split; [done|by right]..|eexists _, _; split; [done|by left]].
    - eexists _, _. split; [done|by left]. }
  destruct Ht as (l&o1&Ht&Hl). rewrite (M_bind_run _ _ _ _ _ Ht).
  rewrite (M_bind_run _ _ _ (w_now (o_world o1)) o1) by done.
  destruct (await_gone_returns (rounds 10000 100) (w_now (o_world o1) + 10000) p o1) as (o2&H2&Hs2);
    [unfold rounds; lia|pose proof (rounds_enough 10000 100); lia|].
  rewrite (M_bind_run _ _ _ _ _ H2). exists l, o2. split; [done|]. rewrite Hs2.
  destruct Hl as [[-> ->]|[-> ->]]; [by left|]. right. exists p. split_and!; [done|lia|lia|done|done].
Qed.
End Stop.

Section StartupWitness.
Local Instance sw_json : JsonCodec := RefCodec.
Local Instance sw_nacl : NaCl := RefNaCl.
(** A daemon that answers, or, in the state [false], refuses connections. *)
Local Instance sw_daemon : Daemon := {|
  dstate := bool;
  d_connect _ (up : bool) := if up then Ok tt else Raise (OSError "refused");
  d_request _ _ up := (Ok (JObj [("key", JStr "n0")]), up) |}.
Local Instance sw_env : Env := {| pass _ o := o; new_pid _ := 1; makes_dir _ _ := true |}.
Local Instance sw_locale : Locale := {| strftime _ _ := "12:00" |}.

(** An identity file sealed under the passphrase "a"; Bo, a contact at node n1,
    muted as the stranger n2 is. *)
Definition sw_contacts : list (string * json) := [("bo", JObj [("node", JStr "n1")])].
Definition sw_files : fs :=
  {["/a/client/identity.json" := wit_file;
    "/a/client/contacts.json" := File (utf8_encode (json_dumps_indent (JObj sw_contacts))) 384]}.
Definition sw_world (up : bool) : world := World sw_files {["AIMLESS_HOME" := "/a"]} "/h" 0 0 [] [] [] up.
Definition sw_db : db := set_muted [("n1", tt); ("n2", tt)] (s_db (fresh 3 "a")).
Definition sw_start (c : cache_file) (up : bool) (kept : option string) (forms : list form) : start :=
  Start (DSup None None None "/a/daemon/api.sock" None) (Os (sw_world up) ∅ ∅ [] []) c [] true 0 kept false forms [].

Lemma sw_readable : readable_nodes sw_contacts.
Proof. intros kv Hkv. apply list_elem_of_singleton in Hkv as ->. right. by exists "n1". Qed.

(** A cache file that is no database: it is set aside and the session opens. *)
Example session_of_spec_witness :
  ∃ o s', session_of "a" (sw_start Garbage true None []) = (Ok o, s') ∧
    op_node o = "n0" ∧ st_bad s' = [Garbage] ∧ op_recovered o ≠ None.
Proof.
  destruct (session_of_spec "a" (sw_start Garbage true None []) wit_seed "/a/daemon/api.sock"
    (JObj [("key", JStr "n0")]) "n0" sw_contacts true "anonymous") as (t'&s'&H&_&_&Hb&_);
    [vm_compute; reflexivity|vm_compute; reflexivity|reflexivity|reflexivity|reflexivity
    |vm_compute; reflexivity|exact sw_readable|reflexivity|].
  eexists _, s'. split; [exact H|]. split; [reflexivity|]. split; [exact Hb|discriminate].
Defined.

(** The cache of an earlier run: Bo is no longer muted, the stranger is. *)
Example contacts_unmuted :
  match session_of "a" (sw_start (Database sw_db) true None []) with
  | (Ok o, s') => bool_decide ((muted_nodes (s_db (op_store o))).*1 = ["n2"]) && bool_decide (op_recovered o = None)
  | _ => false
  end = true.
Proof. vm_compute. reflexivity. Qed.

Definition sw_tries (kept : option string) (up : bool) : start :=
  sw_start NoCache up kept [attempt "b"; attempt "c"; attempt "a"].
Lemma sw_refused pw : pw ∈ ["b"; "c"] → refused (sw_tries None true) pw.
Proof.
  intros Hpw. assert (pw = "b" ∨ pw = "c") as [->| ->] by set_solver;
    (split; [done|eexists; vm_compute; reflexivity]).
Qed.

Lemma sw_third :
  ∃ o s1, session_of "a" (asked ["b"; "c"] [] (sw_tries None true)) = (Ok o, s1) ∧ length (st_errors s1) = 2%nat.
Proof. eexists _, _. split; [vm_compute; reflexivity|reflexivity]. Qed.

Example unlock_attempts_witness :
  ∃ o s2, _open_window_unlocked "/" "aimless" (sw_tries None true) = (Ok (Some o), s2) ∧
    st_pass s2 = Some "a" ∧ length (st_errors s2) = 2%nat.
Proof.
  destruct (unlock_attempts "/" "aimless" (sw_tries None true) ["b"; "c"] [attempt "a"]) as [_ H];
    [reflexivity|reflexivity|apply Forall_forall; exact sw_refused|reflexivity|].
  destruct sw_third as (o&s1&Ho&Herr).
  destruct (H "a" [] o s1) as (s2&H1&H2&_&_&H5); [cbn; lia|done|reflexivity|exact Ho|].
  exists o, s2. split; [exact H1|]. split; [exact H2|]. rewrite H5. exact Herr.
Defined.

(** A remembered passphrase while the daemon does not answer: the window the
    user asked for ends in an exception, [session] being [None]. *)
Example kept_unreachable :
  (_open_window_unlocked "/" "aimless" (sw_start NoCache false (Some "a") [])).1 = Raise AttributeError.
Proof. vm_compute. reflexivity. Qed.

(** A new identity under the passphrase [__mismatch__], typed twice alike. *)
Definition sw_new (pw : string) : start :=
  set_machine (DSup None None None "/a/daemon/api.sock" None)
    (Os (set_fs ∅ (sw_world true)) ∅ ∅ [] []) (sw_start NoCache true None [Form OK [pw; pw; "al"]]).
Example sentinel_passphrase :
  bool_decide (is_Some (to_option (_open_window_unlocked "/" "aimless" (sw_new "secret")).1 ≫= λ o, o)) = true ∧
  st_errors (_open_window_unlocked "/" "aimless" (sw_new "__mismatch__")).2
    = ["passphrases do not match - try again"].
Proof. vm_compute. split; reflexivity. Qed.
End StartupWitness.
