(* ===== verification/KeysPageProps.v ===== *)
(** * What the Keys & Identity dialog does and asks *)

From S2P Require Import Prelude PyStr Codec Json Sys Paths Crypto Protocol Keys Store DaemonClient Service Tunnel Cli Desktop View Transfers Conversations BackupProps Supervise App Startup KeysPage.
From Stdlib Require Import Ascii.
Local Open Scope Z_scope.

Section KeysPage.
Context `{N : NaCl} {NL : NaClLaws N} `{J : JsonCodec} {JL : JsonLaws J} `{D : Daemon} `{E : !Env} `{MU : Markup}
  `{Z_ : Zone} `{L : Locale}.
Context (cwd argv0 : string).

(** ** Answers *)

Definition no_answer : form := Form Cancel [].
Definition answer (p : page) : form := default no_answer (head (p_forms p)).
Definition answered (p : page) : page := set_p_forms (tail (p_forms p)) p.
Lemma next_answer_run p : next_answer p = (Ok (answer p), answered p).
Proof. unfold next_answer, answer, answered. destruct p as [? ? ? ? ? ? ? [|f l] ? ?]; done. Qed.

Definition agreed (f : form) : bool := match pressed f with OK => true | _ => false end.
Lemma confirm_run title text p :
  _confirm title text p =
    (Ok (agreed (answer p)), answered (set_shown (Confirm title text :: p_shown p) p)).
Proof.
  unfold _confirm. rewrite (M_bind_run _ _ p tt (set_shown (Confirm title text :: p_shown p) p)) by done.
  by rewrite (M_bind_run _ _ _ _ _ (next_answer_run _)).
Qed.

(** The forms that let a button act: the question confirmed, after the file
    and the passphrase where it asks for them. *)
Definition consent (a : keys_action) (forms : list form) : bool :=
  let ok n := agreed (nth n forms no_answer) in
  match a with
  | ApplyNode | ResetNode | ImportIdentity => ok 0%nat
  | ExportBackup => ok 0%nat && ok 1%nat
  | ImportBackup => ok 0%nat && ok 1%nat && ok 2%nat
  | _ => false
  end.

(** The files, the processes, the daemon and the session. *)
Definition untouched (p p' : page) : Prop :=
  p_sup p' = p_sup p ∧ w_fs (o_world (p_os p')) = w_fs (o_world (p_os p)) ∧
  w_daemon (o_world (p_os p')) = w_daemon (o_world (p_os p)) ∧
  o_procs (p_os p') = o_procs (p_os p) ∧ o_signals (p_os p') = o_signals (p_os p) ∧
  p_store p' = p_store p ∧ p_client p' = p_client p ∧ p_self_node p' = p_self_node p ∧ p_view p' = p_view p.

#[local] Instance untouched_preorder : PreOrder untouched.
Proof. split; [done|]. intros p1 p2 p3 H1 H2. unfold untouched in *. naive_solver congruence. Qed.

Section Kept.
Variable p0 : page.
Let I : page → Prop := untouched p0.
Lemma same_label f : keeps I (label f) any.
Proof. by apply keeps_modify. Qed.
Lemma same_display m : keeps I (display m) any.
Proof. by apply keeps_modify. Qed.
Lemma same_entry f : keeps I (entry_of f) any.
Proof. apply keeps_gets_any. Qed.
Lemma same_run {A} (m : KM A) : (∀ p, ∃ r p', m p = (r, p') ∧ untouched p p') → keeps I m any.
Proof.
  intros Hm p Hp. destruct (Hm p) as (r&p'&Hr&Hu). split; [|done]. unfold I.
  transitivity p; [exact Hp|]. change (m p).2 with (snd (m p)). destruct (m p). by injection Hr as -> ->.
Qed.
Lemma same_answer : keeps I next_answer any.
Proof. apply same_run. intros p. by exists (Ok (answer p)), (answered p); split; [apply next_answer_run|]. Qed.
Lemma same_confirm title text : keeps I (_confirm title text) any.
Proof. apply same_run. intros p. eexists _, _. split; [apply confirm_run|done]. Qed.
(** A call on the machine that leaves files, daemon and processes alone. *)
Lemma same_io {A} (m : IO A) :
  (∀ w, w_fs (m w).2 = w_fs w ∧ w_daemon (m w).2 = w_daemon w) → keeps I (km_io m) any.
Proof.
  intros Hm. apply same_run. intros p.
  destruct (Hm (o_world (p_os p))) as [Hf Hd]. unfold km_io, km_sup, on_os, om_world.
  destruct (m (o_world (p_os p))) as [r w]. eexists _, _. split; [reflexivity|]. by repeat split.
Qed.
Lemma same_load path pw : keeps I (km_io (load_bundle path pw)) any.
Proof. apply same_io. intros w. unfold load_bundle, read_file, lift, mbind, M_bind. by destruct (fs_read _ _). Qed.
Lemma same_random : keeps I (km_io random_node_key) any.
Proof.
  apply same_io. intros w. unfold random_node_key, random, draw, lift, mbind, M_bind. cbn.
  by destruct (yggdrasil_address _).
Qed.
Local Hint Resolve same_label same_display same_entry same_answer same_confirm same_load same_random : keeps.

Lemma same_preview : keeps I preview_node any.
Proof. unfold preview_node. keeps_tac. Qed.
Lemma same_gen : keeps I gen_node any.
Proof. unfold gen_node. keeps_tac. Qed.
Lemma same_secret confirm : keeps I (ask_secret_here confirm) any.
Proof. unfold ask_secret_here. keeps_tac. Qed.
Lemma same_choose : keeps I choose_file any.
Proof. unfold choose_file. keeps_tac. Qed.
Lemma same_read path pw : keeps I (read_bundle path pw) any.
Proof. unfold read_bundle. keeps_tac. Qed.
End Kept.

(** Reading a bundle leaves the forms to come as they are, too. *)
Lemma forms_read p fs path pw :
  keeps (λ q, untouched p q ∧ p_forms q = fs)
    (try_with is_import_error (data ← read_bundle path pw; mret (Some data))
      (λ e, _ ← label (bk_status_to ("import failed: " +:+ exn_str e));
            _ ← _info_dialog "Import failed" (exn_str e) None; mret None)) any.
Proof.
  assert (Hio : keeps (λ q, untouched p q ∧ p_forms q = fs) (km_io (load_bundle path pw)) any).
  { intros q [Hq Hf]. destruct (same_load p path pw q Hq) as [H _]. split; [|done]. split; [exact H|].
    rewrite <-Hf. unfold km_io, km_sup, on_os, om_world. by destruct (load_bundle _ _ _). }
  assert (Hl : ∀ f, keeps (λ q, untouched p q ∧ p_forms q = fs) (label f) any) by (intros f; by apply keeps_modify).
  assert (Hd : ∀ m, keeps (λ q, untouched p q ∧ p_forms q = fs) (display m) any) by (intros m; by apply keeps_modify).
  apply keeps_try; unfold read_bundle, _info_dialog; [|intros e]; repeat (first [apply Hio|apply Hl|apply Hd|keeps_step]).
Qed.

Lemma untouched_of {A} (m : KM A) p : keeps (untouched p) m any → untouched p (m p).2.
Proof. intros Hm. by destruct (Hm p) as [H _]. Qed.

(** A question not agreed to ends the handler. *)
Lemma not_agreed title text p k :
  agreed (answer p) = false →
  untouched p ((go ← _confirm title text; if negb go then mret tt else k) p).2.
Proof. intros Ha. rewrite (M_bind_run _ _ _ _ _ (confirm_run title text p)), Ha. done. Qed.
(** What the file and passphrase dialogs answer, and the forms they leave. *)
Lemma secret_run confirm p :
  ∃ r p', ask_secret_here confirm p = (Ok r, p') ∧ untouched p p' ∧ p_forms p' = tail (p_forms p) ∧
    (is_Some r → agreed (answer p) = true).
Proof.
  unfold ask_secret_here. rewrite (M_bind_run _ _ _ _ _ (next_answer_run p)). unfold secret_of, agreed.
  destruct (pressed (answer p)); [eexists None, _; split_and!; [done..|by intros []]| |
    eexists None, _; split_and!; [done..|by intros []]].
  repeat case_match; try done; simplify_eq; (eexists _, _; split_and!; [reflexivity|done..]).
Qed.
Lemma choose_run p :
  ∃ r p', choose_file p = (Ok r, p') ∧ untouched p p' ∧ p_forms p' = tail (p_forms p) ∧
    (is_Some r → agreed (answer p) = true).
Proof.
  unfold choose_file. rewrite (M_bind_run _ _ _ _ _ (next_answer_run p)). unfold agreed.
  destruct (pressed (answer p)); (eexists _, _; split_and!; [reflexivity|done|done|]); [by intros []|done|by intros []].
Qed.
Lemma answer_nth p n forms : p_forms p = Nat.iter n (@tail form) forms → answer p = nth n forms no_answer.
Proof.
  unfold answer. intros ->. revert forms; induction n as [|n IH]; intros forms; [by destruct forms|].
  rewrite Nat.iter_succ_r, IH. by destruct forms; [destruct n|].
Qed.

Lemma apply_asks p : agreed (answer p) = false → untouched p (apply_node cwd argv0 p).2.
Proof.
  intros Ha. unfold apply_node. rewrite (M_bind_run _ _ p (l_node_entry (p_labels p)) p) by done.
  destruct (parse_node_key _) as [[seed pub]|e]; [|by destruct (is_value_error e)].
  destruct (yggdrasil_address pub) as [addr|e] eqn:Haddr.
  - rewrite (M_bind_run _ _ p addr p) by done. by apply not_agreed.
  - by rewrite (M_bind_raise _ _ p e p).
Qed.
Lemma import_identity_asks p : agreed (answer p) = false → untouched p (import_identity p).2.
Proof.
  intros Ha. unfold import_identity. rewrite (M_bind_run _ _ p (l_id_entry (p_labels p)) p) by done.
  destruct (_ ≫= _) as [seed|e]; [by apply not_agreed|by destruct (is_value_error e)].
Qed.
Lemma export_asks p : consent ExportBackup (p_forms p) = false → untouched p (export_backup p).2.
Proof.
  intros Hc. unfold export_backup. destruct (secret_run true p) as ([pw|]&p1&H1&Hu1&Hf1&Ha1);
    rewrite (M_bind_run _ _ _ _ _ H1); [|exact Hu1].
  specialize (Ha1 ltac:(done)). rewrite (answer_nth p 0 (p_forms p)) in Ha1 by done.
  destruct (choose_run p1) as ([path|]&p2&H2&Hu2&Hf2&Ha2);
    rewrite (M_bind_run _ _ _ _ _ H2); [|by transitivity p1].
  specialize (Ha2 ltac:(done)). rewrite (answer_nth p1 1 (p_forms p)) in Ha2 by done.
  cbn [consent] in Hc. rewrite Ha1, Ha2 in Hc. done.
Qed.
Lemma import_asks p : consent ImportBackup (p_forms p) = false → untouched p (import_backup cwd argv0 p).2.
Proof.
  intros Hc. unfold import_backup. destruct (choose_run p) as ([path|]&p1&H1&Hu1&Hf1&Ha1);
    rewrite (M_bind_run _ _ _ _ _ H1); [|exact Hu1].
  specialize (Ha1 ltac:(done)). rewrite (answer_nth p 0 (p_forms p)) in Ha1 by done.
  destruct (secret_run false p1) as ([pw|]&p2&H2&Hu2&Hf2&Ha2);
    rewrite (M_bind_run _ _ _ _ _ H2); [|by transitivity p1].
  specialize (Ha2 ltac:(done)). rewrite (answer_nth p1 1 (p_forms p)) in Ha2 by done.
  cbn [consent] in Hc. rewrite Ha1, Ha2 in Hc. cbn [andb] in Hc.
  assert (Hu : untouched p p2) by (by transitivity p1).
  match goal with |- untouched p ((?m ≫= _) p2).2 => set (reading := m) end.
  assert (Hr : keeps (λ q, untouched p q ∧ p_forms q = p_forms p2) reading any) by apply forms_read.
  destruct (Hr p2) as [[Hu3 Hf3] _]; [done|]. unfold mbind, M_bind. unfold mbind, M_bind in Hu3, Hf3.
  destruct (reading p2) as [[[data|]|e] p3]; cbn [snd] in Hu3, Hf3; [|exact Hu3..].
  destruct (restore_question data) as [question|e]; cbn [lift]; [|exact Hu3].
  transitivity p3; [exact Hu3|]. apply (not_agreed _ _ p3).
  rewrite (answer_nth p3 2 (p_forms p)); [exact Hc|]. by rewrite Hf3, Hf2, Hf1.
Qed.

(** C20: Nothing without the user's consent: unless the question of a button is
    answered OK, after the file and the passphrase where it asks for them, the
    button leaves the files, the daemon, the processes, the supervisor and the
    session as they were; previews, generated keys and typing never touch
    them. *)
Theorem keys_untouched a p :
  consent a (p_forms p) = false → untouched p (keys_handler cwd argv0 a p).2.
Proof.
  assert (Hn : answer p = nth 0 (p_forms p) no_answer) by by apply (answer_nth p 0).
  intros Hc. destruct a; cbn [keys_handler]; cbn [consent] in Hc; rewrite <-?Hn in Hc.
  - apply untouched_of, same_preview.
  - by apply apply_asks.
  - apply untouched_of, same_gen.
  - by apply not_agreed.
  - by apply import_identity_asks.
  - apply export_asks. cbn [consent]. by rewrite <-Hn.
  - apply import_asks. cbn [consent]. by rewrite <-Hn.
  - done.
  - done.
Qed.

(** ** A new node key *)

Definition machine_of (p : page) : world := o_world (p_os p).
Definition node_key_at (p : page) : string := path_join (daemon_dir (w_env (machine_of p)) (w_home (machine_of p))) "node.key".

Lemma parse_node_key_ok text seed pub :
  parse_node_key text = Ok (seed, pub) → length seed = 32%nat ∧ pub = sign_pk seed.
Proof.
  unfold parse_node_key. cbv zeta.
  match goal with |- (if ?b || ?c then _ else _) = _ → _ => destruct (b || c) end; [done|].
  intros (data&_&Hs)%bind_Ok. apply bind_Ok in Hs as (s&Hs&[= <- <-]). split; [|done].
  destruct (length data =? 64)%nat eqn:H64.
  - injection Hs as <-. apply Nat.eqb_eq in H64. rewrite length_take. lia.
  - destruct (length data =? 32)%nat eqn:H32; [|done]. injection Hs as <-. by apply Nat.eqb_eq.
Qed.
Lemma address_of_seed seed : length seed = 32%nat → ∃ addr, yggdrasil_address (sign_pk seed) = Ok addr.
Proof. intros Hs. unfold yggdrasil_address. rewrite (sign_pk_length seed Hs). cbn. by eexists. Qed.

Lemma write_node_key_run dir seed w :
  let path := path_join dir "node.key" in
  ∃ m, write_node_key dir seed w = (Ok path, set_fs m w) ∧ fs_read path m = Ok (key_file seed) ∧
    ∀ q, q ≠ path → q ≠ path +:+ ".tmp" → m !! q = w_fs w !! q.
Proof.
  cbv zeta. set (path := path_join dir "node.key").
  destruct (write_replace_spec path (key_file seed) 384 (w_fs w)) as (m&md&Hm&Hp&_&_&Ho).
  exists m. split_and!; [|by rewrite (fs_read_file path _ _ Hp)|exact Ho].
  unfold write_node_key, _atomic_write. fold path. fold (key_file seed).
  by rewrite (M_bind_run _ _ w tt (set_fs m w)) by by apply for_each_sys.
Qed.

Lemma km_io_run {A} (m : IO A) p r w :
  m (machine_of p) = (r, w) → km_io m p = (r, set_p_machine (p_sup p) (set_world w (p_os p)) p).
Proof. intros Hm. unfold km_io, km_sup, on_os, om_world. unfold machine_of in Hm. by rewrite Hm. Qed.
Lemma km_path_run f p : km_io (io_path f) p = (Ok (f (w_env (machine_of p)) (w_home (machine_of p))), p).
Proof.
  rewrite (km_io_run _ p (Ok (f (w_env (machine_of p)) (w_home (machine_of p)))) (machine_of p)) by done.
  unfold machine_of, set_world, set_p_machine. by destruct p as [? [] ? ? ? ? ? ? ? ?].
Qed.

(** A confirmed node key is installed: the question names the address of
    the key typed, and when it is answered OK the key file holds exactly the
    seed typed, every other file is as it was, and only then is the daemon
    restarted; the new address is shown as the current one when restart and
    refresh went through, and an [OSError] in them is told. *)
Theorem apply_node_spec p seed pub :
  parse_node_key (Some (l_node_entry (p_labels p))) = Ok (seed, pub) → agreed (answer p) = true →
  ∃ addr p1,
    yggdrasil_address (sign_pk seed) = Ok addr ∧
    fs_read (node_key_at p) (w_fs (machine_of p1)) = Ok (key_file seed) ∧
    (∀ q, q ≠ node_key_at p → q ≠ node_key_at p +:+ ".tmp" →
      w_fs (machine_of p1) !! q = w_fs (machine_of p) !! q) ∧
    p_shown p1 = Confirm "Replace your Yggdrasil node key?"
      ("Your address becomes " +:+ addr +:+ ". Anyone who saved your old "
       +:+ "invite must add you again. The daemon restarts now.") :: p_shown p ∧
    let '(r, p2) := (_ ← _daemon_restart cwd argv0; refresh_self) p1 in
    apply_node cwd argv0 p =
      match r with
      | Ok _ => (Ok tt, set_shown (Info "Node key applied" None :: p_shown p2)
                  (set_labels (node_status_to ("current: " +:+ addr)) p2))
      | Raise e =>
        if is_os_error e then (Ok tt, set_shown (Info "Could not write node key" None :: p_shown p2) p2)
        else (Raise e, p2)
      end.
Proof.
  intros Hparse Ha. destruct (parse_node_key_ok _ _ _ Hparse) as [Hlen ->].
  destruct (address_of_seed seed Hlen) as [addr Haddr].
  destruct (write_node_key_run (daemon_dir (w_env (machine_of p)) (w_home (machine_of p))) seed (machine_of p))
    as (m&Hw&Hread&Hother).
  set (question := "Your address becomes " +:+ addr +:+ ". Anyone who saved your old "
       +:+ "invite must add you again. The daemon restarts now.").
  set (pc := answered (set_shown (Confirm "Replace your Yggdrasil node key?" question :: p_shown p) p)).
  set (p1 := set_p_machine (p_sup pc) (set_world (set_fs m (machine_of p)) (p_os pc)) pc).
  exists addr, p1. split_and!; [done|exact Hread|exact Hother|done|].
  unfold apply_node. rewrite (M_bind_run _ _ p (l_node_entry (p_labels p)) p) by done. rewrite Hparse.
  rewrite (M_bind_run _ _ p addr p) by (unfold lift; by rewrite Haddr).
  rewrite (M_bind_run _ _ _ _ _ (confirm_run _ question p)), Ha. cbn [negb]. fold pc.
  assert (Hseed : _apply_node_seed cwd argv0 seed pc = (_ ← _daemon_restart cwd argv0; refresh_self) p1).
  { unfold _apply_node_seed. rewrite (M_bind_run _ _ _ _ _ (km_path_run daemon_dir pc)).
    by rewrite (M_bind_run _ _ _ _ _ (km_io_run (write_node_key _ seed) pc _ _ Hw)). }
  unfold try_with. destruct ((_ ← _daemon_restart cwd argv0; refresh_self) p1) as [[[]|e] p2].
  - rewrite (M_bind_run _ _ pc true p2); [done|]. by rewrite (M_bind_run _ _ _ _ _ Hseed).
  - destruct (is_os_error e) eqn:He.
    + rewrite (M_bind_run _ _ pc false (set_shown (Info "Could not write node key" None :: p_shown p2) p2)); [done|].
      by rewrite (M_bind_raise _ _ _ _ _ Hseed), He.
    + apply M_bind_raise. by rewrite (M_bind_raise _ _ _ _ _ Hseed), He.
Qed.

(** A generated key is one the dialog takes, at the address it shows. *)
Lemma gen_node_run p :
  let seed := random_bytes 32 (w_rng (machine_of p)) in
  ∃ addr p', gen_node p = (Ok tt, p') ∧ yggdrasil_address (sign_pk seed) = Ok addr ∧
    l_node_preview (p_labels p') = "address: " +:+ addr ∧ p_forms p' = p_forms p ∧
    parse_node_key (Some (l_node_entry (p_labels p'))) = Ok (seed, sign_pk seed).
Proof.
  cbv zeta. set (seed := random_bytes 32 (w_rng (machine_of p))).
  assert (Hlen : length seed = 32%nat) by apply random_length.
  destruct (address_of_seed seed Hlen) as [addr Haddr].
  set (w := machine_of p). set (w' := (random 32 w).2).
  unfold gen_node. rewrite (M_bind_run _ _ _ _ _ (km_io_run random_node_key p (Ok (hex seed, addr)) w' ltac:(
    unfold random_node_key; rewrite (M_bind_run _ _ w seed w') by done;
    rewrite (M_bind_run _ _ w' addr w') by (unfold lift; by rewrite Haddr); done))).
  exists addr. eexists. split_and!; [reflexivity|exact Haddr|done|done|].
  cbn. rewrite <-(str_app_nil_r (hex seed)), parse_node_key_hex by auto. by rewrite take_ge by lia.
Qed.

(** ** A new identity *)

(** C21: An imported identity is the one the next start opens: with a valid
    seed typed, the question answered OK and the passphrase the window was
    unlocked with, the identity file opens under that passphrase with that
    seed; every other file and the running session are as they were. *)
Theorem import_identity_opens p seed pw :
  fromhex (strip (l_id_entry (p_labels p))) = Ok seed → length seed = 32%nat →
  agreed (answer p) = true → p_pass p = Some pw → pw ≠ "" →
  let path := identity_path (w_env (machine_of p)) (w_home (machine_of p)) in
  ∃ p', import_identity p = (Ok tt, p') ∧
    load_identity path pw (machine_of p') = (Ok seed, machine_of p') ∧
    (∀ q, q ≠ path → q ≠ path +:+ ".tmp" → w_fs (machine_of p') !! q = w_fs (machine_of p) !! q) ∧
    p_store p' = p_store p ∧ p_client p' = p_client p ∧ p_sup p' = p_sup p.
Proof.
  intros Hseed Hlen Ha Hpass Hpw. cbv zeta.
  unfold import_identity. rewrite (M_bind_run _ _ p (l_id_entry (p_labels p)) p) by done.
  assert (Hs : (seed ← fromhex (strip (l_id_entry (p_labels p)));
    if (length seed =? 32)%nat then Ok seed else Raise (ValueError "")) = Ok seed).
  { rewrite Hseed. cbn. by rewrite Hlen. }
  rewrite Hs. clear Hs. rewrite (M_bind_run _ _ _ _ _ (confirm_run _ _ p)), Ha. cbn [negb].
  match goal with |- context [answered ?x] => set (pc := answered x) end.
  rewrite (M_bind_run _ _ pc (Some pw) pc) by (unfold gets; by rewrite <-Hpass).
  cbn [default from_option id]. rewrite bool_decide_eq_false_2 by done.
  rewrite (M_bind_run _ _ _ _ _ (km_path_run identity_path pc)).
  set (path := identity_path (w_env (machine_of p)) (w_home (machine_of p))).
  destruct (save_identity_run path seed pw (machine_of p)) as (w'&nonce&md&Hn&Hsave&Hf&_&_&_&_&Ho).
  rewrite (M_bind_run _ _ _ _ _ (km_io_run (save_identity _ seed pw) pc _ _ Hsave)).
  eexists. split; [reflexivity|]. split_and!; [|exact Ho|done..].
  by eapply load_saved.
Qed.
End KeysPage.

Section KeysWitness.
Local Instance kw_json : JsonCodec := RefCodec.
Local Instance kw_json_laws : JsonLaws RefCodec := RefCodec_laws.
Local Instance kw_nacl : NaCl := RefNaCl.
Local Instance kw_nacl_laws : NaClLaws RefNaCl := RefNaCl_laws.
Local Instance kw_daemon : Daemon := {|
  dstate := unit; d_connect _ _ := Raise (OSError "refused"); d_request _ _ d := (Ok JNull, d) |}.
Local Instance kw_env : Env := {| pass _ o := o; new_pid _ := 1; makes_dir _ _ := true |}.
Local Instance kw_markup : Markup := {| markup_escape_text s := s; word_beyond_ascii _ := false |}.
Local Instance kw_zone : Zone := {| utc_offset _ := 0 |}.
Local Instance kw_locale : Locale := {| strftime _ _ := "12:00" |}.

Definition kw_page (files : fs) (forms : list form) (node id : string) : page :=
  Page (DSup None None None "/a/daemon/api.sock" None)
    (Os (World files {["AIMLESS_HOME" := "/a"]} "/h" 0 7 [] [] [] tt) ∅ ∅ [] [])
    (Store empty_db [] 0 empty_db) (Client bob "bo" None) "n0" empty_view (Some "pw") forms []
    (Labels "" node "" id "" "").
Definition yes : form := Form OK [].

Example keys_untouched_witness :
  untouched (kw_page ∅ [Form Cancel []; yes] (hex alice) "")
    (keys_handler "/" "aimless" ApplyNode (kw_page ∅ [Form Cancel []; yes] (hex alice) "")).2.
Proof. apply (keys_untouched "/" "aimless" ApplyNode). reflexivity. Defined.

Example apply_node_spec_witness :
  ∃ addr p1, yggdrasil_address (sign_pk alice) = Ok addr ∧
    fs_read "/a/daemon/node.key" (w_fs (machine_of p1)) = Ok (key_file alice).
Proof.
  destruct (apply_node_spec "/" "aimless" (kw_page ∅ [yes] (hex alice) "") alice (sign_pk alice))
    as (addr&p1&H1&H2&_); [vm_compute; reflexivity|reflexivity|].
  exists addr, p1. split; [exact H1|exact H2].
Defined.

Example import_identity_opens_witness :
  ∃ p', import_identity (kw_page ∅ [yes] "" (hex alice)) = (Ok tt, p') ∧
    load_identity "/a/client/identity.json" "pw" (machine_of p') = (Ok alice, machine_of p').
Proof.
  destruct (import_identity_opens (kw_page ∅ [yes] "" (hex alice)) alice "pw") as (p'&H1&H2&_);
    [vm_compute; reflexivity|reflexivity|reflexivity|reflexivity|discriminate|].
  exists p'. split; [exact H1|exact H2].
Defined.

(** A bundle whose node key is no hex: the restoration is told to have failed
    after the identity was replaced. *)
Definition kw_bundle : file :=
  File (utf8_encode (json_dumps_indent (bundle_object [] (secret_encrypt (kdf_key "b" [])
    (utf8_encode (json_dumps (JObj [("identitySeed", JStr (hex alice)); ("nodeSeed", JStr "zz")])))
    (replicate 24 Byte.x00))))) 384.
Definition kw_restored : result unit * page :=
  import_backup "/" "aimless" (kw_page {["/b" := kw_bundle]} [Form OK ["/b"]; Form OK ["b"]; yes] "" "").
Example failed_restore_replaces_identity :
  match kw_restored with
  | (Ok _, p') =>
    match p_shown p' with Info t None :: _ => bool_decide (t = "Restore failed") | _ => false end &&
    match (load_identity "/a/client/identity.json" "pw" (machine_of p')).1 with
    | Ok seed => bool_decide (seed = alice)
    | Raise _ => false
    end
  | _ => false
  end = true.
Proof. vm_compute. reflexivity. Qed.
End KeysWitness.
