(* ===== verification/PagesProps.v ===== *)
(** * What the contacts list and the status line show *)

From S2P Require Import Prelude PyStr Codec Json Sys Paths Crypto Protocol Keys Store DaemonClient Service Tunnel Desktop View Transfers Conversations Supervise Pages.
From Stdlib Require Import Ascii.
Local Open Scope Z_scope.

(** ** The build check *)

Lemma after_slash_name name rest :
  str_mem "/" name = false → after_slash (name +:+ "/" +:+ rest) = Ok rest.
Proof.
  intros Hn. unfold after_slash. change ("/" +:+ rest) with (String "/" rest).
  rewrite split_on_app by done. destruct (split_on_nonempty "/" rest) as (w&ws&E). rewrite E.
  rewrite <-E. change "/" with (String "/" "") at 1. by rewrite join_split_on.
Qed.

Lemma split_numbers (l : list Z) :
  l ≠ [] → split_on "." (join "." (str_of_int <$> l)) = str_of_int <$> l.
Proof.
  induction l as [|x l IH]; [done|]. intros _.
  assert (Hx : str_mem "." (str_of_int x) = false) by by apply str_of_int_no_mem.
  destruct l as [|y l]; [by apply split_on_word|].
  change (join "." (str_of_int <$> x :: y :: l)) with (str_of_int x +:+ String "." (join "." (str_of_int <$> y :: l))).
  rewrite split_on_app by done. by rewrite IH.
Qed.

Lemma map_py_int (l : list Z) : map_result py_int (str_of_int <$> l) = Ok l.
Proof.
  induction l as [|x l IH]; [done|].
  change (map_result py_int (str_of_int <$> x :: l))
    with (y ← py_int (str_of_int x); ys ← map_result py_int (str_of_int <$> l); Ok (y :: ys)).
  by rewrite py_int_str_of_int, IH.
Qed.

(** Python's order on tuples: a proper prefix, or the first difference. *)
Definition before (a b : list Z) : Prop :=
  (∃ y t, b = a ++ y :: t) ∨ (∃ p x y ta tb, a = p ++ x :: ta ∧ b = p ++ y :: tb ∧ x < y).
Lemma tuple_lt_before a b : tuple_lt a b = true ↔ before a b.
Proof.
  revert b; induction a as [|x a IH]; intros [|y b]; cbn [tuple_lt].
  - split; [done|]. intros [(z&t&[=])|([|? ?]&?&?&?&?&H&_&_)]; discriminate H.
  - split; [intros _; left; by exists y, b|done].
  - split; [done|]. intros [(z&t&H)|([|? ?]&?&?&?&?&_&H&_)]; discriminate H.
  - rewrite orb_true_iff, andb_true_iff, IH, Z.ltb_lt, Z.eqb_eq. split.
    + intros [Hlt|[-> [(z&t&->)|(p&u&v&ta&tb&->&->&Huv)]]].
      * right. by exists [], x, y, a, b.
      * left. by exists z, t.
      * right. by exists (y :: p), u, v, ta, tb.
    + intros [(z&t&[= -> ->])|([|w p]&u&v&ta&tb&Ha&Hb&Huv)].
      * right. split; [done|]. left. by exists z, t.
      * injection Ha as -> ->. injection Hb as -> ->. by left.
      * injection Ha as -> ->. injection Hb as -> ->. right. split; [done|]. right. by exists p, u, v, ta, tb.
Qed.

(** The build check reads what daemons announce: of a build named
    [name/n1.n2...] the version is those numbers, and the daemon is called too
    old exactly when they come before the minimum in the order of tuples. *)
Theorem build_check_spec name l :
  str_mem "/" name = false → l ≠ [] →
  let build := name +:+ "/" +:+ join "." (str_of_int <$> l) in
  daemon_version build = Some l ∧ (too_old build = true ↔ before l MIN_DAEMON_BUILD).
Proof.
  intros Hname Hl. cbv zeta.
  assert (Hv : daemon_version (name +:+ "/" +:+ join "." (str_of_int <$> l)) = Some l).
  { unfold daemon_version. rewrite after_slash_name by done. cbn [mbind result_bind].
    by rewrite split_numbers, map_py_int. }
  split; [done|]. unfold too_old. rewrite Hv. apply tuple_lt_before.
Qed.
Example build_check_spec_witness : too_old "aimlessd/0.9.10" = false ∧ too_old "aimlessd/0.8.12" = true.
Proof.
  destruct (build_check_spec "aimlessd" [0; 9; 10]) as [_ H1]; [done..|].
  destruct (build_check_spec "aimlessd" [0; 8; 12]) as [_ H2]; [done..|].
  split; [vm_compute; reflexivity|]. apply H2. right. by exists [0], 8, 9, [12], [5].
Defined.

(** ** The list of buddies *)

Section Buddies.
Context `{N : NaCl} `{J : JsonCodec} `{D : Daemon} `{MU : Markup} `{Z_ : Zone} `{L : Locale}.
Context (role : string → string).

(** Titles are all that a refresh of the presence changes. *)
Lemma set_row_title_frame i t b :
  b_index (set_row_title i t b) = b_index b ∧ row_action <$> b_rows (set_row_title i t b) = row_action <$> b_rows b ∧
  row_sub <$> b_rows (set_row_title i t b) = row_sub <$> b_rows b ∧ b_blocked (set_row_title i t b) = b_blocked b.
Proof.
  unfold set_row_title, set_rows. cbn. split_and!; [done| | |done];
    (rewrite list_alter_fmap_mono || idtac; apply list_eq; intros j; rewrite !list_lookup_fmap, list_lookup_alter;
     case_decide; [subst; by destruct (b_rows b !! _)|done]).
Qed.

(** What the list is made from: contacts with a node and a name, blocked nodes
    whose remembered name can be read, presence entries that are records. *)
Definition readable_contact (kv : string * json) : Prop :=
  ∃ n s, jindex "node" kv.2 = Ok (JStr n) ∧ get_or "screen" (JStr kv.1) kv.2 = Ok (JStr s).
Definition named (g : gui) (node : string) : Prop := ∃ o, blocked_screen node (g_store g) = (Ok o, g_store g).
Definition records (presence : list (string * json)) : Prop :=
  ∀ k j, dict_get k presence = Some j → ∃ d, j = JObj d.
Definition contact_action (blocked : gset string) (kv : string * json) : row_button :=
  match jindex "node" kv.2 ≫= as_str with
  | Ok n => if bool_decide (n ∈ blocked) then Unblock n else Remove kv.1
  | Raise _ => Remove kv.1
  end.

Lemma contact_row_run blocked kv :
  readable_contact kv → ∃ r, contact_row blocked kv = Ok r ∧ row_action r = contact_action blocked kv.
Proof.
  intros (n&s&Hn&Hs). unfold contact_row, contact_action. rewrite Hn, Hs. cbn. by eexists.
Qed.
Lemma presence_state_run id d : ∃ p, _presence_state id (JObj d) = Ok p.
Proof.
  unfold _presence_state, get_or. cbn [jget mbind result_bind].
  destruct (negb _); [by eexists|]. destruct (negb _); by eexists.
Qed.
Lemma bm_gui_run {A} (m : GUI A) g b a : m g = (Ok a, g) → bm_gui m (g, b) = (Ok a, (g, b)).
Proof. intros Hm. unfold bm_gui. by rewrite Hm. Qed.

Lemma title_of_run g contacts presence key :
  (∀ kv, kv ∈ contacts → readable_contact kv) → records presence →
  (key ∈ contacts.*1 ∨ named g key) → ∃ t, title_of role contacts presence key g = (Ok t, g).
Proof.
  intros Hc Hp Hkey. unfold title_of. rewrite (M_bind_run _ _ g (g_client g) g) by done.
  assert (Hstate : ∀ node label, ∃ t,
    (p ← lift (_presence_state (cl_identity (g_client g))
          match node with JStr n => default (JObj []) (dict_get n presence) | _ => JObj [] end);
     mret (presence_title role label p)) g = (Ok t, g)).
  { intros node label.
    assert (Ho : ∃ d, match node with JStr n => default (JObj []) (dict_get n presence) | _ => JObj [] end = JObj d).
    { destruct node; try by eexists. destruct (dict_get s presence) eqn:Hs; [|by eexists].
      destruct (Hp _ _ Hs) as [d ->]. by exists d. }
    destruct Ho as [d ->]. destruct (presence_state_run (cl_identity (g_client g)) d) as [p Hps].
    eexists. by rewrite (M_bind_run _ _ g p g) by (unfold lift; by rewrite Hps). }
  set (info := default (JObj []) (dict_get key contacts)).
  match goal with |- context [(?m ≫= _) g] => assert (Hm : ∃ nl, m g = (Ok nl, g)) end.
  2: { destruct Hm as [[node label] Hm]. rewrite (M_bind_run _ _ _ _ _ Hm). apply Hstate. }
  destruct (dict_get key contacts) as [j|] eqn:Hj.
  - apply dict_get_elem in Hj. destruct (Hc _ Hj) as (n&s&Hn&Hs). cbn in Hn, Hs. subst info. cbn [default from_option id].
    destruct j as [| | | | |d]; try discriminate Hn. assert (Ht : truthy (JObj d) = true) by (by destruct d).
    rewrite Ht. rewrite (M_bind_run _ _ g (dict_get "node" d) g) by done.
    rewrite (M_bind_run _ _ g s g) by (unfold lift; by rewrite Hs). by eexists.
  - subst info. cbn [default from_option id truthy].
    destruct Hkey as [Hin|[o Ho]].
    { apply dict_mem_true in Hin. unfold dict_mem in Hin. by rewrite Hj in Hin. }
    rewrite (M_bind_run _ _ g o g) by (unfold gst; rewrite Ho; by destruct g). by eexists.
Qed.

(** The list being filled: what its buttons do, and the keys of its titles. *)
Definition filled (b : buddies) (acts : list row_button) (keys : gset string) (b' : buddies) : Prop :=
  row_action <$> b_rows b' = (row_action <$> b_rows b) ++ acts ∧
  (∀ k, k ∈ (b_index b').*1 → k ∈ (b_index b).*1 ∨ k ∈ keys) ∧
  b_blocked b' = b_blocked b ∧ b_presence b' = b_presence b ∧ b_invite b' = b_invite b.
Lemma filled_nil b : filled b [] ∅ b.
Proof. split_and!; [by rewrite app_nil_r|by left|done..]. Qed.
Lemma filled_step b k r acts keys b' :
  filled (add_row k r b) acts keys b' → filled b (row_action r :: acts) ({[k]} ∪ keys) b'.
Proof.
  intros (H1&H2&H3&H4&H5). split_and!; [|intros j Hj|done..].
  - rewrite H1. unfold add_row. cbn. by rewrite fmap_app, <-app_assoc.
  - destruct (H2 j Hj) as [Hk|Hk]; [|set_solver]. unfold add_row in Hk. cbn in Hk.
    apply dict_set_keys in Hk as [->|Hk]; set_solver.
Qed.

Lemma contacts_filled blocked g l b :
  (∀ kv, kv ∈ l → readable_contact kv) →
  ∃ b', for_each (λ kv : string * json, r ← lift (contact_row blocked kv); rows (add_row kv.1 r)) l (g, b)
      = (Ok tt, (g, b')) ∧ filled b (contact_action blocked <$> l) (list_to_set l.*1) b'.
Proof.
  revert b; induction l as [|kv l IH]; intros b Hl; cbn [for_each]; [exists b; split; [done|apply filled_nil]|].
  destruct (contact_row_run blocked kv) as (r&Hr&Ha); [apply Hl; left|].
  destruct (IH (add_row kv.1 r b)) as (b'&Hb&Hf); [intros x Hx; apply Hl; by right|].
  exists b'. split; [|rewrite fmap_cons, <-Ha; by apply filled_step].
  rewrite (M_bind_run _ _ (g, b) tt (g, add_row kv.1 r b)); [exact Hb|].
  by rewrite (M_bind_run _ _ (g, b) r (g, b)) by (unfold lift; by rewrite Hr).
Qed.
Lemma strangers_filled (nodes : list string) g l b :
  (∀ n, n ∈ l → named g n) →
  ∃ b', for_each (λ node,
        if bool_decide (node ∈ nodes) then mret tt
        else name ← bm_gui (gst (blocked_screen node)); rows (add_row node (stranger_row name node))) l (g, b)
      = (Ok tt, (g, b')) ∧ filled b (Unblock <$> filter (.∉ nodes) l) (list_to_set l) b'.
Proof.
  revert b; induction l as [|n l IH]; intros b Hl; cbn [for_each]; [exists b; split; [done|apply filled_nil]|].
  assert (Hl' : ∀ x, x ∈ l → named g x) by (intros x Hx; apply Hl; by right).
  rewrite filter_cons. case_bool_decide as Hn.
  - rewrite decide_False by tauto. destruct (IH b Hl') as (b'&Hb&H1&H2&H3). exists b'.
    rewrite (M_bind_run _ _ (g, b) tt (g, b)) by done. split; [exact Hb|]. split_and!; [done| |apply H3..].
    intros k Hk. destruct (H2 k Hk); [by left|]. right. cbn. set_solver.
  - rewrite decide_True by done. destruct (Hl n) as [o Ho]; [left|].
    destruct (IH (add_row n (stranger_row o n) b) Hl') as (b'&Hb&Hf).
    exists b'. split; [|exact (filled_step b n (stranger_row o n) _ _ _ Hf)].
    rewrite (M_bind_run _ _ (g, b) tt (g, add_row n (stranger_row o n) b)); [exact Hb|].
    rewrite (M_bind_run _ _ (g, b) o (g, b)); [done|]. apply bm_gui_run. unfold gst. rewrite Ho. by destruct g.
Qed.

Lemma titles_run g contacts presence index b :
  (∀ kv, kv ∈ contacts → readable_contact kv) → records presence →
  (∀ k, k ∈ index.*1 → k ∈ contacts.*1 ∨ named g k) →
  ∃ b', for_each (λ ki : string * nat, t ← bm_gui (title_of role contacts presence ki.1); rows (set_row_title ki.2 t))
      index (g, b) = (Ok tt, (g, b')) ∧
    b_index b' = b_index b ∧ row_action <$> b_rows b' = row_action <$> b_rows b ∧
    b_blocked b' = b_blocked b ∧ b_presence b' = b_presence b.
Proof.
  intros Hc Hp. revert b; induction index as [|[k i] index IH]; intros b Hk; cbn [for_each]; [by exists b|].
  destruct (title_of_run g contacts presence k Hc Hp) as [t Ht]; [apply Hk; left|].
  destruct (IH (set_row_title i t b)) as (b'&Hb&H1&H2&H3&H4); [intros x Hx; apply Hk; by right|].
  destruct (set_row_title_frame i t b) as (F1&F2&_&F4).
  exists b'. split_and!; [|congruence..|by rewrite H4].
  rewrite (M_bind_run _ _ (g, b) tt (g, set_row_title i t b)); [exact Hb|].
  by rewrite (M_bind_run _ _ (g, b) t (g, b)) by by apply bm_gui_run.
Qed.

Lemma contact_nodes_run cts :
  (∀ kv, kv ∈ cts → readable_contact kv) →
  ∃ nodes, contact_nodes cts = Ok nodes ∧
    ∀ n, n ∈ nodes ↔ ∃ kv, kv ∈ cts ∧ jindex "node" kv.2 = Ok (JStr n).
Proof.
  induction cts as [|kv cts IH]; intros Hc; [exists []; split; [done|set_solver]|].
  destruct (Hc kv) as (m&s&Hm&_); [left|]. destruct IH as (nodes&Hnodes&Hin); [intros x Hx; apply Hc; by right|].
  exists (m :: nodes). unfold contact_nodes in *. cbn [map_result]. rewrite Hm. cbn. rewrite Hnodes. split; [done|].
  intros n. rewrite elem_of_cons, Hin. split.
  - intros [->|(x&Hx&Hj)]; [exists kv|exists x]; (split; [set_solver|done]).
  - intros (x&[->|Hx]%elem_of_cons&Hj); [left; congruence|right; by exists x].
Qed.

(** C16: The contacts page lists everybody once and offers what can be done:
    with readable contacts, a row for each of them by name, removed when not
    blocked and unblocked when blocked, then a row for each blocked node no
    contact has; so the nodes that can be unblocked from the list are exactly
    the blocked ones, and nothing but the list changes. *)
Theorem buddies_listed g b blocked cts :
  contacts g = (Ok cts, g) → (∀ kv, kv ∈ cts → readable_contact kv) →
  records (b_presence b) → (∀ n, n ∈ blocked → named g n) →
  ∃ nodes b', contact_nodes cts = Ok nodes ∧ _render_buddy_rows role blocked (g, b) = (Ok tt, (g, b')) ∧
    row_action <$> b_rows b' = (contact_action blocked <$> merge_sort item_le cts)
      ++ (Unblock <$> filter (.∉ nodes) (sorted_set blocked)) ∧
    ∀ n, Unblock n ∈ row_action <$> b_rows b' ↔ n ∈ blocked.
Proof.
  intros Hcts Hc Hp Hn. destruct (contact_nodes_run cts Hc) as (nodes&Hnodes&Hin).
  assert (Hsorted : ∀ kv, kv ∈ merge_sort item_le cts ↔ kv ∈ cts) by (intros kv; by rewrite merge_sort_Permutation).
  assert (Hset : ∀ n, n ∈ sorted_set blocked ↔ n ∈ blocked).
  { intros n. unfold sorted_set, sorted. by rewrite merge_sort_Permutation, elem_of_elements. }
  destruct (contacts_filled blocked g (merge_sort item_le cts) (set_rows [] [] b)) as (b1&H1&Hf1).
  { intros kv Hkv. by apply Hc, Hsorted. }
  destruct (strangers_filled nodes g (sorted_set blocked) b1) as (b2&H2&Hf2).
  { intros n Hb. by apply Hn, Hset. }
  destruct Hf1 as (A1&K1&_&P1&_), Hf2 as (A2&K2&_&P2&_). rewrite A1 in A2. cbn in A2.
  destruct (titles_run g cts (b_presence b2) (b_index b2) b2) as (b3&H3&_&A3&_); [done|by rewrite P2, P1| |].
  { intros k Hk. destruct (K2 k Hk) as [Hk1|Hk1].
    - destruct (K1 k Hk1) as [Hk2|Hk2]; [by apply elem_of_nil in Hk2|]. left.
      apply elem_of_list_to_set, list_elem_of_fmap in Hk2 as (kv&->&Hkv).
      apply list_elem_of_fmap. exists kv. split; [done|by apply Hsorted].
    - right. apply elem_of_list_to_set in Hk1. by apply Hn, Hset. }
  exists nodes, b3. rewrite A3, A2. split_and!; [done| |done|].
  - unfold _render_buddy_rows. rewrite (M_bind_run _ _ (g, b) tt (g, set_rows [] [] b)) by done.
    rewrite (M_bind_run _ _ _ cts (g, set_rows [] [] b)) by by apply bm_gui_run.
    rewrite (M_bind_run _ _ _ nodes (g, set_rows [] [] b)) by (unfold lift; by rewrite Hnodes).
    rewrite (M_bind_run _ _ _ _ _ H1), (M_bind_run _ _ _ _ _ H2).
    rewrite (M_bind_run _ _ _ (b_presence b2) (g, b2)) by done. unfold refresh_presence.
    rewrite (M_bind_run _ _ _ cts (g, b2)) by by apply bm_gui_run.
    by rewrite (M_bind_run _ _ _ (b_index b2) (g, b2)).
  - intros n. rewrite elem_of_app, !list_elem_of_fmap. split.
    + intros [(kv&Ha&Hkv%Hsorted)|(m&[= ->]&Hm)].
      * destruct (Hc kv Hkv) as (m&_&Hm&_). unfold contact_action in Ha. rewrite Hm in Ha. cbn in Ha.
        case_bool_decide; [by injection Ha as ->|done].
      * apply list_elem_of_filter in Hm as [_ Hm]. by apply Hset.
    + intros Hb. destruct (decide (n ∈ nodes)) as [Hnode|Hnode].
      * left. apply Hin in Hnode as (kv&Hkv&Hj). exists kv. split; [|by apply Hsorted].
        unfold contact_action. rewrite Hj. cbn. by rewrite bool_decide_eq_true_2.
      * right. exists n. split; [done|]. apply list_elem_of_filter. split; [done|by apply Hset].
Qed.
End Buddies.

(** ** The daemon's state and the route *)

Section Status.
Context `{J : JsonCodec} `{D : Daemon} `{E : !Env} `{MU : Markup}.
Context (role : string → string) (has_icon : string → bool).

(** No tunnel, or what [state] answers of one. *)
Definition tunnel_ok (tunnel : option (list (string * json))) : Prop :=
  match tunnel with Some t => ∃ s s', Tunnel.state s = (Ok t, s') | None => True end.

Lemma tunnel_texts t :
  tunnel_ok (Some t) →
  (∃ n, tunnel_note (Some t) = Ok n) ∧ (∃ tip, _tunnel_tooltip t = Ok tip) ∧
  (∃ host, escaped "host" t = Ok host) ∧ ∃ up, holds "up" t = Ok up.
Proof.
  intros (s&s'&Hs). unfold Tunnel.state in Hs. apply M_bind_Ok in Hs as (up&s1&_&Hs).
  apply M_bind_Ok in Hs as (t1&s2&_&[= <- _]).
  unfold tunnel_note, _tunnel_tooltip, escaped, holds, fmt, given. unfold jindex. dict_simpl. cbn.
  destruct up; cbn; destruct (bool_decide (last_error t1 = "")); cbn; split_and!; by eexists.
Qed.

Lemma status_fields who st d :
  Sup.status_of who st = Ok d →
  ∃ a k (u t : nat) b m, d = [("address", a); ("pubkey", k); ("peers_up", JInt (Z.of_nat u));
    ("peers_total", JInt (Z.of_nat t)); ("build", b); ("mtu", m)].
Proof.
  unfold Sup.status_of. intros H. repeat (apply bind_Ok in H as (?&_&H)).
  injection H as <-. by eexists _, _, _, _, _, _.
Qed.

Definition status_dict a k (u n : nat) build m : list (string * json) :=
  [("address", a); ("pubkey", k); ("peers_up", JInt (Z.of_nat u)); ("peers_total", JInt (Z.of_nat n));
   ("build", JStr build); ("mtu", m)].
(** The line logged about the build, at most once. *)
Definition warning (warned : bool) (build : string) : list string :=
  if negb warned && too_old build then
    ["⚠ daemon " +:+ build +:+ " is too old for this client (needs ≥ " +:+ need +:+ ") "
     +:+ "- update aimlessd-linux-amd64, then `aimless stop` and reopen"]
  else [].

Lemma build_note_run build warned :
  ∃ name note line, build_note role (JStr build) warned = Ok (name, note, line) ∧
    match line with Some l => [l] | None => [] end = warning warned build ∧
    (line = None → warned || too_old build = warned).
Proof.
  unfold build_note, warning. cbn [truthy]. destruct (bool_decide_reflect (build = "")) as [->|Hb]; cbn [negb].
  - eexists _, _, _. split; [reflexivity|]. change (too_old "") with false. rewrite andb_false_r, orb_false_r. done.
  - destruct (too_old build), warned; cbn; eexists _, _, _; (split; [reflexivity|done]).
Qed.

Lemma refresh_info_run tunnel a k u n build m v :
  tunnel_ok tunnel →
  ∃ x, refresh_info role tunnel (Some (status_dict a k u n build m)) v =
    (Ok tt, set_info x (sv_warned v || too_old build) (warning (sv_warned v) build ++ sv_log v) v).
Proof.
  intros Ht. unfold refresh_info.
  assert (Hn : ∃ tnote, tunnel_note tunnel = Ok tnote) by (destruct tunnel as [t|]; [by apply tunnel_texts|by eexists]).
  destruct Hn as [tnote Hn]. rewrite (M_bind_run _ _ v tnote v) by (unfold lift; by rewrite Hn).
  unfold status_dict. cbn [nonempty]. rewrite (M_bind_run _ _ v (sv_warned v) v) by done.
  destruct (build_note_run build (sv_warned v)) as (name&note&line&Hb&Hl&Hw).
  set (v1 := set_info (sv_info v) (sv_warned v || too_old build) (warning (sv_warned v) build ++ sv_log v) v).
  rewrite (M_bind_run _ _ v (name, note, line) v) by (unfold lift; dict_simpl; by rewrite Hb).
  rewrite (M_bind_run _ _ v tt v1).
  2: { subst v1. rewrite <-Hl. destruct line as [l|]; cbn [app].
       - assert (sv_warned v || too_old build = true) as ->; [|done].
         revert Hl. unfold warning. destruct (sv_warned v), (too_old build); done.
       - rewrite (Hw eq_refl). by destruct v. }
  unfold fmt, jindex. dict_simpl. by eexists.
Qed.

Lemma refresh_self_id_frame screen node pubkey v :
  ∃ v', refresh_self_id role screen node pubkey v = (Ok tt, v') ∧ sv_warned v' = sv_warned v ∧ sv_log v' = sv_log v.
Proof.
  unfold refresh_self_id. rewrite (M_bind_run _ _ v (sv_self_id v) v) by done.
  destruct (bool_decide _); by eexists.
Qed.
Lemma refresh_route_run screen node pubkey tunnel a k u n build m v :
  tunnel_ok tunnel →
  ∃ v', refresh_route role has_icon screen node pubkey tunnel (Some (status_dict a k u n build m)) v = (Ok tt, v') ∧
    sv_warned v' = sv_warned v ∧ sv_log v' = sv_log v.
Proof.
  intros Ht.
  assert (Hr : ∀ tail tip, ∃ x, reached role has_icon (status_dict a k u n build m) tail tip = Ok x).
  { intros tail tip. unfold reached, status_dict, fmt, jindex. dict_simpl. by destruct (Z.of_nat u =? 0); eexists. }
  assert (Hroute : ∃ x, route_of role has_icon tunnel (Some (status_dict a k u n build m)) = Ok x).
  { unfold route_of. destruct tunnel as [t|]; [|apply Hr].
    destruct (tunnel_texts t Ht) as (_&[tip Htip]&[host Hhost]&[up Hup]). rewrite Hup, Hhost, Htip.
    cbn [mbind result_bind]. destruct up; cbn [negb]; [apply Hr|by eexists]. }
  destruct Hroute as [[[text tip] icon] Hroute]. unfold refresh_route.
  rewrite (M_bind_run _ _ v (text, tip, icon) v) by (unfold lift; by rewrite Hroute).
  rewrite (M_bind_run _ _ v tt (set_route text tip icon v)) by done.
  apply (refresh_self_id_frame screen node pubkey (set_route text tip icon v)).
Qed.

(** A poll always reaches the screen: whatever the daemon answers to
    [whoami] and [status], its build being a text, and whatever the tunnel's
    state, both labels are set; and the warning about an old daemon is logged
    the first time the daemon is too old and never again. *)
Theorem status_shown tunnel who st d build screen node pubkey v :
  tunnel_ok tunnel → Sup.status_of who st = Ok d → dict_get "build" d = Some (JStr build) →
  ∃ v1 v2, refresh_info role tunnel (Some d) v = (Ok tt, v1) ∧
    refresh_route role has_icon screen node pubkey tunnel (Some d) v1 = (Ok tt, v2) ∧
    sv_warned v2 = sv_warned v || too_old build ∧
    ∃ new, sv_log v2 = new ++ sv_log v ∧
      length new = (if negb (sv_warned v) && too_old build then 1%nat else 0%nat).
Proof.
  intros Ht Hst Hb. destruct (status_fields _ _ _ Hst) as (a&k&u&n&b&m&->). clear Hst.
  assert (b = JStr build) as -> by (revert Hb; dict_simpl; congruence). clear Hb.
  destruct (refresh_info_run tunnel a k u n build m v Ht) as (x&H1).
  destruct (refresh_route_run screen node pubkey tunnel a k u n build m
    (set_info x (sv_warned v || too_old build) (warning (sv_warned v) build ++ sv_log v) v) Ht) as (v2&H2&Hw&Hl).
  eexists _, v2. split_and!; [exact H1|exact H2|by rewrite Hw|].
  exists (warning (sv_warned v) build). rewrite Hl. split; [done|]. unfold warning. by destruct (negb _ && _).
Qed.
End Status.

Section PagesWitness.
Local Instance pw_json : JsonCodec := RefCodec.
Local Instance pw_nacl : NaCl := RefNaCl.
Local Instance pw_daemon : Daemon := {|
  dstate := unit; d_connect _ _ := Ok tt; d_request _ _ d := (Ok JNull, d) |}.
Local Instance pw_env : Env := {| pass _ o := o; new_pid _ := 1; makes_dir _ _ := true |}.
Local Instance pw_markup : Markup := {| markup_escape_text s := s; word_beyond_ascii _ := false |}.
Local Instance pw_zone : Zone := {| utc_offset _ := 0 |}.
Local Instance pw_locale : Locale := {| strftime _ _ := "12:00" |}.

Definition pw_contacts : list (string * json) :=
  [("zoe", JObj [("screen", JStr "zo"); ("node", JStr "n1")]);
   ("bo", JObj [("screen", JStr "bo"); ("node", JStr "n2")])].
Definition pw_gui : gui :=
  Gui (Store empty_db [] 0 empty_db) (Client bob "bo" None) "n0"
    (World {["/a/client/contacts.json" := File (utf8_encode (json_dumps_indent (JObj pw_contacts))) 384]}
       {["AIMLESS_HOME" := "/a"]} "/h" 0 0 [] [] [] tt) empty_view.
Definition pw_blocked : gset string := {["n2"; "n9"]}.

(** Bo is blocked, Zoe is not, n9 is a stranger. *)
Example buddies_listed_witness :
  ∃ b', _render_buddy_rows (λ r, r) pw_blocked (pw_gui, Buddies [] [] ∅ [] "") = (Ok tt, (pw_gui, b')) ∧
    ∀ n, Unblock n ∈ row_action <$> b_rows b' ↔ n ∈ pw_blocked.
Proof.
  destruct (buddies_listed (λ r, r) pw_gui (Buddies [] [] ∅ [] "") pw_blocked pw_contacts) as (nodes&b'&_&H&_&Hn).
  - vm_compute. reflexivity.
  - intros kv [->|[->|[]%elem_of_nil]%elem_of_cons]%elem_of_cons; do 2 eexists; split; reflexivity.
  - intros k j [=].
  - intros n _. exists None. reflexivity.
  - exists b'. split; [exact H|exact Hn].
Defined.
Example buddies_shown :
  match _render_buddy_rows (λ r, r) pw_blocked (pw_gui, Buddies [] [] ∅ [] "") with
  | (Ok _, (_, b')) => row_sub <$> b_rows b'
  | _ => []
  end = ["bo · n2…"; "zoe · n1…"; "blocked"].
Proof. vm_compute. reflexivity. Qed.

Definition pw_status : json := JObj [("peers", JArr [JObj [("up", JBool true)]]); ("build", JStr "aimlessd/0.9.4")].
Definition pw_view : status_view := StatusView "" false [] "" None "" None "" "".
Example status_shown_witness :
  ∃ d v1, Sup.status_of (JObj [("address", JStr "200::1")]) pw_status = Ok d ∧
    refresh_info (λ r, r) None (Some d) pw_view = (Ok tt, v1) ∧ sv_warned v1 = true.
Proof.
  eexists. destruct (status_shown (λ r, r) (λ _, false) None (JObj [("address", JStr "200::1")]) pw_status
    [("address", JStr "200::1"); ("pubkey", JStr ""); ("peers_up", JInt 1); ("peers_total", JInt 1);
     ("build", JStr "aimlessd/0.9.4"); ("mtu", JInt 0)] "aimlessd/0.9.4" "me" "n0" "" pw_view) as (v1&v2&H1&H2&_);
    [exact I|vm_compute; reflexivity|reflexivity|].
  exists v1. split; [vm_compute; reflexivity|]. split; [exact H1|].
  vm_compute in H1. injection H1 as <-. reflexivity.
Defined.
End PagesWitness.
