(* ===== verification/PlacementProps.v ===== *)
(** * What is remembered of the window's place, and when *)

From S2P Require Import Prelude PyStr Codec Json Sys Paths Crypto Desktop Themes Placement.
From Stdlib Require Import Ascii.
Local Open Scope Z_scope.

Section Placement.
Context `{J : JsonCodec} {JL : JsonLaws J} `{D : Daemon}.
Context (settings : option (string * bool)).

(** ** An invariant of the window under any events *)

Definition position_keys : list string := ["window_x"; "window_y"; "window_maximized"].

(** The debounce: a pending timeout exactly when the flag says so; nothing is
    being restored between two events; and no place is kept in the preferences
    of a user who does not want it remembered. *)
Record frame_ok (f : frame) : Prop := {
  fo_timer : fr_timers f = if fr_timer f then 1%nat else 0%nat;
  fo_restoring : fr_restoring f = false;
  fo_forgotten : remembers (fr_prefs f) = false →
    ∀ k, k ∈ position_keys → dict_get k (fr_prefs f) = None;
}.
Let ok (fw : frame * world) : Prop := frame_ok fw.1.
(** The same while the place is to be remembered. *)
Let remembering (fw : frame * world) : Prop := frame_ok fw.1 ∧ remembers (fr_prefs fw.1) = true.

Lemma win_keeps {A} I (g : frame → A) : keeps I (win g) any.
Proof. apply keeps_gets_any. Qed.
Lemma change_keeps g : (∀ f, frame_ok f → frame_ok (g f)) → keeps ok (change g) any.
Proof. intros Hg. apply keeps_modify. intros [f w]. apply Hg. Qed.
Lemma save_keeps : keeps ok save any.
Proof.
  intros [f w] H. unfold save. rewrite (M_bind_run _ _ _ (fr_prefs f) (f, w)) by done.
  unfold fm_io. by destruct (save_prefs _ w).
Qed.

(** A preference that is not about the place, and one that is. *)
Lemma remembers_set k v p :
  k ≠ "remember_position" → remembers (dict_set k v p) = remembers p.
Proof. intros Hk. unfold remembers, pref. by rewrite dict_get_set_ne. Qed.
Lemma put_pref_keeps k v :
  k ≠ "remember_position" → k ∉ position_keys → keeps ok (put_pref k v) any.
Proof.
  intros Hk Hp. apply change_keeps. intros f [H1 H2 H3]. split; [done..|]. cbn.
  rewrite remembers_set by done. intros Hr j Hj. rewrite dict_get_set_ne by (by intros ->). by apply H3.
Qed.
Lemma put_place_keeps k v : k ≠ "remember_position" → keeps remembering (put_pref k v) any.
Proof.
  intros Hk. apply keeps_modify. intros [f w] [[H1 H2 H3] Hr]. cbn in *.
  assert (Hr' : remembers (dict_set k v (fr_prefs f)) = true) by by rewrite remembers_set.
  split; [split; [done..|]|done]. cbn. congruence.
Qed.
Local Hint Resolve win_keeps save_keeps : keeps.
Local Hint Extern 3 (keeps _ (put_pref _ _) _) =>
  apply put_pref_keeps; [discriminate|by apply (bool_decide_unpack _)] : keeps.

(** Saving reads the switch first, so what it adds agrees with it. *)
Lemma save_geometry_keeps : keeps ok save_geometry any.
Proof.
  unfold save_geometry. eapply keeps_bind; [apply win_keeps|]. intros size _.
  eapply keeps_bind; [keeps_tac|]. intros _ _. eapply keeps_bind; [keeps_tac|]. intros _ _.
  intros [f w] Hok. rewrite (M_bind_run _ _ _ (fr_prefs f) (f, w)) by done. revert Hok.
  destruct (remembers (fr_prefs f)) eqn:Hr; intros Hok.
  - match goal with |- context [(?m ≫= ?k) (f, w)] => assert (Hm : keeps remembering m any) end.
    { repeat first [apply win_keeps|apply put_place_keeps; discriminate|keeps_step]. }
    destruct (Hm (f, w) (conj Hok Hr)) as [[Hok' _] _].
    split; [|done]. apply (then_keeps ok); [exact Hok'|]. intros []. apply save_keeps.
  - rewrite (M_bind_run _ _ _ tt (f, w)) by done. by apply save_keeps.
Qed.

Lemma dict_get_pop k j d : dict_get k (dict_pop j d) = if bool_decide (k = j) then None else dict_get k d.
Proof.
  unfold dict_pop. induction d as [|[k' v] d IH]; cbn; [by case_bool_decide|].
  destruct (bool_decide_reflect (k' = j)) as [->|Hj]; cbn [negb dict_get]; rewrite IH.
  - case_bool_decide; [done|]. by rewrite decide_False.
  - destruct (decide (k = k')) as [->|]; [by rewrite bool_decide_eq_false_2|done].
Qed.
Lemma remembers_pop k p : k ≠ "remember_position" → remembers (dict_pop k p) = remembers p.
Proof. intros Hk. unfold remembers, pref. by rewrite dict_get_pop, bool_decide_eq_false_2. Qed.

(** Forgetting makes any preferences agree with the switch. *)
Lemma forget_forgets p k :
  k ∈ position_keys →
  dict_get k (dict_pop "window_maximized" (dict_pop "window_y" (dict_pop "window_x" p))) = None.
Proof.
  intros Hk. rewrite !dict_get_pop. repeat case_bool_decide; try done.
  exfalso. unfold position_keys in Hk. set_solver.
Qed.
Definition forget (f : frame) : frame :=
  set_fprefs (dict_pop "window_maximized" (dict_pop "window_y" (dict_pop "window_x" (fr_prefs f)))) f.
Lemma forget_ok f : fr_timers f = (if fr_timer f then 1%nat else 0%nat) → fr_restoring f = false → frame_ok (forget f).
Proof. intros H1 H2. split; [done..|]. intros _ k Hk. by apply forget_forgets. Qed.
Lemma reset_geometry_keeps : keeps ok reset_geometry any.
Proof.
  unfold reset_geometry. eapply keeps_bind; [|intros _ _; apply save_keeps].
  apply change_keeps. intros f [H1 H2 _]. by apply forget_ok.
Qed.

(** What a restoration makes of the window, in one step. *)
Definition placed (f : frame) : frame :=
  let pos := match dict_get "window_x" (fr_prefs f) ≫= json_int, dict_get "window_y" (fr_prefs f) ≫= json_int with
             | Some x, Some y =>
               if bool_decide ((x, y) = (0, 0)) then fr_pos f
               else clamp_to_workarea x y (fr_size f).1 (fr_size f).2 (fr_areas f) 40
             | _, _ => fr_pos f
             end in
  set_restoring false (set_place (fr_size f) pos
    (fr_max f || default false (truthy <$> dict_get "window_maximized" (fr_prefs f))) f).
Lemma apply_saved_run f w : _apply_saved_position (f, w) = (Ok tt, (placed f, w)).
Proof.
  unfold _apply_saved_position, placed.
  rewrite (M_bind_run _ _ _ (fr_prefs f) (f, w)), (M_bind_run _ _ _ (fr_size f) (f, w)),
    (M_bind_run _ _ _ tt (set_restoring true f, w)), (M_bind_run _ _ _ (fr_areas f) (set_restoring true f, w)) by done.
  destruct (dict_get "window_x" (fr_prefs f) ≫= json_int) as [x|], (dict_get "window_y" (fr_prefs f) ≫= json_int) as [y|];
    try case_bool_decide; destruct f, (default false _);
    cbn; rewrite ?orb_true_r, ?orb_false_r; reflexivity.
Qed.
Lemma placed_ok f : frame_ok f → frame_ok (placed f).
Proof. intros [H1 H2 H3]. by split. Qed.
Lemma apply_saved_keeps : keeps ok _apply_saved_position any.
Proof. intros [f w] Hok. rewrite apply_saved_run. split; [|done]. by apply placed_ok. Qed.

Lemma on_configure_keeps : keeps ok on_configure any.
Proof.
  intros [f w] Hok. unfold on_configure. rewrite (M_bind_run _ _ _ (fr_restoring f) (f, w)) by done.
  destruct (fr_restoring f); [by split|].
  rewrite (M_bind_run _ _ _ (fr_timer f) (f, w)) by done. destruct (fr_timer f) eqn:Ht; [by split|].
  split; [|done]. destruct Hok as [H1 H2 H3]. cbn in H1. rewrite Ht in H1.
  change (frame_ok (set_timer true (S (fr_timers f)) f)). split; cbn; [by rewrite H1|done..].
Qed.
Lemma timer_keeps : keeps ok (on_event settings TimerFires) any.
Proof.
  intros [f w] Hok. cbn [on_event]. rewrite (M_bind_run _ _ _ (fr_timers f) (f, w)) by done.
  destruct (fr_timers f) as [|n] eqn:Hn; [by split|].
  destruct Hok as [H1 H2 H3]. cbn in H1, H2, H3. rewrite Hn in H1.
  assert (n = 0%nat) as -> by (destruct (fr_timer f); lia).
  assert (Hok : ok (set_timer false 0 f, w)) by by split.
  exact (save_geometry_keeps _ Hok).
Qed.
Lemma on_toggle_keeps k active : k ∈ switches → keeps ok (on_toggle k active) any.
Proof.
  intros Hk. unfold on_toggle. destruct (decide (k = "remember_position")) as [->|Hne].
  - rewrite bool_decide_eq_true_2 by done. cbn [andb].
    intros [f w] [H1 H2 H3]. set (f' := set_fprefs (dict_set "remember_position" (JBool active) (fr_prefs f)) f).
    rewrite (M_bind_run _ _ _ tt (f', w)) by done. destruct active; cbn [negb].
    + rewrite (M_bind_run _ _ _ tt (f', w)) by done. apply save_keeps. split; [done..|]. subst f'. cbn.
      unfold remembers, pref. by rewrite dict_get_set_eq.
    + assert (Hr : (_ ← reset_geometry; save) (f', w) =
        (_ ← save; save) (forget f', w)).
      { unfold reset_geometry, mbind, M_bind. done. }
      rewrite Hr. apply keeps_bind with (Q := any); [apply save_keeps|intros _ _; apply save_keeps|].
      by apply forget_ok.
  - rewrite (bool_decide_eq_false_2 (k = _)) by done. cbn [andb].
    eapply keeps_bind; [apply put_pref_keeps; [done|]|intros _ _; keeps_tac].
    intros Hp. unfold switches, position_keys in *. set_solver.
Qed.
Local Hint Resolve save_geometry_keeps reset_geometry_keeps apply_saved_keeps on_configure_keeps : keeps.

Lemma on_event_keeps e : keeps ok (on_event settings e) any.
Proof.
  destruct e; try apply timer_keeps; cbn [on_event].
  - eapply keeps_bind; [apply change_keeps; intros g [H1 H2 H3]; by split|intros _ _; apply on_configure_keeps].
  - apply change_keeps. intros g [H1 H2 H3]. by split.
  - eapply keeps_bind; [apply change_keeps; intros g [H1 H2 H3]; by split|intros _ _]. unfold _on_map.
    keeps_tac. apply change_keeps. intros g [H1 H2 H3]. by split.
  - unfold restore_geometry. keeps_tac. apply change_keeps. intros g [H1 H2 H3]. by split.
  - keeps_tac. apply change_keeps. intros g [H1 H2 H3]. by split.
  - unfold on_delete. keeps_tac. apply change_keeps. intros g [H1 H2 H3]. by split.
  - case_bool_decide; [by apply on_toggle_keeps|keeps_tac].
  - unfold on_reset. keeps_tac; apply change_keeps; intros g [H1 H2 H3]; by split.
  - unfold on_snd. keeps_tac.
  - unfold on_fmt. keeps_tac. apply change_keeps. intros g [H1 H2 H3]. by split.
  - unfold on_theme. keeps_tac. apply change_keeps. intros g [H1 H2 H3]. by split.
Qed.

(** Events one after the other, whether their handlers return or raise. *)
Definition run_events (es : list frame_event) (fw : frame * world) : frame * world :=
  foldl (λ fw e, (on_event settings e fw).2) fw es.

(** Whatever the user, the window manager and the main loop do, in any
    order: at most one saving of the geometry is pending, exactly when the
    flag says so; no restoration is left half done; and while the place is not
    to be remembered no place is in the preferences. *)
Theorem place_invariant es f w :
  frame_ok f → frame_ok (run_events es (f, w)).1.
Proof.
  unfold run_events. revert f w. induction es as [|e es IH]; intros f w Hok; [done|]. cbn [foldl].
  pose proof (on_event_keeps e (f, w) Hok) as [H _]. destruct (on_event _ e (f, w)) as [r [f1 w1]]. by apply IH.
Qed.

(** ** Closed and opened again *)

Lemma saved_prefs prefs w :
  json_wf (JObj prefs) →
  ∃ m, save_prefs (JObj prefs) w = (Ok tt, set_fs m w) ∧
    load_prefs (set_fs m w) = (Ok (JObj prefs), set_fs m w).
Proof.
  intros Hwf. destruct (write_file_run (prefs_path (w_env w) (w_home w)) (utf8_encode (json_dumps_indent (JObj prefs))) w)
    as (m&Hw&Hr&_). exists m. split.
  - unfold save_prefs. rewrite (M_bind_run _ _ w (w_env w) w), (M_bind_run _ _ w (w_home w) w) by done. exact Hw.
  - unfold load_prefs. set (w1 := set_fs m w).
    rewrite (M_bind_run _ _ w1 (w_env w) w1), (M_bind_run _ _ w1 (w_home w) w1) by done. unfold try_with.
    rewrite (M_bind_run _ _ w1 (utf8_encode (json_dumps_indent (JObj prefs))) w1)
      by (unfold read_file; exact (f_equal (λ r, (r, w1)) Hr)).
    unfold lift. by rewrite loads_bytes_indent.
Qed.

(** The preferences a window at a known place leaves when it is saved. *)
Definition noted (f : frame) : list (string * json) :=
  let p := dict_set "window_height" (JInt (fr_size f).2) (dict_set "window_width" (JInt (fr_size f).1) (fr_prefs f)) in
  dict_set "window_maximized" (JBool (fr_max f))
    (dict_set "window_y" (JInt (fr_pos f).2) (dict_set "window_x" (JInt (fr_pos f).1) p)).
Lemma save_geometry_run f w :
  remembers (fr_prefs f) = true → fr_gdk f = true → fr_pos f ≠ (0, 0) →
  save_geometry (f, w) = save (set_fprefs (noted f) f, w).
Proof.
  intros Hr Hg Hp. unfold save_geometry.
  set (f1 := set_fprefs (dict_set "window_width" (JInt (fr_size f).1) (fr_prefs f)) f).
  set (f2 := set_fprefs (dict_set "window_height" (JInt (fr_size f).2) (fr_prefs f1)) f1).
  rewrite (M_bind_run _ _ _ (fr_size f) (f, w)), (M_bind_run _ _ _ tt (f1, w)), (M_bind_run _ _ _ tt (f2, w)),
    (M_bind_run _ _ _ (fr_prefs f2) (f2, w)) by done.
  subst f2 f1. cbn [fr_prefs set_fprefs]. rewrite !remembers_set, Hr by done. cbn [fr_prefs set_fprefs].
  match goal with |- context [(?m ≫= _) ?s] =>
    rewrite (M_bind_run m _ s tt (set_fprefs (noted f) f, w)) end; [done|].
  match goal with |- (_ ≫= _) ?s = _ => set (s0 := s) end.
  rewrite (M_bind_run _ _ s0 true s0) by (unfold win, gets; cbn; by rewrite Hg).
  rewrite (M_bind_run _ _ s0 (fr_pos f) s0) by done. by rewrite bool_decide_eq_false_2.
Qed.

Lemma noted_wf f : json_wf (JObj (fr_prefs f)) → json_wf (JObj (noted f)).
Proof. intros Hwf. unfold noted. by repeat (apply json_wf_set; [done|done|]). Qed.
Lemma noted_get f :
  dict_get "window_x" (noted f) = Some (JInt (fr_pos f).1) ∧ dict_get "window_y" (noted f) = Some (JInt (fr_pos f).2) ∧
  dict_get "window_maximized" (noted f) = Some (JBool (fr_max f)) ∧
  dict_get "window_width" (noted f) = Some (JInt (fr_size f).1) ∧
  dict_get "window_height" (noted f) = Some (JInt (fr_size f).2).
Proof. unfold noted. split_and!; repeat first [apply dict_get_set_eq|rewrite dict_get_set_ne by done]. Qed.

(** A window closed at a known place comes back to it: what the closing
    window saves is read back by the next start, with its size; and the window
    opened on it moves to the saved corner when some of the window would show
    there on the monitors there are then, otherwise to a place on the first
    monitor where some of it shows, maximized if it was. *)
Theorem place_roundtrip f w :
  json_wf (JObj (fr_prefs f)) → remembers (fr_prefs f) = true → fr_gdk f = true → fr_pos f ≠ (0, 0) →
  ∃ f1 w1 p, on_delete true (f, w) = (Ok true, (f1, w1)) ∧ fr_hidden f1 = true ∧
    load_prefs w1 = (Ok (JObj p), w1) ∧
    dict_get "window_width" p = Some (JInt (fr_size f).1) ∧ dict_get "window_height" p = Some (JInt (fr_size f).2) ∧
    ∀ g w2, fr_prefs g = p → fr_areas g ≠ [] → 0 <= (fr_size g).1 → 0 <= (fr_size g).2 →
      Forall (λ a, 0 <= a_w a ∧ 0 <= a_h a) (fr_areas g) →
      ∃ g', restore_geometry (g, w2) = (Ok tt, (g', w2)) ∧ fr_max g' = fr_max g || fr_max f ∧
        fr_restoring g' = false ∧
        (existsb (on_area (fr_pos f).1 (fr_pos f).2 (fr_size g).1 (fr_size g).2 40) (fr_areas g) = true →
          fr_pos g' = fr_pos f) ∧
        ∃ a, a ∈ fr_areas g ∧
          Z.min 40 (Z.min (fr_size g).1 (a_w a)) <= overlap (fr_pos g').1 (fr_size g).1 (a_x a) (a_w a) ∧
          Z.min 40 (Z.min (fr_size g).2 (a_h a)) <= overlap (fr_pos g').2 (fr_size g).2 (a_y a) (a_h a).
Proof.
  intros Hwf Hr Hg Hp. destruct (saved_prefs (noted f) w (noted_wf f Hwf)) as (m&Hs&Hl).
  destruct (noted_get f) as (Hx&Hy&Hmax&Hww&Hwh).
  exists (set_hidden true (set_fprefs (noted f) f)), (set_fs m w), (noted f). split_and!; [|done..|].
  { unfold on_delete. rewrite (M_bind_run _ _ _ tt (set_fprefs (noted f) f, set_fs m w)); [done|].
    rewrite save_geometry_run by done. unfold save.
    rewrite (M_bind_run _ _ _ (noted f) (set_fprefs (noted f) f, w)) by done. unfold fm_io. by rewrite Hs. }
  intros g w2 Hprefs Hne Hw Hh Hall.
  assert (Hrg : remembers (fr_prefs g) = true).
  { rewrite Hprefs. unfold noted. by rewrite !remembers_set by done. }
  set (g1 := set_want true (fr_idles g) g). exists (placed g1). split.
  { unfold restore_geometry. rewrite (M_bind_run _ _ _ (fr_prefs g) (g, w2)), Hrg by done.
    rewrite (M_bind_run _ _ _ (fr_idles g) (g, w2)), (M_bind_run _ _ _ tt (g1, w2)) by done. apply apply_saved_run. }
  pose proof (clamp_visible (fr_pos f).1 (fr_pos f).2 (fr_size g).1 (fr_size g).2 (fr_areas g) 40 Hne ltac:(lia) Hw Hh Hall) as Hc.
  assert (Hpos : fr_pos (placed g1) =
    clamp_to_workarea (fr_pos f).1 (fr_pos f).2 (fr_size g).1 (fr_size g).2 (fr_areas g) 40).
  { unfold placed. cbn [fr_pos set_restoring set_place]. change (fr_prefs g1) with (fr_prefs g).
    rewrite Hprefs, Hx, Hy. cbn. rewrite bool_decide_eq_false_2; [done|]. by destruct (fr_pos f). }
  rewrite Hpos. destruct (clamp_to_workarea _ _ _ _ _ _) as [cx cy]. destruct Hc as [Hvis Hkept]. split_and!.
  - unfold placed. cbn. by rewrite Hprefs, Hmax.
  - done.
  - intros Hon. rewrite (Hkept Hon). by destruct (fr_pos f).
  - exact Hvis.
Qed.
End Placement.

Section PlacementWitness.
Local Instance plw_json : JsonCodec := RefCodec.
Local Instance plw_json_laws : JsonLaws RefCodec := RefCodec_laws.
Local Instance plw_daemon : Daemon := {|
  dstate := unit; d_connect _ _ := Ok tt; d_request _ _ d := (Ok JNull, d) |}.

Definition plw_frame (prefs : list (string * json)) : frame :=
  Frame (800, 600) (100, 50) true true false [Area 0 0 1920 1080] prefs false false false 0 0 ("system", []) 0 [].
Definition plw_world : world := World ∅ {["AIMLESS_HOME" := "/a"]} "/h" 0 0 [] [] [] tt.

(** Moved, the timeout, the switch turned off, closed. *)
Definition plw_events : list frame_event :=
  [Configure (800, 600) (10, 20) false; Configure (800, 600) (30, 40) false; TimerFires;
   Toggled "remember_position" false; Configure (640, 480) (5, 5) false; TimerFires; Deleted true].
Example place_invariant_witness :
  frame_ok (run_events None plw_events (plw_frame [], plw_world)).1.
Proof. apply (place_invariant None plw_events). split; [reflexivity|reflexivity|discriminate]. Defined.

(** The switch says position and size: the size is kept all the same. *)
Example size_kept_when_off :
  let p := fr_prefs (run_events None plw_events (plw_frame [], plw_world)).1 in
  remembers p = false ∧ dict_get "window_x" p = None ∧ dict_get "window_width" p = Some (JInt 640).
Proof. vm_compute. split_and!; reflexivity. Qed.

Example place_roundtrip_witness :
  ∃ f1 w1 p, on_delete true (plw_frame [], plw_world) = (Ok true, (f1, w1)) ∧
    load_prefs w1 = (Ok (JObj p), w1) ∧
    ∃ g', restore_geometry (Frame (800, 600) (0, 0) false true false [Area 0 0 1024 768] p false false false 0 0
      ("system", []) 0 [], w1) = (Ok tt, (g', w1)) ∧ fr_pos g' = (100, 50).
Proof.
  destruct (place_roundtrip (plw_frame []) plw_world)
    as (f1&w1&p&H1&_&H2&_&_&H3);
    [split; [constructor|exact I]|reflexivity|reflexivity|discriminate|].
  exists f1, w1, p. split; [exact H1|]. split; [exact H2|].
  destruct (H3 (Frame (800, 600) (0, 0) false true false [Area 0 0 1024 768] p false false false 0 0
    ("system", []) 0 []) w1) as (g'&H4&_&_&H5&_);
    [reflexivity|discriminate|cbn; lia|cbn; lia|repeat constructor; cbn; lia|].
  exists g'. split; [exact H4|]. apply H5. reflexivity.
Defined.
End PlacementWitness.
