(* ===== verification/EntryProps.v ===== *)
(** * Properties of the start

    A second instance only presents the first; a start that goes on has
    something to show; the main loop the start hands over to has the invariant
    of [AppProps.v] from then on; what the signals do. *)

From S2P Require Import Prelude PyStr Codec Json Sys Paths Logging Crypto Protocol Keys Store DaemonClient Service Tunnel TunnelProps Cli Desktop Themes View Transfers Conversations Supervise App Startup Entry AppProps.
From Stdlib Require Import Ascii.
Local Open Scope Z_scope.

Section Setup.
Context `{N : NaCl} `{J : JsonCodec} `{D : Daemon} `{E : !Env} `{L : Locale}.
Context (cwd argv0 : string) (repr : exn → string).

(** ** Frames *)

(** Steps that only touch the machine, and of it neither processes nor
    programs, but for signals. *)
Definition same_procs (o o' : os) : Prop := o_procs o' = o_procs o ∧ o_bins o' = o_bins o.
Definition machine_only (b b' : boot) : Prop :=
  ∃ o', b' = set_app (set_os o' (bt_app b)) b ∧ same_procs (a_os (bt_app b)) o'.
Definition quiet (b b' : boot) : Prop :=
  machine_only b b' ∧ o_signals (a_os (bt_app b')) = o_signals (a_os (bt_app b)).

Lemma machine_only_refl b : machine_only b b.
Proof. exists (a_os (bt_app b)). by destruct b as [[] ? ? ? ? ?]. Qed.
#[local] Instance quiet_preorder : PreOrder quiet.
Proof.
  split; [intros b; split; [apply machine_only_refl|done]|].
  intros a b c [(o1&->&H1) S1] [(o2&->&H2) S2]. split; [|by rewrite S2].
  exists o2. split; [done|]. destruct H1, H2. cbn in *. split; congruence.
Qed.

Abbreviation hushed := (within (λ _, True) quiet).

Lemma hushed_bind {A B} (m : BT A) (f : A → BT B) : hushed m → (∀ x, hushed (f x)) → hushed (m ≫= f).
Proof. intros Hm Hf. by apply within_bind; [apply _|..]. Qed.

Lemma hushed_world {A} (m : IO A) : hushed (bt_os (om_world m)).
Proof.
  intros [a s o u l h] _. unfold bt_os, bt_am, on_sup, on_os, om_world. cbn.
  destruct (m (o_world (a_os a))) as [r w]. split; [|done]. eexists. by destruct a.
Qed.
Lemma hushed_read {A} (f : os → A) : hushed (bt_os (gets f)).
Proof. intros [[] ? ? ? ? ?] _. split; [|done]. apply machine_only_refl. Qed.

Lemma bt_os_bind {A B} (m : OM A) (f : A → OM B) b : bt_os (m ≫= f) b = (bt_os m ≫= λ x, bt_os (f x)) b.
Proof.
  destruct b as [a s o u l h]. unfold bt_os, bt_am, on_sup, on_os, mbind, M_bind. cbn.
  destruct (m (a_os a)) as [[x|e] o1]; [|by destruct a]. cbn. destruct (f x o1) as [r o2]. by destruct a.
Qed.
Lemma bt_os_ret {A} (x : A) b : bt_os (mret x) b = (Ok x, b).
Proof. by destruct b as [[] ? ? ? ? ?]. Qed.

Lemma hushed_os_bind {A B} (m : OM A) (f : A → OM B) :
  hushed (bt_os m) → (∀ x, hushed (bt_os (f x))) → hushed (bt_os (m ≫= f)).
Proof. intros Hm Hf b Hb. rewrite bt_os_bind. by apply (hushed_bind (bt_os m) (λ x, bt_os (f x)) Hm Hf). Qed.
Lemma hushed_os_ret {A} (x : A) : hushed (bt_os (mret x)).
Proof. intros b _. by rewrite bt_os_ret. Qed.
Lemma hushed_log line : hushed (log line).
Proof. apply hushed_world. Qed.

Lemma read_pid_world path : ∃ m : IO (option Z), ∀ o, read_pid path o = om_world m o.
Proof.
  exists (try_with is_exception
    (content ← read_file path; Some <$> lift (text ← utf8_decode content; py_int (strip text))) (λ _, mret None)).
  intros o. unfold read_pid, try_with, om_world, fmap, M_fmap, mbind, M_bind, lift.
  destruct (read_file path (o_world o)) as [[c|e] w].
  - destruct (result_bind _ _ _ _) as [p|e]; [done|]. by destruct (is_exception e).
  - by destruct (is_exception e).
Qed.
Lemma hushed_read_pid path : hushed (bt_os (read_pid path)).
Proof.
  destruct (read_pid_world path) as [m Hm]. intros b Hb. pose proof (hushed_world m b Hb) as H.
  unfold bt_os, bt_am, on_sup, on_os in *. by rewrite Hm.
Qed.

Lemma hushed_acquire locked self : hushed (bt_os (acquire_app_lock locked self)).
Proof.
  unfold acquire_app_lock. apply hushed_os_bind; [apply hushed_read|intros path].
  apply hushed_os_bind; [apply hushed_world|intros _]. destruct locked.
  - apply hushed_os_bind; [apply hushed_read_pid|intros h]. apply hushed_os_ret.
  - apply hushed_os_bind; [apply hushed_world|intros _]. apply hushed_os_ret.
Qed.

Lemma acquire_result locked self b r b' :
  bt_os (acquire_app_lock locked self) b = (Ok r, b') → (∃ h, r = Some h) ↔ locked = true.
Proof.
  unfold acquire_app_lock. rewrite bt_os_bind. intros (path&b1&_&H)%M_bind_Ok.
  rewrite bt_os_bind in H. apply M_bind_Ok in H as ([]&b2&_&H). destruct locked.
  - rewrite bt_os_bind in H. apply M_bind_Ok in H as (h&b3&_&H). rewrite bt_os_ret in H.
    injection H as <- _. split; eauto.
  - rewrite bt_os_bind in H. apply M_bind_Ok in H as ([]&b3&_&H). rewrite bt_os_ret in H.
    injection H as <- _. split; [by intros [? ?]|done].
Qed.

(** ** A second instance *)

(** [os.kill] to the holder: nothing, or one signal to it. *)
Lemma present_kill h b :
  let '(r, b') := try_with is_os_error (bt_os (os_kill h SIGUSR1)) (λ _, mret tt) b in
  r = Ok tt ∧ machine_only b b' ∧
  (o_signals (a_os (bt_app b')) = o_signals (a_os (bt_app b)) ∨
   o_signals (a_os (bt_app b')) = (h, SIGUSR1) :: o_signals (a_os (bt_app b))).
Proof.
  destruct b as [a s o u l hs]. unfold try_with, bt_os, bt_am, on_sup, on_os, os_kill. cbn.
  destruct (o_procs (a_os a) !! h) as [p|]; [destruct (p_owner p)|]; cbn.
  all: (split; [done|]); (split; [eexists; by destruct a|]); auto.
Qed.

(** While another instance holds the lock, a start ends with 0 after
    telling that instance, and only it, to show its window, if its number
    is known: no window opens, no dialog shows, no daemon is started or stopped, no
    process touched, no timer or handler set. *)
Theorem second_instance k show b r b' :
  dk_locked k = true → _setup cwd argv0 k show b = (r, b') →
  machine_only b b' ∧
  (r = Ok (Some 0) →
   o_signals (a_os (bt_app b')) = o_signals (a_os (bt_app b)) ∨
   ∃ h, 0 < h ∧ o_signals (a_os (bt_app b')) = (h, SIGUSR1) :: o_signals (a_os (bt_app b))) ∧
  (∀ rc, r = Ok rc → rc = Some 0).
Proof.
  intros Hl H. unfold _setup, mbind, M_bind in H.
  pose proof (hushed_acquire (dk_locked k) (dk_self k) b I) as [Hm Hs].
  destruct (bt_os (acquire_app_lock (dk_locked k) (dk_self k)) b) as [[holder|e] b1] eqn:Ha; cbn in Hm, Hs.
  - apply acquire_result in Ha as [_ Ha]. destruct (Ha Hl) as [h ->].
    unfold present_other, mbind, M_bind in H. clear Ha.
    match type of H with context [log ?t b1] => pose proof (hushed_log t b1 I) as Hlog;
      destruct (log t b1) as [[[]|e] b2] end; cbn in Hlog, H.
    + assert (quiet b b2) as [Hq1 Hq2] by (transitivity b1; [done|exact Hlog]).
      destruct (Z.ltb_spec 0 h) as [Hpos|_]; [|by injection H as <- <-; split; [done|split; [auto|by intros rc [= <-]]]].
      pose proof (present_kill h b2) as Hk.
      destruct (try_with is_os_error _ _ b2) as [r3 b3]. destruct Hk as (->&(o3&->&Hp3)&Hsig).
      injection H as <- <-. destruct Hq1 as (o2&->&Hp2). split; [|split; [|by intros rc [= <-]]].
      * exists o3. split; [done|]. destruct Hp2, Hp3. cbn in *. split; congruence.
      * intros _. rewrite Hq2 in Hsig. destruct Hsig; [by left|]. right. eauto.
    + injection H as <- <-. split; [|done]. assert (quiet b b2) as [? _]; [|done]. by transitivity b1.
  - injection H as <- <-. done.
Qed.

(** ** A start that goes on *)

(** There is something to show: a window, the first connection on its way, or
    an icon in a tray. *)
Definition shows_something (b : boot) : Prop :=
  a_window (bt_app b) = true ∨ a_awaiting (bt_app b) = true ∨ is_embedded b = true.

Lemma shows_guard b : _no_window_headless b = false → shows_something b.
Proof.
  unfold _no_window_headless, shows_something. destruct (a_awaiting (bt_app b)); [tauto|].
  destruct (a_window (bt_app b)), (is_embedded b); cbn; tauto || done.
Qed.

(** What [add_sources] leaves: the handlers, the timers and the machine apart,
    the state it found. *)
Definition same_windows (b b' : boot) : Prop :=
  a_window (bt_app b') = a_window (bt_app b) ∧ a_awaiting (bt_app b') = a_awaiting (bt_app b) ∧
  is_embedded b' = is_embedded b ∧ bt_lock b' = bt_lock b.
#[local] Instance same_windows_preorder : PreOrder same_windows.
Proof.
  split; [done|]. intros a b c (?&?&?&?) (?&?&?&?). unfold same_windows. split_and!; congruence.
Qed.

Lemma log_same line b : bt_handlers (log line b).2 = bt_handlers b ∧
  a_sources (bt_app (log line b).2) = a_sources (bt_app b) ∧ same_windows b (log line b).2.
Proof. destruct (hushed_log line b I) as [(o&->&_) _]. by destruct b as [[] ? ? ? ? ?]. Qed.

Lemma add_sources_run self b b' :
  add_sources self b = (Ok tt, b') →
  bt_handlers b' = [SIGUSR1; SIGTERM; SIGINT] ∧ same_windows b b' ∧
  ∃ more, a_sources (bt_app b') = a_sources (bt_app b) ++ [Poll; Heartbeat] ++ more ∧
    (external (a_sup (bt_app b)) = true → more = [Probe]) ∧ (more = [] ∨ more = [Probe]).
Proof.
  unfold add_sources. intros H.
  rewrite (M_bind_run _ _ b tt (set_handlers [SIGUSR1; SIGTERM; SIGINT] b)) in H by done.
  set (b1 := set_handlers _ b) in H.
  set (b2 := set_app (set_sources ((a_sources (bt_app b) ++ [Poll]) ++ [Heartbeat]) (bt_app b)) b1).
  rewrite (M_bind_run _ _ b1 tt b2) in H by (by destruct b as [[] ? ? ? ? ?]).
  rewrite (M_bind_run _ _ b2 b2 b2) in H by done.
  apply M_bind_Ok in H as ([]&b3&H3&H).
  pose proof (log_same ("app started (pid " +:+ str_of_int self +:+ ", tray="
       +:+ (if a_tray (bt_app b2) then "True" else "False") +:+ ")") b3) as (Hh&Hs&Hw).
  rewrite H in Hh, Hs, Hw. cbn [snd] in *. clear H.
  destruct (external (a_sup (bt_app b2))) eqn:Hext.
  - apply M_bind_Ok in H3 as (t&b4&H4&H3). apply M_bind_Ok in H3 as ([]&b5&H5&H3).
    assert (b4 = b2) as ->.
    { unfold bt_am, tunnel, on_sup, on_tunnel in H4. destruct b2 as [a2 s2 ? ? ? ?]. cbn in *.
      destruct (ds_tunnel (a_sup a2)) as [t0|] eqn:Ht; cbn in H4; injection H4 as _ <-; destruct a2 as [[]]; cbn in *; by subst. }
    pose proof (log_same ("external daemon mode - tunnel to " +:+ host t) b2) as (Hh5&Hs5&Hw5).
    rewrite H5 in Hh5, Hs5, Hw5. cbn [snd] in *. injection H3 as <-. cbn in Hh, Hs.
    split; [by rewrite Hh, Hh5|]. split.
    + transitivity b5; [exact Hw5|]. destruct b5 as [[] ? ? ? ? ?]. exact Hw.
    + exists [Probe]. split; [|auto]. rewrite Hs, Hs5. cbn. by rewrite <-!app_assoc.
  - injection H3 as <-. split; [by rewrite Hh|]. split; [exact Hw|]. exists []. split; [rewrite Hs; cbn; by rewrite <-app_assoc|].
    split; [|by left]. intros Hx. change (external (a_sup (bt_app b))) with (external (a_sup (bt_app b2))) in Hx. congruence.
Qed.

(** The lock is kept to the end. *)
Definition locked (b : boot) : Prop := bt_lock b = true.
Lemma locked_am {A} (m : AM A) : keeps locked (bt_am m) any.
Proof. intros b H. split; [|done]. unfold bt_am. by destruct (m (bt_app b)). Qed.
Lemma locked_um {A} (m : UM A) : keeps locked (bt_um m) any.
Proof. intros b H. split; [|done]. unfold bt_um. by destruct (m _). Qed.
Lemma locked_modify f : (∀ b, bt_lock (f b) = bt_lock b) → keeps locked (modify f) any.
Proof. intros Hf. apply keeps_modify. intros b H. unfold locked. by rewrite Hf. Qed.
Lemma locked_gets {A} (f : boot → A) : keeps locked (gets f) any.
Proof. apply keeps_gets_any. Qed.
Lemma locked_log line : keeps locked (log line) any.
Proof. apply locked_am. Qed.
#[local] Hint Resolve locked_am locked_um locked_gets locked_log : keeps.
Lemma locked_unlock : keeps locked (unlock_window cwd argv0) any.
Proof.
  intros b Hb. split; [|done]. unfold unlock_window.
  match goal with |- context [?m (set_unlocking true b)] =>
    assert (H : keeps locked m any); [|destruct (H (set_unlocking true b) Hb) as [H1 _]; revert H1;
      destruct (m (set_unlocking true b)) as [r b']; done] end.
  keeps_tac; by apply locked_modify.
Qed.
#[local] Hint Resolve locked_unlock : keeps.
Lemma locked_open : keeps locked (open_window cwd argv0) any.
Proof. unfold open_window. keeps_tac. Qed.
#[local] Hint Resolve locked_open : keeps.
Lemma locked_ensure : keeps locked (ensure_local cwd argv0) any.
Proof.
  unfold ensure_local, error_dialog. keeps_tac. apply keeps_try; intros; keeps_tac.
Qed.
Lemma locked_tray k : keeps locked (new_tray k) any.
Proof. unfold new_tray. destruct (dk_icon k); [keeps_tac|by apply locked_modify]. Qed.
Lemma locked_first show : keeps locked (first_window cwd argv0 show) any.
Proof. unfold first_window, error_dialog. keeps_tac. Qed.

Lemma keeps_ok {S A} (I : S → Prop) (m : M S A) s a s' : keeps I m any → I s → m s = (Ok a, s') → I s'.
Proof. intros Hm Hs E'. destruct (Hm s Hs) as [H _]. by rewrite E' in H. Qed.

(** What a start that goes on has gone through. *)
Lemma setup_steps k show b b' :
  _setup cwd argv0 k show b = (Ok None, b') →
  ∃ b1 b2 b3 b4, bt_os (acquire_app_lock (dk_locked k) (dk_self k)) b = (Ok None, b1) ∧
    ensure_local cwd argv0 (set_lock true b1) = (Ok true, b2) ∧ new_tray k b2 = (Ok tt, b3) ∧
    first_window cwd argv0 show b3 = (Ok true, b4) ∧ _no_window_headless b4 = false ∧
    add_sources (dk_self k) b4 = (Ok tt, b').
Proof.
  unfold _setup. intros (holder&b1&H1&H)%M_bind_Ok. destruct holder as [h|].
  { apply M_bind_Ok in H as (?&?&_&H). by injection H. }
  apply M_bind_Ok in H as ([]&b1'&Hl&H). injection Hl as <-.
  apply M_bind_Ok in H as (ok&b2&H2&H). destruct ok; [|by injection H].
  apply M_bind_Ok in H as ([]&b3&H3&H). apply M_bind_Ok in H as (ok&b4&H4&H). destruct ok; [|by injection H].
  apply M_bind_Ok in H as (b4'&b4''&Hg&H). injection Hg as <- <-.
  cbn in H. destruct (_no_window_headless b4) eqn:Hn.
  { apply M_bind_Ok in H as (?&?&_&H). by injection H. }
  apply M_bind_Ok in H as ([]&b5&H5&H). injection H as <-. by exists b1, b2, b3, b4.
Qed.

(** A start that goes on to the main loop holds the lock, has something to
    show, answers the signals and has its timers; one that would have nothing
    to show ends instead. *)
Theorem setup_shows k show b b' :
  _setup cwd argv0 k show b = (Ok None, b') →
  bt_lock b' = true ∧ shows_something b' ∧ bt_handlers b' = [SIGUSR1; SIGTERM; SIGINT] ∧
  Poll ∈ a_sources (bt_app b') ∧ Heartbeat ∈ a_sources (bt_app b').
Proof.
  intros (b1&b2&b3&b4&_&H2&H3&H4&Hn&H5)%setup_steps.
  apply (keeps_ok locked) in H2; [|apply locked_ensure|done].
  apply (keeps_ok locked) in H3; [|apply locked_tray|done].
  apply (keeps_ok locked) in H4; [|apply locked_first|done].
  apply add_sources_run in H5 as (Hh&(Hw&Ha&He&Hl)&more&Hs&_).
  split; [by rewrite Hl|]. split; [|split; [done|]].
  - apply shows_guard in Hn. unfold shows_something in *. by rewrite Hw, Ha, He.
  - rewrite Hs. split; apply elem_of_app; right; set_solver.
Qed.
End Setup.

(** ** The main loop of a real start *)

Section Remote.
Context `{N : NaCl} `{J : JsonCodec} `{D : Daemon} `{E : !Env} `{EL : !EnvLaws E} `{L : Locale}.
Hypothesis ssh_stays : ∀ ms o, "ssh" ∈ o_bins o → "ssh" ∈ o_bins (pass ms o).
Hypothesis dirs_made : ∀ dir now, makes_dir dir now = true.
Hypothesis connect_errors : ∀ sock s e, d_connect sock s = Raise e → is_exception e = true.
Hypothesis request_errors : ∀ op f s e, (d_request op f s).1 = Raise e → is_exception e = true.
Context (cwd argv0 : string).

Abbreviation mon := (within aok mstep).

(** Nothing has been started yet. *)
Definition calm (b : boot) : Prop :=
  let a := bt_app b in
  aok a ∧ a_sources a = [] ∧ a_restarting a = false ∧ a_connect_busy a = false ∧ a_awaiting a = false.

Lemma calm_sup {A} (m : SM A) : keeps sup_ok m any → keeps calm (bt_am (on_sup m)) any.
Proof.
  intros Hm b (H&Hrest). split; [|done]. destruct (Hm _ H) as [H' _]. unfold bt_am, on_sup.
  by destruct (m (a_sup (bt_app b), a_os (bt_app b))) as [r [d o]].
Qed.
Lemma calm_world {A} (m : IO A) : keeps calm (bt_os (om_world m)) any.
Proof. apply calm_sup, on_world_keeps. Qed.
Lemma calm_machine b b' : machine_only b b' → calm b → calm b'.
Proof.
  intros (o'&->&_&Hb) ((?&?&?)&?). unfold calm, aok, sup_ok in *. cbn. by rewrite Hb.
Qed.
Lemma calm_acquire l self b r b' : bt_os (acquire_app_lock l self) b = (r, b') → calm b → calm b'.
Proof.
  intros Ha. destruct (hushed_acquire l self b I) as [H _]. rewrite Ha in H. by apply calm_machine.
Qed.
Lemma calm_log line : keeps calm (log line) any.
Proof. apply calm_world. Qed.
Lemma calm_tray k : keeps calm (new_tray k) any.
Proof. unfold new_tray. destruct (dk_icon k); [apply calm_log|by apply keeps_modify]. Qed.
Lemma calm_ensure b : calm b → (ensure_local cwd argv0 b) = (Ok true, b).
Proof.
  intros ((He&_)&_). unfold ensure_local. rewrite (M_bind_run _ _ b b b) by done. cbn in He. by rewrite He.
Qed.
Lemma sup_local : keeps sup_ok (Sup._local_daemon_running cwd) any.
Proof using All.
  assert (Hos : ∀ A (f : os → A), keeps sup_ok (on_os (gets f)) any) by (by intros A f [d o] H).
  assert (Hr : keeps sup_ok (on_os (reaches argv0)) any) by (intros s Hs; split; [|done];
    destruct (reaches_returns ssh_stays dirs_made connect_errors request_errors argv0 s Hs) as (x&s'&->&?); done).
  unfold Sup._local_daemon_running. eapply (keeps_bind _ _ _ any); [apply Hos|intros dir _].
  eapply (keeps_bind _ _ _ any); [apply keeps_gets_any|intros sock _]. case_match; [apply keeps_ret_any|].
  intros s Hs. split; [|done].
  destruct (reaches_returns ssh_stays dirs_made connect_errors request_errors (path_join dir "api.sock") s Hs) as (x&s'&->&?); done.
Qed.

Lemma calm_begin show b : calm b → loop_ok (bt_app (bt_am (_begin_connect show) b).2).
Proof.
  intros (Hok&Hs&Hr&Hb&Ha). destruct b as [a s o u l h]. cbn in *.
  destruct a. cbn in *. subst. destruct show; split; try done; cbn; lia.
Qed.

Lemma calm_first show b b' : calm b → first_window cwd argv0 show b = (Ok true, b') → loop_ok (bt_app b').
Proof using All.
  intros Hc. pose proof Hc as ((He&_)&_). cbn in He. unfold first_window.
  rewrite (M_bind_run _ _ b b b) by done. rewrite He.
  intros (conflict&b1&H1&H)%M_bind_Ok. apply (keeps_ok calm) in H1; [|apply calm_sup, sup_local|done].
  destruct conflict.
  - by apply M_bind_Ok in H as (?&?&_&H).
  - apply M_bind_Ok in H as ([]&b2&H2&H). injection H as <-. set (sh := show || _) in H2.
    pose proof (calm_begin sh b1 H1) as Hl. by rewrite H2 in Hl.
Qed.

Lemma add_sources_loop self b b' : loop_ok (bt_app b) → add_sources self b = (Ok tt, b') → loop_ok (bt_app b').
Proof using All.
  intros Hok H.
  assert (Hm : ∀ (m : AM unit) b, mon m → loop_ok (bt_app b) → loop_ok (bt_app (bt_am m b).2)).
  { intros m b0 Hm Hb. unfold bt_am. pose proof (Hm (bt_app b0) (lo_ok _ Hb)) as Hst.
    destruct (m (bt_app b0)) as [r a]. by eapply mstep_loop. }
  assert (Hadd : ∀ s, is_restart s = false → is_work s = false → is_retry s = false → mon (add_source s))
    by (intros; by apply mon_add).
  assert (keeps (λ b, loop_ok (bt_app b)) (add_sources self) any) as Hk; [|by apply (keeps_ok _ _ _ _ _ Hk Hok H)].
  assert (Hk : ∀ m : AM unit, mon m → keeps (λ b, loop_ok (bt_app b)) (bt_am m) any)
    by (intros m Hmm b0 Hb; split; [by apply Hm|done]).
  assert (Hlog : ∀ line, keeps (λ b, loop_ok (bt_app b)) (log line) any) by (intros; apply Hk, mon_log).
  unfold add_sources. eapply (keeps_bind _ _ _ any); [by apply keeps_modify|intros _ _].
  eapply (keeps_bind _ _ _ any); [apply Hk, mon_bind; [by apply Hadd|intros; by apply Hadd]|intros _ _].
  eapply (keeps_bind _ _ _ any); [apply keeps_gets_any|intros b1 _].
  eapply (keeps_bind _ _ _ any); [|intros _ _; apply Hlog].
  destruct (external (a_sup (bt_app b1))); [|apply keeps_ret_any].
  eapply (keeps_bind _ _ _ any); [|intros t _].
  - intros b0 Hb. split; [|done]. unfold bt_am. pose proof (mon_tunnel _ self_keeps (bt_app b0) (lo_ok _ Hb)) as Hst.
    destruct (tunnel self_ (bt_app b0)) as [r a]. by eapply mstep_loop.
  - eapply (keeps_bind _ _ _ any); [apply Hlog|intros _ _; by apply Hk, Hadd].
Qed.

(** C29: While [ssh] is installed and directories can be made, so that a restart
    does not raise: from a start with the daemon behind the tunnel that reaches
    its main loop, however the timers fire, the workers end, the user opens windows or
    quits, and time passes: a restart of the tunnel is pending exactly when
    one is under way and never two; the attempts to connect never overlap;
    and while the first connection is awaited, an attempt or its retry is
    pending. *)
Theorem remote_main_loop k show d o b ms :
  external d = true → is_Some (ds_tunnel d) → "ssh" ∈ o_bins o →
  _setup cwd argv0 k show (new_boot k d o) = (Ok None, b) →
  let a := run_moves cwd argv0 ms (bt_app b) in
  occ is_restart (a_sources a) = Nat.b2n (a_restarting a) ∧
  occ is_work (a_sources a) = Nat.b2n (a_connect_busy a) ∧
  (occ is_work (a_sources a) + occ is_retry (a_sources a) <= 1)%nat ∧
  (a_awaiting a = true → (occ is_work (a_sources a) + occ is_retry (a_sources a) = 1)%nat).
Proof using All.
  intros He Ht Hs (b1&b2&b3&b4&H1&H2&H3&H4&_&H5)%setup_steps a.
  assert (Hc : calm b1) by (eapply calm_acquire; [exact H1|by split_and!]).
  rewrite (calm_ensure (set_lock true b1) Hc) in H2. injection H2 as <-.
  apply (keeps_ok calm) in H3; [|apply calm_tray|exact Hc].
  assert (Hok : loop_ok a); [|by destruct Hok].
  apply (moves_loop ssh_stays dirs_made connect_errors request_errors cwd argv0). eapply add_sources_loop; [|exact H5].
  exact (calm_first _ _ _ H3 H4).
Qed.
End Remote.

(** ** Runs *)

Section Runs.
Local Existing Instances tun_json tun_daemon tun_env tun_env_laws.
Local Instance runs_nacl : NaCl := RefNaCl.
Local Instance runs_locale : Locale := {| strftime _ _ := "12:00" |}.

(** A desktop: an icon that a tray adopts or not, nobody holding the lock. *)
Definition a_desk (host locked : bool) : desk := Desk None host locked 42 (Ok tt) NoCache true [].

(** The preferences name a remote daemon. *)
Definition a_sup_remote : dsup :=
  DSup (Some (Remote "u@h" "/s" "/l")) (Some tun_sup) None "/a/daemon/api.sock" None.
Definition setup_of (k : desk) (show : bool) : result (option Z) * boot :=
  _setup "/" "aimless" k show (new_boot k a_sup_remote tun_os).

Example remote_main_loop_witness : ∃ b,
  setup_of (a_desk true false) true = (Ok None, b) ∧
  let a := run_moves "/" "aimless" [MFire ConnectWork; MOpen; MPass 7; MQuit] (bt_app b) in
  occ is_work (a_sources a) = Nat.b2n (a_connect_busy a).
Proof.
  eexists. split; [vm_compute; reflexivity|].
  destruct (remote_main_loop tun_ssh_stays tun_dirs_made tun_connect_errors tun_request_errors "/" "aimless"
    (a_desk true false) true a_sup_remote tun_os (setup_of (a_desk true false) true).2 [MFire ConnectWork; MOpen; MPass 7; MQuit]) as (_&H&_);
    [reflexivity|by eexists|by apply elem_of_singleton|vm_compute; reflexivity|exact H].
Defined.

Example setup_shows_witness : ∃ b,
  setup_of (a_desk true false) true = (Ok None, b) ∧
  bt_lock b = true ∧ shows_something b ∧ bt_handlers b = [SIGUSR1; SIGTERM; SIGINT] ∧
  Poll ∈ a_sources (bt_app b) ∧ Heartbeat ∈ a_sources (bt_app b).
Proof.
  eexists. split; [vm_compute; reflexivity|].
  apply (setup_shows "/" "aimless" (a_desk true false) true (new_boot (a_desk true false) a_sup_remote tun_os)).
  vm_compute. reflexivity.
Defined.

(** The lock's file names process 7, of this user. *)
Definition held_os : os :=
  Os (set_fs {["/a/run/app.pid" := File (utf8_encode "7") 384]} tun_world)
    {[7 := Proc "python3" ["aimless"] Running OurUser]} {["ssh"]} [] [].
Example second_instance_witness : ∃ b',
  _setup "/" "aimless" (a_desk true true) true (new_boot (a_desk true true) a_sup_remote held_os) = (Ok (Some 0), b') ∧
  o_signals (a_os (bt_app b')) = [(7, SIGUSR1)] ∧
  machine_only (new_boot (a_desk true true) a_sup_remote held_os) b'.
Proof.
  eexists. split; [vm_compute; reflexivity|]. split; [reflexivity|].
  eapply (second_instance "/" "aimless" (a_desk true true) true _ (Ok (Some 0)));
    [reflexivity|vm_compute; reflexivity].
Defined.

(** The handler of [SIGUSR1] answers [SOURCE_REMOVE]: the application shows
    its window for the first start of another instance, and has no handler
    for the second. *)
Example presented_once :
  let b := (setup_of (a_desk true false) true).2 in
  bt_handlers <$> deliver "/" "aimless" SIGUSR1 b = Some [SIGTERM; SIGINT] ∧
  (b1 ← deliver "/" "aimless" SIGUSR1 b; deliver "/" "aimless" SIGUSR1 b1) = None.
Proof. by vm_compute. Qed.

(** Without GTK, [aimless gui] explains and ends with 1; [aimless] alone,
    which it is said to be the same as, lets the exception out, and [aimless
    tray] does when GTK is there but not its introspection data. *)
Definition no_gtk (e : exn) : desk := Desk None false false 42 (Raise e) NoCache true [].
Definition a_session : Cli.session :=
  Session None (Store.Store empty_db [] 0 empty_db) (Client [] "" None) tun_os.
Definition ends (k : desk) (i : invocation) : result unit :=
  (main "/" "aimless" k "python3" (λ _, mret tt) [] i a_session).1.
Example without_gtk :
  ends (no_gtk (ImportError "No module named 'gi'")) Gui = Raise (SystemExit 1) ∧
  ends (no_gtk (ImportError "No module named 'gi'")) Bare = Raise (ImportError "No module named 'gi'") ∧
  ends (no_gtk (ValueError "Namespace Gtk not available")) Tray = Raise (ValueError "Namespace Gtk not available").
Proof. by vm_compute. Qed.

(** Every state the application gives the connect window has its texts. *)
Example connect_window_texts `{Markup} c host :
  Forall (λ st : string * string, is_Some (dict_get st.1 SSH_TEXT) ∧ is_Some (dict_get st.2 DAEMON_TEXT))
    [("connecting", "waiting"); ("connected", "unreachable"); ("failed", "waiting"); ("connected", "connected")] ∧
  update [("online", JStr c)] host "connected" "connected" =
    Ok (label_markup c ("●  ssh: connected (" +:+ host +:+ ")"), label_markup c "●  daemon: connected").
Proof. split; [by repeat constructor|done]. Qed.
End Runs.
