(* ===== verification/Dist.v ===== *)
(** * deploy/check_dist.py: the release gate

    The committed artifacts against the versions the sources name. git and the
    zip archive are interfaces. *)

From S2P Require Import Prelude PyStr Codec Json Sys.
From Stdlib Require Import Ascii.
Local Open Scope Z_scope.

(** ** Searching *)

Definition quote : ascii := "034".

(** The characters up to the first quote, and what follows from it on. *)
Fixpoint upto_quote (s : string) : string * string :=
  match s with
  | EmptyString => ("", "")
  | String a s' => if bool_decide (a = quote) then ("", s) else let '(v, rest) := upto_quote s' in (String a v, rest)
  end.
(** The group of the patterns: anything but quotes, at least one character, and
    a quote after it. *)
Definition quoted_here (s : string) : option string :=
  let '(v, rest) := upto_quote s in
  if bool_decide (v = "") || bool_decide (rest = "") then None else Some v.
Fixpoint after_prefix (p s : string) : option string :=
  match p, s with
  | EmptyString, _ => Some s
  | String a p, String b s => if bool_decide (a = b) then after_prefix p s else None
  | String _ _, EmptyString => None
  end.
(** [re.search] of what comes before the group, then the group: the leftmost
    match, its group. *)
Fixpoint search_quoted (before s : string) : option string :=
  match after_prefix before s ≫= quoted_here with
  | Some v => Some v
  | None => match s with EmptyString => None | String _ s => search_quoted before s end
  end.
(** [sub in blob] *)
Fixpoint blob_contains (sub blob : bytes) : bool :=
  bool_decide (sub `prefix_of` blob) || match blob with [] => false | _ :: blob => blob_contains sub blob end.

(** ** The gate *)

Section Gate.
Context `{D : Daemon}.
(** [git show HEAD:path], when it answers, and a member of a zip archive. *)
Context (git_show : string → option bytes) (zip_read : bytes → string → result bytes).
(** [ROOT] *)
Context (root : string).

Definition fail {A} (msg : string) : IO A := _ ← eprint ("FAIL: " +:+ msg); sys_exit 1.
Definition head_blob (path : string) : IO bytes :=
  match git_show path with Some blob => mret blob | None => fail (path +:+ " not committed to HEAD") end.

Definition client_mark : string := "__version__ = " +:+ String quote "".
Definition daemon_mark : string := "buildVersion = " +:+ String quote "aimlessd/".
Definition read_text (path : string) : IO string := b ← read_file path; lift (utf8_decode b).

Definition check_dist : IO unit :=
  src ← read_text (path_join root "client/aimless/__init__.py");
  let client_ver := search_quoted client_mark src in
  src ← read_text (path_join root "daemon/api.go");
  let daemon_ver := search_quoted daemon_mark src in
  match client_ver, daemon_ver with
  | Some client_ver, Some daemon_ver =>
    pyz ← head_blob "dist/aimless.pyz";
    init ← lift (zip_read pyz "aimless/__init__.py" ≫= utf8_decode);
    let pyz_ver := search_quoted client_mark init in
    if negb (bool_decide (pyz_ver = Some client_ver))
    then fail ("dist/aimless.pyz is " +:+ default "None" pyz_ver +:+ ", source is " +:+ client_ver
               +:+ " - rerun deploy/package.sh and commit")
    else
      bin ← head_blob "dist/aimlessd-linux-amd64";
      if negb (blob_contains (utf8_encode ("aimlessd/" +:+ daemon_ver)) bin)
      then fail ("dist/aimlessd-linux-amd64 is not " +:+ daemon_ver +:+ " - rerun deploy/package.sh and commit")
      else print ("OK: dist artifacts match source (client " +:+ client_ver +:+ ", daemon " +:+ daemon_ver +:+ ")")
  | _, _ => fail "could not parse source versions"
  end.
End Gate.

(** ** What passes *)

Lemma after_prefix_spec p s rest : after_prefix p s = Some rest ↔ s = p +:+ rest.
Proof.
  revert s. induction p as [|a p IH]; intros s; cbn [after_prefix].
  - rewrite str_app_nil_l. split; [by intros [= ->]|by intros ->].
  - destruct s as [|b s]; [done|]. rewrite str_app_cons. case_bool_decide as Hab.
    + subst b. rewrite IH. split; [by intros ->|by intros [= ->]].
    + split; [done|]. by intros [= <- _].
Qed.
Lemma upto_quote_spec s v rest : upto_quote s = (v, rest) → s = v +:+ rest ∧ str_mem quote v = false ∧
  (rest = "" ∨ ∃ rest', rest = String quote rest').
Proof.
  revert v rest. induction s as [|a s IH]; intros v rest; cbn [upto_quote].
  - intros [= <- <-]. by repeat split; left.
  - case_bool_decide as Ha.
    + intros [= <- <-]. subst a. repeat split. right. by exists s.
    + destruct (upto_quote s) as [v' r]. intros [= <- <-]. destruct (IH v' r eq_refl) as (->&Hv&Hr).
      repeat split; [|done]. cbn. rewrite bool_decide_eq_false_2 by congruence. exact Hv.
Qed.
Lemma upto_quote_app v rest : str_mem quote v = false → upto_quote (v +:+ String quote rest) = (v, String quote rest).
Proof.
  induction v as [|a v IH]; cbn [str_mem]; [done|].
  intros [Ha Hv]%orb_false_iff. rewrite str_app_cons. cbn [upto_quote].
  apply bool_decide_eq_false in Ha. rewrite IH by done. by rewrite bool_decide_eq_false_2.
Qed.

(** A version that can stand between quotes, and where it stands. *)
Definition is_version (v : string) : Prop := v ≠ "" ∧ str_mem quote v = false.
Definition names_version (before v s : string) : Prop :=
  ∃ pre post, s = pre +:+ before +:+ v +:+ String quote post.
Lemma quoted_here_spec s v : quoted_here s = Some v ↔ is_version v ∧ ∃ post, s = v +:+ String quote post.
Proof.
  unfold quoted_here. destruct (upto_quote s) as [v' rest] eqn:E. split.
  - destruct (bool_decide (v' = "")) eqn:Hv; [done|]. destruct (bool_decide (rest = "")) eqn:Hr; [done|].
    intros [= <-]. apply upto_quote_spec in E as (->&Hq&[->|[post ->]]); [done|].
    apply bool_decide_eq_false in Hv. split; [done|]. by exists post.
  - intros [[Hv Hq] [post ->]]. rewrite upto_quote_app in E by done. injection E as <- <-.
    rewrite !bool_decide_eq_false_2 by done. done.
Qed.
Lemma search_sound before s v : search_quoted before s = Some v → is_version v ∧ names_version before v s.
Proof.
  induction s as [|a s IH]; cbn [search_quoted].
  - destruct (after_prefix before "") as [r|] eqn:E; cbn; [|done].
    destruct (quoted_here r) as [v'|] eqn:Q; [|done]. intros [= <-].
    apply after_prefix_spec in E. apply quoted_here_spec in Q as [Hv [post ->]]. split; [done|].
    exists "", post. by rewrite str_app_nil_l.
  - destruct (after_prefix before (String a s) ≫= quoted_here) as [v'|] eqn:E.
    + intros [= <-]. apply bind_Some in E as (r&E%after_prefix_spec&[Hv [post ->]]%quoted_here_spec).
      split; [done|]. exists "", post. by rewrite str_app_nil_l.
    + intros (Hv&pre&post&->)%IH. split; [done|]. by exists (String a pre), post.
Qed.
Lemma search_complete before v s : is_version v → names_version before v s → search_quoted before s ≠ None.
Proof.
  intros Hv (pre&post&->). induction pre as [|a pre IH].
  - rewrite str_app_nil_l.
    assert (E : after_prefix before (before +:+ v +:+ String quote post) ≫= quoted_here = Some v).
    { rewrite (proj2 (after_prefix_spec _ _ _) eq_refl). apply quoted_here_spec. eauto. }
    destruct (before +:+ v +:+ String quote post) as [|b s]; cbn [search_quoted]; by rewrite E.
  - rewrite str_app_cons. cbn [search_quoted]. by destruct (after_prefix before _ ≫= quoted_here).
Qed.
Lemma blob_contains_spec sub blob : blob_contains sub blob = true ↔ ∃ pre post, blob = pre ++ sub ++ post.
Proof.
  split.
  - induction blob as [|b blob IH]; cbn [blob_contains]; rewrite orb_true_iff, bool_decide_eq_true.
    + intros [[post Hp]|]; [|done]. by exists [], post.
    + intros [[post Hp]|(pre&post&->)%IH]; [by exists [], post|by exists (b :: pre), post].
  - intros (pre&post&->). induction pre as [|b pre IH]; cbn [app blob_contains].
    + destruct (sub ++ post) eqn:E; cbn [blob_contains]; rewrite bool_decide_eq_true_2; try done; exists post; by rewrite E.
    + by rewrite IH, orb_true_r.
Qed.

Section GateProps.
Context `{D : Daemon}.
Context (git_show : string → option bytes) (zip_read : bytes → string → result bytes) (root : string).

Definition text_of (w : world) (path : string) : result string := fs_read (path_join root path) (w_fs w) ≫= utf8_decode.
Lemma read_text_run path w : read_text (path_join root path) w = (text_of w path, w).
Proof. unfold read_text, text_of, mbind, M_bind, read_file, lift. by destruct (fs_read _ _). Qed.

(** The gate lets a release through exactly when the version of the client's
    source is that of the package in the archive committed, and the bytes
    aimlessd/ and the version of the daemon's source are somewhere in the
    binary committed; where a source names no version, or an artifact is not
    committed, it does not. *)
Theorem gate_passes w :
  (check_dist git_show zip_read root w).1 = Ok tt ↔
  ∃ init api cv dv pyz packed bin,
    text_of w "client/aimless/__init__.py" = Ok init ∧ search_quoted client_mark init = Some cv ∧
    text_of w "daemon/api.go" = Ok api ∧ search_quoted daemon_mark api = Some dv ∧
    git_show "dist/aimless.pyz" = Some pyz ∧ zip_read pyz "aimless/__init__.py" ≫= utf8_decode = Ok packed ∧
    search_quoted client_mark packed = Some cv ∧
    git_show "dist/aimlessd-linux-amd64" = Some bin ∧
    ∃ pre post, bin = pre ++ utf8_encode ("aimlessd/" +:+ dv) ++ post.
Proof.
  split.
  - destruct (check_dist git_show zip_read root w) as [r w'] eqn:E. cbn. intros ->. unfold check_dist in E.
    apply M_bind_Ok in E as (init&w1&H1&E). rewrite read_text_run in H1. injection H1 as Hi <-.
    apply M_bind_Ok in E as (api&w2&H2&E). rewrite read_text_run in H2. injection H2 as Ha <-.
    destruct (search_quoted client_mark init) as [cv|] eqn:Hc; [|done].
    destruct (search_quoted daemon_mark api) as [dv|] eqn:Hd; [|done].
    apply M_bind_Ok in E as (pyz&w3&H3&E). unfold head_blob in H3.
    destruct (git_show "dist/aimless.pyz") as [pyz'|] eqn:Hz; [|done]. injection H3 as <- <-.
    apply M_bind_Ok in E as (packed&w4&H4&E). injection H4 as Hp <-.
    case_bool_decide as Hv; [|done]. cbn [negb] in E.
    apply M_bind_Ok in E as (bin&w5&H5&E). unfold head_blob in H5.
    destruct (git_show "dist/aimlessd-linux-amd64") as [bin'|] eqn:Hb; [|done]. injection H5 as <- <-.
    destruct (blob_contains _ bin') eqn:Hin; [|done]. apply blob_contains_spec in Hin.
    by exists init, api, cv, dv, pyz', packed, bin'.
  - intros (init&api&cv&dv&pyz&packed&bin&Hi&Hc&Ha&Hd&Hz&Hp&Hv&Hb&Hin). unfold check_dist.
    rewrite (M_bind_run _ _ w init w) by (by rewrite read_text_run, Hi).
    rewrite (M_bind_run _ _ w api w) by (by rewrite read_text_run, Ha). rewrite Hc, Hd.
    rewrite (M_bind_run _ _ w pyz w) by (unfold head_blob; by rewrite Hz).
    rewrite (M_bind_run _ _ w packed w) by (unfold lift; by rewrite Hp).
    rewrite Hv, bool_decide_eq_true_2 by done. cbn [negb].
    rewrite (M_bind_run _ _ w bin w) by (unfold head_blob; by rewrite Hb).
    apply blob_contains_spec in Hin. by rewrite Hin.
Qed.
End GateProps.

(** ** Runs *)

Section Runs.
Local Instance dist_daemon : Daemon := {|
  dstate := unit; d_connect _ _ := Ok tt; d_request _ _ d := (Ok JNull, d) |}.
Definition quoted (s : string) : string := String quote (s +:+ String quote "").
Definition dist_world (client daemon : string) : world :=
  World (<["/r/client/aimless/__init__.py" := File (utf8_encode ("__version__ = " +:+ quoted client)) 420]>
        {["/r/daemon/api.go" := File (utf8_encode ("const buildVersion = " +:+ quoted ("aimlessd/" +:+ daemon))) 420]})
    ∅ "/h" 0 0 [] [] [] tt.
Definition committed (client binary : string) (path : string) : option bytes :=
  if bool_decide (path = "dist/aimless.pyz") then Some (utf8_encode ("__version__ = " +:+ quoted client))
  else if bool_decide (path = "dist/aimlessd-linux-amd64") then Some (utf8_encode ("..aimlessd/" +:+ binary +:+ ".."))
  else None.
Definition whole_archive (z : bytes) (name : string) : result bytes := Ok z.

Example gate_runs :
  (w_out (check_dist (committed "0.9.7" "0.9.5") whole_archive "/r" (dist_world "0.9.7" "0.9.5")).2,
   w_err (check_dist (committed "0.9.6" "0.9.5") whole_archive "/r" (dist_world "0.9.7" "0.9.5")).2)
  = (["OK: dist artifacts match source (client 0.9.7, daemon 0.9.5)"],
     ["FAIL: dist/aimless.pyz is 0.9.6, source is 0.9.7 - rerun deploy/package.sh and commit"]).
Proof. vm_compute. reflexivity. Qed.
(** A binary of version 0.9.50 passes for 0.9.5. *)
Example gate_takes_longer_version :
  (check_dist (committed "0.9.7" "0.9.50") whole_archive "/r" (dist_world "0.9.7" "0.9.5")).1 = Ok tt.
Proof. vm_compute. reflexivity. Qed.
End Runs.
