(* ===== verification/Tether.v ===== *)
(** * tether_mock/tether_mock.py: the prototype

    A window with threads of messages kept in memory and its size in a file,
    and a daemon that holds the lock of its PID file and shows a tray icon. *)

From S2P Require Import Prelude PyStr Codec Json Sys Desktop.
From Stdlib Require Import Ascii.
Local Open Scope Z_scope.

(** ** The messages window *)

Section Window.
Context `{MU : Markup}.

(** A message: on the right side, its text, its time. *)
Definition message : Type := bool * string * string.
(** [thread["widgets"]] *)
Record widgets := Widgets { wd_title : string; wd_subtitle : string; wd_badge : option string }.
Record thread := Thread { t_name : string; t_preview : string; t_unread : Z; t_messages : list message; t_widgets : widgets }.
(** A thread of the demonstration, before it has a row. *)
Record demo := Demo { d_name : string; d_preview : string; d_unread : Z; d_messages : list message }.

Definition append_thread_row (d : demo) : thread :=
  Thread (d_name d) (d_preview d) (d_unread d) (d_messages d)
    (Widgets ("<b>" +:+ markup_escape_text (d_name d) +:+ "</b>") (d_preview d)
       (if 0 <? d_unread d then Some ("<b>" +:+ str_of_int (d_unread d) +:+ "</b>") else None)).

(** The threads in order, the one selected, what the conversation shows: its
    header and rows, a row being the side, the markup and the time. *)
Record window := Window {
  w_threads : list thread;
  w_selected : option nat;
  w_header : string;
  w_rows : list message;
  w_compose : string;
  w_compose_bar : bool;
}.
Definition append_message_row (m : message) : message := (m.1.1, markup_escape_text m.1.2, m.2).

Definition open_compose (w : window) : window :=
  Window (w_threads w) (w_selected w) (w_header w) (w_rows w) (w_compose w) true.
(** [self.compose_bar.hide()]: the Cancel button, and the window as it opens. *)
Definition hide_compose (w : window) : window :=
  Window (w_threads w) (w_selected w) (w_header w) (w_rows w) (w_compose w) false.
(** [row] is the index of the thread whose row it is. *)
Definition on_thread_selected (row : option nat) (w : window) : window :=
  match row with
  | None => Window (w_threads w) None (w_header w) (w_rows w) (w_compose w) (w_compose_bar w)
  | Some i =>
    match w_threads w !! i with
    | None => w
    | Some t =>
      let t := if 0 <? t_unread t
               then Thread (t_name t) (t_preview t) 0 (t_messages t)
                      (Widgets (wd_title (t_widgets t)) (wd_subtitle (t_widgets t)) None)
               else t in
      Window (<[i := t]> (w_threads w)) (Some i) ("<big><b>" +:+ markup_escape_text (t_name t) +:+ "</b></big>")
        (append_message_row <$> t_messages t) (w_compose w) (w_compose_bar w)
    end
  end.
Definition create_thread (w : window) : window :=
  let name := strip (w_compose w) in
  if bool_decide (name = "") then w
  else
    let t := append_thread_row (Demo name "" 0 []) in
    on_thread_selected (Some (length (w_threads w)))
      (Window (w_threads w ++ [t]) (w_selected w) (w_header w) (w_rows w) "" false).
Definition send_message (composed stamp : string) (w : window) : window * string :=
  match w_selected w with
  | None => (w, composed)
  | Some i =>
    let text := strip composed in
    if bool_decide (text = "") then (w, composed)
    else
      match w_threads w !! i with
      | None => (w, composed)
      | Some t =>
        let m := (true, text, stamp) in
        let t := Thread (t_name t) text (t_unread t) (t_messages t ++ [m])
                   (Widgets (wd_title (t_widgets t)) text (wd_badge (t_widgets t))) in
        (Window (<[i := t]> (w_threads w)) (Some i) (w_header w) (w_rows w ++ [append_message_row m])
           (w_compose w) (w_compose_bar w), "")
      end
  end.

Definition DEMO_THREADS : list demo :=
  [Demo "Johnny Appleseed" "Send me the link, I want it …" 2
     [(false, "Did the orchard photos come through?", "17:49");
      (true, "Yeah, all 40 of them. My phone tried to email them to me one at a time.", "17:52");
      (false, "That is the Apple way", "17:55");
      (true, "Dropped them on the Linux box straight from the phone instead. Took four seconds.", "17:58");
      (false, "Wait, you can do that now?", "21:17");
      (false, "Send me the link, I want it on mine tonight 🍎", "21:19")];
   Demo "274624" "Your verification code is 41…" 1 [];
   Demo "Mom" "Bring the pie 🥧" 1 [];
   Demo "Dana Chen" "Sure. I'll draft them tonight and …" 0 [];
   Demo "Sam Rivera" "Nice. Ping me when you're clos…" 0 []].

(** What the user does. *)
Inductive gesture := Clicks (row : option nat) | Names (name : string) | Creates | Writes (text stamp : string) | Composes | Cancels.
Definition on_gesture (w : window) (e : gesture) : window :=
  match e with
  | Clicks row => on_thread_selected row w
  | Names name => Window (w_threads w) (w_selected w) (w_header w) (w_rows w) name (w_compose_bar w)
  | Creates => create_thread w
  | Writes text stamp => (send_message text stamp w).1
  | Composes => open_compose w
  | Cancels => hide_compose w
  end.
(** [_select_demo_thread], once the main loop is idle. *)
Definition _select_demo_thread (w : window) : window :=
  match w_threads w with [] => w | _ => on_thread_selected (Some 0%nat) w end.
Definition messages_view (demo : bool) : window :=
  Window (append_thread_row <$> if demo then DEMO_THREADS else []) None "" [] "" false.
End Window.

(** ** The daemon *)

(** Files, the process that holds the lock of the PID file, the processes there
    are, the processes sent SIGTERM, what was printed and what was started. *)
Record machine := Machine {
  m_fs : fs;
  m_home : string;
  m_lock : option Z;
  m_alive : list Z;
  m_signals : list Z;
  m_out : list string;
  m_started : list (list string);
}.
Definition TM (A : Type) : Type := M machine A.
Definition on_files (f : fs → fs) : TM unit :=
  modify (λ m, Machine (f (m_fs m)) (m_home m) (m_lock m) (m_alive m) (m_signals m) (m_out m) (m_started m)).
Definition set_lock (l : option Z) : TM unit :=
  modify (λ m, Machine (m_fs m) (m_home m) l (m_alive m) (m_signals m) (m_out m) (m_started m)).
Definition say (s : string) : TM unit :=
  modify (λ m, Machine (m_fs m) (m_home m) (m_lock m) (m_alive m) (m_signals m) (s :: m_out m) (m_started m)).
Definition popen (args : list string) : TM unit :=
  modify (λ m, Machine (m_fs m) (m_home m) (m_lock m) (m_alive m) (m_signals m) (m_out m) (m_started m ++ [args])).
(** [open(path, "w")] and what is written to it. *)
Definition put (path : string) (data : bytes) : TM unit :=
  on_files (λ m, <[path := File data (match m !! path with Some f => f_mode f | None => 438 end)]> m).
(** [os.kill(pid, 0)] and [os.kill(pid, SIGTERM)] *)
Definition no_such_process : exn := OSError "[Errno 3] No such process".
Definition probe (pid : Z) : TM unit :=
  alive ← gets m_alive; if bool_decide (pid ∈ alive) then mret tt else raise no_such_process.
Definition terminate (pid : Z) : TM unit :=
  _ ← probe pid;
  modify (λ m, Machine (m_fs m) (m_home m) (m_lock m) (m_alive m) (m_signals m ++ [pid]) (m_out m) (m_started m)).

Definition CONFIG_DIR (home : string) : string := path_join home ".config/tether-mock".
Definition PID_FILE (home : string) : string := path_join (CONFIG_DIR home) "daemon.pid".
Definition PREFS_FILE (home : string) : string := path_join (CONFIG_DIR home) "gtk.json".

(** [int(f.read().strip())] of the PID file; [None]: it raised. *)
Definition pid_in (m : machine) : option Z :=
  match (b ← fs_read (PID_FILE (m_home m)) (m_fs m); t ← utf8_decode b; py_int (strip t)) with
  | Ok pid => Some pid
  | Raise _ => None
  end.
Definition read_pid : TM (option Z) := gets pid_in.

(** [open(PID_FILE, "a+")] creates the file; the lock is free or another's. *)
Definition touch_pid_file : TM unit :=
  home ← gets m_home; on_files (fs_append (PID_FILE home) []).
Definition check_daemon_running : TM (option Z) :=
  _ ← touch_pid_file;
  lock ← gets m_lock;
  match lock with
  | Some _ => pid ← read_pid; mret (Some (default (-1) pid))
  | None => mret None
  end.

(** ** The window, its preferences and its size *)

Section Ui.
Context `{MU : Markup} `{J : JsonCodec}.

Definition load_prefs : TM json :=
  home ← gets m_home;
  files ← gets m_fs;
  mret (match (b ← fs_read (PREFS_FILE home) files; json_loads_bytes b) with
        | Ok prefs => prefs
        | Raise _ => JObj []
        end).
Definition save_prefs (prefs : list (string * json)) : TM unit :=
  home ← gets m_home; put (PREFS_FILE home) (utf8_encode (json_dumps_indent (JObj prefs))).

(** [TetherWindow]: the messages, [self.prefs], the size, the page of the stack
    and whether the refresh button is visible. *)
Record ui := Ui {
  ui_view : window;
  ui_prefs : list (string * json);
  ui_size : Z * Z;
  ui_page : string;
  ui_refresh : bool;
}.
Definition ui_on (f : window → window) (u : ui) : ui :=
  Ui (f (ui_view u)) (ui_prefs u) (ui_size u) (ui_page u) (ui_refresh u).
(** [self.prefs.get(k, dflt)], where GTK wants an integer. *)
Definition size_pref (k : string) (dflt : Z) (prefs : json) : result Z :=
  o ← jget k prefs; of_option TypeError (json_int (default (JInt dflt) o)).

(** The window shows its first page, with the button. *)
Definition TetherWindow (demo : bool) : TM ui :=
  prefs ← load_prefs;
  width ← lift (size_pref "window_width" 1008 prefs);
  height ← lift (size_pref "window_height" 723 prefs);
  mret (Ui (messages_view demo) (match prefs with JObj d => d | _ => [] end) (width, height) "devices" true).
(** The page is changed: [stack.set_visible_child_name]; its notification. *)
Definition on_view_changed (u : ui) : ui :=
  Ui (ui_view u) (ui_prefs u) (ui_size u) (ui_page u) (bool_decide (ui_page u = "devices")).
Definition set_page (name : string) (u : ui) : ui :=
  if bool_decide (ui_page u = name) then u
  else on_view_changed (Ui (ui_view u) (ui_prefs u) (ui_size u) name (ui_refresh u)).
(** [run_ui], up to the main loop's first turn. *)
Definition run_ui (demo : bool) : TM ui :=
  win ← TetherWindow demo;
  let win := ui_on hide_compose (set_page "messages" win) in
  mret (if demo then ui_on _select_demo_thread win else win).
(** The keys: Control-N, and Control with 1, 2 and 3. *)
Definition on_new (u : ui) : ui := ui_on open_compose (set_page "messages" u).
Definition on_page_key (key : string) (u : ui) : ui :=
  match dict_get key [("1", "devices"); ("2", "messages"); ("3", "notifications")] with
  | Some v => set_page v u
  | None => u
  end.

Definition save_geometry (u : ui) : TM ui :=
  let prefs := dict_set "window_height" (JInt (ui_size u).2) (dict_set "window_width" (JInt (ui_size u).1) (ui_prefs u)) in
  _ ← save_prefs prefs;
  mret (Ui (ui_view u) prefs (ui_size u) (ui_page u) (ui_refresh u)).
(** Closing the window: asked to, then destroyed; the main loop is told to end. *)
Definition on_delete (u : ui) : TM (ui * bool) := u ← save_geometry u; mret (u, false).
Definition on_destroy (u : ui) : TM ui := save_geometry u.
Definition close_window (u : ui) : TM ui :=
  '(u, stays) ← on_delete u; if stays : bool then mret u else on_destroy u.
End Ui.

Section Programs.
Context `{MU : Markup} `{J : JsonCodec}.
(** [sys.executable], [SCRIPT], [os.path.abspath(__file__)] *)
Context (python script file : string).

Definition autostart_file (home : string) : string := path_join home ".config/autostart/tether-mock.desktop".
Definition desktop_entry : string :=
  join (chr 10)
    ["[Desktop Entry]"; "Type=Application"; "Name=Tether Daemon"; "Comment=Tether tray daemon";
     "Exec=" +:+ python +:+ " " +:+ file +:+ " --daemon"; "Icon=phone"; "Categories=Utility;";
     "X-GNOME-Autostart-enabled=true"; "X-XFCE-Autostart-Override=true"; "Hidden=false"; "NoDisplay=false"; ""].
Definition install_autostart : TM string :=
  home ← gets m_home;
  let path := autostart_file home in
  _ ← put path (utf8_encode desktop_entry);
  mret path.

Definition stop_daemon : TM unit :=
  pid ← read_pid;
  match pid with
  | None => say "Daemon is not running"
  | Some pid =>
    try_with is_os_error
      (_ ← terminate pid; say ("Sent SIGTERM to " +:+ str_of_int pid))
      (λ e, say ("Could not stop daemon: " +:+ exn_str e))
  end.
Definition launch_ui : TM unit := popen [python; script].
(** [spawn_tray]: the tray's program is given the PID file and the script. *)
Definition spawn_tray : TM unit := home ← gets m_home; popen [python; "-c"; PID_FILE home; script].

(** [run_daemon], up to the main loop, in the process [me]; whether it gets
    there. *)
Definition run_daemon (me : Z) : TM bool :=
  _ ← touch_pid_file;
  lock ← gets m_lock;
  match lock with
  | Some _ => _ ← say "[Tether daemon] Another daemon already holds the lock, exiting"; mret false
  | None =>
    _ ← set_lock (Some me);
    home ← gets m_home;
    _ ← put (PID_FILE home) (utf8_encode (str_of_int me));
    _ ← say ("[Tether daemon] PID " +:+ str_of_int me +:+ " - tray supervision active");
    _ ← spawn_tray;
    mret true
  end.
(** [cleanup]: closing the file gives the lock back; the file stays. *)
Definition cleanup : TM unit := _ ← say "[Tether daemon] Shutting down"; set_lock None.

(** The tray's program: its Stop item, and whether its heartbeat goes on. *)
Definition tray_stop : TM unit :=
  pid ← read_pid;
  match pid with
  | Some pid => if pid =? 0 then mret tt else try_with is_os_error (terminate pid) (λ _, mret tt)
  | None => mret tt
  end.
Definition _heartbeat : TM bool :=
  pid ← read_pid;
  match pid with
  | Some pid => try_with is_os_error (_ ← probe pid; mret true) (λ _, mret false)
  | None => mret false
  end.

(** [refresh_daemon_menu]: the two lines and which of the two entries can be
    chosen, that to stop and that to install. *)
Record menu := Menu { mn_daemon : string; mn_stop : bool; mn_autostart : string; mn_install : bool }.
Definition refresh_daemon_menu : TM menu :=
  pid ← check_daemon_running;
  home ← gets m_home;
  let running := match pid with Some pid => if pid =? 0 then None else Some pid | None => None end in
  '(line, stop) ← (match running with
    | Some pid => mret ("<span foreground='#a6e3a1'>✓  Daemon active  (PID " +:+ str_of_int pid +:+ ")</span>", true)
    | None =>
      _ ← popen [python; script; "--daemon"];
      mret ("<span foreground='#9aa0ad'>○  No daemon - launching one now…</span>", false)
    end);
  installed ← gets (λ m, fs_exists (autostart_file home) (m_fs m));
  mret (if installed : bool
        then Menu line stop "<span foreground='#94e2d5'>⚑  Autostart on login enabled</span>" false
        else Menu line stop "<span foreground='#9aa0ad'>  Not in XFCE autostart</span>" true).
Definition on_install_autostart (mn : menu) : TM menu :=
  path ← install_autostart;
  mret (if bool_decide (path = "") then mn
        else Menu (mn_daemon mn) (mn_stop mn)
               ("<span foreground='#a6e3a1'>✓  Autostart installed: " +:+ path +:+ "</span>") false).

(** *** Processes *)

(** What processes do: another one begins or ends (a number may come back), a
    daemon is started under a number that is free, is stopped by a signal; the window's menu opens; the
    program is started with arguments, or the tray's Stop is chosen. *)
Inductive process_event := Born (pid : Z) | Dies (pid : Z) | DaemonStarts (me : Z) | DaemonStops | MenuOpens | StopAsked | TrayStop.
Definition set_processes (alive : list Z) (lock : option Z) : TM unit :=
  modify (λ m, Machine (m_fs m) (m_home m) lock alive (m_signals m) (m_out m) (m_started m)).
(** A process that ends leaves no lock behind. *)
Definition ends (pid : Z) : TM unit :=
  alive ← gets m_alive; lock ← gets m_lock;
  set_processes (List.filter (λ p, negb (p =? pid)) alive) (if bool_decide (lock = Some pid) then None else lock).
Definition begins (pid : Z) : TM unit :=
  alive ← gets m_alive; lock ← gets m_lock;
  set_processes (if bool_decide (pid ∈ alive) then alive else pid :: alive) lock.
Definition on_process (e : process_event) : TM unit :=
  match e with
  | Born pid => begins pid
  | Dies pid => ends pid
  | DaemonStarts me =>
    alive ← gets m_alive;
    if bool_decide (me ∈ alive) then mret tt
    else _ ← begins me; goes ← run_daemon me; if goes : bool then mret tt else ends me
  | DaemonStops =>
    lock ← gets m_lock;
    match lock with Some p => _ ← cleanup; ends p | None => mret tt end
  | MenuOpens => _ ← refresh_daemon_menu; mret tt
  | StopAsked => stop_daemon
  | TrayStop => tray_stop
  end.

(** [main] *)
Inductive mode := Installed | Stopping | Daemonic | Windowed (demo : bool).
Definition mode_of (args : list string) : mode :=
  if bool_decide ("--install-autostart" ∈ args) then Installed
  else if bool_decide ("--stop" ∈ args) then Stopping
  else if bool_decide ("--daemon" ∈ args) then Daemonic
  else Windowed (bool_decide ("--demo" ∈ args)).
Definition main (me : Z) (args : list string) : TM unit :=
  match mode_of args with
  | Installed => path ← install_autostart; say ("Installed " +:+ path)
  | Stopping => stop_daemon
  | Daemonic => _ ← run_daemon me; mret tt
  | Windowed demo => _ ← run_ui demo; mret tt
  end.
End Programs.
