(* ===== verification/TetherProps.v ===== *)
(** * Properties of the prototype *)

From S2P Require Import Prelude PyStr Codec Json Sys Desktop Tether.
From Stdlib Require Import Ascii.
Local Open Scope Z_scope.

(** ** The window *)

Section Window.
Context `{MU : Markup}.

(** A row reads its thread. *)
Definition row_reads (t : thread) : Prop :=
  t_widgets t = Widgets ("<b>" +:+ markup_escape_text (t_name t) +:+ "</b>") (t_preview t)
    (if 0 <? t_unread t then Some ("<b>" +:+ str_of_int (t_unread t) +:+ "</b>") else None).
Record window_reads (w : window) : Prop := {
  wr_rows : Forall row_reads (w_threads w);
  wr_shown i : w_selected w = Some i → ∃ t, w_threads w !! i = Some t ∧
    w_rows w = append_message_row <$> t_messages t ∧
    w_header w = "<big><b>" +:+ markup_escape_text (t_name t) +:+ "</b></big>";
}.

Lemma append_thread_row_reads d : row_reads (append_thread_row d).
Proof. done. Qed.
Lemma select_reads row w : Forall row_reads (w_threads w) → window_reads w → window_reads (on_thread_selected row w).
Proof.
  intros Hr Hw. destruct row as [i|]; [|by split]. cbn. destruct (w_threads w !! i) as [t|] eqn:Hi; [|done].
  set (t' := if 0 <? t_unread t then _ else t).
  assert (Ht : row_reads t' ∧ t_messages t' = t_messages t ∧ t_name t' = t_name t).
  { pose proof (Forall_lookup_1 _ _ _ _ Hr Hi) as Ht. subst t'. destruct (0 <? t_unread t); [|done].
    unfold row_reads in *. cbn. by rewrite Ht. }
  destruct Ht as (Ht&_&_). split; cbn.
  - by apply Forall_insert.
  - intros j [= <-]. exists t'. rewrite list_lookup_insert_eq by (by eapply lookup_lt_Some). done.
Qed.

Lemma gesture_reads w e : window_reads w → window_reads (on_gesture w e).
Proof.
  intros Hw. pose proof (wr_rows _ Hw) as Hr. destruct e; cbn [on_gesture].
  - by apply select_reads.
  - destruct Hw. by split.
  - unfold create_thread. case_bool_decide; [done|].
    assert (Hr' : Forall row_reads (w_threads w ++ [append_thread_row (Demo (strip (w_compose w)) "" 0 [])])).
    { apply Forall_app. split; [done|]. by constructor. }
    apply select_reads; [done|]. split; cbn; [done|].
    intros i Hi. destruct (wr_shown _ Hw i Hi) as (t&Ht&?&?). exists t. by rewrite lookup_app_l_Some with (x := t).
  - unfold send_message. destruct (w_selected w) as [i|] eqn:Hi; [|done]. case_bool_decide; [done|].
    destruct (wr_shown _ Hw i Hi) as (t&Ht&Hrows&Hh). rewrite Ht. cbn.
    pose proof (Forall_lookup_1 _ _ _ _ Hr Ht) as Hrt. unfold row_reads in Hrt. split; cbn.
    + apply Forall_insert; [done|]. unfold row_reads. cbn. by rewrite Hrt.
    + intros j [= <-]. rewrite list_lookup_insert_eq by (by eapply lookup_lt_Some). eexists. split; [done|].
      cbn. by rewrite fmap_app, Hrows.
  - destruct Hw. by split.
  - destruct Hw. by split.
Qed.

(** Whatever is clicked, named and written, every row of the prototype's list
    reads the name, the preview and the unread count of its thread, and the
    conversation shows the messages of the thread selected. *)
Theorem tether_window demo es : window_reads (foldl on_gesture (messages_view demo) es).
Proof.
  assert (H : window_reads (messages_view demo)).
  { split; [|done]. cbn. apply Forall_fmap, Forall_true. intros d. done. }
  revert H. generalize (messages_view demo). induction es as [|e es IH]; intros w Hw; [done|]. by apply IH, gesture_reads.
Qed.
End Window.

(** ** The daemon *)

Section Daemon.
Context (python script : string).

(** The lock is held by a process there is, and the PID file names it. *)
Definition guarded (m : machine) : Prop :=
  ∀ p, m_lock m = Some p → p ∈ m_alive m ∧ pid_in m = Some p.

Lemma pid_in_written m me f :
  m_fs m !! PID_FILE (m_home m) = Some f → f_data f = utf8_encode (str_of_int me) → pid_in m = Some me.
Proof.
  intros Hm Hf. unfold pid_in, fs_read. rewrite Hm. cbn. rewrite Hf.
  destruct (numeral_chars (str_of_int me) (str_of_int_numeral me)) as [Ha Hs].
  rewrite utf8_decode_encode by (by apply ascii_is_str). cbn. by rewrite strip_plain, py_int_str_of_int.
Qed.
(** Touching the PID file changes nothing that it says. *)
Lemma touch_run m : ∃ m', touch_pid_file m = (Ok tt, m') ∧ pid_in m' = pid_in m ∧
  m_lock m' = m_lock m ∧ m_alive m' = m_alive m ∧ m_home m' = m_home m ∧ m_signals m' = m_signals m.
Proof.
  eexists. split; [reflexivity|]. cbn [m_lock m_alive m_home m_signals]. split_and!; try done.
  unfold pid_in, fs_read, fs_append. cbn [m_fs m_home].
  destruct (m_fs m !! PID_FILE (m_home m)) as [f|] eqn:Hf; rewrite lookup_insert_eq; cbn; [by rewrite app_nil_r|done].
Qed.

Lemma guarded_same m m' :
  m_lock m' = m_lock m → m_alive m' = m_alive m → pid_in m' = pid_in m → guarded m → guarded m'.
Proof. intros Hl Ha Hp Hm p. rewrite Hl, Ha, Hp. apply Hm. Qed.
Lemma guarded_say s : keeps guarded (say s) any.
Proof. apply keeps_modify. intros m. by apply guarded_same. Qed.
Lemma guarded_popen args : keeps guarded (popen args) any.
Proof. apply keeps_modify. intros m. by apply guarded_same. Qed.
Lemma guarded_terminate pid : keeps guarded (terminate pid) any.
Proof.
  unfold terminate, probe. eapply keeps_bind; [|intros _ _; apply keeps_modify; intros m; by apply guarded_same].
  eapply keeps_bind; [apply keeps_gets_any|intros alive _]. apply keeps_if; [apply keeps_ret_any|apply keeps_raise].
Qed.
Lemma guarded_touch : keeps guarded touch_pid_file any.
Proof. intros m Hm. destruct (touch_run m) as (m'&->&?&?&?&_). split; [by eapply guarded_same|done]. Qed.
Lemma guarded_ends pid m : (∀ p, m_lock m = Some p → p ≠ pid → p ∈ m_alive m ∧ pid_in m = Some p) → guarded (exec (ends pid) m).
Proof.
  intros Hm p. unfold exec, ends, set_processes, mbind, M_bind, gets, modify. cbn.
  case_bool_decide as Hl; [done|]. intros Hp.
  destruct (Hm p Hp) as [Ha Hf]; [congruence|]. split; [|exact Hf].
  apply list_elem_of_In, List.filter_In. split; [by apply list_elem_of_In|]. apply negb_true_iff, Z.eqb_neq. congruence.
Qed.
Lemma guarded_begins pid : keeps guarded (begins pid) any.
Proof.
  intros m Hm. split; [|done]. unfold begins, set_processes, mbind, M_bind, gets, modify. cbn.
  intros p Hp. destruct (Hm p Hp) as [Ha Hf]. split; [|exact Hf].
  cbn. case_bool_decide; [done|by right].
Qed.

(** A daemon that starts: it gets the lock, or leaves it where it is. *)
Lemma guarded_run me m :
  guarded m → me ∈ m_alive m →
  (∃ m', run_daemon python script me m = (Ok false, m') ∧ guarded m' ∧ m_lock m' = m_lock m ∧ m_lock m ≠ None) ∨
  (∃ m', run_daemon python script me m = (Ok true, m') ∧ guarded m' ∧ m_lock m' = Some me).
Proof.
  intros Hm Hme. unfold run_daemon. destruct (touch_run m) as (m1&E&Hp&Hl&Ha&Hh&_).
  rewrite (M_bind_run _ _ _ _ _ E), (M_bind_run _ _ m1 (m_lock m1) m1) by done.
  assert (H1 : guarded m1) by (by eapply guarded_same). rewrite Hl.
  destruct (m_lock m) as [p|] eqn:Hlock.
  - left. eexists. split; [reflexivity|]. split; [by eapply guarded_same; [..|exact H1]|]. by split.
  - right. eexists. split; [reflexivity|]. split; [|done]. intros p [= <-]. cbn. split; [by rewrite Ha|].
    eapply pid_in_written; [cbn; apply lookup_insert_eq|done].
Qed.

Lemma guarded_step e m : guarded m → guarded (exec (on_process python script e) m).
Proof.
  intros Hm. destruct e; cbn [on_process].
  - exact (proj1 (guarded_begins pid m Hm)).
  - apply guarded_ends. intros p Hp _. by apply Hm.
  - unfold exec. rewrite (M_bind_run _ _ m (m_alive m) m) by done. case_bool_decide as Hin; [done|].
    destruct (begins me m) as [r m1] eqn:E. assert (r = Ok tt) as -> by (by injection E as <- _).
    assert (H1 : guarded m1) by (pose proof (proj1 (guarded_begins me m Hm)) as H1; by rewrite E in H1).
    rewrite (M_bind_run _ _ _ _ _ E).
    assert (Hme : me ∈ m_alive m1) by (injection E as <-; cbn; rewrite bool_decide_eq_false_2 by done; left).
    destruct (guarded_run me m1 H1 Hme) as [(m2&E2&H2&Hl&_)|(m2&E2&H2&_)]; rewrite (M_bind_run _ _ _ _ _ E2).
    + apply guarded_ends. intros p Hp _. by apply H2.
    + done.
  - unfold exec. rewrite (M_bind_run _ _ m (m_lock m) m) by done. destruct (m_lock m) as [p|]; [|done].
    rewrite (M_bind_run _ _ m tt (exec cleanup m)) by done. by apply guarded_ends.
  - refine (proj1 ((_ : keeps guarded _ any) m Hm)). unfold refresh_daemon_menu, check_daemon_running, read_pid.
    repeat first [apply guarded_touch | apply guarded_popen | apply keeps_ret_any | apply keeps_gets_any
      | eapply keeps_bind; [|intros ? _] | match goal with |- keeps _ (match ?x with _ => _ end) _ => destruct x end].
  - refine (proj1 ((_ : keeps guarded _ any) m Hm)). unfold stop_daemon, read_pid.
    repeat first [apply guarded_terminate | apply guarded_say | apply keeps_gets_any | apply keeps_try; [|intros ?]
      | eapply keeps_bind; [|intros ? _] | match goal with |- keeps _ (match ?x with _ => _ end) _ => destruct x end].
  - refine (proj1 ((_ : keeps guarded _ any) m Hm)). unfold tray_stop, read_pid.
    repeat first [apply guarded_terminate | apply keeps_ret_any | apply keeps_gets_any | apply keeps_try; [|intros ?]
      | eapply keeps_bind; [|intros ? _] | match goal with |- keeps _ (match ?x with _ => _ end) _ => destruct x end].
Qed.

(** Whatever processes begin and end, however often the daemon is started and
    stopped and the menu opened: the lock has at most one holder, a daemon
    that runs; looking for it answers exactly that holder, or nothing; and
    while it runs, asking it to stop signals it and nothing else. *)
Theorem tether_one_daemon es m0 :
  m_lock m0 = None →
  let m := foldl (λ m e, exec (on_process python script e) m) m0 es in
  (∀ p, m_lock m = Some p → p ∈ m_alive m) ∧
  (check_daemon_running m).1 = Ok (m_lock m) ∧
  ∀ p, m_lock m = Some p → m_signals (exec stop_daemon m) = m_signals m ++ [p].
Proof.
  intros H0. assert (H : guarded (foldl (λ m e, exec (on_process python script e) m) m0 es)).
  { assert (Hm : guarded m0) by (intros p; by rewrite H0). clear H0. revert m0 Hm.
    induction es as [|e es IH]; intros m0 Hm; [done|]. by apply IH, guarded_step. }
  cbv zeta. set (m := foldl _ m0 es) in *. clearbody m. split; [intros p Hp; by apply H|]. split.
  - unfold check_daemon_running. destruct (touch_run m) as (m1&E&Hp&Hl&_).
    rewrite (M_bind_run _ _ _ _ _ E), (M_bind_run _ _ m1 (m_lock m1) m1) by done. rewrite Hl.
    destruct (m_lock m) as [p|] eqn:Hlock; [|done]. unfold read_pid, mbind, M_bind, gets. cbn.
    by rewrite Hp, (proj2 (H p Hlock)).
  - intros p Hp. destruct (H p Hp) as [Ha Hf]. unfold exec, stop_daemon, read_pid.
    rewrite (M_bind_run _ _ m (pid_in m) m) by done. rewrite Hf.
    unfold try_with, terminate, probe, mbind, M_bind, gets. cbn. by rewrite bool_decide_eq_true_2.
Qed.
End Daemon.

(** ** The size of the window *)

Section Size.
Context `{MU : Markup} `{J : JsonCodec} {JL : JsonLaws J}.

Lemma put_run path data m :
  ∃ m', put path data m = (Ok tt, m') ∧ m_home m' = m_home m ∧ fs_read path (m_fs m') = Ok data ∧
    ∀ p, p ≠ path → m_fs m' !! p = m_fs m !! p.
Proof.
  eexists. split; [reflexivity|]. split; [done|]. cbn [m_fs]. unfold fs_read. rewrite lookup_insert_eq.
  split; [done|]. intros p Hp. by rewrite lookup_insert_ne.
Qed.

(** The preferences a window of this size leaves. *)
Definition sized (u : ui) : list (string * json) :=
  dict_set "window_height" (JInt (ui_size u).2) (dict_set "window_width" (JInt (ui_size u).1) (ui_prefs u)).
Lemma sized_wf u : json_wf (JObj (ui_prefs u)) → json_wf (JObj (sized u)).
Proof. intros H. unfold sized. apply json_wf_set; [done|done|]. by apply json_wf_set. Qed.

Lemma ui_geometry_saved u m :
  json_wf (JObj (ui_prefs u)) →
  ∃ m', save_geometry u m = (Ok (Ui (ui_view u) (sized u) (ui_size u) (ui_page u) (ui_refresh u)), m') ∧
    load_prefs m' = (Ok (JObj (sized u)), m') ∧ m_home m' = m_home m ∧
    ∀ p, p ≠ PREFS_FILE (m_home m) → m_fs m' !! p = m_fs m !! p.
Proof.
  intros Hwf. destruct (put_run (PREFS_FILE (m_home m)) (utf8_encode (json_dumps_indent (JObj (sized u)))) m)
    as (m'&E&Hh&Hr&Ho).
  exists m'. split.
  { unfold save_geometry, save_prefs. fold (sized u).
    rewrite (M_bind_run _ _ m tt m'); [done|]. by rewrite (M_bind_run _ _ m (m_home m) m). }
  split; [|by split]. unfold load_prefs.
  rewrite (M_bind_run _ _ m' (m_home m') m'), (M_bind_run _ _ m' (m_fs m') m') by done.
  rewrite Hh, Hr. cbn [mbind result_bind]. by rewrite loads_bytes_indent by (by apply sized_wf).
Qed.

(** A window that is closed leaves its size: the next one opens with it, on
    the messages with nothing being composed, and every other preference is
    as it was; no other file is touched. *)
Theorem size_remembered demo u m :
  json_wf (JObj (ui_prefs u)) →
  ∃ u1 m1 u2, close_window u m = (Ok u1, m1) ∧ run_ui demo m1 = (Ok u2, m1) ∧
    ui_size u2 = ui_size u ∧ ui_page u2 = "messages" ∧ ui_refresh u2 = false ∧
    w_compose_bar (ui_view u2) = false ∧
    (∀ k, k ∉ ["window_width"; "window_height"] → dict_get k (ui_prefs u2) = dict_get k (ui_prefs u)) ∧
    ∀ p, p ≠ PREFS_FILE (m_home m) → m_fs m1 !! p = m_fs m !! p.
Proof.
  intros Hwf. destruct (ui_geometry_saved u m Hwf) as (m0&E0&_&Hh0&Ho0).
  set (u0 := Ui (ui_view u) (sized u) (ui_size u) (ui_page u) (ui_refresh u)) in *.
  destruct (ui_geometry_saved u0 m0 (sized_wf u Hwf)) as (m1&E1&Hl&Hh1&Ho1).
  set (u1 := Ui (ui_view u0) (sized u0) (ui_size u0) (ui_page u0) (ui_refresh u0)) in *.
  assert (Hg : ∀ k, dict_get k (sized u0) = if bool_decide (k = "window_height") then Some (JInt (ui_size u).2)
    else if bool_decide (k = "window_width") then Some (JInt (ui_size u).1) else dict_get k (ui_prefs u)).
  { intros k. unfold sized. cbn [ui_prefs ui_size u0]. unfold sized.
    destruct (decide (k = "window_height")) as [->|Hh]; [by rewrite dict_get_set_eq|].
    rewrite dict_get_set_ne, (bool_decide_eq_false_2 (k = "window_height")) by done.
    destruct (decide (k = "window_width")) as [->|Hw]; [by rewrite dict_get_set_eq|].
    rewrite bool_decide_eq_false_2 by done. by rewrite !dict_get_set_ne by done. }
  exists u1, m1. eexists. split.
  { unfold close_window, on_delete, on_destroy.
    rewrite (M_bind_run _ _ m (u0, false) m0); [done|]. by rewrite (M_bind_run _ _ m u0 m0). }
  split.
  { unfold run_ui. rewrite (M_bind_run _ _ m1 (Ui (messages_view demo) (sized u0) (ui_size u) "devices" true) m1).
    { reflexivity. }
    unfold TetherWindow. rewrite (M_bind_run _ _ m1 (JObj (sized u0)) m1) by done.
    rewrite (M_bind_run _ _ m1 (ui_size u).1 m1), (M_bind_run _ _ m1 (ui_size u).2 m1).
    - by destruct (ui_size u).
    - unfold lift, size_pref. cbn [jget mbind result_bind]. by rewrite Hg.
    - unfold lift, size_pref. cbn [jget mbind result_bind]. by rewrite Hg. }
  destruct demo; cbn; (split; [done|]); (split; [done|]); (split; [done|]); (split; [done|]); (split;
    [intros k Hk; rewrite Hg; by rewrite !bool_decide_eq_false_2 by set_solver
    |intros p Hp; rewrite Ho1 by (by rewrite Hh0); by apply Ho0]).
Qed.
End Size.

(** ** Evaluated instances *)

Section Runs.
Definition idle : machine := Machine ∅ "/h" None [] [] [] [].
Definition after (es : list process_event) : machine := foldl (λ m e, exec (on_process "python" "tether" e) m) idle es.
Example tether_one_daemon_witness :
  (check_daemon_running (after [DaemonStarts 7; DaemonStarts 8; MenuOpens])).1 = Ok (Some 7).
Proof. exact (proj1 (proj2 (tether_one_daemon "python" "tether" [DaemonStarts 7; DaemonStarts 8; MenuOpens] idle eq_refl))). Defined.

(** A daemon that was stopped leaves its number in the PID file: asked to
    stop again, the program signals the process that has it now. *)
Example stop_signals_other : m_signals (after [DaemonStarts 7; DaemonStops; Born 7; StopAsked]) = [7].
Proof. vm_compute. reflexivity. Qed.
End Runs.
