(* ===== verification/Smoke.v ===== *)
(** * deploy/smoke.py: the smoke test

    Two clients against two daemons on one network: a message delivered while
    both are up, two sent while one is stopped and replayed once it is back,
    the whole history, presence.  The daemons, their network and its clock are
    the interface [Nodes]; starting and stopping one are arguments of the
    scenario, as they are in the code.  [Section Modes] brings the daemons up,
    in containers or as processes of the host (the interface [Host]), and
    takes them down. *)

From S2P Require Import Prelude PyStr Codec Json Sys Crypto Protocol DaemonClient.
From Stdlib Require Import Ascii.
Local Open Scope Z_scope.

Class Nodes := {
  net : Type;
  n_clock : net → Z;                                    (* milliseconds *)
  n_pass : Z → net → net;                               (* so much later *)
  n_exists : string → net → bool;                       (* [os.path.exists] *)
  n_connect : string → net → result unit;
  n_request : string → string → list (string * json) → net → result json * net;
  n_event : string → net → option json * net;           (* [next_event(timeout=1.0)] *)
}.
(** Time passes, and never backwards. *)
Class NodesLaws (X : Nodes) : Prop := {
  pass_takes d w : 0 <= d → n_clock w + d <= n_clock (n_pass d w);
  request_takes sock op fields w : n_clock w <= n_clock (n_request sock op fields w).2;
}.

Section Smoke.
Context `{N : NaCl} `{J : JsonCodec} `{X : Nodes}.

(** The test's process: draws made, lines printed (last first), the network,
    the daemons started as processes, in order. *)
Record rig := Rig { r_rng : nat; r_out : list string; r_net : net; r_procs : list nat }.
Definition SM (A : Type) : Type := M rig A.
Definition say (line : string) : SM unit := modify (λ s, Rig (r_rng s) (line :: r_out s) (r_net s) (r_procs s)).
Definition on_net (f : net → net) : SM unit := modify (λ s, Rig (r_rng s) (r_out s) (f (r_net s)) (r_procs s)).
Definition time : SM Z := gets (λ s, n_clock (r_net s)).
Definition sleep (ms : Z) : SM unit := on_net (n_pass ms).
Definition assert (b : bool) (what : string) : SM unit := if b then mret tt else raise (AssertionError what).

(** The daemon behind a socket, and what a client does with it. *)
Definition node (sock : string) : Daemon := {|
  dstate := net; d_connect := n_connect; d_request := n_request sock |}.
Definition as_client {A} (sock : string) (c : client) (m : @CL (node sock) A) : SM (A * client) := λ s,
  let '(r, (c, w)) := m (c, @World (node sock) ∅ ∅ "" (n_clock (r_net s)) (r_rng s) [] [] [] (r_net s)) in
  ((λ a, (a, c)) <$> r, Rig (w_rng w) (r_out s) (w_daemon w) (r_procs s)).
(** The same, of an operation that leaves the client as it is. *)
Definition ask {A} (sock : string) (c : client) (m : @CL (node sock) A) : SM A := fst <$> as_client sock c m.
Definition connect (sock : string) : SM unit := λ s, (n_connect sock (r_net s), s).
(** [Client(DaemonClient(sock), crypto.new_identity(), screen)] *)
Definition new_client (sock screen : string) : SM client :=
  _ ← connect sock;
  identity ← ask sock (Client [] "" None) (io (D := node sock) (new_identity (D := node sock)));
  mret (Client identity screen None).

(** ** Waiting *)

(** [while time.time() < deadline]: the loop ends with an answer, or with what
    it last remembered; [fuel] bounds its turns. *)
Fixpoint until {A E} (fuel : nat) (deadline : Z) (turn : E → SM (A + E)) (e : E) : SM (A + E) :=
  match fuel with
  | O => raise (RuntimeError "out of fuel")
  | S fuel =>
    now ← time;
    if now <? deadline then
      r ← turn e;
      match r with inl a => mret (inl a) | inr e => until fuel deadline turn e end
    else mret (inr e)
  end.
(** Turns that sleep [step] at least, until [timeout] is over. *)
Definition waits {A E} (timeout step : Z) (turn : E → SM (A + E)) (e : E) : SM (A + E) :=
  now ← time; until (rounds timeout step) (now + timeout) turn e.

Definition wait_socket (path : string) (timeout : Z) : SM unit :=
  r ← waits timeout 250 (λ _ : unit,
    there ← gets (λ s, n_exists path (r_net s));
    if there : bool then _ ← sleep 1000; mret (inl tt) else _ ← sleep 250; mret (inr tt)) tt;
  match r with inl _ => mret tt | inr _ => raise (RuntimeError ("socket " +:+ path +:+ " never appeared")) end.

(** [last_err], as the message shows it. *)
Definition last_text (e : option exn) : string := match e with Some e => exn_str e | None => "None" end.
Definition wait_turn (fn : SM bool) (last_err : option exn) : SM (unit + option exn) :=
  r ← try_with is_exception (b ← fn; mret (if b : bool then inl tt else inr last_err)) (λ e, mret (inr (Some e)));
  match r with inl u => mret (inl u) | inr e => _ ← sleep 500; mret (inr e) end.
Definition wait_for (fn : SM bool) (what : string) (timeout : Z) : SM unit :=
  r ← waits timeout 500 (wait_turn fn) None;
  match r with
  | inl _ => mret tt
  | inr e => raise (AssertionError ("timeout: " +:+ what +:+ " (last: " +:+ last_text e +:+ ")"))
  end.

Definition next_event (sock : string) : SM (option json) := λ s,
  let '(ev, w) := n_event sock (r_net s) in (Ok ev, Rig (r_rng s) (r_out s) w (r_procs s)).
(** Other events are passed over, [patience] of them at most. *)
Definition recv_event (patience : nat) (sock : string) (timeout : Z) : SM json :=
  now ← time;
  r ← until patience (now + timeout) (λ _ : unit,
    ev ← next_event sock;
    match ev with
    | Some ev =>
      op ← lift (if truthy ev then jget "op" ev else Ok None);
      mret (if default false (json_is_str "recv" <$> op) then inl ev else inr tt)
    | None => mret (inr tt)
    end) tt;
  match r with inl ev => mret ev | inr _ => raise (AssertionError "no recv event") end.

Definition ready_turn (sock_path : string) (_ : unit) : SM (string + unit) :=
  try_with is_exception
    (_ ← connect sock_path;
     _ ← ask sock_path (Client [] "" None) (whoami (D := node sock_path));
     mret (inl sock_path))
    (λ _, _ ← sleep 500; mret (inr tt)).
Definition wait_b_ready (sock_path : string) (timeout : Z) : SM string :=
  r ← waits timeout 500 (ready_turn sock_path) tt;
  match r with inl p => mret p | inr _ => raise (RuntimeError "nodeb daemon never became ready") end.

(** ** The scenario *)

Context (sock_a sock_b : string) (stop_b start_b : SM unit) (wait_b_sock : SM string) (patience : nat).

Definition has_op (op : string) (r : json) : result bool := j ← jindex "op" r; Ok (json_is_str op j).
(** [protocol_open(client, payload)["text"]] *)
Definition text_of (c : client) (m : json) : result json :=
  payload ← jindex "payload" m ≫= as_str;
  opened ← open_message (cl_identity c) payload; jindex "text" (JObj opened).
(** [hist.get("msgs", [])] *)
Definition msgs_of (hist : json) : result (list json) := get_or "msgs" (JArr []) hist ≫= as_list.

Record cast := Cast { ca_alice : client; ca_bob : client; ca_a : string; ca_b : string }.
Definition sends (k : cast) (text : string) : SM json :=
  ts ← time;
  ask sock_a (ca_alice k) (send (D := node sock_a) (pubkey_hex (ca_bob k)) (ca_b k) text ts).

Definition setup : SM cast :=
  alice ← new_client sock_a "alice";
  bob ← new_client sock_b "bob";
  '(a_node, alice) ← as_client sock_a alice (node_key (D := node sock_a));
  '(b_node, bob) ← as_client sock_b bob (node_key (D := node sock_b));
  _ ← ask sock_a alice (add_contact (D := node sock_a) b_node);
  _ ← ask sock_b bob (add_contact (D := node sock_b) a_node);
  mret (Cast alice bob a_node b_node).

Definition online_delivery (k : cast) : SM unit :=
  r ← sends k "hello bob (online)";
  queued ← lift (has_op "queued" r);
  first ← lift (if queued : bool then json_is_int 1 <$> jindex "seq" r else Ok false);
  _ ← assert first (py_str r);
  ev ← recv_event patience sock_b 60000;
  opened ← lift (decrypt_recv (cl_identity (ca_bob k)) ev);
  text ← lift (jindex "text" (JObj opened));
  _ ← assert (json_is_str "hello bob (online)" text) (py_str (JObj opened));
  say "online delivery: OK".

Definition while_out (k : cast) (text : string) : SM unit :=
  r ← sends k text; queued ← lift (has_op "queued" r); assert queued (py_str r).
Definition OFFLINE_TEXTS : list string := ["while you were out #1"; "while you were out #2"].

(** The stream of [node] after [seq], as Bob's daemon tells it. *)
Definition stream (sock : string) (bob : client) (from : string) (seq : Z) : SM json :=
  ask sock bob (history (D := node sock) from seq).
Definition replayed (sock : string) (bob : client) (a_node : string) : SM bool :=
  hist ← stream sock bob a_node 1;
  seqs ← lift (msgs_of hist ≫= map_result (jindex "seq"));
  mret (match seqs with [x; y] => json_is_int 2 x && json_is_int 3 y | _ => false end).
Definition offline_delivery (k : cast) : SM (string * client) :=
  _ ← say "stopping nodeb (simulating offline) …";
  _ ← stop_b;
  _ ← sleep 1000;
  _ ← for_each (while_out k) OFFLINE_TEXTS;
  _ ← say "2 messages queued while B down";
  _ ← say "starting nodeb again …";
  _ ← start_b;
  sock_b2 ← wait_b_sock;
  _ ← connect sock_b2;
  let bob2 := Client (cl_identity (ca_bob k)) "bob" None in
  _ ← wait_for (replayed sock_b2 bob2 (ca_a k)) "offline replay of seqs 2,3" 60000;
  hist ← stream sock_b2 bob2 (ca_a k) 1;
  texts ← lift (msgs ← jindex "msgs" hist; l ← as_list msgs; map_result (text_of bob2) l);
  _ ← assert (bool_decide (texts = JStr <$> OFFLINE_TEXTS)) (py_str (JArr texts));
  _ ← say ("offline delivery: OK - " +:+ py_str (JArr texts));
  mret (sock_b2, bob2).

Definition full_history (sock : string) (bob : client) (a_node : string) : SM bool :=
  hist ← stream sock bob a_node 0; msgs ← lift (msgs_of hist); mret (bool_decide (length msgs = 3%nat)).
Definition online (sock : string) (bob : client) (a_node : string) : SM bool :=
  l ← ask sock bob (presence (D := node sock));
  lift (as_list l ≫= λ l,
    foldr (λ p r, key ← jindex "key" p;
                  up ← (if json_is_str a_node key then truthy <$> jindex "online" p else Ok false);
                  if up : bool then Ok true else r) (Ok false) l).
Definition history_and_presence (k : cast) (sock : string) (bob : client) : SM unit :=
  _ ← wait_for (full_history sock bob (ca_a k)) "history completeness" 60000;
  hist ← stream sock bob (ca_a k) 0;
  oldest ← lift (jindex "oldest" hist);
  whole ← lift (if json_is_int 1 oldest then json_is_int 3 <$> jindex "latest" hist else Ok false);
  _ ← assert whole (py_str hist);
  latest ← lift (jindex "latest" hist);
  _ ← say ("history replay: OK (seqs " +:+ py_str oldest +:+ ".." +:+ py_str latest +:+ ")");
  _ ← wait_for (online sock bob (ca_a k)) "presence" 60000;
  say "presence: OK".

Definition PASSED : string := "ALL SMOKE CHECKS PASSED".
Definition run_scenario : SM unit :=
  k ← setup;
  _ ← online_delivery k;
  '(sock, bob) ← offline_delivery k;
  _ ← history_and_presence k sock bob;
  say (String "010" PASSED).
End Smoke.

(** ** Bringing the daemons up and down *)

(** The host the test runs on.  A process is known by a number. *)
Class Host `{X : Nodes} := {
  h_rmtree : string → net → result unit * net;
  h_makedirs : string → net → result unit * net;
  h_chmod : string → Z → net → result unit * net;
  h_mkdtemp : string → string → net → result string * net;   (* prefix, directory *)
  h_which : string → net → option string;
  h_free_port : net → result Z * net;                        (* bound to port 0, closed again *)
  h_run : option string → list string → net → result unit * net; (* [subprocess.run(check=True)], [cwd] *)
  h_popen : list string → net → result nat * net;
  h_terminate : nat → net → net;
  h_wait : nat → Z → net → result unit * net;                (* [TimeoutExpired] is a [SubprocessError] *)
  h_kill : nat → net → net;
  h_over : nat → net → Prop;                                 (* it has ended, or has been sent SIGKILL *)
}.
(** A wait that returns has seen the process end, one that does not has timed
    out; nothing revives a process. *)
Class HostLaws `{X : Nodes} (H : Host) : Prop := {
  wait_over p ms w w' : h_wait p ms w = (Ok tt, w') → h_over p w';
  wait_error p ms w e w' : h_wait p ms w = (Raise e, w') → e = SubprocessError;
  kill_over p w : h_over p (h_kill p w);
  wait_keeps p q ms w : h_over q w → h_over q (h_wait p ms w).2;
  kill_keeps p q w : h_over q w → h_over q (h_kill p w);
  terminate_keeps p q w : h_over q w → h_over q (h_terminate p w);
}.

Section Modes.
Context `{N : NaCl} `{J : JsonCodec} `{X : Nodes} {H : Host}.
Context (HERE DAEMON : string) (patience : nat).

Definition SOCK_A : string := path_join (path_join HERE "data-a") "api.sock".
Definition SOCK_B : string := path_join (path_join HERE "data-b") "api.sock".
(** A call on the host. *)
Definition os {A} (f : net → result A * net) : SM A := λ s,
  let '(r, w) := f (r_net s) in (r, Rig (r_rng s) (r_out s) w (r_procs s)).
Definition sh (args : list string) : SM unit := os (h_run (Some HERE) args).
Definition docker_available : SM bool :=
  try_with is_os_or_subprocess (_ ← os (h_run None ["docker"; "info"]); mret true) (λ _, mret false).

Definition fresh_dir (d : string) : SM unit :=
  let p := path_join HERE d in
  there ← gets (λ s, n_exists p (r_net s));
  _ ← (if there : bool then os (h_rmtree p) else mret tt);
  _ ← os (h_makedirs p);
  os (h_chmod p 511).
Definition compose (command : list string) : SM unit := sh (["docker"; "compose"] ++ command).
Definition compose_mode : SM unit :=
  _ ← for_each fresh_dir ["data-a"; "data-b"];
  _ ← say "building + starting containers …";
  _ ← compose ["up"; "-d"; "--build"];
  try_finally
    (_ ← wait_socket SOCK_A 60000;
     _ ← wait_socket SOCK_B 60000;
     _ ← say "both daemons up";
     run_scenario SOCK_A SOCK_B (compose ["stop"; "nodeb"]) (compose ["start"; "nodeb"])
       (wait_b_ready SOCK_B 60000) patience)
    (_ ← compose ["down"; "-v"]; say "compose torn down").

Definition go_toolchain : SM (option string) :=
  gets (λ s, match h_which "go" (r_net s) with
             | Some "" | None => if n_exists "/tmp/opencode/golang/bin/go" (r_net s)
                                 then Some "/tmp/opencode/golang/bin/go" else None
             | Some go => Some go
             end).
Definition set_procs (l : list nat) : SM unit := modify (λ s, Rig (r_rng s) (r_out s) (r_net s) l).
Definition with_proc (i : nat) (f : nat → SM unit) : SM unit :=
  l ← gets r_procs; match l !! i with Some p => f p | None => raise IndexError end.
Definition terminate (p : nat) : SM unit := on_net (h_terminate p).
Definition kill (p : nat) : SM unit := on_net (h_kill p).
Definition wait_proc (p : nat) : SM unit := os (h_wait p 10000).
(** [procs.append(subprocess.Popen(...))], [procs[1] = subprocess.Popen(...)] *)
Definition start (args : list string) : SM unit :=
  p ← os (h_popen args); l ← gets r_procs; set_procs (l ++ [p]).
Definition start_b (args : list string) : SM unit :=
  p ← os (h_popen args); l ← gets r_procs;
  if (1 <? length l)%nat then set_procs (<[1%nat := p]> l) else raise IndexError.
Definition stop_b : SM unit :=
  _ ← with_proc 1 terminate; _ ← with_proc 1 wait_proc; sleep 500.
Definition reap (p : nat) : SM unit := try_with is_subprocess_error (wait_proc p) (λ _, kill p).
Definition take_down : SM unit :=
  l ← gets r_procs; _ ← for_each terminate l; for_each reap l.

Definition common : list string := ["-retry"; "500ms"; "-probe"; "500ms"].
(** The two daemons run and the test on them; they are taken down after it. *)
Definition on_daemons (sock_a sock_b : string) (args_b : list string) : SM unit :=
  try_finally
    (_ ← wait_socket sock_a 30000;
     _ ← wait_socket sock_b 30000;
     _ ← sleep 1500;
     _ ← say "both host daemons up";
     run_scenario sock_a sock_b stop_b (start_b args_b) (wait_b_ready sock_b 60000) patience)
    take_down.
Definition host_mode : SM unit :=
  go ← go_toolchain;
  match go with
  | None => _ ← say "host fallback needs a go toolchain"; raise (SystemExit 2)
  | Some go =>
    tmp ← os (h_mkdtemp "aimless-smoke-" "/tmp/opencode");
    let binpath := path_join tmp "aimlessd" in
    _ ← os (h_run (Some DAEMON) [go; "build"; "-o"; binpath; "."]);
    port ← os h_free_port;
    let dir_a := path_join tmp "a" in
    let dir_b := path_join tmp "b" in
    _ ← os (h_makedirs dir_a);
    _ ← os (h_makedirs dir_b);
    let sock_a := path_join dir_a "api.sock" in
    let sock_b := path_join dir_b "api.sock" in
    let link := "tcp://127.0.0.1:" +:+ pretty port in
    let args dir sock rest := [binpath; "-datadir"; dir; "-api"; sock; "-peers"] ++ rest ++ common in
    _ ← set_procs [];
    _ ← start (args dir_a sock_a ["none"; "-listen"; link]);
    _ ← start (args dir_b sock_b [link]);
    on_daemons sock_a sock_b (args dir_b sock_b [link])
  end.

Definition main : SM unit :=
  _ ← say "== aimless smoke ==";
  docker ← docker_available;
  _ ← (if docker : bool then compose_mode
       else _ ← say "docker unavailable - host-mode fallback (same scenario, local daemons)"; host_mode);
  say "done".
End Modes.
