(* ===== verification/SmokeProps.v ===== *)
(** * Properties of the smoke test

    Its waits end, with the answer or no earlier than their time; what has been
    seen when it says that all checks passed; the daemons it started are taken
    down however it ends; and, evaluated, a network it passes on and two it
    finds out. *)

From S2P Require Import Prelude PyStr Codec Json Sys Crypto Protocol DaemonClient Smoke.
From Stdlib Require Import Ascii.
Local Open Scope Z_scope.

Section Smoke.
Context `{N : NaCl} `{J : JsonCodec} `{X : Nodes} {XL : NodesLaws X}.

Definition clock (s : rig) : Z := n_clock (r_net s).

(** ** Waiting *)

(** A turn that gives no answer has slept. *)
Definition sleeps {A E} (step : Z) (turn : E → SM (A + E)) : Prop :=
  ∀ e s e' s', turn e s = (Ok (inr e'), s') → clock s + step <= clock s'.

(** How a loop of turns ends: with a turn's answer or its exception, or once
    its time is over. *)
Inductive ended {A E} (turn : E → SM (A + E)) (deadline : Z) : result (A + E) → rig → Prop :=
| answered e s a s' : turn e s = (Ok (inl a), s') → clock s < deadline → ended turn deadline (Ok (inl a)) s'
| failed e s x s' : turn e s = (Raise x, s') → ended turn deadline (Raise x) s'
| timed_out e s' : deadline <= clock s' → ended turn deadline (Ok (inr e)) s'.

Lemma until_ends {A E} (turn : E → SM (A + E)) step fuel deadline e s :
  0 < step → sleeps step turn → (1 <= fuel)%nat → deadline - clock s < step * (Z.of_nat fuel - 1) ∨ deadline <= clock s →
  ended turn deadline (until fuel deadline turn e s).1 (until fuel deadline turn e s).2.
Proof.
  intros Hstep Hturn. revert e s. induction fuel as [|fuel IH]; intros e s Hf Ht; [lia|]. cbn [until].
  rewrite (M_bind_run _ _ s (clock s) s) by done. destruct (Z.ltb_spec (clock s) deadline) as [Hl|Hl]; [|by constructor].
  destruct (turn e s) as [[[a|e']|x] s1] eqn:E1.
  - rewrite (M_bind_run _ _ _ _ _ E1). by eapply answered.
  - rewrite (M_bind_run _ _ _ _ _ E1). pose proof (Hturn _ _ _ _ E1). apply IH; [nia|].
    destruct (Z.le_gt_cases deadline (clock s1)); [by right|left; nia].
  - rewrite (M_bind_raise _ _ _ _ _ E1). by eapply failed.
Qed.
Lemma waits_ends {A E} (turn : E → SM (A + E)) timeout step e s :
  0 < step → 0 <= timeout → sleeps step turn →
  ended turn (clock s + timeout) (waits timeout step turn e s).1 (waits timeout step turn e s).2.
Proof.
  intros Hs Ht Hturn. unfold waits. rewrite (M_bind_run _ _ s (clock s) s) by done.
  apply (until_ends turn step); [done|done|unfold rounds; lia|]. left. pose proof (rounds_enough timeout step Hs Ht). lia.
Qed.

(** Programs that let the clock run. *)
Definition forward {A} (m : SM A) : Prop := ∀ s, clock s <= clock (m s).2.

Lemma wait_turn_sleeps fn : forward fn → sleeps 500 (wait_turn fn).
Proof.
  intros Hfn e s e' s' H. unfold wait_turn in H. apply M_bind_Ok in H as (r&s1&H1&H2).
  assert (Hc : clock s <= clock s1).
  { unfold try_with in H1. pose proof (Hfn s) as Hf. unfold mbind, M_bind in H1.
    destruct (fn s) as [[b|x] s2]; cbn in H1, Hf; [by injection H1 as _ <-|].
    destruct (is_exception x); [|done]. by injection H1 as _ <-. }
  destruct r as [u|e1]; [done|]. apply M_bind_Ok in H2 as (u&s2&H2&H3). injection H3 as _ <-.
  injection H2 as _ <-. pose proof (pass_takes 500 (r_net s1) ltac:(lia)). unfold clock in *. cbn. lia.
Qed.

(** A wait for a check that raises nothing worse than exceptions always ends:
    it returns when the check has just held, before its time was over, and
    fails with what the check last raised only after the whole of its time. *)
Theorem wait_for_spec fn what timeout s :
  0 <= timeout → forward fn → raises (λ e, is_exception e = true) fn →
  let '(r, s') := wait_for fn what timeout s in
  (r = Ok tt ∧ ∃ s0, fn s0 = (Ok true, s') ∧ clock s0 < clock s + timeout) ∨
  (∃ last, r = Raise (AssertionError ("timeout: " +:+ what +:+ " (last: " +:+ last +:+ ")")) ∧
     clock s + timeout <= clock s').
Proof.
  intros Ht Hfn Hexn. unfold wait_for.
  pose proof (waits_ends (wait_turn fn) timeout 500 None s ltac:(lia) Ht (wait_turn_sleeps fn Hfn)) as H.
  destruct (waits timeout 500 (wait_turn fn) None s) as [r s'] eqn:E. cbn [fst snd] in H.
  destruct H as [e s0 [] s' Hturn Hl|e s0 x s' Hturn|e s' Hl].
  - rewrite (M_bind_run _ _ _ _ _ E). left. split; [done|]. exists s0. split; [|done].
    unfold wait_turn, try_with, mbind, M_bind in Hturn. destruct (fn s0) as [[[]|x] s2]; cbn in Hturn.
    + by injection Hturn as <-.
    + done.
    + destruct (is_exception x); done.
  - exfalso. unfold wait_turn, try_with, mbind, M_bind in Hturn. pose proof (Hexn s0) as Hx.
    destruct (fn s0) as [[[]|y] s2]; cbn in Hturn, Hx; [done|done|]. by rewrite Hx in Hturn.
  - rewrite (M_bind_run _ _ _ _ _ E). right. exists (last_text e). by split.
Qed.

(** A turn of the wait for Bob's daemon: it has answered, or the turn has
    slept, or something worse than an exception is on its way. *)
Definition answers (sock : string) (s s' : rig) : Prop :=
  n_connect sock (r_net s) = Ok tt ∧ ∃ me, n_request sock "whoami" [] (r_net s) = (Ok me, r_net s').
Lemma ready_turn_run sock s :
  match ready_turn sock tt s with
  | (Ok (inl p), s') => p = sock ∧ answers sock s s'
  | (Ok (inr _), s') => clock s + 500 <= clock s'
  | (Raise e, _) => is_exception e = false
  end.
Proof.
  unfold answers, ready_turn, try_with, connect, ask, as_client, whoami, call, io, request, sleep, on_net, modify,
    clock, fmap, M_fmap, mbind, M_bind, mret, M_ret.
  destruct (n_connect sock (r_net s)) as [[]|x]; cbn.
  - pose proof (request_takes sock "whoami" [] (r_net s)) as Ht.
    destruct (n_request sock "whoami" [] (r_net s)) as [[j|x] w]; cbn in *; [by eauto|].
    destruct (is_exception x) eqn:Ex; cbn; [|done]. pose proof (pass_takes 500 w ltac:(lia)). lia.
  - destruct (is_exception x) eqn:Ex; cbn; [|done]. apply (pass_takes 500). lia.
Qed.
(** The wait returns the daemon's path only when it has just answered, and
    gives up only after the whole of its time. *)
Theorem wait_b_ready_spec sock timeout s :
  0 <= timeout →
  let '(r, s') := wait_b_ready sock timeout s in
  (r = Ok sock ∧ ∃ s0, answers sock s0 s' ∧ clock s0 < clock s + timeout) ∨
  (r = Raise (RuntimeError "nodeb daemon never became ready") ∧ clock s + timeout <= clock s') ∨
  (∃ e, r = Raise e ∧ is_exception e = false).
Proof.
  intros Ht. unfold wait_b_ready.
  assert (Hsl : sleeps 500 (ready_turn sock)).
  { intros [] s0 [] s1 H. pose proof (ready_turn_run sock s0) as Hr. by rewrite H in Hr. }
  pose proof (waits_ends (ready_turn sock) timeout 500 tt s ltac:(lia) Ht Hsl) as H.
  destruct (waits timeout 500 (ready_turn sock) tt s) as [r s'] eqn:E. cbn [fst snd] in H.
  destruct H as [[] s0 p s' Hturn Hl|[] s0 x s' Hturn|e s' Hl].
  - rewrite (M_bind_run _ _ _ _ _ E). left. pose proof (ready_turn_run sock s0) as Hr. rewrite Hturn in Hr.
    destruct Hr as [-> Ha]. split; [done|by exists s0].
  - rewrite (M_bind_raise _ _ _ _ _ E). do 2 right. pose proof (ready_turn_run sock s0) as Hr. rewrite Hturn in Hr. eauto.
  - rewrite (M_bind_run _ _ _ _ _ E). right; left. by split.
Qed.

(** ** The verdict *)

Lemma assert_Ok b what s s' : assert b what s = (Ok tt, s') → b = true ∧ s' = s.
Proof. unfold assert. destruct b; [by intros [= <-]|done]. Qed.
Lemma lift_Ok {A} (r : result A) (s : rig) a s' : lift r s = (Ok a, s') → r = Ok a ∧ s' = s.
Proof. unfold lift. by intros [= -> <-]. Qed.
Context (sock_a sock_b : string) (stop_b start_b : SM unit) (wait_b_sock : SM string) (patience : nat).

(** What the test has seen of Bob's daemon: an event that opens to the online
    text; after the restart, the stream after the first message opening to the
    two texts sent meanwhile; and the whole stream, numbered from 1 to 3. *)
Definition heard (k : cast) : Prop :=
  ∃ ev opened s s', recv_event patience sock_b 60000 s = (Ok ev, s') ∧
    decrypt_recv (cl_identity (ca_bob k)) ev = Ok opened ∧
    jindex "text" (JObj opened) = Ok (JStr "hello bob (online)").
Definition caught_up (k : cast) (sock : string) (bob : client) : Prop :=
  ∃ hist l s s', stream sock bob (ca_a k) 1 s = (Ok hist, s') ∧
    (msgs ← jindex "msgs" hist; as_list msgs) = Ok l ∧ map_result (text_of bob) l = Ok (JStr <$> OFFLINE_TEXTS).
Definition complete (k : cast) (sock : string) (bob : client) : Prop :=
  ∃ hist s s', stream sock bob (ca_a k) 0 s = (Ok hist, s') ∧
    json_is_int 1 <$> jindex "oldest" hist = Ok true ∧ json_is_int 3 <$> jindex "latest" hist = Ok true.

Lemma online_delivery_heard k s s' : online_delivery sock_a sock_b patience k s = (Ok tt, s') → heard k.
Proof.
  unfold online_delivery. intros (r&s1&_&H)%M_bind_Ok. apply M_bind_Ok in H as (queued&s2&_&H).
  apply M_bind_Ok in H as (first&s3&_&H). apply M_bind_Ok in H as ([]&s4&_&H).
  apply M_bind_Ok in H as (ev&s5&Hev&H). apply M_bind_Ok in H as (opened&s6&[Ho ->]%lift_Ok&H).
  apply M_bind_Ok in H as (text&s7&[Ht ->]%lift_Ok&H). apply M_bind_Ok in H as ([]&s8&[Hb ->]%assert_Ok&_).
  exists ev, opened, s4, s5. split; [done|]. split; [done|]. rewrite Ht. destruct text; try done.
  cbn in Hb. by apply bool_decide_eq_true in Hb as ->.
Qed.
Lemma offline_delivery_caught_up k s sock bob s' :
  offline_delivery sock_a stop_b start_b wait_b_sock k s = (Ok (sock, bob), s') →
  caught_up k sock bob ∧ bob = Client (cl_identity (ca_bob k)) "bob" None.
Proof.
  unfold offline_delivery. intros H.
  do 7 (apply M_bind_Ok in H as ([]&?&_&H)). apply M_bind_Ok in H as (sock2&s1&_&H).
  apply M_bind_Ok in H as ([]&s2&_&H). apply M_bind_Ok in H as ([]&s3&_&H).
  apply M_bind_Ok in H as (hist&s4&Hhist&H). apply M_bind_Ok in H as (texts&s5&[Ht ->]%lift_Ok&H).
  apply M_bind_Ok in H as ([]&s6&[Hb ->]%assert_Ok&H). apply bool_decide_eq_true in Hb as ->.
  apply M_bind_Ok in H as ([]&s7&_&H). injection H as <- <- _. apply bind_Ok in Ht as (msgs&Hm&Ht). apply bind_Ok in Ht as (l&Hl&Ht).
  split; [|done]. exists hist, l, s3, s4. split; [done|]. split; [|done]. by rewrite Hm.
Qed.
Lemma history_complete k sock bob s s' : history_and_presence k sock bob s = (Ok tt, s') → complete k sock bob.
Proof.
  unfold history_and_presence. intros ([]&s1&_&H)%M_bind_Ok. apply M_bind_Ok in H as (hist&s2&Hhist&H).
  apply M_bind_Ok in H as (oldest&s3&[Ho ->]%lift_Ok&H). apply M_bind_Ok in H as (whole&s4&[Hw ->]%lift_Ok&H).
  apply M_bind_Ok in H as ([]&s5&[-> ->]%assert_Ok&H). apply M_bind_Ok in H as (latest&s6&[Hl ->]%lift_Ok&_).
  exists hist, s1, s2. split; [done|]. rewrite Ho. cbn. by destruct (json_is_int 1 oldest).
Qed.

(** The test prints its verdict only when it has returned, and it returns only
    on the evidence: whatever the daemons and the two commands do, a scenario
    that ends without an exception has heard, caught up and seen it all. *)
Theorem scenario_passed s s' :
  run_scenario sock_a sock_b stop_b start_b wait_b_sock patience s = (Ok tt, s') →
  (∃ l, r_out s' = String "010" PASSED :: l) ∧
  ∃ k sock, let bob := Client (cl_identity (ca_bob k)) "bob" None in
    heard k ∧ caught_up k sock bob ∧ complete k sock bob.
Proof.
  unfold run_scenario. intros (k&s1&_&H)%M_bind_Ok. apply M_bind_Ok in H as ([]&s2&Hon&H).
  apply M_bind_Ok in H as ([sock bob]&s3&Hoff&H). apply M_bind_Ok in H as ([]&s4&Hhist&H).
  split; [injection H as <-; by eexists|].
  pose proof (offline_delivery_caught_up _ _ _ _ _ Hoff) as [Hc ->]. exists k, sock.
  split; [by eapply online_delivery_heard|]. split; [done|by eapply history_complete].
Qed.
End Smoke.

(** ** Taking the daemons down *)

Section Modes.
Context `{N : NaCl} `{J : JsonCodec} `{X : Nodes} {H : Host} {HL : HostLaws H}.

Definition all_over (l : list nat) (s : rig) : Prop := Forall (λ p, h_over p (r_net s)) l.

Lemma for_each_terminate l s :
  ∃ w, for_each terminate l s = (Ok tt, Rig (r_rng s) (r_out s) w (r_procs s)).
Proof.
  revert s; induction l as [|p l IH]; intros s; cbn [for_each]; [by exists (r_net s); destruct s|].
  rewrite (M_bind_run _ _ s tt (Rig (r_rng s) (r_out s) (h_terminate p (r_net s)) (r_procs s))) by done.
  destruct (IH (Rig (r_rng s) (r_out s) (h_terminate p (r_net s)) (r_procs s))) as [w ->]. by exists w.
Qed.
Lemma reap_run p s : ∃ w, reap p s = (Ok tt, Rig (r_rng s) (r_out s) w (r_procs s)) ∧
  h_over p w ∧ ∀ q, h_over q (r_net s) → h_over q w.
Proof.
  unfold reap, try_with, wait_proc, os. pose proof (λ q, wait_keeps p q 10000 (r_net s)) as Hk.
  destruct (h_wait p 10000 (r_net s)) as [[[]|e] w] eqn:E; cbn [snd] in Hk.
  - exists w. split; [done|]. split; [by eapply wait_over|done].
  - pose proof (wait_error _ _ _ _ _ E) as ->. cbn. exists (h_kill p w). split; [done|].
    split; [apply kill_over|]. intros q Hq. by apply kill_keeps, Hk.
Qed.
Lemma for_each_reap l s : ∃ w, for_each reap l s = (Ok tt, Rig (r_rng s) (r_out s) w (r_procs s)) ∧
  Forall (λ p, h_over p w) l ∧ ∀ q, h_over q (r_net s) → h_over q w.
Proof.
  revert s; induction l as [|p l IH]; intros s; cbn [for_each]; [by exists (r_net s); destruct s|].
  destruct (reap_run p s) as (w&E&Hp&Hq). rewrite (M_bind_run _ _ _ _ _ E).
  destruct (IH (Rig (r_rng s) (r_out s) w (r_procs s))) as (w'&->&Hl&Hq'). exists w'. cbn in *.
  split; [done|]. split; [by constructor; auto|auto].
Qed.

(** However the test goes, and whichever process stands for B at the end, the
    daemons started on the host are over when it returns or raises: each has
    ended, or has been killed; and what the test itself ended with is kept. *)
Theorem daemons_taken_down patience sock_a sock_b args_b s :
  let '(r, s') := on_daemons patience sock_a sock_b args_b s in
  all_over (r_procs s') s' ∧
  ∃ s1, (_ ← wait_socket sock_a 30000; _ ← wait_socket sock_b 30000; _ ← sleep 1500;
         _ ← say "both host daemons up";
         run_scenario sock_a sock_b stop_b (start_b args_b) (wait_b_ready sock_b 60000) patience) s = (r, s1) ∧
    r_procs s' = r_procs s1.
Proof.
  unfold on_daemons, try_finally. destruct ((_ ← wait_socket sock_a 30000; _) s) as [r s1].
  unfold take_down. rewrite (M_bind_run _ _ s1 (r_procs s1) s1) by done.
  destruct (for_each_terminate (r_procs s1) s1) as [w1 E1]. rewrite (M_bind_run _ _ _ _ _ E1).
  destruct (for_each_reap (r_procs s1) (Rig (r_rng s1) (r_out s1) w1 (r_procs s1))) as (w2&->&Hl&_).
  split; [done|]. by exists s1.
Qed.

(** Once the containers have been asked for, [docker compose down -v] is the
    last call on the host, whether the test passed or not. *)
Theorem compose_taken_down HERE patience s1 s2 s :
  for_each (fresh_dir HERE) ["data-a"; "data-b"] s = (Ok tt, s1) →
  (say "building + starting containers …";; compose HERE ["up"; "-d"; "--build"]) s1 = (Ok tt, s2) →
  ∃ w, r_net (compose_mode HERE patience s).2 =
    (h_run (Some HERE) ["docker"; "compose"; "down"; "-v"] w).2.
Proof.
  intros E1 E2. unfold compose_mode. rewrite (M_bind_run _ _ _ _ _ E1).
  apply M_bind_Ok in E2 as ([]&s3&E2&E3). rewrite (M_bind_run _ _ _ _ _ E2), (M_bind_run _ _ _ _ _ E3).
  unfold try_finally. destruct ((_ ← wait_socket _ _; _) s2) as [r s4]. exists (r_net s4).
  unfold compose, sh, os, say, modify, mbind, M_bind. cbn [app].
  by destruct (h_run (Some HERE) _ (r_net s4)) as [[[]|e] w].
Qed.
End Modes.

(** ** Evaluated networks *)

Section Networks.
Local Instance sm_json : JsonCodec := RefCodec.
Local Instance sm_nacl : NaCl := RefNaCl.

(** A network of the two daemons: what A has queued for B, oldest first, how
    much of it B has been given, whether B runs and since when, and the events
    its clients have yet to read.  A queue that [keeps] nothing hands over what
    is sent while B runs and forgets the rest. *)
Record rnet := Rnet {
  rn_clock : Z; rn_up : bool; rn_since : Z; rn_queue : list string; rn_given : nat; rn_events : list json; rn_keeps : bool }.
Definition rn_pass (d : Z) (w : rnet) : rnet :=
  Rnet (rn_clock w + d) (rn_up w) (rn_since w) (rn_queue w) (rn_given w) (rn_events w) (rn_keeps w).
Definition stopped (w : rnet) : rnet :=
  Rnet (rn_clock w) false (rn_since w) (rn_queue w) (rn_given w) (rn_events w) (rn_keeps w).
Definition started (w : rnet) : rnet :=
  Rnet (rn_clock w) true (rn_clock w) (rn_queue w) (rn_given w) [] (rn_keeps w).
(** The queue reaches a B that has been up for two seconds. *)
Definition flushed (w : rnet) : rnet :=
  if rn_up w && rn_keeps w && (rn_since w + 2000 <=? rn_clock w)
  then Rnet (rn_clock w) true (rn_since w) (rn_queue w) (length (rn_queue w)) (rn_events w) true else w.
Definition rn_send (payload : string) (w : rnet) : json * rnet :=
  let queue := rn_queue w ++ [payload] in
  let seq := JInt (Z.of_nat (length queue)) in
  let ev := JObj [("op", JStr "recv"); ("from", JStr "na"); ("payload", JStr payload); ("seq", seq)] in
  (JObj [("op", JStr "queued"); ("seq", seq)],
   Rnet (rn_clock w) (rn_up w) (rn_since w) queue (if rn_up w then length queue else rn_given w)
     (if rn_up w then rn_events w ++ [ev] else rn_events w) (rn_keeps w)).
Definition rn_history (after : nat) (w : rnet) : json :=
  let given := zip (seq 1 (rn_given w)) (take (rn_given w) (rn_queue w)) in
  JObj [("op", JStr "history");
        ("msgs", JArr ((λ np, JObj [("seq", JInt (Z.of_nat np.1)); ("payload", JStr np.2)])
                         <$> filter (λ np, (after < np.1)%nat) given));
        ("oldest", JInt 1); ("latest", JInt (Z.of_nat (rn_given w)))].
Definition rn_request (sock op : string) (fields : list (string * json)) (w : rnet) : result json * rnet :=
  let w := flushed (rn_pass 1 w) in
  if (sock =? "b")%string && negb (rn_up w) then (Raise (DaemonError "daemon unreachable"), w)
  else if (op =? "whoami")%string then (Ok (JObj [("key", JStr ("n" +:+ sock))]), w)
  else if (op =? "watch")%string then (Ok (JObj [("op", JStr "watching")]), w)
  else if (op =? "send")%string then
    match dict_get "payload" fields with
    | Some (JStr p) => let '(r, w) := rn_send p w in (Ok r, w)
    | _ => (Raise (DaemonError "bad send"), w)
    end
  else if (op =? "history")%string then
    (Ok (rn_history (match dict_get "seq" fields with Some (JInt n) => Z.to_nat n | _ => 0%nat end) w), w)
  else if (op =? "presence")%string then
    (Ok (JObj [("presence", JArr [JObj [("key", JStr "na"); ("online", JBool true)]])]), w)
  else (Raise (DaemonError "unknown op"), w).
Definition rn_event (sock : string) (w : rnet) : option json * rnet :=
  match rn_events w with
  | ev :: l => (Some ev, Rnet (rn_clock w) (rn_up w) (rn_since w) (rn_queue w) (rn_given w) l (rn_keeps w))
  | [] => (None, rn_pass 1000 w)
  end.
Local Instance sm_nodes : Nodes := {|
  net := rnet; n_clock := rn_clock; n_pass := rn_pass; n_exists _ _ := true; n_connect _ _ := Ok tt;
  n_request := rn_request; n_event := rn_event |}.

(** The scenario on such a network, with nothing printed yet. *)
Definition smoke (keeps : bool) : result unit * rig :=
  run_scenario "a" "b" (on_net stopped) (on_net started) (wait_b_ready "b" 60000) 100
    (Rig 0 [] (Rnet 5000 true 0 [] 0 [] keeps) []).

(** A daemon that keeps what it could not deliver passes; one that forgets it
    is found out, and so is one that does not come back. *)
Example smoke_passes : (smoke true).1 = Ok tt ∧
  take 3 (r_out (smoke true).2) = [String "010" PASSED; "presence: OK"; "history replay: OK (seqs 1..3)"].
Proof. by vm_compute. Qed.
Example smoke_finds_loss : (smoke false).1 = Raise (AssertionError "timeout: offline replay of seqs 2,3 (last: None)").
Proof. by vm_compute. Qed.
Example smoke_finds_absence :
  (run_scenario "a" "b" (on_net stopped) (mret tt) (wait_b_ready "b" 60000) 100
    (Rig 0 [] (Rnet 5000 true 0 [] 0 [] true) [])).1 = Raise (RuntimeError "nodeb daemon never became ready").
Proof. by vm_compute. Qed.
End Networks.
